(* ===== verification/_CoqProject ===== *)
-Q . S2P
Prelude.v
Cursor.v
MqttPacket.v
MqttCodec.v
MqttPublish.v
MqttConnect.v
MqttSubscribe.v
MqttRead.v
MqttNonblock.v
Platform.v
Heap.v
World.v
UtilQueue.v
Util.v
UtilUrl.v
Base64.v
ClientQueue.v
ClientInv.v
Sample.v
ClientRun.v
ClientNet.v
ClientCycle.v
ClientApi.v
ClientRetry.v
ClientWrite.v
ClientReceive.v
ClientRead.v
ClientCallback.v
ClientSafe.v
MainState.v
MainRun.v
MainFsm.v
MainInv.v
MainSample.v
MainTask.v
MainLive.v
HttpParse.v
HttpRequest.v
SetupRun.v
SetupSteps.v
SetupAnswer.v
SetupHttp.v
SetupSample.v
CapState.v
CapRun.v
CapMqtt.v
CapMemory.v
CapCommands.v
CapReport.v
CapEvents.v
CapMessages.v
CapNotify.v
CapHandle.v
CapRegister.v
CapSample.v
LogFile.v
LogRing.v
LogFlash.v
LogDump.v
LogDumpCopy.v
LogDumpSpec.v
LogFaults.v
LogSample.v
NvBase.v
NvStore.v
NvData.v
NvSpec.v
NvMap.v
NvPosix.v
NvPuts.v
NvGet.v
NvProv.v
NvLife.v
NvSample.v
NvFaults.v
NvEsp.v
