(* ===== verification/Prelude.v ===== *)
(** * SmartThings device SDK (C): a verification development

    A model of the core of the SDK under [src/src], and theorems that make it
    correct, or that show where it is not.  Functions, types and fields keep
    the names of the C code; a definition that is a part of a C function (the
    body of a loop, a case of a [switch]) has a name of its own.

    ** The program and its parts

    A device calls [st_conn_start] ([src/src/iot_main.c]).  From then on the
    device's main task serves a work queue ([src/src/iot_util.c]): commands
    that move the device through its states, from being set up by a phone
    ([src/src/easysetup]) over its registration to the connection with the
    server, and the events of its MQTT connections.  The connections are those
    of an MQTT client ([src/src/mqtt/client]) that writes and reads packets
    with a packet library ([src/src/mqtt/packet]), over a network port.

    ** Files

    - This file: outcomes of C code ([Ret], [Undef] for undefined behaviour,
      [Hang] for blocking, endless loops and lack of fuel), the state monad
      [st], machine integers, tactics and lemmas.
    - The packet library.  [Cursor]: a buffer with a pointer, where any access
      outside is undefined; [MqttPacket], [MqttPublish], [MqttConnect],
      [MqttSubscribe]: every serializer and deserializer of
      [src/src/mqtt/packet], with their round trips; [MqttCodec]: the wire
      format they are proved against; [MqttRead], [MqttNonblock]: reading from
      a transport, blocking or not.
    - [Platform]: the porting layer as a type class, with the laws that are
      relied on; [Heap]: heaps and linked lists; [World]: the objects of the
      client and of the queues.
    - Utilities.  [UtilQueue]: the work queue of [iot_util.c] and the removal
      of a client's work; [Util], [UtilUrl]: UUIDs, addresses, channels,
      back-off and URLs of [iot_util.c] and [iot_uuid.c]; [Base64]: the
      encodings of [security/iot_security_util.c].
    - The MQTT client ([src/src/mqtt/client/iot_mqtt_client.c]).
      [ClientQueue]: chunks and their three queues; [ClientInv]: the queues
      together; [ClientRun], [ClientCycle]: the engine, writing, reading,
      retries, keep-alive, callbacks; [ClientApi]: the functions of
      [iot_mqtt.h].  Theorems: [ClientNet], [ClientWrite], [ClientReceive],
      [ClientRead], [ClientRetry], [ClientCallback], and [ClientSafe], where
      the operations come together; [Sample]: a client to run them on.
    - The main task ([iot_main.c], a part of [iot_api.c], and the connections
      of [easysetup/iot_easysetup_st_mqtt.c]).  [MainState]: its data, and the
      layers below as the class [Device]; [MainRun]: its operations; [MainFsm]:
      state updates; [MainInv]: its invariant; [MainSample]: a device to run;
      [MainTask]: the service of its queue, starts and failures; [MainLive]:
      every operation returns.
    - The easy setup over HTTP ([easysetup/http]).  [HttpParse]: the parser of
      requests, with [strtok] on a buffer; [HttpRequest]: requests and what the
      parser makes of them; [SetupRun]: the steps of the setup, the responses,
      the connection, the task of the server and the confirmation by the user,
      on the state of the main task; [SetupSteps]: the order of the steps;
      [SetupAnswer]: the server together with the main task; [SetupHttp]: the
      bytes of a connection; [SetupSample]: a phone, for the witnesses.
    - The capabilities ([iot_capability.c]) and the callbacks of both MQTT
      connections ([easysetup/iot_easysetup_st_mqtt.c]).  [CapState]: their data,
      cJSON as the class [Json], and the blocks of memory that are allocated;
      [CapRun]: attributes, events, handles, notifications and commands;
      [CapMqtt]: what is done with a message; [CapMemory]: a logic of blocks
      ([owns]); [CapCommands], [CapReport]: the commands of a message;
      [CapEvents]: the events that are sent; [CapMessages]: a message from its
      bytes to the user; [CapNotify]: notifications; [CapHandle]: registered
      functions; [CapRegister]: the registration of the device; [CapSample]: trees
      and a device, for the witnesses.
    - The logs ([iot_log_file.c], [iot_dump_log.c]).  [LogFile]: the buffer in RAM,
      the file in flash memory, the task between them, and the handles;
      [LogRing]: the log in RAM; [LogFlash]: the file on a flash that works, which
      the class [Flash] describes; [LogDump]: the dump of a log; [LogDumpCopy],
      [LogDumpSpec]: what a dump contains, for any log with the interface
      [LogSource]; [LogFaults]: where the code goes wrong; [LogSample]: a small
      flash, for the witnesses.
    - The non-volatile data ([iot_nv_data.c]) and the storage below it
      ([src/src/security]).  [NvBase]: the objects, the file system of the board
      as the class [NvBelow], and the device information; [NvStore]: security
      contexts and the storage; [NvData]: the operations; [NvSpec]: what is
      relied on of a file system ([NvReads], [NvLaws]), and the storage in terms
      of its files; [NvMap]: the data as a map; [NvPosix]: the files of the port
      for POSIX over its system calls, which are such a file system; [NvPuts],
      [NvGet]: provisioning data as pieces of the map; [NvProv], [NvLife]: the
      provisioning data over failures and restarts; [NvSample], [NvFaults]: a
      simulated system, for the witnesses, and where the code goes wrong on it;
      [NvEsp]: the port for the ESP32 over its key-value store.

    ** How the state corresponds to the code

    A C function is a computation in [st] over the state it works on: a
    [cursor] for the packet library, a [world] with one heap for each type of
    object for the client and the queues, an [mworld] for the main task.  Out
    parameters are results; [goto] and early returns are conditionals.  One
    thread runs at a time: a mutex that is held blocks for ever, and other
    threads act between two operations, which the theorems about sequences of
    operations allow ([run_ops] of [ClientSafe], [run_main_ops] of [MainInv]).
    The server of the easy setup is a second task: where it waits (for an
    answer, for bytes, for the button) the parameter [others] runs, which
    stands for whatever the other tasks do meanwhile; the theorems say what
    they ask of it ([SetBack], [Answers], [Idle]).
    A [cworld] puts the capabilities on top of an [mworld]: handles by the blocks
    they lie in, the numbers of the blocks that are allocated, the calls of the
    user's functions and the texts that have been published.  The user's functions
    are a parameter, and numbers where they are stored; [Polite] says that they
    come back and register nothing.  A tree of cJSON is a value in one block, and
    an item that is put into an object gives up its block.
    An [lworld] is the context of the log, the open handles and a device; the
    device answers allocations and flash operations, with an error code.  A
    [dworld] adds the memory of a dump: its text and [temp_buf].  What
    [iot_log_file.c] reads into a buffer is a list of bytes.
    An [nvworld] has one heap for each type of object of the storage, the two
    variables of [iot_nv_data.c], and the system below, in which the files are;
    a restart is a world with the same files and other objects.
    In [MainState] the work queue is the list that [UtilQueue] proves it to be,
    and objects of which only the presence matters are booleans.

    ** What the theorems show

    - Packets: the serializers write the packets of the MQTT standard and stay
      within the buffer; the deserializers give the fields back; the readers
      take exactly one packet; the inputs on which the code reads or writes
      outside, or returns a wrong result.
    - Queues: the linked queues are lists, for every sequence of operations.
    - The engine of the client: what is written, read, tried again and told to
      the user, in each case; a publication is lost only where memory is denied;
      operations in any order do not get stuck, and keep the client proper, on a
      network that takes what it is given and brings whole, well-formed packets
      in order.  A connection that ends makes the read go on for ever.
    - The main task: the graph of its states, with what each edge does; an
      invariant of all reachable worlds; its queue is served in order and
      never left with work in it; every operation returns when memory is there
      for a registration and the MQTT client returns; and the failures that the
      code mishandles: a connection without a client, registrations
      that multiply, a null pointer, a string that is freed twice.
    - The easy setup: the steps are taken in order or refused, and a setup in
      order succeeds; a request is read and parsed as it was written, however
      the network cuts it, and its response is complete; the server keeps the
      invariant of the main task; and where the code goes wrong: bodies in
      several pieces, empty headers, a step that is not confirmed, a phone that
      confirms by leaving.
    - The capabilities: a command of the server reaches the functions registered
      for it, and an event the server, with all that it says; what is allocated
      on the way is given back; the limit of the rate is kept; a message that
      fails is known by its number; notifications and the registration reach the
      main task; and where the code goes wrong: texts without an end, a name
      without memory, an identifier that is too short.
    - Base64: both alphabets give back what they encode, whatever padding is left
      away; decoding stays within its buffer on every text.
    - The logs: what has been logged comes back, the last bytes of it, from RAM
      and from flash, across sectors and round the end of the file; the state of
      the log in RAM is well typed after a start, whatever the operations; a dump
      is header, state and the end of the log, in both modes, and in base64 up to
      the last group; and where the code goes wrong: positions modulo 2^32, one
      or two bytes for the last group of base64, a sync without a log, a flash
      that fails.
    - The non-volatile data, on files that behave as those of POSIX: reads, writes
      and removals are those of a map, whatever fails below, and leave no object
      behind while nothing fails; data for Wi-Fi that is stored is loaded again,
      and after failures it is the old data or the new, but for a piece that was
      to be erased; provisioning data exists from when it is set until it is
      erased, while nothing fails; and where the code goes wrong: files that get
      shorter, erasures and closings that fail, strings without an end, contexts
      that are lost, and a status that the ESP32 can never read.

    ** Bounds and fuel

    Integers are in [Z], with conversions written where the code converts.
    [char_signed] and [left_operand_first] stand for the choices that C leaves
    to the compiler; the theorems hold for both values or name the one.  The
    loops over a queue have as much fuel as it has elements; the network loops
    have a parameter [net_fuel], and the theorems ask for as much as there are
    bytes to send or to receive; the wait for an answer of the server has
    [wait_fuel], for which 50 is proved to be enough: the timer has 5 seconds
    and a round takes 100 milliseconds.  The server has fuel for the requests
    of a connection and for the pieces of one; a buffer's size is enough to
    read a head.  [LONG_MAX] is the largest [long].  [size_max] is the largest
    [size_t].  The loop of a dump has fuel; as much as there are bytes to dump,
    and one more, is enough, as each round reads one.

    ** What is not modelled

    - Third-party code, the ports to operating systems, drivers and mbedTLS, and
      root certificates: parameters, or data.
    - CBOR: the model is the JSON configuration.  Of the code that is mostly
      JSON: the device information and onboarding configuration and the messages
      of the easy setup; for the main task they are operations of the class
      [Device].  Its fields [iot_easysetup_init] and [iot_easysetup_deinit] stand
      for the functions of the same name, which [SetupRun] defines on the larger
      state; [st_mqtt_yield] for the callbacks that [CapMqtt] defines.
    - Memory that belongs to the context for ever, or to the main task, is not
      freed in the model of the capabilities.
    - Tokens, keys, signatures, ciphers and key agreement, which are calls of
      vendored libraries (TinyCBOR, mbedTLS, libsodium) with checks of their
      results; Bluetooth.  The board, MQTT port and time are the classes [Device]
      and [Platform]; of the ports only the file systems of POSIX and of the ESP32
      are modelled.  The JSON library, the system calls and the key-value store
      are parameters of the storage, and the device information is read from what
      the JSON library makes of it.
    - The main task and the store of non-volatile data are modelled apart: the
      calls of the store are operations of the class [Device].
    - In the log: the messages that the SDK logs while it works on the log, and
      the printing for debugging.
    - [st_conn_init], which allocates the context; reboots, after which the
      model goes on; the content of Wi-Fi and provisioning data that the main
      task only hands on. *)

From stdpp Require Export base numbers list list_numbers option gmap strings.
From Stdlib Require Export ZArith Lia.

#[export] Set Default Proof Using "Type".
#[global] Open Scope Z_scope.

(** ** Outcomes of a C computation

    [Ret] is a value; [Undef] is undefined behaviour (an access outside an
    object, a dangling or a null pointer); [Hang] is a computation that blocks
    or loops for ever, or that the fuel of the model does not cover. *)

Inductive outcome (A : Type) : Type :=
| Ret (a : A)
| Undef
| Hang.
Arguments Ret {A} a.
Arguments Undef {A}.
Arguments Hang {A}.

(** A stateful computation. *)
Definition st (S A : Type) : Type := S -> outcome (A * S).

#[export] Instance st_ret S : MRet (st S) := fun A a s => Ret (a, s).
#[export] Instance st_bind S : MBind (st S) := fun A B f m s =>
  match m s with
  | Ret (a, s') => f a s'
  | Undef => Undef
  | Hang => Hang
  end.

Definition undef {S A} : st S A := fun _ => Undef.
Definition hang {S A} : st S A := fun _ => Hang.
Definition gets {S A} (f : S -> A) : st S A := fun s => Ret (f s, s).
Definition modify {S} (f : S -> S) : st S unit := fun s => Ret (tt, f s).

(** A value that must be there: [None] is undefined behaviour. *)
Definition need {S A} (o : option A) : st S A :=
  match o with Some a => mret a | None => undef end.

(** [if (c) m]. *)
Definition when {S} (c : bool) (m : st S unit) : st S unit :=
  if c then m else mret tt.

Lemma bind_ret {S A B} (m : st S A) (f : A -> st S B) s a s' :
  m s = Ret (a, s') -> (m ≫= f) s = f a s'.
Proof. intros E. unfold mbind, st_bind. by rewrite E. Qed.

Lemma bind_inv {S A B} (m : st S A) (f : A -> st S B) s b s' :
  (m ≫= f) s = Ret (b, s') -> exists a s1, m s = Ret (a, s1) /\ f a s1 = Ret (b, s').
Proof.
  unfold mbind, st_bind. destruct (m s) as [[a s1]| |] eqn:E; naive_solver.
Qed.

Lemma bind_assoc {S A B C} (m : st S A) (f : A -> st S B) (g : B -> st S C) s :
  ((m ≫= f) ≫= g) s = (m ≫= fun a => f a ≫= g) s.
Proof. unfold mbind, st_bind. by destruct (m s) as [[a s']| |]. Qed.

Lemma bind_undef {S A B} (m : st S A) (f : A -> st S B) s :
  m s = Undef -> (m ≫= f) s = Undef.
Proof. intros E. unfold mbind, st_bind. by rewrite E. Qed.

Lemma bind_gets {S A B} (f : S -> A) (k : A -> st S B) s : (gets f ≫= k) s = k (f s) s.
Proof. done. Qed.

Lemma bind_mret {S A B} (a : A) (k : A -> st S B) s : (mret a ≫= k) s = k a s.
Proof. done. Qed.

(** [m] does not hang in [s], and [Q] holds of what it returns: undefined
    behaviour is not excluded. *)
Definition returns {S A} (m : st S A) (s : S) (Q : A -> S -> Prop) : Prop :=
  match m s with Ret (a, s') => Q a s' | Undef => True | Hang => False end.

Lemma returns_bind {S A B} (m : st S A) (f : A -> st S B) s P Q :
  returns m s P -> (forall a s', P a s' -> returns (f a) s' Q) -> returns (m ≫= f) s Q.
Proof.
  unfold returns, mbind, st_bind. intros Hm Hf.
  destruct (m s) as [[a s']| |]; [by apply Hf|done|done].
Qed.

Lemma returns_mono {S A} (m : st S A) s (P Q : A -> S -> Prop) :
  returns m s P -> (forall a s', P a s' -> Q a s') -> returns m s Q.
Proof. unfold returns. intros Hm HPQ. destruct (m s) as [[a s']| |]; auto. Qed.

Lemma returns_ret {S A} (a : A) (s : S) (Q : A -> S -> Prop) : Q a s -> returns (mret a) s Q.
Proof. done. Qed.

Lemma returns_need {S A} (o : option A) (s : S) :
  returns (need o) s (fun a s' => o = Some a /\ s' = s).
Proof. by destruct o. Qed.

(** [m] returns, and [Q] holds of what it returns. *)
Definition gives {S A} (m : st S A) (s : S) (Q : A -> S -> Prop) : Prop := exists a s', m s = Ret (a, s') /\ Q a s'.

Lemma gives_ret {S A} (a : A) (s : S) (Q : A -> S -> Prop) : Q a s -> gives (mret a) s Q.
Proof. intros HQ. by exists a, s. Qed.
Lemma gives_bind {S A B} (m : st S A) (f : A -> st S B) s Q :
  gives m s (fun a s' => gives (f a) s' Q) -> gives (m ≫= f) s Q.
Proof. intros (a & s' & E & b & s2 & E2 & HQ). exists b, s2. by rewrite (bind_ret _ _ _ _ _ E). Qed.
Lemma gives_mono {S A} (m : st S A) s (P Q : A -> S -> Prop) : gives m s P -> (forall a s', P a s' -> Q a s') -> gives m s Q.
Proof. intros (a & s' & E & HP) HPQ. exists a, s'. auto. Qed.
Lemma gives_need {S A} (o : option A) a (s : S) (Q : A -> S -> Prop) : o = Some a -> Q a s -> gives (need o) s Q.
Proof. intros -> HQ. by apply gives_ret. Qed.
Lemma gives_gets {S A} (f : S -> A) s (Q : A -> S -> Prop) : Q (f s) s -> gives (gets f) s Q.
Proof. intros HQ. by exists (f s), s. Qed.
Lemma gives_if {S A} (b : bool) (m k : st S A) s Q :
  (b = true -> gives m s Q) -> (b = false -> gives k s Q) -> gives (if b then m else k) s Q.
Proof. destruct b; auto. Qed.

(** ** Machine integers *)

(** Conversion to [unsigned char], [unsigned short], [unsigned int]. *)
Definition to_uchar (z : Z) : Z := z mod 256.
Definition to_ushort (z : Z) : Z := z mod 65536.
Definition to_uint (z : Z) : Z := z mod 4294967296.

(** Conversion to a 32-bit [int] (two's complement). *)
Definition to_int (z : Z) : Z :=
  let m := z mod 4294967296 in if m <? 2147483648 then m else m - 4294967296.

Definition int_max : Z := 2147483647.

(** Whether plain [char] is signed is the implementation's choice (it is on
    x86, it is not on Xtensa or ARM): every definition that converts a [char]
    to [int] depends on it. *)
Class CharModel := char_signed : bool.

(** The value of a [char] object that holds the byte [b]. *)
Definition char_val `{CharModel} (b : Z) : Z :=
  if char_signed && (128 <=? b) then b - 256 else b.

(** A list of bytes. *)
Definition is_byte (b : Z) : Prop := 0 <= b < 256.
Definition bytes (l : list Z) : Prop := Forall is_byte l.

Definition zlen {A} (l : list A) : Z := Z.of_nat (length l).

Lemma zlen_nonneg {A} (l : list A) : 0 <= zlen l.
Proof. unfold zlen; lia. Qed.
Lemma zlen_app {A} (l k : list A) : zlen (l ++ k) = zlen l + zlen k.
Proof. unfold zlen. rewrite length_app. lia. Qed.
Lemma zlen_cons {A} (x : A) l : zlen (x :: l) = 1 + zlen l.
Proof. unfold zlen. simpl length. lia. Qed.
Lemma zlen_nil {A} : zlen (@nil A) = 0.
Proof. reflexivity. Qed.

Create HintDb sdk.
Create Rewrite HintDb zlen.
Create Rewrite HintDb cursor.
#[export] Hint Rewrite @zlen_app @zlen_cons @zlen_nil : zlen.
#[export] Hint Resolve zlen_nonneg : sdk.

Lemma to_uchar_byte z : is_byte (to_uchar z).
Proof. apply Z.mod_pos_bound. lia. Qed.
Lemma to_uchar_id z : is_byte z -> to_uchar z = z.
Proof. intros. by apply Z.mod_small. Qed.
#[export] Hint Resolve to_uchar_byte : sdk.

(** Case analysis on the boolean test of a conditional of the goal. *)
Ltac case_if :=
  match goal with
  | |- context [if ?b then _ else _] => let E := fresh "E" in destruct b eqn:E
  end.

(** Booleans of the code read as propositions. *)
Ltac bool_to_prop :=
  repeat match goal with
  | H : (_ && _) = true |- _ => apply andb_true_iff in H; destruct H
  | H : (_ || _) = false |- _ => apply orb_false_iff in H; destruct H
  | H : (_ && _) = false |- _ => apply andb_false_iff in H
  | H : (_ || _) = true |- _ => apply orb_true_iff in H
  | H : negb _ = true |- _ => apply negb_true_iff in H
  | H : negb _ = false |- _ => apply negb_false_iff in H
  | H : (_ <? _) = true |- _ => apply Z.ltb_lt in H
  | H : (_ <? _) = false |- _ => apply Z.ltb_ge in H
  | H : (_ <=? _) = true |- _ => apply Z.leb_le in H
  | H : (_ <=? _) = false |- _ => apply Z.leb_gt in H
  | H : (_ =? _) = true |- _ => apply Z.eqb_eq in H
  | H : (_ =? _) = false |- _ => apply Z.eqb_neq in H
  end.

(** A finite check, used on the fields of a byte. *)
Lemma forallb_seqZ (P : Z -> bool) n x :
  forallb P (seqZ 0 n) = true -> 0 <= x < n -> P x = true.
Proof.
  rewrite forallb_forall. intros H Hx. apply H, list_elem_of_In, elem_of_seqZ. lia.
Qed.

(** ** Objects of bytes *)

(** The characters of a literal. *)
Definition lit (s : string) : list Z := (fun a => Z.of_N (Ascii.N_of_ascii a)) <$> String.list_ascii_of_string s.

(** [memcpy(dst + offset, src, size)]: the destination after it. *)
Definition copy_at {S} (dst : list Z) (offset : Z) (src : list Z) : st S (list Z) :=
  if (0 <=? offset) && (offset + zlen src <=? zlen dst) then
    mret (take (Z.to_nat offset) dst ++ src ++ drop (Z.to_nat offset + length src) dst)
  else undef.
(** The [size] bytes of an object from [offset] on. *)
Definition bytes_at {S} (src : list Z) (offset size : Z) : st S (list Z) :=
  if (0 <=? offset) && (0 <=? size) && (offset + size <=? zlen src) then
    mret (take (Z.to_nat size) (drop (Z.to_nat offset) src))
  else undef.

Lemma copy_at_in {S} dst offset src (s : S) : 0 <= offset -> offset + zlen src <= zlen dst ->
  copy_at dst offset src s = Ret (take (Z.to_nat offset) dst ++ src ++ drop (Z.to_nat offset + length src) dst, s).
Proof. intros H1 H2. unfold copy_at. by rewrite (proj2 (Z.leb_le 0 offset)), (proj2 (Z.leb_le _ (zlen dst))) by lia. Qed.
Lemma bytes_at_in {S} src offset size (s : S) : 0 <= offset -> 0 <= size -> offset + size <= zlen src ->
  bytes_at src offset size s = Ret (take (Z.to_nat size) (drop (Z.to_nat offset) src), s).
Proof.
  intros H1 H2 H3. unfold bytes_at.
  by rewrite (proj2 (Z.leb_le 0 offset)), (proj2 (Z.leb_le 0 size)), (proj2 (Z.leb_le _ (zlen src))) by lia.
Qed.

(** What [memcpy] makes of a buffer. *)
Definition overwrite (s : list Z) (o : Z) (data : list Z) : list Z :=
  take (Z.to_nat o) s ++ data ++ drop (Z.to_nat o + length data) s.
Lemma overwrite_length s o data : 0 <= o -> o + zlen data <= zlen s -> zlen (overwrite s o data) = zlen s.
Proof. intros Ho Hd. unfold overwrite, zlen in *. rewrite !length_app, length_take, length_drop. lia. Qed.
Lemma overwrite_nth s o data i : 0 <= o -> o + zlen data <= zlen s -> 0 <= i ->
  nth (Z.to_nat i) (overwrite s o data) 0 =
    if (o <=? i) && (i <? o + zlen data) then nth (Z.to_nat (i - o)) data 0 else nth (Z.to_nat i) s 0.
Proof.
  intros Ho Hd Hi. unfold overwrite, zlen in *.
  assert (length (take (Z.to_nat o) s) = Z.to_nat o) as Hl by (rewrite length_take; lia).
  destruct (Z.leb_spec o i); cbn [andb]; [destruct (Z.ltb_spec i (o + Z.of_nat (length data)))|].
  - rewrite app_nth2, app_nth1 by lia. f_equal. lia.
  - rewrite !app_nth2 by lia. rewrite !nth_lookup, lookup_drop. do 2 f_equal. lia.
  - rewrite app_nth1 by lia. rewrite !nth_lookup. by rewrite lookup_take_lt by lia.
Qed.

Lemma bind_copy_at {S B} s o data (k : list Z -> st S B) w : 0 <= o -> o + zlen data <= zlen s ->
  (copy_at s o data ≫= k) w = k (overwrite s o data) w.
Proof. intros Ho Hd. by rewrite (bind_ret _ _ _ _ _ (copy_at_in s o data w Ho Hd)). Qed.
Lemma bind_bytes_at {S B} s o n (k : list Z -> st S B) w : 0 <= o -> 0 <= n -> o + n <= zlen s ->
  (bytes_at s o n ≫= k) w = k (take (Z.to_nat n) (drop (Z.to_nat o) s)) w.
Proof. intros Ho Hn Hs. by rewrite (bind_ret _ _ _ _ _ (bytes_at_in s o n w Ho Hn Hs)). Qed.

(** ** Filters *)

Lemma filter_app_cons {A} (p : A -> Prop) `{forall x, Decision (p x)} l1 a l2 :
  filter p (l1 ++ a :: l2) = filter p l1 ++ (if decide (p a) then [a] else []) ++ filter p l2.
Proof. rewrite filter_app, filter_cons. by case_decide. Qed.

Lemma filter_none {A} (p : A -> Prop) `{forall x, Decision (p x)} (l : list A) :
  (forall x, x ∈ l -> ~ p x) -> filter p l = [].
Proof.
  induction l as [|x l IH]; intros Hl; [done|].
  rewrite filter_cons_False by (apply Hl; left). apply IH. intros y Hy. apply Hl. by right.
Qed.

Lemma filter_all {A} (p : A -> Prop) `{forall x, Decision (p x)} (l : list A) :
  (forall x, x ∈ l -> p x) -> filter p l = l.
Proof.
  induction l as [|x l IH]; intros Hl; [done|].
  rewrite filter_cons_True by (apply Hl; left). f_equal. apply IH. intros y Hy. apply Hl. by right.
Qed.

Lemma filter_ext_in {A} (p q : A -> Prop) `{forall x, Decision (p x)} `{forall x, Decision (q x)} (l : list A) :
  (forall x, x ∈ l -> p x <-> q x) -> filter p l = filter q l.
Proof.
  induction l as [|x l IH]; intros Hl; [done|].
  rewrite !filter_cons, IH by (intros y Hy; apply Hl; by right).
  specialize (Hl x ltac:(left)). repeat case_decide; tauto || done.
Qed.

(** Lengths of concatenations. *)
Ltac simpl_length :=
  repeat first [rewrite length_app | progress (cbn [length app])].
