(* ===== verification/Cursor.v ===== *)
(** * A buffer and a pointer into it

    The packet library reads and writes a caller's buffer through a pointer
    that the helpers advance ([unsigned char **pptr]).  The state of such a
    function is the buffer and the pointer's offset; an access outside the
    buffer is undefined behaviour.  [emits] and [reads_at] say that a
    computation writes, or reads, exactly a given byte string: they compose
    along [≫=], and the serializers and deserializers are proved with them. *)

From S2P Require Import Prelude.

Record cursor := Cursor { cmem : list Z; cptr : nat }.

Definition load (a : nat) : st cursor Z := fun c =>
  match cmem c !! a with Some b => Ret (b, c) | None => Undef end.

Definition store (a : nat) (v : Z) : st cursor unit := fun c =>
  if decide (a < length (cmem c))%nat
  then Ret (tt, Cursor (<[a := to_uchar v]> (cmem c)) (cptr c))
  else Undef.

Definition getptr : st cursor nat := gets cptr.
Definition setptr (p : nat) : st cursor unit := modify (fun c => Cursor (cmem c) p).

(** [ptr += n]. *)
Definition advance (n : Z) : st cursor unit :=
  p ← getptr; setptr (Z.to_nat (Z.of_nat p + n)).

(** [memcpy(dst, src, n)] where [src] stands for the [n] bytes copied. *)
Definition memcpy_at (a : nat) (src : list Z) : st cursor unit := fun c =>
  if decide (a + length src <= length (cmem c))%nat
  then Ret (tt, Cursor (take a (cmem c) ++ src ++
                        drop (a + length src) (cmem c)) (cptr c))
  else Undef.

(** [memcpy( *pptr, src, n)]: the pointer stays. *)
Definition memcpy_here (src : list Z) : st cursor unit := p ← getptr; memcpy_at p src.

Lemma bind_getptr {B} (f : nat -> st cursor B) mem p :
  (getptr ≫= f) (Cursor mem p) = f p (Cursor mem p).
Proof. done. Qed.
Lemma bind_setptr {B} (f : unit -> st cursor B) mem p q :
  (setptr q ≫= f) (Cursor mem p) = f tt (Cursor mem q).
Proof. done. Qed.
Lemma bind_advance {B} (f : unit -> st cursor B) mem p n :
  (advance n ≫= f) (Cursor mem p) = f tt (Cursor mem (Z.to_nat (Z.of_nat p + n))).
Proof. done. Qed.
Lemma run_advance mem p n :
  advance n (Cursor mem p) = Ret (tt, Cursor mem (Z.to_nat (Z.of_nat p + n))).
Proof. done. Qed.
Lemma run_setptr mem p q : setptr q (Cursor mem p) = Ret (tt, Cursor mem q).
Proof. done. Qed.
#[export] Hint Rewrite @bind_getptr @bind_setptr @bind_advance run_advance run_setptr : cursor.

(** The buffer [mem] with [bs] written at offset [p]. *)
Definition put (mem : list Z) (p : nat) (bs : list Z) : list Z :=
  take p mem ++ bs ++ drop (p + length bs) mem.

Lemma length_put mem p bs :
  (p + length bs <= length mem)%nat -> length (put mem p bs) = length mem.
Proof.
  intros H. unfold put. rewrite !length_app, length_take, length_drop. lia.
Qed.

Lemma put_nil mem p : put mem p [] = mem.
Proof. unfold put. simpl. by rewrite Nat.add_0_r, take_drop. Qed.

Lemma put_put mem p b1 b2 :
  (p + length b1 + length b2 <= length mem)%nat ->
  put (put mem p b1) (p + length b1) b2 = put mem p (b1 ++ b2).
Proof.
  intros H. unfold put.
  rewrite (app_assoc (take p mem)).
  rewrite take_app_length' by (rewrite length_app, length_take; lia).
  rewrite <- !app_assoc. do 3 f_equal.
  rewrite (app_assoc (take p mem)), drop_app_ge
    by (rewrite length_app, length_take; lia).
  rewrite drop_drop. f_equal. rewrite !length_app, length_take. lia.
Qed.

Lemma take_put mem p bs :
  (p + length bs <= length mem)%nat -> take (p + length bs) (put mem p bs) = take p mem ++ bs.
Proof.
  intros H. unfold put. rewrite app_assoc.
  apply take_app_length'. rewrite length_app, length_take. lia.
Qed.

Lemma insert_put (mem : list Z) p b :
  (p < length mem)%nat -> <[p := b]> mem = put mem p [b].
Proof.
  intros H. unfold put. rewrite insert_take_drop by lia. simpl.
  by rewrite Nat.add_1_r.
Qed.

Section emits.

(** [m], run with the pointer at offset [p], writes [bs] there, leaves the
  pointer behind it and returns [a]. *)
Definition emits_at {A} (p : nat) (m : st cursor A) (bs : list Z) (a : A) : Prop :=
forall mem, (p + length bs <= length mem)%nat ->
  m (Cursor mem p) = Ret (a, Cursor (put mem p bs) (p + length bs)).

(** Wherever the pointer is. *)
Definition emits {A} (m : st cursor A) (bs : list Z) (a : A) : Prop :=
forall p, emits_at p m bs a.

Lemma emits_at_ret {A} p (a : A) : emits_at p (mret a) [] a.
Proof. intros mem _. by rewrite put_nil, Nat.add_0_r. Qed.

Lemma emits_ret {A} (a : A) : emits (mret a) [] a.
Proof. intros p. apply emits_at_ret. Qed.

Lemma emits_at_bind {A B} p (m : st cursor A) (f : A -> st cursor B) b1 b2 a b :
emits_at p m b1 a -> emits_at (p + length b1) (f a) b2 b -> emits_at p (m ≫= f) (b1 ++ b2) b.
Proof.
intros Hm Hf mem Hle. rewrite length_app in Hle.
rewrite (bind_ret _ _ _ _ _ (Hm mem ltac:(lia))).
rewrite Hf by (rewrite length_put; lia).
rewrite put_put by lia. by rewrite length_app, Nat.add_assoc.
Qed.

Lemma emits_bind {A B} (m : st cursor A) (f : A -> st cursor B) b1 b2 a b :
emits m b1 a -> emits (f a) b2 b -> emits (m ≫= f) (b1 ++ b2) b.
Proof. intros Hm Hf p. eapply emits_at_bind; [apply Hm|apply Hf]. Qed.

Lemma emits_at_bind_nil {A B} p (m : st cursor A) (f : A -> st cursor B) b1 a b :
emits_at p m b1 a -> emits_at (p + length b1) (f a) [] b -> emits_at p (m ≫= f) b1 b.
Proof. intros. rewrite <- (app_nil_r b1). by eapply emits_at_bind. Qed.

Lemma emits_at_getptr {B} p (k : nat -> st cursor B) bs b :
emits_at p (k p) bs b -> emits_at p (getptr ≫= k) bs b.
Proof. intros H mem Hle. by apply H. Qed.

(** [rc = ptr - buf] at the end of a serializer. *)
Lemma emits_at_rc p q v :
v = Z.of_nat q - Z.of_nat p ->
emits_at q (ptr ← getptr; mret (Z.of_nat ptr - Z.of_nat p)) [] v.
Proof. intros ->. apply emits_at_getptr, emits_at_ret. Qed.

End emits.

Section reads.

(** [m], run with the pointer at offset [p] in front of [bs], returns [a] and
  leaves the pointer behind [bs]; the buffer stays. *)
Definition reads_at {A} (p : nat) (m : st cursor A) (bs : list Z) (a : A) : Prop :=
forall pre post, length pre = p ->
  m (Cursor (pre ++ bs ++ post) p) = Ret (a, Cursor (pre ++ bs ++ post) (p + length bs)).

Lemma reads_ret {A} p (a : A) : reads_at p (mret a) [] a.
Proof. intros pre post <-. simpl. by rewrite Nat.add_0_r. Qed.

Lemma reads_bind {A B} p (m : st cursor A) (f : A -> st cursor B) b1 b2 a b :
reads_at p m b1 a -> reads_at (p + length b1) (f a) b2 b ->
reads_at p (m ≫= f) (b1 ++ b2) b.
Proof.
intros Hm Hf pre post Hp. rewrite <- app_assoc.
rewrite (bind_ret _ _ _ _ _ (Hm pre (b2 ++ post) Hp)).
specialize (Hf (pre ++ b1) post ltac:(rewrite length_app; lia)).
rewrite <- app_assoc in Hf. rewrite Hf.
by rewrite length_app, Nat.add_assoc.
Qed.

Lemma reads_bind_nil {A B} p (m : st cursor A) (f : A -> st cursor B) b1 a b :
reads_at p m b1 a -> reads_at (p + length b1) (f a) [] b ->
reads_at p (m ≫= f) b1 b.
Proof. intros. rewrite <- (app_nil_r b1). by eapply reads_bind. Qed.

End reads.

Section reads_in.
Context (mem : list Z).

(** The bytes [bs] are in the buffer at offset [p]. *)
Definition has_at (p : nat) (bs : list Z) : Prop :=
  exists pre post, mem = pre ++ bs ++ post /\ length pre = p.

(** Reading in the fixed buffer [mem], with a postcondition on the result. *)
Definition reads_in {A} (p : nat) (m : st cursor A) (bs : list Z) (Q : A -> Prop) : Prop :=
  has_at p bs -> exists a, m (Cursor mem p) = Ret (a, Cursor mem (p + length bs)) /\ Q a.

Lemma has_at_app p b1 b2 :
  has_at p (b1 ++ b2) -> has_at p b1 /\ has_at (p + length b1) b2.
Proof.
  intros (pre & post & E & Hp). split.
  - exists pre, (b2 ++ post). by rewrite E, <- app_assoc.
  - exists (pre ++ b1), post. rewrite E, <- !app_assoc, length_app. split; [done|lia].
Qed.

Lemma reads_in_bind {A B} p (m : st cursor A) (f : A -> st cursor B) b1 b2 Q1 Q2 :
  reads_in p m b1 Q1 ->
  (forall a, Q1 a -> reads_in (p + length b1) (f a) b2 Q2) ->
  reads_in p (m ≫= f) (b1 ++ b2) Q2.
Proof.
  intros Hm Hf Hat. apply has_at_app in Hat as [H1 H2].
  destruct (Hm H1) as (a & E & Ha). destruct (Hf a Ha H2) as (b & E2 & Hb).
  exists b. split; [|done]. rewrite (bind_ret _ _ _ _ _ E), E2.
  by rewrite length_app, Nat.add_assoc.
Qed.

Lemma reads_in_ret {A} p (a : A) (Q : A -> Prop) : Q a -> reads_in p (mret a) [] Q.
Proof. intros HQ _. exists a. by rewrite Nat.add_0_r. Qed.

Lemma reads_in_bind_nil {A B} p (m : st cursor A) (f : A -> st cursor B) b1 Q1 Q2 :
  reads_in p m b1 Q1 ->
  (forall a, Q1 a -> reads_in (p + length b1) (f a) [] Q2) ->
  reads_in p (m ≫= f) b1 Q2.
Proof. intros. rewrite <- (app_nil_r b1). by eapply reads_in_bind. Qed.

Lemma reads_in_getptr {A} p (k : nat -> st cursor A) bs Q :
  reads_in p (k p) bs Q -> reads_in p (getptr ≫= k) bs Q.
Proof. intros H Hat. rewrite bind_getptr. by apply H. Qed.

Lemma reads_in_gets {A B} p (f : cursor -> A) (k : A -> st cursor B) bs Q :
  reads_in p (k (f (Cursor mem p))) bs Q -> reads_in p (gets f ≫= k) bs Q.
Proof. intros H Hat. by apply H. Qed.

(** A computation with one result reads it in every buffer. *)
Lemma reads_at_in {A} p (m : st cursor A) bs a : reads_at p m bs a -> reads_in p m bs (eq a).
Proof. intros H (pre & post & E & Hp). exists a. split; [rewrite E; by apply H|done]. Qed.
End reads_in.

(** [store] at the pointer plus one step: the elementary write. *)
Lemma emits_store_advance v :
  emits (p ← getptr; store p v;; setptr (S p)) [to_uchar v] tt.
Proof.
  intros p mem H. simpl in H. unfold getptr, gets, mbind, st_bind, store. simpl.
  rewrite decide_True by lia. unfold setptr, modify. simpl.
  rewrite insert_put by lia. repeat f_equal. lia.
Qed.

Lemma emits_memcpy_advance src n :
  n = zlen src -> emits (memcpy_here src;; advance n) src tt.
Proof.
  intros -> p mem H. unfold memcpy_here, memcpy_at, advance, getptr, gets, setptr, modify,
    mbind, st_bind. simpl. rewrite decide_True by lia. simpl.
  repeat f_equal. unfold zlen. lia.
Qed.

(** Along a sequence that is bracketed to the right. *)
Lemma emits_then {A B C} (m : st cursor A) (f : A -> st cursor B) (g : B -> st cursor C)
    b1 b2 b c :
  emits (m ≫= f) b1 b -> emits (g b) b2 c ->
  emits (m ≫= fun a => f a ≫= g) (b1 ++ b2) c.
Proof.
  intros Hm Hg p mem H. rewrite <- bind_assoc.
  exact (emits_bind _ _ _ _ _ _ Hm Hg p mem H).
Qed.

(** The elementary write in front of more. *)
Lemma emits_store_then {A} v (k : st cursor A) bs a :
  emits k bs a ->
  emits (p ← getptr; store p v;; setptr (S p);; k) (to_uchar v :: bs) a.
Proof.
  intros Hk p mem H. change (to_uchar v :: bs) with ([to_uchar v] ++ bs).
  rewrite <- (emits_bind _ (fun _ => k) [to_uchar v] bs tt a (emits_store_advance v) Hk p mem H).
  unfold getptr, gets, store, mbind, st_bind. simpl. by case_decide.
Qed.

Lemma lookup_mid {A} (pre bs post : list A) i :
  (i < length bs)%nat -> (pre ++ bs ++ post) !! (length pre + i)%nat = bs !! i.
Proof.
  intros H. rewrite lookup_app_r by lia.
  replace (length pre + i - length pre)%nat with i by lia.
  by apply lookup_app_l.
Qed.

Lemma load_mid (pre bs post : list Z) i b q :
  bs !! i = Some b ->
  load (length pre + i) (Cursor (pre ++ bs ++ post) q)
  = Ret (b, Cursor (pre ++ bs ++ post) q).
Proof.
  intros H. unfold load. simpl. rewrite lookup_mid by (by eapply lookup_lt_Some).
  by rewrite H.
Qed.

Lemma load_oob mem a p : (length mem <= a)%nat -> load a (Cursor mem p) = Undef.
Proof. intros H. unfold load. simpl. by rewrite lookup_ge_None_2. Qed.

Lemma load_in mem a p b : mem !! a = Some b -> load a (Cursor mem p) = Ret (b, Cursor mem p).
Proof. intros H. unfold load. simpl. by rewrite H. Qed.

(** ** What never hangs *)

Lemma returns_getptr c : returns getptr c (fun p c' => p = cptr c /\ c' = c).
Proof. done. Qed.

Lemma returns_setptr p c : returns (setptr p) c (fun _ c' => c' = Cursor (cmem c) p).
Proof. done. Qed.

Lemma returns_load a c : returns (load a) c (fun _ c' => c' = c).
Proof. unfold returns, load. by destruct (cmem c !! a). Qed.

Lemma returns_advance n c :
  returns (advance n) c (fun _ c' => c' = Cursor (cmem c) (Z.to_nat (Z.of_nat (cptr c) + n))).
Proof. done. Qed.
