(* ===== verification/MqttPacket.v ===== *)
(** * The MQTT packet library: common part

    [src/src/mqtt/packet/iot_mqtt_packet.c] and its header: the fixed header
    byte, the variable-length "remaining length", the elementary readers and
    writers, length-delimited strings, blocking and non-blocking reading of a
    packet from a transport, and the packet identifier of a raw packet. *)

From S2P Require Import Prelude Cursor.

(** ** Constants (enums [errors] and [msgTypes], and the macros) *)

Definition MQTTPACKET_BUFFER_TOO_SHORT : Z := -2.
Definition MQTTPACKET_READ_ERROR : Z := -1.
Definition MAX_NUM_OF_REMAINING_LENGTH_BYTES : Z := 4.
Definition MQTT_ACK_PACKET_SIZE : Z := 4.
Definition MQTT_PINGREQ_PACKET_SIZE : Z := 2.
Definition MQTT_DISCONNECT_PACKET_SIZE : Z := 2.

Definition CONNECT : Z := 1.
Definition CONNACK : Z := 2.
Definition PUBLISH : Z := 3.
Definition PUBACK : Z := 4.
Definition PUBREC : Z := 5.
Definition PUBREL : Z := 6.
Definition PUBCOMP : Z := 7.
Definition SUBSCRIBE : Z := 8.
Definition SUBACK : Z := 9.
Definition UNSUBSCRIBE : Z := 10.
Definition UNSUBACK : Z := 11.
Definition PINGREQ : Z := 12.
Definition PINGRESP : Z := 13.
Definition DISCONNECT : Z := 14.

(** ** The header byte

    The union [MQTTHeader] (bit-fields allocated from the low bit, the layout
    of the default branch): reading and assigning a field of the byte. *)
Module Header.
Definition get_retain (b : Z) : Z := Z.land b 1.
Definition get_qos (b : Z) : Z := Z.land (Z.shiftr b 1) 3.
Definition get_dup (b : Z) : Z := Z.land (Z.shiftr b 3) 1.
Definition get_type (b : Z) : Z := Z.land (Z.shiftr b 4) 15.

Definition set_retain (v b : Z) : Z := Z.lor (Z.land b 254) (Z.land v 1).
Definition set_qos (v b : Z) : Z := Z.lor (Z.land b 249) (Z.shiftl (Z.land v 3) 1).
Definition set_dup (v b : Z) : Z := Z.lor (Z.land b 247) (Z.shiftl (Z.land v 1) 3).
Definition set_type (v b : Z) : Z := Z.lor (Z.land b 15) (Z.shiftl (Z.land v 15) 4).
End Header.

(** ** Elementary readers and writers *)

(** [readChar]: the byte read; each caller converts the [char] it gets. *)
Definition readChar : st cursor Z :=
  p ← getptr; c ← load p; setptr (S p);; mret c.

Definition readInt : st cursor Z :=
  ptr ← getptr;
  b0 ← load ptr; b1 ← load (ptr + 1);
  setptr (ptr + 2);;
  mret (256 * b0 + b1).

Definition writeChar (c : Z) : st cursor unit :=
  p ← getptr; store p c;; setptr (S p).

Definition writeInt (anInt : Z) : st cursor unit :=
  p ← getptr; store p (to_uchar (Z.quot anInt 256));; setptr (S p);;
  p ← getptr; store p (to_uchar (Z.rem anInt 256));; setptr (S p).

(** A C string is the list of its bytes, without the terminator. *)
Definition writeCString (string : list Z) : st cursor unit :=
  let len := zlen string in
  writeInt len;; memcpy_here string;; advance len.

Definition getLenStringLen (ptr : nat) : st cursor Z :=
  b0 ← load ptr; b1 ← load (ptr + 1); mret (256 * b0 + b1).

(** ** Remaining length *)

(** The [do ... while] of [MQTTPacket_encode]. *)
Fixpoint encode_loop (fuel buf rc : nat) (length : Z) : st cursor Z :=
  match fuel with
  | O => hang
  | S fuel =>
      let d := Z.rem length 128 in
      let length := Z.quot length 128 in
      let d := if 0 <? length then Z.lor d 128 else d in
      store (buf + rc) d;;
      if 0 <? length then encode_loop fuel buf (S rc) length
      else mret (Z.of_nat (S rc))
  end.

(** An [int] has at most five base-128 digits. *)
Definition MQTTPacket_encode (buf : nat) (length : Z) : st cursor Z :=
  encode_loop 5 buf 0 length.

Section decode.
Context {Src : Type} (getcharfn : st Src (Z * Z)).

(** The [do ... while] of [MQTTPacket_decode]; [getcharfn] returns its
    result and the character it stored.  The result is [len] and [*value]. *)
Fixpoint decode_loop (fuel : nat) (len multiplier value : Z) : st Src (Z * Z) :=
  match fuel with
  | O => hang
  | S fuel =>
      let len := len + 1 in
      if MAX_NUM_OF_REMAINING_LENGTH_BYTES <? len then mret (len, value)
      else
        '(rc, c) ← getcharfn;
        if negb (rc =? 1) then mret (len, value)
        else
          let value := value + Z.land c 127 * multiplier in
          let multiplier := multiplier * 128 in
          if negb (Z.land c 128 =? 0) then decode_loop fuel len multiplier value
          else mret (len, value)
  end.

Definition MQTTPacket_decode : st Src (Z * Z) := decode_loop 5 0 1 0.
End decode.

Definition MQTTPacket_len (rem_len : Z) : Z :=
  let rem_len := rem_len + 1 in
  if rem_len <? 128 then rem_len + 1
  else if rem_len <? 16384 then rem_len + 2
  else if rem_len <? 2097151 then rem_len + 3
  else rem_len + 4.

(** [bufchar], on its own pointer [bufptr]: the result and the last byte. *)
Fixpoint bufchar_loop (n : nat) (c : Z) : st cursor Z :=
  match n with
  | O => mret c
  | S n => p ← getptr; b ← load p; setptr (S p);; bufchar_loop n b
  end.
Definition bufchar (count : Z) : st cursor (Z * Z) :=
  c ← bufchar_loop (Z.to_nat count) 0; mret (count, c).

(** [bufptr] starts at [buf]; the caller's own pointer is not moved. *)
Definition MQTTPacket_decodeBuf (buf : nat) : st cursor (Z * Z) :=
  p ← getptr; setptr buf;;
  r ← MQTTPacket_decode (bufchar 1);
  setptr p;; mret r.

(** [curdata += (rc = MQTTPacket_decodeBuf(curdata, &mylen))], which opens
    every deserializer: [rc] and [mylen]. *)
Definition decode_length : st cursor (Z * Z) :=
  q ← getptr; r ← MQTTPacket_decodeBuf q; advance r.1;; mret r.

(** ** Strings *)

(** What a [char *] of an [MQTTLenString] points to: nothing, a place of the
    packet buffer, or another object. *)
Inductive dataptr := NullPtr | BufPtr (off : nat) | MemPtr (obj : list Z).

Record MQTTLenString := { ls_len : Z; ls_data : dataptr }.
Record MQTTString := { cstring : option (list Z); lenstring : MQTTLenString }.

Definition MQTTString_initializer : MQTTString :=
  {| cstring := None; lenstring := {| ls_len := 0; ls_data := NullPtr |} |}.

(** The [n] bytes at a pointer. *)
Definition deref (mem : list Z) (p : dataptr) (n : Z) : option (list Z) :=
  if n <? 0 then None
  else match p with
  | NullPtr => if n =? 0 then Some [] else None
  | BufPtr off =>
      if Z.of_nat off + n <=? zlen mem then Some (take (Z.to_nat n) (drop off mem)) else None
  | MemPtr obj => if n <=? zlen obj then Some (take (Z.to_nat n) obj) else None
  end.

Definition is_null (p : dataptr) : bool :=
  match p with NullPtr => true | _ => false end.

Definition writeMQTTString (mqttstring : MQTTString) : st cursor unit :=
  let ls := lenstring mqttstring in
  if 0 <? ls_len ls then
    writeInt (ls_len ls);;
    mem ← gets cmem;
    src ← need (deref mem (ls_data ls) (ls_len ls));
    memcpy_here src;;
    advance (ls_len ls)
  else match cstring mqttstring with
       | Some s => writeCString s
       | None => writeInt 0
       end.

(** [*mqttstring] before and after, and the result: pointers are offsets. *)
Definition readMQTTLenString (mqttstring : MQTTString) (enddata : Z)
    : st cursor (Z * MQTTString) :=
  p ← getptr;
  if 1 <? enddata - Z.of_nat p then
    len ← readInt;
    p ← getptr;
    if Z.of_nat p + len <=? enddata then
      advance len;;
      mret (1, {| cstring := None;
                  lenstring := {| ls_len := len; ls_data := BufPtr p |} |})
    else
      mret (0, {| cstring := None;
                  lenstring := {| ls_len := len; ls_data := ls_data (lenstring mqttstring) |} |})
  else mret (0, {| cstring := None; lenstring := lenstring mqttstring |}).

Definition MQTTstrlen (mqttstring : MQTTString) : Z :=
  match cstring mqttstring with
  | Some s => zlen s
  | None => ls_len (lenstring mqttstring)
  end.

(** [strncmp(a, b, n) == 0], [a] and [b] the objects the pointers are in. *)
Fixpoint strncmp_eq (n : nat) (a b : list Z) : option bool :=
  match n with
  | O => Some true
  | S n =>
      match a, b with
      | x :: a, y :: b =>
          if x =? y then if x =? 0 then Some true else strncmp_eq n a b else Some false
      | _, _ => None
      end
  end.

Definition MQTTPacket_equals (mem : list Z) (a : MQTTString) (bptr : list Z) : option Z :=
  let '(aptr, alen) :=
    match cstring a with
    | Some s => (Some (s ++ [0]), zlen s)
    | None => (deref mem (ls_data (lenstring a)) (ls_len (lenstring a)), ls_len (lenstring a))
    end in
  let blen := zlen bptr in
  if alen =? blen then
    aobj ← aptr;
    eq ← strncmp_eq (Z.to_nat alen) aobj (bptr ++ [0]);
    Some (if (eq : bool) then 1 else 0)
  else Some 0.

(** ** Reading a packet from a transport

    A transport function stores what it reads at the address it is given and
    returns a count; here it returns the count with the bytes it stores. *)

Section read.
Context {Src : Type} (getfn : Z -> st Src (Z * list Z)).

Definition on_src {A} (m : st Src A) : st (Src * cursor) A := fun '(s, c) =>
  match m s with Ret (a, s') => Ret (a, (s', c)) | Undef => Undef | Hang => Hang end.
Definition on_buf {A} (m : st cursor A) : st (Src * cursor) A := fun '(s, c) =>
  match m c with Ret (a, c') => Ret (a, (s, c')) | Undef => Undef | Hang => Hang end.

(** [( *getfn)(buf + a, n)]. *)
Definition fetch (a : nat) (n : Z) : st (Src * cursor) Z :=
  '(rc, bs) ← on_src (getfn n);
  on_buf (memcpy_at a bs);;
  mret rc.

(** [( *getfn)(&c, 1)]. *)
Definition fetch_char : st Src (Z * Z) :=
  '(rc, bs) ← getfn 1; mret (rc, default 0 (head bs)).

Definition MQTTPacket_read (buflen : Z) : st (Src * cursor) Z :=
  r ← fetch 0 1;
  if negb (r =? 1) then mret (-1)
  else
    '(_, rem_len) ← on_src (MQTTPacket_decode fetch_char);
    n ← on_buf (MQTTPacket_encode 1 rem_len);
    let len := 1 + n in
    if buflen <? rem_len + len then mret (-1)
    else
      r ← (if rem_len =? 0 then mret rem_len else fetch (Z.to_nat len) rem_len);
      if negb (r =? rem_len) then mret (-1)
      else b ← on_buf (load 0); mret (Header.get_type b).
End read.

(** The transport structure of the non-blocking reader ([getfn] and [sck]
    are the [getfn] of the section). *)
Record MQTTTransport := {
  trp_multiplier : Z;
  trp_rem_len : Z;
  trp_len : Z;
  trp_state : Z
}.

Section readnb.
Context {Src : Type} (getfn : Z -> st Src (Z * list Z)).

(** The [do ... while] of [MQTTPacket_decodenb]: the result and [*trp]. *)
Fixpoint decodenb_loop (fuel : nat) (trp : MQTTTransport) : st Src (Z * MQTTTransport) :=
  match fuel with
  | O => hang
  | S fuel =>
      if MAX_NUM_OF_REMAINING_LENGTH_BYTES <=? trp_len trp
      then mret (MQTTPACKET_READ_ERROR, trp)
      else
        '(frc, c) ← fetch_char getfn;
        if frc =? -1 then mret (MQTTPACKET_READ_ERROR, trp)
        else if frc =? 0 then mret (0, trp)
        else
          let trp := {| trp_len := trp_len trp + 1;
                        trp_rem_len := trp_rem_len trp + Z.land c 127 * trp_multiplier trp;
                        trp_multiplier := trp_multiplier trp * 128;
                        trp_state := trp_state trp |} in
          if negb (Z.land c 128 =? 0) then decodenb_loop fuel trp
          else mret (trp_len trp, trp)
  end.

Definition MQTTPacket_decodenb (trp : MQTTTransport) : st Src (Z * MQTTTransport) :=
  let trp :=
    if trp_len trp =? 0
    then {| trp_multiplier := 1; trp_rem_len := 0;
            trp_len := trp_len trp; trp_state := trp_state trp |}
    else trp in
  decodenb_loop 5 trp.

Definition set_state (v : Z) (trp : MQTTTransport) : MQTTTransport :=
  {| trp_multiplier := trp_multiplier trp; trp_rem_len := trp_rem_len trp;
     trp_len := trp_len trp; trp_state := v |}.
Definition set_lens (rem len : Z) (trp : MQTTTransport) : MQTTTransport :=
  {| trp_multiplier := trp_multiplier trp; trp_rem_len := rem;
     trp_len := len; trp_state := trp_state trp |}.

(** The three cases of the [switch], each falling through to the next. *)
Definition readnb_case2 (trp : MQTTTransport) : st (Src * cursor) (Z * MQTTTransport) :=
  let finish trp :=
    b ← on_buf (load 0); mret (Header.get_type b, set_state 0 trp) in
  if negb (trp_rem_len trp =? 0) then
    frc ← fetch getfn (Z.to_nat (trp_len trp)) (trp_rem_len trp);
    if frc =? -1 then mret (-1, set_state 0 trp)
    else if frc =? 0 then mret (0, trp)
    else
      let trp := set_lens (trp_rem_len trp - frc) (trp_len trp + frc) trp in
      if negb (trp_rem_len trp =? 0) then mret (0, trp) else finish trp
  else finish trp.

Definition readnb_case1 (buflen : Z) (trp : MQTTTransport) : st (Src * cursor) (Z * MQTTTransport) :=
  '(frc, trp) ← on_src (MQTTPacket_decodenb trp);
  if frc =? MQTTPACKET_READ_ERROR then mret (-1, set_state 0 trp)
  else if frc =? 0 then mret (0, trp)
  else
    n ← on_buf (MQTTPacket_encode 1 (trp_rem_len trp));
    let trp := set_lens (trp_rem_len trp) (1 + n) trp in
    if buflen <? trp_rem_len trp + trp_len trp then mret (-1, set_state 0 trp)
    else readnb_case2 (set_state (trp_state trp + 1) trp).

Definition readnb_case0 (buflen : Z) (trp : MQTTTransport) : st (Src * cursor) (Z * MQTTTransport) :=
  frc ← fetch getfn 0 1;
  if frc =? -1 then mret (-1, set_state 0 trp)
  else if frc =? 0 then mret (0, trp)
  else
    let trp := set_lens (trp_rem_len trp) 0 trp in
    readnb_case1 buflen (set_state (trp_state trp + 1) trp).

Definition MQTTPacket_readnb (buflen : Z) (trp : MQTTTransport)
    : st (Src * cursor) (Z * MQTTTransport) :=
  if trp_state trp =? 1 then readnb_case1 buflen trp
  else if trp_state trp =? 2 then readnb_case2 trp
  else readnb_case0 buflen (set_state 0 trp).
End readnb.

(** ** Names and packet identifiers *)

Definition MQTTPacket_names : list string :=
  ["RESERVED"; "CONNECT"; "CONNACK"; "PUBLISH"; "PUBACK"; "PUBREC"; "PUBREL";
   "PUBCOMP"; "SUBSCRIBE"; "SUBACK"; "UNSUBSCRIBE"; "UNSUBACK";
   "PINGREQ"; "PINGRESP"; "DISCONNECT"]%string.

(** [MQTTPacket_getName]: an index beyond the array is undefined behaviour. *)
Definition MQTTPacket_getName (packetid : Z) : option string :=
  if packetid <? 0 then None else MQTTPacket_names !! Z.to_nat packetid.

(** [None] is the null pointer. *)
Definition MQTTPacket_msgTypesToString (msgType : Z) : option string :=
  if msgType =? CONNECT then Some "CONNECT"%string
  else if msgType =? CONNACK then Some "CONNACK"%string
  else if msgType =? PUBLISH then Some "PUBLISH"%string
  else if msgType =? PUBACK then Some "PUBACK"%string
  else if msgType =? PUBREC then Some "PUBREC"%string
  else if msgType =? PUBREL then Some "PUBREL"%string
  else if msgType =? PUBCOMP then Some "PUBCOMP"%string
  else if msgType =? SUBSCRIBE then Some "SUBSCRIBE"%string
  else if msgType =? SUBACK then Some "SUBACK"%string
  else if msgType =? UNSUBSCRIBE then Some "UNSUBSCRIBE"%string
  else if msgType =? UNSUBACK then Some "UNSUBACK"%string
  else if msgType =? PINGREQ then Some "PINGREQ"%string
  else if msgType =? PINGRESP then Some "PINGRESP"%string
  else if msgType =? DISCONNECT then Some "DISCONNECT"%string
  else None.

(** In [buf += readInt(&buf)] the call moves [buf]; C leaves open whether the
    left [buf] is read before or after the call. *)
Class EvalOrder := left_operand_first : bool.

Definition has_packet_id (packet_type : Z) : bool :=
  existsb (Z.eqb packet_type)
    [PUBACK; PUBREC; PUBREL; PUBCOMP; SUBSCRIBE; SUBACK; UNSUBSCRIBE; UNSUBACK].

Definition MQTTPacket_getPacketId `{EvalOrder} : st cursor Z :=
  p ← getptr;
  b0 ← load p;
  let packet_type := Z.shiftr (Z.land b0 240) 4 in
  let qos := Z.shiftr (Z.land b0 6) 1 in
  if packet_type =? PUBLISH then
    if qos =? 0 then mret 0
    else
      setptr (S p);;
      '(n, _) ← MQTTPacket_decodeBuf (S p);
      advance n;;
      before ← getptr;
      len ← readInt;
      after ← getptr;
      setptr (Z.to_nat (Z.of_nat (if left_operand_first then before else after) + len));;
      readInt
  else if has_packet_id packet_type then
    setptr (S p);;
    '(n, _) ← MQTTPacket_decodeBuf (S p);
    advance n;;
    id ← readInt;
    mret (to_uint (0 + id))
  else mret 0.
