(* ===== verification/MqttCodec.v ===== *)
(** * What the packet library writes and reads

    The abstract wire format (big-endian 16-bit integers, length-delimited
    strings, the variable-length integer of the MQTT specification) and the
    proofs that the elementary functions of [MqttPacket] write and read it. *)

From S2P Require Import Prelude Cursor MqttPacket.

(** ** The wire format *)

Definition be16 (n : Z) : list Z := [n / 256; n mod 256].

Definition wire_string (s : list Z) : list Z := be16 (zlen s) ++ s.

(** The largest remaining length MQTT allows. *)
Definition max_remaining_length : Z := 268435455.

(** The remaining length on the wire: at most four base-128 digits, the low
    digit first, the high bit set on all digits but the last. *)
Fixpoint varint_digits (more : nat) (n : Z) : list Z :=
  match more with
  | O => [n]
  | S more =>
      if n <? 128 then [n] else (n mod 128 + 128) :: varint_digits more (n / 128)
  end.
Definition varint (n : Z) : list Z := varint_digits 3 n.

(** The byte string an [MQTTString] stands for. *)
Inductive str_rep : MQTTString -> list Z -> Prop :=
| rep_cstring s l :
    ls_len l <= 0 -> str_rep {| cstring := Some s; lenstring := l |} s
| rep_lenstring s rest :
    str_rep {| cstring := None;
               lenstring := {| ls_len := zlen s; ls_data := MemPtr (s ++ rest) |} |} s
| rep_null p :
    str_rep {| cstring := None; lenstring := {| ls_len := 0; ls_data := p |} |} [].

(** A string in memory of the caller, by length and as a C string. *)
Definition mem_string (s : list Z) : MQTTString :=
  {| cstring := None; lenstring := {| ls_len := zlen s; ls_data := MemPtr s |} |}.
Definition c_string (s : list Z) : MQTTString :=
  {| cstring := Some s; lenstring := {| ls_len := 0; ls_data := NullPtr |} |}.

Lemma mem_string_rep s : str_rep (mem_string s) s.
Proof. pose proof (rep_lenstring s []) as H. by rewrite app_nil_r in H. Qed.
Lemma c_string_rep s : str_rep (c_string s) s.
Proof. by apply rep_cstring. Qed.
#[export] Hint Resolve mem_string_rep c_string_rep : sdk.

(** ** Arithmetic of the variable-length integer *)

Lemma varint_digits_bytes k n :
  0 <= n < 128 ^ (Z.of_nat (S k)) -> bytes (varint_digits k n).
Proof.
  revert n. induction k as [|k IH]; intros n H; simpl.
  - repeat constructor; change (128 ^ 1) with 128 in H; lia.
  - rewrite Nat2Z.inj_succ, Z.pow_succ_r in H by lia.
    destruct (Z.ltb_spec n 128); [repeat constructor; lia|].
    constructor; [unfold is_byte; pose proof (Z.mod_pos_bound n 128); lia|].
    apply IH. split; [apply Z.div_pos; lia|apply Z.div_lt_upper_bound; lia].
Qed.

Lemma varint_bytes n : 0 <= n <= max_remaining_length -> bytes (varint n).
Proof. intros H. apply varint_digits_bytes. unfold max_remaining_length in H. simpl. lia. Qed.

Lemma length_varint_digits k n : (1 <= length (varint_digits k n) <= S k)%nat.
Proof.
  revert n. induction k as [|k IH]; intros n; simpl; [lia|].
  case_if; simpl; [lia|]. specialize (IH (n / 128)). lia.
Qed.

Lemma length_varint n : (1 <= length (varint n) <= 4)%nat.
Proof. apply length_varint_digits. Qed.

(** The number of digits, in closed form. *)
Lemma zlen_varint n :
  zlen (varint n) =
  if n <? 128 then 1 else if n <? 16384 then 2 else if n <? 2097152 then 3 else 4.
Proof.
  unfold varint, zlen. simpl.
  repeat (case_if; simpl; bool_to_prop; try done);
    exfalso; Z.to_euclidean_division_equations; lia.
Qed.

Lemma lor_128 d : 0 <= d < 128 -> Z.lor d 128 = d + 128.
Proof.
  intros H. rewrite <- Z.add_lor_land.
  replace (Z.land d 128) with 0; [lia|].
  symmetry. replace d with (d mod 2 ^ 7) by (apply Z.mod_small; lia).
  change 128 with (Z.shiftl 1 7).
  apply Z.bits_inj'. intros i Hi.
  rewrite Z.bits_0, Z.land_spec, Z.testbit_mod_pow2, Z.shiftl_spec by lia.
  destruct (Z.ltb_spec i 7); [|done].
  rewrite (Z.testbit_neg_r 1) by lia. by rewrite andb_false_r.
Qed.

Lemma land_127 c : Z.land c 127 = c mod 128.
Proof. change 127 with (Z.ones 7). by rewrite Z.land_ones. Qed.

Lemma land_128 c : 0 <= c < 256 -> (Z.land c 128 =? 0) = (c <? 128).
Proof.
  intros H. destruct (Z.ltb_spec c 128) as [Hc|Hc].
  - replace c with (c mod 2 ^ 7) by (apply Z.mod_small; lia).
    apply Z.eqb_eq. change 128 with (Z.shiftl 1 7). apply Z.bits_inj'. intros i Hi.
    rewrite Z.bits_0, Z.land_spec, Z.testbit_mod_pow2, Z.shiftl_spec by lia.
    destruct (Z.ltb_spec i 7); [|done].
    rewrite (Z.testbit_neg_r 1) by lia. by rewrite andb_false_r.
  - apply Z.eqb_neq. intros E.
    assert (Hb : Z.testbit (Z.land c 128) 7 = false) by (rewrite E; apply Z.bits_0).
    rewrite Z.land_spec in Hb. change (Z.testbit 128 7) with true in Hb.
    rewrite andb_true_r in Hb.
    rewrite Z.testbit_false in Hb by lia. change (2 ^ 7) with 128 in Hb.
    Z.to_euclidean_division_equations; lia.
Qed.

(** ** Writers *)

Lemma emits_writeChar c : emits (writeChar c) [to_uchar c] tt.
Proof. apply emits_store_advance. Qed.

Lemma emits_writeChar_eq c b : to_uchar c = b -> emits (writeChar c) [b] tt.
Proof. intros <-. apply emits_writeChar. Qed.

Lemma to_uchar_idem z : to_uchar (to_uchar z) = to_uchar z.
Proof. apply to_uchar_id, to_uchar_byte. Qed.

Lemma emits_writeInt n : 0 <= n < 65536 -> emits (writeInt n) (be16 n) tt.
Proof.
  intros H. unfold writeInt, be16.
  assert (Hq : n / 256 = to_uchar (to_uchar (Z.quot n 256))).
  { rewrite to_uchar_idem, Z.quot_div_nonneg by lia. symmetry. apply to_uchar_id.
    unfold is_byte. Z.to_euclidean_division_equations; lia. }
  assert (Hr : n mod 256 = to_uchar (to_uchar (Z.rem n 256))).
  { rewrite to_uchar_idem, Z.rem_mod_nonneg by lia. symmetry. apply to_uchar_id.
    unfold is_byte. Z.to_euclidean_division_equations; lia. }
  rewrite Hq, Hr.
  apply emits_store_then, emits_store_advance.
Qed.

Lemma emits_writeCString s :
  zlen s < 65536 -> emits (writeCString s) (wire_string s) tt.
Proof.
  intros H. unfold writeCString, wire_string. pose proof (zlen_nonneg s).
  eapply emits_bind; [by apply emits_writeInt|]. by apply emits_memcpy_advance.
Qed.

Lemma emits_gets {A B} (f : cursor -> A) (k : A -> st cursor B) bs b :
  (forall c, emits (k (f c)) bs b) -> emits (gets f ≫= k) bs b.
Proof. intros H p mem Hle. apply (H (Cursor mem p) p mem Hle). Qed.

Lemma emits_need {A B} (a : A) (k : A -> st cursor B) bs b :
  emits (k a) bs b -> emits (need (Some a) ≫= k) bs b.
Proof. intros H p mem Hle. apply (H p mem Hle). Qed.

Lemma emits_writeMQTTString m s :
  str_rep m s -> zlen s < 65536 -> emits (writeMQTTString m) (wire_string s) tt.
Proof.
  intros Hrep Hlen. pose proof (zlen_nonneg s). unfold writeMQTTString.
  destruct Hrep as [s l Hl|s rest|p]; simpl.
  - rewrite (proj2 (Z.ltb_ge _ _)) by done. by apply emits_writeCString.
  - destruct (Z.ltb_spec 0 (zlen s)) as [Hpos|Hz].
    + apply (emits_bind _ _ (be16 (zlen s)) s tt); [by apply emits_writeInt|].
      apply emits_gets. intros c. unfold deref.
      rewrite (proj2 (Z.ltb_ge _ _)), (proj2 (Z.leb_le _ _)) by (autorewrite with zlen; pose proof (zlen_nonneg rest); lia).
      rewrite take_app_length' by (unfold zlen; lia).
      apply emits_need. by apply emits_memcpy_advance.
    + assert (s = []) as -> by (destruct s; [done|autorewrite with zlen in *; pose proof (zlen_nonneg s); lia]).
      by apply emits_writeInt.
  - by apply emits_writeInt.
Qed.

Lemma MQTTstrlen_rep m s : str_rep m s -> MQTTstrlen m = zlen s.
Proof. by destruct 1. Qed.

(** One more digit of the variable-length integer. *)
Lemma encode_loop_step fuel buf rc n mem p :
  0 <= n -> (buf + rc < length mem)%nat ->
  encode_loop (S fuel) buf rc n (Cursor mem p) =
  if n <? 128 then Ret (Z.of_nat (S rc), Cursor (put mem (buf + rc) [n]) p)
  else encode_loop fuel buf (S rc) (n / 128)
         (Cursor (put mem (buf + rc) [n mod 128 + 128]) p).
Proof.
  intros Hn Hlt. cbn [encode_loop].
  rewrite Z.quot_div_nonneg, Z.rem_mod_nonneg by lia.
  assert (Hm : 0 <= n mod 128 < 128) by (apply Z.mod_pos_bound; lia).
  unfold store, mbind, st_bind. simpl cmem.
  destruct (Z.ltb_spec n 128) as [H|H].
  - rewrite Z.div_small, Z.mod_small, decide_True by lia. simpl.
    rewrite insert_put by done. by rewrite to_uchar_id by (unfold is_byte; lia).
  - rewrite (proj2 (Z.ltb_lt 0 (n / 128))) by (Z.to_euclidean_division_equations; lia).
    rewrite decide_True by lia. simpl. rewrite insert_put, lor_128 by done.
    by rewrite to_uchar_id by (unfold is_byte; lia).
Qed.

(** The loop stores the digits and returns their number. *)
Lemma encode_loop_spec k buf : forall fuel rc n mem p,
  (k < fuel)%nat -> 0 <= n < 128 ^ Z.of_nat (S k) ->
  (buf + rc + length (varint_digits k n) <= length mem)%nat ->
  encode_loop fuel buf rc n (Cursor mem p)
  = Ret (Z.of_nat rc + zlen (varint_digits k n),
         Cursor (put mem (buf + rc) (varint_digits k n)) p).
Proof.
  induction k as [|k IH]; intros [|fuel] rc n mem p Hf Hn Hl; try lia.
  - rewrite encode_loop_step by (simpl in Hl; lia). simpl.
    change (128 ^ Z.of_nat 1) with 128 in Hn.
    rewrite (proj2 (Z.ltb_lt n 128)) by lia.
    by replace (Z.of_nat rc + zlen [n]) with (Z.of_nat (S rc)) by (unfold zlen; simpl; lia).
  - pose proof (length_varint_digits (S k) n).
    rewrite encode_loop_step by lia. simpl in Hl |- *.
    rewrite Nat2Z.inj_succ, Z.pow_succ_r in Hn by lia.
    destruct (Z.ltb_spec n 128) as [Hn'|Hn']; simpl in Hl.
    + by replace (Z.of_nat rc + zlen [n]) with (Z.of_nat (S rc)) by (unfold zlen; simpl; lia).
    + rewrite IH; [|lia|split; [apply Z.div_pos; lia|apply Z.div_lt_upper_bound; lia]
                   |rewrite length_put; simpl; lia].
      rewrite zlen_cons.
      replace (buf + S rc)%nat with (buf + rc + length [(n mod 128 + 128)%Z])%nat by (simpl; lia).
      rewrite put_put by (simpl; lia). do 2 f_equal. lia.
Qed.

Lemma MQTTPacket_encode_spec n mem p buf :
  0 <= n <= max_remaining_length -> (buf + length (varint n) <= length mem)%nat ->
  MQTTPacket_encode buf n (Cursor mem p)
  = Ret (zlen (varint n), Cursor (put mem buf (varint n)) p).
Proof.
  unfold max_remaining_length, MQTTPacket_encode. intros Hn Hl.
  unfold varint in *. rewrite (encode_loop_spec 3), Nat.add_0_r; [done|lia| |lia].
  change (128 ^ Z.of_nat 4) with 268435456. lia.
Qed.

(** [ptr += MQTTPacket_encode(ptr, n)]. *)
Lemma emits_encode n :
  0 <= n <= max_remaining_length ->
  emits (p ← getptr; k ← MQTTPacket_encode p n; advance k) (varint n) tt.
Proof.
  intros Hn p mem Hl. rewrite bind_getptr.
  rewrite (bind_ret _ _ _ _ _ (MQTTPacket_encode_spec n mem p p Hn Hl)), run_advance.
  repeat f_equal. unfold zlen. lia.
Qed.

(** ** Readers *)

Lemma reads_readChar p b : reads_at p readChar [b] b.
Proof.
  intros pre post <-. unfold readChar. rewrite bind_getptr.
  pose proof (load_mid pre [b] post 0 b (length pre) eq_refl) as E.
  rewrite Nat.add_0_r in E. rewrite (bind_ret _ _ _ _ _ E).
  rewrite bind_setptr. unfold mret, st_ret. simpl. repeat f_equal. lia.
Qed.

Lemma reads_readInt p n : 0 <= n < 65536 -> reads_at p readInt (be16 n) n.
Proof.
  intros Hn pre post <-. unfold readInt. rewrite bind_getptr.
  pose proof (load_mid pre (be16 n) post 0 _ (length pre) eq_refl) as E0.
  pose proof (load_mid pre (be16 n) post 1 _ (length pre) eq_refl) as E1.
  rewrite Nat.add_0_r in E0.
  rewrite (bind_ret _ _ _ _ _ E0), (bind_ret _ _ _ _ _ E1).
  rewrite bind_setptr. unfold mret, st_ret. simpl. repeat f_equal.
  Z.to_euclidean_division_equations; lia.
Qed.

(** [readInt] behind the end, or on the last byte, of the buffer. *)
Lemma readInt_oob mem p :
  (length mem <= p + 1)%nat -> readInt (Cursor mem p) = Undef.
Proof.
  intros H. unfold readInt. rewrite bind_getptr.
  destruct (mem !! p) as [b|] eqn:E.
  - rewrite (bind_ret _ _ _ _ _ (load_in _ _ _ _ E)). by apply bind_undef, load_oob.
  - apply bind_undef. unfold load. simpl. by rewrite E.
Qed.

(** The bytes of a variable-length integer, read from any byte source:
    [delivers s l] says that the source in state [s] is going to give [l]. *)
Section decode_spec.
Context {Src : Type} (getc : st Src (Z * Z)) (delivers : Src -> list Z -> Prop).
Hypothesis getc_delivers : forall s b l,
  delivers s (b :: l) -> exists s', getc s = Ret ((1, b), s') /\ delivers s' l.

Lemma decode_loop_spec k : forall fuel len mult value n post s,
  (k < fuel)%nat -> 0 <= n < 128 ^ Z.of_nat (S k) -> 0 <= len ->
  len + Z.of_nat (S k) <= MAX_NUM_OF_REMAINING_LENGTH_BYTES ->
  delivers s (varint_digits k n ++ post) ->
  exists s', decode_loop getc fuel len mult value s
             = Ret ((len + zlen (varint_digits k n), value + n * mult), s')
             /\ delivers s' post.
Proof using getc_delivers.
  unfold MAX_NUM_OF_REMAINING_LENGTH_BYTES.
  induction k as [|k IH]; intros [|fuel] len mult value n post s Hf Hn Hlen Hmax Hs; try lia;
    cbn [varint_digits decode_loop] in *;
    unfold MAX_NUM_OF_REMAINING_LENGTH_BYTES;
    rewrite (proj2 (Z.ltb_ge 4 _)) by lia.
  - change (128 ^ Z.of_nat 1) with 128 in Hn.
    destruct (getc_delivers _ _ _ Hs) as (s' & E & Hs').
    exists s'. split; [|done]. rewrite (bind_ret _ _ _ _ _ E). simpl.
    by rewrite land_127, Z.mod_small, land_128, (proj2 (Z.ltb_lt _ _)) by lia.
  - rewrite Nat2Z.inj_succ, Z.pow_succ_r in Hn by lia.
    destruct (Z.ltb_spec n 128) as [Hn'|Hn'];
      destruct (getc_delivers _ _ _ Hs) as (s' & E & Hs');
      rewrite (bind_ret _ _ _ _ _ E); simpl negb; cbn iota.
    + exists s'. split; [|done].
      by rewrite land_127, Z.mod_small, land_128, (proj2 (Z.ltb_lt n 128)) by lia.
    + pose proof (Z.mod_pos_bound n 128).
      rewrite land_127, land_128 by lia.
      rewrite (proj2 (Z.ltb_ge (n mod 128 + 128) 128)) by lia. cbn [negb].
      replace ((n mod 128 + 128) mod 128) with (n mod 128)
        by (Z.to_euclidean_division_equations; lia).
      destruct (IH fuel (len + 1) (mult * 128) (value + n mod 128 * mult) (n / 128) post s') as (s2 & E2 & Hs2);
        [lia|split; [apply Z.div_pos; lia|apply Z.div_lt_upper_bound; lia]|lia|lia|done|].
      exists s2. split; [|done]. change (negb (1 =? 1)) with false. cbn iota zeta.
      rewrite E2, zlen_cons. do 3 f_equal; [lia|].
      replace (n * mult) with ((128 * (n / 128) + n mod 128) * mult)
        by (rewrite <- Z.div_mod by lia; done). ring.
Qed.

Lemma MQTTPacket_decode_spec n post s :
  0 <= n <= max_remaining_length -> delivers s (varint n ++ post) ->
  exists s', MQTTPacket_decode getc s = Ret ((zlen (varint n), n), s') /\ delivers s' post.
Proof using getc_delivers.
  unfold max_remaining_length. intros Hn Hs.
  destruct (decode_loop_spec 3 5 0 1 0 n post s) as (s' & E & Hs').
  - lia.
  - change (128 ^ Z.of_nat 4) with 268435456. lia.
  - done.
  - done.
  - done.
  - exists s'. split; [|done]. unfold MQTTPacket_decode.
    by rewrite E, !Z.add_0_l, Z.mul_1_r.
Qed.
End decode_spec.

(** The source of [MQTTPacket_decodeBuf]: the buffer from [bufptr] on. *)
Definition buf_delivers (mem : list Z) (c : cursor) (l : list Z) : Prop :=
  cmem c = mem /\ (cptr c <= length mem)%nat /\ drop (cptr c) mem = l.

Lemma bufchar_delivers mem c b l :
  buf_delivers mem c (b :: l) ->
  exists c', bufchar 1 c = Ret ((1, b), c') /\ buf_delivers mem c' l.
Proof.
  destruct c as [m p]. intros (Hm & Hle & Hd). simpl in *. subst m.
  assert (Hb : mem !! p = Some b).
  { rewrite <- (Nat.add_0_r p), <- lookup_drop, Hd. done. }
  exists (Cursor mem (S p)). split.
  - unfold bufchar. change (Z.to_nat 1) with 1%nat. cbn [bufchar_loop].
    unfold mbind, st_bind. simpl. unfold load. simpl. by rewrite Hb.
  - repeat split; simpl; [by apply lookup_lt_Some in Hb|].
    apply drop_S in Hb. congruence.
Qed.

Lemma MQTTPacket_decodeBuf_spec pre n post p :
  0 <= n <= max_remaining_length ->
  MQTTPacket_decodeBuf (length pre) (Cursor (pre ++ varint n ++ post) p)
  = Ret ((zlen (varint n), n), Cursor (pre ++ varint n ++ post) p).
Proof.
  intros Hn. unfold MQTTPacket_decodeBuf. autorewrite with cursor.
  set (mem := pre ++ varint n ++ post).
  destruct (MQTTPacket_decode_spec (bufchar 1) (buf_delivers mem) (bufchar_delivers mem)
              n post (Cursor mem (length pre)) Hn) as ([m q] & E & (Hm & _)).
  { repeat split; [subst mem; simpl; rewrite length_app; lia|].
    simpl. subst mem. by rewrite drop_app_length. }
  rewrite (bind_ret _ _ _ _ _ E). simpl in Hm. by subst m.
Qed.

Lemma reads_decode_length p n :
  0 <= n <= max_remaining_length -> reads_at p decode_length (varint n) (zlen (varint n), n).
Proof.
  intros Hn pre post <-. unfold decode_length. rewrite bind_getptr.
  rewrite (bind_ret _ _ _ _ _ (MQTTPacket_decodeBuf_spec pre n post _ Hn)), bind_advance.
  unfold mret, st_ret. repeat f_equal. unfold zlen. simpl. lia.
Qed.

(** The string after it is read: a place of the buffer. *)
Definition in_buf (off : nat) (len : Z) : MQTTString :=
  {| cstring := None; lenstring := {| ls_len := len; ls_data := BufPtr off |} |}.

Lemma reads_readMQTTLenString p s old enddata :
  zlen s < 65536 -> Z.of_nat p + 2 + zlen s <= enddata ->
  reads_at p (readMQTTLenString old enddata) (wire_string s) (1, in_buf (p + 2) (zlen s)).
Proof.
  intros Hs He pre post Hp. pose proof (zlen_nonneg s). unfold readMQTTLenString, wire_string.
  rewrite bind_getptr, (proj2 (Z.ltb_lt _ _)) by lia.
  rewrite <- app_assoc.
  rewrite (bind_ret _ _ _ _ _ (reads_readInt p (zlen s) ltac:(lia) pre (s ++ post) Hp)).
  simpl length. rewrite bind_getptr, (proj2 (Z.leb_le _ _)) by lia.
  rewrite bind_advance. unfold mret, st_ret, in_buf. repeat f_equal.
  unfold zlen. simpl. lia.
Qed.

Lemma deref_mid pre bs post off n :
  off = length pre -> n = zlen bs -> deref (pre ++ bs ++ post) (BufPtr off) n = Some bs.
Proof.
  intros -> ->. pose proof (zlen_nonneg bs). pose proof (zlen_nonneg post).
  unfold deref. rewrite (proj2 (Z.ltb_ge _ _)), (proj2 (Z.leb_le _ _))
    by (autorewrite with zlen; unfold zlen in *; lia).
  unfold zlen. by rewrite Nat2Z.id, drop_app_length, take_app_length.
Qed.

Lemma reads_getptr {A} p (k : nat -> st cursor A) bs a :
  reads_at p (k p) bs a -> reads_at p (getptr ≫= k) bs a.
Proof. intros H pre post Hp. rewrite bind_getptr. by apply H. Qed.

(** A string the deserializers return: a place of the buffer with the bytes [s]. *)
Definition points_to (mem : list Z) (m : MQTTString) (s : list Z) : Prop :=
  cstring m = None /\ ls_len (lenstring m) = zlen s /\
  deref mem (ls_data (lenstring m)) (ls_len (lenstring m)) = Some s.

Lemma points_to_at mem p s : has_at mem p s -> points_to mem (in_buf p (zlen s)) s.
Proof. intros (pre & post & -> & <-). repeat split. by apply deref_mid. Qed.

Lemma reads_in_string mem p s old enddata :
  zlen s < 65536 -> Z.of_nat p + 2 + zlen s <= enddata ->
  reads_in mem p (readMQTTLenString old enddata) (wire_string s)
    (fun r => r.1 = 1 /\ points_to mem r.2 s).
Proof.
  intros Hs He Hat.
  destruct (reads_at_in mem p _ _ _ (reads_readMQTTLenString p s old enddata Hs He) Hat)
    as (r & E & <-).
  eexists. split; [exact E|]. split; [done|].
  apply has_at_app in Hat as [_ Hat]. by apply points_to_at.
Qed.

(** ** The size of a packet *)

(** The sizes for which [MQTTPacket_len] is one too large: the header byte is
    added before the comparison (and 2097151 is compared, not 2097152). *)
Definition len_overestimates (n : Z) : bool :=
  (n =? 127) || (n =? 16383) || (n =? 2097150) || (n =? 2097151).

Lemma MQTTPacket_len_exact n :
  0 <= n <= max_remaining_length ->
  MQTTPacket_len n = 1 + zlen (varint n) + n + (if len_overestimates n then 1 else 0).
Proof.
  intros _. unfold MQTTPacket_len. rewrite zlen_varint. unfold len_overestimates.
  destruct (Z.eqb_spec n 127) as [->|]; [reflexivity|].
  destruct (Z.eqb_spec n 16383) as [->|]; [reflexivity|].
  destruct (Z.eqb_spec n 2097150) as [->|]; [reflexivity|].
  destruct (Z.eqb_spec n 2097151) as [->|]; [reflexivity|]. cbn [orb].
  repeat case_if; bool_to_prop; lia.
Qed.

Lemma MQTTPacket_len_bound n :
  0 <= n <= max_remaining_length -> 1 + zlen (varint n) + n <= MQTTPacket_len n.
Proof. intros H. rewrite MQTTPacket_len_exact by done. case_if; lia. Qed.

(** A complete packet: header byte, remaining length, that many bytes. *)
Definition wire_packet (header : Z) (body : list Z) : list Z :=
  header :: varint (zlen body) ++ body.

Lemma zlen_wire_packet h body :
  zlen (wire_packet h body) = 1 + zlen (varint (zlen body)) + zlen body.
Proof. unfold wire_packet. autorewrite with zlen. lia. Qed.

(** A packet whose computed size fits [buflen] fits the buffer. *)
Lemma packet_fits h body p buflen (mem : list Z) :
  zlen body <= max_remaining_length ->
  MQTTPacket_len (zlen body) <= buflen -> Z.of_nat p + buflen <= zlen mem ->
  (p + length (wire_packet h body) <= length mem)%nat.
Proof.
  intros Hmax Hfit Hbuf.
  pose proof (MQTTPacket_len_bound (zlen body) (conj (zlen_nonneg _) Hmax)).
  pose proof (zlen_wire_packet h body). unfold zlen in *. lia.
Qed.

Lemma zlen_wire_string s : zlen (wire_string s) = 2 + zlen s.
Proof. unfold wire_string, be16. autorewrite with zlen. lia. Qed.

Lemma emits_when (c : bool) m bs :
  (c = true -> emits m bs tt) -> emits (when c m) (if c then bs else []) tt.
Proof. destruct c; intros H; [by apply H|apply emits_ret]. Qed.

(** ** Bit-fields of the header byte *)

Lemma land_1 x : Z.land x 1 = x mod 2.
Proof. by apply (Z.land_ones x 1). Qed.
Lemma land_3 x : Z.land x 3 = x mod 4.
Proof. by apply (Z.land_ones x 2). Qed.
Lemma land_15 x : Z.land x 15 = x mod 16.
Proof. by apply (Z.land_ones x 4). Qed.

Lemma header_fields t d q r :
  0 <= t < 16 -> 0 <= d < 2 -> 0 <= q < 4 -> 0 <= r < 2 ->
  let b := 16 * t + 8 * d + 2 * q + r in
  Header.get_type b = t /\ Header.get_dup b = d /\ Header.get_qos b = q /\ Header.get_retain b = r.
Proof.
  intros Ht Hd Hq Hr b. unfold Header.get_type, Header.get_dup, Header.get_qos, Header.get_retain.
  rewrite !land_1, land_3, land_15, !Z.shiftr_div_pow2 by lia.
  change (2 ^ 4) with 16. change (2 ^ 3) with 8. change (2 ^ 1) with 2.
  subst b. repeat split; Z.to_euclidean_division_equations; lia.
Qed.

Lemma header_set t d q r :
  0 <= t < 16 -> 0 <= d < 2 -> 0 <= q < 4 -> 0 <= r < 2 ->
  Header.set_retain r (Header.set_qos q (Header.set_dup d (Header.set_type t 0)))
  = 16 * t + 8 * d + 2 * q + r.
Proof.
  intros Ht Hd Hq Hr.
  assert (H : forallb (fun t => forallb (fun d => forallb (fun q => forallb (fun r =>
    Header.set_retain r (Header.set_qos q (Header.set_dup d (Header.set_type t 0)))
    =? 16 * t + 8 * d + 2 * q + r) (seqZ 0 2)) (seqZ 0 4)) (seqZ 0 2)) (seqZ 0 16) = true)
    by (vm_compute; reflexivity).
  apply Z.eqb_eq.
  apply (forallb_seqZ _ _ t) in H; [|done]. cbv beta in H.
  apply (forallb_seqZ _ _ d) in H; [|done]. cbv beta in H.
  apply (forallb_seqZ _ _ q) in H; [|done]. cbv beta in H.
  by apply (forallb_seqZ _ _ r) in H.
Qed.

(** ** The readers return

    No reader hangs, whatever is in the buffer, and no reader changes the
    buffer. *)

Lemma returns_readChar c :
  returns readChar c (fun _ c' => c' = Cursor (cmem c) (S (cptr c))).
Proof.
  unfold readChar. eapply returns_bind; [apply returns_getptr|]. intros p ? [-> ->].
  eapply returns_bind; [apply returns_load|]. intros b ? ->. done.
Qed.

Lemma returns_load_byte a c :
  bytes (cmem c) -> returns (load a) c (fun b c' => c' = c /\ is_byte b).
Proof.
  intros Hb. unfold returns, load. destruct (cmem c !! a) eqn:E; [|done].
  split; [done|]. by eapply Forall_lookup_1 in Hb.
Qed.

Lemma returns_readInt c :
  bytes (cmem c) ->
  returns readInt c (fun n c' => 0 <= n < 65536 /\ c' = Cursor (cmem c) (cptr c + 2)).
Proof.
  intros Hb. unfold readInt. eapply returns_bind; [apply returns_getptr|]. intros p ? [-> ->].
  eapply returns_bind; [by apply returns_load_byte|]. intros b ? [-> Hb1].
  eapply returns_bind; [by apply returns_load_byte|]. intros b' ? [-> Hb2].
  unfold is_byte in *. unfold returns. simpl. split; [lia|done].
Qed.

Lemma returns_decode_loop {Src} (getc : st Src (Z * Z)) (I : Src -> Prop) :
  (forall s, I s -> returns getc s (fun _ s' => I s')) ->
  forall fuel len mult value s, 0 <= len <= 4 -> 5 - len <= Z.of_nat fuel -> I s ->
  returns (decode_loop getc fuel len mult value) s (fun r s' => 0 <= r.1 <= 5 /\ I s').
Proof.
  intros Hg. induction fuel as [|fuel IH]; intros len mult value s Hl Hf Hs; [lia|].
  cbn [decode_loop]. unfold MAX_NUM_OF_REMAINING_LENGTH_BYTES.
  destruct (Z.ltb_spec 4 (len + 1)); [apply returns_ret; simpl; split; [lia|done]|].
  eapply returns_bind; [by apply Hg|]. intros [rc b] s' Hs'.
  case_if; [apply returns_ret; simpl; split; [lia|done]|].
  cbn zeta. case_if; [|apply returns_ret; simpl; split; [lia|done]]. apply IH; [lia|lia|done].
Qed.

Lemma returns_bufchar c : returns (bufchar 1) c (fun _ c' => cmem c' = cmem c).
Proof.
  unfold bufchar. change (Z.to_nat 1) with 1%nat. cbn [bufchar_loop].
  unfold returns, mbind, st_bind. simpl. unfold load. by destruct (cmem c !! cptr c).
Qed.

Lemma returns_decodeBuf q c :
  returns (MQTTPacket_decodeBuf q) c (fun r c' => 0 <= r.1 <= 5 /\ c' = c).
Proof.
  unfold MQTTPacket_decodeBuf. eapply returns_bind; [apply returns_getptr|]. intros p ? [-> ->].
  eapply returns_bind; [apply returns_setptr|]. intros _ ? ->.
  eapply returns_bind.
  { apply (returns_decode_loop (bufchar 1) (fun s => cmem s = cmem c)); [|lia|lia|done].
    intros s Hs. eapply returns_mono; [apply returns_bufchar|]. simpl. congruence. }
  intros r s [Hr Hm]. simpl in Hm. eapply returns_bind; [apply returns_setptr|].
  intros _ ? ->. apply returns_ret. split; [done|]. rewrite Hm. by destruct c.
Qed.

Lemma returns_decode_length c :
  returns decode_length c
    (fun r c' => exists k, 0 <= k <= 5 /\ c' = Cursor (cmem c) (cptr c + Z.to_nat k)).
Proof.
  unfold decode_length. eapply returns_bind; [apply returns_getptr|]. intros q ? [-> ->].
  eapply returns_bind; [apply returns_decodeBuf|]. intros r ? [Hr ->].
  eapply returns_bind; [apply returns_advance|]. intros _ ? ->.
  apply returns_ret. exists r.1. split; [done|]. f_equal. lia.
Qed.

(** The pointer does not move back, and moves on success. *)
Lemma returns_readMQTTLenString old enddata c :
  bytes (cmem c) ->
  returns (readMQTTLenString old enddata) c
    (fun r c' => cmem c' = cmem c /\ (cptr c <= cptr c')%nat /\
                 (r.1 = 0 \/ r.1 = 1 /\ (cptr c + 2 <= cptr c')%nat)).
Proof.
  intros Hb. unfold readMQTTLenString.
  eapply returns_bind; [apply returns_getptr|]. intros p ? [-> ->].
  case_if; [|apply returns_ret; simpl; auto with lia].
  eapply returns_bind; [by apply returns_readInt|]. intros n ? [Hn ->].
  eapply returns_bind; [apply returns_getptr|]. intros p ? [-> ->].
  case_if; [|apply returns_ret; simpl; auto with lia].
  eapply returns_bind; [apply returns_advance|]. intros _ ? ->.
  apply returns_ret. simpl. repeat split; [lia|]. right. split; [done|lia].
Qed.
