(* ===== verification/MqttPublish.v ===== *)
(** * PUBLISH and acknowledgement packets

    [src/src/mqtt/packet/iot_mqtt_serialize_publish.c] and
    [iot_mqtt_deserialize_publish.c]: the serializers and deserializers, what
    they write in terms of the wire format, and the round trips. *)

From S2P Require Import Prelude Cursor MqttPacket MqttCodec.

(** ** Serializers *)

Definition MQTTSerialize_publishLength (qos : Z) (topicName : MQTTString) (payloadlen : Z) : Z :=
  let len := 2 + MQTTstrlen topicName + payloadlen in
  if 0 <? qos then len + 2 else len.

(** The header byte of a PUBLISH packet, assigned field by field. *)
Definition publish_header (dup qos retained : Z) : Z :=
  Header.set_retain retained (Header.set_qos qos (Header.set_dup dup (Header.set_type PUBLISH 0))).

Definition MQTTSerialize_publish (buflen dup qos retained packetid : Z)
    (topicName : MQTTString) (payload : dataptr) (payloadlen : Z) : st cursor Z :=
  buf ← getptr;
  let rem_len := MQTTSerialize_publishLength qos topicName payloadlen in
  if buflen <? MQTTPacket_len rem_len then mret MQTTPACKET_BUFFER_TOO_SHORT
  else
    writeChar (publish_header dup qos retained);;
    (p ← getptr; k ← MQTTPacket_encode p rem_len; advance k);;
    writeMQTTString topicName;;
    when (0 <? qos) (writeInt packetid);;
    mem ← gets cmem;
    src ← need (deref mem payload payloadlen);
    (memcpy_here src;; advance payloadlen);;
    ptr ← getptr;
    mret (Z.of_nat ptr - Z.of_nat buf).

Definition MQTTSerialize_publish_size (qos : Z) (topicName : MQTTString) (payloadlen : Z) : Z :=
  MQTTPacket_len (MQTTSerialize_publishLength qos topicName payloadlen).

Definition MQTTSerialize_publish_header (dup qos retained packetid : Z)
    (topicName : MQTTString) (payloadlen : Z) : st cursor Z :=
  buf ← getptr;
  let rem_len := MQTTSerialize_publishLength qos topicName payloadlen in
  writeChar (publish_header dup qos retained);;
  (p ← getptr; k ← MQTTPacket_encode p rem_len; advance k);;
  writeMQTTString topicName;;
  when (0 <? qos) (writeInt packetid);;
  ptr ← getptr;
  mret (Z.of_nat ptr - Z.of_nat buf).

Definition ack_header (packettype dup : Z) : Z :=
  Header.set_qos (if packettype =? PUBREL then 1 else 0)
    (Header.set_dup dup (Header.set_type packettype 0)).

Definition MQTTSerialize_ack (buflen packettype dup packetid : Z) : st cursor Z :=
  buf ← getptr;
  if buflen <? 4 then mret MQTTPACKET_BUFFER_TOO_SHORT
  else
    writeChar (ack_header packettype dup);;
    (p ← getptr; k ← MQTTPacket_encode p 2; advance k);;
    writeInt packetid;;
    ptr ← getptr;
    mret (Z.of_nat ptr - Z.of_nat buf).

Definition MQTTSerialize_puback (buflen packetid : Z) : st cursor Z :=
  MQTTSerialize_ack buflen PUBACK 0 packetid.
Definition MQTTSerialize_pubrel (buflen dup packetid : Z) : st cursor Z :=
  MQTTSerialize_ack buflen PUBREL dup packetid.
Definition MQTTSerialize_pubcomp (buflen packetid : Z) : st cursor Z :=
  MQTTSerialize_ack buflen PUBCOMP 0 packetid.

(** ** Deserializers

    The results stored through pointers are the fields of a record that the
    function takes as the caller left it and returns with what it stored. *)

Record publish_out := {
  po_dup : Z; po_qos : Z; po_retained : Z; po_packetid : Z;
  po_topicName : MQTTString;
  po_payload : dataptr; po_payloadlen : Z
}.

Definition set_po_header (byte : Z) (o : publish_out) : publish_out :=
  {| po_dup := Header.get_dup byte; po_qos := Header.get_qos byte;
     po_retained := Header.get_retain byte;
     po_packetid := po_packetid o; po_topicName := po_topicName o;
     po_payload := po_payload o; po_payloadlen := po_payloadlen o |}.
Definition set_po_topicName (s : MQTTString) (o : publish_out) : publish_out :=
  {| po_dup := po_dup o; po_qos := po_qos o; po_retained := po_retained o;
     po_packetid := po_packetid o; po_topicName := s;
     po_payload := po_payload o; po_payloadlen := po_payloadlen o |}.
Definition set_po_packetid (id : Z) (o : publish_out) : publish_out :=
  {| po_dup := po_dup o; po_qos := po_qos o; po_retained := po_retained o;
     po_packetid := id; po_topicName := po_topicName o;
     po_payload := po_payload o; po_payloadlen := po_payloadlen o |}.
Definition set_po_payload (p : dataptr) (n : Z) (o : publish_out) : publish_out :=
  {| po_dup := po_dup o; po_qos := po_qos o; po_retained := po_retained o;
     po_packetid := po_packetid o; po_topicName := po_topicName o;
     po_payload := p; po_payloadlen := n |}.

Definition MQTTDeserialize_publish (o : publish_out) : st cursor (Z * publish_out) :=
  byte ← readChar;
  if negb (Header.get_type byte =? PUBLISH) then mret (0, o)
  else
    let o := set_po_header byte o in
    '(rc, mylen) ← decode_length;
    curdata ← getptr;
    let enddata := Z.of_nat curdata + mylen in
    '(ok, topicName) ← readMQTTLenString (po_topicName o) enddata;
    curdata ← getptr;
    let o := set_po_topicName topicName o in
    if (ok =? 0) || (enddata - Z.of_nat curdata <? 0) then mret (rc, o)
    else
      o ← (if 0 <? po_qos o
           then id ← readInt; mret (set_po_packetid (to_ushort id) o)
           else mret o);
      curdata ← getptr;
      mret (1, set_po_payload (BufPtr curdata) (enddata - Z.of_nat curdata) o).

Record ack_out := { ao_packettype : Z; ao_dup : Z; ao_packetid : Z }.

Definition MQTTDeserialize_ack (o : ack_out) : st cursor (Z * ack_out) :=
  byte ← readChar;
  let o := {| ao_packettype := Header.get_type byte; ao_dup := Header.get_dup byte;
              ao_packetid := ao_packetid o |} in
  '(rc, mylen) ← decode_length;
  curdata ← getptr;
  let enddata := Z.of_nat curdata + mylen in
  if enddata - Z.of_nat curdata <? 2 then mret (rc, o)
  else
    id ← readInt;
    mret (1, {| ao_packettype := ao_packettype o; ao_dup := ao_dup o;
                ao_packetid := to_ushort id |}).

(** ** What the serializers write *)

Definition publish_body (qos packetid : Z) (topic payload : list Z) : list Z :=
  wire_string topic ++ (if 0 <? qos then be16 packetid else []) ++ payload.

(** A PUBLISH packet of the MQTT specification. *)
Definition wire_publish (dup qos retained packetid : Z) (topic payload : list Z) : list Z :=
  wire_packet (16 * PUBLISH + 8 * dup + 2 * qos + retained) (publish_body qos packetid topic payload).

(** An acknowledgement with a packet identifier. *)
Definition wire_ack (packettype dup packetid : Z) : list Z :=
  wire_packet (16 * packettype + 8 * dup + (if packettype =? PUBREL then 2 else 0)) (be16 packetid).

Lemma zlen_publish_body qos pid topic payload :
  zlen (publish_body qos pid topic payload)
  = (if 0 <? qos then 2 else 0) + (2 + zlen topic + zlen payload).
Proof.
  unfold publish_body. rewrite !zlen_app, zlen_wire_string. case_if; unfold be16;
    autorewrite with zlen; lia.
Qed.

(** Arguments a caller may pass. *)
Record publish_args (dup qos retained packetid : Z) (topicName : MQTTString) (topic : list Z)
    (payload : dataptr) (data : list Z) : Prop := {
  pa_dup : 0 <= dup < 2;
  pa_qos : 0 <= qos < 4;
  pa_retained : 0 <= retained < 2;
  pa_packetid : 0 <= packetid < 65536;
  pa_topic : str_rep topicName topic;
  pa_topic_len : zlen topic < 65536;
  pa_payload : forall mem, deref mem payload (zlen data) = Some data
}.

Lemma publishLength_body dup qos retained pid topicName topic payload data :
  publish_args dup qos retained pid topicName topic payload data ->
  MQTTSerialize_publishLength qos topicName (zlen data) = zlen (publish_body qos pid topic data).
Proof.
  intros H. unfold MQTTSerialize_publishLength.
  rewrite (MQTTstrlen_rep _ topic) by apply H. rewrite zlen_publish_body. case_if; lia.
Qed.

Lemma publish_header_byte dup qos retained :
  0 <= dup < 2 -> 0 <= qos < 4 -> 0 <= retained < 2 ->
  to_uchar (publish_header dup qos retained) = 16 * PUBLISH + 8 * dup + 2 * qos + retained.
Proof.
  intros. unfold publish_header. rewrite header_set by (unfold PUBLISH; lia).
  apply to_uchar_id. unfold is_byte, PUBLISH. lia.
Qed.

(** The part of the packet in front of the payload. *)
Lemma emits_publish_front {B} dup qos retained pid topicName topic payload data n (k : st cursor B) p bs b :
  publish_args dup qos retained pid topicName topic payload data ->
  0 <= n <= max_remaining_length ->
  (forall q, Z.of_nat q = Z.of_nat p + (1 + zlen (varint n) + zlen (wire_string topic) +
                                        (if 0 <? qos then 2 else 0)) ->
             emits_at q k bs b) ->
  emits_at p
    (writeChar (publish_header dup qos retained);;
     (p ← getptr; k ← MQTTPacket_encode p n; advance k);;
     writeMQTTString topicName;;
     when (0 <? qos) (writeInt pid);; k)
    ((16 * PUBLISH + 8 * dup + 2 * qos + retained) :: varint n ++ wire_string topic ++
     (if 0 <? qos then be16 pid else []) ++ bs) b.
Proof.
  intros [] Hn Hk.
  apply (emits_at_bind _ _ _ [_] _ tt); [rewrite <- publish_header_byte by done; apply emits_writeChar|].
  eapply emits_at_bind; [by apply emits_encode|].
  eapply emits_at_bind; [by apply emits_writeMQTTString|].
  eapply emits_at_bind; [apply emits_when; intros _; by apply emits_writeInt|].
  apply Hk. unfold zlen. simpl length. case_if; simpl length; lia.
Qed.

(** [MQTTSerialize_publish] refines the wire format and respects its
    buffer.  When the size it computes fits [buflen] (and [buflen] is the size
    of a buffer the caller owns), it writes exactly the PUBLISH packet of the
    specification at the pointer, touches nothing else and returns the
    packet's length; otherwise it returns [MQTTPACKET_BUFFER_TOO_SHORT] and
    writes nothing.  There is no access outside the buffer. *)
Theorem MQTTSerialize_publish_correct dup qos retained pid topicName topic payload data buflen mem p :
  publish_args dup qos retained pid topicName topic payload data ->
  zlen (publish_body qos pid topic data) <= max_remaining_length ->
  Z.of_nat p + buflen <= zlen mem ->
  MQTTSerialize_publish buflen dup qos retained pid topicName payload (zlen data) (Cursor mem p)
  = let wire := wire_publish dup qos retained pid topic data in
    if buflen <? MQTTPacket_len (zlen (publish_body qos pid topic data))
    then Ret (MQTTPACKET_BUFFER_TOO_SHORT, Cursor mem p)
    else Ret (zlen wire, Cursor (put mem p wire) (p + length wire)).
Proof.
  intros Ha Hmax Hbuf. unfold MQTTSerialize_publish. rewrite bind_getptr. cbn zeta.
  rewrite (publishLength_body _ _ _ _ _ _ _ _ Ha).
  set (n := zlen (publish_body qos pid topic data)) in *.
  assert (Hn : 0 <= n <= max_remaining_length) by (split; [apply zlen_nonneg|done]).
  destruct (Z.ltb_spec buflen (MQTTPacket_len n)) as [|Hfit]; [done|].
  assert (He : emits_at p
    (writeChar (publish_header dup qos retained);;
     (p ← getptr; k ← MQTTPacket_encode p n; advance k);;
     writeMQTTString topicName;;
     when (0 <? qos) (writeInt pid);;
     mem ← gets cmem; src ← need (deref mem payload (zlen data));
     (memcpy_here src;; advance (zlen data));;
     ptr ← getptr; mret (Z.of_nat ptr - Z.of_nat p))
    (wire_publish dup qos retained pid topic data)
    (zlen (wire_publish dup qos retained pid topic data))).
  { unfold wire_publish, wire_packet at 1, publish_body at 2. fold n.
    apply (emits_publish_front _ _ _ _ _ _ _ _ _ _ _ _ _ Ha Hn). intros q Hq mem' Hle.
    unfold mbind at 1, st_bind at 1, gets at 1. simpl cmem.
    rewrite (pa_payload _ _ _ _ _ _ _ _ Ha).
    revert mem' Hle. refine (emits_at_bind_nil _ _ _ _ tt _ _ _);
      [by apply emits_memcpy_advance|].
    apply emits_at_rc. rewrite zlen_wire_packet. fold n. unfold n at 2.
    rewrite zlen_publish_body, zlen_wire_string in *. unfold zlen in *. lia. }
  apply He. by eapply packet_fits.
Qed.

(** ** Reading a PUBLISH packet back *)

(** [if (qos > 0) packetid = readInt(&curdata)] when the identifier is there. *)
Lemma reads_packetid p qos pid o :
  0 <= pid < 65536 -> po_qos o = qos ->
  reads_at p (if 0 <? po_qos o then id ← readInt; mret (set_po_packetid (to_ushort id) o) else mret o)
    (if 0 <? qos then be16 pid else [])
    (if 0 <? qos then set_po_packetid pid o else o).
Proof.
  intros Hpid ->. case_if; [|apply reads_ret].
  eapply reads_bind_nil; [by apply reads_readInt|].
  unfold to_ushort. rewrite Z.mod_small by done. apply reads_ret.
Qed.

(** The packet up to its payload. *)
Definition publish_front (dup qos retained pid n : Z) (topic : list Z) : list Z :=
  (16 * PUBLISH + 8 * dup + 2 * qos + retained) :: varint n ++ wire_string topic ++
  (if 0 <? qos then be16 pid else []).

Lemma wire_publish_front dup qos retained pid topic payload :
  wire_publish dup qos retained pid topic payload
  = publish_front dup qos retained pid (zlen (publish_body qos pid topic payload)) topic ++ payload.
Proof.
  unfold wire_publish, wire_packet, publish_front, publish_body.
  cbn [app]. f_equal. by rewrite <- !(app_assoc (varint _)), <- !(app_assoc (wire_string _)).
Qed.

(** The fields [MQTTDeserialize_publish] stores for a packet at offset [p]
    whose remaining length is [n]. *)
Definition publish_fields (p : nat) (dup qos retained pid n : Z) (topic : list Z) (payloadlen : Z)
    (o : publish_out) : publish_out :=
  let body := (p + 1 + length (varint n))%nat in
  {| po_dup := dup; po_qos := qos; po_retained := retained;
     po_packetid := if 0 <? qos then pid else po_packetid o;
     po_topicName := in_buf (body + 2) (zlen topic);
     po_payload := BufPtr (body + length (wire_string topic) + (if 0 <? qos then 2 else 0));
     po_payloadlen := payloadlen |}.

Lemma reads_publish p dup qos retained pid n topic payloadlen o :
  0 <= dup < 2 -> 0 <= qos < 4 -> 0 <= retained < 2 -> 0 <= pid < 65536 ->
  zlen topic < 65536 -> 0 <= n <= max_remaining_length -> 0 <= payloadlen ->
  n = (if 0 <? qos then 2 else 0) + (2 + zlen topic + payloadlen) ->
  reads_at p (MQTTDeserialize_publish o)
    (publish_front dup qos retained pid n topic)
    (1, publish_fields p dup qos retained pid n topic payloadlen o).
Proof.
  intros Hd Hq Hr Hpid Ht Hn Hp Hlen.
  destruct (header_fields PUBLISH dup qos retained ltac:(unfold PUBLISH; lia) Hd Hq Hr)
    as (Et & Ed & Eq & Er).
  assert (Hw : Z.of_nat (length (wire_string topic)) = 2 + zlen topic) by apply zlen_wire_string.
  unfold MQTTDeserialize_publish, publish_front.
  eapply (reads_bind _ _ _ [_]); [apply reads_readChar|]. cbn beta.
  rewrite Et, Z.eqb_refl. cbn [negb].
  eapply reads_bind; [by apply reads_decode_length|]. cbn beta iota.
  apply reads_getptr.
  eapply reads_bind.
  { apply reads_readMQTTLenString; [done|]. destruct (0 <? qos); simpl length; lia. }
  cbn beta iota. apply reads_getptr. simpl length.
  rewrite (proj2 (Z.ltb_ge _ 0)) by (simpl length in *; destruct (0 <? qos); lia).
  cbn [orb Z.eqb].
  eapply reads_bind_nil; [apply (reads_packetid _ qos); [done|exact Eq]|]. cbn beta.
  apply reads_getptr.
  match goal with |- reads_at _ (mret (1, ?a)) _ (1, ?b) => replace b with a; [apply reads_ret|] end.
  unfold publish_fields, set_po_payload, set_po_packetid, set_po_topicName, set_po_header.
  rewrite Ed, Eq, Er. simpl length in *.
  destruct (0 <? qos); simpl; f_equal; (lia || f_equal; lia).
Qed.

(** What the deserializer finds in a PUBLISH packet. *)
Lemma deserialize_wire_publish dup qos retained pid topic payload o pre post :
  0 <= dup < 2 -> 0 <= qos < 4 -> 0 <= retained < 2 -> 0 <= pid < 65536 ->
  zlen topic < 65536 ->
  zlen (publish_body qos pid topic payload) <= max_remaining_length ->
  let mem := pre ++ wire_publish dup qos retained pid topic payload ++ post in
  exists o' c',
    MQTTDeserialize_publish o (Cursor mem (length pre)) = Ret ((1, o'), c') /\
    po_dup o' = dup /\ po_qos o' = qos /\ po_retained o' = retained /\
    po_packetid o' = (if 0 <? qos then pid else po_packetid o) /\
    cstring (po_topicName o') = None /\
    deref mem (ls_data (lenstring (po_topicName o'))) (ls_len (lenstring (po_topicName o'))) = Some topic /\
    deref mem (po_payload o') (po_payloadlen o') = Some payload.
Proof.
  intros Hd Hq Hr Hpid Ht Hmax mem.
  set (n := zlen (publish_body qos pid topic payload)) in *.
  assert (Hn : n = (if 0 <? qos then 2 else 0) + (2 + zlen topic + zlen payload))
    by apply zlen_publish_body.
  pose proof (zlen_nonneg topic). pose proof (zlen_nonneg payload).
  pose proof (reads_publish (length pre) dup qos retained pid n topic (zlen payload) o
    Hd Hq Hr Hpid Ht ltac:(destruct (0 <? qos); lia) ltac:(lia) Hn pre (payload ++ post) eq_refl) as E.
  subst mem. rewrite wire_publish_front. fold n. rewrite <- app_assoc.
  do 2 eexists. split; [exact E|]. do 5 (split; [reflexivity|]). simpl.
  unfold publish_front.
  split.
  - match goal with |- deref ?m _ _ = _ => replace m with
      ((pre ++ (16 * PUBLISH + 8 * dup + 2 * qos + retained) :: varint n ++ be16 (zlen topic)) ++
       topic ++ (if 0 <? qos then be16 pid else []) ++ payload ++ post) end.
    + apply deref_mid; [|done]. unfold be16. simpl_length. lia.
    + unfold wire_string. rewrite <- !app_assoc. simpl. by rewrite <- !app_assoc.
  - match goal with |- deref ?m _ _ = _ => replace m with
      ((pre ++ (16 * PUBLISH + 8 * dup + 2 * qos + retained) :: varint n ++ wire_string topic ++
        (if 0 <? qos then be16 pid else [])) ++ payload ++ post) end.
    + apply deref_mid; [|done]. unfold wire_string, be16. simpl_length.
      destruct (0 <? qos); simpl; lia.
    + by rewrite <- app_assoc.
Qed.

(** C39: PUBLISH round trip.  With a buffer that the caller owns and that is at
    least as long as [MQTTSerialize_publish_size] says, what
    [MQTTSerialize_publish] writes is read back by [MQTTDeserialize_publish]
    from the same place: it returns 1, the flags, the packet identifier (for QoS
    above 0), a topic and a payload that point into the buffer at exactly the
    bytes of the topic and the payload that were given.  The bytes of the memory
    in front of the packet and behind it are not touched.  For arguments of the
    widths of their types, a payload outside the buffer, and a packet of at most
    [max_remaining_length] bytes behind its header. *)
Theorem publish_roundtrip dup qos retained pid topicName topic payload data buflen mem p o :
  publish_args dup qos retained pid topicName topic payload data ->
  zlen (publish_body qos pid topic data) <= max_remaining_length ->
  Z.of_nat p + buflen <= zlen mem -> MQTTSerialize_publish_size qos topicName (zlen data) <= buflen ->
  exists len mem',
    MQTTSerialize_publish buflen dup qos retained pid topicName payload (zlen data) (Cursor mem p)
      = Ret (len, Cursor mem' (p + Z.to_nat len)) /\
    0 < len <= buflen /\ take p mem' = take p mem /\ drop (p + Z.to_nat len) mem' = drop (p + Z.to_nat len) mem /\
    exists o' c',
      MQTTDeserialize_publish o (Cursor mem' p) = Ret ((1, o'), c') /\
      po_dup o' = dup /\ po_qos o' = qos /\ po_retained o' = retained /\
      po_packetid o' = (if 0 <? qos then pid else po_packetid o) /\
      cstring (po_topicName o') = None /\
      deref mem' (ls_data (lenstring (po_topicName o'))) (ls_len (lenstring (po_topicName o'))) = Some topic /\
      deref mem' (po_payload o') (po_payloadlen o') = Some data.
Proof.
  intros Ha Hmax Hbuf Hfit. unfold MQTTSerialize_publish_size in Hfit. rewrite (publishLength_body _ _ _ _ _ _ _ _ Ha) in Hfit.
  pose proof (MQTTSerialize_publish_correct _ _ _ _ _ _ _ _ _ _ _ Ha Hmax Hbuf) as E.
  cbv zeta in E. rewrite (proj2 (Z.ltb_ge _ _) Hfit) in E.
  set (wire := wire_publish dup qos retained pid topic data) in *.
  assert (0 < zlen wire <= buflen) as Hw.
  { unfold wire, wire_publish. rewrite zlen_wire_packet. pose proof (zlen_nonneg (publish_body qos pid topic data)) as H0.
    pose proof (MQTTPacket_len_bound _ (conj H0 Hmax)). pose proof (zlen_nonneg (varint (zlen (publish_body qos pid topic data)))). lia. }
  assert (length (take p mem) = p) as Hp by (rewrite length_take; unfold zlen in *; lia).
  exists (zlen wire), (put mem p wire). unfold zlen in *. rewrite Nat2Z.id. split; [exact E|]. split; [done|]. unfold put.
  split; [by apply take_app_length'|]. split.
  { rewrite app_assoc. apply drop_app_length'. rewrite length_app. lia. }
  destruct Ha. pose proof (deserialize_wire_publish dup qos retained pid topic data o (take p mem) (drop (p + length wire) mem)) as Hd.
  rewrite Hp in Hd. by apply Hd.
Qed.

(** ** Acknowledgements *)

Lemma ack_header_byte packettype dup :
  0 <= packettype < 16 -> 0 <= dup < 2 ->
  to_uchar (ack_header packettype dup)
  = 16 * packettype + 8 * dup + (if packettype =? PUBREL then 2 else 0).
Proof.
  intros Ht Hd.
  assert (H : forallb (fun t => forallb (fun d =>
      to_uchar (ack_header t d) =? 16 * t + 8 * d + (if t =? PUBREL then 2 else 0))
      (seqZ 0 2)) (seqZ 0 16) = true) by (vm_compute; reflexivity).
  apply (forallb_seqZ _ _ packettype) in H; [|done]. cbv beta in H.
  apply (forallb_seqZ _ _ dup) in H; [|done]. by apply Z.eqb_eq.
Qed.

Lemma zlen_wire_ack t d pid : zlen (wire_ack t d pid) = 4.
Proof. reflexivity. Qed.

(** [MQTTSerialize_ack] (and so [MQTTSerialize_puback], [_pubrel] and
    [_pubcomp]) writes exactly the four bytes of the acknowledgement and
    nothing else, and reports a buffer of less than four bytes. *)
Theorem MQTTSerialize_ack_correct packettype dup pid buflen mem p :
  0 <= packettype < 16 -> 0 <= dup < 2 -> 0 <= pid < 65536 ->
  Z.of_nat p + buflen <= zlen mem ->
  MQTTSerialize_ack buflen packettype dup pid (Cursor mem p)
  = if buflen <? MQTT_ACK_PACKET_SIZE
    then Ret (MQTTPACKET_BUFFER_TOO_SHORT, Cursor mem p)
    else Ret (4, Cursor (put mem p (wire_ack packettype dup pid)) (p + 4)).
Proof.
  intros Ht Hd Hpid Hbuf. unfold MQTTSerialize_ack, MQTT_ACK_PACKET_SIZE. rewrite bind_getptr.
  destruct (Z.ltb_spec buflen 4) as [|Hfit]; [done|].
  assert (He : emits_at p
    (writeChar (ack_header packettype dup);;
     (p ← getptr; k ← MQTTPacket_encode p 2; advance k);;
     writeInt pid;; ptr ← getptr; mret (Z.of_nat ptr - Z.of_nat p))
    (wire_ack packettype dup pid) 4).
  { unfold wire_ack, wire_packet.
    apply (emits_at_bind _ _ _ [_] _ tt); [rewrite <- ack_header_byte by done; apply emits_writeChar|].
    eapply emits_at_bind; [apply emits_encode; unfold max_remaining_length, zlen; simpl; lia|].
    eapply emits_at_bind_nil; [by apply emits_writeInt|].
    apply emits_at_rc. simpl length. lia. }
  apply He. unfold zlen in *. simpl. lia.
Qed.

(** Acknowledgement round trip: what [MQTTSerialize_ack] writes is read
    back by [MQTTDeserialize_ack] with result 1 and the same type, DUP flag
    and packet identifier. *)
Theorem ack_roundtrip packettype dup pid o pre post :
  0 <= packettype < 16 -> 0 <= dup < 2 -> 0 <= pid < 65536 ->
  let mem := pre ++ wire_ack packettype dup pid ++ post in
  MQTTDeserialize_ack o (Cursor mem (length pre))
  = Ret ((1, {| ao_packettype := packettype; ao_dup := dup; ao_packetid := pid |}),
         Cursor mem (length pre + 4)).
Proof.
  intros Ht Hd Hpid.
  assert (H : reads_at (length pre) (MQTTDeserialize_ack o) (wire_ack packettype dup pid)
    (1, {| ao_packettype := packettype; ao_dup := dup; ao_packetid := pid |})).
  { set (q := if packettype =? PUBREL then 1 else 0).
    assert (Hb : 16 * packettype + 8 * dup + (if packettype =? PUBREL then 2 else 0)
                 = 16 * packettype + 8 * dup + 2 * q + 0) by (subst q; case_if; lia).
    unfold wire_ack, wire_packet. rewrite Hb.
    destruct (header_fields packettype dup q 0 Ht Hd ltac:(subst q; case_if; lia) ltac:(lia))
      as (Et & Ed & _ & _).
    unfold MQTTDeserialize_ack.
    eapply (reads_bind _ _ _ [_]); [apply reads_readChar|]. cbn beta zeta.
    eapply reads_bind; [apply reads_decode_length; unfold max_remaining_length, zlen; simpl; lia|].
    cbn beta iota. apply reads_getptr.
    rewrite (proj2 (Z.ltb_ge _ _)) by (unfold zlen; simpl; lia).
    eapply reads_bind_nil; [by apply reads_readInt|]. cbn beta.
    rewrite Et, Ed. unfold to_ushort. rewrite Z.mod_small by done. apply reads_ret. }
  by apply H.
Qed.

(** ** Malformed packets *)

(** A PUBLISH packet that is too short for its topic is not reported as a
    failure: [MQTTDeserialize_publish] returns the number of bytes of the
    remaining length, which is 1 -- the value that means success -- for every
    packet of less than 128 bytes, and the topic, payload and identifier keep
    the values the caller's variables had. *)
Theorem publish_without_topic_is_success byte o rest :
  Header.get_type byte = PUBLISH ->
  MQTTDeserialize_publish o (Cursor (byte :: 0 :: rest) 0)
  = Ret ((1, set_po_topicName
               {| cstring := None; lenstring := lenstring (po_topicName o) |} (set_po_header byte o)),
         Cursor (byte :: 0 :: rest) 2).
Proof.
  intros Ht. unfold MQTTDeserialize_publish.
  rewrite (bind_ret _ _ _ _ _ (reads_readChar 0 byte [] (0 :: rest) eq_refl)).
  rewrite Ht, Z.eqb_refl. cbn [negb].
  rewrite (bind_ret _ _ _ _ _
    (reads_decode_length 1 0 ltac:(unfold max_remaining_length; lia) [byte] rest eq_refl)).
  reflexivity.
Qed.

(** With QoS above 0 the packet identifier is read without looking at the
    remaining length: a PUBLISH packet that ends behind its topic makes
    [MQTTDeserialize_publish] read behind the packet (here: behind the
    buffer, which is exactly the packet). *)
Theorem publish_identifier_overread dup qos retained topic o :
  0 <= dup < 2 -> 0 < qos < 4 -> 0 <= retained < 2 -> zlen topic < 65536 ->
  MQTTDeserialize_publish o
    (Cursor (wire_packet (16 * PUBLISH + 8 * dup + 2 * qos + retained) (wire_string topic)) 0)
  = Undef.
Proof.
  intros Hd Hq Hr Ht. pose proof (zlen_nonneg topic).
  assert (Hw : zlen (wire_string topic) = 2 + zlen topic) by apply zlen_wire_string.
  destruct (header_fields PUBLISH dup qos retained ltac:(unfold PUBLISH; lia) Hd ltac:(lia) Hr)
    as (Et & Ed & Eq & Er).
  unfold MQTTDeserialize_publish, wire_packet.
  set (h := 16 * PUBLISH + 8 * dup + 2 * qos + retained) in *.
  set (n := zlen (wire_string topic)) in *.
  rewrite (bind_ret _ _ _ _ _ (reads_readChar 0 h [] (varint n ++ wire_string topic) eq_refl)).
  rewrite Et, Z.eqb_refl. cbn [negb].
  rewrite (bind_ret _ _ _ _ _ (reads_decode_length 1 n
    ltac:(unfold max_remaining_length; lia) [h] (wire_string topic) eq_refl)).
  cbn beta iota. rewrite bind_getptr.
  pose proof (reads_readMQTTLenString (1 + length (varint n)) topic
    (po_topicName (set_po_header h o)) (Z.of_nat (1 + length (varint n)) + n) Ht ltac:(lia)
    (h :: varint n) [] eq_refl) as E.
  rewrite app_nil_r in E. cbn [app] in E.
  rewrite (bind_ret _ _ _ _ _ E). cbn beta iota. rewrite bind_getptr.
  change (1 =? 0) with false. cbn [orb].
  assert (Hl : length (wire_string topic) = Z.to_nat n) by (unfold n, zlen; lia).
  rewrite (proj2 (Z.ltb_ge _ 0)) by (unfold n, zlen; lia).
  cbn [set_po_topicName set_po_header po_qos]. rewrite Eq, (proj2 (Z.ltb_lt 0 qos)) by lia.
  do 2 apply bind_undef. apply readInt_oob. simpl_length. lia.
Qed.

(** ** Concrete instances *)

Lemma publish_args_example : publish_args 0 1 0 7 (mem_string [97; 47; 98]) [97; 47; 98] (MemPtr [1; 2]) [1; 2].
Proof.
  split; try (unfold zlen; simpl; lia); [apply mem_string_rep|intros mem; reflexivity].
Qed.

Lemma MQTTSerialize_publish_correct_witness :
  MQTTSerialize_publish 20 0 1 0 7 (mem_string [97; 47; 98]) (MemPtr [1; 2]) 2 (Cursor (replicate 20 0) 0)
  = Ret (11, Cursor (put (replicate 20 0) 0 [50; 9; 0; 3; 97; 47; 98; 0; 7; 1; 2]) 11).
Proof.
  refine (MQTTSerialize_publish_correct 0 1 0 7 (mem_string [97; 47; 98]) [97; 47; 98] (MemPtr [1; 2]) [1; 2]
    20 (replicate 20 0) 0 publish_args_example _ _); vm_compute; discriminate.
Defined.

(** Into the middle of 20 bytes. *)
Lemma publish_roundtrip_witness :
  let o := {| po_dup := 0; po_qos := 0; po_retained := 0; po_packetid := 0;
              po_topicName := MQTTString_initializer; po_payload := NullPtr; po_payloadlen := 0 |} in
  exists len mem',
    MQTTSerialize_publish 12 0 1 0 7 (mem_string [97; 47; 98]) (MemPtr [1; 2]) 2 (Cursor (replicate 20 0) 4)
      = Ret (len, Cursor mem' (4 + Z.to_nat len)) /\
    0 < len <= 12 /\ take 4 mem' = take 4 (replicate 20 0) /\
    drop (4 + Z.to_nat len) mem' = drop (4 + Z.to_nat len) (replicate 20 0) /\
    exists o' c',
      MQTTDeserialize_publish o (Cursor mem' 4) = Ret ((1, o'), c') /\
      po_dup o' = 0 /\ po_qos o' = 1 /\ po_retained o' = 0 /\ po_packetid o' = 7 /\
      cstring (po_topicName o') = None /\
      deref mem' (ls_data (lenstring (po_topicName o'))) (ls_len (lenstring (po_topicName o'))) = Some [97; 47; 98] /\
      deref mem' (po_payload o') (po_payloadlen o') = Some [1; 2].
Proof.
  intros o. apply (publish_roundtrip 0 1 0 7 (mem_string [97; 47; 98]) [97; 47; 98] (MemPtr [1; 2]) [1; 2] 12 (replicate 20 0) 4 o
    publish_args_example); vm_compute; discriminate.
Defined.

Lemma MQTTSerialize_ack_correct_witness :
  MQTTSerialize_ack 4 PUBREL 0 258 (Cursor [0; 0; 0; 0] 0) = Ret (4, Cursor [98; 2; 1; 2] 4).
Proof.
  refine (MQTTSerialize_ack_correct PUBREL 0 258 4 [0; 0; 0; 0] 0 _ _ _ _); vm_compute; (split || idtac); (done || discriminate).
Defined.

Lemma ack_roundtrip_witness :
  MQTTDeserialize_ack {| ao_packettype := 0; ao_dup := 0; ao_packetid := 0 |}
    (Cursor ([7] ++ wire_ack PUBACK 0 258 ++ []) 1)
  = Ret ((1, {| ao_packettype := PUBACK; ao_dup := 0; ao_packetid := 258 |}),
         Cursor ([7] ++ wire_ack PUBACK 0 258 ++ []) 5).
Proof. apply (ack_roundtrip PUBACK 0 258 _ [7] []); unfold PUBACK; lia. Defined.

Lemma publish_without_topic_is_success_witness :
  MQTTDeserialize_publish
    {| po_dup := 0; po_qos := 0; po_retained := 0; po_packetid := 77;
       po_topicName := MQTTString_initializer; po_payload := NullPtr; po_payloadlen := 99 |}
    (Cursor [48; 0] 0)
  = Ret ((1, {| po_dup := 0; po_qos := 0; po_retained := 0; po_packetid := 77;
                po_topicName := MQTTString_initializer; po_payload := NullPtr; po_payloadlen := 99 |}),
         Cursor [48; 0] 2).
Proof. refine (publish_without_topic_is_success 48 _ [] _). reflexivity. Defined.

Lemma publish_identifier_overread_witness :
  MQTTDeserialize_publish
    {| po_dup := 0; po_qos := 0; po_retained := 0; po_packetid := 0;
       po_topicName := MQTTString_initializer; po_payload := NullPtr; po_payloadlen := 0 |}
    (Cursor [50; 3; 0; 1; 97] 0) = Undef.
Proof. refine (publish_identifier_overread 0 1 0 [97] _ _ _ _ _); unfold zlen; simpl; lia. Defined.
