(* ===== verification/MqttConnect.v ===== *)
(** * CONNECT, CONNACK and the empty packets

    [src/src/mqtt/packet/iot_mqtt_connect_client.c] and
    [iot_mqtt_connect_server.c], with the structures of [iot_mqtt_connect.h]. *)

From S2P Require Import Prelude Cursor MqttPacket MqttCodec.

(** ** Data *)

(** The union [MQTTConnectFlags]: bit 0 is unused. *)
Module ConnectFlags.
Definition get_cleansession (b : Z) : Z := Z.land (Z.shiftr b 1) 1.
Definition get_will (b : Z) : Z := Z.land (Z.shiftr b 2) 1.
Definition get_willQoS (b : Z) : Z := Z.land (Z.shiftr b 3) 3.
Definition get_willRetain (b : Z) : Z := Z.land (Z.shiftr b 5) 1.
Definition get_password (b : Z) : Z := Z.land (Z.shiftr b 6) 1.
Definition get_username (b : Z) : Z := Z.land (Z.shiftr b 7) 1.

Definition set_cleansession (v b : Z) : Z := Z.lor (Z.land b 253) (Z.shiftl (Z.land v 1) 1).
Definition set_will (v b : Z) : Z := Z.lor (Z.land b 251) (Z.shiftl (Z.land v 1) 2).
Definition set_willQoS (v b : Z) : Z := Z.lor (Z.land b 231) (Z.shiftl (Z.land v 3) 3).
Definition set_willRetain (v b : Z) : Z := Z.lor (Z.land b 223) (Z.shiftl (Z.land v 1) 5).
Definition set_password (v b : Z) : Z := Z.lor (Z.land b 191) (Z.shiftl (Z.land v 1) 6).
Definition set_username (v b : Z) : Z := Z.lor (Z.land b 127) (Z.shiftl (Z.land v 1) 7).
End ConnectFlags.

(** The union [MQTTConnackFlags]. *)
Definition get_sessionpresent (b : Z) : Z := Z.land b 1.
Definition set_sessionpresent (v b : Z) : Z := Z.lor (Z.land b 254) (Z.land v 1).

(** [struct_id] and [struct_version], constants nothing reads, are left out. *)
Record MQTTPacket_willOptions := {
  topicName : MQTTString;
  message : MQTTString;
  retained : Z;
  will_qos : Z
}.

Record MQTTPacket_connectData := {
  MQTTVersion : Z;
  clientID : MQTTString;
  keepAliveInterval : Z;
  cleansession : Z;
  willFlag : Z;
  will : MQTTPacket_willOptions;
  username : MQTTString;
  password : MQTTString
}.

Definition MQTTPacket_willOptions_initializer : MQTTPacket_willOptions :=
  {| topicName := MQTTString_initializer; message := MQTTString_initializer;
     retained := 0; will_qos := 0 |}.

Definition MQTTPacket_connectData_initializer : MQTTPacket_connectData :=
  {| MQTTVersion := 4; clientID := MQTTString_initializer;
     keepAliveInterval := 60; cleansession := 1; willFlag := 0;
     will := MQTTPacket_willOptions_initializer;
     username := MQTTString_initializer; password := MQTTString_initializer |}.

(** ** Client side *)

(** [s.cstring || s.lenstring.data]. *)
Definition is_given (s : MQTTString) : bool :=
  match cstring s with Some _ => true | None => negb (is_null (ls_data (lenstring s))) end.

Definition MQTTSerialize_connectLength (options : MQTTPacket_connectData) : Z :=
  let len :=
    if MQTTVersion options =? 3 then 12
    else if MQTTVersion options =? 4 then 10 else 0 in
  let len := len + (MQTTstrlen (clientID options) + 2) in
  let len :=
    if negb (willFlag options =? 0)
    then len + (MQTTstrlen (topicName (will options)) + 2 + MQTTstrlen (message (will options)) + 2)
    else len in
  let len := if is_given (username options) then len + (MQTTstrlen (username options) + 2) else len in
  if is_given (password options) then len + (MQTTstrlen (password options) + 2) else len.

Definition MQIsdp : list Z := [77; 81; 73; 115; 100; 112].
Definition MQTT : list Z := [77; 81; 84; 84].

(** The flags byte as the assignments to [flags] build it. *)
Definition connect_flags (options : MQTTPacket_connectData) : Z :=
  let flags := ConnectFlags.set_cleansession (cleansession options) 0 in
  let flags := ConnectFlags.set_will (if negb (willFlag options =? 0) then 1 else 0) flags in
  let flags :=
    if negb (ConnectFlags.get_will flags =? 0)
    then ConnectFlags.set_willRetain (retained (will options))
           (ConnectFlags.set_willQoS (will_qos (will options)) flags)
    else flags in
  let flags := if is_given (username options) then ConnectFlags.set_username 1 flags else flags in
  if is_given (password options) then ConnectFlags.set_password 1 flags else flags.

Definition MQTTSerialize_connect (buflen : Z) (options : MQTTPacket_connectData) : st cursor Z :=
  buf ← getptr;
  let len := MQTTSerialize_connectLength options in
  if buflen <? MQTTPacket_len len then mret MQTTPACKET_BUFFER_TOO_SHORT
  else
    writeChar (Header.set_type CONNECT 0);;
    (p ← getptr; k ← MQTTPacket_encode p len; advance k);;
    (if MQTTVersion options =? 4
     then writeCString MQTT;; writeChar 4
     else writeCString MQIsdp;; writeChar 3);;
    let flags := connect_flags options in
    writeChar flags;;
    writeInt (keepAliveInterval options);;
    writeMQTTString (clientID options);;
    when (negb (willFlag options =? 0))
      (writeMQTTString (topicName (will options));; writeMQTTString (message (will options)));;
    when (negb (ConnectFlags.get_username flags =? 0)) (writeMQTTString (username options));;
    when (negb (ConnectFlags.get_password flags =? 0)) (writeMQTTString (password options));;
    ptr ← getptr;
    mret (Z.of_nat ptr - Z.of_nat buf).

Definition MQTTSerialize_connect_size (options : MQTTPacket_connectData) : Z :=
  MQTTPacket_len (MQTTSerialize_connectLength options).

(** [*sessionPresent] and [*connack_rc], before and after. *)
Record connack_out := { co_sessionPresent : Z; co_connack_rc : Z }.

Definition MQTTDeserialize_connack (o : connack_out) : st cursor (Z * connack_out) :=
  byte ← readChar;
  if negb (Header.get_type byte =? CONNACK) then mret (0, o)
  else
    '(rc, mylen) ← decode_length;
    curdata ← getptr;
    let enddata := Z.of_nat curdata + mylen in
    if enddata - Z.of_nat curdata <? 2 then mret (rc, o)
    else
      flags ← readChar;
      connack_rc ← readChar;
      mret (1, {| co_sessionPresent := get_sessionpresent flags; co_connack_rc := connack_rc |}).

Definition MQTTSerialize_zero (buflen packettype : Z) : st cursor Z :=
  buf ← getptr;
  if buflen <? 2 then mret MQTTPACKET_BUFFER_TOO_SHORT
  else
    writeChar (Header.set_type packettype 0);;
    (p ← getptr; k ← MQTTPacket_encode p 0; advance k);;
    ptr ← getptr;
    mret (Z.of_nat ptr - Z.of_nat buf).

Definition MQTTSerialize_disconnect (buflen : Z) : st cursor Z :=
  MQTTSerialize_zero buflen DISCONNECT.
Definition MQTTSerialize_pingreq (buflen : Z) : st cursor Z :=
  MQTTSerialize_zero buflen PINGREQ.

(** ** Server side *)

(** [memcmp(p, s, min(k, len)) == 0] for a string [s] of [k] bytes. *)
Definition memcmp_prefix (mem : list Z) (s : MQTTString) (name : list Z) : option bool :=
  let n := Z.min (zlen name) (ls_len (lenstring s)) in
  d ← deref mem (ls_data (lenstring s)) n;
  Some (bool_decide (d = take (Z.to_nat n) name)).

Definition MQTTPacket_checkVersion (protocol : MQTTString) (version : Z) : st cursor Z :=
  mem ← gets cmem;
  r3 ← (if version =? 3 then need (memcmp_prefix mem protocol MQIsdp) else mret false);
  if (r3 : bool) then mret 1
  else
    r4 ← (if version =? 4 then need (memcmp_prefix mem protocol MQTT) else mret false);
    mret (if (r4 : bool) then 1 else 0).

Definition set_flags (flags keepalive : Z) (d : MQTTPacket_connectData) : MQTTPacket_connectData :=
  {| MQTTVersion := MQTTVersion d; clientID := clientID d; keepAliveInterval := keepalive;
     cleansession := ConnectFlags.get_cleansession flags; willFlag := willFlag d;
     will := will d; username := username d; password := password d |}.
Definition set_clientID (s : MQTTString) (d : MQTTPacket_connectData) : MQTTPacket_connectData :=
  {| MQTTVersion := MQTTVersion d; clientID := s; keepAliveInterval := keepAliveInterval d;
     cleansession := cleansession d; willFlag := willFlag d;
     will := will d; username := username d; password := password d |}.
Definition put_will (f : Z) (w : MQTTPacket_willOptions) (d : MQTTPacket_connectData)
    : MQTTPacket_connectData :=
  {| MQTTVersion := MQTTVersion d; clientID := clientID d; keepAliveInterval := keepAliveInterval d;
     cleansession := cleansession d; willFlag := f;
     will := w; username := username d; password := password d |}.
Definition put_username (s : MQTTString) (d : MQTTPacket_connectData) : MQTTPacket_connectData :=
  {| MQTTVersion := MQTTVersion d; clientID := clientID d; keepAliveInterval := keepAliveInterval d;
     cleansession := cleansession d; willFlag := willFlag d;
     will := will d; username := s; password := password d |}.
Definition put_password (s : MQTTString) (d : MQTTPacket_connectData) : MQTTPacket_connectData :=
  {| MQTTVersion := MQTTVersion d; clientID := clientID d; keepAliveInterval := keepAliveInterval d;
     cleansession := cleansession d; willFlag := willFlag d;
     will := will d; username := username d; password := s |}.

(** The user name and the password, at the end of the packet. *)
Definition deserialize_credentials (flags : Z) (enddata : Z) (data : MQTTPacket_connectData)
    : st cursor (Z * MQTTPacket_connectData) :=
  if negb (ConnectFlags.get_username flags =? 0) then
    curdata ← getptr;
    if enddata - Z.of_nat curdata <? 3 then mret (0, data)
    else
      '(ok, s) ← readMQTTLenString (username data) enddata;
      let data := put_username s data in
      if ok =? 0 then mret (0, data)
      else if negb (ConnectFlags.get_password flags =? 0) then
        curdata ← getptr;
        if enddata - Z.of_nat curdata <? 3 then mret (0, data)
        else
          '(ok, s) ← readMQTTLenString (password data) enddata;
          let data := put_password s data in
          if ok =? 0 then mret (0, data) else mret (1, data)
      else mret (1, data)
  else if negb (ConnectFlags.get_password flags =? 0) then mret (0, data)
  else mret (1, data).

(** The will topic and message: 0 is [goto exit]. *)
Definition deserialize_will (flags : Z) (enddata : Z) (data : MQTTPacket_connectData)
    : st cursor (Z * MQTTPacket_connectData) :=
  if negb (ConnectFlags.get_will flags =? 0) then
    let w := {| topicName := topicName (will data); message := message (will data);
                retained := ConnectFlags.get_willRetain flags;
                will_qos := ConnectFlags.get_willQoS flags |} in
    '(ok, s) ← readMQTTLenString (topicName w) enddata;
    let w := {| topicName := s; message := message w; retained := retained w; will_qos := will_qos w |} in
    if ok =? 0 then mret (0, put_will (ConnectFlags.get_will flags) w data)
    else
      '(ok, s) ← readMQTTLenString (message w) enddata;
      let w := {| topicName := topicName w; message := s; retained := retained w; will_qos := will_qos w |} in
      mret (ok, put_will (ConnectFlags.get_will flags) w data)
  else mret (1, put_will (ConnectFlags.get_will flags) (will data) data).

(** The body of the packet, from the protocol name on.  [Protocol] is not
    initialised before it is read, here [uninit]. *)
Definition deserialize_body `{CharModel} (uninit : MQTTString) (data : MQTTPacket_connectData)
    (enddata : Z) : st cursor (Z * MQTTPacket_connectData) :=
  '(ok, Protocol) ← readMQTTLenString uninit enddata;
  curdata ← getptr;
  if (ok =? 0) || (enddata - Z.of_nat curdata <? 0) then mret (0, data)
  else
    version ← readChar;
    known ← MQTTPacket_checkVersion Protocol (char_val version);
    if known =? 0 then mret (0, data)
    else
      flags ← readChar;
      keepalive ← readInt;
      let data := set_flags flags (to_ushort keepalive) data in
      '(ok, s) ← readMQTTLenString (clientID data) enddata;
      let data := set_clientID s data in
      if ok =? 0 then mret (0, data)
      else
        '(ok, data) ← deserialize_will flags enddata data;
        if ok =? 0 then mret (0, data)
        else deserialize_credentials flags enddata data.

(** [len] is the length of the buffer. *)
Definition MQTTDeserialize_connect `{CharModel} (uninit : MQTTString)
    (data : MQTTPacket_connectData) (len : Z) : st cursor (Z * MQTTPacket_connectData) :=
  buf ← getptr;
  let enddata := Z.of_nat buf + len in
  byte ← readChar;
  if negb (Header.get_type byte =? CONNECT) then mret (0, data)
  else
    decode_length;;
    deserialize_body uninit data enddata.

Definition MQTTSerialize_connack (buflen connack_rc sessionPresent : Z) : st cursor Z :=
  buf ← getptr;
  if buflen <? 2 then mret MQTTPACKET_BUFFER_TOO_SHORT
  else
    writeChar (Header.set_type CONNACK 0);;
    (p ← getptr; k ← MQTTPacket_encode p 2; advance k);;
    writeChar (set_sessionpresent sessionPresent 0);;
    writeChar connack_rc;;
    ptr ← getptr;
    mret (Z.of_nat ptr - Z.of_nat buf).

(** ** What the CONNECT serializer writes *)

(** The contents of a CONNECT packet. *)
Record connect_packet := {
  cp_version : Z;
  cp_clean : Z;
  cp_keepalive : Z;
  cp_client : list Z;
  cp_will : option (list Z * list Z * Z * Z);  (** topic, message, QoS, retained *)
  cp_username : option (list Z);
  cp_password : option (list Z)
}.

Definition flag_of {A} (o : option A) : Z := match o with Some _ => 1 | None => 0 end.

Definition wire_flags (c : connect_packet) : Z :=
  2 * cp_clean c +
  match cp_will c with Some (_, _, q, r) => 4 + 8 * q + 32 * r | None => 0 end +
  64 * flag_of (cp_password c) + 128 * flag_of (cp_username c).

Definition wire_opt (o : option (list Z)) : list Z :=
  match o with Some s => wire_string s | None => [] end.

Definition wire_will (o : option (list Z * list Z * Z * Z)) : list Z :=
  match o with Some (t, m, _, _) => wire_string t ++ wire_string m | None => [] end.

Definition protocol_name (version : Z) : list Z := if version =? 4 then MQTT else MQIsdp.

Definition connect_body (c : connect_packet) : list Z :=
  wire_string (protocol_name (cp_version c)) ++ [cp_version c] ++ [wire_flags c] ++
  be16 (cp_keepalive c) ++ wire_string (cp_client c) ++ wire_will (cp_will c) ++
  wire_opt (cp_username c) ++ wire_opt (cp_password c).

Definition wire_connect (c : connect_packet) : list Z := wire_packet (16 * CONNECT) (connect_body c).

(** A string field that may be left out. *)
Definition opt_rep (s : MQTTString) (o : option (list Z)) : Prop :=
  match o with
  | Some v => is_given s = true /\ str_rep s v /\ zlen v < 65536
  | None => is_given s = false
  end.

(** The options of the program stand for the packet [c]. *)
Record connect_rep (o : MQTTPacket_connectData) (c : connect_packet) : Prop := {
  cr_version : MQTTVersion o = cp_version c /\ (cp_version c = 3 \/ cp_version c = 4);
  cr_clean : cleansession o = cp_clean c /\ 0 <= cp_clean c < 2;
  cr_keepalive : keepAliveInterval o = cp_keepalive c /\ 0 <= cp_keepalive c < 65536;
  cr_client : str_rep (clientID o) (cp_client c) /\ zlen (cp_client c) < 65536;
  cr_will : match cp_will c with
            | Some (t, m, q, r) =>
                willFlag o <> 0 /\ str_rep (topicName (will o)) t /\ zlen t < 65536 /\
                str_rep (message (will o)) m /\ zlen m < 65536 /\
                will_qos (will o) = q /\ 0 <= q < 4 /\
                retained (will o) = r /\ 0 <= r < 2
            | None => willFlag o = 0
            end;
  cr_username : opt_rep (username o) (cp_username c);
  cr_password : opt_rep (password o) (cp_password c)
}.

Lemma opt_rep_given s o : opt_rep s o -> is_given s = bool_decide (is_Some o).
Proof. destruct o; simpl; [intros (-> & _)|intros ->]; reflexivity. Qed.

(** The flags byte, for all values of its fields. *)
Lemma connect_flags_spec o c :
  connect_rep o c ->
  connect_flags o = wire_flags c /\
  ConnectFlags.get_username (connect_flags o) = flag_of (cp_username c) /\
  ConnectFlags.get_password (connect_flags o) = flag_of (cp_password c).
Proof.
  intros []. unfold connect_flags, wire_flags.
  rewrite (opt_rep_given _ _ cr_username0), (opt_rep_given _ _ cr_password0).
  destruct cr_clean0 as (-> & Hc).
  destruct (cp_will c) as [[[[t m] q] r]|].
  - destruct cr_will0 as (Hw & _ & _ & _ & _ & -> & Hq & -> & Hr).
    rewrite (proj2 (Z.eqb_neq _ _) Hw). cbn [negb].
    assert (cp_clean c = 0 \/ cp_clean c = 1) as [-> | ->] by lia;
    assert (q = 0 \/ q = 1 \/ q = 2 \/ q = 3) as [-> | [-> | [-> | ->]]] by lia;
    assert (r = 0 \/ r = 1) as [-> | ->] by lia;
    destruct (cp_username c), (cp_password c); repeat split; reflexivity.
  - rewrite cr_will0.
    assert (cp_clean c = 0 \/ cp_clean c = 1) as [-> | ->] by lia;
    destruct (cp_username c), (cp_password c); repeat split; reflexivity.
Qed.

Lemma wire_flags_byte o c : connect_rep o c -> is_byte (wire_flags c).
Proof.
  intros []. unfold wire_flags, is_byte.
  destruct (cp_will c) as [[[[t m] q] r]|], (cp_username c), (cp_password c); simpl; lia.
Qed.

Lemma zlen_protocol v :
  v = 3 \/ v = 4 -> zlen (wire_string (protocol_name v)) = if v =? 3 then 8 else 6.
Proof. intros [-> | ->]; reflexivity. Qed.

(** The computed length is the length of the packet's body. *)
Lemma connectLength_body o c :
  connect_rep o c -> MQTTSerialize_connectLength o = zlen (connect_body c).
Proof.
  intros []. unfold MQTTSerialize_connectLength, connect_body.
  rewrite (opt_rep_given _ _ cr_username0), (opt_rep_given _ _ cr_password0).
  destruct cr_version0 as (-> & Hv), cr_client0 as (Hid & _).
  rewrite (MQTTstrlen_rep _ _ Hid), !zlen_app, zlen_protocol, zlen_wire_string by done.
  assert (Hu : zlen (wire_opt (cp_username c)) =
    if bool_decide (is_Some (cp_username c)) then MQTTstrlen (username o) + 2 else 0).
  { destruct (cp_username c); [|done]. simpl in *. destruct cr_username0 as (_ & Hs & _).
    rewrite (MQTTstrlen_rep _ _ Hs), zlen_wire_string. lia. }
  assert (Hp : zlen (wire_opt (cp_password c)) =
    if bool_decide (is_Some (cp_password c)) then MQTTstrlen (password o) + 2 else 0).
  { destruct (cp_password c); [|done]. simpl in *. destruct cr_password0 as (_ & Hs & _).
    rewrite (MQTTstrlen_rep _ _ Hs), zlen_wire_string. lia. }
  assert (Hw : zlen (wire_will (cp_will c)) =
    if negb (willFlag o =? 0)
    then MQTTstrlen (topicName (will o)) + 2 + MQTTstrlen (message (will o)) + 2 else 0).
  { destruct (cp_will c) as [[[[t m] q] r]|]; cbn [wire_will].
    - destruct cr_will0 as (Hw & Ht & _ & Hm & _).
      rewrite (proj2 (Z.eqb_neq _ _) Hw), (MQTTstrlen_rep _ _ Ht), (MQTTstrlen_rep _ _ Hm),
        zlen_app, !zlen_wire_string. cbn [negb]. lia.
    - by rewrite cr_will0. }
  rewrite Hu, Hp, Hw. unfold be16. autorewrite with zlen.
  destruct Hv as [-> | ->]; simpl (3 =? 3); simpl (4 =? 3); simpl (4 =? 4); cbn iota;
    destruct (negb (willFlag o =? 0)), (bool_decide (is_Some (cp_username c))),
      (bool_decide (is_Some (cp_password c))); lia.
Qed.

Lemma emits_wire_opt s o fl :
  opt_rep s o -> fl = flag_of o ->
  emits (when (negb (fl =? 0)) (writeMQTTString s)) (wire_opt o) tt.
Proof.
  intros H ->. destruct o; simpl in *; [|apply emits_ret].
  destruct H as (_ & Hs & Hl). by apply emits_writeMQTTString.
Qed.

(** [MQTTSerialize_connect] refines the wire format and respects its
    buffer: for protocol versions 3 and 4 it writes exactly the CONNECT packet
    for its options and returns the length, or reports that the buffer is too
    short and writes nothing. *)
Theorem MQTTSerialize_connect_correct o c buflen mem p :
  connect_rep o c ->
  zlen (connect_body c) <= max_remaining_length ->
  Z.of_nat p + buflen <= zlen mem ->
  MQTTSerialize_connect buflen o (Cursor mem p)
  = if buflen <? MQTTPacket_len (zlen (connect_body c))
    then Ret (MQTTPACKET_BUFFER_TOO_SHORT, Cursor mem p)
    else Ret (zlen (wire_connect c), Cursor (put mem p (wire_connect c)) (p + length (wire_connect c))).
Proof.
  intros Hr Hmax Hbuf. unfold MQTTSerialize_connect. rewrite bind_getptr. cbn zeta.
  rewrite (connectLength_body _ _ Hr).
  set (n := zlen (connect_body c)) in *.
  assert (Hn : 0 <= n <= max_remaining_length) by (split; [apply zlen_nonneg|done]).
  destruct (Z.ltb_spec buflen (MQTTPacket_len n)) as [|Hfit]; [done|].
  destruct (connect_flags_spec _ _ Hr) as (Hf & Hu & Hp).
  pose proof (wire_flags_byte _ _ Hr) as Hfb.
  rewrite Hu, Hp, Hf.
  match goal with |- ?m _ = _ => assert (He : emits_at p m (wire_connect c) (zlen (wire_connect c))) end.
  { unfold wire_connect, wire_packet at 1. fold n. unfold connect_body at 1. destruct Hr.
    apply (emits_at_bind _ _ _ [_] _ tt); [apply (emits_writeChar (Header.set_type CONNECT 0))|].
    eapply emits_at_bind; [by apply emits_encode|].
    rewrite (app_assoc (wire_string (protocol_name (cp_version c)))).
    eapply (emits_at_bind _ _ _ _ _ tt).
    { destruct cr_version0 as (-> & [-> | ->]); simpl Z.eqb; cbn iota;
        apply (emits_bind _ _ _ [_] tt);
        first [by apply emits_writeCString|apply (emits_writeChar 3)|apply (emits_writeChar 4)]. }
    apply (emits_at_bind _ _ _ [_] _ tt);
      [rewrite <- (to_uchar_id (wire_flags c)) at 2 by done; apply emits_writeChar|].
    eapply emits_at_bind;
      [destruct cr_keepalive0 as (-> & Hk); by apply emits_writeInt|].
    eapply emits_at_bind; [destruct cr_client0; by apply emits_writeMQTTString|].
    eapply (emits_at_bind _ _ _ _ _ tt).
    { destruct (cp_will c) as [[[[t m] q] r]|]; cbn [wire_will].
      - destruct cr_will0 as (Hw & Ht & Htl & Hm & Hml & _).
        rewrite (proj2 (Z.eqb_neq _ _) Hw). cbn [negb when].
        eapply emits_bind; by apply emits_writeMQTTString.
      - rewrite cr_will0. apply emits_ret. }
    eapply (emits_at_bind _ _ _ _ _ tt); [by apply emits_wire_opt|].
    eapply (emits_at_bind_nil _ _ _ _ tt); [by apply emits_wire_opt|].
    apply emits_at_rc. rewrite zlen_wire_packet. fold n. unfold n at 2, connect_body.
    unfold zlen. simpl_length. lia. }
  apply He. by eapply packet_fits.
Qed.

(** ** Reading a CONNECT packet back *)

Lemma wire_flags_fields o c :
  connect_rep o c ->
  ConnectFlags.get_cleansession (wire_flags c) = cp_clean c /\
  ConnectFlags.get_username (wire_flags c) = flag_of (cp_username c) /\
  ConnectFlags.get_password (wire_flags c) = flag_of (cp_password c) /\
  ConnectFlags.get_will (wire_flags c) = flag_of (cp_will c) /\
  match cp_will c with
  | Some (_, _, q, r) =>
      ConnectFlags.get_willQoS (wire_flags c) = q /\ ConnectFlags.get_willRetain (wire_flags c) = r
  | None => True
  end.
Proof.
  intros []. unfold wire_flags. destruct cr_clean0 as (_ & Hc).
  destruct (cp_will c) as [[[[t m] q] r]|].
  - destruct cr_will0 as (_ & _ & _ & _ & _ & _ & Hq & _ & Hr).
    assert (cp_clean c = 0 \/ cp_clean c = 1) as [-> | ->] by lia;
    assert (q = 0 \/ q = 1 \/ q = 2 \/ q = 3) as [-> | [-> | [-> | ->]]] by lia;
    assert (r = 0 \/ r = 1) as [-> | ->] by lia;
    destruct (cp_username c), (cp_password c); repeat split; reflexivity.
  - assert (cp_clean c = 0 \/ cp_clean c = 1) as [-> | ->] by lia;
    destruct (cp_username c), (cp_password c); repeat split; reflexivity.
Qed.

(** What the broker side gets from a packet. *)
Record connect_read (mem : list Z) (c : connect_packet) (d : MQTTPacket_connectData) : Prop := {
  rd_clean : cleansession d = cp_clean c;
  rd_keepalive : keepAliveInterval d = cp_keepalive c;
  rd_client : points_to mem (clientID d) (cp_client c);
  rd_will : willFlag d = flag_of (cp_will c);
  rd_will_fields : match cp_will c with
                   | Some (t, m, q, r) =>
                       points_to mem (topicName (will d)) t /\ points_to mem (message (will d)) m /\
                       will_qos (will d) = q /\ retained (will d) = r
                   | None => True
                   end;
  rd_username : match cp_username c with
                | Some u => points_to mem (username d) u | None => True end;
  rd_password : match cp_password c with
                | Some u => points_to mem (password d) u | None => True end
}.

Section connect_reading.
Context `{CharModel} (mem : list Z) (o : MQTTPacket_connectData) (c : connect_packet).
Hypothesis Hrep : connect_rep o c.

Lemma reads_in_will p enddata data :
  Z.of_nat p + zlen (wire_will (cp_will c)) <= enddata ->
  reads_in mem p (deserialize_will (wire_flags c) enddata data) (wire_will (cp_will c))
    (fun r => r.1 = 1 /\ willFlag r.2 = flag_of (cp_will c) /\
       cleansession r.2 = cleansession data /\ keepAliveInterval r.2 = keepAliveInterval data /\
       clientID r.2 = clientID data /\
       match cp_will c with
       | Some (t, m, q, r') =>
           points_to mem (topicName (will r.2)) t /\ points_to mem (message (will r.2)) m /\
           will_qos (will r.2) = q /\ retained (will r.2) = r'
       | None => True
       end).
Proof using Hrep.
  intros He. destruct (wire_flags_fields _ _ Hrep) as (_ & _ & _ & Ew & Eqr).
  unfold deserialize_will. rewrite Ew.
  destruct (cp_will c) as [[[[t m] q] r]|] eqn:E; cbn [flag_of wire_will].
  - destruct Eqr as [-> ->]. pose proof (cr_will _ _ Hrep) as Hw. rewrite E in Hw.
    destruct Hw as (_ & _ & Ht & _ & Hm & _).
    change (negb (1 =? 0)) with true. cbn iota zeta.
    cbn [wire_will] in He. rewrite zlen_app, !zlen_wire_string in He.
    pose proof (zlen_nonneg m).
    eapply reads_in_bind; [apply reads_in_string; [done|lia]|].
    intros [k s] (Hk & Hs). simpl in Hk, Hs. subst k. change (1 =? 0) with false. cbn iota.
    eapply reads_in_bind_nil.
    { apply reads_in_string; [done|]. pose proof (zlen_wire_string t). unfold zlen in *. lia. }
    intros [k s'] (Hk & Hs'). simpl in Hk, Hs'. subst k. by apply reads_in_ret.
  - by apply reads_in_ret.
Qed.

Lemma reads_in_credentials p enddata data :
  (cp_username c = None -> cp_password c = None) ->
  (cp_username c <> Some []) -> (cp_password c <> Some []) ->
  Z.of_nat p + zlen (wire_opt (cp_username c) ++ wire_opt (cp_password c)) <= enddata ->
  reads_in mem p (deserialize_credentials (wire_flags c) enddata data)
    (wire_opt (cp_username c) ++ wire_opt (cp_password c))
    (fun r => r.1 = 1 /\ willFlag r.2 = willFlag data /\ will r.2 = will data /\
       cleansession r.2 = cleansession data /\ keepAliveInterval r.2 = keepAliveInterval data /\
       clientID r.2 = clientID data /\
       match cp_username c with Some u => points_to mem (username r.2) u | None => True end /\
       match cp_password c with Some u => points_to mem (password r.2) u | None => True end).
Proof using Hrep.
  intros Hup Hun Hpn He. destruct (wire_flags_fields _ _ Hrep) as (_ & Eu & Ep & _ & _).
  unfold deserialize_credentials. rewrite Eu, Ep.
  pose proof (cr_username _ _ Hrep) as Ru. pose proof (cr_password _ _ Hrep) as Rp.
  assert (Hne : forall s : list Z, Some s <> Some [] -> 1 <= zlen s).
  { intros [|x s]; [done|]. autorewrite with zlen. pose proof (zlen_nonneg s). lia. }
  destruct (cp_username c) as [u|].
  - destruct Ru as (_ & _ & Hul). cbn [flag_of wire_opt].
    change (negb (1 =? 0)) with true. cbn iota.
    cbn [wire_opt] in He. rewrite zlen_app, zlen_wire_string in He.
    pose proof (Hne u Hun). pose proof (zlen_nonneg (wire_opt (cp_password c))).
    apply reads_in_getptr. rewrite (proj2 (Z.ltb_ge _ _)) by lia.
    eapply reads_in_bind; [apply reads_in_string; [done|lia]|].
    intros [k s] (Hk & Hs). simpl in Hk, Hs. subst k. change (1 =? 0) with false. cbn iota zeta.
    destruct (cp_password c) as [w|]; cbn [flag_of wire_opt].
    + destruct Rp as (_ & _ & Hpl). change (negb (1 =? 0)) with true. cbn iota.
      cbn [wire_opt] in He. rewrite zlen_wire_string in He. pose proof (Hne w Hpn).
      assert (Hl : Z.of_nat (length (wire_string u)) = 2 + zlen u) by apply zlen_wire_string.
      apply reads_in_getptr. rewrite (proj2 (Z.ltb_ge _ _)) by lia.
      eapply reads_in_bind_nil; [apply reads_in_string; [done|lia]|].
      intros [k s'] (Hk & Hs'). simpl in Hk, Hs'. subst k. by apply reads_in_ret.
    + by apply reads_in_ret.
  - rewrite (Hup eq_refl) in *. by apply reads_in_ret.
Qed.
End connect_reading.

(** The protocol name and level are recognised. *)
Lemma reads_in_checkVersion `{CharModel} mem p s v (k : Z) :
  v = 3 \/ v = 4 -> points_to mem s (protocol_name v) -> k = char_val v ->
  reads_in mem p (MQTTPacket_checkVersion s k) [] (eq 1).
Proof.
  intros Hv (Hc & Hl & Hd) ->. unfold MQTTPacket_checkVersion.
  assert (Hcv : char_val v = v) by (unfold char_val; destruct Hv as [-> | ->]; by rewrite andb_false_r).
  rewrite Hcv. apply reads_in_gets.
  assert (Hm : memcmp_prefix mem s (protocol_name v) = Some true).
  { unfold memcmp_prefix. rewrite Hl, Z.min_id, <- Hl, Hd. simpl.
    rewrite Hl. unfold zlen. rewrite Nat2Z.id, firstn_all. by rewrite bool_decide_true. }
  intros _. exists 1. split; [|done].
  destruct Hv as [-> | ->]; simpl Z.eqb; cbn iota; simpl cmem.
  - change (memcmp_prefix mem s MQIsdp) with (memcmp_prefix mem s (protocol_name 3)).
    rewrite Hm. by rewrite Nat.add_0_r.
  - change (memcmp_prefix mem s MQTT) with (memcmp_prefix mem s (protocol_name 4)).
    rewrite Hm. by rewrite Nat.add_0_r.
Qed.

Lemma reads_in_connect_body `{CharModel} mem o c uninit data q e :
  connect_rep o c ->
  (cp_username c = None -> cp_password c = None) ->
  cp_username c <> Some [] -> cp_password c <> Some [] ->
  e = Z.of_nat q + zlen (connect_body c) ->
  reads_in mem q (deserialize_body uninit data e) (connect_body c)
    (fun r => r.1 = 1 /\ connect_read mem c r.2).
Proof.
  intros Hrep Hup Hun Hpn He.
  destruct (cr_version _ _ Hrep) as (_ & Hv). destruct (cr_client _ _ Hrep) as (_ & Hid).
  destruct (cr_keepalive _ _ Hrep) as (_ & Hk).
  unfold connect_body in He. rewrite !zlen_app in He.
  pose proof (zlen_wire_string (protocol_name (cp_version c))) as Hpl.
  pose proof (zlen_wire_string (cp_client c)) as Hcl.
  pose proof (zlen_nonneg (protocol_name (cp_version c))). pose proof (zlen_nonneg (cp_client c)).
  pose proof (zlen_nonneg (wire_will (cp_will c))).
  pose proof (zlen_nonneg (wire_opt (cp_username c))).
  pose proof (zlen_nonneg (wire_opt (cp_password c))).
  assert (Hps : zlen (protocol_name (cp_version c)) < 65536) by (destruct Hv as [-> | ->]; done).
  unfold be16 in He. autorewrite with zlen in He.
  unfold deserialize_body, connect_body.
  eapply reads_in_bind; [apply reads_in_string; [done|lia]|].
  intros [k s] (Ek & Hs). simpl in Ek, Hs. subst k. apply reads_in_getptr.
  rewrite (proj2 (Z.ltb_ge _ 0)) by (unfold zlen in *; lia). change (1 =? 0) with false. cbn [orb].
  eapply (reads_in_bind _ _ _ _ [_]); [apply reads_at_in, reads_readChar|]. intros ? <-.
  change ([wire_flags c] ++ ?x) with ([] ++ [wire_flags c] ++ x).
  eapply (reads_in_bind _ _ _ _ []); [by apply (reads_in_checkVersion _ _ _ _ _ Hv Hs)|].
  intros ? <-. change (1 =? 0) with false. cbn iota.
  eapply (reads_in_bind _ _ _ _ [_]); [apply reads_at_in, reads_readChar|]. intros ? <-.
  eapply reads_in_bind; [by apply reads_at_in, reads_readInt|]. intros ? <-. cbn zeta.
  eapply reads_in_bind; [apply reads_in_string; [done|unfold zlen in *; simpl; lia]|].
  intros [k cid] (Ek & Hcid). simpl in Ek, Hcid. subst k. change (1 =? 0) with false. cbn iota.
  eapply reads_in_bind; [apply (reads_in_will mem o c Hrep); unfold zlen in *; simpl length in *; lia|].
  intros [k d] (Ek & Dw & Dc & Dk & Di & Df). simpl in Ek, Dw, Dc, Dk, Di, Df. subst k.
  change (1 =? 0) with false. cbn iota.
  assert (Hcred := fun p => reads_in_credentials mem o c Hrep p e d Hup Hun Hpn).
  intros Hat.
  match type of Hat with has_at _ ?p _ =>
    destruct (Hcred p) as ([k d'] & E & Ek & E1 & E2 & E3 & E4 & E5 & E6 & E7);
      [rewrite zlen_app; unfold zlen, be16 in *; cbn [length] in *; lia|exact Hat|]
  end.
  exists (k, d'). split; [exact E|]. simpl in Ek, E1, E2, E3, E4, E5, E6, E7 |- *.
  split; [done|]. destruct (wire_flags_fields _ _ Hrep) as (Ec & _).
  constructor; rewrite ?E1, ?E2, ?E3, ?E4, ?E5, ?Dc, ?Dk, ?Di; try done.
  unfold to_ushort. simpl. by rewrite Z.mod_small.
Qed.

(** CONNECT round trip: what [MQTTSerialize_connect] writes for its
    options is accepted by the broker side, [MQTTDeserialize_connect], with
    result 1 and the same clean-session flag, keep-alive interval, client
    identifier, will, user name and password, the strings pointing into the
    packet -- for a protocol the library writes, a password only with a user
    name, and neither of them empty. *)
Theorem connect_roundtrip `{CharModel} o c uninit data pre post :
  connect_rep o c ->
  zlen (connect_body c) <= max_remaining_length ->
  (cp_username c = None -> cp_password c = None) ->
  cp_username c <> Some [] -> cp_password c <> Some [] ->
  let mem := pre ++ wire_connect c ++ post in
  exists d p,
    MQTTDeserialize_connect uninit data (zlen (wire_connect c)) (Cursor mem (length pre))
    = Ret ((1, d), Cursor mem p) /\ connect_read mem c d.
Proof.
  intros Hrep Hmax Hup Hun Hpn mem.
  destruct (wire_flags_fields _ _ Hrep) as (Ec & _).
  set (n := zlen (connect_body c)) in *.
  assert (Hn : 0 <= n <= max_remaining_length) by (split; [apply zlen_nonneg|done]).
  cut (reads_in mem (length pre) (MQTTDeserialize_connect uninit data (zlen (wire_connect c)))
         (wire_connect c) (fun r => r.1 = 1 /\ connect_read mem c r.2)).
  { intros Hr. destruct Hr as ([k d] & E & Hk & Hd); [by exists pre, post|].
    simpl in Hk. subst k. by eexists d, _. }
  unfold MQTTDeserialize_connect. apply reads_in_getptr.
  unfold wire_connect. rewrite zlen_wire_packet. fold n.
  set (e := Z.of_nat (length pre) + (1 + zlen (varint n) + n)). cbn zeta.
  unfold wire_packet. fold n.
  eapply (reads_in_bind _ _ _ _ [_]); [apply reads_at_in, reads_readChar|]. intros ? <-.
  change (Header.get_type (16 * CONNECT) =? CONNECT) with true. cbn [negb].
  eapply reads_in_bind; [by apply reads_at_in, reads_decode_length|]. intros ? <-.
  set (q := (length pre + length [(16 * CONNECT)%Z] + length (varint n))%nat).
  assert (He : e = Z.of_nat q + n) by (subst e q; unfold zlen; simpl; lia).
  by eapply reads_in_connect_body.
Qed.

(** ** CONNACK and the empty packets *)

Definition wire_connack (sessionPresent rc : Z) : list Z :=
  wire_packet (16 * CONNACK) [sessionPresent; rc].

(** [MQTTDeserialize_connack] reads what [MQTTSerialize_connack] writes
    when the buffer has the four bytes of the packet. *)
Theorem connack_roundtrip sp rc buflen o mem :
  0 <= sp < 2 -> is_byte rc -> 2 <= buflen -> 4 <= zlen mem ->
  MQTTSerialize_connack buflen rc sp (Cursor mem 0)
    = Ret (4, Cursor (put mem 0 (wire_connack sp rc)) 4) /\
  MQTTDeserialize_connack o (Cursor (put mem 0 (wire_connack sp rc)) 0)
    = Ret ((1, {| co_sessionPresent := sp; co_connack_rc := rc |}),
           Cursor (put mem 0 (wire_connack sp rc)) 4).
Proof.
  intros Hsp Hrc Hb Hm. split.
  - unfold MQTTSerialize_connack. rewrite bind_getptr, (proj2 (Z.ltb_ge _ _)) by lia.
    match goal with |- ?m _ = _ => assert (He : emits_at 0 m (wire_connack sp rc) 4) end.
    { unfold wire_connack, wire_packet.
      apply (emits_at_bind _ _ _ [_] _ tt); [apply (emits_writeChar (Header.set_type CONNACK 0))|].
      eapply emits_at_bind; [apply emits_encode; unfold max_remaining_length, zlen; simpl; lia|].
      apply (emits_at_bind _ _ _ [_] [_] tt).
      { apply emits_writeChar_eq. assert (sp = 0 \/ sp = 1) as [-> | ->] by lia; reflexivity. }
      apply (emits_at_bind_nil _ _ _ [_] tt); [by apply emits_writeChar_eq, to_uchar_id|].
      by apply emits_at_rc. }
    apply He. unfold zlen in Hm. simpl. lia.
  - unfold put. cbn [take app].
    assert (Hr : reads_at 0 (MQTTDeserialize_connack o) (wire_connack sp rc)
                   (1, {| co_sessionPresent := sp; co_connack_rc := rc |})).
    { unfold MQTTDeserialize_connack, wire_connack, wire_packet.
      eapply (reads_bind _ _ _ [_]); [apply reads_readChar|].
      change (Header.get_type (16 * CONNACK) =? CONNACK) with true. cbn [negb].
      eapply reads_bind; [apply reads_decode_length; unfold max_remaining_length, zlen; simpl; lia|].
      cbn beta iota. apply reads_getptr.
      rewrite (proj2 (Z.ltb_ge _ _)) by (unfold zlen; simpl; lia).
      eapply (reads_bind _ _ _ [_] [_]); [apply reads_readChar|].
      eapply (reads_bind_nil _ _ _ [_]); [apply reads_readChar|].
      assert (get_sessionpresent sp = sp) as ->
        by (assert (sp = 0 \/ sp = 1) as [-> | ->] by lia; reflexivity).
      apply reads_ret. }
    by apply (Hr []).
Qed.

(** The size check of [MQTTSerialize_connack] is for two bytes, the packet
    has four: with a buffer of two or three bytes, which the check accepts,
    the function writes behind the buffer. *)
Theorem connack_overflow rc sp buflen mem :
  2 <= buflen -> 2 <= zlen mem < 4 ->
  MQTTSerialize_connack buflen rc sp (Cursor mem 0) = Undef.
Proof.
  intros Hb Hm. unfold MQTTSerialize_connack. rewrite bind_getptr, (proj2 (Z.ltb_ge _ _)) by lia.
  destruct mem as [|x [|y [|z [|]]]]; unfold zlen in Hm; simpl in Hm; try lia; reflexivity.
Qed.

(** [MQTTSerialize_pingreq] and [MQTTSerialize_disconnect] write their two
    bytes and refuse a shorter buffer. *)
Theorem MQTTSerialize_zero_correct packettype buflen mem p :
  0 <= packettype < 16 -> Z.of_nat p + buflen <= zlen mem ->
  MQTTSerialize_zero buflen packettype (Cursor mem p)
  = if buflen <? 2 then Ret (MQTTPACKET_BUFFER_TOO_SHORT, Cursor mem p)
    else Ret (2, Cursor (put mem p [16 * packettype; 0]) (p + 2)).
Proof.
  intros Ht Hbuf. unfold MQTTSerialize_zero. rewrite bind_getptr.
  destruct (Z.ltb_spec buflen 2) as [|Hfit]; [done|].
  match goal with |- ?m _ = _ => assert (He : emits_at p m [16 * packettype; 0] 2) end.
  { apply (emits_at_bind _ _ _ [_] [_] tt).
    { apply emits_writeChar_eq.
      assert (H : forallb (fun t => to_uchar (Header.set_type t 0) =? 16 * t) (seqZ 0 16) = true)
        by reflexivity.
      apply (forallb_seqZ _ _ packettype) in H; [|done]. by apply Z.eqb_eq. }
    apply (emits_at_bind_nil _ _ _ (varint 0) tt);
      [apply emits_encode; unfold max_remaining_length; lia|].
    apply emits_at_rc. simpl length. lia. }
  apply He. unfold zlen in *. simpl. lia.
Qed.

(** A protocol version that is neither 3 nor 4 breaks the size computation
    of [MQTTSerialize_connect]: it counts no bytes for the protocol name and
    writes 12, so a buffer of the size the library asks for is overrun. *)
Theorem connect_version_overflow buflen :
  let o := {| MQTTVersion := 5; clientID := MQTTString_initializer; keepAliveInterval := 60;
              cleansession := 1; willFlag := 0; will := MQTTPacket_willOptions_initializer;
              username := MQTTString_initializer; password := MQTTString_initializer |} in
  MQTTSerialize_connect_size o <= buflen ->
  MQTTSerialize_connect buflen o
    (Cursor (replicate (Z.to_nat (MQTTSerialize_connect_size o)) 0) 0) = Undef.
Proof.
  intros o Hb. unfold MQTTSerialize_connect. rewrite bind_getptr.
  change (MQTTPacket_len (MQTTSerialize_connectLength o)) with 4 in *.
  change (MQTTSerialize_connect_size o) with 4 in *.
  cbn zeta. rewrite (proj2 (Z.ltb_ge _ _)) by lia. reflexivity.
Qed.

(** The guard before the protocol level is read tests [< 0] where one byte
    is needed: a CONNECT packet that ends behind the protocol name makes
    [MQTTDeserialize_connect] read behind the buffer. *)
Theorem connect_version_overread `{CharModel} uninit data name :
  zlen name < 65536 ->
  let packet := wire_packet (16 * CONNECT) (wire_string name) in
  MQTTDeserialize_connect uninit data (zlen packet) (Cursor packet 0) = Undef.
Proof.
  intros Hn packet. pose proof (zlen_nonneg name). pose proof (zlen_wire_string name) as Hw.
  unfold MQTTDeserialize_connect. rewrite bind_getptr. subst packet.
  rewrite zlen_wire_packet. unfold wire_packet.
  set (n := zlen (wire_string name)) in *.
  rewrite (bind_ret _ _ _ _ _ (reads_readChar 0 (16 * CONNECT) [] (varint n ++ wire_string name) eq_refl)).
  change (Header.get_type (16 * CONNECT) =? CONNECT) with true. cbn [negb].
  rewrite (bind_ret _ _ _ _ _ (reads_decode_length 1 n
    ltac:(unfold max_remaining_length; lia) [16 * CONNECT] (wire_string name) eq_refl)).
  unfold deserialize_body.
  pose proof (reads_readMQTTLenString (1 + length (varint n)) name uninit
    (Z.of_nat 0 + (1 + zlen (varint n) + n)) Hn ltac:(unfold zlen in *; lia)
    ((16 * CONNECT) :: varint n) [] eq_refl) as E.
  rewrite app_nil_r in E. cbn [app] in E |- *.
  rewrite (bind_ret _ _ _ _ _ E). cbn beta iota. rewrite bind_getptr.
  change (1 =? 0) with false. cbn [orb].
  rewrite (proj2 (Z.ltb_ge _ 0)) by (unfold n, zlen; lia).
  apply bind_undef. unfold readChar. rewrite bind_getptr.
  apply bind_undef, load_oob. simpl_length. lia.
Qed.

(** ** Concrete instances *)

Definition example_options : MQTTPacket_connectData :=
  {| MQTTVersion := 4; clientID := c_string [99]; keepAliveInterval := 60;
     cleansession := 1; willFlag := 0; will := MQTTPacket_willOptions_initializer;
     username := c_string [117]; password := c_string [112; 119] |}.

Definition example_packet : connect_packet :=
  {| cp_version := 4; cp_clean := 1; cp_keepalive := 60; cp_client := [99]; cp_will := None;
     cp_username := Some [117]; cp_password := Some [112; 119] |}.

Lemma example_rep : connect_rep example_options example_packet.
Proof.
  split; simpl; unfold zlen; simpl; repeat split; auto with sdk lia.
Qed.

Lemma MQTTSerialize_connect_correct_witness :
  MQTTSerialize_connect 22 example_options (Cursor (replicate 22 0) 0)
  = Ret (22, Cursor [16; 20; 0; 4; 77; 81; 84; 84; 4; 194; 0; 60; 0; 1; 99; 0; 1; 117; 0; 2; 112; 119] 22).
Proof.
  refine (MQTTSerialize_connect_correct example_options example_packet 22 (replicate 22 0) 0
    example_rep _ _); vm_compute; discriminate.
Defined.

Lemma connect_roundtrip_witness :
  let mem := [] ++ wire_connect example_packet ++ [3] in
  exists d p,
    @MQTTDeserialize_connect true MQTTString_initializer MQTTPacket_connectData_initializer 22 (Cursor mem 0)
    = Ret ((1, d), Cursor mem p) /\ connect_read mem example_packet d.
Proof.
  refine (@connect_roundtrip true example_options example_packet MQTTString_initializer
    MQTTPacket_connectData_initializer [] [3] example_rep _ _ _ _);
  vm_compute; discriminate.
Defined.

Lemma connack_roundtrip_witness :
  MQTTSerialize_connack 4 5 1 (Cursor [0; 0; 0; 0] 0) = Ret (4, Cursor [32; 2; 1; 5] 4) /\
  MQTTDeserialize_connack {| co_sessionPresent := 0; co_connack_rc := 0 |} (Cursor [32; 2; 1; 5] 0)
  = Ret ((1, {| co_sessionPresent := 1; co_connack_rc := 5 |}), Cursor [32; 2; 1; 5] 4).
Proof.
  apply (connack_roundtrip 1 5 4 {| co_sessionPresent := 0; co_connack_rc := 0 |} [0; 0; 0; 0]);
    unfold is_byte, zlen; simpl; lia.
Defined.

Lemma connack_overflow_witness : MQTTSerialize_connack 2 0 0 (Cursor [0; 0] 0) = Undef.
Proof. apply (connack_overflow 0 0 2 [0; 0]); unfold zlen; simpl; lia. Defined.

Lemma MQTTSerialize_zero_correct_witness :
  MQTTSerialize_zero 2 PINGREQ (Cursor [0; 0; 7] 0) = Ret (2, Cursor [192; 0; 7] 2).
Proof. refine (MQTTSerialize_zero_correct PINGREQ 2 [0; 0; 7] 0 _ _); unfold PINGREQ, zlen; simpl; lia. Defined.

Lemma connect_version_overflow_witness :
  let o := {| MQTTVersion := 5; clientID := MQTTString_initializer; keepAliveInterval := 60;
              cleansession := 1; willFlag := 0; will := MQTTPacket_willOptions_initializer;
              username := MQTTString_initializer; password := MQTTString_initializer |} in
  MQTTSerialize_connect 4 o (Cursor (replicate (Z.to_nat (MQTTSerialize_connect_size o)) 0) 0) = Undef.
Proof. apply (connect_version_overflow 4). vm_compute. discriminate. Defined.

Lemma connect_version_overread_witness :
  @MQTTDeserialize_connect true MQTTString_initializer MQTTPacket_connectData_initializer 8
    (Cursor [16; 6; 0; 4; 77; 81; 84; 84] 0) = Undef.
Proof.
  refine (@connect_version_overread true MQTTString_initializer MQTTPacket_connectData_initializer MQTT _).
  reflexivity.
Defined.
