(* ===== verification/MqttSubscribe.v ===== *)
(** * SUBSCRIBE, UNSUBSCRIBE and their acknowledgements

    [src/src/mqtt/packet/iot_mqtt_subscribe_client.c], [.._server.c],
    [iot_mqtt_unsubscribe_client.c] and [.._server.c].  The caller's arrays
    are lists; an index outside the list is undefined behaviour. *)

From S2P Require Import Prelude Cursor MqttPacket MqttCodec MqttPublish.

(** ** Client side *)

(** The loop of the two length functions, [extra] bytes per topic filter. *)
Fixpoint filters_length (extra : Z) (i : nat) (count : nat) (topicFilters : list MQTTString) (len : Z)
    : option Z :=
  match count with
  | O => Some len
  | S count =>
      t ← topicFilters !! i;
      filters_length extra (S i) count topicFilters (len + (2 + MQTTstrlen t + extra))
  end.

Definition MQTTSerialize_subscribeLength (count : Z) (topicFilters : list MQTTString) : option Z :=
  filters_length 1 0 (Z.to_nat count) topicFilters 2.

Definition MQTTSerialize_unsubscribeLength (count : Z) (topicFilters : list MQTTString) : option Z :=
  filters_length 0 0 (Z.to_nat count) topicFilters 2.

(** The header byte of SUBSCRIBE and UNSUBSCRIBE: QoS 1. *)
Definition subscribe_header (type dup : Z) : Z :=
  Header.set_qos 1 (Header.set_dup dup (Header.set_type type 0)).

Fixpoint write_filters (i count : nat) (topicFilters : list MQTTString) (requestedQoSs : list Z)
    : st cursor unit :=
  match count with
  | O => mret tt
  | S count =>
      t ← need (topicFilters !! i);
      writeMQTTString t;;
      q ← need (requestedQoSs !! i);
      writeChar q;;
      write_filters (S i) count topicFilters requestedQoSs
  end.

Definition MQTTSerialize_subscribe (buflen dup packetid count : Z)
    (topicFilters : list MQTTString) (requestedQoSs : list Z) : st cursor Z :=
  buf ← getptr;
  rem_len ← need (MQTTSerialize_subscribeLength count topicFilters);
  if buflen <? MQTTPacket_len rem_len then mret MQTTPACKET_BUFFER_TOO_SHORT
  else
    writeChar (subscribe_header SUBSCRIBE dup);;
    (p ← getptr; k ← MQTTPacket_encode p rem_len; advance k);;
    writeInt packetid;;
    write_filters 0 (Z.to_nat count) topicFilters requestedQoSs;;
    ptr ← getptr;
    mret (Z.of_nat ptr - Z.of_nat buf).

Definition MQTTSerialize_subscribe_size (count : Z) (topicFilters : list MQTTString) : option Z :=
  len ← MQTTSerialize_subscribeLength count topicFilters; Some (MQTTPacket_len len).

Fixpoint write_topics (i count : nat) (topicFilters : list MQTTString) : st cursor unit :=
  match count with
  | O => mret tt
  | S count =>
      t ← need (topicFilters !! i);
      writeMQTTString t;;
      write_topics (S i) count topicFilters
  end.

Definition MQTTSerialize_unsubscribe (buflen dup packetid count : Z)
    (topicFilters : list MQTTString) : st cursor Z :=
  buf ← getptr;
  rem_len ← need (MQTTSerialize_unsubscribeLength count topicFilters);
  if buflen <? MQTTPacket_len rem_len then mret MQTTPACKET_BUFFER_TOO_SHORT
  else
    writeChar (subscribe_header UNSUBSCRIBE dup);;
    (p ← getptr; k ← MQTTPacket_encode p rem_len; advance k);;
    writeInt packetid;;
    write_topics 0 (Z.to_nat count) topicFilters;;
    ptr ← getptr;
    mret (Z.of_nat ptr - Z.of_nat buf).

Definition MQTTSerialize_unsubscribe_size (count : Z) (topicFilters : list MQTTString) : option Z :=
  len ← MQTTSerialize_unsubscribeLength count topicFilters; Some (MQTTPacket_len len).

(** [*packetid], [*count] and the array [grantedQoSs], before and after. *)
Record suback_out := { so_packetid : Z; so_count : Z; so_grantedQoSs : list Z }.

(** [grantedQoSs[i] = v] on an array of the caller. *)
Definition array_set {A} (l : list A) (i : Z) (v : A) : option (list A) :=
  if (0 <=? i) && (i <? zlen l) then Some (<[Z.to_nat i := v]> l) else None.

(** [while (curdata < enddata)]: every round reads one byte. *)
Fixpoint suback_loop `{CharModel} (fuel : nat) (maxcount enddata : Z) (o : suback_out)
    : st cursor (Z * suback_out) :=
  curdata ← getptr;
  if Z.of_nat curdata <? enddata then
    match fuel with
    | O => hang
    | S fuel =>
        if maxcount <=? so_count o then mret (-1, o)
        else
          b ← readChar;
          a ← need (array_set (so_grantedQoSs o) (so_count o) (char_val b));
          suback_loop fuel maxcount enddata
            {| so_packetid := so_packetid o; so_count := so_count o + 1; so_grantedQoSs := a |}
    end
  else mret (1, o).

Definition MQTTDeserialize_suback `{CharModel} (maxcount : Z) (o : suback_out)
    : st cursor (Z * suback_out) :=
  byte ← readChar;
  if negb (Header.get_type byte =? SUBACK) then mret (0, o)
  else
    '(rc, mylen) ← decode_length;
    curdata ← getptr;
    let enddata := Z.of_nat curdata + mylen in
    if enddata - Z.of_nat curdata <? 2 then mret (rc, o)
    else
      id ← readInt;
      suback_loop (Z.to_nat mylen) maxcount enddata
        {| so_packetid := to_ushort id; so_count := 0; so_grantedQoSs := so_grantedQoSs o |}.

(** [*packetid] before and after; [type] and [dup] are local. *)
Definition MQTTDeserialize_unsuback (packetid : Z) : st cursor (Z * Z) :=
  '(rc, o) ← MQTTDeserialize_ack {| ao_packettype := 0; ao_dup := 0; ao_packetid := packetid |};
  mret (if ao_packettype o =? UNSUBACK then 1 else rc, ao_packetid o).

(** ** Server side *)

Record subscribe_out := {
  sub_dup : Z; sub_packetid : Z; sub_count : Z;
  sub_topicFilters : list MQTTString; sub_requestedQoSs : list Z
}.

(** [while (curdata < enddata)]; [rc] is what [goto exit] leaves. *)
Fixpoint subscribe_loop `{CharModel} (fuel : nat) (rc enddata : Z) (o : subscribe_out)
    : st cursor (Z * subscribe_out) :=
  curdata ← getptr;
  if Z.of_nat curdata <? enddata then
    match fuel with
    | O => hang
    | S fuel =>
        old ← need (if sub_count o <? 0 then None else sub_topicFilters o !! Z.to_nat (sub_count o));
        '(ok, s) ← readMQTTLenString old enddata;
        filters ← need (array_set (sub_topicFilters o) (sub_count o) s);
        let o := {| sub_dup := sub_dup o; sub_packetid := sub_packetid o; sub_count := sub_count o;
                    sub_topicFilters := filters; sub_requestedQoSs := sub_requestedQoSs o |} in
        if ok =? 0 then mret (rc, o)
        else
          curdata ← getptr;
          if enddata <=? Z.of_nat curdata then mret (rc, o)
          else
            q ← readChar;
            qs ← need (array_set (sub_requestedQoSs o) (sub_count o) (char_val q));
            subscribe_loop fuel rc enddata
              {| sub_dup := sub_dup o; sub_packetid := sub_packetid o;
                 sub_count := sub_count o + 1;
                 sub_topicFilters := sub_topicFilters o; sub_requestedQoSs := qs |}
    end
  else mret (1, o).

(** [maxcount] is a parameter the function does not use. *)
Definition MQTTDeserialize_subscribe `{CharModel} (maxcount : Z) (o : subscribe_out)
    : st cursor (Z * subscribe_out) :=
  byte ← readChar;
  if negb (Header.get_type byte =? SUBSCRIBE) then mret (-1, o)
  else
    '(rc, mylen) ← decode_length;
    curdata ← getptr;
    let enddata := Z.of_nat curdata + mylen in
    id ← readInt;
    subscribe_loop (Z.to_nat mylen) rc enddata
      {| sub_dup := Header.get_dup byte; sub_packetid := to_ushort id; sub_count := 0;
         sub_topicFilters := sub_topicFilters o; sub_requestedQoSs := sub_requestedQoSs o |}.

Definition MQTTSerialize_suback (buflen packetid count : Z) (grantedQoSs : list Z) : st cursor Z :=
  buf ← getptr;
  if buflen <? 2 + count then mret MQTTPACKET_BUFFER_TOO_SHORT
  else
    writeChar (Header.set_type SUBACK 0);;
    (p ← getptr; k ← MQTTPacket_encode p (2 + count); advance k);;
    writeInt packetid;;
    (fix loop (i n : nat) : st cursor unit :=
       match n with
       | O => mret tt
       | S n => q ← need (grantedQoSs !! i); writeChar q;; loop (S i) n
       end) 0%nat (Z.to_nat count);;
    ptr ← getptr;
    mret (Z.of_nat ptr - Z.of_nat buf).

(** [while (curdata < enddata)] of the UNSUBSCRIBE deserializer. *)
Fixpoint unsubscribe_loop (fuel : nat) (rc enddata : Z) (count : Z) (filters : list MQTTString)
    : st cursor (Z * Z * list MQTTString) :=
  curdata ← getptr;
  if Z.of_nat curdata <? enddata then
    match fuel with
    | O => hang
    | S fuel =>
        old ← need (if count <? 0 then None else filters !! Z.to_nat count);
        '(ok, s) ← readMQTTLenString old enddata;
        filters ← need (array_set filters count s);
        if ok =? 0 then mret (rc, count, filters)
        else unsubscribe_loop fuel rc enddata (count + 1) filters
    end
  else mret (1, count, filters).

Definition MQTTDeserialize_unsubscribe (maxcount : Z) (o : subscribe_out)
    : st cursor (Z * subscribe_out) :=
  byte ← readChar;
  if negb (Header.get_type byte =? UNSUBSCRIBE) then mret (0, o)
  else
    '(rc, mylen) ← decode_length;
    curdata ← getptr;
    let enddata := Z.of_nat curdata + mylen in
    id ← readInt;
    '(rc, count, filters) ← unsubscribe_loop (Z.to_nat mylen) rc enddata 0 (sub_topicFilters o);
    mret (rc, {| sub_dup := Header.get_dup byte; sub_packetid := to_ushort id; sub_count := count;
                 sub_topicFilters := filters; sub_requestedQoSs := sub_requestedQoSs o |}).

Definition MQTTSerialize_unsuback (buflen packetid : Z) : st cursor Z :=
  buf ← getptr;
  if buflen <? 2 then mret MQTTPACKET_BUFFER_TOO_SHORT
  else
    writeChar (Header.set_type UNSUBACK 0);;
    (p ← getptr; k ← MQTTPacket_encode p 2; advance k);;
    writeInt packetid;;
    ptr ← getptr;
    mret (Z.of_nat ptr - Z.of_nat buf).

(** ** What the serializers write *)

Definition subscribe_body (packetid : Z) (filters : list (list Z * Z)) : list Z :=
  be16 packetid ++ concat ((fun f => wire_string f.1 ++ [f.2]) <$> filters).

Definition wire_subscribe (dup packetid : Z) (filters : list (list Z * Z)) : list Z :=
  wire_packet (16 * SUBSCRIBE + 8 * dup + 2) (subscribe_body packetid filters).

Definition unsubscribe_body (packetid : Z) (filters : list (list Z)) : list Z :=
  be16 packetid ++ concat (wire_string <$> filters).

Definition wire_unsubscribe (dup packetid : Z) (filters : list (list Z)) : list Z :=
  wire_packet (16 * UNSUBSCRIBE + 8 * dup + 2) (unsubscribe_body packetid filters).

(** The arrays of the program stand for a list of filters with their QoS. *)
Definition topics_rep (topics : list MQTTString) (filters : list (list Z)) : Prop :=
  Forall2 (fun t f => str_rep t f /\ zlen f < 65536) topics filters.

Lemma filters_length_spec extra topics filters :
  topics_rep topics filters ->
  forall pre len,
  filters_length extra (length pre) (length topics) (pre ++ topics) len
  = Some (len + zlen (concat (wire_string <$> filters)) + extra * zlen filters).
Proof.
  induction 1 as [|t f topics filters [Ht _] _ IH]; intros pre len.
  - cbn [filters_length length fmap list_fmap concat]. unfold zlen. f_equal. simpl. lia.
  - cbn [length filters_length]. rewrite list_lookup_middle by done. cbn [mbind option_bind].
    replace (S (length pre)) with (length (pre ++ [t])) by (rewrite length_app; simpl; lia).
    change (t :: topics) with ([t] ++ topics).
    rewrite (app_assoc pre [t] topics), IH, (MQTTstrlen_rep _ _ Ht), fmap_cons. cbn [concat].
    rewrite zlen_app, zlen_wire_string, zlen_cons. f_equal. lia.
Qed.

(** The bytes of a list of filters. *)
Definition filter_bytes (filters : list (list Z)) (qs : list Z) : list Z :=
  concat ((fun f => wire_string f.1 ++ [f.2]) <$> zip filters qs).

Lemma filter_bytes_cons f q filters qs :
  filter_bytes (f :: filters) (q :: qs) = wire_string f ++ [q] ++ filter_bytes filters qs.
Proof. unfold filter_bytes. cbn [zip zip_with fmap list_fmap concat fst snd]. by rewrite <- app_assoc. Qed.

Lemma zlen_filter_bytes filters qs :
  length qs = length filters ->
  zlen (filter_bytes filters qs) = zlen (concat (wire_string <$> filters)) + zlen filters.
Proof.
  revert qs. induction filters as [|f filters IH]; intros [|q qs] Hq; try done.
  injection Hq as Hq. rewrite filter_bytes_cons, !zlen_app, IH, fmap_cons by done.
  cbn [concat]. rewrite zlen_app. autorewrite with zlen. lia.
Qed.

Lemma emits_write_filters topics filters :
  topics_rep topics filters -> forall qs pre qpre,
  length qs = length filters -> length qpre = length pre -> bytes qs ->
  emits (write_filters (length pre) (length topics) (pre ++ topics) (qpre ++ qs))
    (filter_bytes filters qs) tt.
Proof.
  induction 1 as [|t f topics filters [Ht Hl] _ IH]; intros [|q qs] pre qpre Hq Hp Hb; try done.
  - apply emits_ret.
  - injection Hq as Hq. inversion Hb as [|? ? Hqb Hb']; subst.
    rewrite filter_bytes_cons. cbn [length write_filters].
    rewrite (list_lookup_middle pre topics t), (list_lookup_middle qpre qs q) by done.
    apply emits_need. eapply emits_bind; [by apply emits_writeMQTTString|].
    apply emits_need. eapply (emits_bind _ _ [_]); [by apply emits_writeChar_eq, to_uchar_id|].
    specialize (IH qs (pre ++ [t]) (qpre ++ [q]) Hq).
    rewrite !length_app, <- !app_assoc in IH. simpl length in IH. rewrite !Nat.add_1_r in IH.
    apply IH; [congruence|done].
Qed.

Lemma emits_write_topics topics filters :
  topics_rep topics filters -> forall pre,
  emits (write_topics (length pre) (length topics) (pre ++ topics))
    (concat (wire_string <$> filters)) tt.
Proof.
  induction 1 as [|t f topics filters [Ht Hl] _ IH]; intros pre; [apply emits_ret|].
  cbn [length write_topics]. rewrite list_lookup_middle by done. rewrite fmap_cons. cbn [concat].
  apply emits_need. eapply emits_bind; [by apply emits_writeMQTTString|].
  specialize (IH (pre ++ [t])). rewrite length_app, <- app_assoc in IH. simpl length in IH.
  by rewrite Nat.add_1_r in IH.
Qed.

Lemma subscribe_header_byte t dup :
  0 <= t < 16 -> 0 <= dup < 2 ->
  to_uchar (subscribe_header t dup) = 16 * t + 8 * dup + 2.
Proof.
  intros Ht Hd.
  assert (H : forallb (fun t => forallb (fun d =>
      to_uchar (subscribe_header t d) =? 16 * t + 8 * d + 2) (seqZ 0 2)) (seqZ 0 16) = true)
    by (vm_compute; reflexivity).
  apply (forallb_seqZ _ _ t) in H; [|done]. cbv beta in H.
  apply (forallb_seqZ _ _ dup) in H; [|done]. by apply Z.eqb_eq.
Qed.

(** [MQTTSerialize_subscribe] refines the wire format and respects its
    buffer: it writes the SUBSCRIBE packet with one filter and one requested
    QoS per array element and returns its length, or reports that the buffer
    is too short and writes nothing. *)
Theorem MQTTSerialize_subscribe_correct topics filters qs dup pid buflen mem p :
  topics_rep topics filters -> length qs = length filters -> bytes qs ->
  0 <= dup < 2 -> 0 <= pid < 65536 ->
  zlen (subscribe_body pid (zip filters qs)) <= max_remaining_length ->
  Z.of_nat p + buflen <= zlen mem ->
  MQTTSerialize_subscribe buflen dup pid (zlen topics) topics qs (Cursor mem p)
  = let wire := wire_subscribe dup pid (zip filters qs) in
    if buflen <? MQTTPacket_len (zlen (subscribe_body pid (zip filters qs)))
    then Ret (MQTTPACKET_BUFFER_TOO_SHORT, Cursor mem p)
    else Ret (zlen wire, Cursor (put mem p wire) (p + length wire)).
Proof.
  intros Hr Hq Hqb Hd Hpid Hmax Hbuf. unfold MQTTSerialize_subscribe. rewrite bind_getptr.
  assert (Hlen : MQTTSerialize_subscribeLength (zlen topics) topics
                 = Some (zlen (subscribe_body pid (zip filters qs)))).
  { unfold MQTTSerialize_subscribeLength, zlen at 1. rewrite Nat2Z.id.
    rewrite (filters_length_spec 1 _ _ Hr []). f_equal. unfold subscribe_body.
    fold (filter_bytes filters qs). rewrite zlen_app, zlen_filter_bytes by done.
    unfold be16. autorewrite with zlen. lia. }
  rewrite Hlen. set (n := zlen (subscribe_body pid (zip filters qs))) in *.
  assert (Hn : 0 <= n <= max_remaining_length) by (split; [apply zlen_nonneg|done]).
  change ((need (Some n) ≫= ?f) ?s) with (f n s). cbn zeta beta.
  destruct (Z.ltb_spec buflen (MQTTPacket_len n)) as [|Hfit]; [done|].
  match goal with |- ?m _ = _ => assert (He : emits_at p m
    (wire_subscribe dup pid (zip filters qs)) (zlen (wire_subscribe dup pid (zip filters qs)))) end.
  { unfold wire_subscribe, wire_packet at 1. fold n. unfold subscribe_body at 1.
    fold (filter_bytes filters qs).
    apply (emits_at_bind _ _ _ [_] _ tt);
      [by apply emits_writeChar_eq, subscribe_header_byte|].
    eapply emits_at_bind; [by apply emits_encode|].
    eapply emits_at_bind; [by apply emits_writeInt|].
    eapply emits_at_bind_nil.
    { unfold zlen. rewrite Nat2Z.id. by apply (emits_write_filters topics filters Hr qs [] []). }
    apply emits_at_rc. rewrite zlen_wire_packet. fold n. unfold n at 2, subscribe_body.
    fold (filter_bytes filters qs). unfold zlen. simpl_length. lia. }
  apply He. by eapply packet_fits.
Qed.

(** [MQTTSerialize_unsubscribe] refines the wire format and respects its
    buffer. *)
Theorem MQTTSerialize_unsubscribe_correct topics filters dup pid buflen mem p :
  topics_rep topics filters ->
  0 <= dup < 2 -> 0 <= pid < 65536 ->
  zlen (unsubscribe_body pid filters) <= max_remaining_length ->
  Z.of_nat p + buflen <= zlen mem ->
  MQTTSerialize_unsubscribe buflen dup pid (zlen topics) topics (Cursor mem p)
  = let wire := wire_unsubscribe dup pid filters in
    if buflen <? MQTTPacket_len (zlen (unsubscribe_body pid filters))
    then Ret (MQTTPACKET_BUFFER_TOO_SHORT, Cursor mem p)
    else Ret (zlen wire, Cursor (put mem p wire) (p + length wire)).
Proof.
  intros Hr Hd Hpid Hmax Hbuf. unfold MQTTSerialize_unsubscribe. rewrite bind_getptr.
  assert (Hlen : MQTTSerialize_unsubscribeLength (zlen topics) topics
                 = Some (zlen (unsubscribe_body pid filters))).
  { unfold MQTTSerialize_unsubscribeLength, zlen at 1. rewrite Nat2Z.id.
    rewrite (filters_length_spec 0 _ _ Hr []). f_equal. unfold unsubscribe_body.
    rewrite zlen_app. unfold be16. autorewrite with zlen. lia. }
  rewrite Hlen. set (n := zlen (unsubscribe_body pid filters)) in *.
  assert (Hn : 0 <= n <= max_remaining_length) by (split; [apply zlen_nonneg|done]).
  change ((need (Some n) ≫= ?f) ?s) with (f n s). cbn zeta beta.
  destruct (Z.ltb_spec buflen (MQTTPacket_len n)) as [|Hfit]; [done|].
  match goal with |- ?m _ = _ => assert (He : emits_at p m
    (wire_unsubscribe dup pid filters) (zlen (wire_unsubscribe dup pid filters))) end.
  { unfold wire_unsubscribe, wire_packet at 1. fold n. unfold unsubscribe_body at 1.
    apply (emits_at_bind _ _ _ [_] _ tt);
      [by apply emits_writeChar_eq, subscribe_header_byte|].
    eapply emits_at_bind; [by apply emits_encode|].
    eapply emits_at_bind; [by apply emits_writeInt|].
    eapply emits_at_bind_nil.
    { unfold zlen. rewrite Nat2Z.id. by apply (emits_write_topics topics filters Hr []). }
    apply emits_at_rc. rewrite zlen_wire_packet. fold n. unfold n at 2, unsubscribe_body.
    unfold zlen. simpl_length. lia. }
  apply He. by eapply packet_fits.
Qed.

(** ** SUBACK *)

Definition wire_suback (packetid : Z) (codes : list Z) : list Z :=
  wire_packet (16 * SUBACK) (be16 packetid ++ codes).

Section suback.
Context `{CharModel}.

(** The loop stores the codes one after the other. *)
Lemma reads_suback_loop codes : forall fuel maxcount p enddata pid done_ old rest,
  zlen done_ + zlen codes <= maxcount -> length old = length codes ->
  enddata = Z.of_nat p + zlen codes -> (length codes <= fuel)%nat ->
  reads_at p
    (suback_loop fuel maxcount enddata
       {| so_packetid := pid; so_count := zlen done_; so_grantedQoSs := done_ ++ old ++ rest |})
    codes
    (1, {| so_packetid := pid; so_count := zlen done_ + zlen codes;
           so_grantedQoSs := done_ ++ (char_val <$> codes) ++ rest |}).
Proof.
  induction codes as [|b codes IH]; intros fuel maxcount p enddata pid done_ old rest
    Hmax Hold He Hf; destruct old as [|x old]; try done.
  - destruct fuel; cbn [suback_loop]; apply reads_getptr;
      rewrite (proj2 (Z.ltb_ge _ _)) by (rewrite He, zlen_nil; lia);
      rewrite zlen_nil, Z.add_0_r; apply reads_ret.
  - rewrite zlen_cons in Hmax, He. injection Hold as Hold. pose proof (zlen_nonneg codes).
    destruct fuel as [|fuel]; [simpl in Hf; lia|]. simpl in Hf.
    cbn [suback_loop]. apply reads_getptr. cbn [so_count so_packetid so_grantedQoSs].
    rewrite (proj2 (Z.ltb_lt _ _)), (proj2 (Z.leb_gt _ _)) by lia.
    change (b :: codes) with ([b] ++ codes).
    eapply reads_bind; [apply reads_readChar|].
    assert (Ha : array_set (done_ ++ (x :: old) ++ rest) (zlen done_) (char_val b)
                 = Some ((done_ ++ [char_val b]) ++ old ++ rest)).
    { unfold array_set. pose proof (zlen_nonneg done_). pose proof (zlen_nonneg old). pose proof (zlen_nonneg rest).
      rewrite (proj2 (Z.leb_le _ _)), (proj2 (Z.ltb_lt _ _))
        by (autorewrite with zlen; lia).
      cbn [andb app]. f_equal. unfold zlen. rewrite Nat2Z.id.
      rewrite insert_app_r_alt, Nat.sub_diag by done. by rewrite <- app_assoc. }
    rewrite Ha. specialize (IH fuel maxcount (p + length [b])%nat enddata pid
      (done_ ++ [char_val b]) old rest).
    rewrite !zlen_app, !zlen_cons, !zlen_nil, <- !app_assoc in IH.
    intros pre post Hp.
    change ((need (Some ?a) ≫= ?f) ?s) with (f a s). cbn beta.
    rewrite <- app_assoc. cbn [app] in IH |- *.
    replace (zlen done_ + 1) with (zlen done_ + (1 + 0)) by lia.
    rewrite IH; [|lia|done|simpl length; lia|lia|done].
    rewrite fmap_cons, zlen_cons. cbn [app].
    by replace (zlen done_ + (1 + 0) + zlen codes) with (zlen done_ + (1 + zlen codes)) by lia.
Qed.

(** [MQTTDeserialize_suback] on a well-formed SUBACK with at most
    [maxcount] return codes: the identifier, the number of codes and every
    code, as the value of a plain [char]. *)
Theorem MQTTDeserialize_suback_correct pid codes old rest maxcount o pre post :
  0 <= pid < 65536 -> zlen codes <= maxcount ->
  zlen codes + 2 <= max_remaining_length ->
  length old = length codes -> so_grantedQoSs o = old ++ rest ->
  let mem := pre ++ wire_suback pid codes ++ post in
  MQTTDeserialize_suback maxcount o (Cursor mem (length pre))
  = Ret ((1, {| so_packetid := pid; so_count := zlen codes;
                so_grantedQoSs := (char_val <$> codes) ++ rest |}),
         Cursor mem (length pre + length (wire_suback pid codes))).
Proof.
  intros Hpid Hmax Hlen Hold Ho. pose proof (zlen_nonneg codes).
  assert (Hn : zlen (be16 pid ++ codes) = 2 + zlen codes)
    by (unfold be16; autorewrite with zlen; lia).
  cut (reads_at (length pre) (MQTTDeserialize_suback maxcount o) (wire_suback pid codes)
    (1, {| so_packetid := pid; so_count := zlen codes;
           so_grantedQoSs := (char_val <$> codes) ++ rest |})); [by intros Hr; apply Hr|].
  unfold MQTTDeserialize_suback, wire_suback, wire_packet.
  eapply (reads_bind _ _ _ [_]); [apply reads_readChar|].
  change (Header.get_type (16 * SUBACK) =? SUBACK) with true. cbn [negb].
  eapply reads_bind; [apply reads_decode_length; lia|].
  cbn beta iota. apply reads_getptr.
  rewrite (proj2 (Z.ltb_ge _ _)) by lia.
  eapply reads_bind; [by apply reads_readInt|]. cbn beta.
  unfold to_ushort. rewrite (Z.mod_small pid) by done. rewrite Ho.
  apply (reads_suback_loop codes _ _ _ _ pid [] old rest); rewrite ?zlen_nil; try lia.
  - simpl length. lia.
  - unfold zlen in *. lia.
Qed.

(** Whether the failure return code 0x80 of a SUBACK reaches the caller
    depends on the platform: with an unsigned [char] the stored value is
    128, with a signed [char] it is -128, so a test for 0x80 can never
    succeed there. *)
Theorem suback_failure_code pid o old rest :
  0 <= pid < 65536 -> so_grantedQoSs o = old :: rest ->
  exists o' c,
    MQTTDeserialize_suback 1 o (Cursor (wire_suback pid [128]) 0) = Ret ((1, o'), c) /\
    so_grantedQoSs o' !! 0%nat = Some (if char_signed then -128 else 128).
Proof.
  intros Hpid Ho.
  pose proof (MQTTDeserialize_suback_correct pid [128] [old] rest 1 o [] [] Hpid
    ltac:(done) ltac:(done) eq_refl Ho) as E.
  cbn zeta in E. rewrite app_nil_r in E. cbn [app length] in E.
  do 2 eexists. split; [exact E|]. simpl. unfold char_val. by destruct char_signed.
Qed.

(** A loop whose fuel covers the distance to the end does not run out. *)
Lemma returns_suback_loop fuel : forall maxcount enddata o c,
  enddata - Z.of_nat (cptr c) <= Z.of_nat fuel ->
  returns (suback_loop fuel maxcount enddata o) c (fun _ _ => True).
Proof.
  induction fuel as [|fuel IH]; intros maxcount enddata o c Hf; cbn [suback_loop];
    (eapply returns_bind; [apply returns_getptr|]); intros p ? [-> ->];
    case_if; bool_to_prop; try done; [lia|].
  case_if; [done|].
  eapply returns_bind; [apply returns_readChar|]. intros b ? ->.
  eapply returns_bind; [apply returns_need|]. intros a ? [_ ->].
  apply IH. simpl. lia.
Qed.

Lemma returns_subscribe_loop fuel : forall rc enddata o c,
  bytes (cmem c) -> enddata - Z.of_nat (cptr c) <= Z.of_nat fuel ->
  returns (subscribe_loop fuel rc enddata o) c (fun _ _ => True).
Proof.
  induction fuel as [|fuel IH]; intros rc enddata o c Hb Hf; cbn [subscribe_loop];
    (eapply returns_bind; [apply returns_getptr|]); intros p ? [-> ->];
    case_if; bool_to_prop; try done; [lia|].
  eapply returns_bind; [apply returns_need|]. intros old ? [_ ->].
  eapply returns_bind; [by apply returns_readMQTTLenString|]. intros [ok s] c' (Hm & Hle & Hok).
  eapply returns_bind; [apply returns_need|]. intros fs ? [_ ->]. cbn zeta. simpl in Hok.
  case_if; [done|].
  eapply returns_bind; [apply returns_getptr|]. intros p ? [-> ->]. case_if; [done|].
  eapply returns_bind; [apply returns_readChar|]. intros b ? ->.
  eapply returns_bind; [apply returns_need|]. intros qs ? [_ ->].
  bool_to_prop. apply IH; simpl; [by rewrite Hm|lia].
Qed.
End suback.

Lemma returns_unsubscribe_loop fuel : forall rc enddata count filters c,
  bytes (cmem c) -> enddata - Z.of_nat (cptr c) <= Z.of_nat fuel ->
  returns (unsubscribe_loop fuel rc enddata count filters) c (fun _ _ => True).
Proof.
  induction fuel as [|fuel IH]; intros rc enddata count filters c Hb Hf; cbn [unsubscribe_loop];
    (eapply returns_bind; [apply returns_getptr|]); intros p ? [-> ->];
    case_if; bool_to_prop; try done; [lia|].
  eapply returns_bind; [apply returns_need|]. intros old ? [_ ->].
  eapply returns_bind; [by apply returns_readMQTTLenString|]. intros [ok s] c' (Hm & Hle & Hok).
  eapply returns_bind; [apply returns_need|]. intros fs ? [_ ->]. simpl in Hok.
  case_if; [done|]. bool_to_prop. apply IH; [by rewrite Hm|lia].
Qed.

(** The loops of the SUBACK, SUBSCRIBE and UNSUBSCRIBE deserializers
    terminate on every buffer, well-formed or not: [while (curdata < enddata)]
    makes progress in every round. *)
Theorem subscription_deserializers_terminate `{CharModel} maxcount so o c :
  bytes (cmem c) ->
  (MQTTDeserialize_suback maxcount so c <> Hang) /\
  (MQTTDeserialize_subscribe maxcount o c <> Hang) /\
  (MQTTDeserialize_unsubscribe maxcount o c <> Hang).
Proof.
  intros Hb.
  assert (Hh : forall {A} (m : st cursor A), returns m c (fun _ _ => True) -> m c <> Hang).
  { intros A m Hr E. unfold returns in Hr. by rewrite E in Hr. }
  split; [|split]; apply Hh.
  - unfold MQTTDeserialize_suback. eapply returns_bind; [apply returns_readChar|]. intros b ? ->.
    case_if; [done|].
    eapply returns_bind; [apply returns_decode_length|]. intros [rc n] ? (k & Hk & ->).
    eapply returns_bind; [apply returns_getptr|]. intros p ? [-> ->]. cbn zeta. case_if; [done|].
    eapply returns_bind; [by apply returns_readInt|]. intros id ? [_ ->].
    apply returns_suback_loop. simpl. lia.
  - unfold MQTTDeserialize_subscribe. eapply returns_bind; [apply returns_readChar|]. intros b ? ->.
    case_if; [done|].
    eapply returns_bind; [apply returns_decode_length|]. intros [rc n] ? (k & Hk & ->).
    eapply returns_bind; [apply returns_getptr|]. intros p ? [-> ->]. cbn zeta.
    eapply returns_bind; [by apply returns_readInt|]. intros id ? [_ ->].
    apply returns_subscribe_loop; simpl; [done|lia].
  - unfold MQTTDeserialize_unsubscribe. eapply returns_bind; [apply returns_readChar|]. intros b ? ->.
    case_if; [done|].
    eapply returns_bind; [apply returns_decode_length|]. intros [rc n] ? (k & Hk & ->).
    eapply returns_bind; [apply returns_getptr|]. intros p ? [-> ->]. cbn zeta.
    eapply returns_bind; [by apply returns_readInt|]. intros id ? [_ ->].
    eapply returns_bind; [apply returns_unsubscribe_loop; simpl; [done|lia]|]. by intros [[??]?] ? _.
Qed.

(** [MQTTDeserialize_subscribe] ignores the capacity [maxcount] it is
    given: a packet with more filters than the caller's arrays hold makes it
    write behind them (two filters, arrays of one element, [maxcount] 1). *)
Theorem subscribe_maxcount_ignored `{CharModel} o f1 f2 q1 q2 pid t q :
  0 <= pid < 65536 -> sub_topicFilters o = [t] -> sub_requestedQoSs o = [q] ->
  zlen f1 = 1 -> zlen f2 = 1 ->
  MQTTDeserialize_subscribe 1 o (Cursor (wire_subscribe 0 pid [(f1, q1); (f2, q2)]) 0) = Undef.
Proof.
  intros Hpid Ht Hq H1 H2.
  destruct f1 as [|x1 [|]]; try (unfold zlen in H1; simpl in H1; lia).
  destruct f2 as [|x2 [|]]; try (unfold zlen in H2; simpl in H2; lia).
  destruct o as [d p0 n fs qs]. simpl in Ht, Hq. subst fs qs. reflexivity.
Qed.

(** ** Concrete instances *)

Lemma topics_example : topics_rep [mem_string [97]; mem_string [98; 99]] [[97]; [98; 99]].
Proof.
  repeat constructor; unfold zlen; simpl; auto with sdk lia.
Qed.

Lemma MQTTSerialize_subscribe_correct_witness :
  MQTTSerialize_subscribe 13 0 7 2 [mem_string [97]; mem_string [98; 99]] [1; 2] (Cursor (replicate 13 0) 0)
  = Ret (13, Cursor [130; 11; 0; 7; 0; 1; 97; 1; 0; 2; 98; 99; 2] 13).
Proof.
  refine (MQTTSerialize_subscribe_correct [mem_string [97]; mem_string [98; 99]] [[97]; [98; 99]] [1; 2]
    0 7 13 (replicate 13 0) 0 topics_example _ _ _ _ _ _); try (vm_compute; (discriminate || reflexivity));
    try lia. repeat constructor; lia.
Defined.

Lemma MQTTSerialize_unsubscribe_correct_witness :
  MQTTSerialize_unsubscribe 10 0 7 2 [mem_string [97]; mem_string [98; 99]] (Cursor (replicate 10 0) 0)
  = Ret (MQTTPACKET_BUFFER_TOO_SHORT, Cursor (replicate 10 0) 0).
Proof.
  refine (MQTTSerialize_unsubscribe_correct [mem_string [97]; mem_string [98; 99]] [[97]; [98; 99]]
    0 7 10 (replicate 10 0) 0 topics_example _ _ _ _); try (vm_compute; (discriminate || reflexivity)); lia.
Defined.

Lemma MQTTDeserialize_suback_correct_witness :
  @MQTTDeserialize_suback true 2 {| so_packetid := 0; so_count := 0; so_grantedQoSs := [9; 9] |}
    (Cursor ([] ++ wire_suback 7 [1; 128] ++ []) 0)
  = Ret ((1, {| so_packetid := 7; so_count := 2; so_grantedQoSs := [1; -128] |}),
         Cursor ([] ++ wire_suback 7 [1; 128] ++ []) 6).
Proof.
  refine (@MQTTDeserialize_suback_correct true 7 [1; 128] [9; 9] [] 2 _ [] [] _ _ _ _ _);
    try (vm_compute; (discriminate || reflexivity)); lia.
Defined.

Lemma suback_failure_code_witness :
  exists o' c,
    @MQTTDeserialize_suback true 1 {| so_packetid := 0; so_count := 0; so_grantedQoSs := [0] |}
      (Cursor (wire_suback 7 [128]) 0) = Ret ((1, o'), c) /\
    so_grantedQoSs o' !! 0%nat = Some (-128).
Proof. refine (@suback_failure_code true 7 _ 0 [] _ _); [lia|reflexivity]. Defined.

Lemma subscription_deserializers_terminate_witness :
  @MQTTDeserialize_suback true 1 {| so_packetid := 0; so_count := 0; so_grantedQoSs := [0] |}
    (Cursor [144; 200; 1; 0; 7] 0) <> Hang.
Proof.
  refine (proj1 (@subscription_deserializers_terminate true 1 _
    {| sub_dup := 0; sub_packetid := 0; sub_count := 0; sub_topicFilters := []; sub_requestedQoSs := [] |} _ _)).
  repeat constructor; simpl; lia.
Defined.

Lemma subscribe_maxcount_ignored_witness :
  @MQTTDeserialize_subscribe true 1
    {| sub_dup := 0; sub_packetid := 0; sub_count := 0;
       sub_topicFilters := [MQTTString_initializer]; sub_requestedQoSs := [0] |}
    (Cursor (wire_subscribe 0 7 [([97], 0); ([98], 1)]) 0) = Undef.
Proof.
  refine (@subscribe_maxcount_ignored true _ [97] [98] 0 1 7 MQTTString_initializer 0 _ _ _ _ _);
    try reflexivity; lia.
Defined.
