(* ===== verification/MqttRead.v ===== *)
(** * Reading packets from a transport, and packet identifiers

    Theorems about [MQTTPacket_encode]/[_decode], [MQTTPacket_len],
    [MQTTPacket_read] and [MQTTPacket_getPacketId] of [MqttPacket]. *)

From S2P Require Import Prelude Cursor MqttPacket MqttCodec MqttPublish.

(** The remaining length: [MQTTPacket_encode] writes the variable-length
    integer of the specification and returns its size, and
    [MQTTPacket_decodeBuf] gets the same number and size back, for every
    length MQTT allows. *)
Theorem remaining_length_roundtrip n mem buf p :
  0 <= n <= max_remaining_length -> (buf + length (varint n) <= length mem)%nat ->
  let mem' := put mem buf (varint n) in
  MQTTPacket_encode buf n (Cursor mem p) = Ret (zlen (varint n), Cursor mem' p) /\
  MQTTPacket_decodeBuf buf (Cursor mem' p) = Ret ((zlen (varint n), n), Cursor mem' p).
Proof.
  intros Hn Hl mem'. split; [by apply MQTTPacket_encode_spec|].
  assert (Hb : length (take buf mem) = buf) by (rewrite length_take; lia).
  pose proof (MQTTPacket_decodeBuf_spec (take buf mem) n
    (drop (buf + length (varint n)) mem) p Hn) as E. by rewrite Hb in E.
Qed.

(** [MQTTPacket_len] is never too small for a packet -- so a serializer
    that checks it never overruns -- and it is exact but for four lengths,
    where it is one byte too large. *)
Theorem MQTTPacket_len_sound n :
  0 <= n <= max_remaining_length ->
  1 + zlen (varint n) + n <= MQTTPacket_len n /\
  (MQTTPacket_len n = 1 + zlen (varint n) + n <-> len_overestimates n = false) /\
  (len_overestimates n = true -> MQTTPacket_len n = 2 + zlen (varint n) + n).
Proof.
  intros Hn. rewrite MQTTPacket_len_exact by done.
  destruct (len_overestimates n); repeat split; intros; (lia || done).
Qed.

(** ** Blocking read *)

Section read_spec.
Context {Src : Type} (getfn : Z -> st Src (Z * list Z)) (delivers : Src -> list Z -> Prop).

(** The contract of the transport function: it blocks until it has all the
    bytes that were asked for. *)
Hypothesis getfn_delivers : forall s bs post,
  delivers s (bs ++ post) ->
  exists s', getfn (zlen bs) s = Ret ((zlen bs, bs), s') /\ delivers s' post.

Lemma fetch_spec a s mem p bs post :
  delivers s (bs ++ post) -> (a + length bs <= length mem)%nat ->
  exists s', fetch getfn a (zlen bs) (s, Cursor mem p) = Ret (zlen bs, (s', Cursor (put mem a bs) p))
             /\ delivers s' post.
Proof using getfn_delivers.
  intros Hs Hl. destruct (getfn_delivers s bs post Hs) as (s' & E & Hs').
  exists s'. split; [|done]. unfold fetch, mbind, st_bind. simpl. rewrite E.
  unfold memcpy_at. simpl. by rewrite decide_True.
Qed.

Lemma fetch_char_delivers s b l :
  delivers s (b :: l) -> exists s', fetch_char getfn s = Ret ((1, b), s') /\ delivers s' l.
Proof using getfn_delivers.
  intros Hs. destruct (getfn_delivers s [b] l Hs) as (s' & E & Hs').
  exists s'. split; [|done]. unfold fetch_char, mbind, st_bind.
  change (zlen [b]) with 1 in E. by rewrite E.
Qed.

Lemma packet_read_spec h body post buflen s mem p :
  is_byte h -> zlen body <= max_remaining_length ->
  5 <= zlen mem -> buflen <= zlen mem ->
  delivers s (wire_packet h body ++ post) ->
  exists s' mem', MQTTPacket_read getfn buflen (s, Cursor mem p)
    = Ret (if buflen <? zlen (wire_packet h body) then -1 else Header.get_type h,
           (s', Cursor mem' p)) /\
    (zlen (wire_packet h body) <= buflen ->
     mem' = put mem 0 (wire_packet h body) /\ delivers s' post).
Proof using getfn_delivers.
  intros Hh Hmax Hm5 Hbuf Hs. rewrite zlen_wire_packet.
  set (n := zlen body) in *. assert (Hn : 0 <= n <= max_remaining_length) by (split; [apply zlen_nonneg|done]).
  unfold wire_packet in Hs. fold n in Hs. rewrite <- app_comm_cons, <- app_assoc in Hs.
  pose proof (length_varint n) as Hv.
  destruct (fetch_spec 0 s mem p [h] _ Hs) as (s1 & E1 & Hs1); [unfold zlen in Hm5; simpl; lia|].
  destruct (MQTTPacket_decode_spec _ delivers fetch_char_delivers n (body ++ post) s1 Hn Hs1)
    as (s2 & E2 & Hs2).
  assert (Hl1 : length (put mem 0 [h]) = length mem) by (apply length_put; unfold zlen in Hm5; simpl; lia).
  assert (Hfit : (0 + length [h] + length (varint n) <= length mem)%nat) by (unfold zlen in Hm5; simpl; lia).
  assert (E3 : MQTTPacket_encode 1 n (Cursor (put mem 0 [h]) p)
               = Ret (zlen (varint n), Cursor (put mem 0 (h :: varint n)) p)).
  { rewrite MQTTPacket_encode_spec by (rewrite ?Hl1; simpl in Hfit; (done || lia)).
    change 1%nat with (0 + length [h])%nat at 1. by rewrite put_put. }
  unfold MQTTPacket_read. change (zlen [h]) with 1 in E1. rewrite (bind_ret _ _ _ _ _ E1).
  change (negb (1 =? 1)) with false. cbn iota.
  erewrite bind_ret by (unfold on_src; rewrite E2; reflexivity). cbn beta iota.
  erewrite bind_ret by (unfold on_buf; rewrite E3; reflexivity). cbn zeta.
  replace (n + (1 + zlen (varint n))) with (1 + zlen (varint n) + n) by lia.
  destruct (Z.ltb_spec buflen (1 + zlen (varint n) + n)) as [|Hle].
  { do 2 eexists. split; [reflexivity|lia]. }
  set (hv := h :: varint n) in *.
  assert (Hhv : length hv = (1 + length (varint n))%nat) by done.
  assert (E4 : exists s3, (if n =? 0 then mret n
                           else fetch getfn (Z.to_nat (1 + zlen (varint n))) n)
                 (s2, Cursor (put mem 0 hv) p)
               = Ret (n, (s3, Cursor (put mem 0 (hv ++ body)) p)) /\ delivers s3 post).
  { destruct (Z.eqb_spec n 0) as [H0|H0].
    - assert (body = []) as -> by (subst n; destruct body; [done|unfold zlen in H0; simpl in H0; lia]).
      exists s2. by rewrite app_nil_r.
    - replace (Z.to_nat (1 + zlen (varint n))) with (0 + length hv)%nat by (unfold zlen; lia).
      destruct (fetch_spec (0 + length hv) s2 (put mem 0 hv) p body post Hs2) as (s3 & E & Hs3).
      { rewrite length_put; unfold zlen in *; lia. }
      exists s3. split; [|done]. fold n in E. rewrite E, put_put by (unfold zlen in *; lia). done. }
  destruct E4 as (s3 & E4 & Hs3).
  rewrite (bind_ret _ _ _ _ _ E4), Z.eqb_refl. cbn [negb].
  assert (E5 : (on_buf (load 0) : st (Src * cursor) Z) (s3, Cursor (put mem 0 (hv ++ body)) p)
               = Ret (h, (s3, Cursor (put mem 0 (hv ++ body)) p))) by done.
  rewrite (bind_ret _ _ _ _ _ E5).
  do 2 eexists. split; [reflexivity|]. intros _. by split.
Qed.

(** [MQTTPacket_read] puts exactly the packet the transport delivers into
    the buffer and returns its type; a packet that does not fit [buflen] is
    refused with -1.  Nothing behind the packet is consumed. *)
Theorem MQTTPacket_read_correct h body post buflen s mem p :
  is_byte h -> zlen body <= max_remaining_length ->
  5 <= zlen mem -> buflen <= zlen mem ->
  delivers s (wire_packet h body ++ post) ->
  exists s' mem', MQTTPacket_read getfn buflen (s, Cursor mem p)
    = Ret (if buflen <? zlen (wire_packet h body) then -1 else Header.get_type h,
           (s', Cursor mem' p)) /\
    (zlen (wire_packet h body) <= buflen ->
     mem' = put mem 0 (wire_packet h body) /\ delivers s' post).
Proof using getfn_delivers. apply packet_read_spec. Qed.
End read_spec.

(** ** Packet identifiers *)

Lemma run_readInt_at mem p n :
  has_at mem p (be16 n) -> 0 <= n < 65536 ->
  readInt (Cursor mem p) = Ret (n, Cursor mem (p + 2)).
Proof.
  intros (pre & post & -> & <-) Hn. by apply (reads_readInt (length pre) n Hn pre post).
Qed.

Lemma run_decode_length mem p n :
  has_at mem p (varint n) -> 0 <= n <= max_remaining_length ->
  MQTTPacket_decodeBuf p (Cursor mem p) = Ret ((zlen (varint n), n), Cursor mem p).
Proof. intros (pre & post & -> & <-) Hn. by apply MQTTPacket_decodeBuf_spec. Qed.

Lemma land_240_type b : is_byte b -> Z.shiftr (Z.land b 240) 4 = Header.get_type b.
Proof.
  intros Hb.
  assert (H : forallb (fun b => Z.shiftr (Z.land b 240) 4 =? Header.get_type b) (seqZ 0 256) = true)
    by (vm_compute; reflexivity).
  apply (forallb_seqZ _ _ b) in H; [|done]. by apply Z.eqb_eq.
Qed.

Lemma land_6_qos b : is_byte b -> Z.shiftr (Z.land b 6) 1 = Header.get_qos b.
Proof.
  intros Hb.
  assert (H : forallb (fun b => Z.shiftr (Z.land b 6) 1 =? Header.get_qos b) (seqZ 0 256) = true)
    by (vm_compute; reflexivity).
  apply (forallb_seqZ _ _ b) in H; [|done]. by apply Z.eqb_eq.
Qed.

(** [MQTTPacket_getPacketId] finds the identifier of every well-formed
    acknowledgement, SUBSCRIBE and UNSUBSCRIBE packet (the two bytes behind
    the remaining length), whatever the order of evaluation. *)
Theorem getPacketId_ack `{EvalOrder} h pid rest mem :
  is_byte h -> has_packet_id (Header.get_type h) = true ->
  Header.get_type h <> PUBLISH -> 0 <= pid < 65536 ->
  zlen rest + 2 <= max_remaining_length ->
  has_at mem 0 (wire_packet h (be16 pid ++ rest)) ->
  exists p, MQTTPacket_getPacketId (Cursor mem 0) = Ret (pid, Cursor mem p).
Proof.
  intros Hh Hid Hnp Hpid Hlen Hat. pose proof (zlen_nonneg rest).
  unfold wire_packet in Hat.
  assert (Hn : zlen (be16 pid ++ rest) = 2 + zlen rest) by (unfold be16; autorewrite with zlen; lia).
  set (n := zlen (be16 pid ++ rest)) in *.
  apply (has_at_app _ _ [h]) in Hat as [Hh0 Hat].
  apply has_at_app in Hat as [Hv Hat]. apply has_at_app in Hat as [Hp _].
  unfold MQTTPacket_getPacketId. rewrite bind_getptr.
  assert (Hl : load 0 (Cursor mem 0) = Ret (h, Cursor mem 0)).
  { destruct Hh0 as (pre & post & -> & Hpre). destruct pre; [|done]. done. }
  rewrite (bind_ret _ _ _ _ _ Hl), land_240_type by done.
  rewrite (proj2 (Z.eqb_neq _ _) Hnp), Hid. rewrite bind_setptr.
  simpl in Hv, Hp.
  rewrite (bind_ret _ _ _ _ _ (run_decode_length mem 1 n Hv ltac:(lia))).
  rewrite bind_advance.
  replace (Z.to_nat (Z.of_nat 1 + zlen (varint n))) with (1 + length (varint n))%nat
    by (unfold zlen; lia).
  rewrite (bind_ret _ _ _ _ _ (run_readInt_at mem _ pid Hp Hpid)).
  eexists. unfold mret, st_ret, to_uint. by rewrite Z.mod_small by lia.
Qed.

(** [MQTTPacket_getPacketId] on a PUBLISH packet with QoS above 0: the
    identifier behind the topic, provided the compiler evaluates
    [buf += readInt(&buf)] with the call first.  If it reads [buf] first, the
    function looks two bytes too early (it ends up inside the topic for a
    topic of two bytes or more). *)
Theorem getPacketId_publish `{EvalOrder} dup qos retained pid topic payload mem :
  0 <= dup < 2 -> 0 < qos < 4 -> 0 <= retained < 2 -> 0 <= pid < 65536 ->
  2 <= zlen topic < 65536 -> bytes topic ->
  zlen (publish_body qos pid topic payload) <= max_remaining_length ->
  has_at mem 0 (wire_publish dup qos retained pid topic payload) ->
  exists p, MQTTPacket_getPacketId (Cursor mem 0)
    = Ret (if left_operand_first
           then match reverse topic with b1 :: b0 :: _ => 256 * b0 + b1 | _ => 0 end
           else pid, Cursor mem p).
Proof.
  intros Hd Hq Hr Hpid Ht Htb Hmax Hat.
  rewrite wire_publish_front in Hat. set (n := zlen (publish_body qos pid topic payload)) in *.
  unfold publish_front in Hat. rewrite (proj2 (Z.ltb_lt _ _)) in Hat by lia.
  set (h := 16 * PUBLISH + 8 * dup + 2 * qos + retained) in *.
  assert (Hh : is_byte h) by (unfold h, is_byte, PUBLISH; lia).
  destruct (header_fields PUBLISH dup qos retained ltac:(unfold PUBLISH; lia) Hd ltac:(lia) Hr)
    as (Et & Ed & Eq & Er). fold h in Et, Ed, Eq, Er.
  apply has_at_app in Hat as [Hat _]. apply (has_at_app _ _ [h]) in Hat as [Hh0 Hat].
  apply has_at_app in Hat as [Hv Hat]. apply has_at_app in Hat as [Hw Hp].
  unfold wire_string in Hw. apply has_at_app in Hw as [Hw Htop].
  unfold MQTTPacket_getPacketId. rewrite bind_getptr.
  assert (Hl : load 0 (Cursor mem 0) = Ret (h, Cursor mem 0)).
  { destruct Hh0 as (pre & post & -> & Hpre). destruct pre; [|done]. done. }
  rewrite (bind_ret _ _ _ _ _ Hl), land_240_type, land_6_qos, Et, Eq, Z.eqb_refl by done.
  rewrite (proj2 (Z.eqb_neq qos 0)) by lia. rewrite bind_setptr. cbn [length] in *.
  rewrite (bind_ret _ _ _ _ _ (run_decode_length mem 1 n Hv ltac:(unfold n; split; [apply zlen_nonneg|done]))).
  rewrite bind_advance.
  replace (Z.to_nat (Z.of_nat 1 + zlen (varint n))) with (0 + 1 + length (varint n))%nat
    by (unfold zlen; lia).
  set (q := (0 + 1 + length (varint n))%nat) in *. rewrite bind_getptr.
  rewrite (bind_ret _ _ _ _ _ (run_readInt_at mem q (zlen topic) Hw ltac:(lia))), bind_getptr, bind_setptr.
  destruct left_operand_first.
  - replace (Z.to_nat (Z.of_nat q + zlen topic)) with (q + length topic)%nat by (unfold zlen; lia).
    destruct (reverse topic) as [|b1 [|b0 rt]] eqn:Er'.
    + apply (f_equal length) in Er'. rewrite length_reverse in Er'. unfold zlen in Ht. simpl in Er'. lia.
    + apply (f_equal length) in Er'. rewrite length_reverse in Er'. unfold zlen in Ht. simpl in Er'. lia.
    + assert (Etop : topic = reverse rt ++ [b0; b1]).
      { rewrite <- (reverse_involutive topic), Er', !reverse_cons, <- app_assoc. done. }
      rewrite Etop in Htop. apply has_at_app in Htop as [_ Htop].
      assert (Hb : is_byte b0 /\ is_byte b1).
      { rewrite Etop in Htb. unfold bytes in Htb. rewrite Forall_app, !Forall_cons in Htb. tauto. }
      unfold is_byte in Hb.
      assert (Hbe : [b0; b1] = be16 (256 * b0 + b1)).
      { unfold be16. f_equal; [|f_equal]; Z.to_euclidean_division_equations; lia. }
      rewrite Hbe in Htop. cbn [length be16] in Htop.
      replace (q + 2 + length (reverse rt))%nat with (q + length topic)%nat in Htop
        by (rewrite Etop, length_app; simpl; lia).
      eexists. apply (run_readInt_at mem _ _ Htop). lia.
  - replace (Z.to_nat (Z.of_nat (q + 2) + zlen topic)) with (q + length (be16 (zlen topic) ++ topic))%nat
      by (rewrite length_app; unfold zlen; simpl; lia).
    eexists. by apply run_readInt_at.
Qed.

(** The packet identifier of a truncated acknowledgement: a packet whose
    remaining length is 0, which a peer can send, makes
    [MQTTPacket_getPacketId] read behind the packet. *)
Theorem getPacketId_overread `{EvalOrder} h :
  is_byte h -> has_packet_id (Header.get_type h) = true -> Header.get_type h <> PUBLISH ->
  MQTTPacket_getPacketId (Cursor [h; 0] 0) = Undef.
Proof.
  intros Hh Hid Hnp. unfold MQTTPacket_getPacketId. rewrite bind_getptr.
  rewrite (bind_ret (load 0) _ _ h (Cursor [h; 0] 0)) by done.
  rewrite land_240_type by done.
  rewrite (proj2 (Z.eqb_neq _ _) Hnp), Hid. rewrite bind_setptr. reflexivity.
Qed.

(** ** Concrete instances *)

Lemma remaining_length_roundtrip_witness :
  MQTTPacket_encode 1 300 (Cursor [0; 0; 0; 0; 0] 0) = Ret (2, Cursor [0; 172; 2; 0; 0] 0) /\
  MQTTPacket_decodeBuf 1 (Cursor [0; 172; 2; 0; 0] 0) = Ret ((2, 300), Cursor [0; 172; 2; 0; 0] 0).
Proof.
  refine (remaining_length_roundtrip 300 [0; 0; 0; 0; 0] 1 0 _ _);
    [unfold max_remaining_length; lia|vm_compute; lia].
Defined.

Lemma MQTTPacket_len_sound_witness :
  MQTTPacket_len 126 = 128 /\ MQTTPacket_len 127 = 130.
Proof.
  split; [apply (proj1 (proj2 (MQTTPacket_len_sound 126 ltac:(unfold max_remaining_length; lia)))); reflexivity|].
  apply (proj2 (proj2 (MQTTPacket_len_sound 127 ltac:(unfold max_remaining_length; lia)))). reflexivity.
Defined.

(** A transport that hands out the bytes of a list. *)
Definition list_transport (n : Z) : st (list Z) (Z * list Z) := fun s =>
  Ret ((zlen (take (Z.to_nat n) s), take (Z.to_nat n) s), drop (Z.to_nat n) s).

Lemma list_transport_delivers s bs post :
  s = bs ++ post ->
  exists s', list_transport (zlen bs) s = Ret ((zlen bs, bs), s') /\ s' = post.
Proof.
  intros ->. eexists. unfold list_transport, zlen. rewrite Nat2Z.id, take_app_length, drop_app_length.
  done.
Qed.

Lemma MQTTPacket_read_correct_witness :
  exists s' mem', MQTTPacket_read list_transport 6 ([64; 2; 1; 2; 192; 0], Cursor (replicate 6 0) 0)
    = Ret (PUBACK, (s', Cursor mem' 0)) /\
    (4 <= 6 -> mem' = put (replicate 6 0) 0 [64; 2; 1; 2] /\ s' = [192; 0]).
Proof.
  refine (MQTTPacket_read_correct list_transport eq list_transport_delivers 64 [1; 2] [192; 0] 6
    [64; 2; 1; 2; 192; 0] (replicate 6 0) 0 _ _ _ _ _); try (vm_compute; (discriminate || reflexivity)).
  unfold is_byte; lia.
Defined.

Lemma getPacketId_ack_witness :
  exists p, @MQTTPacket_getPacketId true (Cursor [64; 2; 1; 2] 0) = Ret (258, Cursor [64; 2; 1; 2] p).
Proof.
  refine (@getPacketId_ack true 64 258 [] [64; 2; 1; 2] _ _ _ _ _ _);
    try (vm_compute; (discriminate || reflexivity)); [unfold is_byte; lia|lia|].
  exists [], []. by split.
Defined.

Lemma getPacketId_publish_witness :
  let packet := [50; 6; 0; 2; 97; 98; 0; 7] in
  exists p, @MQTTPacket_getPacketId false (Cursor packet 0) = Ret (7, Cursor packet p).
Proof.
  refine (@getPacketId_publish false 0 1 0 7 [97; 98] [] [50; 6; 0; 2; 97; 98; 0; 7] _ _ _ _ _ _ _ _);
    try lia; try (vm_compute; (discriminate || reflexivity)).
  - unfold zlen; simpl; lia.
  - repeat constructor; lia.
  - exists [], []. by split.
Defined.

Lemma getPacketId_overread_witness : @MQTTPacket_getPacketId false (Cursor [64; 0] 0) = Undef.
Proof. refine (@getPacketId_overread false 64 _ _ _); [unfold is_byte; lia|reflexivity|discriminate]. Defined.
