(* ===== verification/MqttNonblock.v ===== *)
(** * Reading a packet without blocking

    [MQTTPacket_readnb] of [MqttPacket] is called again and again, with a
    transport that gives what has arrived: it puts together the packet that the
    blocking [MQTTPacket_read] reads. *)

From S2P Require Import Prelude Cursor MqttPacket MqttCodec MqttPublish MqttRead.

Section nonblocking.
Context {Src : Type} (getfn : Z -> st Src (Z * list Z)) (stream : Src -> list Z -> nat -> Prop).

(** The contract of a transport that does not block: while there are bytes of
    the stream left it gives some of them, at most as many as were asked for, or
    none; it has given them all after at most [n] calls. *)
Hypothesis getfn_gives : forall s data n m,
  stream s data n -> data <> [] -> 0 < m ->
  exists bs data' s' n', getfn m s = Ret ((zlen bs, bs), s') /\ zlen bs <= m /\ data = bs ++ data' /\
    stream s' data' n' /\ (n' < n)%nat.

(** The caller's loop: until the result is not 0, for at most [polls] more
    calls. *)
Fixpoint readnb_poll (polls : nat) (buflen : Z) (trp : MQTTTransport) : st (Src * cursor) Z :=
  '(r, trp) ← MQTTPacket_readnb getfn buflen trp;
  if r =? 0 then match polls with O => hang | S polls => readnb_poll polls buflen trp end else mret r.

Context (h : Z) (body post : list Z) (buflen : Z) (mem0 : list Z) (p : nat).
Context (Hh : is_byte h) (Htype : Header.get_type h <> 0) (Hmax : zlen body <= max_remaining_length).
Context (Hmem : 5 <= zlen mem0) (Hbuf : buflen <= zlen mem0).

Let digits := varint (zlen body).
Let hdr := h :: digits.

(** How far the packet has been read. *)
Definition at_digit (trp : MQTTTransport) (s : Src) (n : nat) : Prop :=
  exists k m, (k <= 3)%nat /\ 0 <= m < 128 ^ Z.of_nat (S k) /\ trp_len trp = 3 - Z.of_nat k /\
    trp_len trp + zlen (varint_digits k m) = zlen digits /\
    (0 < trp_len trp -> trp_rem_len trp + m * trp_multiplier trp = zlen body) /\
    (trp_len trp = 0 -> m = zlen body) /\
    stream s (varint_digits k m ++ body ++ post) n.

Definition at_body (trp : MQTTTransport) (mem : list Z) (s : Src) (n : nat) : Prop :=
  exists got rest, body = got ++ rest /\ mem = put mem0 0 (hdr ++ got) /\
    trp_len trp = zlen hdr + zlen got /\ trp_rem_len trp = zlen rest /\
    zlen hdr + zlen body <= buflen /\ stream s (rest ++ post) n.

Definition progress (trp : MQTTTransport) (mem : list Z) (s : Src) (n : nat) : Prop :=
  (trp_state trp = 0 /\ mem = mem0 /\ stream s (hdr ++ body ++ post) n) \/
  (trp_state trp = 1 /\ mem = put mem0 0 [h] /\ at_digit trp s n) \/
  (trp_state trp = 2 /\ at_body trp mem s n).

(** A call that has read the packet, or refused it. *)
Definition done_with (r : Z) (mem : list Z) (s : Src) (n : nat) : Prop :=
  if zlen hdr + zlen body <=? buflen
  then r = Header.get_type h /\ mem = put mem0 0 (hdr ++ body) /\ exists n', (n' <= n)%nat /\ stream s post n'
  else r = -1.

(** What one call does. *)
Definition call_spec (call : st (Src * cursor) (Z * MQTTTransport)) (s : Src) (mem : list Z) (n : nat) : Prop :=
  exists r trp' s' mem', call (s, Cursor mem p) = Ret ((r, trp'), (s', Cursor mem' p)) /\
    (r <> 0 /\ done_with r mem' s' n \/ r = 0 /\ exists n', (n' < n)%nat /\ progress trp' mem' s' n').

Lemma fetch_gives a s data n m mem :
  stream s data n -> data <> [] -> 0 < m -> (a + Z.to_nat m <= length mem)%nat ->
  exists bs data' s' n', fetch getfn a m (s, Cursor mem p) = Ret (zlen bs, (s', Cursor (put mem a bs) p)) /\
    zlen bs <= m /\ data = bs ++ data' /\ stream s' data' n' /\ (n' < n)%nat.
Proof using getfn_gives.
  intros Hs Hd Hm Hl. destruct (getfn_gives s data n m Hs Hd Hm) as (bs & data' & s' & n' & E & Hb & Hrest).
  exists bs, data', s', n'. split; [|done]. unfold fetch, mbind, st_bind. cbn. rewrite E.
  unfold memcpy_at. cbn. rewrite decide_True by (unfold zlen in Hb; lia). done.
Qed.

Lemma zlen_hdr : zlen hdr = 1 + zlen digits /\ 1 <= zlen digits <= 4.
Proof.
  unfold hdr, digits. rewrite zlen_cons. pose proof (length_varint (zlen body)) as Hv. revert Hv.
  generalize (varint (zlen body)). intros l Hv. unfold zlen. lia.
Qed.

Lemma load_header mem bs : mem = put mem0 0 (hdr ++ bs) -> zlen hdr + zlen bs <= zlen mem0 -> load 0 (Cursor mem p) = Ret (h, Cursor mem p).
Proof. intros -> Hl. done. Qed.

Lemma body_spec trp mem s n :
  trp_state trp = 2 -> at_body trp mem s n -> call_spec (readnb_case2 getfn trp) s mem n.
Proof using Hbuf Htype getfn_gives.
  intros Hst (got & rest & Hb & Hm & Hlen & Hrem & Hfit & Hs). destruct zlen_hdr as [Hh1 Hh2].
  assert (Hsum : zlen body = zlen got + zlen rest) by (rewrite Hb; apply zlen_app).
  pose proof (zlen_nonneg got). pose proof (zlen_nonneg rest).
  unfold readnb_case2. rewrite Hrem.
  assert (Hfin : forall trp' s' n', rest = [] \/ True -> stream s' post n' -> (n' <= n)%nat ->
    exists r trp2 s2 mem2, (b ← on_buf (load 0); mret (Header.get_type b, set_state 0 trp'))
      (s', Cursor (put mem0 0 (hdr ++ body)) p) = Ret ((r, trp2), (s2, Cursor mem2 p)) /\
      (r <> 0 /\ done_with r mem2 s2 n \/ r = 0 /\ exists n', (n' < n)%nat /\ progress trp2 mem2 s2 n')).
  { intros trp' s' n' _ Hs' Hn'. eexists _, _, _, _. split; [reflexivity|]. left. split; [done|].
    unfold done_with. rewrite (proj2 (Z.leb_le _ _)) by lia. split; [done|]. split; [done|]. by exists n'. }
  destruct (Z.eqb_spec (zlen rest) 0) as [Hr0|Hr0]; cbn [negb].
  - assert (rest = []) as -> by (destruct rest; [done|rewrite zlen_cons in Hr0; pose proof (zlen_nonneg rest); lia]).
    rewrite app_nil_r in Hb. subst got. rewrite Hm. apply (Hfin trp s n); [by right|done|lia].
  - assert (Hl : length mem = length mem0).
    { rewrite Hm. apply length_put. rewrite length_app. unfold zlen in *. lia. }
    destruct (fetch_gives (Z.to_nat (trp_len trp)) s (rest ++ post) n (zlen rest) mem Hs) as
      (bs & data' & s' & n' & E & Hbs & Hd & Hs' & Hn'); [destruct rest; done|lia|unfold zlen in *; lia|].
    unfold call_spec. rewrite (bind_ret _ _ _ _ _ E). pose proof (zlen_nonneg bs).
    rewrite (proj2 (Z.eqb_neq (zlen bs) (-1))) by lia.
    assert (Hput : put mem (Z.to_nat (trp_len trp)) bs = put mem0 0 (hdr ++ got ++ bs)).
    { rewrite Hm. replace (Z.to_nat (trp_len trp)) with (0 + length (hdr ++ got))%nat
        by (rewrite length_app; unfold zlen in *; lia).
      rewrite put_put by (rewrite length_app; unfold zlen in *; lia). by rewrite app_assoc. }
    assert (exists rest', rest = bs ++ rest' /\ data' = rest' ++ post) as (rest' & Hr & Hd').
    { exists (drop (length bs) rest).
      assert (Hlb : (length bs <= length rest)%nat) by (unfold zlen in Hbs; lia).
      assert (Et : take (length bs) rest = bs).
      { rewrite <-(take_app_le rest post) by done. by rewrite Hd, take_app_length. }
      split; [by rewrite <-Et at 1; rewrite take_drop|].
      rewrite <-(drop_app_le rest post) by done. by rewrite Hd, drop_app_length. }
    assert (Hz : zlen rest = zlen bs + zlen rest') by (rewrite Hr; apply zlen_app).
    rewrite Hput. destruct (Z.eqb_spec (zlen bs) 0) as [Hb0|Hb0].
    + eexists _, _, _, _. split; [reflexivity|]. right. split; [done|]. exists n'. split; [done|].
      right. right. split; [done|].
      assert (bs = []) as -> by (destruct bs as [|x bs]; [done|rewrite zlen_cons in Hb0; pose proof (zlen_nonneg bs); lia]).
      cbn [app] in Hr. subst rest'. exists got, rest. by rewrite app_nil_r, <-Hd'.
    + cbn [trp_rem_len set_lens].
      destruct (Z.eqb_spec (zlen rest - zlen bs) 0) as [Hz0|Hz0]; cbn [negb].
      * assert (rest' = []) as -> by (destruct rest' as [|x l]; [done|rewrite zlen_cons in Hz; pose proof (zlen_nonneg l); lia]).
        rewrite app_nil_r in Hr. subst bs. rewrite <-Hb. cbn [app] in Hd'. subst data'.
        apply (Hfin _ s' n'); [by right|done|lia].
      * eexists _, _, _, _. split; [reflexivity|]. right. split; [done|]. exists n'. split; [done|].
        right. right. split; [done|]. exists (got ++ bs), rest'. cbn [trp_len trp_rem_len set_lens].
        rewrite zlen_app, <-app_assoc, <-Hr, <-Hd'. split_and!; try done; lia.
Qed.

Lemma char_gives s data n :
  stream s data n -> data <> [] ->
  (exists c data' s' n', fetch_char getfn s = Ret ((1, c), s') /\ data = c :: data' /\ stream s' data' n' /\ (n' < n)%nat) \/
  (exists c s' n', fetch_char getfn s = Ret ((0, c), s') /\ stream s' data n' /\ (n' < n)%nat).
Proof using getfn_gives.
  intros Hs Hd. destruct (getfn_gives s data n 1 Hs Hd ltac:(lia)) as (bs & data' & s' & n' & E & Hb & Hdd & Hs' & Hn').
  unfold fetch_char, mbind, st_bind. rewrite E. destruct bs as [|c [|]].
  - right. cbn [app] in Hdd. subst data'. by eexists _, _, _.
  - left. by eexists _, _, _, _.
  - rewrite !zlen_cons in Hb. pose proof (zlen_nonneg l). lia.
Qed.

(** One more digit. *)
Lemma decodenb_spec k : forall fuel trp m s n,
  (k < fuel)%nat -> (k <= 3)%nat -> 0 <= m < 128 ^ Z.of_nat (S k) -> trp_len trp = 3 - Z.of_nat k ->
  trp_len trp + zlen (varint_digits k m) = zlen digits ->
  trp_rem_len trp + m * trp_multiplier trp = zlen body -> (trp_len trp = 0 -> m = zlen body) ->
  stream s (varint_digits k m ++ body ++ post) n ->
  exists r trp' s' n', decodenb_loop getfn fuel trp s = Ret ((r, trp'), s') /\ (n' < n)%nat /\
    trp_state trp' = trp_state trp /\
    (r = zlen digits /\ trp_rem_len trp' = zlen body /\ stream s' (body ++ post) n' \/
     r = 0 /\ at_digit trp' s' n').
Proof using getfn_gives.
  induction k as [|k IH]; intros fuel trp m s n Hf Hk Hm Hl Htot Hval Hfirst Hs; (destruct fuel as [|fuel]; [lia|]);
    cbn [decodenb_loop]; unfold MAX_NUM_OF_REMAINING_LENGTH_BYTES; rewrite (proj2 (Z.leb_gt 4 _)) by lia.
  - cbn [varint_digits] in *. change (128 ^ Z.of_nat 1) with 128 in Hm.
    destruct (char_gives s ([m] ++ body ++ post) n Hs ltac:(done)) as
      [(c & data' & s' & n' & E & Hd & Hs' & Hn')|(c & s' & n' & E & Hs' & Hn')];
      rewrite (bind_ret _ _ _ _ _ E); cbn [Z.eqb negb].
    + cbn [app] in Hd. injection Hd as <- <-. cbv zeta. cbn [Z.eqb negb].
      rewrite land_127, Z.mod_small, land_128, (proj2 (Z.ltb_lt _ _)) by lia. cbn [negb Z.eqb].
      eexists _, _, _, _. split; [reflexivity|]. split; [done|]. split; [done|]. left.
      split; [rewrite <-Htot; reflexivity|]. split; [done|done].
    + eexists _, _, _, _. split; [reflexivity|]. split; [done|]. split; [done|]. right. split; [done|].
      exists 0%nat, m. split_and!; try done; try lia.
  - rewrite Nat2Z.inj_succ, Z.pow_succ_r in Hm by lia. cbn [varint_digits] in *.
    destruct (char_gives s ((if m <? 128 then [m] else (m mod 128 + 128) :: varint_digits k (m / 128)) ++ body ++ post) n Hs
      ltac:(by destruct (m <? 128))) as
      [(c & data' & s' & n' & E & Hd & Hs' & Hn')|(c & s' & n' & E & Hs' & Hn')];
      rewrite (bind_ret _ _ _ _ _ E); cbn [Z.eqb negb].
    + destruct (Z.ltb_spec m 128) as [Hm'|Hm']; cbn [app] in Hd; injection Hd as <- <-; cbv zeta.
      * rewrite land_127, Z.mod_small, land_128, (proj2 (Z.ltb_lt _ _)) by lia. cbn [negb Z.eqb].
        eexists _, _, _, _. split; [reflexivity|]. split; [done|]. split; [done|]. left.
        split; [rewrite <-Htot; reflexivity|]. split; [done|done].
      * pose proof (Z.mod_pos_bound m 128).
        rewrite land_127, land_128 by lia.
        rewrite (proj2 (Z.ltb_ge (m mod 128 + 128) 128)) by lia.
        replace ((m mod 128 + 128) mod 128) with (m mod 128) by (Z.to_euclidean_division_equations; lia).
        cbn [negb Z.eqb].
        set (trp1 := {| trp_multiplier := _ |}). rewrite zlen_cons in Htot.
        destruct (IH fuel trp1 (m / 128) s' n') as (r & trp' & s2 & n2 & E2 & Hn2 & Hst2 & Hres);
          [lia|lia|split; [apply Z.div_pos; lia|apply Z.div_lt_upper_bound; lia]|cbn [trp_len trp1]; lia|cbn [trp_len trp1]; lia| |cbn [trp_len trp1]; lia|done|].
        { cbn. rewrite <-Hval. rewrite (Z.div_mod m 128) at 3 by lia. ring. }
        exists r, trp', s2, n2. split; [exact E2|]. split; [lia|]. by split.
    + eexists _, _, _, _. split; [reflexivity|]. split; [done|]. split; [done|]. right. split; [done|].
      exists (S k), m. split_and!; try done; try lia.
      rewrite Nat2Z.inj_succ, Z.pow_succ_r by lia. lia.
Qed.

Lemma digits_spec trp s n :
  at_digit trp s n ->
  exists r trp' s' n', MQTTPacket_decodenb getfn trp s = Ret ((r, trp'), s') /\ (n' < n)%nat /\
    trp_state trp' = trp_state trp /\
    (r = zlen digits /\ trp_rem_len trp' = zlen body /\ stream s' (body ++ post) n' \/
     r = 0 /\ at_digit trp' s' n').
Proof using getfn_gives.
  intros (k & m & Hk & Hm & Hl & Htot & Hval & Hfirst & Hs). unfold MQTTPacket_decodenb.
  pose proof (zlen_nonneg body).
  destruct (Z.eqb_spec (trp_len trp) 0) as [Hz|Hz].
  - refine (decodenb_spec k 5 {| trp_multiplier := 1; trp_rem_len := 0; trp_len := trp_len trp; trp_state := trp_state trp |}
      m s n _ _ _ _ _ _ _ _); cbn [trp_len trp_rem_len trp_multiplier]; try done; lia.
  - apply (decodenb_spec k _ _ m); try done; lia.
Qed.

Lemma put_hdr : put (put mem0 0 [h]) 1 digits = put mem0 0 hdr.
Proof using Hmem.
  change 1%nat with (0 + length [h])%nat. rewrite put_put; [done|].
  destruct zlen_hdr as [_ Hd]. unfold zlen in *. cbn [length]. lia.
Qed.

Lemma length_spec trp mem s n :
  trp_state trp = 1 -> mem = put mem0 0 [h] -> at_digit trp s n -> call_spec (readnb_case1 getfn buflen trp) s mem n.
Proof using Hbuf Hmax Hmem Htype getfn_gives.
  intros Hst -> Hd. destruct (digits_spec trp s n Hd) as (r & trp' & s' & n' & E & Hn' & Hst' & Hres).
  destruct zlen_hdr as [Hh1 Hh2]. unfold call_spec, readnb_case1.
  erewrite bind_ret by (unfold on_src; rewrite E; reflexivity). cbn beta iota.
  destruct Hres as [(-> & Hrem & Hs')|(-> & Hd')].
  2: { cbn [Z.eqb]. change (0 =? MQTTPACKET_READ_ERROR) with false. cbv iota.
       eexists _, _, _, _. split; [reflexivity|]. right. split; [done|]. exists n'. split; [done|].
       right. left. split; [by rewrite Hst'|]. by split. }
  rewrite (proj2 (Z.eqb_neq (zlen digits) MQTTPACKET_READ_ERROR)), (proj2 (Z.eqb_neq (zlen digits) 0))
    by (unfold MQTTPACKET_READ_ERROR; lia).
  rewrite Hrem.
  assert (Eenc : on_buf (MQTTPacket_encode 1 (zlen body)) (s', Cursor (put mem0 0 [h]) p)
    = Ret (zlen digits, (s', Cursor (put mem0 0 hdr) p))).
  { unfold on_buf. rewrite MQTTPacket_encode_spec.
    - fold digits. by rewrite put_hdr.
    - split; [apply zlen_nonneg|done].
    - rewrite length_put by (unfold zlen in Hmem; cbn; lia). fold digits. unfold zlen in *. lia. }
  rewrite (bind_ret _ _ _ _ _ Eenc). cbv zeta. cbn [trp_rem_len trp_len set_lens].
  replace (zlen body + (1 + zlen digits)) with (zlen hdr + zlen body) by lia.
  destruct (Z.ltb_spec buflen (zlen hdr + zlen body)) as [Hlt|Hge].
  { eexists _, _, _, _. split; [reflexivity|]. left. split; [done|]. unfold done_with.
    by rewrite (proj2 (Z.leb_gt _ _)). }
  match goal with |- context [readnb_case2 getfn ?t] => set (trp2 := t) end.
  destruct (body_spec trp2 (put mem0 0 hdr) s' n') as (r2 & trp3 & s3 & mem3 & E3 & Hres).
  - subst trp2. cbn. by rewrite Hst', Hst.
  - exists [], body. subst trp2. cbn [trp_len trp_rem_len set_state set_lens app]. rewrite app_nil_r, zlen_nil.
    split_and!; try done; lia.
  - exists r2, trp3, s3, mem3. split; [exact E3|]. destruct Hres as [[Hr Hdone]|(Hr & n3 & Hn3 & Hp)].
    + left. split; [done|]. unfold done_with in *. destruct (_ <=? _); [|done].
      destruct Hdone as (? & ? & n4 & ? & ?). split_and!; try done. exists n4. split; [lia|done].
    + right. split; [done|]. exists n3. split; [lia|done].
Qed.

Lemma first_spec trp s n :
  trp_state trp = 0 -> stream s (hdr ++ body ++ post) n -> call_spec (readnb_case0 getfn buflen trp) s mem0 n.
Proof using Hbuf Hmax Hmem Htype getfn_gives.
  intros Hst Hs. unfold call_spec, readnb_case0.
  destruct (fetch_gives 0 s (hdr ++ body ++ post) n 1 mem0 Hs) as (bs & data' & s' & n' & E & Hb & Hd & Hs' & Hn');
    [done|lia|unfold zlen in Hmem; cbn; lia|].
  rewrite (bind_ret _ _ _ _ _ E). pose proof (zlen_nonneg bs).
  rewrite (proj2 (Z.eqb_neq (zlen bs) (-1))) by lia.
  destruct bs as [|c [|]].
  - cbn [zlen length]. change (zlen (@nil Z) =? 0) with true. cbv iota. rewrite put_nil.
    eexists _, _, _, _. split; [reflexivity|]. right. split; [done|]. exists n'. split; [done|]. left.
    cbn [app] in Hd. by subst data'.
  - change (zlen [c] =? 0) with false. cbv iota zeta. unfold hdr in Hd. cbn [app] in Hd. injection Hd as <- <-.
    match goal with |- context [readnb_case1 getfn buflen ?t] => set (trp1 := t) end.
    pose proof (zlen_nonneg body) as Hbody.
    destruct (length_spec trp1 (put mem0 0 [h]) s' n') as (r2 & trp3 & s3 & mem3 & E3 & Hres); [|done| |].
    + subst trp1. cbn. by rewrite Hst.
    + exists 3%nat, (zlen body). subst trp1. cbn [trp_len set_state set_lens]. split_and!; try done; try lia.
      change (128 ^ Z.of_nat 4) with 268435456. unfold max_remaining_length in Hmax. lia.
    + exists r2, trp3, s3, mem3. split; [exact E3|]. destruct Hres as [[Hr Hdone]|(Hr & n3 & Hn3 & Hp)].
      * left. split; [done|]. unfold done_with in *. destruct (_ <=? _); [|done].
        destruct Hdone as (? & ? & n4 & ? & ?). split_and!; try done. exists n4. split; [lia|done].
      * right. split; [done|]. exists n3. split; [lia|done].
  - rewrite !zlen_cons in Hb. pose proof (zlen_nonneg l). lia.
Qed.

Lemma readnb_spec trp mem s n : progress trp mem s n -> call_spec (MQTTPacket_readnb getfn buflen trp) s mem n.
Proof using Hbuf Hmax Hmem Htype getfn_gives.
  unfold MQTTPacket_readnb. intros [(Hst & -> & Hs)|[(Hst & Hm & Hd)|(Hst & Hb)]]; rewrite Hst; cbn [Z.eqb].
  - by apply first_spec.
  - by apply length_spec.
  - by apply body_spec.
Qed.

Lemma poll_spec polls : forall trp mem s n,
  (n <= polls)%nat -> progress trp mem s n ->
  exists r s' mem', readnb_poll polls buflen trp (s, Cursor mem p) = Ret (r, (s', Cursor mem' p)) /\ done_with r mem' s' n.
Proof using Hbuf Hmax Hmem Htype getfn_gives.
  induction polls as [|polls IH]; intros trp mem s n Hn Hp;
    destruct (readnb_spec trp mem s n Hp) as (r & trp' & s' & mem' & E & [[Hr Hd]|(-> & n' & Hn' & Hp')]);
    cbn [readnb_poll]; rewrite (bind_ret _ _ _ _ _ E).
  - rewrite (proj2 (Z.eqb_neq r 0)) by done. by exists r, s', mem'.
  - lia.
  - rewrite (proj2 (Z.eqb_neq r 0)) by done. by exists r, s', mem'.
  - cbn [Z.eqb]. destruct (IH trp' mem' s' n' ltac:(lia) Hp') as (r2 & s2 & mem2 & E2 & Hd).
    exists r2, s2, mem2. split; [exact E2|]. unfold done_with in *. destruct (_ <=? _); [|done].
    destruct Hd as (? & ? & n4 & ? & ?). split_and!; try done. exists n4. split; [lia|done].
Qed.
End nonblocking.

(** C38: the non-blocking reader is equivalent to the blocking one: called until
    it has an answer, on a transport that gives the bytes in any pieces and may
    have none for a while, it returns what [MQTTPacket_read] returns on a
    transport that waits, leaves the same bytes in the buffer and the same rest
    of the stream, and it is called no more often than the transport is. *)
Theorem readnb_equals_read {Src Blk : Type} (getfn : Z -> st Src (Z * list Z)) (stream : Src -> list Z -> nat -> Prop)
    (getblk : Z -> st Blk (Z * list Z)) (delivers : Blk -> list Z -> Prop)
    h body post buflen mem p trp s n b :
  (forall s data n m, stream s data n -> data <> [] -> 0 < m ->
    exists bs data' s' n', getfn m s = Ret ((zlen bs, bs), s') /\ zlen bs <= m /\ data = bs ++ data' /\
      stream s' data' n' /\ (n' < n)%nat) ->
  (forall s bs post, delivers s (bs ++ post) -> exists s', getblk (zlen bs) s = Ret ((zlen bs, bs), s') /\ delivers s' post) ->
  is_byte h -> Header.get_type h <> 0 -> zlen body <= max_remaining_length ->
  5 <= zlen mem -> buflen <= zlen mem -> trp_state trp = 0 ->
  stream s (wire_packet h body ++ post) n -> delivers b (wire_packet h body ++ post) ->
  exists r s' b' mem1 mem2,
    readnb_poll getfn n buflen trp (s, Cursor mem p) = Ret (r, (s', Cursor mem1 p)) /\
    MQTTPacket_read getblk buflen (b, Cursor mem p) = Ret (r, (b', Cursor mem2 p)) /\
    (zlen (wire_packet h body) <= buflen -> mem1 = mem2 /\ delivers b' post /\ exists n', stream s' post n').
Proof.
  intros Hget Hblk Hh Ht Hmax Hm5 Hbuf Hst Hs Hb.
  destruct (packet_read_spec getblk delivers Hblk h body post buflen b mem p Hh Hmax Hm5 Hbuf Hb) as (b' & mem2 & E2 & H2).
  destruct (poll_spec getfn stream Hget h body post buflen mem p Ht Hmax Hm5 Hbuf n trp mem s n) as (r & s' & mem1 & E1 & H1);
    [done| |].
  { left. split; [done|]. split; [done|].
    replace ((h :: varint (zlen body)) ++ body ++ post) with (wire_packet h body ++ post); [done|].
    unfold wire_packet. cbn [app]. by rewrite <-app_assoc. }
  exists r, s', b', mem1, mem2. split; [exact E1|].
  unfold done_with in H1. rewrite zlen_wire_packet in *. rewrite zlen_cons in H1.
  replace (1 + zlen (varint (zlen body)) + zlen body) with (1 + zlen (varint (zlen body)) + zlen body) in H1 by lia.
  destruct (Z.leb_spec (1 + zlen (varint (zlen body)) + zlen body) buflen) as [Hf|Hf].
  - destruct H1 as (-> & -> & n' & _ & Hs'). rewrite (proj2 (Z.ltb_ge _ _)) in E2 by lia.
    split; [exact E2|]. intros _. destruct (H2 Hf) as [-> Hd]. split; [done|]. split; [done|by exists n'].
  - subst r. rewrite (proj2 (Z.ltb_lt _ _)) in E2 by lia. split; [exact E2|lia].
Qed.

(** A transport that hands out what has arrived: a list of pieces. *)
Definition piece_transport (n : Z) : st (list (list Z)) (Z * list Z) := fun s =>
  match s with
  | [] => Ret ((0, []), [])
  | [] :: s => Ret ((0, []), s)
  | l :: s => Ret ((zlen (take (Z.to_nat n) l), take (Z.to_nat n) l), drop (Z.to_nat n) l :: s)
  end.

(** Every byte and every piece may take one call. *)
Definition pieces (s : list (list Z)) (data : list Z) (n : nat) : Prop :=
  data = concat s /\ n = (length s + length data)%nat.

Lemma piece_transport_gives s data n m :
  pieces s data n -> data <> [] -> 0 < m ->
  exists bs data' s' n', piece_transport m s = Ret ((zlen bs, bs), s') /\ zlen bs <= m /\ data = bs ++ data' /\
    pieces s' data' n' /\ (n' < n)%nat.
Proof.
  intros [-> ->] Hd Hm. destruct s as [|[|c l] s]; [done| |].
  - exists [], (concat s), s, (length s + length (concat s))%nat.
    split; [done|]. split; [rewrite zlen_nil; lia|]. split; [done|]. split; [done|]. cbn [concat app length]. lia.
  - eexists (take (Z.to_nat m) (c :: l)), (drop (Z.to_nat m) (c :: l) ++ concat s), (drop (Z.to_nat m) (c :: l) :: s), _.
    split; [done|]. split; [unfold zlen; rewrite length_take; lia|].
    split; [by rewrite app_assoc, take_drop|]. split; [by split|].
    cbn [concat]. rewrite !length_app, length_drop. cbn [length]. lia.
Qed.

Lemma readnb_equals_read_witness :
  let s := [[64]; []; [2; 1]; [2; 192; 0]] in
  exists r s' b' mem1 mem2,
    readnb_poll piece_transport 10 6 (Build_MQTTTransport 0 0 0 0) (s, Cursor (replicate 6 0) 0) = Ret (r, (s', Cursor mem1 0)) /\
    MQTTPacket_read list_transport 6 (concat s, Cursor (replicate 6 0) 0) = Ret (r, (b', Cursor mem2 0)) /\
    (4 <= 6 -> mem1 = mem2 /\ b' = [192; 0] /\ exists n', pieces s' [192; 0] n').
Proof.
  refine (readnb_equals_read piece_transport pieces list_transport eq 64 [1; 2] [192; 0] 6 (replicate 6 0) 0
    (Build_MQTTTransport 0 0 0 0) [[64]; []; [2; 1]; [2; 192; 0]] 10 [64; 2; 1; 2; 192; 0]
    piece_transport_gives list_transport_delivers _ _ _ _ _ _ _ _); try (vm_compute; (discriminate || reflexivity)).
  - unfold is_byte. lia.
  - by split.
Defined.
