(* ===== verification/Platform.v ===== *)
(** * The porting layer

    The interface the SDK is ported through ([src/src/include/os],
    [src/src/include/port]): memory, mutexes, timers, threads and the network.
    The operating system and the TLS library behind it are not part of the
    repository, so their state is a type [env] and each function is an
    operation on it; [PlatformLaws] is what the callers rely on. *)

From S2P Require Import Prelude MqttPacket MqttPublish.

Class Platform := {
  env : Type;

  (** [malloc]: null, or an object with whatever the memory contains. *)
  os_malloc : Z -> env -> option (list Z) * env;
  (** [malloc(sizeof(T))] of an object the caller sets: whether it is not null. *)
  os_malloc_object : env -> bool * env;
  (** [iot_os_mutex_init]: whether [sem] is not null afterwards. *)
  os_mutex_init : env -> bool * env;
  os_eventgroup_set_bits : Z -> env -> env;
  os_delay : Z -> env -> env;
  os_timer_create : Z -> env -> option nat * env;
  os_timer_start : nat -> env -> env;
  os_timer_delete : nat -> env -> env;
  os_timer_is_active : nat -> env -> bool;
  (** [iot_os_thread_create]: whether the handle is not null afterwards. *)
  os_thread_create : env -> bool * env;

  net_connect : string -> string -> env -> option nat * env;
  net_free : nat -> env -> env;
  net_close : nat -> env -> env;
  (** [port_net_read(ctx, buf, len)]: the result and the bytes it stores. *)
  net_read : nat -> Z -> env -> (Z * list Z) * env;
  (** [port_net_read_poll(ctx, wait_time)]. *)
  net_read_poll : nat -> Z -> env -> Z * env;
  net_write : nat -> list Z -> env -> Z * env;

  (** What local variables hold that the code does not initialise. *)
  uninit_publish : publish_out;
  uninit_int : Z
}.

Definition PORT_NET_WAIT_FOREVER : Z := 4294967295.

Class PlatformLaws (P : Platform) : Prop := {
  os_malloc_size : forall n e d e',
    os_malloc n e = (Some d, e') -> 0 <= n -> zlen d = n /\ bytes d;
  net_read_count : forall c n e r bs e',
    net_read c n e = ((r, bs), e') -> 0 <= n -> r <= n /\ (zlen bs = Z.max 0 r) /\ bytes bs;
  net_write_count : forall c bs e r e',
    net_write c bs e = (r, e') -> r <= zlen bs
}.

(** The network makes progress when it writes: a transfer of at least a byte
    does not return 0.  ([port_net_mbedtls.c] is not always like that: where TLS
    wants to wait, [port_net_write] returns 0.) *)
Class NetProgress (P : Platform) : Prop := {
  net_write_progress : forall c bs e r e', net_write c bs e = (r, e') -> bs <> [] -> r <> 0
}.

(** The bytes that the peer has sent and that have not been read yet: reads
    deliver them in order, in pieces of any size, and nothing else changes
    them. *)
Class Incoming (P : Platform) := {
  incoming : env -> list Z;
  incoming_read : forall c n e, 0 < n -> incoming e <> [] ->
    exists bs e', net_read c n e = ((zlen bs, bs), e') /\ bs <> [] /\ zlen bs <= n /\
      incoming e = bs ++ incoming e';
  incoming_poll : forall c t e, incoming e <> [] ->
    0 < (net_read_poll c t e).1 /\ incoming (net_read_poll c t e).2 = incoming e;
  incoming_malloc : forall n e, incoming (os_malloc n e).2 = incoming e;
  incoming_malloc_object : forall e, incoming (os_malloc_object e).2 = incoming e
}.

(** ** A simulated platform

    A concrete instance, for running the model: a heap that gives zeroed
    memory until a budget of allocations is used up, timers that are active
    until [sim_expire], and a network with a script of what the peer sends. *)
Record sim := Sim {
  sim_allocs : nat;             (** allocations that still succeed *)
  sim_fresh_timer : nat;
  sim_expired : list nat;       (** timers that have fired *)
  sim_in : list Z;              (** bytes the peer has sent *)
  sim_out : list Z;             (** bytes written *)
  sim_up : bool                 (** the connection works *)
}.

Definition sim_malloc (n : Z) (e : sim) : option (list Z) * sim :=
  match sim_allocs e with
  | O => (None, e)
  | S k => (Some (replicate (Z.to_nat n) 0),
            Sim k (sim_fresh_timer e) (sim_expired e) (sim_in e) (sim_out e) (sim_up e))
  end.

#[export] Instance SimPlatform : Platform := {
  env := sim;
  os_malloc := sim_malloc;
  os_malloc_object := fun e => (bool_decide (sim_allocs e <> O),
    Sim (pred (sim_allocs e)) (sim_fresh_timer e) (sim_expired e) (sim_in e) (sim_out e) (sim_up e));
  os_mutex_init := fun e => (true, e);
  os_eventgroup_set_bits := fun _ e => e;
  os_delay := fun _ e => e;
  os_timer_create := fun _ e =>
    (Some (sim_fresh_timer e),
     Sim (sim_allocs e) (S (sim_fresh_timer e)) (sim_expired e) (sim_in e) (sim_out e) (sim_up e));
  os_timer_start := fun t e =>
    Sim (sim_allocs e) (sim_fresh_timer e) (filter (fun x => x <> t) (sim_expired e))
        (sim_in e) (sim_out e) (sim_up e);
  os_timer_delete := fun _ e => e;
  os_timer_is_active := fun t e => negb (bool_decide (t ∈ sim_expired e));
  os_thread_create := fun e => (true, e);
  net_connect := fun _ _ e => (if sim_up e then Some 0%nat else None, e);
  net_free := fun _ e => e;
  net_close := fun _ e => e;
  net_read := fun _ n e =>
    if sim_up e then
      let bs := take (Z.to_nat n) (sim_in e) in
      if negb (bool_decide (bs = [])) && forallb (fun b => (0 <=? b) && (b <? 256)) bs then
        ((zlen bs, bs),
         Sim (sim_allocs e) (sim_fresh_timer e) (sim_expired e)
             (drop (Z.to_nat n) (sim_in e)) (sim_out e) (sim_up e))
      else ((-1, []), e)
    else ((-1, []), e);
  net_read_poll := fun _ _ e => (if sim_up e then if decide (sim_in e = []) then 0 else 1 else -1, e);
  net_write := fun _ bs e =>
    if sim_up e then
      (zlen bs, Sim (sim_allocs e) (sim_fresh_timer e) (sim_expired e)
                    (sim_in e) (sim_out e ++ bs) (sim_up e))
    else (-1, e);
  uninit_publish := {| po_dup := 0; po_qos := 0; po_retained := 0; po_packetid := 0;
                       po_topicName := MQTTString_initializer; po_payload := NullPtr;
                       po_payloadlen := 0 |};
  uninit_int := 0
}.

#[export] Instance SimPlatformLaws : PlatformLaws SimPlatform.
Proof.
  split.
  - intros n e d e' H Hn. simpl in H. unfold sim_malloc in H.
    destruct (sim_allocs e); simplify_eq. split.
    + unfold zlen. rewrite length_replicate. lia.
    + apply Forall_replicate. unfold is_byte. lia.
  - intros c n e r bs e' H Hn. simpl in H.
    destruct (sim_up e); [|simplify_eq; split_and!; [lia|done|constructor]].
    destruct (negb _ && forallb _ _) eqn:Eb; simplify_eq; [|split_and!; [lia|done|constructor]].
    apply andb_true_iff in Eb as [_ Eb].
    split_and!.
    + unfold zlen. rewrite length_take. lia.
    + unfold zlen. lia.
    + apply Forall_forall. intros x Hx. rewrite forallb_forall in Eb.
      apply list_elem_of_In in Hx. specialize (Eb x Hx). bool_to_prop. unfold is_byte. lia.
  - intros c bs e r e' H. simpl in H. destruct (sim_up e); simplify_eq; [lia|].
    pose proof (zlen_nonneg bs). lia.
Qed.

#[export] Instance SimNetProgress : NetProgress SimPlatform.
Proof.
  split.
  - intros c bs e r e' H Hbs. simpl in H. destruct (sim_up e); simplify_eq; [|done].
    destruct bs; [done|]. rewrite zlen_cons. pose proof (zlen_nonneg bs). lia.
Qed.

Definition is_byteb (b : Z) : bool := (0 <=? b) && (b <? 256).

#[export] Instance SimIncoming : Incoming SimPlatform.
Proof.
  refine {| incoming := (fun e : sim => if sim_up e && forallb is_byteb (sim_in e) then sim_in e else []) : @env SimPlatform -> list Z |}.
  - intros c n e Hn He. simpl in *. destruct (sim_up e) eqn:Eu; [|done].
    destruct (forallb is_byteb (sim_in e)) eqn:Eb; [|done]. simpl in *.
    assert (Etake : forallb is_byteb (take (Z.to_nat n) (sim_in e)) = true /\ forallb is_byteb (drop (Z.to_nat n) (sim_in e)) = true).
    { rewrite <- (take_drop (Z.to_nat n) (sim_in e)), forallb_app in Eb. by apply andb_true_iff in Eb. }
    destruct Etake as [Et Ed]. exists (take (Z.to_nat n) (sim_in e)).
    assert (Hne : take (Z.to_nat n) (sim_in e) <> []).
    { destruct (Z.to_nat n) eqn:En; [lia|]. by destruct (sim_in e). }
    change (fun b => (0 <=? b) && (b <? 256)) with is_byteb. rewrite Et, bool_decide_false by done.
    eexists. split; [reflexivity|]. split; [done|]. split; [unfold zlen; rewrite length_take; lia|].
    simpl. rewrite Ed. simpl. by rewrite take_drop.
  - intros c t e He. simpl in *. destruct (sim_up e); [|done]. destruct (forallb _ _); [|done].
    simpl in *. by rewrite decide_False.
  - intros n e. simpl. unfold sim_malloc. by destruct (sim_allocs e).
  - done.
Defined.
