(* ===== verification/Heap.v ===== *)
(** * Heaps, and the linked lists in them

    Objects of one type, at addresses that are never used again after [free]:
    an access through a null or a dangling pointer is undefined behaviour.
    [is_list] says that the objects from [hd] to [tl] are a singly linked
    list with the addresses [l]; the queues of the SDK are proved with it. *)

From S2P Require Import Prelude.

(** ** Heaps *)

(** A freed address stays in the map, without an object. *)
Abbreviation heap A := (gmap nat (option A)).

Definition fresh_addr {A} (h : heap A) : nat :=
  map_fold (fun a (_ : option A) m => Nat.max (S a) m) 0%nat h.

Definition live {A} (h : heap A) (a : nat) : option A := mjoin (h !! a).

Lemma fresh_addr_above {A} (h : heap A) a o : h !! a = Some o -> (a < fresh_addr h)%nat.
Proof.
  unfold fresh_addr. revert a o.
  refine (map_fold_weak_ind (M := gmap nat)
    (fun m (h : gmap nat (option A)) => forall a o, h !! a = Some o -> (a < m)%nat) _ 0%nat _ _ h).
  - intros a o Ha. by rewrite lookup_empty in Ha.
  - intros b x h' m Hb IH a o Ha. apply lookup_insert_Some in Ha as [[<- _]|[_ Ha]]; [lia|].
    specialize (IH a o Ha). lia.
Qed.

Lemma fresh_addr_new {A} (h : heap A) : h !! fresh_addr h = None.
Proof.
  destruct (h !! fresh_addr h) eqn:E; [|done]. apply fresh_addr_above in E. lia.
Qed.

(** A part of the state that is a heap of objects of type [A]. *)
Class Store (W A : Type) := {
  heap_of : W -> heap A;
  with_heap : heap A -> W -> W;
  heap_of_with : forall h w, heap_of (with_heap h w) = h;
  with_heap_of : forall w, with_heap (heap_of w) w = w;
  with_with : forall h h' w, with_heap h (with_heap h' w) = with_heap h w
}.

(** The object behind a pointer, if there is one. *)
Definition at_ptr {W A} `{Store W A} (w : W) (p : option nat) : option A :=
  p ≫= live (heap_of w).

Section objects.
Context {W A : Type} `{Store W A}.

(** [*p]. *)
Definition get (p : option nat) : st W A := fun w =>
  match at_ptr w p with Some x => Ret (x, w) | None => Undef end.

(** [*p = f( *p)]. *)
Definition update (p : option nat) (f : A -> A) : st W unit := fun w =>
  match p with
  | Some a => match live (heap_of w) a with
              | Some x => Ret (tt, with_heap (<[a := Some (f x)]> (heap_of w)) w)
              | None => Undef
              end
  | None => Undef
  end.

(** [free(p)]: nothing on a null pointer. *)
Definition release (p : option nat) : st W unit := fun w =>
  match p with
  | Some a => match live (heap_of w) a with
              | Some _ => Ret (tt, with_heap (<[a := None]> (heap_of w)) w)
              | None => Undef
              end
  | None => Ret (tt, w)
  end.

(** An object at an address that was not used before. *)
Definition allocate (x : A) : st W nat := fun w =>
  let a := fresh_addr (heap_of w) in
  Ret (a, with_heap (<[a := Some x]> (heap_of w)) w).
End objects.

Section store_lemmas.
Context {W A : Type} `{Store W A}.

Lemma live_insert (h : heap A) a b o :
  live (<[a := o]> h) b = if decide (a = b) then o else live h b.
Proof. unfold live. case_decide; subst; [by rewrite lookup_insert_eq|by rewrite lookup_insert_ne]. Qed.

Lemma live_insert_id (h : heap A) a x : live h a = Some x -> <[a := Some x]> h = h.
Proof. intros E. apply insert_id. unfold live in E. destruct (h !! a); simpl in E; congruence. Qed.

Lemma live_fresh (h : heap A) : live h (fresh_addr h) = None.
Proof. unfold live. by rewrite fresh_addr_new. Qed.

Lemma run_get (w : W) a x : live (heap_of w) a = Some x -> get (Some a) w = Ret (x, w).
Proof. intros E. unfold get, at_ptr. simpl. by rewrite E. Qed.

Lemma run_update (w : W) a x (f : A -> A) :
  live (heap_of w) a = Some x ->
  update (Some a) f w = Ret (tt, with_heap (<[a := Some (f x)]> (heap_of w)) w).
Proof. intros E. unfold update. by rewrite E. Qed.

Lemma run_release (w : W) a x :
  live (heap_of w) a = Some x ->
  release (Some a) w = Ret (tt, with_heap (<[a := None]> (heap_of w)) w).
Proof. intros E. unfold release. by rewrite E. Qed.

Lemma bind_get {B} (w : W) a x (f : A -> st W B) :
  live (heap_of w) a = Some x -> (get (Some a) ≫= f) w = f x w.
Proof. intros E. by rewrite (bind_ret _ _ _ _ _ (run_get w a x E)). Qed.

Lemma bind_update {B} (w : W) a x (f : A -> A) (k : unit -> st W B) :
  live (heap_of w) a = Some x ->
  (update (Some a) f ≫= k) w = k tt (with_heap (<[a := Some (f x)]> (heap_of w)) w).
Proof. intros E. by rewrite (bind_ret _ _ _ _ _ (run_update w a x f E)). Qed.

Lemma bind_release {B} (w : W) a x (k : unit -> st W B) :
  live (heap_of w) a = Some x ->
  (release (Some a) ≫= k) w = k tt (with_heap (<[a := None]> (heap_of w)) w).
Proof. intros E. by rewrite (bind_ret _ _ _ _ _ (run_release w a x E)). Qed.

Lemma bind_allocate {B} (w : W) (x : A) (k : nat -> st W B) :
  (allocate x ≫= k) w
  = k (fresh_addr (heap_of w)) (with_heap (<[fresh_addr (heap_of w) := Some x]> (heap_of w)) w).
Proof. done. Qed.
End store_lemmas.

Section heap_rules.
Context {W A : Type} `{Store W A}.
Lemma gives_get a x w (Q : A -> W -> Prop) : live (heap_of w) a = Some x -> Q x w -> gives (get (Some a)) w Q.
Proof. intros E HQ. exists x, w. by rewrite (run_get _ _ _ E). Qed.
Lemma gives_update a x (f : A -> A) w Q : live (heap_of w) a = Some x ->
  Q tt (with_heap (<[a := Some (f x)]> (heap_of w)) w) -> gives (update (Some a) f) w Q.
Proof. intros E HQ. eexists tt, _. by rewrite (run_update _ _ _ _ E). Qed.
Lemma gives_release a x w Q : live (heap_of w) a = Some x ->
  Q tt (with_heap (<[a := None]> (heap_of w)) w) -> gives (release (Some a)) w Q.
Proof. intros E HQ. eexists tt, _. by rewrite (run_release _ _ _ E). Qed.
Lemma gives_allocate (x : A) w Q :
  (forall a, live (heap_of w) a = None -> Q a (with_heap (<[a := Some x]> (heap_of w)) w)) -> gives (allocate x) w Q.
Proof. intros HQ. eexists _, _. split; [reflexivity|]. apply HQ, live_fresh. Qed.
End heap_rules.

(** ** Linked lists *)

Lemma nodup_snoc {A} (l : list A) x : NoDup l -> x ∉ l -> NoDup (l ++ [x]).
Proof. intros Hl Hx. apply NoDup_app. split_and!; [done|set_solver|apply NoDup_singleton]. Qed.

Section chain.
Context {A : Type} (nxt : A -> option nat).

(** Every object points to the next one, the last one to null. *)
Fixpoint chain (h : heap A) (l : list nat) : Prop :=
  match l with
  | [] => True
  | a :: l => (exists x, live h a = Some x /\ nxt x = hd_error l) /\ chain h l
  end.

Record is_list (h : heap A) (hd tl : option nat) (l : list nat) : Prop := {
  il_chain : chain h l;
  il_hd : hd = hd_error l;
  il_tl : tl = last l;
  il_nodup : NoDup l
}.

Lemma chain_app h l1 l2 : chain h (l1 ++ l2) -> chain h l2.
Proof. induction l1; simpl; [done|]. intros [_ ?]. auto. Qed.

Lemma chain_live h l a : chain h l -> a ∈ l -> exists x, live h a = Some x.
Proof.
  induction l as [|b l IH]; [by rewrite elem_of_nil|]. intros [(x & Hx & _) Hc] Ha.
  apply elem_of_cons in Ha as [->|Ha]; eauto.
Qed.

(** A change that leaves the pointers of the list alone. *)
Lemma chain_ext h h' l :
  (forall a, a ∈ l -> nxt <$> live h' a = nxt <$> live h a) -> chain h l -> chain h' l.
Proof.
  induction l as [|a l IH]; [done|]. intros Hext [(x & Hx & Hn) Hc]. split.
  - specialize (Hext a ltac:(left)). rewrite Hx in Hext. simpl in Hext.
    apply fmap_Some in Hext as (y & Hy & E). exists y. split; [done|congruence].
  - apply IH; [|done]. intros b Hb. apply Hext. by right.
Qed.

Lemma chain_other h l a o : a ∉ l -> chain h l -> chain (<[a := o]> h) l.
Proof.
  intros Ha. apply chain_ext. intros b Hb. rewrite live_insert.
  case_decide; [subst; done|done].
Qed.

Lemma chain_same h l a x y :
  live h a = Some x -> nxt y = nxt x -> chain h l -> chain (<[a := Some y]> h) l.
Proof.
  intros Hx E. apply chain_ext. intros b Hb. rewrite live_insert.
  case_decide; [subst; rewrite Hx; simpl; congruence|done].
Qed.

(** Appending behind the last object [t]. *)
Lemma chain_snoc h l t b x y z :
  live h t = Some x -> nxt y = Some b -> live h b = Some z -> nxt z = None ->
  NoDup ((l ++ [t]) ++ [b]) -> chain h (l ++ [t]) -> chain (<[t := Some y]> h) ((l ++ [t]) ++ [b]).
Proof.
  intros Ht Hy Hb Hz. rewrite <- app_assoc. simpl.
  induction l as [|a l IH]; intros Hnd Hc.
  - apply NoDup_cons in Hnd as [Htb _]. rewrite list_elem_of_singleton in Htb. simpl. split_and!; [|  |done].
    + exists y. by rewrite live_insert, decide_True.
    + exists z. rewrite live_insert, decide_False by done. done.
  - apply NoDup_cons in Hnd as [Ha Hnd]. destruct Hc as [(u & Hu & Hn) Hc].
    split; [|by apply IH].
    exists u. rewrite live_insert, decide_False by (intros ->; apply Ha; rewrite !elem_of_app; right; left).
    split; [done|]. rewrite Hn. by destruct l.
Qed.

(** Unlinking [b] behind [a]. *)
Lemma chain_unlink h l1 a b l2 x y z :
  NoDup (l1 ++ a :: b :: l2) -> live h a = Some x -> live h b = Some z -> nxt y = nxt z ->
  chain h (l1 ++ a :: b :: l2) -> chain (<[a := Some y]> h) (l1 ++ a :: l2).
Proof.
  intros Hnd Ha Hb Hy. induction l1 as [|c l1 IH]; intros Hc.
  - destruct Hc as [_ Hc]. destruct Hc as [(z' & Hz & Hn) Hc]. simplify_eq.
    apply NoDup_cons in Hnd as [Hab Hnd]. apply NoDup_cons in Hnd as [_ Hnd].
    split.
    + exists y. rewrite live_insert, decide_True by done. split; [done|congruence].
    + apply chain_other; [set_solver|done].
  - destruct Hc as [(u & Hu & Hn) Hc]. apply NoDup_cons in Hnd as [Hc' Hnd].
    split; [|by apply IH].
    exists u. rewrite live_insert, decide_False by (intros ->; set_solver).
    split; [done|]. rewrite Hn. by destruct l1.
Qed.

Lemma is_list_ext h h' hd tl l :
  (forall a, a ∈ l -> nxt <$> live h' a = nxt <$> live h a) ->
  is_list h hd tl l -> is_list h' hd tl l.
Proof. intros Hext []. split; [by eapply chain_ext|done..]. Qed.

Lemma is_list_other h hd tl l a o : a ∉ l -> is_list h hd tl l -> is_list (<[a := o]> h) hd tl l.
Proof. intros Ha []. split; [by apply chain_other|done..]. Qed.

Lemma is_list_same h hd tl l a x y :
  live h a = Some x -> nxt y = nxt x -> is_list h hd tl l -> is_list (<[a := Some y]> h) hd tl l.
Proof. intros Hx E []. split; [by eapply chain_same|done..]. Qed.

Lemma is_list_live h hd tl l a : is_list h hd tl l -> a ∈ l -> exists x, live h a = Some x.
Proof. intros [Hc _ _ _]. by apply chain_live. Qed.

(** A list is not longer than its heap. *)
Lemma chain_size h l : chain h l -> NoDup l -> (length l <= size h)%nat.
Proof.
  intros Hc Hnd. rewrite <- (size_list_to_set (C := gset nat) l) by done.
  rewrite <- (size_dom (D := gset nat)). apply subseteq_size. intros a Ha.
  apply elem_of_list_to_set in Ha. destruct (chain_live _ _ _ Hc Ha) as [x Hx].
  unfold live in Hx. destruct (h !! a) eqn:E; [|done]. by eapply elem_of_dom_2.
Qed.

Lemma is_list_empty h : is_list h None None [].
Proof. split; [done..|constructor]. Qed.

(** [hd == NULL || tl == NULL] is the empty list, [hd == tl] one object. *)
Lemma is_list_null h hd tl l :
  is_list h hd tl l -> (is_Some hd /\ is_Some tl <-> l <> []).
Proof.
  intros [_ -> -> _]. destruct l as [|a l]; [simpl; split; [by intros [[? ?] _]|done]|].
  split; [done|]. intros _. split; [done|]. by apply last_is_Some.
Qed.

Lemma is_list_single h hd tl a l :
  is_list h hd tl (a :: l) -> (hd = tl <-> l = []).
Proof.
  intros [_ -> -> Hnd]. simpl. destruct l as [|b l]; [done|].
  split; [|done]. intros E. apply NoDup_cons in Hnd as [Ha _].
  destruct Ha. change (Some a = last (b :: l)) in E. symmetry in E. by apply last_Some_elem_of in E.
Qed.

Lemma is_list_tail h hd tl a b l x :
  is_list h hd tl (a :: b :: l) -> live h a = Some x ->
  nxt x = Some b /\ is_list h (Some b) tl (b :: l).
Proof.
  intros [[(y & Hy & Hn) Hc] -> -> Hnd] Hx. simplify_eq. split; [done|].
  apply NoDup_cons in Hnd as [_ Hnd]. by split.
Qed.
End chain.
