(* ===== verification/World.v ===== *)
(** * The state of the MQTT client and of the work queues

    The objects that the client, its packet chunks and the work queues are
    made of ([iot_mqtt_client.h], [iot_util.h]), each kind on its own heap.
    Mutexes are seen by one thread, which blocks for ever on a mutex that is
    held. *)

From S2P Require Import Prelude MqttPacket MqttPublish Platform Heap.

(** ** Objects *)

(** [iot_os_mutex]: whether [sem] is not null, and whether it is held. *)
Record mutex := Mutex { sem : bool; held : bool }.
Definition free_mutex : mutex := Mutex true false.
Definition null_mutex : mutex := Mutex false false.

(** [enum packet_chunk_state]. *)
Inductive packet_chunk_state :=
| PACKET_CHUNK_INIT
| PACKET_CHUNK_WRITE_PENDING
| PACKET_CHUNK_WRITE_COMPLETED
| PACKET_CHUNK_WRITE_FAIL
| PACKET_CHUNK_ACK_PENDING
| PACKET_CHUNK_READ_COMPLETED
| PACKET_CHUNK_ACKNOWLEDGED
| PACKET_CHUNK_TIMEOUT
| PACKET_CHUNK_QUEUE_DESTROYED
| EVENT_CHUNK_CONNECTED
| EVENT_CHUNK_DISCONNECTED.

#[export] Instance packet_chunk_state_eq_dec : EqDecision packet_chunk_state.
Proof. solve_decision. Defined.

(** [iot_mqtt_packet_chunk_t]; [chunk_id], which nothing uses, is left out. *)
Record chunk := Chunk {
  packet_type : Z;
  packet_id : Z;
  qos : Z;
  chunk_data : option (list Z);
  chunk_size : Z;
  chunk_state : packet_chunk_state;
  expiry_time : option nat;
  retry_count : Z;
  have_owner : Z;
  return_code : Z;
  next : option nat
}.

(** What [memset] leaves. *)
Definition zero_chunk : chunk := Chunk 0 0 0 None 0 PACKET_CHUNK_INIT None 0 0 0 None.

Definition set_packet_type v (k : chunk) : chunk :=
  Chunk v (packet_id k) (qos k) (chunk_data k) (chunk_size k) (chunk_state k)
        (expiry_time k) (retry_count k) (have_owner k) (return_code k) (next k).
Definition set_packet_id v (k : chunk) : chunk :=
  Chunk (packet_type k) v (qos k) (chunk_data k) (chunk_size k) (chunk_state k)
        (expiry_time k) (retry_count k) (have_owner k) (return_code k) (next k).
Definition set_qos v (k : chunk) : chunk :=
  Chunk (packet_type k) (packet_id k) v (chunk_data k) (chunk_size k) (chunk_state k)
        (expiry_time k) (retry_count k) (have_owner k) (return_code k) (next k).
Definition set_chunk_data v (k : chunk) : chunk :=
  Chunk (packet_type k) (packet_id k) (qos k) v (chunk_size k) (chunk_state k)
        (expiry_time k) (retry_count k) (have_owner k) (return_code k) (next k).
Definition set_chunk_size v (k : chunk) : chunk :=
  Chunk (packet_type k) (packet_id k) (qos k) (chunk_data k) v (chunk_state k)
        (expiry_time k) (retry_count k) (have_owner k) (return_code k) (next k).
Definition set_chunk_state v (k : chunk) : chunk :=
  Chunk (packet_type k) (packet_id k) (qos k) (chunk_data k) (chunk_size k) v
        (expiry_time k) (retry_count k) (have_owner k) (return_code k) (next k).
Definition set_expiry_time v (k : chunk) : chunk :=
  Chunk (packet_type k) (packet_id k) (qos k) (chunk_data k) (chunk_size k) (chunk_state k)
        v (retry_count k) (have_owner k) (return_code k) (next k).
Definition set_retry_count v (k : chunk) : chunk :=
  Chunk (packet_type k) (packet_id k) (qos k) (chunk_data k) (chunk_size k) (chunk_state k)
        (expiry_time k) v (have_owner k) (return_code k) (next k).
Definition set_have_owner v (k : chunk) : chunk :=
  Chunk (packet_type k) (packet_id k) (qos k) (chunk_data k) (chunk_size k) (chunk_state k)
        (expiry_time k) (retry_count k) v (return_code k) (next k).
Definition set_return_code v (k : chunk) : chunk :=
  Chunk (packet_type k) (packet_id k) (qos k) (chunk_data k) (chunk_size k) (chunk_state k)
        (expiry_time k) (retry_count k) (have_owner k) v (next k).
Definition set_next v (k : chunk) : chunk :=
  Chunk (packet_type k) (packet_id k) (qos k) (chunk_data k) (chunk_size k) (chunk_state k)
        (expiry_time k) (retry_count k) (have_owner k) (return_code k) v.

(** [iot_mqtt_packet_chunk_queue_t]. *)
Record chunk_queue := ChunkQueue { lock : mutex; head : option nat; tail : option nat }.

(** [MQTTClient].  The callback is not null and the client does not use its
    user data; [socket_thread] is whether the handle is not null, and
    [work_queue] is a queue of [iot_util.c]. *)
Record MQTTClient := Client {
  magic : Z;
  next_packetid : Z;
  keepAliveInterval : Z;
  isconnected : Z;
  net_ctx : option nat;
  last_sent : option nat;
  last_received : option nat;
  client_manage_lock : mutex;
  socket_thread : bool;
  ping_packet : option nat;
  write_lock : mutex;
  read_lock : mutex;
  write_pending_queue : chunk_queue;
  ack_pending_queue : chunk_queue;
  user_event_callback_queue : chunk_queue;
  work_queue : option nat
}.

Definition MQTT_CLIENT_STRUCT_MAGIC_NUMBER : Z := 428409095.  (* 0x19890107 *)

Definition set_magic v (c : MQTTClient) : MQTTClient :=
  Client v (next_packetid c) (keepAliveInterval c) (isconnected c) (net_ctx c) (last_sent c)
         (last_received c) (client_manage_lock c) (socket_thread c) (ping_packet c) (write_lock
         c) (read_lock c) (write_pending_queue c) (ack_pending_queue c)
         (user_event_callback_queue c) (work_queue c).
Definition set_next_packetid v (c : MQTTClient) : MQTTClient :=
  Client (magic c) v (keepAliveInterval c) (isconnected c) (net_ctx c) (last_sent c)
         (last_received c) (client_manage_lock c) (socket_thread c) (ping_packet c) (write_lock
         c) (read_lock c) (write_pending_queue c) (ack_pending_queue c)
         (user_event_callback_queue c) (work_queue c).
Definition set_keepAliveInterval v (c : MQTTClient) : MQTTClient :=
  Client (magic c) (next_packetid c) v (isconnected c) (net_ctx c) (last_sent c) (last_received
         c) (client_manage_lock c) (socket_thread c) (ping_packet c) (write_lock c) (read_lock
         c) (write_pending_queue c) (ack_pending_queue c) (user_event_callback_queue c)
         (work_queue c).
Definition set_isconnected v (c : MQTTClient) : MQTTClient :=
  Client (magic c) (next_packetid c) (keepAliveInterval c) v (net_ctx c) (last_sent c)
         (last_received c) (client_manage_lock c) (socket_thread c) (ping_packet c) (write_lock
         c) (read_lock c) (write_pending_queue c) (ack_pending_queue c)
         (user_event_callback_queue c) (work_queue c).
Definition set_net_ctx v (c : MQTTClient) : MQTTClient :=
  Client (magic c) (next_packetid c) (keepAliveInterval c) (isconnected c) v (last_sent c)
         (last_received c) (client_manage_lock c) (socket_thread c) (ping_packet c) (write_lock
         c) (read_lock c) (write_pending_queue c) (ack_pending_queue c)
         (user_event_callback_queue c) (work_queue c).
Definition set_last_sent v (c : MQTTClient) : MQTTClient :=
  Client (magic c) (next_packetid c) (keepAliveInterval c) (isconnected c) (net_ctx c) v
         (last_received c) (client_manage_lock c) (socket_thread c) (ping_packet c) (write_lock
         c) (read_lock c) (write_pending_queue c) (ack_pending_queue c)
         (user_event_callback_queue c) (work_queue c).
Definition set_last_received v (c : MQTTClient) : MQTTClient :=
  Client (magic c) (next_packetid c) (keepAliveInterval c) (isconnected c) (net_ctx c)
         (last_sent c) v (client_manage_lock c) (socket_thread c) (ping_packet c) (write_lock c)
         (read_lock c) (write_pending_queue c) (ack_pending_queue c) (user_event_callback_queue
         c) (work_queue c).
Definition set_client_manage_lock v (c : MQTTClient) : MQTTClient :=
  Client (magic c) (next_packetid c) (keepAliveInterval c) (isconnected c) (net_ctx c)
         (last_sent c) (last_received c) v (socket_thread c) (ping_packet c) (write_lock c)
         (read_lock c) (write_pending_queue c) (ack_pending_queue c) (user_event_callback_queue
         c) (work_queue c).
Definition set_socket_thread v (c : MQTTClient) : MQTTClient :=
  Client (magic c) (next_packetid c) (keepAliveInterval c) (isconnected c) (net_ctx c)
         (last_sent c) (last_received c) (client_manage_lock c) v (ping_packet c) (write_lock c)
         (read_lock c) (write_pending_queue c) (ack_pending_queue c) (user_event_callback_queue
         c) (work_queue c).
Definition set_ping_packet v (c : MQTTClient) : MQTTClient :=
  Client (magic c) (next_packetid c) (keepAliveInterval c) (isconnected c) (net_ctx c)
         (last_sent c) (last_received c) (client_manage_lock c) (socket_thread c) v (write_lock
         c) (read_lock c) (write_pending_queue c) (ack_pending_queue c)
         (user_event_callback_queue c) (work_queue c).
Definition set_write_lock v (c : MQTTClient) : MQTTClient :=
  Client (magic c) (next_packetid c) (keepAliveInterval c) (isconnected c) (net_ctx c)
         (last_sent c) (last_received c) (client_manage_lock c) (socket_thread c) (ping_packet
         c) v (read_lock c) (write_pending_queue c) (ack_pending_queue c)
         (user_event_callback_queue c) (work_queue c).
Definition set_read_lock v (c : MQTTClient) : MQTTClient :=
  Client (magic c) (next_packetid c) (keepAliveInterval c) (isconnected c) (net_ctx c)
         (last_sent c) (last_received c) (client_manage_lock c) (socket_thread c) (ping_packet
         c) (write_lock c) v (write_pending_queue c) (ack_pending_queue c)
         (user_event_callback_queue c) (work_queue c).
Definition set_write_pending_queue v (c : MQTTClient) : MQTTClient :=
  Client (magic c) (next_packetid c) (keepAliveInterval c) (isconnected c) (net_ctx c)
         (last_sent c) (last_received c) (client_manage_lock c) (socket_thread c) (ping_packet
         c) (write_lock c) (read_lock c) v (ack_pending_queue c) (user_event_callback_queue c)
         (work_queue c).
Definition set_ack_pending_queue v (c : MQTTClient) : MQTTClient :=
  Client (magic c) (next_packetid c) (keepAliveInterval c) (isconnected c) (net_ctx c)
         (last_sent c) (last_received c) (client_manage_lock c) (socket_thread c) (ping_packet
         c) (write_lock c) (read_lock c) (write_pending_queue c) v (user_event_callback_queue c)
         (work_queue c).
Definition set_user_event_callback_queue v (c : MQTTClient) : MQTTClient :=
  Client (magic c) (next_packetid c) (keepAliveInterval c) (isconnected c) (net_ctx c)
         (last_sent c) (last_received c) (client_manage_lock c) (socket_thread c) (ping_packet
         c) (write_lock c) (read_lock c) (write_pending_queue c) (ack_pending_queue c) v
         (work_queue c).
Definition set_work_queue v (c : MQTTClient) : MQTTClient :=
  Client (magic c) (next_packetid c) (keepAliveInterval c) (isconnected c) (net_ctx c)
         (last_sent c) (last_received c) (client_manage_lock c) (socket_thread c) (ping_packet
         c) (write_lock c) (read_lock c) (write_pending_queue c) (ack_pending_queue c)
         (user_event_callback_queue c) v.

(** The three queues and the three mutexes of a client, by name. *)
Inductive queue_name := WritePending | AckPending | UserEvent.
Inductive lock_name := ManageLock | WriteLock | ReadLock.

#[export] Instance queue_name_eq_dec : EqDecision queue_name.
Proof. solve_decision. Defined.
#[export] Instance lock_name_eq_dec : EqDecision lock_name.
Proof. solve_decision. Defined.

Definition queue_of (n : queue_name) (c : MQTTClient) : chunk_queue :=
  match n with
  | WritePending => write_pending_queue c
  | AckPending => ack_pending_queue c
  | UserEvent => user_event_callback_queue c
  end.
Definition set_queue (n : queue_name) : chunk_queue -> MQTTClient -> MQTTClient :=
  match n with
  | WritePending => set_write_pending_queue
  | AckPending => set_ack_pending_queue
  | UserEvent => set_user_event_callback_queue
  end.
Definition lock_of (n : lock_name) (c : MQTTClient) : mutex :=
  match n with
  | ManageLock => client_manage_lock c
  | WriteLock => write_lock c
  | ReadLock => read_lock c
  end.
Definition set_lock_of (n : lock_name) : mutex -> MQTTClient -> MQTTClient :=
  match n with
  | ManageLock => set_client_manage_lock
  | WriteLock => set_write_lock
  | ReadLock => set_read_lock
  end.

(** [device_work_data_t]: the handlers the client and the SDK's own code put
    into the queue. *)
Inductive work_handler := pending_work_handler | other_handler (id : nat).
Record device_work_data := {
  handler : work_handler; work_param : option nat; owner_id : option nat
}.

(** [iot_util_queue_data_t] and [iot_util_queue_t]. *)
Record iot_util_queue_data := QueueData { data : option device_work_data; data_next : option nat }.
Record iot_util_queue := UtilQueue {
  uq_lock : mutex; item_size : Z; uq_head : option nat; uq_tail : option nat
}.

Definition set_uq_lock m (q : iot_util_queue) : iot_util_queue :=
  UtilQueue m (item_size q) (uq_head q) (uq_tail q).
Definition set_uq_ends h t (q : iot_util_queue) : iot_util_queue :=
  UtilQueue (uq_lock q) (item_size q) h t.
Definition set_data_next n (d : iot_util_queue_data) : iot_util_queue_data := QueueData (data d) n.

(** ** Events delivered to the user's callback *)

(** [st_mqtt_msg], with the buffer its pointers point into. *)
Record st_mqtt_msg := {
  msg_topic : dataptr; msg_topiclen : Z;
  msg_payload : dataptr; msg_payloadlen : Z;
  msg_qos : Z; msg_retained : Z; msg_buffer : list Z
}.

Inductive st_mqtt_event :=
| ST_MQTT_EVENT_MSG_DELIVERED (msg : st_mqtt_msg)
| ST_MQTT_EVENT_PUBLISH_FAILED (msg : st_mqtt_msg)
| ST_MQTT_EVENT_PUBLISH_TIMEOUT (msg : st_mqtt_msg)
| ST_MQTT_EVENT_DISCONNECTED (reason : Z).

(** ** The state *)

(** [w_sent], [w_received] and [w_events] are the history of what the network
    took and gave and of the events delivered. *)
Record world `{P : Platform} := World {
  w_env : env;
  w_chunks : heap chunk;
  w_clients : heap MQTTClient;
  w_nodes : heap iot_util_queue_data;
  w_queues : heap iot_util_queue;
  w_events : list st_mqtt_event;
  w_sent : list Z;
  w_received : list Z
}.

Section access.
Context `{P : Platform}.

Definition with_env (e : env) (w : world) : world :=
  World P e (w_chunks w) (w_clients w) (w_nodes w) (w_queues w) (w_events w) (w_sent w) (w_received w).
Definition with_chunks h (w : world) : world :=
  World P (w_env w) h (w_clients w) (w_nodes w) (w_queues w) (w_events w) (w_sent w) (w_received w).
Definition with_clients h (w : world) : world :=
  World P (w_env w) (w_chunks w) h (w_nodes w) (w_queues w) (w_events w) (w_sent w) (w_received w).
Definition with_nodes h (w : world) : world :=
  World P (w_env w) (w_chunks w) (w_clients w) h (w_queues w) (w_events w) (w_sent w) (w_received w).
Definition with_queues h (w : world) : world :=
  World P (w_env w) (w_chunks w) (w_clients w) (w_nodes w) h (w_events w) (w_sent w) (w_received w).
Definition with_events l (w : world) : world :=
  World P (w_env w) (w_chunks w) (w_clients w) (w_nodes w) (w_queues w) l (w_sent w) (w_received w).
Definition with_sent l (w : world) : world :=
  World P (w_env w) (w_chunks w) (w_clients w) (w_nodes w) (w_queues w) (w_events w) l (w_received w).
Definition with_received l (w : world) : world :=
  World P (w_env w) (w_chunks w) (w_clients w) (w_nodes w) (w_queues w) (w_events w) (w_sent w) l.

(** A call of the platform. *)
Definition sys {A} (f : env -> A * env) : st world A := fun w =>
  let '(a, e) := f (w_env w) in Ret (a, with_env e w).
Definition sys_ (f : env -> env) : st world unit := fun w => Ret (tt, with_env (f (w_env w)) w).

#[export] Instance chunk_store : Store world chunk.
Proof. refine {| heap_of := w_chunks; with_heap := with_chunks |}; by repeat intros [] || intros. Defined.
#[export] Instance client_store : Store world MQTTClient.
Proof. refine {| heap_of := w_clients; with_heap := with_clients |}; by repeat intros [] || intros. Defined.
#[export] Instance node_store : Store world iot_util_queue_data.
Proof. refine {| heap_of := w_nodes; with_heap := with_nodes |}; by repeat intros [] || intros. Defined.
#[export] Instance queue_store : Store world iot_util_queue.
Proof. refine {| heap_of := w_queues; with_heap := with_queues |}; by repeat intros [] || intros. Defined.

(** [iot_os_mutex_lock] on a mutex with the value [m]: whether it succeeds,
    and its new value. *)
Definition mutex_lock (m : mutex) : outcome (bool * mutex) :=
  if sem m then if held m then Hang else Ret (true, Mutex true true) else Ret (false, m).
Definition mutex_unlock (m : mutex) : mutex := Mutex (sem m) false.
Definition mutex_destroy (m : mutex) : mutex := null_mutex.

(** [malloc(sizeof(T))] of an object that is set at once: whether it
    succeeds. *)
Definition os_new : st world bool := sys os_malloc_object.
End access.

(** ** Symbolic execution *)

Ltac world_simpl :=
  cbn [heap_of with_heap chunk_store client_store node_store queue_store
       w_env w_chunks w_clients w_nodes w_queues w_events w_sent w_received
       with_env with_chunks with_clients with_nodes with_queues with_events with_sent with_received
       mbind option_bind
       uq_lock item_size uq_head uq_tail set_uq_lock set_uq_ends data data_next set_data_next
       sem held mutex_unlock mutex_destroy] in *.

(** [live h a = o] for a heap that is an update of known ones. *)
Ltac live_lookup :=
  world_simpl;
  repeat (rewrite live_insert; first [rewrite decide_True by congruence | rewrite decide_False by congruence]);
  first [eassumption | reflexivity].

Section run.
Context `{P : Platform}.

Lemma bind_sys {A B} (f : env -> A * env) (k : A -> st world B) w :
  (sys f ≫= k) w = k (f (w_env w)).1 (with_env (f (w_env w)).2 w).
Proof. unfold mbind, st_bind, sys. by destruct (f (w_env w)). Qed.

Lemma bind_sys_ {B} (f : env -> env) (k : unit -> st world B) w :
  (sys_ f ≫= k) w = k tt (with_env (f (w_env w)) w).
Proof. done. Qed.
End run.

(** One step of the computation in front of a continuation. *)
Ltac run_step :=
  first
    [ rewrite bind_assoc
    | rewrite bind_mret
    | rewrite bind_gets
    | rewrite bind_allocate
    | rewrite bind_sys_
    | rewrite bind_sys
    | erewrite bind_get by live_lookup
    | erewrite bind_update by live_lookup
    | erewrite bind_release by live_lookup ];
  world_simpl; cbn beta iota zeta.
Ltac run := repeat run_step.
