(* ===== verification/UtilQueue.v ===== *)
(** * Work queues

    The queue of [src/src/iot_util.c] ([iot_util_queue_create], [_delete],
    [_send], [_receive]) and the function of the MQTT client that removes a
    client's work from one ([_iot_mqtt_delete_pending_task]).  The queue is
    proved to implement a list; the removal is proved correct where it is. *)

From S2P Require Import Prelude Platform Heap World.

Definition IOT_ERROR_NONE : Z := 0.
Definition IOT_ERROR_BAD_REQ : Z := -1.
Definition IOT_ERROR_INVALID_ARGS : Z := -2.
Definition IOT_ERROR_MEM_ALLOC : Z := -6.
Definition IOT_ERROR_TIMEOUT : Z := -7.

Section util_queue.
Context `{P : Platform}.
Abbreviation M := (st world).

(** [iot_os_mutex_lock(&queue->lock)] and [iot_os_mutex_unlock]. *)
Definition lock_util_queue (q : option nat) : M bool :=
  uq ← get q;
  match mutex_lock (uq_lock uq) with
  | Ret (b, m) => update q (set_uq_lock m);; mret b
  | Undef => undef
  | Hang => hang
  end.
Definition unlock_util_queue (q : option nat) : M unit :=
  update q (fun uq => set_uq_lock (mutex_unlock (uq_lock uq)) uq).

Definition iot_util_queue_create (size : Z) : M (option nat) :=
  if size =? 0 then mret None
  else
    ok ← os_new;
    if negb ok then mret None
    else
      q ← allocate (UtilQueue null_mutex 0 None None);
      inited ← sys os_mutex_init;
      update (Some q) (set_uq_lock (Mutex inited false));;
      if negb inited then release (A := iot_util_queue) (Some q);; mret None
      else
        update (Some q) (fun uq => UtilQueue (uq_lock uq) size (uq_head uq) (uq_tail uq));;
        mret (Some q).

(** [while (iterator)] of [iot_util_queue_delete]. *)
Fixpoint delete_nodes (fuel : nat) (iterator : option nat) : M unit :=
  match iterator with
  | None => mret tt
  | Some _ =>
      match fuel with
      | O => hang
      | S fuel =>
          d ← get iterator;
          release (A := iot_util_queue_data) iterator;;
          delete_nodes fuel (data_next d)
      end
  end.

Definition iot_util_queue_delete (queue : option nat) : M unit :=
  match queue with
  | None => mret tt
  | Some _ =>
      uq ← get queue;
      if negb (sem (uq_lock uq)) then mret tt
      else
        lock_util_queue queue;;
        uq ← get queue;
        n ← gets (fun w : world => size (w_nodes w));
        delete_nodes n (uq_head uq);;
        update queue (set_uq_ends None None);;
        unlock_util_queue queue;;
        update queue (fun uq => set_uq_lock (mutex_destroy (uq_lock uq)) uq);;
        release (A := iot_util_queue) queue
  end.

(** The end of [iot_util_queue_send]: a node behind the tail. *)
Definition link_node (queue : option nat) (queue_data : nat) : M unit :=
  uq ← get queue;
  match uq_head uq, uq_tail uq with
  | Some _, Some _ =>
      update (uq_tail uq) (set_data_next (Some queue_data));;
      update queue (fun uq => set_uq_ends (uq_head uq) (Some queue_data) uq)
  | _, _ => update queue (set_uq_ends (Some queue_data) (Some queue_data))
  end.

Definition iot_util_queue_send (queue : option nat) (item : option device_work_data) : M Z :=
  match queue, item with
  | Some _, Some item =>
      ok ← os_new;
      if negb ok then mret IOT_ERROR_MEM_ALLOC
      else
        queue_data ← allocate (QueueData None None);
        uq ← get queue;
        mem ← sys (os_malloc (item_size uq));
        match mem with
        | None => release (A := iot_util_queue_data) (Some queue_data);; mret IOT_ERROR_MEM_ALLOC
        | Some _ =>
            update (Some queue_data) (fun d => QueueData (Some item) (data_next d));;
            locked ← lock_util_queue queue;
            if negb locked
            then release (A := iot_util_queue_data) (Some queue_data);; mret IOT_ERROR_TIMEOUT
            else
              link_node queue queue_data;;
              unlock_util_queue queue;;
              mret IOT_ERROR_NONE
        end
  | _, _ => mret IOT_ERROR_INVALID_ARGS
  end.

(** The error code and what is stored in [*data]; [data] is not null. *)
Definition iot_util_queue_receive (queue : option nat) : M (Z * option device_work_data) :=
  match queue with
  | None => mret (IOT_ERROR_INVALID_ARGS, None)
  | Some _ =>
      locked ← lock_util_queue queue;
      if negb locked then mret (IOT_ERROR_TIMEOUT, None)
      else
        uq ← get queue;
        '(ret, queue_data) ←
          match uq_head uq, uq_tail uq with
          | Some h, Some t =>
              if (h =? t)%nat then
                update queue (set_uq_ends None None);; mret (IOT_ERROR_NONE, Some h)
              else
                d ← get (Some h);
                update queue (fun uq => set_uq_ends (data_next d) (uq_tail uq) uq);;
                update (Some h) (set_data_next None);;
                mret (IOT_ERROR_NONE, Some h)
          | _, _ => mret (IOT_ERROR_BAD_REQ, None)
          end;
        unlock_util_queue queue;;
        match queue_data with
        | None => mret (ret, None)
        | Some _ =>
            d ← get queue_data;
            item ← need (data d);
            release (A := iot_util_queue_data) queue_data;;
            mret (ret, Some item)
        end
  end.

(** [while (queue_data_iter)] of [_iot_mqtt_delete_pending_task]. *)
Fixpoint delete_pending_loop (fuel : nat) (client queue iter prev : option nat) : M unit :=
  match iter with
  | None => mret tt
  | Some _ =>
      match fuel with
      | O => hang
      | S fuel =>
          d ← get iter;
          work ← need (data d);
          if decide (owner_id work = client) then
            uq ← get queue;
            if decide (uq_head uq = uq_tail uq) then
              release (A := iot_util_queue_data) iter;;
              update queue (set_uq_ends None None);;
              delete_pending_loop fuel client queue None prev
            else if decide (iter = uq_head uq) then
              h ← get (uq_head uq);
              update queue (fun uq => set_uq_ends (data_next h) (uq_tail uq) uq);;
              release (A := iot_util_queue_data) iter;;
              uq ← get queue;
              delete_pending_loop fuel client queue (uq_head uq) prev
            else
              update prev (set_data_next (data_next d));;
              release (A := iot_util_queue_data) iter;;
              p ← get prev;
              delete_pending_loop fuel client queue (data_next p) prev
          else delete_pending_loop fuel client queue (data_next d) iter
      end
  end.

Definition _iot_mqtt_delete_pending_task (client : option nat) : M unit :=
  c ← get client;
  match work_queue c with
  | None => mret tt
  | Some _ =>
      let queue := work_queue c in
      uq ← get queue;
      locked ← lock_util_queue queue;
      if negb (locked : bool) then mret tt
      else
        n ← gets (fun w : world => size (w_nodes w));
        delete_pending_loop n client queue (uq_head uq) None;;
        unlock_util_queue queue
  end.
End util_queue.

(** ** The queue as a list *)

Section queue_spec.
Context `{P : Platform}.

(** What the nodes at the addresses [l] hold. *)
Definition contents (h : heap iot_util_queue_data) (l : list nat) : list (option device_work_data) :=
  (fun a => live h a ≫= data) <$> l.

(** The queue [q] is free and holds [items], in nodes at the addresses [l]. *)
Record holds (w : world) (q : nat) (size : Z) (l : list nat) (items : list device_work_data) : Prop := {
  h_queue : exists uq, live (w_queues w) q = Some uq /\ uq_lock uq = free_mutex /\ item_size uq = size /\
            is_list data_next (w_nodes w) (uq_head uq) (uq_tail uq) l;
  h_items : contents (w_nodes w) l = Some <$> items
}.

Lemma contents_ext h h' l :
  (forall a, a ∈ l -> live h' a ≫= data = live h a ≫= data) -> contents h' l = contents h l.
Proof.
  unfold contents. intros E. apply list_eq. intros i. rewrite !list_lookup_fmap.
  destruct (l !! i) eqn:El; [|done]. simpl. f_equal. apply E. by eapply list_elem_of_lookup_2.
Qed.

Lemma contents_insert h l a o :
  (a ∈ l -> o ≫= data = live h a ≫= data) -> contents (<[a := o]> h) l = contents h l.
Proof.
  intros E. apply contents_ext. intros b Hb. rewrite live_insert. case_decide; [|done].
  subst. by apply E.
Qed.

Lemma is_list_fresh h hd tl l : is_list data_next h hd tl l -> fresh_addr h ∉ l.
Proof.
  intros Hl Hin. destruct (is_list_live _ _ _ _ _ _ Hl Hin) as [x Hx].
  by rewrite live_fresh in Hx.
Qed.

Lemma bind_lock_util {B} q uq (k : bool -> st world B) w :
  live (w_queues w) q = Some uq -> uq_lock uq = free_mutex ->
  (lock_util_queue (Some q) ≫= k) w
  = k true (with_queues (<[q := Some (set_uq_lock (Mutex true true) uq)]> (w_queues w)) w).
Proof. intros Hq Hl. unfold lock_util_queue. run. rewrite Hl. simpl. by run. Qed.

Lemma bind_unlock_util {B} q uq (k : unit -> st world B) w :
  live (w_queues w) q = Some uq ->
  (unlock_util_queue (Some q) ≫= k) w
  = k tt (with_queues (<[q := Some (set_uq_lock (Mutex (sem (uq_lock uq)) false) uq)]> (w_queues w)) w).
Proof. intros Hq. unfold unlock_util_queue. by run. Qed.

(** Whether the allocations of [iot_util_queue_send] succeed. *)
Definition send_result (size : Z) (e : env) : Z :=
  let '(ok, e) := os_malloc_object e in
  if ok then match (os_malloc size e).1 with Some _ => IOT_ERROR_NONE | None => IOT_ERROR_MEM_ALLOC end
  else IOT_ERROR_MEM_ALLOC.

Lemma run_link w q uq l n it :
  live (w_queues w) q = Some uq ->
  is_list data_next (w_nodes w) (uq_head uq) (uq_tail uq) l ->
  n ∉ l -> live (w_nodes w) n = Some (QueueData (Some it) None) ->
  exists h hd, link_node (Some q) n w
    = Ret (tt, with_queues (<[q := Some (set_uq_ends hd (Some n) uq)]> (w_queues w)) (with_nodes h w)) /\
    is_list data_next h hd (Some n) (l ++ [n]) /\
    contents h (l ++ [n]) = contents (w_nodes w) l ++ [Some it].
Proof.
  intros Hq Hl Hn Hlive. unfold link_node. run.
  destruct l as [|t l' _] using rev_ind.
  - rewrite (il_hd _ _ _ _ _ Hl). cbn [hd_error]. exists (w_nodes w), (Some n).
    erewrite run_update by live_lookup. split; [by destruct w|]. split; [split; simpl; eauto; by apply NoDup_singleton|].
    unfold contents. simpl. by rewrite Hlive.
  - destruct (is_list_live _ _ _ _ _ t Hl ltac:(set_solver)) as [x Hx].
    assert (Htl : uq_tail uq = Some t) by (rewrite (il_tl _ _ _ _ _ Hl); apply last_snoc).
    assert (Hhd : exists a, uq_head uq = Some a).
    { rewrite (il_hd _ _ _ _ _ Hl). destruct l'; simpl; eauto. }
    destruct Hhd as [a Ha]. rewrite Ha, Htl. run.
    erewrite run_update by live_lookup.
    exists (<[t := Some (set_data_next (Some n) x)]> (w_nodes w)), (Some a).
    rewrite Ha. split; [done|]. split; [split|].
    + eapply chain_snoc; eauto; [by apply nodup_snoc; [apply Hl|]|apply Hl].
    + rewrite (il_hd _ _ _ _ _ Hl) in Ha. by destruct l'.
    + by rewrite last_snoc.
    + by apply nodup_snoc; [apply Hl|].
    + unfold contents. rewrite fmap_app. f_equal.
      * apply (contents_insert _ _ _ (Some _)). intros _. by rewrite Hx.
      * simpl. rewrite live_insert, decide_False by set_solver. by rewrite Hlive.
Qed.

Lemma send_spec w q size l items item :
  holds w q size l items ->
  exists w' l', iot_util_queue_send (Some q) (Some item) w = Ret (send_result size (w_env w), w') /\
    holds w' q size l' (if send_result size (w_env w) =? IOT_ERROR_NONE then items ++ [item] else items).
Proof.
  intros [(uq & Hq & Hlock & Hsize & Hl) Hi]. unfold iot_util_queue_send, os_new, send_result.
  run. destruct (os_malloc_object (w_env w)) as [[] e1]; simpl; [|by do 2 eexists; split; [reflexivity|]; split; [eauto 10|]].
  run. rewrite Hsize. destruct (os_malloc size e1) as [[mem|] e2]; simpl.
  - run. erewrite bind_lock_util by eassumption. world_simpl. cbn [negb].
    pose proof (is_list_fresh _ _ _ _ Hl) as Hn. rewrite insert_insert_eq.
    match goal with |- context [(link_node _ _ ≫= _) ?w0] =>
      destruct (run_link w0 q (set_uq_lock (Mutex true true) uq) l (fresh_addr (w_nodes w)) item)
        as (h & hd & E & Hl' & Hc) end; world_simpl;
      [live_lookup|by apply is_list_other|done|live_lookup|].
    rewrite (bind_ret _ _ _ _ _ E). erewrite bind_unlock_util by live_lookup. world_simpl.
    do 2 eexists. split; [reflexivity|]. split; world_simpl.
    + eexists. split; [live_lookup|]. simpl. eauto.
    + rewrite Hc, fmap_app, <- Hi. f_equal. apply contents_insert. done.
  - run. do 2 eexists. split; [reflexivity|]. rewrite insert_insert_eq.
    split; world_simpl; [|rewrite <- Hi; apply contents_insert].
    + exists uq. split_and!; try done. apply is_list_other; [|done]. by eapply is_list_fresh.
    + intros Hin. by apply is_list_fresh in Hl.
Qed.

Lemma receive_spec w q size l items :
  holds w q size l items ->
  exists w' l', iot_util_queue_receive (Some q) w
    = Ret (match items with [] => (IOT_ERROR_BAD_REQ, None) | x :: _ => (IOT_ERROR_NONE, Some x) end, w') /\
    holds w' q size l' (list.tail items).
Proof.
  intros [(uq & Hq & Hlock & Hsize & Hl) Hi]. unfold iot_util_queue_receive.
  erewrite bind_lock_util by eassumption. world_simpl. cbn [negb]. run.
  destruct l as [|a [|b l]].
  - destruct items; [|done]. rewrite (il_hd _ _ _ _ _ Hl). cbn [hd_error]. run.
    erewrite bind_unlock_util by live_lookup. world_simpl.
    eexists _, []. split; [reflexivity|]. rewrite insert_insert_eq. split; [|done].
    eexists. split; [live_lookup|]. simpl. eauto.
  - destruct items as [|x items]; [done|]. destruct items; [|done]. injection Hi as Hx.
    rewrite (il_hd _ _ _ _ _ Hl), (il_tl _ _ _ _ _ Hl). cbn [hd_error last].
    rewrite Nat.eqb_refl. run. erewrite bind_unlock_util by live_lookup. world_simpl.
    destruct (live (w_nodes w) a) as [d|] eqn:Ed; [|done]. simpl in Hx. run.
    rewrite Hx. simpl. run. eexists _, []. split; [reflexivity|]. rewrite !insert_insert_eq.
    split; [|done]. eexists. split; [live_lookup|]. simpl. split_and!; [done..|apply is_list_empty].
  - destruct items as [|x items]; [done|]. injection Hi as Hx Hi.
    destruct (live (w_nodes w) a) as [d|] eqn:Ed; [|done]. simpl in Hx.
    destruct (is_list_tail _ _ _ _ _ _ _ _ Hl Ed) as [Hn Hl'].
    assert (Ha : a ∉ b :: l) by (pose proof (il_nodup _ _ _ _ _ Hl) as Hnd; by apply NoDup_cons in Hnd as [? _]).
    assert (Hne : uq_head uq <> uq_tail uq) by (intros E; by apply (is_list_single _ _ _ _ _ _ Hl) in E).
    destruct (uq_tail uq) as [t'|] eqn:Et; [|pose proof (il_tl _ _ _ _ _ Hl) as E; symmetry in E; by apply last_None in E].
    rewrite (il_hd _ _ _ _ _ Hl) in Hne |- *. cbn [hd_error] in *.
    rewrite (proj2 (Nat.eqb_neq a t')) by congruence. run.
    erewrite bind_unlock_util by live_lookup. world_simpl. run. rewrite Hx. simpl. run.
    eexists _, (b :: l). split; [reflexivity|]. rewrite !insert_insert_eq. split; world_simpl.
    + eexists. split; [live_lookup|]. simpl. split_and!; [done..|].
      rewrite Hn, Et. by apply is_list_other, Hl'.
    + cbn [list.tail]. change (Some <$> items) with (list_fmap _ _ Some items). rewrite <- Hi. apply (contents_insert _ (b :: l)). done.
Qed.

(** ** Refinement *)

Inductive queue_op := Send (item : device_work_data) | Receive.

Definition run_op (q : nat) (op : queue_op) : st world (Z * option device_work_data) :=
  match op with
  | Send item => r ← iot_util_queue_send (Some q) (Some item); mret (r, None)
  | Receive => iot_util_queue_receive (Some q)
  end.

Fixpoint run_ops (q : nat) (ops : list queue_op) : st world (list (Z * option device_work_data)) :=
  match ops with
  | [] => mret []
  | op :: ops => r ← run_op q op; rs ← run_ops q ops; mret (r :: rs)
  end.

(** The specification: a list, items leave it in the order they came in.
    [may_fail] says whether a send can run out of memory. *)
Inductive fifo (may_fail : bool) :
  list device_work_data -> list queue_op -> list (Z * option device_work_data) ->
  list device_work_data -> Prop :=
| fifo_nil items : fifo may_fail items [] [] items
| fifo_send items x ops rs items' :
    fifo may_fail (items ++ [x]) ops rs items' ->
    fifo may_fail items (Send x :: ops) ((IOT_ERROR_NONE, None) :: rs) items'
| fifo_send_fail items x ops rs items' :
    may_fail = true -> fifo may_fail items ops rs items' ->
    fifo may_fail items (Send x :: ops) ((IOT_ERROR_MEM_ALLOC, None) :: rs) items'
| fifo_receive items x ops rs items' :
    fifo may_fail items ops rs items' ->
    fifo may_fail (x :: items) (Receive :: ops) ((IOT_ERROR_NONE, Some x) :: rs) items'
| fifo_receive_empty ops rs items' :
    fifo may_fail [] ops rs items' ->
    fifo may_fail [] (Receive :: ops) ((IOT_ERROR_BAD_REQ, None) :: rs) items'.

Definition never_out_of_memory : Prop :=
  (forall e, (os_malloc_object e).1 = true) /\ (forall n e, is_Some (os_malloc n e).1).

(** C40: the work queue of [iot_util.c] refines a first-in first-out list: any
    sequence of sends and receives on a queue in the state [items] runs
    without undefined behaviour, returns what the list returns, and leaves
    the queue in the list's state.  A send fails only when memory runs out,
    and leaves the queue as it was. *)
Theorem util_queue_is_fifo may_fail ops w q size l items :
  (may_fail = false -> never_out_of_memory) ->
  holds w q size l items ->
  exists rs w' l' items', run_ops q ops w = Ret (rs, w') /\
    fifo may_fail items ops rs items' /\ holds w' q size l' items'.
Proof.
  intros Hmem. revert w l items. induction ops as [|[x|] ops IH]; intros w l items Hh; cbn [run_ops run_op].
  - exists [], w, l, items. split_and!; [done|constructor|done].
  - rewrite bind_assoc. destruct (send_spec w q size l items x Hh) as (w1 & l1 & E & H1).
    rewrite (bind_ret _ _ _ _ _ E). run.
    destruct (IH _ _ _ H1) as (rs & w' & l' & items' & E' & Hf & Hh'). rewrite (bind_ret _ _ _ _ _ E').
    eexists _, w', l', items'. split_and!; [reflexivity| |done].
    assert (Hr : send_result size (w_env w) = IOT_ERROR_NONE \/
                 send_result size (w_env w) = IOT_ERROR_MEM_ALLOC /\ may_fail = true).
    { clear -Hmem. unfold send_result, never_out_of_memory in *.
      destruct may_fail; [repeat case_match; auto|]. destruct (Hmem eq_refl) as [Ho Hm].
      specialize (Ho (w_env w)). destruct (os_malloc_object (w_env w)) as [b e]. simpl in Ho. subst.
      destruct (Hm size e) as [d ->]. auto. }
    destruct Hr as [Hr|[Hr ->]]; rewrite Hr in Hf |- *; by constructor.
  - destruct (receive_spec w q size l items Hh) as (w1 & l1 & E & H1).
    rewrite (bind_ret _ _ _ _ _ E).
    destruct (IH _ _ _ H1) as (rs & w' & l' & items' & E' & Hf & Hh'). rewrite (bind_ret _ _ _ _ _ E').
    eexists _, w', l', items'. split_and!; [reflexivity| |done].
    destruct items; by constructor.
Qed.
End queue_spec.

(** ** Removing the work of a client *)

Section delete_pending.
Context `{P : Platform}.

Context (client : nat).

(** The node at [a] holds work of the client. *)
Definition owned (h : heap iot_util_queue_data) (a : nat) : bool :=
  match live h a ≫= data with
  | Some work => bool_decide (owner_id work = Some client)
  | None => false
  end.

Definition kept (h : heap iot_util_queue_data) (l : list nat) : list nat :=
  filter (fun a => owned h a = false) l.

Lemma kept_cons h a l : kept h (a :: l) = if owned h a then kept h l else a :: kept h l.
Proof. unfold kept. rewrite filter_cons. by destruct (owned h a). Qed.

Lemma kept_subset h a l : a ∈ kept h l -> a ∈ l.
Proof. unfold kept. rewrite list_elem_of_filter. tauto. Qed.

Lemma owned_ext_other h a b o : a <> b -> owned (<[b := o]> h) a = owned h a.
Proof. intros Hab. unfold owned. by rewrite live_insert, decide_False. Qed.

(** The queue and the nodes in front of a round of the loop: [pre] has been
    visited, [rest] has not; [h0] is the heap before the loop. *)
Record loop_inv (h0 : heap iot_util_queue_data) (pre rest : list nat) (prev : option nat)
    (uq : iot_util_queue) (h : heap iot_util_queue_data) : Prop := {
  li_hd : uq_head uq = hd_error (pre ++ rest);
  li_chain : chain data_next h (pre ++ rest);
  li_nodup : NoDup (pre ++ rest);
  li_tl : rest <> [] -> uq_tail uq = last rest;
  li_data : forall a, a ∈ pre ++ rest -> live h a ≫= data = live h0 a ≫= data;
  li_some : forall a, a ∈ rest -> is_Some (live h0 a ≫= data);
  li_prev : pre <> [] -> prev = last pre;
  li_kept : pre <> [] \/ kept h0 rest <> []
}.

(** A node of the client is unlinked: at the head, and behind [p]. *)
Lemma loop_inv_head h0 a rest prev uq h d :
  live h a = Some d -> owned h0 a = true -> loop_inv h0 [] (a :: rest) prev uq h ->
  uq_head uq <> uq_tail uq /\ uq_head uq = Some a /\
  loop_inv h0 [] rest prev (set_uq_ends (data_next d) (uq_tail uq) uq) (<[a := None]> h).
Proof.
  intros Ed Ho [Hhd Hc Hnd Htl Hda Hso Hpr Hk]. simpl app in *.
  destruct Hk as [|Hk]; [done|]. rewrite kept_cons, Ho in Hk.
  destruct rest as [|b rest]; [done|]. pose proof (Htl ltac:(done)) as Et.
  assert (Hl : is_list data_next h (uq_head uq) (uq_tail uq) (a :: b :: rest)) by (by split).
  destruct (is_list_tail _ _ _ _ _ _ _ _ Hl Ed) as [Hn []].
  split_and!; [intros E; by apply (is_list_single _ _ _ _ _ _ Hl) in E|by rewrite Hhd|].
  apply NoDup_cons in Hnd as [Ha Hnd]. split; simpl app; try done.
  - by apply chain_other.
  - intros c Hc'. rewrite live_insert, decide_False by set_solver. apply Hda. by right.
  - intros c Hc'. apply Hso. by right.
  - by right.
Qed.

Lemma loop_inv_behind h0 pre p a rest uq h d x :
  live h a = Some d -> live h p = Some x -> owned h0 a = true ->
  loop_inv h0 (pre ++ [p]) (a :: rest) (Some p) uq h ->
  uq_head uq <> uq_tail uq /\ uq_head uq <> Some a /\ p <> a /\
  loop_inv h0 (pre ++ [p]) rest (Some p) uq (<[a := None]> (<[p := Some (set_data_next (data_next d) x)]> h)).
Proof.
  intros Ed Ep Ho [Hhd Hc Hnd Htl Hda Hso Hpr Hk].
  pose proof (proj1 (NoDup_app _ _) Hnd) as (Hn1 & Hn2 & Hn3). apply NoDup_cons in Hn3 as [Har Hn3].
  assert (Hap : a ∉ pre ++ [p]) by (intros Hin; apply (Hn2 a Hin); left).
  assert (Hpa : p <> a) by (intros ->; apply Hap; set_solver).
  pose proof (Htl ltac:(done)) as Et.
  assert (Hhd' : exists c, uq_head uq = Some c /\ c ∈ pre ++ [p]).
  { rewrite Hhd. destruct pre as [|c pre]; eexists; (split; [reflexivity|]); set_solver. }
  destruct Hhd' as (c & Hhc & Hcin).
  assert (Hin : forall b, b ∈ (pre ++ [p]) ++ rest -> b <> a /\ b ∈ (pre ++ [p]) ++ a :: rest)
    by (intros b [Hb|Hb]%elem_of_app; (split; [by intros ->|apply elem_of_app; (by left) || (right; by right)])).
  split_and!; [|rewrite Hhc; intros [= ->]; done|done|].
  { rewrite Et, Hhc. intros E. symmetry in E. apply last_Some_elem_of in E. by apply (Hn2 c). }
  split; try done.
  - rewrite Hhd. by destruct pre.
  - apply chain_other; [rewrite elem_of_app; tauto|]. rewrite <- app_assoc in *.
    by eapply (chain_unlink data_next h pre p a rest).
  - apply NoDup_app. split_and!; [done| |done]. intros b Hb Hb'. apply (Hn2 b Hb). by right.
  - intros Hr. rewrite Et. by destruct rest.
  - intros b Hb. apply Hin in Hb as [Hba Hb]. rewrite live_insert, decide_False by done.
    rewrite live_insert. case_decide; [subst|by apply Hda].
    simpl. rewrite <- Hda by done. by rewrite Ep.
  - intros b Hb. apply Hso. by right.
  - left. by destruct pre.
Qed.

Lemma loop_inv_keep h0 pre a rest prev uq h :
  owned h0 a = false -> loop_inv h0 pre (a :: rest) prev uq h ->
  loop_inv h0 (pre ++ [a]) rest (Some a) uq h.
Proof.
  intros Ho [Hhd Hc Hnd Htl Hda Hso Hpr Hk].
  split; rewrite <- ?app_assoc; try done.
  - intros Hr. rewrite Htl by done. by destruct rest.
  - intros b Hb. apply Hso. by right.
  - intros _. by rewrite last_snoc.
  - left. by destruct pre.
Qed.

(** The loop, when some work stays: it leaves the tail alone. *)
Lemma delete_pending_loop_spec h0 q rest : forall fuel pre prev uq w,
  live (w_queues w) q = Some uq -> loop_inv h0 pre rest prev uq (w_nodes w) ->
  (length rest <= fuel)%nat ->
  exists h qs,
    delete_pending_loop fuel (Some client) (Some q) (hd_error rest) prev w
    = Ret (tt, with_queues qs (with_nodes h w)) /\
    live qs q = Some (set_uq_ends (hd_error (pre ++ kept h0 rest)) (uq_tail uq) uq) /\
    chain data_next h (pre ++ kept h0 rest) /\
    (forall a, a ∈ pre ++ kept h0 rest -> live h a ≫= data = live h0 a ≫= data) /\
    (forall a, a ∉ pre ++ rest -> h !! a = w_nodes w !! a) /\
    (forall a, a ∈ rest -> owned h0 a = true -> h !! a = Some None).
Proof.
  induction rest as [|a rest IH]; intros fuel pre prev uq w Hq Hi Hfuel.
  - exists (w_nodes w), (w_queues w). unfold kept. cbn [filter list_filter].
    split_and!; [destruct fuel; by destruct w| |apply Hi|apply Hi|done|by intros ? ?%elem_of_nil].
    rewrite Hq, <- (li_hd _ _ _ _ _ _ Hi). by destruct uq.
  - destruct fuel as [|fuel]; [simpl in Hfuel; lia|]. simpl in Hfuel.
    destruct (li_some _ _ _ _ _ _ Hi a ltac:(left)) as [work Hwork].
    pose proof Hwork as Ed. rewrite <- (li_data _ _ _ _ _ _ Hi) in Ed by set_solver.
    destruct (live (w_nodes w) a) as [d|] eqn:Ed'; [|done]. simpl in Ed.
    assert (Ho : owned h0 a = bool_decide (owner_id work = Some client))
      by (unfold owned; by rewrite Hwork).
    assert (Hn : data_next d = hd_error rest).
    { pose proof (chain_app _ _ _ _ (li_chain _ _ _ _ _ _ Hi)) as [(d' & Ed2 & Hn) _]. congruence. }
    cbn [hd_error delete_pending_loop]. run. rewrite Ed. cbn [need]. run. rewrite kept_cons.
    destruct (decide (owner_id work = Some client)) as [Hown|Hown].
    + rewrite Ho, bool_decide_true by done. rewrite bool_decide_true in Ho by done.
      destruct pre as [|p pre _] using rev_ind.
      * destruct (loop_inv_head _ _ _ _ _ _ _ Ed' Ho Hi) as (Hne & Hhd & Hi').
        run. rewrite decide_False, Hhd, decide_True by done. run.
        match goal with |- context [delete_pending_loop _ _ _ _ _ ?w1] =>
          destruct (IH fuel [] prev (set_uq_ends (data_next d) (uq_tail uq) uq) w1 ltac:(live_lookup)
            Hi' ltac:(lia)) as (h & qs & E & Hqs & Hch & Hda & Hout & Hdel) end.
        rewrite <- Hn in E. rewrite E. exists h, qs. split_and!; try done.
        -- intros b Hb. rewrite Hout by set_solver. world_simpl.
           rewrite lookup_insert_ne by set_solver. done.
        -- intros b [->|Hb]%elem_of_cons Hob; [|by apply Hdel].
           rewrite Hout; [world_simpl; by rewrite lookup_insert_eq|].
           pose proof (li_nodup _ _ _ _ _ _ Hi) as Hnd. by apply NoDup_cons in Hnd as [? _].
      * rewrite (li_prev _ _ _ _ _ _ Hi), last_snoc by (by destruct pre).
        pose proof Hi as Hi2. destruct Hi2 as [_ Hc Hnd _ _ _ Hpr _].
        rewrite Hpr, last_snoc in Hi by (by destruct pre).
        destruct (chain_live _ _ _ p Hc ltac:(set_solver)) as [x Ep].
        destruct (loop_inv_behind _ _ _ _ _ _ _ _ _ Ed' Ep Ho Hi) as (Hne & Hhd & Hpa & Hi').
        run. rewrite decide_False, decide_False by congruence. run.
        match goal with |- context [delete_pending_loop _ _ _ _ _ ?w1] =>
          destruct (IH fuel (pre ++ [p]) (Some p) uq w1 Hq Hi' ltac:(lia))
            as (h & qs & E & Hqs & Hch & Hda & Hout & Hdel) end.
        rewrite <- Hn in E. rewrite E. exists h, qs. split_and!; try done.
        -- intros b Hb. rewrite Hout by set_solver. world_simpl.
           rewrite !lookup_insert_ne by set_solver. done.
        -- intros b [->|Hb]%elem_of_cons Hob; [|by apply Hdel].
           rewrite Hout; [world_simpl; by rewrite lookup_insert_eq|].
           apply NoDup_app in Hnd as (_ & Hn2 & Hn3). apply NoDup_cons in Hn3 as [? _].
           intros [?|?]%elem_of_app; [|done]. apply (Hn2 a); [done|left].
    + rewrite Ho, bool_decide_false by done. rewrite bool_decide_false in Ho by done.
      destruct (IH fuel (pre ++ [a]) (Some a) uq w Hq (loop_inv_keep _ _ _ _ _ _ _ Ho Hi) ltac:(lia))
        as (h & qs & E & Hqs & Hch & Hda & Hout & Hdel).
      rewrite Hn, E. exists h, qs. rewrite <- !app_assoc in *. split_and!; try done.
      intros b [->|Hb]%elem_of_cons Hob; [congruence|by apply Hdel].
Qed.

(** The loop, when all the work goes. *)
Lemma delete_all_loop_spec q rest : forall fuel prev uq w,
  live (w_queues w) q = Some uq ->
  is_list data_next (w_nodes w) (uq_head uq) (uq_tail uq) rest ->
  (forall a, a ∈ rest -> owned (w_nodes w) a = true) -> (length rest <= fuel)%nat ->
  exists h qs,
    delete_pending_loop fuel (Some client) (Some q) (hd_error rest) prev w
    = Ret (tt, with_queues qs (with_nodes h w)) /\
    live qs q = Some (set_uq_ends None None uq).
Proof.
  induction rest as [|a rest IH]; intros fuel prev uq w Hq Hl Ho Hfuel.
  - exists (w_nodes w), (w_queues w). split; [destruct fuel; by destruct w|].
    rewrite Hq. destruct Hl as [_ Hhd Htl _]. simpl in *. destruct uq; simpl in *. by subst.
  - destruct fuel as [|fuel]; [simpl in Hfuel; lia|]. simpl in Hfuel.
    pose proof (Ho a ltac:(left)) as Hoa. unfold owned in Hoa.
    destruct (live (w_nodes w) a) as [d|] eqn:Ed; [|done]. simpl in Hoa.
    destruct (data d) as [work|] eqn:Ew; [|done]. apply bool_decide_eq_true in Hoa.
    cbn [hd_error delete_pending_loop]. run. rewrite Ew. cbn [need]. run.
    destruct (decide (owner_id work = Some client)); [|done]. run.
    destruct (decide (uq_head uq = uq_tail uq)) as [Eq|Hne].
    + apply (is_list_single _ _ _ _ _ _ Hl) in Eq as ->. run.
      eexists _, _. split; [destruct fuel; reflexivity|]. live_lookup.
    + destruct rest as [|b rest]; [by rewrite (proj2 (is_list_single _ _ _ _ _ _ Hl)) in Hne|].
      destruct (is_list_tail _ _ _ _ _ _ _ _ Hl Ed) as [Hn Hl'].
      pose proof (il_nodup _ _ _ _ _ Hl) as Hnd. apply NoDup_cons in Hnd as [Ha Hnd].
      rewrite (il_hd _ _ _ _ _ Hl). cbn [hd_error]. rewrite decide_True by done. run.
      match goal with |- context [delete_pending_loop _ _ _ _ _ ?w1] =>
        destruct (IH fuel prev (set_uq_ends (data_next d) (uq_tail uq) uq) w1 ltac:(live_lookup))
          as (h & qs & E & Hqs); world_simpl end.
      * rewrite Hn. by apply is_list_other.
      * intros c Hc. rewrite <- (Ho c) by (by right). apply owned_ext_other. set_solver.
      * lia.
      * cbn [hd_error] in E. rewrite <- Hn in E. rewrite E. by exists h, qs.
Qed.

Definition mine (x : device_work_data) : bool := bool_decide (owner_id x = Some client).

(** What is kept, in terms of the items. *)
Lemma kept_contents h l items :
  contents h l = Some <$> items ->
  contents h (kept h l) = Some <$> filter (fun x => mine x = false) items.
Proof.
  revert items. induction l as [|a l IH]; intros [|x items] E; try done.
  injection E as Ex E. rewrite kept_cons, filter_cons. specialize (IH items E).
  unfold owned at 1. rewrite Ex. fold (mine x). destruct (mine x); simpl; [done|].
  unfold contents in *. simpl. rewrite Ex. by f_equal.
Qed.

Lemma kept_all h l : (forall a, a ∈ l -> owned h a = false) -> kept h l = l.
Proof.
  induction l as [|a l IH]; intros E; [done|]. rewrite kept_cons, E by left.
  rewrite IH; [done|]. intros b Hb. apply E. by right.
Qed.

Lemma contents_lookup h l items a :
  contents h l = Some <$> items -> a ∈ l -> is_Some (live h a ≫= data).
Proof.
  intros E Ha. apply list_elem_of_lookup in Ha as [i Hi].
  apply (f_equal (fun k => k !! i)) in E. unfold contents in E.
  rewrite !list_lookup_fmap, Hi in E. simpl in E. destruct (items !! i); simplify_eq/=.
  rewrite E. eauto.
Qed.

Lemma contents_last h l items a x :
  contents h l = Some <$> items -> last l = Some a -> last items = Some x ->
  owned h a = mine x.
Proof.
  intros E Hl Hi. apply (f_equal last) in E. unfold contents in E.
  rewrite !fmap_last, Hl, Hi in E. simpl in E. injection E as E. unfold owned. by rewrite E.
Qed.

Lemma kept_nil h l items :
  contents h l = Some <$> items -> kept h l = [] <-> filter (fun x => mine x = false) items = [].
Proof.
  intros E. apply kept_contents in E. unfold contents in E.
  split; intros H; rewrite H in E; [by destruct (filter _ items)|by destruct (kept h l)].
Qed.

Lemma last_kept h l a : last l = Some a -> owned h a = false -> last (kept h l) = Some a.
Proof.
  intros Hl Ho. apply last_Some in Hl as [l' ->]. unfold kept. rewrite filter_app.
  rewrite (filter_cons_True _ a []) by done. apply last_snoc.
Qed.

Lemma loop_inv_start h uq l items :
  is_list data_next h (uq_head uq) (uq_tail uq) l -> contents h l = Some <$> items ->
  filter (fun x => mine x = false) items <> [] -> loop_inv h [] l None uq h.
Proof.
  intros [Hc Hhd Htl Hnd] Hi Hk. split; simpl; try done.
  - intros a Ha. by eapply contents_lookup.
  - right. by rewrite kept_nil.
Qed.

Context (w : world) (c : MQTTClient) (q : nat) (size : Z) (l : list nat) (items : list device_work_data).
Hypothesis client_live : live (w_clients w) client = Some c.
Hypothesis client_queue : work_queue c = Some q.
Hypothesis queue_holds : holds w q size l items.

(** The queue and its nodes after the removal, when work stays. *)
Lemma delete_pending_some :
  filter (fun x => mine x = false) items <> [] ->
  exists w' uq, _iot_mqtt_delete_pending_task (Some client) w = Ret (tt, w') /\
    live (w_queues w') q = Some uq /\ uq_lock uq = free_mutex /\ item_size uq = size /\
    w_env w' = w_env w /\
    uq_head uq = hd_error (kept (w_nodes w) l) /\ uq_tail uq = last l /\
    chain data_next (w_nodes w') (kept (w_nodes w) l) /\
    contents (w_nodes w') (kept (w_nodes w) l) = Some <$> filter (fun x => mine x = false) items /\
    (forall a, a ∈ l -> owned (w_nodes w) a = true -> w_nodes w' !! a = Some None).
Proof using client_live client_queue queue_holds.
  intros Hk. destruct queue_holds as [(uq & Hq & Hlock & Hsize & Hl) Hi].
  unfold _iot_mqtt_delete_pending_task. run. rewrite client_queue. run.
  erewrite bind_lock_util by eassumption. world_simpl. cbn [negb]. run.
  pose proof (loop_inv_start _ (set_uq_lock (Mutex true true) uq) _ _ Hl Hi Hk) as Hinv.
  match goal with |- context [(delete_pending_loop ?n _ _ _ _ ≫= _) ?w1] =>
    destruct (delete_pending_loop_spec (w_nodes w) q l n [] None _ w1 ltac:(live_lookup) Hinv)
      as (h & qs & E & Hqs & Hch & Hda & Hout & Hdel); [apply (chain_size data_next); apply Hl|] end.
  rewrite (il_hd _ _ _ _ _ Hl), (bind_ret _ _ _ _ _ E). unfold unlock_util_queue.
  erewrite run_update by live_lookup. world_simpl.
  eexists _, _. split; [reflexivity|]. split; [live_lookup|]. split_and!; try done.
  - apply Hl.
  - rewrite <- (kept_contents _ _ _ Hi). by apply contents_ext.
Qed.
End delete_pending.

Section delete_pending_theorems.
Context `{P : Platform}.

Lemma mine_false client x : mine client x = false <-> owner_id x <> Some client.
Proof. unfold mine. by rewrite bool_decide_eq_false. Qed.

Lemma filter_mine client (items : list device_work_data) :
  filter (fun x => mine client x = false) items = filter (fun x => owner_id x <> Some client) items.
Proof. apply list_filter_iff. apply mine_false. Qed.

(** [_iot_mqtt_delete_pending_task] removes exactly the work of its client
    and keeps the rest in order -- provided the last item of the queue is
    not the client's, or all the items are. *)
Theorem delete_pending_task_correct client w c q size l items :
  live (w_clients w) client = Some c -> work_queue c = Some q -> holds w q size l items ->
  (forall x, last items = Some x -> owner_id x <> Some client) \/
    Forall (fun x => owner_id x = Some client) items ->
  exists w' l', _iot_mqtt_delete_pending_task (Some client) w = Ret (tt, w') /\
    holds w' q size l' (filter (fun x => owner_id x <> Some client) items).
Proof.
  intros Hc Hcq Hh Hcase. rewrite <- filter_mine.
  destruct (decide (filter (fun x => mine client x = false) items = [])) as [Hn|Hn].
  - rewrite Hn. destruct Hh as [(uq & Hq & Hlock & Hsize & Hl) Hi].
    unfold _iot_mqtt_delete_pending_task. run. rewrite Hcq. run.
    erewrite bind_lock_util by eassumption. world_simpl. cbn [negb]. run.
    assert (Hall : forall a, a ∈ l -> owned client (w_nodes w) a = true).
    { intros a Ha. destruct (owned client (w_nodes w) a) eqn:Eo; [done|].
      apply (kept_nil client _ _ _ Hi) in Hn.
      assert (a ∈ kept client (w_nodes w) l) as Hk by (apply list_elem_of_filter; done).
      rewrite Hn in Hk. by apply elem_of_nil in Hk. }
    match goal with |- context [(delete_pending_loop ?n _ _ _ _ ≫= _) ?w1] =>
      destruct (delete_all_loop_spec client q l n None (set_uq_lock (Mutex true true) uq) w1
        ltac:(live_lookup) Hl Hall) as (h & qs & E & Hqs);
        [eapply (chain_size data_next); apply Hl|] end.
    rewrite (il_hd _ _ _ _ _ Hl), (bind_ret _ _ _ _ _ E). unfold unlock_util_queue.
    erewrite run_update by live_lookup. world_simpl.
    eexists _, []. split; [reflexivity|]. split; [|done]. world_simpl.
    eexists. split; [live_lookup|]. split_and!; [done..|apply is_list_empty].
  - destruct (delete_pending_some client w c q size l items Hc Hcq Hh Hn)
      as (w' & uq & E & Hq & Hlock & Hsize & Henv & Hhd & Htl & Hch & Hcon & _).
    exists w', (kept client (w_nodes w) l). split; [done|]. split; [|done].
    exists uq. split_and!; [done..|]. destruct Hh as [(uq0 & _ & _ & _ & Hl) Hi].
    split; [done..| |].
    + rewrite Htl. destruct (last l) as [a|] eqn:El.
      * symmetry. apply last_kept; [done|].
        destruct (last items) as [x|] eqn:Ex.
        -- rewrite (contents_last client _ _ _ _ _ Hi El Ex), mine_false.
           destruct Hcase as [Hx|Hall]; [by apply Hx|]. destruct Hn. rewrite filter_mine.
           clear -Hall. induction Hall as [|y k Hy _ IH]; [done|].
           rewrite filter_cons_False by (intros H; by apply H). done.
        -- apply last_None in Ex as ->. done.
      * by apply last_None in El as ->.
    + apply NoDup_filter, Hl.
Qed.

(** Where that does not hold the function leaves [queue->tail] behind: when
    the last item is the client's and others stay, the next send writes
    through a pointer to a node that was freed. *)
Theorem delete_pending_task_dangling client w c q size l items x item :
  live (w_clients w) client = Some c -> work_queue c = Some q -> holds w q size l items ->
  last items = Some x -> owner_id x = Some client ->
  filter (fun x => owner_id x <> Some client) items <> [] ->
  send_result size (w_env w) = IOT_ERROR_NONE ->
  exists w', _iot_mqtt_delete_pending_task (Some client) w = Ret (tt, w') /\
    iot_util_queue_send (Some q) (Some item) w' = Undef.
Proof.
  intros Hc Hcq Hh Hx Hown Hn Hsend. rewrite <- filter_mine in Hn.
  destruct (delete_pending_some client w c q size l items Hc Hcq Hh Hn)
    as (w' & uq & E & Hq & Hlock & Hsize & Henv & Hhd & Htl & Hch & Hcon & Hdel).
  exists w'. split; [done|]. destruct Hh as [(uq0 & _ & _ & _ & Hl) Hi].
  assert (Ht : exists t, last l = Some t).
  { destruct (last l) eqn:El; [by eexists|]. apply last_None in El as ->. destruct items; [done|].
    by apply (f_equal length) in Hi. }
  destruct Ht as [t Ht].
  assert (Hdead : w_nodes w' !! t = Some None).
  { apply Hdel; [by apply last_Some_elem_of|].
    rewrite (contents_last client _ _ _ _ _ Hi Ht Hx). by apply bool_decide_true. }
  assert (Hk : exists a, hd_error (kept client (w_nodes w) l) = Some a).
  { destruct (kept client (w_nodes w) l) as [|a k] eqn:Ek; [|by exists a].
    by apply (kept_nil client _ _ _ Hi) in Ek. }
  destruct Hk as [a Ha].
  revert Hsend. unfold send_result. rewrite <- Henv. unfold iot_util_queue_send, os_new.
  run. destruct (os_malloc_object (w_env w')) as [[] e1]; [|done]. simpl. run. rewrite Hsize.
  destruct (os_malloc size e1) as [[mem|] e2]; [|done]. intros _. simpl. run.
  erewrite bind_lock_util by eassumption. world_simpl. cbn [negb]. 
  apply bind_undef. unfold link_node. run. rewrite Hhd, Htl, Ha, Ht.
  apply bind_undef. unfold update. world_simpl.
  rewrite !live_insert. rewrite !decide_False by (intros <-; by rewrite fresh_addr_new in Hdead).
  unfold live. by rewrite Hdead.
Qed.
End delete_pending_theorems.

(** ** Creation and deletion *)

Section lifecycle.
Context `{P : Platform}.

Lemma delete_nodes_spec l : forall fuel w,
  chain data_next (w_nodes w) l -> NoDup l -> (length l <= fuel)%nat ->
  exists h, delete_nodes fuel (hd_error l) w = Ret (tt, with_nodes h w) /\
    (forall a, h !! a = if decide (a ∈ l) then Some None else w_nodes w !! a).
Proof.
  induction l as [|a l IH]; intros fuel w Hc Hnd Hf.
  - exists (w_nodes w). split; [destruct fuel; by destruct w|]. intros a.
    rewrite decide_False by (by intros ?%elem_of_nil). done.
  - destruct fuel as [|fuel]; [simpl in Hf; lia|]. destruct Hc as [(d & Ed & Hn) Hc].
    apply NoDup_cons in Hnd as [Ha Hnd]. cbn [hd_error delete_nodes]. run.
    match goal with |- context [delete_nodes _ _ ?w1] => destruct (IH fuel w1) as (h & E & Hh) end;
      [world_simpl; by apply chain_other|done|simpl in Hf; lia|].
    rewrite Hn, E. exists h. split; [done|]. intros b. rewrite Hh. world_simpl.
    destruct (decide (b = a)) as [->|Hba].
    + rewrite decide_False by done. rewrite lookup_insert_eq, decide_True by left. done.
    + rewrite lookup_insert_ne by done. repeat case_decide; set_solver.
Qed.

(** [iot_util_queue_create] gives an empty queue or, when memory or the
    mutex is not to be had, null (and has freed what it allocated). *)
Theorem iot_util_queue_create_correct w size :
  size <> 0 ->
  exists r w', iot_util_queue_create size w = Ret (r, w') /\
    w_nodes w' = w_nodes w /\
    match r with
    | Some q => holds w' q size [] [] /\ w_queues w !! q = None
    | None => forall a, live (w_queues w') a = live (w_queues w) a
    end.
Proof.
  intros Hs. unfold iot_util_queue_create, os_new. rewrite (proj2 (Z.eqb_neq _ _) Hs). run.
  destruct (os_malloc_object (w_env w)) as [[] e1]; simpl; [|by exists None; eexists].
  run. destruct (os_mutex_init e1) as [[] e2]; simpl; run.
  - eexists (Some _), _. split; [reflexivity|]. split; [done|]. split; [|apply fresh_addr_new].
    split; [|done]. eexists. split; [live_lookup|]. world_simpl. split_and!; [done..|].
    apply is_list_empty.
  - exists None. eexists. split; [reflexivity|]. split; [done|]. world_simpl.
    intros a. rewrite !live_insert. case_decide; [|done]. subst. by rewrite live_fresh.
Qed.

(** [iot_util_queue_delete] frees the queue, every node and nothing else. *)
Theorem iot_util_queue_delete_correct w q size l items :
  holds w q size l items ->
  exists w', iot_util_queue_delete (Some q) w = Ret (tt, w') /\
    (forall a, w_nodes w' !! a = if decide (a ∈ l) then Some None else w_nodes w !! a) /\
    (forall a, w_queues w' !! a = if decide (a = q) then Some None else w_queues w !! a).
Proof.
  intros [(uq & Hq & Hlock & _ & Hl) _]. unfold iot_util_queue_delete. run. rewrite Hlock. cbn [sem free_mutex negb].
  erewrite bind_lock_util by eassumption. world_simpl. run.
  match goal with |- context [(delete_nodes ?n _ ≫= _) ?w1] =>
    destruct (delete_nodes_spec l n w1) as (h & E & Hh);
      [apply Hl|apply Hl|eapply (chain_size data_next); apply Hl|] end.
  rewrite (il_hd _ _ _ _ _ Hl), (bind_ret _ _ _ _ _ E). run.
  erewrite bind_unlock_util by live_lookup. world_simpl. run.
  erewrite run_release by live_lookup. eexists. split; [reflexivity|]. world_simpl. split; [done|].
  intros a. rewrite !insert_insert_eq. case_decide; [subst; by rewrite lookup_insert_eq|by rewrite lookup_insert_ne].
Qed.
End lifecycle.

(** ** Concrete instances *)

(** A queue with two items, the client's (at address 0) last; then the same
    with the client's item first. *)
Definition work_of (owner : nat) : device_work_data :=
  {| handler := pending_work_handler; work_param := Some owner; owner_id := Some owner |}.

Definition example_client : MQTTClient :=
  Client MQTT_CLIENT_STRUCT_MAGIC_NUMBER 1 0 0 None None None free_mutex false None free_mutex free_mutex
    (ChunkQueue free_mutex None None) (ChunkQueue free_mutex None None) (ChunkQueue free_mutex None None)
    (Some 0%nat).

Definition example_world (o1 o2 : nat) : world :=
  World SimPlatform (Sim 9 0 [] [] [] true) ∅ {[ 0%nat := Some example_client ]}
    (list_to_map [(0%nat, Some (QueueData (Some (work_of o1)) (Some 1%nat)));
                  (1%nat, Some (QueueData (Some (work_of o2)) None))])
    {[ 0%nat := Some (UtilQueue free_mutex 24 (Some 0%nat) (Some 1%nat)) ]} [] [] [].

Lemma example_holds o1 o2 : holds (example_world o1 o2) 0 24 [0%nat; 1%nat] [work_of o1; work_of o2].
Proof.
  split; [|done]. eexists. split; [reflexivity|]. split_and!; [done..|].
  split; [|done|done|repeat constructor; set_solver].
  split; [by eexists|]. split; [by eexists|done].
Qed.

Lemma util_queue_is_fifo_witness :
  exists rs w' l' items', run_ops 0 [Receive; Send (work_of 7)] (example_world 0 5) = Ret (rs, w') /\
    fifo true [work_of 0; work_of 5] [Receive; Send (work_of 7)] rs items' /\ holds w' 0 24 l' items'.
Proof. exact (util_queue_is_fifo true _ (example_world 0 5) 0 24 _ _ ltac:(discriminate) (example_holds 0 5)). Defined.

Lemma iot_util_queue_create_correct_witness :
  exists r w', iot_util_queue_create 24 (example_world 0 5) = Ret (r, w') /\
    w_nodes w' = w_nodes (example_world 0 5) /\
    match r with
    | Some q => holds w' q 24 [] [] /\ w_queues (example_world 0 5) !! q = None
    | None => forall a, live (w_queues w') a = live (w_queues (example_world 0 5)) a
    end.
Proof. exact (iot_util_queue_create_correct (example_world 0 5) 24 ltac:(discriminate)). Defined.

Lemma iot_util_queue_delete_correct_witness :
  exists w', iot_util_queue_delete (Some 0%nat) (example_world 0 5) = Ret (tt, w') /\
    (forall a, w_nodes w' !! a = if decide (a ∈ [0%nat; 1%nat]) then Some None else w_nodes (example_world 0 5) !! a) /\
    (forall a, w_queues w' !! a = if decide (a = 0%nat) then Some None else w_queues (example_world 0 5) !! a).
Proof. exact (iot_util_queue_delete_correct (example_world 0 5) 0 24 _ _ (example_holds 0 5)). Defined.

Lemma delete_pending_task_correct_witness :
  exists w' l', _iot_mqtt_delete_pending_task (Some 0%nat) (example_world 0 5) = Ret (tt, w') /\
    holds w' 0 24 l' [work_of 5].
Proof.
  refine (delete_pending_task_correct 0 (example_world 0 5) example_client 0 24 _ _ eq_refl eq_refl
    (example_holds 0 5) (or_introl _)).
  by intros x [= <-].
Defined.

Lemma delete_pending_task_dangling_witness :
  exists w', _iot_mqtt_delete_pending_task (Some 0%nat) (example_world 5 0) = Ret (tt, w') /\
    iot_util_queue_send (Some 0%nat) (Some (work_of 7)) w' = Undef.
Proof.
  refine (delete_pending_task_dangling 0 (example_world 5 0) example_client 0 24 _ _ (work_of 0) _ eq_refl eq_refl
    (example_holds 5 0) eq_refl eq_refl _ _); vm_compute; (discriminate || reflexivity).
Defined.
