(* ===== verification/Util.v ===== *)
(** * Utilities

    A part of [src/src/iot_util.c]: UUIDs and MAC addresses as text, Wi-Fi
    channels and the back-off of a retry. *)

From S2P Require Import Prelude Platform UtilQueue.

(** An object that a function writes to: null, or its bytes. *)
Abbreviation obj := (option (list Z)).

Definition is_null_obj : st obj bool := gets (fun o => bool_decide (o = None)).
Definition store_at (i : Z) (v : Z) : st obj unit := fun o =>
  match o with
  | Some l => if (0 <=? i) && (i <? zlen l) then Ret (tt, Some (<[Z.to_nat i := v]> l)) else Undef
  | None => Undef
  end.

(** The character at [i] of a string, which is given without its terminator. *)
Definition char_at {S} (str : list Z) (i : Z) : st S Z :=
  if (0 <=? i) && (i <=? zlen str) then mret (nth (Z.to_nat i) str 0) else undef.

Section util.
Context `{CharModel}.

(** ** Characters; the arguments are values of type [char] *)

Definition _isalpha (c : Z) : bool :=
  if (65 <=? c) && (c <=? 90) then true else if (97 <=? c) && (c <=? 122) then true else false.

Definition _isprint (c : Z) : bool := if (33 <=? c) && (c <=? 126) then true else false.

Definition _ishex (c : Z) : bool :=
  if (48 <=? c) && (c <=? 57) then true
  else if (97 <=? c) && (c <=? 102) then true
  else if (65 <=? c) && (c <=? 90) then true
  else false.

(** [len] characters from [off] on. *)
Fixpoint _ishex_len {S} (str : list Z) (off : Z) (len : nat) : st S bool :=
  match len with
  | O => mret true
  | S len => c ← char_at str off; if negb (_ishex (char_val c)) then mret false else _ishex_len str (off + 1) len
  end.

(** ** UUIDs *)

Definition UUID_STRING_LENGTH : Z := 36.

(** One part of the checks: [len] hexadecimal digits at [off]. *)
Definition check_hex {S} (str : list Z) (off : Z) (len : nat) (rest : st S Z) : st S Z :=
  ok ← _ishex_len str off len; if negb ok then mret IOT_ERROR_INVALID_ARGS else rest.
Definition check_dash {S} (str : list Z) (off : Z) (rest : st S Z) : st S Z :=
  c ← char_at str off; if negb (char_val c =? 45) then mret IOT_ERROR_INVALID_ARGS else rest.

Definition validate_uuid_format {S} (str : option (list Z)) (str_len : Z) : st S Z :=
  match str with
  | None => mret IOT_ERROR_INVALID_ARGS
  | Some str =>
      if negb (str_len =? UUID_STRING_LENGTH) then mret IOT_ERROR_INVALID_ARGS
      else
        check_hex str 0 8 (check_dash str 8 (
        check_hex str 9 4 (check_dash str 13 (
        c ← char_at str 14;
        if (char_val c <? 49) || (53 <? char_val c) then mret IOT_ERROR_INVALID_ARGS
        else
          check_hex str 15 3 (check_dash str 18 (
          check_hex str 19 4 (check_dash str 23 (
          check_hex str 24 12 (mret IOT_ERROR_NONE)))))))))
  end.

(** The [switch] on a letter. *)
Definition letter_bits (c : Z) : option Z :=
  if (c =? 65) || (c =? 97) then Some 10
  else if (c =? 66) || (c =? 98) then Some 11
  else if (c =? 67) || (c =? 99) then Some 12
  else if (c =? 68) || (c =? 100) then Some 13
  else if (c =? 69) || (c =? 101) then Some 14
  else if (c =? 70) || (c =? 102) then Some 15
  else None.

(** [for (i ...)], [n] more rounds. *)
Fixpoint str_uuid_loop (n : nat) (str : list Z) (i j k c : Z) : st obj unit :=
  match n with
  | O => mret tt
  | S n =>
      x ← char_at str i;
      let x := char_val x in
      if x =? 45 then str_uuid_loop n str (i + 1) j k c
      else
        let c :=
          if _isalpha x then match letter_bits x with Some v => Z.lor c v | None => c end
          else to_uchar (Z.lor c (x - 48)) in
        if (j + 1) * 2 =? k
        then store_at j c;; str_uuid_loop n str (i + 1) (j + 1) (k + 1) 0
        else str_uuid_loop n str (i + 1) j (k + 1) (to_uchar (Z.shiftl c 4))
  end.

(** The state is [uuid->id]. *)
Definition iot_util_convert_str_uuid (str : option (list Z)) : st obj Z :=
  no_uuid ← is_null_obj;
  match str with
  | Some s =>
      if (no_uuid : bool) then mret IOT_ERROR_INVALID_ARGS
      else
        err ← validate_uuid_format (Some s) (zlen s);
        if negb (err =? IOT_ERROR_NONE) then mret IOT_ERROR_INVALID_ARGS
        else str_uuid_loop (Z.to_nat UUID_STRING_LENGTH) s 0 0 1 0;; mret IOT_ERROR_NONE
  | None => mret IOT_ERROR_INVALID_ARGS
  end.

(** [snprintf(..., "%02x", b)]. *)
Definition hex_digit (v : Z) : Z := if v <? 10 then 48 + v else 87 + v.
Definition hex2 (b : Z) : list Z := [hex_digit (b / 16); hex_digit (b mod 16)].

(** [memcpy(&str[written], str_tmp, wrt)]. *)
Fixpoint store_list (i : Z) (l : list Z) : st obj unit :=
  match l with [] => mret tt | v :: l => store_at i v;; store_list (i + 1) l end.

(** The loop over the bytes of a UUID or MAC address; [ref] shows where the
    separator [pvt] goes. *)
Fixpoint bytes_str_loop (ref : list Z) (pvt : Z) (id : list Z) (written : Z) : st obj (option Z) :=
  match id with
  | [] => mret (Some written)
  | b :: id =>
      let str_tmp := hex2 (to_uchar b) in
      if negb (zlen str_tmp =? 2) then mret None
      else
        store_list written str_tmp;;
        let written := written + zlen str_tmp in
        r ← char_at ref written;
        if r =? pvt then store_at written pvt;; bytes_str_loop ref pvt id (written + 1)
        else bytes_str_loop ref pvt id written
  end.

(** "42365732-c6db-4bc9-8945-2a7ca10d6f23" and "a1:b2:c3:d4:e5:f6". *)
Definition ref_id : list Z :=
  [52;50;51;54;53;55;51;50;45;99;54;100;98;45;52;98;99;57;45;56;57;52;53;45;
   50;97;55;99;97;49;48;100;54;102;50;51].
Definition ref_addr : list Z := [97;49;58;98;50;58;99;51;58;100;52;58;101;53;58;102;54].

(** The body that the two conversions to text share; the state is [str]. *)
Definition bytes_to_str (ref : list Z) (pvt : Z) (id : option (list Z)) (max_sz : Z) : st obj Z :=
  no_str ← is_null_obj;
  match id with
  | Some id =>
      if (no_str : bool) then mret IOT_ERROR_INVALID_ARGS
      else if max_sz <? zlen ref + 1 then mret IOT_ERROR_INVALID_ARGS
      else
        written ← bytes_str_loop ref pvt id 0;
        match written with
        | None => mret IOT_ERROR_BAD_REQ
        | Some written => store_at written 0;; mret IOT_ERROR_NONE
        end
  | None => mret IOT_ERROR_INVALID_ARGS
  end.

Definition iot_util_convert_uuid_str (uuid : option (list Z)) (max_sz : Z) : st obj Z :=
  bytes_to_str ref_id 45 uuid max_sz.

(** ** MAC addresses *)

Fixpoint str_mac_loop (n : nat) (str : list Z) (i j k c : Z) : st obj Z :=
  match n with
  | O => mret IOT_ERROR_NONE
  | S n =>
      x ← char_at str i;
      let x := char_val x in
      if i mod 3 =? 2 then
        if x =? 58 then str_mac_loop n str (i + 1) j k c else mret IOT_ERROR_INVALID_ARGS
      else
        match (if _isalpha x then Z.lor c <$> letter_bits x else Some (to_uchar (Z.lor c (x - 48)))) with
        | None => mret IOT_ERROR_INVALID_ARGS
        | Some c =>
            if (j + 1) * 2 =? k
            then store_at j c;; str_mac_loop n str (i + 1) (j + 1) (k + 1) 0
            else str_mac_loop n str (i + 1) j (k + 1) (to_uchar (Z.shiftl c 4))
        end
  end.

(** The state is [mac->addr]. *)
Definition iot_util_convert_str_mac (str : option (list Z)) : st obj Z :=
  no_mac ← is_null_obj;
  match str with
  | Some s =>
      if (no_mac : bool) then mret IOT_ERROR_INVALID_ARGS
      else if negb (zlen s =? zlen ref_addr) then mret IOT_ERROR_INVALID_ARGS
      else str_mac_loop (length ref_addr) s 0 0 1 0
  | None => mret IOT_ERROR_INVALID_ARGS
  end.

(** [max_sz] is an [int], converted to [size_t] in the comparison. *)
Definition iot_util_convert_mac_str (mac : option (list Z)) (max_sz : Z) : st obj Z :=
  bytes_to_str ref_addr 58 mac (if max_sz <? 0 then max_sz + 2 ^ 64 else max_sz).
End util.

(** ** Wi-Fi channels, [uint8_t] and [uint16_t] *)

Definition iot_util_convert_channel_freq (channel : Z) : Z :=
  if channel <? 1 then 0
  else if channel <? 14 then 2412 + 5 * (channel - 1)
  else if channel =? 14 then 2484
  else if (31 <? channel) && (channel <? 174) then 5160 + 5 * (channel - 32)
  else 0.

Definition iot_util_convert_freq_channel (freq : Z) : Z :=
  if freq =? 0 then 0
  else if freq <? 2484 then to_uchar (Z.quot (freq - 2412) 5 + 1)
  else if freq =? 2484 then 14
  else if (5160 <=? freq) && (freq <=? 5865) then to_uchar (Z.quot (freq - 5160) 5 + 32)
  else 0.

(** ** Back-off, [unsigned int] *)

(** [n] more rounds: the back-off, or the [return] of the loop. *)
Fixpoint backoff_loop (n : nat) (backoff maximum_backoff : Z) : Z + Z :=
  match n with
  | O => inl backoff
  | S n =>
      let backoff := to_uint (backoff * 2) in
      if to_uint (maximum_backoff * 1000) <=? to_uint (backoff * 1000)
      then inr (to_uint (maximum_backoff * 1000))
      else backoff_loop n backoff maximum_backoff
  end.

(** [random] is what [iot_bsp_random] returns. *)
Definition iot_util_generator_backoff (try_count maximum_backoff random : Z) : Z :=
  match backoff_loop (Z.to_nat try_count) 1 maximum_backoff with
  | inr r => r
  | inl backoff => to_uint (to_uint (backoff * 1000) + random mod 1000)
  end.

(** ** Text *)

(** The text of bytes, with separators where [ref] has them. *)
Fixpoint text (ref : list Z) (pvt : Z) (id : list Z) (written : Z) : list Z :=
  match id with
  | [] => []
  | b :: id =>
      hex2 b ++ (if nth (Z.to_nat (written + 2)) ref 0 =? pvt
                 then pvt :: text ref pvt id (written + 3) else text ref pvt id (written + 2))
  end.

Lemma store_at_front (l k : list Z) x v : store_at (zlen l) v (Some (l ++ x :: k)) = Ret (tt, Some (l ++ v :: k)).
Proof.
  unfold store_at, zlen. rewrite !length_app. simpl length.
  rewrite (proj2 (Z.leb_le _ _)), (proj2 (Z.ltb_lt _ _)) by lia. cbn [andb].
  rewrite Nat2Z.id, insert_app_r_alt, Nat.sub_diag by done. done.
Qed.

Lemma store_at_split l k v i : i = zlen l -> (0 < length k)%nat ->
  store_at i v (Some (l ++ k)) = Ret (tt, Some ((l ++ [v]) ++ drop 1 k)).
Proof.
  intros -> Hk. destruct k as [|x k]; [simpl in Hk; lia|]. rewrite store_at_front, <- app_assoc. done.
Qed.

Lemma char_at_some {S} str i (s : S) : 0 <= i <= zlen str -> char_at str i s = Ret (nth (Z.to_nat i) str 0, s).
Proof. intros Hi. unfold char_at. rewrite (proj2 (Z.leb_le _ _)), (proj2 (Z.leb_le _ _)) by lia. done. Qed.

Lemma bytes_str_loop_spec ref pvt id : forall l k,
  bytes id -> zlen l + zlen (text ref pvt id (zlen l)) <= zlen ref ->
  (length (text ref pvt id (zlen l)) <= length k)%nat ->
  bytes_str_loop ref pvt id (zlen l) (Some (l ++ k))
  = Ret (Some (zlen l + zlen (text ref pvt id (zlen l))),
         Some ((l ++ text ref pvt id (zlen l)) ++ drop (length (text ref pvt id (zlen l))) k)).
Proof.
  induction id as [|b id IH]; intros l k Hb Hr Hk.
  { cbn. rewrite Z.add_0_r, app_nil_r, drop_0. done. }
  apply Forall_cons in Hb as [Hb Hid].
  assert (Hk2 : (2 <= length k)%nat) by (simpl in Hk; lia).
  cbn [bytes_str_loop]. rewrite to_uchar_id by done.
  change (negb (zlen (hex2 b) =? 2)) with false. cbv iota.
  assert (E : store_list (zlen l) (hex2 b) (Some (l ++ k)) = Ret (tt, Some ((l ++ hex2 b) ++ drop 2 k))).
  { unfold hex2. cbn [store_list].
    rewrite (bind_ret _ _ _ _ _ (store_at_split l k _ (zlen l) eq_refl ltac:(lia))).
    rewrite (bind_ret _ _ _ _ _ (store_at_split (l ++ [hex_digit (b / 16)]) (drop 1 k) _ (zlen l + 1)
      ltac:(autorewrite with zlen; lia) ltac:(rewrite length_drop; lia))).
    rewrite drop_drop, <- (app_assoc l). done. }
  rewrite (bind_ret _ _ _ _ _ E). change (zlen (hex2 b)) with 2.
  assert (Hl2 : zlen l + 2 = zlen (l ++ hex2 b)) by (autorewrite with zlen; done).
  cbn [text] in Hr, Hk |- *. set (sep := nth (Z.to_nat (zlen l + 2)) ref 0) in *.
  autorewrite with zlen in Hr. change (zlen (hex2 b)) with 2 in Hr. rewrite length_app in Hk. cbn [length hex2] in Hk.
  assert (Hlen : zlen l + 2 <= zlen ref).
  { pose proof (zlen_nonneg (if sep =? pvt then pvt :: text ref pvt id (zlen l + 3) else text ref pvt id (zlen l + 2))). lia. }
  rewrite (bind_ret _ _ _ _ _ (char_at_some ref (zlen l + 2) _ ltac:(pose proof (zlen_nonneg l); lia))).
  fold sep. destruct (sep =? pvt).
  - cbn [length] in Hk. autorewrite with zlen in Hr.
    rewrite (bind_ret _ _ _ _ _ (store_at_split (l ++ hex2 b) (drop 2 k) pvt _ Hl2 ltac:(rewrite length_drop; lia))).
    assert (Hl3 : zlen l + 3 = zlen ((l ++ hex2 b) ++ [pvt])) by (autorewrite with zlen; change (zlen (hex2 b)) with 2; lia).
    replace (zlen l + 2 + 1) with (zlen l + 3) by lia. rewrite Hl3 in Hr, Hk |- *. rewrite drop_drop.
    rewrite (IH _ (drop (2 + 1) k) Hid) by (rewrite ?length_drop; lia).
    rewrite drop_drop. f_equal. f_equal.
    + f_equal. autorewrite with zlen. change (zlen (hex2 b)) with 2. lia.
    + f_equal. f_equal. by rewrite <- !app_assoc.
  - rewrite Hl2 in Hr, Hk |- *.
    rewrite (IH _ (drop 2 k) Hid) by (rewrite ?length_drop; lia).
    rewrite drop_drop. f_equal. f_equal.
    + f_equal. autorewrite with zlen. change (zlen (hex2 b)) with 2. lia.
    + f_equal. f_equal. by rewrite <- !app_assoc.
Qed.

(** A pair of digits, as both parsers read it. *)
Lemma hex_pair b :
  is_byte b ->
  let acc c x :=
    if _isalpha x then Z.lor c <$> letter_bits x else Some (to_uchar (Z.lor c (x - 48))) in
  let h := hex_digit (b / 16) in let l := hex_digit (b mod 16) in
  (0 <= h < 128 /\ 0 <= l < 128) /\ (h <> 45 /\ l <> 45) /\
  (_ishex h = true /\ _ishex l = true) /\
  acc 0 h = Some (b / 16) /\ acc (to_uchar (Z.shiftl (b / 16) 4)) l = Some b.
Proof.
  intros Hb acc h l.
  pose (P := fun b => let h := hex_digit (b / 16) in let l := hex_digit (b mod 16) in
    (0 <=? h) && (h <? 128) && (0 <=? l) && (l <? 128) && negb (h =? 45) && negb (l =? 45) && _ishex h && _ishex l
    && bool_decide (acc 0 h = Some (b / 16)) && bool_decide (acc (to_uchar (Z.shiftl (b / 16) 4)) l = Some b)).
  assert (HP : P b = true) by (apply (forallb_seqZ P 256); [vm_compute; reflexivity|exact Hb]).
  unfold P in HP. fold h l in HP. bool_to_prop.
  repeat match goal with H : bool_decide _ = true |- _ => apply bool_decide_eq_true_1 in H end.
  split_and!; try done; lia.
Qed.

Section read_text.
Context `{CharModel}.

Lemma char_val_ascii c : 0 <= c < 128 -> char_val c = c.
Proof. intros Hc. unfold char_val. rewrite (proj2 (Z.leb_gt _ _)), andb_false_r by lia. done. Qed.

Lemma str_uuid_pair n str i j b s :
  is_byte b -> 0 <= i -> i + 1 < zlen str ->
  nth (Z.to_nat i) str 0 = hex_digit (b / 16) -> nth (Z.to_nat (i + 1)) str 0 = hex_digit (b mod 16) ->
  str_uuid_loop (S (S n)) str i j (2 * j + 1) 0 s
  = (store_at j b;; str_uuid_loop n str (i + 2) (j + 1) (2 * (j + 1) + 1) 0) s.
Proof.
  intros Hb Hi Hl Eh El. destruct (hex_pair b Hb) as ((Hh & Hll) & (Nh & Nl) & _ & A1 & A2).
  cbn [str_uuid_loop]. rewrite (bind_ret _ _ _ _ _ (char_at_some str i s ltac:(lia))), Eh, char_val_ascii by done.
  rewrite (proj2 (Z.eqb_neq _ _) Nh).
  replace ((j + 1) * 2 =? 2 * j + 1) with false by (symmetry; apply Z.eqb_neq; lia).
  replace (if _isalpha (hex_digit (b / 16)) then _ else _) with (b / 16)
    by (destruct (_isalpha (hex_digit (b / 16))); [destruct (letter_bits (hex_digit (b / 16))); simpl in A1|]; congruence).
  rewrite (bind_ret _ _ _ _ _ (char_at_some str (i + 1) s ltac:(lia))), El, char_val_ascii by done.
  rewrite (proj2 (Z.eqb_neq _ _) Nl).
  replace ((j + 1) * 2 =? 2 * j + 1 + 1) with true by (symmetry; apply Z.eqb_eq; lia).
  replace (if _isalpha (hex_digit (b mod 16)) then _ else _) with b
    by (destruct (_isalpha (hex_digit (b mod 16))); [destruct (letter_bits (hex_digit (b mod 16))); simpl in A2|]; congruence).
  replace (i + 1 + 1) with (i + 2) by lia. by replace (2 * j + 1 + 1 + 1) with (2 * (j + 1) + 1) by lia.
Qed.

Lemma str_uuid_dash n str i j k s :
  0 <= i <= zlen str -> nth (Z.to_nat i) str 0 = 45 ->
  str_uuid_loop (S n) str i j k 0 s = str_uuid_loop n str (i + 1) j k 0 s.
Proof.
  intros Hi E. cbn [str_uuid_loop]. rewrite (bind_ret _ _ _ _ _ (char_at_some str i s Hi)), E.
  by rewrite char_val_ascii by lia.
Qed.

Lemma str_mac_pair n str i j b s :
  is_byte b -> 0 <= i -> i + 1 < zlen str -> i mod 3 = 0 ->
  nth (Z.to_nat i) str 0 = hex_digit (b / 16) -> nth (Z.to_nat (i + 1)) str 0 = hex_digit (b mod 16) ->
  str_mac_loop (S (S n)) str i j (2 * j + 1) 0 s
  = (store_at j b;; str_mac_loop n str (i + 2) (j + 1) (2 * (j + 1) + 1) 0) s.
Proof.
  intros Hb Hi Hl Hm Eh El. destruct (hex_pair b Hb) as ((Hh & Hll) & _ & _ & A1 & A2).
  cbn [str_mac_loop]. rewrite (bind_ret _ _ _ _ _ (char_at_some str i s ltac:(lia))), Eh, char_val_ascii by done.
  rewrite Hm. cbn [Z.eqb]. rewrite A1.
  replace ((j + 1) * 2 =? 2 * j + 1) with false by (symmetry; apply Z.eqb_neq; lia).
  rewrite (bind_ret _ _ _ _ _ (char_at_some str (i + 1) s ltac:(lia))), El, char_val_ascii by done.
  replace ((i + 1) mod 3 =? 2) with false by (symmetry; apply Z.eqb_neq; rewrite Z.add_mod, Hm by lia; done).
  rewrite A2. replace ((j + 1) * 2 =? 2 * j + 1 + 1) with true by (symmetry; apply Z.eqb_eq; lia).
  replace (i + 1 + 1) with (i + 2) by lia. by replace (2 * j + 1 + 1 + 1) with (2 * (j + 1) + 1) by lia.
Qed.

Lemma str_mac_colon n str i j k s :
  0 <= i <= zlen str -> i mod 3 = 2 -> nth (Z.to_nat i) str 0 = 58 ->
  str_mac_loop (S n) str i j k 0 s = str_mac_loop n str (i + 1) j k 0 s.
Proof.
  intros Hi Hm E. cbn [str_mac_loop]. rewrite (bind_ret _ _ _ _ _ (char_at_some str i s Hi)), E.
  by rewrite char_val_ascii, Hm by lia.
Qed.

(** [len] digits at [off]. *)
Lemma ishex_len_true {T} str len : forall off (s : T),
  0 <= off -> off + Z.of_nat len <= zlen str ->
  Forall (fun c => 0 <= c < 128 /\ _ishex c = true) (take len (drop (Z.to_nat off) str)) ->
  _ishex_len str off len s = Ret (true, s).
Proof.
  induction len as [|len IH]; intros off s Hoff Hlen Hall; [done|]. cbn [_ishex_len].
  rewrite (bind_ret _ _ _ _ _ (char_at_some str off s ltac:(lia))).
  assert (Hlt : (Z.to_nat off < length str)%nat) by (unfold zlen in Hlen; lia).
  destruct (lookup_lt_is_Some_2 str _ Hlt) as [c Hc].
  rewrite (drop_S _ c _ Hc) in Hall. apply Forall_cons in Hall as [[Hcv Hx] Hall].
  rewrite (nth_lookup_Some _ _ 0 _ Hc), char_val_ascii, Hx by done. cbn [negb].
  apply IH; [lia|lia|]. by replace (Z.to_nat (off + 1)) with (S (Z.to_nat off)) by lia.
Qed.

Lemma check_hex_true {S} str off len (rest : st S Z) s :
  0 <= off -> off + Z.of_nat len <= zlen str ->
  Forall (fun c => 0 <= c < 128 /\ _ishex c = true) (take len (drop (Z.to_nat off) str)) ->
  check_hex str off len rest s = rest s.
Proof. intros H1 H2 H3. unfold check_hex. by rewrite (bind_ret _ _ _ _ _ (ishex_len_true str len off s H1 H2 H3)). Qed.

Lemma check_dash_true {S} str off (rest : st S Z) s :
  0 <= off <= zlen str -> nth (Z.to_nat off) str 0 = 45 -> check_dash str off rest s = rest s.
Proof.
  intros H1 H2. unfold check_dash. rewrite (bind_ret _ _ _ _ _ (char_at_some str off s H1)), H2.
  by rewrite char_val_ascii by lia.
Qed.
End read_text.

(** ** Round trips *)

Lemma bytes_to_str_spec ref pvt id max_sz buf :
  bytes id -> zlen (text ref pvt id 0) = zlen ref -> zlen ref < max_sz -> zlen ref < zlen buf ->
  bytes_to_str ref pvt (Some id) max_sz (Some buf)
  = Ret (IOT_ERROR_NONE, Some (text ref pvt id 0 ++ 0 :: drop (S (length ref)) buf)).
Proof.
  intros Hb Ht Hm Hbuf. unfold bytes_to_str, is_null_obj. rewrite bind_gets.
  change (bool_decide (Some buf = None)) with false. cbv iota.
  rewrite (proj2 (Z.ltb_ge max_sz (zlen ref + 1))) by lia.
  assert (Hlen : length (text ref pvt id 0) = length ref) by (unfold zlen in Ht; lia).
  pose proof (bytes_str_loop_spec ref pvt id [] buf Hb) as E. change (zlen (@nil Z)) with 0 in E.
  rewrite !Z.add_0_l in E. cbn [app] in E.
  rewrite (bind_ret _ _ _ _ _ (E ltac:(lia) ltac:(unfold zlen in Hbuf; lia))).
  pose proof (store_at_split (text ref pvt id 0) (drop (length (text ref pvt id 0)) buf) 0 _ eq_refl
    ltac:(rewrite length_drop; unfold zlen in Hbuf; lia)) as E0.
  rewrite (bind_ret _ _ _ _ _ E0), drop_drop, <- app_assoc, Hlen, Nat.add_1_r. done.
Qed.

(** A list of a known length, element by element. *)
Ltac elements l H := repeat (let b := fresh "b" in destruct l as [|b l]; [try discriminate H|try discriminate H]).

Lemma uuid_text_length id : length id = 16%nat -> zlen (text ref_id 45 id 0) = zlen ref_id.
Proof. intros H. elements id H. reflexivity. Qed.
Lemma mac_text_length id : length id = 6%nat -> zlen (text ref_addr 58 id 0) = zlen ref_addr.
Proof. intros H. elements id H. reflexivity. Qed.

(** The digits of the bytes of a text. *)
Lemma hex_digit_char b : is_byte b ->
  (0 <= hex_digit (b / 16) < 128 /\ _ishex (hex_digit (b / 16)) = true) /\
  (0 <= hex_digit (b mod 16) < 128 /\ _ishex (hex_digit (b mod 16)) = true).
Proof. intros Hb. destruct (hex_pair b Hb) as ((? & ?) & _ & (? & ?) & _). done. Qed.

Ltac hex_digits :=
  lazymatch goal with
  | |- Forall _ _ => first [apply Forall_nil_2 | apply Forall_cons_2; [|hex_digits]]
  end;
  try first [apply (fun b H => proj1 (hex_digit_char b H)); assumption
            |apply (fun b H => proj2 (hex_digit_char b H)); assumption].

(** The version is the digit at 14. *)
Lemma version_char `{CharModel} b : is_byte b -> 1 <= b / 16 <= 5 ->
  (char_val (hex_digit (b / 16)) <? 49) || (53 <? char_val (hex_digit (b / 16))) = false.
Proof.
  intros Hb Hv. destruct (hex_digit_char b Hb) as ((? & _) & _). rewrite char_val_ascii by done.
  unfold hex_digit. rewrite (proj2 (Z.ltb_lt (b / 16) 10)) by lia. apply orb_false_iff.
  split; apply Z.ltb_ge; lia.
Qed.

Lemma uuid_text_valid `{CharModel} {T} id (s : T) :
  length id = 16%nat -> bytes id -> 1 <= nth 6 id 0 / 16 <= 5 ->
  validate_uuid_format (Some (text ref_id 45 id 0)) (zlen (text ref_id 45 id 0)) s = Ret (IOT_ERROR_NONE, s).
Proof.
  intros Hlen Hb Hv. pose proof (uuid_text_length id Hlen) as Ht. change (zlen ref_id) with 36 in Ht.
  elements id Hlen. repeat apply Forall_cons in Hb as [? Hb].
  set (str := text _ _ _ _) in *. unfold validate_uuid_format.
  replace (zlen str =? UUID_STRING_LENGTH) with true by (rewrite Ht; done). cbn [negb].
  rewrite check_hex_true by (lia || (unfold str; hex_digits)).
  rewrite check_dash_true by (lia || reflexivity).
  rewrite check_hex_true by (lia || (unfold str; hex_digits)).
  rewrite check_dash_true by (lia || reflexivity).
  rewrite (bind_ret _ _ _ _ _ (char_at_some str 14 _ ltac:(lia))).
  change (nth (Z.to_nat 14) str 0) with (hex_digit (b5 / 16)). rewrite version_char by done.
  rewrite check_hex_true by (lia || (unfold str; hex_digits)).
  rewrite check_dash_true by (lia || reflexivity).
  rewrite check_hex_true by (lia || (unfold str; hex_digits)).
  rewrite check_dash_true by (lia || reflexivity).
  by rewrite check_hex_true by (lia || (unfold str; hex_digits)).
Qed.

Lemma bind_store {B} i v l (k : unit -> st obj B) :
  (0 <=? i) && (i <? zlen l) = true -> (store_at i v ≫= k) (Some l) = k tt (Some (<[Z.to_nat i := v]> l)).
Proof. intros E. unfold mbind, st_bind, store_at. by rewrite E. Qed.

(** The next byte and the next dash of a UUID. *)
Ltac uuid_byte b :=
  erewrite (fun n str i j => str_uuid_pair n str i j b) by (assumption || reflexivity || lia);
  rewrite bind_store by reflexivity; cbn [Z.add Pos.add Z.mul Pos.mul Pos.succ].
Ltac uuid_dash := rewrite str_uuid_dash by (lia || reflexivity); cbn [Z.add Pos.add Pos.succ].

Lemma str_uuid_loop_text `{CharModel} id uuid :
  length id = 16%nat -> bytes id -> length uuid = 16%nat ->
  str_uuid_loop 36 (text ref_id 45 id 0) 0 0 (2 * 0 + 1) 0 (Some uuid) = Ret (tt, Some id).
Proof.
  intros Hlen Hb Hu. pose proof (uuid_text_length id Hlen) as Ht. change (zlen ref_id) with 36 in Ht.
  elements id Hlen. elements uuid Hu. repeat apply Forall_cons in Hb as [? Hb].
  set (str := text _ _ _ _) in *.
  uuid_byte b. uuid_byte b0. uuid_byte b1. uuid_byte b2. uuid_dash. uuid_byte b3. uuid_byte b4. uuid_dash.
  uuid_byte b5. uuid_byte b6. uuid_dash. uuid_byte b7. uuid_byte b8. uuid_dash.
  uuid_byte b9. uuid_byte b10. uuid_byte b11. uuid_byte b12. uuid_byte b13. uuid_byte b14. reflexivity.
Qed.

(** UUIDs and their text.  [iot_util_convert_uuid_str] writes 36 characters
    and a terminator into a buffer that is large enough, and
    [iot_util_convert_str_uuid] gives the 16 bytes back, for every UUID of the
    versions 1 to 5. *)
Theorem uuid_text_roundtrip `{CharModel} id max_sz buf uuid :
  length id = 16%nat -> bytes id -> 1 <= nth 6 id 0 / 16 <= 5 ->
  36 < max_sz <= zlen buf -> length uuid = 16%nat ->
  exists txt rest,
    iot_util_convert_uuid_str (Some id) max_sz (Some buf) = Ret (IOT_ERROR_NONE, Some (txt ++ 0 :: rest)) /\
    zlen txt = 36 /\ zlen (txt ++ 0 :: rest) = zlen buf /\
    iot_util_convert_str_uuid (Some txt) (Some uuid) = Ret (IOT_ERROR_NONE, Some id).
Proof.
  intros Hlen Hb Hv Hmax Hu. pose proof (uuid_text_length id Hlen) as Ht. change (zlen ref_id) with 36 in Ht.
  exists (text ref_id 45 id 0), (drop 37 buf). split_and!.
  - apply (bytes_to_str_spec ref_id 45 id max_sz buf Hb); [done|change (zlen ref_id) with 36; lia..].
  - done.
  - rewrite zlen_app, zlen_cons, Ht. unfold zlen in *. rewrite length_drop. lia.
  - unfold iot_util_convert_str_uuid, is_null_obj. rewrite bind_gets.
    change (bool_decide (Some _ = None)) with false. cbv iota.
    rewrite (bind_ret _ _ _ _ _ (uuid_text_valid id (Some uuid) Hlen Hb Hv)).
    change (negb (IOT_ERROR_NONE =? IOT_ERROR_NONE)) with false. cbv iota.
    change (Z.to_nat UUID_STRING_LENGTH) with 36%nat.
    by rewrite (bind_ret _ _ _ _ _ (str_uuid_loop_text id uuid Hlen Hb Hu)).
Qed.

Lemma uuid_text_roundtrip_witness :
  let _ : CharModel := true in
  let id := [18; 52; 86; 120; 154; 188; 77; 240; 128; 1; 2; 3; 4; 5; 6; 7] in
  exists txt rest,
    iot_util_convert_uuid_str (Some id) 40 (Some (replicate 40 0)) = Ret (IOT_ERROR_NONE, Some (txt ++ 0 :: rest)) /\
    zlen txt = 36 /\ zlen (txt ++ 0 :: rest) = zlen (replicate 40 0) /\
    iot_util_convert_str_uuid (Some txt) (Some (replicate 16 0)) = Ret (IOT_ERROR_NONE, Some id).
Proof.
  apply uuid_text_roundtrip; [done| |split; discriminate|split; reflexivity || discriminate|done]. repeat constructor; unfold is_byte; lia.
Defined.

(** A UUID with letters beyond [F] passes, and they count as zero. *)
Theorem uuid_with_any_letters `{CharModel} :
  iot_util_convert_str_uuid
    (Some ([90;90;90;90;90;90;90;90;45] ++ [90;90;90;90;45] ++ [52;90;90;90;45] ++ [90;90;90;90;45] ++
           [90;90;90;90;90;90;90;90;90;90;90;90]))
    (Some (replicate 16 0)) = Ret (IOT_ERROR_NONE, Some ([0;0;0;0;0;0;64] ++ replicate 9 0)).
Proof.
  destruct H; vm_compute; reflexivity.
Qed.

(** The next byte and the next colon of a MAC address. *)
Ltac mac_byte b :=
  erewrite (fun n str i j => str_mac_pair n str i j b) by (assumption || reflexivity || lia);
  rewrite bind_store by reflexivity; cbn [Z.add Pos.add Z.mul Pos.mul Pos.succ].
Ltac mac_colon := rewrite str_mac_colon by (lia || reflexivity); cbn [Z.add Pos.add Pos.succ].

(** MAC addresses and their text: [iot_util_convert_mac_str] writes 17
    characters and a terminator and [iot_util_convert_str_mac] gives the six
    bytes back, for every address. *)
Theorem mac_text_roundtrip `{CharModel} mac max_sz buf addr :
  length mac = 6%nat -> bytes mac -> 17 < max_sz <= zlen buf -> length addr = 6%nat ->
  exists txt rest,
    iot_util_convert_mac_str (Some mac) max_sz (Some buf) = Ret (IOT_ERROR_NONE, Some (txt ++ 0 :: rest)) /\
    zlen txt = 17 /\ zlen (txt ++ 0 :: rest) = zlen buf /\
    iot_util_convert_str_mac (Some txt) (Some addr) = Ret (IOT_ERROR_NONE, Some mac).
Proof.
  intros Hlen Hb Hmax Hu. pose proof (mac_text_length mac Hlen) as Ht. change (zlen ref_addr) with 17 in Ht.
  exists (text ref_addr 58 mac 0), (drop 18 buf). split_and!.
  - unfold iot_util_convert_mac_str. rewrite (proj2 (Z.ltb_ge max_sz 0)) by lia.
    apply (bytes_to_str_spec ref_addr 58 mac max_sz buf Hb); [done|change (zlen ref_addr) with 17; lia..].
  - done.
  - rewrite zlen_app, zlen_cons, Ht. unfold zlen in *. rewrite length_drop. lia.
  - unfold iot_util_convert_str_mac, is_null_obj. rewrite bind_gets.
    change (bool_decide (Some _ = None)) with false. cbv iota. rewrite Ht.
    change (negb (17 =? zlen ref_addr)) with false. cbv iota. change (length ref_addr) with 17%nat.
    elements mac Hlen. elements addr Hu. repeat apply Forall_cons in Hb as [? Hb].
    set (str := text _ _ _ _) in *. change (str_mac_loop 17 str 0 0 1) with (str_mac_loop 17 str 0 0 (2 * 0 + 1)).
    mac_byte b. mac_colon. mac_byte b0. mac_colon. mac_byte b1. mac_colon.
    mac_byte b2. mac_colon. mac_byte b3. mac_colon. mac_byte b4. reflexivity.
Qed.

Lemma mac_text_roundtrip_witness :
  let _ : CharModel := true in
  exists txt rest,
    iot_util_convert_mac_str (Some [161; 178; 195; 212; 229; 246]) 18 (Some (replicate 18 0))
      = Ret (IOT_ERROR_NONE, Some (txt ++ 0 :: rest)) /\
    zlen txt = 17 /\ zlen (txt ++ 0 :: rest) = zlen (replicate 18 0) /\
    iot_util_convert_str_mac (Some txt) (Some (replicate 6 0)) = Ret (IOT_ERROR_NONE, Some [161; 178; 195; 212; 229; 246]).
Proof.
  apply mac_text_roundtrip; [done| |split; reflexivity || discriminate|done]. repeat constructor; unfold is_byte; lia.
Defined.

(** ** Channels *)

(** Every channel of the two tables (1 to 14, 32 to 173) is mapped to a
    frequency and back to itself, and every other [uint8_t] to 0. *)
Theorem channel_freq_roundtrip channel :
  0 <= channel < 256 ->
  if (1 <=? channel) && (channel <=? 14) || (32 <=? channel) && (channel <=? 173)
  then 2412 <= iot_util_convert_channel_freq channel <= 5865 /\
       iot_util_convert_freq_channel (iot_util_convert_channel_freq channel) = channel
  else iot_util_convert_channel_freq channel = 0.
Proof.
  intros Hc. pose (P := fun c => if (1 <=? c) && (c <=? 14) || (32 <=? c) && (c <=? 173)
    then (2412 <=? iot_util_convert_channel_freq c) && (iot_util_convert_channel_freq c <=? 5865) &&
         (iot_util_convert_freq_channel (iot_util_convert_channel_freq c) =? c)
    else iot_util_convert_channel_freq c =? 0).
  assert (HP : P channel = true) by (apply (forallb_seqZ P 256); [vm_compute; reflexivity|exact Hc]).
  unfold P in HP. destruct (_ || _); bool_to_prop; [split; [lia|done]|done].
Qed.

Lemma channel_freq_roundtrip_witness :
  2412 <= iot_util_convert_channel_freq 173 <= 5865 /\
  iot_util_convert_freq_channel (iot_util_convert_channel_freq 173) = 173.
Proof. apply (channel_freq_roundtrip 173). lia. Defined.

(** A frequency below the first channel gives a channel all the same. *)
Theorem freq_below_first_channel : iot_util_convert_freq_channel 1000 = 231.
Proof. reflexivity. Qed.

(** ** Back-off *)

Lemma backoff_loop_spec n : forall b m,
  1 <= b -> 2 <= m <= 2147483 -> b < m ->
  backoff_loop n b m = if m <=? b * 2 ^ Z.of_nat n then inr (m * 1000) else inl (b * 2 ^ Z.of_nat n).
Proof.
  induction n as [|n IH]; intros b m Hb Hm Hlt.
  - rewrite Z.mul_1_r. rewrite (proj2 (Z.leb_gt _ _)) by lia. done.
  - cbn [backoff_loop]. unfold to_uint. rewrite (Z.mod_small (b * 2)), !Z.mod_small by lia.
    rewrite Nat2Z.inj_succ, Z.pow_succ_r by lia.
    assert (1 <= 2 ^ Z.of_nat n) by (pose proof (Z.pow_pos_nonneg 2 (Z.of_nat n)); lia).
    destruct (Z.leb_spec (m * 1000) (b * 2 * 1000)).
    + rewrite (proj2 (Z.leb_le m _)) by nia. done.
    + rewrite IH by lia. by replace (b * 2 * 2 ^ Z.of_nat n) with (b * (2 * 2 ^ Z.of_nat n)) by lia.
Qed.

(** The back-off of the [try_count]-th try is [2^try_count] seconds and a
    random part of less than a second, and never more than the maximum, as
    long as twice the maximum fits into 32 bits when it is in milliseconds. *)
Theorem generator_backoff_correct try_count maximum_backoff random :
  0 <= try_count -> 2 <= maximum_backoff <= 2147483 -> 0 <= random ->
  let r := iot_util_generator_backoff try_count maximum_backoff random in
  r = (if maximum_backoff <=? 2 ^ try_count then maximum_backoff * 1000
       else 2 ^ try_count * 1000 + random mod 1000) /\
  1000 <= r <= maximum_backoff * 1000.
Proof.
  intros Ht Hm Hr r. pose proof (Z.pow_pos_nonneg 2 try_count ltac:(lia) Ht).
  pose proof (Z.mod_pos_bound random 1000 ltac:(lia)).
  assert (E : r = (if maximum_backoff <=? 2 ^ try_count then maximum_backoff * 1000
       else 2 ^ try_count * 1000 + random mod 1000)).
  { unfold r, iot_util_generator_backoff. rewrite backoff_loop_spec by lia.
    rewrite Z2Nat.id, Z.mul_1_l by done. destruct (Z.leb_spec maximum_backoff (2 ^ try_count)); [done|].
    unfold to_uint. rewrite (Z.mod_small (2 ^ try_count * 1000)), Z.mod_small by lia. done. }
  split; [exact E|]. rewrite E. destruct (Z.leb_spec maximum_backoff (2 ^ try_count)); lia.
Qed.

Lemma generator_backoff_correct_witness :
  iot_util_generator_backoff 3 600 123456 = 8456 /\ 1000 <= iot_util_generator_backoff 3 600 123456 <= 600000.
Proof. apply (generator_backoff_correct 3 600 123456); lia. Defined.

(** With a larger maximum the milliseconds do not fit: the first back-off is
    less than a second. *)
Theorem generator_backoff_overflow random : iot_util_generator_backoff 1 4294968 random = 704.
Proof. reflexivity. Qed.
