(* ===== verification/UtilUrl.v ===== *)
(** * URLs and new UUIDs

    [iot_util_url_parse] of [src/src/iot_util.c], the UUIDs of
    [src/src/iot_uuid.c] and [iot_security_sha256], which they use. *)

From S2P Require Import Prelude Platform UtilQueue Util.

(** ** URLs *)

(** [strstr]: the offset of the first occurrence. *)
Fixpoint strstr (s pat : list Z) : option Z :=
  if decide (take (length pat) s = pat) then Some 0
  else match s with [] => None | _ :: s => Z.succ <$> strstr s pat end.

(** [atoi], undefined when the number is not representable. *)
Definition is_space (c : Z) : bool := (c =? 32) || ((9 <=? c) && (c <=? 13)).
Fixpoint digits_value (acc : Z) (s : list Z) : Z :=
  match s with
  | c :: s => if (48 <=? c) && (c <=? 57) then digits_value (10 * acc + (c - 48)) s else acc
  | [] => acc
  end.
Fixpoint skip_space (s : list Z) : list Z :=
  match s with c :: s' => if is_space c then skip_space s' else s | [] => [] end.
Definition atoi (s : list Z) : option Z :=
  let v := match skip_space s with
           | 45 :: s => - digits_value 0 s
           | 43 :: s => digits_value 0 s
           | s => digits_value 0 s
           end in
  if (- int_max - 1 <=? v) && (v <=? int_max) then Some v else None.

(** [url_parse_t]; a string is the bytes in front of its terminator. *)
Record url_parse_t := UrlParse { protocol : option (list Z); domain : option (list Z); port : Z }.
Definition set_protocol v (u : url_parse_t) : url_parse_t := UrlParse v (domain u) (port u).
Definition set_domain v (u : url_parse_t) : url_parse_t := UrlParse (protocol u) v (port u).
Definition set_port v (u : url_parse_t) : url_parse_t := UrlParse (protocol u) (domain u) v.

Section url.
Context `{P : Platform}.

(** [iot_os_calloc] and [strncpy(..., s, n)] into it: null, or the string. *)
Definition copy_prefix (s : list Z) (n : Z) : st (env * url_parse_t) (option (list Z)) := fun '(e, u) =>
  let '(d, e) := os_malloc (n + 1) e in
  Ret (match d with Some _ => Some (take (Z.to_nat n) s) | None => None end, (e, u)).
Definition set_output (f : url_parse_t -> url_parse_t) : st (env * url_parse_t) unit :=
  modify (fun '(e, u) => (e, f u)).

(** [output] is not null. *)
Definition iot_util_url_parse (url : option (list Z)) : st (env * url_parse_t) Z :=
  match url with
  | None => mret IOT_ERROR_INVALID_ARGS
  | Some url =>
      match strstr url [58; 47; 47] with
      | None => mret IOT_ERROR_INVALID_ARGS
      | Some p1 =>
          let p_domain := drop (Z.to_nat (p1 + 3)) url in
          match strstr p_domain [58] with
          | None => mret IOT_ERROR_INVALID_ARGS
          | Some p2 =>
              let p_port := drop (Z.to_nat (p2 + 1)) p_domain in
              prot ← copy_prefix url p1;
              set_output (set_protocol prot);;
              match prot with
              | None => mret IOT_ERROR_MEM_ALLOC
              | Some _ =>
                  dom ← copy_prefix p_domain p2;
                  set_output (set_domain dom);;
                  match dom with
                  | None => set_output (set_protocol None);; mret IOT_ERROR_MEM_ALLOC
                  | Some _ =>
                      p ← need (atoi p_port);
                      set_output (set_port p);;
                      mret IOT_ERROR_NONE
                  end
              end
          end
      end
  end.
End url.

(** ** The UUIDs of [iot_uuid.c] *)

Definition IOT_ERROR_UUID_FAIL : Z := -25.
Definition IOT_ERROR_SECURITY_INVALID_ARGS : Z := IOT_ERROR_INVALID_ARGS.

Definition read_at (i : Z) : st obj Z := fun o =>
  match o with
  | Some l => if (0 <=? i) && (i <? zlen l) then Ret (nth (Z.to_nat i) l 0, o) else Undef
  | None => Undef
  end.

(** The bits of version and variant. *)
Definition set_version : st obj unit :=
  b ← read_at 8; store_at 8 (Z.land b 63);;
  b ← read_at 8; store_at 8 (Z.lor b 128);;
  b ← read_at 6; store_at 6 (Z.land b 15);;
  b ← read_at 6; store_at 6 (Z.lor b 64).

Section uuid.
(** The bytes of an [unsigned int] in memory; the results of
    [iot_bsp_wifi_get_mac], [gettimeofday] and [malloc]; and
    [port_crypto_sha256], the digest of the TLS library. *)
Context (uint_bytes : Z -> list Z).
Context (wifi_get_mac : Z * list Z) (gettimeofday : Z * list Z) (malloc_ok : bool).
Context (port_crypto_sha256 : list Z -> Z * list Z).

Definition iot_security_sha256 (input : list Z) (output_len : Z) : Z * list Z :=
  if zlen input =? 0 then (IOT_ERROR_SECURITY_INVALID_ARGS, [])
  else if output_len <? 32 then (IOT_ERROR_SECURITY_INVALID_ARGS, [])
  else
    let '(ret, hash) := port_crypto_sha256 input in
    if negb (ret =? 0) then (ret, hash) else (IOT_ERROR_NONE, hash).

(** From the hash of [buf] on, which both functions share. *)
Definition uuid_of_hash (buf : list Z) : st obj Z :=
  if negb malloc_ok then mret IOT_ERROR_MEM_ALLOC
  else
    let '(err, hash) := iot_security_sha256 buf 32 in
    if negb (err =? 0) then mret err
    else store_list 0 (take 16 hash);; set_version;; mret IOT_ERROR_NONE.

Definition iot_get_random_uuid_from_mac : st obj Z :=
  no_uuid ← is_null_obj;
  if (no_uuid : bool) then mret IOT_ERROR_INVALID_ARGS
  else
    let '(err, mac) := wifi_get_mac in
    if negb (err =? 0) then mret err
    else
      let '(ret, tv) := gettimeofday in
      if negb (ret =? 0) then mret IOT_ERROR_UUID_FAIL
      else uuid_of_hash (mac ++ tv).

Definition iot_get_uuid_from_mac : st obj Z :=
  no_uuid ← is_null_obj;
  if (no_uuid : bool) then mret IOT_ERROR_INVALID_ARGS
  else
    let '(err, mac) := wifi_get_mac in
    if negb (err =? 0) then mret err else uuid_of_hash mac.

(** [random i] is what the [i]-th call of [iot_bsp_random] returns. *)
Fixpoint random_loop (n : nat) (random : Z -> Z) (i : Z) : st obj unit :=
  match n with
  | O => mret tt
  | S n => store_list (i * 4) (uint_bytes (random i));; random_loop n random (i + 1)
  end.

Definition iot_get_random_uuid (random : Z -> Z) : st obj Z :=
  no_uuid ← is_null_obj;
  if (no_uuid : bool) then mret IOT_ERROR_INVALID_ARGS
  else random_loop 4 random 0;; set_version;; mret IOT_ERROR_NONE.
End uuid.

(** ** URLs *)

Lemma strstr_colon l k : 58 ∉ l -> strstr (l ++ 58 :: k) [58] = Some (zlen l).
Proof.
  induction l as [|x l IH]; intros Hx; [done|]. rewrite not_elem_of_cons in Hx. destruct Hx as [Hx Hl].
  cbn [app strstr take length]. rewrite decide_False by congruence.
  rewrite IH by done. rewrite zlen_cons. simpl. f_equal. lia.
Qed.

Lemma strstr_scheme l k : 58 ∉ l -> strstr (l ++ [58; 47; 47] ++ k) [58; 47; 47] = Some (zlen l).
Proof.
  induction l as [|x l IH]; intros Hx; [done|]. rewrite not_elem_of_cons in Hx. destruct Hx as [Hx Hl].
  cbn [app strstr take length]. rewrite decide_False by congruence.
  cbn [app] in IH. rewrite IH by done. rewrite zlen_cons. simpl. f_equal. lia.
Qed.

Definition is_digit (c : Z) : Prop := 48 <= c <= 57.
Definition decimal (ds : list Z) : Z := foldl (fun acc c => 10 * acc + (c - 48)) 0 ds.
Definition no_digit_first (tl : list Z) : Prop := match tl with c :: _ => ~ is_digit c | [] => True end.

Lemma digits_value_app ds tl : forall acc,
  Forall is_digit ds -> no_digit_first tl ->
  digits_value acc (ds ++ tl) = foldl (fun acc c => 10 * acc + (c - 48)) acc ds.
Proof.
  induction ds as [|c ds IH]; intros acc Hd Ht; cbn [app digits_value foldl].
  - destruct tl as [|c tl]; [done|]. cbn [digits_value]. unfold no_digit_first, is_digit in Ht.
    destruct ((48 <=? c) && (c <=? 57)) eqn:E; [|done]. bool_to_prop. lia.
  - apply Forall_cons in Hd as [Hc Hd]. unfold is_digit in Hc.
    rewrite (proj2 (Z.leb_le 48 c)), (proj2 (Z.leb_le c 57)) by lia. by apply IH.
Qed.

Lemma atoi_decimal ds tl :
  ds <> [] -> Forall is_digit ds -> no_digit_first tl -> decimal ds <= int_max ->
  0 <= decimal ds -> atoi (ds ++ tl) = Some (decimal ds).
Proof.
  intros Hne Hd Ht Hmax Hpos. destruct ds as [|c ds]; [done|].
  pose proof (digits_value_app (c :: ds) tl 0 Hd Ht) as E. apply Forall_cons in Hd as [Hc Hd]. unfold is_digit in Hc.
  unfold atoi. cbn [app skip_space]. unfold is_space.
  rewrite (proj2 (Z.eqb_neq c 32)), (proj2 (Z.leb_gt c 13)), andb_false_r by lia. cbn [orb].
  assert (Hv : match c :: ds ++ tl with
               | 45 :: s => - digits_value 0 s
               | 43 :: s => digits_value 0 s
               | s => digits_value 0 s
               end = decimal (c :: ds)).
  { unfold decimal. rewrite <- E. cbn [app].
    destruct (decide (c = 45)); [lia|]. destruct (decide (c = 43)); [lia|].
    repeat (case_match; try lia; try done). }
  rewrite Hv. rewrite (proj2 (Z.leb_le (- int_max - 1) _)), (proj2 (Z.leb_le _ int_max)); [done|lia|].
  unfold int_max. lia.
Qed.

(** [iot_util_url_parse] on [protocol://domain:port...]: it returns the
    three parts, or [IOT_ERROR_MEM_ALLOC] with no string left allocated when
    memory is out; what does not have the two separators is refused. *)
Theorem url_parse_correct `{P : Platform} proto dom ds tl e u :
  58 ∉ proto -> 58 ∉ dom -> ds <> [] -> Forall is_digit ds -> no_digit_first tl ->
  0 <= decimal ds <= int_max ->
  (iot_util_url_parse (Some (proto ++ [58; 47; 47] ++ dom ++ 58 :: ds ++ tl)) (e, u)
   = let '(m1, e1) := os_malloc (zlen proto + 1) e in
     let '(m2, e2) := os_malloc (zlen dom + 1) e1 in
     match m1, m2 with
     | Some _, Some _ => Ret (IOT_ERROR_NONE, (e2, UrlParse (Some proto) (Some dom) (decimal ds)))
     | Some _, None => Ret (IOT_ERROR_MEM_ALLOC, (e2, UrlParse None None (port u)))
     | None, _ => Ret (IOT_ERROR_MEM_ALLOC, (e1, UrlParse None (domain u) (port u)))
     end) /\
  iot_util_url_parse (Some (proto ++ dom)) (e, u) = Ret (IOT_ERROR_INVALID_ARGS, (e, u)) /\
  iot_util_url_parse (Some (proto ++ [58; 47; 47] ++ dom)) (e, u) = Ret (IOT_ERROR_INVALID_ARGS, (e, u)).
Proof.
  intros Hp Hd Hne Hds Htl Hv.
  assert (Hno : forall pat l, 58 ∉ l -> strstr l (58 :: pat) = None).
  { intros pat l. induction l as [|x l IH]; intros Hl; [done|]. rewrite not_elem_of_cons in Hl. destruct Hl.
    cbn [strstr take length]. rewrite decide_False by congruence. by rewrite IH. }
  unfold iot_util_url_parse. rewrite !strstr_scheme by done.
  replace (Z.to_nat (zlen proto + 3)) with (length (proto ++ [58; 47; 47]))
    by (rewrite length_app; unfold zlen; simpl; lia).
  rewrite !(app_assoc proto [58; 47; 47]), !drop_app_length, strstr_colon, (Hno [] dom) by done.
  split_and!; [|by rewrite (Hno [47; 47]) by set_solver|done].
  replace (Z.to_nat (zlen dom + 1)) with (length (dom ++ [58])) by (rewrite length_app; unfold zlen; simpl; lia).
  rewrite <- !(app_assoc proto). unfold copy_prefix, set_output, modify, mbind, st_bind.
  destruct (os_malloc (zlen proto + 1) e) as [[m1|] e1]; [|by destruct (os_malloc (zlen dom + 1) e1)].
  destruct (os_malloc (zlen dom + 1) e1) as [[m2|] e2]; [|done].
  change (58 :: ds ++ tl) with ([58] ++ ds ++ tl). rewrite (app_assoc dom), drop_app_length.
  rewrite atoi_decimal by (done || lia). unfold zlen. rewrite !Nat2Z.id, <- (app_assoc dom), !take_app_length. done.
Qed.

Lemma url_parse_correct_witness :
  let url := [115;115;108] ++ [58;47;47] ++ [97;46;98] ++ 58 :: [56;56;56;51] ++ [] in
  let e : @env SimPlatform := Sim 5 0 [] [] [] true in
  (exists e', iot_util_url_parse (Some url) (e, UrlParse None None 0)
    = Ret (IOT_ERROR_NONE, (e', UrlParse (Some [115;115;108]) (Some [97;46;98]) 8883))).
Proof.
  intros url e. eexists. unfold url.
  rewrite (proj1 (url_parse_correct (P := SimPlatform) [115;115;108] [97;46;98] [56;56;56;51] [] e (UrlParse None None 0)
    ltac:(set_solver) ltac:(set_solver) ltac:(done) ltac:(repeat constructor; unfold is_digit; lia) I
    ltac:(unfold int_max; cbn; lia))). reflexivity.
Defined.

(** ** UUIDs that are made *)

Lemma version_bits b6 b8 :
  is_byte b6 -> is_byte b8 ->
  Z.lor (Z.land b6 15) 64 / 16 = 4 /\ Z.lor (Z.land b8 63) 128 / 64 = 2 /\
  is_byte (Z.lor (Z.land b6 15) 64) /\ is_byte (Z.lor (Z.land b8 63) 128).
Proof.
  intros H6 H8.
  pose (P6 := fun b => let v := Z.lor (Z.land b 15) 64 in (v / 16 =? 4) && (0 <=? v) && (v <? 256)).
  pose (P8 := fun b => let v := Z.lor (Z.land b 63) 128 in (v / 64 =? 2) && (0 <=? v) && (v <? 256)).
  assert (A : P6 b6 = true) by (apply (forallb_seqZ P6 256); [vm_compute; reflexivity|exact H6]).
  assert (B : P8 b8 = true) by (apply (forallb_seqZ P8 256); [vm_compute; reflexivity|exact H8]).
  unfold P6, P8 in *. bool_to_prop. unfold is_byte. split_and!; lia || done.
Qed.

(** A UUID of version 4. *)
Definition is_v4 (id : list Z) : Prop :=
  length id = 16%nat /\ bytes id /\ nth 6 id 0 / 16 = 4 /\ nth 8 id 0 / 64 = 2.

Lemma set_version_spec id :
  length id = 16%nat -> bytes id -> exists id', set_version (Some id) = Ret (tt, Some id') /\ is_v4 id'.
Proof.
  intros Hlen Hb. elements id Hlen. eexists. split; [reflexivity|].
  cbn [Z.to_nat Pos.to_nat Pos.iter_op Nat.add nth insert list_insert].
  repeat apply Forall_cons in Hb as [? Hb].
  destruct (version_bits b5 b7) as (V6 & V8 & B6 & B8); [done|done|].
  split_and!; [done| |done|done]. repeat (apply Forall_cons; split; [done|]). by apply Forall_nil.
Qed.

Lemma store_list_all l u :
  length u = length l -> store_list 0 l (Some u) = Ret (tt, Some l).
Proof.
  assert (E : forall l k u, length u = length l -> store_list (zlen k) l (Some (k ++ u)) = Ret (tt, Some (k ++ l))).
  { clear. induction l as [|x l IH]; intros k u Hu; [by apply nil_length_inv in Hu as ->|].
    destruct u as [|y u]; [done|]. injection Hu as Hu. cbn [store_list].
    rewrite (bind_ret _ _ _ _ _ (store_at_front k u y x)).
    change (x :: u) with ([x] ++ u). rewrite app_assoc.
    replace (zlen k + 1) with (zlen (k ++ [x])) by (autorewrite with zlen; done).
    rewrite IH by done. by rewrite <- app_assoc. }
  intros Hu. exact (E l [] u Hu).
Qed.

(** [iot_get_random_uuid] stores 16 random bytes with version 4 and the
    variant of RFC 4122, so that its text is accepted and gives the same UUID
    back; [iot_get_uuid_from_mac] does the same with the digest of the address,
    and fails with what the platform reports. *)
Theorem made_uuid_correct uint_bytes random wifi_get_mac malloc_ok sha256 uuid :
  (forall v, length (uint_bytes v) = 4%nat /\ bytes (uint_bytes v)) ->
  (forall l, (sha256 l).1 = 0 -> length (sha256 l).2 = 32%nat /\ bytes (sha256 l).2) ->
  length uuid = 16%nat -> wifi_get_mac.2 <> [] ->
  (exists id, iot_get_random_uuid uint_bytes random (Some uuid) = Ret (IOT_ERROR_NONE, Some id) /\ is_v4 id) /\
  exists r id, iot_get_uuid_from_mac wifi_get_mac malloc_ok sha256 (Some uuid) = Ret (r, Some id) /\
    (r = if negb (wifi_get_mac.1 =? 0) then wifi_get_mac.1
         else if negb malloc_ok then IOT_ERROR_MEM_ALLOC else (sha256 wifi_get_mac.2).1) /\
    (r = 0 -> is_v4 id).
Proof.
  intros Hw Hsha Hu Hmac. split.
  - unfold iot_get_random_uuid, is_null_obj. rewrite bind_gets.
    change (bool_decide (Some uuid = None)) with false. cbv iota.
    assert (E : exists id, random_loop uint_bytes 4 random 0 (Some uuid) = Ret (tt, Some id) /\
      length id = 16%nat /\ bytes id).
    { exists (uint_bytes (random 0) ++ uint_bytes (random 1) ++ uint_bytes (random 2) ++ uint_bytes (random 3)).
      pose proof (Hw (random 0)) as [L0 B0]. pose proof (Hw (random 1)) as [L1 B1].
      pose proof (Hw (random 2)) as [L2 B2]. pose proof (Hw (random 3)) as [L3 B3].
      split_and!; [|rewrite !length_app; lia|repeat (apply Forall_app; split); done].
      cbn [random_loop]. change (0 + 1) with 1. change (1 + 1) with 2. change (2 + 1) with 3.
      destruct (uint_bytes (random 0)) as [|a0 [|a1 [|a2 [|a3 [|]]]]]; try done.
      destruct (uint_bytes (random 1)) as [|c0 [|c1 [|c2 [|c3 [|]]]]]; try done.
      destruct (uint_bytes (random 2)) as [|d0 [|d1 [|d2 [|d3 [|]]]]]; try done.
      destruct (uint_bytes (random 3)) as [|e0 [|e1 [|e2 [|e3 [|]]]]]; try done.
      elements uuid Hu. reflexivity. }
    destruct E as (id & E & Hl & Hb). destruct (set_version_spec id Hl Hb) as (id' & E' & Hv).
    exists id'. by rewrite (bind_ret _ _ _ _ _ E), (bind_ret _ _ _ _ _ E').
  - unfold iot_get_uuid_from_mac, is_null_obj. rewrite bind_gets.
    change (bool_decide (Some uuid = None)) with false. cbv iota.
    destruct wifi_get_mac as [err mac]. cbn [fst snd] in *. destruct (Z.eqb_spec err 0) as [->|He]; cbn [negb].
    2: { exists err, uuid. by split_and!. }
    unfold uuid_of_hash. destruct malloc_ok; cbn [negb]; [|by exists IOT_ERROR_MEM_ALLOC, uuid].
    unfold iot_security_sha256. destruct mac as [|x mac]; [done|].
    replace (zlen (x :: mac) =? 0) with false
      by (symmetry; apply Z.eqb_neq; rewrite zlen_cons; pose proof (zlen_nonneg mac); lia).
    change (32 <? 32) with false. cbv iota.
    pose proof (Hsha (x :: mac)) as Hs. destruct (sha256 (x :: mac)) as [ret hash]. cbn [fst snd] in *.
    destruct (Z.eqb_spec ret 0) as [->|Hr]; cbn [negb].
    2: { exists ret, uuid. rewrite (proj2 (Z.eqb_neq _ _) Hr). by split_and!. }
    destruct (Hs eq_refl) as [Hl Hb]. change (negb (IOT_ERROR_NONE =? 0)) with false. cbv iota.
    destruct (set_version_spec (take 16 hash)) as (id' & E' & Hv);
      [rewrite length_take; lia|by apply Forall_take|].
    exists IOT_ERROR_NONE, id'.
    rewrite (bind_ret _ _ _ _ _ (store_list_all (take 16 hash) uuid ltac:(rewrite length_take; lia))).
    by rewrite (bind_ret _ _ _ _ _ E').
Qed.

Lemma made_uuid_correct_witness :
  let le v := [v mod 256; v / 256 mod 256; v / 65536 mod 256; v / 16777216 mod 256] in
  let sha256 (l : list Z) := (0, replicate 32 (foldr Z.add 0 l mod 256)) in
  let random i := i * 305419896 + 4027 in
  (exists id, iot_get_random_uuid le random (Some (replicate 16 0)) = Ret (IOT_ERROR_NONE, Some id) /\ is_v4 id) /\
  exists r id, iot_get_uuid_from_mac (0, [1; 2; 3; 4; 5; 6]) true sha256 (Some (replicate 16 0)) = Ret (r, Some id) /\
    (r = 0) /\ (r = 0 -> is_v4 id).
Proof.
  intros le sha256 random.
  apply (made_uuid_correct le random (0, [1; 2; 3; 4; 5; 6]) true sha256 (replicate 16 0)); [| |done|done].
  - intros v. split; [done|]. unfold le, bytes, is_byte. repeat constructor; apply Z.mod_pos_bound; lia.
  - intros l _. split; [done|]. apply Forall_replicate. apply Z.mod_pos_bound. lia.
Defined.
