(* ===== verification/Base64.v ===== *)
(** * Base64

    [src/src/security/iot_security_util.c]: the two codecs of base64, the
    standard alphabet and the one for URLs.  The destination is a buffer with
    the pointer [p] into it (Cursor.v); a source is the list of the [slen]
    bytes that it points to; results are the returned value and, where the
    function sets it, the length in [*olen]. *)

From S2P Require Import Prelude Cursor UtilQueue UtilUrl.

Definition IOT_ERROR_SECURITY_BASE64_ENCODE : Z := -1401.
Definition IOT_ERROR_SECURITY_BASE64_DECODE : Z := -1402.
Definition IOT_ERROR_SECURITY_BASE64_URL_ENCODE : Z := -1403.
Definition IOT_ERROR_SECURITY_BASE64_URL_DECODE : Z := -1404.
Definition IOT_ERROR_SECURITY_MEM_ALLOC : Z := IOT_ERROR_MEM_ALLOC.

Definition base64_enc_map : list Z := [
  65; 66; 67; 68; 69; 70; 71; 72; 73; 74;
  75; 76; 77; 78; 79; 80; 81; 82; 83; 84;
  85; 86; 87; 88; 89; 90; 97; 98; 99; 100;
  101; 102; 103; 104; 105; 106; 107; 108; 109; 110;
  111; 112; 113; 114; 115; 116; 117; 118; 119; 120;
  121; 122; 48; 49; 50; 51; 52; 53; 54; 55;
  56; 57; 43; 47].

Definition base64_dec_map : list Z := [
  127; 127; 127; 127; 127; 127; 127; 127; 127; 127;
  127; 127; 127; 127; 127; 127; 127; 127; 127; 127;
  127; 127; 127; 127; 127; 127; 127; 127; 127; 127;
  127; 127; 127; 127; 127; 127; 127; 127; 127; 127;
  127; 127; 127; 62; 127; 127; 127; 63; 52; 53;
  54; 55; 56; 57; 58; 59; 60; 61; 127; 127;
  127; 64; 127; 127; 127; 0; 1; 2; 3; 4;
  5; 6; 7; 8; 9; 10; 11; 12; 13; 14;
  15; 16; 17; 18; 19; 20; 21; 22; 23; 24;
  25; 127; 127; 127; 127; 127; 127; 26; 27; 28;
  29; 30; 31; 32; 33; 34; 35; 36; 37; 38;
  39; 40; 41; 42; 43; 44; 45; 46; 47; 48;
  49; 50; 51; 127; 127; 127; 127; 127].

(** Beyond its end a table is not read. *)
Definition table_at {S} (table : list Z) (i : Z) : st S Z :=
  if 0 <=? i then need (table !! Z.to_nat i) else undef.

(** [*p++ = v]. *)
Definition push (v : Z) : st cursor unit := p ← getptr; store p v;; setptr (S p).

Definition IOT_SECURITY_B64_ALIGN_LEN (x : Z) : Z := Z.land (x + 3) 4294967292.
Definition IOT_SECURITY_B64_ENCODE_LEN (x : Z) : Z := (x + 2) / 3 * 4 + 1.
Definition IOT_SECURITY_B64_DECODE_LEN (x : Z) : Z := IOT_SECURITY_B64_ALIGN_LEN x / 4 * 3 + 1.

(** ** Decoding *)

(** The first pass: the number [n] of characters that count, and the number [j]
    of ['='] among them; [None] when the text is not base64.  [x] counts the
    spaces in front of the next character; the loop that skips them is part of
    this one. *)
Fixpoint decode_scan (src : list Z) (n j x : Z) : option (Z * Z) :=
  match src with
  | [] => Some (n, j)
  | c :: rest =>
      if c =? 32 then decode_scan rest n j (to_uint (x + 1))
      else if (c =? 13) && bool_decide (head rest = Some 10) then decode_scan rest n j 0
      else if c =? 10 then decode_scan rest n j 0
      else if negb (x =? 0) then None
      else
        let j := if c =? 61 then to_uint (j + 1) else j in
        if (c =? 61) && (2 <? j) then None
        else if 127 <? c then None
        else match base64_dec_map !! Z.to_nat c with
             | None => None
             | Some m => if m =? 127 then None else if (m <? 64) && negb (j =? 0) then None else decode_scan rest (n + 1) j 0
             end
  end.

(** The length of the output. *)
Definition decoded_size (n j : Z) : Z := 6 * Z.shiftr n 3 + Z.shiftr (6 * Z.land n 7 + 7) 3 - j.

(** The second pass; [n] counts the characters of a group of four, whose bits
    [x] collects. *)
Fixpoint decode_loop (src : list Z) (j n x : Z) : st cursor unit :=
  match src with
  | [] => mret tt
  | c :: src =>
      if (c =? 13) || (c =? 10) || (c =? 32) then decode_loop src j n x
      else
        m ← table_at base64_dec_map c;
        let j := to_uint (j - (if m =? 64 then 1 else 0)) in
        let x := to_uint (Z.lor (Z.shiftl x 6) (Z.land m 63)) in
        if n + 1 =? 4 then
          when (0 <? j) (push (Z.shiftr x 16));;
          when (1 <? j) (push (Z.shiftr x 8));;
          when (2 <? j) (push x);;
          decode_loop src j 0 x
        else decode_loop src j (n + 1) x
  end.

(** [dst]: whether it is not null.  The pointer of the buffer is at [dst]. *)
Definition _base64_decode (dst : bool) (dlen : Z) (src : list Z) : st cursor (Z * option Z) :=
  match decode_scan src 0 0 0 with
  | None => mret (-1, None)
  | Some (n, j) =>
      if n =? 0 then mret (0, Some 0)
      else
        let n := decoded_size n j in
        if negb dst || (dlen <? n) then mret (-1, Some n)
        else
          p ← getptr;
          decode_loop src 3 0 0;;
          q ← getptr;
          mret (0, Some (Z.of_nat q - Z.of_nat p))
  end.

(** ** Encoding *)

Definition enc (i : Z) : st cursor unit := v ← table_at base64_enc_map i; push v.

Fixpoint encode_loop (k : nat) (src : list Z) : st cursor (list Z) :=
  match k with
  | O => mret src
  | S k =>
      match src with
      | C1 :: C2 :: C3 :: src =>
          enc (Z.land (Z.shiftr C1 2) 63);;
          enc (Z.land (Z.shiftl (Z.land C1 3) 4 + Z.shiftr C2 4) 63);;
          enc (Z.land (Z.shiftl (Z.land C2 15) 2 + Z.shiftr C3 6) 63);;
          enc (Z.land C3 63);;
          encode_loop k src
      | _ => undef
      end
  end.

(** What follows the last group of three. *)
Definition encode_rest (src : list Z) : st cursor unit :=
  match src with
  | [] => mret tt
  | C1 :: src =>
      let C2 := default 0 (head src) in
      enc (Z.land (Z.shiftr C1 2) 63);;
      enc (Z.land (Z.shiftl (Z.land C1 3) 4 + Z.shiftr C2 4) 63);;
      (if negb (bool_decide (src = [])) then enc (Z.land (Z.shiftl (Z.land C2 15) 2) 63) else push 61);;
      push 61
  end.

Section encode.
Context (BASE64_SIZE_T_MAX : Z).

Definition _base64_encode (dst : bool) (dlen : Z) (src : list Z) : st cursor (Z * option Z) :=
  let slen := zlen src in
  if slen =? 0 then mret (0, Some 0)
  else
    let n := slen / 3 + (if slen mod 3 =? 0 then 0 else 1) in
    if (BASE64_SIZE_T_MAX - 1) / 4 <? n then mret (-1, Some BASE64_SIZE_T_MAX)
    else
      let n := n * 4 in
      if (dlen <? n + 1) || negb dst then mret (-1, Some (n + 1))
      else
        p ← getptr;
        rest ← encode_loop (Z.to_nat (slen / 3)) src;
        encode_rest rest;;
        q ← getptr;
        store q 0;;
        mret (0, Some (Z.of_nat q - Z.of_nat p)).

(** ** The functions of the interface

    A null source is [None]; [dst] and [out_len] say whether these pointers are
    not null. *)

Definition bad_args (src : option (list Z)) (dst : bool) (dst_len : Z) (out_len : bool) : bool :=
  match src with None | Some [] => true | _ => negb dst || (dst_len =? 0) || negb out_len end.
Definition source_of (src : option (list Z)) : list Z := default [] src.

Definition iot_security_base64_encode (src : option (list Z)) (dst : bool) (dst_len : Z) (out_len : bool)
  : st cursor (Z * option Z) :=
  if bad_args src dst dst_len out_len then mret (IOT_ERROR_SECURITY_INVALID_ARGS, None)
  else
    '(ret, olen) ← _base64_encode dst dst_len (source_of src);
    if negb (ret =? 0) then mret (IOT_ERROR_SECURITY_BASE64_ENCODE, olen) else mret (IOT_ERROR_NONE, olen).

Definition iot_security_base64_decode (src : option (list Z)) (dst : bool) (dst_len : Z) (out_len : bool)
  : st cursor (Z * option Z) :=
  if bad_args src dst dst_len out_len then mret (IOT_ERROR_SECURITY_INVALID_ARGS, None)
  else
    '(ret, olen) ← _base64_decode dst dst_len (source_of src);
    if negb (ret =? 0) then mret (IOT_ERROR_SECURITY_BASE64_DECODE, olen) else mret (IOT_ERROR_NONE, olen).

(** ** The alphabet for URLs *)

(** [switch (buf[i])] for the bytes from [i]. *)
Fixpoint url_encode_loop (k i : nat) : st cursor unit :=
  match k with
  | O => mret tt
  | S k =>
      c ← load i;
      (if c =? 43 then store i 45 else if c =? 47 then store i 95 else mret tt);;
      url_encode_loop k (S i)
  end.
Fixpoint url_decode_loop (k i : nat) : st cursor unit :=
  match k with
  | O => mret tt
  | S k =>
      c ← load i;
      (if c =? 45 then store i 43 else if c =? 95 then store i 47 else mret tt);;
      url_decode_loop k (S i)
  end.

(** [buf] is the buffer from [buf] on; it is not null here. *)
Definition _iot_security_url_encode (buf : nat) (buf_len : Z) : st cursor Z :=
  if buf_len =? 0 then mret IOT_ERROR_SECURITY_INVALID_ARGS
  else url_encode_loop (Z.to_nat buf_len) buf;; mret IOT_ERROR_NONE.
Definition _iot_security_url_decode (buf : nat) (buf_len : Z) : st cursor Z :=
  if buf_len =? 0 then mret IOT_ERROR_SECURITY_INVALID_ARGS
  else url_decode_loop (Z.to_nat buf_len) buf;; mret IOT_ERROR_NONE.

Definition iot_security_base64_encode_urlsafe (src : option (list Z)) (dst : bool) (dst_len : Z) (out_len : bool)
  : st cursor (Z * option Z) :=
  if bad_args src dst dst_len out_len then mret (IOT_ERROR_SECURITY_INVALID_ARGS, None)
  else
    p ← getptr;
    '(ret, olen) ← _base64_encode dst dst_len (source_of src);
    if negb (ret =? 0) then mret (IOT_ERROR_SECURITY_BASE64_URL_ENCODE, olen)
    else
      ret ← _iot_security_url_encode p (default 0 olen);
      if negb (ret =? 0) then mret (IOT_ERROR_SECURITY_BASE64_URL_ENCODE, olen) else mret (IOT_ERROR_NONE, olen).

(** A computation on the bytes of another object: its result, and those bytes
    after it. *)
Definition on_object {A} (m : st cursor A) (object : list Z) : st cursor (A * list Z) := fun c =>
  match m (Cursor object 0) with
  | Ret (a, o) => Ret ((a, cmem o), c)
  | Undef => Undef
  | Hang => Hang
  end.

(** The copy of the source in [src_dup], with ['='] up to the length
    [align_len] and the terminator. *)
Definition fill_dup (src : list Z) (align_len : Z) : st cursor Z :=
  memcpy_at 0 src;;
  memcpy_at (length src) (replicate (Z.to_nat align_len - length src) 61);;
  store (Z.to_nat align_len) 0;;
  _iot_security_url_decode 0 align_len.

(** [malloc] gives the object that [iot_os_malloc] returns for a size. *)
Definition iot_security_base64_decode_urlsafe (malloc : Z -> option (list Z))
  (src : option (list Z)) (dst : bool) (dst_len : Z) (out_len : bool) : st cursor (Z * option Z) :=
  if bad_args src dst dst_len out_len then mret (IOT_ERROR_SECURITY_INVALID_ARGS, None)
  else
    let align_len := IOT_SECURITY_B64_ALIGN_LEN (zlen (source_of src)) in
    match malloc (align_len + 1) with
    | None => mret (IOT_ERROR_SECURITY_MEM_ALLOC, None)
    | Some src_dup =>
        '(ret, src_dup) ← on_object (fill_dup (source_of src) align_len) src_dup;
        if negb (ret =? 0) then mret (IOT_ERROR_SECURITY_BASE64_URL_DECODE, None)
        else
          '(ret, olen) ← _base64_decode dst dst_len (take (Z.to_nat align_len) src_dup);
          if negb (ret =? 0) then mret (IOT_ERROR_SECURITY_BASE64_URL_DECODE, olen) else mret (IOT_ERROR_NONE, olen)
    end.

(** ** SHA-512

    [port_crypto_sha512] is the digest of the TLS library: its result and the
    hash. *)
Definition iot_security_sha512 (port_crypto_sha512 : list Z -> Z * list Z) (input : option (list Z)) (output : bool)
  (output_len : Z) : Z * list Z :=
  match input with
  | None | Some [] => (IOT_ERROR_SECURITY_INVALID_ARGS, [])
  | Some input =>
      if negb output || (output_len <? 64) then (IOT_ERROR_SECURITY_INVALID_ARGS, [])
      else
        let '(ret, hash) := port_crypto_sha512 input in
        if negb (ret =? 0) then (ret, hash) else (IOT_ERROR_NONE, hash)
  end.
End encode.


(** ** What the encoder writes *)

Definition sextet (i : Z) : Z := nth (Z.to_nat i) base64_enc_map 0.

(** The four characters of three bytes, and of what is left over. *)
Definition group3 (a b c : Z) : list Z :=
  [sextet (a / 4); sextet (a mod 4 * 16 + b / 16); sextet (b mod 16 * 4 + c / 64); sextet (c mod 64)].
Definition group2 (a b : Z) : list Z :=
  [sextet (a / 4); sextet (a mod 4 * 16 + b / 16); sextet (b mod 16 * 4); 61].
Definition group1 (a : Z) : list Z := [sextet (a / 4); sextet (a mod 4 * 16); 61; 61].
Fixpoint encoded (l : list Z) : list Z :=
  match l with
  | a :: b :: c :: l => group3 a b c ++ encoded l
  | [a; b] => group2 a b
  | [a] => group1 a
  | [] => []
  end.

(** Induction in steps of three. *)
Lemma list_ind3 {A} (P : list A -> Prop) :
  P [] -> (forall a, P [a]) -> (forall a b, P [a; b]) -> (forall a b c l, P l -> P (a :: b :: c :: l)) -> forall l, P l.
Proof.
  intros H0 H1 H2 H3. fix IH 1. intros [|a [|b [|c l]]]; [exact H0|apply H1|apply H2|apply H3, IH].
Qed.

Lemma encoded_length l : zlen (encoded l) = (zlen l + 2) / 3 * 4.
Proof.
  induction l as [|a|a b|a b c l IH] using list_ind3; [reflexivity..|].
  cbn [encoded]. rewrite zlen_app, IH, !zlen_cons. change (zlen (group3 a b c)) with 4.
  replace (1 + (1 + (1 + zlen l)) + 2) with (zlen l + 2 + 1 * 3) by lia. rewrite Z.div_add by lia. lia.
Qed.

(** Texts of whole groups can be put together. *)
Lemma encoded_app l k : zlen l mod 3 = 0 -> encoded (l ++ k) = encoded l ++ encoded k.
Proof.
  induction l as [|a|a b|a b c l IH] using list_ind3; intros H; [done|discriminate H..|].
  cbn [encoded app]. rewrite IH, app_assoc; [done|].
  rewrite !zlen_cons in H. replace (1 + (1 + (1 + zlen l))) with (zlen l + 1 * 3) in H by lia.
  by rewrite Z.mod_add in H by lia.
Qed.

Lemma sextet_lookup i : 0 <= i < 64 -> base64_enc_map !! Z.to_nat i = Some (sextet i).
Proof.
  intros H. unfold sextet.
  destruct (base64_enc_map !! Z.to_nat i) as [v|] eqn:E; [by rewrite (nth_lookup_Some _ _ _ _ E)|].
  apply lookup_ge_None in E. change (length base64_enc_map) with 64%nat in E. lia.
Qed.

(** The characters of the alphabet: no white space, no ['='], not the ones of
    the alphabet for URLs, and decoded to their number. *)
Definition char_ok (i : Z) : bool :=
  let c := sextet i in
  negb (c =? 32) && negb (c =? 13) && negb (c =? 10) && negb (c =? 61) && negb (c =? 45) && negb (c =? 95) &&
  (0 <=? c) && (c <=? 127) && bool_decide (base64_dec_map !! Z.to_nat c = Some i).
Lemma sextet_ok i : 0 <= i < 64 -> char_ok i = true.
Proof. intros H. by apply (forallb_seqZ char_ok 64). Qed.

Record is_char (i c : Z) : Prop := {
  char_no_space : (c =? 32) = false; char_no_cr : (c =? 13) = false; char_no_lf : (c =? 10) = false;
  char_no_pad : (c =? 61) = false; char_no_minus : (c =? 45) = false; char_no_line : (c =? 95) = false;
  char_range : 0 <= c <= 127; char_index : base64_dec_map !! Z.to_nat c = Some i
}.
Lemma sextet_char i : 0 <= i < 64 -> is_char i (sextet i).
Proof.
  intros H. pose proof (sextet_ok i H) as E. unfold char_ok in E. rewrite !andb_true_iff, !negb_true_iff in E.
  rewrite bool_decide_eq_true, !Z.leb_le in E. destruct_and!. by split.
Qed.

Lemma emits_push v : emits (push v) [to_uchar v] tt.
Proof. apply emits_store_advance. Qed.

Lemma emits_enc i : 0 <= i < 64 -> emits (enc i) [sextet i] tt.
Proof.
  intros H. unfold enc, table_at. rewrite (proj2 (Z.leb_le 0 i)), sextet_lookup by lia.
  intros p mem Hm. unfold need. rewrite bind_mret.
  replace [sextet i] with [to_uchar (sextet i)] in *; [by apply emits_push|].
  pose proof (char_range _ _ (sextet_char i H)). rewrite to_uchar_id; [done|split; lia].
Qed.

(** The bit operations of the encoder on bytes. *)
Lemma high_six a : is_byte a -> Z.land (Z.shiftr a 2) 63 = a / 4 /\ 0 <= a / 4 < 64.
Proof.
  intros [??]. rewrite Z.shiftr_div_pow2 by lia. change 63 with (Z.ones 6). rewrite Z.land_ones by lia.
  change (2 ^ 2) with 4. change (2 ^ 6) with 64. assert (0 <= a / 4 < 64) by (split; [apply Z.div_pos|apply Z.div_lt_upper_bound]; lia).
  split; [by apply Z.mod_small|done].
Qed.
Lemma low_six a : Z.land a 63 = a mod 64 /\ 0 <= a mod 64 < 64.
Proof. change 63 with (Z.ones 6). rewrite Z.land_ones by lia. split; [done|by apply Z.mod_pos_bound]. Qed.
Lemma two_four a b : is_byte b ->
  Z.land (Z.shiftl (Z.land a 3) 4 + Z.shiftr b 4) 63 = a mod 4 * 16 + b / 16 /\ 0 <= a mod 4 * 16 + b / 16 < 64.
Proof.
  intros [??]. change 3 with (Z.ones 2). change 63 with (Z.ones 6).
  rewrite !Z.land_ones, Z.shiftr_div_pow2, Z.shiftl_mul_pow2 by lia.
  change (2 ^ 2) with 4. change (2 ^ 4) with 16. change (2 ^ 6) with 64.
  pose proof (Z.mod_pos_bound a 4 ltac:(lia)).
  assert (0 <= b / 16 < 16) by (split; [apply Z.div_pos|apply Z.div_lt_upper_bound]; lia).
  split; [apply Z.mod_small|]; lia.
Qed.
Lemma four_two b c : is_byte c ->
  Z.land (Z.shiftl (Z.land b 15) 2 + Z.shiftr c 6) 63 = b mod 16 * 4 + c / 64 /\ 0 <= b mod 16 * 4 + c / 64 < 64.
Proof.
  intros [??]. change 15 with (Z.ones 4). change 63 with (Z.ones 6).
  rewrite !Z.land_ones, Z.shiftr_div_pow2, Z.shiftl_mul_pow2 by lia.
  change (2 ^ 2) with 4. change (2 ^ 4) with 16. change (2 ^ 6) with 64.
  pose proof (Z.mod_pos_bound b 16 ltac:(lia)).
  assert (0 <= c / 64 < 4) by (split; [apply Z.div_pos|apply Z.div_lt_upper_bound]; lia).
  split; [apply Z.mod_small|]; lia.
Qed.

Lemma emits_cons {A} (m : st cursor unit) (k : st cursor A) v bs a :
  emits m [v] tt -> emits k bs a -> emits (m;; k) (v :: bs) a.
Proof. intros Hm Hk. exact (emits_bind m (fun _ => k) [v] bs tt a Hm Hk). Qed.

Ltac six L := let E := fresh in let B := fresh in destruct L as [E B]; rewrite E; clear E.

(** Three bytes are one group. *)
Lemma emits_group3 {A} a b c (k : st cursor A) bs r :
  is_byte a -> is_byte b -> is_byte c -> emits k bs r ->
  emits (enc (Z.land (Z.shiftr a 2) 63);;
         enc (Z.land (Z.shiftl (Z.land a 3) 4 + Z.shiftr b 4) 63);;
         enc (Z.land (Z.shiftl (Z.land b 15) 2 + Z.shiftr c 6) 63);;
         enc (Z.land c 63);; k) (group3 a b c ++ bs) r.
Proof.
  intros Ha Hb Hc Hk. six (high_six a Ha). six (two_four a b Hb). six (four_two b c Hc). six (low_six c).
  repeat (apply emits_cons; [by apply emits_enc|]). exact Hk.
Qed.

(** The groups of three, and what follows them. *)
Lemma encode_emits l : bytes l ->
  exists rest, emits (encode_loop (Z.to_nat (zlen l / 3)) l) (encoded (take (Z.to_nat (zlen l / 3) * 3) l)) rest /\
    emits (encode_rest rest) (encoded rest) tt /\
    encoded (take (Z.to_nat (zlen l / 3) * 3) l) ++ encoded rest = encoded l.
Proof.
  induction l as [|a|a b|a b c l IH] using list_ind3; intros Hb.
  - exists []. split_and!; try apply emits_ret. done.
  - apply Forall_cons in Hb as [Ha _]. exists [a]. split_and!; [apply emits_ret| |done].
    cbn [encode_rest encoded head default]. six (high_six a Ha).
    six (two_four a 0 ltac:(split; lia)). rewrite Z.div_0_l, Z.add_0_r in * by lia.
    apply emits_cons; [by apply emits_enc|]. apply emits_cons; [by apply emits_enc|].
    apply emits_cons; apply (emits_push 61).
  - apply Forall_cons in Hb as [Ha Hb]. apply Forall_cons in Hb as [Hb _].
    exists [a; b]. split_and!; [apply emits_ret| |done].
    cbn [encode_rest encoded head from_option id]. six (high_six a Ha). six (two_four a b Hb).
    pose proof (four_two b 0 ltac:(split; lia)) as [E B]. change (Z.shiftr 0 6) with 0 in E.
    rewrite Z.div_0_l, !Z.add_0_r in * by lia. rewrite E.
    apply emits_cons; [by apply emits_enc|]. apply emits_cons; [by apply emits_enc|].
    apply emits_cons; [by apply emits_enc|apply (emits_push 61)].
  - apply Forall_cons in Hb as [Ha Hb]. apply Forall_cons in Hb as [Hb Hl]. apply Forall_cons in Hl as [Hc Hl].
    destruct (IH Hl) as (rest & E1 & E2 & E3). exists rest.
    replace (Z.to_nat (zlen (a :: b :: c :: l) / 3)) with (S (Z.to_nat (zlen l / 3))).
    2: { rewrite !zlen_cons. replace (1 + (1 + (1 + zlen l))) with (zlen l + 1 * 3) by lia.
         rewrite Z.div_add by lia. pose proof (Z.div_pos (zlen l) 3 (zlen_nonneg l)). lia. }
    cbn [Nat.mul Nat.add take encoded]. split_and!; [|done|by rewrite <- E3, app_assoc].
    cbn [encode_loop]. by apply emits_group3.
Qed.

Lemma groups_count n : 0 <= n -> n / 3 + (if n mod 3 =? 0 then 0 else 1) = (n + 2) / 3.
Proof. intros H. destruct (Z.eqb_spec (n mod 3) 0); Z.to_euclidean_division_equations; lia. Qed.

(** The encoder on a buffer that is large enough. *)
Lemma base64_encode_writes size_max dlen src mem p :
  bytes src -> src <> [] -> IOT_SECURITY_B64_ENCODE_LEN (zlen src) <= dlen <= size_max ->
  Z.of_nat p + dlen <= zlen mem ->
  _base64_encode size_max true dlen src (Cursor mem p) =
    Ret ((0, Some (zlen (encoded src))), Cursor (put mem p (encoded src ++ [0])) (p + length (encoded src))).
Proof.
  intros Hb Hne Hd Hm. unfold IOT_SECURITY_B64_ENCODE_LEN in Hd. unfold _base64_encode.
  assert (zlen src =? 0 = false) as -> by (apply Z.eqb_neq; destruct src; [done|rewrite zlen_cons; pose proof (zlen_nonneg src); lia]).
  rewrite groups_count by apply zlen_nonneg.
  assert ((size_max - 1) / 4 <? (zlen src + 2) / 3 = false) as -> by (apply Z.ltb_ge, Z.div_le_lower_bound; lia).
  rewrite (proj2 (Z.ltb_ge dlen _)) by lia. cbn [orb negb]. rewrite bind_getptr.
  destruct (encode_emits src Hb) as (rest & E1 & E2 & E3).
  pose proof (encoded_length src) as El. rewrite <- E3 in El |- *. rewrite zlen_app in El.
  set (e1 := encoded (take _ _)) in *. set (e2 := encoded rest) in *. unfold zlen in *.
  assert (p + length e1 <= length mem)%nat as Hr1 by lia.
  assert (p + length e1 + length e2 <= length mem)%nat as Hr2 by lia.
  rewrite (bind_ret _ _ _ _ _ (E1 p mem Hr1)).
  rewrite (bind_ret _ _ _ _ _ (E2 (p + length e1)%nat (put mem p e1) ltac:(rewrite length_put; lia))).
  rewrite bind_getptr, put_put, <- Nat.add_assoc, <- length_app by lia.
  unfold store, mbind, st_bind. cbn [cmem cptr].
  rewrite decide_True by (rewrite length_put; rewrite ?length_app; lia).
  change (to_uchar 0) with 0. unfold mret, st_ret.
  rewrite insert_put by (rewrite length_put; rewrite ?length_app; lia). rewrite put_put by (rewrite length_app; simpl; lia).
  repeat f_equal. lia.
Qed.

Lemma security_encode_writes size_max dlen src mem p :
  bytes src -> src <> [] -> IOT_SECURITY_B64_ENCODE_LEN (zlen src) <= dlen <= size_max -> Z.of_nat p + dlen <= zlen mem ->
  iot_security_base64_encode size_max (Some src) true dlen true (Cursor mem p) =
    Ret ((IOT_ERROR_NONE, Some (zlen (encoded src))), Cursor (put mem p (encoded src ++ [0])) (p + length (encoded src))).
Proof.
  intros Hb Hne Hd Hm. pose proof (zlen_nonneg src). unfold iot_security_base64_encode, bad_args. destruct src as [|b src]; [done|].
  rewrite (proj2 (Z.eqb_neq dlen 0)) by (unfold IOT_SECURITY_B64_ENCODE_LEN in Hd; Z.to_euclidean_division_equations; lia). cbn [negb orb].
  by rewrite (bind_ret _ _ _ _ _ (base64_encode_writes size_max dlen (b :: src) mem p Hb Hne Hd Hm)).
Qed.

(** ** What the decoder reads *)

(** The characters that stand for [i], one after the other, in the scan and in
    the loop. *)
Lemma scan_sextet i rest n : 0 <= i < 64 -> decode_scan (sextet i :: rest) n 0 0 = decode_scan rest (n + 1) 0 0.
Proof.
  intros H. destruct (sextet_char i H) as [E1 E2 E3 E4 _ _ Hc Ei].
  cbn [decode_scan]. rewrite Ei, E1, E2, E3, E4.
  rewrite (proj2 (Z.ltb_ge 127 _)) by lia. cbn [negb andb Z.eqb Z.ltb Z.compare].
  rewrite (proj2 (Z.eqb_neq i 127)), andb_false_r by lia. done.
Qed.

Lemma bind_need {S A B} (a : A) (k : A -> st S B) : (need (Some a) ≫= k) = k a.
Proof. reflexivity. Qed.

Definition six_more (x i : Z) : Z := to_uint (Z.lor (Z.shiftl x 6) (Z.land i 63)).

Lemma loop_sextet i rest j n x : 0 <= i < 64 -> to_uint j = j -> n + 1 <> 4 ->
  decode_loop (sextet i :: rest) j n x = decode_loop rest j (n + 1) (six_more x i).
Proof.
  intros H Hj Hn. destruct (sextet_char i H) as [E1 E2 E3 E4 _ _ Hc Ei].
  cbn [decode_loop]. unfold table_at. rewrite Ei, E1, E2, E3.
  rewrite (proj2 (Z.leb_le 0 _)) by lia. cbn [orb]. rewrite bind_need. cbv zeta.
  rewrite (proj2 (Z.eqb_neq (n + 1) 4)), (proj2 (Z.eqb_neq i 64)), Z.sub_0_r, Hj by lia. reflexivity.
Qed.

Lemma loop_last i rest n x bs : 0 <= i < 64 -> n + 1 = 4 ->
  emits (decode_loop rest 3 0 (six_more x i)) bs tt ->
  emits (decode_loop (sextet i :: rest) 3 n x)
    (to_uchar (Z.shiftr (six_more x i) 16) :: to_uchar (Z.shiftr (six_more x i) 8) :: to_uchar (six_more x i) :: bs) tt.
Proof.
  intros H Hn Hk. destruct (sextet_char i H) as [E1 E2 E3 E4 _ _ Hc Ei].
  cbn [decode_loop]. unfold table_at. rewrite Ei, E1, E2, E3.
  rewrite (proj2 (Z.leb_le 0 _)) by lia. cbn [orb]. rewrite bind_need. cbv zeta.
  rewrite (proj2 (Z.eqb_eq (n + 1) 4)), (proj2 (Z.eqb_neq i 64)) by lia.
  change (to_uint (3 - 0)) with 3. cbn [when Z.ltb Z.compare Pos.compare Pos.compare_cont].
  repeat (apply emits_cons; [apply emits_push|]). exact Hk.
Qed.

Lemma land_shifted x i : 0 <= i < 64 -> Z.land (Z.shiftl x 6) i = 0.
Proof.
  intros Hi. apply Z.bits_inj'. intros k Hk. rewrite Z.land_spec, Z.shiftl_spec, Z.bits_0 by lia.
  destruct (Z.lt_ge_cases k 6); [by rewrite Z.testbit_neg_r by lia|].
  rewrite <- (Z.mod_small i (2 ^ 6)), Z.mod_pow2_bits_high by (simpl; lia). apply andb_false_r.
Qed.

Lemma six_more_eq x i : 0 <= x -> 0 <= i < 64 -> six_more x i = (x * 64 + i) mod 4294967296.
Proof.
  intros Hx Hi. unfold six_more, to_uint. f_equal.
  replace (Z.land i 63) with i by (change 63 with (Z.ones 6); rewrite Z.land_ones by lia; symmetry; by apply Z.mod_small).
  rewrite <- Z.lxor_lor, <- Z.add_nocarry_lxor, Z.shiftl_mul_pow2 by (lia || by apply land_shifted). done.
Qed.

Definition six_all (x i1 i2 i3 i4 : Z) : Z := six_more (six_more (six_more (six_more x i1) i2) i3) i4.

Lemma mod_times_add M a k b : M <> 0 -> (a mod M * k + b) mod M = (a * k + b) mod M.
Proof. intros H. rewrite <- Z.add_mod_idemp_l, Z.mul_mod_idemp_l, Z.add_mod_idemp_l by done. done. Qed.

(** The three bytes of four numbers, whatever was in [x] before. *)
Lemma six_all_bytes x i1 i2 i3 i4 :
  0 <= x -> 0 <= i1 < 64 -> 0 <= i2 < 64 -> 0 <= i3 < 64 -> 0 <= i4 < 64 ->
  let X := six_all x i1 i2 i3 i4 in
  to_uchar (Z.shiftr X 16) = i1 * 4 + i2 / 16 /\ to_uchar (Z.shiftr X 8) = i2 mod 16 * 16 + i3 / 4 /\
  to_uchar X = i3 mod 4 * 64 + i4 /\ 0 <= X.
Proof.
  intros Hx H1 H2 H3 H4. cbv zeta. unfold six_all.
  rewrite (six_more_eq x i1), (six_more_eq _ i2), (six_more_eq _ i3), (six_more_eq _ i4)
    by first [assumption|apply six_more_eq; assumption|unfold six_more, to_uint; apply Z.mod_pos_bound; lia|apply Z.mod_pos_bound; lia].
  set (v := i1 * 262144 + i2 * 4096 + i3 * 64 + i4). set (M := 4294967296).
  assert (((((x * 64 + i1) mod M * 64 + i2) mod M * 64 + i3) mod M * 64 + i4) mod M = (x * 16777216 + v) mod M) as ->.
  { rewrite (mod_times_add M _ 64 i4) by done.
    replace (((((x * 64 + i1) mod M * 64 + i2) mod M * 64 + i3) * 64 + i4))
      with (((x * 64 + i1) mod M * 64 + i2) mod M * 4096 + (i3 * 64 + i4)) by lia.
    rewrite mod_times_add by done.
    replace (((x * 64 + i1) mod M * 64 + i2) * 4096 + (i3 * 64 + i4))
      with ((x * 64 + i1) mod M * 262144 + (i2 * 4096 + i3 * 64 + i4)) by lia.
    rewrite mod_times_add by done. f_equal. unfold v. lia. }
  rewrite !Z.shiftr_div_pow2 by lia. unfold to_uchar. change (2 ^ 16) with 65536. change (2 ^ 8) with 256.
  subst M v. split_and!; Z.to_euclidean_division_equations; lia.
Qed.

(** ['='] in the second pass, not at the end of a group and there. *)
Lemma table_pad {B} (k : Z -> st cursor B) : (table_at base64_dec_map 61 ≫= k) = k 64.
Proof. reflexivity. Qed.
Lemma loop_pad rest j n x : n + 1 <> 4 ->
  decode_loop (61 :: rest) j n x = decode_loop rest (to_uint (j - 1)) (n + 1) (six_more x 0).
Proof. intros Hn. cbn [decode_loop]. rewrite table_pad. cbv zeta. by rewrite (proj2 (Z.eqb_neq (n + 1) 4)) by lia. Qed.

Ltac pushes := repeat (apply emits_cons; [apply emits_push|]).
Lemma loop_pad_last2 x : emits (decode_loop [61] 3 3 x)
  [to_uchar (Z.shiftr (six_more x 0) 16); to_uchar (Z.shiftr (six_more x 0) 8)] tt.
Proof. cbn [decode_loop]. rewrite table_pad. cbn. pushes. apply emits_ret. Qed.
Lemma loop_pad_last1 x : emits (decode_loop [61] 2 3 x) [to_uchar (Z.shiftr (six_more x 0) 16)] tt.
Proof. cbn [decode_loop]. rewrite table_pad. cbn. pushes. apply emits_ret. Qed.

(** Bytes from the four numbers of their group. *)
Lemma group_numbers a b c : is_byte a -> is_byte b -> is_byte c ->
  0 <= a / 4 < 64 /\ 0 <= a mod 4 * 16 + b / 16 < 64 /\ 0 <= b mod 16 * 4 + c / 64 < 64 /\ 0 <= c mod 64 < 64 /\
  a / 4 * 4 + (a mod 4 * 16 + b / 16) / 16 = a /\
  (a mod 4 * 16 + b / 16) mod 16 * 16 + (b mod 16 * 4 + c / 64) / 4 = b /\
  (b mod 16 * 4 + c / 64) mod 4 * 64 + c mod 64 = c.
Proof. unfold is_byte. intros. split_and!; Z.to_euclidean_division_equations; lia. Qed.

(** The padding of the text of [l]. *)
Definition padding (l : list Z) : Z := (3 - zlen l mod 3) mod 3.

Lemma scan_pads n : decode_scan [61] n 0 0 = Some (n + 1, 1) /\ decode_scan [61; 61] n 0 0 = Some (n + 1 + 1, 2).
Proof. split; reflexivity. Qed.

Lemma scan_encoded l n : bytes l -> decode_scan (encoded l) n 0 0 = Some (n + zlen (encoded l), padding l).
Proof.
  revert n. induction l as [|a|a b|a b c l IH] using list_ind3; intros n Hb.
  - cbn. by rewrite Z.add_0_r.
  - apply Forall_cons in Hb as [Ha _]. destruct (group_numbers a 0 0) as (?&?&?&?&?&?&?); [done|split; lia..|].
    rewrite Z.div_0_l, Z.add_0_r in * by lia. cbn [encoded]. unfold group1. rewrite !scan_sextet by done.
    rewrite (proj2 (scan_pads _)), !zlen_cons. f_equal. f_equal. rewrite zlen_nil. lia.
  - apply Forall_cons in Hb as [Ha Hb]. apply Forall_cons in Hb as [Hb _].
    destruct (group_numbers a b 0) as (?&?&?&?&?&?&?); [done..|split; lia|].
    rewrite Z.div_0_l, Z.add_0_r in * by lia. cbn [encoded]. unfold group2. rewrite !scan_sextet by done.
    rewrite (proj1 (scan_pads _)), !zlen_cons. f_equal. f_equal. rewrite zlen_nil. lia.
  - apply Forall_cons in Hb as [Ha Hb]. apply Forall_cons in Hb as [Hb Hl]. apply Forall_cons in Hl as [Hc Hl].
    destruct (group_numbers a b c) as (?&?&?&?&?&?&?); [done..|].
    cbn [encoded]. unfold group3. cbn [app]. rewrite !scan_sextet, IH, !zlen_cons by done. f_equal. f_equal; [lia|].
    unfold padding. rewrite !zlen_cons. replace (1 + (1 + (1 + zlen l))) with (zlen l + 1 * 3) by lia.
    by rewrite Z.mod_add by lia.
Qed.

Lemma loop_encoded l x : bytes l -> 0 <= x -> emits (decode_loop (encoded l) 3 0 x) l tt.
Proof.
  revert x. induction l as [|a|a b|a b c l IH] using list_ind3; intros x Hb Hx.
  - apply emits_ret.
  - apply Forall_cons in Hb as [Ha _]. destruct (group_numbers a 0 0) as (?&?&?&?&E&?&?); [done|split; lia..|].
    rewrite Z.div_0_l, Z.add_0_r in * by lia. cbn [encoded]. unfold group1.    rewrite !loop_sextet, loop_pad by (done || lia). change (to_uint (3 - 1)) with 2.
    destruct (six_all_bytes x (a / 4) (a mod 4 * 16) 0 0) as (E1 & _); [done || lia..|].
    replace [a] with [to_uchar (Z.shiftr (six_all x (a / 4) (a mod 4 * 16) 0 0) 16)] by (by rewrite E1, E).
    apply loop_pad_last1.
  - apply Forall_cons in Hb as [Ha Hb]. apply Forall_cons in Hb as [Hb _].
    destruct (group_numbers a b 0) as (?&?&?&?&E&E'&?); [done..|split; lia|].
    rewrite Z.div_0_l, Z.add_0_r in * by lia. cbn [encoded]. unfold group2.
    rewrite !loop_sextet by (done || lia).
    destruct (six_all_bytes x (a / 4) (a mod 4 * 16 + b / 16) (b mod 16 * 4) 0) as (E1 & E2 & _); [done || lia..|].
    rewrite E in E1. rewrite E' in E2. set (X := six_all _ _ _ _ _) in *.
    replace [a; b] with [to_uchar (Z.shiftr X 16); to_uchar (Z.shiftr X 8)] by (by rewrite E1, E2). apply loop_pad_last2.
  - apply Forall_cons in Hb as [Ha Hb]. apply Forall_cons in Hb as [Hb Hl]. apply Forall_cons in Hl as [Hc Hl].
    destruct (group_numbers a b c) as (?&?&?&?&E&E'&E''); [done..|].
    cbn [encoded]. unfold group3. cbn [app]. rewrite !loop_sextet by (done || lia).
    destruct (six_all_bytes x (a / 4) (a mod 4 * 16 + b / 16) (b mod 16 * 4 + c / 64) (c mod 64)) as (E1 & E2 & E3 & HX); [done..|].
    rewrite E in E1. rewrite E' in E2. rewrite E'' in E3. set (X := six_all _ _ _ _ _) in *.
    replace (a :: b :: c :: l) with (to_uchar (Z.shiftr X 16) :: to_uchar (Z.shiftr X 8) :: to_uchar X :: l)
      by (by rewrite E1, E2, E3).
    apply loop_last; [done|lia|by apply IH].
Qed.

(** ** Decoding any text *)

(** How the number [w] of bytes written relates to the characters that have
    been read: three for a group, less the padding in it. *)
Definition written (n j w : Z) : Prop :=
  0 <= n /\ 0 <= j <= 2 /\
  (j <= n mod 4 /\ w = 3 * (n / 4) \/ exists e, 0 < e /\ j = e + n mod 4 /\ w = 3 * (n / 4) - e).

Lemma written_next n j w : written n j w -> j = 0 -> written (n + 1) j (if n mod 4 =? 3 then w + 3 else w).
Proof.
  intros (Hn & Hj & H) E. split_and!; [lia..|]. left.
  assert (w = 3 * (n / 4)) as -> by (destruct H as [[_ H]|(e & ? & ? & ?)]; [done|Z.to_euclidean_division_equations; lia]).
  case_if; bool_to_prop; Z.to_euclidean_division_equations; lia.
Qed.

Lemma written_pad n j w : written n j w -> j + 1 <= 2 ->
  written (n + 1) (j + 1) (if n mod 4 =? 3 then w + (2 - j) else w).
Proof.
  intros (Hn & Hj & H) E. split_and!; [lia..|].
  destruct (Z.eqb_spec (n mod 4) 3) as [E3|E3].
  - right. destruct H as [[H ->]|(e & He & Hje & ->)]; [|lia].
    exists (j + 1). split_and!; Z.to_euclidean_division_equations; lia.
  - destruct H as [[H ->]|(e & He & Hje & ->)]; [left|right; exists e]; split_and!; Z.to_euclidean_division_equations; lia.
Qed.

Lemma decoded_size_eq n j : 0 <= n -> decoded_size n j = 3 * (n / 4) + n mod 4 - j.
Proof.
  intros Hn. unfold decoded_size. rewrite !Z.shiftr_div_pow2 by lia. change 7 with (Z.ones 3) at 1. rewrite Z.land_ones by lia.
  change (2 ^ 3) with 8. Z.to_euclidean_division_equations; lia.
Qed.

Lemma written_size n j w : written n j w -> w <= decoded_size n j.
Proof.
  intros (Hn & Hj & H). rewrite decoded_size_eq by done.
  destruct H as [[H ->]|(e & He & Hje & ->)]; lia.
Qed.

(** What the table holds of a character that passes. *)
Definition entry_ok (c : Z) : bool :=
  match base64_dec_map !! Z.to_nat c with
  | Some m => (m =? 127) || negb (c =? 13) && (if c =? 61 then m =? 64 else (0 <=? m) && (m <? 64))
  | None => true
  end.
Lemma dec_entry c m : base64_dec_map !! Z.to_nat c = Some m -> m <> 127 ->
  0 <= c /\ c <> 13 /\ (c = 61 /\ m = 64 \/ c <> 61 /\ 0 <= m < 64).
Proof.
  intros E Hm. destruct (Z.lt_ge_cases c 0) as [Hc|Hc].
  { destruct c; [lia|lia|]. injection E as <-. done. }
  assert (c < 128) as Hc' by (apply lookup_lt_Some in E; change (length base64_dec_map) with 128%nat in E; lia).
  pose proof (forallb_seqZ entry_ok 128 c eq_refl ltac:(lia)) as H. unfold entry_ok in H. rewrite E in H.
  rewrite (proj2 (Z.eqb_neq m 127) Hm) in H. cbn [orb] in H. apply andb_true_iff in H as [H1 H2].
  apply negb_true_iff in H1. split_and!; [done|lia|].
  destruct (Z.eqb_spec c 61); bool_to_prop; [left|right]; done.
Qed.

(** The end of a group in the second pass. *)
Lemma emits_group_end j x : 1 <= j <= 3 ->
  exists out, zlen out = j /\ forall k bs, emits k bs tt ->
    emits (when (0 <? j) (push (Z.shiftr x 16));; when (1 <? j) (push (Z.shiftr x 8));; when (2 <? j) (push x);; k) (out ++ bs) tt.
Proof.
  intros Hj. assert (j = 1 \/ j = 2 \/ j = 3) as [-> | [-> | ->]] by lia.
  - eexists [_]. split; [done|]. intros k bs Hk. exact (emits_cons _ _ _ _ _ (emits_push _) Hk).
  - eexists [_; _]. split; [done|]. intros k bs Hk.
    exact (emits_cons _ _ _ _ _ (emits_push _) (emits_cons _ _ _ _ _ (emits_push _) Hk)).
  - eexists [_; _; _]. split; [done|]. intros k bs Hk.
    exact (emits_cons _ _ _ _ _ (emits_push _) (emits_cons _ _ _ _ _ (emits_push _) (emits_cons _ _ _ _ _ (emits_push _) Hk))).
Qed.

Lemma next_in_group n : 0 <= n -> (n + 1) mod 4 = if n mod 4 =? 3 then 0 else n mod 4 + 1.
Proof. intros H. case_if; bool_to_prop; Z.to_euclidean_division_equations; lia. Qed.

(** One character of a text that is accepted, in the second pass. *)
Lemma loop_step c rest m n j d x :
  base64_dec_map !! Z.to_nat c = Some m -> m <> 127 -> c <> 10 -> c <> 32 ->
  d = (if m =? 64 then 1 else 0) -> 0 <= n -> 0 <= j -> j + d <= 2 ->
  exists out y, zlen out = (if n mod 4 =? 3 then 3 - (j + d) else 0) /\
    forall bs, emits (decode_loop rest (3 - (j + d)) ((n + 1) mod 4) y) bs tt ->
      emits (decode_loop (c :: rest) (3 - j) (n mod 4) x) (out ++ bs) tt.
Proof.
  intros Em H127 H10 H32 -> Hn Hj Hd. destruct (dec_entry c m Em H127) as (Hc & H13 & _).
  cbn [decode_loop]. unfold table_at.
  rewrite (proj2 (Z.eqb_neq c 13)), (proj2 (Z.eqb_neq c 10)), (proj2 (Z.eqb_neq c 32)), (proj2 (Z.leb_le 0 c)), Em by done.
  cbn [orb]. rewrite bind_need. cbv zeta. set (d := if m =? 64 then 1 else 0) in *.
  assert (0 <= d) by (unfold d; by case_if).
  replace (to_uint (3 - j - d)) with (3 - (j + d)) by (unfold to_uint; rewrite Z.mod_small by lia; lia).
  set (y := to_uint _). rewrite next_in_group by done.
  destruct (Z.eqb_spec (n mod 4) 3) as [E|E].
  - destruct (emits_group_end (3 - (j + d)) y ltac:(lia)) as (out & Hout & Hk). exists out, y. split; [done|].
    intros bs Hbs. rewrite (proj2 (Z.eqb_eq (n mod 4 + 1) 4)) by lia. by apply Hk.
  - exists [], y. split; [done|]. intros bs Hbs. by rewrite (proj2 (Z.eqb_neq (n mod 4 + 1) 4)) by lia.
Qed.

(** The second pass on a text that the first one accepts. *)
Lemma loop_scanned src n j x w sp N J :
  decode_scan src n j sp = Some (N, J) -> written n j w ->
  exists bs, emits (decode_loop src (3 - j) (n mod 4) x) bs tt /\ written N J (w + zlen bs).
Proof.
  revert n j x w sp. induction src as [|c src IH]; intros n j x w sp Hs Hw.
  { injection Hs as -> ->. exists []. split; [apply emits_ret|]. rewrite zlen_nil. by rewrite Z.add_0_r. }
  cbn [decode_scan] in Hs.
  destruct (Z.eqb_spec c 32) as [->|H32]; [by apply (IH n j x w _ Hs)|].
  destruct ((c =? 13) && _) eqn:E13.
  { apply andb_true_iff in E13 as [->%Z.eqb_eq _]. by apply (IH n j x w _ Hs). }
  destruct (Z.eqb_spec c 10) as [->|H10]; [by apply (IH n j x w _ Hs)|].
  destruct (negb (sp =? 0)); [done|]. cbv zeta in Hs.
  destruct ((c =? 61) && _) eqn:E2; [done|]. destruct (127 <? c); [done|].
  destruct (base64_dec_map !! Z.to_nat c) as [m|] eqn:Em; [|done].
  destruct (Z.eqb_spec m 127) as [|H127]; [done|].
  destruct (dec_entry c m Em H127) as (Hc & H13 & Hcm). pose proof Hw as (Hn & Hj & _).
  remember (if m =? 64 then 1 else 0) as d eqn:Ed.
  assert (c = 61 /\ m = 64 /\ d = 1 \/ c <> 61 /\ 0 <= m < 64 /\ d = 0) as Hd.
  { destruct Hcm as [[-> ->]|[H61 Hm]]; [left; done|right]. by rewrite (proj2 (Z.eqb_neq m 64)) in Ed by lia. }
  assert ((if c =? 61 then to_uint (j + 1) else j) = j + d) as Ejd.
  { destruct Hd as [(-> & -> & ->)|(H61 & Hm & ->)]; [change (to_uint (j + 1) = j + 1); apply Z.mod_small; lia|].
    rewrite (proj2 (Z.eqb_neq c 61)) by done. lia. }
  rewrite Ejd in *. destruct ((m <? 64) && _) eqn:E3; [done|].
  assert (j + d <= 2 /\ written (n + 1) (j + d) (if n mod 4 =? 3 then w + (3 - (j + d)) else w)) as [Hjd Hw'].
  { destruct Hd as [(-> & -> & ->)|(H61 & Hm & ->)].
    - cbn in E2. apply Z.ltb_ge in E2. split; [done|]. replace (3 - (j + 1)) with (2 - j) by lia. by apply written_pad.
    - rewrite (proj2 (Z.ltb_lt m 64)) in E3 by lia. cbn in E3.
      apply negb_false_iff, Z.eqb_eq in E3. assert (j = 0) as -> by lia. split; [lia|]. by apply (written_next n 0 w). }
  destruct (loop_step c src m n j d x) as (out & y & Hout & Hk); [done..|lia|done|].
  destruct (IH _ _ y _ _ Hs Hw') as (bs & Hbs & Hwb). exists (out ++ bs). split; [by apply Hk|].
  rewrite zlen_app, Hout. case_if; [by rewrite Z.add_assoc|]. by rewrite Z.add_0_l.
Qed.

(** The decoder on a text of the encoder. *)
Lemma base64_decode_writes dlen l mem p :
  bytes l -> l <> [] -> zlen l <= dlen -> Z.of_nat p + dlen <= zlen mem ->
  _base64_decode true dlen (encoded l) (Cursor mem p) =
    Ret ((0, Some (zlen l)), Cursor (put mem p l) (p + length l)).
Proof.
  intros Hb Hne Hd Hm. unfold _base64_decode. rewrite scan_encoded, Z.add_0_l by done.
  assert (0 < zlen l) as Hl by (destruct l; [done|rewrite zlen_cons; pose proof (zlen_nonneg l); lia]).
  assert (decoded_size (zlen (encoded l)) (padding l) = zlen l) as ->.
  { rewrite decoded_size_eq, encoded_length by apply zlen_nonneg. unfold padding. Z.to_euclidean_division_equations; lia. }
  rewrite encoded_length, (proj2 (Z.eqb_neq ((zlen l + 2) / 3 * 4) 0)) by (Z.to_euclidean_division_equations; lia).
  rewrite (proj2 (Z.ltb_ge dlen _)) by lia. cbn [orb negb]. rewrite bind_getptr.
  rewrite (bind_ret _ _ _ _ _ (loop_encoded l 0 Hb ltac:(lia) p mem ltac:(unfold zlen in *; lia))), bind_getptr.
  unfold mret, st_ret, zlen. repeat f_equal. lia.
Qed.

(** Whatever the text: what is written fits. *)
Lemma base64_decode_fits dlen src mem p : 0 <= dlen -> Z.of_nat p + dlen <= zlen mem ->
  exists r olen bs, _base64_decode true dlen src (Cursor mem p) = Ret ((r, olen), Cursor (put mem p bs) (p + length bs)) /\
    zlen bs <= dlen /\ (r = 0 /\ olen = Some (zlen bs) \/ r = -1 /\ bs = []).
Proof.
  intros Hd Hm. unfold _base64_decode.
  destruct (decode_scan src 0 0 0) as [[N J]|] eqn:Es.
  2: { exists (-1), None, []. rewrite put_nil, Nat.add_0_r. auto. }
  destruct (N =? 0); [exists 0, (Some 0), []; rewrite put_nil, Nat.add_0_r; auto|].
  destruct (_ || _) eqn:Ed; [exists (-1), (Some (decoded_size N J)), []; rewrite put_nil, Nat.add_0_r; auto|].
  apply orb_false_iff in Ed as [_ Ed%Z.ltb_ge].
  destruct (loop_scanned src 0 0 0 0 0 N J Es) as (bs & Hbs & Hw); [split_and!; try lia; left; done|].
  apply written_size in Hw. rewrite bind_getptr.
  rewrite (bind_ret _ _ _ _ _ (Hbs p mem ltac:(unfold zlen in *; lia))), bind_getptr.
  exists 0, (Some (zlen bs)), bs. split_and!; [|lia|by left]. unfold mret, st_ret, zlen. repeat f_equal. lia.
Qed.

(** C20: Decoding stays in the buffer: whatever the text, [iot_security_base64_decode]
    writes at most [dst_len] bytes, from [dst] on, with their number in
    [*out_len]; a text that it refuses leaves the buffer alone. *)
Theorem base64_decode_in_bounds src dst_len mem p :
  0 <= dst_len -> Z.of_nat p + dst_len <= zlen mem ->
  exists err olen bs,
    iot_security_base64_decode src true dst_len true (Cursor mem p) =
      Ret ((err, olen), Cursor (put mem p bs) (p + length bs)) /\
    zlen bs <= dst_len /\
    (err = IOT_ERROR_NONE /\ olen = Some (zlen bs) \/
     err = IOT_ERROR_SECURITY_BASE64_DECODE /\ bs = [] \/ err = IOT_ERROR_SECURITY_INVALID_ARGS /\ bs = []).
Proof.
  intros Hd Hm. unfold iot_security_base64_decode.
  destruct (bad_args src true dst_len true).
  { exists IOT_ERROR_SECURITY_INVALID_ARGS, None, []. rewrite put_nil, Nat.add_0_r. split; [done|]. split; [done|auto]. }
  destruct (base64_decode_fits dst_len (source_of src) mem p Hd Hm) as (r & olen & bs & E & Hb & H).
  rewrite (bind_ret _ _ _ _ _ E).
  destruct H as [[-> ->]|[-> ->]]; [exists IOT_ERROR_NONE, (Some (zlen bs)), bs|exists IOT_ERROR_SECURITY_BASE64_DECODE, olen, []]; (split; [done|split; [done|auto]]).
Qed.

Lemma base64_decode_in_bounds_witness :
  exists err olen bs,
    iot_security_base64_decode (Some [81; 85; 74; 68; 32; 10; 82; 65; 61; 61]) true 4 true (Cursor (replicate 6 7) 2) =
      Ret ((err, olen), Cursor (put (replicate 6 7) 2 bs) (2 + length bs)) /\
    zlen bs <= 4 /\
    (err = IOT_ERROR_NONE /\ olen = Some (zlen bs) \/
     err = IOT_ERROR_SECURITY_BASE64_DECODE /\ bs = [] \/ err = IOT_ERROR_SECURITY_INVALID_ARGS /\ bs = []).
Proof. apply base64_decode_in_bounds; [lia|reflexivity || discriminate]. Defined.

(** C19: Base64 and back.  Into a buffer of [IOT_SECURITY_B64_ENCODE_LEN] bytes
    [iot_security_base64_encode] writes the text of the bytes and a terminator,
    and [iot_security_base64_decode] gives the bytes back, into a buffer as
    long as they are. *)
Theorem base64_roundtrip size_max src dst_len mem p dlen mem' p' :
  bytes src -> src <> [] ->
  IOT_SECURITY_B64_ENCODE_LEN (zlen src) <= dst_len <= size_max -> Z.of_nat p + dst_len <= zlen mem ->
  zlen src <= dlen -> Z.of_nat p' + dlen <= zlen mem' ->
  exists txt, zlen txt = IOT_SECURITY_B64_ENCODE_LEN (zlen src) - 1 /\
    iot_security_base64_encode size_max (Some src) true dst_len true (Cursor mem p) =
      Ret ((IOT_ERROR_NONE, Some (zlen txt)), Cursor (put mem p (txt ++ [0])) (p + length txt)) /\
    iot_security_base64_decode (Some txt) true dlen true (Cursor mem' p') =
      Ret ((IOT_ERROR_NONE, Some (zlen src)), Cursor (put mem' p' src) (p' + length src)).
Proof.
  intros Hb Hne Hd Hm Hd' Hm'. exists (encoded src).
  assert (0 < zlen src) as Hl by (destruct src; [done|rewrite zlen_cons; pose proof (zlen_nonneg src); lia]).
  pose proof (encoded_length src) as El.
  split; [unfold IOT_SECURITY_B64_ENCODE_LEN; lia|]. split.
  - by apply security_encode_writes.
  - unfold iot_security_base64_decode, bad_args.
    destruct (encoded src) as [|c txt] eqn:E; [rewrite zlen_nil in El; Z.to_euclidean_division_equations; lia|].
    rewrite (proj2 (Z.eqb_neq dlen 0)) by lia. cbn [negb orb]. cbn [source_of default]. rewrite <- E.
    by rewrite (bind_ret _ _ _ _ _ (base64_decode_writes dlen src mem' p' Hb Hne Hd' Hm')).
Qed.

Lemma base64_roundtrip_witness :
  exists txt, zlen txt = IOT_SECURITY_B64_ENCODE_LEN 4 - 1 /\
    iot_security_base64_encode 4294967295 (Some [0; 255; 16; 131]) true 9 true (Cursor (replicate 10 7) 1) =
      Ret ((IOT_ERROR_NONE, Some (zlen txt)), Cursor (put (replicate 10 7) 1 (txt ++ [0])) (1 + length txt)) /\
    iot_security_base64_decode (Some txt) true 4 true (Cursor (replicate 4 7) 0) =
      Ret ((IOT_ERROR_NONE, Some 4), Cursor (put (replicate 4 7) 0 [0; 255; 16; 131]) 4).
Proof.
  apply (base64_roundtrip 4294967295 [0; 255; 16; 131] 9 (replicate 10 7) 1 4 (replicate 4 7) 0);
    [repeat constructor; discriminate|discriminate|split; discriminate|discriminate|discriminate|discriminate].
Defined.

(** ** The alphabet for URLs *)

Lemma align_len_eq x : 0 <= x < 4294967293 -> IOT_SECURITY_B64_ALIGN_LEN x = (x + 3) / 4 * 4.
Proof.
  intros Hx. unfold IOT_SECURITY_B64_ALIGN_LEN.
  change 4294967292 with (Z.ldiff (Z.ones 32) (Z.ones 2)).
  assert (forall a b c, Z.land a (Z.ldiff b c) = Z.ldiff (Z.land a b) c) as E.
  { intros a b c. apply Z.bits_inj'. intros k Hk. rewrite !Z.land_spec, !Z.ldiff_spec, Z.land_spec. by rewrite andb_assoc. }
  rewrite E, Z.land_ones, Z.mod_small, Z.ldiff_ones_r, Z.shiftl_mul_pow2, Z.shiftr_div_pow2 by (simpl; lia). done.
Qed.

Lemma zlen_fmap {A B} (f : A -> B) l : zlen (f <$> l) = zlen l.
Proof. unfold zlen. by rewrite length_fmap. Qed.

Definition to_url (c : Z) : Z := if c =? 43 then 45 else if c =? 47 then 95 else c.
Definition of_url (c : Z) : Z := if c =? 45 then 43 else if c =? 95 then 47 else c.

Lemma store_mid v (pre post : list Z) c q :
  store (length pre) v (Cursor (pre ++ c :: post) q) = Ret (tt, Cursor (pre ++ to_uchar v :: post) q).
Proof.
  unfold store. cbn [cmem cptr]. rewrite decide_True by (rewrite length_app; simpl; lia).
  by rewrite insert_app_r_alt, Nat.sub_diag by lia.
Qed.
Lemma load_at (pre post : list Z) c q : load (length pre) (Cursor (pre ++ c :: post) q) = Ret (c, Cursor (pre ++ c :: post) q).
Proof. apply load_in. by apply list_lookup_middle. Qed.

Lemma url_encode_spec mid : forall pre post q,
  url_encode_loop (length mid) (length pre) (Cursor (pre ++ mid ++ post) q) = Ret (tt, Cursor (pre ++ (to_url <$> mid) ++ post) q).
Proof.
  induction mid as [|c mid IH]; intros pre post q; [done|].
  cbn [length url_encode_loop app fmap list_fmap]. rewrite (bind_ret _ _ _ _ _ (load_at pre (mid ++ post) c q)).
  specialize (IH (pre ++ [to_url c]) post q). rewrite length_app, <- !app_assoc, Nat.add_1_r in IH. unfold to_url at 1 2 in IH. unfold to_url at 1.
  destruct (c =? 43); [|destruct (c =? 47)];
    [rewrite (bind_ret _ _ _ _ _ (store_mid _ pre _ c q))..|rewrite bind_mret]; exact IH.
Qed.
Lemma url_decode_spec mid : forall pre post q,
  url_decode_loop (length mid) (length pre) (Cursor (pre ++ mid ++ post) q) = Ret (tt, Cursor (pre ++ (of_url <$> mid) ++ post) q).
Proof.
  induction mid as [|c mid IH]; intros pre post q; [done|].
  cbn [length url_decode_loop app fmap list_fmap]. rewrite (bind_ret _ _ _ _ _ (load_at pre (mid ++ post) c q)).
  specialize (IH (pre ++ [of_url c]) post q). rewrite length_app, <- !app_assoc, Nat.add_1_r in IH. unfold of_url at 1 2 in IH. unfold of_url at 1.
  destruct (c =? 45); [|destruct (c =? 95)];
    [rewrite (bind_ret _ _ _ _ _ (store_mid _ pre _ c q))..|rewrite bind_mret]; exact IH.
Qed.

(** The characters of a text: the alphabet and the padding. *)
Lemma encoded_chars (P : Z -> Prop) l : bytes l -> (forall i, 0 <= i < 64 -> P (sextet i)) -> P 61 -> Forall P (encoded l).
Proof.
  intros Hb Hs Hp. induction l as [|a|a b|a b c l IH] using list_ind3; [constructor|..];
    repeat (apply Forall_cons in Hb as [? Hb]).
  - destruct (group_numbers a 0 0) as (?&?&?&?&_); [done|split; lia..|]. rewrite Z.div_0_l, Z.add_0_r in * by lia.
    repeat constructor; auto.
  - destruct (group_numbers a b 0) as (?&?&?&?&_); [done..|split; lia|]. rewrite Z.div_0_l, Z.add_0_r in * by lia.
    repeat constructor; auto.
  - destruct (group_numbers a b c) as (?&?&?&?&_); [done..|]. cbn [encoded]. unfold group3. repeat constructor; auto.
Qed.

Lemma of_to_url l : bytes l -> of_url <$> (to_url <$> encoded l) = encoded l.
Proof.
  intros Hb. rewrite <- list_fmap_compose. rewrite <- (list_fmap_id (encoded l)) at 2. apply Forall_fmap_ext_1. apply encoded_chars; [done| |reflexivity].
  intros i Hi. destruct (sextet_char i Hi) as [_ _ _ _ E1 E2 _ _]. unfold compose, to_url, of_url.
  destruct (Z.eqb_spec (sextet i) 43) as [->|]; [done|]. destruct (Z.eqb_spec (sextet i) 47) as [->|]; [done|]. by rewrite E1, E2.
Qed.

(** The copy of a text without its padding is the text of the encoder. *)
Lemma fill_dup_writes t n o l :
  bytes l -> l <> [] -> to_url <$> encoded l = t ++ replicate n 61 -> zlen (encoded l) < 4294967296 ->
  zlen o = zlen (encoded l) + 1 ->
  on_object (fill_dup t (zlen (encoded l))) o = fun c => Ret ((IOT_ERROR_NONE, encoded l ++ [0]), c).
Proof.
  intros Hb Hne Et Hmax Ho. unfold on_object, fill_dup, _iot_security_url_decode.
  pose proof (f_equal length Et) as El. rewrite length_fmap, length_app, length_replicate in El. unfold zlen in Ho |- *.
  assert (memcpy_at 0 t (Cursor o 0) = Ret (tt, Cursor (t ++ drop (length t) o) 0)) as E1.
  { unfold memcpy_at. cbn [cmem cptr]. rewrite decide_True by lia. by rewrite take_0. }
  rewrite (bind_ret _ _ _ _ _ E1).
  assert (memcpy_at (length t) (replicate (Z.to_nat (Z.of_nat (length (encoded l))) - length t) 61)
            (Cursor (t ++ drop (length t) o) 0) = Ret (tt, Cursor ((t ++ replicate n 61) ++ drop (length (encoded l)) o) 0)) as E2.
  { unfold memcpy_at. cbn [cmem cptr]. rewrite Nat2Z.id, length_replicate, length_app, length_drop, decide_True by lia.
    rewrite take_app_length, drop_app_ge, drop_drop by lia.
    replace (length (encoded l) - length t)%nat with n by lia. rewrite <- app_assoc. repeat f_equal; lia. }
  rewrite (bind_ret _ _ _ _ _ E2), <- Et.
  assert (exists z, drop (length (encoded l)) o = [z]) as [z Ez].
  { assert (length (drop (length (encoded l)) o) = 1%nat) as H1 by (rewrite length_drop; lia).
    revert H1. generalize (drop (length (encoded l)) o). intros [|z [|]] H1; [done|by exists z|done]. }
  rewrite Ez, Nat2Z.id.
  pose proof (store_mid 0 (to_url <$> encoded l) [] z 0) as E3. rewrite length_fmap in E3.
  rewrite (bind_ret _ _ _ _ _ E3).
  assert (length (encoded l) <> 0%nat) as H0.
  { pose proof (encoded_length l) as E. unfold zlen in E. destruct l as [|c l]; [done|]. cbn [length] in E.
    Z.to_euclidean_division_equations; lia. }
  rewrite (proj2 (Z.eqb_neq (Z.of_nat _) 0)) by lia.
  pose proof (url_decode_spec (to_url <$> encoded l) [] [to_uchar 0] 0) as E4. rewrite length_fmap in E4. cbn [app length] in E4.
  by rewrite (bind_ret _ _ _ _ _ E4), of_to_url.
Qed.

(** Base64 for URLs and back.  [iot_security_base64_encode_urlsafe] writes
    a text without ['+'] and ['/'], and [iot_security_base64_decode_urlsafe]
    gives the bytes back from it, with its padding or with a part of it or all
    of it taken away. *)
Theorem base64_urlsafe_roundtrip size_max malloc src dst_len mem p dlen mem' p' :
  bytes src -> src <> [] ->
  IOT_SECURITY_B64_ENCODE_LEN (zlen src) <= dst_len <= size_max -> Z.of_nat p + dst_len <= zlen mem ->
  IOT_SECURITY_B64_ENCODE_LEN (zlen src) <= 4294967293 ->
  zlen src <= dlen -> Z.of_nat p' + dlen <= zlen mem' ->
  (forall n, 0 < n -> exists o, malloc n = Some o /\ zlen o = n) ->
  exists txt, zlen txt = IOT_SECURITY_B64_ENCODE_LEN (zlen src) - 1 /\ Forall (fun c => c <> 43 /\ c <> 47) txt /\
    iot_security_base64_encode_urlsafe size_max (Some src) true dst_len true (Cursor mem p) =
      Ret ((IOT_ERROR_NONE, Some (zlen txt)), Cursor (put mem p (txt ++ [0])) (p + length txt)) /\
    forall t n, txt = t ++ replicate n 61 -> (n < 4)%nat -> t <> [] ->
      iot_security_base64_decode_urlsafe malloc (Some t) true dlen true (Cursor mem' p') =
        Ret ((IOT_ERROR_NONE, Some (zlen src)), Cursor (put mem' p' src) (p' + length src)).
Proof.
  intros Hb Hne Hd Hm Hmax Hd' Hm' Hmalloc. exists (to_url <$> encoded src).
  pose proof (encoded_length src) as El.
  assert (0 < zlen src) as Hl by (destruct src; [done|rewrite zlen_cons; pose proof (zlen_nonneg src); lia]).
  assert (0 < zlen (encoded src)) as Hle by (Z.to_euclidean_division_equations; lia).
  unfold IOT_SECURITY_B64_ENCODE_LEN in *. rewrite !zlen_fmap, !length_fmap. split_and!.
  - lia.
  - apply Forall_fmap, Forall_forall. intros c _. unfold compose, to_url.
    destruct (Z.eqb_spec c 43); [done|]. by destruct (Z.eqb_spec c 47).
  - unfold iot_security_base64_encode_urlsafe, bad_args. destruct src as [|b src]; [done|].
    rewrite (proj2 (Z.eqb_neq dst_len 0)) by lia. cbn [negb orb]. rewrite bind_getptr.
    rewrite (bind_ret _ _ _ _ _ (base64_encode_writes size_max dst_len (b :: src) mem p Hb Hne Hd Hm)).
    cbn [negb Z.eqb]. unfold _iot_security_url_encode. cbn [default from_option id].
    rewrite (proj2 (Z.eqb_neq _ 0)) by lia. rewrite bind_assoc. unfold put. rewrite <- !app_assoc.
    assert (length (take p mem) = p) as Hp by (rewrite length_take; unfold zlen in Hm; lia).
    pose proof (url_encode_spec (encoded (b :: src)) (take p mem) ([0] ++ drop (p + length (encoded (b :: src) ++ [0])) mem)) as E.
    rewrite Hp in E. replace (Z.to_nat (zlen (encoded (b :: src)))) with (length (encoded (b :: src))) by (unfold zlen; lia).
    rewrite (bind_ret _ _ _ _ _ (E _)), bind_mret.
    by rewrite !length_app, length_fmap.
  - intros t n Et Hn Ht. unfold iot_security_base64_decode_urlsafe, bad_args. destruct t as [|c t]; [done|].
    rewrite (proj2 (Z.eqb_neq dlen 0)) by lia. cbn [negb orb]. unfold source_of. cbn [default from_option id]. cbv zeta.
    pose proof (f_equal zlen Et) as Ez. rewrite zlen_fmap, zlen_app in Ez. unfold zlen at 3 in Ez. rewrite length_replicate in Ez.
    assert (IOT_SECURITY_B64_ALIGN_LEN (zlen (c :: t)) = zlen (encoded src)) as ->.
    { rewrite align_len_eq by (pose proof (zlen_nonneg (c :: t)); lia). Z.to_euclidean_division_equations; lia. }
    destruct (Hmalloc (zlen (encoded src) + 1) ltac:(lia)) as (o & -> & Ho).
    rewrite (fill_dup_writes (c :: t) n o src Hb Hne Et ltac:(lia) Ho). unfold mbind at 1, st_bind at 1. cbn [negb Z.eqb].
    change (negb (IOT_ERROR_NONE =? 0)) with false. cbv iota.
    rewrite take_app_length' by (unfold zlen; lia).
    by rewrite (bind_ret _ _ _ _ _ (base64_decode_writes dlen src mem' p' Hb Hne Hd' Hm')).
Qed.

Lemma base64_urlsafe_roundtrip_witness :
  let malloc n := Some (replicate (Z.to_nat n) 9) in
  exists txt, zlen txt = IOT_SECURITY_B64_ENCODE_LEN 4 - 1 /\ Forall (fun c => c <> 43 /\ c <> 47) txt /\
    iot_security_base64_encode_urlsafe 4294967295 (Some [251; 255; 16; 131]) true 9 true (Cursor (replicate 10 7) 1) =
      Ret ((IOT_ERROR_NONE, Some (zlen txt)), Cursor (put (replicate 10 7) 1 (txt ++ [0])) (1 + length txt)) /\
    forall t n, txt = t ++ replicate n 61 -> (n < 4)%nat -> t <> [] ->
      iot_security_base64_decode_urlsafe malloc (Some t) true 4 true (Cursor (replicate 4 7) 0) =
        Ret ((IOT_ERROR_NONE, Some 4), Cursor (put (replicate 4 7) 0 [251; 255; 16; 131]) 4).
Proof.
  apply (base64_urlsafe_roundtrip 4294967295 (fun n => Some (replicate (Z.to_nat n) 9)) [251; 255; 16; 131] 9 (replicate 10 7) 1 4 (replicate 4 7) 0);
    [repeat constructor; discriminate|discriminate|split; discriminate|discriminate|discriminate|discriminate|discriminate|].
  intros n Hn. eexists. split; [reflexivity|]. unfold zlen. rewrite length_replicate. lia.
Defined.

(** A buffer that is too small for the text and its terminator is refused,
    with the length that is needed in [*out_len], and left alone. *)
Theorem base64_encode_too_small size_max src dst_len c :
  src <> [] -> IOT_SECURITY_B64_ENCODE_LEN (zlen src) <= size_max -> 0 < dst_len < IOT_SECURITY_B64_ENCODE_LEN (zlen src) ->
  iot_security_base64_encode size_max (Some src) true dst_len true c =
    Ret ((IOT_ERROR_SECURITY_BASE64_ENCODE, Some (IOT_SECURITY_B64_ENCODE_LEN (zlen src))), c).
Proof.
  unfold IOT_SECURITY_B64_ENCODE_LEN. intros Hne Hs Hd. unfold iot_security_base64_encode, bad_args, _base64_encode, source_of.
  destruct src as [|b src]; [done|]. cbn [default from_option id].
  rewrite (proj2 (Z.eqb_neq dst_len 0)) by lia. cbn [negb orb].
  rewrite (proj2 (Z.eqb_neq (zlen (b :: src)) 0)) by (rewrite zlen_cons; pose proof (zlen_nonneg src); lia).
  rewrite groups_count by apply zlen_nonneg.
  assert ((size_max - 1) / 4 <? (zlen (b :: src) + 2) / 3 = false) as -> by (apply Z.ltb_ge, Z.div_le_lower_bound; lia).
  by rewrite (proj2 (Z.ltb_lt dst_len _)) by lia.
Qed.

(** [~3u] is 32 bits wide: for four gigabytes of text [src_dup] is one byte. *)
Theorem align_len_truncates : IOT_SECURITY_B64_ALIGN_LEN 4294967296 = 0.
Proof. reflexivity. Qed.
