(* ===== verification/ClientQueue.v ===== *)
(** * Packet chunks and the chunk queues of the MQTT client

    The first part of [src/src/mqtt/client/iot_mqtt_client.c]: creating and
    destroying chunks and the operations on the three chunk queues, which are
    linked through the chunks themselves.  The operations are proved to
    implement lists of chunks. *)

From S2P Require Import Prelude MqttPacket Platform Heap World.

Section operations.
Context `{P : Platform}.
Abbreviation M := (st world).
Abbreviation ptr := (option nat).

(** [iot_os_mutex_lock] and [iot_os_mutex_unlock] on a mutex of a client. *)
Definition lock_client (client : ptr) (n : lock_name) : M bool :=
  c ← get client;
  match mutex_lock (lock_of n c) with
  | Ret (b, m) => update client (set_lock_of n m);; mret b
  | Undef => undef
  | Hang => hang
  end.
Definition unlock_client (client : ptr) (n : lock_name) : M unit :=
  update client (fun c => set_lock_of n (mutex_unlock (lock_of n c)) c).

(** The same on [queue->lock]; a queue is named by its client and its name. *)
Definition get_queue (client : ptr) (n : queue_name) : M chunk_queue :=
  c ← get client; mret (queue_of n c).
Definition update_queue (client : ptr) (n : queue_name) (f : chunk_queue -> chunk_queue) : M unit :=
  update client (fun c => set_queue n (f (queue_of n c)) c).
Definition set_queue_lock m (q : chunk_queue) : chunk_queue := ChunkQueue m (head q) (tail q).
Definition set_ends h t (q : chunk_queue) : chunk_queue := ChunkQueue (lock q) h t.

Definition lock_queue (client : ptr) (n : queue_name) : M bool :=
  q ← get_queue client n;
  match mutex_lock (lock q) with
  | Ret (b, m) => update_queue client n (set_queue_lock m);; mret b
  | Undef => undef
  | Hang => hang
  end.
Definition unlock_queue (client : ptr) (n : queue_name) : M unit :=
  update_queue client n (fun q => set_queue_lock (mutex_unlock (lock q)) q).

Definition _iot_mqtt_chunk_destroy (chunk : ptr) : M unit :=
  match chunk with
  | None => mret tt
  | Some _ =>
      k ← get chunk;
      match expiry_time k with Some t => sys_ (os_timer_delete t) | None => mret tt end;;
      release (A := World.chunk) chunk
  end.

Definition _iot_mqtt_chunk_create (chunk_size : Z) : M ptr :=
  ok ← os_new;
  if negb ok then mret None
  else
    chunk ← allocate zero_chunk;
    d ← sys (os_malloc chunk_size);
    update (Some chunk) (set_chunk_data d);;
    if negb (chunk_size =? 0) && bool_decide (d = None)
    then release (A := World.chunk) (Some chunk);; mret None
    else update (Some chunk) (set_chunk_size chunk_size);; mret (Some chunk).

(** [chunk] is not null. *)
Definition _iot_mqtt_queue_push (client : ptr) (n : queue_name) (chunk : nat) : M Z :=
  locked ← lock_queue client n;
  if negb locked then mret (-1)
  else
    q ← get_queue client n;
    match head q, tail q with
    | Some _, Some _ =>
        update (tail q) (set_next (Some chunk));;
        update_queue client n (fun q => set_ends (head q) (Some chunk) q)
    | _, _ => update_queue client n (set_ends (Some chunk) (Some chunk))
    end;;
    unlock_queue client n;;
    mret 0.

Section pop.
(** The test that [_iot_mqtt_queue_pop_by_type_and_id] and
    [_iot_mqtt_queue_pop_by_expiry], alike but for it, make on a chunk. *)
Context (test : chunk -> M bool) (client : ptr) (n : queue_name).

(** [while (iterator->next)]. *)
Fixpoint pop_loop (fuel : nat) (iterator : ptr) : M ptr :=
  it ← get iterator;
  match next it with
  | None => mret None
  | Some _ =>
      match fuel with
      | O => hang
      | S fuel =>
          k ← get (next it);
          b ← test k;
          if (b : bool) then
            q ← get_queue client n;
            when (bool_decide (next it = tail q))
              (update_queue client n (fun q => set_ends (head q) iterator q));;
            update iterator (set_next (next k));;
            update (next it) (set_next None);;
            mret (next it)
          else pop_loop fuel (next it)
      end
  end.

Definition pop_matching : M ptr :=
  locked ← lock_queue client n;
  if negb locked then mret None
  else
    q ← get_queue client n;
    chunk ←
      match head q, tail q with
      | Some h, Some t =>
          k ← get (head q);
          b ← test k;
          if (h =? t)%nat then
            if (b : bool) then update_queue client n (set_ends None None);; mret (head q)
            else mret None
          else if (b : bool) then
            update_queue client n (fun q => set_ends (next k) (tail q) q);;
            update (head q) (set_next None);;
            mret (head q)
          else
            fuel ← gets (fun w : world => size (w_chunks w));
            pop_loop fuel (head q)
      | _, _ => mret None
      end;
    unlock_queue client n;;
    mret chunk.
End pop.

Definition _iot_mqtt_queue_pop_by_type_and_id (client : ptr) (n : queue_name)
    (type id : Z) : M ptr :=
  pop_matching (fun k => mret ((packet_type k =? type) && (packet_id k =? id))) client n.

Definition _iot_mqtt_queue_pop_by_expiry (client : ptr) (n : queue_name) : M ptr :=
  pop_matching (fun k =>
    e ← gets w_env;
    mret match expiry_time k with
         | Some t => negb (os_timer_is_active t e)
         | None => false
         end) client n.

Definition _iot_mqtt_queue_pop (client : ptr) (n : queue_name) : M ptr :=
  locked ← lock_queue client n;
  if negb locked then mret None
  else
    q ← get_queue client n;
    chunk ←
      match head q, tail q with
      | Some h, Some t =>
          if (h =? t)%nat then update_queue client n (set_ends None None);; mret (head q)
          else
            k ← get (head q);
            update_queue client n (fun q => set_ends (next k) (tail q) q);;
            update (head q) (set_next None);;
            mret (head q)
      | _, _ => mret None
      end;
    unlock_queue client n;;
    mret chunk.

Definition _iot_mqtt_queue_init (client : ptr) (n : queue_name) : M Z :=
  inited ← sys os_mutex_init;
  update_queue client n (set_queue_lock (Mutex inited false));;
  if negb inited then mret (-1)
  else update_queue client n (set_ends None None);; mret 0.

(** [while (iterator)] of [_iot_mqtt_queue_destroy]. *)
Fixpoint destroy_loop (fuel : nat) (iterator : ptr) : M unit :=
  match iterator with
  | None => mret tt
  | Some _ =>
      match fuel with
      | O => hang
      | S fuel =>
          k ← get iterator;
          (if negb (have_owner k =? 0) then
             update iterator (set_next None);;
             update iterator (set_chunk_state PACKET_CHUNK_QUEUE_DESTROYED)
           else _iot_mqtt_chunk_destroy iterator);;
          destroy_loop fuel (next k)
      end
  end.

Definition _iot_mqtt_queue_destroy (client : ptr) (n : queue_name) : M unit :=
  q ← get_queue client n;
  if negb (sem (lock q)) then mret tt
  else
    lock_queue client n;;
    q ← get_queue client n;
    fuel ← gets (fun w : world => size (w_chunks w));
    destroy_loop fuel (head q);;
    update_queue client n (set_ends None None);;
    unlock_queue client n;;
    update_queue client n (fun q => set_queue_lock (mutex_destroy (lock q)) q).
End operations.

(** ** Symbolic execution of queue operations *)

Section run.
Context `{P : Platform}.

Lemma queue_of_set n q c : queue_of n (set_queue n q c) = q.
Proof. by destruct n. Qed.
Lemma queue_of_set_ne n n' q c : n <> n' -> queue_of n (set_queue n' q c) = queue_of n c.
Proof. by destruct n, n'. Qed.
Lemma set_queue_set n q q' c : set_queue n q (set_queue n q' c) = set_queue n q c.
Proof. by destruct n. Qed.
Lemma set_ends_same q : set_ends (head q) (tail q) q = q.
Proof. by destruct q. Qed.
Lemma set_queue_of n c : set_queue n (queue_of n c) c = c.
Proof. by destruct n, c. Qed.

Lemma bind_get_queue {B} client n cl (k : chunk_queue -> st world B) w :
  live (w_clients w) client = Some cl -> (get_queue (Some client) n ≫= k) w = k (queue_of n cl) w.
Proof. intros E. unfold get_queue. by run. Qed.

Lemma bind_update_queue {B} client n cl f (k : unit -> st world B) w :
  live (w_clients w) client = Some cl ->
  (update_queue (Some client) n f ≫= k) w
  = k tt (with_clients (<[client := Some (set_queue n (f (queue_of n cl)) cl)]> (w_clients w)) w).
Proof. intros E. unfold update_queue. by run. Qed.

Lemma bind_lock_queue {B} client n cl (k : bool -> st world B) w :
  live (w_clients w) client = Some cl -> lock (queue_of n cl) = free_mutex ->
  (lock_queue (Some client) n ≫= k) w
  = k true (with_clients (<[client := Some (set_queue n
      (set_queue_lock (Mutex true true) (queue_of n cl)) cl)]> (w_clients w)) w).
Proof.
  intros E Hl. unfold lock_queue. rewrite bind_assoc. erewrite bind_get_queue by done.
  rewrite Hl. simpl. rewrite bind_assoc. erewrite bind_update_queue by done. by run.
Qed.

Lemma bind_unlock_queue {B} client n cl (k : unit -> st world B) w :
  live (w_clients w) client = Some cl ->
  (unlock_queue (Some client) n ≫= k) w
  = k tt (with_clients (<[client := Some (set_queue n
      (set_queue_lock (Mutex (sem (lock (queue_of n cl))) false) (queue_of n cl)) cl)]> (w_clients w)) w).
Proof. intros E. unfold unlock_queue. by erewrite bind_update_queue. Qed.
End run.

Ltac queue_simpl :=
  rewrite ?queue_of_set, ?set_queue_set, ?insert_insert_eq;
  cbn [lock head tail set_queue_lock set_ends sem held].

Ltac queue_step :=
  first
    [ erewrite bind_get_queue by live_lookup
    | erewrite bind_update_queue by live_lookup
    | erewrite bind_lock_queue by first [live_lookup | queue_simpl; congruence]
    | erewrite bind_unlock_queue by live_lookup
    | run_step ];
  world_simpl; queue_simpl; cbn beta iota zeta.
Ltac queue_run := repeat queue_step.

(** ** The queues as lists *)

Section queue_specs.
Context `{P : Platform}.
Abbreviation is_queue := (is_list next).

(** The heaps differ in the [next] pointers of the chunks at [l] only. *)
Record relinked (l : list nat) (h h' : heap chunk) : Prop := {
  rl_out : forall b, b ∉ l -> h' !! b = h !! b;
  rl_in : forall b, set_next None <$> live h' b = set_next None <$> live h b
}.

Lemma relinked_refl l h : relinked l h h.
Proof. by split. Qed.

Lemma relinked_update l h a x p :
  a ∈ l -> live h a = Some x -> relinked l h (<[a := Some (set_next p x)]> h).
Proof.
  intros Ha Hx. split; intros b.
  - intros Hb. rewrite lookup_insert_ne; [done|]. by intros ->.
  - rewrite live_insert. case_decide; [subst; by rewrite Hx|done].
Qed.

Lemma relinked_trans l h1 h2 h3 : relinked l h1 h2 -> relinked l h2 h3 -> relinked l h1 h3.
Proof.
  intros [O1 I1] [O2 I2]. split; intros b; [intros Hb; by rewrite O2, O1|by rewrite I2, I1].
Qed.

Lemma relinked_live l h h' b x :
  relinked l h h' -> live h b = Some x -> exists p, live h' b = Some (set_next p x).
Proof.
  intros [_ I] Hx. specialize (I b). rewrite Hx in I. apply fmap_Some in I as (y & Hy & E).
  exists (next y). rewrite Hy. f_equal. destruct x, y. unfold set_next in *. simpl in *. congruence.
Qed.

Context (client : nat) (cl : MQTTClient) (n : queue_name).

(** The client in the world, and one of its queues: free, with the chunks at [l]. *)
Record queue_at (w : world) (l : list nat) : Prop := {
  qa_live : live (w_clients w) client = Some cl;
  qa_lock : lock (queue_of n cl) = free_mutex;
  qa_list : is_queue (w_chunks w) (head (queue_of n cl)) (tail (queue_of n cl)) l
}.

(** The world after an operation that leaves [l'] in the queue. *)
Record queue_after (w : world) (l l' : list nat) (h : heap chunk) (q : chunk_queue) : Prop := {
  qf_lock : lock q = free_mutex;
  qf_list : is_queue h (head q) (tail q) l';
  qf_rest : relinked l (w_chunks w) h
}.
Definition world_after (w : world) (h : heap chunk) (q : chunk_queue) : world :=
  with_clients (<[client := Some (set_queue n q cl)]> (w_clients w)) (with_chunks h w).

Lemma push_spec w l k x :
  queue_at w l -> live (w_chunks w) k = Some x -> next x = None -> k ∉ l ->
  exists h q, _iot_mqtt_queue_push (Some client) n k w = Ret (0, world_after w h q) /\
    queue_after w l (l ++ [k]) h q.
Proof.
  intros [Hcl Hlock Hl] Hk Hnx Hkl. unfold _iot_mqtt_queue_push.
  queue_run. cbn [negb]. queue_run.
  destruct l as [|t l' _] using rev_ind.
  - rewrite (il_hd _ _ _ _ _ Hl). cbn [hd_error]. queue_run.
    exists (w_chunks w), (ChunkQueue free_mutex (Some k) (Some k)). split; [done|].
    split; [done| |apply relinked_refl]. split; simpl; eauto. by apply NoDup_singleton.
  - destruct (is_list_live _ _ _ _ _ t Hl ltac:(set_solver)) as [y Hy].
    assert (Htl : tail (queue_of n cl) = Some t) by (rewrite (il_tl _ _ _ _ _ Hl); apply last_snoc).
    assert (Hhd : exists a, head (queue_of n cl) = Some a).
    { rewrite (il_hd _ _ _ _ _ Hl). destruct l'; simpl; eauto. }
    destruct Hhd as [a Ha]. rewrite Ha, Htl. queue_run. rewrite Ha.
    eexists (<[t := Some (set_next (Some k) y)]> (w_chunks w)), (ChunkQueue free_mutex (Some a) (Some k)).
    split; [done|]. split; [done| |by apply relinked_update; [set_solver|]]. split; simpl.
    + eapply chain_snoc; eauto; [by apply nodup_snoc; [apply Hl|]|apply Hl].
    + rewrite (il_hd _ _ _ _ _ Hl) in Ha. by destruct l'.
    + by rewrite last_snoc.
    + by apply nodup_snoc; [apply Hl|].
Qed.

(** The world stays as it is when the queue does. *)
Lemma world_after_same w : live (w_clients w) client = Some cl ->
  lock (queue_of n cl) = free_mutex ->
  world_after w (w_chunks w) (ChunkQueue free_mutex (head (queue_of n cl)) (tail (queue_of n cl))) = w.
Proof.
  intros Hcl Hlock. unfold world_after. rewrite <- Hlock.
  assert (E : ChunkQueue (lock (queue_of n cl)) (head (queue_of n cl)) (tail (queue_of n cl)) = queue_of n cl)
    by (by destruct (queue_of n cl)).
  rewrite E, set_queue_of, insert_id; [by destruct w|].
  unfold live in Hcl. destruct (w_clients w !! client); simpl in Hcl; congruence.
Qed.

(** Taking the head off a queue of several chunks. *)
Lemma unlink_head w a b l x :
  queue_at w (a :: b :: l) -> live (w_chunks w) a = Some x ->
  head (queue_of n cl) = Some a /\ tail (queue_of n cl) = last (b :: l) /\ Some a <> last (b :: l) /\
  queue_after w (a :: b :: l) (b :: l) (<[a := Some (set_next None x)]> (w_chunks w))
    (ChunkQueue free_mutex (next x) (last (b :: l))).
Proof.
  intros [Hcl Hlock Hl] Hx. destruct (is_list_tail _ _ _ _ _ _ _ _ Hl Hx) as [Hn [Hc Hhd Htl Hnd]].
  pose proof (il_nodup _ _ _ _ _ Hl) as Ha. apply NoDup_cons in Ha as [Ha _].
  split; [by rewrite (il_hd _ _ _ _ _ Hl)|]. split; [by rewrite (il_tl _ _ _ _ _ Hl)|].
  split; [intros E; symmetry in E; by apply last_Some_elem_of in E|].
  split; [done| |by apply relinked_update; [left|]].
  cbn [head tail]. rewrite Hn. apply is_list_other; [done|]. by split.
Qed.

Lemma pop_spec w l :
  queue_at w l ->
  exists h q, _iot_mqtt_queue_pop (Some client) n w = Ret (hd_error l, world_after w h q) /\
    queue_after w l (list.tail l) h q /\
    (forall a, hd_error l = Some a -> exists x, live h a = Some (set_next None x) /\
       live (w_chunks w) a = Some x).
Proof.
  intros Hq. pose proof Hq as [Hcl Hlock Hl]. unfold _iot_mqtt_queue_pop.
  queue_run. cbn [negb]. queue_run. destruct l as [|a [|b l]].
  - rewrite (il_hd _ _ _ _ _ Hl). cbn [hd_error]. queue_run.
    exists (w_chunks w), (ChunkQueue free_mutex (head (queue_of n cl)) (tail (queue_of n cl))).
    split_and!; [done|split; [done|done|apply relinked_refl]|done].
  - destruct (is_list_live _ _ _ _ _ a Hl ltac:(left)) as [x Hx].
    rewrite (il_hd _ _ _ _ _ Hl), (il_tl _ _ _ _ _ Hl). cbn [hd_error last]. rewrite Nat.eqb_refl. queue_run.
    exists (w_chunks w), (ChunkQueue free_mutex None None). split_and!; [done|split; [done|apply is_list_empty|apply relinked_refl]|].
    intros a' [= <-]. exists x. split; [|done]. rewrite Hx. f_equal.
    destruct (il_chain _ _ _ _ _ Hl) as [(x' & Hx' & Hn) _]. rewrite Hx in Hx'. injection Hx' as <-. cbn [hd_error] in Hn. unfold set_next. rewrite <- Hn. by destruct x.
  - destruct (is_list_live _ _ _ _ _ a Hl ltac:(left)) as [x Hx].
    destruct (unlink_head _ _ _ _ _ Hq Hx) as (Hhd & Htl & Hne & Haft).
    rewrite Hhd, Htl. destruct (last (b :: l)) as [t'|] eqn:Et; [|by apply last_None in Et].
    rewrite (proj2 (Nat.eqb_neq a t')) by congruence. queue_run. rewrite Htl.
    eexists (<[a := Some (set_next None x)]> (w_chunks w)), (ChunkQueue free_mutex (next x) (Some t')).
    split; [done|]. split; [exact Haft|]. intros a' [= <-]. exists x.
    split; [live_lookup|done].
Qed.

(** The first chunk that satisfies [p], and the others. *)
Fixpoint first_match (p : nat -> bool) (l : list nat) : option (nat * list nat) :=
  match l with
  | [] => None
  | a :: l => if p a then Some (a, l)
              else match first_match p l with Some (b, l) => Some (b, a :: l) | None => None end
  end.

Lemma first_match_split p l b l' :
  first_match p l = Some (b, l') <->
  exists l1 l2, l = l1 ++ b :: l2 /\ l' = l1 ++ l2 /\ p b = true /\ forall a, a ∈ l1 -> p a = false.
Proof.
  revert l'. induction l as [|a l IH]; intros l'; simpl.
  { split; [done|]. by intros ([|] & ? & ? & _). }
  destruct (p a) eqn:Ep.
  - split; [intros [= <- <-]; exists [], l; split_and!; try done; by intros ? ?%elem_of_nil|].
    intros ([|c l1] & l2 & E & -> & Hb & Hl1); simplify_eq/=; [done|].
    rewrite Hl1 in Ep by left. done.
  - destruct (first_match p l) as [[c k]|].
    + split.
      * intros [= <- <-]. destruct (proj1 (IH k) eq_refl) as (l1 & l2 & -> & -> & Hc & Hl1).
        exists (a :: l1), l2. split_and!; try done. intros d [->|Hd]%elem_of_cons; auto.
      * intros ([|c' l1] & l2 & E & -> & Hb & Hl1); simplify_eq/=; [congruence|].
        assert (Some (c, k) = Some (b, l1 ++ l2)) as [= -> ->]; [|done].
        apply IH. exists l1, l2. split_and!; try done. intros d Hd. apply Hl1. by right.
    + split; [done|]. intros ([|c' l1] & l2 & E & -> & Hb & Hl1); simplify_eq/=; [congruence|].
      assert (None = Some (b, l1 ++ l2)) as [=]. apply IH. exists l1, l2. split_and!; try done.
      intros d Hd. apply Hl1. by right.
Qed.

Section pop_matching.
(** A test that depends on the chunk and the platform only. *)
Context (test : chunk -> st world bool) (p : env -> chunk -> bool).
Hypothesis test_run : forall k w, test k w = Ret (p (w_env w) k, w).

Definition matches (w : world) (a : nat) : bool :=
  match live (w_chunks w) a with Some k => p (w_env w) k | None => false end.

Lemma bind_test {B} k (f : bool -> st world B) w : (test k ≫= f) w = f (p (w_env w) k) w.
Proof using test_run. by rewrite (bind_ret _ _ _ _ _ (test_run k w)). Qed.

Lemma unlink_behind h hd tl pre a b l x y :
  is_queue h hd tl (pre ++ a :: b :: l) -> live h a = Some x -> live h b = Some y ->
  let h' := <[b := Some (set_next None y)]> (<[a := Some (set_next (next y) x)]> h) in
  a <> b /\ (Some b = tl <-> l = []) /\
  is_queue h' hd (if bool_decide (Some b = tl) then Some a else tl) (pre ++ a :: l) /\
  relinked (pre ++ a :: b :: l) h h'.
Proof.
  intros [Hc Hhd Htl Hnd] Ha Hb h'.
  pose proof (proj1 (NoDup_app _ _) Hnd) as (Hn1 & Hn2 & Hn3). apply NoDup_cons in Hn3 as [Hab Hn3].
  apply NoDup_cons in Hn3 as [Hbl Hn3].
  assert (Hne : a <> b) by (intros ->; apply Hab; left).
  assert (Htb : Some b = tl <-> l = []).
  { rewrite Htl, last_app_cons. destruct l as [|c l]; [done|]. split; [|done]. intros E. exfalso.
    change (last (a :: b :: c :: l)) with (last (c :: l)) in E. symmetry in E.
    by apply last_Some_elem_of in E. }
  split_and!; [done|done| |].
  - split.
    + apply chain_other.
      * intros [Hin|[?|Hin]%elem_of_cons]%elem_of_app; [|done|done]. by apply (Hn2 b Hin); right; left.
      * by eapply (chain_unlink next).
    + rewrite Hhd. by destruct pre.
    + rewrite Htl in Htb |- *. rewrite !last_app_cons in *. case_bool_decide as E.
      * by apply Htb in E as ->.
      * destruct l; [by destruct E; apply Htb|done].
    + apply NoDup_app. split_and!; [done| |].
      * intros c Hc1 [->|Hc2]%elem_of_cons; eapply Hn2; eauto; [by left|by right; right].
      * apply NoDup_cons. split; [intros Hin; apply Hab; by right|done].
  - apply (relinked_trans _ _ (<[a := Some (set_next (next y) x)]> h)).
    + apply relinked_update; [|done]. apply elem_of_app. right. left.
    + apply relinked_update; [apply elem_of_app; right; right; left|].
      by rewrite live_insert, decide_False.
Qed.

(** The loop, started at [a] behind which come [l]. *)
Lemma pop_loop_spec w cl' (l : list nat) : forall pre a fuel,
  live (w_clients w) client = Some cl' ->
  is_queue (w_chunks w) (head (queue_of n cl')) (tail (queue_of n cl')) (pre ++ a :: l) ->
  (length l <= fuel)%nat ->
  exists r w', pop_loop test (Some client) n fuel (Some a) w = Ret (r, w') /\
    match first_match (matches w) l with
    | None => r = None /\ w' = w
    | Some (b, l') =>
        r = Some b /\
        exists h tl, w' = with_clients (<[client := Some (set_queue n
            (set_ends (head (queue_of n cl')) tl (queue_of n cl')) cl')]> (w_clients w)) (with_chunks h w) /\
          is_queue h (head (queue_of n cl')) tl (pre ++ a :: l') /\
          relinked (pre ++ a :: l) (w_chunks w) h /\
          exists x, live h b = Some (set_next None x) /\ live (w_chunks w) b = Some x
    end.
Proof using test_run.
  induction l as [|b l IH]; intros pre a fuel Hcl Hq Hf.
  - destruct (is_list_live _ _ _ _ _ a Hq ltac:(set_solver)) as [x Hx].
    pose proof (chain_app _ _ _ _ (il_chain _ _ _ _ _ Hq)) as [(x' & Hx' & Hn) _].
    assert (x' = x) as -> by congruence. simpl in Hn.
    exists None, w. split; [|done]. destruct fuel; cbn [pop_loop]; queue_run; by rewrite Hn.
  - destruct fuel as [|fuel]; [simpl in Hf; lia|].
    destruct (is_list_live _ _ _ _ _ a Hq ltac:(set_solver)) as [x Hx].
    destruct (is_list_live _ _ _ _ _ b Hq ltac:(set_solver)) as [y Hy].
    pose proof (chain_app _ _ _ _ (il_chain _ _ _ _ _ Hq)) as [(x' & Hx' & Hn) _].
    assert (x' = x) as -> by congruence. cbn [hd_error] in Hn.
    cbn [pop_loop]. queue_run. rewrite Hn. queue_run. rewrite bind_test. cbn [first_match].
    assert (Em : matches w b = p (w_env w) y) by (unfold matches; by rewrite Hy).
    rewrite Em. destruct (p (w_env w) y).
    + destruct (unlink_behind _ _ _ _ _ _ _ _ _ Hq Hx Hy) as (Hab & Htb & Hq' & Hr).
      queue_run.
      set (tl := if bool_decide (Some b = tail (queue_of n cl')) then Some a else tail (queue_of n cl')) in *.
      assert (Hw : when (bool_decide (Some b = tail (queue_of n cl')))
          (update_queue (Some client) n (fun q => set_ends (head q) (Some a) q)) w
        = Ret (tt, with_clients (<[client := Some (set_queue n
            (set_ends (head (queue_of n cl')) tl (queue_of n cl')) cl')]> (w_clients w)) w)).
      { unfold tl. case_bool_decide; cbn [when].
        - unfold update_queue. by erewrite run_update by live_lookup.
        - rewrite set_ends_same, set_queue_of, live_insert_id by done. by destruct w. }
      rewrite (bind_ret _ _ _ _ _ Hw). queue_run.
      eexists _, _. split; [reflexivity|]. split; [done|].
      eexists (<[b := Some (set_next None y)]> (<[a := Some (set_next (next y) x)]> (w_chunks w))), tl.
      split; [done|]. split_and!; [exact Hq'|exact Hr|].
      exists y. split; [by rewrite live_insert, decide_True|done].
    + destruct (IH (pre ++ [a]) b fuel Hcl ltac:(by rewrite <- app_assoc) ltac:(simpl in Hf; lia))
        as (r & w' & E & Hm). rewrite E. exists r, w'. split; [done|].
      destruct (first_match (matches w) l) as [[c l']|]; [|done].
      destruct Hm as (-> & h & tl & -> & Hq' & Hr & Hx''). split; [done|].
      rewrite <- app_assoc in *. by exists h, tl.
Qed.

Lemma pop_matching_spec w l :
  queue_at w l ->
  exists r h q, pop_matching test (Some client) n w = Ret (r, world_after w h q) /\
    match first_match (matches w) l with
    | None => r = None /\ h = w_chunks w /\ queue_after w l l h q
    | Some (b, l') =>
        r = Some b /\ queue_after w l l' h q /\
        exists x, live h b = Some (set_next None x) /\ live (w_chunks w) b = Some x
    end.
Proof using test_run.
  intros Hq. pose proof Hq as [Hcl Hlock Hl]. unfold pop_matching.
  queue_run. cbn [negb]. queue_run. destruct l as [|a [|b l]].
  - rewrite (il_hd _ _ _ _ _ Hl). cbn [hd_error]. queue_run.
    exists None, (w_chunks w), (ChunkQueue free_mutex (head (queue_of n cl)) (tail (queue_of n cl))).
    split; [done|]. cbn [first_match]. split_and!; [done|done|]. split; [done|done|apply relinked_refl].
  - destruct (is_list_live _ _ _ _ _ a Hl ltac:(left)) as [x Hx].
    rewrite (il_hd _ _ _ _ _ Hl), (il_tl _ _ _ _ _ Hl). cbn [hd_error last]. queue_run.
    rewrite bind_test, Nat.eqb_refl. cbn [first_match]. unfold matches. rewrite Hx. world_simpl.
    destruct (p (w_env w) x).
    + queue_run. exists (Some a), (w_chunks w), (ChunkQueue free_mutex None None). split; [done|].
      split_and!; [done|split; [done|apply is_list_empty|apply relinked_refl]|].
      exists x. split; [|done]. rewrite Hx. f_equal.
      destruct (il_chain _ _ _ _ _ Hl) as [(x' & Hx' & Hn) _]. rewrite Hx in Hx'.
      injection Hx' as <-. cbn [hd_error] in Hn. unfold set_next. rewrite <- Hn. by destruct x.
    + queue_run. exists None, (w_chunks w), (ChunkQueue free_mutex (head (queue_of n cl)) (tail (queue_of n cl))).
      split; [done|]. split_and!; [done|done|]. split; [done|done|apply relinked_refl].
  - destruct (is_list_live _ _ _ _ _ a Hl ltac:(left)) as [x Hx].
    destruct (unlink_head _ _ _ _ _ Hq Hx) as (Hhd & Htl & Hne & Haft).
    rewrite Hhd, Htl. destruct (last (b :: l)) as [t'|] eqn:Et; [|by apply last_None in Et].
    queue_run. rewrite bind_test. world_simpl. cbn [first_match]. unfold matches at 1. rewrite Hx.
    rewrite (proj2 (Nat.eqb_neq a t')) by congruence.
    destruct (p (w_env w) x).
    + queue_run. rewrite Htl.
      eexists (Some a), (<[a := Some (set_next None x)]> (w_chunks w)), (ChunkQueue free_mutex (next x) (Some t')).
      split; [done|]. split_and!; [done|exact Haft|]. exists x. split; [live_lookup|done].
    + queue_run.
      match goal with |- context [(pop_loop _ _ _ ?f _ ≫= _) ?w1] =>
        destruct (pop_loop_spec w1 (set_queue n (set_queue_lock (Mutex true true) (queue_of n cl)) cl)
          (b :: l) [] a f ltac:(live_lookup)) as (r & w' & E & Hm) end.
      { rewrite queue_of_set. exact Hl. }
      { world_simpl. pose proof (chain_size _ _ _ (il_chain _ _ _ _ _ Hl) (il_nodup _ _ _ _ _ Hl)) as Hs.
        simpl in Hs |- *. lia. }
      rewrite (bind_ret _ _ _ _ _ E). clear E.
      change (if matches w b then Some (b, l) else _) with (first_match (matches w) (b :: l)).
      change (matches _) with (matches w) in Hm. rewrite queue_of_set in Hm.
      destruct (first_match (matches w) (b :: l)) as [[c l']|].
      * destruct Hm as (-> & h & tl & -> & Hq' & Hr & Hx'). queue_run.
        exists (Some c), h, (ChunkQueue free_mutex (head (queue_of n cl)) tl). split; [done|].
        split_and!; [done|by split|done].
      * destruct Hm as [-> ->]. queue_run.
        exists None, (w_chunks w), (ChunkQueue free_mutex (head (queue_of n cl)) (tail (queue_of n cl))).
        split; [done|]. split_and!; [done|done|]. split; [done|done|apply relinked_refl].
Qed.
End pop_matching.

(** ** Refinement *)

(** Whether the timer of a chunk has run out. *)
Definition expired (e : env) (k : chunk) : bool :=
  match expiry_time k with Some t => negb (os_timer_is_active t e) | None => false end.
Definition has_type_and_id (type id : Z) (_ : env) (k : chunk) : bool :=
  (packet_type k =? type) && (packet_id k =? id).

Lemma pop_by_type_and_id_spec w l type id :
  queue_at w l ->
  exists r h q, _iot_mqtt_queue_pop_by_type_and_id (Some client) n type id w = Ret (r, world_after w h q) /\
    match first_match (matches (has_type_and_id type id) w) l with
    | None => r = None /\ h = w_chunks w /\ queue_after w l l h q
    | Some (b, l') =>
        r = Some b /\ queue_after w l l' h q /\
        exists x, live h b = Some (set_next None x) /\ live (w_chunks w) b = Some x
    end.
Proof. by apply pop_matching_spec. Qed.

Lemma pop_by_expiry_spec w l :
  queue_at w l ->
  exists r h q, _iot_mqtt_queue_pop_by_expiry (Some client) n w = Ret (r, world_after w h q) /\
    match first_match (matches expired w) l with
    | None => r = None /\ h = w_chunks w /\ queue_after w l l h q
    | Some (b, l') =>
        r = Some b /\ queue_after w l l' h q /\
        exists x, live h b = Some (set_next None x) /\ live (w_chunks w) b = Some x
    end.
Proof. by apply pop_matching_spec. Qed.

Inductive chunk_op :=
| Push (k : nat)
| Pop
| PopTypeAndId (type id : Z)
| PopExpired.

Definition run_chunk_op (op : chunk_op) : st world (option nat) :=
  match op with
  | Push k => _iot_mqtt_queue_push (Some client) n k;; mret None
  | Pop => _iot_mqtt_queue_pop (Some client) n
  | PopTypeAndId type id => _iot_mqtt_queue_pop_by_type_and_id (Some client) n type id
  | PopExpired => _iot_mqtt_queue_pop_by_expiry (Some client) n
  end.

(** The same on a list. *)
Definition list_op (w : world) (op : chunk_op) (l : list nat) : option nat * list nat :=
  let pop p := match first_match (matches p w) l with Some (b, l') => (Some b, l') | None => (None, l) end in
  match op with
  | Push k => (None, l ++ [k])
  | Pop => (hd_error l, list.tail l)
  | PopTypeAndId type id => pop (has_type_and_id type id)
  | PopExpired => pop expired
  end.

(** A chunk may be pushed when it is in no queue. *)
Definition may_run (w : world) (op : chunk_op) (l : list nat) : Prop :=
  match op with
  | Push k => k ∉ l /\ exists x, live (w_chunks w) k = Some x /\ next x = None
  | _ => True
  end.
End queue_specs.

(** C37: the chunk queues of the MQTT client refine lists.  On a queue with the
    chunks [l], [_iot_mqtt_queue_push] and the three [_iot_mqtt_queue_pop...]
    functions run without undefined behaviour, give the result of the list
    operation -- the head, or the first chunk of a type and identifier, or the
    first whose timer has run out -- and leave a queue with the list's
    elements, whose tail pointer is right and whose lock is free.  No chunk is
    changed but for its [next]; a chunk that is taken out points to null. *)
Theorem chunk_queue_refines_list `{P : Platform} client cl n w op l :
  queue_at client cl n w l -> may_run w op l ->
  exists h q, run_chunk_op client n op w = Ret ((list_op w op l).1, world_after client cl n w h q) /\
    queue_after w l (list_op w op l).2 h q /\
    (forall k, (list_op w op l).1 = Some k -> exists x, live h k = Some (set_next None x)).
Proof.
  intros Hq Hop. destruct op as [k| |type id|]; cbn [run_chunk_op list_op may_run] in *.
  - destruct Hop as (Hk & x & Hx & Hn).
    destruct (push_spec _ _ _ _ _ _ _ Hq Hx Hn Hk) as (h & q & E & Ha).
    exists h, q. rewrite (bind_ret _ _ _ _ _ E). done.
  - destruct (pop_spec _ _ _ _ _ Hq) as (h & q & E & Ha & Hk). exists h, q.
    split_and!; [done|done|]. intros k Ek. destruct (Hk k Ek) as (x & ? & _). by exists x.
  - destruct (pop_by_type_and_id_spec _ _ _ _ _ type id Hq) as (r & h & q & E & Hm). exists h, q.
    destruct (first_match _ l) as [[b l']|]; [|by destruct Hm as (-> & -> & ?)].
    destruct Hm as (-> & Ha & x & Hx & _). split_and!; [done|done|]. intros k [= <-]. by exists x.
  - destruct (pop_by_expiry_spec _ _ _ _ _ Hq) as (r & h & q & E & Hm). exists h, q.
    destruct (first_match _ l) as [[b l']|]; [|by destruct Hm as (-> & -> & ?)].
    destruct Hm as (-> & Ha & x & Hx & _). split_and!; [done|done|]. intros k [= <-]. by exists x.
Qed.

(** ** Chunks *)

Section chunk_specs.
Context `{P : Platform}.

Definition drop_timer (k : chunk) (e : env) : env :=
  match expiry_time k with Some t => os_timer_delete t e | None => e end.

Lemma chunk_destroy_spec a k w :
  live (w_chunks w) a = Some k ->
  _iot_mqtt_chunk_destroy (Some a) w
  = Ret (tt, with_env (drop_timer k (w_env w)) (with_chunks (<[a := None]> (w_chunks w)) w)).
Proof.
  intros Hk. unfold _iot_mqtt_chunk_destroy, drop_timer. run.
  destruct (expiry_time k); run; erewrite run_release by live_lookup; by destruct w.
Qed.

(** A new chunk with a buffer of [size] bytes. *)
Definition new_chunk (size : Z) (d : option (list Z)) : chunk :=
  set_chunk_size size (set_chunk_data d zero_chunk).

(** Memory as a chunk of [size] bytes takes it: the environment afterwards,
    and whether the one or the other of its two allocations is denied. *)
Definition chunk_env (size : Z) (e : env) : env := (os_malloc size (os_malloc_object e).2).2.
Definition chunk_denied (size : Z) (e : env) : Prop :=
  (os_malloc_object e).1 = false \/ size <> 0 /\ (os_malloc size (os_malloc_object e).2).1 = None.

Lemma chunk_create_spec size w :
  exists r w', _iot_mqtt_chunk_create size w = Ret (r, w') /\
    exists e h, w' = with_env e (with_chunks h w) /\
    match r with
    | Some a => a = fresh_addr (w_chunks w) /\ exists d e1, h = <[a := Some (new_chunk size d)]> (w_chunks w) /\
                os_malloc size e1 = (d, e) /\ (size <> 0 -> is_Some d) /\ e = chunk_env size (w_env w) /\
                ~ chunk_denied size (w_env w)
    | None => chunk_denied size (w_env w) /\ (h = w_chunks w \/ h = <[fresh_addr (w_chunks w) := None]> (w_chunks w))
    end.
Proof.
  unfold _iot_mqtt_chunk_create, os_new. run.
  unfold chunk_denied, chunk_env. destruct (os_malloc_object (w_env w)) as [[] e1]; simpl.
  - run. destruct (os_malloc size e1) as [d e2] eqn:Ed. world_simpl. cbn [snd fst].
    set (a := fresh_addr (w_chunks w)).
    destruct (negb (size =? 0) && bool_decide (d = None)) eqn:Hd; run; rewrite !insert_insert_eq.
    + exists None. eexists. split; [done|]. exists e2, (<[a := None]> (w_chunks w)). split; [done|]. split; [|by right]. right. apply andb_true_iff in Hd as [Hs Hd]. bool_to_prop.
      split; [done|]. by apply bool_decide_eq_true in Hd.
    + exists (Some a). eexists. split; [done|]. exists e2, (<[a := Some (new_chunk size d)]> (w_chunks w)).
      split; [done|]. split; [done|]. exists d, e1. assert (Hgot : size <> 0 -> is_Some d).
      { intros Hs. apply andb_false_iff in Hd as [Hd|Hd]; bool_to_prop; [done|].
      apply bool_decide_eq_false in Hd. destruct d; [by eexists|done]. }
      split_and!; try done. intros [?|[Hs' En]]; [done|]. destruct (Hgot Hs'); congruence.
  - exists None. eexists. split; [done|]. exists e1, (w_chunks w). split; [done|]. split; by left.
Qed.
End chunk_specs.
