(* ===== verification/ClientInv.v ===== *)
(** * The queues of a client, together

    [queues] says that the three chunk queues of a client are well-formed and
    disjoint and which chunks they hold; every step of the engine is proved as
    a change of these three lists, of chunks that are in no queue, and of the
    client's other fields. *)

From S2P Require Import Prelude Platform Heap World ClientQueue.

(** A function of the queue names, changed at one of them. *)
Definition upd (n : queue_name) (l : list nat) (Q : queue_name -> list nat) : queue_name -> list nat :=
  fun n' => if decide (n' = n) then l else Q n'.

Lemma upd_eq n l Q : upd n l Q n = l.
Proof. unfold upd. by rewrite decide_True. Qed.
Lemma upd_ne n n' l Q : n' <> n -> upd n l Q n' = Q n'.
Proof. intros. unfold upd. by rewrite decide_False. Qed.

Section inv.
Context `{P : Platform} (client : nat).

Record queues (ch : heap chunk) (cls : heap MQTTClient) (cl : MQTTClient)
    (Q : queue_name -> list nat) : Prop := {
  qs_live : live cls client = Some cl;
  qs_lock : forall n, lock (queue_of n cl) = free_mutex;
  qs_list : forall n, is_list next ch (head (queue_of n cl)) (tail (queue_of n cl)) (Q n);
  qs_disjoint : forall n n' a, a ∈ Q n -> a ∈ Q n' -> n = n'
}.

(** In no queue. *)
Definition free_of (Q : queue_name -> list nat) (a : nat) : Prop := forall n, a ∉ Q n.

(** A chunk that is live, up to its [next] pointer. *)
Definition view (ch : heap chunk) (a : nat) : option chunk := set_next None <$> live ch a.
Definition chunk_at (ch : heap chunk) (a : nat) (k : chunk) : Prop := view ch a = Some k.

Lemma chunk_at_next ch a k : chunk_at ch a k -> next k = None.
Proof. unfold chunk_at, view. intros E. apply fmap_Some in E as (x & _ & ->). done. Qed.

Lemma chunk_at_intro ch a k : live ch a = Some k -> next k = None -> chunk_at ch a k.
Proof. unfold chunk_at, view. intros -> E. simpl. f_equal. destruct k. simpl in *. by subst. Qed.

Lemma chunk_at_live ch a k : chunk_at ch a k -> exists p, live ch a = Some (set_next p k).
Proof.
  unfold chunk_at, view. intros E. apply fmap_Some in E as (x & Hx & ->). exists (next x).
  rewrite Hx. by destruct x.
Qed.

Lemma queues_at ch cls cl Q n w :
  queues ch cls cl Q -> w_chunks w = ch -> w_clients w = cls -> queue_at client cl n w (Q n).
Proof. intros [H1 H2 H3 _] <- <-. by split. Qed.

Lemma relinked_chunk_at l h h' a k : relinked l h h' -> chunk_at h a k <-> chunk_at h' a k.
Proof. intros [_ E]. unfold chunk_at, view. by rewrite E. Qed.

(** A change of a chunk that is in no queue. *)
Lemma queues_free ch cls cl Q a o :
  free_of Q a -> queues ch cls cl Q -> queues (<[a := o]> ch) cls cl Q.
Proof. intros Ha [H1 H2 H3 H4]. split; try done. intros n. by apply is_list_other. Qed.

(** A change of the client's other fields. *)
Lemma queues_client ch cls cl cl' Q :
  (forall n, queue_of n cl' = queue_of n cl) -> queues ch cls cl Q ->
  queues ch (<[client := Some cl']> cls) cl' Q.
Proof.
  intros E [H1 H2 H3 H4]. split; try done.
  - by rewrite live_insert, decide_True.
  - intros n. by rewrite E.
  - intros n. rewrite E. apply H3.
Qed.

(** An operation that leaves [l'] in the queue [n]. *)
Lemma queues_after ch cls cl Q n w l' h q :
  queues ch cls cl Q -> w_chunks w = ch -> w_clients w = cls ->
  queue_after w (Q n) l' h q -> (forall a n', a ∈ l' -> n' <> n -> a ∉ Q n') ->
  queues h (<[client := Some (set_queue n q cl)]> cls) (set_queue n q cl) (upd n l' Q).
Proof.
  intros [H1 H2 H3 H4] Hc Hcl [Ha Hb Hr] Hd.
  split.
  - by rewrite live_insert, decide_True.
  - intros n'. destruct (decide (n' = n)) as [->|Hn]; [by rewrite queue_of_set|].
    by rewrite queue_of_set_ne.
  - intros n'. destruct (decide (n' = n)) as [->|Hn]; [by rewrite queue_of_set, upd_eq|].
    rewrite queue_of_set_ne, upd_ne by done. eapply is_list_ext; [|apply H3].
    intros a Ha'. unfold live. rewrite (rl_out _ _ _ Hr); [by rewrite Hc|].
    intros Hin. by apply Hn, (H4 _ _ a).
  - intros n1 n2 a. unfold upd. repeat case_decide; subst; intros Hin1 Hin2; try done.
    + by apply Hd in Hin2.
    + by apply Hd in Hin1.
    + by apply (H4 _ _ a).
Qed.

(** ** Operations on a queue *)

(** The client without its queues. *)
Definition fields (cl : MQTTClient) : MQTTClient :=
  let q := ChunkQueue null_mutex None None in
  set_write_pending_queue q (set_ack_pending_queue q (set_user_event_callback_queue q cl)).

Lemma fields_set_queue n q cl : fields (set_queue n q cl) = fields cl.
Proof. by destruct n. Qed.

(** A chunk that is in no queue and so points to null. *)
Definition loose (ch : heap chunk) (Q : queue_name -> list nat) (a : nat) (k : chunk) : Prop :=
  live ch a = Some k /\ next k = None /\ free_of Q a.

Lemma loose_at ch Q a k : loose ch Q a k -> chunk_at ch a k.
Proof. intros (? & ? & _). by apply chunk_at_intro. Qed.

(** A chunk that is in no queue points to null. *)
Definition detached (ch : heap chunk) (Q : queue_name -> list nat) (a : nat) : Prop :=
  free_of Q a -> forall k, live ch a = Some k -> next k = None.

(** A step that moves chunks between queues: what stays as it was. *)
Record moves (w w' : world) (cl cl' : MQTTClient) (Q Q' : queue_name -> list nat) : Prop := {
  mv_queues : queues (w_chunks w') (w_clients w') cl' Q';
  mv_world : w' = with_clients (w_clients w') (with_chunks (w_chunks w') w);
  mv_fields : fields cl' = fields cl;
  mv_clients : forall c, c <> client -> w_clients w' !! c = w_clients w !! c;
  mv_chunks : forall a k, chunk_at (w_chunks w) a k <-> chunk_at (w_chunks w') a k;
  mv_free : forall a, free_of Q a -> w_chunks w' !! a = w_chunks w !! a;
  mv_detached : forall a, detached (w_chunks w) Q a -> detached (w_chunks w') Q' a
}.

Lemma moves_after w cl Q n l' h q :
  queues (w_chunks w) (w_clients w) cl Q -> queue_after w (Q n) l' h q ->
  (forall a n', a ∈ l' -> n' <> n -> a ∉ Q n') ->
  (forall a k, a ∈ Q n -> a ∉ l' -> live h a = Some k -> next k = None) ->
  moves w (world_after client cl n w h q) cl (set_queue n q cl) Q (upd n l' Q).
Proof.
  intros Hq Ha Hd Hout. split.
  - by eapply queues_after.
  - by destruct w.
  - apply fields_set_queue.
  - intros c Hc. apply lookup_insert_ne. done.
  - intros a k. eapply relinked_chunk_at, Ha.
  - intros a Hf. apply (rl_out _ _ _ (qf_rest _ _ _ _ _ Ha)). apply Hf.
  - intros a Hda Hf k Hk. pose proof (Hf n) as Hn. rewrite upd_eq in Hn.
    destruct (decide (a ∈ Q n)) as [Hin|Hin]; [by eapply Hout|].
    apply Hda; [|unfold live in *; by rewrite <- (rl_out _ _ _ (qf_rest _ _ _ _ _ Ha) a Hin)].
    intros n'. destruct (decide (n' = n)) as [->|Hne]; [done|]. specialize (Hf n'). by rewrite upd_ne in Hf.
Qed.

Lemma push_moves w cl Q n a k :
  queues (w_chunks w) (w_clients w) cl Q -> loose (w_chunks w) Q a k ->
  exists w' cl', _iot_mqtt_queue_push (Some client) n a w = Ret (0, w') /\
    moves w w' cl cl' Q (upd n (Q n ++ [a]) Q).
Proof.
  intros Hq (Ha & Hn & Hf).
  destruct (push_spec client cl n w (Q n) a k (queues_at _ _ _ _ _ _ Hq eq_refl eq_refl) Ha Hn (Hf n))
    as (h & q & E & Haft).
  eexists _, _. split; [exact E|]. apply moves_after; [done|done| |].
  - intros b n' [Hb|Hb]%elem_of_app Hne.
    + intros Hb'. by apply Hne, (qs_disjoint _ _ _ _ Hq _ _ b).
    + apply list_elem_of_singleton in Hb as ->. apply Hf.
  - intros b kb Hb Hnb. destruct Hnb. apply elem_of_app. by left.
Qed.

(** Taking [a] out of the queue [n], in which [l'] stays. *)
Record takes (w w' : world) (cl cl' : MQTTClient) (Q : queue_name -> list nat) (n : queue_name)
    (a : nat) (l' : list nat) (k : chunk) : Prop := {
  tk_moves : moves w w' cl cl' Q (upd n l' Q);
  tk_before : chunk_at (w_chunks w) a k;
  tk_loose : loose (w_chunks w') (upd n l' Q) a k
}.

Lemma takes_after w cl Q n a l1 l2 h q x :
  queues (w_chunks w) (w_clients w) cl Q -> Q n = l1 ++ a :: l2 ->
  queue_after w (Q n) (l1 ++ l2) h q ->
  live h a = Some (set_next None x) -> live (w_chunks w) a = Some x ->
  takes w (world_after client cl n w h q) cl (set_queue n q cl) Q n a (l1 ++ l2) (set_next None x).
Proof.
  intros Hq El Haft Hh Hw.
  assert (Hsub : forall b, b ∈ l1 ++ l2 -> b ∈ Q n).
  { intros b Hb. rewrite El. apply elem_of_app. apply elem_of_app in Hb as [?|?]; [by left|by right; right]. }
  assert (Hn : a ∉ l1 ++ l2).
  { pose proof (il_nodup _ _ _ _ _ (qs_list _ _ _ _ Hq n)) as Hnd. rewrite El in Hnd.
    apply NoDup_app in Hnd as (_ & Hn1 & Hn2). apply NoDup_cons in Hn2 as [Hn2 _].
    intros [Hb|Hb]%elem_of_app; [|done]. by apply (Hn1 a Hb); left. }
  split.
  - apply moves_after; [done|done| |].
    + intros b n' Hb Hne Hb'. by apply Hne, (qs_disjoint _ _ _ _ Hq n' n b Hb'), Hsub.
    + intros b kb Hb Hnb Hkb. rewrite El in Hb.
      assert (b = a) as -> by (apply elem_of_app in Hb as [Hb|[->|Hb]%elem_of_cons];
        [destruct Hnb; apply elem_of_app; by left|done|destruct Hnb; apply elem_of_app; by right]).
      rewrite Hh in Hkb. by injection Hkb as <-.
  - unfold chunk_at, view. by rewrite Hw.
  - split_and!; [done|done|]. intros n'. unfold upd. case_decide as Hne; [done|].
    intros Hin. apply Hne, (qs_disjoint _ _ _ _ Hq n' n a Hin). rewrite El. apply elem_of_app. right. left.
Qed.

Lemma pop_takes w cl Q n :
  queues (w_chunks w) (w_clients w) cl Q ->
  match Q n with
  | [] => exists w' cl', _iot_mqtt_queue_pop (Some client) n w = Ret (None, w') /\ moves w w' cl cl' Q (upd n [] Q)
  | a :: l => exists w' cl' k, _iot_mqtt_queue_pop (Some client) n w = Ret (Some a, w') /\
              takes w w' cl cl' Q n a l k
  end.
Proof.
  intros Hq. destruct (pop_spec client cl n w (Q n) (queues_at _ _ _ _ _ _ Hq eq_refl eq_refl))
    as (h & q & E & Haft & Hpop).
  destruct (Q n) as [|a l] eqn:El; simpl in *.
  - eexists _, _. split; [exact E|]. apply moves_after; [done|by rewrite El| |].
    + intros ? ? ?%elem_of_nil. done.
    + intros a k. rewrite El. by intros ?%elem_of_nil.
  - destruct (Hpop a eq_refl) as (x & Hh & Hw). eexists _, _, _. split; [exact E|].
    apply (takes_after _ _ _ _ _ [] l); try done. by rewrite El.
Qed.

(** What the test of a pop says of a chunk, wherever it points. *)
Lemma first_match_takes p w cl Q n r h q :
  (forall e k x, p e (set_next x k) = p e k) ->
  queues (w_chunks w) (w_clients w) cl Q ->
  match first_match (matches p w) (Q n) with
  | None => r = None /\ h = w_chunks w /\ queue_after w (Q n) (Q n) h q
  | Some (b, l') =>
      r = Some b /\ queue_after w (Q n) l' h q /\
      exists x, live h b = Some (set_next None x) /\ live (w_chunks w) b = Some x
  end ->
  match r with
  | None => moves w (world_after client cl n w h q) cl (set_queue n q cl) Q (upd n (Q n) Q) /\
            forall a k, a ∈ Q n -> chunk_at (w_chunks w) a k -> p (w_env w) k = false
  | Some a => exists l1 l2 k, Q n = l1 ++ a :: l2 /\
      takes w (world_after client cl n w h q) cl (set_queue n q cl) Q n a (l1 ++ l2) k /\
      p (w_env w) k = true /\
      forall b k, b ∈ l1 -> chunk_at (w_chunks w) b k -> p (w_env w) k = false
  end.
Proof.
  intros Hp Hq. assert (Hm : forall a k, chunk_at (w_chunks w) a k -> matches p w a = p (w_env w) k).
  { intros a k Ha. apply chunk_at_live in Ha as [x Hx]. unfold matches. by rewrite Hx, Hp. }
  destruct (first_match (matches p w) (Q n)) as [[b l']|] eqn:Ef.
  - intros (-> & Haft & x & Hh & Hw).
    apply first_match_split in Ef as (l1 & l2 & El & -> & Hb & Hl1).
    exists l1, l2, (set_next None x). split; [done|]. split; [by apply takes_after|]. split.
    + rewrite <- Hb. unfold matches. by rewrite Hw, Hp.
    + intros c k Hc Hk. rewrite <- (Hm _ _ Hk). by apply Hl1.
  - intros (-> & -> & Haft). split.
    + apply moves_after; [done|done| |by intros].
      intros a n' Ha Hne Ha'. by apply Hne, (qs_disjoint _ _ _ _ Hq _ _ a).
    + intros a k Ha Hk. rewrite <- (Hm _ _ Hk). destruct (matches p w a) eqn:E; [|done].
      apply list_elem_of_split in Ha as (k1 & k2 & Ek).
      exfalso. revert Ef. generalize (Q n) Ek. clear -E. intros l ->.
      induction k1 as [|c k1 IH]; simpl; [by rewrite E|].
      destruct (matches p w c); [done|]. by destruct (first_match _ _) as [[]|].
Qed.

Lemma pop_by_type_and_id_takes w cl Q n type id :
  queues (w_chunks w) (w_clients w) cl Q ->
  exists r w' cl', _iot_mqtt_queue_pop_by_type_and_id (Some client) n type id w = Ret (r, w') /\
    match r with
    | None => moves w w' cl cl' Q (upd n (Q n) Q) /\
              forall a k, a ∈ Q n -> chunk_at (w_chunks w) a k -> packet_type k = type -> packet_id k <> id
    | Some a => exists l1 l2 k, Q n = l1 ++ a :: l2 /\ takes w w' cl cl' Q n a (l1 ++ l2) k /\
        packet_type k = type /\ packet_id k = id /\
        forall b k, b ∈ l1 -> chunk_at (w_chunks w) b k -> packet_type k = type -> packet_id k <> id
    end.
Proof.
  intros Hq. assert (Hno : forall k, has_type_and_id type id (w_env w) k = false ->
    packet_type k = type -> packet_id k <> id).
  { unfold has_type_and_id. intros k Hk Ht Hi. rewrite Ht, Hi, !Z.eqb_refl in Hk. done. }
  destruct (pop_by_type_and_id_spec client cl n w (Q n) type id (queues_at _ _ _ _ _ _ Hq eq_refl eq_refl))
    as (r & h & q & E & Hm).
  apply (first_match_takes (has_type_and_id type id) w cl Q n r h q ltac:(done) Hq) in Hm.
  eexists _, _, _. split; [exact E|]. destruct r as [a|].
  - destruct Hm as (l1 & l2 & k & El & Ht & Hp & Hl1). unfold has_type_and_id in Hp. bool_to_prop.
    exists l1, l2, k. split_and!; try done. eauto.
  - destruct Hm as [Hm Hl]. split; [done|]. eauto.
Qed.

Lemma pop_by_expiry_takes w cl Q n :
  queues (w_chunks w) (w_clients w) cl Q ->
  exists r w' cl', _iot_mqtt_queue_pop_by_expiry (Some client) n w = Ret (r, w') /\
    match r with
    | None => moves w w' cl cl' Q (upd n (Q n) Q) /\
              forall a k, a ∈ Q n -> chunk_at (w_chunks w) a k -> expired (w_env w) k = false
    | Some a => exists l1 l2 k, Q n = l1 ++ a :: l2 /\ takes w w' cl cl' Q n a (l1 ++ l2) k /\
        expired (w_env w) k = true /\
        forall b k, b ∈ l1 -> chunk_at (w_chunks w) b k -> expired (w_env w) k = false
    end.
Proof.
  intros Hq.
  destruct (pop_by_expiry_spec client cl n w (Q n) (queues_at _ _ _ _ _ _ Hq eq_refl eq_refl))
    as (r & h & q & E & Hm).
  apply (first_match_takes expired w cl Q n r h q ltac:(done) Hq) in Hm.
  eexists _, _, _. split; [exact E|]. by destruct r.
Qed.

(** ** Steps of the engine *)

(** A step that may change the chunks in [touched]; all others stay as they
    are, or move between queues. *)
Record steps (touched : list nat) (w w' : world) (cl cl' : MQTTClient) (Q Q' : queue_name -> list nat)
    : Prop := {
  st_queues : queues (w_chunks w') (w_clients w') cl' Q';
  st_clients : forall c, c <> client -> w_clients w' !! c = w_clients w !! c;
  st_chunks : forall a k, a ∉ touched -> chunk_at (w_chunks w) a k <-> chunk_at (w_chunks w') a k;
  st_free : forall a, a ∉ touched -> free_of Q a -> w_chunks w' !! a = w_chunks w !! a /\ free_of Q' a;
  st_detached : forall a, detached (w_chunks w) Q a -> detached (w_chunks w') Q' a;
  st_nodes : w_nodes w' = w_nodes w;
  st_work : w_queues w' = w_queues w
}.

(** No event, nothing sent or received. *)
Definition silent (w w' : world) : Prop :=
  w_events w' = w_events w /\ w_sent w' = w_sent w /\ w_received w' = w_received w.

Lemma silent_trans w1 w2 w3 : silent w1 w2 -> silent w2 w3 -> silent w1 w3.
Proof. unfold silent. intros (?&?&?) (?&?&?). split_and!; congruence. Qed.

Lemma steps_trans t1 t2 w1 w2 w3 cl1 cl2 cl3 Q1 Q2 Q3 :
  steps t1 w1 w2 cl1 cl2 Q1 Q2 -> steps t2 w2 w3 cl2 cl3 Q2 Q3 ->
  steps (t1 ++ t2) w1 w3 cl1 cl3 Q1 Q3.
Proof.
  intros [A1 A2 A3 A4 A5 A6 A7] [B1 B2 B3 B4 B5 B6 B7]. split; try congruence; try done.
  - intros c Hc. by rewrite B2, A2.
  - intros a k Ha. rewrite not_elem_of_app in Ha. destruct Ha. by rewrite A3, B3.
  - intros a Ha Hf. rewrite not_elem_of_app in Ha. destruct Ha as [Ha1 Ha2].
    destruct (A4 a Ha1 Hf) as [E1 F1]. destruct (B4 a Ha2 F1) as [E2 F2]. by rewrite E2, E1.
  - intros a Ha. by apply B5, A5.
Qed.

Lemma steps_view t w w' cl cl' Q Q' a :
  steps t w w' cl cl' Q Q' -> a ∉ t -> view (w_chunks w') a = view (w_chunks w) a.
Proof.
  intros Hs Ha. pose proof (st_chunks _ _ _ _ _ _ _ Hs a) as E. unfold chunk_at in E.
  destruct (view (w_chunks w) a) as [k|]; [by apply E|].
  destruct (view (w_chunks w') a) as [k|]; [|done]. by rewrite (proj2 (E k Ha) eq_refl).
Qed.

Lemma free_of_same n Q b : free_of Q b -> free_of (upd n (Q n) Q) b.
Proof. intros Hf n'. unfold upd. case_decide; subst; apply Hf. Qed.

Lemma queues_view ch cls cl Q n a : queues ch cls cl Q -> a ∈ Q n -> exists k, view ch a = Some k.
Proof.
  intros Hq Ha. destruct (is_list_live _ _ _ _ _ _ (qs_list _ _ _ _ Hq n) Ha) as [x Hx].
  exists (set_next None x). unfold view. by rewrite Hx.
Qed.

Lemma steps_ext t w w' cl cl' Q Q1 Q2 :
  (forall n, Q2 n = Q1 n) -> steps t w w' cl cl' Q Q1 -> steps t w w' cl cl' Q Q2.
Proof.
  intros E [[B1 B2 B3 B4] A2 A3 A4 A5 A6 A7]. split; try done.
  - split; [done|done| |].
    + intros n. rewrite E. apply B3.
    + intros n n'. rewrite !E. apply B4.
  - intros a Ha Hf. destruct (A4 a Ha Hf) as [F1 F2]. split; [done|]. intros n. rewrite E. apply F2.
  - intros a Ha Hf. apply A5; [done|]. intros n. rewrite <- E. apply Hf.
Qed.

Lemma upd_same n Q : forall n', Q n' = upd n (Q n) Q n'.
Proof. intros n'. unfold upd. by case_decide; subst. Qed.

Lemma steps_weaken t1 t2 w w' cl cl' Q Q' :
  (forall a, a ∈ t1 -> a ∈ t2) -> steps t1 w w' cl cl' Q Q' -> steps t2 w w' cl cl' Q Q'.
Proof.
  intros Ht [A1 A2 A3 A4 A5 A6 A7]. split; try done; intros a; [intros k|]; intros Ha; auto.
Qed.

Lemma moves_steps t w w' cl cl' Q Q' :
  moves w w' cl cl' Q Q' -> (forall b, b ∉ t -> free_of Q b -> free_of Q' b) ->
  steps t w w' cl cl' Q Q' /\ silent w w' /\ w_env w' = w_env w.
Proof.
  intros [A1 A2 A3 A4 A5 A6 A7] Hf. split; [split; try done|].
  - intros b Hb Hfb. split; [by apply A6|by apply Hf].
  - by rewrite A2.
  - by rewrite A2.
  - rewrite A2. by split.
Qed.

(** [a] behind the queue [n], and out of it. *)
Definition enqueue (n : queue_name) (a : nat) (Q : queue_name -> list nat) : queue_name -> list nat :=
  upd n (Q n ++ [a]) Q.

Lemma free_of_enqueue n a Q b : b <> a -> free_of Q b -> free_of (enqueue n a Q) b.
Proof.
  intros Hb Hf n'. unfold enqueue, upd. case_decide; [|apply Hf].
  rewrite elem_of_app, list_elem_of_singleton. intros [Hin|Hin]; [by apply (Hf n)|done].
Qed.

Lemma free_of_removed n a l1 l2 Q b :
  Q n = l1 ++ a :: l2 -> free_of Q b -> free_of (upd n (l1 ++ l2) Q) b.
Proof.
  intros El Hf n'. unfold upd. case_decide; [|apply Hf]. subst. intros Hin.
  apply (Hf n). rewrite El. apply elem_of_app in Hin as [?|?]; apply elem_of_app; [by left|by right; right].
Qed.

Lemma push_steps w cl Q n a k :
  queues (w_chunks w) (w_clients w) cl Q -> loose (w_chunks w) Q a k ->
  exists w' cl', _iot_mqtt_queue_push (Some client) n a w = Ret (0, w') /\
    steps [a] w w' cl cl' Q (enqueue n a Q) /\ silent w w' /\ w_env w' = w_env w /\
    fields cl' = fields cl /\ chunk_at (w_chunks w') a k.
Proof.
  intros Hq Hl. destruct (push_moves w cl Q n a k Hq Hl) as (w' & cl' & E & Hm).
  exists w', cl'. split; [done|].
  destruct (moves_steps [a] _ _ _ _ _ _ Hm) as (S1 & S2 & S3).
  { intros b Hb. rewrite list_elem_of_singleton in Hb. by apply free_of_enqueue. }
  split_and!; try done; [apply Hm|]. apply (mv_chunks _ _ _ _ _ _ Hm). by eapply loose_at.
Qed.

Lemma detached_insert ch Q a o b :
  (forall k, o = Some k -> next k = None) -> detached ch Q b -> detached (<[a := o]> ch) Q b.
Proof.
  intros Ho Hb Hf k. rewrite live_insert. case_decide; [apply Ho|by apply Hb].
Qed.

(** A change of a chunk that is in no queue, and of the platform. *)
Lemma write_steps w cl Q a k k' e :
  queues (w_chunks w) (w_clients w) cl Q -> loose (w_chunks w) Q a k -> next k' = None ->
  let w' := with_env e (with_chunks (<[a := Some k']> (w_chunks w)) w) in
  steps [a] w w' cl cl Q Q /\ silent w w' /\ loose (w_chunks w') Q a k'.
Proof.
  intros Hq (Ha & Hn & Hf) Hn' w'. split_and!; [|done|].
  - split; try done.
    + by apply queues_free.
    + intros b kb Hb. rewrite list_elem_of_singleton in Hb. unfold chunk_at, view. simpl.
      by rewrite live_insert, decide_False.
    + intros b Hb Hfb. rewrite list_elem_of_singleton in Hb. simpl. by rewrite lookup_insert_ne.
    + intros b. apply detached_insert. congruence.
  - split_and!; [|done|done]. simpl. by rewrite live_insert, decide_True.
Qed.

Lemma free_steps w cl Q a k e :
  queues (w_chunks w) (w_clients w) cl Q -> loose (w_chunks w) Q a k ->
  let w' := with_env e (with_chunks (<[a := None]> (w_chunks w)) w) in
  steps [a] w w' cl cl Q Q /\ silent w w'.
Proof.
  intros Hq (Ha & Hn & Hf) w'. split; [|done]. split; try done.
  - by apply queues_free.
  - intros b kb Hb. rewrite list_elem_of_singleton in Hb. unfold chunk_at, view. simpl.
    by rewrite live_insert, decide_False.
  - intros b Hb Hfb. rewrite list_elem_of_singleton in Hb. simpl. by rewrite lookup_insert_ne.
  - intros b. apply detached_insert. congruence.
Qed.

(** A new chunk. *)
Lemma new_steps w cl Q a k e :
  queues (w_chunks w) (w_clients w) cl Q -> w_chunks w !! a = None -> next k = None ->
  let w' := with_env e (with_chunks (<[a := Some k]> (w_chunks w)) w) in
  steps [a] w w' cl cl Q Q /\ silent w w' /\ loose (w_chunks w') Q a k.
Proof.
  intros Hq Ha Hn w'.
  assert (Hf : free_of Q a).
  { intros n Hin. destruct (is_list_live _ _ _ _ _ _ (qs_list _ _ _ _ Hq n) Hin) as [x Hx].
    unfold live in Hx. by rewrite Ha in Hx. }
  split_and!; [|done|].
  - split; try done.
    + by apply queues_free.
    + intros b kb Hb. rewrite list_elem_of_singleton in Hb. unfold chunk_at, view. simpl.
      by rewrite live_insert, decide_False.
    + intros b Hb Hfb. rewrite list_elem_of_singleton in Hb. simpl. by rewrite lookup_insert_ne.
    + intros b. apply detached_insert. congruence.
  - split_and!; [|done|done]. simpl. by rewrite live_insert, decide_True.
Qed.

(** ** The client's other fields *)

Lemma client_steps w cl cl' Q e :
  queues (w_chunks w) (w_clients w) cl Q -> (forall n, queue_of n cl' = queue_of n cl) ->
  let w' := with_env e (with_clients (<[client := Some cl']> (w_clients w)) w) in
  steps [] w w' cl cl' Q Q /\ silent w w'.
Proof.
  intros Hq Hn w'. split; [|done]. split; try done.
  - by apply (queues_client _ _ cl).
  - intros c Hc. simpl. by rewrite lookup_insert_ne.
Qed.

Lemma queue_of_lock n m l cl : queue_of n (set_lock_of m l cl) = queue_of n cl.
Proof. by destruct n, m. Qed.

Lemma lock_of_set n l cl : lock_of n (set_lock_of n l cl) = l.
Proof. by destruct n. Qed.
Lemma lock_of_set_ne n m l cl : n <> m -> lock_of n (set_lock_of m l cl) = lock_of n cl.
Proof. by destruct n, m. Qed.
Lemma set_lock_set n l l' cl : set_lock_of n l (set_lock_of n l' cl) = set_lock_of n l cl.
Proof. by destruct n. Qed.
Lemma set_lock_id n cl : set_lock_of n (lock_of n cl) cl = cl.
Proof. by destruct n, cl. Qed.
Lemma fields_lock n cl : lock_of n (fields cl) = lock_of n cl.
Proof. by destruct n. Qed.
Lemma fields_set_lock n l cl : fields (set_lock_of n l cl) = set_lock_of n l (fields cl).
Proof. by destruct n. Qed.

Lemma fields_unlock n cl cl2 :
  fields cl2 = fields (set_lock_of n (Mutex true true) cl) -> lock_of n cl = free_mutex ->
  fields (set_lock_of n (mutex_unlock (lock_of n cl2)) cl2) = fields cl.
Proof.
  intros E Hl. rewrite <- (fields_lock n cl2), fields_set_lock, E, fields_lock, lock_of_set.
  rewrite fields_set_lock, set_lock_set. unfold mutex_unlock. simpl. fold free_mutex.
  rewrite <- Hl, <- (fields_lock n cl). apply set_lock_id.
Qed.

Lemma bind_lock_client {B} w cl n (k : bool -> st world B) :
  live (w_clients w) client = Some cl -> lock_of n cl = free_mutex ->
  (lock_client (Some client) n ≫= k) w
  = k true (with_clients (<[client := Some (set_lock_of n (Mutex true true) cl)]> (w_clients w)) w).
Proof. intros Hl Hn. unfold lock_client. run. rewrite Hn. simpl. by run. Qed.

Lemma bind_unlock_client {B} w cl n (k : unit -> st world B) :
  live (w_clients w) client = Some cl ->
  (unlock_client (Some client) n ≫= k) w
  = k tt (with_clients (<[client := Some (set_lock_of n (mutex_unlock (lock_of n cl)) cl)]> (w_clients w)) w).
Proof. intros Hl. unfold unlock_client. by run. Qed.

(** Taking or giving back one of the client's locks. *)
Lemma lock_steps w cl Q n m :
  queues (w_chunks w) (w_clients w) cl Q ->
  let w' := with_clients (<[client := Some (set_lock_of n m cl)]> (w_clients w)) w in
  steps [] w w' cl (set_lock_of n m cl) Q Q /\ silent w w'.
Proof.
  intros Hq. apply (client_steps w cl (set_lock_of n m cl) Q (w_env w) Hq). intros. apply queue_of_lock.
Qed.

(** Steps without touched chunks in front and behind. *)
Lemma steps_between t w0 w1 w2 w3 cl0 cl1 cl2 cl3 Q0 Q1 Q2 Q3 :
  steps [] w0 w1 cl0 cl1 Q0 Q1 -> steps t w1 w2 cl1 cl2 Q1 Q2 -> steps [] w2 w3 cl2 cl3 Q2 Q3 ->
  steps t w0 w3 cl0 cl3 Q0 Q3.
Proof.
  intros S1 S2 S3.
  pose proof (steps_trans _ _ _ _ _ _ _ _ _ _ _ (steps_trans _ _ _ _ _ _ _ _ _ _ _ S1 S2) S3) as S.
  eapply steps_weaken; [|exact S]. intros b. by rewrite app_nil_r.
Qed.

(** ** Code that runs under one of the client's locks *)

Lemma locked_section {A B} n (m : st world A) (no : st world B) (k : A -> st world B)
    t w w2 cl cl2 Q Q2 a :
  queues (w_chunks w) (w_clients w) cl Q -> lock_of n cl = free_mutex ->
  let cl1 := set_lock_of n (Mutex true true) cl in
  let w1 := with_clients (<[client := Some cl1]> (w_clients w)) w in
  m w1 = Ret (a, w2) -> steps t w1 w2 cl1 cl2 Q Q2 -> fields cl2 = fields cl1 ->
  let cl3 := set_lock_of n (mutex_unlock (lock_of n cl2)) cl2 in
  let w3 := with_clients (<[client := Some cl3]> (w_clients w2)) w2 in
  (locked ← lock_client (Some client) n;
   if negb locked then no else a ← m; unlock_client (Some client) n;; k a) w = k a w3 /\
  steps t w w3 cl cl3 Q Q2 /\ fields cl3 = fields cl.
Proof.
  intros Hq Hn cl1 w1 E S Hf cl3 w3.
  destruct (lock_steps w cl Q n (Mutex true true) Hq) as [S1 _].
  destruct (lock_steps w2 cl2 Q2 n (mutex_unlock (lock_of n cl2)) (st_queues _ _ _ _ _ _ _ S)) as [S3 _].
  split_and!.
  - rewrite (bind_lock_client w cl n) by (done || apply Hq). cbn [negb]. rewrite (bind_ret _ _ _ _ _ E).
    by erewrite bind_unlock_client by apply (st_queues _ _ _ _ _ _ _ S).
  - by eapply steps_between.
  - by apply fields_unlock.
Qed.
End inv.
