(* ===== verification/Sample.v ===== *)
(** * A sample state of the client

    States of a connected client on the simulated platform, on which the
    theorems about the client are run. *)

From S2P Require Import Prelude MqttPacket Platform Heap World ClientQueue ClientInv.

Definition sample_queue (l : list nat) : chunk_queue := ChunkQueue free_mutex (hd_error l) (last l).

(** Timers 0 and 1 are [last_sent] and [last_received]. *)
Definition sample_client (wr ack ev : list nat) : MQTTClient :=
  Client MQTT_CLIENT_STRUCT_MAGIC_NUMBER 1 60 1 (Some 0%nat) (Some 0%nat) (Some 1%nat) free_mutex true
    (Some 10%nat) free_mutex free_mutex (sample_queue wr) (sample_queue ack) (sample_queue ev) None.

Definition sample_lists (wr ack ev : list nat) (n : queue_name) : list nat :=
  match n with WritePending => wr | AckPending => ack | UserEvent => ev end.

(** The chunks [k a] for [a] in [l], linked. *)
Fixpoint linked (k : nat -> chunk) (l : list nat) : list (nat * option chunk) :=
  match l with [] => [] | a :: l => (a, Some (set_next (hd_error l) (k a))) :: linked k l end.

Definition sample_chunks (k : nat -> chunk) (wr ack ev free : list nat) : list (nat * option chunk) :=
  linked k wr ++ linked k ack ++ linked k ev ++ map (fun a => (a, Some (set_next None (k a)))) free.

Definition sample_world (e : sim) (k : nat -> chunk) (wr ack ev free : list nat) : world :=
  World SimPlatform e (list_to_map (sample_chunks k wr ack ev free))
    {[ 0%nat := Some (sample_client wr ack ev) ]} ∅ ∅ [] [] [].

Lemma linked_keys k l : (linked k l).*1 = l.
Proof. induction l as [|a l IH]; [done|]. simpl. f_equal. exact IH. Qed.

Lemma sample_keys k wr ack ev free : (sample_chunks k wr ack ev free).*1 = wr ++ ack ++ ev ++ free.
Proof.
  unfold sample_chunks. rewrite !fmap_app, !linked_keys. do 3 f_equal.
  induction free as [|a l IH]; [done|]. simpl. f_equal. exact IH.
Qed.

Section sample.
Context (e : sim) (k : nat -> chunk) (wr ack ev free : list nat).
Context (Hnd : NoDup (wr ++ ack ++ ev ++ free)).

Lemma sample_live a x :
  (a, Some x) ∈ sample_chunks k wr ack ev free ->
  live (w_chunks (sample_world e k wr ack ev free)) a = Some x.
Proof using Hnd.
  intros Ha. unfold live. cbn [w_chunks sample_world].
  by rewrite (elem_of_list_to_map_1 _ a (Some x)) by (rewrite ?sample_keys; done).
Qed.

Lemma sample_chain l :
  (forall p, p ∈ linked k l -> p ∈ sample_chunks k wr ack ev free) ->
  chain next (w_chunks (sample_world e k wr ack ev free)) l.
Proof using Hnd.
  induction l as [|a l IH]; intros Hl; [done|]. split.
  - exists (set_next (hd_error l) (k a)). split; [|done]. apply sample_live, Hl. left.
  - apply IH. intros p Hp. apply Hl. by right.
Qed.

Lemma sample_queues :
  queues 0 (w_chunks (sample_world e k wr ack ev free)) (w_clients (sample_world e k wr ack ev free))
    (sample_client wr ack ev) (sample_lists wr ack ev).
Proof using Hnd.
  split.
  - done.
  - by intros [].
  - intros n. split.
    + apply sample_chain. intros p Hp. unfold sample_chunks. rewrite !elem_of_app.
      destruct n; simpl in Hp; tauto.
    + by destruct n.
    + by destruct n.
    + rewrite !NoDup_app in Hnd. destruct n; simpl; tauto.
  - intros n n' a Hn Hn'. rewrite !NoDup_app in Hnd. destruct Hnd as (_ & H1 & _ & H2 & _).
    specialize (H1 a). specialize (H2 a). rewrite !elem_of_app in H1. rewrite !elem_of_app in H2.
    destruct n, n'; simpl in *; tauto.
Qed.

(** The chunks in no queue. *)
Lemma sample_loose a :
  a ∈ free -> loose (w_chunks (sample_world e k wr ack ev free)) (sample_lists wr ack ev) a (set_next None (k a)).
Proof using Hnd.
  intros Ha. split_and!; [|done|].
  - apply sample_live. unfold sample_chunks. rewrite !elem_of_app. do 3 right.
    apply list_elem_of_fmap. by exists a.
  - intros n Hin. rewrite !NoDup_app in Hnd. destruct Hnd as (_ & H1 & _ & H2 & _ & H3 & _).
    specialize (H1 a). specialize (H2 a). specialize (H3 a).
    rewrite !elem_of_app in H1. rewrite !elem_of_app in H2.
    destruct n; simpl in *; tauto.
Qed.
End sample.

(** The proof that addresses are distinct. *)
Ltac distinct := apply (bool_decide_unpack _); vm_compute; exact I.

(** A packet that waits for its acknowledgement; its timer is its address. *)
Definition sample_packet (a : nat) : chunk :=
  Chunk PUBLISH 7 1 (Some [50; 6; 0; 1; 97; 0; 7; 104]) 8 PACKET_CHUNK_ACK_PENDING (Some a) 0 0 0 None.

Definition sample_env (expired : list nat) : sim := Sim 20 100 expired [] [] true.

Lemma chunk_queue_refines_list_witness :
  let w := sample_world (sample_env [21%nat]) sample_packet [] [20; 21; 22]%nat [] [23%nat] in
  let cl := sample_client [] [20; 21; 22]%nat [] in
  exists h q, run_chunk_op 0 AckPending PopExpired w = Ret (Some 21%nat, world_after 0 cl AckPending w h q) /\
    queue_after w [20; 21; 22]%nat [20; 22]%nat h q /\
    (forall k, Some 21%nat = Some k -> exists x, live h k = Some (set_next None x)).
Proof.
  intros w cl. refine (chunk_queue_refines_list 0 cl AckPending w PopExpired [20; 21; 22]%nat _ I).
  apply (queues_at 0 (w_chunks w) (w_clients w) cl (sample_lists [] [20; 21; 22]%nat []) AckPending); [|done|done].
  apply sample_queues. distinct.
Defined.
