(* ===== verification/ClientRun.v ===== *)
(** * The engine of the MQTT client

    The middle part of [src/src/mqtt/client/iot_mqtt_client.c]: the network
    loops, what happens to a packet after it is written and after it is read,
    retries, keep-alive, the callbacks to the user, and the cycle that runs
    them.  A network loop that makes no progress is the caller's fuel
    [net_fuel] running out. *)

From S2P Require Import Prelude Cursor MqttPacket MqttPublish MqttConnect MqttSubscribe.
From S2P Require Import Platform Heap World UtilQueue ClientQueue.

(** ** Constants *)

Definition E_ST_MQTT_FAILURE : Z := -1.
Definition E_ST_MQTT_DISCONNECTED : Z := -2.
Definition E_ST_MQTT_BUFFER_OVERFLOW : Z := -3.
Definition E_ST_MQTT_UNNACCEPTABLE_PROTOCOL : Z := -4.
Definition E_ST_MQTT_SERVER_UNAVAILABLE : Z := -5.
Definition E_ST_MQTT_CLIENTID_REJECTED : Z := -6.
Definition E_ST_MQTT_BAD_USERNAME_OR_PASSWORD : Z := -7.
Definition E_ST_MQTT_NOT_AUTHORIZED : Z := -8.
Definition E_ST_MQTT_NETWORK_ERROR : Z := -9.
Definition E_ST_MQTT_PACKET_TIMEOUT : Z := -10.
Definition E_ST_MQTT_PING_FAIL : Z := -11.
Definition E_ST_MQTT_PING_TIMEOUT : Z := -12.

Definition MQTT_DISCONNECTED_NETWORK_ERROR : Z := 0.
Definition MQTT_DISCONNECTED_PING_TIMEOUT : Z := 2.

Definition MQTT_CONNECTION_ACCEPTED : Z := 0.
Definition MQTT_UNNACCEPTABLE_PROTOCOL : Z := 1.
Definition MQTT_CLIENTID_REJECTED : Z := 2.
Definition MQTT_SERVER_UNAVAILABLE : Z := 3.
Definition MQTT_BAD_USERNAME_OR_PASSWORD : Z := 4.
Definition MQTT_NOT_AUTHORIZED : Z := 5.

Definition MQTT_PUBLISH_RETRY : Z := 3.
Definition MQTT_RETRY_TIMEOUT : Z := 12000.
Definition MQTT_CONNECT_TIMEOUT : Z := 20000.
Definition DEVICE_PENDING_WORK_SIGNAL : Z := 1.

Definition _iot_mqtt_convert_return_code (mqtt_rc : Z) : Z :=
  if mqtt_rc =? MQTT_CONNECTION_ACCEPTED then 0
  else if mqtt_rc =? MQTT_UNNACCEPTABLE_PROTOCOL then E_ST_MQTT_UNNACCEPTABLE_PROTOCOL
  else if mqtt_rc =? MQTT_SERVER_UNAVAILABLE then E_ST_MQTT_SERVER_UNAVAILABLE
  else if mqtt_rc =? MQTT_CLIENTID_REJECTED then E_ST_MQTT_CLIENTID_REJECTED
  else if mqtt_rc =? MQTT_BAD_USERNAME_OR_PASSWORD then E_ST_MQTT_BAD_USERNAME_OR_PASSWORD
  else if mqtt_rc =? MQTT_NOT_AUTHORIZED then E_ST_MQTT_NOT_AUTHORIZED
  else E_ST_MQTT_FAILURE.

(** The [n] bytes at offset [off] of a buffer. *)
Definition slice (l : list Z) (off n : Z) : option (list Z) :=
  if (0 <=? off) && (0 <=? n) && (off + n <=? zlen l)
  then Some (take (Z.to_nat n) (drop (Z.to_nat off) l)) else None.

(** The buffer with [bs] stored at offset [off]. *)
Definition overwrite (l : list Z) (off : Z) (bs : list Z) : option (list Z) :=
  if (0 <=? off) && (off + zlen bs <=? zlen l)
  then Some (put l (Z.to_nat off) bs) else None.

Section engine.
Context `{P : Platform} `{CharModel} `{EvalOrder} (net_fuel : nat).
Abbreviation M := (st world).
Abbreviation ptr := (option nat).

(** ** The network *)

Definition port_net_write (ctx : ptr) (buf : list Z) : M Z :=
  match ctx with
  | None => mret (-1)
  | Some c =>
      r ← sys (net_write c buf);
      modify (fun w : world => with_sent (w_sent w ++ take (Z.to_nat r) buf) w);;
      mret r
  end.

Definition port_net_read (ctx : ptr) (len : Z) : M (Z * list Z) :=
  match ctx with
  | None => mret (-1, [])
  | Some c =>
      '(r, bs) ← sys (net_read c len);
      modify (fun w : world => with_received (w_received w ++ bs) w);;
      mret (r, bs)
  end.

Definition port_net_read_poll (ctx : ptr) (wait : Z) : M Z :=
  match ctx with None => mret (-1) | Some c => sys (net_read_poll c wait) end.

Definition port_net_close (ctx : ptr) : M unit :=
  match ctx with None => mret tt | Some c => sys_ (net_close c) end.
Definition port_net_free (ctx : ptr) : M unit :=
  match ctx with None => mret tt | Some c => sys_ (net_free c) end.

(** [do ... while (sentLen < len)]; [buf] is the [len] bytes to write. *)
Fixpoint write_net_loop (fuel : nat) (ctx : ptr) (buf : list Z) (sentLen : Z) : M Z :=
  match fuel with
  | O => hang
  | S fuel =>
      ret ← port_net_write ctx (drop (Z.to_nat sentLen) buf);
      if 0 <=? ret then
        let sentLen := sentLen + ret in
        if sentLen <? zlen buf then write_net_loop fuel ctx buf sentLen else mret sentLen
      else mret ret
  end.
Definition _iot_mqtt_write_net (ctx : ptr) (buf : list Z) : M Z :=
  write_net_loop net_fuel ctx buf 0.

(** [do ... while (recvLen < len)]; [got] is what has been stored. *)
Fixpoint read_net_loop (fuel : nat) (ctx : ptr) (len : Z) (got : list Z) : M (Z * list Z) :=
  match fuel with
  | O => hang
  | S fuel =>
      '(ret, bs) ← port_net_read ctx (len - zlen got);
      if 0 <=? ret then
        let got := got ++ bs in
        if zlen got <? len then read_net_loop fuel ctx len got else mret (zlen got, got)
      else mret (ret, got)
  end.
Definition _iot_mqtt_read_net (ctx : ptr) (len : Z) : M (Z * list Z) :=
  if len =? 0 then mret (0, []) else read_net_loop net_fuel ctx len [].

Definition _iot_mqtt_close_net (client : ptr) : M unit :=
  c ← get client;
  if negb (sem (read_lock c)) then mret tt
  else
    lock_client client ReadLock;;
    c ← get client;
    if negb (sem (write_lock c)) then unlock_client client ReadLock
    else
      lock_client client WriteLock;;
      c ← get client;
      when (negb (isconnected c =? 0))
        (update client (set_isconnected 0);;
         port_net_close (net_ctx c));;
      unlock_client client WriteLock;;
      unlock_client client ReadLock.

(** ** Common parts *)

(** [client == NULL || client->magic != MQTT_CLIENT_STRUCT_MAGIC_NUMBER]. *)
Definition invalid_client (client : ptr) : M bool :=
  match client with
  | None => mret true
  | Some _ => c ← get client; mret (negb (magic c =? MQTT_CLIENT_STRUCT_MAGIC_NUMBER))
  end.

(** A timer operation on a handle, which must not be null. *)
Definition start_timer (t : option nat) : M unit := t ← need t; sys_ (os_timer_start t).
Definition timer_active (t : option nat) : M bool :=
  t ← need t; e ← gets w_env; mret (os_timer_is_active t e).

(** A computation of the packet library on a chunk's buffer; the buffer. *)
Definition on_data {A} (d : list Z) (m : st cursor A) : M (A * list Z) :=
  match m (Cursor d 0) with
  | Ret (a, c) => mret (a, cmem c)
  | Undef => undef
  | Hang => hang
  end.
Definition serialize (chunk : nat) (m : st cursor Z) : M unit :=
  k ← get (Some chunk);
  d ← need (chunk_data k);
  '(_, d) ← on_data d m;
  update (Some chunk) (set_chunk_data (Some d)).

(** The event that reports a disconnection. *)
Definition push_disconnected (client : ptr) (reason : Z) : M unit :=
  event_chunk ← _iot_mqtt_chunk_create 0;
  match event_chunk with
  | None => mret tt
  | Some e =>
      update event_chunk (set_chunk_state EVENT_CHUNK_DISCONNECTED);;
      update event_chunk (set_return_code reason);;
      _iot_mqtt_queue_push client UserEvent e;; mret tt
  end.

(** ** Writing *)

(** [chunk->expiry_time = iot_os_timer_create(...)] and its start. *)
Definition arm_timer (chunk : nat) (timeout : Z) : M unit :=
  k ← get (Some chunk);
  match expiry_time k with Some t => sys_ (os_timer_delete t) | None => mret tt end;;
  t ← sys (os_timer_create timeout);
  update (Some chunk) (set_expiry_time t);;
  match t with Some t => sys_ (os_timer_start t) | None => mret tt end.

Definition await_ack (client : ptr) (chunk : nat) (timeout : Z) : M unit :=
  update (Some chunk) (set_chunk_state PACKET_CHUNK_ACK_PENDING);;
  arm_timer chunk timeout;;
  _iot_mqtt_queue_push client AckPending chunk;; mret tt.

Definition _iot_mqtt_process_post_write (client : ptr) (chunk : nat) : M unit :=
  k ← get (Some chunk);
  let t := packet_type k in
  if t =? CONNECT then await_ack client chunk MQTT_CONNECT_TIMEOUT
  else if (t =? SUBSCRIBE) || (t =? UNSUBSCRIBE) || (t =? PUBREL) || (t =? PUBREC) || (t =? PINGREQ)
  then await_ack client chunk MQTT_RETRY_TIMEOUT
  else if t =? PUBLISH then
    if qos k =? 0 then
      update (Some chunk) (set_chunk_state PACKET_CHUNK_WRITE_COMPLETED);;
      if have_owner k =? 0 then _iot_mqtt_chunk_destroy (Some chunk) else mret tt
    else await_ack client chunk MQTT_RETRY_TIMEOUT
  else if t =? DISCONNECT then
    if negb (have_owner k =? 0)
    then update (Some chunk) (set_chunk_state PACKET_CHUNK_WRITE_COMPLETED)
    else _iot_mqtt_chunk_destroy (Some chunk)
  else _iot_mqtt_chunk_destroy (Some chunk).

(** [while (written != w_chunk->chunk_size)]. *)
Fixpoint write_loop (fuel : nat) (client : ptr) (w_chunk : nat) (written : Z) : M Z :=
  k ← get (Some w_chunk);
  if written =? chunk_size k then mret written
  else
    match fuel with
    | O => hang
    | S fuel =>
        c ← get client;
        d ← need (chunk_data k);
        buf ← need (slice d written (chunk_size k - written));
        rc ← _iot_mqtt_write_net (net_ctx c) buf;
        if 0 <? rc then write_loop fuel client w_chunk (written + rc)
        else if rc <? 0 then mret written
        else write_loop fuel client w_chunk written
    end.

(** The part under [write_lock]: [written] and [w_chunk] at [exit]. *)
Definition write_packet (client : ptr) : M (Z * ptr) :=
  w_chunk ← _iot_mqtt_queue_pop client WritePending;
  match w_chunk with
  | None => mret (0, None)
  | Some k =>
      c ← get client;
      if isconnected c =? 0 then mret (E_ST_MQTT_DISCONNECTED, w_chunk)
      else
        written ← write_loop net_fuel client k 0;
        ck ← get w_chunk;
        if written =? chunk_size ck
        then _iot_mqtt_process_post_write client k;; mret (written, None)
        else mret (E_ST_MQTT_NETWORK_ERROR, w_chunk)
  end.

(** What [_iot_mqtt_run_write_stream] does after the lock is given back. *)
Definition finish_write (client : ptr) (result : Z * ptr) : M Z :=
  let '(written, w_chunk) := result in
  match w_chunk with
  | Some k =>
      when (written <? 0)
        (update w_chunk (set_chunk_state PACKET_CHUNK_WRITE_FAIL);;
         update w_chunk (set_return_code written);;
         ck ← get w_chunk;
         when (have_owner ck =? 0) (_iot_mqtt_queue_push client UserEvent k;; mret tt))
  | None => mret tt
  end;;
  when (0 <? written)
    (invalid ← invalid_client client;
     when (negb invalid)
       (locked ← lock_client client ManageLock;
        when locked
          (c ← get client; start_timer (last_sent c);;
           unlock_client client ManageLock)));;
  when (written =? E_ST_MQTT_NETWORK_ERROR)
    (_iot_mqtt_close_net client;;
     push_disconnected client MQTT_DISCONNECTED_NETWORK_ERROR);;
  mret written.

Definition _iot_mqtt_run_write_stream (client : ptr) : M Z :=
  invalid ← invalid_client client;
  if (invalid : bool) then mret E_ST_MQTT_FAILURE
  else
    locked ← lock_client client WriteLock;
    if negb locked then mret 0
    else
      result ← write_packet client;
      unlock_client client WriteLock;;
      finish_write client result.

(** ** Reading *)

(** The packet that an acknowledgement of a type answers. *)
Definition acknowledged_packet (chunk : chunk) : option (Z * Z) :=
  let t := packet_type chunk in
  if t =? CONNACK then Some (CONNECT, 0)
  else if t =? PUBACK then Some (PUBLISH, packet_id chunk)
  else if t =? SUBACK then Some (SUBSCRIBE, packet_id chunk)
  else if t =? UNSUBACK then Some (UNSUBSCRIBE, packet_id chunk)
  else if t =? PUBCOMP then Some (PUBREL, packet_id chunk)
  else if t =? PINGRESP then Some (PINGREQ, 0)
  else None.

(** The result an acknowledgement gives to the packet it answers. *)
Definition set_ack_result (chunk : nat) (tmp : ptr) : M unit :=
  k ← get (Some chunk);
  if packet_type k =? CONNACK then
    d ← need (chunk_data k);
    '(r, _) ← on_data d (MQTTDeserialize_connack {| co_sessionPresent := 0; co_connack_rc := 0 |});
    update tmp (set_return_code (_iot_mqtt_convert_return_code (co_connack_rc r.2)))
  else if packet_type k =? SUBACK then
    d ← need (chunk_data k);
    '(r, _) ← on_data d (MQTTDeserialize_suback 1
      {| so_packetid := 0; so_count := 0; so_grantedQoSs := [uninit_int] |});
    ack_qos ← need (hd_error (so_grantedQoSs r.2));
    update tmp (set_return_code (if ack_qos =? 128 then E_ST_MQTT_FAILURE else 0))
  else mret tt.

Definition _iot_mqtt_process_received_ack (client : ptr) (chunk : nat) : M unit :=
  k ← get (Some chunk);
  match acknowledged_packet k with
  | None => mret tt
  | Some (type, id) =>
      tmp ← _iot_mqtt_queue_pop_by_type_and_id client AckPending type id;
      match tmp with
      | Some _ =>
          set_ack_result chunk tmp;;
          t ← get tmp;
          if negb (have_owner t =? 0) then
            update tmp (set_chunk_state PACKET_CHUNK_ACKNOWLEDGED);;
            match expiry_time t with
            | Some timer => sys_ (os_timer_delete timer);; update tmp (set_expiry_time None)
            | None => mret tt
            end
          else _iot_mqtt_chunk_destroy tmp
      | None => mret tt
      end;;
      _iot_mqtt_chunk_destroy (Some chunk)
  end.

(** The acknowledgement of a received PUBLISH: whether it could be made. *)
Definition push_publish_ack (client : ptr) (chunk : nat) : M bool :=
  k ← get (Some chunk);
  if qos k =? 0 then mret true
  else
    puback ← _iot_mqtt_chunk_create MQTT_ACK_PACKET_SIZE;
    match puback with
    | None => _iot_mqtt_chunk_destroy (Some chunk);; mret false
    | Some p =>
        update puback (set_packet_id (packet_id k));;
        (if qos k =? 1 then
           update puback (set_packet_type PUBACK);;
           serialize p (MQTTSerialize_ack MQTT_ACK_PACKET_SIZE PUBACK 0 (to_ushort (packet_id k)))
         else if qos k =? 2 then
           update puback (set_packet_type PUBREC);;
           serialize p (MQTTSerialize_ack MQTT_ACK_PACKET_SIZE PUBREC 0 (to_ushort (packet_id k)))
         else mret tt);;
        update puback (set_chunk_state PACKET_CHUNK_WRITE_PENDING);;
        _iot_mqtt_queue_push client WritePending p;;
        mret true
    end.

Definition _iot_mqtt_process_received_publish (client : ptr) (chunk : nat) : M unit :=
  ok ← push_publish_ack client chunk;
  if negb ok then mret tt
  else
    k ← get (Some chunk);
    d ← need (chunk_data k);
    b0 ← need (hd_error d);
    if negb (Z.shiftr (Z.land b0 8) 3 =? 0) then _iot_mqtt_chunk_destroy (Some chunk)
    else _iot_mqtt_queue_push client UserEvent chunk;; mret tt.

(** The packet at [tmp] becomes the next one of the handshake. *)
Definition continue_handshake (client : ptr) (tmp : nat) : M unit :=
  update (Some tmp) (set_chunk_data None);;
  update (Some tmp) (set_chunk_size MQTT_ACK_PACKET_SIZE);;
  d ← sys (os_malloc MQTT_ACK_PACKET_SIZE);
  update (Some tmp) (set_chunk_data d);;
  match d with
  | None => _iot_mqtt_chunk_destroy (Some tmp)
  | Some _ =>
      t ← get (Some tmp);
      (if packet_type t =? PUBLISH then
         update (Some tmp) (set_packet_type PUBREL);;
         serialize tmp (MQTTSerialize_ack MQTT_ACK_PACKET_SIZE PUBREL 0 (to_ushort (packet_id t)))
       else if packet_type t =? PUBREC then
         update (Some tmp) (set_packet_type PUBCOMP);;
         serialize tmp (MQTTSerialize_ack MQTT_ACK_PACKET_SIZE PUBCOMP 0 (to_ushort (packet_id t)))
       else mret tt);;
      update (Some tmp) (set_chunk_state PACKET_CHUNK_WRITE_PENDING);;
      _iot_mqtt_queue_push client WritePending tmp;; mret tt
  end.

Definition _iot_mqtt_process_received_pubrec_pubrel (client : ptr) (chunk : nat) : M unit :=
  k ← get (Some chunk);
  let t := packet_type k in
  if (t =? PUBREC) || (t =? PUBREL) then
    tmp ← _iot_mqtt_queue_pop_by_type_and_id client AckPending
            (if t =? PUBREC then PUBLISH else PUBREC) (packet_id k);
    _iot_mqtt_chunk_destroy (Some chunk);;
    match tmp with
    | None => mret tt
    | Some tmp => continue_handshake client tmp
    end
  else mret tt.

Definition _iot_mqtt_process_post_read (client : ptr) (chunk : nat) : M unit :=
  k ← get (Some chunk);
  let t := packet_type k in
  if (t =? CONNACK) || (t =? PUBACK) || (t =? SUBACK) || (t =? UNSUBACK) || (t =? PUBCOMP) || (t =? PINGRESP)
  then _iot_mqtt_process_received_ack client chunk
  else if t =? PUBLISH then _iot_mqtt_process_received_publish client chunk
  else if (t =? PUBREC) || (t =? PUBREL) then _iot_mqtt_process_received_pubrec_pubrel client chunk
  else _iot_mqtt_chunk_destroy (Some chunk).
End engine.
