(* ===== verification/ClientNet.v ===== *)
(** * The network parts of the MQTT client

    Lemmas about [_iot_mqtt_close_net], the events that report a
    disconnection, and the network loops of [ClientRun]. *)

From S2P Require Import Prelude MqttPacket Platform Heap World ClientQueue ClientInv ClientRun.

Section net.
Context `{P : Platform} (client : nat).

Lemma bind_invalid {B} w cl (k : bool -> st world B) :
  live (w_clients w) client = Some cl -> magic cl = MQTT_CLIENT_STRUCT_MAGIC_NUMBER ->
  (invalid_client (Some client) ≫= k) w = k false w.
Proof. intros Hl Hm. unfold invalid_client. run. by rewrite Hm, Z.eqb_refl. Qed.

(** The client after its connection is closed. *)
Definition disconnected (cl : MQTTClient) : MQTTClient :=
  if isconnected cl =? 0 then cl else set_isconnected 0 cl.

Lemma close_net_spec w cl Q :
  queues client (w_chunks w) (w_clients w) cl Q ->
  read_lock cl = free_mutex -> write_lock cl = free_mutex ->
  exists w', _iot_mqtt_close_net (Some client) w = Ret (tt, w') /\
    steps client [] w w' cl (disconnected cl) Q Q /\ silent w w' /\ w_chunks w' = w_chunks w.
Proof.
  intros Hq Hr Hw. pose proof (qs_live _ _ _ _ _ Hq) as Hl. unfold _iot_mqtt_close_net. run.
  rewrite Hr. cbn [sem free_mutex negb].
  rewrite (bind_lock_client client w cl ReadLock) by done. world_simpl. run.
  change (write_lock (set_lock_of ReadLock (Mutex true true) cl)) with (write_lock cl). rewrite Hw.
  cbn [sem free_mutex negb].
  erewrite (bind_lock_client client _ _ WriteLock) by (done || live_lookup). world_simpl. run.
  change (isconnected (set_lock_of _ _ _)) with (isconnected cl).
  change (net_ctx (set_lock_of _ _ _)) with (net_ctx cl).
  assert (Hc : forall cl' e w', cl' = disconnected cl ->
    w' = with_env e (with_clients (<[client := Some cl']> (w_clients w)) w) ->
    steps client [] w w' cl (disconnected cl) Q Q /\ silent w w' /\ w_chunks w' = w_chunks w).
  { intros cl' e w' -> ->. destruct (client_steps client w cl (disconnected cl) Q e Hq) as [S1 S2]; [|done].
    intros n. unfold disconnected. destruct (isconnected cl =? 0); [done|]. by destruct n. }
  unfold disconnected in *. destruct (isconnected cl =? 0); cbn [negb when]; run.
  2: destruct (net_ctx cl); cbn [port_net_close]; run.
  all: erewrite (bind_unlock_client client) by live_lookup; world_simpl.
  all: unfold unlock_client; erewrite run_update by live_lookup; world_simpl; rewrite !insert_insert_eq.
  all: eexists; (split; [reflexivity|]).
  all: match goal with |- steps _ _ _ (with_clients (<[client := Some ?X]> _) _) _ _ _ _ /\ _ =>
         eapply (Hc X) end; [|reflexivity].
  all: destruct cl; simpl in *; by subst.
Qed.

(** [_iot_mqtt_chunk_create]: a new chunk, in no queue, or null. *)
Lemma create_steps `{!PlatformLaws P} w cl Q size :
  queues client (w_chunks w) (w_clients w) cl Q -> 0 <= size ->
  exists r w', _iot_mqtt_chunk_create size w = Ret (r, w') /\
    steps client [fresh_addr (w_chunks w)] w w' cl cl Q Q /\ silent w w' /\
    match r with
    | Some a => a = fresh_addr (w_chunks w) /\ exists d, loose (w_chunks w') Q a (new_chunk size d) /\
                match d with Some d => zlen d = size /\ bytes d | None => size = 0 end /\
                w_env w' = chunk_env size (w_env w) /\ ~ chunk_denied size (w_env w)
    | None => chunk_denied size (w_env w)
    end.
Proof.
  intros Hq Hs. destruct (chunk_create_spec size w) as (r & w' & E & e & h & -> & Hr).
  exists r, (with_env e (with_chunks h w)). split; [done|].
  pose proof (fresh_addr_new (w_chunks w)) as Hfresh. destruct r as [a|].
  - destruct Hr as (-> & d & e1 & -> & Hm & Hd & He & Hden).
    destruct (new_steps client w cl Q _ (new_chunk size d) e Hq Hfresh eq_refl) as (S1 & S2 & S3).
    split_and!; [exact S1|done|done|]. exists d. split; [done|]. split; [|done]. destruct d as [d|].
    + by eapply os_malloc_size.
    + destruct (Z.eq_dec size 0) as [|Hne]; [done|]. destruct (Hd Hne) as [? [=]].
  - assert (Hf : free_of Q (fresh_addr (w_chunks w))).
    { intros n Hin. destruct (is_list_live _ _ _ _ _ _ (qs_list _ _ _ _ _ Hq n) Hin) as [x Hx].
      by rewrite live_fresh in Hx. }
    destruct Hr as [Hden Hr]. split_and!; try done. split; try done.
    + destruct Hr as [->| ->]; [apply Hq|]. by apply queues_free.
    + intros b k Hb. rewrite list_elem_of_singleton in Hb. destruct Hr as [->| ->]; [done|].
      unfold chunk_at, view. simpl. by rewrite live_insert, decide_False.
    + intros b Hb Hfb. rewrite list_elem_of_singleton in Hb. split; [|done].
      destruct Hr as [->| ->]; [done|]. simpl. by rewrite lookup_insert_ne.
    + intros b Hb. destruct Hr as [->| ->]; [done|]. by apply detached_insert.
Qed.

(** The chunk that reports a disconnection. *)
Definition event_chunk (reason : Z) (d : option (list Z)) : chunk :=
  set_return_code reason (set_chunk_state EVENT_CHUNK_DISCONNECTED (new_chunk 0 d)).

Lemma push_disconnected_spec `{!PlatformLaws P} w cl Q reason :
  queues client (w_chunks w) (w_clients w) cl Q ->
  let a := fresh_addr (w_chunks w) in
  exists w' cl' Q', push_disconnected (Some client) reason w = Ret (tt, w') /\
    steps client [a] w w' cl cl' Q Q' /\ silent w w' /\ fields cl' = fields cl /\
    (Q' = Q \/ Q' = enqueue UserEvent a Q /\ exists d, chunk_at (w_chunks w') a (event_chunk reason d)).
Proof.
  intros Hq a. unfold push_disconnected.
  destruct (create_steps w cl Q 0 Hq ltac:(lia)) as (r & w1 & E & S1 & Si1 & Hr).
  rewrite (bind_ret _ _ _ _ _ E). destruct r as [e|]; [|by exists w1, cl, Q; auto 10].
  destruct Hr as (-> & d & Hl & _). fold a in Hl, S1 |- *. pose proof Hl as (Hlive & _ & _).
  run. rewrite insert_insert_eq.
  destruct (write_steps client w1 cl Q a _ (event_chunk reason d) (w_env w1)
    (st_queues _ _ _ _ _ _ _ _ S1) Hl eq_refl) as (S2 & Si2 & Hl2).
  destruct (push_steps client _ cl Q UserEvent a _ (st_queues _ _ _ _ _ _ _ _ S2) Hl2)
    as (w' & cl' & E' & S3 & Si3 & _ & Hf & Hc).
  exists w', cl', (enqueue UserEvent a Q). split.
  - erewrite bind_ret by exact E'. done.
  - split_and!; [|by eapply silent_trans; [|exact Si3]; eapply silent_trans|done|eauto].
    eapply steps_weaken; [|exact (steps_trans _ _ _ _ _ _ _ _ _ _ _ _ (steps_trans _ _ _ _ _ _ _ _ _ _ _ _ S1 S2) S3)].
    intros b. rewrite !elem_of_app. tauto.
Qed.
Definition place (n : option queue_name) (a : nat) (Q : queue_name -> list nat) : queue_name -> list nat :=
  match n with Some n => enqueue n a Q | None => Q end.

(** A chunk that is set to [k'] and put into a queue, or left to its owner. *)
Lemma settle w cl Q a k k' dest :
  queues client (w_chunks w) (w_clients w) cl Q -> loose (w_chunks w) Q a k -> next k' = None ->
  let w1 := with_chunks (<[a := Some k']> (w_chunks w)) w in
  exists w' cl', (match dest with
                  | Some n => _iot_mqtt_queue_push (Some client) n a;; mret tt
                  | None => mret tt
                  end) w1 = Ret (tt, w') /\
    steps client [a] w w' cl cl' Q (place dest a Q) /\ silent w w' /\ w_env w' = w_env w /\
    fields cl' = fields cl /\ chunk_at (w_chunks w') a k'.
Proof.
  intros Hq Hl Hn w1.
  destruct (write_steps client w cl Q a k k' (w_env w) Hq Hl Hn) as (S1 & Si1 & Hl1).
  destruct dest as [n|].
  - destruct (push_steps client w1 cl Q n a k' (st_queues _ _ _ _ _ _ _ _ S1) Hl1)
      as (w' & cl' & E & S2 & Si2 & He & Hf & Hc).
    exists w', cl'. split; [by rewrite (bind_ret _ _ _ _ _ E)|]. split_and!; try done.
    eapply steps_weaken; [|exact (steps_trans client [a] [a] _ _ _ _ _ _ _ _ _ S1 S2)].
    intros b. by rewrite elem_of_app, list_elem_of_singleton; intros [|].
  - exists w1, cl. split_and!; try done. by eapply loose_at.
Qed.

(** Starting one of the client's timers. *)
Lemma touch_timer w cl Q t (sel : MQTTClient -> option nat) :
  queues client (w_chunks w) (w_clients w) cl Q -> magic cl = MQTT_CLIENT_STRUCT_MAGIC_NUMBER ->
  client_manage_lock cl = free_mutex -> sel (set_lock_of ManageLock (Mutex true true) cl) = Some t ->
  exists w' cl', (invalid ← invalid_client (Some client);
    when (negb invalid)
      (locked ← lock_client (Some client) ManageLock;
       when locked (c ← get (Some client); start_timer (sel c);; unlock_client (Some client) ManageLock))) w
    = Ret (tt, w') /\ steps client [] w w' cl cl' Q Q /\ silent w w' /\ w_chunks w' = w_chunks w /\ fields cl' = fields cl.
Proof.
  intros Hq Hm Hl Hs. rewrite (bind_invalid w cl) by (done || apply Hq). cbn [negb when].
  rewrite (bind_lock_client client w cl ManageLock) by (done || apply Hq). cbn [when].
  destruct (lock_steps client w cl Q ManageLock (Mutex true true) Hq) as [S1 Si1].
  set (cl1 := set_lock_of ManageLock (Mutex true true) cl) in *. set (w1 := with_clients _ w) in *.
  pose proof (st_queues _ _ _ _ _ _ _ _ S1) as Hq1.
  rewrite (bind_get w1 client cl1) by apply Hq1. rewrite Hs. unfold start_timer. cbn [need].
  rewrite bind_assoc, bind_mret, bind_sys_.
  set (w2 := with_env (os_timer_start t (w_env w1)) w1).
  assert (S2 : steps client [] w1 w2 cl1 cl1 Q Q) by (by split).
  destruct (lock_steps client w2 cl1 Q ManageLock (mutex_unlock (lock_of ManageLock cl1)) (st_queues _ _ _ _ _ _ _ _ S2)) as [S3 _].
  unfold unlock_client. rewrite (run_update w2 client cl1) by apply Hq1.
  eexists _, _. split; [reflexivity|]. split_and!; [by eapply steps_between|done|done|].
  by apply fields_unlock.
Qed.

Lemma fields_disconnected cl cl' : fields cl' = fields cl -> fields (disconnected cl') = fields (disconnected cl).
Proof.
  intros E. unfold disconnected. rewrite (f_equal isconnected E : isconnected cl' = isconnected cl).
  destruct (isconnected cl =? 0); [done|].
  change (fields (set_isconnected 0 ?c)) with (set_isconnected 0 (fields c)). by rewrite E.
Qed.

(** Closing the connection and reporting it. *)
Lemma lose_connection `{!PlatformLaws P} w cl Q reason :
  queues client (w_chunks w) (w_clients w) cl Q ->
  read_lock cl = free_mutex -> write_lock cl = free_mutex ->
  exists e w' cl' Q', (_iot_mqtt_close_net (Some client);; push_disconnected (Some client) reason) w = Ret (tt, w') /\
    live (w_chunks w) e = None /\ steps client [e] w w' cl cl' Q Q' /\ silent w w' /\
    fields cl' = fields (disconnected cl) /\
    (Q' = Q \/ Q' = enqueue UserEvent e Q /\ exists d, chunk_at (w_chunks w') e (event_chunk reason d)).
Proof.
  intros Hq Hr Hw. destruct (close_net_spec w cl Q Hq Hr Hw) as (w1 & E1 & S1 & Si1 & Hw1).
  destruct (push_disconnected_spec w1 _ Q reason (st_queues _ _ _ _ _ _ _ _ S1))
    as (w2 & cl2 & Q2 & E2 & S2 & Si2 & Hf2 & HQ2).
  exists (fresh_addr (w_chunks w1)), w2, cl2, Q2. split_and!.
  - rewrite (bind_ret _ _ _ _ _ E1). exact E2.
  - rewrite <- Hw1. apply live_fresh.
  - exact (steps_trans client [] _ _ _ _ _ _ _ _ _ _ S1 S2).
  - by eapply silent_trans.
  - done.
  - done.
Qed.
End net.
