(* ===== verification/ClientCycle.v ===== *)
(** * The cycle of the MQTT client

    The rest of the engine of [src/src/mqtt/client/iot_mqtt_client.c]: reading
    a packet, keep-alive, retries, the user's callback, the cycle that runs
    them all, the work it puts into a work queue and the thread that listens
    on the socket. *)

From S2P Require Import Prelude Cursor MqttPacket MqttPublish.
From S2P Require Import Platform Heap World UtilQueue ClientQueue ClientRun.

Section cycle.
Context `{P : Platform} `{CharModel} `{EvalOrder} (net_fuel : nat).
Abbreviation M := (st world).
Abbreviation ptr := (option nat).

(** ** Reading a packet *)

(** The [do ... while] that reads the remaining length: the bytes of
    [packet_fixed_header] so far, [rem_size] and [multiplier]; null stands
    for [goto exit] with a network error. *)
Fixpoint read_length (fuel : nat) (client : ptr) (hdr : list Z) (rem_size multiplier : Z)
    : M (option (list Z * Z)) :=
  match fuel with
  | O => hang
  | S fuel =>
      if MAX_NUM_OF_REMAINING_LENGTH_BYTES <=? zlen hdr - 1 then mret None
      else
        c ← get client;
        '(rc, bs) ← _iot_mqtt_read_net net_fuel (net_ctx c) 1;
        if rc <=? 0 then mret None
        else
          b ← need (hd_error bs);
          let rem_size := rem_size + Z.land b 127 * multiplier in
          let hdr := hdr ++ [b] in
          if negb (Z.land b 128 =? 0)
          then read_length fuel client hdr rem_size (multiplier * 128)
          else mret (Some (hdr, rem_size))
  end.

(** [while (read != w_chunk->chunk_size)]. *)
Fixpoint read_body (fuel : nat) (client : ptr) (w_chunk : nat) (read : Z) : M Z :=
  k ← get (Some w_chunk);
  if read =? chunk_size k then mret read
  else
    match fuel with
    | O => hang
    | S fuel =>
        c ← get client;
        '(rc, bs) ← _iot_mqtt_read_net net_fuel (net_ctx c) (chunk_size k - read);
        d ← need (chunk_data k ≫= fun d => overwrite d read bs);
        update (Some w_chunk) (set_chunk_data (Some d));;
        if rc <? 0 then mret read else read_body fuel client w_chunk (read + rc)
    end.

(** The part under [read_lock]: [read] and [w_chunk] at [exit]. *)
Definition read_packet (client : ptr) : M (Z * ptr) :=
  c ← get client;
  if isconnected c =? 0 then mret (E_ST_MQTT_DISCONNECTED, None)
  else
    rc ← port_net_read_poll (net_ctx c) 0;
    if rc <? 0 then mret (E_ST_MQTT_NETWORK_ERROR, None)
    else if rc =? 0 then mret (0, None)
    else
      c ← get client;
      '(rc, first) ← _iot_mqtt_read_net net_fuel (net_ctx c) 1;
      if rc <=? 0 then mret (E_ST_MQTT_NETWORK_ERROR, None)
      else
        b0 ← need (hd_error first);
        header ← read_length 5 client [b0] 0 1;
        match header with
        | None => mret (E_ST_MQTT_NETWORK_ERROR, None)
        | Some (hdr, rem_size) =>
            w_chunk ← _iot_mqtt_chunk_create (zlen hdr + rem_size);
            match w_chunk with
            | None => mret (E_ST_MQTT_BUFFER_OVERFLOW, None)
            | Some k =>
                ck ← get w_chunk;
                d ← need (chunk_data ck ≫= fun d => overwrite d 0 hdr);
                update w_chunk (set_chunk_data (Some d));;
                read ← read_body net_fuel client k (zlen hdr);
                ck ← get w_chunk;
                if read =? chunk_size ck then
                  d ← need (chunk_data ck);
                  b0 ← need (hd_error d);
                  update w_chunk (set_chunk_state PACKET_CHUNK_READ_COMPLETED);;
                  update w_chunk (set_packet_type (Z.shiftr (Z.land b0 240) 4));;
                  update w_chunk (set_qos (Z.shiftr (Z.land b0 6) 1));;
                  '(id, _) ← on_data d MQTTPacket_getPacketId;
                  update w_chunk (set_packet_id id);;
                  _iot_mqtt_process_post_read client k;;
                  mret (read, None)
                else mret (E_ST_MQTT_NETWORK_ERROR, w_chunk)
            end
        end.

(** What [_iot_mqtt_run_read_stream] does after the lock is given back. *)
Definition finish_read (client : ptr) (result : Z * ptr) : M Z :=
  let '(read, w_chunk) := result in
  _iot_mqtt_chunk_destroy w_chunk;;
  when (0 <? read)
    (invalid ← invalid_client client;
     when (negb invalid)
       (locked ← lock_client client ManageLock;
        when locked
          (c ← get client; start_timer (last_received c);;
           unlock_client client ManageLock)));;
  when (read =? E_ST_MQTT_NETWORK_ERROR)
    (_iot_mqtt_close_net client;;
     push_disconnected client MQTT_DISCONNECTED_NETWORK_ERROR);;
  mret read.

Definition _iot_mqtt_run_read_stream (client : ptr) : M Z :=
  invalid ← invalid_client client;
  if (invalid : bool) then mret E_ST_MQTT_FAILURE
  else
    locked ← lock_client client ReadLock;
    if negb locked then mret 0
    else
      result ← read_packet client;
      unlock_client client ReadLock;;
      finish_read client result.

(** ** Keep-alive *)

(** The part under [client_manage_lock]. *)
Definition check_timers (client : ptr) : M Z :=
  c ← get client;
  sent_active ← timer_active (last_sent c);
  idle ← (if negb sent_active then mret true
          else received_active ← timer_active (last_received c); mret (negb received_active));
  if (idle : bool) then
    ping ← need (ping_packet c);
    k ← get (Some ping);
    match chunk_state k with
    | PACKET_CHUNK_ACKNOWLEDGED | PACKET_CHUNK_INIT =>
        update (Some ping) (set_chunk_state PACKET_CHUNK_WRITE_PENDING);;
        update (Some ping) (set_retry_count 0);;
        _iot_mqtt_queue_push client WritePending ping;;
        mret 0
    | PACKET_CHUNK_TIMEOUT =>
        update (Some ping) (set_chunk_state PACKET_CHUNK_INIT);;
        mret E_ST_MQTT_PING_TIMEOUT
    | _ => mret 0
    end
  else mret 0.

Definition _iot_mqtt_check_alive (client : ptr) : M Z :=
  invalid ← invalid_client client;
  if (invalid : bool) then mret E_ST_MQTT_PING_FAIL
  else
    locked ← lock_client client ManageLock;
    if negb locked then mret E_ST_MQTT_PING_FAIL
    else
      rc ← check_timers client;
      unlock_client client ManageLock;;
      when (rc =? E_ST_MQTT_PING_TIMEOUT)
        (_iot_mqtt_close_net client;;
         push_disconnected client MQTT_DISCONNECTED_PING_TIMEOUT);;
      mret rc.

(** ** Retries *)

(** A packet that is given up: to its owner, or to the callback. *)
Definition abandon (client : ptr) (w_chunk : nat) : M unit :=
  k ← get (Some w_chunk);
  update (Some w_chunk) (set_chunk_state PACKET_CHUNK_TIMEOUT);;
  if negb (have_owner k =? 0) then mret tt
  else
    invalid ← invalid_client client;
    if negb invalid then _iot_mqtt_queue_push client UserEvent w_chunk;; mret tt
    else _iot_mqtt_chunk_destroy (Some w_chunk).

(** What happens to a packet whose timer has run out. *)
Definition retry_packet (client : ptr) (w_chunk : nat) : M unit :=
  k ← get (Some w_chunk);
  if packet_type k =? CONNECT then abandon client w_chunk
  else
    update (Some w_chunk) (set_retry_count (retry_count k + 1));;
    if retry_count k + 1 <? MQTT_PUBLISH_RETRY then
      update (Some w_chunk) (set_chunk_state PACKET_CHUNK_WRITE_PENDING);;
      invalid ← invalid_client client;
      if negb invalid then _iot_mqtt_queue_push client WritePending w_chunk;; mret tt
      else _iot_mqtt_chunk_destroy (Some w_chunk)
    else abandon client w_chunk.

(** [while (1)]. *)
Fixpoint pending_packets_loop (fuel : nat) (client : ptr) : M unit :=
  match fuel with
  | O => hang
  | S fuel =>
      invalid ← invalid_client client;
      if (invalid : bool) then mret tt
      else
        w_chunk ← _iot_mqtt_queue_pop_by_expiry client AckPending;
        match w_chunk with
        | None => mret tt
        | Some k => retry_packet client k;; pending_packets_loop fuel client
        end
  end.

(** Every round takes a chunk out of the queue. *)
Definition _iot_mqtt_process_pending_packets (client : ptr) : M unit :=
  fuel ← gets (fun w : world => S (size (w_chunks w)));
  pending_packets_loop fuel client.

(** ** The user's callback *)

Definition callback (e : st_mqtt_event) : M unit :=
  modify (fun w : world => with_events (w_events w ++ [e]) w).

(** The message in a PUBLISH packet; the result of the deserializer is not
    looked at, and what it does not store is not initialised. *)
Definition chunk_message (chunk : nat) : M st_mqtt_msg :=
  k ← get (Some chunk);
  d ← need (chunk_data k);
  '(r, _) ← on_data d (MQTTDeserialize_publish uninit_publish);
  let o := snd r in
  mret {| msg_topic := ls_data (lenstring (po_topicName o));
          msg_topiclen := ls_len (lenstring (po_topicName o));
          msg_payload := po_payload o; msg_payloadlen := po_payloadlen o;
          msg_qos := po_qos o; msg_retained := po_retained o; msg_buffer := d |}.

Definition _iot_mqtt_deliver_publish (chunk : nat) : M unit :=
  msg ← chunk_message chunk;
  callback (ST_MQTT_EVENT_MSG_DELIVERED msg).

Definition _iot_mqtt_notify_publish_failed (chunk : nat) : M unit :=
  msg ← chunk_message chunk;
  k ← get (Some chunk);
  match chunk_state k with
  | PACKET_CHUNK_WRITE_FAIL => callback (ST_MQTT_EVENT_PUBLISH_FAILED msg)
  | PACKET_CHUNK_TIMEOUT => callback (ST_MQTT_EVENT_PUBLISH_TIMEOUT msg)
  | _ => mret tt
  end.

Definition notify_user (chunk : nat) : M unit :=
  k ← get (Some chunk);
  match chunk_state k with
  | PACKET_CHUNK_TIMEOUT | PACKET_CHUNK_WRITE_FAIL =>
      when (packet_type k =? PUBLISH) (_iot_mqtt_notify_publish_failed chunk)
  | PACKET_CHUNK_READ_COMPLETED =>
      when (packet_type k =? PUBLISH) (_iot_mqtt_deliver_publish chunk)
  | EVENT_CHUNK_DISCONNECTED => callback (ST_MQTT_EVENT_DISCONNECTED (return_code k))
  | _ => mret tt
  end.

Fixpoint user_callback_loop (fuel : nat) (client : ptr) : M unit :=
  match fuel with
  | O => hang
  | S fuel =>
      invalid ← invalid_client client;
      if (invalid : bool) then mret tt
      else
        w_chunk ← _iot_mqtt_queue_pop client UserEvent;
        match w_chunk with
        | None => mret tt
        | Some k =>
            notify_user k;;
            _iot_mqtt_chunk_destroy w_chunk;;
            user_callback_loop fuel client
        end
  end.

Definition _iot_mqtt_process_user_callback (client : ptr) : M unit :=
  fuel ← gets (fun w : world => S (size (w_chunks w)));
  user_callback_loop fuel client.

(** ** The cycle *)

Definition _iot_mqtt_run_cycle (client : ptr) : M Z :=
  rc ← _iot_mqtt_run_write_stream net_fuel client;
  if rc <? 0 then mret rc
  else
    rc ← _iot_mqtt_run_read_stream client;
    if rc <? 0 then mret rc
    else
      _iot_mqtt_process_pending_packets client;;
      _iot_mqtt_check_alive client.

Definition _iot_mqtt_is_pending_work (client : ptr) : M bool :=
  locked ← lock_client client ReadLock;
  if negb locked then mret false
  else
    c ← get client;
    let rc := negb (bool_decide (head (write_pending_queue c) = None))
              || negb (bool_decide (head (user_event_callback_queue c) = None)) in
    unlock_client client ReadLock;;
    mret rc.

(** ** Work for the work queue *)

Definition _iot_mqtt_signal_pending_work (client : ptr) : M Z :=
  c ← get client;
  err ← iot_util_queue_send (work_queue c)
          (Some {| handler := pending_work_handler; work_param := client; owner_id := client |});
  if negb (err =? IOT_ERROR_NONE) then mret err
  else sys_ (os_eventgroup_set_bits DEVICE_PENDING_WORK_SIGNAL);; mret IOT_ERROR_NONE.

Definition signal_if_queue (client : ptr) : M unit :=
  c ← get client;
  match work_queue c with
  | Some _ => _iot_mqtt_signal_pending_work client;; mret tt
  | None => mret tt
  end.

(** The callbacks of the timers; [client] is their user data. *)
Definition _iot_mqtt_chunk_expire_timeout (client : ptr) : M unit := signal_if_queue client.
Definition _iot_mqtt_ping_timeout (client : ptr) : M unit := signal_if_queue client.

(** [do ... while (_iot_mqtt_is_pending_work(client))]. *)
Fixpoint pending_work_loop (fuel : nat) (client : ptr) : M unit :=
  match fuel with
  | O => hang
  | S fuel =>
      _iot_mqtt_run_cycle client;;
      _iot_mqtt_process_user_callback client;;
      more ← _iot_mqtt_is_pending_work client;
      if (more : bool) then pending_work_loop fuel client else mret tt
  end.

Definition _iot_mqtt_pending_work (client : ptr) : M unit :=
  match client with
  | None => mret tt
  | Some _ => pending_work_loop net_fuel client
  end.

(** The thread: [do ... while (rc >= 0 && client->isconnected)]. *)
Fixpoint listen_loop (fuel : nat) (client : ptr) : M unit :=
  match fuel with
  | O => hang
  | S fuel =>
      c ← get client;
      rc ← port_net_read_poll (net_ctx c) PORT_NET_WAIT_FOREVER;
      rc ← (if 0 <? rc then
              rc ← _iot_mqtt_run_read_stream client;
              signal_if_queue client;; mret rc
            else mret rc);
      c ← get client;
      if (0 <=? rc) && negb (isconnected c =? 0) then listen_loop fuel client else mret tt
  end.

Definition _iot_mqtt_listen_socket (client : ptr) : M unit :=
  listen_loop net_fuel client;;
  update client (set_socket_thread false).
End cycle.
