(* ===== verification/ClientApi.v ===== *)
(** * The interface of the MQTT client

    The functions of [include/iot_mqtt.h], at the end of
    [src/src/mqtt/client/iot_mqtt_client.c]. *)

From stdpp Require Import pretty.
From S2P Require Import Prelude Cursor MqttPacket MqttPublish MqttConnect MqttSubscribe.
From S2P Require Import Platform Heap World UtilQueue ClientQueue ClientRun ClientCycle.

Definition MAX_PACKET_ID : Z := 65535.
Definition MQTT_ACKPENDING_WAITCYCLE_IN_SYNC_FUNCTION : Z := 50.

(** [st_mqtt_broker_info_t], without the certificate, which only the port
    layer looks at. *)
Record st_mqtt_broker_info := { url : string; port : Z }.

(** [st_mqtt_connect_data]; a null string is [None]. *)
Record st_mqtt_connect_data := {
  mqtt_ver : Z;
  cd_username : option (list Z);
  cd_password : option (list Z);
  clientid : option (list Z);
  alive_interval : Z;
  cd_cleansession : Z;
  will_flag : Z;
  will_topic : option (list Z);
  will_message : option (list Z);
  will_retained : Z;
  cd_will_qos : Z
}.

(** [st_mqtt_msg] as the caller of a publish function fills it in. *)
Record publish_msg := {
  pm_topic : option (list Z);
  pm_payload : dataptr;
  pm_payloadlen : Z;
  pm_qos : Z;
  pm_retained : Z
}.

(** [snprintf(port, sizeof(port), "%d", n)] with [char port[5]]. *)
Definition port_string (n : Z) : string := String.substring 0 4 (pretty n).

Definition string_of (s : option (list Z)) : MQTTString :=
  {| cstring := s; lenstring := {| ls_len := 0; ls_data := NullPtr |} |}.

(** The options of [st_mqtt_connect]. *)
Definition connect_options (d : st_mqtt_connect_data) : MQTTPacket_connectData :=
  {| MQTTVersion := mqtt_ver d;
     clientID := string_of (clientid d);
     MqttConnect.keepAliveInterval := alive_interval d;
     cleansession := cd_cleansession d;
     willFlag := if negb (will_flag d =? 0) then 1 else 0;
     will := if negb (will_flag d =? 0)
             then {| topicName := string_of (will_topic d); message := string_of (will_message d);
                     retained := will_retained d; will_qos := cd_will_qos d |}
             else MQTTPacket_willOptions_initializer;
     username := string_of (cd_username d);
     password := string_of (cd_password d) |}.

(** [c->next_packetid >= MAX_PACKET_ID ? 1 : c->next_packetid + 1]. *)
Definition following_packetid (id : Z) : Z := if MAX_PACKET_ID <=? id then 1 else id + 1.

(** What [memset] leaves of a client. *)
Definition zero_client : MQTTClient :=
  Client 0 0 0 0 None None None null_mutex false None null_mutex null_mutex
    (ChunkQueue null_mutex None None) (ChunkQueue null_mutex None None) (ChunkQueue null_mutex None None) None.

Section api.
Context `{P : Platform} `{CharModel} `{EvalOrder} (net_fuel : nat).

(** What the other threads do while this one is in [iot_os_delay]. *)
Context (while_sleeping : st world unit).

Abbreviation M := (st world).
Abbreviation ptr := (option nat).

Definition sleep (ms : Z) : M unit := sys_ (os_delay ms);; while_sleeping.

(** ** Creating and destroying a client *)

Definition init_lock (client : ptr) (n : lock_name) : M bool :=
  inited ← sys os_mutex_init;
  update client (set_lock_of n (Mutex inited false));;
  mret inited.

Definition destroy_lock (client : ptr) (n : lock_name) : M unit :=
  update client (fun c => set_lock_of n (mutex_destroy (lock_of n c)) c).

(** The initialisations of [st_mqtt_create]: whether all succeed. *)
Definition init_client (client : ptr) (queue : ptr) : M bool :=
  ok ← init_lock client ManageLock;
  if negb ok then mret false else
  ok ← init_lock client WriteLock;
  if negb ok then mret false else
  ok ← init_lock client ReadLock;
  if negb ok then mret false else
  r ← _iot_mqtt_queue_init client WritePending;
  if negb (r =? 0) then mret false else
  r ← _iot_mqtt_queue_init client AckPending;
  if negb (r =? 0) then mret false else
  r ← _iot_mqtt_queue_init client UserEvent;
  if negb (r =? 0) then mret false else
  ping ← _iot_mqtt_chunk_create MQTT_PINGREQ_PACKET_SIZE;
  update client (set_ping_packet ping);;
  match ping with
  | None => mret false
  | Some p =>
      serialize p (MQTTSerialize_pingreq MQTT_PINGREQ_PACKET_SIZE);;
      update ping (set_packet_type PINGREQ);;
      update ping (set_have_owner 1);;
      update client (set_work_queue queue);;
      mret true
  end.

(** The result and [*client]; [callback_fp] is whether it is not null. *)
Definition st_mqtt_create (callback_fp : bool) (queue : ptr) : M (Z * ptr) :=
  if negb callback_fp then mret (E_ST_MQTT_FAILURE, None)
  else
    ok ← os_new;
    if negb ok then mret (E_ST_MQTT_FAILURE, None)
    else
      a ← allocate zero_client;
      let client := Some a in
      update client (set_magic MQTT_CLIENT_STRUCT_MAGIC_NUMBER);;
      update client (set_next_packetid 1);;
      ok ← init_client client queue;
      if (ok : bool) then mret (0, client)
      else
        c ← get client;
        when (sem (client_manage_lock c)) (destroy_lock client ManageLock);;
        when (sem (write_lock c)) (destroy_lock client WriteLock);;
        when (sem (read_lock c)) (destroy_lock client ReadLock);;
        _iot_mqtt_queue_destroy client WritePending;;
        _iot_mqtt_queue_destroy client AckPending;;
        _iot_mqtt_queue_destroy client UserEvent;;
        _iot_mqtt_chunk_destroy (ping_packet c);;
        release (A := MQTTClient) client;;
        mret (E_ST_MQTT_FAILURE, None).

(** [while (c->socket_thread)]. *)
Fixpoint wait_thread (fuel : nat) (client : ptr) : M unit :=
  c ← get client;
  if socket_thread c then
    match fuel with
    | O => hang
    | S fuel => sleep 100;; wait_thread fuel client
    end
  else mret tt.

Definition delete_timer (t : ptr) : M unit :=
  match t with Some t => sys_ (os_timer_delete t) | None => mret tt end.

Definition st_mqtt_destroy (client : ptr) : M unit :=
  invalid ← invalid_client client;
  if (invalid : bool) then mret tt
  else
    update client (set_magic 0);;
    _iot_mqtt_close_net client;;
    wait_thread net_fuel client;;
    _iot_mqtt_delete_pending_task client;;
    c ← get client;
    match net_ctx c with
    | Some _ => port_net_free (net_ctx c);; update client (set_net_ctx None)
    | None => mret tt
    end;;
    destroy_lock client WriteLock;;
    destroy_lock client ReadLock;;
    _iot_mqtt_queue_destroy client WritePending;;
    _iot_mqtt_queue_destroy client AckPending;;
    _iot_mqtt_queue_destroy client UserEvent;;
    c ← get client;
    when (sem (client_manage_lock c))
      (lock_client client ManageLock;;
       delete_timer (last_sent c);;
       delete_timer (last_received c);;
       _iot_mqtt_chunk_destroy (ping_packet c);;
       unlock_client client ManageLock;;
       destroy_lock client ManageLock);;
    release (A := MQTTClient) client.

(** ** Waiting for a packet *)

Fixpoint wait_loop (fuel : nat) (client : ptr) (chunk : nat) : M Z :=
  match fuel with
  | O => hang
  | S fuel =>
      rc ← _iot_mqtt_run_cycle net_fuel client;
      k ← get (Some chunk);
      match chunk_state k with
      | PACKET_CHUNK_WRITE_PENDING =>
          if rc <? 0 then
            tmp ← _iot_mqtt_queue_pop_by_type_and_id client WritePending (packet_type k) (packet_id k);
            if bool_decide (tmp = None) then wait_loop fuel client chunk else mret rc
          else wait_loop fuel client chunk
      | PACKET_CHUNK_ACK_PENDING =>
          if rc <? 0 then
            tmp ← _iot_mqtt_queue_pop_by_type_and_id client AckPending (packet_type k) (packet_id k);
            if bool_decide (tmp = None) then wait_loop fuel client chunk else mret rc
          else
            sleep MQTT_ACKPENDING_WAITCYCLE_IN_SYNC_FUNCTION;;
            wait_loop fuel client chunk
      | PACKET_CHUNK_WRITE_COMPLETED | PACKET_CHUNK_ACKNOWLEDGED => mret (return_code k)
      | PACKET_CHUNK_QUEUE_DESTROYED | PACKET_CHUNK_WRITE_FAIL => mret E_ST_MQTT_FAILURE
      | PACKET_CHUNK_TIMEOUT => mret E_ST_MQTT_PACKET_TIMEOUT
      | _ => wait_loop fuel client chunk
      end
  end.

Definition _iot_mqtt_wait_for (client : ptr) (chunk : nat) : M Z :=
  rc ← wait_loop net_fuel client chunk;
  _iot_mqtt_chunk_destroy (Some chunk);;
  mret rc.

(** ** Connecting *)

Definition _iot_mqtt_connect_net (client : ptr) (broker : st_mqtt_broker_info) : M Z :=
  invalid ← invalid_client client;
  if (invalid : bool) then mret E_ST_MQTT_FAILURE
  else
    locked ← lock_client client ReadLock;
    if negb locked then mret E_ST_MQTT_FAILURE
    else
      locked ← lock_client client WriteLock;
      if negb locked then unlock_client client ReadLock;; mret E_ST_MQTT_FAILURE
      else
        c ← get client;
        match net_ctx c with
        | Some _ => port_net_free (net_ctx c);; update client (set_net_ctx None)
        | None => mret tt
        end;;
        ctx ← sys (net_connect (url broker) (port_string (port broker)));
        update client (set_net_ctx ctx);;
        rc ← match ctx with
             | None => mret E_ST_MQTT_FAILURE
             | Some _ => update client (set_isconnected 1);; mret 0
             end;
        unlock_client client WriteLock;;
        unlock_client client ReadLock;;
        mret rc.

(** The two keep-alive timers: whether they could be made. *)
Definition start_keepalive (client : ptr) : M bool :=
  c ← get client;
  t ← sys (os_timer_create (to_uint (keepAliveInterval c * 1000)));
  update client (set_last_sent t);;
  match t with
  | None => mret false
  | Some t =>
      sys_ (os_timer_start t);;
      c ← get client;
      t ← sys (os_timer_create (to_uint (keepAliveInterval c * 1000)));
      update client (set_last_received t);;
      match t with
      | None => mret false
      | Some t => sys_ (os_timer_start t);; mret true
      end
  end.

(** [st_mqtt_connect] up to [exit], once the network is up. *)
Definition connect_exchange (client : ptr) (connect_data : st_mqtt_connect_data) : M Z :=
  let options := connect_options connect_data in
  let chunk_size := MQTTSerialize_connect_size options in
  connect_packet ← _iot_mqtt_chunk_create chunk_size;
  match connect_packet with
  | None => mret E_ST_MQTT_BUFFER_OVERFLOW
  | Some k =>
      serialize k (MQTTSerialize_connect chunk_size options);;
      update connect_packet (set_packet_type CONNECT);;
      update connect_packet (set_have_owner 1);;
      c ← get client;
      if negb (magic c =? MQTT_CLIENT_STRUCT_MAGIC_NUMBER)
      then _iot_mqtt_chunk_destroy connect_packet;; mret E_ST_MQTT_FAILURE
      else
        update client (set_keepAliveInterval (MqttConnect.keepAliveInterval options));;
        ok ← start_keepalive client;
        if negb ok then mret E_ST_MQTT_FAILURE
        else
          update connect_packet (set_chunk_state PACKET_CHUNK_WRITE_PENDING);;
          _iot_mqtt_queue_push client WritePending k;;
          _iot_mqtt_wait_for client k
  end.

Definition st_mqtt_connect (client : ptr) (broker : st_mqtt_broker_info)
    (connect_data : st_mqtt_connect_data) : M Z :=
  rc ← _iot_mqtt_connect_net client broker;
  if rc <? 0 then mret rc
  else
    rc ← connect_exchange client connect_data;
    (if rc <? 0 then
       _iot_mqtt_close_net client;;
       c ← get client;
       match last_sent c with
       | Some t => sys_ (os_timer_delete t);; update client (set_last_sent None)
       | None => mret tt
       end;;
       match last_received c with
       | Some t => sys_ (os_timer_delete t);; update client (set_last_received None)
       | None => mret tt
       end
     else
       created ← sys os_thread_create;
       update client (set_socket_thread created));;
    mret rc.

(** ** Subscribing *)

(** [Topics[i].cstring = topics[i]] for [i < count]. *)
Definition topic_strings (count : Z) (topics : list (option (list Z))) : option (list MQTTString) :=
  if count <=? zlen topics then Some (string_of <$> take (Z.to_nat count) topics) else None.

Definition take_packetid (client : ptr) (chunk : nat) : M Z :=
  update client (fun c => set_next_packetid (following_packetid (next_packetid c)) c);;
  c ← get client;
  update (Some chunk) (set_packet_id (next_packetid c));;
  mret (next_packetid c).

(** The packet of [st_mqtt_subscribe] and [st_mqtt_unsubscribe]: made with
    [write], queued and waited for. *)
Definition request (client : ptr) (type chunk_size : Z) (write : Z -> st cursor Z) : M Z :=
  packet ← _iot_mqtt_chunk_create chunk_size;
  match packet with
  | None => mret E_ST_MQTT_BUFFER_OVERFLOW
  | Some k =>
      invalid ← invalid_client client;
      if (invalid : bool) then _iot_mqtt_chunk_destroy packet;; mret E_ST_MQTT_FAILURE
      else
        id ← take_packetid client k;
        serialize k (write id);;
        update packet (set_packet_type type);;
        update packet (set_have_owner 1);;
        update packet (set_chunk_state PACKET_CHUNK_WRITE_PENDING);;
        _iot_mqtt_queue_push client WritePending k;;
        _iot_mqtt_wait_for client k
  end.

Definition st_mqtt_subscribe (client : ptr) (count : Z) (topics : option (list (option (list Z))))
    (qos : option (list Z)) : M Z :=
  match topics, qos with
  | Some topics, Some qos =>
      if count <=? 0 then mret E_ST_MQTT_FAILURE
      else
        ok ← os_new;
        if negb ok then mret E_ST_MQTT_FAILURE
        else
          Topics ← need (topic_strings count topics);
          chunk_size ← need (MQTTSerialize_subscribe_size count Topics);
          request client SUBSCRIBE chunk_size
            (fun id => MQTTSerialize_subscribe chunk_size 0 (to_ushort id) count Topics qos)
  | _, _ => mret E_ST_MQTT_FAILURE
  end.

Definition st_mqtt_unsubscribe (client : ptr) (count : Z) (topics : option (list (option (list Z))))
    : M Z :=
  match topics with
  | Some topics =>
      if count <=? 0 then mret E_ST_MQTT_FAILURE
      else
        ok ← os_new;
        if negb ok then mret E_ST_MQTT_FAILURE
        else
          Topics ← need (topic_strings count topics);
          chunk_size ← need (MQTTSerialize_unsubscribe_size count Topics);
          request client UNSUBSCRIBE chunk_size
            (fun id => MQTTSerialize_unsubscribe chunk_size 0 (to_ushort id) count Topics)
  | None => mret E_ST_MQTT_FAILURE
  end.

(** ** Publishing *)

Definition _iot_mqtt_push_publish_packet (client : ptr) (msg : publish_msg) (is_sync : Z) : M ptr :=
  let topic := string_of (pm_topic msg) in
  invalid ← invalid_client client;
  if (invalid : bool) then mret None
  else
    locked ← lock_client client ManageLock;
    if negb locked then mret None
    else
      let chunk_size := MQTTSerialize_publish_size (pm_qos msg) topic (pm_payloadlen msg) in
      pub_packet ← _iot_mqtt_chunk_create chunk_size;
      match pub_packet with
      | None => mret tt
      | Some k =>
          when ((pm_qos msg =? 1) || (pm_qos msg =? 2)) (take_packetid client k;; mret tt);;
          ck ← get pub_packet;
          serialize k (MQTTSerialize_publish chunk_size 0 (pm_qos msg) (pm_retained msg)
            (to_ushort (packet_id ck)) topic (pm_payload msg) (pm_payloadlen msg));;
          update pub_packet (set_packet_type PUBLISH);;
          update pub_packet (set_have_owner is_sync);;
          update pub_packet (set_qos (pm_qos msg));;
          update pub_packet (set_chunk_state PACKET_CHUNK_WRITE_PENDING);;
          _iot_mqtt_queue_push client WritePending k;; mret tt
      end;;
      unlock_client client ManageLock;;
      mret pub_packet.

Definition st_mqtt_publish (client : ptr) (msg : publish_msg) : M Z :=
  pub_packet ← _iot_mqtt_push_publish_packet client msg 1;
  match pub_packet with
  | None => mret E_ST_MQTT_FAILURE
  | Some k => _iot_mqtt_wait_for client k
  end.

Definition st_mqtt_publish_async (client : ptr) (msg : publish_msg) : M Z :=
  pub_packet ← _iot_mqtt_push_publish_packet client msg 0;
  let rc := match pub_packet with None => E_ST_MQTT_FAILURE | Some _ => 0 end in
  signal_if_queue client;;
  mret rc.

(** ** The rest *)

Definition st_mqtt_disconnect (client : ptr) : M Z :=
  packet ← _iot_mqtt_chunk_create MQTT_DISCONNECT_PACKET_SIZE;
  rc ← match packet with
       | None => mret E_ST_MQTT_BUFFER_OVERFLOW
       | Some k =>
           serialize k (MQTTSerialize_disconnect MQTT_DISCONNECT_PACKET_SIZE);;
           update packet (set_packet_type DISCONNECT);;
           update packet (set_have_owner 1);;
           update packet (set_chunk_state PACKET_CHUNK_WRITE_PENDING);;
           invalid ← invalid_client client;
           if (invalid : bool) then _iot_mqtt_chunk_destroy packet;; mret E_ST_MQTT_FAILURE
           else
             _iot_mqtt_queue_push client WritePending k;;
             _iot_mqtt_wait_for client k
       end;
  invalid ← invalid_client client;
  when (negb invalid) (_iot_mqtt_close_net client);;
  mret rc.

Definition replace_timer (client : ptr) (field : MQTTClient -> ptr)
    (set_field : ptr -> MQTTClient -> MQTTClient) : M unit :=
  c ← get client;
  delete_timer (field c);;
  t ← sys (os_timer_create (to_uint (keepAliveInterval c * 1000)));
  update client (set_field t);;
  match t with Some t => sys_ (os_timer_start t) | None => mret tt end.

Definition st_mqtt_change_ping_period (client : ptr) (new_period : Z) : M unit :=
  invalid ← invalid_client client;
  if (invalid : bool) then mret tt
  else
    locked ← lock_client client ManageLock;
    when locked
      (update client (set_keepAliveInterval new_period);;
       replace_timer client last_sent set_last_sent;;
       replace_timer client last_received set_last_received;;
       unlock_client client ManageLock).

(** [do ... while (iot_os_timer_is_active(timer) && !rc)]. *)
Fixpoint yield_loop (fuel : nat) (client : ptr) (timer : nat) : M Z :=
  match fuel with
  | O => hang
  | S fuel =>
      rc ← _iot_mqtt_run_cycle net_fuel client;
      _iot_mqtt_process_user_callback client;;
      active ← timer_active (Some timer);
      if active && (rc =? 0) then yield_loop fuel client timer else mret rc
  end.

Definition st_mqtt_yield (client : ptr) (time : Z) : M Z :=
  let finish rc :=
    if rc =? 0 then
      more ← _iot_mqtt_is_pending_work client;
      mret (if (more : bool) then 1 else rc)
    else mret rc in
  if time =? 0 then
    rc ← _iot_mqtt_run_cycle net_fuel client;
    _iot_mqtt_process_user_callback client;;
    finish rc
  else
    timer ← sys (os_timer_create time);
    match timer with
    | None => mret E_ST_MQTT_FAILURE
    | Some t =>
        sys_ (os_timer_start t);;
        rc ← yield_loop net_fuel client t;
        sys_ (os_timer_delete t);;
        finish rc
    end.
End api.
