(* ===== verification/ClientRetry.v ===== *)
(** * Retries and keep-alive

    Theorems about [_iot_mqtt_process_pending_packets] and
    [_iot_mqtt_check_alive] of [ClientCycle]. *)

From S2P Require Import Prelude MqttPacket Platform Heap World ClientQueue ClientInv Sample ClientRun ClientNet ClientCycle.

Section retry.
Context `{P : Platform} (client : nat).

(** What becomes of a packet whose timer has run out: the chunk, and the
    queue it goes to -- none when its owner waits for it. *)
Definition retry_outcome (k : chunk) : chunk * option queue_name :=
  if packet_type k =? CONNECT then
    (set_chunk_state PACKET_CHUNK_TIMEOUT k, if have_owner k =? 0 then Some UserEvent else None)
  else
    let k := set_retry_count (retry_count k + 1) k in
    if retry_count k <? MQTT_PUBLISH_RETRY
    then (set_chunk_state PACKET_CHUNK_WRITE_PENDING k, Some WritePending)
    else (set_chunk_state PACKET_CHUNK_TIMEOUT k, if have_owner k =? 0 then Some UserEvent else None).

Lemma retry_packet_spec w cl Q a k :
  queues client (w_chunks w) (w_clients w) cl Q -> magic cl = MQTT_CLIENT_STRUCT_MAGIC_NUMBER ->
  loose (w_chunks w) Q a k ->
  exists w' cl', retry_packet (Some client) a w = Ret (tt, w') /\
    steps client [a] w w' cl cl' Q (place (retry_outcome k).2 a Q) /\ silent w w' /\
    w_env w' = w_env w /\ fields cl' = fields cl /\ chunk_at (w_chunks w') a (retry_outcome k).1.
Proof.
  intros Hq Hm Hl. pose proof Hl as (Ha & Hn & Hf). pose proof (qs_live _ _ _ _ _ Hq) as Hlive.
  unfold retry_packet, retry_outcome. run. destruct (Z.eqb_spec (packet_type k) CONNECT) as [Et|Et].
  - unfold abandon. run.
    destruct (settle client w cl Q a k (set_chunk_state PACKET_CHUNK_TIMEOUT k)
      (if have_owner k =? 0 then Some UserEvent else None) Hq Hl Hn) as (w' & cl' & E & S).
    exists w', cl'. split; [|exact S]. destruct (have_owner k =? 0); [|exact E].
    cbn [negb]. by erewrite (bind_invalid client) by eassumption.
  - run. cbn [retry_count set_retry_count]. destruct (Z.ltb_spec (retry_count k + 1) MQTT_PUBLISH_RETRY).
    + run. erewrite (bind_invalid client) by eassumption. cbn [negb]. rewrite insert_insert_eq.
      exact (settle client w cl Q a k (set_chunk_state PACKET_CHUNK_WRITE_PENDING (set_retry_count (retry_count k + 1) k))
        (Some WritePending) Hq Hl Hn).
    + unfold abandon. run. rewrite insert_insert_eq. cbn [have_owner set_retry_count].
      destruct (settle client w cl Q a k (set_chunk_state PACKET_CHUNK_TIMEOUT (set_retry_count (retry_count k + 1) k))
        (if have_owner k =? 0 then Some UserEvent else None) Hq Hl Hn) as (w' & cl' & E & S).
      exists w', cl'. split; [|exact S]. destruct (have_owner k =? 0); [|exact E].
      cbn [negb]. by erewrite (bind_invalid client) by eassumption.
Qed.

Definition expired_at (w : world) (a : nat) : bool :=
  match view (w_chunks w) a with Some k => expired (w_env w) k | None => false end.

(** The queue that the packet at [a] is put into, if its timer has run out. *)
Definition destination (w : world) (a : nat) : option queue_name :=
  match view (w_chunks w) a with
  | Some k => if expired (w_env w) k then (retry_outcome k).2 else None
  | None => None
  end.

(** The state in which [_iot_mqtt_process_pending_packets] leaves the client. *)
Record retried (w w' : world) (Q Q' : queue_name -> list nat) : Prop := {
  re_ack : Q' AckPending = filter (fun a => expired_at w a = false) (Q AckPending);
  re_write : Q' WritePending
    = Q WritePending ++ filter (fun a => destination w a = Some WritePending) (Q AckPending);
  re_user : Q' UserEvent
    = Q UserEvent ++ filter (fun a => destination w a = Some UserEvent) (Q AckPending);
  re_chunk : forall a k, a ∈ Q AckPending -> chunk_at (w_chunks w) a k ->
    chunk_at (w_chunks w') a (if expired (w_env w) k then (retry_outcome k).1 else k)
}.

Lemma destination_ack k : (retry_outcome k).2 <> Some AckPending.
Proof. unfold retry_outcome. repeat case_match; by simpl. Qed.

Lemma expired_at_view w w' a :
  w_env w' = w_env w -> view (w_chunks w') a = view (w_chunks w) a ->
  expired_at w' a = expired_at w a /\ destination w' a = destination w a.
Proof. intros He Hv. unfold expired_at, destination. by rewrite He, Hv. Qed.

Lemma destination_of w a k :
  chunk_at (w_chunks w) a k -> expired (w_env w) k = true ->
  expired_at w a = true /\ destination w a = (retry_outcome k).2.
Proof. unfold expired_at, destination, chunk_at. intros -> E. by rewrite E. Qed.

Lemma not_expired_destination w a : expired_at w a = false -> destination w a = None.
Proof. unfold expired_at, destination. destruct (view _ a); [by intros ->|done]. Qed.

(** One round in front of the others. *)
Lemma retried_round w w2 w' Q Q' l1 a l2 k :
  Q AckPending = l1 ++ a :: l2 -> NoDup (Q AckPending) ->
  chunk_at (w_chunks w) a k -> expired (w_env w) k = true ->
  (forall b, b ∈ l1 -> expired_at w b = false) ->
  w_env w2 = w_env w -> (forall b, b <> a -> view (w_chunks w2) b = view (w_chunks w) b) ->
  chunk_at (w_chunks w') a (retry_outcome k).1 ->
  retried w2 w' (place (retry_outcome k).2 a (upd AckPending (l1 ++ l2) Q)) Q' ->
  retried w w' Q Q'.
Proof.
  intros El Hnd Hk Hex Hl1 He Hv Hk' [Ra Rw Ru Rc].
  destruct (destination_of w a k Hk Hex) as [Hea Hda].
  assert (Hne : forall b, b ∈ l1 ++ l2 -> b <> a).
  { intros b Hb ->. rewrite El in Hnd. apply NoDup_app in Hnd as (_ & Hn1 & Hn2).
    apply NoDup_cons in Hn2 as [Hn2 _]. apply elem_of_app in Hb as [Hb|Hb]; [|done].
    apply (Hn1 a Hb). left. }
  assert (Hsame : forall b, b ∈ l1 ++ l2 -> expired_at w2 b = expired_at w b /\ destination w2 b = destination w b)
    by (intros b Hb; by apply expired_at_view, Hv, Hne).
  assert (Hack : place (retry_outcome k).2 a (upd AckPending (l1 ++ l2) Q) AckPending = l1 ++ l2).
  { pose proof (destination_ack k). destruct (retry_outcome k).2 as [[]|]; try done;
      cbn [place]; unfold enqueue; by rewrite ?upd_ne, ?upd_eq by done. }
  assert (Hqueue : forall n, n <> AckPending ->
    place (retry_outcome k).2 a (upd AckPending (l1 ++ l2) Q) n
    = Q n ++ if decide ((retry_outcome k).2 = Some n) then [a] else []).
  { intros n Hn. destruct (retry_outcome k).2 as [n'|]; cbn [place].
    - unfold enqueue, upd. destruct (decide (n = n')) as [->|Hn'].
      + by rewrite (decide_False (P := n' = AckPending)), (decide_True (P := Some n' = Some n')) by done.
      + rewrite (decide_False (P := n = AckPending)), (decide_False (P := Some n' = Some n)) by congruence.
        by rewrite app_nil_r.
    - rewrite decide_False, upd_ne by done. by rewrite app_nil_r. }
  assert (Hdest : forall n, n <> AckPending ->
    place (retry_outcome k).2 a (upd AckPending (l1 ++ l2) Q) n
      ++ filter (fun a => destination w2 a = Some n) (l1 ++ l2)
    = Q n ++ filter (fun a => destination w a = Some n) (Q AckPending)).
  { intros n Hn. rewrite Hqueue, El, filter_app_cons, <- app_assoc by done. f_equal.
    rewrite Hda, (filter_ext_in _ (fun a => destination w a = Some n) (l1 ++ l2))
      by (intros b Hb; by rewrite (proj2 (Hsame b Hb))).
    rewrite filter_app, (filter_none _ l1); [done|].
    intros b Hb. by rewrite (not_expired_destination w b (Hl1 b Hb)). }
  split.
  - rewrite Ra, Hack, El, filter_app_cons, decide_False by congruence. cbn [app]. rewrite <- filter_app.
    apply filter_ext_in. intros b Hb. by rewrite (proj1 (Hsame b Hb)).
  - by rewrite Rw, Hack, Hdest.
  - by rewrite Ru, Hack, Hdest.
  - intros b kb Hb Hkb. rewrite El in Hb. destruct (decide (b = a)) as [->|Hba].
    + unfold chunk_at in *. rewrite Hk in Hkb. injection Hkb as <-. by rewrite Hex.
    + rewrite <- He. apply Rc; [|unfold chunk_at; by rewrite Hv]. rewrite Hack.
      apply elem_of_app in Hb as [Hb|[?|Hb]%elem_of_cons]; [by apply elem_of_app; left|done|].
      by apply elem_of_app; right.
Qed.

Lemma pending_packets_loop_spec fuel : forall w cl Q,
  queues client (w_chunks w) (w_clients w) cl Q -> magic cl = MQTT_CLIENT_STRUCT_MAGIC_NUMBER ->
  (length (Q AckPending) < fuel)%nat ->
  exists w' cl' Q', pending_packets_loop fuel (Some client) w = Ret (tt, w') /\
    steps client (Q AckPending) w w' cl cl' Q Q' /\ silent w w' /\ w_env w' = w_env w /\
    fields cl' = fields cl /\ retried w w' Q Q'.
Proof.
  induction fuel as [|fuel IH]; intros w cl Q Hq Hm Hf; [lia|].
  cbn [pending_packets_loop]. erewrite (bind_invalid client) by (done || apply Hq). cbv beta iota.
  destruct (pop_by_expiry_takes client w cl Q AckPending Hq) as (r & w1 & cl1 & E & Hr).
  rewrite (bind_ret _ _ _ _ _ E). destruct r as [a|].
  - destruct Hr as (l1 & l2 & k & El & [Hmv Hk Hl] & Hex & Hl1).
    destruct (moves_steps client [a] _ _ _ _ _ _ Hmv) as (S1 & Si1 & He1).
    { intros b _. by eapply free_of_removed. }
    pose proof (mv_fields _ _ _ _ _ _ _ Hmv) as Hf1.
    assert (Hm1 : magic cl1 = MQTT_CLIENT_STRUCT_MAGIC_NUMBER)
      by (rewrite <- Hm; exact (f_equal magic Hf1)).
    destruct (retry_packet_spec _ _ _ a k (mv_queues _ _ _ _ _ _ _ Hmv) Hm1 Hl)
      as (w2 & cl2 & E2 & S2 & Si2 & He2 & Hf2 & Hk2).
    rewrite (bind_ret _ _ _ _ _ E2).
    assert (Hm2 : magic cl2 = MQTT_CLIENT_STRUCT_MAGIC_NUMBER)
      by (rewrite <- Hm1; exact (f_equal magic Hf2)).
    set (Q2 := place (retry_outcome k).2 a (upd AckPending (l1 ++ l2) Q)) in *.
    assert (Hack : Q2 AckPending = l1 ++ l2).
    { pose proof (destination_ack k). unfold Q2. destruct (retry_outcome k).2 as [[]|]; try done;
        cbn [place]; unfold enqueue; by rewrite ?upd_ne, ?upd_eq by done. }
    destruct (IH w2 cl2 Q2 (st_queues _ _ _ _ _ _ _ _ S2) Hm2) as (w' & cl' & Q' & E' & S' & Si' & He' & Hf' & Hr').
    { rewrite Hack. rewrite El, length_app in Hf. rewrite length_app. simpl in Hf. lia. }
    exists w', cl', Q'. split; [exact E'|].
    assert (Ha : a ∉ l1 ++ l2).
    { intros Hin. destruct Hl as (_ & _ & Hfr). apply (Hfr AckPending). by rewrite upd_eq. }
    split_and!.
    + eapply steps_weaken; [|exact (steps_trans _ _ _ _ _ _ _ _ _ _ _ _
        (steps_trans _ _ _ _ _ _ _ _ _ _ _ _ S1 S2) S')].
      rewrite Hack, El. set_solver.
    + eapply silent_trans; [|exact Si']. by eapply silent_trans.
    + congruence.
    + congruence.
    + eapply (retried_round w w2 w'); try done; [apply Hq| |congruence| |].
      * intros b Hb. unfold expired_at. destruct (view (w_chunks w) b) as [kb|] eqn:Ev; [|done].
        by eapply Hl1.
      * intros b Hb. rewrite (steps_view _ _ _ _ _ _ _ _ b S2), (steps_view _ _ _ _ _ _ _ _ b S1)
          by (by rewrite list_elem_of_singleton). done.
      * unfold chunk_at. rewrite (steps_view _ _ _ _ _ _ _ _ a S') by (by rewrite Hack). done.
  - destruct Hr as [Hmv Hno]. exists w1, cl1, (upd AckPending (Q AckPending) Q).
    destruct (moves_steps client (Q AckPending) _ _ _ _ _ _ Hmv ltac:(intros; by apply free_of_same))
      as (S1 & Si1 & He1).
    assert (Hall : forall a, a ∈ Q AckPending -> expired_at w a = false).
    { intros a Ha. unfold expired_at. destruct (view (w_chunks w) a) as [k|] eqn:Ev; [|done]. by eapply Hno. }
    split_and!; try done; [apply Hmv|]. split.
    + rewrite upd_eq. symmetry. apply filter_all. done.
    + rewrite upd_ne, filter_none, app_nil_r; [done| |done].
      intros a Ha. by rewrite (not_expired_destination w a (Hall a Ha)).
    + rewrite upd_ne, filter_none, app_nil_r; [done| |done].
      intros a Ha. by rewrite (not_expired_destination w a (Hall a Ha)).
    + intros a k Ha Hk. rewrite (Hno a k Ha Hk). by apply (mv_chunks _ _ _ _ _ _ _ Hmv).
Qed.
End retry.

(** All the rounds. *)
Lemma pending_packets_spec `{P : Platform} client w cl Q :
  queues client (w_chunks w) (w_clients w) cl Q -> magic cl = MQTT_CLIENT_STRUCT_MAGIC_NUMBER ->
  exists w' cl' Q', _iot_mqtt_process_pending_packets (Some client) w = Ret (tt, w') /\
    steps client (Q AckPending) w w' cl cl' Q Q' /\ silent w w' /\
    fields cl' = fields cl /\ retried w w' Q Q'.
Proof.
  intros Hq Hm. unfold _iot_mqtt_process_pending_packets. run.
  destruct (pending_packets_loop_spec client (S (size (w_chunks w))) w cl Q Hq Hm)
    as (w' & cl' & Q' & E & S & Si & _ & Hf & Hr).
  { pose proof (qs_list _ _ _ _ _ Hq AckPending) as Hl.
    pose proof (chain_size _ _ _ (il_chain _ _ _ _ _ Hl) (il_nodup _ _ _ _ _ Hl)). lia. }
  by exists w', cl', Q'.
Qed.

(** C10: [_iot_mqtt_process_pending_packets] terminates on every client in a
    proper state and deals with exactly the packets whose timer has run out, in
    their order: a packet with tries left (never CONNECT) goes back to the
    write queue with its count up by one, one without goes to the callback
    queue or, when it has an owner, is left to the owner in the state
    TIMEOUT.  All other chunks, and the order of the queues, stay. *)
Theorem process_pending_packets_correct `{P : Platform} client w cl Q :
  queues client (w_chunks w) (w_clients w) cl Q -> magic cl = MQTT_CLIENT_STRUCT_MAGIC_NUMBER ->
  exists w' cl' Q', _iot_mqtt_process_pending_packets (Some client) w = Ret (tt, w') /\
    steps client (Q AckPending) w w' cl cl' Q Q' /\ silent w w' /\
    fields cl' = fields cl /\ retried w w' Q Q'.
Proof. apply pending_packets_spec. Qed.

(** ** Keep-alive *)

Lemma check_timers_spec `{P : Platform} client w cl Q ts tr p kp :
  queues client (w_chunks w) (w_clients w) cl Q ->
  last_sent cl = Some ts -> last_received cl = Some tr -> ping_packet cl = Some p ->
  live (w_chunks w) p = Some kp ->
  (chunk_state kp = PACKET_CHUNK_INIT \/ chunk_state kp = PACKET_CHUNK_ACKNOWLEDGED \/
   chunk_state kp = PACKET_CHUNK_TIMEOUT -> loose (w_chunks w) Q p kp) ->
  let idle := negb (os_timer_is_active ts (w_env w)) || negb (os_timer_is_active tr (w_env w)) in
  exists r w' cl' t Q', check_timers (Some client) w = Ret (r, w') /\ silent w w' /\ fields cl' = fields cl /\
    steps client t w w' cl cl' Q Q' /\
    match idle, chunk_state kp with
    | true, PACKET_CHUNK_INIT | true, PACKET_CHUNK_ACKNOWLEDGED =>
        r = 0 /\ t = [p] /\ Q' = enqueue WritePending p Q /\
        chunk_at (w_chunks w') p (set_retry_count 0 (set_chunk_state PACKET_CHUNK_WRITE_PENDING kp))
    | true, PACKET_CHUNK_TIMEOUT =>
        r = E_ST_MQTT_PING_TIMEOUT /\ t = [p] /\ Q' = Q /\
        chunk_at (w_chunks w') p (set_chunk_state PACKET_CHUNK_INIT kp)
    | _, _ => r = 0 /\ t = [] /\ Q' = Q /\ w_chunks w' = w_chunks w
    end.
Proof.
  intros Hq Hts Htr Hp Hkp Hloose idle. pose proof (qs_live _ _ _ _ _ Hq) as Hlive.
  assert (Ht : check_timers (Some client) w
    = (if idle then
         match chunk_state kp with
         | PACKET_CHUNK_ACKNOWLEDGED | PACKET_CHUNK_INIT =>
             update (Some p) (set_chunk_state PACKET_CHUNK_WRITE_PENDING);;
             update (Some p) (set_retry_count 0);;
             _iot_mqtt_queue_push (Some client) WritePending p;; mret 0
         | PACKET_CHUNK_TIMEOUT =>
             update (Some p) (set_chunk_state PACKET_CHUNK_INIT);; mret E_ST_MQTT_PING_TIMEOUT
         | _ => mret 0
         end
       else mret 0) w).
  { unfold check_timers, timer_active, idle. run. rewrite Hts, Htr, Hp. cbn [need]. run.
    destruct (os_timer_is_active ts (w_env w)); cbn [negb orb]; run; [|done].
    destruct (os_timer_is_active tr (w_env w)); cbn [negb orb]; run; done. }
  rewrite Ht. assert (Hnone : exists w' cl' t Q', (mret 0 : st world Z) w = Ret (0, w') /\ silent w w' /\ fields cl' = fields cl /\
    steps client t w w' cl cl' Q Q' /\ 0 = 0 /\ t = [] /\ Q' = Q /\ w_chunks w' = w_chunks w).
  { exists w, cl, [], Q. split_and!; try done. }
  destruct idle; [|by exists 0].
  assert (Hpush : loose (w_chunks w) Q p kp -> exists w' cl' t Q',
    (update (Some p) (set_chunk_state PACKET_CHUNK_WRITE_PENDING);;
     update (Some p) (set_retry_count 0);;
     _iot_mqtt_queue_push (Some client) WritePending p;; mret 0) w = Ret (0, w') /\
    silent w w' /\ fields cl' = fields cl /\ steps client t w w' cl cl' Q Q' /\
    0 = 0 /\ t = [p] /\ Q' = enqueue WritePending p Q /\
    chunk_at (w_chunks w') p (set_retry_count 0 (set_chunk_state PACKET_CHUNK_WRITE_PENDING kp))).
  { intros Hl. pose proof Hl as (_ & Hn & _). run. rewrite insert_insert_eq.
    destruct (settle client w cl Q p kp (set_retry_count 0 (set_chunk_state PACKET_CHUNK_WRITE_PENDING kp))
      (Some WritePending) Hq Hl Hn) as (w' & cl' & E & S & Si & _ & Hf & Hc).
    exists w', cl', [p], (enqueue WritePending p Q). split; [|done].
    apply bind_inv in E as (x & s & Ep & [= <-]). by rewrite (bind_ret _ _ _ _ _ Ep). }
  destruct (chunk_state kp) eqn:Ek; try (by exists 0).
  - exists 0. apply Hpush. auto.
  - exists 0. apply Hpush. auto.
  - run. destruct (write_steps client w cl Q p kp (set_chunk_state PACKET_CHUNK_INIT kp) (w_env w) Hq
      (Hloose ltac:(auto))) as (S1 & Si1 & Hl1); [by destruct Hloose as (_ & ? & _); auto|].
    eexists _, _, cl, [p], Q. split; [reflexivity|]. split_and!; try done. by eapply loose_at.
Qed.

(** With the lock, and the connection closed after it. *)
Lemma check_alive_spec `{P : Platform} `{!PlatformLaws P} client w cl Q ts tr p kp :
  queues client (w_chunks w) (w_clients w) cl Q -> magic cl = MQTT_CLIENT_STRUCT_MAGIC_NUMBER ->
  client_manage_lock cl = free_mutex -> read_lock cl = free_mutex -> write_lock cl = free_mutex ->
  last_sent cl = Some ts -> last_received cl = Some tr -> ping_packet cl = Some p ->
  live (w_chunks w) p = Some kp ->
  (chunk_state kp = PACKET_CHUNK_INIT \/ chunk_state kp = PACKET_CHUNK_ACKNOWLEDGED \/
   chunk_state kp = PACKET_CHUNK_TIMEOUT -> loose (w_chunks w) Q p kp) ->
  let idle := negb (os_timer_is_active ts (w_env w)) || negb (os_timer_is_active tr (w_env w)) in
  exists r w' cl' t Q', _iot_mqtt_check_alive (Some client) w = Ret (r, w') /\ silent w w' /\
    steps client t w w' cl cl' Q Q' /\
    match idle, chunk_state kp with
    | true, PACKET_CHUNK_INIT | true, PACKET_CHUNK_ACKNOWLEDGED =>
        r = 0 /\ t = [p] /\ Q' = enqueue WritePending p Q /\ fields cl' = fields cl /\
        chunk_at (w_chunks w') p (set_retry_count 0 (set_chunk_state PACKET_CHUNK_WRITE_PENDING kp))
    | true, PACKET_CHUNK_TIMEOUT =>
        r = E_ST_MQTT_PING_TIMEOUT /\ fields cl' = fields (disconnected cl) /\
        chunk_at (w_chunks w') p (set_chunk_state PACKET_CHUNK_INIT kp) /\
        exists e, t = [p; e] /\ e <> p /\ live (w_chunks w) e = None /\ (Q' = Q \/ Q' = enqueue UserEvent e Q /\
           exists d, chunk_at (w_chunks w') e (event_chunk MQTT_DISCONNECTED_PING_TIMEOUT d))
    | _, _ => r = 0 /\ t = [] /\ Q' = Q /\ w_chunks w' = w_chunks w /\ fields cl' = fields cl
    end.
Proof.
  intros Hq Hm Hml Hrl Hwl Hts Htr Hp Hkp Hloose idle.
  unfold _iot_mqtt_check_alive. erewrite bind_invalid by (done || apply Hq). cbv beta iota.
  destruct (lock_steps client w cl Q ManageLock (Mutex true true) Hq) as [S1 Si1].
  destruct (check_timers_spec client _ _ Q ts tr p kp (st_queues _ _ _ _ _ _ _ _ S1) Hts Htr Hp Hkp Hloose)
    as (r & w2 & cl2 & t & Q2 & E & Si2 & Hf & S & Hcase).
  change (w_env _) with (w_env w) in Hcase. fold idle in Hcase.
  edestruct (locked_section client ManageLock (check_timers (Some client)) (mret E_ST_MQTT_PING_FAIL))
    as (-> & S3 & Hf3); [exact Hq|exact Hml|exact E|exact S|exact Hf|].
  set (cl3 := set_lock_of _ _ cl2) in *. set (w3 := with_clients _ w2) in *.
  assert (Si3 : silent w w3) by (eapply silent_trans; [exact Si1|]; exact Si2).
  assert (Hend : r = 0 -> (when (r =? E_ST_MQTT_PING_TIMEOUT)
     (_iot_mqtt_close_net (Some client);; push_disconnected (Some client) MQTT_DISCONNECTED_PING_TIMEOUT);;
     mret r) w3 = Ret (0, w3)) by (by intros ->).
  destruct idle; [destruct (chunk_state kp) eqn:Ek|].
  8: { destruct Hcase as (-> & -> & -> & Hc). clear Hend.
    destruct (lose_connection client w3 cl3 Q MQTT_DISCONNECTED_PING_TIMEOUT (st_queues _ _ _ _ _ _ _ _ S3))
      as (e & w5 & cl5 & Q5 & E5 & He & S5 & Si5 & Hf5 & HQ5);
      [by rewrite (f_equal read_lock Hf3 : read_lock cl3 = read_lock cl)
      |by rewrite (f_equal write_lock Hf3 : write_lock cl3 = write_lock cl)|].
    assert (Hep : e <> p) by (intros ->; apply chunk_at_live in Hc as [x Hx]; change (w_chunks w3) with (w_chunks w2) in He; congruence).
    exists E_ST_MQTT_PING_TIMEOUT, w5, cl5, [p; e], Q5. split_and!.
    - change (E_ST_MQTT_PING_TIMEOUT =? E_ST_MQTT_PING_TIMEOUT) with true. cbn [when]. by rewrite (bind_ret _ _ _ _ _ E5).
    - by eapply silent_trans.
    - exact (steps_trans client [p] [e] _ _ _ _ _ _ _ _ _ S3 S5).
    - done.
    - rewrite Hf5. by apply fields_disconnected.
    - unfold chunk_at. by rewrite (steps_view _ _ _ _ _ _ _ _ p S5) by (rewrite list_elem_of_singleton; congruence).
    - exists e. split_and!; try done. pose proof (steps_view _ _ _ _ _ _ _ _ e S3) as Hv. unfold view in Hv.
      rewrite He in Hv. destruct (live (w_chunks w) e); [|done]. discriminate Hv. by rewrite list_elem_of_singleton. }
  all: destruct Hcase as (Hr & Ht & HQ & Hc); exists 0, w3, cl3, t, Q2; subst r; split_and!; auto.
Qed.


(** ** Concrete instances *)

Lemma process_pending_packets_correct_witness :
  let w := sample_world (sample_env [20%nat]) sample_packet [] [20; 21]%nat [] [] in
  exists w' cl' Q', _iot_mqtt_process_pending_packets (Some 0%nat) w = Ret (tt, w') /\
    steps 0 [20; 21]%nat w w' (sample_client [] [20; 21]%nat []) cl' (sample_lists [] [20; 21]%nat []) Q' /\
    silent w w' /\ fields cl' = fields (sample_client [] [20; 21]%nat []) /\
    retried w w' (sample_lists [] [20; 21]%nat []) Q'.
Proof.
  intros w. refine (process_pending_packets_correct 0 w (sample_client [] [20; 21]%nat []) (sample_lists [] [20; 21]%nat []) _ eq_refl).
  apply sample_queues. distinct.
Defined.

