(* ===== verification/ClientWrite.v ===== *)
(** * Writing packets

    Theorems about [_iot_mqtt_write_net], [_iot_mqtt_process_post_write] and
    [_iot_mqtt_run_write_stream] of [ClientRun]. *)

From S2P Require Import Prelude MqttPacket Platform Heap World ClientQueue ClientInv Sample ClientRun ClientNet.

Section write.
Context `{P : Platform} (net_fuel : nat) (client : nat).

(** The world after [s] was sent. *)
Definition sent_world (e : env) (s : list Z) (w : world) : world := with_env e (with_sent (w_sent w ++ s) w).

Lemma write_net_loop_spec `{!PlatformLaws P} `{!NetProgress P} fuel : forall w c buf sent,
  0 <= sent < zlen buf -> zlen buf - sent <= Z.of_nat fuel ->
  exists r e s, write_net_loop fuel (Some c) buf sent w = Ret (r, sent_world e s w) /\
    (r = zlen buf /\ s = drop (Z.to_nat sent) buf \/ r < 0 /\ s `prefix_of` drop (Z.to_nat sent) buf).
Proof.
  induction fuel as [|fuel IH]; intros w c buf sent Hs Hf; [lia|].
  destruct (net_write c (drop (Z.to_nat sent) buf) (w_env w)) as [r e] eqn:Ew.
  set (w1 := sent_world e (take (Z.to_nat r) (drop (Z.to_nat sent) buf)) w).
  assert (E1 : write_net_loop (S fuel) (Some c) buf sent w
    = (if 0 <=? r then
         if sent + r <? zlen buf then write_net_loop fuel (Some c) buf (sent + r) else mret (sent + r)
       else mret r) w1).
  { cbn [write_net_loop]. unfold port_net_write, sys, modify, mbind, st_bind. rewrite Ew. reflexivity. }
  rewrite E1. clear E1.
  pose proof (net_write_count _ _ _ _ _ Ew) as Hr. apply net_write_progress in Ew.
  2: { intros E. apply (f_equal length) in E. rewrite length_drop in E. unfold zlen in *. simpl in E. lia. }
  assert (Hlen : zlen (drop (Z.to_nat sent) buf) = zlen buf - sent) by (unfold zlen in *; rewrite length_drop; lia).
  destruct (Z.leb_spec 0 r) as [Hr0|Hr0].
  - destruct (Z.ltb_spec (sent + r) (zlen buf)) as [Hlt|Hge].
    + destruct (IH w1 c buf (sent + r) ltac:(lia) ltac:(lia)) as (r' & e' & s & E & Hcase).
      exists r', e', (take (Z.to_nat r) (drop (Z.to_nat sent) buf) ++ s). split.
      { rewrite E. unfold w1, sent_world. world_simpl. by rewrite <- app_assoc. }
      assert (Ed : drop (Z.to_nat (sent + r)) buf = drop (Z.to_nat r) (drop (Z.to_nat sent) buf))
        by (rewrite drop_drop; f_equal; lia).
      rewrite Ed in Hcase. destruct Hcase as [[-> ->]|[Hneg [s' Es]]]; [left|right].
      * by rewrite take_drop.
      * split; [done|]. exists s'. rewrite <- app_assoc, <- Es. by rewrite take_drop.
    + exists (sent + r), e, (drop (Z.to_nat sent) buf). unfold w1. rewrite take_ge by (unfold zlen in *; lia).
      split; [done|]. left. split; [lia|done].
  - exists r, e, []. unfold w1. replace (Z.to_nat r) with 0%nat by lia. rewrite take_0. split; [done|].
    right. split; [lia|]. apply prefix_nil.
Qed.

(** What is sent of a chunk. *)
Definition packet_bytes (k : chunk) : list Z :=
  match chunk_data k with Some d => take (Z.to_nat (chunk_size k)) d | None => [] end.

Definition sendable (k : chunk) : Prop :=
  exists d, chunk_data k = Some d /\ 0 < chunk_size k <= zlen d.

Lemma write_loop_spec `{!PlatformLaws P} `{!NetProgress P} w cl c a k :
  live (w_clients w) client = Some cl -> net_ctx cl = Some c -> live (w_chunks w) a = Some k ->
  sendable k -> chunk_size k <= Z.of_nat net_fuel ->
  exists r e s, write_loop net_fuel net_fuel (Some client) a 0 w = Ret (r, sent_world e s w) /\
    (r = chunk_size k /\ s = packet_bytes k \/ r = 0 /\ s `prefix_of` packet_bytes k).
Proof.
  intros Hl Hc Ha (d & Hd & Hs) Hf. destruct net_fuel as [|fuel] eqn:Ef; [lia|]. rewrite <- Ef in *.
  assert (Hbuf : zlen (packet_bytes k) = chunk_size k)
    by (unfold packet_bytes; rewrite Hd; unfold zlen in *; rewrite length_take; lia).
  destruct (write_net_loop_spec net_fuel w c (packet_bytes k) 0) as (r & e & s & E & Hcase); [lia|lia|].
  exists (if r <? 0 then 0 else chunk_size k), e, s.
  assert (E0 : forall f, write_loop net_fuel (S f) (Some client) a 0 w
    = (if 0 <? r then write_loop net_fuel f (Some client) a (0 + r)
       else if r <? 0 then mret 0 else write_loop net_fuel f (Some client) a 0) (sent_world e s w)).
  { intros f. cbn [write_loop]. run. replace (0 =? chunk_size k) with false by (symmetry; apply Z.eqb_neq; lia).
    cbv iota. run. rewrite Hd. cbn [need]. run.
    assert (Esl : slice d 0 (chunk_size k - 0) = Some (packet_bytes k)).
    { unfold slice, packet_bytes. rewrite Hd, (proj2 (Z.leb_le 0 (chunk_size k - 0))), (proj2 (Z.leb_le _ (zlen d))) by lia.
      cbn [andb Z.leb Z.compare]. by rewrite drop_0, Z.sub_0_r. }
    rewrite Esl. cbn [need]. run. rewrite Hc. unfold _iot_mqtt_write_net. by rewrite (bind_ret _ _ _ _ _ E). }
  split.
  - rewrite Ef at 2. rewrite E0. destruct Hcase as [[-> _]|[Hr _]].
    + rewrite (proj2 (Z.ltb_lt 0 _)), (proj2 (Z.ltb_ge _ 0)) by lia. rewrite Hbuf, Z.add_0_l.
      destruct fuel; cbn [write_loop]; rewrite (bind_get _ a k) by done; by rewrite Z.eqb_refl.
    + rewrite (proj2 (Z.ltb_ge 0 r)), (proj2 (Z.ltb_lt r 0)) by lia. done.
  - destruct Hcase as [[-> ->]|[Hr Hp]].
    + left. rewrite (proj2 (Z.ltb_ge _ 0)) by lia. by rewrite drop_0.
    + right. rewrite (proj2 (Z.ltb_lt r 0)) by lia. by rewrite drop_0 in Hp.
Qed.

Lemma sent_steps w cl Q e s :
  queues client (w_chunks w) (w_clients w) cl Q -> steps client [] w (sent_world e s w) cl cl Q Q.
Proof. intros Hq. by split. Qed.

(** ** After the write *)

(** What becomes of a packet that has been written. *)
Inductive fate := Freed | LeftToOwner | AwaitsAck (timeout : Z).

Definition post_write_fate (k : chunk) : fate :=
  let t := packet_type k in
  if t =? CONNECT then AwaitsAck MQTT_CONNECT_TIMEOUT
  else if bool_decide (t ∈ [SUBSCRIBE; UNSUBSCRIBE; PUBREL; PUBREC; PINGREQ]) then AwaitsAck MQTT_RETRY_TIMEOUT
  else if (t =? PUBLISH) && negb (qos k =? 0) then AwaitsAck MQTT_RETRY_TIMEOUT
  else if bool_decide (t ∈ [PUBLISH; DISCONNECT]) && negb (have_owner k =? 0) then LeftToOwner
  else Freed.

Definition has_fate (f : fate) (a : nat) (k : chunk) (w' : world) (Q Q' : queue_name -> list nat) : Prop :=
  match f with
  | Freed => Q' = Q /\ live (w_chunks w') a = None
  | LeftToOwner => Q' = Q /\ chunk_at (w_chunks w') a (set_chunk_state PACKET_CHUNK_WRITE_COMPLETED k)
  | AwaitsAck timeout => Q' = enqueue AckPending a Q /\ exists t e,
      (os_timer_create timeout e).1 = t /\
      chunk_at (w_chunks w') a (set_expiry_time t (set_chunk_state PACKET_CHUNK_ACK_PENDING k))
  end.

Lemma await_ack_spec w cl Q a k timeout :
  queues client (w_chunks w) (w_clients w) cl Q -> loose (w_chunks w) Q a k ->
  exists w' cl', await_ack (Some client) a timeout w = Ret (tt, w') /\
    steps client [a] w w' cl cl' Q (enqueue AckPending a Q) /\ silent w w' /\ fields cl' = fields cl /\
    has_fate (AwaitsAck timeout) a k w' Q (enqueue AckPending a Q).
Proof.
  intros Hq Hl. pose proof Hl as (Ha & Hn & Hf).
  set (e1 := match expiry_time k with Some t => os_timer_delete t (w_env w) | None => w_env w end).
  set (t := (os_timer_create timeout e1).1).
  set (e3 := match t with Some t => os_timer_start t (os_timer_create timeout e1).2 | None => (os_timer_create timeout e1).2 end).
  set (k' := set_expiry_time t (set_chunk_state PACKET_CHUNK_ACK_PENDING k)).
  destruct (write_steps client w cl Q a k k' e3 Hq Hl Hn) as (S1 & Si1 & Hl1).
  destruct (push_steps client _ cl Q AckPending a k' (st_queues _ _ _ _ _ _ _ _ S1) Hl1)
    as (w' & cl' & E & S2 & Si2 & _ & Hf2 & Hc2).
  exists w', cl'. split_and!.
  - unfold await_ack, arm_timer. run. change (expiry_time (set_chunk_state _ k)) with (expiry_time k).
    assert (E' : forall w1, w1 = with_env e3 (with_chunks (<[a:=Some k']> (w_chunks w)) w) ->
      (_iot_mqtt_queue_push (Some client) AckPending a;; mret tt) w1 = Ret (tt, w')).
    { intros w1 ->. by rewrite (bind_ret _ _ _ _ _ E). }
    subst e3 t. unfold e1 in *. destruct (expiry_time k); run; rewrite insert_insert_eq.
    all: destruct (os_timer_create _ _) as [[t|] e2]; world_simpl; cbn [fst snd] in *; run; by apply E'.
  - eapply steps_weaken; [|exact (steps_trans client [a] [a] _ _ _ _ _ _ _ _ _ S1 S2)].
    intros b. by rewrite elem_of_app, list_elem_of_singleton; intros [|].
  - by eapply silent_trans.
  - done.
  - split; [done|]. by exists t, e1.
Qed.

Lemma destroy_steps w cl Q a k :
  queues client (w_chunks w) (w_clients w) cl Q -> loose (w_chunks w) Q a k ->
  exists w', _iot_mqtt_chunk_destroy (Some a) w = Ret (tt, w') /\
    steps client [a] w w' cl cl Q Q /\ silent w w' /\ live (w_chunks w') a = None.
Proof.
  intros Hq Hl. pose proof Hl as (Ha & _). eexists. split; [by apply chunk_destroy_spec|].
  destruct (free_steps client w cl Q a k (drop_timer k (w_env w)) Hq Hl) as [S Si].
  split_and!; [exact S|done|]. simpl. rewrite live_insert, decide_True; done.
Qed.

Lemma post_write_spec w cl Q a k :
  queues client (w_chunks w) (w_clients w) cl Q -> loose (w_chunks w) Q a k ->
  exists w' cl' Q', _iot_mqtt_process_post_write (Some client) a w = Ret (tt, w') /\
    steps client [a] w w' cl cl' Q Q' /\ silent w w' /\ fields cl' = fields cl /\
    has_fate (post_write_fate k) a k w' Q Q'.
Proof.
  intros Hq Hl. pose proof Hl as (Ha & Hn & _). unfold _iot_mqtt_process_post_write. run.
  assert (Hawait : forall timeout, exists w' cl' Q', await_ack (Some client) a timeout w = Ret (tt, w') /\
    steps client [a] w w' cl cl' Q Q' /\ silent w w' /\ fields cl' = fields cl /\ has_fate (AwaitsAck timeout) a k w' Q Q').
  { intros timeout. destruct (await_ack_spec w cl Q a k timeout Hq Hl) as (w' & cl' & S). by exists w', cl', (enqueue AckPending a Q). }
  assert (Hfree : exists w' cl' Q', _iot_mqtt_chunk_destroy (Some a) w = Ret (tt, w') /\
    steps client [a] w w' cl cl' Q Q' /\ silent w w' /\ fields cl' = fields cl /\ has_fate Freed a k w' Q Q').
  { destruct (destroy_steps w cl Q a k Hq Hl) as (w' & E & S & Si & Hd). by exists w', cl, Q. }
  set (k1 := set_chunk_state PACKET_CHUNK_WRITE_COMPLETED k).
  set (w1 := with_chunks (<[a := Some k1]> (w_chunks w)) w).
  destruct (write_steps client w cl Q a k k1 (w_env w) Hq Hl Hn) as (S1 & Si1 & Hl1).
  assert (Hdone : exists w' cl' Q', (mret tt : st world unit) w1 = Ret (tt, w') /\
    steps client [a] w w' cl cl' Q Q' /\ silent w w' /\ fields cl' = fields cl /\ has_fate LeftToOwner a k w' Q Q').
  { exists w1, cl, Q. split_and!; try done. split; [done|]. by eapply loose_at. }
  assert (Hfree1 : exists w' cl' Q', _iot_mqtt_chunk_destroy (Some a) w1 = Ret (tt, w') /\
    steps client [a] w w' cl cl' Q Q' /\ silent w w' /\ fields cl' = fields cl /\ has_fate Freed a k w' Q Q').
  { destruct (destroy_steps w1 cl Q a k1 (st_queues _ _ _ _ _ _ _ _ S1) Hl1) as (w' & E & S & Si & Hd).
    exists w', cl, Q. split_and!; try done.
    eapply steps_weaken; [|exact (steps_trans client [a] [a] _ _ _ _ _ _ _ _ _ S1 S)].
    intros b. by rewrite elem_of_app, list_elem_of_singleton; intros [|]. }
  unfold post_write_fate. destruct (Z.eqb_spec (packet_type k) CONNECT) as [|H1]; [apply Hawait|].
  rewrite (bool_decide_ext (packet_type k ∈ [SUBSCRIBE; UNSUBSCRIBE; PUBREL; PUBREC; PINGREQ])
    (((packet_type k =? SUBSCRIBE) || (packet_type k =? UNSUBSCRIBE) || (packet_type k =? PUBREL) ||
      (packet_type k =? PUBREC) || (packet_type k =? PINGREQ)) = true))
    by (rewrite !orb_true_iff, !Z.eqb_eq, !elem_of_cons; set_solver).
  destruct (_ || (packet_type k =? PINGREQ)) eqn:H2; [rewrite bool_decide_true by done; apply Hawait|].
  rewrite bool_decide_false by done.
  rewrite (bool_decide_ext (packet_type k ∈ [PUBLISH; DISCONNECT])
    (((packet_type k =? PUBLISH) || (packet_type k =? DISCONNECT)) = true))
    by (rewrite !orb_true_iff, !Z.eqb_eq, !elem_of_cons; set_solver).
  destruct (packet_type k =? PUBLISH) eqn:H3; cbn [andb orb].
  - rewrite bool_decide_true by done. destruct (qos k =? 0); cbn [negb]; [|apply Hawait].
    run. destruct (have_owner k =? 0); [exact Hfree1|exact Hdone].
  - destruct (packet_type k =? DISCONNECT); [|rewrite bool_decide_false by done; exact Hfree].
    rewrite bool_decide_true by done. destruct (have_owner k =? 0); cbn [negb andb]; [exact Hfree|].
    erewrite run_update by exact Ha. exact Hdone.
Qed.

(** ** The write stream *)

(** A packet that could not be sent. *)
Definition failed (r : Z) (k : chunk) : chunk := set_return_code r (set_chunk_state PACKET_CHUNK_WRITE_FAIL k).
Definition to_user (k : chunk) : option queue_name := if have_owner k =? 0 then Some UserEvent else None.

Lemma write_packet_empty w cl Q :
  queues client (w_chunks w) (w_clients w) cl Q -> Q WritePending = [] ->
  exists w' cl', write_packet net_fuel (Some client) w = Ret ((0, None), w') /\
    steps client [] w w' cl cl' Q Q /\ silent w w' /\ fields cl' = fields cl.
Proof.
  intros Hq El. pose proof (pop_takes client w cl Q WritePending Hq) as Hp. rewrite El in Hp.
  destruct Hp as (w' & cl' & E & Hm).
  destruct (moves_steps client [] _ _ _ _ _ _ Hm) as (S & Si & _).
  { intros b _ Hf n. unfold upd. case_decide; [by apply not_elem_of_nil|apply Hf]. }
  exists w', cl'. unfold write_packet. rewrite (bind_ret _ _ _ _ _ E). split_and!; [done| |done|apply Hm].
  eapply steps_ext; [|exact S]. intros n. unfold upd. case_decide; by subst.
Qed.

(** What the part under the lock does with the packet at [a], [k], which it
    takes out of the queue: [r] and [o] are [written] and [w_chunk]. *)
Definition packet_written (w w' : world) (cl : MQTTClient) (a : nat) (k : chunk) (Q1 Q' : queue_name -> list nat)
    (r : Z) (o : option nat) : Prop :=
  if isconnected cl =? 0 then
    r = E_ST_MQTT_DISCONNECTED /\ o = Some a /\ Q' = Q1 /\ loose (w_chunks w') Q1 a k /\ w_sent w' = w_sent w
  else
    r = chunk_size k /\ o = None /\ has_fate (post_write_fate k) a k w' Q1 Q' /\
      w_sent w' = w_sent w ++ packet_bytes k \/
    r = E_ST_MQTT_NETWORK_ERROR /\ o = Some a /\ Q' = Q1 /\ loose (w_chunks w') Q1 a k /\
      exists s, w_sent w' = w_sent w ++ s /\ s `prefix_of` packet_bytes k.

Lemma write_packet_spec `{!PlatformLaws P} `{!NetProgress P} w cl Q a l k c :
  queues client (w_chunks w) (w_clients w) cl Q -> Q WritePending = a :: l -> chunk_at (w_chunks w) a k ->
  net_ctx cl = Some c -> sendable k -> chunk_size k <= Z.of_nat net_fuel ->
  exists r o w' cl' Q', write_packet net_fuel (Some client) w = Ret ((r, o), w') /\
    steps client [a] w w' cl cl' Q Q' /\ w_events w' = w_events w /\ w_received w' = w_received w /\
    fields cl' = fields cl /\ packet_written w w' cl a k (upd WritePending l Q) Q' r o.
Proof.
  intros Hq El Hk Hc Hsend Hfuel. pose proof (pop_takes client w cl Q WritePending Hq) as Hp. rewrite El in Hp.
  destruct Hp as (w1 & cl1 & k' & E & [Hm Hk' Hl1]).
  assert (k' = k) as -> by (unfold chunk_at in *; congruence).
  set (Q1 := upd WritePending l Q) in *.
  destruct (moves_steps client [a] _ _ _ _ _ _ Hm) as (S1 & Si1 & _).
  { intros b _. by apply (free_of_removed WritePending a []). }
  pose proof (mv_queues _ _ _ _ _ _ _ Hm) as Hq1. pose proof (mv_fields _ _ _ _ _ _ _ Hm) as Hf1.
  assert (Hcon : isconnected cl1 = isconnected cl) by exact (f_equal isconnected Hf1).
  assert (Hctx : net_ctx cl1 = Some c) by (rewrite <- Hc; exact (f_equal net_ctx Hf1)).
  unfold write_packet. rewrite (bind_ret _ _ _ _ _ E). rewrite (bind_get w1 client cl1) by apply Hq1.
  unfold packet_written. destruct Si1 as (Ev & Es & Er). rewrite Hcon. destruct (isconnected cl =? 0).
  { eexists _, _, w1, cl1, Q1. by split_and!. }
  pose proof Hl1 as (Hlive & _ & _).
  destruct (write_loop_spec w1 cl1 c a k (qs_live _ _ _ _ _ Hq1) Hctx Hlive Hsend Hfuel)
    as (r & e & s & Ew & Hcase).
  rewrite (bind_ret _ _ _ _ _ Ew). set (w2 := sent_world e s w1) in *.
  rewrite (bind_get w2 a k) by exact Hlive.
  assert (S2 : steps client [] w1 w2 cl1 cl1 Q1 Q1) by (by apply sent_steps).
  assert (Hsize : 0 < chunk_size k) by (destruct Hsend as (d & _ & ?); lia).
  destruct Hcase as [[-> ->]|[-> Hpre]].
  - rewrite Z.eqb_refl.
    destruct (post_write_spec w2 cl1 Q1 a k (st_queues _ _ _ _ _ _ _ _ S2) Hl1)
      as (w' & cl' & Q' & E' & S3 & (Ev3 & Es3 & Er3) & Hf3 & Hfate).
    exists (chunk_size k), None, w', cl', Q'. rewrite (bind_ret _ _ _ _ _ E'). split_and!; [done| | | | |].
    + eapply steps_weaken; [|exact (steps_trans client [a] [a] _ _ _ _ _ _ _ _ _
        (steps_trans client [a] [] _ _ _ _ _ _ _ _ _ S1 S2) S3)].
      intros b. set_solver.
    + by rewrite Ev3.
    + by rewrite Er3.
    + by rewrite Hf3.
    + left. split_and!; [done|done|done|]. rewrite Es3. simpl. by rewrite Es.
  - replace (0 =? chunk_size k) with false by (symmetry; apply Z.eqb_neq; lia).
    eexists _, _, w2, cl1, Q1. split; [reflexivity|]. split_and!; [|done|done|done|].
    + exact (steps_trans client [a] [] _ _ _ _ _ _ _ _ _ S1 S2).
    + right. split_and!; [done|done|done|done|]. exists s. split; [|done]. simpl. by rewrite Es.
Qed.
End write.

(** The end of the write stream, for a packet that could not be sent. *)
Lemma fail_packet `{P : Platform} client w cl Q a k r :
  queues client (w_chunks w) (w_clients w) cl Q -> loose (w_chunks w) Q a k ->
  exists w' cl', (update (Some a) (set_chunk_state PACKET_CHUNK_WRITE_FAIL);;
    update (Some a) (set_return_code r);;
    ck ← get (Some a);
    when (have_owner ck =? 0) (_iot_mqtt_queue_push (Some client) UserEvent a;; mret tt)) w = Ret (tt, w') /\
    steps client [a] w w' cl cl' Q (place (to_user k) a Q) /\ silent w w' /\ fields cl' = fields cl /\
    chunk_at (w_chunks w') a (failed r k).
Proof.
  intros Hq Hl. pose proof Hl as (Ha & Hn & _).
  destruct (settle client w cl Q a k (failed r k) (to_user k) Hq Hl Hn) as (w' & cl' & E & S & Si & _ & Hf & Hc).
  exists w', cl'. split; [|done]. run. rewrite insert_insert_eq. unfold to_user in E.
  change (have_owner (set_return_code _ _)) with (have_owner k). destruct (have_owner k =? 0); exact E.
Qed.

(** The state in which [_iot_mqtt_run_write_stream] leaves the packet [k] that
    was the first of the write queue, [l] being the others. *)
Inductive write_outcome `{P : Platform} (client : nat) (w w' : world) (cl cl' : MQTTClient)
    (Q Q' : queue_name -> list nat) (t : list nat) (a : nat) (l : list nat) (k : chunk) : Z -> Prop :=
| packet_sent :
    isconnected cl <> 0 -> w_sent w' = w_sent w ++ packet_bytes k -> t = [a] -> fields cl' = fields cl ->
    has_fate (post_write_fate k) a k w' (upd WritePending l Q) Q' ->
    write_outcome client w w' cl cl' Q Q' t a l k (chunk_size k)
| not_connected :
    isconnected cl = 0 -> w_sent w' = w_sent w -> t = [a] -> fields cl' = fields cl ->
    Q' = place (to_user k) a (upd WritePending l Q) -> chunk_at (w_chunks w') a (failed E_ST_MQTT_DISCONNECTED k) ->
    write_outcome client w w' cl cl' Q Q' t a l k E_ST_MQTT_DISCONNECTED
| connection_lost s e Q2 :
    isconnected cl <> 0 -> w_sent w' = w_sent w ++ s -> s `prefix_of` packet_bytes k ->
    t = [a; e] -> e <> a -> live (w_chunks w) e = None -> fields cl' = fields (disconnected cl) ->
    chunk_at (w_chunks w') a (failed E_ST_MQTT_NETWORK_ERROR k) ->
    Q2 = place (to_user k) a (upd WritePending l Q) ->
    (Q' = Q2 \/ Q' = enqueue UserEvent e Q2 /\
       exists d, chunk_at (w_chunks w') e (event_chunk MQTT_DISCONNECTED_NETWORK_ERROR d)) ->
    write_outcome client w w' cl cl' Q Q' t a l k E_ST_MQTT_NETWORK_ERROR.

Lemma finish_write_spec `{P : Platform} `{!PlatformLaws P} client w w2 w3 cl cl3 Q Q3 a l k ts r o :
  queues client (w_chunks w) (w_clients w) cl Q ->
  magic cl = MQTT_CLIENT_STRUCT_MAGIC_NUMBER -> client_manage_lock cl = free_mutex ->
  read_lock cl = free_mutex -> write_lock cl = free_mutex -> last_sent cl = Some ts ->
  0 < chunk_size k ->
  steps client [a] w w3 cl cl3 Q Q3 -> fields cl3 = fields cl -> w_chunks w3 = w_chunks w2 -> w_sent w3 = w_sent w2 ->
  packet_written w w2 cl a k (upd WritePending l Q) Q3 r o ->
  exists w' cl' Q' t, finish_write (Some client) (r, o) w3 = Ret (r, w') /\
    steps client t w w' cl cl' Q Q' /\ w_events w' = w_events w3 /\ w_received w' = w_received w3 /\
    write_outcome client w w' cl cl' Q Q' t a l k r.
Proof.
  intros Hq Hm Hml Hrl Hwl Hts Hsize S3 Hf3 Hch Hse Hpw.
  pose proof (st_queues _ _ _ _ _ _ _ _ S3) as Hq3. unfold packet_written in Hpw.
  destruct (Z.eqb_spec (isconnected cl) 0) as [Hcon|Hcon].
  - destruct Hpw as (-> & -> & -> & Hl & Hs).
    destruct (fail_packet client w3 cl3 _ a k E_ST_MQTT_DISCONNECTED Hq3) as (w4 & cl4 & E4 & S4 & (Ev & Es & Er) & Hf4 & Hc4);
      [by rewrite Hch|].
    eexists w4, cl4, _, [a]. unfold finish_write. cbn [Z.ltb Z.compare E_ST_MQTT_DISCONNECTED when].
    rewrite (bind_ret _ _ _ _ _ E4). split; [reflexivity|].
    split_and!; [|done|done|].
    + eapply steps_weaken; [|exact (steps_trans client [a] [a] _ _ _ _ _ _ _ _ _ S3 S4)]. set_solver.
    + apply not_connected; try done; [by rewrite Es, Hse|by rewrite Hf4].
  - destruct Hpw as [(-> & -> & Hfate & Hs)|(-> & -> & -> & Hl & s & Hs & Hpre)].
    + destruct (touch_timer client w3 cl3 Q3 ts last_sent Hq3) as (w4 & cl4 & E4 & S4 & (Ev & Es & Er) & Hw4 & Hf4);
        [by rewrite <- Hm; exact (f_equal magic Hf3)|by rewrite <- Hml; exact (f_equal client_manage_lock Hf3)
        |by rewrite <- Hts; exact (f_equal last_sent Hf3)|].
      eexists w4, cl4, Q3, [a]. unfold finish_write. rewrite (proj2 (Z.ltb_lt 0 _)) by done.
      rewrite bind_mret. cbn [when]. rewrite (bind_ret _ _ _ _ _ E4).
      replace (chunk_size k =? E_ST_MQTT_NETWORK_ERROR) with false
        by (symmetry; apply Z.eqb_neq; unfold E_ST_MQTT_NETWORK_ERROR; lia).
      split; [reflexivity|]. split_and!; [|done|done|].
      * exact (steps_trans client [a] [] _ _ _ _ _ _ _ _ _ S3 S4).
      * apply packet_sent; try done; [by rewrite Es, Hse|by rewrite Hf4|].
        unfold has_fate, chunk_at, view in *. by rewrite Hw4, Hch.
    + destruct (fail_packet client w3 cl3 _ a k E_ST_MQTT_NETWORK_ERROR Hq3) as (w4 & cl4 & E4 & S4 & Si4 & Hf4 & Hc4);
        [by rewrite Hch|].
      destruct (lose_connection client w4 cl4 _ MQTT_DISCONNECTED_NETWORK_ERROR (st_queues _ _ _ _ _ _ _ _ S4))
        as (e & w5 & cl5 & Q5 & E5 & He & S5 & Si5 & Hf5 & HQ5);
        [rewrite <- Hrl; exact (f_equal read_lock (eq_trans Hf4 Hf3))
        |rewrite <- Hwl; exact (f_equal write_lock (eq_trans Hf4 Hf3))|].
      assert (Hea : e <> a) by (intros ->; apply chunk_at_live in Hc4 as [x Hx]; congruence).
      eexists w5, cl5, Q5, [a; e]. unfold finish_write. cbn [Z.ltb Z.compare E_ST_MQTT_NETWORK_ERROR when].
      rewrite (bind_ret _ _ _ _ _ E4), bind_mret. cbn [Z.eqb Pos.eqb]. rewrite (bind_ret _ _ _ _ _ E5).
      split; [reflexivity|]. destruct (silent_trans _ _ _ Si4 Si5) as (Ev & Es & Er). split_and!; [|done|done|].
      * eapply steps_weaken; [|exact (steps_trans client _ [e] _ _ _ _ _ _ _ _ _
          (steps_trans client [a] [a] _ _ _ _ _ _ _ _ _ S3 S4) S5)]. set_solver.
      * eapply (connection_lost client w w5 cl cl5 Q Q5 [a; e] a l k s e); try done; [by rewrite Es, Hse| | |].
        -- pose proof (steps_view _ _ _ _ _ _ _ _ e (steps_trans client [a] [a] _ _ _ _ _ _ _ _ _ S3 S4)) as Hv.
           unfold view in Hv. rewrite He in Hv. destruct (live (w_chunks w) e); [|done].
           discriminate Hv. set_solver.
        -- rewrite Hf5. apply fields_disconnected. by rewrite Hf4.
        -- unfold chunk_at. by rewrite (steps_view _ _ _ _ _ _ _ _ a S5) by (rewrite list_elem_of_singleton; congruence).
Qed.

(** ** The write stream *)

Lemma write_stream_spec `{P : Platform} `{!PlatformLaws P} `{!NetProgress P}
    net_fuel client w cl Q c ts :
  queues client (w_chunks w) (w_clients w) cl Q -> magic cl = MQTT_CLIENT_STRUCT_MAGIC_NUMBER ->
  client_manage_lock cl = free_mutex -> read_lock cl = free_mutex -> write_lock cl = free_mutex ->
  last_sent cl = Some ts -> net_ctx cl = Some c ->
  (forall a k, head (write_pending_queue cl) = Some a -> chunk_at (w_chunks w) a k ->
     sendable k /\ chunk_size k <= Z.of_nat net_fuel) ->
  exists r w' cl' Q' t, _iot_mqtt_run_write_stream net_fuel (Some client) w = Ret (r, w') /\
    steps client t w w' cl cl' Q Q' /\ w_events w' = w_events w /\ w_received w' = w_received w /\
    match Q WritePending with
    | [] => r = 0 /\ t = [] /\ Q' = Q /\ w_sent w' = w_sent w /\ fields cl' = fields cl
    | a :: l => exists k, chunk_at (w_chunks w) a k /\ write_outcome client w w' cl cl' Q Q' t a l k r
    end.
Proof.
  intros Hq Hm Hml Hrl Hwl Hts Hc Hsend. unfold _iot_mqtt_run_write_stream.
  erewrite bind_invalid by (done || apply Hq). cbv iota.
  destruct (lock_steps client w cl Q WriteLock (Mutex true true) Hq) as [S1 _].
  pose proof (st_queues _ _ _ _ _ _ _ _ S1) as Hq1.
  destruct (Q WritePending) as [|a l] eqn:El.
  - destruct (write_packet_empty net_fuel client _ _ Q Hq1 El) as (w2 & cl2 & E & S2 & Si2 & Hf2).
    edestruct (locked_section client WriteLock (write_packet net_fuel (Some client)) (mret 0))
      as (-> & S3 & Hf3); [exact Hq|exact Hwl|exact E|exact S2|exact Hf2|].
    destruct Si2 as (Ev & Es & Er). eexists 0, _, _, Q, []. split; [reflexivity|]. by split_and!.
  - pose proof (il_hd _ _ _ _ _ (qs_list _ _ _ _ _ Hq WritePending)) as Hhd. rewrite El in Hhd.
    destruct (queues_view _ _ _ _ _ WritePending a Hq) as [k Hk]; [rewrite El; left|].
    destruct (Hsend a k Hhd Hk) as [Hs Hfuel].
    destruct (write_packet_spec net_fuel client _ _ Q a l k c Hq1 El Hk Hc Hs Hfuel)
      as (r & o & w2 & cl2 & Q2 & E & S2 & Ev & Er & Hf2 & Hpw).
    edestruct (locked_section client WriteLock (write_packet net_fuel (Some client)) (mret 0))
      as (-> & S3 & Hf3); [exact Hq|exact Hwl|exact E|exact S2|exact Hf2|].
    set (cl3 := set_lock_of _ _ cl2) in *. set (w3 := with_clients _ w2) in *.
    assert (Hsize : 0 < chunk_size k) by (destruct Hs as (d & _ & ?); lia).
    edestruct (finish_write_spec client w w2 w3 cl cl3 Q Q2 a l k ts r o) as (w' & cl' & Q' & t & E' & S' & Ev' & Er' & Ho);
      try done.
    exists r, w', cl', Q', t. split; [exact E'|]. split; [done|].
    split_and!; [by rewrite Ev'|by rewrite Er'|]. by exists k.
Qed.


(** ** A concrete instance *)

