(* ===== verification/ClientReceive.v ===== *)
(** * Handling received packets

    Theorems about [_iot_mqtt_process_received_ack], [_publish] and
    [_pubrec_pubrel] of [ClientRun]. *)

From S2P Require Import Prelude Cursor MqttPacket MqttCodec MqttPublish MqttConnect MqttSubscribe.
From S2P Require Import Platform Heap World ClientQueue ClientInv Sample ClientRun ClientNet ClientWrite.

Section receive.
Context `{P : Platform} `{CharModel} `{EvalOrder} (client : nat).

Lemma on_data_ret {A} d (m : st cursor A) a c w : m (Cursor d 0) = Ret (a, c) -> on_data d m w = Ret ((a, cmem c), w).
Proof. intros E. unfold on_data. by rewrite E. Qed.

(** ** Acknowledgements *)

(** The return code that the acknowledgement [k] gives, if it gives one. *)
Definition ack_result (k : chunk) (rc : option Z) : Prop :=
  if packet_type k =? CONNACK then exists d r c,
    chunk_data k = Some d /\
    MQTTDeserialize_connack {| co_sessionPresent := 0; co_connack_rc := 0 |} (Cursor d 0) = Ret (r, c) /\
    rc = Some (_iot_mqtt_convert_return_code (co_connack_rc r.2))
  else if packet_type k =? SUBACK then exists d r c q,
    chunk_data k = Some d /\
    MQTTDeserialize_suback 1 {| so_packetid := 0; so_count := 0; so_grantedQoSs := [uninit_int] |} (Cursor d 0) = Ret (r, c) /\
    hd_error (so_grantedQoSs r.2) = Some q /\
    rc = Some (if q =? 128 then E_ST_MQTT_FAILURE else 0)
  else rc = None.

Definition with_result (rc : option Z) (k : chunk) : chunk :=
  match rc with Some rc => set_return_code rc k | None => k end.

Lemma set_ack_result_spec w a k b kb rc :
  live (w_chunks w) a = Some k -> live (w_chunks w) b = Some kb -> ack_result k rc ->
  set_ack_result a (Some b) w = Ret (tt, with_chunks (<[b := Some (with_result rc kb)]> (w_chunks w)) w).
Proof.
  intros Ha Hb Hrc. unfold set_ack_result, ack_result in *. run.
  destruct (packet_type k =? CONNACK).
  - destruct Hrc as (d & r & c & Hd & E & ->). rewrite Hd. cbn [need]. run.
    rewrite (bind_ret _ _ _ _ _ (on_data_ret _ _ _ _ _ E)). by erewrite run_update by exact Hb.
  - destruct (packet_type k =? SUBACK).
    + destruct Hrc as (d & r & c & q & Hd & E & Hq & ->). rewrite Hd. cbn [need]. run.
      rewrite (bind_ret _ _ _ _ _ (on_data_ret _ _ _ _ _ E)). rewrite Hq. cbn [need]. run.
      by erewrite run_update by exact Hb.
    + subst rc. cbn [with_result]. rewrite (live_insert_id _ _ _ Hb). by destruct w.
Qed.

(** The packet that is acknowledged, when it has an owner. *)
Definition acknowledged (rc : option Z) (k : chunk) : chunk :=
  set_expiry_time None (set_chunk_state PACKET_CHUNK_ACKNOWLEDGED (with_result rc k)).

Definition completed (w' : world) (rc : option Z) (b : nat) (kb : chunk) : Prop :=
  if have_owner kb =? 0 then live (w_chunks w') b = None else chunk_at (w_chunks w') b (acknowledged rc kb).

Lemma have_owner_result rc k : have_owner (with_result rc k) = have_owner k.
Proof. by destruct rc. Qed.
Lemma expiry_time_result rc k : expiry_time (with_result rc k) = expiry_time k.
Proof. by destruct rc. Qed.
Lemma next_result rc k : next (with_result rc k) = next k.
Proof. by destruct rc. Qed.

(** The packet that was waiting. *)
Lemma complete_spec w cl Q a k b kb rc :
  queues client (w_chunks w) (w_clients w) cl Q -> loose (w_chunks w) Q a k -> loose (w_chunks w) Q b kb -> a <> b ->
  ack_result k rc ->
  exists w', (set_ack_result a (Some b);;
    t ← get (Some b);
    if negb (have_owner t =? 0) then
      update (Some b) (set_chunk_state PACKET_CHUNK_ACKNOWLEDGED);;
      match expiry_time t with
      | Some timer => sys_ (os_timer_delete timer);; update (Some b) (set_expiry_time None)
      | None => mret tt
      end
    else _iot_mqtt_chunk_destroy (Some b)) w = Ret (tt, w') /\
    steps client [b] w w' cl cl Q Q /\ silent w w' /\ loose (w_chunks w') Q a k /\ completed w' rc b kb.
Proof.
  intros Hq Hla Hlb Hab Hrc. pose proof Hla as (Ha & Hna & Hfa). pose proof Hlb as (Hb & Hnb & Hfb).
  rewrite (bind_ret _ _ _ _ _ (set_ack_result_spec w a k b kb rc Ha Hb Hrc)). run.
  rewrite have_owner_result, expiry_time_result. unfold completed.
  assert (Hloose : forall o e, loose (w_chunks (with_env e (with_chunks (<[b := o]> (w_chunks w)) w))) Q a k).
  { intros o e. unfold loose. split_and!; [|done|done].
    cbn [w_chunks with_env with_chunks]. by rewrite live_insert, decide_False. }
  destruct (Z.eqb_spec (have_owner kb) 0) as [Ho|Ho]; cbn [negb].
  - pose proof (chunk_destroy_spec b (with_result rc kb)
      (with_chunks (<[b:=Some (with_result rc kb)]> (w_chunks w)) w) ltac:(live_lookup)) as E.
    world_simpl. rewrite insert_insert_eq in E. eexists. split; [exact E|].
    destruct (free_steps client w cl Q b kb (drop_timer (with_result rc kb) (w_env w)) Hq Hlb) as [S Si].
    split_and!; [exact S|done|apply (Hloose None (w_env w))|]. world_simpl. by rewrite live_insert, decide_True.
  - assert (Hgoal : forall e w', w' = with_env e (with_chunks (<[b := Some (acknowledged rc kb)]> (w_chunks w)) w) ->
      steps client [b] w w' cl cl Q Q /\ silent w w' /\ loose (w_chunks w') Q a k /\
      chunk_at (w_chunks w') b (acknowledged rc kb)).
    { intros e w' ->. destruct (write_steps client w cl Q b kb (acknowledged rc kb) e Hq Hlb) as (S & Si & Hl).
      { unfold acknowledged. simpl. by rewrite next_result. }
      split_and!; [exact S|done|apply (Hloose (Some _) e)|by eapply loose_at]. }
    run. destruct (expiry_time kb) as [timer|] eqn:Et; run; rewrite ?insert_insert_eq.
    + eexists. split; [erewrite run_update by live_lookup; reflexivity|].
      world_simpl. rewrite !insert_insert_eq. by apply (Hgoal (os_timer_delete timer (w_env w))).
    + eexists. split; [reflexivity|]. apply (Hgoal (w_env w)).
      replace (acknowledged rc kb) with (set_chunk_state PACKET_CHUNK_ACKNOWLEDGED (with_result rc kb)); [by destruct w|].
      unfold acknowledged, set_expiry_time, set_chunk_state. cbn. f_equal. rewrite expiry_time_result. congruence.
Qed.

(** The first packet of a type and identifier in a list of chunks. *)
Record first_of (h : heap chunk) (type id : Z) (l l1 : list nat) (b : nat) (l2 : list nat) (kb : chunk) : Prop := {
  fo_split : l = l1 ++ b :: l2;
  fo_at : chunk_at h b kb;
  fo_type : packet_type kb = type;
  fo_id : packet_id kb = id;
  fo_before : forall x kx, x ∈ l1 -> chunk_at h x kx -> packet_type kx = type -> packet_id kx <> id
}.

Definition none_of (h : heap chunk) (type id : Z) (l : list nat) : Prop :=
  forall x kx, x ∈ l -> chunk_at h x kx -> packet_type kx = type -> packet_id kx <> id.

(** What an acknowledgement [k] at [a] of the packet [(type, id)] does. *)
Inductive ack_outcome (w w' : world) (Q Q' : queue_name -> list nat) (t : list nat) (a : nat)
    (type id : Z) (rc : option Z) : Prop :=
| ack_unexpected :
    none_of (w_chunks w) type id (Q AckPending) -> t = [a] -> Q' = Q ->
    ack_outcome w w' Q Q' t a type id rc
| ack_completes l1 b l2 kb :
    first_of (w_chunks w) type id (Q AckPending) l1 b l2 kb ->
    t = [a; b] -> Q' = upd AckPending (l1 ++ l2) Q -> completed w' rc b kb ->
    ack_outcome w w' Q Q' t a type id rc.

Lemma destroy_loose w cl Q a k :
  queues client (w_chunks w) (w_clients w) cl Q -> loose (w_chunks w) Q a k ->
  exists w', _iot_mqtt_chunk_destroy (Some a) w = Ret (tt, w') /\
    steps client [a] w w' cl cl Q Q /\ silent w w' /\ live (w_chunks w') a = None /\
    forall b, b <> a -> live (w_chunks w') b = live (w_chunks w) b.
Proof.
  intros Hq Hl. destruct (destroy_steps client w cl Q a k Hq Hl) as (w' & E & S & Si & Hd).
  exists w'. split_and!; try done. intros b Hb. destruct Hl as (Ha & _).
  rewrite (chunk_destroy_spec a k w Ha) in E. injection E as <-. simpl. by rewrite live_insert, decide_False.
Qed.

Lemma received_ack_spec w cl Q a k type id rc :
  queues client (w_chunks w) (w_clients w) cl Q -> loose (w_chunks w) Q a k ->
  acknowledged_packet k = Some (type, id) -> ack_result k rc ->
  exists w' cl' Q' t, _iot_mqtt_process_received_ack (Some client) a w = Ret (tt, w') /\
    steps client t w w' cl cl' Q Q' /\ silent w w' /\ fields cl' = fields cl /\
    live (w_chunks w') a = None /\ ack_outcome w w' Q Q' t a type id rc.
Proof.
  intros Hq Hl Hack Hrc. pose proof Hl as (Ha & Hn & Hf).
  unfold _iot_mqtt_process_received_ack. run. rewrite Hack.
  destruct (pop_by_type_and_id_takes client w cl Q AckPending type id Hq) as (r & w1 & cl1 & E & Hr).
  rewrite (bind_ret _ _ _ _ _ E). destruct r as [b|].
  - destruct Hr as (l1 & l2 & kb & El & [Hmv Hkb Hlb] & Ht & Hi & Hl1).
    destruct (moves_steps client [b] _ _ _ _ _ _ Hmv) as (S1 & Si1 & _); [intros x _; by eapply free_of_removed|].
    pose proof (mv_queues _ _ _ _ _ _ _ Hmv) as Hq1.
    assert (Hab : a <> b) by (intros ->; apply (Hf AckPending); rewrite El; apply elem_of_app; right; left).
    assert (Hla : loose (w_chunks w1) (upd AckPending (l1 ++ l2) Q) a k).
    { split_and!; [|done|by eapply free_of_removed]. unfold live. by rewrite (mv_free _ _ _ _ _ _ _ Hmv). }
    destruct (complete_spec w1 cl1 _ a k b kb rc Hq1 Hla Hlb Hab Hrc) as (w2 & E2 & S2 & Si2 & Hla2 & Hc).
    destruct (destroy_loose w2 cl1 _ a k (st_queues _ _ _ _ _ _ _ _ S2) Hla2) as (w' & E' & S3 & Si3 & Hd & Hother).
    exists w', cl1, (upd AckPending (l1 ++ l2) Q), [a; b]. split_and!.
    + rewrite (bind_ret _ _ _ _ _ E2). exact E'.
    + eapply steps_weaken; [|exact (steps_trans client _ [a] _ _ _ _ _ _ _ _ _
        (steps_trans client [b] [b] _ _ _ _ _ _ _ _ _ S1 S2) S3)]. set_solver.
    + eapply silent_trans; [|exact Si3]. by eapply silent_trans.
    + apply Hmv.
    + done.
    + apply (ack_completes w w' Q _ _ a type id rc l1 b l2 kb); try done.
      unfold completed, chunk_at, view in *. by rewrite Hother.
  - destruct Hr as [Hmv Hno].
    destruct (moves_steps client [] _ _ _ _ _ _ Hmv ltac:(intros; by apply free_of_same)) as (S1 & Si1 & _).
    apply (steps_ext client _ _ _ _ _ _ _ Q (upd_same _ _)) in S1.
    assert (Hla : loose (w_chunks w1) Q a k).
    { split_and!; [|done|done]. unfold live. by rewrite (mv_free _ _ _ _ _ _ _ Hmv). }
    destruct (destroy_loose w1 cl1 Q a k (st_queues _ _ _ _ _ _ _ _ S1) Hla) as (w' & E' & S3 & Si3 & Hd & _).
    exists w', cl1, Q, [a]. split_and!; [exact E'| |by eapply silent_trans|apply Hmv|done|by apply ack_unexpected].
    exact (steps_trans client [] [a] _ _ _ _ _ _ _ _ _ S1 S3).
Qed.

(** ** Publications *)

Lemma land_8_dup b : Z.shiftr (Z.land b 8) 3 = Header.get_dup b.
Proof. unfold Header.get_dup. by rewrite Z.shiftr_land. Qed.

Lemma put_all d bs : zlen d = zlen bs -> put d 0 bs = bs.
Proof.
  intros E. unfold zlen in E. unfold put. rewrite take_0, drop_ge by lia. by rewrite app_nil_r.
Qed.

Lemma serialize_ack w p k d t id :
  live (w_chunks w) p = Some k -> chunk_data k = Some d -> zlen d = MQTT_ACK_PACKET_SIZE ->
  0 <= t < 16 -> 0 <= id < 65536 ->
  serialize p (MQTTSerialize_ack MQTT_ACK_PACKET_SIZE t 0 id) w
  = Ret (tt, with_chunks (<[p := Some (set_chunk_data (Some (wire_ack t 0 id)) k)]> (w_chunks w)) w).
Proof.
  intros Hp Hd Hlen Ht Hid. unfold serialize. run. rewrite Hd. cbn [need]. run.
  pose proof (MQTTSerialize_ack_correct t 0 id MQTT_ACK_PACKET_SIZE d 0 Ht ltac:(lia) Hid ltac:(lia)) as E.
  change (MQTT_ACK_PACKET_SIZE <? MQTT_ACK_PACKET_SIZE) with false in E. cbv iota in E.
  rewrite put_all in E by (by rewrite Hlen).
  rewrite (bind_ret _ _ _ _ _ (on_data_ret _ _ _ _ _ E)). by erewrite run_update by exact Hp.
Qed.

Lemma to_ushort_range z : 0 <= to_ushort z < 65536.
Proof. apply Z.mod_pos_bound. lia. Qed.

(** The acknowledgement of type [t] for the packet [k]. *)
Definition ack_chunk (t : Z) (id : Z) : chunk :=
  Chunk t id 0 (Some (wire_ack t 0 (to_ushort id))) MQTT_ACK_PACKET_SIZE PACKET_CHUNK_WRITE_PENDING None 0 0 0 None.

(** The type of the acknowledgement of a publication of quality [q]. *)
Definition publish_ack_type (q : Z) : Z := if q =? 1 then PUBACK else PUBREC.

Lemma push_publish_ack_spec `{!PlatformLaws P} w cl Q a k :
  queues client (w_chunks w) (w_clients w) cl Q -> loose (w_chunks w) Q a k -> 1 <= qos k <= 2 ->
  let p := fresh_addr (w_chunks w) in
  exists ok w' cl' Q', push_publish_ack (Some client) a w = Ret (ok, w') /\
    steps client [a; p] w w' cl cl' Q Q' /\ silent w w' /\ fields cl' = fields cl /\
    if ok : bool
    then Q' = enqueue WritePending p Q /\ chunk_at (w_chunks w') p (ack_chunk (publish_ack_type (qos k)) (packet_id k)) /\
         loose (w_chunks w') Q' a k
    else Q' = Q /\ live (w_chunks w') a = None /\ chunk_denied MQTT_ACK_PACKET_SIZE (w_env w).
Proof.
  intros Hq Hl Hqos p. pose proof Hl as (Ha & Hn & Hf). unfold push_publish_ack. run.
  replace (qos k =? 0) with false by (symmetry; apply Z.eqb_neq; lia). cbv iota.
  destruct (create_steps client w cl Q MQTT_ACK_PACKET_SIZE Hq ltac:(done)) as (r & w1 & E1 & S1 & Si1 & Hr).
  rewrite (bind_ret _ _ _ _ _ E1). fold p in S1.
  assert (Hpa : p <> a) by (intros <-; pose proof (live_fresh (w_chunks w)); unfold p in Ha; congruence).
  assert (Hla1 : loose (w_chunks w1) Q a k).
  { split_and!; [|done|done]. unfold live. rewrite (proj1 (st_free _ _ _ _ _ _ _ _ S1 a ltac:(rewrite list_elem_of_singleton; congruence) Hf)). exact Ha. }
  destruct r as [p'|].
  - destruct Hr as (-> & d & Hlp & Hd). fold p in Hlp |- *. pose proof Hlp as (Hp & Hpn & Hpf).
    destruct Hd as [Hd _]. destruct d as [d|]; [|done]. destruct Hd as [Hdl _].
    set (kp := ack_chunk (publish_ack_type (qos k)) (packet_id k)).
    destruct (write_steps client w1 cl Q p _ kp (w_env w1) (st_queues _ _ _ _ _ _ _ _ S1) Hlp eq_refl) as (S2 & Si2 & Hlp2).
    set (w2 := with_env _ _) in *.
    destruct (push_steps client w2 cl Q WritePending p kp (st_queues _ _ _ _ _ _ _ _ S2) Hlp2)
      as (w3 & cl3 & E3 & S3 & Si3 & _ & Hf3 & Hc3).
    exists true, w3, cl3, (enqueue WritePending p Q). split_and!; [| | | | | |].
    + assert (E3' : forall wp, wp = w2 -> (_iot_mqtt_queue_push (Some client) WritePending p;; mret true) wp = Ret (true, w3))
        by (intros wp ->; by rewrite (bind_ret _ _ _ _ _ E3)).
      run. destruct (Z.eqb_spec (qos k) 1) as [E|E].
      * run. rewrite insert_insert_eq.
        erewrite bind_ret by (eapply serialize_ack; [live_lookup|done|done|done|apply to_ushort_range]).
        world_simpl. rewrite insert_insert_eq. run. rewrite insert_insert_eq. apply E3'.
        unfold w2, kp, publish_ack_type. by rewrite E.
      * replace (qos k =? 2) with true by (symmetry; apply Z.eqb_eq; lia). run. rewrite insert_insert_eq.
        erewrite bind_ret by (eapply serialize_ack; [live_lookup|done|done|done|apply to_ushort_range]).
        world_simpl. rewrite insert_insert_eq. run. rewrite insert_insert_eq. apply E3'.
        unfold w2, kp, publish_ack_type. by rewrite (proj2 (Z.eqb_neq _ _) E).
    + eapply steps_weaken; [|exact (steps_trans client _ [p] _ _ _ _ _ _ _ _ _
        (steps_trans client [p] [p] _ _ _ _ _ _ _ _ _ S1 S2) S3)]. set_solver.
    + eapply silent_trans; [|exact Si3]. by eapply silent_trans.
    + done.
    + done.
    + done.
    + assert (Hf3' : free_of (enqueue WritePending p Q) a) by (apply free_of_enqueue; [congruence|done]).
      split_and!; [|done|done]. unfold live.
      rewrite (proj1 (st_free _ _ _ _ _ _ _ _ S3 a ltac:(rewrite list_elem_of_singleton; congruence) Hf)).
      rewrite (proj1 (st_free _ _ _ _ _ _ _ _ S2 a ltac:(rewrite list_elem_of_singleton; congruence) Hf)).
      apply Hla1.
  - destruct (destroy_steps client w1 cl Q a k (st_queues _ _ _ _ _ _ _ _ S1) Hla1) as (w' & E' & S' & Si' & Hd).
    exists false, w', cl, Q. split_and!; [by rewrite (bind_ret _ _ _ _ _ E')| |by eapply silent_trans|done|done|done|done].
    eapply steps_weaken; [|exact (steps_trans client [p] [a] _ _ _ _ _ _ _ _ _ S1 S')]. set_solver.
Qed.

(** What a PUBLISH packet [k] at [a] does in the environment [e]: [p] is the
    address of its acknowledgement.  The packet is dropped where the memory for
    the acknowledgement is denied, and nowhere else. *)
Definition publish_outcome (e : env) (w' : world) (Q Q' : queue_name -> list nat) (p a : nat) (k : chunk) (b0 : Z) : Prop :=
  let acked (Q1 : queue_name -> list nat) :=
    if qos k =? 0 then Q1 = Q
    else Q1 = enqueue WritePending p Q /\
         chunk_at (w_chunks w') p (ack_chunk (publish_ack_type (qos k)) (packet_id k)) in
  (qos k <> 0 /\ chunk_denied MQTT_ACK_PACKET_SIZE e /\ Q' = Q /\ live (w_chunks w') a = None) \/
  exists Q1, acked Q1 /\
    if Header.get_dup b0 =? 0
    then Q' = enqueue UserEvent a Q1 /\ chunk_at (w_chunks w') a k
    else Q' = Q1 /\ live (w_chunks w') a = None.

Lemma received_publish_spec `{!PlatformLaws P} w cl Q a k b0 d :
  queues client (w_chunks w) (w_clients w) cl Q -> loose (w_chunks w) Q a k -> 0 <= qos k <= 2 ->
  chunk_data k = Some (b0 :: d) ->
  let p := fresh_addr (w_chunks w) in
  exists w' cl' Q', _iot_mqtt_process_received_publish (Some client) a w = Ret (tt, w') /\
    steps client [a; p] w w' cl cl' Q Q' /\ silent w w' /\ fields cl' = fields cl /\
    publish_outcome (w_env w) w' Q Q' p a k b0.
Proof.
  intros Hq Hl Hqos Hd p. unfold _iot_mqtt_process_received_publish, publish_outcome.
  assert (Hpa : p <> a) by (destruct Hl as (Ha & _); intros <-; pose proof (live_fresh (w_chunks w)); unfold p in Ha; congruence).
  assert (Hfin : forall w1 cl1 Q1, steps client [a; p] w w1 cl cl1 Q Q1 -> silent w w1 -> fields cl1 = fields cl ->
    loose (w_chunks w1) Q1 a k ->
    exists w' cl' Q', (k ← get (Some a);
      d ← need (chunk_data k);
      b0 ← need (hd_error d);
      if negb (Z.shiftr (Z.land b0 8) 3 =? 0) then _iot_mqtt_chunk_destroy (Some a)
      else _iot_mqtt_queue_push (Some client) UserEvent a;; mret tt) w1 = Ret (tt, w') /\
    steps client [a; p] w w' cl cl' Q Q' /\ silent w w' /\ fields cl' = fields cl /\
    (if Header.get_dup b0 =? 0
     then Q' = enqueue UserEvent a Q1 /\ chunk_at (w_chunks w') a k
     else Q' = Q1 /\ live (w_chunks w') a = None) /\
    view (w_chunks w') p = view (w_chunks w1) p).
  { intros w1 cl1 Q1 S1 Si1 Hf1 Hl1. pose proof Hl1 as (Ha1 & _). pose proof (st_queues _ _ _ _ _ _ _ _ S1) as Hq1.
    run. rewrite Hd. cbn [need]. run. change (list.head (b0 :: d)) with (Some b0). cbn [need]. run.
    rewrite land_8_dup.
    destruct (Header.get_dup b0 =? 0); cbn [negb].
    - destruct (push_steps client w1 cl1 Q1 UserEvent a k Hq1 Hl1) as (w' & cl' & E & S2 & Si2 & _ & Hf2 & Hc2).
      exists w', cl', (enqueue UserEvent a Q1). rewrite (bind_ret _ _ _ _ _ E). split_and!; try done.
      + eapply steps_weaken; [|exact (steps_trans client _ [a] _ _ _ _ _ _ _ _ _ S1 S2)]. set_solver.
      + by eapply silent_trans.
      + by rewrite Hf2.
      + apply (steps_view _ _ _ _ _ _ _ _ p S2). by rewrite list_elem_of_singleton.
    - destruct (destroy_steps client w1 cl1 Q1 a k Hq1 Hl1) as (w' & E & S2 & Si2 & Hd2).
      exists w', cl1, Q1. split_and!; try done.
      + eapply steps_weaken; [|exact (steps_trans client _ [a] _ _ _ _ _ _ _ _ _ S1 S2)]. set_solver.
      + by eapply silent_trans.
      + apply (steps_view _ _ _ _ _ _ _ _ p S2). by rewrite list_elem_of_singleton. }
  destruct (Z.eqb_spec (qos k) 0) as [E0|E0].
  - assert (E : push_publish_ack (Some client) a w = Ret (true, w)).
    { destruct Hl as (Ha & _). unfold push_publish_ack. run. by rewrite (proj2 (Z.eqb_eq _ _) E0). }
    rewrite (bind_ret _ _ _ _ _ E). cbn [negb].
    assert (S0 : steps client [a; p] w w cl cl Q Q) by (by split).
    destruct (Hfin w cl Q S0 ltac:(done) eq_refl Hl) as (w' & cl' & Q' & E' & S' & Si' & Hf' & Hc & _).
    exists w', cl', Q'. split_and!; try done. right. by exists Q.
  - destruct (push_publish_ack_spec w cl Q a k Hq Hl ltac:(lia)) as (ok & w1 & cl1 & Q1 & E & S1 & Si1 & Hf1 & Hok).
    rewrite (bind_ret _ _ _ _ _ E). fold p in S1, Hok. destruct ok; cbn [negb].
    + destruct Hok as (HQ1 & Hp & Hl1).
      destruct (Hfin w1 cl1 Q1 S1 Si1 Hf1 Hl1) as (w' & cl' & Q' & E' & S' & Si' & Hf' & Hc & Hv).
      exists w', cl', Q'. split_and!; try done. right. exists Q1. split; [|done]. split; [done|].
      unfold chunk_at. by rewrite Hv.
    + destruct Hok as (-> & Hd' & Hden). exists w1, cl1, Q. split_and!; try done. by left.
Qed.


(** ** The other half of quality of service 2 *)

(** The packet that takes the place of [k]: of type [t]. *)
Definition follow_up (t : Z) (k : chunk) : chunk :=
  set_chunk_state PACKET_CHUNK_WRITE_PENDING
    (set_chunk_data (Some (wire_ack t 0 (to_ushort (packet_id k))))
       (set_packet_type t (set_chunk_size MQTT_ACK_PACKET_SIZE k))).

(** What PUBREC and PUBREL answer, and by what they are answered. *)
Definition answered_type (t : Z) : Z := if t =? PUBREC then PUBLISH else PUBREC.
Definition answer_type (t : Z) : Z := if t =? PUBREC then PUBREL else PUBCOMP.

Inductive handshake_outcome (w w' : world) (Q Q' : queue_name -> list nat) (t : list nat) (a : nat) (k : chunk) : Prop :=
| handshake_unexpected :
    none_of (w_chunks w) (answered_type (packet_type k)) (packet_id k) (Q AckPending) -> t = [a] -> Q' = Q ->
    handshake_outcome w w' Q Q' t a k
| handshake_continues l1 b l2 kb :
    first_of (w_chunks w) (answered_type (packet_type k)) (packet_id k) (Q AckPending) l1 b l2 kb ->
    t = [a; b] -> Q' = enqueue WritePending b (upd AckPending (l1 ++ l2) Q) ->
    chunk_at (w_chunks w') b (follow_up (answer_type (packet_type k)) kb) ->
    handshake_outcome w w' Q Q' t a k
| handshake_out_of_memory l1 b l2 kb :
    first_of (w_chunks w) (answered_type (packet_type k)) (packet_id k) (Q AckPending) l1 b l2 kb ->
    t = [a; b] -> Q' = upd AckPending (l1 ++ l2) Q -> live (w_chunks w') b = None ->
    handshake_outcome w w' Q Q' t a k.

Lemma continue_handshake_spec `{!PlatformLaws P} w cl Q b kb t :
  queues client (w_chunks w) (w_clients w) cl Q -> loose (w_chunks w) Q b kb ->
  packet_type kb = answered_type t -> t = PUBREC \/ t = PUBREL ->
  exists w' cl' Q', continue_handshake (Some client) b w = Ret (tt, w') /\
    steps client [b] w w' cl cl' Q Q' /\ silent w w' /\ fields cl' = fields cl /\
    (Q' = enqueue WritePending b Q /\ chunk_at (w_chunks w') b (follow_up (answer_type t) kb) \/
     Q' = Q /\ live (w_chunks w') b = None).
Proof.
  intros Hq Hl Ht Htt. pose proof Hl as (Hb & Hn & Hf). unfold continue_handshake. run. rewrite !insert_insert_eq.
  destruct (os_malloc MQTT_ACK_PACKET_SIZE (w_env w)) as [[d|] e] eqn:Em; cbn [fst snd].
  - destruct (os_malloc_size _ _ _ _ Em ltac:(done)) as [Hd _].
    destruct (write_steps client w cl Q b kb (follow_up (answer_type t) kb) e Hq Hl Hn) as (S1 & Si1 & Hl1).
    destruct (push_steps client _ cl Q WritePending b _ (st_queues _ _ _ _ _ _ _ _ S1) Hl1)
      as (w' & cl' & E & S2 & Si2 & _ & Hf2 & Hc2).
    exists w', cl', (enqueue WritePending b Q). split_and!; [| |by eapply silent_trans|done|by left].
    + run. cbn [packet_type packet_id set_chunk_data set_chunk_size].
      assert (E' : forall wp, wp = with_env e (with_chunks (<[b:=Some (follow_up (answer_type t) kb)]> (w_chunks w)) w) ->
        (_iot_mqtt_queue_push (Some client) WritePending b;; mret tt) wp = Ret (tt, w'))
        by (intros wp ->; by rewrite (bind_ret _ _ _ _ _ E)).
      rewrite Ht. destruct Htt as [-> | ->]; cbn; run; rewrite ?insert_insert_eq.
      all: erewrite bind_ret by (eapply serialize_ack; [live_lookup|done|done|done|apply to_ushort_range]).
      all: world_simpl; rewrite insert_insert_eq; run; rewrite insert_insert_eq; by apply E'.
    + eapply steps_weaken; [|exact (steps_trans client [b] [b] _ _ _ _ _ _ _ _ _ S1 S2)]. set_solver.
  - destruct (write_steps client w cl Q b kb (set_chunk_data None (set_chunk_size MQTT_ACK_PACKET_SIZE (set_chunk_data None kb))) e Hq Hl Hn)
      as (S1 & Si1 & Hl1).
    destruct (destroy_steps client _ cl Q b _ (st_queues _ _ _ _ _ _ _ _ S1) Hl1) as (w' & E & S2 & Si2 & Hd).
    exists w', cl, Q. split_and!; [exact E| |by eapply silent_trans|done|by right].
    eapply steps_weaken; [|exact (steps_trans client [b] [b] _ _ _ _ _ _ _ _ _ S1 S2)]. set_solver.
Qed.

Lemma received_pubrec_pubrel_spec `{!PlatformLaws P} w cl Q a k :
  queues client (w_chunks w) (w_clients w) cl Q -> loose (w_chunks w) Q a k ->
  packet_type k = PUBREC \/ packet_type k = PUBREL ->
  exists w' cl' Q' t, _iot_mqtt_process_received_pubrec_pubrel (Some client) a w = Ret (tt, w') /\
    steps client t w w' cl cl' Q Q' /\ silent w w' /\ fields cl' = fields cl /\
    live (w_chunks w') a = None /\ handshake_outcome w w' Q Q' t a k.
Proof.
  intros Hq Hl Htt. pose proof Hl as (Ha & Hn & Hf). unfold _iot_mqtt_process_received_pubrec_pubrel. run.
  assert (Hb : (packet_type k =? PUBREC) || (packet_type k =? PUBREL) = true)
    by (destruct Htt as [-> | ->]; done).
  rewrite Hb. change (if packet_type k =? PUBREC then PUBLISH else PUBREC) with (answered_type (packet_type k)).
  destruct (pop_by_type_and_id_takes client w cl Q AckPending (answered_type (packet_type k)) (packet_id k) Hq)
    as (r & w1 & cl1 & E & Hr).
  rewrite (bind_ret _ _ _ _ _ E). destruct r as [b|].
  - destruct Hr as (l1 & l2 & kb & El & [Hmv Hkb Hlb] & Ht & Hi & Hl1).
    destruct (moves_steps client [b] _ _ _ _ _ _ Hmv) as (S1 & Si1 & _); [intros x _; by eapply free_of_removed|].
    assert (Hab : a <> b) by (intros ->; apply (Hf AckPending); rewrite El; apply elem_of_app; right; left).
    assert (Hla : loose (w_chunks w1) (upd AckPending (l1 ++ l2) Q) a k).
    { split_and!; [|done|by eapply free_of_removed]. unfold live. by rewrite (mv_free _ _ _ _ _ _ _ Hmv). }
    destruct (destroy_loose w1 cl1 _ a k (mv_queues _ _ _ _ _ _ _ Hmv) Hla) as (w2 & E2 & S2 & Si2 & Hd2 & Hother).
    rewrite (bind_ret _ _ _ _ _ E2). 
    assert (Hlb2 : loose (w_chunks w2) (upd AckPending (l1 ++ l2) Q) b kb).
    { destruct Hlb as (? & ? & ?). split_and!; [by rewrite Hother|done|done]. }
    destruct (continue_handshake_spec w2 cl1 _ b kb (packet_type k) (st_queues _ _ _ _ _ _ _ _ S2) Hlb2 Ht Htt)
      as (w' & cl' & Q' & E' & S3 & Si3 & Hf3 & Hcase).
    assert (Hfo : first_of (w_chunks w) (answered_type (packet_type k)) (packet_id k) (Q AckPending) l1 b l2 kb) by done.
    exists w', cl', Q', [a; b]. split_and!; [exact E'| | | | |].
    + eapply steps_weaken; [|exact (steps_trans client _ [b] _ _ _ _ _ _ _ _ _
        (steps_trans client [b] [a] _ _ _ _ _ _ _ _ _ S1 S2) S3)]. set_solver.
    + eapply silent_trans; [|exact Si3]. by eapply silent_trans.
    + rewrite Hf3. apply Hmv.
    + assert (Hfree2 : free_of (upd AckPending (l1 ++ l2) Q) a) by (by eapply free_of_removed).
      unfold live. rewrite (proj1 (st_free _ _ _ _ _ _ _ _ S3 a ltac:(by rewrite list_elem_of_singleton) Hfree2)). exact Hd2.
    + destruct Hcase as [[-> Hc]|[-> Hc]]; [by eapply handshake_continues|by eapply handshake_out_of_memory].
  - destruct Hr as [Hmv Hno].
    destruct (moves_steps client [] _ _ _ _ _ _ Hmv ltac:(intros; by apply free_of_same)) as (S1 & Si1 & _).
    apply (steps_ext client _ _ _ _ _ _ _ Q (upd_same _ _)) in S1.
    assert (Hla : loose (w_chunks w1) Q a k).
    { split_and!; [|done|done]. unfold live. by rewrite (mv_free _ _ _ _ _ _ _ Hmv). }
    destruct (destroy_loose w1 cl1 Q a k (st_queues _ _ _ _ _ _ _ _ S1) Hla) as (w' & E' & S3 & Si3 & Hd & _).
    exists w', cl1, Q, [a]. rewrite (bind_ret _ _ _ _ _ E').
    split_and!; [done| |by eapply silent_trans|apply Hmv|done|by apply handshake_unexpected].
    exact (steps_trans client [] [a] _ _ _ _ _ _ _ _ _ S1 S3).
Qed.
End receive.
