(* ===== verification/ClientRead.v ===== *)
(** * Reading packets

    Theorems about [_iot_mqtt_run_read_stream] of [ClientCycle]: from the bytes
    that the network delivers to the packet that is handled. *)

From S2P Require Import Prelude Cursor MqttPacket MqttCodec MqttPublish MqttRead.
From S2P Require Import Platform Heap World ClientQueue ClientInv Sample ClientRun ClientNet ClientWrite ClientReceive ClientCycle.

Section read.
Context `{P : Platform} `{CharModel} `{EvalOrder} (net_fuel client : nat).

(** The world after [bs] was received. *)
Definition recv_world (e : env) (bs : list Z) (w : world) : world :=
  with_env e (with_received (w_received w ++ bs) w).

Lemma recv_steps w cl Q e bs :
  queues client (w_chunks w) (w_clients w) cl Q -> steps client [] w (recv_world e bs w) cl cl Q Q.
Proof. intros Hq. by split. Qed.

(** The environments that reading from the network leads to. *)
Inductive reads (e : env) : env -> Prop :=
| reads_nothing : reads e e
| reads_poll c t e' : reads e e' -> reads e (net_read_poll c t e').2
| reads_some c n e' : reads e e' -> reads e (net_read c n e').2.

Lemma reads_trans e1 e2 e3 : reads e1 e2 -> reads e2 e3 -> reads e1 e3.
Proof. intros H1 H2. induction H2; by try constructor. Qed.

Lemma read_net_loop_spec `{!Incoming P} fuel : forall w c len got bs rest,
  incoming (w_env w) = bs ++ rest -> zlen bs = len - zlen got -> 0 < zlen bs <= Z.of_nat fuel ->
  exists e, read_net_loop fuel (Some c) len got w = Ret ((len, got ++ bs), recv_world e bs w) /\ incoming e = rest /\
    reads (w_env w) e.
Proof.
  induction fuel as [|fuel IH]; intros w c len got bs rest Hin Hlen Hf; [lia|].
  assert (Hne : incoming (w_env w) <> []).
  { rewrite Hin. destruct bs; [unfold zlen in Hf; simpl in Hf; lia|done]. }
  destruct (incoming_read c (len - zlen got) (w_env w) ltac:(lia) Hne) as (bs1 & e & E & Hbs1 & Hle & Hin').
  assert (Hrd : reads (w_env w) e).
  { pose proof (reads_some _ c (len - zlen got) _ (reads_nothing (w_env w))) as Hrd. by rewrite E in Hrd. }
  set (w1 := recv_world e bs1 w).
  assert (E1 : read_net_loop (S fuel) (Some c) len got w
    = (if zlen (got ++ bs1) <? len then read_net_loop fuel (Some c) len (got ++ bs1)
       else mret (zlen (got ++ bs1), got ++ bs1)) w1).
  { cbn [read_net_loop]. unfold port_net_read, sys, modify, mbind, st_bind. rewrite E. cbn.
    rewrite (proj2 (Z.leb_le 0 (zlen bs1))) by apply zlen_nonneg. reflexivity. }
  rewrite E1. rewrite Hin in Hin'.
  assert (Hpre : exists bs2, bs = bs1 ++ bs2 /\ incoming e = bs2 ++ rest).
  { assert (Hl : (length bs1 <= length bs)%nat) by (unfold zlen in *; lia).
    exists (drop (length bs1) bs).
    assert (E2 : bs1 = take (length bs1) bs).
    { apply (f_equal (take (length bs1))) in Hin'. rewrite take_app_length, take_app_le in Hin' by done. done. }
    split; [by rewrite E2 at 1; rewrite take_drop|].
    apply (f_equal (drop (length bs1))) in Hin'. by rewrite drop_app_length, drop_app_le in Hin' by done. }
  destruct Hpre as (bs2 & -> & Hin2). rewrite zlen_app in Hlen, Hf.
  assert (Hpos : 0 < zlen bs1) by (destruct bs1; [done|rewrite zlen_cons; pose proof (zlen_nonneg bs1); lia]).
  pose proof (zlen_nonneg bs2). destruct (Z.ltb_spec (zlen (got ++ bs1)) len) as [Hlt|Hge]; rewrite zlen_app in *.
  - destruct (IH w1 c len (got ++ bs1) bs2 rest) as (e' & E' & Hr & Hrd'); [done|rewrite zlen_app; lia|lia|].
    exists e'. split; [|split; [done|by eapply reads_trans]]. rewrite E'. unfold w1, recv_world. cbn. by rewrite <- !app_assoc.
  - assert (bs2 = []) as -> by (destruct bs2; [done|rewrite zlen_cons in *; pose proof (zlen_nonneg bs2); lia]).
    exists e. rewrite app_nil_r. split; [|by rewrite Hin2]. change (zlen []) with 0 in Hlen.
    unfold mret, st_ret. do 3 f_equal. lia.
Qed.

Lemma read_net_spec `{!Incoming P} w c bs rest :
  incoming (w_env w) = bs ++ rest -> zlen bs <= Z.of_nat net_fuel ->
  exists e, _iot_mqtt_read_net net_fuel (Some c) (zlen bs) w = Ret ((zlen bs, bs), recv_world e bs w) /\ incoming e = rest /\
    reads (w_env w) e.
Proof.
  intros Hin Hf. unfold _iot_mqtt_read_net. destruct (Z.eqb_spec (zlen bs) 0) as [E|E].
  - destruct bs; [|unfold zlen in E; simpl in E; lia]. exists (w_env w). split; [|split; [done|constructor]].
    unfold recv_world. rewrite app_nil_r. by destruct w.
  - apply (read_net_loop_spec net_fuel w c (zlen bs) [] bs rest); [done|change (zlen []) with 0; lia|].
    pose proof (zlen_nonneg bs). lia.
Qed.

(** The remaining length, [k] more digits being allowed. *)
Lemma read_length_spec `{!Incoming P} k : forall fuel w cl c hdr n rest rem mult,
  live (w_clients w) client = Some cl -> net_ctx cl = Some c -> (0 < net_fuel)%nat ->
  0 <= n < 128 ^ Z.of_nat (S k) -> (k < fuel)%nat -> zlen hdr + Z.of_nat k <= 4 ->
  incoming (w_env w) = varint_digits k n ++ rest ->
  exists e, read_length net_fuel fuel (Some client) hdr rem mult w
    = Ret (Some (hdr ++ varint_digits k n, rem + n * mult), recv_world e (varint_digits k n) w) /\ incoming e = rest /\
    reads (w_env w) e.
Proof.
  induction k as [|k IH]; intros [|fuel] w cl c hdr n rest rem mult Hl Hc Hnf Hn Hf Hh Hin; try lia;
    cbn [varint_digits read_length] in *; unfold MAX_NUM_OF_REMAINING_LENGTH_BYTES;
    rewrite (proj2 (Z.leb_gt 4 (zlen hdr - 1))) by lia; run; rewrite Hc.
  - change (128 ^ Z.of_nat 1) with 128 in Hn.
    destruct (read_net_spec w c [n] rest Hin) as (e & E & Hr); [unfold zlen; simpl; lia|].
    change (zlen [n]) with 1 in E. exists e. split; [|done]. rewrite (bind_ret _ _ _ _ _ E). cbn [fst snd Z.leb Z.compare].
    change (list.head [n]) with (Some n). cbn [need]. rewrite bind_mret.
    by rewrite land_127, Z.mod_small, land_128, (proj2 (Z.ltb_lt n 128)) by lia.
  - rewrite Nat2Z.inj_succ, Z.pow_succ_r in Hn by lia.
    destruct (Z.ltb_spec n 128) as [Hn'|Hn'].
    + destruct (read_net_spec w c [n] rest Hin) as (e & E & Hr); [unfold zlen; simpl; lia|].
      change (zlen [n]) with 1 in E. exists e. split; [|done]. rewrite (bind_ret _ _ _ _ _ E). cbn [fst snd Z.leb Z.compare].
      change (list.head [n]) with (Some n). cbn [need]. rewrite bind_mret.
      by rewrite land_127, Z.mod_small, land_128, (proj2 (Z.ltb_lt n 128)) by lia.
    + set (b := n mod 128 + 128) in *. pose proof (Z.mod_pos_bound n 128 ltac:(lia)).
      destruct (read_net_spec w c [b] (varint_digits k (n / 128) ++ rest) Hin) as (e & E & Hr & Hrd); [unfold zlen; simpl; lia|].
      change (zlen [b]) with 1 in E. rewrite (bind_ret _ _ _ _ _ E). cbn [fst snd Z.leb Z.compare].
      change (list.head [b]) with (Some b). cbn [need]. rewrite bind_mret.
      rewrite land_127, land_128, (proj2 (Z.ltb_ge b 128)) by (unfold b; lia).
      cbn [negb].
      replace (b mod 128) with (n mod 128) by (unfold b; Z.to_euclidean_division_equations; lia).
      destruct (IH fuel (recv_world e [b] w) cl c (hdr ++ [b]) (n / 128) rest (rem + n mod 128 * mult) (mult * 128))
        as (e' & E' & Hr' & Hrd'); try done; [|lia|autorewrite with zlen; lia|].
      { split; [apply Z.div_pos; lia|apply Z.div_lt_upper_bound; lia]. }
      exists e'. split; [|split; [done|eapply reads_trans; [exact Hrd|exact Hrd']]]. cbv zeta. rewrite E'. unfold recv_world. cbn. rewrite <- !app_assoc. cbn [app].
      do 4 f_equal. rewrite (Z.div_mod n 128) at 3 by lia. ring.
Qed.

Lemma create_incoming `{!Incoming P} size w r w' :
  _iot_mqtt_chunk_create size w = Ret (r, w') ->
  incoming (w_env w') = incoming (w_env w) /\ w_received w' = w_received w.
Proof.
  unfold _iot_mqtt_chunk_create, os_new. rewrite bind_sys. pose proof (incoming_malloc_object (w_env w)) as E1.
  destruct (os_malloc_object (w_env w)) as [[] e1]; cbn [fst snd negb] in *; [|intros [= <- <-]; done].
  run. pose proof (incoming_malloc size e1) as E2. destruct (os_malloc size e1) as [d e2]; cbn [fst snd] in *.
  destruct (_ && _).
  - erewrite bind_release by live_lookup. intros [= <- <-]. split; [simpl; congruence|done].
  - run. intros [= <- <-]. split; [simpl; congruence|done].
Qed.

Lemma overwrite_put l off bs : 0 <= off -> off + zlen bs <= zlen l -> overwrite l off bs = Some (put l (Z.to_nat off) bs).
Proof. intros H1 H2. unfold overwrite. by rewrite (proj2 (Z.leb_le 0 off)), (proj2 (Z.leb_le _ (zlen l))) by lia. Qed.

Lemma read_body_spec `{!Incoming P} w cl c a k d off body rest :
  live (w_clients w) client = Some cl -> net_ctx cl = Some c -> live (w_chunks w) a = Some k ->
  chunk_data k = Some d -> zlen d = chunk_size k -> 0 <= off -> chunk_size k = off + zlen body ->
  incoming (w_env w) = body ++ rest -> zlen body <= Z.of_nat net_fuel -> (1 < net_fuel)%nat ->
  exists e, read_body net_fuel net_fuel (Some client) a off w
    = Ret (chunk_size k, with_chunks (<[a := Some (set_chunk_data (Some (put d (Z.to_nat off) body)) k)]> (w_chunks w))
             (recv_world e body w)) /\ incoming e = rest /\ reads (w_env w) e.
Proof.
  intros Hl Hc Ha Hd Hdl Hoff Hs Hin Hf Hnf. destruct net_fuel as [|[|fuel]] eqn:Ef; [lia|lia|]. rewrite <- Ef in *.
  destruct (Z.eqb_spec off (chunk_size k)) as [E|E].
  - assert (body = []) as -> by (destruct body; [done|rewrite zlen_cons in Hs; pose proof (zlen_nonneg body); lia]).
    exists (w_env w). split; [|split; [done|constructor]]. rewrite Ef at 2. cbn [read_body]. run. rewrite (proj2 (Z.eqb_eq _ _) E), E.
    rewrite put_nil. replace (set_chunk_data (Some d) k) with k by (rewrite <- Hd; by destruct k).
    unfold recv_world. rewrite app_nil_r. rewrite (live_insert_id _ _ _ Ha). by destruct w.
  - destruct (read_net_spec w c body rest Hin Hf) as (e & Er & Hr). exists e. split; [|done].
    rewrite Ef at 2. cbn [read_body]. run. rewrite (proj2 (Z.eqb_neq _ _) E). run. rewrite Hc.
    replace (chunk_size k - off) with (zlen body) by lia. rewrite (bind_ret _ _ _ _ _ Er). cbn [fst snd].
    rewrite Hd. cbn [mbind option_bind]. rewrite overwrite_put by lia. cbn [need]. run.
    rewrite (proj2 (Z.ltb_ge (zlen body) 0)) by apply zlen_nonneg. erewrite bind_get by live_lookup.
    cbn [chunk_size set_chunk_data]. rewrite (proj2 (Z.eqb_eq (off + zlen body) (chunk_size k))) by lia.
    by replace (off + zlen body) with (chunk_size k) by lia.
Qed.

(** The chunk of a packet that has been read. *)
Definition received_chunk (b0 : Z) (pkt : list Z) (id : Z) : chunk :=
  Chunk (Header.get_type b0) id (Header.get_qos b0) (Some pkt) (zlen pkt) PACKET_CHUNK_READ_COMPLETED None 0 0 0 None.

(** How [read_packet] ends when a packet is there: out of memory, or with the
    packet in the chunk at [a], about to be handled. *)
Definition packet_read `{!Incoming P} (w : world) (cl : MQTTClient) (Q : queue_name -> list nat)
    (b0 : Z) (body rest : list Z) (id : Z) : Prop :=
  let pkt := wire_packet b0 body in
  (exists w1 t e1, read_packet net_fuel (Some client) w = Ret ((E_ST_MQTT_BUFFER_OVERFLOW, None), w1) /\
     reads (w_env w) e1 /\ chunk_denied (zlen pkt) e1 /\
     steps client t w w1 cl cl Q Q /\ w_sent w1 = w_sent w /\ w_events w1 = w_events w /\
     (forall x, x ∈ t -> w_chunks w !! x = None) /\
     w_received w1 = w_received w ++ b0 :: varint (zlen body) /\ incoming (w_env w1) = body ++ rest) \/
  exists w1 a e1, reads (w_env w) e1 /\ ~ chunk_denied (zlen pkt) e1 /\ reads (chunk_env (zlen pkt) e1) (w_env w1) /\
    steps client [a] w w1 cl cl Q Q /\ w_sent w1 = w_sent w /\ w_events w1 = w_events w /\
    w_chunks w !! a = None /\
    loose (w_chunks w1) Q a (received_chunk b0 pkt id) /\
    w_received w1 = w_received w ++ pkt /\ incoming (w_env w1) = rest /\
    read_packet net_fuel (Some client) w = (_iot_mqtt_process_post_read (Some client) a;; mret (zlen pkt, None)) w1.

Lemma read_packet_spec `{!Incoming P} `{!PlatformLaws P} w cl Q c b0 body rest id cur :
  queues client (w_chunks w) (w_clients w) cl Q -> isconnected cl <> 0 -> net_ctx cl = Some c ->
  is_byte b0 -> zlen body <= max_remaining_length ->
  incoming (w_env w) = wire_packet b0 body ++ rest ->
  MQTTPacket_getPacketId (Cursor (wire_packet b0 body) 0) = Ret (id, cur) ->
  zlen (wire_packet b0 body) <= Z.of_nat net_fuel ->
  packet_read w cl Q b0 body rest id.
Proof.
  intros Hq Hcon Hc Hb0 Hmax Hin Hid Hf. set (pkt := wire_packet b0 body) in *.
  pose proof (zlen_nonneg body). pose proof (length_varint (zlen body)).
  assert (Hpkt : zlen pkt = 1 + zlen (varint (zlen body)) + zlen body) by apply zlen_wire_packet.
  assert (Hhdr : pkt = (b0 :: varint (zlen body)) ++ body) by done.
  assert (Hv : 1 <= zlen (varint (zlen body)) <= 4) by (unfold zlen in *; lia).
  unfold packet_read. fold pkt. pose proof (qs_live _ _ _ _ _ Hq) as Hl.
  assert (Hne : incoming (w_env w) <> []) by (by rewrite Hin).
  destruct (incoming_poll c 0 (w_env w) Hne) as [Hpoll Hin0].
  destruct (net_read_poll c 0 (w_env w)) as [rc e0] eqn:Ep. cbn [fst snd] in *.
  set (w0 := with_env e0 w).
  destruct (read_net_spec w0 c [b0] (varint (zlen body) ++ body ++ rest)) as (e1 & E1 & Hin1 & Hrd1).
  { change (w_env w0) with e0. rewrite Hin0, Hin. unfold pkt, wire_packet. simpl. by rewrite <- app_assoc. }
  { unfold zlen in *. simpl. lia. }
  change (zlen [b0]) with 1 in E1. set (w1 := recv_world e1 [b0] w0) in *.
  assert (Hl1 : live (w_clients w1) client = Some cl) by exact Hl.
  destruct (read_length_spec 3 5 w1 cl c [b0] (zlen body) (body ++ rest) 0 1) as (e2 & E2 & Hin2 & Hrd2); try done; try lia.
  { unfold max_remaining_length in Hmax. change (128 ^ Z.of_nat 4) with 268435456. lia. }
  fold (varint (zlen body)) in E2. set (w2 := recv_world e2 (varint (zlen body)) w1) in *.
  assert (Erp : read_packet net_fuel (Some client) w =
    (w_chunk ← _iot_mqtt_chunk_create (zlen (b0 :: varint (zlen body)) + zlen body);
     match w_chunk with
     | None => mret (E_ST_MQTT_BUFFER_OVERFLOW, None)
     | Some k =>
         ck ← get w_chunk;
         d ← need (chunk_data ck ≫= fun d => overwrite d 0 (b0 :: varint (zlen body)));
         update w_chunk (set_chunk_data (Some d));;
         read ← read_body net_fuel net_fuel (Some client) k (zlen (b0 :: varint (zlen body)));
         ck ← get w_chunk;
         if read =? chunk_size ck then
           d ← need (chunk_data ck);
           b0 ← need (hd_error d);
           update w_chunk (set_chunk_state PACKET_CHUNK_READ_COMPLETED);;
           update w_chunk (set_packet_type (Z.shiftr (Z.land b0 240) 4));;
           update w_chunk (set_qos (Z.shiftr (Z.land b0 6) 1));;
           '(id, _) ← on_data d MQTTPacket_getPacketId;
           update w_chunk (set_packet_id id);;
           _iot_mqtt_process_post_read (Some client) k;;
           mret (read, None)
         else mret (E_ST_MQTT_NETWORK_ERROR, w_chunk)
     end) w2).
  { unfold read_packet. run. rewrite (proj2 (Z.eqb_neq _ _) Hcon). unfold port_net_read_poll. rewrite Hc, bind_sys, Ep.
    cbn [fst snd]. rewrite (proj2 (Z.ltb_ge rc 0)), (proj2 (Z.eqb_neq rc 0)) by lia.
    erewrite bind_get by exact Hl. rewrite Hc, (bind_ret _ _ _ _ _ E1). cbn [fst snd Z.leb Z.compare].
    change (list.head [b0]) with (Some b0). cbn [need]. rewrite bind_mret, (bind_ret _ _ _ _ _ E2).
    replace (0 + zlen body * 1) with (zlen body) by lia. reflexivity. }
  rewrite Erp. clear Erp.
  assert (Hq2 : queues client (w_chunks w2) (w_clients w2) cl Q) by exact Hq.
  assert (S2 : steps client [] w w2 cl cl Q Q) by (by split).
  set (hdr := b0 :: varint (zlen body)) in *.
  assert (Hhl : zlen hdr = 1 + zlen (varint (zlen body))) by (unfold hdr; by rewrite zlen_cons).
  destruct (create_steps client w2 cl Q (zlen hdr + zlen body) Hq2 ltac:(lia)) as (r & w3 & E3 & S3 & (Ev3 & Es3 & Er3) & Hr3).
  destruct (create_incoming _ _ _ _ E3) as [Hin3 _]. rewrite (bind_ret _ _ _ _ _ E3).
  assert (Hrec2 : w_received w2 = w_received w ++ hdr) by (unfold w2, w1, w0, recv_world, hdr; cbn; by rewrite <- app_assoc).
  assert (Hrd : reads (w_env w) e2).
  { eapply reads_trans; [|exact Hrd2]. eapply reads_trans; [|exact Hrd1].
    pose proof (reads_poll _ c 0 _ (reads_nothing (w_env w))) as Hrd0. by rewrite Ep in Hrd0. }
  assert (Hsz : zlen hdr + zlen body = zlen pkt) by (rewrite Hpkt; lia).
  destruct r as [a|]; [right|left].
  2: { eexists w3, _, e2. split; [reflexivity|]. split; [exact Hrd|]. split; [by rewrite <- Hsz|]. split_and!; [exact (steps_trans client [] _ _ _ _ _ _ _ _ _ _ S2 S3)|done|done| | |].
       - intros x. rewrite app_nil_l, list_elem_of_singleton. intros ->. apply fresh_addr_new.
       - by rewrite Er3.
       - by rewrite Hin3. }
  destruct Hr3 as (-> & d & Hlo & Hd & He3 & Hgot). set (a := fresh_addr (w_chunks w2)) in *. pose proof Hlo as (Hlive & _ & Hfree).
  destruct d as [d|]; [|exfalso; unfold hdr in Hd; rewrite zlen_cons in Hd; lia]. destruct Hd as [Hdl _].
  set (k0 := new_chunk (zlen hdr + zlen body) (Some d)) in *.
  pose proof (zlen_nonneg hdr). set (d1 := put d (Z.to_nat 0) hdr) in *.
  assert (Hd1 : zlen d1 = zlen hdr + zlen body).
  { unfold d1, zlen in *. rewrite length_put; lia. }
  set (k1 := set_chunk_data (Some d1) k0).
  destruct (read_body_spec (with_chunks (<[a := Some k1]> (w_chunks w3)) w3) cl c a k1 d1 (zlen hdr) body rest)
    as (e4 & E4 & Hin4 & Hrd4); try done.
  { apply (st_queues _ _ _ _ _ _ _ _ S3). }
  { world_simpl. by rewrite live_insert, decide_True. }
  { change (incoming (w_env w3) = body ++ rest). by rewrite Hin3. }
  { rewrite Hpkt in Hf. lia. }
  { rewrite Hpkt in Hf. lia. }
  assert (Hall : put d1 (Z.to_nat (zlen hdr)) body = pkt).
  { unfold d1. rewrite Hhdr. replace (Z.to_nat (zlen hdr)) with (Z.to_nat 0 + length hdr)%nat by (unfold zlen; lia).
    rewrite put_put by (unfold zlen in *; lia). apply put_all. rewrite zlen_app. lia. }
  rewrite Hall in E4. world_simpl.
  set (k4 := received_chunk b0 pkt id).
  destruct (write_steps client w3 cl Q a k0 k4 e4 (st_queues _ _ _ _ _ _ _ _ S3) Hlo eq_refl) as (S4 & (Ev4 & Es4 & _) & Hlo4).
  exists (with_chunks (<[a := Some k4]> (w_chunks w3)) (recv_world e4 body w3)), a, e2. split_and!.
  - exact Hrd.
  - by rewrite <- Hsz.
  - rewrite <- Hsz. change e2 with (w_env w2). rewrite <- He3. exact Hrd4.
  - assert (S5 : steps client [a] w3 (with_chunks (<[a := Some k4]> (w_chunks w3)) (recv_world e4 body w3)) cl cl Q Q).
    { by destruct S4. }
    eapply steps_weaken; [|exact (steps_trans client [] _ _ _ _ _ _ _ _ _ _ S2
      (steps_trans client [a] [a] _ _ _ _ _ _ _ _ _ S3 S5))]. set_solver.
  - done.
  - done.
  - apply fresh_addr_new.
  - exact Hlo4.
  - simpl. rewrite Er3, Hrec2, Hhdr. by rewrite app_assoc.
  - done.
  - run. change (chunk_data k0) with (Some d). cbn [mbind option_bind].
    rewrite overwrite_put by lia. cbn [need]. run. rewrite (bind_ret _ _ _ _ _ E4). run.
    change (chunk_size (set_chunk_data (Some pkt) k1)) with (zlen hdr + zlen body).
    change (chunk_size k1) with (zlen hdr + zlen body). rewrite Z.eqb_refl.
    change (chunk_data (set_chunk_data (Some pkt) k1)) with (Some pkt). cbn [need]. run.
    change (list.head pkt) with (Some b0). cbn [need]. run.
    rewrite (bind_ret _ _ _ _ _ (on_data_ret _ _ _ _ _ Hid)). run.
    rewrite !insert_insert_eq, land_240_type, land_6_qos by done.
    rewrite Hsz.
    replace k4 with (set_packet_id id (set_qos (Header.get_qos b0) (set_packet_type (Header.get_type b0)
      (set_chunk_state PACKET_CHUNK_READ_COMPLETED (set_chunk_data (Some pkt) k1))))); [done|].
    unfold k4, received_chunk, k1, k0, new_chunk. cbn. by rewrite Hsz.
Qed.

(** ** The dispatch on the type *)

(** The handlers look at no more of the state before them than at the chunks
    that wait for an acknowledgement. *)
Definition same_waiting (w w1 : world) (Q : queue_name -> list nat) : Prop :=
  forall x kx, x ∈ Q AckPending -> chunk_at (w_chunks w) x kx <-> chunk_at (w_chunks w1) x kx.

Lemma first_of_same w w1 Q type id l1 b l2 kb :
  same_waiting w w1 Q -> first_of (w_chunks w1) type id (Q AckPending) l1 b l2 kb ->
  first_of (w_chunks w) type id (Q AckPending) l1 b l2 kb.
Proof.
  intros Hs [A B C D E]. assert (Hin : forall x, x ∈ l1 ++ [b] -> x ∈ Q AckPending).
  { rewrite A. set_solver. }
  split; try done.
  - apply Hs; [|done]. apply Hin, elem_of_app. right. left.
  - intros x kx Hx Hk. apply (E x kx Hx). apply Hs; [|done]. apply Hin, elem_of_app. by left.
Qed.

Lemma none_of_same w w1 Q type id :
  same_waiting w w1 Q -> none_of (w_chunks w1) type id (Q AckPending) -> none_of (w_chunks w) type id (Q AckPending).
Proof. intros Hs Hn x kx Hx Hk. apply (Hn x kx Hx), Hs; done. Qed.

(** What the packet [k] at [a], the first byte of which is [b0], does; [e] is
    the environment in which it is handled. *)
Inductive handled (e : env) (w w' : world) (Q Q' : queue_name -> list nat) (t : list nat) (a p : nat) (k : chunk) (b0 : Z) : Prop :=
| handled_ack type id rc :
    acknowledged_packet k = Some (type, id) -> ack_result k rc -> live (w_chunks w') a = None ->
    ack_outcome w w' Q Q' t a type id rc -> handled e w w' Q Q' t a p k b0
| handled_publish :
    packet_type k = PUBLISH -> t = [a; p] -> publish_outcome e w' Q Q' p a k b0 ->
    handled e w w' Q Q' t a p k b0
| handled_handshake :
    packet_type k = PUBREC \/ packet_type k = PUBREL -> live (w_chunks w') a = None ->
    handshake_outcome w w' Q Q' t a k -> handled e w w' Q Q' t a p k b0
| handled_not :
    acknowledged_packet k = None -> packet_type k <> PUBLISH -> packet_type k <> PUBREC -> packet_type k <> PUBREL ->
    live (w_chunks w') a = None -> t = [a] -> Q' = Q -> handled e w w' Q Q' t a p k b0.

Lemma handled_same e w w1 w2 w' Q Q' t a p k b0 :
  same_waiting w w1 Q -> w_chunks w' = w_chunks w2 -> handled e w1 w2 Q Q' t a p k b0 -> handled e w w' Q Q' t a p k b0.
Proof.
  intros Hs E [type id rc H1 H2 H3 H4|H1 H2 H3|H1 H2 H3|]; rewrite <- ?E in *.
  - eapply handled_ack; [done..|]. destruct H4 as [H4 ? ?|l1 b l2 kb H4 ? ? H5].
    + apply ack_unexpected; try done. by eapply none_of_same.
    + eapply (ack_completes _ _ _ _ _ _ _ _ _ l1 b l2 kb); try done; [by eapply first_of_same|].
      unfold completed. by rewrite E.
  - apply handled_publish; [done..|]. unfold publish_outcome. by rewrite E.
  - apply handled_handshake; [done..|].
    destruct H3 as [H4 ? ?|l1 b l2 kb H4 ? ? H5|l1 b l2 kb H4 ? ? H5]; rewrite <- ?E in H5.
    + apply handshake_unexpected; try done. by eapply none_of_same.
    + eapply (handshake_continues _ _ _ _ _ _ _ l1 b l2 kb); try done. by eapply first_of_same.
    + eapply (handshake_out_of_memory _ _ _ _ _ _ _ l1 b l2 kb); try done. by eapply first_of_same.
  - by apply handled_not.
Qed.

(** A packet that a server following the standard sends: the quality of
    service is one of the three, and what an acknowledgement says can be
    read. *)
Definition answerable (k : chunk) : Prop :=
  (packet_type k = PUBLISH -> qos k <= 2) /\ exists rc, ack_result k rc.

Lemma post_read_spec `{!PlatformLaws P} w cl Q a k b0 d :
  queues client (w_chunks w) (w_clients w) cl Q -> loose (w_chunks w) Q a k -> answerable k -> 0 <= qos k ->
  chunk_data k = Some (b0 :: d) ->
  exists w' cl' Q' t, _iot_mqtt_process_post_read (Some client) a w = Ret (tt, w') /\
    steps client t w w' cl cl' Q Q' /\ silent w w' /\ fields cl' = fields cl /\
    handled (w_env w) w w' Q Q' t a (fresh_addr (w_chunks w)) k b0.
Proof.
  intros Hq Hl [Hqos [rc Hrc]] Hq0 Hd. pose proof Hl as (Ha & _). unfold _iot_mqtt_process_post_read. run.
  destruct (acknowledged_packet k) as [[type id]|] eqn:Eack.
  - destruct (received_ack_spec client w cl Q a k type id rc Hq Hl Eack Hrc) as (w' & cl' & Q' & t & E & S & Si & Hf & Hdead & Ho).
    exists w', cl', Q', t. split_and!; [|done|done|done|by eapply handled_ack].
    rewrite <- E. unfold acknowledged_packet in Eack.
    destruct (packet_type k =? CONNACK), (packet_type k =? PUBACK), (packet_type k =? SUBACK),
      (packet_type k =? UNSUBACK), (packet_type k =? PUBCOMP), (packet_type k =? PINGRESP); done.
  - assert (Hno : (packet_type k =? CONNACK) || (packet_type k =? PUBACK) || (packet_type k =? SUBACK) ||
      (packet_type k =? UNSUBACK) || (packet_type k =? PUBCOMP) || (packet_type k =? PINGRESP) = false).
    { unfold acknowledged_packet in Eack.
      destruct (packet_type k =? CONNACK), (packet_type k =? PUBACK), (packet_type k =? SUBACK),
        (packet_type k =? UNSUBACK), (packet_type k =? PUBCOMP), (packet_type k =? PINGRESP); done. }
    rewrite Hno. destruct (Z.eqb_spec (packet_type k) PUBLISH) as [Ep|Ep].
    + destruct (received_publish_spec client w cl Q a k b0 d Hq Hl ltac:(auto with lia) Hd)
        as (w' & cl' & Q' & E & S & Si & Hf & Ho).
      exists w', cl', Q', [a; fresh_addr (w_chunks w)]. split_and!; try done. by apply handled_publish.
    + destruct ((packet_type k =? PUBREC) || (packet_type k =? PUBREL)) eqn:Er.
      * assert (Ht : packet_type k = PUBREC \/ packet_type k = PUBREL) by (rewrite orb_true_iff, !Z.eqb_eq in Er; done).
        destruct (received_pubrec_pubrel_spec client w cl Q a k Hq Hl Ht) as (w' & cl' & Q' & t & E & S & Si & Hf & Hdead & Ho).
        exists w', cl', Q', t. split_and!; try done. by apply handled_handshake.
      * destruct (destroy_loose client w cl Q a k Hq Hl) as (w' & E & S & Si & Hdead & _).
        exists w', cl, Q, [a]. split_and!; try done. rewrite orb_false_iff, !Z.eqb_neq in Er. destruct Er. by apply handled_not.
Qed.

(** What [_iot_mqtt_run_read_stream] does with the packet [b0], [body]; [r]
    is its result. *)
Inductive read_outcome `{!Incoming P} (w w' : world) (Q Q' : queue_name -> list nat) (t : list nat)
    (b0 : Z) (body rest : list Z) (id r : Z) : Prop :=
| read_out_of_memory e1 :
    reads (w_env w) e1 -> chunk_denied (zlen (wire_packet b0 body)) e1 ->
    r = E_ST_MQTT_BUFFER_OVERFLOW -> Q' = Q -> (forall x, x ∈ t -> w_chunks w !! x = None) ->
    w_received w' = w_received w ++ b0 :: varint (zlen body) -> incoming (w_env w') = body ++ rest ->
    read_outcome w w' Q Q' t b0 body rest id r
| read_handled t1 a p e1 e2 :
    reads (w_env w) e1 -> ~ chunk_denied (zlen (wire_packet b0 body)) e1 -> reads (chunk_env (zlen (wire_packet b0 body)) e1) e2 ->
    r = zlen (wire_packet b0 body) -> t = a :: t1 -> w_chunks w !! a = None -> w_chunks w !! p = None -> a <> p ->
    w_received w' = w_received w ++ wire_packet b0 body ->
    handled e2 w w' Q Q' t1 a p (received_chunk b0 (wire_packet b0 body) id) b0 ->
    read_outcome w w' Q Q' t b0 body rest id r.

Lemma finish_read_packet `{!PlatformLaws P} w cl Q n tr :
  queues client (w_chunks w) (w_clients w) cl Q -> magic cl = MQTT_CLIENT_STRUCT_MAGIC_NUMBER ->
  client_manage_lock cl = free_mutex -> last_received cl = Some tr -> 0 < n ->
  exists w' cl', finish_read (Some client) (n, None) w = Ret (n, w') /\
    steps client [] w w' cl cl' Q Q /\ silent w w' /\ w_chunks w' = w_chunks w /\ fields cl' = fields cl.
Proof.
  intros Hq Hm Hml Htr Hn.
  destruct (touch_timer client w cl Q tr last_received Hq Hm Hml Htr) as (w' & cl' & E & S & Si & Hw & Hf).
  exists w', cl'. split_and!; try done. unfold finish_read. cbn [_iot_mqtt_chunk_destroy].
  rewrite bind_mret, (proj2 (Z.ltb_lt 0 n)) by done. cbn [when]. rewrite (bind_ret _ _ _ _ _ E).
  rewrite (proj2 (Z.eqb_neq n E_ST_MQTT_NETWORK_ERROR)) by (unfold E_ST_MQTT_NETWORK_ERROR; lia). done.
Qed.

Lemma not_in_queues w cl Q a :
  queues client (w_chunks w) (w_clients w) cl Q -> w_chunks w !! a = None -> free_of Q a.
Proof.
  intros Hq Ha n Hin. destruct (is_list_live _ _ _ _ _ _ (qs_list _ _ _ _ _ Hq n) Hin) as [x Hx].
  unfold live in Hx. by rewrite Ha in Hx.
Qed.

Lemma get_qos_range b : is_byte b -> 0 <= Header.get_qos b.
Proof. intros Hb. rewrite <- land_6_qos by done. apply Z.shiftr_nonneg, Z.land_nonneg. right. lia. Qed.

Lemma read_stream_spec `{!Incoming P} `{!PlatformLaws P} w cl Q c tr b0 body rest id cur :
  queues client (w_chunks w) (w_clients w) cl Q -> magic cl = MQTT_CLIENT_STRUCT_MAGIC_NUMBER ->
  client_manage_lock cl = free_mutex -> read_lock cl = free_mutex ->
  last_received cl = Some tr -> isconnected cl <> 0 -> net_ctx cl = Some c ->
  is_byte b0 -> zlen body <= max_remaining_length ->
  incoming (w_env w) = wire_packet b0 body ++ rest ->
  MQTTPacket_getPacketId (Cursor (wire_packet b0 body) 0) = Ret (id, cur) ->
  zlen (wire_packet b0 body) <= Z.of_nat net_fuel ->
  answerable (received_chunk b0 (wire_packet b0 body) id) ->
  exists r w' cl' Q' t, _iot_mqtt_run_read_stream net_fuel (Some client) w = Ret (r, w') /\
    steps client t w w' cl cl' Q Q' /\ w_sent w' = w_sent w /\ w_events w' = w_events w /\
    fields cl' = fields cl /\ read_outcome w w' Q Q' t b0 body rest id r.
Proof.
  intros Hq Hm Hml Hrl Htr Hcon Hc Hb0 Hmax Hin Hid Hf Hans. set (pkt := wire_packet b0 body) in *.
  unfold _iot_mqtt_run_read_stream. erewrite bind_invalid by (done || apply Hq). cbv iota.
  destruct (lock_steps client w cl Q ReadLock (Mutex true true) Hq) as [S1 _].
  set (cl1 := set_lock_of ReadLock (Mutex true true) cl) in *. set (w1 := with_clients _ w) in *.
  pose proof (st_queues _ _ _ _ _ _ _ _ S1) as Hq1.
  destruct (read_packet_spec w1 cl1 Q c b0 body rest id cur Hq1 Hcon Hc Hb0 Hmax Hin Hid Hf)
    as [(w2 & t & e1 & E & Hrd & Hden & S2 & Es & Ev & Hfresh & Hr & Hi)|(w2 & a & e1 & Hrd1 & Hgot & Hrd2 & S2 & Es & Ev & Ha & Hlo & Hr & Hi & E)].
  - edestruct (locked_section client ReadLock (read_packet net_fuel (Some client)) (mret 0))
      as (-> & S3 & Hf3); [exact Hq|exact Hrl|exact E|exact S2|done|].
    unfold finish_read. cbn. eexists _, _, _, Q, t. split; [reflexivity|]. split_and!; try done.
    by apply (read_out_of_memory _ _ _ _ _ _ _ _ _ _ e1).
  - set (k := received_chunk b0 pkt id) in *.
    destruct (post_read_spec w2 cl1 Q a k b0 (varint (zlen body) ++ body) (st_queues _ _ _ _ _ _ _ _ S2) Hlo Hans)
      as (w3 & cl3 & Q' & t & E3 & S3 & (Ev3 & Es3 & Er3) & Hf3 & Hh); [by apply get_qos_range|done|].
    rewrite (bind_ret _ _ _ _ _ E3) in E. 
    pose proof (steps_trans client _ _ _ _ _ _ _ _ _ _ _ S2 S3) as S23.
    edestruct (locked_section client ReadLock (read_packet net_fuel (Some client)) (mret 0))
      as (-> & S4 & Hf4); [exact Hq|exact Hrl|exact E|exact S23|exact Hf3|].
    set (cl4 := set_lock_of _ _ cl3) in *. set (w4 := with_clients _ w3) in *.
    assert (Hpos : 0 < zlen pkt) by (unfold pkt, wire_packet; cbn [app]; rewrite zlen_cons; pose proof (zlen_nonneg (varint (zlen body) ++ body)); lia).
    destruct (finish_read_packet w4 cl4 Q' (zlen pkt) tr (st_queues _ _ _ _ _ _ _ _ S4))
      as (w5 & cl5 & E5 & S5 & (Ev5 & Es5 & Er5) & Hw5 & Hf5); [| | |done|].
    { by rewrite (f_equal magic Hf4 : magic cl4 = magic cl). }
    { by rewrite (f_equal client_manage_lock Hf4 : client_manage_lock cl4 = client_manage_lock cl). }
    { by rewrite (f_equal last_received Hf4 : last_received cl4 = last_received cl). }
    exists (zlen pkt), w5, cl5, Q', (a :: t). split; [exact E5|]. split_and!.
    + eapply steps_weaken; [|exact (steps_trans client _ [] _ _ _ _ _ _ _ _ _ S4 S5)]. set_solver.
    + rewrite Es5. change (w_sent w3 = w_sent w). by rewrite Es3, Es.
    + rewrite Ev5. change (w_events w3 = w_events w). by rewrite Ev3, Ev.
    + by rewrite Hf5.
    + pose proof (fresh_addr_new (w_chunks w2)) as Hp. set (p := fresh_addr (w_chunks w2)) in *.
      assert (Hap : a <> p).
      { intros ->. destruct Hlo as (Hlive & _). unfold live in Hlive. by rewrite Hp in Hlive. }
      assert (Hpw : w_chunks w !! p = None).
      { rewrite <- Hp. symmetry. eapply (st_free _ _ _ _ _ _ _ _ S2); [rewrite list_elem_of_singleton; congruence|].
        by eapply not_in_queues; [apply S2|]. }
      apply (read_handled _ _ _ _ _ _ _ _ _ _ t a p e1 (w_env w2)); try done.
      * rewrite Er5. change (w_received w3 = w_received w ++ pkt). by rewrite Er3, Hr.
      * apply (handled_same (w_env w2) w w2 w3); [|by rewrite Hw5|done].
        intros x kx Hx. apply (st_chunks _ _ _ _ _ _ _ _ S2). rewrite list_elem_of_singleton. intros ->.
        by apply (not_in_queues w cl Q a Hq Ha AckPending).
Qed.
End read.

(** ** Complete packets *)


(** ** Nothing to read *)

(** [port_net_read_poll] gives [rc]. *)
Lemma read_packet_nothing `{P : Platform} `{CharModel} `{EvalOrder} net_fuel client w cl c rc e :
  live (w_clients w) client = Some cl -> net_ctx cl = Some c -> net_read_poll c 0 (w_env w) = (rc, e) -> (isconnected cl <> 0 -> rc <= 0) ->
  read_packet net_fuel (Some client) w
    = if isconnected cl =? 0 then Ret ((E_ST_MQTT_DISCONNECTED, None), w)
      else Ret ((if rc <? 0 then E_ST_MQTT_NETWORK_ERROR else 0, None), with_env e w).
Proof.
  intros Hl Hc Hp Hrc. unfold read_packet. run. destruct (Z.eqb_spec (isconnected cl) 0) as [|Hcon]; [done|]. specialize (Hrc Hcon).
  unfold port_net_read_poll. rewrite Hc, bind_sys, Hp. cbn [fst snd].
  destruct (Z.ltb_spec rc 0); [done|]. by rewrite (proj2 (Z.eqb_eq rc 0)) by lia.
Qed.

Lemma read_stream_nothing `{P : Platform} `{CharModel} `{EvalOrder} `{!PlatformLaws P} net_fuel client w cl Q c rc e :
  queues client (w_chunks w) (w_clients w) cl Q -> magic cl = MQTT_CLIENT_STRUCT_MAGIC_NUMBER ->
  read_lock cl = free_mutex -> write_lock cl = free_mutex -> net_ctx cl = Some c ->
  net_read_poll c 0 (w_env w) = (rc, e) -> (isconnected cl <> 0 -> rc <= 0) ->
  exists r w' cl' Q' t, _iot_mqtt_run_read_stream net_fuel (Some client) w = Ret (r, w') /\
    steps client t w w' cl cl' Q Q' /\ silent w w' /\
    if isconnected cl =? 0 then r = E_ST_MQTT_DISCONNECTED /\ t = [] /\ Q' = Q /\ fields cl' = fields cl
    else if rc =? 0 then r = 0 /\ t = [] /\ Q' = Q /\ fields cl' = fields cl
    else r = E_ST_MQTT_NETWORK_ERROR /\ fields cl' = fields (disconnected cl) /\
      exists a, live (w_chunks w) a = None /\ t = [a] /\
        (Q' = Q \/ Q' = enqueue UserEvent a Q /\
           exists d, chunk_at (w_chunks w') a (event_chunk MQTT_DISCONNECTED_NETWORK_ERROR d)).
Proof.
  intros Hq Hm Hrl Hwl Hc Hp Hrc. unfold _iot_mqtt_run_read_stream. erewrite bind_invalid by (done || apply Hq). cbv iota.
  destruct (lock_steps client w cl Q ReadLock (Mutex true true) Hq) as [S1 _].
  set (cl1 := set_lock_of ReadLock (Mutex true true) cl) in *. set (w1 := with_clients _ w) in *.
  pose proof (read_packet_nothing net_fuel client w1 cl1 c rc e
    (qs_live _ _ _ _ _ (st_queues _ _ _ _ _ _ _ _ S1)) Hc Hp Hrc) as E.
  change (isconnected cl1) with (isconnected cl) in E. 
  set (w2 := if isconnected cl =? 0 then w1 else with_env e w1).
  set (r := if isconnected cl =? 0 then E_ST_MQTT_DISCONNECTED else if rc <? 0 then E_ST_MQTT_NETWORK_ERROR else 0).
  assert (E2 : read_packet net_fuel (Some client) w1 = Ret ((r, None), w2)).
  { rewrite E. unfold r, w2. by destruct (isconnected cl =? 0). }
  assert (S2 : steps client [] w1 w2 cl1 cl1 Q Q).
  { unfold w2. destruct (isconnected cl =? 0); split; try done; exact (st_queues _ _ _ _ _ _ _ _ S1). }
  assert (Hw2 : silent w1 w2 /\ w_chunks w2 = w_chunks w1) by (unfold w2; by destruct (isconnected cl =? 0)).
  edestruct (locked_section client ReadLock (read_packet net_fuel (Some client)) (mret 0))
    as (-> & S3 & Hf3); [exact Hq|exact Hrl|exact E2|exact S2|done|].
  set (cl3 := set_lock_of _ _ cl1) in *. set (w3 := with_clients _ w2) in *.
  assert (Si3 : silent w w3) by (destruct Hw2 as [(? & ? & ?) _]; by split_and!).
  assert (Hc3 : w_chunks w3 = w_chunks w) by (change (w_chunks w2 = w_chunks w1); apply Hw2).
  unfold finish_read. cbn [_iot_mqtt_chunk_destroy]. rewrite bind_mret.
  assert (Hr : r <= 0) by (unfold r, E_ST_MQTT_DISCONNECTED, E_ST_MQTT_NETWORK_ERROR; repeat case_match; lia).
  rewrite (proj2 (Z.ltb_ge 0 r)) by done. cbn [when]. rewrite bind_mret. unfold r in *.
  destruct (Z.eqb_spec (isconnected cl) 0) as [|Hcon]; [|specialize (Hrc Hcon); destruct (Z.ltb_spec rc 0)].
  - eexists _, w3, cl3, Q, []. split; [reflexivity|]. by split_and!.
  - rewrite (proj2 (Z.eqb_neq rc 0)) by lia. rewrite Z.eqb_refl. cbn [when].
    destruct (lose_connection client w3 cl3 Q MQTT_DISCONNECTED_NETWORK_ERROR (st_queues _ _ _ _ _ _ _ _ S3))
      as (a & w' & cl' & Q' & E' & Ha & S' & Si' & Hf' & HQ').
    { rewrite <- Hrl. exact (f_equal read_lock Hf3). }
    { rewrite <- Hwl. exact (f_equal write_lock Hf3). }
    rewrite (bind_ret _ _ _ _ _ E').
    eexists _, w', cl', Q', [a]. split; [reflexivity|]. split_and!; [| |done| |].
    + exact (steps_trans client [] [a] _ _ _ _ _ _ _ _ _ S3 S').
    + by eapply silent_trans.
    + rewrite Hf'. by apply fields_disconnected.
    + exists a. split_and!; [by rewrite <- Hc3|done|done].
  - rewrite (proj2 (Z.eqb_eq rc 0)) by lia. eexists _, w3, cl3, Q, []. split; [reflexivity|]. by split_and!.
Qed.

(** [_iot_mqtt_run_read_stream] when there is nothing to read: without a
    connection it says so, with one on which nothing has arrived it returns 0,
    and it leaves the client as it is; when the connection is broken it closes
    it and reports the disconnection once. *)
Theorem run_read_stream_idle `{P : Platform} `{CharModel} `{EvalOrder} `{!PlatformLaws P} net_fuel client w cl Q c rc e :
  queues client (w_chunks w) (w_clients w) cl Q -> magic cl = MQTT_CLIENT_STRUCT_MAGIC_NUMBER ->
  read_lock cl = free_mutex -> write_lock cl = free_mutex -> net_ctx cl = Some c ->
  net_read_poll c 0 (w_env w) = (rc, e) -> (isconnected cl <> 0 -> rc <= 0) ->
  exists r w' cl' Q' t, _iot_mqtt_run_read_stream net_fuel (Some client) w = Ret (r, w') /\
    steps client t w w' cl cl' Q Q' /\ silent w w' /\
    if isconnected cl =? 0 then r = E_ST_MQTT_DISCONNECTED /\ t = [] /\ Q' = Q /\ fields cl' = fields cl
    else if rc =? 0 then r = 0 /\ t = [] /\ Q' = Q /\ fields cl' = fields cl
    else r = E_ST_MQTT_NETWORK_ERROR /\ fields cl' = fields (disconnected cl) /\
      exists a, live (w_chunks w) a = None /\ t = [a] /\
        (Q' = Q \/ Q' = enqueue UserEvent a Q /\
           exists d, chunk_at (w_chunks w') a (event_chunk MQTT_DISCONNECTED_NETWORK_ERROR d)).
Proof. intros. by eapply read_stream_nothing. Qed.

(** ** The end of the stream *)

Lemma read_net_loop_eof `{P : Platform} c len :
  (forall n e, exists e', net_read c n e = ((0, []), e')) -> 0 < len ->
  forall fuel w, read_net_loop fuel (Some c) len [] w = Hang.
Proof.
  intros Heof Hlen. induction fuel as [|fuel IH]; intros w; [done|]. cbn [read_net_loop].
  unfold port_net_read, sys, modify, mbind, st_bind. destruct (Heof (len - zlen (@nil Z)) (w_env w)) as [e' ->]. cbn.
  rewrite (proj2 (Z.ltb_lt (zlen (@nil Z)) len)) by done. apply IH.
Qed.

(** C36: A connection that the peer has closed: its socket is readable and every
    read returns 0 (what a TLS read at the end of the stream does).  The client
    never comes back from [_iot_mqtt_run_read_stream], whatever the number of
    rounds its loops are given, and it holds the read lock meanwhile. *)
Theorem end_of_stream_hangs `{P : Platform} `{CharModel} `{EvalOrder} net_fuel client w cl Q c :
  queues client (w_chunks w) (w_clients w) cl Q -> magic cl = MQTT_CLIENT_STRUCT_MAGIC_NUMBER ->
  read_lock cl = free_mutex -> isconnected cl <> 0 -> net_ctx cl = Some c ->
  0 < (net_read_poll c 0 (w_env w)).1 -> (forall n e, exists e', net_read c n e = ((0, []), e')) ->
  _iot_mqtt_run_read_stream net_fuel (Some client) w = Hang.
Proof.
  intros Hq Hm Hrl Hcon Hc Hpoll Heof. unfold _iot_mqtt_run_read_stream.
  erewrite bind_invalid by (done || apply Hq). cbv iota.
  rewrite (bind_lock_client client w cl ReadLock) by (done || apply Hq). cbn [negb].
  destruct (lock_steps client w cl Q ReadLock (Mutex true true) Hq) as [S1 _].
  set (cl1 := set_lock_of ReadLock (Mutex true true) cl) in *. set (w1 := with_clients _ w) in *.
  pose proof (qs_live _ _ _ _ _ (st_queues _ _ _ _ _ _ _ _ S1)) as Hl1.
  assert (E : read_packet net_fuel (Some client) w1 = Hang).
  { unfold read_packet. erewrite bind_get by exact Hl1. change (isconnected cl1) with (isconnected cl).
    rewrite (proj2 (Z.eqb_neq _ _) Hcon).
    unfold port_net_read_poll. change (net_ctx cl1) with (net_ctx cl). rewrite Hc, bind_sys.
    change (w_env w1) with (w_env w).
    destruct (net_read_poll c 0 (w_env w)) as [rc e]. cbn [fst snd] in *.
    rewrite (proj2 (Z.ltb_ge rc 0)), (proj2 (Z.eqb_neq rc 0)) by lia.
    erewrite bind_get by exact Hl1. change (net_ctx cl1) with (net_ctx cl). rewrite Hc.
    unfold _iot_mqtt_read_net. cbn [Z.eqb]. unfold mbind at 1, st_bind at 1.
    by rewrite (read_net_loop_eof c 1 Heof ltac:(lia) net_fuel). }
  unfold mbind at 1, st_bind at 1. by rewrite E.
Qed.

(** ** A concrete instance *)

(** A PUBLISH packet of quality of service 1 with identifier 7 and topic "a",
    and the beginning of the next packet. *)
Definition sample_incoming : sim := Sim 20 100 [] [50; 6; 0; 1; 97; 0; 7; 104; 208] [] true.


Lemma run_read_stream_idle_witness :
  let w := sample_world (Sim 20 100 [] [] [] false) sample_packet [] [20; 21]%nat [] [] in
  let cl := sample_client [] [20; 21]%nat [] in
  let Q := sample_lists [] [20; 21]%nat [] in
  exists r w' cl' Q' t, @_iot_mqtt_run_read_stream SimPlatform true false 8 (Some 0%nat) w = Ret (r, w') /\
    steps 0 t w w' cl cl' Q Q' /\ silent w w' /\
    (r = E_ST_MQTT_NETWORK_ERROR /\ fields cl' = fields (disconnected cl) /\
      exists a, live (w_chunks w) a = None /\ t = [a] /\
        (Q' = Q \/ Q' = enqueue UserEvent a Q /\
           exists d, chunk_at (w_chunks w') a (event_chunk MQTT_DISCONNECTED_NETWORK_ERROR d))).
Proof.
  intros w cl Q.
  refine (@run_read_stream_idle SimPlatform true false SimPlatformLaws 8 0 w cl Q 0 (-1) _ _ eq_refl eq_refl eq_refl eq_refl eq_refl _).
  - apply sample_queues. distinct.
  - intros _. lia.
Defined.

(** A peer that has closed the connection. *)
Definition ClosedPlatform : Platform := {|
  env := sim; os_malloc := @os_malloc SimPlatform; os_malloc_object := @os_malloc_object SimPlatform;
  os_mutex_init := @os_mutex_init SimPlatform; os_eventgroup_set_bits := @os_eventgroup_set_bits SimPlatform;
  os_delay := @os_delay SimPlatform; os_timer_create := @os_timer_create SimPlatform;
  os_timer_start := @os_timer_start SimPlatform; os_timer_delete := @os_timer_delete SimPlatform;
  os_timer_is_active := @os_timer_is_active SimPlatform; os_thread_create := @os_thread_create SimPlatform;
  net_connect := @net_connect SimPlatform; net_free := @net_free SimPlatform; net_close := @net_close SimPlatform;
  net_read := fun _ _ e => ((0, []), e); net_read_poll := fun _ _ e => (1, e); net_write := @net_write SimPlatform;
  uninit_publish := @uninit_publish SimPlatform; uninit_int := 0
|}.

Lemma end_of_stream_hangs_witness :
  @_iot_mqtt_run_read_stream ClosedPlatform true false 8 (Some 0%nat)
    (World ClosedPlatform (sample_env []) ∅ {[ 0%nat := Some (sample_client [] [] []) ]} ∅ ∅ [] [] []) = Hang.
Proof.
  refine (@end_of_stream_hangs ClosedPlatform true false 8 0 _ (sample_client [] [] []) (fun _ => []) 0 _ eq_refl eq_refl _ eq_refl _ _).
  - split.
    + done.
    + by intros [].
    + intros n. split; [done|by destruct n|by destruct n|constructor].
    + intros n n' a Ha. by apply not_elem_of_nil in Ha.
  - done.
  - done.
  - intros n e. by exists e.
Defined.
