(* ===== verification/ClientCallback.v ===== *)
(** * The user's callback

    Theorems about [_iot_mqtt_process_user_callback] of [ClientCycle]: which
    events the user is told of, and that a message reaches the user as the
    peer sent it. *)

From S2P Require Import Prelude Cursor MqttPacket MqttCodec MqttPublish MqttRead.
From S2P Require Import Platform Heap World ClientQueue ClientInv Sample ClientRun ClientNet ClientWrite ClientReceive ClientCycle ClientRead.

Section callback.
Context `{P : Platform} (client : nat).

(** The message that the packet in [k] gives. *)
Definition message_of (k : chunk) (m : st_mqtt_msg) : Prop :=
  exists d r o c, chunk_data k = Some d /\
    MQTTDeserialize_publish uninit_publish (Cursor d 0) = Ret ((r, o), c) /\
    m = {| msg_topic := ls_data (lenstring (po_topicName o)); msg_topiclen := ls_len (lenstring (po_topicName o));
           msg_payload := po_payload o; msg_payloadlen := po_payloadlen o;
           msg_qos := po_qos o; msg_retained := po_retained o; msg_buffer := d |}.

(** What the user is told about the chunk [k]. *)
Inductive tells (k : chunk) : list st_mqtt_event -> Prop :=
| tells_delivered m : chunk_state k = PACKET_CHUNK_READ_COMPLETED -> packet_type k = PUBLISH -> message_of k m ->
    tells k [ST_MQTT_EVENT_MSG_DELIVERED m]
| tells_failed m : chunk_state k = PACKET_CHUNK_WRITE_FAIL -> packet_type k = PUBLISH -> message_of k m ->
    tells k [ST_MQTT_EVENT_PUBLISH_FAILED m]
| tells_timeout m : chunk_state k = PACKET_CHUNK_TIMEOUT -> packet_type k = PUBLISH -> message_of k m ->
    tells k [ST_MQTT_EVENT_PUBLISH_TIMEOUT m]
| tells_disconnected : chunk_state k = EVENT_CHUNK_DISCONNECTED ->
    tells k [ST_MQTT_EVENT_DISCONNECTED (return_code k)]
| tells_nothing : chunk_state k <> EVENT_CHUNK_DISCONNECTED -> packet_type k <> PUBLISH -> tells k [].

Lemma message_of_det k m1 m2 : message_of k m1 -> message_of k m2 -> m1 = m2.
Proof. intros (d1 & r1 & o1 & c1 & H1 & E1 & ->) (d2 & r2 & o2 & c2 & H2 & E2 & ->). congruence. Qed.

Lemma tells_read k e1 e2 : chunk_state k = PACKET_CHUNK_READ_COMPLETED -> tells k e1 -> tells k e2 -> e1 = e2.
Proof.
  intros Hs [m1 ? ? Hm1|m1 ? ? ?|m1 ? ? ?|?|? ?] [m2 ? ? Hm2|m2 ? ? ?|m2 ? ? ?|?|? ?]; try congruence.
  do 2 f_equal. by eapply message_of_det.
Qed.

Lemma chunk_message_spec w a k m :
  live (w_chunks w) a = Some k -> message_of k m -> chunk_message a w = Ret (m, w).
Proof.
  intros Ha (d & r & o & c & Hd & E & ->). unfold chunk_message. run. rewrite Hd. cbn [need]. run.
  by rewrite (bind_ret _ _ _ _ _ (on_data_ret _ _ _ _ _ E)).
Qed.

Lemma with_events_nil (w : world) : with_events (w_events w ++ []) w = w.
Proof. rewrite app_nil_r. by destruct w. Qed.

Lemma notify_user_spec w a k evs :
  live (w_chunks w) a = Some k -> tells k evs ->
  notify_user a w = Ret (tt, with_events (w_events w ++ evs) w).
Proof.
  intros Ha Ht. unfold notify_user. run.
  destruct Ht as [m Hs Hp Hm|m Hs Hp Hm|m Hs Hp Hm|Hs|Hs Hp]; rewrite ?Hs.
  1-3: rewrite Hp, Z.eqb_refl; cbn [when];
    unfold _iot_mqtt_notify_publish_failed, _iot_mqtt_deliver_publish;
    rewrite (bind_ret _ _ _ _ _ (chunk_message_spec w a k m Ha Hm)); run; rewrite ?Hs; done.
  - done.
  - rewrite (proj2 (Z.eqb_neq _ _) Hp), with_events_nil. cbn [when]. by destruct (chunk_state k).
Qed.

(** Every chunk can be told about. *)
Definition tellable (w : world) (l : list nat) : Prop :=
  forall a k, a ∈ l -> chunk_at (w_chunks w) a k -> exists evs, tells k evs.

(** The events, a list for every chunk of [l]. *)
Definition told (w : world) (l : list nat) (evss : list (list st_mqtt_event)) : Prop :=
  Forall2 (fun a evs => exists k, chunk_at (w_chunks w) a k /\ tells k evs) l evss.

Lemma told_ext w w' l evss :
  (forall a k, a ∈ l -> chunk_at (w_chunks w) a k <-> chunk_at (w_chunks w') a k) -> told w l evss -> told w' l evss.
Proof.
  intros H Ht. induction Ht as [|a evs l evss (k & Hk & Hev) _ IH]; [constructor|].
  constructor; [|apply IH; set_solver]. exists k. split; [apply H; [left|done]|done].
Qed.

Lemma user_callback_loop_spec fuel : forall w cl Q,
  queues client (w_chunks w) (w_clients w) cl Q -> magic cl = MQTT_CLIENT_STRUCT_MAGIC_NUMBER ->
  tellable w (Q UserEvent) -> (length (Q UserEvent) < fuel)%nat ->
  exists w' cl' evss, user_callback_loop fuel (Some client) w = Ret (tt, w') /\
    steps client (Q UserEvent) w w' cl cl' Q (upd UserEvent [] Q) /\
    w_sent w' = w_sent w /\ w_received w' = w_received w /\ fields cl' = fields cl /\
    (forall a, a ∈ Q UserEvent -> live (w_chunks w') a = None) /\
    told w (Q UserEvent) evss /\ w_events w' = w_events w ++ concat evss.
Proof.
  induction fuel as [|fuel IH]; intros w cl Q Hq Hm Ht Hf; [lia|].
  cbn [user_callback_loop]. erewrite (bind_invalid client) by (done || apply Hq). cbv beta iota.
  pose proof (pop_takes client w cl Q UserEvent Hq) as Hpop. destruct (Q UserEvent) as [|a l] eqn:El.
  - destruct Hpop as (w1 & cl1 & E & Hmv). rewrite (bind_ret _ _ _ _ _ E).
    destruct (moves_steps client [] _ _ _ _ _ _ Hmv) as (S1 & (Ev & Es & Er) & _).
    { intros b _ Hb n. unfold upd. case_decide; [apply not_elem_of_nil|apply Hb]. }
    exists w1, cl1, []. split_and!; try done; [apply Hmv|set_solver|constructor|by rewrite app_nil_r].
  - destruct Hpop as (w1 & cl1 & k & E & [Hmv Hk Hl]). rewrite (bind_ret _ _ _ _ _ E).
    destruct (Ht a k) as [evs Hev]; [left|done|].
    pose proof Hl as (Ha & Hn & Hfree).
    rewrite (bind_ret _ _ _ _ _ (notify_user_spec w1 a k evs Ha Hev)).
    set (w2 := with_events (w_events w1 ++ evs) w1).
    set (Q2 := upd UserEvent l Q) in *.
    assert (Hq2 : queues client (w_chunks w2) (w_clients w2) cl1 Q2) by apply Hmv.
    destruct (destroy_loose client w2 cl1 Q2 a k Hq2 Hl) as (w3 & E3 & S3 & (Ev3 & Es3 & Er3) & Hdead & Hother).
    rewrite (bind_ret _ _ _ _ _ E3).
    destruct (moves_steps client [a] _ _ _ _ _ _ Hmv) as (S1 & (Ev1 & Es1 & Er1) & _).
    { intros b Hb. by apply (free_of_removed UserEvent a [] l). }
    assert (Hal : a ∉ l).
    { intros Hin. apply (Hfree UserEvent). unfold Q2. by rewrite upd_eq. }
    assert (Hsame : forall b kb, b <> a -> chunk_at (w_chunks w) b kb <-> chunk_at (w_chunks w3) b kb).
    { intros b kb Hb. rewrite (mv_chunks _ _ _ _ _ _ _ Hmv).
      change (chunk_at (w_chunks w2) b kb <-> chunk_at (w_chunks w3) b kb).
      apply (st_chunks _ _ _ _ _ _ _ _ S3). by rewrite list_elem_of_singleton. }
    destruct (IH w3 cl1 Q2 (st_queues _ _ _ _ _ _ _ _ S3)) as (w' & cl' & evss & E' & S' & Es' & Er' & Hf' & Hd' & Ht' & Ev').
    { rewrite <- Hm. exact (f_equal magic (mv_fields _ _ _ _ _ _ _ Hmv)). }
    { unfold Q2. rewrite upd_eq. intros b kb Hb Hkb. apply (Ht b kb); [by right|]. apply Hsame; [congruence|done]. }
    { unfold Q2. rewrite upd_eq. simpl in Hf. lia. }
    unfold Q2 in S', Hd', Ht'. rewrite upd_eq in S', Hd', Ht'. fold Q2 in S'.
    exists w', cl', (evs :: evss). split; [exact E'|]. split_and!.
    + apply (steps_ext client _ _ _ _ _ _ (upd UserEvent [] Q2)).
      { intros n. unfold Q2, upd. by case_decide. }
      assert (S2 : steps client [] w1 w2 cl1 cl1 Q2 Q2) by (by split).
      eapply steps_weaken; [|exact (steps_trans client _ _ _ _ _ _ _ _ _ _ _
        (steps_trans client _ _ _ _ _ _ _ _ _ _ _ (steps_trans client _ [] _ _ _ _ _ _ _ _ _ S1 S2) S3) S')].
      set_solver.
    + by rewrite Es', Es3, <- Es1.
    + by rewrite Er', Er3, <- Er1.
    + rewrite Hf'. apply Hmv.
    + intros b [->|Hb]%elem_of_cons; [|by apply Hd'].
      unfold live. by rewrite (proj1 (st_free _ _ _ _ _ _ _ _ S' a Hal Hfree)).
    + constructor; [by exists k|]. eapply told_ext; [|exact Ht']. intros b kb Hb. symmetry. apply Hsame. congruence.
    + rewrite Ev', Ev3. cbn [w_events w2 with_events concat]. by rewrite Ev1, app_assoc.
Qed.
End callback.

(** All the rounds. *)
Lemma user_callback_spec `{P : Platform} client w cl Q :
  queues client (w_chunks w) (w_clients w) cl Q -> magic cl = MQTT_CLIENT_STRUCT_MAGIC_NUMBER ->
  tellable w (Q UserEvent) ->
  exists w' cl' evss, _iot_mqtt_process_user_callback (Some client) w = Ret (tt, w') /\
    steps client (Q UserEvent) w w' cl cl' Q (upd UserEvent [] Q) /\
    w_sent w' = w_sent w /\ w_received w' = w_received w /\ fields cl' = fields cl /\
    (forall a, a ∈ Q UserEvent -> live (w_chunks w') a = None) /\
    told w (Q UserEvent) evss /\ w_events w' = w_events w ++ concat evss.
Proof.
  intros Hq Hm Ht. unfold _iot_mqtt_process_user_callback. run. apply user_callback_loop_spec; try done.
  pose proof (qs_list _ _ _ _ _ Hq UserEvent) as Hl.
  pose proof (chain_size _ _ _ (il_chain _ _ _ _ _ Hl) (il_nodup _ _ _ _ _ Hl)). lia.
Qed.

(** C9: [_iot_mqtt_process_user_callback] terminates on every client in a
    proper state; it takes the chunks out of the callback queue in order, tells
    the user of each what its state and type say (the message of a PUBLISH that
    arrived, failed or timed out, the reason of a disconnection, nothing of
    other packets) and frees them all.  Nothing else changes. *)
Theorem process_user_callback_correct `{P : Platform} client w cl Q :
  queues client (w_chunks w) (w_clients w) cl Q -> magic cl = MQTT_CLIENT_STRUCT_MAGIC_NUMBER ->
  tellable w (Q UserEvent) ->
  exists w' cl' evss, _iot_mqtt_process_user_callback (Some client) w = Ret (tt, w') /\
    steps client (Q UserEvent) w w' cl cl' Q (upd UserEvent [] Q) /\
    w_sent w' = w_sent w /\ w_received w' = w_received w /\ fields cl' = fields cl /\
    (forall a, a ∈ Q UserEvent -> live (w_chunks w') a = None) /\
    told w (Q UserEvent) evss /\ w_events w' = w_events w ++ concat evss.
Proof. apply user_callback_spec. Qed.

(** ** From the wire to the user *)

(** The message [m] has the topic, the payload and the flags that were sent. *)
Record carries (m : st_mqtt_msg) (qos retained : Z) (topic payload : list Z) : Prop := {
  ca_topic : deref (msg_buffer m) (msg_topic m) (msg_topiclen m) = Some topic;
  ca_payload : deref (msg_buffer m) (msg_payload m) (msg_payloadlen m) = Some payload;
  ca_qos : msg_qos m = qos;
  ca_retained : msg_retained m = retained
}.

Definition publish_byte (qos retained : Z) : Z := 16 * PUBLISH + 8 * 0 + 2 * qos + retained.

Section delivery.
Context `{P : Platform} `{CharModel} `{EvalOrder} (client : nat).
Context (qos retained pid : Z) (topic payload : list Z).
Context (Hqos : 0 <= qos <= 2) (Hret : 0 <= retained < 2) (Hpid : 0 <= pid < 65536) (Htopic : zlen topic < 65536).
Context (Hmax : zlen (publish_body qos pid topic payload) <= max_remaining_length).

Let b0 := publish_byte qos retained.
Let body := publish_body qos pid topic payload.
Let pkt := wire_publish 0 qos retained pid topic payload.

Lemma publish_byte_fields :
  is_byte b0 /\ Header.get_type b0 = PUBLISH /\ Header.get_dup b0 = 0 /\ Header.get_qos b0 = qos /\
  Header.get_retain b0 = retained.
Proof using Hqos Hret.
  destruct (header_fields PUBLISH 0 qos retained ltac:(unfold PUBLISH; lia) ltac:(lia) ltac:(lia) Hret) as (? & ? & ? & ?).
  split_and!; try done. unfold b0, publish_byte, PUBLISH, is_byte. lia.
Qed.

Lemma publish_message id :
  exists m, message_of (received_chunk b0 pkt id) m /\ carries m qos retained topic payload.
Proof using Hqos Hret Hpid Htopic Hmax.
  destruct (deserialize_wire_publish 0 qos retained pid topic payload uninit_publish [] [] ltac:(lia) ltac:(lia)
    Hret Hpid Htopic Hmax) as (o & c & E & _ & Hq & Hr & _ & _ & Ht & Hp).
  simpl in E, Ht, Hp. rewrite app_nil_r in E, Ht, Hp.
  eexists. split; [exists pkt, 1, o, c; split_and!; [done|exact E|reflexivity]|]. by split.
Qed.

Lemma publish_told id :
  exists m, tells (received_chunk b0 pkt id) [ST_MQTT_EVENT_MSG_DELIVERED m] /\ carries m qos retained topic payload.
Proof using Hqos Hret Hpid Htopic Hmax.
  destruct (publish_message id) as (m & Hm & Hc). exists m. split; [|done].
  apply tells_delivered; [done| |done]. apply publish_byte_fields.
Qed.
End delivery.

(** How a packet of [size] bytes that is read from the environment [e] on is
    lost, [r] being what the read stream gives: an allocation is denied, for the
    packet itself when its header has been read, or, above quality of service 0,
    for its acknowledgement when all of it has been read. *)
Inductive lost_for_memory `{P : Platform} (e : env) (size qos r : Z) : Prop :=
| packet_denied e1 :
    reads e e1 -> chunk_denied size e1 -> r = E_ST_MQTT_BUFFER_OVERFLOW -> lost_for_memory e size qos r
| acknowledgement_denied e1 e2 :
    qos <> 0 -> reads e e1 -> ~ chunk_denied size e1 -> reads (chunk_env size e1) e2 ->
    chunk_denied MQTT_ACK_PACKET_SIZE e2 -> r = size -> lost_for_memory e size qos r.

(** C5: A PUBLISH packet on the wire reaches the user.  When a client in a
    proper state reads a packet that is not marked as a duplicate and then runs
    the callback, the user is told of what waited in the callback queue and
    then, once, of a message whose topic, payload, quality of service and retain
    flag are those that the peer sent; above quality of service 0 the
    acknowledgement waits to be written.  The message is lost only where, on the
    way from the environment before to the one after, an allocation is denied
    ([lost_for_memory]): for the packet or for its acknowledgement.  The network
    is one that delivers the packet in order ([Incoming]). *)
Theorem publish_delivered `{P : Platform} `{CharModel} `{EvalOrder} `{!Incoming P} `{!PlatformLaws P}
    net_fuel client w cl Q c tr qos retained pid topic payload rest id cur :
  0 <= qos <= 2 -> 0 <= retained < 2 -> 0 <= pid < 65536 -> zlen topic < 65536 ->
  zlen (publish_body qos pid topic payload) <= max_remaining_length ->
  queues client (w_chunks w) (w_clients w) cl Q -> magic cl = MQTT_CLIENT_STRUCT_MAGIC_NUMBER ->
  client_manage_lock cl = free_mutex -> read_lock cl = free_mutex ->
  last_received cl = Some tr -> isconnected cl <> 0 -> net_ctx cl = Some c ->
  tellable w (Q UserEvent) ->
  incoming (w_env w) = wire_publish 0 qos retained pid topic payload ++ rest ->
  MQTTPacket_getPacketId (Cursor (wire_publish 0 qos retained pid topic payload) 0) = Ret (id, cur) ->
  zlen (wire_publish 0 qos retained pid topic payload) <= Z.of_nat net_fuel ->
  exists r w1 cl1 Q1, _iot_mqtt_run_read_stream net_fuel (Some client) w = Ret (r, w1) /\
    queues client (w_chunks w1) (w_clients w1) cl1 Q1 /\ fields cl1 = fields cl /\ w_events w1 = w_events w /\
    (lost_for_memory (w_env w) (zlen (wire_publish 0 qos retained pid topic payload)) qos r /\ Q1 = Q \/
     exists a w2 cl2 evss m,
       Q1 UserEvent = Q UserEvent ++ [a] /\
       (if qos =? 0 then Q1 WritePending = Q WritePending
        else exists p, Q1 WritePending = Q WritePending ++ [p] /\
          chunk_at (w_chunks w1) p (ack_chunk (publish_ack_type qos) id)) /\
       _iot_mqtt_process_user_callback (Some client) w1 = Ret (tt, w2) /\
       queues client (w_chunks w2) (w_clients w2) cl2 (upd UserEvent [] Q1) /\
       told w (Q UserEvent) evss /\
       w_events w2 = w_events w ++ concat evss ++ [ST_MQTT_EVENT_MSG_DELIVERED m] /\
       carries m qos retained topic payload).
Proof.
  intros Hqos Hret Hpid Htopic Hmax Hq Hm Hml Hrl Htr Hcon Hc Htell Hin Hid Hf.
  destruct (publish_byte_fields qos retained Hqos Hret) as (Hb0 & Hty & Hdup & Hbq & _).
  set (b0 := publish_byte qos retained) in *. set (pkt := wire_publish 0 qos retained pid topic payload) in *.
  set (k := received_chunk b0 pkt id).
  assert (Hans : answerable k).
  { split; [intros _; change (Header.get_qos b0 <= 2); lia|]. exists None.
    unfold ack_result. change (packet_type k) with (Header.get_type b0). by rewrite Hty. }
  destruct (read_stream_spec net_fuel client w cl Q c tr b0 (publish_body qos pid topic payload) rest id cur
    Hq Hm Hml Hrl Htr Hcon Hc Hb0 Hmax Hin Hid Hf Hans) as (r & w1 & cl1 & Q1 & t & E & S & Es & Ev & Hfl & Ho).
  exists r, w1, cl1, Q1. split; [exact E|]. split_and!; [apply S|done|done|].
  destruct Ho as [e1 Hrd Hden -> -> _ _ _|t1 a p e1 e2 Hrd Hgot Hrd2 -> -> Ha Hp Hap Er Hh].
  { left. split; [|done]. by apply (packet_denied _ _ _ _ e1). }
  change (received_chunk b0 (wire_packet b0 (publish_body qos pid topic payload)) id) with k in Hh.
  destruct Hh as [type id' rc Hack _ _ _|_ -> Ho|Ht _ _|_ Ht _ _ _ _ _].
  - unfold acknowledged_packet in Hack. change (packet_type k) with (Header.get_type b0) in Hack. by rewrite Hty in Hack.
  - unfold publish_outcome in Ho. change (World.qos k) with (Header.get_qos b0) in Ho.
    change (packet_id k) with id in Ho. rewrite Hbq, Hdup, Z.eqb_refl in Ho.
    destruct Ho as [(Hne & Hden & -> & _)|(Qa & Hack & -> & Hk)]; [left|right].
    { split; [|done]. by apply (acknowledgement_denied _ _ _ _ e1 e2). }
    destruct (publish_told qos retained pid topic payload Hqos Hret Hpid Htopic Hmax id) as (m & Hev & Hcar).
    fold b0 pkt in Hev. fold k in Hev.
    assert (Hsame : forall x kx, x ∈ Q UserEvent -> chunk_at (w_chunks w) x kx <-> chunk_at (w_chunks w1) x kx).
    { intros x kx Hx. apply (st_chunks _ _ _ _ _ _ _ _ S).
      rewrite !elem_of_cons, elem_of_nil.
      intros [->|[->|[->|[]]]]; (eapply (not_in_queues client w); [exact Hq| |exact Hx]; done). }
    assert (Hqa : Qa UserEvent = Q UserEvent /\
      (if qos =? 0 then Qa WritePending = Q WritePending
       else exists p, Qa WritePending = Q WritePending ++ [p] /\
         chunk_at (w_chunks w1) p (ack_chunk (publish_ack_type qos) id))).
    { destruct (qos =? 0); [by subst Qa|]. destruct Hack as [-> Hp1]. unfold enqueue. rewrite upd_ne, upd_eq by done.
      split; [done|]. by exists p. }
    destruct Hqa as [Hqa Hwp].
    assert (Hue : enqueue UserEvent a Qa UserEvent = Q UserEvent ++ [a]) by (unfold enqueue; by rewrite upd_eq, Hqa).
    pose proof (st_queues _ _ _ _ _ _ _ _ S) as Hq1.
    destruct (user_callback_loop_spec client (Datatypes.S (size (w_chunks w1))) w1 cl1 (enqueue UserEvent a Qa) Hq1)
      as (w2 & cl2 & evss & E2 & S2 & _ & _ & _ & _ & Ht2 & Ev2).
    { rewrite <- Hm. exact (f_equal magic Hfl). }
    { rewrite Hue. intros x kx [Hx|Hx%list_elem_of_singleton]%elem_of_app Hkx.
      - apply (Htell x kx Hx). by apply Hsame.
      - subst x. unfold chunk_at in *. rewrite Hk in Hkx. injection Hkx as <-. by eexists. }
    { pose proof (qs_list _ _ _ _ _ Hq1 UserEvent) as Hl.
      pose proof (chain_size _ _ _ (il_chain _ _ _ _ _ Hl) (il_nodup _ _ _ _ _ Hl)). lia. }
    rewrite Hue in Ht2. apply Forall2_app_inv_l in Ht2 as (ev1 & ev2 & Ht1 & Ht2 & ->).
    apply Forall2_cons_inv_l in Ht2 as (e & l & (k' & Hk' & Htl) & Hn & ->). apply Forall2_nil_inv_l in Hn as ->.
    unfold chunk_at in Hk, Hk'. rewrite Hk in Hk'. injection Hk' as <-.
    assert (e = [ST_MQTT_EVENT_MSG_DELIVERED m]) as -> by exact (tells_read k _ _ eq_refl Htl Hev).
    exists a, w2, cl2, ev1, m. split_and!; [done| | |apply S2| | |done].
    + unfold enqueue. by rewrite upd_ne by done.
    + unfold _iot_mqtt_process_user_callback. run. exact E2.
    + eapply told_ext; [|exact Ht1]. intros x kx Hx. symmetry. by apply Hsame.
    + by rewrite Ev2, Ev, concat_app.
  - exfalso. change (packet_type k) with (Header.get_type b0) in Ht. rewrite Hty in Ht. by destruct Ht.
  - exfalso. apply Ht. exact Hty.
Qed.

(** ** Concrete instances *)

(** A message that arrived, a disconnection, and an acknowledgement that
    could not be written. *)
Definition sample_event (a : nat) : chunk :=
  match a with
  | 20%nat => received_chunk 50 [50; 6; 0; 1; 97; 0; 7; 104] 7
  | 21%nat => event_chunk MQTT_DISCONNECTED_PING_TIMEOUT None
  | _ => set_chunk_state PACKET_CHUNK_WRITE_FAIL (ack_chunk PUBACK 7)
  end.

Lemma process_user_callback_correct_witness :
  let w := sample_world (sample_env []) sample_event [] [] [20; 21; 22]%nat [] in
  let cl := sample_client [] [] [20; 21; 22]%nat in
  let Q := sample_lists [] [] [20; 21; 22]%nat in
  exists w' cl' evss, _iot_mqtt_process_user_callback (Some 0%nat) w = Ret (tt, w') /\
    steps 0 [20; 21; 22]%nat w w' cl cl' Q (upd UserEvent [] Q) /\
    w_sent w' = [] /\ w_received w' = [] /\ fields cl' = fields cl /\
    (forall a, a ∈ [20; 21; 22]%nat -> live (w_chunks w') a = None) /\
    told w [20; 21; 22]%nat evss /\ w_events w' = [] ++ concat evss.
Proof.
  intros w cl Q. refine (process_user_callback_correct 0 w cl Q _ eq_refl _).
  - apply sample_queues. distinct.
  - intros a k Ha Hk. change (a ∈ [20; 21; 22]%nat) in Ha. rewrite !elem_of_cons, elem_of_nil in Ha.
    destruct Ha as [->|[->|[->|[]]]]; vm_compute in Hk; injection Hk as <-.
    + eexists. apply tells_delivered; [reflexivity..|]. do 4 eexists.
      split; [reflexivity|]. split; [vm_compute; reflexivity|reflexivity].
    + eexists. apply tells_disconnected. reflexivity.
    + eexists. apply tells_nothing; vm_compute; discriminate.
Defined.

Lemma publish_delivered_witness :
  let w := sample_world sample_incoming sample_event [] [] [21%nat] [] in
  let cl := sample_client [] [] [21%nat] in
  let Q := sample_lists [] [] [21%nat] in
  exists r w1 cl1 Q1, @_iot_mqtt_run_read_stream SimPlatform true false 8 (Some 0%nat) w = Ret (r, w1) /\
    queues 0 (w_chunks w1) (w_clients w1) cl1 Q1 /\ fields cl1 = fields cl /\ w_events w1 = [] /\
    (lost_for_memory (w_env w) 8 1 r /\ Q1 = Q \/
     exists a w2 cl2 evss m,
       Q1 UserEvent = [21%nat] ++ [a] /\
       (exists p, Q1 WritePending = [] ++ [p] /\ chunk_at (w_chunks w1) p (ack_chunk PUBACK 7)) /\
       _iot_mqtt_process_user_callback (Some 0%nat) w1 = Ret (tt, w2) /\
       queues 0 (w_chunks w2) (w_clients w2) cl2 (upd UserEvent [] Q1) /\
       told w [21%nat] evss /\
       w_events w2 = [] ++ concat evss ++ [ST_MQTT_EVENT_MSG_DELIVERED m] /\
       carries m 1 0 [97] [104]).
Proof.
  intros w cl Q.
  refine (@publish_delivered SimPlatform true false SimIncoming SimPlatformLaws 8 0 w cl Q 0 1 1 0 7 [97] [104] [208] 7
    (Cursor [50; 6; 0; 1; 97; 0; 7; 104] 7) _ _ _ _ _ _ eq_refl eq_refl eq_refl eq_refl _ eq_refl _ _ _ _);
    try lia; try (vm_compute; (discriminate || reflexivity)).
  - apply sample_queues. distinct.
  - intros a k Ha Hk. apply list_elem_of_singleton in Ha as ->. vm_compute in Hk. injection Hk as <-.
    eexists. apply tells_disconnected. reflexivity.
Defined.
