(* ===== verification/ClientSafe.v ===== *)
(** * The engine never gets stuck

    An invariant of a connected client, kept by every operation of its engine
    in every order, under which every operation comes to an end, on a network
    that takes what it is given and brings whole, well-formed packets. *)

From S2P Require Import Prelude Cursor MqttPacket MqttCodec MqttPublish MqttRead.
From S2P Require Import Platform Heap World ClientQueue ClientInv Sample ClientRun ClientNet ClientWrite ClientReceive ClientCycle ClientRetry ClientRead ClientCallback.

Section safe.
Context `{P : Platform} `{CharModel} `{EvalOrder} (net_fuel client : nat).

(** ** The invariant *)

(** A packet that can be written, and shown to the user when that fails. *)
Definition writable (k : chunk) : Prop :=
  sendable k /\ chunk_size k <= Z.of_nat net_fuel /\ (packet_type k = PUBLISH -> exists m, message_of k m).

(** What is true of the chunks in a queue. *)
Definition fits (n : queue_name) (k : chunk) : Prop :=
  match n with
  | WritePending => chunk_state k = PACKET_CHUNK_WRITE_PENDING /\ writable k
  | AckPending => chunk_state k = PACKET_CHUNK_ACK_PENDING /\ writable k
  | UserEvent => have_owner k = 0 /\ exists evs, tells k evs
  end.

Record client_ok (w : world) (cl : MQTTClient) (Q : queue_name -> list nat) : Prop := {
  ok_queues : queues client (w_chunks w) (w_clients w) cl Q;
  ok_magic : magic cl = MQTT_CLIENT_STRUCT_MAGIC_NUMBER;
  ok_manage : client_manage_lock cl = free_mutex;
  ok_read_lock : read_lock cl = free_mutex;
  ok_write_lock : write_lock cl = free_mutex;
  ok_sent : exists t, last_sent cl = Some t;
  ok_received : exists t, last_received cl = Some t;
  ok_net : exists c, net_ctx cl = Some c;
  ok_chunks : forall n a k, a ∈ Q n -> chunk_at (w_chunks w) a k -> fits n k;
  ok_ping : exists p kp, ping_packet cl = Some p /\ chunk_at (w_chunks w) p kp /\ detached (w_chunks w) Q p /\
    have_owner kp <> 0 /\ packet_type kp = PINGREQ /\ writable kp
}.

(** The packet that [k] holds is the one that [k'] holds. *)
Definition same_packet (k k' : chunk) : Prop :=
  have_owner k' = have_owner k /\ packet_type k' = packet_type k /\
  chunk_data k' = chunk_data k /\ chunk_size k' = chunk_size k.

Lemma same_writable k k' : same_packet k k' -> writable k -> writable k'.
Proof.
  intros (Ho & Ht & Hd & Hs) (Hsend & Hf & Hm). unfold writable, sendable, message_of in *. by rewrite Ht, Hd, Hs.
Qed.

Lemma tells_wf k : chunk_state k <> EVENT_CHUNK_DISCONNECTED ->
  chunk_state k = PACKET_CHUNK_READ_COMPLETED \/ chunk_state k = PACKET_CHUNK_WRITE_FAIL \/ chunk_state k = PACKET_CHUNK_TIMEOUT ->
  (packet_type k = PUBLISH -> exists m, message_of k m) -> exists evs, tells k evs.
Proof.
  intros Hne Hs Hm. destruct (Z.eq_dec (packet_type k) PUBLISH) as [Ht|Ht].
  - destruct (Hm Ht) as [m Hmsg].
    destruct Hs as [Hs|[Hs|Hs]]; eexists; [eapply tells_delivered|eapply tells_failed|eapply tells_timeout]; done.
  - eexists. by apply tells_nothing.
Qed.

(** A step that puts into the queues nothing but what may be there, and lets
    the ping be a ping. *)
Lemma ok_steps w w' cl cl' Q Q' t :
  client_ok w cl Q -> steps client t w w' cl cl' Q Q' ->
  fields cl' = fields cl \/ fields cl' = fields (disconnected cl) ->
  (forall n a, a ∈ Q' n -> a ∈ Q n /\ a ∉ t \/ exists k, chunk_at (w_chunks w') a k /\ fits n k) ->
  (forall a k, a ∈ t -> chunk_at (w_chunks w) a k -> have_owner k <> 0 -> packet_type k = PINGREQ ->
     exists k', chunk_at (w_chunks w') a k' /\ same_packet k k') ->
  client_ok w' cl' Q'.
Proof.
  intros Hok S Hf Hin Hping. pose proof Hok as [H1 H2 H3 H4 H5 H6 H7 H8 H9 (p & kp & Hp & Hkp & Hd & Ho & Ht & Hw)].
  assert (Hsel : forall {A} (f : MQTTClient -> A), (forall c, f (fields c) = f c) -> (forall c, f (set_isconnected 0 c) = f c) ->
    f cl' = f cl).
  { intros A f Hff Hfi. rewrite <- (Hff cl'). destruct Hf as [-> | ->]; rewrite Hff; [done|].
    unfold disconnected. destruct (isconnected cl =? 0); [done|apply Hfi]. }
  split.
  - apply S.
  - by rewrite (Hsel _ magic).
  - by rewrite (Hsel _ client_manage_lock).
  - by rewrite (Hsel _ read_lock).
  - by rewrite (Hsel _ write_lock).
  - by rewrite (Hsel _ last_sent).
  - by rewrite (Hsel _ last_received).
  - by rewrite (Hsel _ net_ctx).
  - intros n a k Ha Hk. destruct (Hin n a Ha) as [[HQ Hnt]|(k' & Hk' & Hfit)].
    + apply (H9 n a k HQ). by apply (st_chunks _ _ _ _ _ _ _ _ S).
    + unfold chunk_at in *. rewrite Hk in Hk'. by injection Hk' as ->.
  - exists p. destruct (decide (p ∈ t)) as [Hpt|Hpt].
    + destruct (Hping p kp Hpt Hkp Ho Ht) as (k' & Hk' & Hs). exists k'. pose proof Hs as (E1 & E2 & _).
      split_and!; [by rewrite (Hsel _ ping_packet)|done|by apply (st_detached _ _ _ _ _ _ _ _ S)|congruence|congruence|by eapply same_writable].
    + exists kp. split_and!; try done; [by rewrite (Hsel _ ping_packet)| |by apply (st_detached _ _ _ _ _ _ _ _ S)].
      by apply (st_chunks _ _ _ _ _ _ _ _ S).
Qed.

(** ** Membership in the queues *)

Lemma in_removed w cl Q n l1 a l2 n' b :
  queues client (w_chunks w) (w_clients w) cl Q -> Q n = l1 ++ a :: l2 ->
  b ∈ upd n (l1 ++ l2) Q n' -> b ∈ Q n' /\ b <> a.
Proof.
  intros Hq El. pose proof (il_nodup _ _ _ _ _ (qs_list _ _ _ _ _ Hq n)) as Hnd. rewrite El in Hnd.
  apply NoDup_app in Hnd as (_ & Hn1 & Hn2). apply NoDup_cons in Hn2 as [Hn2 _].
  assert (Ha : a ∈ Q n) by (rewrite El; apply elem_of_app; right; left).
  unfold upd. case_decide as Hn; [subst n'|].
  - rewrite El. intros Hb. split; [set_solver|]. intros ->. apply elem_of_app in Hb as [Hb|Hb]; [|done].
    apply (Hn1 a Hb). left.
  - intros Hb. split; [done|]. intros ->. by apply Hn, (qs_disjoint _ _ _ _ _ Hq _ _ a).
Qed.

Lemma in_enqueue n a Q n' b : b ∈ enqueue n a Q n' -> b ∈ Q n' \/ b = a /\ n' = n.
Proof.
  unfold enqueue, upd. case_decide; [subst|by left].
  rewrite elem_of_app, list_elem_of_singleton. tauto.
Qed.

Lemma in_place d a Q n' b : b ∈ place d a Q n' -> b ∈ Q n' \/ b = a /\ d = Some n'.
Proof. destruct d as [n|]; simpl; [|by left]. intros [?|[-> ->]]%in_enqueue; auto. Qed.

Lemma not_live_chunk ch a k : live ch a = None -> chunk_at ch a k -> False.
Proof. intros Ha (x & Hx)%chunk_at_live. congruence. Qed.

Lemma event_fits d reason : fits UserEvent (event_chunk reason d).
Proof. split; [done|]. eexists. by apply tells_disconnected. Qed.

(** ** Writing *)

Lemma failed_fits r k n : writable k -> to_user k = Some n -> fits n (failed r k).
Proof.
  unfold to_user. intros (_ & _ & Hm) Ht. destruct (Z.eqb_spec (have_owner k) 0) as [Ho|]; [|done].
  injection Ht as <-. split; [done|]. apply tells_wf; [done|by auto|]. exact Hm.
Qed.

Lemma write_ok `{!PlatformLaws P} `{!NetProgress P} w cl Q :
  client_ok w cl Q ->
  exists r w' cl' Q', _iot_mqtt_run_write_stream net_fuel (Some client) w = Ret (r, w') /\ client_ok w' cl' Q'.
Proof.
  intros Hok. pose proof Hok as [Hq Hm Hml Hrl Hwl [ts Hts] _ [c Hc] Hch _].
  destruct (write_stream_spec net_fuel client w cl Q c ts Hq Hm Hml Hrl Hwl Hts Hc)
    as (r & w' & cl' & Q' & t & E & S & _ & _ & Ho).
  { intros a k Ha Hk. destruct (Hch WritePending a k) as [_ (? & ? & _)]; [|done|done].
    pose proof (il_hd _ _ _ _ _ (qs_list _ _ _ _ _ Hq WritePending)) as Hh.
    change (head (queue_of WritePending cl)) with (head (write_pending_queue cl)) in Hh. rewrite Ha in Hh.
    destruct (Q WritePending); [done|]. injection Hh as ->. left. }
  exists r, w', cl', Q'. split; [exact E|]. destruct (Q WritePending) as [|a l] eqn:El.
  { destruct Ho as (-> & -> & -> & _ & Hf). eapply ok_steps; [exact Hok|exact S|by left| |].
    - intros n a Ha. left. split; [done|apply not_elem_of_nil].
    - by intros a k ?%elem_of_nil. }
  destruct Ho as (k & Hk & Ho).
  destruct (Hch WritePending a k) as [Hst Hwr]; [rewrite El; left|done|].
  assert (Hrem : forall n b, b ∈ upd WritePending l Q n -> b ∈ Q n /\ b <> a).
  { intros n b. by apply (in_removed w cl Q WritePending [] a l). }
  destruct Ho as [Hcon Hs Ht Hf Hfate|Hcon Hs Ht Hf HQ' Hka|s e Q2 Hcon Hs Hpre Ht Hea He Hf Hka HQ2 HQ']; subst t.
  - eapply ok_steps; [exact Hok|exact S|by left| |].
    + intros n b Hb. unfold has_fate in Hfate.
      destruct (post_write_fate k); [destruct Hfate as [-> _]|destruct Hfate as [-> _]|destruct Hfate as [-> (x & ex & _ & Hka)]].
      1-2: left; apply Hrem in Hb; set_solver.
      apply in_enqueue in Hb as [Hb|[-> ->]]; [left; apply Hrem in Hb; set_solver|].
      right. eexists. split; [exact Hka|]. split; [done|]. by eapply same_writable.
    + intros b kb Hb Hkb Hown Hty. apply list_elem_of_singleton in Hb as ->.
      unfold chunk_at in Hk, Hkb. rewrite Hk in Hkb. injection Hkb as <-.
      unfold post_write_fate in Hfate. rewrite Hty in Hfate. destruct Hfate as [_ (x & ex & _ & Hka)].
      eexists. split; [exact Hka|done].
  - eapply ok_steps; [exact Hok|exact S|by left| |].
    + subst Q'. intros n b [Hb|[-> Hn]]%in_place; [left; apply Hrem in Hb; set_solver|]. right.
      eexists. split; [exact Hka|]. by apply failed_fits.
    + intros b kb Hb Hkb _ _. apply list_elem_of_singleton in Hb as ->.
      unfold chunk_at in Hk, Hkb. rewrite Hk in Hkb. injection Hkb as <-. eexists. split; [exact Hka|done].
  - eapply ok_steps; [exact Hok|exact S|by right| |].
    + assert (Hplace : forall n b, b ∈ place (to_user k) a (upd WritePending l Q) n ->
        b ∈ Q n /\ b <> a \/ exists kb, chunk_at (w_chunks w') b kb /\ fits n kb).
      { intros n b [Hb|[-> Hn]]%in_place; [left; by apply Hrem|]. right.
        eexists. split; [exact Hka|]. by apply failed_fits. }
      intros n b Hb.
      assert (Hb' : b ∈ place (to_user k) a (upd WritePending l Q) n \/
        exists kb, chunk_at (w_chunks w') b kb /\ fits n kb).
      { destruct HQ' as [HQ'|(HQ' & d & Hke)]; subst Q' Q2; [by left|].
        apply in_enqueue in Hb as [Hb|[-> ->]]; [by left|right]. eexists. split; [exact Hke|apply event_fits]. }
      destruct Hb' as [Hb'|?]; [|by right].
      destruct (Hplace n b Hb') as [[HQ Hne]|?]; [|by right]. left. split; [done|].
      rewrite !elem_of_cons, elem_of_nil. intros [?|[->|[]]]; [done|].
      by destruct (is_list_live _ _ _ _ _ _ (qs_list _ _ _ _ _ Hq n) HQ) as [x ?]; congruence.
    + intros b kb Hb Hkb _ _. rewrite !elem_of_cons, elem_of_nil in Hb. destruct Hb as [->|[->|[]]].
      * unfold chunk_at in Hk, Hkb. rewrite Hk in Hkb. injection Hkb as <-. eexists. split; [exact Hka|done].
      * by destruct (not_live_chunk _ _ _ He Hkb).
Qed.

(** ** Callbacks, retries and keep-alive *)

Lemma callback_ok w cl Q :
  client_ok w cl Q ->
  exists w' cl' Q', _iot_mqtt_process_user_callback (Some client) w = Ret (tt, w') /\ client_ok w' cl' Q'.
Proof.
  intros Hok. pose proof Hok as [Hq Hm _ _ _ _ _ _ Hch _].
  destruct (user_callback_spec client w cl Q Hq Hm) as (w' & cl' & evss & E & S & _ & _ & Hf & _).
  { intros a k Ha Hk. by destruct (Hch UserEvent a k Ha Hk). }
  exists w', cl', (upd UserEvent [] Q). split; [exact E|]. eapply ok_steps; [exact Hok|exact S|by left| |].
  - intros n a. unfold upd. case_decide as Hn; [by intros ?%elem_of_nil|]. intros Ha. left. split; [done|].
    intros Hu. by apply Hn, (qs_disjoint _ _ _ _ _ Hq _ _ a).
  - intros a k Ha Hk Hown. by destruct (Hch UserEvent a k Ha Hk).
Qed.

Lemma retry_fits k n : writable k -> (retry_outcome k).2 = Some n -> fits n (retry_outcome k).1.
Proof.
  intros Hw. assert (Hm : packet_type k = PUBLISH -> exists m, message_of k m) by apply Hw.
  unfold retry_outcome. destruct (packet_type k =? CONNECT); cbn [fst snd];
    [|destruct (retry_count _ <? _); cbn [fst snd]].
  - destruct (Z.eqb_spec (have_owner k) 0); [|done]. intros [= <-]. split; [done|]. apply tells_wf; [done|auto|exact Hm].
  - intros [= <-]. split; [done|]. by eapply same_writable.
  - destruct (Z.eqb_spec (have_owner (set_retry_count (retry_count k + 1) k)) 0); [|done].
    intros [= <-]. split; [done|]. apply tells_wf; [done|auto|exact Hm].
Qed.

Lemma retry_same k : same_packet k (retry_outcome k).1.
Proof. unfold retry_outcome. by repeat case_match. Qed.

Lemma pending_ok w cl Q :
  client_ok w cl Q ->
  exists w' cl' Q', _iot_mqtt_process_pending_packets (Some client) w = Ret (tt, w') /\ client_ok w' cl' Q'.
Proof.
  intros Hok. pose proof Hok as [Hq Hm _ _ _ _ _ _ Hch _].
  destruct (pending_packets_spec client w cl Q Hq Hm) as (w' & cl' & Q' & E & S & _ & Hf & [Ra Rw Ru Rc]).
  exists w', cl', Q'. split; [exact E|]. eapply ok_steps; [exact Hok|exact S|by left| |].
  - assert (Hother : forall n a, n <> AckPending -> a ∈ Q n -> a ∉ Q AckPending).
    { intros n a Hn Ha Ha'. by apply Hn, (qs_disjoint _ _ _ _ _ Hq _ _ a). }
    assert (Hdest : forall n a, a ∈ filter (fun a => destination w a = Some n) (Q AckPending) ->
      exists k, chunk_at (w_chunks w') a k /\ fits n k).
    { intros n a [Hd Ha]%list_elem_of_filter. unfold destination in Hd.
      destruct (view (w_chunks w) a) as [k|] eqn:Ek; [|done]. destruct (expired (w_env w) k) eqn:Ex; [|done].
      pose proof (Rc a k Ha Ek) as Hk'. rewrite Ex in Hk'. eexists. split; [exact Hk'|].
      apply retry_fits; [|done]. by apply (Hch AckPending a k Ha Ek). }
    intros [] a.
    + rewrite Rw. intros [Ha|Ha]%elem_of_app; [left|right; by apply Hdest]. split; [done|]. by apply (Hother WritePending a).
    + rewrite Ra. intros [Hx Ha]%list_elem_of_filter. right.
      destruct (queues_view client _ _ _ _ AckPending a Hq Ha) as [k Hk].
      unfold expired_at in Hx. rewrite Hk in Hx. exists k. pose proof (Rc a k Ha Hk) as Hk'. rewrite Hx in Hk'.
      split; [done|]. by apply (Hch AckPending a k Ha Hk).
    + rewrite Ru. intros [Ha|Ha]%elem_of_app; [left|right; by apply Hdest]. split; [done|]. by apply (Hother UserEvent a).
  - intros a k Ha Hk _ _. eexists. split; [by apply Rc|]. destruct (expired (w_env w) k); [apply retry_same|done].
Qed.

Lemma alive_ok `{!PlatformLaws P} w cl Q :
  client_ok w cl Q ->
  exists r w' cl' Q', _iot_mqtt_check_alive (Some client) w = Ret (r, w') /\ client_ok w' cl' Q'.
Proof.
  intros Hok. pose proof Hok as [Hq Hm Hml Hrl Hwl [ts Hts] [tr Htr] _ Hch (p & kp & Hp & Hkp & Hd & Hown & Hty & Hwr)].
  pose proof (chunk_at_live _ _ _ Hkp) as [x Hlive]. set (kp0 := set_next x kp) in *.
  assert (Hfree : chunk_state kp = PACKET_CHUNK_INIT \/ chunk_state kp = PACKET_CHUNK_ACKNOWLEDGED \/
    chunk_state kp = PACKET_CHUNK_TIMEOUT -> free_of Q p).
  { intros Hs n Hin. specialize (Hch n p kp Hin Hkp).
    destruct n, Hch as [Hst _]; try done; rewrite Hst in Hs; by destruct Hs as [?|[?|?]]. }
  destruct (check_alive_spec client w cl Q ts tr p kp0 Hq Hm Hml Hrl Hwl Hts Htr Hp Hlive)
    as (r & w' & cl' & t & Q' & E & _ & S & Ho).
  { intros Hs. specialize (Hfree Hs). split_and!; [done|by apply Hd|done]. }
  exists r, w', cl', Q'. split; [exact E|].
  change (chunk_state kp0) with (chunk_state kp) in Ho.
  assert (Hnone : r = 0 /\ t = [] /\ Q' = Q /\ w_chunks w' = w_chunks w /\ fields cl' = fields cl -> client_ok w' cl' Q').
  { intros (-> & -> & -> & _ & Hf). eapply ok_steps; [exact Hok|exact S|by left| |].
    - intros n a Ha. left. split; [done|apply not_elem_of_nil].
    - by intros a k ?%elem_of_nil. }
  assert (Hsame : forall k', same_packet kp k' -> chunk_at (w_chunks w') p k' ->
    forall a k, a = p -> chunk_at (w_chunks w) a k -> exists k', chunk_at (w_chunks w') a k' /\ same_packet k k').
  { intros k' Hs Hk' a k -> Hk. exists k'. split; [done|]. unfold chunk_at in Hk, Hkp. rewrite Hkp in Hk. by injection Hk as <-. }
  assert (Hqueue : r = 0 /\ t = [p] /\ Q' = enqueue WritePending p Q /\ fields cl' = fields cl /\
    chunk_at (w_chunks w') p (set_retry_count 0 (set_chunk_state PACKET_CHUNK_WRITE_PENDING kp0)) -> free_of Q p -> client_ok w' cl' Q').
  { intros (-> & -> & -> & Hf & Hk') Hfr. eapply ok_steps; [exact Hok|exact S|by left| |].
    - intros n a [Ha|[-> ->]]%in_enqueue.
      + left. split; [done|]. rewrite list_elem_of_singleton. intros ->. by apply (Hfr n).
      + right. eexists. split; [exact Hk'|]. split; [done|]. by apply (same_writable kp).
    - intros a k Ha Hk _ _. apply list_elem_of_singleton in Ha. refine (Hsame _ _ Hk' a k Ha Hk); done. }
  destruct (negb _ || negb _); [|by apply Hnone].
  destruct (chunk_state kp); auto 10.
  destruct Ho as (-> & Hf & Hk' & e & -> & Hep & He & HQ').
  eapply ok_steps; [exact Hok|exact S|by right| |].
  - assert (Hold : forall n a, a ∈ Q n -> a ∈ Q n /\ a ∉ [p; e]).
    { intros n a Ha. split; [done|]. rewrite !elem_of_cons, elem_of_nil. intros [->|[->|[]]].
      - by apply (Hfree ltac:(auto) n).
      - by destruct (is_list_live _ _ _ _ _ _ (qs_list _ _ _ _ _ Hq n) Ha) as [y ?]; congruence. }
    intros n a Ha. destruct HQ' as [->|(-> & d & Hke)]; [left; by apply Hold|].
    apply in_enqueue in Ha as [Ha|[-> ->]]; [left; by apply Hold|]. right. eexists. split; [exact Hke|apply event_fits].
  - intros a k Ha Hk _ _. rewrite !elem_of_cons, elem_of_nil in Ha. destruct Ha as [Ha|[->|[]]].
    + refine (Hsame _ _ Hk' a k Ha Hk); done.
    + by destruct (not_live_chunk _ _ _ He Hk).
Qed.

(** ** Reading *)

(** What the network has for a read: nothing, or a packet that is as the
    standard says and not longer than the fuel. *)
Definition arrived `{!Incoming P} (c : nat) (e : env) : Prop :=
  (net_read_poll c 0 e).1 <= 0 \/
  exists b0 body rest id cur,
    is_byte b0 /\ zlen body <= max_remaining_length /\ incoming e = wire_packet b0 body ++ rest /\
    MQTTPacket_getPacketId (Cursor (wire_packet b0 body) 0) = Ret (id, cur) /\
    zlen (wire_packet b0 body) <= Z.of_nat net_fuel /\
    let k := received_chunk b0 (wire_packet b0 body) id in
    answerable k /\ (packet_type k = PUBLISH -> exists m, message_of k m).

Lemma fresh_not_in w cl Q n a : queues client (w_chunks w) (w_clients w) cl Q -> w_chunks w !! a = None -> a ∉ Q n.
Proof. intros Hq Ha. by apply (not_in_queues client w cl Q a Hq Ha). Qed.

Lemma fresh_not_chunk (w : world) a k : w_chunks w !! a = None -> chunk_at (w_chunks w) a k -> False.
Proof. intros Ha. apply not_live_chunk. unfold live. by rewrite Ha. Qed.

Lemma ack_fits t id : 4 <= Z.of_nat net_fuel -> t <> PUBLISH -> fits WritePending (ack_chunk t id).
Proof.
  intros Hf Ht. split; [done|]. split_and!; [|exact Hf|done]. by eexists.
Qed.

Lemma follow_up_fits t k : 4 <= Z.of_nat net_fuel -> t <> PUBLISH -> fits WritePending (follow_up t k).
Proof.
  intros Hf Ht. split; [done|]. split_and!; [|exact Hf|done]. by eexists.
Qed.

Lemma with_result_same rc k : same_packet k (acknowledged rc k).
Proof. by destruct rc. Qed.

(** The packets that waited: only the one that is answered is touched, and it
    leaves the queue. *)
Lemma answered_ok w cl Q type id l1 b l2 kb :
  client_ok w cl Q -> first_of (w_chunks w) type id (Q AckPending) l1 b l2 kb ->
  (forall n a, a ∈ upd AckPending (l1 ++ l2) Q n -> a ∈ Q n /\ a <> b) /\ writable kb.
Proof.
  intros Hok [El Hb _ _ _]. pose proof Hok as [Hq _ _ _ _ _ _ _ Hch _]. split.
  - intros n a. by apply (in_removed w cl Q AckPending l1 b l2).
  - apply (Hch AckPending b kb); [|done]. rewrite El. apply elem_of_app. right. left.
Qed.

Lemma handled_ok e w w' cl cl' Q Q' t a p k b0 :
  4 <= Z.of_nat net_fuel ->
  client_ok w cl Q -> steps client (a :: t) w w' cl cl' Q Q' -> fields cl' = fields cl ->
  w_chunks w !! a = None -> w_chunks w !! p = None ->
  chunk_state k = PACKET_CHUNK_READ_COMPLETED -> have_owner k = 0 -> (packet_type k = PUBLISH -> exists m, message_of k m) ->
  handled e w w' Q Q' t a p k b0 -> client_ok w' cl' Q'.
Proof.
  intros Hf4 Hok S Hf Ha Hp Hst Ho Hm Hh. pose proof (ok_queues _ _ _ Hok) as Hq.
  assert (Hout : forall n x, x ∈ Q n -> x <> a /\ x <> p).
  { intros n x Hx. split; intros ->; by apply (fresh_not_in w cl Q n _ Hq) in Hx. }
  assert (Hnone : forall n x, x ∈ Q n -> x ∈ Q n /\ x ∉ [a; a] \/ exists kx, chunk_at (w_chunks w') x kx /\ fits n kx).
  { intros n x Hx. left. split; [done|]. pose proof (Hout n x Hx). set_solver. }
  assert (Hnew : forall x kx, x ∈ [a; a] -> chunk_at (w_chunks w) x kx -> have_owner kx <> 0 ->
    packet_type kx = PINGREQ -> exists k', chunk_at (w_chunks w') x k' /\ same_packet kx k').
  { intros x kx Hx Hkx. exfalso. apply (fresh_not_chunk w x kx); [|done]. set_solver. }
  assert (Hhand : forall l1 b l2 kb, first_of (w_chunks w) (answered_type (packet_type k)) (packet_id k) (Q AckPending) l1 b l2 kb ->
    forall x kx, x ∈ [a; a; b] -> chunk_at (w_chunks w) x kx -> have_owner kx <> 0 ->
    packet_type kx = PINGREQ -> exists k', chunk_at (w_chunks w') x k' /\ same_packet kx k').
  { intros l1 b l2 kb [_ Hb Htb _ _] x kx Hx Hkx _ Hping. exfalso. destruct (decide (x = b)) as [->|Hxb].
    - unfold chunk_at in *. rewrite Hb in Hkx. injection Hkx as <-. rewrite Hping in Htb.
      unfold answered_type in Htb. by destruct (packet_type k =? PUBREC).
    - apply (fresh_not_chunk w x kx); [|done]. set_solver. }
  destruct Hh as [type id rc Hack Hrc Hdead Hout'|Hty -> Hpub|Hty Hdead Hout'|Hnack _ _ _ Hdead -> ->].
  - destruct Hout' as [_ -> ->|l1 b l2 kb Hfo -> -> Hc].
    + eapply ok_steps; [exact Hok|exact S|by left|by apply Hnone|by apply Hnew].
    + destruct (answered_ok w cl Q type id l1 b l2 kb Hok Hfo) as [Hrem Hwr].
      eapply ok_steps; [exact Hok|exact S|by left| |].
      * intros n x Hx. left. apply Hrem in Hx as [Hx Hxb]. split; [done|]. pose proof (Hout n x Hx). set_solver.
      * intros x kx Hx Hkx Hown _. destruct (decide (x = b)) as [->|Hxb].
        -- pose proof (fo_at _ _ _ _ _ _ _ _ Hfo) as Hkb. unfold chunk_at in Hkb, Hkx. rewrite Hkb in Hkx.
           injection Hkx as <-. unfold completed in Hc. rewrite (proj2 (Z.eqb_neq _ _) Hown) in Hc.
           eexists. split; [exact Hc|apply with_result_same].
        -- exfalso. apply (fresh_not_chunk w x kx); [|done]. set_solver.
  - assert (Hsafe : forall x kx, x ∈ [a; a; p] -> chunk_at (w_chunks w) x kx -> have_owner kx <> 0 ->
      packet_type kx = PINGREQ -> exists k', chunk_at (w_chunks w') x k' /\ same_packet kx k').
    { intros x kx Hx Hkx. exfalso. apply (fresh_not_chunk w x kx); [|done]. set_solver. }
    eapply ok_steps; [exact Hok|exact S|by left| |exact Hsafe].
    assert (Hold : forall n x, x ∈ Q n -> x ∈ Q n /\ x ∉ [a; a; p]).
    { intros n x Hx. split; [done|]. pose proof (Hout n x Hx). set_solver. }
    destruct Hpub as [(_ & _ & -> & _)|(Q1 & HQ1 & Hdup)]; [intros n x Hx; left; by apply Hold|].
    assert (H1 : forall n x, x ∈ Q1 n -> x ∈ Q n /\ x ∉ [a; a; p] \/ exists kx, chunk_at (w_chunks w') x kx /\ fits n kx).
    { destruct (qos k =? 0); [subst Q1; intros n x Hx; left; by apply Hold|]. destruct HQ1 as [-> Hkp].
      intros n x [Hx|[-> ->]]%in_enqueue; [left; by apply Hold|right]. eexists. split; [exact Hkp|].
      apply ack_fits; [done|]. unfold publish_ack_type. by destruct (qos k =? 1). }
    destruct (Header.get_dup b0 =? 0); destruct Hdup as [-> Hk']; [|exact H1].
    intros n x [Hx|[-> ->]]%in_enqueue; [by apply H1|right]. exists k. split; [done|]. split; [done|].
    apply tells_wf; [by rewrite Hst|by left|done].
  - destruct Hout' as [_ -> ->|l1 b l2 kb Hfo -> -> Hc|l1 b l2 kb Hfo -> -> Hc].
    + eapply ok_steps; [exact Hok|exact S|by left|by apply Hnone|by apply Hnew].
    + destruct (answered_ok w cl Q _ _ l1 b l2 kb Hok Hfo) as [Hrem _].
      eapply ok_steps; [exact Hok|exact S|by left| |by eapply Hhand].
      intros n x [Hx|[-> ->]]%in_enqueue.
      * left. apply Hrem in Hx as [Hx Hxb]. split; [done|]. pose proof (Hout n x Hx). set_solver.
      * right. eexists. split; [exact Hc|]. apply follow_up_fits; [done|].
        unfold answer_type. by destruct (packet_type k =? PUBREC).
    + destruct (answered_ok w cl Q _ _ l1 b l2 kb Hok Hfo) as [Hrem _].
      eapply ok_steps; [exact Hok|exact S|by left| |by eapply Hhand].
      intros n x Hx. left. apply Hrem in Hx as [Hx Hxb]. split; [done|]. pose proof (Hout n x Hx). set_solver.
  - eapply ok_steps; [exact Hok|exact S|by left|by apply Hnone|by apply Hnew].
Qed.

Lemma read_ok `{!Incoming P} `{!PlatformLaws P} w cl Q :
  4 <= Z.of_nat net_fuel ->
  client_ok w cl Q -> (forall c, net_ctx cl = Some c -> arrived c (w_env w)) ->
  exists r w' cl' Q', _iot_mqtt_run_read_stream net_fuel (Some client) w = Ret (r, w') /\ client_ok w' cl' Q'.
Proof.
  intros Hf4 Hok Harr. pose proof Hok as [Hq Hm Hml Hrl Hwl _ [tr Htr] [c Hc] _ _].
  assert (Hidle : (isconnected cl <> 0 -> (net_read_poll c 0 (w_env w)).1 <= 0) ->
    exists r w' cl' Q', _iot_mqtt_run_read_stream net_fuel (Some client) w = Ret (r, w') /\ client_ok w' cl' Q').
  { intros Hrc. destruct (net_read_poll c 0 (w_env w)) as [rc e] eqn:Ep.
    destruct (read_stream_nothing net_fuel client w cl Q c rc e Hq Hm Hrl Hwl Hc Ep Hrc)
      as (r & w' & cl' & Q' & t & E & S & _ & Ho).
    exists r, w', cl', Q'. split; [exact E|].
    assert (Hsame : t = [] /\ Q' = Q /\ fields cl' = fields cl -> client_ok w' cl' Q').
    { intros (-> & -> & Hf). eapply ok_steps; [exact Hok|exact S|by left| |].
      - intros n a Ha. left. split; [done|apply not_elem_of_nil].
      - by intros a k ?%elem_of_nil. }
    destruct (isconnected cl =? 0); [apply Hsame, Ho|]. destruct (rc =? 0); [apply Hsame, Ho|].
    destruct Ho as (_ & Hf & a & Ha & -> & HQ').
    eapply ok_steps; [exact Hok|exact S|by right| |].
    - assert (Hold : forall n x, x ∈ Q n -> x ∈ Q n /\ x ∉ [a]).
      { intros n x Hx. split; [done|]. rewrite list_elem_of_singleton. intros Ex. subst x.
        by destruct (is_list_live _ _ _ _ _ _ (qs_list _ _ _ _ _ Hq n) Hx) as [y ?]; congruence. }
      intros n x Hx. destruct HQ' as [->|(-> & d & Hka)]; [left; by apply Hold|].
      apply in_enqueue in Hx as [Hx|[-> ->]]; [left; by apply Hold|right]. eexists. split; [exact Hka|apply event_fits].
    - intros x kx Hx Hkx. apply list_elem_of_singleton in Hx as ->. by destruct (not_live_chunk _ _ _ Ha Hkx). }
  destruct (Z.eq_dec (isconnected cl) 0) as [Hcon|Hcon]; [by apply Hidle|].
  destruct (Harr c Hc) as [Hrc|(b0 & body & rest & id & cur & Hb0 & Hmax & Hin & Hid & Hf & Hans & Hmsg)]; [by apply Hidle|].
  destruct (read_stream_spec net_fuel client w cl Q c tr b0 body rest id cur Hq Hm Hml Hrl Htr Hcon Hc Hb0 Hmax Hin Hid Hf Hans)
    as (r & w' & cl' & Q' & t & E & S & _ & _ & Hfl & Ho).
  exists r, w', cl', Q'. split; [exact E|]. destruct Ho as [e1 _ _ _ -> Hfresh _ _|t1 a p e1 e2 _ _ _ _ -> Ha Hp _ _ Hh].
  - eapply ok_steps; [exact Hok|exact S|by left| |].
    + intros n x Hx. left. split; [done|]. intros Ht. by apply (fresh_not_in w cl Q n x Hq (Hfresh x Ht)).
    + intros x kx Hx Hkx. by destruct (fresh_not_chunk w x kx (Hfresh x Hx) Hkx).
  - exact (handled_ok e2 w w' cl cl' Q Q' t1 a p (received_chunk b0 (wire_packet b0 body) id) b0 Hf4 Hok S Hfl Ha Hp eq_refl eq_refl Hmsg Hh).
Qed.

(** ** Any operation, in any order *)

(** The operations of the engine, and the platform going on by itself: time
    passes, packets arrive, memory comes and goes. *)
Inductive operation := Write | Read | Retry | KeepAlive | Callback | Elapse (e : env).

Definition run_operation (o : operation) : st world unit :=
  match o with
  | Write => _iot_mqtt_run_write_stream net_fuel (Some client);; mret tt
  | Read => _iot_mqtt_run_read_stream net_fuel (Some client);; mret tt
  | Retry => _iot_mqtt_process_pending_packets (Some client)
  | KeepAlive => _iot_mqtt_check_alive (Some client);; mret tt
  | Callback => _iot_mqtt_process_user_callback (Some client)
  | Elapse e => modify (with_env e)
  end.

Fixpoint run_operations (l : list operation) : st world unit :=
  match l with [] => mret tt | o :: l => run_operation o;; run_operations l end.

(** Whenever the engine reads, the network has what [arrived] says. *)
Fixpoint served `{!Incoming P} (l : list operation) (w : world) : Prop :=
  match l with
  | [] => True
  | o :: l =>
      (o = Read -> forall cl c, live (w_clients w) client = Some cl -> net_ctx cl = Some c -> arrived c (w_env w)) /\
      forall w', run_operation o w = Ret (tt, w') -> served l w'
  end.

Lemma operation_ok `{!Incoming P} `{!PlatformLaws P} `{!NetProgress P} o w cl Q :
  4 <= Z.of_nat net_fuel -> client_ok w cl Q ->
  (o = Read -> forall c, net_ctx cl = Some c -> arrived c (w_env w)) ->
  exists w' cl' Q', run_operation o w = Ret (tt, w') /\ client_ok w' cl' Q'.
Proof.
  intros Hf4 Hok Harr. destruct o as [| | | | |e]; cbn [run_operation].
  - destruct (write_ok w cl Q Hok) as (r & w' & cl' & Q' & E & Hok'). exists w', cl', Q'. by rewrite (bind_ret _ _ _ _ _ E).
  - destruct (read_ok w cl Q Hf4 Hok (Harr eq_refl)) as (r & w' & cl' & Q' & E & Hok'). exists w', cl', Q'.
    by rewrite (bind_ret _ _ _ _ _ E).
  - by apply (pending_ok w cl Q).
  - destruct (alive_ok w cl Q Hok) as (r & w' & cl' & Q' & E & Hok'). exists w', cl', Q'. by rewrite (bind_ret _ _ _ _ _ E).
  - by apply (callback_ok w cl Q).
  - exists (with_env e w), cl, Q. split; [done|]. by destruct Hok.
Qed.
End safe.

(** C1: The engine never gets stuck, on a network that keeps its promises.
    From a client in a proper state ([client_ok]: the three chunk queues
    well-formed and disjoint, the locks free, every queued chunk in the state
    that its queue means, the ping packet alive, and [net_fuel] rounds of the
    network loops enough for each packet) every finite sequence of operations of
    the engine, in any order, with the platform going anywhere in between, runs
    to its end and leaves the client in a proper state: no loop goes on for ever,
    no lock is left taken, no null pointer is followed and no freed chunk is
    touched.  Allocations may fail and timers may run out at any time, and a
    write may fail or be partial.

    What it asks of the network: a write of at least a byte never returns 0
    ([NetProgress]); what has arrived is read in order, at least a byte at a time
    ([Incoming]); and at the time of each read ([served]) either the poll finds
    nothing or fails, or a whole packet is there that is as the standard says.
    [port_net_mbedtls.c] does not promise that much: it returns 0 when TLS wants
    to wait and at the end of the stream, and there the read goes on for ever
    ([end_of_stream_hangs]); a connection that breaks off inside a packet and a
    malformed packet are outside this theorem. *)
Theorem engine_never_stuck `{P : Platform} `{CharModel} `{EvalOrder} `{!Incoming P} `{!PlatformLaws P} `{!NetProgress P}
    net_fuel client l w cl Q :
  4 <= Z.of_nat net_fuel -> client_ok net_fuel client w cl Q -> served net_fuel client l w ->
  exists w' cl' Q', run_operations net_fuel client l w = Ret (tt, w') /\ client_ok net_fuel client w' cl' Q'.
Proof.
  intros Hf4. revert w cl Q. induction l as [|o l IH]; intros w cl Q Hok Hs; [by exists w, cl, Q|].
  destruct Hs as [Harr Hs]. cbn [run_operations].
  destruct (operation_ok net_fuel client o w cl Q Hf4 Hok) as (w1 & cl1 & Q1 & E & Hok1).
  { intros Ho c Hc. eapply Harr; [done|apply (ok_queues _ _ _ _ _ Hok)|done]. }
  rewrite (bind_ret _ _ _ _ _ E). by apply (IH w1 cl1 Q1), Hs.
Qed.

(** ** A concrete instance *)

Definition sample_ping : chunk := Chunk PINGREQ 0 0 (Some [192; 0]) 2 PACKET_CHUNK_INIT None 0 1 0 None.

(** A PUBLISH that waits to be written at 20, one that waits for its
    acknowledgement at 21, and the idle ping at 10. *)
Definition sample_engine (a : nat) : chunk :=
  match a with
  | 10%nat => sample_ping
  | 20%nat => set_chunk_state PACKET_CHUNK_WRITE_PENDING (sample_packet 20)
  | _ => sample_packet a
  end.
Definition sample_start (e : sim) : world := sample_world e sample_engine [20%nat] [21%nat] [] [10%nat].

Lemma sample_packet_writable k :
  chunk_data k = Some [50; 6; 0; 1; 97; 0; 7; 104] -> chunk_size k = 8 -> writable 8 k.
Proof.
  intros Hd Hs. split_and!; [exists [50; 6; 0; 1; 97; 0; 7; 104]; rewrite Hd, Hs; split; [done|vm_compute; split; [reflexivity|discriminate]]|by rewrite Hs|].
  intros _. eexists. do 4 eexists. split; [exact Hd|]. split; [vm_compute; reflexivity|reflexivity].
Qed.

Lemma sample_start_ok e : client_ok 8 0 (sample_start e) (sample_client [20%nat] [21%nat] []) (sample_lists [20%nat] [21%nat] []).
Proof.
  assert (Hq : queues 0 (w_chunks (sample_start e)) (w_clients (sample_start e)) (sample_client [20%nat] [21%nat] [])
    (sample_lists [20%nat] [21%nat] [])) by (apply sample_queues; distinct).
  split; try done.
  - by eexists.
  - by eexists.
  - by eexists.
  - intros [] a k Ha Hk; try (apply list_elem_of_singleton in Ha as ->; vm_compute in Hk; injection Hk as <-).
    + split; [done|]. by apply sample_packet_writable.
    + split; [done|]. by apply sample_packet_writable.
    + by apply elem_of_nil in Ha.
  - exists 10%nat, sample_ping. split_and!; try done.
    + intros _ k Hk. vm_compute in Hk. by injection Hk as <-.
    + split_and!; [by exists [192; 0]|done|done].
Qed.

Lemma sample_arrived c : @arrived SimPlatform true false 8 SimIncoming c sample_incoming.
Proof.
  right. exists 50, [0; 1; 97; 0; 7; 104], [208], 7, (Cursor [50; 6; 0; 1; 97; 0; 7; 104] 7).
  split; [unfold is_byte; lia|]. split; [vm_compute; discriminate|]. split; [reflexivity|].
  split; [vm_compute; reflexivity|]. split; [vm_compute; discriminate|]. split.
  - split; [vm_compute; discriminate|]. exists None. reflexivity.
  - intros _. eexists. do 4 eexists. split; [reflexivity|]. split; [vm_compute; reflexivity|reflexivity].
Qed.

(** Timer 1, of the last packet received, runs out at the end. *)
Lemma engine_never_stuck_witness :
  let w := sample_start (sample_env []) in
  let l := [Write; Elapse sample_incoming; Read; Retry; Callback; Elapse (sample_env [1%nat]); KeepAlive; Write] in
  exists w' cl' Q', @run_operations SimPlatform true false 8 0 l w = Ret (tt, w') /\ client_ok 8 0 w' cl' Q'.
Proof.
  intros w l.
  refine (@engine_never_stuck SimPlatform true false SimIncoming SimPlatformLaws SimNetProgress 8 0 l w
    (sample_client [20%nat] [21%nat] []) (sample_lists [20%nat] [21%nat] []) _ (sample_start_ok _) _).
  - lia.
  - split; [discriminate|]. intros w1 _. split; [discriminate|]. intros w2 E2. split.
    + intros _ cl c _ _. injection E2 as <-. apply sample_arrived.
    + intros w3 _. repeat (split; [discriminate|]; intros ? _). exact I.
Defined.
