(* ===== verification/MainState.v ===== *)
(** * The device's main task: its state

    The data of [src/src/iot_main.c] and of the part of [src/src/iot_api.c] that
    it works with, as [src/src/include/iot_main.h] declares them, and the
    interface of the layers below: the board, the timers, the non-volatile
    store, the easy setup and the MQTT client. *)

From S2P Require Import Prelude.

(** ** Enumerations *)

Inductive iot_state :=
| IOT_STATE_INITIALIZED | IOT_STATE_PROV_SLEEP | IOT_STATE_PROV_ENTER | IOT_STATE_PROV_CONFIRM
| IOT_STATE_PROV_DONE | IOT_STATE_CLOUD_DISCONNECTED | IOT_STATE_CLOUD_CONNECTED.
#[export] Instance iot_state_eq_dec : EqDecision iot_state.
Proof. solve_decision. Defined.

Inductive iot_state_opt := IOT_STATE_OPT_NONE | IOT_STATE_OPT_NEED_INTERACT | IOT_STATE_OPT_CLEANUP.
#[export] Instance iot_state_opt_eq_dec : EqDecision iot_state_opt.
Proof. solve_decision. Defined.

Inductive iot_connect_type := IOT_CONNECT_TYPE_REGISTRATION | IOT_CONNECT_TYPE_COMMUNICATION.

Inductive iot_wifi_mode := IOT_WIFI_MODE_OFF | IOT_WIFI_MODE_SCAN | IOT_WIFI_MODE_STATION | IOT_WIFI_MODE_SOFTAP.

Inductive gg_connection_request_status :=
| GG_CONNECTION_REQUEST_STATUS_NOT_INITIALIZED | GG_CONNECTION_REQUEST_STATUS_WAITING
| GG_CONNECTION_REQUEST_STATUS_SUCCESS | GG_CONNECTION_REQUEST_STATUS_FAIL.
#[export] Instance gg_status_eq_dec : EqDecision gg_connection_request_status.
Proof. solve_decision. Defined.

Inductive iot_st_ecode :=
| IOT_ST_ECODE_NONE | IOT_ST_ECODE_EE01 | IOT_ST_ECODE_NE01 | IOT_ST_ECODE_NE02 | IOT_ST_ECODE_NE03
| IOT_ST_ECODE_NE04 | IOT_ST_ECODE_NE11 | IOT_ST_ECODE_NE11_1 | IOT_ST_ECODE_NE11_3 | IOT_ST_ECODE_NE11_4
| IOT_ST_ECODE_NE12 | IOT_ST_ECODE_NE13 | IOT_ST_ECODE_NE14 | IOT_ST_ECODE_NE15 | IOT_ST_ECODE_NE16
| IOT_ST_ECODE_NE17 | IOT_ST_ECODE_CE01 | IOT_ST_ECODE_CE11 | IOT_ST_ECODE_CE12 | IOT_ST_ECODE_CE20
| IOT_ST_ECODE_CE20_1 | IOT_ST_ECODE_CE20_2 | IOT_ST_ECODE_CE20_3 | IOT_ST_ECODE_CE21 | IOT_ST_ECODE_CE30
| IOT_ST_ECODE_CE31 | IOT_ST_ECODE_CE32 | IOT_ST_ECODE_CE33 | IOT_ST_ECODE_CE40 | IOT_ST_ECODE_CE41
| IOT_ST_ECODE_CE50 | IOT_ST_ECODE_CE51 | IOT_ST_ECODE_CE60 | IOT_ST_ECODE_CE70 | IOT_ST_ECODE_CE84_4
| IOT_ST_ECODE_DS13_1.
#[export] Instance iot_st_ecode_eq_dec : EqDecision iot_st_ecode.
Proof. solve_decision. Defined.

(** What is stored for a code; the last entry that has no text leaves the
    buffer empty. *)
Definition iot_ecodeType_to_string (e : iot_st_ecode) : string :=
  match e with
  | IOT_ST_ECODE_NONE => "UE01"
  | IOT_ST_ECODE_EE01 => "EE01"
  | IOT_ST_ECODE_NE01 => "NE01"
  | IOT_ST_ECODE_NE02 => "NE02"
  | IOT_ST_ECODE_NE03 => "NE03"
  | IOT_ST_ECODE_NE04 => "NE04"
  | IOT_ST_ECODE_NE11 => "NE11"
  | IOT_ST_ECODE_NE11_1 => "NE11-1"
  | IOT_ST_ECODE_NE11_3 => "NE11-3"
  | IOT_ST_ECODE_NE11_4 => "NE11-4"
  | IOT_ST_ECODE_NE12 => "NE12"
  | IOT_ST_ECODE_NE13 => "NE13"
  | IOT_ST_ECODE_NE14 => "NE14"
  | IOT_ST_ECODE_NE15 => "NE15"
  | IOT_ST_ECODE_NE16 => "NE16"
  | IOT_ST_ECODE_NE17 => "NE17"
  | IOT_ST_ECODE_CE01 => "CE01"
  | IOT_ST_ECODE_CE11 => "CE11"
  | IOT_ST_ECODE_CE12 => "CE12"
  | IOT_ST_ECODE_CE20 => "CE20"
  | IOT_ST_ECODE_CE20_1 => "CE20-1"
  | IOT_ST_ECODE_CE20_2 => "CE20-2"
  | IOT_ST_ECODE_CE20_3 => "CE20-3"
  | IOT_ST_ECODE_CE21 => "CE21"
  | IOT_ST_ECODE_CE30 => "CE30"
  | IOT_ST_ECODE_CE31 => "CE31"
  | IOT_ST_ECODE_CE32 => "CE32"
  | IOT_ST_ECODE_CE33 => "CE33"
  | IOT_ST_ECODE_CE40 => "CE40"
  | IOT_ST_ECODE_CE41 => "CE41"
  | IOT_ST_ECODE_CE50 => "CE50"
  | IOT_ST_ECODE_CE51 => "CE51"
  | IOT_ST_ECODE_CE60 => "CE60"
  | IOT_ST_ECODE_CE70 => "CE70"
  | IOT_ST_ECODE_CE84_4 => "CE84-4"
  | IOT_ST_ECODE_DS13_1 => "DS13-1"
  end.

Definition IOT_ERROR_NONE : Z := 0.
Definition IOT_ERROR_BAD_REQ : Z := -1.
Definition IOT_ERROR_INVALID_ARGS : Z := -2.
Definition IOT_ERROR_MEM_ALLOC : Z := -6.
Definition IOT_ERROR_TIMEOUT : Z := -7.
Definition IOT_ERROR_NV_DATA_NOT_EXIST : Z := -15.
Definition IOT_ERROR_MQTT_CONNECT_FAIL : Z := -201.
Definition IOT_ERROR_MQTT_SERVER_UNAVAIL : Z := -202.
Definition IOT_ERROR_MQTT_REJECT_CONNECT : Z := -204.
Definition IOT_ERROR_MQTT_CONNECT_TIMEOUT : Z := -205.
Definition IOT_ERROR_NET_DNS_FAIL : Z := -303.
Definition IOT_ERROR_CONN_OPERATE_FAIL : Z := -601.
Definition IOT_ERROR_CONN_SOFTAP_CONF_FAIL : Z := -610.
Definition IOT_ERROR_CONN_SOFTAP_CONN_FAIL : Z := -611.
Definition IOT_ERROR_CONN_SOFTAP_DHCP_FAIL : Z := -612.
Definition IOT_ERROR_CONN_SOFTAP_AUTH_FAIL : Z := -613.
Definition IOT_ERROR_CONN_STA_CONF_FAIL : Z := -620.
Definition IOT_ERROR_CONN_STA_CONN_FAIL : Z := -621.
Definition IOT_ERROR_CONN_STA_DHCP_FAIL : Z := -622.
Definition IOT_ERROR_CONN_STA_AP_NOT_FOUND : Z := -623.
Definition IOT_ERROR_CONN_STA_ASSOC_FAIL : Z := -624.
Definition IOT_ERROR_CONN_STA_AUTH_FAIL : Z := -625.
Definition IOT_ERROR_CONN_STA_NO_INTERNET : Z := -626.
Definition IOT_ERROR_CONN_DNS_QUERY_FAIL : Z := -630.
Definition IOT_ERROR_SECURITY_INIT : Z := -1001.

Definition IOT_STATUS_IDLE : Z := 1.
Definition IOT_STATUS_PROVISIONING : Z := 2.
Definition IOT_STATUS_NEED_INTERACT : Z := 4.
Definition IOT_STATUS_CONNECTING : Z := 8.
Definition IOT_STATUS_ALL : Z := 15.
Definition IOT_STAT_LV_STAY : Z := 0.
Definition IOT_STAT_LV_START : Z := 1.
Definition IOT_STAT_LV_DONE : Z := 2.

Definition OVF_BIT_BUTTON : Z := 2.
Definition IOT_OVF_TYPE_BUTTON : Z := 4.
Definition IOT_OVF_TYPE_PIN : Z := 8.

Definition EASYSETUP_TIMEOUT_MS : Z := 300000.
Definition REGISTRATION_TIMEOUT_MS : Z := 900000.
Definition GG_CONNECTION_RESPONSE_TIMEOUT_MS : Z := 5000.
Definition IOT_MQTT_CONNECT_CRITICAL_REJECT_MAX : Z := 3.
Definition IOT_REG_UUID_STR_LEN : Z := 36.
Definition IOT_STATE_TIMEOUT_MAX_MS : Z := 900000.

(** ** Structures *)

(** A [char *] that the context owns: null, a string, or a string that has
    been freed. *)
Inductive cstr := NullStr | Str (s : string) | Freed.

(** [struct iot_dip_data]: identifier, major and minor version. *)
Record iot_dip_data := Dip { dip_id : list Z; dip_major_version : Z; dip_minor_version : Z }.

(** [struct iot_device_prov_data]; of the Wi-Fi data only what the main task
    looks at is told apart. *)
Record iot_device_prov_data := Prov {
  ssid : string; wifi_rest : string;
  broker_url : cstr; broker_port : Z; location : cstr; room : cstr; label : cstr
}.

(** [memset(prov, 0, sizeof *prov)]. *)
Definition zero_prov : iot_device_prov_data := Prov EmptyString EmptyString NullStr 0 NullStr NullStr NullStr.

Inductive iot_noti_data :=
| NOTI_UNKNOWN | NOTI_DEV_DELETED | NOTI_RATE_LIMIT | NOTI_QUOTA_REACHED
| NOTI_SEND_FAILED (failed_sequence_num : Z)
| NOTI_PREFERENCE_UPDATED (preferences : list string)
| NOTI_JWT_EXPIRED.

(** [struct iot_command]: the type together with the parameter that is sent
    with it; null where there is none. *)
Inductive iot_command :=
| IOT_COMMAND_STATE_UPDATE (param : option (iot_state * iot_state_opt))
| IOT_COMMAND_CLOUD_REGISTERING
| IOT_COMMAND_CLOUD_REGISTERED
| IOT_COMMAND_CLOUD_CONNECTING
| IOT_COMMAND_NOTIFICATION_RECEIVED (param : option iot_noti_data).

Inductive iot_easysetup_step :=
| IOT_EASYSETUP_STEP_DEVICEINFO | IOT_EASYSETUP_STEP_KEYINFO | IOT_EASYSETUP_STEP_CONFIRMINFO
| IOT_EASYSETUP_STEP_CONFIRM | IOT_EASYSETUP_STEP_WIFISCANINFO | IOT_EASYSETUP_STEP_WIFIPROVIONINGINFO
| IOT_EASYSETUP_STEP_SETUPCOMPLETE | IOT_EASYSETUP_STEP_LOG_SYSTEMINFO
| IOT_EASYSETUP_STEP_LOG_CREATE_DUMP | IOT_EASYSETUP_STEP_LOG_GET_DUMP.
#[export] Instance iot_easysetup_step_eq_dec : EqDecision iot_easysetup_step.
Proof. solve_decision. Defined.

(** [device_work_data_t]: the handler with its parameter. *)
Inductive device_work :=
| command_work (cmd : option iot_command)
| easysetup_work (step : option iot_easysetup_step) (payload : option string).

(** [struct iot_context]; pointers to objects whose content does not matter
    here are a boolean, whether they are not null. *)
Record iot_context := Ctx {
  es_res_created : bool;
  es_http_ready : bool;
  es_ble_ready : bool;
  curr_state : iot_state;
  state_timer : option nat;
  evt_mqttcli : option nat;
  sign_in_status : gg_connection_request_status;
  reg_mqttcli : option nat;
  registered_msg_requested : bool;
  critical_reject_count : Z;
  sign_up_status : gg_connection_request_status;
  mqtt_event_topic : bool;
  mqtt_health_topic : bool;
  prov_data : iot_device_prov_data;
  ownership_validation_type : Z;
  devconf_dip : option iot_dip_data;
  security_context : bool;
  resp_queue : bool;
  deviceId : string;
  reg_dip : option iot_dip_data;
  reg_locationId : option (list Z);
  updated : bool;
  new_reged : bool;
  self_reged : bool;
  scan_num : Z;
  scan_result : bool;
  lookup_id : cstr;
  noti_cb : bool;
  status_cb : bool;
  status_maps : Z;
  reported_stat : Z;
  curr_otm_feature : Z;
  pin : option (list Z);
  add_justworks : bool;
  rate_limit : bool;
  mqtt_connection_success_count : Z;
  mqtt_connection_try_count : Z;
  usr_delete_req : bool;
  last_st_ecode : iot_st_ecode;
  last_st_ecode_str : string;
  is_wifi_station : bool;
  es_network_status : Z;
  request_disconnect : bool;
  cloud_connection_pause : bool;
  d2d_event_request : bool;
  onboarding_complete : bool;
  connection_retry_count : Z;
  next_connection_retry_timer : option nat;
  cloud_con_timer : option nat
}.
Definition set_es_res_created (v : bool) (x : iot_context) : iot_context :=
  Ctx v (es_http_ready x) (es_ble_ready x) (curr_state x) (state_timer x) (evt_mqttcli x) (sign_in_status x) (reg_mqttcli x) (registered_msg_requested x) (critical_reject_count x) (sign_up_status x) (mqtt_event_topic x) (mqtt_health_topic x) (prov_data x) (ownership_validation_type x) (devconf_dip x) (security_context x) (resp_queue x) (deviceId x) (reg_dip x) (reg_locationId x) (updated x) (new_reged x) (self_reged x) (scan_num x) (scan_result x) (lookup_id x) (noti_cb x) (status_cb x) (status_maps x) (reported_stat x) (curr_otm_feature x) (pin x) (add_justworks x) (rate_limit x) (mqtt_connection_success_count x) (mqtt_connection_try_count x) (usr_delete_req x) (last_st_ecode x) (last_st_ecode_str x) (is_wifi_station x) (es_network_status x) (request_disconnect x) (cloud_connection_pause x) (d2d_event_request x) (onboarding_complete x) (connection_retry_count x) (next_connection_retry_timer x) (cloud_con_timer x).
Definition set_es_http_ready (v : bool) (x : iot_context) : iot_context :=
  Ctx (es_res_created x) v (es_ble_ready x) (curr_state x) (state_timer x) (evt_mqttcli x) (sign_in_status x) (reg_mqttcli x) (registered_msg_requested x) (critical_reject_count x) (sign_up_status x) (mqtt_event_topic x) (mqtt_health_topic x) (prov_data x) (ownership_validation_type x) (devconf_dip x) (security_context x) (resp_queue x) (deviceId x) (reg_dip x) (reg_locationId x) (updated x) (new_reged x) (self_reged x) (scan_num x) (scan_result x) (lookup_id x) (noti_cb x) (status_cb x) (status_maps x) (reported_stat x) (curr_otm_feature x) (pin x) (add_justworks x) (rate_limit x) (mqtt_connection_success_count x) (mqtt_connection_try_count x) (usr_delete_req x) (last_st_ecode x) (last_st_ecode_str x) (is_wifi_station x) (es_network_status x) (request_disconnect x) (cloud_connection_pause x) (d2d_event_request x) (onboarding_complete x) (connection_retry_count x) (next_connection_retry_timer x) (cloud_con_timer x).
Definition set_es_ble_ready (v : bool) (x : iot_context) : iot_context :=
  Ctx (es_res_created x) (es_http_ready x) v (curr_state x) (state_timer x) (evt_mqttcli x) (sign_in_status x) (reg_mqttcli x) (registered_msg_requested x) (critical_reject_count x) (sign_up_status x) (mqtt_event_topic x) (mqtt_health_topic x) (prov_data x) (ownership_validation_type x) (devconf_dip x) (security_context x) (resp_queue x) (deviceId x) (reg_dip x) (reg_locationId x) (updated x) (new_reged x) (self_reged x) (scan_num x) (scan_result x) (lookup_id x) (noti_cb x) (status_cb x) (status_maps x) (reported_stat x) (curr_otm_feature x) (pin x) (add_justworks x) (rate_limit x) (mqtt_connection_success_count x) (mqtt_connection_try_count x) (usr_delete_req x) (last_st_ecode x) (last_st_ecode_str x) (is_wifi_station x) (es_network_status x) (request_disconnect x) (cloud_connection_pause x) (d2d_event_request x) (onboarding_complete x) (connection_retry_count x) (next_connection_retry_timer x) (cloud_con_timer x).
Definition set_curr_state (v : iot_state) (x : iot_context) : iot_context :=
  Ctx (es_res_created x) (es_http_ready x) (es_ble_ready x) v (state_timer x) (evt_mqttcli x) (sign_in_status x) (reg_mqttcli x) (registered_msg_requested x) (critical_reject_count x) (sign_up_status x) (mqtt_event_topic x) (mqtt_health_topic x) (prov_data x) (ownership_validation_type x) (devconf_dip x) (security_context x) (resp_queue x) (deviceId x) (reg_dip x) (reg_locationId x) (updated x) (new_reged x) (self_reged x) (scan_num x) (scan_result x) (lookup_id x) (noti_cb x) (status_cb x) (status_maps x) (reported_stat x) (curr_otm_feature x) (pin x) (add_justworks x) (rate_limit x) (mqtt_connection_success_count x) (mqtt_connection_try_count x) (usr_delete_req x) (last_st_ecode x) (last_st_ecode_str x) (is_wifi_station x) (es_network_status x) (request_disconnect x) (cloud_connection_pause x) (d2d_event_request x) (onboarding_complete x) (connection_retry_count x) (next_connection_retry_timer x) (cloud_con_timer x).
Definition set_state_timer (v : option nat) (x : iot_context) : iot_context :=
  Ctx (es_res_created x) (es_http_ready x) (es_ble_ready x) (curr_state x) v (evt_mqttcli x) (sign_in_status x) (reg_mqttcli x) (registered_msg_requested x) (critical_reject_count x) (sign_up_status x) (mqtt_event_topic x) (mqtt_health_topic x) (prov_data x) (ownership_validation_type x) (devconf_dip x) (security_context x) (resp_queue x) (deviceId x) (reg_dip x) (reg_locationId x) (updated x) (new_reged x) (self_reged x) (scan_num x) (scan_result x) (lookup_id x) (noti_cb x) (status_cb x) (status_maps x) (reported_stat x) (curr_otm_feature x) (pin x) (add_justworks x) (rate_limit x) (mqtt_connection_success_count x) (mqtt_connection_try_count x) (usr_delete_req x) (last_st_ecode x) (last_st_ecode_str x) (is_wifi_station x) (es_network_status x) (request_disconnect x) (cloud_connection_pause x) (d2d_event_request x) (onboarding_complete x) (connection_retry_count x) (next_connection_retry_timer x) (cloud_con_timer x).
Definition set_evt_mqttcli (v : option nat) (x : iot_context) : iot_context :=
  Ctx (es_res_created x) (es_http_ready x) (es_ble_ready x) (curr_state x) (state_timer x) v (sign_in_status x) (reg_mqttcli x) (registered_msg_requested x) (critical_reject_count x) (sign_up_status x) (mqtt_event_topic x) (mqtt_health_topic x) (prov_data x) (ownership_validation_type x) (devconf_dip x) (security_context x) (resp_queue x) (deviceId x) (reg_dip x) (reg_locationId x) (updated x) (new_reged x) (self_reged x) (scan_num x) (scan_result x) (lookup_id x) (noti_cb x) (status_cb x) (status_maps x) (reported_stat x) (curr_otm_feature x) (pin x) (add_justworks x) (rate_limit x) (mqtt_connection_success_count x) (mqtt_connection_try_count x) (usr_delete_req x) (last_st_ecode x) (last_st_ecode_str x) (is_wifi_station x) (es_network_status x) (request_disconnect x) (cloud_connection_pause x) (d2d_event_request x) (onboarding_complete x) (connection_retry_count x) (next_connection_retry_timer x) (cloud_con_timer x).
Definition set_sign_in_status (v : gg_connection_request_status) (x : iot_context) : iot_context :=
  Ctx (es_res_created x) (es_http_ready x) (es_ble_ready x) (curr_state x) (state_timer x) (evt_mqttcli x) v (reg_mqttcli x) (registered_msg_requested x) (critical_reject_count x) (sign_up_status x) (mqtt_event_topic x) (mqtt_health_topic x) (prov_data x) (ownership_validation_type x) (devconf_dip x) (security_context x) (resp_queue x) (deviceId x) (reg_dip x) (reg_locationId x) (updated x) (new_reged x) (self_reged x) (scan_num x) (scan_result x) (lookup_id x) (noti_cb x) (status_cb x) (status_maps x) (reported_stat x) (curr_otm_feature x) (pin x) (add_justworks x) (rate_limit x) (mqtt_connection_success_count x) (mqtt_connection_try_count x) (usr_delete_req x) (last_st_ecode x) (last_st_ecode_str x) (is_wifi_station x) (es_network_status x) (request_disconnect x) (cloud_connection_pause x) (d2d_event_request x) (onboarding_complete x) (connection_retry_count x) (next_connection_retry_timer x) (cloud_con_timer x).
Definition set_reg_mqttcli (v : option nat) (x : iot_context) : iot_context :=
  Ctx (es_res_created x) (es_http_ready x) (es_ble_ready x) (curr_state x) (state_timer x) (evt_mqttcli x) (sign_in_status x) v (registered_msg_requested x) (critical_reject_count x) (sign_up_status x) (mqtt_event_topic x) (mqtt_health_topic x) (prov_data x) (ownership_validation_type x) (devconf_dip x) (security_context x) (resp_queue x) (deviceId x) (reg_dip x) (reg_locationId x) (updated x) (new_reged x) (self_reged x) (scan_num x) (scan_result x) (lookup_id x) (noti_cb x) (status_cb x) (status_maps x) (reported_stat x) (curr_otm_feature x) (pin x) (add_justworks x) (rate_limit x) (mqtt_connection_success_count x) (mqtt_connection_try_count x) (usr_delete_req x) (last_st_ecode x) (last_st_ecode_str x) (is_wifi_station x) (es_network_status x) (request_disconnect x) (cloud_connection_pause x) (d2d_event_request x) (onboarding_complete x) (connection_retry_count x) (next_connection_retry_timer x) (cloud_con_timer x).
Definition set_registered_msg_requested (v : bool) (x : iot_context) : iot_context :=
  Ctx (es_res_created x) (es_http_ready x) (es_ble_ready x) (curr_state x) (state_timer x) (evt_mqttcli x) (sign_in_status x) (reg_mqttcli x) v (critical_reject_count x) (sign_up_status x) (mqtt_event_topic x) (mqtt_health_topic x) (prov_data x) (ownership_validation_type x) (devconf_dip x) (security_context x) (resp_queue x) (deviceId x) (reg_dip x) (reg_locationId x) (updated x) (new_reged x) (self_reged x) (scan_num x) (scan_result x) (lookup_id x) (noti_cb x) (status_cb x) (status_maps x) (reported_stat x) (curr_otm_feature x) (pin x) (add_justworks x) (rate_limit x) (mqtt_connection_success_count x) (mqtt_connection_try_count x) (usr_delete_req x) (last_st_ecode x) (last_st_ecode_str x) (is_wifi_station x) (es_network_status x) (request_disconnect x) (cloud_connection_pause x) (d2d_event_request x) (onboarding_complete x) (connection_retry_count x) (next_connection_retry_timer x) (cloud_con_timer x).
Definition set_critical_reject_count (v : Z) (x : iot_context) : iot_context :=
  Ctx (es_res_created x) (es_http_ready x) (es_ble_ready x) (curr_state x) (state_timer x) (evt_mqttcli x) (sign_in_status x) (reg_mqttcli x) (registered_msg_requested x) v (sign_up_status x) (mqtt_event_topic x) (mqtt_health_topic x) (prov_data x) (ownership_validation_type x) (devconf_dip x) (security_context x) (resp_queue x) (deviceId x) (reg_dip x) (reg_locationId x) (updated x) (new_reged x) (self_reged x) (scan_num x) (scan_result x) (lookup_id x) (noti_cb x) (status_cb x) (status_maps x) (reported_stat x) (curr_otm_feature x) (pin x) (add_justworks x) (rate_limit x) (mqtt_connection_success_count x) (mqtt_connection_try_count x) (usr_delete_req x) (last_st_ecode x) (last_st_ecode_str x) (is_wifi_station x) (es_network_status x) (request_disconnect x) (cloud_connection_pause x) (d2d_event_request x) (onboarding_complete x) (connection_retry_count x) (next_connection_retry_timer x) (cloud_con_timer x).
Definition set_sign_up_status (v : gg_connection_request_status) (x : iot_context) : iot_context :=
  Ctx (es_res_created x) (es_http_ready x) (es_ble_ready x) (curr_state x) (state_timer x) (evt_mqttcli x) (sign_in_status x) (reg_mqttcli x) (registered_msg_requested x) (critical_reject_count x) v (mqtt_event_topic x) (mqtt_health_topic x) (prov_data x) (ownership_validation_type x) (devconf_dip x) (security_context x) (resp_queue x) (deviceId x) (reg_dip x) (reg_locationId x) (updated x) (new_reged x) (self_reged x) (scan_num x) (scan_result x) (lookup_id x) (noti_cb x) (status_cb x) (status_maps x) (reported_stat x) (curr_otm_feature x) (pin x) (add_justworks x) (rate_limit x) (mqtt_connection_success_count x) (mqtt_connection_try_count x) (usr_delete_req x) (last_st_ecode x) (last_st_ecode_str x) (is_wifi_station x) (es_network_status x) (request_disconnect x) (cloud_connection_pause x) (d2d_event_request x) (onboarding_complete x) (connection_retry_count x) (next_connection_retry_timer x) (cloud_con_timer x).
Definition set_mqtt_event_topic (v : bool) (x : iot_context) : iot_context :=
  Ctx (es_res_created x) (es_http_ready x) (es_ble_ready x) (curr_state x) (state_timer x) (evt_mqttcli x) (sign_in_status x) (reg_mqttcli x) (registered_msg_requested x) (critical_reject_count x) (sign_up_status x) v (mqtt_health_topic x) (prov_data x) (ownership_validation_type x) (devconf_dip x) (security_context x) (resp_queue x) (deviceId x) (reg_dip x) (reg_locationId x) (updated x) (new_reged x) (self_reged x) (scan_num x) (scan_result x) (lookup_id x) (noti_cb x) (status_cb x) (status_maps x) (reported_stat x) (curr_otm_feature x) (pin x) (add_justworks x) (rate_limit x) (mqtt_connection_success_count x) (mqtt_connection_try_count x) (usr_delete_req x) (last_st_ecode x) (last_st_ecode_str x) (is_wifi_station x) (es_network_status x) (request_disconnect x) (cloud_connection_pause x) (d2d_event_request x) (onboarding_complete x) (connection_retry_count x) (next_connection_retry_timer x) (cloud_con_timer x).
Definition set_mqtt_health_topic (v : bool) (x : iot_context) : iot_context :=
  Ctx (es_res_created x) (es_http_ready x) (es_ble_ready x) (curr_state x) (state_timer x) (evt_mqttcli x) (sign_in_status x) (reg_mqttcli x) (registered_msg_requested x) (critical_reject_count x) (sign_up_status x) (mqtt_event_topic x) v (prov_data x) (ownership_validation_type x) (devconf_dip x) (security_context x) (resp_queue x) (deviceId x) (reg_dip x) (reg_locationId x) (updated x) (new_reged x) (self_reged x) (scan_num x) (scan_result x) (lookup_id x) (noti_cb x) (status_cb x) (status_maps x) (reported_stat x) (curr_otm_feature x) (pin x) (add_justworks x) (rate_limit x) (mqtt_connection_success_count x) (mqtt_connection_try_count x) (usr_delete_req x) (last_st_ecode x) (last_st_ecode_str x) (is_wifi_station x) (es_network_status x) (request_disconnect x) (cloud_connection_pause x) (d2d_event_request x) (onboarding_complete x) (connection_retry_count x) (next_connection_retry_timer x) (cloud_con_timer x).
Definition set_prov_data (v : iot_device_prov_data) (x : iot_context) : iot_context :=
  Ctx (es_res_created x) (es_http_ready x) (es_ble_ready x) (curr_state x) (state_timer x) (evt_mqttcli x) (sign_in_status x) (reg_mqttcli x) (registered_msg_requested x) (critical_reject_count x) (sign_up_status x) (mqtt_event_topic x) (mqtt_health_topic x) v (ownership_validation_type x) (devconf_dip x) (security_context x) (resp_queue x) (deviceId x) (reg_dip x) (reg_locationId x) (updated x) (new_reged x) (self_reged x) (scan_num x) (scan_result x) (lookup_id x) (noti_cb x) (status_cb x) (status_maps x) (reported_stat x) (curr_otm_feature x) (pin x) (add_justworks x) (rate_limit x) (mqtt_connection_success_count x) (mqtt_connection_try_count x) (usr_delete_req x) (last_st_ecode x) (last_st_ecode_str x) (is_wifi_station x) (es_network_status x) (request_disconnect x) (cloud_connection_pause x) (d2d_event_request x) (onboarding_complete x) (connection_retry_count x) (next_connection_retry_timer x) (cloud_con_timer x).
Definition set_ownership_validation_type (v : Z) (x : iot_context) : iot_context :=
  Ctx (es_res_created x) (es_http_ready x) (es_ble_ready x) (curr_state x) (state_timer x) (evt_mqttcli x) (sign_in_status x) (reg_mqttcli x) (registered_msg_requested x) (critical_reject_count x) (sign_up_status x) (mqtt_event_topic x) (mqtt_health_topic x) (prov_data x) v (devconf_dip x) (security_context x) (resp_queue x) (deviceId x) (reg_dip x) (reg_locationId x) (updated x) (new_reged x) (self_reged x) (scan_num x) (scan_result x) (lookup_id x) (noti_cb x) (status_cb x) (status_maps x) (reported_stat x) (curr_otm_feature x) (pin x) (add_justworks x) (rate_limit x) (mqtt_connection_success_count x) (mqtt_connection_try_count x) (usr_delete_req x) (last_st_ecode x) (last_st_ecode_str x) (is_wifi_station x) (es_network_status x) (request_disconnect x) (cloud_connection_pause x) (d2d_event_request x) (onboarding_complete x) (connection_retry_count x) (next_connection_retry_timer x) (cloud_con_timer x).
Definition set_devconf_dip (v : option iot_dip_data) (x : iot_context) : iot_context :=
  Ctx (es_res_created x) (es_http_ready x) (es_ble_ready x) (curr_state x) (state_timer x) (evt_mqttcli x) (sign_in_status x) (reg_mqttcli x) (registered_msg_requested x) (critical_reject_count x) (sign_up_status x) (mqtt_event_topic x) (mqtt_health_topic x) (prov_data x) (ownership_validation_type x) v (security_context x) (resp_queue x) (deviceId x) (reg_dip x) (reg_locationId x) (updated x) (new_reged x) (self_reged x) (scan_num x) (scan_result x) (lookup_id x) (noti_cb x) (status_cb x) (status_maps x) (reported_stat x) (curr_otm_feature x) (pin x) (add_justworks x) (rate_limit x) (mqtt_connection_success_count x) (mqtt_connection_try_count x) (usr_delete_req x) (last_st_ecode x) (last_st_ecode_str x) (is_wifi_station x) (es_network_status x) (request_disconnect x) (cloud_connection_pause x) (d2d_event_request x) (onboarding_complete x) (connection_retry_count x) (next_connection_retry_timer x) (cloud_con_timer x).
Definition set_security_context (v : bool) (x : iot_context) : iot_context :=
  Ctx (es_res_created x) (es_http_ready x) (es_ble_ready x) (curr_state x) (state_timer x) (evt_mqttcli x) (sign_in_status x) (reg_mqttcli x) (registered_msg_requested x) (critical_reject_count x) (sign_up_status x) (mqtt_event_topic x) (mqtt_health_topic x) (prov_data x) (ownership_validation_type x) (devconf_dip x) v (resp_queue x) (deviceId x) (reg_dip x) (reg_locationId x) (updated x) (new_reged x) (self_reged x) (scan_num x) (scan_result x) (lookup_id x) (noti_cb x) (status_cb x) (status_maps x) (reported_stat x) (curr_otm_feature x) (pin x) (add_justworks x) (rate_limit x) (mqtt_connection_success_count x) (mqtt_connection_try_count x) (usr_delete_req x) (last_st_ecode x) (last_st_ecode_str x) (is_wifi_station x) (es_network_status x) (request_disconnect x) (cloud_connection_pause x) (d2d_event_request x) (onboarding_complete x) (connection_retry_count x) (next_connection_retry_timer x) (cloud_con_timer x).
Definition set_resp_queue (v : bool) (x : iot_context) : iot_context :=
  Ctx (es_res_created x) (es_http_ready x) (es_ble_ready x) (curr_state x) (state_timer x) (evt_mqttcli x) (sign_in_status x) (reg_mqttcli x) (registered_msg_requested x) (critical_reject_count x) (sign_up_status x) (mqtt_event_topic x) (mqtt_health_topic x) (prov_data x) (ownership_validation_type x) (devconf_dip x) (security_context x) v (deviceId x) (reg_dip x) (reg_locationId x) (updated x) (new_reged x) (self_reged x) (scan_num x) (scan_result x) (lookup_id x) (noti_cb x) (status_cb x) (status_maps x) (reported_stat x) (curr_otm_feature x) (pin x) (add_justworks x) (rate_limit x) (mqtt_connection_success_count x) (mqtt_connection_try_count x) (usr_delete_req x) (last_st_ecode x) (last_st_ecode_str x) (is_wifi_station x) (es_network_status x) (request_disconnect x) (cloud_connection_pause x) (d2d_event_request x) (onboarding_complete x) (connection_retry_count x) (next_connection_retry_timer x) (cloud_con_timer x).
Definition set_deviceId (v : string) (x : iot_context) : iot_context :=
  Ctx (es_res_created x) (es_http_ready x) (es_ble_ready x) (curr_state x) (state_timer x) (evt_mqttcli x) (sign_in_status x) (reg_mqttcli x) (registered_msg_requested x) (critical_reject_count x) (sign_up_status x) (mqtt_event_topic x) (mqtt_health_topic x) (prov_data x) (ownership_validation_type x) (devconf_dip x) (security_context x) (resp_queue x) v (reg_dip x) (reg_locationId x) (updated x) (new_reged x) (self_reged x) (scan_num x) (scan_result x) (lookup_id x) (noti_cb x) (status_cb x) (status_maps x) (reported_stat x) (curr_otm_feature x) (pin x) (add_justworks x) (rate_limit x) (mqtt_connection_success_count x) (mqtt_connection_try_count x) (usr_delete_req x) (last_st_ecode x) (last_st_ecode_str x) (is_wifi_station x) (es_network_status x) (request_disconnect x) (cloud_connection_pause x) (d2d_event_request x) (onboarding_complete x) (connection_retry_count x) (next_connection_retry_timer x) (cloud_con_timer x).
Definition set_reg_dip (v : option iot_dip_data) (x : iot_context) : iot_context :=
  Ctx (es_res_created x) (es_http_ready x) (es_ble_ready x) (curr_state x) (state_timer x) (evt_mqttcli x) (sign_in_status x) (reg_mqttcli x) (registered_msg_requested x) (critical_reject_count x) (sign_up_status x) (mqtt_event_topic x) (mqtt_health_topic x) (prov_data x) (ownership_validation_type x) (devconf_dip x) (security_context x) (resp_queue x) (deviceId x) v (reg_locationId x) (updated x) (new_reged x) (self_reged x) (scan_num x) (scan_result x) (lookup_id x) (noti_cb x) (status_cb x) (status_maps x) (reported_stat x) (curr_otm_feature x) (pin x) (add_justworks x) (rate_limit x) (mqtt_connection_success_count x) (mqtt_connection_try_count x) (usr_delete_req x) (last_st_ecode x) (last_st_ecode_str x) (is_wifi_station x) (es_network_status x) (request_disconnect x) (cloud_connection_pause x) (d2d_event_request x) (onboarding_complete x) (connection_retry_count x) (next_connection_retry_timer x) (cloud_con_timer x).
Definition set_reg_locationId (v : option (list Z)) (x : iot_context) : iot_context :=
  Ctx (es_res_created x) (es_http_ready x) (es_ble_ready x) (curr_state x) (state_timer x) (evt_mqttcli x) (sign_in_status x) (reg_mqttcli x) (registered_msg_requested x) (critical_reject_count x) (sign_up_status x) (mqtt_event_topic x) (mqtt_health_topic x) (prov_data x) (ownership_validation_type x) (devconf_dip x) (security_context x) (resp_queue x) (deviceId x) (reg_dip x) v (updated x) (new_reged x) (self_reged x) (scan_num x) (scan_result x) (lookup_id x) (noti_cb x) (status_cb x) (status_maps x) (reported_stat x) (curr_otm_feature x) (pin x) (add_justworks x) (rate_limit x) (mqtt_connection_success_count x) (mqtt_connection_try_count x) (usr_delete_req x) (last_st_ecode x) (last_st_ecode_str x) (is_wifi_station x) (es_network_status x) (request_disconnect x) (cloud_connection_pause x) (d2d_event_request x) (onboarding_complete x) (connection_retry_count x) (next_connection_retry_timer x) (cloud_con_timer x).
Definition set_updated (v : bool) (x : iot_context) : iot_context :=
  Ctx (es_res_created x) (es_http_ready x) (es_ble_ready x) (curr_state x) (state_timer x) (evt_mqttcli x) (sign_in_status x) (reg_mqttcli x) (registered_msg_requested x) (critical_reject_count x) (sign_up_status x) (mqtt_event_topic x) (mqtt_health_topic x) (prov_data x) (ownership_validation_type x) (devconf_dip x) (security_context x) (resp_queue x) (deviceId x) (reg_dip x) (reg_locationId x) v (new_reged x) (self_reged x) (scan_num x) (scan_result x) (lookup_id x) (noti_cb x) (status_cb x) (status_maps x) (reported_stat x) (curr_otm_feature x) (pin x) (add_justworks x) (rate_limit x) (mqtt_connection_success_count x) (mqtt_connection_try_count x) (usr_delete_req x) (last_st_ecode x) (last_st_ecode_str x) (is_wifi_station x) (es_network_status x) (request_disconnect x) (cloud_connection_pause x) (d2d_event_request x) (onboarding_complete x) (connection_retry_count x) (next_connection_retry_timer x) (cloud_con_timer x).
Definition set_new_reged (v : bool) (x : iot_context) : iot_context :=
  Ctx (es_res_created x) (es_http_ready x) (es_ble_ready x) (curr_state x) (state_timer x) (evt_mqttcli x) (sign_in_status x) (reg_mqttcli x) (registered_msg_requested x) (critical_reject_count x) (sign_up_status x) (mqtt_event_topic x) (mqtt_health_topic x) (prov_data x) (ownership_validation_type x) (devconf_dip x) (security_context x) (resp_queue x) (deviceId x) (reg_dip x) (reg_locationId x) (updated x) v (self_reged x) (scan_num x) (scan_result x) (lookup_id x) (noti_cb x) (status_cb x) (status_maps x) (reported_stat x) (curr_otm_feature x) (pin x) (add_justworks x) (rate_limit x) (mqtt_connection_success_count x) (mqtt_connection_try_count x) (usr_delete_req x) (last_st_ecode x) (last_st_ecode_str x) (is_wifi_station x) (es_network_status x) (request_disconnect x) (cloud_connection_pause x) (d2d_event_request x) (onboarding_complete x) (connection_retry_count x) (next_connection_retry_timer x) (cloud_con_timer x).
Definition set_self_reged (v : bool) (x : iot_context) : iot_context :=
  Ctx (es_res_created x) (es_http_ready x) (es_ble_ready x) (curr_state x) (state_timer x) (evt_mqttcli x) (sign_in_status x) (reg_mqttcli x) (registered_msg_requested x) (critical_reject_count x) (sign_up_status x) (mqtt_event_topic x) (mqtt_health_topic x) (prov_data x) (ownership_validation_type x) (devconf_dip x) (security_context x) (resp_queue x) (deviceId x) (reg_dip x) (reg_locationId x) (updated x) (new_reged x) v (scan_num x) (scan_result x) (lookup_id x) (noti_cb x) (status_cb x) (status_maps x) (reported_stat x) (curr_otm_feature x) (pin x) (add_justworks x) (rate_limit x) (mqtt_connection_success_count x) (mqtt_connection_try_count x) (usr_delete_req x) (last_st_ecode x) (last_st_ecode_str x) (is_wifi_station x) (es_network_status x) (request_disconnect x) (cloud_connection_pause x) (d2d_event_request x) (onboarding_complete x) (connection_retry_count x) (next_connection_retry_timer x) (cloud_con_timer x).
Definition set_scan_num (v : Z) (x : iot_context) : iot_context :=
  Ctx (es_res_created x) (es_http_ready x) (es_ble_ready x) (curr_state x) (state_timer x) (evt_mqttcli x) (sign_in_status x) (reg_mqttcli x) (registered_msg_requested x) (critical_reject_count x) (sign_up_status x) (mqtt_event_topic x) (mqtt_health_topic x) (prov_data x) (ownership_validation_type x) (devconf_dip x) (security_context x) (resp_queue x) (deviceId x) (reg_dip x) (reg_locationId x) (updated x) (new_reged x) (self_reged x) v (scan_result x) (lookup_id x) (noti_cb x) (status_cb x) (status_maps x) (reported_stat x) (curr_otm_feature x) (pin x) (add_justworks x) (rate_limit x) (mqtt_connection_success_count x) (mqtt_connection_try_count x) (usr_delete_req x) (last_st_ecode x) (last_st_ecode_str x) (is_wifi_station x) (es_network_status x) (request_disconnect x) (cloud_connection_pause x) (d2d_event_request x) (onboarding_complete x) (connection_retry_count x) (next_connection_retry_timer x) (cloud_con_timer x).
Definition set_scan_result (v : bool) (x : iot_context) : iot_context :=
  Ctx (es_res_created x) (es_http_ready x) (es_ble_ready x) (curr_state x) (state_timer x) (evt_mqttcli x) (sign_in_status x) (reg_mqttcli x) (registered_msg_requested x) (critical_reject_count x) (sign_up_status x) (mqtt_event_topic x) (mqtt_health_topic x) (prov_data x) (ownership_validation_type x) (devconf_dip x) (security_context x) (resp_queue x) (deviceId x) (reg_dip x) (reg_locationId x) (updated x) (new_reged x) (self_reged x) (scan_num x) v (lookup_id x) (noti_cb x) (status_cb x) (status_maps x) (reported_stat x) (curr_otm_feature x) (pin x) (add_justworks x) (rate_limit x) (mqtt_connection_success_count x) (mqtt_connection_try_count x) (usr_delete_req x) (last_st_ecode x) (last_st_ecode_str x) (is_wifi_station x) (es_network_status x) (request_disconnect x) (cloud_connection_pause x) (d2d_event_request x) (onboarding_complete x) (connection_retry_count x) (next_connection_retry_timer x) (cloud_con_timer x).
Definition set_lookup_id (v : cstr) (x : iot_context) : iot_context :=
  Ctx (es_res_created x) (es_http_ready x) (es_ble_ready x) (curr_state x) (state_timer x) (evt_mqttcli x) (sign_in_status x) (reg_mqttcli x) (registered_msg_requested x) (critical_reject_count x) (sign_up_status x) (mqtt_event_topic x) (mqtt_health_topic x) (prov_data x) (ownership_validation_type x) (devconf_dip x) (security_context x) (resp_queue x) (deviceId x) (reg_dip x) (reg_locationId x) (updated x) (new_reged x) (self_reged x) (scan_num x) (scan_result x) v (noti_cb x) (status_cb x) (status_maps x) (reported_stat x) (curr_otm_feature x) (pin x) (add_justworks x) (rate_limit x) (mqtt_connection_success_count x) (mqtt_connection_try_count x) (usr_delete_req x) (last_st_ecode x) (last_st_ecode_str x) (is_wifi_station x) (es_network_status x) (request_disconnect x) (cloud_connection_pause x) (d2d_event_request x) (onboarding_complete x) (connection_retry_count x) (next_connection_retry_timer x) (cloud_con_timer x).
Definition set_noti_cb (v : bool) (x : iot_context) : iot_context :=
  Ctx (es_res_created x) (es_http_ready x) (es_ble_ready x) (curr_state x) (state_timer x) (evt_mqttcli x) (sign_in_status x) (reg_mqttcli x) (registered_msg_requested x) (critical_reject_count x) (sign_up_status x) (mqtt_event_topic x) (mqtt_health_topic x) (prov_data x) (ownership_validation_type x) (devconf_dip x) (security_context x) (resp_queue x) (deviceId x) (reg_dip x) (reg_locationId x) (updated x) (new_reged x) (self_reged x) (scan_num x) (scan_result x) (lookup_id x) v (status_cb x) (status_maps x) (reported_stat x) (curr_otm_feature x) (pin x) (add_justworks x) (rate_limit x) (mqtt_connection_success_count x) (mqtt_connection_try_count x) (usr_delete_req x) (last_st_ecode x) (last_st_ecode_str x) (is_wifi_station x) (es_network_status x) (request_disconnect x) (cloud_connection_pause x) (d2d_event_request x) (onboarding_complete x) (connection_retry_count x) (next_connection_retry_timer x) (cloud_con_timer x).
Definition set_status_cb (v : bool) (x : iot_context) : iot_context :=
  Ctx (es_res_created x) (es_http_ready x) (es_ble_ready x) (curr_state x) (state_timer x) (evt_mqttcli x) (sign_in_status x) (reg_mqttcli x) (registered_msg_requested x) (critical_reject_count x) (sign_up_status x) (mqtt_event_topic x) (mqtt_health_topic x) (prov_data x) (ownership_validation_type x) (devconf_dip x) (security_context x) (resp_queue x) (deviceId x) (reg_dip x) (reg_locationId x) (updated x) (new_reged x) (self_reged x) (scan_num x) (scan_result x) (lookup_id x) (noti_cb x) v (status_maps x) (reported_stat x) (curr_otm_feature x) (pin x) (add_justworks x) (rate_limit x) (mqtt_connection_success_count x) (mqtt_connection_try_count x) (usr_delete_req x) (last_st_ecode x) (last_st_ecode_str x) (is_wifi_station x) (es_network_status x) (request_disconnect x) (cloud_connection_pause x) (d2d_event_request x) (onboarding_complete x) (connection_retry_count x) (next_connection_retry_timer x) (cloud_con_timer x).
Definition set_status_maps (v : Z) (x : iot_context) : iot_context :=
  Ctx (es_res_created x) (es_http_ready x) (es_ble_ready x) (curr_state x) (state_timer x) (evt_mqttcli x) (sign_in_status x) (reg_mqttcli x) (registered_msg_requested x) (critical_reject_count x) (sign_up_status x) (mqtt_event_topic x) (mqtt_health_topic x) (prov_data x) (ownership_validation_type x) (devconf_dip x) (security_context x) (resp_queue x) (deviceId x) (reg_dip x) (reg_locationId x) (updated x) (new_reged x) (self_reged x) (scan_num x) (scan_result x) (lookup_id x) (noti_cb x) (status_cb x) v (reported_stat x) (curr_otm_feature x) (pin x) (add_justworks x) (rate_limit x) (mqtt_connection_success_count x) (mqtt_connection_try_count x) (usr_delete_req x) (last_st_ecode x) (last_st_ecode_str x) (is_wifi_station x) (es_network_status x) (request_disconnect x) (cloud_connection_pause x) (d2d_event_request x) (onboarding_complete x) (connection_retry_count x) (next_connection_retry_timer x) (cloud_con_timer x).
Definition set_reported_stat (v : Z) (x : iot_context) : iot_context :=
  Ctx (es_res_created x) (es_http_ready x) (es_ble_ready x) (curr_state x) (state_timer x) (evt_mqttcli x) (sign_in_status x) (reg_mqttcli x) (registered_msg_requested x) (critical_reject_count x) (sign_up_status x) (mqtt_event_topic x) (mqtt_health_topic x) (prov_data x) (ownership_validation_type x) (devconf_dip x) (security_context x) (resp_queue x) (deviceId x) (reg_dip x) (reg_locationId x) (updated x) (new_reged x) (self_reged x) (scan_num x) (scan_result x) (lookup_id x) (noti_cb x) (status_cb x) (status_maps x) v (curr_otm_feature x) (pin x) (add_justworks x) (rate_limit x) (mqtt_connection_success_count x) (mqtt_connection_try_count x) (usr_delete_req x) (last_st_ecode x) (last_st_ecode_str x) (is_wifi_station x) (es_network_status x) (request_disconnect x) (cloud_connection_pause x) (d2d_event_request x) (onboarding_complete x) (connection_retry_count x) (next_connection_retry_timer x) (cloud_con_timer x).
Definition set_curr_otm_feature (v : Z) (x : iot_context) : iot_context :=
  Ctx (es_res_created x) (es_http_ready x) (es_ble_ready x) (curr_state x) (state_timer x) (evt_mqttcli x) (sign_in_status x) (reg_mqttcli x) (registered_msg_requested x) (critical_reject_count x) (sign_up_status x) (mqtt_event_topic x) (mqtt_health_topic x) (prov_data x) (ownership_validation_type x) (devconf_dip x) (security_context x) (resp_queue x) (deviceId x) (reg_dip x) (reg_locationId x) (updated x) (new_reged x) (self_reged x) (scan_num x) (scan_result x) (lookup_id x) (noti_cb x) (status_cb x) (status_maps x) (reported_stat x) v (pin x) (add_justworks x) (rate_limit x) (mqtt_connection_success_count x) (mqtt_connection_try_count x) (usr_delete_req x) (last_st_ecode x) (last_st_ecode_str x) (is_wifi_station x) (es_network_status x) (request_disconnect x) (cloud_connection_pause x) (d2d_event_request x) (onboarding_complete x) (connection_retry_count x) (next_connection_retry_timer x) (cloud_con_timer x).
Definition set_pin (v : option (list Z)) (x : iot_context) : iot_context :=
  Ctx (es_res_created x) (es_http_ready x) (es_ble_ready x) (curr_state x) (state_timer x) (evt_mqttcli x) (sign_in_status x) (reg_mqttcli x) (registered_msg_requested x) (critical_reject_count x) (sign_up_status x) (mqtt_event_topic x) (mqtt_health_topic x) (prov_data x) (ownership_validation_type x) (devconf_dip x) (security_context x) (resp_queue x) (deviceId x) (reg_dip x) (reg_locationId x) (updated x) (new_reged x) (self_reged x) (scan_num x) (scan_result x) (lookup_id x) (noti_cb x) (status_cb x) (status_maps x) (reported_stat x) (curr_otm_feature x) v (add_justworks x) (rate_limit x) (mqtt_connection_success_count x) (mqtt_connection_try_count x) (usr_delete_req x) (last_st_ecode x) (last_st_ecode_str x) (is_wifi_station x) (es_network_status x) (request_disconnect x) (cloud_connection_pause x) (d2d_event_request x) (onboarding_complete x) (connection_retry_count x) (next_connection_retry_timer x) (cloud_con_timer x).
Definition set_add_justworks (v : bool) (x : iot_context) : iot_context :=
  Ctx (es_res_created x) (es_http_ready x) (es_ble_ready x) (curr_state x) (state_timer x) (evt_mqttcli x) (sign_in_status x) (reg_mqttcli x) (registered_msg_requested x) (critical_reject_count x) (sign_up_status x) (mqtt_event_topic x) (mqtt_health_topic x) (prov_data x) (ownership_validation_type x) (devconf_dip x) (security_context x) (resp_queue x) (deviceId x) (reg_dip x) (reg_locationId x) (updated x) (new_reged x) (self_reged x) (scan_num x) (scan_result x) (lookup_id x) (noti_cb x) (status_cb x) (status_maps x) (reported_stat x) (curr_otm_feature x) (pin x) v (rate_limit x) (mqtt_connection_success_count x) (mqtt_connection_try_count x) (usr_delete_req x) (last_st_ecode x) (last_st_ecode_str x) (is_wifi_station x) (es_network_status x) (request_disconnect x) (cloud_connection_pause x) (d2d_event_request x) (onboarding_complete x) (connection_retry_count x) (next_connection_retry_timer x) (cloud_con_timer x).
Definition set_rate_limit (v : bool) (x : iot_context) : iot_context :=
  Ctx (es_res_created x) (es_http_ready x) (es_ble_ready x) (curr_state x) (state_timer x) (evt_mqttcli x) (sign_in_status x) (reg_mqttcli x) (registered_msg_requested x) (critical_reject_count x) (sign_up_status x) (mqtt_event_topic x) (mqtt_health_topic x) (prov_data x) (ownership_validation_type x) (devconf_dip x) (security_context x) (resp_queue x) (deviceId x) (reg_dip x) (reg_locationId x) (updated x) (new_reged x) (self_reged x) (scan_num x) (scan_result x) (lookup_id x) (noti_cb x) (status_cb x) (status_maps x) (reported_stat x) (curr_otm_feature x) (pin x) (add_justworks x) v (mqtt_connection_success_count x) (mqtt_connection_try_count x) (usr_delete_req x) (last_st_ecode x) (last_st_ecode_str x) (is_wifi_station x) (es_network_status x) (request_disconnect x) (cloud_connection_pause x) (d2d_event_request x) (onboarding_complete x) (connection_retry_count x) (next_connection_retry_timer x) (cloud_con_timer x).
Definition set_mqtt_connection_success_count (v : Z) (x : iot_context) : iot_context :=
  Ctx (es_res_created x) (es_http_ready x) (es_ble_ready x) (curr_state x) (state_timer x) (evt_mqttcli x) (sign_in_status x) (reg_mqttcli x) (registered_msg_requested x) (critical_reject_count x) (sign_up_status x) (mqtt_event_topic x) (mqtt_health_topic x) (prov_data x) (ownership_validation_type x) (devconf_dip x) (security_context x) (resp_queue x) (deviceId x) (reg_dip x) (reg_locationId x) (updated x) (new_reged x) (self_reged x) (scan_num x) (scan_result x) (lookup_id x) (noti_cb x) (status_cb x) (status_maps x) (reported_stat x) (curr_otm_feature x) (pin x) (add_justworks x) (rate_limit x) v (mqtt_connection_try_count x) (usr_delete_req x) (last_st_ecode x) (last_st_ecode_str x) (is_wifi_station x) (es_network_status x) (request_disconnect x) (cloud_connection_pause x) (d2d_event_request x) (onboarding_complete x) (connection_retry_count x) (next_connection_retry_timer x) (cloud_con_timer x).
Definition set_mqtt_connection_try_count (v : Z) (x : iot_context) : iot_context :=
  Ctx (es_res_created x) (es_http_ready x) (es_ble_ready x) (curr_state x) (state_timer x) (evt_mqttcli x) (sign_in_status x) (reg_mqttcli x) (registered_msg_requested x) (critical_reject_count x) (sign_up_status x) (mqtt_event_topic x) (mqtt_health_topic x) (prov_data x) (ownership_validation_type x) (devconf_dip x) (security_context x) (resp_queue x) (deviceId x) (reg_dip x) (reg_locationId x) (updated x) (new_reged x) (self_reged x) (scan_num x) (scan_result x) (lookup_id x) (noti_cb x) (status_cb x) (status_maps x) (reported_stat x) (curr_otm_feature x) (pin x) (add_justworks x) (rate_limit x) (mqtt_connection_success_count x) v (usr_delete_req x) (last_st_ecode x) (last_st_ecode_str x) (is_wifi_station x) (es_network_status x) (request_disconnect x) (cloud_connection_pause x) (d2d_event_request x) (onboarding_complete x) (connection_retry_count x) (next_connection_retry_timer x) (cloud_con_timer x).
Definition set_usr_delete_req (v : bool) (x : iot_context) : iot_context :=
  Ctx (es_res_created x) (es_http_ready x) (es_ble_ready x) (curr_state x) (state_timer x) (evt_mqttcli x) (sign_in_status x) (reg_mqttcli x) (registered_msg_requested x) (critical_reject_count x) (sign_up_status x) (mqtt_event_topic x) (mqtt_health_topic x) (prov_data x) (ownership_validation_type x) (devconf_dip x) (security_context x) (resp_queue x) (deviceId x) (reg_dip x) (reg_locationId x) (updated x) (new_reged x) (self_reged x) (scan_num x) (scan_result x) (lookup_id x) (noti_cb x) (status_cb x) (status_maps x) (reported_stat x) (curr_otm_feature x) (pin x) (add_justworks x) (rate_limit x) (mqtt_connection_success_count x) (mqtt_connection_try_count x) v (last_st_ecode x) (last_st_ecode_str x) (is_wifi_station x) (es_network_status x) (request_disconnect x) (cloud_connection_pause x) (d2d_event_request x) (onboarding_complete x) (connection_retry_count x) (next_connection_retry_timer x) (cloud_con_timer x).
Definition set_last_st_ecode (v : iot_st_ecode) (x : iot_context) : iot_context :=
  Ctx (es_res_created x) (es_http_ready x) (es_ble_ready x) (curr_state x) (state_timer x) (evt_mqttcli x) (sign_in_status x) (reg_mqttcli x) (registered_msg_requested x) (critical_reject_count x) (sign_up_status x) (mqtt_event_topic x) (mqtt_health_topic x) (prov_data x) (ownership_validation_type x) (devconf_dip x) (security_context x) (resp_queue x) (deviceId x) (reg_dip x) (reg_locationId x) (updated x) (new_reged x) (self_reged x) (scan_num x) (scan_result x) (lookup_id x) (noti_cb x) (status_cb x) (status_maps x) (reported_stat x) (curr_otm_feature x) (pin x) (add_justworks x) (rate_limit x) (mqtt_connection_success_count x) (mqtt_connection_try_count x) (usr_delete_req x) v (last_st_ecode_str x) (is_wifi_station x) (es_network_status x) (request_disconnect x) (cloud_connection_pause x) (d2d_event_request x) (onboarding_complete x) (connection_retry_count x) (next_connection_retry_timer x) (cloud_con_timer x).
Definition set_last_st_ecode_str (v : string) (x : iot_context) : iot_context :=
  Ctx (es_res_created x) (es_http_ready x) (es_ble_ready x) (curr_state x) (state_timer x) (evt_mqttcli x) (sign_in_status x) (reg_mqttcli x) (registered_msg_requested x) (critical_reject_count x) (sign_up_status x) (mqtt_event_topic x) (mqtt_health_topic x) (prov_data x) (ownership_validation_type x) (devconf_dip x) (security_context x) (resp_queue x) (deviceId x) (reg_dip x) (reg_locationId x) (updated x) (new_reged x) (self_reged x) (scan_num x) (scan_result x) (lookup_id x) (noti_cb x) (status_cb x) (status_maps x) (reported_stat x) (curr_otm_feature x) (pin x) (add_justworks x) (rate_limit x) (mqtt_connection_success_count x) (mqtt_connection_try_count x) (usr_delete_req x) (last_st_ecode x) v (is_wifi_station x) (es_network_status x) (request_disconnect x) (cloud_connection_pause x) (d2d_event_request x) (onboarding_complete x) (connection_retry_count x) (next_connection_retry_timer x) (cloud_con_timer x).
Definition set_is_wifi_station (v : bool) (x : iot_context) : iot_context :=
  Ctx (es_res_created x) (es_http_ready x) (es_ble_ready x) (curr_state x) (state_timer x) (evt_mqttcli x) (sign_in_status x) (reg_mqttcli x) (registered_msg_requested x) (critical_reject_count x) (sign_up_status x) (mqtt_event_topic x) (mqtt_health_topic x) (prov_data x) (ownership_validation_type x) (devconf_dip x) (security_context x) (resp_queue x) (deviceId x) (reg_dip x) (reg_locationId x) (updated x) (new_reged x) (self_reged x) (scan_num x) (scan_result x) (lookup_id x) (noti_cb x) (status_cb x) (status_maps x) (reported_stat x) (curr_otm_feature x) (pin x) (add_justworks x) (rate_limit x) (mqtt_connection_success_count x) (mqtt_connection_try_count x) (usr_delete_req x) (last_st_ecode x) (last_st_ecode_str x) v (es_network_status x) (request_disconnect x) (cloud_connection_pause x) (d2d_event_request x) (onboarding_complete x) (connection_retry_count x) (next_connection_retry_timer x) (cloud_con_timer x).
Definition set_es_network_status (v : Z) (x : iot_context) : iot_context :=
  Ctx (es_res_created x) (es_http_ready x) (es_ble_ready x) (curr_state x) (state_timer x) (evt_mqttcli x) (sign_in_status x) (reg_mqttcli x) (registered_msg_requested x) (critical_reject_count x) (sign_up_status x) (mqtt_event_topic x) (mqtt_health_topic x) (prov_data x) (ownership_validation_type x) (devconf_dip x) (security_context x) (resp_queue x) (deviceId x) (reg_dip x) (reg_locationId x) (updated x) (new_reged x) (self_reged x) (scan_num x) (scan_result x) (lookup_id x) (noti_cb x) (status_cb x) (status_maps x) (reported_stat x) (curr_otm_feature x) (pin x) (add_justworks x) (rate_limit x) (mqtt_connection_success_count x) (mqtt_connection_try_count x) (usr_delete_req x) (last_st_ecode x) (last_st_ecode_str x) (is_wifi_station x) v (request_disconnect x) (cloud_connection_pause x) (d2d_event_request x) (onboarding_complete x) (connection_retry_count x) (next_connection_retry_timer x) (cloud_con_timer x).
Definition set_request_disconnect (v : bool) (x : iot_context) : iot_context :=
  Ctx (es_res_created x) (es_http_ready x) (es_ble_ready x) (curr_state x) (state_timer x) (evt_mqttcli x) (sign_in_status x) (reg_mqttcli x) (registered_msg_requested x) (critical_reject_count x) (sign_up_status x) (mqtt_event_topic x) (mqtt_health_topic x) (prov_data x) (ownership_validation_type x) (devconf_dip x) (security_context x) (resp_queue x) (deviceId x) (reg_dip x) (reg_locationId x) (updated x) (new_reged x) (self_reged x) (scan_num x) (scan_result x) (lookup_id x) (noti_cb x) (status_cb x) (status_maps x) (reported_stat x) (curr_otm_feature x) (pin x) (add_justworks x) (rate_limit x) (mqtt_connection_success_count x) (mqtt_connection_try_count x) (usr_delete_req x) (last_st_ecode x) (last_st_ecode_str x) (is_wifi_station x) (es_network_status x) v (cloud_connection_pause x) (d2d_event_request x) (onboarding_complete x) (connection_retry_count x) (next_connection_retry_timer x) (cloud_con_timer x).
Definition set_cloud_connection_pause (v : bool) (x : iot_context) : iot_context :=
  Ctx (es_res_created x) (es_http_ready x) (es_ble_ready x) (curr_state x) (state_timer x) (evt_mqttcli x) (sign_in_status x) (reg_mqttcli x) (registered_msg_requested x) (critical_reject_count x) (sign_up_status x) (mqtt_event_topic x) (mqtt_health_topic x) (prov_data x) (ownership_validation_type x) (devconf_dip x) (security_context x) (resp_queue x) (deviceId x) (reg_dip x) (reg_locationId x) (updated x) (new_reged x) (self_reged x) (scan_num x) (scan_result x) (lookup_id x) (noti_cb x) (status_cb x) (status_maps x) (reported_stat x) (curr_otm_feature x) (pin x) (add_justworks x) (rate_limit x) (mqtt_connection_success_count x) (mqtt_connection_try_count x) (usr_delete_req x) (last_st_ecode x) (last_st_ecode_str x) (is_wifi_station x) (es_network_status x) (request_disconnect x) v (d2d_event_request x) (onboarding_complete x) (connection_retry_count x) (next_connection_retry_timer x) (cloud_con_timer x).
Definition set_d2d_event_request (v : bool) (x : iot_context) : iot_context :=
  Ctx (es_res_created x) (es_http_ready x) (es_ble_ready x) (curr_state x) (state_timer x) (evt_mqttcli x) (sign_in_status x) (reg_mqttcli x) (registered_msg_requested x) (critical_reject_count x) (sign_up_status x) (mqtt_event_topic x) (mqtt_health_topic x) (prov_data x) (ownership_validation_type x) (devconf_dip x) (security_context x) (resp_queue x) (deviceId x) (reg_dip x) (reg_locationId x) (updated x) (new_reged x) (self_reged x) (scan_num x) (scan_result x) (lookup_id x) (noti_cb x) (status_cb x) (status_maps x) (reported_stat x) (curr_otm_feature x) (pin x) (add_justworks x) (rate_limit x) (mqtt_connection_success_count x) (mqtt_connection_try_count x) (usr_delete_req x) (last_st_ecode x) (last_st_ecode_str x) (is_wifi_station x) (es_network_status x) (request_disconnect x) (cloud_connection_pause x) v (onboarding_complete x) (connection_retry_count x) (next_connection_retry_timer x) (cloud_con_timer x).
Definition set_onboarding_complete (v : bool) (x : iot_context) : iot_context :=
  Ctx (es_res_created x) (es_http_ready x) (es_ble_ready x) (curr_state x) (state_timer x) (evt_mqttcli x) (sign_in_status x) (reg_mqttcli x) (registered_msg_requested x) (critical_reject_count x) (sign_up_status x) (mqtt_event_topic x) (mqtt_health_topic x) (prov_data x) (ownership_validation_type x) (devconf_dip x) (security_context x) (resp_queue x) (deviceId x) (reg_dip x) (reg_locationId x) (updated x) (new_reged x) (self_reged x) (scan_num x) (scan_result x) (lookup_id x) (noti_cb x) (status_cb x) (status_maps x) (reported_stat x) (curr_otm_feature x) (pin x) (add_justworks x) (rate_limit x) (mqtt_connection_success_count x) (mqtt_connection_try_count x) (usr_delete_req x) (last_st_ecode x) (last_st_ecode_str x) (is_wifi_station x) (es_network_status x) (request_disconnect x) (cloud_connection_pause x) (d2d_event_request x) v (connection_retry_count x) (next_connection_retry_timer x) (cloud_con_timer x).
Definition set_connection_retry_count (v : Z) (x : iot_context) : iot_context :=
  Ctx (es_res_created x) (es_http_ready x) (es_ble_ready x) (curr_state x) (state_timer x) (evt_mqttcli x) (sign_in_status x) (reg_mqttcli x) (registered_msg_requested x) (critical_reject_count x) (sign_up_status x) (mqtt_event_topic x) (mqtt_health_topic x) (prov_data x) (ownership_validation_type x) (devconf_dip x) (security_context x) (resp_queue x) (deviceId x) (reg_dip x) (reg_locationId x) (updated x) (new_reged x) (self_reged x) (scan_num x) (scan_result x) (lookup_id x) (noti_cb x) (status_cb x) (status_maps x) (reported_stat x) (curr_otm_feature x) (pin x) (add_justworks x) (rate_limit x) (mqtt_connection_success_count x) (mqtt_connection_try_count x) (usr_delete_req x) (last_st_ecode x) (last_st_ecode_str x) (is_wifi_station x) (es_network_status x) (request_disconnect x) (cloud_connection_pause x) (d2d_event_request x) (onboarding_complete x) v (next_connection_retry_timer x) (cloud_con_timer x).
Definition set_next_connection_retry_timer (v : option nat) (x : iot_context) : iot_context :=
  Ctx (es_res_created x) (es_http_ready x) (es_ble_ready x) (curr_state x) (state_timer x) (evt_mqttcli x) (sign_in_status x) (reg_mqttcli x) (registered_msg_requested x) (critical_reject_count x) (sign_up_status x) (mqtt_event_topic x) (mqtt_health_topic x) (prov_data x) (ownership_validation_type x) (devconf_dip x) (security_context x) (resp_queue x) (deviceId x) (reg_dip x) (reg_locationId x) (updated x) (new_reged x) (self_reged x) (scan_num x) (scan_result x) (lookup_id x) (noti_cb x) (status_cb x) (status_maps x) (reported_stat x) (curr_otm_feature x) (pin x) (add_justworks x) (rate_limit x) (mqtt_connection_success_count x) (mqtt_connection_try_count x) (usr_delete_req x) (last_st_ecode x) (last_st_ecode_str x) (is_wifi_station x) (es_network_status x) (request_disconnect x) (cloud_connection_pause x) (d2d_event_request x) (onboarding_complete x) (connection_retry_count x) v (cloud_con_timer x).
Definition set_cloud_con_timer (v : option nat) (x : iot_context) : iot_context :=
  Ctx (es_res_created x) (es_http_ready x) (es_ble_ready x) (curr_state x) (state_timer x) (evt_mqttcli x) (sign_in_status x) (reg_mqttcli x) (registered_msg_requested x) (critical_reject_count x) (sign_up_status x) (mqtt_event_topic x) (mqtt_health_topic x) (prov_data x) (ownership_validation_type x) (devconf_dip x) (security_context x) (resp_queue x) (deviceId x) (reg_dip x) (reg_locationId x) (updated x) (new_reged x) (self_reged x) (scan_num x) (scan_result x) (lookup_id x) (noti_cb x) (status_cb x) (status_maps x) (reported_stat x) (curr_otm_feature x) (pin x) (add_justworks x) (rate_limit x) (mqtt_connection_success_count x) (mqtt_connection_try_count x) (usr_delete_req x) (last_st_ecode x) (last_st_ecode_str x) (is_wifi_station x) (es_network_status x) (request_disconnect x) (cloud_connection_pause x) (d2d_event_request x) (onboarding_complete x) (connection_retry_count x) (next_connection_retry_timer x) v.

Definition set_broker_url v p := Prov (ssid p) (wifi_rest p) v (broker_port p) (location p) (room p) (label p).
Definition set_location v p := Prov (ssid p) (wifi_rest p) (broker_url p) (broker_port p) v (room p) (label p).
Definition set_room v p := Prov (ssid p) (wifi_rest p) (broker_url p) (broker_port p) (location p) v (label p).
Definition set_label v p := Prov (ssid p) (wifi_rest p) (broker_url p) (broker_port p) (location p) (room p) v.

(** ** The layers below *)

(** What the main task calls, over a state [denv] of everything outside it: an
    allocator ([d_malloc], whether an allocation succeeds), the board, the
    timers, threads and locks, and the components of the SDK whose interface
    the main task uses -- the non-volatile store, the records of [iot_misc_info],
    the web token, the easy setup over HTTP and the MQTT client.  Functions
    return an error code. *)
Class Device := {
  denv : Type;
  d_malloc : denv -> bool * denv;
  d_strdup : denv -> bool * denv;
  d_lock : denv -> bool * denv;
  d_random : denv -> Z * denv;
  d_delay : Z -> denv -> denv;
  d_timer_create : Z -> denv -> option nat * denv;
  d_timer_start : nat -> denv -> denv;
  d_timer_delete : nat -> denv -> denv;
  d_timer_is_active : nat -> denv -> bool;
  d_timer_count_ms : nat -> Z -> denv -> denv;
  d_timer_isexpired : nat -> denv -> bool;
  (** The current thread: null when it is not known; else whether it is the one
      of the work queue. *)
  d_current_thread : denv -> option bool;
  (** Clearing [IOT_USR_INTERACT_BIT_CMD_DONE], setting it, and waiting for it:
      whether it was set in time. *)
  d_clear_done : denv -> denv;
  d_wait_done : denv -> bool * denv;
  d_set_done : denv -> denv;

  iot_bsp_wifi_set_mode : iot_wifi_mode -> iot_device_prov_data -> denv -> Z * denv;
  iot_bsp_wifi_get_scan_result : denv -> Z * denv;

  iot_nv_get_prov_data : iot_device_prov_data -> denv -> (Z * iot_device_prov_data) * denv;
  iot_nv_erase_prov_data : denv -> Z * denv;
  iot_nv_erase_device_id : denv -> Z * denv;
  (** The identifier, when the code is [IOT_ERROR_NONE]. *)
  iot_nv_get_device_id : denv -> (Z * string) * denv;
  iot_nv_set_device_id : string -> denv -> Z * denv;
  iot_nv_get_serial_number : denv -> Z * denv;
  iot_nv_get_certificate : denv -> Z * denv;
  iot_nv_prov_data_exist : denv -> bool;
  iot_misc_load_dip : denv -> (Z * iot_dip_data) * denv;
  iot_misc_load_location : denv -> (Z * list Z) * denv;
  iot_misc_store_dip : iot_dip_data -> denv -> Z * denv;
  iot_misc_store_location : list Z -> denv -> Z * denv;
  iot_misc_store_prev_err : iot_st_ecode -> denv -> Z * denv;
  iot_get_random_id_str : denv -> (Z * string) * denv;
  iot_util_uuid_str : list Z -> denv -> (Z * string) * denv;
  iot_wt_create : denv -> Z * denv;

  iot_security_init : denv -> bool * denv;
  iot_security_deinit : denv -> denv;
  resp_queue_create : denv -> bool * denv;
  iot_easysetup_create_ssid : denv -> Z * denv;
  iot_easysetup_init : denv -> Z * denv;
  iot_easysetup_deinit : denv -> denv;
  (** The handler of the easy setup's requests: its code, the context
      afterwards and the commands it sends, in order. *)
  iot_easysetup_request_handler : iot_easysetup_step -> option string -> iot_context -> denv ->
    (Z * (iot_context * list iot_command)) * denv;

  (** [st_mqtt_create]: the client, none when the code is not 0. *)
  st_mqtt_create : denv -> option nat * denv;
  st_mqtt_connect : nat -> denv -> Z * denv;
  st_mqtt_subscribe : nat -> denv -> Z * denv;
  st_mqtt_disconnect : nat -> denv -> Z * denv;
  st_mqtt_destroy : option nat -> denv -> denv;
  st_mqtt_publish : nat -> denv -> Z * denv;
  st_mqtt_publish_async : nat -> denv -> Z * denv;
  (** [st_mqtt_yield], which runs the callbacks of the connection: the context
      afterwards and the commands that they send, in order. *)
  st_mqtt_yield : nat -> iot_context -> denv -> (iot_context * list iot_command) * denv;
  (** The payload of the registration: null or not. *)
  _iot_es_mqtt_registration_json : denv -> bool * denv
}.

(** What the user of the library sees. *)
Inductive notice :=
| status_reported (status level : Z)
| noti_reported (noti : iot_noti_data)
| init_reported
| preferences_asked
| rebooted.

(** The state: the layers below, the context, the work queue (the list that
    [util_queue_is_fifo] shows it to be) with the two bits of its signal, and
    the history of what the user has seen. *)
Record mworld `{Device} := MWorld {
  m_env : denv; m_ctx : iot_context; m_work : list device_work;
  pending_signal : bool; kill_signal : bool; m_notices : list notice
}.

Section access.
Context `{Device}.

Definition with_menv e w := MWorld _ e (m_ctx w) (m_work w) (pending_signal w) (kill_signal w) (m_notices w).
Definition with_ctx c w := MWorld _ (m_env w) c (m_work w) (pending_signal w) (kill_signal w) (m_notices w).
Definition with_work l w := MWorld _ (m_env w) (m_ctx w) l (pending_signal w) (kill_signal w) (m_notices w).
Definition with_signals p k w := MWorld _ (m_env w) (m_ctx w) (m_work w) p k (m_notices w).
Definition with_pending b w := MWorld _ (m_env w) (m_ctx w) (m_work w) b (kill_signal w) (m_notices w).
Definition with_notices l w := MWorld _ (m_env w) (m_ctx w) (m_work w) (pending_signal w) (kill_signal w) l.

(** A call of a layer below. *)
Definition dev {A} (f : denv -> A * denv) : st mworld A :=
  fun w => let '(a, e) := f (m_env w) in Ret (a, with_menv e w).
Definition dev_ (f : denv -> denv) : st mworld unit := modify (fun w => with_menv (f (m_env w)) w).

Definition getc {A} (f : iot_context -> A) : st mworld A := gets (fun w => f (m_ctx w)).
Definition setc (f : iot_context -> iot_context) : st mworld unit := modify (fun w => with_ctx (f (m_ctx w)) w).
Definition tell (n : notice) : st mworld unit := modify (fun w => with_notices (m_notices w ++ [n]) w).

(** [iot_os_free] of a string. *)
Definition free_str (s : cstr) : st mworld unit := match s with Freed => undef | _ => mret tt end.
Definition is_null (s : cstr) : bool := match s with NullStr => true | _ => false end.
End access.
