(* ===== verification/MainRun.v ===== *)
(** * The device's main task: its operations

    [src/src/iot_main.c], the functions of [src/src/iot_api.c] that it calls,
    and [iot_es_connect] and [iot_es_disconnect] of
    [src/src/easysetup/iot_easysetup_st_mqtt.c], for the configuration of
    [stdkconfig]: easy setup over HTTP, discovery by SSID. *)

From S2P Require Import Prelude MainState ClientRun Util.

Section main.
Context `{Device} (wait_fuel : nat).
Abbreviation M := (st mworld).

(** ** Error codes for the application *)

Definition iot_set_st_ecode (ecode_type : iot_st_ecode) : M Z :=
  last ← getc last_st_ecode;
  if bool_decide (ecode_type <> last) || bool_decide (ecode_type = IOT_ST_ECODE_NONE) then
    setc (set_last_st_ecode ecode_type);;
    setc (set_last_st_ecode_str (iot_ecodeType_to_string ecode_type));;
    dev (iot_misc_store_prev_err ecode_type)
  else mret IOT_ERROR_NONE.

Definition iot_get_st_ecode : M (iot_st_ecode * string) :=
  ecode ← getc last_st_ecode; text ← getc last_st_ecode_str; mret (ecode, text).

Definition conn_error_ecode (conn_error : Z) : option iot_st_ecode :=
  if conn_error =? IOT_ERROR_CONN_SOFTAP_CONF_FAIL then Some IOT_ST_ECODE_NE01
  else if conn_error =? IOT_ERROR_CONN_SOFTAP_CONN_FAIL then Some IOT_ST_ECODE_NE02
  else if conn_error =? IOT_ERROR_CONN_SOFTAP_DHCP_FAIL then Some IOT_ST_ECODE_NE03
  else if conn_error =? IOT_ERROR_CONN_SOFTAP_AUTH_FAIL then Some IOT_ST_ECODE_NE04
  else if (conn_error =? IOT_ERROR_CONN_STA_CONF_FAIL) || (conn_error =? IOT_ERROR_CONN_STA_CONN_FAIL)
  then Some IOT_ST_ECODE_NE11_1
  else if conn_error =? IOT_ERROR_CONN_STA_AP_NOT_FOUND then Some IOT_ST_ECODE_NE11_1
  else if conn_error =? IOT_ERROR_CONN_STA_ASSOC_FAIL then Some IOT_ST_ECODE_NE11_3
  else if conn_error =? IOT_ERROR_CONN_STA_AUTH_FAIL then Some IOT_ST_ECODE_NE11_4
  else if conn_error =? IOT_ERROR_CONN_STA_DHCP_FAIL then Some IOT_ST_ECODE_NE12
  else if conn_error =? IOT_ERROR_CONN_STA_NO_INTERNET then Some IOT_ST_ECODE_NE16
  else if conn_error =? IOT_ERROR_CONN_DNS_QUERY_FAIL then Some IOT_ST_ECODE_NE17
  else if conn_error =? IOT_ERROR_CONN_OPERATE_FAIL then Some IOT_ST_ECODE_DS13_1
  else None.
Definition iot_set_st_ecode_from_conn_error (conn_error : Z) : M Z :=
  match conn_error_ecode conn_error with
  | Some ecode => iot_set_st_ecode ecode
  | None => mret IOT_ERROR_INVALID_ARGS
  end.

(** ** The work queue *)

(** [iot_util_queue_send], which allocates an item and its data and takes the
    queue's lock. *)
Definition work_queue_send (work : device_work) : M Z :=
  ok ← dev d_malloc;
  if negb ok then mret IOT_ERROR_MEM_ALLOC
  else
    ok ← dev d_malloc;
    if negb ok then mret IOT_ERROR_MEM_ALLOC
    else
      locked ← dev d_lock;
      if negb locked then mret IOT_ERROR_TIMEOUT
      else modify (fun w => with_work (m_work w ++ [work]) w);; mret IOT_ERROR_NONE.

Definition iot_put_device_work (work : device_work) : M Z :=
  err ← work_queue_send work;
  if negb (err =? IOT_ERROR_NONE) then mret err
  else modify (with_pending true);; mret IOT_ERROR_NONE.

Definition has_param (cmd : iot_command) : bool :=
  match cmd with
  | IOT_COMMAND_STATE_UPDATE (Some _) | IOT_COMMAND_NOTIFICATION_RECEIVED (Some _) => true
  | _ => false
  end.

Definition iot_command_send (cmd : iot_command) : M Z :=
  ok ← dev d_malloc;
  if negb ok then mret IOT_ERROR_MEM_ALLOC
  else
    ok ← (if has_param cmd then dev d_malloc else mret true);
    if negb ok then mret IOT_ERROR_MEM_ALLOC
    else iot_put_device_work (command_work (Some cmd)).

(** Commands that callbacks send. *)
Fixpoint send_all (cmds : list iot_command) : M unit :=
  match cmds with [] => mret tt | c :: cmds => iot_command_send c;; send_all cmds end.

Definition report_status (status level : Z) : M unit :=
  tell (status_reported status level);;
  setc (set_reported_stat (Z.lor status (Z.shiftl level 8))).

Definition iot_state_update (new_state : iot_state) (opt : iot_state_opt) : M Z :=
  when (bool_decide (new_state = IOT_STATE_PROV_CONFIRM) && bool_decide (opt = IOT_STATE_OPT_NEED_INTERACT))
    (maps ← getc status_maps;
     otm ← getc curr_otm_feature;
     when (negb (Z.land maps IOT_STATUS_NEED_INTERACT =? 0) && (otm =? OVF_BIT_BUTTON))
       (cb ← getc status_cb;
        if (cb : bool) then report_status IOT_STATUS_NEED_INTERACT IOT_STAT_LV_STAY else undef));;
  iot_command_send (IOT_COMMAND_STATE_UPDATE (Some (new_state, opt))).

Definition iot_state_timeout_change (target_state : iot_state) (new_timeout_ms : Z) : M Z :=
  if bool_decide (target_state = IOT_STATE_INITIALIZED) then mret IOT_ERROR_INVALID_ARGS
  else if IOT_STATE_TIMEOUT_MAX_MS <? new_timeout_ms then mret IOT_ERROR_INVALID_ARGS
  else
    s ← getc curr_state;
    if negb (bool_decide (s = target_state)) then mret IOT_ERROR_INVALID_ARGS
    else
      timer ← getc state_timer;
      timer ← need timer;
      dev_ (d_timer_count_ms timer new_timeout_ms);; mret IOT_ERROR_NONE.

(** ** Wi-Fi *)

Definition deinit_http : M unit :=
  ready ← getc es_http_ready;
  when ready (setc (set_es_http_ready false);; dev_ iot_easysetup_deinit).

(** [free(ctx->scan_result)], [scan_num = 0]. *)
Definition drop_scan : M unit := setc (set_scan_result false);; setc (set_scan_num 0).

Definition set_wifi_mode (mode : iot_wifi_mode) : M Z := prov ← getc prov_data; dev (iot_bsp_wifi_set_mode mode prov).

(** The end of the function: [is_wifi_station]. *)
Definition wifi_done (station : bool) (iot_err : Z) : M Z :=
  when (iot_err =? IOT_ERROR_NONE) (setc (set_is_wifi_station station));; mret iot_err.

Definition iot_wifi_ctrl_request (wifi_mode : iot_wifi_mode) : M Z :=
  match wifi_mode with
  | IOT_WIFI_MODE_OFF =>
      deinit_http;; drop_scan;;
      iot_err ← set_wifi_mode IOT_WIFI_MODE_OFF;
      if negb (iot_err =? IOT_ERROR_NONE) then mret iot_err else wifi_done false iot_err
  | IOT_WIFI_MODE_STATION =>
      deinit_http;; drop_scan;;
      iot_err ← set_wifi_mode IOT_WIFI_MODE_STATION;
      if iot_err <? 0 then iot_set_st_ecode_from_conn_error iot_err;; mret iot_err
      else wifi_done true iot_err
  | IOT_WIFI_MODE_SOFTAP =>
      iot_err ← dev iot_easysetup_create_ssid;
      if negb (iot_err =? IOT_ERROR_NONE) then mret iot_err
      else
        iot_err ← set_wifi_mode IOT_WIFI_MODE_SOFTAP;
        if iot_err <? 0 then iot_set_st_ecode_from_conn_error iot_err;; mret iot_err
        else
          iot_err ← dev iot_easysetup_init;
          if negb (iot_err =? IOT_ERROR_NONE) then mret iot_err
          else setc (set_es_http_ready true);; wifi_done false iot_err
  | IOT_WIFI_MODE_SCAN =>
      iot_err ← set_wifi_mode IOT_WIFI_MODE_SCAN;
      if negb (iot_err =? IOT_ERROR_NONE) then mret iot_err
      else
        there ← getc scan_result;
        ok ← (if (there : bool) then mret true else dev d_malloc);
        when ok
          (setc (set_scan_result true);;
           n ← dev iot_bsp_wifi_get_scan_result;
           setc (set_scan_num (to_ushort n)));;
        wifi_done false iot_err
  end.

(** ** The MQTT connections *)

(** A function that sets a field of the context that depends on the type of the
    connection. *)
Definition client_of (t : iot_connect_type) : iot_context -> option nat :=
  match t with IOT_CONNECT_TYPE_REGISTRATION => reg_mqttcli | IOT_CONNECT_TYPE_COMMUNICATION => evt_mqttcli end.
Definition set_client_of (t : iot_connect_type) : option nat -> iot_context -> iot_context :=
  match t with IOT_CONNECT_TYPE_REGISTRATION => set_reg_mqttcli | IOT_CONNECT_TYPE_COMMUNICATION => set_evt_mqttcli end.
Definition request_status (t : iot_connect_type) : iot_context -> gg_connection_request_status :=
  match t with IOT_CONNECT_TYPE_REGISTRATION => sign_up_status | IOT_CONNECT_TYPE_COMMUNICATION => sign_in_status end.
Definition set_request_status (t : iot_connect_type) : gg_connection_request_status -> iot_context -> iot_context :=
  match t with IOT_CONNECT_TYPE_REGISTRATION => set_sign_up_status | IOT_CONNECT_TYPE_COMMUNICATION => set_sign_in_status end.

Definition _iot_es_mqtt_disconnect (target_cli : nat) : M unit := dev (st_mqtt_disconnect target_cli);; mret tt.

Definition iot_es_disconnect (conn_type : iot_connect_type) : M Z :=
  target_cli ← getc (client_of conn_type);
  match conn_type with
  | IOT_CONNECT_TYPE_COMMUNICATION => setc (set_mqtt_event_topic false);; setc (set_mqtt_health_topic false)
  | IOT_CONNECT_TYPE_REGISTRATION => mret tt
  end;;
  setc (set_client_of conn_type None);;
  match target_cli with
  | None => mret IOT_ERROR_INVALID_ARGS
  | Some c => _iot_es_mqtt_disconnect c;; dev_ (st_mqtt_destroy (Some c));; mret IOT_ERROR_NONE
  end.

(** [if (ctx->..._mqttcli != NULL) iot_es_disconnect(...)]. *)
Definition disconnect_if (t : iot_connect_type) : M unit :=
  c ← getc (client_of t);
  match c with Some _ => iot_es_disconnect t;; mret tt | None => mret tt end.

Definition iot_api_prov_data_mem_free : M unit :=
  prov ← getc prov_data;
  free_str (broker_url prov);;
  setc (set_prov_data (set_broker_url (if is_null (broker_url prov) then NullStr else Freed) prov));;
  prov ← getc prov_data;
  free_str (label prov);;
  setc (set_prov_data (set_label (if is_null (label prov) then NullStr else Freed) prov)).

Definition iot_device_cleanup : M Z :=
  iot_api_prov_data_mem_free;;
  setc (set_prov_data zero_prov);;
  dev iot_nv_erase_prov_data;;
  iot_err ← dev iot_nv_erase_device_id;
  evt ← getc evt_mqttcli;
  iot_err ← (match evt with
             | Some _ => iot_es_disconnect IOT_CONNECT_TYPE_COMMUNICATION
             | None => mret iot_err
             end);
  reg ← getc reg_mqttcli;
  iot_err ← (match reg with
             | Some _ => iot_es_disconnect IOT_CONNECT_TYPE_REGISTRATION
             | None => mret iot_err
             end);
  id ← getc lookup_id;
  free_str id;; setc (set_lookup_id NullStr);;
  mret iot_err.

Definition iot_cleanup (reboot : bool) : M Z :=
  deinit_http;;
  ble ← getc es_ble_ready;
  when ble (setc (set_es_ble_ready false);; dev_ iot_easysetup_deinit);;
  iot_device_cleanup;;
  setc (set_curr_state IOT_STATE_INITIALIZED);;
  when reboot (tell rebooted);;
  mret IOT_ERROR_NONE.

(** The code that stands for a failed [st_mqtt_connect]. *)
Definition connect_error (ret : Z) : M Z :=
  if (ret =? E_ST_MQTT_UNNACCEPTABLE_PROTOCOL) || (ret =? E_ST_MQTT_SERVER_UNAVAILABLE) then
    setc (set_critical_reject_count 0);; mret IOT_ERROR_MQTT_SERVER_UNAVAIL
  else if (ret =? E_ST_MQTT_CLIENTID_REJECTED) || (ret =? E_ST_MQTT_BAD_USERNAME_OR_PASSWORD)
          || (ret =? E_ST_MQTT_NOT_AUTHORIZED) then
    count ← getc critical_reject_count;
    setc (set_critical_reject_count (to_uint (count + 1)));;
    if count <? IOT_MQTT_CONNECT_CRITICAL_REJECT_MAX then mret IOT_ERROR_MQTT_CONNECT_FAIL
    else iot_cleanup true;; mret IOT_ERROR_MQTT_REJECT_CONNECT
  else if ret =? E_ST_MQTT_PACKET_TIMEOUT then
    setc (set_critical_reject_count 0);; mret IOT_ERROR_MQTT_CONNECT_TIMEOUT
  else setc (set_critical_reject_count 0);; mret IOT_ERROR_MQTT_CONNECT_FAIL.

Definition _iot_es_mqtt_connect (target_cli : nat) : M Z :=
  '(iot_ret, _) ← dev iot_get_random_id_str;
  if negb (iot_ret =? IOT_ERROR_NONE) then mret iot_ret
  else
    prov ← getc prov_data;
    if is_null (broker_url prov) then mret IOT_ERROR_INVALID_ARGS
    else
      iot_ret ← dev iot_nv_get_certificate;
      if negb (iot_ret =? IOT_ERROR_NONE) then mret iot_ret
      else
        match broker_url prov with
        | Freed => undef
        | _ =>
            ret ← dev (st_mqtt_connect target_cli);
            if negb (ret =? 0) then connect_error ret
            else setc (set_critical_reject_count 0);; mret IOT_ERROR_NONE
        end.

(** Registration; the topic and the payload are not told apart. *)
Definition _iot_es_mqtt_registration (mqtt_ctx : nat) : M Z :=
  setc (set_updated false);;
  dip ← getc devconf_dip;
  iot_err ← (match dip with
             | None => mret IOT_ERROR_NONE
             | Some dip =>
                 ok ← dev d_malloc;
                 if negb ok then mret IOT_ERROR_MEM_ALLOC
                 else
                   '(iot_err, _) ← dev (iot_util_uuid_str (dip_id dip));
                   mret (if iot_err =? IOT_ERROR_NONE then IOT_ERROR_NONE else IOT_ERROR_BAD_REQ)
             end);
  if negb (iot_err =? IOT_ERROR_NONE) then mret iot_err
  else
    ok ← dev _iot_es_mqtt_registration_json;
    if negb ok then mret IOT_ERROR_MEM_ALLOC
    else ret ← dev (st_mqtt_publish mqtt_ctx); mret (if ret =? 0 then IOT_ERROR_NONE else IOT_ERROR_BAD_REQ).

(** [st_mqtt_yield] with its callbacks. *)
Definition yield_mqtt (c : nat) : M unit :=
  ctx ← getc id;
  '(ctx, cmds) ← dev (st_mqtt_yield c ctx);
  setc (fun _ => ctx);; send_all cmds.

(** The wait for the server's answer: [fuel] rounds of 100 ms are enough for the
    timer of [GG_CONNECTION_RESPONSE_TIMEOUT_MS]. *)
Fixpoint await_answer (t : iot_connect_type) (c timer fuel : nat) : M unit :=
  active ← gets (fun w => d_timer_is_active timer (m_env w));
  if negb active then mret tt
  else
    match fuel with
    | O => hang
    | S fuel =>
        yield_mqtt c;;
        dev_ (d_delay 100);;
        status ← getc (request_status t);
        if bool_decide (status = GG_CONNECTION_REQUEST_STATUS_WAITING) then await_answer t c timer fuel
        else mret tt
    end.

Definition drop_connection (c : nat) (iot_ret : Z) : M Z := _iot_es_mqtt_disconnect c;; mret iot_ret.

(** After the connection, [IOT_CONNECT_TYPE_COMMUNICATION]. *)
Definition es_login (c timer : nat) : M Z :=
  ok ← dev d_malloc;
  if negb ok then mret IOT_ERROR_MEM_ALLOC
  else
    ok ← dev d_malloc;
    if negb ok then mret IOT_ERROR_MEM_ALLOC
    else
      ret ← dev (st_mqtt_subscribe c);
      if negb (ret =? 0) then drop_connection c IOT_ERROR_BAD_REQ
      else
        await_answer IOT_CONNECT_TYPE_COMMUNICATION c timer wait_fuel;;
        status ← getc sign_in_status;
        if negb (bool_decide (status = GG_CONNECTION_REQUEST_STATUS_SUCCESS))
        then drop_connection c IOT_ERROR_MQTT_CONNECT_FAIL
        else
          ok ← dev d_malloc;
          setc (set_mqtt_event_topic ok);;
          if negb ok then drop_connection c IOT_ERROR_MEM_ALLOC
          else
            ok ← dev d_malloc;
            setc (set_mqtt_health_topic ok);;
            if negb ok then drop_connection c IOT_ERROR_MEM_ALLOC
            else setc (set_evt_mqttcli (Some c));; mret IOT_ERROR_NONE.

(** [IOT_CONNECT_TYPE_REGISTRATION]; without memory for the topic the code jumps
    into the scope of another array, which has not been initialised. *)
Definition es_signup (c timer : nat) : M Z :=
  ok ← dev d_malloc;
  if negb ok then undef
  else
    ret ← dev (st_mqtt_subscribe c);
    if negb (ret =? 0) then drop_connection c IOT_ERROR_BAD_REQ
    else
      await_answer IOT_CONNECT_TYPE_REGISTRATION c timer wait_fuel;;
      status ← getc sign_up_status;
      if negb (bool_decide (status = GG_CONNECTION_REQUEST_STATUS_SUCCESS))
      then drop_connection c IOT_ERROR_MQTT_CONNECT_FAIL
      else
        iot_ret ← _iot_es_mqtt_registration c;
        if negb (iot_ret =? IOT_ERROR_NONE) then drop_connection c iot_ret
        else setc (set_reg_mqttcli (Some c));; mret IOT_ERROR_NONE.

(** The label [out], with the client that has been made. *)
Definition es_out (timer c : option nat) (iot_ret : Z) : M Z :=
  match timer with Some tm => dev_ (d_timer_delete tm) | None => mret tt end;;
  when (negb (iot_ret =? IOT_ERROR_NONE)) (dev_ (st_mqtt_destroy c));;
  mret iot_ret.

Definition count_try (t : iot_connect_type) : M unit :=
  match t with
  | IOT_CONNECT_TYPE_COMMUNICATION =>
      n ← getc mqtt_connection_try_count; setc (set_mqtt_connection_try_count (to_uint (n + 1)))
  | IOT_CONNECT_TYPE_REGISTRATION => mret tt
  end.
Definition count_success (t : iot_connect_type) : M unit :=
  match t with
  | IOT_CONNECT_TYPE_COMMUNICATION =>
      n ← getc mqtt_connection_success_count; setc (set_mqtt_connection_success_count (to_uint (n + 1)))
  | IOT_CONNECT_TYPE_REGISTRATION => mret tt
  end.

Definition es_open (t : iot_connect_type) (iot_ret : Z) : M Z :=
  cli ← dev st_mqtt_create;
  match cli with
  | None => es_out None None iot_ret
  | Some c =>
      count_try t;;
      setc (set_request_status t GG_CONNECTION_REQUEST_STATUS_WAITING);;
      iot_ret ← _iot_es_mqtt_connect c;
      if negb (iot_ret =? IOT_ERROR_NONE) then es_out None (Some c) iot_ret
      else
        count_success t;;
        timer ← dev (d_timer_create GG_CONNECTION_RESPONSE_TIMEOUT_MS);
        match timer with
        | None => es_out None (Some c) IOT_ERROR_MQTT_CONNECT_FAIL
        | Some tm =>
            dev_ (d_timer_start tm);;
            iot_ret ← (match t with
                       | IOT_CONNECT_TYPE_COMMUNICATION => es_login c tm
                       | IOT_CONNECT_TYPE_REGISTRATION => es_signup c tm
                       end);
            es_out (Some tm) (Some c) iot_ret
        end
  end.

Definition iot_es_connect (conn_type : iot_connect_type) : M Z :=
  limited ← getc rate_limit;
  if (limited : bool) then mret IOT_ERROR_MQTT_CONNECT_FAIL
  else
    iot_ret ← dev iot_nv_get_serial_number;
    if negb (iot_ret =? IOT_ERROR_NONE) then es_out None None iot_ret
    else
      ok ← dev d_strdup;
      if negb ok then es_out None None iot_ret
      else
        iot_ret ← dev iot_wt_create;
        if negb (iot_ret =? IOT_ERROR_NONE) then es_out None None iot_ret
        else
          registered ← getc updated;
          match conn_type with
          | IOT_CONNECT_TYPE_COMMUNICATION =>
              if negb registered then es_out None None iot_ret else es_open conn_type iot_ret
          | IOT_CONNECT_TYPE_REGISTRATION => es_open conn_type iot_ret
          end.

(** ** Provisioning *)

Definition _check_prov_data_validation (prov : iot_device_prov_data) : Z :=
  match ssid prov with
  | EmptyString => IOT_ERROR_INVALID_ARGS
  | _ =>
      if is_null (broker_url prov) then IOT_ERROR_INVALID_ARGS
      else if broker_port prov <? 0 then IOT_ERROR_INVALID_ARGS
      else IOT_ERROR_NONE
  end.

Definition _unlikely_with_stored_dip (chk_dip : option iot_dip_data) : M bool :=
  match chk_dip with
  | None => mret true
  | Some chk =>
      '(err, old) ← dev iot_misc_load_dip;
      if negb (err =? IOT_ERROR_NONE) then mret true
      else if negb (bool_decide (dip_id chk = dip_id old)) then mret true
      else if negb (dip_major_version chk =? dip_major_version old) then mret true
      else if negb (dip_minor_version chk =? dip_minor_version old) then mret true
      else mret false
  end.

Definition _prepare_self_reged : M Z :=
  ok ← dev d_malloc;
  if negb ok then mret IOT_ERROR_MEM_ALLOC
  else
    '(err, lookup_str) ← dev iot_get_random_id_str;
    if negb (err =? IOT_ERROR_NONE) then mret err
    else
      '(err, old_location) ← dev iot_misc_load_location;
      if negb (err =? IOT_ERROR_NONE) then mret err
      else
        ok ← dev d_malloc;
        if negb ok then mret IOT_ERROR_MEM_ALLOC
        else
          '(err, location_str) ← dev (iot_util_uuid_str old_location);
          if negb (err =? IOT_ERROR_NONE) then mret err
          else
            id ← getc lookup_id;
            free_str id;; setc (set_lookup_id (Str lookup_str));;
            prov ← getc prov_data;
            free_str (location prov);;
            setc (set_prov_data (set_location (Str location_str) prov));;
            mret IOT_ERROR_NONE.

Definition need_provisioning : M unit :=
  setc (set_new_reged true);; setc (set_onboarding_complete false).

(** The state to go to for the device identifier [usr_id] of the store. *)
Definition check_stored_id (usr_id : string) : M (Z * iot_state) :=
  setc (set_deviceId (if IOT_REG_UUID_STR_LEN <? Z.of_nat (String.length usr_id)
                      then String.substring 0 (Z.to_nat IOT_REG_UUID_STR_LEN) usr_id else usr_id));;
  dip ← getc devconf_dip;
  differs ← (match dip with None => mret false | Some _ => _unlikely_with_stored_dip dip end);
  '(err, differs) ← (if (differs : bool) then
                       err ← _prepare_self_reged; mret (err, err =? IOT_ERROR_NONE)
                     else mret (IOT_ERROR_NONE, false));
  next ← (if (differs : bool) then setc (set_self_reged true);; mret IOT_STATE_PROV_DONE
          else setc (set_updated true);; mret IOT_STATE_CLOUD_DISCONNECTED);
  setc (set_onboarding_complete true);;
  mret (err, next).

Definition next_prov_state : M iot_state :=
  iot_api_prov_data_mem_free;;
  prov ← getc prov_data;
  '(err, prov) ← dev (iot_nv_get_prov_data prov);
  setc (set_prov_data prov);;
  if negb (err =? IOT_ERROR_NONE) then
    dev iot_nv_erase_device_id;; need_provisioning;; mret IOT_STATE_PROV_ENTER
  else if negb (_check_prov_data_validation prov =? IOT_ERROR_NONE) then
    dev iot_nv_erase_device_id;; need_provisioning;; mret IOT_STATE_PROV_ENTER
  else
    '(err, usr_id) ← dev iot_nv_get_device_id;
    if negb (err =? IOT_ERROR_NONE) then need_provisioning;; mret IOT_STATE_PROV_ENTER
    else '(_, next) ← check_stored_id usr_id; mret next.

Definition _check_prov_status (cmd_only : bool) : M Z :=
  setc (set_new_reged false);;
  next_state ← next_prov_state;
  if cmd_only then mret IOT_ERROR_NONE else iot_state_update next_state IOT_STATE_OPT_NONE.

(** ** Resources of the easy setup *)

Definition _delete_easysetup_resources_all : M unit :=
  setc (set_es_res_created false);;
  setc (set_pin None);;
  security ← getc security_context;
  when security (dev_ iot_security_deinit;; setc (set_security_context false));;
  setc (set_resp_queue false).

Definition create_fail (ret : Z) : M Z := _delete_easysetup_resources_all;; mret ret.

(** The number for the user to enter: [None] when it is not used. *)
Definition make_pin (pin_num : option (list Z)) : M (option Z) :=
  otm ← getc ownership_validation_type;
  if Z.land otm IOT_OVF_TYPE_PIN =? 0 then mret None
  else
    p ← getc pin;
    ok ← (match p with Some _ => mret true | None => dev d_malloc end);
    if negb ok then mret (Some IOT_ERROR_MEM_ALLOC)
    else
      match pin_num with
      | Some n => setc (set_pin (Some n));; mret None
      | None => err ← create_fail IOT_ERROR_INVALID_ARGS; mret (Some err)
      end.

Definition _create_easysetup_resources (pin_num : option (list Z)) : M Z :=
  failed ← make_pin pin_num;
  match failed with
  | Some err => mret err
  | None =>
      ok ← dev iot_security_init;
      setc (set_security_context ok);;
      if negb ok then create_fail IOT_ERROR_SECURITY_INIT
      else
        there ← getc resp_queue;
        ok ← (if (there : bool) then mret true else dev resp_queue_create);
        setc (set_resp_queue ok);;
        if negb ok then create_fail IOT_ERROR_BAD_REQ
        else setc (set_es_res_created true);; mret IOT_ERROR_NONE
  end.

Definition _delete_dev_card_by_usr : M Z :=
  c ← getc evt_mqttcli;
  s ← getc curr_state;
  match c with
  | None => mret IOT_ERROR_NONE
  | Some c =>
      if negb (bool_decide (s = IOT_STATE_CLOUD_CONNECTED)) then mret IOT_ERROR_NONE
      else
        dev_ d_clear_done;;
        setc (set_usr_delete_req true);;
        ret ← dev (st_mqtt_publish c);
        if negb (ret =? 0) then setc (set_usr_delete_req false);; mret IOT_ERROR_BAD_REQ
        else
          done ← dev d_wait_done;
          if negb done then setc (set_usr_delete_req false);; mret IOT_ERROR_TIMEOUT
          else mret IOT_ERROR_NONE
  end.

Definition _get_device_preference : M unit :=
  c ← getc evt_mqttcli;
  match c with
  | None => mret tt
  | Some c => tell preferences_asked;; dev (st_mqtt_publish_async c);; mret tt
  end.

(** ** State updates *)

Definition _iot_state_timeout_cb : M unit :=
  s ← getc curr_state;
  match s with
  | IOT_STATE_PROV_ENTER => iot_state_update IOT_STATE_PROV_SLEEP IOT_STATE_OPT_NONE;; mret tt
  | IOT_STATE_PROV_DONE => iot_state_update IOT_STATE_PROV_ENTER IOT_STATE_OPT_NONE;; mret tt
  | _ => mret tt
  end.

(** What the change to a new state does first: [inl], the function returns with
    that code; [inr], it goes on with that code and time-out. *)
Definition change : Type := Z + Z * Z.
Definition refuse : M change := mret (inl IOT_ERROR_INVALID_ARGS).
Definition just : M change := mret (inr (IOT_ERROR_NONE, 0)).
Definition command_and (cmd : iot_command) (timeout_ms : Z) : M change :=
  iot_err ← iot_command_send cmd; mret (inr (iot_err, timeout_ms)).
Definition open_for_setup : M change :=
  iot_err ← iot_wifi_ctrl_request IOT_WIFI_MODE_SCAN;
  if negb (iot_err =? IOT_ERROR_NONE) then mret (inl iot_err)
  else
    iot_err ← iot_wifi_ctrl_request IOT_WIFI_MODE_SOFTAP;
    if negb (iot_err =? IOT_ERROR_NONE) then mret (inl iot_err)
    else mret (inr (iot_err, EASYSETUP_TIMEOUT_MS)).

Definition change_state (curr new_state : iot_state) : M change :=
  match curr, new_state with
  | IOT_STATE_INITIALIZED, IOT_STATE_PROV_ENTER => open_for_setup
  | IOT_STATE_INITIALIZED, IOT_STATE_PROV_DONE => command_and IOT_COMMAND_CLOUD_REGISTERING REGISTRATION_TIMEOUT_MS
  | IOT_STATE_INITIALIZED, IOT_STATE_CLOUD_DISCONNECTED => command_and IOT_COMMAND_CLOUD_CONNECTING 0
  | IOT_STATE_PROV_ENTER, IOT_STATE_PROV_CONFIRM => just
  | IOT_STATE_PROV_ENTER, IOT_STATE_PROV_SLEEP =>
      iot_err ← iot_wifi_ctrl_request IOT_WIFI_MODE_OFF; mret (inr (iot_err, 0))
  | IOT_STATE_PROV_CONFIRM, IOT_STATE_PROV_DONE => command_and IOT_COMMAND_CLOUD_REGISTERING REGISTRATION_TIMEOUT_MS
  | IOT_STATE_PROV_DONE, IOT_STATE_CLOUD_DISCONNECTED => command_and IOT_COMMAND_CLOUD_CONNECTING 0
  | IOT_STATE_PROV_DONE, IOT_STATE_PROV_ENTER => open_for_setup
  | IOT_STATE_PROV_DONE, IOT_STATE_PROV_CONFIRM => just
  | IOT_STATE_CLOUD_DISCONNECTED, IOT_STATE_CLOUD_CONNECTED => _get_device_preference;; just
  | IOT_STATE_CLOUD_DISCONNECTED, IOT_STATE_PROV_CONFIRM => just
  | IOT_STATE_CLOUD_CONNECTED, IOT_STATE_CLOUD_DISCONNECTED => command_and IOT_COMMAND_CLOUD_CONNECTING 0
  | _, _ => refuse
  end.

Definition set_timer_for (timeout_ms : Z) : M unit :=
  old ← getc state_timer;
  match old with Some tm => dev_ (d_timer_delete tm) | None => mret tt end;;
  if negb (timeout_ms =? 0) then
    timer ← dev (d_timer_create timeout_ms);
    setc (set_state_timer timer);;
    match timer with Some tm => dev_ (d_timer_start tm) | None => mret tt end
  else setc (set_state_timer None).

Definition report_if (status level : Z) : M unit :=
  maps ← getc status_maps;
  when (negb (Z.land maps status =? 0)) (report_status status level).

(** The report of the new state; [false] for a state that is not valid. *)
Definition report_state (new_state : iot_state) : M bool :=
  match new_state with
  | IOT_STATE_PROV_SLEEP | IOT_STATE_PROV_CONFIRM => mret true
  | IOT_STATE_PROV_ENTER => report_if IOT_STATUS_PROVISIONING IOT_STAT_LV_START;; mret true
  | IOT_STATE_PROV_DONE => report_if IOT_STATUS_PROVISIONING IOT_STAT_LV_DONE;; mret true
  | IOT_STATE_CLOUD_DISCONNECTED => report_if IOT_STATUS_IDLE IOT_STAT_LV_STAY;; mret true
  | IOT_STATE_CLOUD_CONNECTED =>
      tell init_reported;; report_if IOT_STATUS_CONNECTING IOT_STAT_LV_DONE;; mret true
  | IOT_STATE_INITIALIZED => mret false
  end.

Definition _do_state_updating (new_state : iot_state) (opt : iot_state_opt) : M Z :=
  curr ← getc curr_state;
  change ← change_state curr new_state;
  match change with
  | inl err => mret err
  | inr (iot_err, timeout_ms) =>
      set_timer_for timeout_ms;;
      setc (set_curr_state new_state);;
      cb ← getc status_cb;
      valid ← (if (cb : bool) then report_state new_state else mret true);
      mret (if (valid : bool) then iot_err else IOT_ERROR_INVALID_ARGS)
  end.

(** ** Commands *)

Definition _next_connection_retry_timeout : M unit := iot_command_send IOT_COMMAND_CLOUD_CONNECTING;; mret tt.

Definition _con_timeout_check : M bool :=
  timer ← getc cloud_con_timer;
  match timer with
  | Some tm => gets (fun w => d_timer_isexpired tm (m_env w))
  | None => mret false
  end.

Definition send_again (cmd : iot_command) : M unit := iot_command_send cmd;; mret tt.

(** [if (!ctx->is_wifi_station)]: the code of the request, or that there was none. *)
Definition go_to_station : M Z :=
  station ← getc is_wifi_station;
  if (station : bool) then mret IOT_ERROR_NONE else iot_wifi_ctrl_request IOT_WIFI_MODE_STATION.

(** [IOT_COMMAND_CLOUD_REGISTERING], after the Wi-Fi. *)
Definition register_device : M Z :=
  setc (set_d2d_event_request true);;
  disconnect_if IOT_CONNECT_TYPE_REGISTRATION;;
  setc (set_registered_msg_requested false);;
  err ← iot_es_connect IOT_CONNECT_TYPE_REGISTRATION;
  (if err =? IOT_ERROR_MQTT_REJECT_CONNECT then
     setc (set_es_network_status err);;
     dev_ iot_easysetup_deinit;;
     iot_state_update IOT_STATE_PROV_ENTER IOT_STATE_OPT_NONE;; mret tt
   else if negb (err =? IOT_ERROR_NONE) then
     setc (set_es_network_status (if err =? IOT_ERROR_NET_DNS_FAIL then IOT_ERROR_CONN_DNS_QUERY_FAIL
                                  else IOT_ERROR_CONN_STA_NO_INTERNET));;
     asked ← getc request_disconnect;
     when (negb asked) (send_again IOT_COMMAND_CLOUD_REGISTERING);;
     send_again IOT_COMMAND_CLOUD_REGISTERING
   else setc (set_es_network_status err);; setc (set_registered_msg_requested true));;
  mret err.

Definition do_cloud_registering : M Z :=
  expired ← _con_timeout_check;
  if (expired : bool) then dev_ iot_easysetup_deinit;; mret IOT_ERROR_NONE
  else
    err ← go_to_station;
    if negb (err =? IOT_ERROR_NONE) then
      setc (set_es_network_status err);;
      self ← getc self_reged;
      (if (self : bool) then send_again IOT_COMMAND_CLOUD_REGISTERING else dev_ iot_easysetup_deinit);;
      mret err
    else register_device.

Definition do_cloud_registered : M Z :=
  iot_es_disconnect IOT_CONNECT_TYPE_REGISTRATION;;
  prov ← getc prov_data;
  free_str (location prov);;
  free_str (room prov);;
  setc (set_prov_data (set_room NullStr (set_location NullStr prov)));;
  dip ← getc reg_dip;
  match dip with
  | Some d => dev (iot_misc_store_dip d);; setc (set_reg_dip None)
  | None => mret tt
  end;;
  loc ← getc reg_locationId;
  match loc with
  | Some l => dev (iot_misc_store_location l);; setc (set_reg_locationId None)
  | None => mret tt
  end;;
  id ← getc deviceId;
  err ← dev (iot_nv_set_device_id id);
  disconnect_if IOT_CONNECT_TYPE_REGISTRATION;;
  setc (set_es_network_status err);;
  iot_state_update IOT_STATE_CLOUD_DISCONNECTED IOT_STATE_OPT_NONE;;
  setc (set_self_reged false);;
  mret err.

(** The code that the application reads after a failed connection. *)
Definition connection_failed (err : Z) : M unit :=
  setc (set_es_network_status (if err =? IOT_ERROR_NET_DNS_FAIL then IOT_ERROR_CONN_DNS_QUERY_FAIL else err));;
  iot_set_st_ecode (if err =? IOT_ERROR_MQTT_CONNECT_FAIL then IOT_ST_ECODE_CE20_1
                    else if err =? IOT_ERROR_MQTT_CONNECT_TIMEOUT then IOT_ST_ECODE_CE20_3
                    else if err =? IOT_ERROR_NET_DNS_FAIL then IOT_ST_ECODE_CE01
                    else IOT_ST_ECODE_CE20_2);;
  mret tt.

Definition next_retry_time (count random : Z) : Z := iot_util_generator_backoff count 64 random.

(** A failed connection: the next attempt after a back-off; the random number is
    drawn also where [iot_util_generator_backoff] does not need it. *)
Definition retry_later (err : Z) : M unit :=
  count ← getc connection_retry_count;
  let count := to_uint (count + 1) in
  setc (set_connection_retry_count count);;
  random ← dev d_random;
  old ← getc next_connection_retry_timer;
  match old with Some tm => dev_ (d_timer_delete tm) | None => mret tt end;;
  timer ← dev (d_timer_create (next_retry_time count random));
  setc (set_next_connection_retry_timer timer);;
  match timer with
  | None => mret tt
  | Some tm => dev_ (d_timer_start tm);; connection_failed err
  end.

Definition connection_made (err : Z) : M unit :=
  setc (set_connection_retry_count 0);;
  old ← getc next_connection_retry_timer;
  match old with Some tm => dev_ (d_timer_delete tm) | None => mret tt end;;
  setc (set_next_connection_retry_timer None);;
  setc (set_es_network_status err);;
  iot_set_st_ecode IOT_ST_ECODE_NONE;;
  iot_state_update IOT_STATE_CLOUD_CONNECTED IOT_STATE_OPT_NONE;; mret tt.

Definition connect_device : M Z :=
  disconnect_if IOT_CONNECT_TYPE_COMMUNICATION;;
  err ← iot_es_connect IOT_CONNECT_TYPE_COMMUNICATION;
  (if (err =? IOT_ERROR_MQTT_REJECT_CONNECT) || (err =? IOT_ERROR_INVALID_ARGS) then
     send_again (IOT_COMMAND_NOTIFICATION_RECEIVED (Some NOTI_DEV_DELETED))
   else if negb (err =? IOT_ERROR_NONE) then retry_later err
   else connection_made err);;
  mret err.

Definition do_cloud_connecting : M Z :=
  expired ← _con_timeout_check;
  d2d ← getc d2d_event_request;
  if expired && d2d then
    dev_ iot_easysetup_deinit;; send_again IOT_COMMAND_CLOUD_CONNECTING;; mret IOT_ERROR_NONE
  else
    s ← getc curr_state;
    if negb (bool_decide (s = IOT_STATE_CLOUD_DISCONNECTED)) then mret IOT_ERROR_NONE
    else
      pause ← getc cloud_connection_pause;
      if (pause : bool) then
        send_again IOT_COMMAND_CLOUD_CONNECTING;; dev_ (d_delay 5000);; mret IOT_ERROR_NONE
      else
        err ← go_to_station;
        if negb (err =? IOT_ERROR_NONE) then send_again IOT_COMMAND_CLOUD_CONNECTING;; mret err
        else connect_device.

Definition call_noti_cb (noti : iot_noti_data) : M unit :=
  cb ← getc noti_cb; when cb (tell (noti_reported noti)).

Definition do_notification (noti : option iot_noti_data) : M Z :=
  match noti with
  | None => mret IOT_ERROR_NONE
  | Some noti =>
      match noti with
      | NOTI_DEV_DELETED =>
          asked ← getc usr_delete_req;
          if (asked : bool) then setc (set_usr_delete_req false);; dev_ d_set_done
          else call_noti_cb noti;; iot_cleanup true;; mret tt
      | NOTI_RATE_LIMIT | NOTI_QUOTA_REACHED | NOTI_PREFERENCE_UPDATED _ | NOTI_SEND_FAILED _ => call_noti_cb noti
      | NOTI_JWT_EXPIRED =>
          iot_es_disconnect IOT_CONNECT_TYPE_COMMUNICATION;;
          iot_es_connect IOT_CONNECT_TYPE_COMMUNICATION;; mret tt
      | NOTI_UNKNOWN => mret tt
      end;;
      mret IOT_ERROR_NONE
  end.

Definition _do_iot_main_command (cmd : iot_command) : M Z :=
  match cmd with
  | IOT_COMMAND_STATE_UPDATE None => undef
  | IOT_COMMAND_STATE_UPDATE (Some (new_state, opt)) => _do_state_updating new_state opt;; mret IOT_ERROR_NONE
  | IOT_COMMAND_CLOUD_REGISTERING => do_cloud_registering
  | IOT_COMMAND_CLOUD_REGISTERED => do_cloud_registered
  | IOT_COMMAND_CLOUD_CONNECTING => do_cloud_connecting
  | IOT_COMMAND_NOTIFICATION_RECEIVED noti => do_notification noti
  end.

(** ** The task *)

Definition _command_work_handler (param : option iot_command) : M unit :=
  match param with None => mret tt | Some cmd => _do_iot_main_command cmd;; mret tt end.

Definition handle_request (step : iot_easysetup_step) (payload : option string) : M Z :=
  ctx ← getc id;
  '(err, (ctx, cmds)) ← dev (iot_easysetup_request_handler step payload ctx);
  setc (fun _ => ctx);; send_all cmds;; mret err.

Definition _easysetup_request_work_handler (request : option iot_easysetup_step) (payload : option string) : M unit :=
  match request with
  | None => mret tt
  | Some step =>
      err ← handle_request step payload;
      when ((err =? IOT_ERROR_NONE) && bool_decide (step = IOT_EASYSETUP_STEP_SETUPCOMPLETE)) (dev_ (d_delay 1000))
  end.

Definition iot_easysetup_request (step : iot_easysetup_step) (payload : option string) : M Z :=
  ok ← dev d_malloc;
  if negb ok then mret IOT_ERROR_MEM_ALLOC else iot_put_device_work (easysetup_work (Some step) payload).

Definition run_work (work : device_work) : M unit :=
  match work with
  | command_work cmd => _command_work_handler cmd
  | easysetup_work step payload => _easysetup_request_work_handler step payload
  end.

(** [iot_util_queue_receive]. *)
Definition work_queue_receive : M (option device_work) :=
  locked ← dev d_lock;
  if negb locked then mret None
  else
    works ← gets m_work;
    match works with
    | [] => mret None
    | work :: rest => modify (with_work rest);; mret (Some work)
    end.

(** One round of [_device_work_queue_task] once a bit of the signal is set, which
    clears both: whether the task goes on. *)
Definition task_round : M bool :=
  kill ← gets kill_signal;
  pending ← gets pending_signal;
  modify (with_signals false false);;
  if (kill : bool) then mret false
  else
    if (pending : bool) then
      work ← work_queue_receive;
      match work with
      | Some work => run_work work;; modify (with_pending true);; mret true
      | None => mret true
      end
    else mret true.

(** The task until it waits for a signal, [Some false], or has been killed,
    [Some true], for at most [fuel] rounds. *)
Fixpoint _device_work_queue_task (fuel : nat) : M (option bool) :=
  signal ← gets (fun w => kill_signal w || pending_signal w);
  if negb signal then mret (Some false)
  else
    match fuel with
    | O => mret None
    | S fuel => goes_on ← task_round; if negb goes_on then mret (Some true) else _device_work_queue_task fuel
    end.

(** ** The functions of the library *)

(** The part common to [st_conn_start], [st_conn_start_ex] and
    [st_conn_cleanup]: not from the thread of the work queue. *)
Definition on_work_thread : M bool := gets (fun w => bool_decide (d_current_thread (m_env w) = Some true)).

Definition with_conn_lock (body : M Z) : M Z :=
  locked ← dev d_lock;
  if negb locked then mret IOT_ERROR_BAD_REQ else body.

Definition set_callback (cb : bool) (maps : Z) : M unit := setc (set_status_cb cb);; setc (set_status_maps maps).

Definition check_provisioning_or_free : M Z :=
  iot_err ← _check_prov_status false;
  if negb (iot_err =? IOT_ERROR_NONE) then
    cb ← getc status_cb;
    when cb (set_callback false 0);;
    there ← getc es_res_created;
    when there _delete_easysetup_resources_all;;
    mret iot_err
  else mret iot_err.

Definition st_conn_start (cb : bool) (maps : Z) (pin_num : option (list Z)) : M Z :=
  same ← on_work_thread;
  if (same : bool) then mret IOT_ERROR_BAD_REQ
  else
    with_conn_lock (
      s ← getc curr_state;
      if negb (bool_decide (s = IOT_STATE_INITIALIZED)) then mret IOT_ERROR_BAD_REQ
      else
        otm ← getc ownership_validation_type;
        if negb (Z.land otm IOT_OVF_TYPE_BUTTON =? 0) && negb cb then mret IOT_ERROR_BAD_REQ
        else
          there ← getc es_res_created;
          iot_err ← (if (there : bool) then mret IOT_ERROR_NONE else _create_easysetup_resources pin_num);
          if negb (iot_err =? IOT_ERROR_NONE) then mret iot_err
          else
            setc (set_add_justworks false);;
            when cb (set_callback true maps);;
            check_provisioning_or_free).

Definition st_conn_cleanup (reboot : bool) : M Z :=
  same ← on_work_thread;
  if (same : bool) then mret IOT_ERROR_BAD_REQ
  else with_conn_lock (iot_err ← _delete_dev_card_by_usr; iot_cleanup reboot;; mret iot_err).

(** [iot_ext_args_t]. *)
Record iot_ext_args_t := ExtArgs {
  x_status_cb : bool; x_maps : Z; x_pin_num : option (list Z); x_start_pt : Z; x_skip_usr_confirm : bool
}.

Definition start_connecting : M Z :=
  iot_err ← _check_prov_status true;
  if negb (iot_err =? IOT_ERROR_NONE) then mret iot_err
  else
    new ← getc new_reged;
    if (new : bool) then mret IOT_ERROR_BAD_REQ
    else iot_state_update IOT_STATE_CLOUD_DISCONNECTED IOT_STATE_OPT_NONE;; mret IOT_ERROR_NONE.

Definition start_provisioning (x : iot_ext_args_t) : M Z :=
  there ← getc es_res_created;
  iot_err ← (if (there : bool) then mret IOT_ERROR_NONE else _create_easysetup_resources (x_pin_num x));
  if negb (iot_err =? IOT_ERROR_NONE) then mret iot_err
  else
    setc (set_new_reged true);;
    iot_state_update IOT_STATE_PROV_ENTER IOT_STATE_OPT_NONE;;
    setc (set_add_justworks (x_skip_usr_confirm x));;
    mret IOT_ERROR_NONE.

Definition st_conn_start_ex (ext_args : option iot_ext_args_t) : M Z :=
  match ext_args with
  | None => mret IOT_ERROR_INVALID_ARGS
  | Some x =>
      same ← on_work_thread;
      if (same : bool) then mret IOT_ERROR_BAD_REQ
      else if negb (x_start_pt x =? IOT_STATUS_CONNECTING) && negb (x_start_pt x =? IOT_STATUS_PROVISIONING)
      then mret IOT_ERROR_BAD_REQ
      else
        otm ← getc ownership_validation_type;
        if negb (x_skip_usr_confirm x) && negb (Z.land otm IOT_OVF_TYPE_BUTTON =? 0)
           && negb (x_status_cb x) && (x_start_pt x =? IOT_STATUS_PROVISIONING)
        then mret IOT_ERROR_BAD_REQ
        else
          with_conn_lock (
            s ← getc curr_state;
            when (negb (bool_decide (s = IOT_STATE_INITIALIZED))) (iot_cleanup false;; mret tt);;
            setc (set_curr_state IOT_STATE_INITIALIZED);;
            iot_err ← (if x_start_pt x =? IOT_STATUS_CONNECTING then start_connecting else start_provisioning x);
            if negb (iot_err =? IOT_ERROR_NONE) then mret iot_err
            else when (x_status_cb x) (set_callback true (x_maps x));; mret iot_err)
  end.

(** [iot_info_data_t], and what is asked for. *)
Inductive iot_info_type_t := IOT_INFO_TYPE_IOT_STATUS_AND_STAT | IOT_INFO_TYPE_IOT_PROVISIONED | IOT_INFO_TYPE_OTHER.
Inductive iot_info_data_t := st_status (iot_status stat_lv : Z) | provisioned (there : bool).

Definition st_info_get (info_type : iot_info_type_t) : M (Z * option iot_info_data_t) :=
  locked ← dev d_lock;
  if negb locked then mret (IOT_ERROR_BAD_REQ, None)
  else
    match info_type with
    | IOT_INFO_TYPE_IOT_STATUS_AND_STAT =>
        stat ← getc reported_stat;
        if negb (stat =? 0) then
          mret (IOT_ERROR_NONE, Some (st_status (Z.land stat IOT_STATUS_ALL) (Z.shiftr stat 8)))
        else mret (IOT_ERROR_BAD_REQ, None)
    | IOT_INFO_TYPE_IOT_PROVISIONED =>
        there ← gets (fun w => iot_nv_prov_data_exist (m_env w));
        mret (IOT_ERROR_NONE, Some (provisioned there))
    | IOT_INFO_TYPE_OTHER => mret (IOT_ERROR_INVALID_ARGS, None)
    end.
End main.
