(* ===== verification/MainFsm.v ===== *)
(** * The device's main task: state updates

    What [_do_state_updating] does on every pair of states. *)

From S2P Require Import Prelude MainState ClientRun Util MainRun.

(** ** Computations that return and relate the worlds by [R] *)

Section steps.
Context `{Device} (R : mworld -> mworld -> Prop) `{!PreOrder R}.
Abbreviation M := (st mworld).

Definition steps {A} (m : M A) : Prop := forall w, exists a w', m w = Ret (a, w') /\ R w w'.

Lemma steps_ret {A} (a : A) : steps (mret a).
Proof using All. intros w. by exists a, w. Qed.

Lemma steps_bind {A B} (m : M A) (f : A -> M B) : steps m -> (forall a, steps (f a)) -> steps (m ≫= f).
Proof using All.
  intros Hm Hf w. destruct (Hm w) as (a & w1 & E1 & R1), (Hf a w1) as (b & w2 & E2 & R2).
  exists b, w2. split; [by rewrite (bind_ret _ _ _ _ _ E1)|by transitivity w1].
Qed.

Lemma steps_gets {A} (f : mworld -> A) : steps (gets f).
Proof using All. intros w. by exists (f w), w. Qed.

Lemma steps_if {A} (b : bool) (m1 m2 : M A) : steps m1 -> steps m2 -> steps (if b then m1 else m2).
Proof. by destruct b. Qed.

Lemma steps_when (b : bool) (m : M unit) : steps m -> steps (when b m).
Proof using All. intros Hm. destruct b; [done|apply steps_ret]. Qed.
End steps.

Lemma bind_getc `{Device} {A B} (f : iot_context -> A) (k : A -> st mworld B) w :
  (getc f ≫= k) w = k (f (m_ctx w)) w.
Proof. done. Qed.
Lemma bind_setc `{Device} {B} f (k : unit -> st mworld B) w :
  (setc f ≫= k) w = k tt (with_ctx (f (m_ctx w)) w).
Proof. done. Qed.

(** The part of the world that the state machine works with. *)
Section view.
Context `{Device} (wait_fuel : nat).
Abbreviation M := (st mworld).

Definition view (w : mworld) :=
  (curr_state (m_ctx w), state_timer (m_ctx w), (status_cb (m_ctx w), status_maps (m_ctx w), reported_stat (m_ctx w)),
   evt_mqttcli (m_ctx w), (m_work w, pending_signal w, kill_signal w), m_notices w).
Definition same_view (w w' : mworld) : Prop := view w' = view w.
#[local] Instance same_view_preorder : PreOrder same_view.
Proof. split; [done|]. intros w1 w2 w3 E1 E2. by unfold same_view in *; rewrite E2. Qed.
Abbreviation calm := (steps same_view).

Lemma calm_dev {A} (f : denv -> A * denv) : calm (dev f).
Proof. intros w. unfold dev. destruct (f (m_env w)) as [a e] eqn:E. exists a, (with_menv e w). by rewrite ?E. Qed.
Lemma calm_dev_ (f : denv -> denv) : calm (dev_ f).
Proof. intros w. by eexists tt, _. Qed.
Lemma calm_setc f : (forall c e l p k n, same_view (MWorld _ e c l p k n) (MWorld _ e (f c) l p k n)) -> calm (setc f).
Proof. intros Hf [e c l p k n]. by eexists tt, _. Qed.
End view.

#[export] Hint Extern 1 (PreOrder same_view) => apply same_view_preorder : typeclass_instances.

Create HintDb calm.
(** [steps same_view] of a computation made of calls that are. *)
Ltac calm :=
  repeat (cbv beta zeta;
    match goal with
    | |- steps _ (mret _) => apply steps_ret
    | |- steps _ (_ ≫= _) => apply steps_bind; [| |let x := fresh in intros x]
    | |- steps _ (gets _) => apply steps_gets
    | |- steps _ (getc _) => apply steps_gets
    | |- steps _ (dev _) => apply calm_dev
    | |- steps _ (dev_ _) => apply calm_dev_
    | |- steps _ (setc _) => apply calm_setc; intros; reflexivity
    | |- steps _ (when _ _) => apply steps_when
    | |- steps _ (if ?b then _ else _) => apply steps_if
    | |- steps _ (match ?x with _ => _ end) => destruct x
    | |- PreOrder _ => apply same_view_preorder
    | |- _ => solve [eauto with calm]
    end).

Section wifi.
Context `{Device}.

Lemma calm_set_st_ecode e : steps same_view (iot_set_st_ecode e).
Proof. unfold iot_set_st_ecode. calm. Qed.
Lemma calm_conn_error e : steps same_view (iot_set_st_ecode_from_conn_error e).
Proof. unfold iot_set_st_ecode_from_conn_error. destruct (conn_error_ecode e); [apply calm_set_st_ecode|calm]. Qed.
#[local] Hint Resolve calm_set_st_ecode calm_conn_error : calm.

Lemma calm_wifi mode : steps same_view (iot_wifi_ctrl_request mode).
Proof. destruct mode; unfold iot_wifi_ctrl_request, deinit_http, drop_scan, wifi_done, set_wifi_mode; calm. Qed.

Lemma calm_setup : steps same_view open_for_setup.
Proof. pose proof calm_wifi. unfold open_for_setup. calm. Qed.
End wifi.

(** ** The graph of the states *)

Definition edges : list (iot_state * iot_state) :=
  [(IOT_STATE_INITIALIZED, IOT_STATE_PROV_ENTER); (IOT_STATE_INITIALIZED, IOT_STATE_PROV_DONE);
   (IOT_STATE_INITIALIZED, IOT_STATE_CLOUD_DISCONNECTED);
   (IOT_STATE_PROV_ENTER, IOT_STATE_PROV_CONFIRM); (IOT_STATE_PROV_ENTER, IOT_STATE_PROV_SLEEP);
   (IOT_STATE_PROV_CONFIRM, IOT_STATE_PROV_DONE);
   (IOT_STATE_PROV_DONE, IOT_STATE_CLOUD_DISCONNECTED); (IOT_STATE_PROV_DONE, IOT_STATE_PROV_ENTER);
   (IOT_STATE_PROV_DONE, IOT_STATE_PROV_CONFIRM);
   (IOT_STATE_CLOUD_DISCONNECTED, IOT_STATE_CLOUD_CONNECTED); (IOT_STATE_CLOUD_DISCONNECTED, IOT_STATE_PROV_CONFIRM);
   (IOT_STATE_CLOUD_CONNECTED, IOT_STATE_CLOUD_DISCONNECTED)].

(** How long a state lasts at most: 0, for ever. *)
Definition timeout_of (s : iot_state) : Z :=
  match s with IOT_STATE_PROV_ENTER => 300000 | IOT_STATE_PROV_DONE => 900000 | _ => 0 end.

(** What is to be done in a state. *)
Definition commands_of (s : iot_state) : list device_work :=
  match s with
  | IOT_STATE_PROV_DONE => [command_work (Some IOT_COMMAND_CLOUD_REGISTERING)]
  | IOT_STATE_CLOUD_DISCONNECTED => [command_work (Some IOT_COMMAND_CLOUD_CONNECTING)]
  | _ => []
  end.

(** What the application is told about a state: a status and its level. *)
Definition status_of (s : iot_state) : option (Z * Z) :=
  match s with
  | IOT_STATE_PROV_ENTER => Some (IOT_STATUS_PROVISIONING, IOT_STAT_LV_START)
  | IOT_STATE_PROV_DONE => Some (IOT_STATUS_PROVISIONING, IOT_STAT_LV_DONE)
  | IOT_STATE_CLOUD_DISCONNECTED => Some (IOT_STATUS_IDLE, IOT_STAT_LV_STAY)
  | IOT_STATE_CLOUD_CONNECTED => Some (IOT_STATUS_CONNECTING, IOT_STAT_LV_DONE)
  | _ => None
  end.

(** The status that is reported, where the application wants it. *)
Definition wanted_status (s : iot_state) (c : iot_context) : option (Z * Z) :=
  match status_of s with
  | Some (status, level) =>
      if status_cb c && negb (Z.land (status_maps c) status =? 0) then Some (status, level) else None
  | None => None
  end.

(** All that the application sees of a change to [s]. *)
Definition seen (s : iot_state) (c : iot_context) : list notice :=
  match s, evt_mqttcli c with IOT_STATE_CLOUD_CONNECTED, Some _ => [preferences_asked] | _, _ => [] end ++
  match s, status_cb c with IOT_STATE_CLOUD_CONNECTED, true => [init_reported] | _, _ => [] end ++
  match wanted_status s c with Some (status, level) => [status_reported status level] | None => [] end.

Definition stat_after (s : iot_state) (c : iot_context) : Z :=
  match wanted_status s c with Some (status, level) => Z.lor status (Z.shiftl level 8) | None => reported_stat c end.

Section graph.
Context `{Device}.

(** [w'] is [w] after a change to [s] whose command has been sent if [err] is
    [IOT_ERROR_NONE]; [timer] is the new timer. *)
Definition entered (s : iot_state) (err : Z) (timer : option nat) (w w' : mworld) : Prop :=
  let sent := if err =? IOT_ERROR_NONE then commands_of s else [] in
  let c := m_ctx w in
  view w' =
    (s, timer, (status_cb c, status_maps c, stat_after s c), evt_mqttcli c,
     (m_work w ++ sent, match sent with [] => pending_signal w | _ => true end, kill_signal w),
     m_notices w ++ seen s c).

Lemma put_work_spec work w :
  exists err e, iot_put_device_work work w =
    Ret (err, if err =? IOT_ERROR_NONE
              then MWorld _ e (m_ctx w) (m_work w ++ [work]) true (kill_signal w) (m_notices w)
              else with_menv e w).
Proof.
  destruct w as [e0 c l p k n].
  unfold iot_put_device_work, work_queue_send, mbind, st_bind, mret, st_ret, dev, modify.
  repeat (cbn [m_env m_ctx m_work pending_signal kill_signal m_notices with_menv with_work with_pending negb];
    match goal with
    | |- context [d_malloc ?e] => destruct (d_malloc e) as [[] ?]
    | |- context [d_lock ?e] => destruct (d_lock e) as [[] ?]
    end);
  first [by eexists IOT_ERROR_NONE, _|by eexists IOT_ERROR_MEM_ALLOC, _|by eexists IOT_ERROR_TIMEOUT, _].
Qed.

Lemma bind_malloc {B} (k : bool -> st mworld B) w :
  exists b e, (dev d_malloc ≫= k) w = k b (with_menv e w).
Proof. unfold dev, mbind, st_bind. destruct (d_malloc (m_env w)) as [b e]. by exists b, e. Qed.

Lemma dev_returns {A} (f : denv -> A * denv) w : exists e, dev f w = Ret (fst (f (m_env w)), with_menv e w).
Proof. unfold dev. destruct (f (m_env w)) as [a e]. by exists e. Qed.

Lemma command_send_spec cmd w :
  exists err e, iot_command_send cmd w =
    Ret (err, if err =? IOT_ERROR_NONE
              then MWorld _ e (m_ctx w) (m_work w ++ [command_work (Some cmd)]) true (kill_signal w) (m_notices w)
              else with_menv e w).
Proof.
  unfold iot_command_send.
  match goal with |- context [(dev d_malloc ≫= ?k) w] => destruct (bind_malloc k w) as (b & e & ->) end.
  destruct b; cbn [negb]; [|by eexists IOT_ERROR_MEM_ALLOC, _].
  destruct (has_param cmd).
  - match goal with |- context [(dev d_malloc ≫= ?k) ?w0] => destruct (bind_malloc k w0) as (b & e1 & ->) end.
    destruct b; cbn [negb]; [|by eexists IOT_ERROR_MEM_ALLOC, _].
    apply (put_work_spec (command_work (Some cmd)) (with_menv e1 (with_menv e w))).
  - apply (put_work_spec (command_work (Some cmd)) (with_menv e w)).
Qed.

(** What [change_state] does on an edge of the graph: it fails before anything
    has changed, or it has sent what there is to send. *)
Definition left_for (new : iot_state) (w : mworld) (change : change) (w' : mworld) : Prop :=
  match change with
  | inl err => new = IOT_STATE_PROV_ENTER /\ err <> IOT_ERROR_NONE /\ same_view w w'
  | inr (err, timeout) =>
      timeout = timeout_of new /\
      exists sent asked,
        sent = (if err =? IOT_ERROR_NONE then commands_of new else []) /\
        asked = match new, evt_mqttcli (m_ctx w) with IOT_STATE_CLOUD_CONNECTED, Some _ => [preferences_asked] | _, _ => [] end /\
        view w' =
          (curr_state (m_ctx w), state_timer (m_ctx w), (status_cb (m_ctx w), status_maps (m_ctx w), reported_stat (m_ctx w)),
           evt_mqttcli (m_ctx w),
           (m_work w ++ sent, match sent with [] => pending_signal w | _ => true end, kill_signal w),
           m_notices w ++ asked)
  end.

Lemma left_calm new err w w' :
  same_view w w' -> commands_of new = [] -> new <> IOT_STATE_CLOUD_CONNECTED ->
  left_for new w (inr (err, timeout_of new)) w'.
Proof.
  intros Hv Hn Hc. split; [done|]. eexists _, _. split; [done|]. split; [done|].
  rewrite Hn, Hv. replace (match new with IOT_STATE_CLOUD_CONNECTED => _ | _ => _ end) with (@nil notice) by by destruct new.
  destruct (err =? IOT_ERROR_NONE); by rewrite !app_nil_r.
Qed.

Lemma left_command new cmd timeout w :
  commands_of new = [command_work (Some cmd)] -> timeout = timeout_of new ->
  exists change w', command_and cmd timeout w = Ret (change, w') /\ left_for new w change w'.
Proof.
  intros Hn ->. destruct (command_send_spec cmd w) as (err & e & E).
  unfold command_and. rewrite (bind_ret _ _ _ _ _ E). eexists _, _. split; [done|]. split; [done|].
  eexists _, _. split; [done|]. split; [done|]. rewrite Hn.
  replace (match new with IOT_STATE_CLOUD_CONNECTED => _ | _ => _ end) with (@nil notice) by by destruct new.
  destruct (err =? IOT_ERROR_NONE); by rewrite ?app_nil_r.
Qed.

Lemma left_open w :
  exists change w', open_for_setup w = Ret (change, w') /\ left_for IOT_STATE_PROV_ENTER w change w'.
Proof.
  unfold open_for_setup.
  destruct (calm_wifi IOT_WIFI_MODE_SCAN w) as (e1 & w1 & E1 & V1). rewrite (bind_ret _ _ _ _ _ E1).
  destruct (Z.eqb_spec e1 IOT_ERROR_NONE); cbn [negb]; [|by eexists _, _].
  destruct (calm_wifi IOT_WIFI_MODE_SOFTAP w1) as (e2 & w2 & E2 & V2). rewrite (bind_ret _ _ _ _ _ E2).
  assert (same_view w w2) by (unfold same_view in *; congruence).
  destruct (Z.eqb_spec e2 IOT_ERROR_NONE); cbn [negb]; [|by eexists _, _].
  eexists _, _. split; [done|]. by apply left_calm.
Qed.

Lemma left_preference w :
  exists change w', (_get_device_preference;; just) w = Ret (change, w') /\ left_for IOT_STATE_CLOUD_CONNECTED w change w'.
Proof.
  unfold _get_device_preference, mbind, st_bind, getc, gets.
  destruct w as [e c l p k n]. cbn [m_ctx]. destruct (evt_mqttcli c) as [cli|] eqn:Ec.
  - unfold tell, modify, dev. cbn [m_env with_notices].
    destruct (st_mqtt_publish_async cli e) as [r e'] eqn:E. cbn [m_notices m_ctx m_work pending_signal kill_signal].
    eexists _, _. split; [done|]. split; [done|]. eexists _, _. split; [done|]. split; [cbn; by rewrite Ec|].
    unfold view. cbn. by rewrite ?app_nil_r.
  - eexists _, _. split; [done|]. split; [done|]. eexists _, _. split; [done|]. split; [cbn; by rewrite Ec|].
    unfold view. cbn. by rewrite ?app_nil_r.
Qed.

Lemma change_state_spec new w :
  (curr_state (m_ctx w), new) ∈ edges ->
  exists change w', change_state (curr_state (m_ctx w)) new w = Ret (change, w') /\ left_for new w change w'.
Proof.
  generalize (curr_state (m_ctx w)). intros curr Hedge.
  destruct curr, new; try (exfalso; vm_compute in Hedge; set_solver); cbn [change_state];
    try (by apply left_command); try apply left_open; try apply left_preference;
    try (eexists _, _; split; [done|by apply left_calm]).
  destruct (calm_wifi IOT_WIFI_MODE_OFF w) as (err & w1 & E & V).
  rewrite (bind_ret _ _ _ _ _ E). eexists _, _. split; [done|]. by apply left_calm.
Qed.

Lemma change_state_refused curr new (w : mworld) :
  (curr, new) ∉ edges -> change_state curr new w = Ret (inl IOT_ERROR_INVALID_ARGS, w).
Proof. intros Hedge. destruct curr, new; try done; exfalso; apply Hedge; vm_compute; set_solver. Qed.

(** The timer that [timeout] asks for. *)
Definition made_timer (timeout : Z) (timer : option nat) : Prop :=
  if timeout =? 0 then timer = None else exists e e', d_timer_create timeout e = (timer, e').

Lemma set_timer_spec timeout w :
  exists timer e, set_timer_for timeout w = Ret (tt, with_ctx (set_state_timer timer (m_ctx w)) (with_menv e w)) /\
    made_timer timeout timer.
Proof.
  unfold set_timer_for, made_timer.
  assert (exists e, (match state_timer (m_ctx w) with Some tm => dev_ (d_timer_delete tm) | None => mret tt end) w
    = Ret (tt, with_menv e w)) as (e & E).
  { destruct (state_timer (m_ctx w)); [by eexists|]. exists (m_env w). by destruct w. }
  unfold getc. rewrite bind_gets, (bind_ret _ _ _ _ _ E).
  destruct (timeout =? 0); cbn [negb]; [by eexists None, e|].
  destruct (d_timer_create timeout e) as [timer e'] eqn:Et.
  assert (dev (d_timer_create timeout) (with_menv e w) = Ret (timer, with_menv e' w)) as Ed.
  { unfold dev. cbn. by rewrite Et. }
  rewrite (bind_ret _ _ _ _ _ Ed).
  destruct timer as [tm|]; [eexists (Some tm), (d_timer_start tm e')|eexists None, e']; (split; [done|by eexists _, _]).
Qed.

Lemma report_if_spec status level w :
  report_if status level w =
    Ret (tt, if negb (Z.land (status_maps (m_ctx w)) status =? 0)
             then MWorld _ (m_env w) (set_reported_stat (Z.lor status (Z.shiftl level 8)) (m_ctx w)) (m_work w)
                    (pending_signal w) (kill_signal w) (m_notices w ++ [status_reported status level])
             else w).
Proof. unfold report_if, getc. rewrite bind_gets. by destruct (negb _). Qed.

(** The reports, in a world that has the callback and the client of [c]. *)
Lemma report_spec new w c :
  new <> IOT_STATE_INITIALIZED ->
  status_cb c = status_cb (m_ctx w) -> status_maps c = status_maps (m_ctx w) -> reported_stat c = reported_stat (m_ctx w) ->
  exists w', (if status_cb (m_ctx w) then report_state new else mret true) w = Ret (true, w') /\
    view w' = (curr_state (m_ctx w), state_timer (m_ctx w), (status_cb c, status_maps c, stat_after new c),
               evt_mqttcli (m_ctx w), (m_work w, pending_signal w, kill_signal w),
               m_notices w ++ (match new, status_cb c with IOT_STATE_CLOUD_CONNECTED, true => [init_reported] | _, _ => [] end
                               ++ match wanted_status new c with Some (s, l) => [status_reported s l] | None => [] end)).
Proof.
  intros Hn Hcb Hm Hs. unfold stat_after, wanted_status. rewrite Hcb, Hm, Hs.
  destruct (status_cb (m_ctx w)) eqn:Ecb.
  - assert (Hrep : forall s l w0, status_maps (m_ctx w0) = status_maps (m_ctx w) ->
      (report_if s l;; mret true) w0 = Ret (true, if negb (Z.land (status_maps (m_ctx w)) s =? 0)
             then MWorld _ (m_env w0) (set_reported_stat (Z.lor s (Z.shiftl l 8)) (m_ctx w0)) (m_work w0)
                    (pending_signal w0) (kill_signal w0) (m_notices w0 ++ [status_reported s l])
             else w0)).
    { intros s l w0 E0. rewrite (bind_ret _ _ _ _ _ (report_if_spec s l w0)), E0. done. }
    destruct new; try done; cbn [report_state status_of andb]; rewrite ?Hrep by done;
      try (eexists; split; [done|]; unfold view; rewrite ?app_nil_r, ?Ecb; done).
    1-3: eexists; split; [done|]; destruct (negb _); unfold view; cbn; rewrite ?app_nil_r, ?Ecb; done.
    unfold tell. rewrite (bind_ret _ _ _ _ _ eq_refl), Hrep by done.
    eexists; split; [done|]; destruct (negb _); unfold view; cbn; rewrite ?app_nil_r, ?Ecb, <-?app_assoc; done.
  - eexists; split; [done|]. unfold view. destruct new; cbn; by rewrite ?app_nil_r, ?Ecb.
Qed.

Lemma state_updating_spec new opt w :
  exists err w', _do_state_updating new opt w = Ret (err, w') /\
    if decide ((curr_state (m_ctx w), new) ∈ edges) then
      (new = IOT_STATE_PROV_ENTER /\ err <> IOT_ERROR_NONE /\ same_view w w') \/
      (exists timer, made_timer (timeout_of new) timer /\ entered new err timer w w')
    else err = IOT_ERROR_INVALID_ARGS /\ w' = w.
Proof.
  unfold _do_state_updating. rewrite bind_getc.
  destruct (decide _) as [Hedge|Hedge]; [|by rewrite (bind_ret _ _ _ _ _ (change_state_refused _ _ _ Hedge)); eexists _, _].
  destruct (change_state_spec new w Hedge) as (change & w1 & E1 & Hl). rewrite (bind_ret _ _ _ _ _ E1).
  destruct change as [err|[err timeout]]; [eexists _, _; split; [done|]; by left|].
  destruct Hl as (-> & sent & asked & Es & Ea & Hv).
  destruct (set_timer_spec (timeout_of new) w1) as (timer & e & E2 & Ht). rewrite (bind_ret _ _ _ _ _ E2).
  rewrite bind_setc, bind_getc.
  set (w2 := with_ctx _ _).
  unfold view in Hv. simplify_eq Hv. intros Hstate Htimer Hcb Hmaps Hstat Hevt Hwork Hpend Hkill Hnotices.
  destruct (report_spec new w2 (m_ctx w)) as (w3 & E3 & V3); [|done..|].
  { intros ->. vm_compute in Hedge. set_solver. }
  rewrite (bind_ret _ _ _ _ _ E3). eexists _, _. split; [done|]. right. exists timer. split; [done|].
  unfold entered. rewrite V3. subst w2. cbn. rewrite Hevt, Hwork, Hpend, Hkill, Hnotices, <-Es. unfold seen.
  by rewrite <-Ea, <-app_assoc.
Qed.

(** C4: a state update follows the graph of the states: on any other pair of
    states it is refused and nothing changes; on an edge, either the Wi-Fi
    does not come up for provisioning and the state stays, with the code of
    the failure, or the device is in the new state, the timer of the old state
    is gone and that of the new one runs if the new state has a time-out, the
    command of the new state is at the end of the work queue if it could be
    sent, and the application has been told what it asked for, once; it always
    returns. *)
Theorem do_state_updating_correct new opt w :
  exists err w', _do_state_updating new opt w = Ret (err, w') /\
    if decide ((curr_state (m_ctx w), new) ∈ edges) then
      (new = IOT_STATE_PROV_ENTER /\ err <> IOT_ERROR_NONE /\ same_view w w') \/
      (exists timer, made_timer (timeout_of new) timer /\ entered new err timer w w')
    else err = IOT_ERROR_INVALID_ARGS /\ w' = w.
Proof. apply state_updating_spec. Qed.
End graph.
