(* ===== verification/MainInv.v ===== *)
(** * The device's main task: the invariant

    What holds in every world that the functions of the library, the task, its
    timers and the requests of the easy setup can reach. *)

From S2P Require Import Prelude MainState ClientRun Util MainRun MainFsm.

#[local] Set Default Proof Using "Type*".

(** The fields of the context that the invariant is about. *)
Definition quiet_view (c : iot_context) :=
  (curr_state c, state_timer c, evt_mqttcli c, mqtt_event_topic c, mqtt_health_topic c).

(** What the layers that are not modelled promise: the callbacks of the MQTT
    client and the handler of the easy setup's requests leave those fields. *)
Class QuietCallbacks `{Device} := {
  yield_quiet cli c e : quiet_view (fst (fst (st_mqtt_yield cli c e))) = quiet_view c;
  handler_quiet step payload c e :
    quiet_view (fst (snd (fst (iot_easysetup_request_handler step payload c e)))) = quiet_view c
}.

(** ** Partial correctness *)

Section hoare.
Context `{Device}.
Abbreviation M := (st mworld).

Definition hoare {A} (P : mworld -> Prop) (m : M A) (Q : A -> mworld -> Prop) : Prop :=
  forall w a w', P w -> m w = Ret (a, w') -> Q a w'.
Definition keeps {A} (K : mworld -> Prop) (m : M A) : Prop := hoare K m (fun _ => K).

Lemma hoare_bind {A B} P (m : M A) (f : A -> M B) Q R :
  hoare P m Q -> (forall a, hoare (Q a) (f a) R) -> hoare P (m ≫= f) R.
Proof. intros Hm Hf w b w' Hw E. apply bind_inv in E as (a & w1 & E1 & E2). eapply Hf, E2. by eapply Hm. Qed.
Lemma keeps_bind {A B} K (m : M A) (f : A -> M B) :
  keeps K m -> (forall a, keeps K (f a)) -> keeps K (m ≫= f).
Proof. apply (hoare_bind K m f (fun _ => K)). Qed.
Lemma keeps_ret {A} K (a : A) : keeps K (mret a).
Proof. intros w b w' Hw [= <- <-]. done. Qed.
Lemma keeps_undef {A} K : keeps K (@undef mworld A).
Proof. by intros w b w' Hw E. Qed.
Lemma keeps_hang {A} K : keeps K (@hang mworld A).
Proof. by intros w b w' Hw E. Qed.
Lemma keeps_need {A} K (o : option A) : keeps K (need o).
Proof. destruct o; [apply keeps_ret|apply keeps_undef]. Qed.
Lemma keeps_gets {A} K (f : mworld -> A) : keeps K (gets f).
Proof. intros w b w' Hw [= <- <-]. done. Qed.
Lemma keeps_when K (b : bool) m : keeps K m -> keeps K (when b m).
Proof. destruct b; [done|]. intros _. apply keeps_ret. Qed.
Lemma keeps_and {A} K J (m : M A) : keeps K m -> keeps J m -> keeps (fun w => K w /\ J w) m.
Proof. intros HI HJ w a w' [Hi Hj] E. split; [by eapply HI|by eapply HJ]. Qed.

(** ** Predicates that only the quiet fields and the end of the queue can break *)

Class Local (K : mworld -> Prop) : Prop := {
  local_env e w : K w -> K (with_menv e w);
  local_note n w : K w -> K (with_notices n w);
  local_ctx c w : quiet_view c = quiet_view (m_ctx w) -> K w -> K (with_ctx c w);
  local_put work w : K w -> K (with_pending true (with_work (m_work w ++ [work]) w));
  local_drop w : K w ->
    K (with_ctx (set_evt_mqttcli None (set_mqtt_health_topic false (set_mqtt_event_topic false (m_ctx w)))) w);
  local_init w : K w -> K (with_ctx (set_curr_state IOT_STATE_INITIALIZED (m_ctx w)) w)
}.

Lemma keeps_dev {A} `{!Local K} (f : denv -> A * denv) : keeps K (dev f).
Proof. intros w a w' Hw E. unfold dev in E. destruct (f (m_env w)). simplify_eq/=. by apply local_env. Qed.
Lemma keeps_dev_ `{!Local K} (f : denv -> denv) : keeps K (dev_ f).
Proof. intros w a w' Hw [= <- <-]. by apply local_env. Qed.
Lemma keeps_tell `{!Local K} n : keeps K (tell n).
Proof. intros w a w' Hw [= <- <-]. by apply local_note. Qed.
Lemma keeps_setc `{!Local K} f : (forall c, quiet_view (f c) = quiet_view c) -> keeps K (setc f).
Proof. intros Hf w a w' Hw [= <- <-]. by apply local_ctx. Qed.

Lemma keeps_command_send `{!Local K} cmd : keeps K (iot_command_send cmd).
Proof.
  intros w a w' Hw E. destruct (command_send_spec cmd w) as (err & e & E'). rewrite E in E'.
  injection E' as -> ->. destruct (err =? IOT_ERROR_NONE); [|by apply local_env].
  apply (local_put (command_work (Some cmd)) (with_menv e w)). by apply local_env.
Qed.

Lemma keeps_send_all `{!Local K} cmds : keeps K (send_all cmds).
Proof.
  induction cmds as [|c cmds IH]; [apply keeps_ret|]. apply keeps_bind; [apply keeps_command_send|done].
Qed.
Lemma keeps_free `{!Local K} s : keeps K (free_str s).
Proof. destruct s; [apply keeps_ret..|apply keeps_undef]. Qed.
End hoare.

Create HintDb keeps.
#[export] Hint Resolve keeps_command_send keeps_send_all keeps_free : keeps.

#[export] Hint Extern 1 (Local _) => apply _ : keeps.

(** [keeps] of a computation whose calls keep the predicate. *)
Ltac keeps :=
  repeat (cbv beta zeta;
    match goal with
    | |- keeps _ (mret _) => apply keeps_ret
    | |- keeps _ undef => apply keeps_undef
    | |- keeps _ hang => apply keeps_hang
    | |- Local _ => apply _
    | |- keeps _ (need _) => apply keeps_need
    | |- keeps _ (_ ≫= _) => apply keeps_bind; [|let x := fresh in intros x]
    | |- keeps _ (gets _) => apply keeps_gets
    | |- keeps _ (getc _) => apply keeps_gets
    | |- keeps _ (dev _) => apply keeps_dev
    | |- keeps _ (dev_ _) => apply keeps_dev_
    | |- keeps _ (tell _) => apply keeps_tell
    | |- keeps _ (setc _) => apply keeps_setc; intros; reflexivity
    | |- keeps _ (when _ _) => apply keeps_when
    | |- keeps _ (if ?b then _ else _) => destruct b
    | |- keeps _ (match ?x with _ => _ end) => destruct x
    | |- _ => solve [eauto with keeps]
    end).

Lemma disconnect_comm_eq `{Device} w :
  iot_es_disconnect IOT_CONNECT_TYPE_COMMUNICATION w =
  (match evt_mqttcli (m_ctx w) with
   | None => mret IOT_ERROR_INVALID_ARGS
   | Some c => _iot_es_mqtt_disconnect c;; dev_ (st_mqtt_destroy (Some c));; mret IOT_ERROR_NONE
   end) (with_ctx (set_evt_mqttcli None (set_mqtt_health_topic false (set_mqtt_event_topic false (m_ctx w)))) w).
Proof. by destruct w. Qed.

(** ** Every function keeps a local predicate, except for the state update and
    the connection for communication *)

Section local.
Context `{Device} (wait_fuel : nat) (K : mworld -> Prop) `{!Local K}.

Lemma keeps_set_st_ecode e : keeps K (iot_set_st_ecode e).
Proof. unfold iot_set_st_ecode. keeps. Qed.
Hint Resolve keeps_set_st_ecode : keeps.

Lemma keeps_conn_error e : keeps K (iot_set_st_ecode_from_conn_error e).
Proof. unfold iot_set_st_ecode_from_conn_error. keeps. Qed.
Hint Resolve keeps_conn_error : keeps.

Lemma keeps_state_update s opt : keeps K (iot_state_update s opt).
Proof. unfold iot_state_update, report_status. keeps. Qed.
Hint Resolve keeps_state_update : keeps.

Lemma keeps_wifi mode : keeps K (iot_wifi_ctrl_request mode).
Proof. destruct mode; unfold iot_wifi_ctrl_request, deinit_http, drop_scan, wifi_done, set_wifi_mode; keeps. Qed.
Hint Resolve keeps_wifi : keeps.

Lemma keeps_mem_free : keeps K iot_api_prov_data_mem_free.
Proof. unfold iot_api_prov_data_mem_free. keeps. Qed.
Hint Resolve keeps_mem_free : keeps.

Lemma keeps_mqtt_disconnect c : keeps K (_iot_es_mqtt_disconnect c).
Proof. unfold _iot_es_mqtt_disconnect. keeps. Qed.
Hint Resolve keeps_mqtt_disconnect : keeps.

Lemma keeps_disconnect_reg : keeps K (iot_es_disconnect IOT_CONNECT_TYPE_REGISTRATION).
Proof. unfold iot_es_disconnect. cbn [set_client_of client_of]. keeps. Qed.

Lemma keeps_disconnect t : keeps K (iot_es_disconnect t).
Proof.
  destruct t; [apply keeps_disconnect_reg|]. intros w a w' Hw. rewrite disconnect_comm_eq.
  apply local_drop in Hw. revert Hw. generalize (with_ctx (set_evt_mqttcli None
    (set_mqtt_health_topic false (set_mqtt_event_topic false (m_ctx w)))) w). intros w1 Hw.
  revert w1 a w' Hw. change (keeps K (match evt_mqttcli (m_ctx w) with
   | None => mret IOT_ERROR_INVALID_ARGS
   | Some c => _iot_es_mqtt_disconnect c;; dev_ (st_mqtt_destroy (Some c));; mret IOT_ERROR_NONE
   end)). keeps.
Qed.
Hint Resolve keeps_disconnect : keeps.

Lemma keeps_disconnect_if t : keeps K (disconnect_if t).
Proof. unfold disconnect_if. keeps. Qed.
Hint Resolve keeps_disconnect_if : keeps.

Lemma keeps_cleanup reboot : keeps K (iot_cleanup reboot).
Proof.
  unfold iot_cleanup, deinit_http, iot_device_cleanup.
  keeps. intros w a w' Hw [= <- <-]. by apply local_init.
Qed.
Hint Resolve keeps_cleanup : keeps.

Lemma keeps_mqtt_connect c : keeps K (_iot_es_mqtt_connect c).
Proof. unfold _iot_es_mqtt_connect, connect_error. keeps. Qed.
Hint Resolve keeps_mqtt_connect : keeps.

Lemma keeps_registration c : keeps K (_iot_es_mqtt_registration c).
Proof. unfold _iot_es_mqtt_registration. keeps. Qed.
Hint Resolve keeps_registration : keeps.

Lemma keeps_out t c r : keeps K (es_out t c r).
Proof. unfold es_out. keeps. Qed.
Lemma keeps_drop c r : keeps K (drop_connection c r).
Proof. unfold drop_connection. keeps. Qed.
Hint Resolve keeps_out keeps_drop : keeps.

Context `{!QuietCallbacks}.

Lemma keeps_yield c : keeps K (yield_mqtt c).
Proof.
  intros w a w' Hw E. unfold yield_mqtt in E. rewrite bind_getc in E.
  pose proof (yield_quiet c (m_ctx w) (m_env w)) as Hq.
  unfold dev at 1, mbind at 1, st_bind at 1 in E. change (id (m_ctx w)) with (m_ctx w) in E.
  destruct (st_mqtt_yield c (m_ctx w) (m_env w)) as [[ctx cmds] e]. cbn in Hq.
  rewrite bind_setc in E. eapply (keeps_send_all cmds); [|exact E].
  apply local_ctx; [done|]. by apply local_env.
Qed.
Hint Resolve keeps_yield : keeps.

Lemma keeps_await t c timer fuel : keeps K (await_answer t c timer fuel).
Proof.
  induction fuel as [|fuel IH]; cbn [await_answer]; [keeps|].
  destruct t; cbn [request_status] in *; keeps.
Qed.
Hint Resolve keeps_await : keeps.

Lemma keeps_signup c timer : keeps K (es_signup wait_fuel c timer).
Proof. unfold es_signup. keeps. Qed.

Lemma keeps_handle step payload : keeps K (handle_request step payload).
Proof.
  intros w a w' Hw E. unfold handle_request in E. rewrite bind_getc in E.
  pose proof (handler_quiet step payload (m_ctx w) (m_env w)) as Hq.
  unfold dev at 1, mbind at 1, st_bind at 1 in E. change (id (m_ctx w)) with (m_ctx w) in E.
  destruct (iot_easysetup_request_handler step payload (m_ctx w) (m_env w)) as [[err [ctx cmds]] e]. cbn in Hq.
  rewrite bind_setc in E. revert E. assert (keeps K (send_all cmds;; mret err)) as Hk by keeps.
  apply Hk. apply local_ctx; [done|]. by apply local_env.
Qed.
Hint Resolve keeps_handle : keeps.

(** ** The connections *)

Definition no_client (w : mworld) : Prop := evt_mqttcli (m_ctx w) = None.

End local.

#[export] Instance local_no_client `{Device} : Local no_client.
Proof.
  split; try done; unfold no_client, quiet_view; intros [] w; cbn; congruence.
Qed.
#[export] Instance local_and `{Device} K J `{!Local K, !Local J} : Local (fun w => K w /\ J w).
Proof.
  split; intros; destruct_and!.
  all: split; first [by apply local_env|by apply local_note|by apply local_ctx|by apply local_put|by apply local_drop|by apply local_init].
Qed.

(** A predicate that a connection for communication does not break: topics
    first, then the client. *)
Class Login `{Device} (K : mworld -> Prop) : Prop := {
  login_event b w : K w -> no_client w -> K (with_ctx (set_mqtt_event_topic b (m_ctx w)) w);
  login_health b w : K w -> no_client w -> K (with_ctx (set_mqtt_health_topic b (m_ctx w)) w);
  login_client c w : K w -> mqtt_event_topic (m_ctx w) = true -> mqtt_health_topic (m_ctx w) = true ->
    K (with_ctx (set_evt_mqttcli (Some c) (m_ctx w)) w)
}.

#[export] Instance login_and `{Device} K J `{!Login K, !Login J} : Login (fun w => K w /\ J w).
Proof.
  split; intros; destruct_and!; split;
    first [by apply login_event|by apply login_health|by apply login_client].
Qed.

#[export] Hint Resolve keeps_set_st_ecode keeps_conn_error keeps_state_update keeps_wifi keeps_mem_free
  keeps_mqtt_disconnect keeps_disconnect keeps_disconnect_if keeps_cleanup keeps_mqtt_connect keeps_registration
  keeps_out keeps_drop keeps_yield keeps_await keeps_handle keeps_signup : keeps.

Section connect.
Context `{Device} (wait_fuel : nat) (K : mworld -> Prop) `{!Local K, !Login K, !QuietCallbacks}.

(** The topics and the client at the end of [es_login]. *)
Definition keep_client (c : nat) : st mworld Z :=
  ok ← dev d_malloc;
  setc (set_mqtt_event_topic ok);;
  if negb ok then drop_connection c IOT_ERROR_MEM_ALLOC
  else
    ok ← dev d_malloc;
    setc (set_mqtt_health_topic ok);;
    if negb ok then drop_connection c IOT_ERROR_MEM_ALLOC
    else setc (set_evt_mqttcli (Some c));; mret IOT_ERROR_NONE.

Lemma login_keep_client c : hoare (fun w => K w /\ no_client w) (keep_client c) (fun _ => K).
Proof.
  intros w a w' [Hw Hn] E. unfold keep_client in E.
  match type of E with (dev d_malloc ≫= ?k) w = _ => destruct (bind_malloc k w) as (b & e & E1) end.
  rewrite E1, bind_setc in E. clear E1.
  assert (H1 : K (with_ctx (set_mqtt_event_topic b (m_ctx w)) (with_menv e w))).
  { apply (login_event b (with_menv e w)); [by apply local_env|done]. }
  destruct b; cbn [negb] in E; [|by eapply (keeps_drop K), E].
  set (w1 := with_ctx _ _) in *.
  match type of E with (dev d_malloc ≫= ?k) w1 = _ => destruct (bind_malloc k w1) as (b & e2 & E1) end.
  rewrite E1, bind_setc in E. clear E1.
  assert (H2 : K (with_ctx (set_mqtt_health_topic b (m_ctx w1)) (with_menv e2 w1))).
  { apply (login_health b (with_menv e2 w1)); [by apply local_env|done]. }
  destruct b; cbn [negb] in E; [|by eapply (keeps_drop K), E].
  rewrite bind_setc in E. injection E as <- <-. by apply (login_client c (with_ctx _ _)).
Qed.

Lemma hoare_weaken {A} (m : st mworld A) :
  keeps (fun w => K w /\ no_client w) m -> hoare (fun w => K w /\ no_client w) m (fun _ => K).
Proof. intros Hm w a w' Hw E. by eapply Hm in E as [? _]. Qed.

Lemma login_login c timer : hoare (fun w => K w /\ no_client w) (es_login wait_fuel c timer) (fun _ => K).
Proof.
  assert (Hk : forall w : mworld, es_login wait_fuel c timer w =
    (ok ← dev d_malloc;
     if negb ok then mret IOT_ERROR_MEM_ALLOC
     else
       ok ← dev d_malloc;
       if negb ok then mret IOT_ERROR_MEM_ALLOC
       else
         ret ← dev (st_mqtt_subscribe c);
         if negb (ret =? 0) then drop_connection c IOT_ERROR_BAD_REQ
         else
           await_answer IOT_CONNECT_TYPE_COMMUNICATION c timer wait_fuel;;
           status ← getc sign_in_status;
           if negb (bool_decide (status = GG_CONNECTION_REQUEST_STATUS_SUCCESS))
           then drop_connection c IOT_ERROR_MQTT_CONNECT_FAIL
           else keep_client c) w) by done.
  intros w a w' Hw E. rewrite Hk in E. clear Hk. revert w a w' Hw E.
  pose proof (fun r => keeps_drop (fun w => K w /\ no_client w) c r) as Hdrop.
  assert (Hd : forall {A} (f : denv -> A * denv), keeps (fun w => K w /\ no_client w) (dev f)) by (intros; apply keeps_dev).
  eapply hoare_bind; [apply Hd|]. intros []; cbn [negb]; [|apply hoare_weaken, keeps_ret].
  eapply hoare_bind; [apply Hd|]. intros []; cbn [negb]; [|apply hoare_weaken, keeps_ret].
  eapply hoare_bind; [apply Hd|]. intros ret. destruct (ret =? 0); cbn [negb]; [|apply hoare_weaken, Hdrop].
  eapply hoare_bind; [apply (keeps_await (fun w => K w /\ no_client w))|]. intros ?.
  eapply hoare_bind; [apply (keeps_gets (fun w => K w /\ no_client w))|].
  intros status. destruct (bool_decide _); cbn [negb]; [apply login_keep_client|apply hoare_weaken, Hdrop].
Qed.

Lemma login_open t r : hoare (fun w => K w /\ no_client w) (es_open wait_fuel t r) (fun _ => K).
Proof.
  set (J := fun w => K w /\ no_client w).
  assert (HJ : Local J) by (subst J; apply local_and; apply _).
  assert (HL : forall A (m : st mworld A), keeps J m -> hoare J m (fun _ => K)) by (intros; by apply hoare_weaken).
  unfold es_open.
  eapply hoare_bind; [apply (keeps_dev (K:=J))|]. intros [c|]; [|apply HL, keeps_out, _].
  eapply (hoare_bind _ _ _ (fun _ => J)); [change (keeps J (count_try t)); destruct t; unfold count_try; keeps|]. intros ?.
  eapply (hoare_bind _ _ _ (fun _ => J)); [change (keeps J (setc (set_request_status t GG_CONNECTION_REQUEST_STATUS_WAITING)));
    destruct t; cbn [set_request_status]; keeps|]. intros ?.
  eapply hoare_bind; [apply (keeps_mqtt_connect J)|]. intros ret.
  destruct (ret =? IOT_ERROR_NONE); cbn [negb]; [|apply HL, keeps_out, _].
  eapply (hoare_bind _ _ _ (fun _ => J)); [change (keeps J (count_success t)); destruct t; unfold count_success; keeps|]. intros ?.
  eapply hoare_bind; [apply (keeps_dev (K:=J))|]. intros [tm|]; [|apply HL, keeps_out, _].
  eapply hoare_bind; [apply (keeps_dev_ (K:=J))|]. intros ?.
  eapply (hoare_bind _ _ _ (fun _ => K)); [|intros; apply keeps_out, _].
  destruct t; [apply HL, keeps_signup, _|apply login_login].
  all: exact HJ.
Qed.

Lemma login_connect t : hoare (fun w => K w /\ no_client w) (iot_es_connect wait_fuel t) (fun _ => K).
Proof.
  set (J := fun w => K w /\ no_client w).
  assert (HJ : Local J) by (subst J; apply local_and; apply _).
  assert (HL : forall A (m : st mworld A), keeps J m -> hoare J m (fun _ => K)) by (intros; by apply hoare_weaken).
  unfold iot_es_connect.
  eapply hoare_bind; [apply (keeps_gets J)|]. intros []; [apply HL, keeps_ret|].
  eapply hoare_bind; [apply (keeps_dev (K:=J))|]. intros ret.
  destruct (ret =? IOT_ERROR_NONE); cbn [negb]; [|apply HL, keeps_out, _].
  eapply hoare_bind; [apply (keeps_dev (K:=J))|]. intros []; cbn [negb]; [|apply HL, keeps_out, _].
  eapply hoare_bind; [apply (keeps_dev (K:=J))|]. intros ret2.
  destruct (ret2 =? IOT_ERROR_NONE); cbn [negb]; [|apply HL, keeps_out, _].
  eapply hoare_bind; [apply (keeps_gets J)|]. intros up.
  destruct t; [apply login_open|]. destruct up; cbn [negb]; [apply login_open|apply HL, keeps_out, _].
Qed.

Lemma keeps_connect_reg : keeps K (iot_es_connect wait_fuel IOT_CONNECT_TYPE_REGISTRATION).
Proof. unfold iot_es_connect, es_open. cbn [count_try count_success set_request_status]. keeps. Qed.

Lemma disconnect_drops : hoare K (iot_es_disconnect IOT_CONNECT_TYPE_COMMUNICATION) (fun _ w => K w /\ no_client w).
Proof.
  intros w a w' Hw E. split; [by eapply (keeps_disconnect K), E|].
  rewrite disconnect_comm_eq in E. revert E.
  assert (H1 : no_client (with_ctx (set_evt_mqttcli None (set_mqtt_health_topic false (set_mqtt_event_topic false (m_ctx w)))) w)) by done.
  revert H1. generalize (with_ctx (set_evt_mqttcli None (set_mqtt_health_topic false (set_mqtt_event_topic false (m_ctx w)))) w).
  intros w1 H1. revert w1 a w' H1.
  change (keeps no_client (match evt_mqttcli (m_ctx w) with
   | None => mret IOT_ERROR_INVALID_ARGS
   | Some c => _iot_es_mqtt_disconnect c;; dev_ (st_mqtt_destroy (Some c));; mret IOT_ERROR_NONE
   end)). keeps.
Qed.

Lemma disconnect_if_drops : hoare K (disconnect_if IOT_CONNECT_TYPE_COMMUNICATION) (fun _ w => K w /\ no_client w).
Proof.
  intros w a w' Hw E. unfold disconnect_if in E. rewrite bind_getc in E. cbn [client_of] in E.
  destruct (evt_mqttcli (m_ctx w)) eqn:Ec.
  - apply bind_inv in E as (b & w1 & E1 & [= <- <-]). by eapply disconnect_drops.
  - injection E as <- <-. done.
Qed.

(** ** Commands *)

Lemma keeps_registered : keeps K do_cloud_registered.
Proof. unfold do_cloud_registered. keeps. Qed.

Lemma keeps_registering : keeps K (do_cloud_registering wait_fuel).
Proof.
  pose proof keeps_connect_reg.
  unfold do_cloud_registering, _con_timeout_check, go_to_station, register_device, send_again. keeps.
Qed.

Lemma keeps_retry err : keeps K (retry_later err).
Proof. unfold retry_later, connection_failed. keeps. Qed.
Lemma keeps_made err : keeps K (connection_made err).
Proof. unfold connection_made. keeps. Qed.

Lemma keeps_connect_device : keeps K (connect_device wait_fuel).
Proof.
  unfold connect_device. eapply hoare_bind; [apply disconnect_if_drops|]. intros ?.
  eapply hoare_bind; [apply login_connect|]. intros err.
  pose proof keeps_retry. pose proof keeps_made.
  change (keeps K ((if (err =? IOT_ERROR_MQTT_REJECT_CONNECT) || (err =? IOT_ERROR_INVALID_ARGS) then
     send_again (IOT_COMMAND_NOTIFICATION_RECEIVED (Some NOTI_DEV_DELETED))
   else if negb (err =? IOT_ERROR_NONE) then retry_later err else connection_made err);; mret err)).
  unfold send_again. keeps.
Qed.

Lemma keeps_connecting : keeps K (do_cloud_connecting wait_fuel).
Proof.
  pose proof keeps_connect_device.
  unfold do_cloud_connecting, _con_timeout_check, go_to_station, send_again. keeps.
Qed.

Lemma keeps_notification noti : keeps K (do_notification wait_fuel noti).
Proof.
  unfold do_notification, call_noti_cb. destruct noti as [noti|]; [|keeps].
  eapply (hoare_bind _ _ _ (fun _ => K)); [|intros; apply (keeps_ret K)].
  destruct noti; try (match goal with |- hoare K ?m _ => change (keeps K m) end; solve [keeps]).
  eapply hoare_bind; [apply disconnect_drops|]. intros ?.
  eapply hoare_bind; [apply login_connect|]. intros ?. apply (keeps_ret K).
Qed.

(** ** The functions of the library *)

Lemma keeps_check_prov only : keeps K (_check_prov_status only).
Proof.
  unfold _check_prov_status, next_prov_state, need_provisioning, check_stored_id, _unlikely_with_stored_dip,
    _prepare_self_reged. keeps.
Qed.
Lemma keeps_delete_resources : keeps K _delete_easysetup_resources_all.
Proof. unfold _delete_easysetup_resources_all. keeps. Qed.
Lemma keeps_resources pin_num : keeps K (_create_easysetup_resources pin_num).
Proof. pose proof keeps_delete_resources. unfold _create_easysetup_resources, make_pin, create_fail. keeps. Qed.

Lemma keeps_start cb maps pin_num : keeps K (st_conn_start cb maps pin_num).
Proof.
  pose proof keeps_delete_resources. pose proof keeps_resources. pose proof keeps_check_prov.
  unfold st_conn_start, with_conn_lock, on_work_thread, check_provisioning_or_free, set_callback. keeps.
Qed.
Lemma keeps_start_ex x : keeps K (st_conn_start_ex x).
Proof.
  pose proof keeps_resources. pose proof keeps_check_prov.
  unfold st_conn_start_ex, with_conn_lock, on_work_thread, start_connecting, start_provisioning, set_callback. keeps.
  all: intros w a w' Hw [= <- <-]; by apply local_init.
Qed.
Lemma keeps_conn_cleanup reboot : keeps K (st_conn_cleanup reboot).
Proof. unfold st_conn_cleanup, with_conn_lock, on_work_thread, _delete_dev_card_by_usr. keeps. Qed.
Lemma keeps_request step payload : keeps K (iot_easysetup_request step payload).
Proof.
  assert (Hput : forall work, keeps K (iot_put_device_work work)).
  { intros work w a w' Hw E. destruct (put_work_spec work w) as (err & e & E'). rewrite E in E'.
    injection E' as -> ->. destruct (err =? IOT_ERROR_NONE); [|by apply local_env].
    apply (local_put work (with_menv e w)). by apply local_env. }
  unfold iot_easysetup_request. keeps.
Qed.
Lemma keeps_timeout_cb : keeps K _iot_state_timeout_cb.
Proof. unfold _iot_state_timeout_cb. keeps. Qed.
Lemma keeps_retry_timeout : keeps K _next_connection_retry_timeout.
Proof. unfold _next_connection_retry_timeout. keeps. Qed.
End connect.

(** ** The invariant *)

Definition state_lasts (s : iot_state) : Prop :=
  s = IOT_STATE_INITIALIZED \/ s = IOT_STATE_PROV_ENTER \/ s = IOT_STATE_PROV_DONE.

Section invariant.
Context `{Device} (wait_fuel : nat).

(** Only these states have a timer; a client for communication has its topics;
    nobody kills the task. *)
Definition timer_ok (w : mworld) : Prop := state_timer (m_ctx w) <> None -> state_lasts (curr_state (m_ctx w)).
Definition topics_ok (w : mworld) : Prop :=
  evt_mqttcli (m_ctx w) <> None -> mqtt_event_topic (m_ctx w) = true /\ mqtt_health_topic (m_ctx w) = true.
Definition lives (w : mworld) : Prop := kill_signal w = false.
Definition sound (w : mworld) : Prop := timer_ok w /\ (topics_ok w /\ lives w).

(** While there is work the task has a reason to wake up. *)
Definition woken (w : mworld) : Prop := m_work w <> [] -> pending_signal w = true.

#[export] Instance timer_ok_local : Local timer_ok.
Proof.
  split; try done; unfold timer_ok, quiet_view; [|intros w _ _; by left].
  intros c w [= E1 E2 _ _ _]. cbn. by rewrite E1, E2.
Qed.
#[export] Instance topics_ok_local : Local topics_ok.
Proof. split; try done. unfold topics_ok, quiet_view. intros c w [= _ _ E1 E2 E3]. cbn. by rewrite E1, E2, E3. Qed.
#[export] Instance lives_local : Local lives.
Proof. split; done. Qed.
#[export] Instance sound_local : Local sound.
Proof. unfold sound. apply _. Qed.
#[export] Instance woken_local : Local woken.
Proof. split; done. Qed.
#[export] Instance sound_login : Login sound.
Proof.
  split; unfold sound, timer_ok, topics_ok, no_client.
  - intros b w (?&Ht&?) Hn. by split_and!.
  - intros b w (?&Ht&?) Hn. by split_and!.
  - intros c w (?&Ht&?) He Hh. by split_and!.
Qed.
#[export] Instance woken_login : Login woken.
Proof. split; done. Qed.

Lemma keeps_updating (J : mworld -> Prop) `{!Local J} new opt :
  (forall t w, J w -> J (with_ctx (set_state_timer t (m_ctx w)) w)) ->
  (forall s w, J w -> J (with_ctx (set_curr_state s (m_ctx w)) w)) ->
  keeps J (_do_state_updating new opt).
Proof.
  intros Ht Hs. assert (forall t, keeps J (setc (set_state_timer t))) as Ht'.
  { intros t w a w' Hw [= <- <-]. by apply Ht. }
  assert (forall s, keeps J (setc (set_curr_state s))) as Hs'.
  { intros s w a w' Hw [= <- <-]. by apply Hs. }
  unfold _do_state_updating. apply keeps_bind; [apply keeps_gets|]. intros curr.
  apply keeps_bind.
  { unfold change_state, open_for_setup, command_and, just, refuse, _get_device_preference. keeps. }
  intros [?|[err ms]]; [apply keeps_ret|].
  apply keeps_bind. { unfold set_timer_for. repeat (first [apply Ht'|keeps]). all: apply Ht'. }
  intros _. apply keeps_bind; [apply Hs'|]. intros _.
  unfold report_state, report_if, report_status. keeps.
Qed.

Lemma sound_updating new opt : keeps sound (_do_state_updating new opt).
Proof.
  apply keeps_and; [|apply keeps_updating; [apply _|done..]].
  intros w a w' Hw E. destruct (state_updating_spec new opt w) as (err & w1 & E' & Hspec).
  rewrite E in E'. injection E' as <- <-. destruct (decide _); [|by destruct Hspec as [_ ->]].
  unfold timer_ok. destruct Hspec as [(-> & _ & Hv)|(timer & Ht & Hv)].
  - unfold same_view, view in Hv. simplify_eq Hv. intros Es Et; intros. rewrite Es. apply Hw. by rewrite <-Et.
  - unfold entered, view in Hv. simplify_eq Hv. intros Es Et; intros. rewrite Es.
    assert (timer <> None) as Hn by congruence.
    unfold made_timer, state_lasts in *. destruct new; cbn in *; try done; auto.
Qed.

Lemma woken_updating new opt : keeps woken (_do_state_updating new opt).
Proof. by apply keeps_updating; [apply _|..]. Qed.

(** ** The task and its environment *)

(** [iot_os_mutex_lock] waits until it has the lock. *)
Class LocksWork := { lock_works e : fst (d_lock e) = true }.

Context `{!LocksWork}.

Lemma work_receive_spec w :
  exists e, work_queue_receive w =
    Ret (match m_work w with [] => None | work :: _ => Some work end, with_work (tail (m_work w)) (with_menv e w)).
Proof.
  unfold work_queue_receive, dev, mbind, st_bind. pose proof (lock_works (m_env w)) as Hl.
  destruct (d_lock (m_env w)) as [b e]. cbn in Hl. subst b. exists e. destruct w as [? ? [|] ? ? ?]; done.
Qed.

Context `{!QuietCallbacks}.

Lemma keeps_command (J : mworld -> Prop) `{!Local J, !Login J} cmd :
  (forall new opt, keeps J (_do_state_updating new opt)) -> keeps J (_do_iot_main_command wait_fuel cmd).
Proof.
  intros Hs. destruct cmd as [[[new opt]|]| | | |noti]; cbn [_do_iot_main_command].
  - apply keeps_bind; [apply Hs|intros; apply keeps_ret].
  - apply keeps_undef.
  - by apply keeps_registering.
  - by apply keeps_registered.
  - by apply keeps_connecting.
  - by apply keeps_notification.
Qed.

Lemma keeps_work (J : mworld -> Prop) `{!Local J, !Login J} work :
  (forall new opt, keeps J (_do_state_updating new opt)) -> keeps J (run_work wait_fuel work).
Proof.
  intros Hs. pose proof (fun c => keeps_command J c Hs).
  destruct work as [[cmd|]|[step|] payload]; cbn [run_work _command_work_handler _easysetup_request_work_handler]; keeps.
Qed.

Definition main_ok (w : mworld) : Prop := sound w /\ woken w.

Lemma keeps_round : keeps main_ok (task_round wait_fuel).
Proof.
  intros w goes w' [Hs Hw] E. destruct w as [e c l p k n].
  unfold task_round in E. rewrite !bind_gets in E. cbn [pending_signal kill_signal] in E.
  change ((modify (with_signals false false) ≫= ?f) ?w0) with (f tt (MWorld _ e c l false false n)) in E.
  destruct Hs as (Ht & Htop & Hk). unfold lives in Hk. cbn in Hk. subst k.
  assert (Hs : sound (MWorld _ e c l false false n)) by done.
  destruct p; [|injection E as <- <-; by split].
  destruct (work_receive_spec (MWorld _ e c l false false n)) as (e1 & E1). rewrite (bind_ret _ _ _ _ _ E1) in E.
  destruct l as [|work rest]; cbn [m_work tail] in E; [injection E as <- <-; split; [done|by intros ?]|].
  apply bind_inv in E as ([] & w1 & E2 & E3).
  apply (keeps_work sound) in E2; [|apply sound_updating|done].
  change ((modify (with_pending true) ≫= ?f) w1) with (f tt (with_pending true w1)) in E3.
  injection E3 as <- <-. by split.
Qed.

(** What happens to the device: a function of the library is called, a timer
    fires, a request of the easy setup comes in, or the task makes a round. *)
Inductive main_op :=
| op_start (cb : bool) (maps : Z) (pin_num : option (list Z))
| op_start_ex (ext_args : option iot_ext_args_t)
| op_cleanup (reboot : bool)
| op_state_timeout
| op_retry_timeout
| op_request (step : iot_easysetup_step) (payload : option string)
| op_state_update (new_state : iot_state) (opt : iot_state_opt)
| op_round.

Definition run_main_op (op : main_op) : st mworld unit :=
  match op with
  | op_start cb maps pin_num => st_conn_start cb maps pin_num;; mret tt
  | op_start_ex x => st_conn_start_ex x;; mret tt
  | op_cleanup reboot => st_conn_cleanup reboot;; mret tt
  | op_state_timeout => _iot_state_timeout_cb
  | op_retry_timeout => _next_connection_retry_timeout
  | op_request step payload => iot_easysetup_request step payload;; mret tt
  | op_state_update new opt => iot_state_update new opt;; mret tt
  | op_round => task_round wait_fuel;; mret tt
  end.
Fixpoint run_main_ops (ops : list main_op) : st mworld unit :=
  match ops with [] => mret tt | op :: ops => run_main_op op;; run_main_ops ops end.

Lemma keeps_op op : keeps main_ok (run_main_op op).
Proof.
  assert (HL : Local main_ok) by (unfold main_ok; apply _).
  assert (HG : Login main_ok) by (unfold main_ok; apply login_and; apply _).
  destruct op; cbn [run_main_op].
  - apply keeps_bind; [by apply keeps_start|intros; apply keeps_ret].
  - apply keeps_bind; [by apply keeps_start_ex|intros; apply keeps_ret].
  - apply keeps_bind; [by apply keeps_conn_cleanup|intros; apply keeps_ret].
  - by apply keeps_timeout_cb.
  - by apply keeps_retry_timeout.
  - apply keeps_bind; [by apply keeps_request|intros; apply keeps_ret].
  - apply keeps_bind; [by apply keeps_state_update|intros; apply keeps_ret].
  - apply keeps_bind; [apply keeps_round|intros; apply keeps_ret].
Qed.

Lemma keeps_ops ops : keeps main_ok (run_main_ops ops).
Proof.
  induction ops as [|op ops IH]; cbn [run_main_ops]; [apply keeps_ret|].
  apply keeps_bind; [apply keeps_op|done].
Qed.

(** The world after [st_conn_init]. *)
Definition initial (w : mworld) : Prop :=
  curr_state (m_ctx w) = IOT_STATE_INITIALIZED /\ state_timer (m_ctx w) = None /\ evt_mqttcli (m_ctx w) = None /\
  m_work w = [] /\ kill_signal w = false.

Lemma initial_ok w : initial w -> main_ok w.
Proof.
  intros (Es & Et & Ee & Ew & Ek). unfold main_ok, sound, timer_ok, topics_ok, lives, woken.
  by rewrite Es, Et, Ee, Ew, Ek.
Qed.

(** C3: in every world that the operations of the device reach from the one
    after [st_conn_init], if they return, three things hold.  A timer of the
    state exists only in the states that are limited in time, [PROV_ENTER] and
    [PROV_DONE], and in [INITIALIZED], where [iot_cleanup] leaves the timer of the
    state before.  The client for communication is never without the topics of
    its events and of its health.  And the task has a wake-up pending whenever
    there is work in its queue, so that no command is left lying.  The callbacks
    of the MQTT client and the handler of the setup are taken to leave these
    fields alone ([QuietCallbacks]), and the lock of the queue to be got. *)
Theorem main_task_invariant ops w w' :
  initial w -> run_main_ops ops w = Ret (tt, w') ->
  (state_timer (m_ctx w') <> None -> state_lasts (curr_state (m_ctx w'))) /\
  (evt_mqttcli (m_ctx w') <> None -> mqtt_event_topic (m_ctx w') = true /\ mqtt_health_topic (m_ctx w') = true) /\
  (m_work w' <> [] -> pending_signal w' = true).
Proof. intros Hi E. by apply keeps_ops in E as [(?&?&?) ?]; [|apply initial_ok]. Qed.

(** The time-out that [iot_state_timeout_change] is asked for in
    [IOT_STATE_PROV_CONFIRM], when the user denies the confirmation, is written
    through a null pointer: that state never has a timer. *)
Theorem denied_confirmation_faults ops w w' timeout :
  initial w -> run_main_ops ops w = Ret (tt, w') ->
  curr_state (m_ctx w') = IOT_STATE_PROV_CONFIRM -> timeout <= IOT_STATE_TIMEOUT_MAX_MS ->
  iot_state_timeout_change IOT_STATE_PROV_CONFIRM timeout w' = Undef.
Proof.
  intros Hi E Hc Ht. apply keeps_ops in E as [(Hn&_) _]; [|by apply initial_ok].
  unfold iot_state_timeout_change. rewrite bool_decide_eq_false_2 by done.
  replace (IOT_STATE_TIMEOUT_MAX_MS <? timeout) with false by (symmetry; apply Z.ltb_ge; lia).
  rewrite bind_getc, Hc, bool_decide_eq_true_2 by done. cbn [negb]. rewrite bind_getc.
  destruct (state_timer (m_ctx w')) eqn:Et; [|done].
  exfalso. unfold timer_ok in Hn. rewrite Et, Hc in Hn. by destruct Hn as [?|[?|?]].
Qed.
End invariant.
