(* ===== verification/MainSample.v ===== *)
(** * The device's main task: a sample device

    A concrete board under the main task, for the witnesses: an allocator that
    works, timers that share one count, a store with or without provisioning data,
    and a server that answers at once, or no memory for a client. *)

From S2P Require Import Prelude MainState ClientRun Util MainRun MainFsm MainInv.

Record sim := Sim {
  sim_timers : nat;
  sim_left : Z;
  sim_store : option (iot_device_prov_data * string)
}.

Definition sim_tick (ms : Z) (e : sim) : sim := Sim (sim_timers e) (sim_left e - ms) (sim_store e).
Definition sim_erase (e : sim) : sim := Sim (sim_timers e) (sim_left e) None.

(** The easy setup of the sample: the confirmation and the end of the setup
    move the state on. *)
Definition sim_handler (step : iot_easysetup_step) : list iot_command :=
  match step with
  | IOT_EASYSETUP_STEP_CONFIRMINFO => [IOT_COMMAND_STATE_UPDATE (Some (IOT_STATE_PROV_CONFIRM, IOT_STATE_OPT_NONE))]
  | IOT_EASYSETUP_STEP_SETUPCOMPLETE => [IOT_COMMAND_STATE_UPDATE (Some (IOT_STATE_PROV_DONE, IOT_STATE_OPT_NONE))]
  | _ => []
  end.

(** The strings that loading gives have just been allocated. *)
Definition sim_copy (s : cstr) : cstr := match s with Str s => Str s | _ => NullStr end.
Definition sim_load (p : iot_device_prov_data) : iot_device_prov_data :=
  Prov (ssid p) (wifi_rest p) (sim_copy (broker_url p)) (broker_port p) (sim_copy (location p)) (sim_copy (room p)) (sim_copy (label p)).

Definition fine {A} (e : A) : Z * A := (IOT_ERROR_NONE, e).

(** With or without memory, for blocks and for copies of strings, and with or
    without an MQTT client. *)
Definition sim_board (memory names broker : bool) : Device := {|
  denv := sim;
  d_malloc e := (memory, e);
  d_strdup e := (names, e);
  d_lock e := (true, e);
  d_random e := (5, e);
  d_delay := sim_tick;
  d_timer_create ms e := (Some (sim_timers e), Sim (S (sim_timers e)) ms (sim_store e));
  d_timer_start _ e := e;
  d_timer_delete _ e := e;
  d_timer_is_active _ e := 0 <? sim_left e;
  d_timer_count_ms _ _ e := e;
  d_timer_isexpired _ _ := false;
  d_current_thread _ := Some false;
  d_clear_done e := e;
  d_wait_done e := (true, e);
  d_set_done e := e;
  iot_bsp_wifi_set_mode _ _ := fine;
  iot_bsp_wifi_get_scan_result e := (3, e);
  iot_nv_get_prov_data p e :=
    match sim_store e with Some (p', _) => ((IOT_ERROR_NONE, sim_load p'), e) | None => ((IOT_ERROR_NV_DATA_NOT_EXIST, p), e) end;
  iot_nv_erase_prov_data e := fine (sim_erase e);
  iot_nv_erase_device_id e := fine (sim_erase e);
  iot_nv_get_device_id e :=
    match sim_store e with
    | Some (_, id) => ((IOT_ERROR_NONE, id), e) | None => ((IOT_ERROR_NV_DATA_NOT_EXIST, EmptyString), e)
    end;
  iot_nv_set_device_id _ := fine;
  iot_nv_get_serial_number := fine;
  iot_nv_get_certificate := fine;
  iot_nv_prov_data_exist e := bool_decide (is_Some (sim_store e));
  iot_misc_load_dip e := ((IOT_ERROR_NV_DATA_NOT_EXIST, Dip [] 0 0), e);
  iot_misc_load_location e := ((IOT_ERROR_NONE, []), e);
  iot_misc_store_dip _ := fine;
  iot_misc_store_location _ := fine;
  iot_misc_store_prev_err _ := fine;
  iot_get_random_id_str e := ((IOT_ERROR_NONE, "b3f1"%string), e);
  iot_util_uuid_str _ e := ((IOT_ERROR_NONE, "b3f1"%string), e);
  iot_wt_create := fine;
  iot_security_init e := (true, e);
  iot_security_deinit e := e;
  resp_queue_create e := (true, e);
  iot_easysetup_create_ssid := fine;
  iot_easysetup_init := fine;
  iot_easysetup_deinit e := e;
  iot_easysetup_request_handler step _ c e := ((IOT_ERROR_NONE, (c, sim_handler step)), e);
  st_mqtt_create e := (if broker then Some 1%nat else None, e);
  st_mqtt_connect _ := fine;
  st_mqtt_subscribe _ := fine;
  st_mqtt_disconnect _ := fine;
  st_mqtt_destroy _ e := e;
  st_mqtt_publish _ := fine;
  st_mqtt_publish_async _ := fine;
  st_mqtt_yield _ c e :=
    ((set_sign_up_status GG_CONNECTION_REQUEST_STATUS_SUCCESS (set_sign_in_status GG_CONNECTION_REQUEST_STATUS_SUCCESS c), []), e);
  _iot_es_mqtt_registration_json e := (true, e)
|}.

#[export] Instance sim_device : Device := sim_board true true true.

#[export] Instance sim_quiet : QuietCallbacks.
Proof. split; by intros. Qed.
#[export] Instance sim_locks : LocksWork.
Proof. by split. Qed.

(** The context after [st_conn_init]: all zero, for ownership validation by a
    button. *)
Definition sim_ctx : iot_context := {|
  es_res_created := false; es_http_ready := false; es_ble_ready := false; curr_state := IOT_STATE_INITIALIZED;
  state_timer := None; evt_mqttcli := None; sign_in_status := GG_CONNECTION_REQUEST_STATUS_NOT_INITIALIZED;
  reg_mqttcli := None; registered_msg_requested := false; critical_reject_count := 0;
  sign_up_status := GG_CONNECTION_REQUEST_STATUS_NOT_INITIALIZED; mqtt_event_topic := false; mqtt_health_topic := false;
  prov_data := zero_prov; ownership_validation_type := IOT_OVF_TYPE_BUTTON; devconf_dip := None;
  security_context := false; resp_queue := false; deviceId := EmptyString; reg_dip := None; reg_locationId := None;
  updated := false; new_reged := false; self_reged := false; scan_num := 0; scan_result := false; lookup_id := NullStr;
  noti_cb := true; status_cb := false; status_maps := 0; reported_stat := 0; curr_otm_feature := 0; pin := None;
  add_justworks := false; rate_limit := false; mqtt_connection_success_count := 0; mqtt_connection_try_count := 0;
  usr_delete_req := false; last_st_ecode := IOT_ST_ECODE_NONE; last_st_ecode_str := EmptyString;
  is_wifi_station := false; es_network_status := 0; request_disconnect := false; cloud_connection_pause := false;
  d2d_event_request := false; onboarding_complete := false; connection_retry_count := 0;
  next_connection_retry_timer := None; cloud_con_timer := None
|}.

Definition sim_prov : iot_device_prov_data :=
  Prov "home"%string EmptyString (Str "ssl://broker"%string) 8883 NullStr NullStr NullStr.

(** A new device, and one that has been registered. *)
Definition new_device : mworld := MWorld _ (Sim 0 0 None) sim_ctx [] false false [].
Definition registered_device : mworld :=
  MWorld _ (Sim 0 0 (Some (sim_prov, "device-1"%string))) sim_ctx [] false false [].

(** The world after a computation of the sample. *)
Definition after {A} (m : st mworld A) (w : mworld) : mworld := match m w with Ret (_, w') => w' | _ => w end.

(** A new device up to the question to its user. *)
Definition asking_ops : list main_op :=
  [op_start true IOT_STATUS_ALL None; op_round; op_request IOT_EASYSETUP_STEP_CONFIRMINFO None; op_round; op_round].

(** A new device that is open for its setup, with a request that waits, and a
    registered device up to its connection. *)
Definition limited_ops : list main_op :=
  [op_start true IOT_STATUS_ALL None; op_round; op_request IOT_EASYSETUP_STEP_CONFIRMINFO None].
Definition connecting_ops : list main_op := [op_start true IOT_STATUS_ALL None; op_round; op_round; op_round].

Example asking_state : curr_state (m_ctx (after (run_main_ops 50 asking_ops) new_device)) = IOT_STATE_PROV_CONFIRM.
Proof. vm_compute. reflexivity. Qed.

Example connected_state :
  let w := after (run_main_ops 50 [op_start true IOT_STATUS_ALL None; op_round; op_round; op_round]) registered_device in
  (curr_state (m_ctx w), evt_mqttcli (m_ctx w), m_work w, m_notices w) =
  (IOT_STATE_CLOUD_CONNECTED, Some 1%nat, [],
   [status_reported IOT_STATUS_IDLE IOT_STAT_LV_STAY; preferences_asked; init_reported;
    status_reported IOT_STATUS_CONNECTING IOT_STAT_LV_DONE]).
Proof. vm_compute. reflexivity. Qed.
