(* ===== verification/MainTask.v ===== *)
(** * The device's main task: its work

    How the task serves its queue, and what becomes of connections that fail. *)

From S2P Require Import Prelude MainState ClientRun Util MainRun MainFsm MainInv MainSample.

#[local] Set Default Proof Using "Type*".

Section task.
Context `{Device} (wait_fuel : nat) `{!QuietCallbacks, !LocksWork}.

(** ** The queue is served in order *)

(** Commands that are sent go behind those that wait. *)
Definition waits (works : list device_work) (w : mworld) : Prop := exists sent, m_work w = works ++ sent.
#[local] Instance waits_local works : Local (waits works).
Proof. split; try done. intros work w [sent E]. exists (sent ++ [work]). cbn. by rewrite E, app_assoc. Qed.
#[local] Instance waits_login works : Login (waits works).
Proof. split; done. Qed.

(** [works] have been handled one after the other, each taken from the front of
    the queue. *)
Inductive served : list device_work -> mworld -> mworld -> Prop :=
| served_nil w : served [] w w
| served_cons work works e w w1 w2 :
    head (m_work w) = Some work ->
    run_work wait_fuel work (MWorld _ e (m_ctx w) (tail (m_work w)) false false (m_notices w)) = Ret (tt, w1) ->
    served works (with_pending true w1) w2 ->
    served (work :: works) w w2.

Lemma round_serves work rest w goes w' :
  main_ok w -> m_work w = work :: rest -> task_round wait_fuel w = Ret (goes, w') ->
  goes = true /\ waits rest w' /\
  exists e w1, run_work wait_fuel work (MWorld _ e (m_ctx w) rest false false (m_notices w)) = Ret (tt, w1) /\
    w' = with_pending true w1.
Proof.
  intros [(_&_&Hk) Hw] El E. destruct w as [e c l p k n]. cbn in El. subst l.
  unfold lives in Hk. specialize (Hw ltac:(done)). cbn in Hk, Hw. destruct k, p; try done.
  unfold task_round in E. rewrite !bind_gets in E. cbn [pending_signal kill_signal] in E.
  change ((modify (with_signals false false) ≫= ?f) ?w0) with (f tt (MWorld _ e c (work :: rest) false false n)) in E.
  cbv beta in E.
  destruct (work_receive_spec (MWorld _ e c (work :: rest) false false n)) as (e1 & E1). rewrite (bind_ret _ _ _ _ _ E1) in E.
  cbn [m_work tail] in E. apply bind_inv in E as ([] & w1 & E2 & E3).
  change ((modify (with_pending true) ≫= ?f) w1) with (f tt (with_pending true w1)) in E3. injection E3 as <- <-.
  split; [done|]. split; [|by exists e1, w1].
  assert (Hrest : waits rest w1); [|exact Hrest].
  refine (keeps_work wait_fuel (waits rest) work _ _ _ _ _ E2); [|by exists []; cbn; rewrite app_nil_r].
  intros new opt. apply keeps_updating; [apply _|by intros..].
Qed.

Lemma rounds_serve n w w' :
  main_ok w -> (n <= length (m_work w))%nat ->
  run_main_ops wait_fuel (repeat op_round n) w = Ret (tt, w') ->
  served (take n (m_work w)) w w' /\ waits (drop n (m_work w)) w'.
Proof.
  revert w. induction n as [|n IH]; intros w Hok Hn E.
  - injection E as <-. split; [apply served_nil|]. exists []. by rewrite app_nil_r.
  - destruct (m_work w) as [|work rest] eqn:El; [cbn in Hn; lia|]. cbn in Hn.
    cbn [repeat run_main_ops run_main_op] in E. apply bind_inv in E as (u & w1 & E1 & E2).
    apply bind_inv in E1 as (goes & w0 & E1 & [= <- <-]).
    assert (Hok1 : main_ok w0) by (by eapply keeps_round in E1).
    destruct (round_serves work rest w goes w0 Hok El E1) as (-> & [sent Es] & e & w2 & E3 & ->).
    apply IH in E2 as [Hs [more Em]]; [|done|rewrite Es, length_app; lia].
    rewrite Es in Hs, Em. rewrite take_app_le in Hs by lia. rewrite drop_app_le in Em by lia.
    split.
    + cbn [take]. eapply (served_cons _ _ e); [by rewrite El|by rewrite El|done].
    + exists (sent ++ more). cbn [drop]. by rewrite Em, app_assoc.
Qed.

(** C8: the task serves its queue in order: [n] rounds, on at least [n] pending
    commands and requests, handle the first [n] of them, oldest first, each
    exactly once; the others stay in their order, and what handling them has
    sent comes after them. *)
Theorem work_served_in_order ops n w w0 w' :
  initial w -> run_main_ops wait_fuel ops w = Ret (tt, w0) -> (n <= length (m_work w0))%nat ->
  run_main_ops wait_fuel (repeat op_round n) w0 = Ret (tt, w') ->
  served (take n (m_work w0)) w0 w' /\ exists sent, m_work w' = drop n (m_work w0) ++ sent.
Proof.
  intros Hi E0 Hn E. apply rounds_serve; [|done..]. refine (keeps_ops wait_fuel ops _ _ _ _ E0). by apply initial_ok.
Qed.

(** The task waits only when its queue is empty: if it comes to a wait from
    a world that the device can reach, no command and no request is left. *)
Theorem task_waits_only_without_work ops fuel w w0 w' :
  initial w -> run_main_ops wait_fuel ops w = Ret (tt, w0) ->
  _device_work_queue_task wait_fuel fuel w0 = Ret (Some false, w') -> m_work w' = [].
Proof.
  intros Hi E0 E. assert (Hok : main_ok w0) by (refine (keeps_ops wait_fuel ops _ _ _ _ E0); by apply initial_ok).
  clear E0 Hi w. revert w0 Hok E. induction fuel as [|fuel IH]; intros w Hok E;
    cbn [_device_work_queue_task] in E; rewrite bind_gets in E.
  all: destruct (kill_signal w || pending_signal w) eqn:Es; cbn [negb] in E.
  all: try (injection E as <-; destruct Hok as [_ Hw]; apply orb_false_iff in Es as [_ Ep];
    destruct (m_work w) eqn:El; [done|exfalso; unfold woken in Hw; rewrite El, Ep in Hw; by specialize (Hw ltac:(done))]).
  - done.
  - apply bind_inv in E as (goes & w1 & E1 & E2). assert (main_ok w1) by (by eapply keeps_round in E1).
    destruct goes; cbn [negb] in E2; [by eapply IH|done].
Qed.
End task.

(** A new device that has been started, with a request of its setup behind the
    state update. *)
Definition two_works : mworld :=
  after (run_main_ops 50 [op_start true IOT_STATUS_ALL None; op_request IOT_EASYSETUP_STEP_CONFIRMINFO None]) new_device.

Lemma work_served_in_order_witness :
  m_work two_works = [command_work (Some (IOT_COMMAND_STATE_UPDATE (Some (IOT_STATE_PROV_ENTER, IOT_STATE_OPT_NONE))));
                      easysetup_work (Some IOT_EASYSETUP_STEP_CONFIRMINFO) None] /\
  served 50 (m_work two_works) two_works (after (run_main_ops 50 [op_round; op_round]) two_works).
Proof.
  split; [vm_compute; reflexivity|].
  refine (proj1 (work_served_in_order 50
    [op_start true IOT_STATUS_ALL None; op_request IOT_EASYSETUP_STEP_CONFIRMINFO None] 2 new_device two_works
    (after (run_main_ops 50 [op_round; op_round]) two_works) _ _ _ _)).
  - split_and!; reflexivity.
  - vm_compute. reflexivity.
  - vm_compute. lia.
  - vm_compute. reflexivity.
Defined.

Lemma task_waits_only_without_work_witness :
  m_work (after (_device_work_queue_task 50 10) two_works) = [] /\
  curr_state (m_ctx (after (_device_work_queue_task 50 10) two_works)) = IOT_STATE_PROV_CONFIRM.
Proof.
  split; [|vm_compute; reflexivity].
  apply (task_waits_only_without_work 50
    [op_start true IOT_STATUS_ALL None; op_request IOT_EASYSETUP_STEP_CONFIRMINFO None] 10 new_device two_works).
  - split_and!; reflexivity.
  - vm_compute. reflexivity.
  - vm_compute. reflexivity.
Defined.

Lemma main_task_invariant_witness :
  let w1 := after (run_main_ops 50 limited_ops) new_device in
  let w2 := after (run_main_ops 50 connecting_ops) registered_device in
  (state_timer (m_ctx w1) <> None /\ m_work w1 <> [] /\ state_lasts (curr_state (m_ctx w1)) /\ pending_signal w1 = true) /\
  (evt_mqttcli (m_ctx w2) <> None /\ mqtt_event_topic (m_ctx w2) = true /\ mqtt_health_topic (m_ctx w2) = true).
Proof.
  intros w1 w2.
  destruct (main_task_invariant 50 limited_ops new_device w1) as (Ht & _ & Hw);
    [split_and!; reflexivity|vm_compute; reflexivity|].
  destruct (main_task_invariant 50 connecting_ops registered_device w2) as (_ & Hc & _);
    [split_and!; reflexivity|vm_compute; reflexivity|].
  assert (Ht1 : state_timer (m_ctx w1) <> None) by (vm_compute; discriminate).
  assert (Hw1 : m_work w1 <> []) by (vm_compute; discriminate).
  assert (Hc2 : evt_mqttcli (m_ctx w2) <> None) by (vm_compute; discriminate).
  specialize (Ht Ht1). specialize (Hw Hw1). destruct (Hc Hc2). repeat split; assumption.
Defined.

Lemma denied_confirmation_faults_witness :
  iot_state_timeout_change IOT_STATE_PROV_CONFIRM 100 (after (run_main_ops 50 asking_ops) new_device) = Undef.
Proof.
  apply (denied_confirmation_faults 50 asking_ops new_device).
  - split_and!; reflexivity.
  - vm_compute. reflexivity.
  - vm_compute. reflexivity.
  - unfold IOT_STATE_TIMEOUT_MAX_MS. lia.
Defined.

(** ** Connections that fail *)

Section failure.
Context `{Device} (wait_fuel : nat).

(** The allocator and the lock of the queue work. *)
Class MemoryWorks := { memory_works e : fst (d_malloc e) = true }.
Context `{!MemoryWorks, !LocksWork}.

Lemma send_works cmd w :
  exists e, iot_command_send cmd w =
    Ret (IOT_ERROR_NONE, MWorld _ e (m_ctx w) (m_work w ++ [command_work (Some cmd)]) true (kill_signal w) (m_notices w)).
Proof.
  destruct w as [e0 c l p k n].
  unfold iot_command_send, iot_put_device_work, work_queue_send, mbind, st_bind, mret, st_ret, dev, modify.
  repeat (cbn [m_env m_ctx m_work pending_signal kill_signal m_notices with_menv with_work with_pending negb];
    match goal with
    | |- context [d_malloc ?e] => pose proof (memory_works e); destruct (d_malloc e) as [[] ?]; [|done]
    | |- context [d_lock ?e] => pose proof (lock_works e); destruct (d_lock e) as [[] ?]; [|done]
    | |- context [has_param ?c] => destruct (has_param c)
    end); by eexists.
Qed.

Lemma failed_registration_spec w w1 err :
  cloud_con_timer (m_ctx w) = None -> is_wifi_station (m_ctx w) = true -> reg_mqttcli (m_ctx w) = None ->
  iot_es_connect wait_fuel IOT_CONNECT_TYPE_REGISTRATION
    (with_ctx (set_registered_msg_requested false (set_d2d_event_request true (m_ctx w))) w) = Ret (err, w1) ->
  err <> IOT_ERROR_NONE -> err <> IOT_ERROR_MQTT_REJECT_CONNECT -> request_disconnect (m_ctx w1) = false ->
  exists e status, do_cloud_registering wait_fuel w =
    Ret (err, MWorld _ e (set_es_network_status status (m_ctx w1))
                (m_work w1 ++ repeat (command_work (Some IOT_COMMAND_CLOUD_REGISTERING)) 2) true (kill_signal w1) (m_notices w1)).
Proof.
  intros Ht Hs Hr E Hn Hj Hd.
  unfold do_cloud_registering, _con_timeout_check, go_to_station.
  rewrite bind_assoc, bind_getc, Ht, bind_mret, bind_assoc, bind_getc, Hs, bind_mret.
  change (negb (IOT_ERROR_NONE =? IOT_ERROR_NONE)) with false. cbv iota.
  unfold register_device, disconnect_if.
  rewrite bind_setc, bind_assoc, bind_getc. cbn [client_of m_ctx with_ctx].
  replace (reg_mqttcli (set_d2d_event_request true (m_ctx w))) with (@None nat) by by rewrite <-Hr.
  rewrite bind_mret, bind_setc, (bind_ret _ _ _ _ _ E).
  apply Z.eqb_neq in Hn, Hj. rewrite Hn, Hj. cbn [negb].
  rewrite bind_assoc, bind_setc, bind_assoc, bind_getc.
  set (w2 := with_ctx _ w1). change (request_disconnect (m_ctx w2)) with (request_disconnect (m_ctx w1)).
  rewrite Hd. cbn [negb when]. unfold send_again.
  destruct (send_works IOT_COMMAND_CLOUD_REGISTERING w2) as (e & E1).
  rewrite !bind_assoc, (bind_ret _ _ _ _ _ E1), bind_mret.
  set (w3 := MWorld _ e _ _ _ _ _).
  destruct (send_works IOT_COMMAND_CLOUD_REGISTERING w3) as (e2 & E2).
  rewrite !bind_assoc, (bind_ret _ _ _ _ _ E2), bind_mret. exists e2. eexists.
  subst w3 w2. cbn [m_work m_ctx kill_signal m_notices with_ctx]. by rewrite <-app_assoc.
Qed.

(** A registration that fails, for whatever reason except that the server
    rejects the device, asks for itself twice, unless a disconnection has been
    requested: two commands are put into the queue for the one that has been
    handled. *)
Theorem failed_registration_sent_twice w w1 err :
  cloud_con_timer (m_ctx w) = None -> is_wifi_station (m_ctx w) = true -> reg_mqttcli (m_ctx w) = None ->
  iot_es_connect wait_fuel IOT_CONNECT_TYPE_REGISTRATION
    (with_ctx (set_registered_msg_requested false (set_d2d_event_request true (m_ctx w))) w) = Ret (err, w1) ->
  err <> IOT_ERROR_NONE -> err <> IOT_ERROR_MQTT_REJECT_CONNECT -> request_disconnect (m_ctx w1) = false ->
  exists w', do_cloud_registering wait_fuel w = Ret (err, w') /\
    m_work w' = m_work w1 ++ repeat (command_work (Some IOT_COMMAND_CLOUD_REGISTERING)) 2.
Proof.
  intros Ht Hs Hr E Hn Hj Hd.
  destruct (failed_registration_spec w w1 err Ht Hs Hr E Hn Hj Hd) as (e & status & E1). by eexists.
Qed.

(** A queue with nothing but [n] registrations, of a device on the network that
    the server has put under its rate limit. *)
Definition limited (n : nat) (w : mworld) : Prop :=
  m_work w = repeat (command_work (Some IOT_COMMAND_CLOUD_REGISTERING)) n /\
  cloud_con_timer (m_ctx w) = None /\ is_wifi_station (m_ctx w) = true /\ reg_mqttcli (m_ctx w) = None /\
  rate_limit (m_ctx w) = true /\ request_disconnect (m_ctx w) = false /\
  pending_signal w = true /\ kill_signal w = false.

Lemma limited_round n w :
  limited (S n) w -> exists w', task_round wait_fuel w = Ret (true, w') /\ limited (S (S n)) w'.
Proof.
  destruct w as [e c l p k notices]. intros (El&Ht&Hs&Hr&Hl&Hd&Hp&Hk). cbn in *. subst l k p.
  unfold task_round. rewrite !bind_gets. cbn [pending_signal kill_signal].
  match goal with |- context [(modify (with_signals false false) ≫= ?f) ?w0] =>
    change ((modify (with_signals false false) ≫= f) w0) with (f tt (with_signals false false w0)) end.
  cbv beta iota. set (w0 := with_signals _ _ _).
  destruct (work_receive_spec w0) as (e1 & E1). rewrite (bind_ret _ _ _ _ _ E1). subst w0. cbn [m_work with_signals].
  cbn [run_work _command_work_handler _do_iot_main_command tail].
  set (w0 := with_work _ _). rewrite !bind_assoc.
  destruct (failed_registration_spec w0 (with_ctx (set_registered_msg_requested false (set_d2d_event_request true (m_ctx w0))) w0)
    IOT_ERROR_MQTT_CONNECT_FAIL) as (e2 & status & E2); [done|done|done| |done|done|done|].
  { unfold iot_es_connect. rewrite bind_getc. subst w0. cbn. by rewrite Hl. }
  rewrite (bind_ret _ _ _ _ _ E2), bind_mret. eexists. split; [done|]. subst w0. split_and!; try done.
  cbn [m_work with_ctx with_work with_pending with_menv with_signals].
  rewrite <-repeat_app. f_equal. lia.
Qed.

(** While the server's rate limit lasts, the registrations in the queue pile
    up: every round of the task adds one, so that there are [n] more after [n]
    rounds. *)
Theorem limited_registrations_pile_up n k w :
  limited (S k) w ->
  exists w', run_main_ops wait_fuel (repeat op_round n) w = Ret (tt, w') /\ limited (n + S k) w'.
Proof.
  revert k w. induction n as [|n IH]; intros k w Hl; [by exists w|].
  destruct (limited_round k w Hl) as (w1 & E1 & Hl1). destruct (IH _ _ Hl1) as (w2 & E2 & Hl2).
  exists w2. cbn [repeat run_main_ops run_main_op]. rewrite bind_assoc, (bind_ret _ _ _ _ _ E1), bind_mret.
  split; [done|]. by replace (S n + S k)%nat with (n + S (S k))%nat by lia.
Qed.

(** [iot_es_connect] when the serial number, the copy of the manufacturer's
    identifier and the token are there, and there is no memory for a client. *)
Class NoClient := {
  serial_there e : fst (iot_nv_get_serial_number e) = IOT_ERROR_NONE;
  strdup_works e : fst (d_strdup e) = true;
  token_made e : fst (iot_wt_create e) = IOT_ERROR_NONE;
  no_client_made e : fst (st_mqtt_create e) = None
}.

Lemma connect_without_client `{!NoClient} t w :
  rate_limit (m_ctx w) = false -> exists e, iot_es_connect wait_fuel t w = Ret (IOT_ERROR_NONE, with_menv e w).
Proof.
  intros Hl. unfold iot_es_connect. rewrite bind_getc, Hl.
  destruct (dev_returns iot_nv_get_serial_number w) as (e1 & E1).
  rewrite serial_there in E1. rewrite (bind_ret _ _ _ _ _ E1). change (negb (IOT_ERROR_NONE =? IOT_ERROR_NONE)) with false. cbv iota.
  destruct (dev_returns d_strdup (with_menv e1 w)) as (e2 & E2).
  rewrite strdup_works in E2. rewrite (bind_ret _ _ _ _ _ E2). cbn [negb].
  destruct (dev_returns iot_wt_create (with_menv e2 (with_menv e1 w))) as (e3 & E3).
  rewrite token_made in E3. rewrite (bind_ret _ _ _ _ _ E3). change (negb (IOT_ERROR_NONE =? IOT_ERROR_NONE)) with false. cbv iota.
  rewrite bind_getc. set (w3 := with_menv e3 _).
  assert (exists e, es_open wait_fuel t IOT_ERROR_NONE w3 = Ret (IOT_ERROR_NONE, with_menv e w3)) as (e4 & E4).
  { unfold es_open. destruct (dev_returns st_mqtt_create w3) as (e4 & E4). rewrite no_client_made in E4.
    rewrite (bind_ret _ _ _ _ _ E4). by exists e4. }
  destruct t; [by exists e4|]. destruct (updated (m_ctx w3)); cbn [negb]; [by exists e4|by exists e3].
Qed.

Lemma connection_made_spec err w :
  exists w', connection_made err w = Ret (tt, w') /\
    m_work w' = m_work w ++ [command_work (Some (IOT_COMMAND_STATE_UPDATE (Some (IOT_STATE_CLOUD_CONNECTED, IOT_STATE_OPT_NONE))))] /\
    evt_mqttcli (m_ctx w') = evt_mqttcli (m_ctx w) /\ next_connection_retry_timer (m_ctx w') = None /\
    connection_retry_count (m_ctx w') = 0 /\ last_st_ecode (m_ctx w') = IOT_ST_ECODE_NONE.
Proof.
  unfold connection_made. rewrite bind_setc, bind_getc.
  assert (exists e, (match next_connection_retry_timer (m_ctx (with_ctx (set_connection_retry_count 0 (m_ctx w)) w)) with
    | Some tm => dev_ (d_timer_delete tm) | None => mret tt end) (with_ctx (set_connection_retry_count 0 (m_ctx w)) w)
    = Ret (tt, with_menv e (with_ctx (set_connection_retry_count 0 (m_ctx w)) w))) as (e & E).
  { destruct (next_connection_retry_timer _); [by eexists|]. exists (m_env w). by destruct w. }
  rewrite (bind_ret _ _ _ _ _ E), !bind_setc. unfold iot_set_st_ecode.
  rewrite bind_assoc, bind_getc, (bool_decide_eq_true_2 (IOT_ST_ECODE_NONE = IOT_ST_ECODE_NONE)), orb_true_r by done.
  rewrite bind_assoc, bind_setc, bind_assoc, bind_setc.
  match goal with |- context [(dev ?f ≫= ?k) ?w0] => destruct (dev_returns f w0) as (e2 & E2); rewrite (bind_ret _ _ _ _ _ E2) end.
  unfold iot_state_update. cbn [bool_decide andb when]. rewrite (bool_decide_eq_false_2 _) by done. cbn [andb when].
  rewrite !bind_assoc, bind_mret.
  match goal with |- context [(iot_command_send ?c ≫= ?k) ?w0] => destruct (send_works c w0) as (e3 & E3); rewrite (bind_ret _ _ _ _ _ E3) end.
  clear E E2 E3. eexists. split; [reflexivity|]. split_and!; reflexivity.
Qed.

(** A device that must connect but cannot make an MQTT client reports
    success: the attempt counts as a connection, no further attempt is planned,
    the error code for the application is cleared and the device is told to go
    to the connected state, without a client. *)
Theorem connected_without_a_client `{!NoClient} w :
  curr_state (m_ctx w) = IOT_STATE_CLOUD_DISCONNECTED -> cloud_con_timer (m_ctx w) = None ->
  cloud_connection_pause (m_ctx w) = false -> is_wifi_station (m_ctx w) = true ->
  evt_mqttcli (m_ctx w) = None -> rate_limit (m_ctx w) = false ->
  exists w', do_cloud_connecting wait_fuel w = Ret (IOT_ERROR_NONE, w') /\
    m_work w' = m_work w ++ [command_work (Some (IOT_COMMAND_STATE_UPDATE (Some (IOT_STATE_CLOUD_CONNECTED, IOT_STATE_OPT_NONE))))] /\
    evt_mqttcli (m_ctx w') = None /\ next_connection_retry_timer (m_ctx w') = None /\
    last_st_ecode (m_ctx w') = IOT_ST_ECODE_NONE.
Proof.
  intros Hs Ht Hp Hw Hc Hl.
  unfold do_cloud_connecting, _con_timeout_check, go_to_station.
  rewrite bind_assoc, bind_getc, Ht, bind_mret, bind_getc. cbn [andb].
  rewrite bind_getc, Hs, bool_decide_eq_true_2 by done. cbn [negb].
  rewrite bind_getc, Hp, bind_assoc, bind_getc, Hw, bind_mret.
  change (negb (IOT_ERROR_NONE =? IOT_ERROR_NONE)) with false. cbv iota.
  unfold connect_device, disconnect_if. rewrite bind_assoc, bind_getc. cbn [client_of]. rewrite Hc, bind_mret.
  destruct (connect_without_client IOT_CONNECT_TYPE_COMMUNICATION w Hl) as (e & E). rewrite (bind_ret _ _ _ _ _ E).
  cbn [Z.eqb orb negb IOT_ERROR_NONE IOT_ERROR_MQTT_REJECT_CONNECT IOT_ERROR_INVALID_ARGS].
  destruct (connection_made_spec IOT_ERROR_NONE (with_menv e w)) as (w' & E1 & Em & Ee & En & Er & El).
  unfold IOT_ERROR_NONE in E1 |- *. rewrite (bind_ret _ _ _ _ _ E1). eexists. split; [done|].
  split_and!; [exact Em|by rewrite Ee|done|done].
Qed.
End failure.

(** ** Where a start leads to *)

Section start.
Context `{Device}.

(** The pointers of the provisioning data after [iot_api_prov_data_mem_free]. *)
Definition freed (s : cstr) : cstr := if is_null s then NullStr else Freed.
Definition is_freed (s : cstr) : bool := match s with Freed => true | _ => false end.
Definition freed_prov (p : iot_device_prov_data) : iot_device_prov_data :=
  set_label (freed (label p)) (set_broker_url (freed (broker_url p)) p).

Lemma mem_free_spec w :
  let p := prov_data (m_ctx w) in
  iot_api_prov_data_mem_free w =
    if is_freed (broker_url p) || is_freed (label p) then Undef
    else Ret (tt, with_ctx (set_prov_data (freed_prov p) (m_ctx w)) w).
Proof.
  destruct w as [e c l pd k n]. cbn [m_ctx]. unfold iot_api_prov_data_mem_free, freed_prov, freed.
  rewrite bind_getc. cbn [m_ctx]. destruct (prov_data c) as [sid rest b port loc room lab] eqn:Ep.
  cbn [broker_url label set_broker_url set_label].
  by destruct b, lab.
Qed.

Lemma state_update_none s w :
  exists err e, iot_state_update s IOT_STATE_OPT_NONE w =
    Ret (err, if err =? IOT_ERROR_NONE
              then MWorld _ e (m_ctx w) (m_work w ++ [command_work (Some (IOT_COMMAND_STATE_UPDATE (Some (s, IOT_STATE_OPT_NONE))))])
                     true (kill_signal w) (m_notices w)
              else with_menv e w).
Proof.
  unfold iot_state_update. rewrite (bool_decide_eq_false_2 (IOT_STATE_OPT_NONE = IOT_STATE_OPT_NEED_INTERACT)), andb_false_r by done.
  apply command_send_spec.
Qed.

(** When the store has no data the device is set up again. *)
Lemma nothing_stored w err p e :
  is_freed (broker_url (prov_data (m_ctx w))) || is_freed (label (prov_data (m_ctx w))) = false ->
  iot_nv_get_prov_data (freed_prov (prov_data (m_ctx w))) (m_env w) = ((err, p), e) -> err <> IOT_ERROR_NONE ->
  exists w', next_prov_state w = Ret (IOT_STATE_PROV_ENTER, w') /\
    prov_data (m_ctx w') = p /\ onboarding_complete (m_ctx w') = false /\ new_reged (m_ctx w') = true.
Proof.
  intros Hfree He Herr. apply Z.eqb_neq in Herr. unfold next_prov_state.
  set (w1 := with_ctx (set_prov_data (freed_prov (prov_data (m_ctx w))) (m_ctx w)) w).
  assert (E0 : iot_api_prov_data_mem_free w = Ret (tt, w1)) by by rewrite mem_free_spec, Hfree.
  rewrite (bind_ret _ _ _ _ _ E0), bind_getc.
  change (prov_data (m_ctx w1)) with (freed_prov (prov_data (m_ctx w))).
  assert (E1 : dev (iot_nv_get_prov_data (freed_prov (prov_data (m_ctx w)))) w1 = Ret ((err, p), with_menv e w1)).
  { unfold dev. change (m_env w1) with (m_env w). by rewrite He. }
  rewrite (bind_ret _ _ _ _ _ E1), bind_setc, Herr. cbn [negb]. set (w2 := with_ctx _ _).
  destruct (dev_returns iot_nv_erase_device_id w2) as (e3 & E3). rewrite (bind_ret _ _ _ _ _ E3).
  eexists. split; [reflexivity|]. by split_and!.
Qed.

(** A start that finds no data in the store leaves the strings of an earlier
    start behind, freed: the next start frees them again. *)
Theorem stale_provisioning_data_freed_twice only only' w s err e :
  broker_url (prov_data (m_ctx w)) = Str s -> label (prov_data (m_ctx w)) <> Freed ->
  (forall p, iot_nv_get_prov_data p (m_env w) = ((err, p), e)) -> err <> IOT_ERROR_NONE ->
  exists a w1, _check_prov_status only w = Ret (a, w1) /\ _check_prov_status only' w1 = Undef.
Proof.
  intros Hb Hl He Herr.
  assert (Hund : forall w1, broker_url (prov_data (m_ctx w1)) = Freed -> _check_prov_status only' w1 = Undef).
  { intros w1 Hf. unfold _check_prov_status, next_prov_state. rewrite bind_setc, bind_assoc.
    apply bind_undef. rewrite mem_free_spec; cbn; by rewrite Hf. }
  unfold _check_prov_status at 1. rewrite bind_setc. set (w0 := with_ctx _ w).
  destruct (nothing_stored w0 err (freed_prov (prov_data (m_ctx w0))) e) as (w1 & E1 & Hp & _); [|apply He|done|].
  { cbn. rewrite Hb. by destruct (label _). }
  assert (Hf : broker_url (prov_data (m_ctx w1)) = Freed).
  { rewrite Hp. cbn. unfold freed. by rewrite Hb. }
  clear Hp. clearbody w0. rewrite (bind_ret _ _ _ _ _ E1).
  destruct only; [eexists _, _; split; [reflexivity|by apply Hund]|].
  destruct (state_update_none IOT_STATE_PROV_ENTER w1) as (a & e3 & E3).
  eexists _, _. split; [exact E3|]. apply Hund. destruct (a =? IOT_ERROR_NONE); exact Hf.
Qed.

Lemma substring_length n s : (String.length (String.substring 0 n s) <= n)%nat.
Proof. revert n. induction s as [|c s IH]; intros [|n]; cbn; [lia..|]. specialize (IH n). lia. Qed.

Lemma validation_valid p :
  (_check_prov_data_validation p =? IOT_ERROR_NONE) =
  negb (bool_decide (ssid p = EmptyString)) && negb (is_null (broker_url p)) && (0 <=? broker_port p).
Proof.
  unfold _check_prov_data_validation. destruct (ssid p); [done|].
  rewrite (bool_decide_eq_false_2 (String _ _ = EmptyString)) by done.
  destruct (is_null (broker_url p)); [done|]. cbn [negb andb].
  destruct (Z.ltb_spec (broker_port p) 0), (Z.leb_spec 0 (broker_port p)); done || lia.
Qed.

(** A device whose identity card has not changed goes on to the server if
    its store has a network, a server with a port and a device identifier, and
    it is set up again in every other case, whatever error the store reports;
    an identifier that is too long is cut to 36 characters. *)
Theorem stored_data_decide_the_start w err p e1 err2 id e2 :
  devconf_dip (m_ctx w) = None ->
  is_freed (broker_url (prov_data (m_ctx w))) || is_freed (label (prov_data (m_ctx w))) = false ->
  iot_nv_get_prov_data (freed_prov (prov_data (m_ctx w))) (m_env w) = ((err, p), e1) ->
  iot_nv_get_device_id e1 = ((err2, id), e2) ->
  let ready := (err =? IOT_ERROR_NONE) && (negb (bool_decide (ssid p = EmptyString)) && negb (is_null (broker_url p))
               && (0 <=? broker_port p)) && (err2 =? IOT_ERROR_NONE) in
  exists w', next_prov_state w = Ret (if ready then IOT_STATE_CLOUD_DISCONNECTED else IOT_STATE_PROV_ENTER, w') /\
    prov_data (m_ctx w') = p /\ onboarding_complete (m_ctx w') = ready /\
    if ready then
      updated (m_ctx w') = true /\
      deviceId (m_ctx w') = (if 36 <? Z.of_nat (String.length id) then String.substring 0 36 id else id) /\
      (String.length (deviceId (m_ctx w')) <= 36)%nat
    else new_reged (m_ctx w') = true.
Proof.
  intros Hdip Hfree He1 He2 ready. unfold next_prov_state.
  set (w1 := with_ctx (set_prov_data (freed_prov (prov_data (m_ctx w))) (m_ctx w)) w).
  assert (E0 : iot_api_prov_data_mem_free w = Ret (tt, w1)) by by rewrite mem_free_spec, Hfree.
  rewrite (bind_ret _ _ _ _ _ E0), bind_getc.
  change (prov_data (m_ctx w1)) with (freed_prov (prov_data (m_ctx w))).
  assert (E1 : dev (iot_nv_get_prov_data (freed_prov (prov_data (m_ctx w)))) w1 = Ret ((err, p), with_menv e1 w1)).
  { unfold dev. change (m_env w1) with (m_env w). by rewrite He1. }
  rewrite (bind_ret _ _ _ _ _ E1), bind_setc. set (w2 := with_ctx _ _).
  assert (Hprov : exists w', (need_provisioning;; mret IOT_STATE_PROV_ENTER) w2 = Ret (IOT_STATE_PROV_ENTER, w') /\ True) by by eexists.
  assert (Hset : forall w3, prov_data (m_ctx w3) = p ->
    exists w', (need_provisioning;; mret IOT_STATE_PROV_ENTER) w3 = Ret (IOT_STATE_PROV_ENTER, w') /\
      prov_data (m_ctx w') = p /\ onboarding_complete (m_ctx w') = false /\ new_reged (m_ctx w') = true).
  { intros w3 Hp. eexists. split; [reflexivity|]. by split_and!. }
  rewrite validation_valid. subst ready. clear Hprov.
  destruct (err =? IOT_ERROR_NONE); cbn [negb andb].
  2: { destruct (dev_returns iot_nv_erase_device_id w2) as (e3 & E3). rewrite (bind_ret _ _ _ _ _ E3). by apply Hset. }
  destruct (_ && _ && _); cbn [negb andb].
  2: { destruct (dev_returns iot_nv_erase_device_id w2) as (e3 & E3). rewrite (bind_ret _ _ _ _ _ E3). by apply Hset. }
  assert (E2 : dev iot_nv_get_device_id w2 = Ret ((err2, id), with_menv e2 w2)).
  { unfold dev. change (m_env w2) with e1. by rewrite He2. }
  rewrite (bind_ret _ _ _ _ _ E2). destruct (err2 =? IOT_ERROR_NONE); cbn [negb]; [|by apply Hset].
  unfold check_stored_id. rewrite bind_assoc, bind_setc, bind_assoc, bind_getc.
  match goal with |- context [devconf_dip ?c] => replace (devconf_dip c) with (@None iot_dip_data) by by rewrite <-Hdip end.
  eexists. split; [reflexivity|]. split_and!; try reflexivity.
  cbn. unfold IOT_REG_UUID_STR_LEN.
  destruct (Z.ltb_spec 36 (Z.of_nat (String.length id))); [apply (substring_length 36)|lia].
Qed.
End start.

(** ** Witnesses *)

#[export] Instance sim_memory : MemoryWorks.
Proof. by split. Qed.

(** A device of the sample under a rate limit, with one registration to do. *)
Definition limited_device : mworld :=
  MWorld _ (Sim 0 0 None) (set_rate_limit true (set_is_wifi_station true sim_ctx))
    [command_work (Some IOT_COMMAND_CLOUD_REGISTERING)] true false [].

Lemma limited_device_limited : limited 1 limited_device.
Proof. by split_and!. Qed.

Lemma limited_registrations_pile_up_witness :
  limited 1 limited_device /\
  exists w', run_main_ops 50 (repeat op_round 5) limited_device = Ret (tt, w') /\ limited (5 + 1) w'.
Proof.
  split; [exact limited_device_limited|].
  apply (limited_registrations_pile_up 50 5 0 limited_device). exact limited_device_limited.
Defined.

Lemma failed_registration_sent_twice_witness :
  exists w', do_cloud_registering 50 limited_device = Ret (IOT_ERROR_MQTT_CONNECT_FAIL, w') /\
    m_work w' = repeat (command_work (Some IOT_COMMAND_CLOUD_REGISTERING)) 3.
Proof.
  refine (failed_registration_sent_twice 50 limited_device
    (with_ctx (set_registered_msg_requested false (set_d2d_event_request true (m_ctx limited_device))) limited_device)
    IOT_ERROR_MQTT_CONNECT_FAIL _ _ _ _ _ _ _); try reflexivity; discriminate.
Defined.

(** A registered device that has to connect but has no memory for a client. *)
Definition poor_device : @mworld (sim_board true true false) :=
  @MWorld (sim_board true true false) (Sim 0 0 None)
    (set_updated true (set_is_wifi_station true (set_curr_state IOT_STATE_CLOUD_DISCONNECTED sim_ctx))) [] false false [].

Lemma poor_memory : @MemoryWorks (sim_board true true false).
Proof. by split. Qed.
Lemma poor_locks : @LocksWork (sim_board true true false).
Proof. by split. Qed.
Lemma poor_no_client : @NoClient (sim_board true true false).
Proof. by split. Qed.

Lemma connected_without_a_client_witness :
  exists w', do_cloud_connecting 50 poor_device = Ret (IOT_ERROR_NONE, w') /\ evt_mqttcli (m_ctx w') = None /\
    m_work w' = [command_work (Some (IOT_COMMAND_STATE_UPDATE (Some (IOT_STATE_CLOUD_CONNECTED, IOT_STATE_OPT_NONE))))].
Proof.
  destruct (@connected_without_a_client (sim_board true true false) 50 poor_memory poor_locks poor_no_client poor_device)
    as (w' & E & Ew & Ec & _); try reflexivity. by exists w'.
Defined.

Lemma stale_provisioning_data_freed_twice_witness :
  let w := with_ctx (set_prov_data sim_prov sim_ctx) new_device in
  exists a w1, _check_prov_status false w = Ret (a, w1) /\ _check_prov_status false w1 = Undef.
Proof.
  refine (stale_provisioning_data_freed_twice false false (with_ctx (set_prov_data sim_prov sim_ctx) new_device)
    "ssl://broker" IOT_ERROR_NV_DATA_NOT_EXIST (Sim 0 0 None) _ _ _ _); try reflexivity; discriminate.
Defined.

Lemma stored_data_decide_the_start_witness :
  exists w', next_prov_state registered_device = Ret (IOT_STATE_CLOUD_DISCONNECTED, w') /\
    deviceId (m_ctx w') = "device-1"%string.
Proof.
  destruct (stored_data_decide_the_start registered_device IOT_ERROR_NONE sim_prov
    (Sim 0 0 (Some (sim_prov, "device-1"%string))) IOT_ERROR_NONE "device-1"
    (Sim 0 0 (Some (sim_prov, "device-1"%string)))) as (w' & E & _ & _ & _ & Ed & _); try reflexivity.
  exists w'. split; [exact E|]. exact Ed.
Defined.
