(* ===== verification/MainLive.v ===== *)
(** * The device's main task: every operation returns

    Every function of the library, every timer, every request and every round of
    the task returns, if the board's clock runs, no string of the context has been
    freed before, memory is there while a registration is handled, and the
    functions of the MQTT client return: no loop goes on for ever, no pointer that is null or
    dangling is followed, and nothing is freed twice. *)

From S2P Require Import Prelude MainState ClientRun Util MainRun MainFsm MainInv MainSample MainTask.

#[local] Set Default Proof Using "Type*".

(** What the board promises of a timer: it counts down with every delay, once it
    is started, and nothing but another start sets it back. *)
Class Clock `{Device} := {
  time_left : nat -> denv -> Z;
  active_left tm e : d_timer_is_active tm e = (0 <? time_left tm e);
  delay_counts tm ms e : time_left tm (d_delay ms e) <= time_left tm e - ms;
  start_sets ms tm e e' : d_timer_create ms e = (Some tm, e') -> time_left tm (d_timer_start tm e') <= ms;
  malloc_counts tm e : time_left tm (snd (d_malloc e)) <= time_left tm e;
  lock_counts tm e : time_left tm (snd (d_lock e)) <= time_left tm e;
  subscribe_counts tm c e : time_left tm (snd (st_mqtt_subscribe c e)) <= time_left tm e;
  yield_counts tm cli c e : time_left tm (snd (st_mqtt_yield cli c e)) <= time_left tm e
}.

(** ** What the functions need of the context *)

(** The strings of the provisioning data have not been freed. *)
Definition whole_prov (p : iot_device_prov_data) : Prop :=
  broker_url p <> Freed /\ label p <> Freed /\ location p <> Freed /\ room p <> Freed.

(** Who asks to be told of [IOT_STATUS_NEED_INTERACT] has given a callback; and
    of the strings, where that is asked for, none has been freed. *)
Record sane_ctx (strings : bool) (c : iot_context) : Prop := {
  sane_told : Z.land (status_maps c) IOT_STATUS_NEED_INTERACT <> 0 -> status_cb c = true;
  sane_strings : strings = true -> whole_prov (prov_data c) /\ lookup_id c <> Freed
}.

(** A state update has its parameter. *)
Definition good_command (cmd : iot_command) : Prop := cmd <> IOT_COMMAND_STATE_UPDATE None.
Definition good_work (work : device_work) : Prop :=
  match work with command_work (Some cmd) => good_command cmd | _ => True end.
Definition sane `{Device} (strings : bool) (w : mworld) : Prop := sane_ctx strings (m_ctx w) /\ Forall good_work (m_work w).

(** What the callbacks of the MQTT client, the handler of the easy setup and the
    loading of the provisioning data leave behind. *)
Class SaneCalls `{Device} : Prop := {
  yield_sane cli c e strings : sane_ctx strings c ->
    sane_ctx strings (st_mqtt_yield cli c e).1.1 /\ Forall good_command (st_mqtt_yield cli c e).1.2;
  handler_sane step payload c e strings : sane_ctx strings c ->
    sane_ctx strings (iot_easysetup_request_handler step payload c e).1.2.1 /\
    Forall good_command (iot_easysetup_request_handler step payload c e).1.2.2;
  loaded_whole p e : location p <> Freed -> room p <> Freed ->
    (iot_nv_get_prov_data p e).1.1 = IOT_ERROR_NONE -> whole_prov (iot_nv_get_prov_data p e).1.2
}.

(** ** Total correctness *)

Section total.
Context `{Device}.
Abbreviation M := (st mworld).

Definition total {A} (P : mworld -> Prop) (m : M A) (Q : mworld -> Prop) : Prop :=
  forall w, P w -> exists a w', m w = Ret (a, w') /\ Q w'.
(** It returns, and what is sane stays so. *)
Definition returns {A} (b : bool) (m : M A) : Prop := total (sane b) m (sane b).

Lemma total_bind {A B} P Q R (m : M A) (f : A -> M B) :
  total P m Q -> (forall a, total Q (f a) R) -> total P (m ≫= f) R.
Proof.
  intros Hm Hf w Hw. destruct (Hm w Hw) as (a & w1 & E1 & H1). destruct (Hf a w1 H1) as (b & w2 & E2 & H2).
  exists b, w2. by rewrite (bind_ret _ _ _ _ _ E1).
Qed.
Lemma sane_weaken b w : sane true w -> sane b w.
Proof. intros [[Ht Hs] Hw]. split; [|done]. split; [done|]. intros _. by apply Hs. Qed.
Lemma total_weaken {A} (m : M A) : returns true m -> total (sane true) m (sane false).
Proof.
  intros Hm w Hw. destruct (Hm w Hw) as (a & w' & E & H'). exists a, w'. split; [done|]. by apply sane_weaken.
Qed.

Context (b : bool).
Lemma live_bind {A B} (m : M A) (f : A -> M B) : returns b m -> (forall a, returns b (f a)) -> returns b (m ≫= f).
Proof. apply total_bind. Qed.
Lemma live_ret {A} (a : A) : returns b (mret a).
Proof. intros w Hw. by exists a, w. Qed.
Lemma returns_gets {A} (f : mworld -> A) : returns b (gets f).
Proof. intros w Hw. by exists (f w), w. Qed.
Lemma returns_dev {A} (f : denv -> A * denv) : returns b (dev f).
Proof. intros w Hw. destruct (dev_returns f w) as (e & E). by eexists _, _. Qed.
Lemma returns_dev_ (f : denv -> denv) : returns b (dev_ f).
Proof. intros w Hw. by eexists _, _. Qed.
Lemma returns_tell n : returns b (tell n).
Proof. intros w Hw. by eexists _, _. Qed.
Lemma returns_setc f : (forall c, sane_ctx b c -> sane_ctx b (f c)) -> returns b (setc f).
Proof. intros Hf w [Hc Hw]. eexists _, _. split; [done|]. split; [by apply Hf|done]. Qed.
Lemma returns_when (c : bool) m : returns b m -> returns b (when c m).
Proof. destruct c; [done|]. intros _. apply live_ret. Qed.
Lemma returns_signals p k : returns b (modify (with_signals p k)).
Proof. intros w Hw. by eexists _, _. Qed.
Lemma returns_pending p : returns b (modify (with_pending p)).
Proof. intros w Hw. by eexists _, _. Qed.

Lemma sane_put work e w p k n : good_work work -> sane b w -> sane b (MWorld _ e (m_ctx w) (m_work w ++ [work]) p k n).
Proof. intros Hg [Hc Hw]. split; [done|]. apply Forall_app. split; [done|by constructor]. Qed.
Lemma returns_put work : good_work work -> returns b (iot_put_device_work work).
Proof.
  intros Hg w Hw. destruct (put_work_spec work w) as (err & e & E). eexists _, _. split; [exact E|].
  destruct (err =? IOT_ERROR_NONE); [by apply sane_put|done].
Qed.
Lemma returns_send cmd : good_command cmd -> returns b (iot_command_send cmd).
Proof.
  intros Hg w Hw. destruct (command_send_spec cmd w) as (err & e & E). eexists _, _. split; [exact E|].
  destruct (err =? IOT_ERROR_NONE); [by apply sane_put|done].
Qed.
Lemma returns_send_all cmds : Forall good_command cmds -> returns b (send_all cmds).
Proof. induction 1; [apply live_ret|]. apply live_bind; [by apply returns_send|done]. Qed.

(** The strings that are read from the context have not been freed. *)
Lemma returns_free s : s <> Freed -> returns b (free_str s).
Proof. destruct s; [|intros ?; apply live_ret..|done]. intros ?. apply live_ret. Qed.
End total.

Section strings.
Context `{Device}.
Lemma returns_prov {A} b (k : iot_device_prov_data -> st mworld A) :
  (forall p, (b = true -> whole_prov p) -> returns b (k p)) -> returns b (getc prov_data ≫= k).
Proof. intros Hk w Hw. rewrite bind_getc. apply Hk; [|done]. intros E. by apply Hw. Qed.
Lemma returns_lookup {A} (k : cstr -> st mworld A) :
  (forall s, s <> Freed -> returns true (k s)) -> returns true (getc lookup_id ≫= k).
Proof. intros Hk w Hw. rewrite bind_getc. apply Hk; [|done]. by apply Hw. Qed.
End strings.

Create HintDb returns.
#[export] Hint Resolve returns_send returns_put returns_send_all : returns.
#[export] Hint Extern 1 (good_command _) => discriminate : returns.
#[export] Hint Extern 1 (good_work _) => done : returns.

(** A change of the context that touches no string and no callback, or that
    puts a string there that has not been freed. *)
Ltac sane_ctx :=
  let c := fresh in let Ht := fresh in let Hs := fresh in
  intros c [Ht Hs]; split;
  first [exact Ht|exact Hs
        |let E := fresh in intros E; specialize (Hs E); unfold whole_prov in *; cbn in *; intuition (done || congruence)].

(** [returns] of a computation whose calls return. *)
Ltac returns :=
  repeat (cbv beta zeta;
    match goal with
    | |- returns _ (mret _) => apply live_ret
    | |- returns _ undef => exfalso; unfold whole_prov in *; intuition congruence
    | |- returns _ (getc prov_data ≫= _) => let p := fresh "p" in let Hp := fresh in apply returns_prov; intros p Hp
    | |- returns _ (getc lookup_id ≫= _) => let s := fresh in let Hs := fresh in apply returns_lookup; intros s Hs
    | |- returns _ (_ ≫= _) => apply live_bind; [|let x := fresh in intros x]
    | |- returns _ (gets _) => apply returns_gets
    | |- returns _ (getc _) => apply returns_gets
    | |- returns _ (dev _) => apply returns_dev
    | |- returns _ (dev_ _) => apply returns_dev_
    | |- returns _ (tell _) => apply returns_tell
    | |- returns _ (free_str _) => apply returns_free; unfold whole_prov in *; intuition congruence
    | |- returns _ (setc _) => apply returns_setc; sane_ctx
    | |- returns _ (when _ _) => apply returns_when
    | |- returns _ (if ?b then _ else _) => destruct b eqn:?
    | |- returns _ (match ?x with _ => _ end) => destruct x eqn:?
    | |- _ => solve [eauto with returns]
    end).

(** ** All but the wait *)

Section all.
Context `{Device} (b : bool).

Lemma returns_set_st_ecode e : returns b (iot_set_st_ecode e).
Proof. unfold iot_set_st_ecode. returns. Qed.
#[local] Hint Resolve returns_set_st_ecode : returns.
Lemma returns_conn_error e : returns b (iot_set_st_ecode_from_conn_error e).
Proof. unfold iot_set_st_ecode_from_conn_error. returns. Qed.
#[local] Hint Resolve returns_conn_error : returns.
Lemma returns_wifi mode : returns b (iot_wifi_ctrl_request mode).
Proof. destruct mode; unfold iot_wifi_ctrl_request, deinit_http, drop_scan, wifi_done, set_wifi_mode; returns. Qed.

Lemma returns_state_update s opt : returns b (iot_state_update s opt).
Proof.
  unfold iot_state_update. apply live_bind; [|intros ?; returns]. apply returns_when.
  intros w Hw. rewrite !bind_getc.
  destruct (negb (Z.land (status_maps (m_ctx w)) IOT_STATUS_NEED_INTERACT =? 0)) eqn:E; cbn [andb when]; [|by eexists _, _].
  assert (status_cb (m_ctx w) = true) as Hcb.
  { apply Hw. apply negb_true_iff, Z.eqb_neq in E. exact E. }
  revert w Hw E Hcb. intros w Hw _ Hcb. destruct (curr_otm_feature _ =? OVF_BIT_BUTTON); [|by eexists _, _].
  cbn [when]. rewrite bind_getc, Hcb.
  apply (fun Hr : returns b (report_status IOT_STATUS_NEED_INTERACT IOT_STAT_LV_STAY) => Hr w Hw). unfold report_status. returns.
Qed.
Lemma returns_disconnect t : returns b (iot_es_disconnect t).
Proof. destruct t; unfold iot_es_disconnect, _iot_es_mqtt_disconnect; cbn [set_client_of client_of]; returns. Qed.
#[local] Hint Resolve returns_wifi returns_state_update returns_disconnect : returns.
Lemma returns_disconnect_if t : returns b (disconnect_if t).
Proof. unfold disconnect_if. returns. Qed.
Lemma returns_registration c : returns b (_iot_es_mqtt_registration c).
Proof. unfold _iot_es_mqtt_registration. returns. Qed.
Lemma returns_drop c r : returns b (drop_connection c r).
Proof. unfold drop_connection, _iot_es_mqtt_disconnect. returns. Qed.
Lemma returns_out t c r : returns b (es_out t c r).
Proof. unfold es_out. returns. Qed.
Lemma returns_updating new opt : returns b (_do_state_updating new opt).
Proof.
  unfold _do_state_updating, change_state, open_for_setup, command_and, just, refuse, _get_device_preference, set_timer_for,
    report_state, report_if, report_status. returns.
Qed.
Lemma returns_delete_resources : returns b _delete_easysetup_resources_all.
Proof. unfold _delete_easysetup_resources_all. returns. Qed.
#[local] Hint Resolve returns_delete_resources : returns.
Lemma returns_resources pin_num : returns b (_create_easysetup_resources pin_num).
Proof. unfold _create_easysetup_resources, make_pin, create_fail. returns. Qed.
Lemma returns_retry err : returns b (retry_later err).
Proof. unfold retry_later, connection_failed. returns. Qed.
Lemma returns_made err : returns b (connection_made err).
Proof. unfold connection_made. returns. Qed.
(** Callback and mask are set together. *)
Lemma returns_callback (cb : bool) maps : (cb = false -> maps = 0) -> returns b (set_callback cb maps).
Proof.
  intros Hcb w [[Ht Hs] Hw]. eexists _, _. split; [done|]. split; [|done]. split; [|exact Hs].
  cbn. destruct cb; [done|]. by rewrite Hcb.
Qed.

Context `{!SaneCalls}.
Lemma returns_yield c : returns b (yield_mqtt c).
Proof.
  intros w [Hc Hw]. unfold yield_mqtt. rewrite bind_getc.
  destruct (dev_returns (st_mqtt_yield c (m_ctx w)) w) as (e & E). change (id (m_ctx w)) with (m_ctx w).
  rewrite (bind_ret _ _ _ _ _ E). destruct (yield_sane c (m_ctx w) (m_env w) b Hc) as [Hc' Hcmds].
  destruct (st_mqtt_yield c (m_ctx w) (m_env w)) as [[ctx cmds] e']. cbn [fst snd] in *. rewrite bind_setc.
  by apply returns_send_all.
Qed.
Lemma returns_handle step payload : returns b (handle_request step payload).
Proof.
  intros w [Hc Hw]. unfold handle_request. rewrite bind_getc.
  destruct (dev_returns (iot_easysetup_request_handler step payload (m_ctx w)) w) as (e & E).
  change (id (m_ctx w)) with (m_ctx w). rewrite (bind_ret _ _ _ _ _ E).
  destruct (handler_sane step payload (m_ctx w) (m_env w) b Hc) as [Hc' Hcmds].
  destruct (iot_easysetup_request_handler step payload (m_ctx w) (m_env w)) as [[err [ctx cmds]] e']. cbn [fst snd] in *.
  rewrite bind_setc. set (w1 := with_ctx _ _).
  assert (Hw1 : sane b w1) by done. clearbody w1. revert w1 Hw1. change (returns b (send_all cmds;; mret err)). returns.
Qed.
End all.
#[export] Hint Resolve returns_set_st_ecode returns_conn_error returns_wifi returns_state_update returns_disconnect
  returns_disconnect_if returns_registration returns_drop returns_out returns_updating returns_delete_resources
  returns_resources returns_retry returns_made returns_yield returns_handle : returns.

(** ** What frees strings *)

Section frees.
Context `{Device}.

(** The provisioning data is freed and cleared. *)
Lemma returns_clear {A} (k : st mworld A) :
  returns true k -> returns true (iot_api_prov_data_mem_free;; setc (set_prov_data zero_prov);; k).
Proof.
  intros Hk w Hw. pose proof Hw as [[Ht Hs] Hwork]. destruct (Hs eq_refl) as [(Hb & Hl & _) Hid].
  pose proof (mem_free_spec w) as E. cbv zeta in E.
  assert (Hf : forall s, s <> Freed -> is_freed s = false) by by intros [].
  rewrite !Hf in E by done. cbn [orb] in E. rewrite (bind_ret _ _ _ _ _ E), bind_setc. apply Hk.
  split; [|done]. split; [exact Ht|]. intros _. split; [by split_and!|exact Hid].
Qed.
Lemma returns_cleanup reboot : returns true (iot_cleanup reboot).
Proof.
  unfold iot_cleanup, deinit_http. do 3 (apply live_bind; [returns|intros ?]).
  apply live_bind; [|intros ?; returns]. unfold iot_device_cleanup. apply returns_clear. returns.
Qed.
Lemma returns_mqtt_connect c : returns true (_iot_es_mqtt_connect c).
Proof. pose proof returns_cleanup. unfold _iot_es_mqtt_connect, connect_error. returns. Qed.
Lemma returns_registered : returns true do_cloud_registered.
Proof. unfold do_cloud_registered. returns. Qed.

Context `{!SaneCalls}.
(** The data that is loaded takes the place of what has been freed; when
    nothing can be loaded the freed strings stay. *)
Lemma total_next_prov_state : total (sane true) next_prov_state (sane false).
Proof.
  intros w Hw. pose proof Hw as [[Ht Hs] Hwork]. destruct (Hs eq_refl) as [(Hb & Hl & Hlo & Hr) Hid].
  unfold next_prov_state. pose proof (mem_free_spec w) as E. cbv zeta in E.
  assert (Hf : forall s, s <> Freed -> is_freed s = false) by by intros [].
  rewrite !Hf in E by done. cbn [orb] in E. rewrite (bind_ret _ _ _ _ _ E), bind_getc.
  set (p := prov_data _). set (w1 := with_ctx _ w).
  assert (Hp : location p <> Freed /\ room p <> Freed) by done. destruct Hp as [Hp1 Hp2].
  destruct (dev_returns (iot_nv_get_prov_data p) w1) as (e & E1). rewrite (bind_ret _ _ _ _ _ E1).
  pose proof (loaded_whole p (m_env w1) Hp1 Hp2) as Hload.
  destruct (iot_nv_get_prov_data p (m_env w1)) as [[err p'] e']. cbn [fst snd] in *. rewrite bind_setc.
  set (w2 := with_ctx _ _).
  assert (H2 : sane false w2) by (split; [split; [exact Ht|done]|done]).
  destruct (Z.eqb_spec err IOT_ERROR_NONE) as [Herr|Herr]; cbn [negb].
  - assert (H2' : sane true w2) by (split; [split; [exact Ht|by split; [apply Hload|exact Hid]]|done]).
    clearbody w2. clear H2. revert w2 H2'. apply total_weaken.
    unfold need_provisioning, check_stored_id, _unlikely_with_stored_dip, _prepare_self_reged. returns.
  - clearbody w2. revert w2 H2. unfold need_provisioning. change (returns false
      (dev iot_nv_erase_device_id;; (setc (set_new_reged true);; setc (set_onboarding_complete false));; mret IOT_STATE_PROV_ENTER)).
    returns.
Qed.
Lemma total_check_prov only : total (sane true) (_check_prov_status only) (sane false).
Proof.
  unfold _check_prov_status. eapply total_bind; [apply returns_setc; sane_ctx|]. intros _.
  eapply total_bind; [apply total_next_prov_state|]. intros next.
  change (returns false (if only then mret IOT_ERROR_NONE else iot_state_update next IOT_STATE_OPT_NONE)). returns.
Qed.
End frees.
#[export] Hint Resolve returns_cleanup returns_mqtt_connect returns_registered : returns.

(** ** The wait for the server's answer *)

Section wait.
Context `{Device} `{!Clock}.
Abbreviation M := (st mworld).

(** The timer has at most [n] milliseconds left. *)
Definition runs_out (tm : nat) (n : Z) (w : mworld) : Prop := time_left tm (m_env w) <= n.

Lemma counts_dev {A} tm n (f : denv -> A * denv) :
  (forall e, time_left tm (snd (f e)) <= time_left tm e) -> keeps (runs_out tm n) (dev f).
Proof.
  intros Hf w a w' Hw E. unfold dev in E. specialize (Hf (m_env w)). destruct (f (m_env w)) as [b e].
  injection E as <- <-. unfold runs_out in *. cbn in *. lia.
Qed.
Lemma counts_ctx tm n (f : mworld -> mworld) : (forall w, m_env (f w) = m_env w) -> keeps (runs_out tm n) (modify f).
Proof. intros Hf w a w' Hw [= <- <-]. unfold runs_out. by rewrite Hf. Qed.

Lemma counts_send tm n cmd : keeps (runs_out tm n) (iot_command_send cmd).
Proof.
  unfold iot_command_send, iot_put_device_work, work_queue_send.
  repeat match goal with
  | |- keeps _ (_ ≫= _) => apply keeps_bind; [|intros ?]
  | |- keeps _ (dev _) => apply counts_dev; intros; first [apply malloc_counts|apply lock_counts]
  | |- keeps _ (modify _) => apply counts_ctx; by intros []
  | |- keeps _ (if ?b then _ else _) => destruct b
  | |- keeps _ (mret _) => apply keeps_ret
  end.
Qed.

Lemma counts_send_all tm n cmds : keeps (runs_out tm n) (send_all cmds).
Proof. induction cmds; [apply keeps_ret|]. apply keeps_bind; [apply counts_send|done]. Qed.

Lemma counts_yield tm n c : keeps (runs_out tm n) (yield_mqtt c).
Proof.
  intros w a w' Hw E. unfold yield_mqtt in E. rewrite bind_getc in E.
  apply bind_inv in E as ([ctx cmds] & w1 & E1 & E2).
  apply (counts_dev tm n) in E1; [|intros; apply yield_counts|done].
  rewrite bind_setc in E2. by eapply counts_send_all, E2.
Qed.

Context `{!SaneCalls}.
Lemma await_returns b t c tm fuel w :
  sane b w -> runs_out tm (100 * Z.of_nat fuel) w ->
  exists w', await_answer t c tm fuel w = Ret (tt, w') /\ sane b w'.
Proof.
  revert w. induction fuel as [|fuel IH]; intros w Hs Hw; cbn [await_answer]; rewrite bind_gets, active_left.
  - unfold runs_out in Hw. destruct (Z.ltb_spec 0 (time_left tm (m_env w))); cbn [negb]; [lia|by exists w].
  - destruct (0 <? time_left tm (m_env w)); cbn [negb]; [|by exists w].
    destruct (returns_yield b c w Hs) as ([] & w1 & E1 & Hs1). rewrite (bind_ret _ _ _ _ _ E1).
    apply (counts_yield tm (100 * Z.of_nat (S fuel))) in E1; [|done].
    set (w2 := with_menv (d_delay 100 (m_env w1)) w1).
    assert (E2 : runs_out tm (100 * Z.of_nat fuel) w2).
    { unfold runs_out in *. cbn [w2 m_env with_menv]. pose proof (delay_counts tm 100 (m_env w1)). lia. }
    change ((dev_ (d_delay 100) ≫= ?k) w1) with (k tt w2). cbv beta. rewrite bind_getc.
    destruct (bool_decide _); [by apply IH|by exists w2].
Qed.
End wait.

(** ** Connections *)

Section connect.
Context `{Device} `{!Clock} `{!SaneCalls} (wait_fuel : nat) (Hfuel : (50 <= wait_fuel)%nat).

(** Sane, while the timer [tm] has at most 5 seconds left. *)
Definition timed (tm : nat) (w : mworld) : Prop := sane true w /\ runs_out tm 5000 w.

Lemma timed_dev {A} tm (f : denv -> A * denv) :
  (forall e, time_left tm (snd (f e)) <= time_left tm e) -> total (timed tm) (dev f) (timed tm).
Proof.
  intros Hf w [Hs Hw]. destruct (dev_returns f w) as (e & E). eexists _, _. split; [exact E|].
  split; [done|]. by eapply counts_dev, E.
Qed.
Lemma timed_done {A} tm (m : st mworld A) : returns true m -> total (timed tm) m (sane true).
Proof. intros Hm w [Hs _]. by apply Hm. Qed.
Lemma timed_await {A} t c tm (k : unit -> st mworld A) :
  (forall u, returns true (k u)) -> total (timed tm) (await_answer t c tm wait_fuel ≫= k) (sane true).
Proof.
  intros Hk w [Hs Hw]. destruct (await_returns true t c tm wait_fuel w Hs) as (w' & E & Hs').
  { unfold runs_out in *. lia. }
  rewrite (bind_ret _ _ _ _ _ E). by apply Hk.
Qed.

Lemma login_returns c tm : total (timed tm) (es_login wait_fuel c tm) (sane true).
Proof.
  unfold es_login.
  eapply total_bind; [apply timed_dev, malloc_counts|]. intros []; cbn [negb]; [|apply timed_done; returns].
  eapply total_bind; [apply timed_dev, malloc_counts|]. intros []; cbn [negb]; [|apply timed_done; returns].
  eapply total_bind; [apply timed_dev; intros; apply subscribe_counts|]. intros ret.
  destruct (ret =? 0); cbn [negb]; [|apply timed_done; returns].
  apply timed_await. intros u. returns.
Qed.
(** Without memory for the topic the code goes on with an array that has not
    been initialised. *)
Lemma signup_returns c tm : (forall e, fst (d_malloc e) = true) -> total (timed tm) (es_signup wait_fuel c tm) (sane true).
Proof.
  intros Hmem. unfold es_signup. intros w Hw.
  destruct (timed_dev tm d_malloc (malloc_counts tm) w Hw) as (ok & w1 & E & Hw1).
  assert (ok = true) as ->.
  { unfold dev in E. pose proof (Hmem (m_env w)) as Hm. destruct (d_malloc (m_env w)) as [ok' e]. cbn in Hm. congruence. }
  rewrite (bind_ret _ _ _ _ _ E). cbn [negb]. revert w1 Hw1 E. intros w1 Hw1 _. revert w1 Hw1.
  eapply total_bind; [apply timed_dev; intros; apply subscribe_counts|]. intros ret.
  destruct (ret =? 0); cbn [negb]; [|apply timed_done; returns].
  apply timed_await. intros u. returns.
Qed.

Definition memory_for (t : iot_connect_type) : Prop :=
  t = IOT_CONNECT_TYPE_REGISTRATION -> forall e, fst (d_malloc e) = true.

Lemma open_returns t r : memory_for t -> returns true (es_open wait_fuel t r).
Proof.
  intros Hmem. unfold es_open. apply live_bind; [returns|]. intros [c|]; [|returns].
  apply live_bind; [destruct t; unfold count_try; returns|]. intros ?.
  apply live_bind; [destruct t; cbn [set_request_status]; returns|]. intros ?.
  apply live_bind; [returns|]. intros ret. destruct (ret =? IOT_ERROR_NONE); cbn [negb]; [|returns].
  apply live_bind; [destruct t; unfold count_success; returns|]. intros ?.
  intros w Hw. destruct (d_timer_create GG_CONNECTION_RESPONSE_TIMEOUT_MS (m_env w)) as [tm e] eqn:Et.
  assert (E : dev (d_timer_create GG_CONNECTION_RESPONSE_TIMEOUT_MS) w = Ret (tm, with_menv e w)) by (unfold dev; by rewrite Et).
  rewrite (bind_ret _ _ _ _ _ E). destruct tm as [tm|]; [|by apply (returns_out true)].
  pose proof (start_sets _ _ _ _ Et) as Hstart. set (w1 := with_menv (d_timer_start tm (m_env (with_menv e w))) (with_menv e w)).
  change ((dev_ (d_timer_start tm) ≫= ?k) (with_menv e w)) with (k tt w1). cbv beta.
  assert (Hw1 : timed tm w1) by done. clearbody w1. revert w1 Hw1.
  eapply (total_bind _ (sane true)); [|intros ret2; change (returns true (es_out (Some tm) (Some c) ret2)); returns].
  destruct t; [by apply signup_returns, Hmem|apply login_returns].
Qed.

Lemma connect_returns t : memory_for t -> returns true (iot_es_connect wait_fuel t).
Proof. intros Hmem. pose proof (fun r => open_returns t r Hmem). unfold iot_es_connect. returns. Qed.

Lemma command_returns cmd :
  good_command cmd -> (cmd = IOT_COMMAND_CLOUD_REGISTERING -> forall e, fst (d_malloc e) = true) ->
  returns true (_do_iot_main_command wait_fuel cmd).
Proof.
  intros Hg Hmem. assert (Hcom : returns true (iot_es_connect wait_fuel IOT_CONNECT_TYPE_COMMUNICATION)) by by apply connect_returns.
  destruct cmd as [[[new opt]|]| | | |noti]; cbn [_do_iot_main_command]; [returns|done| |returns| |].
  - assert (Hreg : returns true (iot_es_connect wait_fuel IOT_CONNECT_TYPE_REGISTRATION)).
    { apply connect_returns. intros _. by apply Hmem. }
    unfold do_cloud_registering, _con_timeout_check, go_to_station, register_device, send_again. returns.
  - unfold do_cloud_connecting, _con_timeout_check, go_to_station, connect_device, send_again. returns.
  - unfold do_notification, call_noti_cb. returns.
Qed.

(** ** The functions of the library and the task *)

Ltac as_returns := match goal with |- total (sane ?b) ?m _ => change (returns b m) end.

Lemma start_returns cb maps pin_num : total (sane true) (st_conn_start cb maps pin_num) (sane false).
Proof.
  assert (Hret : forall a : Z, total (sane true) (mret a) (sane false)) by (intros; apply total_weaken; returns).
  unfold st_conn_start, with_conn_lock.
  eapply total_bind; [unfold on_work_thread; apply (returns_gets true)|]. intros []; [apply Hret|].
  eapply total_bind; [apply (returns_dev true)|]. intros []; cbn [negb]; [|apply Hret].
  eapply total_bind; [apply (returns_gets true)|]. intros s. destruct (bool_decide _); cbn [negb]; [|apply Hret].
  eapply total_bind; [apply (returns_gets true)|]. intros otm. destruct (_ && _); [apply Hret|].
  eapply total_bind; [apply (returns_gets true)|]. intros there.
  eapply (total_bind _ (sane true)); [as_returns; returns|].
  intros err. destruct (err =? IOT_ERROR_NONE); cbn [negb]; [|apply Hret].
  eapply (total_bind _ (sane true)); [as_returns; returns|]. intros ?.
  eapply (total_bind _ (sane true)); [as_returns; apply returns_when, returns_callback; done|]. intros ?.
  unfold check_provisioning_or_free. eapply total_bind; [apply total_check_prov|]. intros err2.
  assert (Hcb : returns false (set_callback false 0)) by by apply returns_callback.
  as_returns. returns.
Qed.

Lemma start_ex_returns x : total (sane true) (st_conn_start_ex x) (sane false).
Proof.
  assert (Hret : forall a : Z, total (sane true) (mret a) (sane false)) by (intros; apply total_weaken; returns).
  unfold st_conn_start_ex, with_conn_lock. destruct x as [x|]; [|apply Hret].
  eapply total_bind; [unfold on_work_thread; apply (returns_gets true)|]. intros []; [apply Hret|].
  destruct (_ && _); [apply Hret|].
  eapply total_bind; [apply (returns_gets true)|]. intros otm. destruct (_ && _); [apply Hret|].
  eapply total_bind; [apply (returns_dev true)|]. intros []; cbn [negb]; [|apply Hret].
  eapply total_bind; [apply (returns_gets true)|]. intros s.
  eapply (total_bind _ (sane true)).
  { as_returns. returns. }
  intros ?. eapply (total_bind _ (sane true)); [apply returns_setc; sane_ctx|]. intros ?.
  eapply (total_bind _ (sane false)).
  - destruct (_ =? _).
    + unfold start_connecting. eapply total_bind; [apply total_check_prov|]. intros err.
      as_returns. returns.
    + apply total_weaken. unfold start_provisioning. returns.
  - intros err. assert (Hcb : returns false (set_callback true (x_maps x))) by by apply returns_callback.
    as_returns. returns.
Qed.

Lemma conn_cleanup_returns reboot : returns true (st_conn_cleanup reboot).
Proof. unfold st_conn_cleanup, with_conn_lock, on_work_thread, _delete_dev_card_by_usr. returns. Qed.

Lemma work_returns work :
  good_work work -> (work = command_work (Some IOT_COMMAND_CLOUD_REGISTERING) -> forall e, fst (d_malloc e) = true) ->
  returns true (run_work wait_fuel work).
Proof.
  intros Hg Hmem. destruct work as [[cmd|]|[step|] payload];
    cbn [run_work _command_work_handler _easysetup_request_work_handler]; [|returns..].
  apply live_bind; [|intros; returns]. apply command_returns; [done|]. intros ->. by apply Hmem.
Qed.

(** The next work is a registration only while memory lasts. *)
Definition memory_for_registration (w : mworld) : Prop :=
  head (m_work w) = Some (command_work (Some IOT_COMMAND_CLOUD_REGISTERING)) -> forall e, fst (d_malloc e) = true.

Lemma round_returns w : sane true w -> memory_for_registration w ->
  exists a w', task_round wait_fuel w = Ret (a, w') /\ sane true w'.
Proof.
  intros Hw Hmem. unfold task_round. rewrite !bind_gets.
  set (w1 := with_signals false false w).
  change ((modify (with_signals false false) ≫= ?k) w) with (k tt w1). cbv beta.
  destruct (kill_signal w); [by eexists _, _|]. destruct (pending_signal w); [|by eexists _, _].
  unfold work_queue_receive. destruct (dev_returns d_lock w1) as (e & E). rewrite bind_assoc, (bind_ret _ _ _ _ _ E).
  destruct (fst (d_lock (m_env w1))); cbn [negb]; [|by eexists _, _].
  rewrite bind_assoc, bind_gets. change (m_work (with_menv e w1)) with (m_work w).
  pose proof Hw as [Hc Hwork]. unfold memory_for_registration in Hmem.
  destruct (m_work w) as [|work rest]; [by eexists _, _|].
  apply Forall_cons in Hwork as [Hg Hrest]. rewrite bind_assoc. set (w2 := with_work rest (with_menv e w1)).
  change ((modify (with_work rest) ≫= ?k) (with_menv e w1)) with (k tt w2). cbv beta. rewrite bind_mret.
  assert (Hw2 : sane true w2) by done. revert Hw2. generalize w2. 
  assert (Hr : returns true (run_work wait_fuel work)) by (apply work_returns; [done|intros ->; by apply Hmem]).
  change (returns true (run_work wait_fuel work;; modify (with_pending true);; mret true)).
  apply live_bind; [done|intros ?]. apply live_bind; [apply returns_pending|intros ?; returns].
Qed.

(** The functions that load the provisioning data. *)
Definition loads (op : main_op) : bool := match op with op_start _ _ _ | op_start_ex _ => true | _ => false end.

(** C35: every operation of the device returns.  In a world where no string of
    the context has been freed, whoever wants to be told of an interaction has
    given a callback, and every state update in the queue has its parameter
    ([sane true]), each call of the library, timer, request and round of the task
    returns: it neither goes on for ever nor follows a null or dangling pointer
    nor frees anything twice.  Afterwards the world is sane again; only a start,
    which frees the provisioning data and may find none to load, can leave freed
    strings behind ([stale_provisioning_data_freed_twice]).

    It needs a board whose clock runs ([Clock]: a wait for the server lasts at
    most 50 rounds of 100 ms); callbacks, a handler and a loading of data that do
    not leave freed strings themselves ([SaneCalls]); and memory while a
    registration is handled, which without it reads an array that has not been
    initialised.  The functions of the MQTT client are taken to return: that is
    not so at the end of a connection ([end_of_stream_hangs]). *)
Theorem main_operations_end op w :
  sane true w -> (op = op_round -> memory_for_registration w) ->
  exists w', run_main_op wait_fuel op w = Ret (tt, w') /\ sane (negb (loads op)) w'.
Proof.
  intros Hw Hmem.
  assert (Htt : forall {A} b (m : st mworld A), total (sane true) m (sane b) ->
    exists w', (m;; mret tt) w = Ret (tt, w') /\ sane b w').
  { intros A b m Hm. destruct (Hm w Hw) as (a & w' & E & Hw'). exists w'. by rewrite (bind_ret _ _ _ _ _ E). }
  assert (Hunit : forall m : st mworld unit, returns true m -> exists w', m w = Ret (tt, w') /\ sane true w').
  { intros m Hm. destruct (Hm w Hw) as ([] & w' & E & Hw'). by exists w'. }
  destruct op; cbn [run_main_op loads negb].
  - apply Htt, start_returns.
  - apply Htt, start_ex_returns.
  - apply Htt, conn_cleanup_returns.
  - apply Hunit. unfold _iot_state_timeout_cb. returns.
  - apply Hunit. unfold _next_connection_retry_timeout. returns.
  - apply Htt. as_returns. unfold iot_easysetup_request. returns.
  - apply Htt, returns_state_update.
  - destruct (round_returns w Hw (Hmem eq_refl)) as (a & w' & E & Hw'). exists w'. by rewrite (bind_ret _ _ _ _ _ E).
Qed.
End connect.

(** ** A concrete instance *)

#[export] Instance sim_clock : Clock.
Proof.
  refine {| time_left (_ : nat) (e : @denv sim_device) := sim_left e |}; cbn; try (by intros); try lia.
  by intros ms tm e e' [= _ <-].
Defined.

#[export] Instance sim_sane : SaneCalls.
Proof.
  split.
  - intros cli c e b [Ht Hs]. split; [|constructor]. split; [exact Ht|exact Hs].
  - intros step payload c e b Hc. split; [done|]. by destruct step; repeat constructor.
  - intros p e Hl Hr Herr. cbn in *. destruct (sim_store e) as [[p' id]|]; [|discriminate Herr].
    destruct p' as [? ? [] ? [] [] []]; by split_and!.
Qed.

(** A device that has been set up and has to register itself. *)
Definition registering_device : mworld :=
  MWorld _ (Sim 0 0 None) (set_prov_data sim_prov (set_is_wifi_station true (set_curr_state IOT_STATE_PROV_DONE sim_ctx)))
    [command_work (Some IOT_COMMAND_CLOUD_REGISTERING)] true false [].

Lemma main_operations_end_witness :
  exists w', run_main_op 50 op_round registering_device = Ret (tt, w') /\ sane true w'.
Proof.
  apply (main_operations_end 50 ltac:(lia) op_round registering_device).
  - split; [|by repeat constructor]. split; [done|]. intros _. by split_and!.
  - intros _ _ e. reflexivity.
Defined.
