(* ===== verification/HttpParse.v ===== *)
(** * Easy setup over HTTP: the parser of requests

    [src/src/easysetup/http/iot_easysetup_http_parser.c].  A request is parsed
    in the buffer it was received in, with [strtok]: tokens are ended by zeros
    that are written over the character behind them.  Pointers are offsets into
    the buffer; to read at an offset behind its end is undefined.

    Behind the definitions: what [strtok] does to a token, and the loop over the
    headers of a request. *)

From S2P Require Import Prelude MainState UtilUrl.

(** ** C strings *)


(** How many elements in front satisfy [f]. *)
Fixpoint span (f : Z -> bool) (l : list Z) : nat :=
  match l with x :: l => if f x then S (span f l) else O | [] => O end.

Definition is_delim (delim : list Z) (b : Z) : bool := bool_decide (b ∈ delim).
Definition tolower (b : Z) : Z := if (65 <=? b) && (b <=? 90) then b + 32 else b.

(** What a token is made of. *)
Definition in_token (delim : list Z) (b : Z) : bool := negb (b =? 0) && negb (is_delim delim b).

(** A buffer, and the pointer that [strtok] keeps between its calls. *)
Record lexer := Lexer { buffer : list Z; saved : option nat }.

Section lexer.
Abbreviation M := (st lexer).

Definition byte_at (i : nat) : M Z := s ← gets buffer; need (s !! i).
Definition end_token (i : nat) : M unit := modify (fun x => Lexer (<[i := 0]> (buffer x)) (saved x)).
Definition save (i : nat) : M unit := modify (fun x => Lexer (buffer x) (Some i)).

(** The string at [p], which must end inside the buffer. *)
Definition string_at (p : nat) : M (list Z) :=
  s ← gets buffer;
  let n := span (fun b => negb (b =? 0)) (drop p s) in
  byte_at (p + n);; mret (take n (drop p s)).

Definition strtok (str : option nat) (delim : list Z) : M (option nat) :=
  last ← gets saved;
  match (match str with Some p => Some p | None => last end) with
  | None => mret None
  | Some p =>
      s ← gets buffer;
      let token := (p + span (is_delim delim) (drop p s))%nat in
      b ← byte_at token;
      if b =? 0 then save token;; mret None
      else
        let e := (token + span (in_token delim) (drop token s))%nat in
        b ← byte_at e;
        (if b =? 0 then save e else end_token e;; save (S e));;
        mret (Some token)
  end.
End lexer.

(** [strtol] in base 10, for a [long] up to [LONG_MAX]: [None] when nothing
    is converted. *)
Section parser.
Context (LONG_MAX : Z).
Abbreviation LONG_MIN := (- LONG_MAX - 1).
Abbreviation M := (st lexer).

Definition strtol (s : list Z) : option Z :=
  let s := skip_space s in
  let '(neg, s) := match s with
                   | c :: s' => if c =? 45 then (true, s') else if c =? 43 then (false, s') else (false, s)
                   | [] => (false, s)
                   end in
  match s with
  | c :: _ =>
      if (48 <=? c) && (c <=? 57) then
        let v := digits_value 0 s in
        Some (if (neg : bool) then Z.max (- v) LONG_MIN else Z.min v LONG_MAX)
      else None
  | [] => None
  end.

(** ** Requests *)

Inductive cgi_type := D2D_GET | D2D_POST | D2D_ERROR.

(** A command: a step of the easy setup, or [None] for
    [IOT_EASYSETUP_INVALID_STEP]. *)
Definition command : Type := option iot_easysetup_step.

Definition IOT_ERROR_EASYSETUP_HTTP_PARSE_FAIL : Z := -563.

Definition get_cmd (uri : list Z) : command :=
  if bool_decide (uri = lit "/deviceinfo") then Some IOT_EASYSETUP_STEP_DEVICEINFO
  else if bool_decide (uri = lit "/wifiscaninfo") then Some IOT_EASYSETUP_STEP_WIFISCANINFO
  else if bool_decide (uri = lit "/logs/systeminfo") then Some IOT_EASYSETUP_STEP_LOG_SYSTEMINFO
  else if bool_decide (uri = lit "/logs/dump") then Some IOT_EASYSETUP_STEP_LOG_GET_DUMP
  else None.

Definition post_cmd (uri : list Z) : command :=
  if bool_decide (uri = lit "/keyinfo") then Some IOT_EASYSETUP_STEP_KEYINFO
  else if bool_decide (uri = lit "/confirminfo") then Some IOT_EASYSETUP_STEP_CONFIRMINFO
  else if bool_decide (uri = lit "/confirm") then Some IOT_EASYSETUP_STEP_CONFIRM
  else if bool_decide (uri = lit "/wifiprovisioninginfo") then Some IOT_EASYSETUP_STEP_WIFIPROVIONINGINFO
  else if bool_decide (uri = lit "/setupcomplete") then Some IOT_EASYSETUP_STEP_SETUPCOMPLETE
  else if bool_decide (uri = lit "/logs/dump") then Some IOT_EASYSETUP_STEP_LOG_CREATE_DUMP
  else None.

(** The variables of the caller that the parser sets, or leaves as they are. *)
Record outs := Outs { o_payload : option nat; o_cmd : command; o_type : cgi_type; o_content_len : Z }.

Definition is_header_content_length (header_key : list Z) : bool :=
  (zlen header_key =? 14) && bool_decide (tolower <$> header_key = lit "content-length").

Fixpoint skip_blanks (s : list Z) : nat := match s with b :: s => if b =? 32 then S (skip_blanks s) else O | [] => O end.

(** The end of the value at [p], seen with the blank line behind it. *)
Definition header_ends (p : nat) : M bool :=
  b ← byte_at (p + 1);
  if negb (b =? 10) then mret false
  else
    b ← byte_at (p + 2);
    if negb (b =? 13) then mret false else b ← byte_at (p + 3); mret (b =? 10).

(** The loop over at most [n] headers: [p_body] and [post_content_len]. *)
Fixpoint read_headers (n : nat) (p_body : option nat) (post_content_len : Z) : M (option nat * Z) :=
  match n with
  | O => mret (p_body, post_content_len)
  | S n =>
      key ← strtok None [13; 10; 58; 32; 9];
      match key with
      | None => mret (p_body, post_content_len)
      | Some key =>
          value ← strtok None [13; 10];
          match value with
          | None => mret (p_body, post_content_len)
          | Some value =>
              text ← string_at value;
              let value := (value + skip_blanks text)%nat in
              text ← string_at value;
              name ← string_at key;
              let len := if is_header_content_length name then
                           match strtol text with
                           | Some val =>
                               if (val =? LONG_MAX) || (val =? LONG_MIN) then None else Some (to_int val)
                           | None => None
                           end
                         else Some post_content_len in
              match len with
              | None => mret (p_body, post_content_len)
              | Some len =>
                  let p := (value + length text)%nat in
                  ends ← header_ends p;
                  if (ends : bool) then mret (Some (p + 3)%nat, len) else read_headers n (Some p) len
              end
          end
      end
  end.

(** The pointers that it is given are not null. *)
Definition es_msg_parser (rx_buffer_len : nat) (o : outs) : M (Z * outs) :=
  method ← strtok (Some O) [32; 9; 13; 10];
  uri ← strtok None [32; 9];
  prot ← strtok None [32; 9; 13; 10];
  match method, uri, prot with
  | Some method, Some uri, Some prot =>
      method ← string_at method;
      if bool_decide (method = lit "GET") then
        uri ← string_at uri;
        mret (IOT_ERROR_NONE, Outs (o_payload o) (get_cmd uri) D2D_GET (o_content_len o))
      else if bool_decide (method = lit "POST") then
        '(p_body, post_content_len) ← read_headers 16 None (-1);
        match p_body with
        | None => mret (IOT_ERROR_EASYSETUP_HTTP_PARSE_FAIL, o)
        | Some p_body =>
            if post_content_len <? 0 then mret (IOT_ERROR_EASYSETUP_HTTP_PARSE_FAIL, o)
            else if (negb (post_content_len =? 0)) && negb (bool_decide (p_body + 1 < rx_buffer_len)%nat) then
              mret (IOT_ERROR_EASYSETUP_HTTP_PARSE_FAIL, o)
            else
              uri ← string_at uri;
              mret (IOT_ERROR_NONE,
                    if post_content_len =? 0 then Outs None (post_cmd uri) D2D_POST (o_content_len o)
                    else Outs (Some (p_body + 1)%nat) (post_cmd uri) D2D_POST post_content_len)
        end
      else mret (IOT_ERROR_NONE, Outs (o_payload o) (o_cmd o) D2D_ERROR (o_content_len o))
  | _, _, _ => mret (IOT_ERROR_EASYSETUP_HTTP_PARSE_FAIL, o)
  end.
End parser.
Arguments command : clear implicits.

(** ** Tokens *)

Definition stops (f : Z -> bool) (l : list Z) : Prop := match l with x :: _ => f x = false | [] => True end.

Lemma span_app f l k : Forall (fun x => f x = true) l -> stops f k -> span f (l ++ k) = length l.
Proof.
  intros Hl Hk. induction Hl as [|x l Hx Hl IH]; simpl.
  - destruct k as [|y k]; simpl in *; [done|]. by rewrite Hk.
  - by rewrite Hx, IH.
Qed.

Lemma lookup_at (pre : list Z) b rest p : p = length pre -> (pre ++ b :: rest) !! p = Some b.
Proof. intros ->. by apply list_lookup_middle. Qed.

Lemma byte_at_spec s p b sv : s !! p = Some b -> byte_at p (Lexer s sv) = Ret (b, Lexer s sv).
Proof. intros E. unfold byte_at, mbind, st_bind, gets. simpl. by rewrite E. Qed.

Lemma string_at_spec s p t rest sv :
  drop p s = t ++ 0 :: rest -> Forall (fun b => b <> 0) t ->
  string_at p (Lexer s sv) = Ret (t, Lexer s sv).
Proof.
  intros Hs Ht. unfold string_at. rewrite bind_gets. cbn [buffer]. rewrite Hs, span_app.
  - rewrite bind_ret with (a := 0) (s' := Lexer s sv); [by rewrite take_app_length|].
    apply byte_at_spec. rewrite <- lookup_drop, Hs. by apply lookup_at.
  - eapply Forall_impl; [exact Ht|]. intros b Hb. by apply negb_true_iff, Z.eqb_neq.
  - done.
Qed.

Lemma in_token_stops delim d k : d ∈ delim -> stops (in_token delim) (d :: k).
Proof. intros Hd. unfold stops, in_token, is_delim. rewrite (bool_decide_true (d ∈ delim)) by done. by rewrite andb_false_r. Qed.

Lemma in_token_spec delim b : in_token delim b = true <-> b <> 0 /\ b ∉ delim.
Proof.
  unfold in_token, is_delim. rewrite andb_true_iff, !negb_true_iff, Z.eqb_neq, bool_decide_eq_false. done.
Qed.

(** A token behind delimiters: it is ended, and the next call goes on behind
    it. *)
Lemma strtok_spec str delim pre skip tok d rest sv :
  (match str with Some p => Some p | None => sv end) = Some (length pre) ->
  Forall (fun b => b ∈ delim) skip -> tok <> [] -> Forall (fun b => in_token delim b = true) tok ->
  d ∈ delim -> d <> 0 ->
  strtok str delim (Lexer (pre ++ skip ++ tok ++ d :: rest) sv)
  = Ret (Some (length (pre ++ skip)), Lexer (pre ++ skip ++ tok ++ 0 :: rest) (Some (S (length (pre ++ skip ++ tok))))).
Proof.
  intros Hp Hskip Hne Htok Hd Hd0. unfold strtok. rewrite !bind_gets. cbn [saved]. rewrite Hp, bind_gets.
  cbn [buffer]. rewrite drop_app_length, (span_app _ skip), <- length_app.
  2: { eapply Forall_impl; [exact Hskip|]. intros b Hb. by apply bool_decide_true. }
  2: { destruct tok as [|c tok]; [done|]. apply Forall_cons in Htok as [Hc _]. apply in_token_spec in Hc as [_ Hc].
       by apply bool_decide_false. }
  rewrite (app_assoc pre). set (q := pre ++ skip). destruct tok as [|c tok]; [done|].
  pose proof Htok as Hc. apply Forall_cons in Hc as [Hc _]. apply in_token_spec in Hc as [Hc0 _].
  rewrite bind_ret with (a := c) (s' := Lexer (q ++ (c :: tok) ++ d :: rest) sv)
    by (apply byte_at_spec; cbn [app]; by apply lookup_at).
  rewrite (proj2 (Z.eqb_neq c 0)) by done. rewrite drop_app_length, span_app by (done || by apply in_token_stops).
  rewrite <- length_app.
  rewrite bind_ret with (a := d) (s' := Lexer (q ++ (c :: tok) ++ d :: rest) sv)
    by (apply byte_at_spec; rewrite app_assoc; by apply lookup_at).
  rewrite (proj2 (Z.eqb_neq d 0)) by done. unfold end_token, save, modify, mbind, st_bind, mret, st_ret. cbn [buffer saved].
  rewrite app_assoc, insert_app_r_alt by lia. rewrite Nat.sub_diag. cbn [insert list_insert].
  unfold q. rewrite <- !app_assoc. done.
Qed.

(** A token that ends with the string. *)
Lemma strtok_last delim pre skip tok rest :
  Forall (fun b => b ∈ delim) skip -> tok <> [] -> Forall (fun b => in_token delim b = true) tok ->
  let s := pre ++ skip ++ tok ++ 0 :: rest in
  strtok None delim (Lexer s (Some (length pre)))
  = Ret (Some (length (pre ++ skip)), Lexer s (Some (length (pre ++ skip ++ tok)))).
Proof.
  intros Hskip Hne Htok s. unfold s, strtok. rewrite !bind_gets. cbn [saved]. rewrite bind_gets.
  cbn [buffer]. rewrite drop_app_length, (span_app _ skip), <- length_app.
  2: { eapply Forall_impl; [exact Hskip|]. intros b Hb. by apply bool_decide_true. }
  2: { destruct tok as [|c tok]; [done|]. apply Forall_cons in Htok as [Hc _]. apply in_token_spec in Hc as [_ Hc].
       by apply bool_decide_false. }
  rewrite !(app_assoc pre). set (q := pre ++ skip). destruct tok as [|c tok]; [done|].
  pose proof Htok as Hc. apply Forall_cons in Hc as [Hc _]. apply in_token_spec in Hc as [Hc0 _].
  erewrite bind_ret with (a := c) by (apply byte_at_spec; cbn [app]; by apply lookup_at).
  rewrite (proj2 (Z.eqb_neq c 0)) by done. rewrite drop_app_length, span_app by done.
  rewrite <- length_app. erewrite bind_ret with (a := 0) by (apply byte_at_spec; rewrite app_assoc; by apply lookup_at).
  done.
Qed.

(** Behind the last token there is none. *)
Lemma strtok_none delim pre rest :
  0 ∉ delim -> strtok None delim (Lexer (pre ++ 0 :: rest) (Some (length pre)))
  = Ret (None, Lexer (pre ++ 0 :: rest) (Some (length pre))).
Proof.
  intros Hd. unfold strtok. rewrite bind_gets. cbn [saved]. rewrite bind_gets. cbn [buffer].
  rewrite drop_app_length. cbn [span]. unfold is_delim. rewrite bool_decide_false, Nat.add_0_r by done.
  erewrite bind_ret with (a := 0) by (apply byte_at_spec; by apply lookup_at). done.
Qed.

(** ** Requests as HTTP writes them *)

Definition crlf : list Z := [13; 10].
Definition key_ok (k : list Z) : Prop := k <> [] /\ Forall (fun b => in_token [13; 10; 58; 32; 9] b = true) k.
Definition value_ok (v : list Z) : Prop := Forall (fun b => in_token [13; 10] b = true) v.
Definition print_header (h : list Z * list Z) : list Z := h.1 ++ 58 :: 32 :: h.2 ++ crlf.
Definition print_headers (hs : list (list Z * list Z)) : list Z := concat (print_header <$> hs).

(** The length that the headers announce: that of the last header with the
    name, [len] without one; [None] when a value is no number. *)
Definition strip (v : list Z) : list Z := drop (skip_blanks v) v.
Definition header_length (LONG_MAX : Z) (h : list Z * list Z) (len : Z) : option Z :=
  if is_header_content_length h.1 then
    match strtol LONG_MAX (strip h.2) with
    | Some val => if (val =? LONG_MAX) || (val =? - LONG_MAX - 1) then None else Some (to_int val)
    | None => None
    end
  else Some len.
Fixpoint content_length (LONG_MAX : Z) (len : Z) (hs : list (list Z * list Z)) : option Z :=
  match hs with
  | [] => Some len
  | h :: hs => header_length LONG_MAX h len ≫= fun len => content_length LONG_MAX len hs
  end.

Lemma content_length_app LONG_MAX hs : forall len hs',
  content_length LONG_MAX len (hs ++ hs') = content_length LONG_MAX len hs ≫= fun l => content_length LONG_MAX l hs'.
Proof.
  induction hs as [|h hs IH]; intros len hs'; [done|]. cbn [app content_length].
  destruct (header_length LONG_MAX h len); [apply IH|done].
Qed.

Lemma print_headers_app hs hs' : print_headers (hs ++ hs') = print_headers hs ++ print_headers hs'.
Proof. unfold print_headers. by rewrite fmap_app, concat_app. Qed.

Lemma print_headers_one h : print_headers [h] = print_header h.
Proof. apply app_nil_r. Qed.

Lemma print_header_head h : key_ok h.1 -> exists b1 b2 k, print_header h = b1 :: b2 :: k /\ b1 <> 13.
Proof.
  destruct h as [k v]. intros [Hne Hk]. cbn [fst] in *. destruct k as [|b k]; [done|].
  apply Forall_cons in Hk as [Hb _]. apply in_token_spec in Hb as [_ Hb].
  destruct k as [|b2 k]; unfold print_header; cbn [fst snd app]; do 3 eexists; split; done || set_solver.
Qed.

Lemma not_zero delim s : Forall (fun b => in_token delim b = true) s -> Forall (fun b => b <> 0) s.
Proof. intros Hs. eapply Forall_impl; [exact Hs|]. intros b Hb. by apply in_token_spec in Hb as [? _]. Qed.

Lemma skip_blanks_le s : (skip_blanks s <= length s)%nat.
Proof. induction s as [|b s IH]; simpl; [lia|]. case_match; simpl; lia. Qed.

(** One header: its line is cut into name and value, and [strtok] is left in
    front of the line feed. *)
Lemma read_header LONG_MAX n pb len pre k v rest len' :
  key_ok k -> value_ok v -> header_length LONG_MAX (k, v) len = Some len' ->
  exists mid, let pre' := pre ++ mid in length mid = length (print_header (k, v)) /\
  read_headers LONG_MAX (S n) pb len (Lexer (pre ++ 10 :: print_header (k, v) ++ rest) (Some (length pre))) =
  (ends ← header_ends (length pre' - 1);
     if (ends : bool) then mret (Some (length pre' + 2)%nat, len')
     else read_headers LONG_MAX n (Some (length pre' - 1)%nat) len')
    (Lexer (pre' ++ 10 :: rest) (Some (length pre'))).
Proof.
  intros Hk Hv Hlen. set (buf := pre ++ [10] ++ k ++ 0 :: 32 :: v ++ [0]).
  exists ([10] ++ k ++ 0 :: 32 :: v ++ [0]). fold buf. split; [unfold print_header, crlf; simpl_length; cbn [fst snd]; simpl_length; lia|].
  assert (Hsp : in_token [13; 10] 32 = true) by done.
  destruct Hk as [Hk0 Hk]. cbn [read_headers].
  replace (pre ++ 10 :: print_header (k, v) ++ rest)
    with (pre ++ [10] ++ k ++ 58 :: 32 :: v ++ crlf ++ rest)
    by (unfold print_header; cbn [fst snd app]; by rewrite <- !app_assoc; cbn [app]; rewrite <- !app_assoc).
  erewrite bind_ret by (apply strtok_spec; done || (repeat constructor; set_solver) || set_solver). cbn beta iota.
  replace (pre ++ [10] ++ k ++ 0 :: 32 :: v ++ crlf ++ rest)
    with ((pre ++ [10] ++ k ++ [0]) ++ [] ++ (32 :: v) ++ 13 :: 10 :: rest)
    by (cbn [app crlf]; by rewrite <- !app_assoc; cbn [app]; rewrite <- !app_assoc).
  erewrite bind_ret.
  2: { apply strtok_spec; [|done..|constructor; done|set_solver|done]. f_equal. simpl_length. lia. }
  cbn beta iota.
  set (vp := pre ++ [10] ++ k ++ [0]). rewrite (app_nil_r vp).
  assert (Hv0 : Forall (fun b => b <> 0) (32 :: v)) by (apply (not_zero [13; 10]); by constructor).
  rewrite bind_ret with (1 := string_at_spec _ _ (32 :: v) (10 :: rest) _ (drop_app_length vp _) Hv0).
  pose proof (skip_blanks_le v) as Hle.
  assert (Hstrip : drop (length vp + skip_blanks (32 :: v)) (vp ++ [] ++ (32 :: v) ++ 0 :: 10 :: rest)
                   = strip v ++ 0 :: 10 :: rest).
  { rewrite drop_app_add. cbn [app skip_blanks Z.eqb Pos.eqb drop]. unfold strip. by rewrite drop_app_le. }
  rewrite bind_ret with (1 := string_at_spec _ _ (strip v) (10 :: rest) _ Hstrip (Forall_drop _ _ _ (Forall_inv_tail Hv0))).
  assert (Hkey : drop (length (pre ++ [10])) (vp ++ [] ++ (32 :: v) ++ 0 :: 10 :: rest)
                 = k ++ 0 :: 32 :: v ++ 0 :: 10 :: rest).
  { unfold vp. rewrite <- !app_assoc, (app_assoc pre). apply (drop_app_length (pre ++ [10])). }
  rewrite bind_ret with (1 := string_at_spec _ _ k _ _ Hkey (not_zero _ _ Hk)). cbn zeta.
  unfold header_length in Hlen. cbn [fst snd] in Hlen. rewrite Hlen.
  assert (Hp : (length vp + skip_blanks (32%Z :: v) + length (strip v) = length buf - 1)%nat).
  { unfold strip, vp, buf. rewrite length_drop. simpl_length. cbn [skip_blanks Z.eqb Pos.eqb]. lia. }
  rewrite Hp. replace (length buf - 1 + 3)%nat with (length buf + 2)%nat by (unfold buf; simpl_length; lia).
  replace (S (length (vp ++ [] ++ 32 :: v))) with (length buf) by (unfold vp, buf; simpl_length; lia).
  replace (vp ++ [] ++ (32 :: v) ++ 0 :: 10 :: rest) with (buf ++ 10 :: rest); [done|].
  unfold vp, buf. by simplify_list_eq.
Qed.

Lemma header_ends_spec s p b2 b3 rest sv :
  drop (S p) s = 10 :: b2 :: b3 :: rest ->
  header_ends p (Lexer s sv) = Ret ((b2 =? 13) && (b3 =? 10), Lexer s sv).
Proof.
  intros Hs.
  assert (Hat : forall i b, (10 :: b2 :: b3 :: rest) !! i = Some b -> byte_at (S p + i) (Lexer s sv) = Ret (b, Lexer s sv)).
  { intros i b Hi. apply byte_at_spec. by rewrite <- lookup_drop, Hs. }
  unfold header_ends. rewrite Nat.add_1_r, <- (Nat.add_0_r (S p)), bind_ret with (1 := Hat 0%nat 10 eq_refl). cbn [Z.eqb Pos.eqb negb].
  replace (p + 2)%nat with (S p + 1)%nat by lia. rewrite bind_ret with (1 := Hat 1%nat b2 eq_refl).
  destruct (b2 =? 13); [|done]. cbn [negb]. replace (p + 3)%nat with (S p + 2)%nat by lia.
  by rewrite bind_ret with (1 := Hat 2%nat b3 eq_refl).
Qed.

(** A line that is not blank follows. *)
Definition goes_on (rest : list Z) : Prop := exists b1 b2 k, rest = b1 :: b2 :: k /\ b1 <> 13.

Lemma header_goes_on h rest : key_ok h.1 -> goes_on (print_header h ++ rest).
Proof.
  intros Hk. destruct (print_header_head h Hk) as (b1 & b2 & k & -> & Hb). by exists b1, b2, (k ++ rest).
Qed.

(** Where the loop looks for the blank line after a header. *)
Lemma drop_line pre (mid : list Z) h rest :
  length mid = length (print_header h) ->
  drop (S (length (pre ++ mid) - 1)) ((pre ++ mid) ++ 10 :: rest) = 10 :: rest.
Proof.
  intros Hmid. rewrite drop_app_ge by lia. rewrite length_app, Hmid. unfold print_header.
  replace (_ - _)%nat with 0%nat; [done|]. simpl_length. lia.
Qed.

(** Headers that are followed by more. *)
Lemma read_headers_more LONG_MAX rest n hs : forall pb len len' pre,
  Forall (fun h => key_ok h.1 /\ value_ok h.2) hs -> content_length LONG_MAX len hs = Some len' -> goes_on rest ->
  exists mid, length mid = length (print_headers hs) /\
    read_headers LONG_MAX (length hs + n) pb len (Lexer (pre ++ 10 :: print_headers hs ++ rest) (Some (length pre)))
    = read_headers LONG_MAX n (if hs is [] then pb else Some (length (pre ++ mid) - 1)%nat) len'
        (Lexer ((pre ++ mid) ++ 10 :: rest) (Some (length (pre ++ mid)))).
Proof.
  induction hs as [|h hs IH]; intros pb len len' pre Hok Hlen Hrest.
  { injection Hlen as ->. exists []. by rewrite app_nil_r. }
  apply Forall_cons in Hok as [[Hk Hv] Hok].
  cbn [content_length] in Hlen. destruct (header_length LONG_MAX h len) as [l1|] eqn:Eh; [|done]. cbn [mbind option_bind] in Hlen.
  unfold print_headers. cbn [fmap list_fmap concat length Nat.add]. rewrite <- !app_assoc. destruct h as [k v].
  destruct (read_header LONG_MAX (length hs + n) pb len pre k v (concat (print_header <$> hs) ++ rest) l1 Hk Hv Eh)
    as (mid & Hmid & ->).
  assert (Hnext : goes_on (print_headers hs ++ rest)).
  { destruct hs as [|h2 hs]; [done|]. apply Forall_cons in Hok as [[Hk2 _] _]. unfold print_headers.
    cbn [fmap list_fmap concat]. rewrite <- app_assoc. by apply header_goes_on. }
  destruct Hnext as (b1 & b2 & k' & E & Hb). unfold print_headers in E. rewrite E.
  rewrite bind_ret with (1 := header_ends_spec _ _ _ _ _ _ (drop_line _ _ (k, v) _ Hmid)).
  rewrite (proj2 (Z.eqb_neq b1 13)) by done. cbn [andb]. rewrite <- E.
  destruct (IH (Some (length (pre ++ mid) - 1)%nat) l1 len' (pre ++ mid)) as (mid' & Hmid' & E'); [done..|].
  exists (mid ++ mid'). split; [by rewrite !length_app, Hmid, Hmid'|].
  unfold print_headers in E'. rewrite E', app_assoc. f_equal.
  destruct hs; [|done]. by destruct mid'; [rewrite app_nil_r|].
Qed.

(** The loop reads all headers and stops in front of the body. *)
Lemma read_headers_spec LONG_MAX body hs : forall n pb len len' pre,
  hs <> [] -> (length hs <= n)%nat -> Forall (fun h => key_ok h.1 /\ value_ok h.2) hs ->
  content_length LONG_MAX len hs = Some len' ->
  exists pre' x, buffer x = pre' ++ body /\
    length pre' = (length pre + 1 + length (print_headers hs) + 2)%nat /\
    take (length pre) (buffer x) = pre /\
    read_headers LONG_MAX n pb len (Lexer (pre ++ 10 :: print_headers hs ++ crlf ++ body) (Some (length pre)))
    = Ret ((Some (length pre' - 1)%nat, len'), x).
Proof.
  intros n pb len len' pre Hne Hn Hok Hlen. destruct (exists_last Hne) as (hs' & [k v] & ->).
  rewrite content_length_app in Hlen. destruct (content_length LONG_MAX len hs') as [l1|] eqn:E1; [|done].
  cbn [mbind option_bind content_length] in Hlen.
  destruct (header_length LONG_MAX (k, v) l1) as [l2|] eqn:E2; [|done]. injection Hlen as <-.
  apply Forall_app in Hok as [Hok Hlast]. apply Forall_cons in Hlast as [[Hk Hv] _].
  rewrite length_app in Hn. cbn [length] in Hn.
  rewrite !print_headers_app, !print_headers_one, <- app_assoc.
  destruct (read_headers_more LONG_MAX (print_header (k, v) ++ crlf ++ body) (S (n - length hs' - 1)) hs' pb len l1 pre)
    as (mid & Hmid & E); [done..|by apply header_goes_on|].
  replace (length hs' + S (n - length hs' - 1))%nat with n in E by lia. rewrite E.
  edestruct (read_header LONG_MAX (n - length hs' - 1)) as (mid2 & Hmid2 & ->); [done..|]. cbn zeta.
  rewrite bind_ret with (1 := header_ends_spec _ _ 13 10 body _ (drop_line _ _ (k, v) _ Hmid2)). cbn [Z.eqb Pos.eqb andb].
  exists (((pre ++ mid) ++ mid2) ++ 10 :: crlf). eexists. split_and!; [| | |].
  4: { replace (length (((pre ++ mid) ++ mid2) ++ 10%Z :: crlf) - 1)%nat with (length ((pre ++ mid) ++ mid2) + 2)%nat; [done|].
       rewrite !length_app. cbn [length crlf]. lia. }
  - cbn [buffer]. by simplify_list_eq.
  - rewrite !length_app, Hmid, Hmid2. cbn [length crlf]. lia.
  - cbn [buffer]. rewrite <- !app_assoc. apply take_app_length.
Qed.
