(* ===== verification/HttpRequest.v ===== *)
(** * Easy setup over HTTP: requests and what the parser makes of them

    A request as HTTP writes it is read back ([parser_reads_requests]); two
    kinds of requests that are read wrongly, one of them from behind the
    buffer. *)

From S2P Require Import Prelude MainState UtilUrl HttpParse.

(** A request and its text. *)
Record request := Request {
  r_method : list Z; r_uri : list Z; r_prot : list Z; r_headers : list (list Z * list Z); r_body : list Z
}.
Definition print_head (r : request) : list Z :=
  r_method r ++ 32 :: r_uri r ++ 32 :: r_prot r ++ crlf ++ print_headers (r_headers r) ++ crlf.
Definition print_request (r : request) : list Z := print_head r ++ r_body r.

Definition word_ok (delim s : list Z) : Prop := s <> [] /\ Forall (fun b => in_token delim b = true) s.
Record request_ok (r : request) : Prop := {
  method_ok : word_ok [32; 9; 13; 10] (r_method r);
  uri_ok : word_ok [32; 9] (r_uri r);
  prot_ok : word_ok [32; 9; 13; 10] (r_prot r);
  headers_ok : Forall (fun h => key_ok h.1 /\ value_ok h.2) (r_headers r);
  few_headers : (length (r_headers r) <= 16)%nat
}.

(** What the parser should make of a request whose head announces [len]
    bytes. *)
Definition understood (rx_buffer_len : nat) (o : outs) (r : request) (len : Z) : Z * outs :=
  if bool_decide (r_method r = lit "GET") then
    (IOT_ERROR_NONE, Outs (o_payload o) (get_cmd (r_uri r)) D2D_GET (o_content_len o))
  else if bool_decide (r_method r = lit "POST") then
    if len <? 0 then (IOT_ERROR_EASYSETUP_HTTP_PARSE_FAIL, o)
    else if len =? 0 then (IOT_ERROR_NONE, Outs None (post_cmd (r_uri r)) D2D_POST (o_content_len o))
    else if bool_decide (length (print_head r) < rx_buffer_len)%nat then
      (IOT_ERROR_NONE, Outs (Some (length (print_head r))) (post_cmd (r_uri r)) D2D_POST len)
    else (IOT_ERROR_EASYSETUP_HTTP_PARSE_FAIL, o)
  else (IOT_ERROR_NONE, Outs (o_payload o) (o_cmd o) D2D_ERROR (o_content_len o)).

(** The three words of the first line. *)
Lemma first_line m u v rest :
  word_ok [32; 9; 13; 10] m -> word_ok [32; 9] u -> word_ok [32; 9; 13; 10] v -> forall sv (B : Type)
    (f : option nat -> option nat -> option nat -> st lexer B),
  (method ← strtok (Some O) [32; 9; 13; 10]; uri ← strtok None [32; 9]; prot ← strtok None [32; 9; 13; 10];
   f method uri prot) (Lexer (m ++ 32 :: u ++ 32 :: v ++ crlf ++ rest) sv)
  = f (Some O) (Some (S (length m))) (Some (S (S (length m + length u))))
      (Lexer (m ++ 0 :: u ++ 0 :: v ++ 0 :: 10 :: rest) (Some (length (m ++ 0 :: u ++ 0 :: v ++ [0])))).
Proof.
  intros [Hm0 Hm] [Hu0 Hu] [Hv0 Hv] sv B f.
  erewrite bind_ret.
  2: { apply (strtok_spec _ _ [] [] m 32 (u ++ 32 :: v ++ crlf ++ rest)); done || constructor || set_solver. }
  cbn [app length].
  replace (m ++ 0 :: u ++ 32 :: v ++ crlf ++ rest) with ((m ++ [0]) ++ [] ++ u ++ 32 :: v ++ crlf ++ rest)
    by by simplify_list_eq.
  erewrite bind_ret.
  2: { apply strtok_spec; [|constructor|done|done|set_solver|done]. f_equal. simpl_length. lia. }
  replace ((m ++ [0]) ++ [] ++ u ++ 0 :: v ++ crlf ++ rest)
    with ((m ++ 0 :: u ++ [0]) ++ [] ++ v ++ 13 :: 10 :: rest) by (unfold crlf; by simplify_list_eq).
  erewrite bind_ret.
  2: { apply strtok_spec; [|constructor|done|done|set_solver|done]. f_equal. simpl_length. lia. }
  f_equal.
  - f_equal. simpl_length. lia.
  - f_equal. simpl_length. lia.
  - f_equal; [by simplify_list_eq|]. f_equal. simpl_length. lia.
Qed.

(** The request line is still there when the headers have been read. *)
Lemma uri_still_there s m u l n sv :
  take n s = m ++ 0 :: u ++ 0 :: l -> Forall (fun b => b <> 0) u ->
  string_at (S (length m)) (Lexer s sv) = Ret (u, Lexer s sv).
Proof.
  intros Hs Hu. apply string_at_spec with (rest := l ++ drop n s); [|done].
  rewrite <- (take_drop n s) at 1. rewrite Hs. replace (S (length m)) with (length (m ++ [0])) by (simpl_length; lia).
  replace ((m ++ 0 :: u ++ 0 :: l) ++ drop n s) with ((m ++ [0]) ++ u ++ 0 :: l ++ drop n s) by by simplify_list_eq.
  apply drop_app_length.
Qed.

(** C32: A request that HTTP allows, with at most 16 headers and at least one
    when it is a POST, whose announced length is a number, is understood: the
    command is that of its method and path, the payload starts where its body
    does, and the length is the one announced.  Behind the head the buffer is
    as it was received. *)
Theorem parser_reads_requests LONG_MAX rx_buffer_len o r tail sv len :
  request_ok r -> content_length LONG_MAX (-1) (r_headers r) = Some len ->
  (r_method r = lit "POST" -> r_headers r <> []) ->
  exists x, es_msg_parser LONG_MAX rx_buffer_len o (Lexer (print_request r ++ tail) sv)
            = Ret (understood rx_buffer_len o r len, x) /\
            drop (length (print_head r)) (buffer x) = r_body r ++ tail.
Proof.
  destruct r as [m u v hs body]. intros [Hm Hu Hv Hhs Hfew] Hlen Hpost.
  cbn [r_method r_uri r_prot r_headers r_body] in *. unfold print_request. unfold print_head at 1.
  cbn [r_method r_uri r_prot r_headers r_body].
  replace (((m ++ 32 :: u ++ 32 :: v ++ crlf ++ print_headers hs ++ crlf) ++ body) ++ tail)
    with (m ++ 32 :: u ++ 32 :: v ++ crlf ++ print_headers hs ++ crlf ++ body ++ tail) by by simplify_list_eq.
  unfold es_msg_parser, understood. cbn [r_method r_uri r_prot r_headers r_body].
  rewrite (first_line m u v) by done. cbn beta iota.
  set (pre := m ++ 0 :: u ++ 0 :: v ++ [0]).
  replace (m ++ 0 :: u ++ 0 :: v ++ 0 :: 10 :: print_headers hs ++ crlf ++ body ++ tail)
    with (pre ++ 10 :: print_headers hs ++ crlf ++ body ++ tail) by (unfold pre; by simplify_list_eq).
  assert (Hpre : (length pre = length m + length u + length v + 3)%nat) by (unfold pre; simpl_length; lia).
  destruct Hm as [Hm0 Hm], Hu as [Hu0 Hu], Hv as [Hv0 Hv].
  rewrite bind_ret with (a := m) (s' := Lexer (pre ++ 10 :: print_headers hs ++ crlf ++ body ++ tail) (Some (length pre))).
  2: { apply string_at_spec with (rest := u ++ 0 :: v ++ 0 :: 10 :: print_headers hs ++ crlf ++ body ++ tail);
       [unfold pre; by simplify_list_eq|by apply (not_zero _ _ Hm)]. }
  assert (Hhead : length (print_head (Request m u v hs body)) = (length pre + 1 + length (print_headers hs) + 2)%nat).
  { rewrite Hpre. unfold print_head, crlf. cbn [r_method r_uri r_prot r_headers]. simpl_length. lia. }
  assert (Hrest : drop (length pre + 1 + length (print_headers hs) + 2) (pre ++ 10 :: print_headers hs ++ crlf ++ body ++ tail)
                  = body ++ tail).
  { replace (pre ++ 10 :: print_headers hs ++ crlf ++ body ++ tail)
      with ((pre ++ [10] ++ print_headers hs ++ crlf) ++ body ++ tail) by by simplify_list_eq.
    replace (length pre + 1 + length (print_headers hs) + 2)%nat with (length (pre ++ [10%Z] ++ print_headers hs ++ crlf))
      by (unfold crlf; simpl_length; lia).
    apply drop_app_length. }
  rewrite Hhead. case_bool_decide as Hget.
  - erewrite bind_ret by (apply uri_still_there with (n := length pre) (l := v ++ [0]);
      [by rewrite take_app_length|by apply (not_zero _ _ Hu)]).
    by eexists.
  - case_bool_decide as Hp.
    + destruct (read_headers_spec LONG_MAX (body ++ tail) hs 16 None (-1) len pre) as (pre' & x & Hx & Hl & Ht & E);
        [by apply Hpost|done..|].
      rewrite bind_ret with (1 := E). exists x. rewrite <- Hl, Hx, drop_app_length. split; [|done].
      destruct (len <? 0) eqn:E0; [done|]. replace (length pre' - 1 + 1)%nat with (length pre') by lia.
      destruct x as [s sv']. cbn [buffer] in *.
      destruct (len =? 0) eqn:E1; cbn [negb andb].
      2: case_bool_decide; cbn [negb]; [|done].
      all: by erewrite bind_ret by (apply uri_still_there with (n := length pre) (l := v ++ [0]);
        [done|by apply (not_zero _ _ Hu)]).
    + by eexists.
Qed.

(** ** Requests that are not understood *)

Definition request_line (m u v : list Z) : list Z := m ++ 32 :: u ++ 32 :: v ++ crlf.

(** A POST up to its headers. *)
Lemma post_headers LONG_MAX rx_buffer_len o u v rest sv :
  word_ok [32; 9] u -> word_ok [32; 9; 13; 10] v ->
  let pre := lit "POST" ++ 0 :: u ++ 0 :: v ++ [0] in
  length (request_line (lit "POST") u v) = S (length pre) /\
  es_msg_parser LONG_MAX rx_buffer_len o (Lexer (request_line (lit "POST") u v ++ rest) sv)
  = ('(p_body, post_content_len) ← read_headers LONG_MAX 16 None (-1);
     match p_body with
     | None => mret (IOT_ERROR_EASYSETUP_HTTP_PARSE_FAIL, o)
     | Some p_body =>
         if post_content_len <? 0 then mret (IOT_ERROR_EASYSETUP_HTTP_PARSE_FAIL, o)
         else if (negb (post_content_len =? 0)) && negb (bool_decide (p_body + 1 < rx_buffer_len)%nat) then
           mret (IOT_ERROR_EASYSETUP_HTTP_PARSE_FAIL, o)
         else
           uri ← string_at 5;
           mret (IOT_ERROR_NONE,
                 if post_content_len =? 0 then Outs None (post_cmd uri) D2D_POST (o_content_len o)
                 else Outs (Some (p_body + 1)%nat) (post_cmd uri) D2D_POST post_content_len)
     end) (Lexer (pre ++ 10 :: rest) (Some (length pre))).
Proof.
  intros Hu Hv pre. split; [unfold pre, request_line, crlf; simpl_length; lia|].
  unfold request_line. replace ((lit "POST" ++ 32 :: u ++ 32 :: v ++ crlf) ++ rest)
    with (lit "POST" ++ 32 :: u ++ 32 :: v ++ crlf ++ rest) by by simplify_list_eq.
  assert (Hm : word_ok [32; 9; 13; 10] (lit "POST")) by (split; [done|by repeat constructor]).
  unfold es_msg_parser. rewrite (first_line (lit "POST") u v) by done. cbn beta iota. fold pre.
  replace (lit "POST" ++ 0 :: u ++ 0 :: v ++ 0 :: 10 :: rest) with (pre ++ 10 :: rest) by (unfold pre; by simplify_list_eq).
  rewrite bind_ret with (a := lit "POST") (s' := Lexer (pre ++ 10 :: rest) (Some (length pre))); [done|].
  apply string_at_spec with (rest := u ++ 0 :: v ++ 0 :: 10 :: rest); [unfold pre; by simplify_list_eq|].
  apply (not_zero _ _ (proj2 Hm)).
Qed.

(** Of more than 16 headers only 16 are read, and what follows them is
    taken for the body: the payload starts at the end of the line of the 16th
    header. *)
Theorem headers_after_the_sixteenth LONG_MAX rx_buffer_len o u v hs rest sv len :
  word_ok [32; 9] u -> word_ok [32; 9; 13; 10] v ->
  Forall (fun h => key_ok h.1 /\ value_ok h.2) hs -> length hs = 16%nat -> goes_on rest ->
  content_length LONG_MAX (-1) hs = Some len -> 0 < len ->
  let head := request_line (lit "POST") u v ++ print_headers hs in
  (length head - 1 < rx_buffer_len)%nat ->
  exists x, es_msg_parser LONG_MAX rx_buffer_len o (Lexer (head ++ rest) sv)
            = Ret ((IOT_ERROR_NONE, Outs (Some (length head - 1)%nat) (post_cmd u) D2D_POST len), x) /\
            drop (length head - 1) (buffer x) = 10 :: rest.
Proof.
  intros Hu Hv Hhs H16 Hrest Hlen Hpos head Hfit. unfold head in *. rewrite <- app_assoc.
  destruct (post_headers LONG_MAX rx_buffer_len o u v (print_headers hs ++ rest) sv Hu Hv) as [Hl ->].
  set (pre := lit "POST" ++ 0 :: u ++ 0 :: v ++ [0]) in *.
  destruct (read_headers_more LONG_MAX rest 0 hs None (-1) len pre) as (mid & Hmid & E); [done..|].
  rewrite H16 in E. cbn [Nat.add] in E. destruct hs as [|h hs]; [done|].
  rewrite length_app, Hl, <- Hmid in Hfit |- *.
  rewrite bind_ret with (1 := E). rewrite (proj2 (Z.ltb_ge len 0)), (proj2 (Z.eqb_neq len 0)) by lia. cbn [negb andb].
  replace (length (pre ++ mid) - 1 + 1)%nat with (S (length pre) + length mid - 1)%nat by (unfold pre; simpl_length; lia).
  rewrite bool_decide_true by done. cbn [negb].
  rewrite bind_ret with (a := u) (s' := Lexer ((pre ++ mid) ++ 10 :: rest) (Some (length (pre ++ mid)))).
  - eexists. split; [done|]. cbn [buffer]. replace (S (length pre) + length mid - 1)%nat with (length (pre ++ mid))
      by (simpl_length; lia). apply drop_app_length.
  - apply uri_still_there with (m := lit "POST") (n := length pre) (l := v ++ [0]); [|by apply (not_zero _ _ (proj2 Hu))].
    rewrite <- app_assoc. apply take_app_length.
Qed.

Lemma read_headers_end LONG_MAX n pb len pre tail :
  let s := Lexer (pre ++ 0 :: tail) (Some (length pre)) in read_headers LONG_MAX n pb len s = Ret ((pb, len), s).
Proof.
  intros s. destruct n as [|n]; [done|]. cbn [read_headers].
  assert (H0 : 0 ∉ [13; 10; 58; 32; 9]) by set_solver. by rewrite bind_ret with (1 := strtok_none _ pre tail H0).
Qed.

Lemma header_ends_not p pre c tail sv :
  p = length pre -> c <> 10 -> let s := Lexer (pre ++ 0 :: c :: tail) sv in header_ends p s = Ret (false, s).
Proof.
  intros -> Hc s. unfold header_ends. rewrite bind_ret with (a := c) (s' := s); [by rewrite (proj2 (Z.eqb_neq c 10))|].
  apply byte_at_spec. rewrite lookup_app_r by lia. by replace (length pre + 1 - length pre)%nat with 1%nat by lia.
Qed.

Lemma strip_none body : hd 0 body <> 32 -> skip_blanks body = O.
Proof. destruct body as [|b body]; [done|]. cbn. intros Hb. by rewrite (proj2 (Z.eqb_neq b 32)). Qed.

(** A header without a value, and without a blank, in front of the body. *)
Lemma swallow_header LONG_MAX n pb len len' q k body tail :
  key_ok k -> body <> [] -> value_ok body -> hd 0 body <> 32 -> header_length LONG_MAX (k, body) len = Some len' ->
  let h := q ++ 10 :: k ++ 0 :: crlf ++ crlf in
  read_headers LONG_MAX (S n) pb len (Lexer (q ++ 10 :: k ++ 58 :: crlf ++ crlf ++ body ++ 0 :: tail) (Some (length q)))
  = (ends ← header_ends (length (h ++ body));
     if (ends : bool) then mret (Some (length (h ++ body) + 3)%nat, len')
     else read_headers LONG_MAX n (Some (length (h ++ body))) len')
    (Lexer ((h ++ body) ++ 0 :: tail) (Some (length (h ++ body)))).
Proof.
  intros [Hk0 Hk] Hne Hbody Hblank Hlen h. cbn [read_headers]. set (q2 := q ++ [10] ++ k ++ [0]).
  erewrite bind_ret.
  2: { apply (strtok_spec None _ q [10] k 58); done || (repeat constructor; set_solver) || set_solver. }
  cbn beta iota. replace (q ++ [10] ++ k ++ 0 :: crlf ++ crlf ++ body ++ 0 :: tail)
    with (q2 ++ (crlf ++ crlf) ++ body ++ 0 :: tail) by (unfold q2; by simplify_list_eq).
  replace (S (length (q ++ [10] ++ k))) with (length q2) by (unfold q2; simpl_length; lia).
  assert (Hh : h = q2 ++ crlf ++ crlf) by (unfold h, q2; by simplify_list_eq).
  erewrite bind_ret.
  2: { apply strtok_last; [|done..]. unfold crlf. repeat constructor; set_solver. }
  cbn beta iota. rewrite <- Hh.
  replace (q2 ++ (crlf ++ crlf) ++ body ++ 0 :: tail) with (h ++ body ++ 0 :: tail) by (rewrite Hh; by simplify_list_eq).
  pose proof (not_zero _ _ Hbody) as Hb0.
  rewrite bind_ret with (1 := string_at_spec _ _ body tail _ (drop_app_length h _) Hb0).
  rewrite (strip_none body) by done. rewrite Nat.add_0_r.
  rewrite bind_ret with (1 := string_at_spec _ _ body tail _ (drop_app_length h _) Hb0).
  assert (Hkey : drop (length (q ++ [10])) (h ++ body ++ 0 :: tail) = k ++ 0 :: crlf ++ crlf ++ body ++ 0 :: tail).
  { replace (h ++ body ++ 0 :: tail) with ((q ++ [10]) ++ k ++ 0 :: crlf ++ crlf ++ body ++ 0 :: tail)
      by (unfold h; by simplify_list_eq). apply drop_app_length. }
  rewrite bind_ret with (1 := string_at_spec _ _ k _ _ Hkey (not_zero _ _ Hk)). cbn zeta.
  unfold header_length in Hlen. cbn [fst snd] in Hlen. unfold strip in Hlen. rewrite strip_none in Hlen by done.
  rewrite drop_0 in Hlen. rewrite Hlen. rewrite <- length_app, (app_assoc h).
  replace (q2 ++ (crlf ++ crlf) ++ body) with (h ++ body) by (rewrite Hh; by simplify_list_eq). done.
Qed.

(** A last header without a value swallows the body: the body becomes its
    value, and the payload is what stands behind the body.  When the body ends
    with the buffer, the parser reads behind the buffer. *)
Theorem empty_last_header_swallows_body LONG_MAX rx_buffer_len o u v hs k body tail sv len len' :
  word_ok [32; 9] u -> word_ok [32; 9; 13; 10] v ->
  Forall (fun h => key_ok h.1 /\ value_ok h.2) hs -> (length hs < 16)%nat -> key_ok k ->
  body <> [] -> value_ok body -> hd 0 body <> 32 ->
  content_length LONG_MAX (-1) hs = Some len -> header_length LONG_MAX (k, body) len = Some len' -> 0 < len' ->
  let head := request_line (lit "POST") u v ++ print_headers hs ++ k ++ 58 :: crlf ++ crlf in
  let parse := es_msg_parser LONG_MAX rx_buffer_len o (Lexer (head ++ body ++ 0 :: tail) sv) in
  (tail = [] -> parse = Undef) /\
  (tail <> [] -> hd 0 tail <> 10 -> (length (head ++ body) + 1 < rx_buffer_len)%nat ->
   exists x, parse = Ret ((IOT_ERROR_NONE, Outs (Some (length (head ++ body) + 1)%nat) (post_cmd u) D2D_POST len'), x) /\
             drop (length (head ++ body) + 1) (buffer x) = tail).
Proof.
  intros Hu Hv Hhs Hn Hk Hne Hbody Hblank Hlen Hlen' Hpos head parse. subst parse.
  set (rest := k ++ 58 :: crlf ++ crlf ++ body ++ 0 :: tail).
  assert (Hrest : goes_on rest).
  { destruct Hk as [Hk0 Hk]. unfold rest. destruct k as [|b1 k]; [done|].
    apply Forall_cons in Hk as [Hb _]. apply in_token_spec in Hb as [_ Hb].
    destruct k as [|b2 k]; cbn [app]; do 3 eexists; split; done || set_solver. }
  replace (head ++ body ++ 0 :: tail) with (request_line (lit "POST") u v ++ print_headers hs ++ rest)
    by (unfold head, rest; by simplify_list_eq).
  destruct (post_headers LONG_MAX rx_buffer_len o u v (print_headers hs ++ rest) sv Hu Hv) as [Hl E].
  rewrite E. set (pre := lit "POST" ++ 0 :: u ++ 0 :: v ++ [0]) in *.
  destruct (read_headers_more LONG_MAX rest (16 - length hs) hs None (-1) len pre) as (mid & Hmid & E'); [done..|].
  replace (length hs + (16 - length hs))%nat with 16%nat in E' by lia.
  replace (16 - length hs)%nat with (S (15 - length hs)) in E' by lia. set (q := pre ++ mid) in *.
  unfold rest in E' at 2. rewrite (swallow_header _ _ _ _ len') in E' by done.
  set (h := q ++ 10 :: k ++ 0 :: crlf ++ crlf) in *.
  assert (Hh : length (head ++ body) = length (h ++ body)).
  { unfold head, h, q, crlf. simpl_length. rewrite Hl, Hmid. lia. }
  rewrite Hh. split.
  - intros ->. rewrite bind_undef; [done|]. rewrite E'. apply bind_undef. unfold header_ends. apply bind_undef.
    unfold byte_at. rewrite bind_gets. cbn [buffer]. rewrite lookup_ge_None_2; [done|]. rewrite !length_app. cbn [length]. lia.
  - intros Htail H10 Hfit. destruct tail as [|c tail]; [done|]. cbn [hd] in H10.
    rewrite bind_ret with (a := (Some (length (h ++ body)), len')) (s' := Lexer ((h ++ body) ++ 0 :: c :: tail) (Some (length (h ++ body)))).
    2: { rewrite E', bind_ret with (1 := header_ends_not _ _ _ _ _ eq_refl H10). apply read_headers_end. }
    rewrite (proj2 (Z.ltb_ge len' 0)), (proj2 (Z.eqb_neq len' 0)) by lia. cbn [negb andb].
    rewrite bool_decide_true by done. cbn [negb].
    erewrite bind_ret.
    2: { apply uri_still_there with (m := lit "POST") (n := length pre) (l := v ++ [0]); [|by apply (not_zero _ _ (proj2 Hu))].
         unfold h, q. rewrite <- !app_assoc. apply take_app_length. }
    eexists. split; [done|]. cbn [buffer]. by rewrite drop_app_add.
Qed.

(** ** Examples *)

Definition sample_headers : list (list Z * list Z) :=
  [(lit "Host", lit "192.168.4.1:8888"); (lit "Content-Length", lit " 13"); (lit "Connection", lit "Keep-Alive")].
Definition sample_post : request :=
  Request (lit "POST") (lit "/confirm") (lit "HTTP/1.1") sample_headers (lit "{'message':1}").
Definition no_outs : outs := Outs None None D2D_ERROR 0.

Lemma sample_headers_ok : Forall (fun h => key_ok h.1 /\ value_ok h.2) sample_headers.
Proof. unfold key_ok, value_ok. apply (bool_decide_unpack _). by vm_compute. Qed.
Lemma sample_post_ok : request_ok sample_post.
Proof.
  split; [..|apply sample_headers_ok|vm_compute; lia].
  all: unfold word_ok; apply (bool_decide_unpack _); by vm_compute.
Qed.

Lemma parser_reads_requests_witness :
  exists x, es_msg_parser 2147483647 1024 no_outs (Lexer (print_request sample_post ++ repeat 0 50) None)
            = Ret ((IOT_ERROR_NONE, Outs (Some 95%nat) (Some IOT_EASYSETUP_STEP_CONFIRM) D2D_POST 13), x) /\
            drop 95 (buffer x) = lit "{'message':1}" ++ repeat 0 50.
Proof.
  apply (parser_reads_requests 2147483647 1024 no_outs sample_post (repeat 0 50) None 13);
    [apply sample_post_ok|by vm_compute|done].
Defined.

Lemma headers_after_the_sixteenth_witness :
  let hs := (lit "Content-Length", lit "13") :: repeat (lit "a", lit "b") 15 in
  let head := request_line (lit "POST") (lit "/confirm") (lit "HTTP/1.1") ++ print_headers hs in
  let rest := lit "Host: b" ++ crlf ++ crlf ++ lit "{'message':1}" ++ [0] in
  exists x, es_msg_parser 2147483647 1024 no_outs (Lexer (head ++ rest) None)
            = Ret ((IOT_ERROR_NONE, Outs (Some (length head - 1)%nat) (Some IOT_EASYSETUP_STEP_CONFIRM) D2D_POST 13), x) /\
            drop (length head - 1) (buffer x) = 10 :: rest.
Proof.
  apply (headers_after_the_sixteenth 2147483647 1024 no_outs (lit "/confirm") (lit "HTTP/1.1")
           ((lit "Content-Length", lit "13") :: repeat (lit "a", lit "b") 15)).
  1,2: unfold word_ok; apply (bool_decide_unpack _); by vm_compute.
  - unfold key_ok, value_ok. apply (bool_decide_unpack _). by vm_compute.
  - done.
  - do 3 eexists. split; [reflexivity|done].
  - by vm_compute.
  - lia.
  - vm_compute. lia.
Defined.

Lemma empty_last_header_swallows_body_witness :
  let head := request_line (lit "POST") (lit "/confirm") (lit "HTTP/1.1") ++ print_headers sample_headers
              ++ lit "Cookie" ++ 58 :: crlf ++ crlf in
  es_msg_parser 2147483647 1024 no_outs (Lexer (head ++ lit "{'message':1}" ++ [0]) None) = Undef.
Proof.
  apply (empty_last_header_swallows_body 2147483647 1024 no_outs (lit "/confirm") (lit "HTTP/1.1") sample_headers
           (lit "Cookie") (lit "{'message':1}") [] None 13 13); try done.
  1,2: unfold word_ok; apply (bool_decide_unpack _); by vm_compute.
  - apply sample_headers_ok.
  - simpl; lia.
  - unfold key_ok. apply (bool_decide_unpack _). by vm_compute.
  - unfold value_ok. apply (bool_decide_unpack _). by vm_compute.
Defined.
