(* ===== verification/SetupRun.v ===== *)
(** * Easy setup over HTTP: the server and the steps of the setup

    [src/src/easysetup/http/iot_easysetup_http.c] and
    [src/src/easysetup/http/tcp/iot_easysetup_httpd.c], with the confirmation by
    the user of [src/src/easysetup/http/tcp/iot_easysetup_d2d_tcp.c].

    The server is a task of its own.  It reads a request from its connection,
    hands it to the main task through the work queue of [MainRun], waits for the
    answer in a queue of its own, and writes a response.  A string is the bytes
    in front of its terminator. *)

From S2P Require Import Prelude Cursor MainState MainRun UtilUrl HttpParse.

(** ** Data *)

Definition IOT_ERROR_EASYSETUP_400_BASE : Z := -400.
Definition IOT_ERROR_EASYSETUP_INVALID_CMD : Z := -401.
Definition IOT_ERROR_EASYSETUP_INVALID_REQUEST : Z := -402.
Definition IOT_ERROR_EASYSETUP_INVALID_SEQUENCE : Z := -403.
Definition IOT_ERROR_EASYSETUP_INVALID_QR : Z := -421.
Definition IOT_ERROR_EASYSETUP_INVALID_SERIAL_NUMBER : Z := -422.
Definition IOT_ERROR_EASYSETUP_500_BASE : Z := -500.
Definition IOT_ERROR_EASYSETUP_INTERNAL_SERVER_ERROR : Z := -501.
Definition IOT_ERROR_EASYSETUP_QUEUE_SEND_ERROR : Z := -507.
Definition IOT_ERROR_EASYSETUP_QUEUE_RECV_ERROR : Z := -508.
Definition IOT_ERROR_EASYSETUP_SERIAL_NOT_FOUND : Z := -523.
Definition IOT_ERROR_EASYSETUP_CONFIRM_DENIED : Z := -524.
Definition IOT_ERROR_EASYSETUP_HTTP_RECV_FAIL : Z := -561.
Definition IOT_ERROR_EASYSETUP_HTTP_PEER_CONN_CLOSED : Z := -564.
Definition IOT_ERROR_EASYSETUP_CIPHER_ERROR : Z := -407.

Definition IOT_STAT_LV_CONN : Z := 4.
Definition OVF_BIT_JUSTWORKS : Z := 0.
Definition OVF_BIT_QR : Z := 1.
Definition OVF_BIT_SERIAL_NUMBER : Z := 4.
Definition RX_BUFFER_MAX : nat := 1024.

(** The value of a step in [enum iot_easysetup_step]. *)
Definition step_no (s : iot_easysetup_step) : Z :=
  match s with
  | IOT_EASYSETUP_STEP_DEVICEINFO => 0 | IOT_EASYSETUP_STEP_KEYINFO => 1 | IOT_EASYSETUP_STEP_CONFIRMINFO => 2
  | IOT_EASYSETUP_STEP_CONFIRM => 3 | IOT_EASYSETUP_STEP_WIFISCANINFO => 4
  | IOT_EASYSETUP_STEP_WIFIPROVIONINGINFO => 5 | IOT_EASYSETUP_STEP_SETUPCOMPLETE => 6
  | IOT_EASYSETUP_STEP_LOG_SYSTEMINFO => 7 | IOT_EASYSETUP_STEP_LOG_CREATE_DUMP => 8
  | IOT_EASYSETUP_STEP_LOG_GET_DUMP => 9
  end.

(** [struct iot_easysetup_payload], as a response. *)
Record iot_easysetup_payload := EsPayload {
  es_step : iot_easysetup_step; es_err : Z; es_payload : option (list Z)
}.

Inductive iot_wifi_event_t := IOT_WIFI_EVENT_SOFTAP_STA_JOIN | IOT_WIFI_EVENT_SOFTAP_STA_LEAVE | IOT_WIFI_EVENT_SOFTAP_STA_FAIL.

(** The network port of the server: connections are numbers, a read gives at
    most so many bytes, none when the peer has closed, [None] for an error. *)
Class PortNet := {
  nenv : Type;
  port_net_listen : nenv -> option nat * nenv;
  port_net_read : nat -> nat -> nenv -> option (list Z) * nenv;
  port_net_write : nat -> list Z -> nenv -> Z * nenv;
  port_net_free : nat -> nenv -> nenv
}.

(** What else the easy setup calls: the cipher, the Wi-Fi events of the board,
    threads, the serial number in the store, and cJSON. *)
Class SetupBelow `{Device} := {
  iot_security_cipher_init : denv -> Z * denv;
  iot_security_cipher_deinit : denv -> Z * denv;
  iot_bsp_wifi_register_event_cb : denv -> Z * denv;
  iot_bsp_wifi_clear_event_cb : denv -> denv;
  iot_os_thread_create : denv -> bool * denv;
  serial_number : denv -> (Z * list Z) * denv;
  cJSON_CreateObject : denv -> bool * denv;
  (** [cJSON_AddItemToObject] of a new number: whether it is in the object. *)
  add_number : denv -> bool * denv;
  (** The text of [{error: {code: n}}], of an object that has the number or
      has it not. *)
  cJSON_PrintUnformatted : option Z -> denv -> option (list Z) * denv
}.

(** The state of the server on top of that of the main task: the network, the
    queue of responses with its event bit, the two bits of the confirmation,
    and the variables of the two files. *)
Record hworld `{Device} `{PortNet} := HWorld {
  h_main : mworld; h_net : nenv; easysetup_resp_queue : list iot_easysetup_payload;
  resp_bit : bool; confirm_bit : bool; deny_bit : bool;
  ref_step : Z; tx_buffer : option (list Z); deinit_processing : bool;
  es_tcp_task_handle : bool; es_http_conn_handle : option nat
}.

Section access.
Context `{Device} `{PortNet}.
Definition with_main v w := HWorld _ _ v (h_net w) (easysetup_resp_queue w) (resp_bit w) (confirm_bit w) (deny_bit w) (ref_step w) (tx_buffer w) (deinit_processing w) (es_tcp_task_handle w) (es_http_conn_handle w).
Definition with_net v w := HWorld _ _ (h_main w) v (easysetup_resp_queue w) (resp_bit w) (confirm_bit w) (deny_bit w) (ref_step w) (tx_buffer w) (deinit_processing w) (es_tcp_task_handle w) (es_http_conn_handle w).
Definition with_responses q b w := HWorld _ _ (h_main w) (h_net w) q b (confirm_bit w) (deny_bit w) (ref_step w) (tx_buffer w) (deinit_processing w) (es_tcp_task_handle w) (es_http_conn_handle w).
Definition with_confirm c d w := HWorld _ _ (h_main w) (h_net w) (easysetup_resp_queue w) (resp_bit w) c d (ref_step w) (tx_buffer w) (deinit_processing w) (es_tcp_task_handle w) (es_http_conn_handle w).
Definition with_step v w := HWorld _ _ (h_main w) (h_net w) (easysetup_resp_queue w) (resp_bit w) (confirm_bit w) (deny_bit w) v (tx_buffer w) (deinit_processing w) (es_tcp_task_handle w) (es_http_conn_handle w).
Definition with_tx v w := HWorld _ _ (h_main w) (h_net w) (easysetup_resp_queue w) (resp_bit w) (confirm_bit w) (deny_bit w) (ref_step w) v (deinit_processing w) (es_tcp_task_handle w) (es_http_conn_handle w).
Definition with_deinit v w := HWorld _ _ (h_main w) (h_net w) (easysetup_resp_queue w) (resp_bit w) (confirm_bit w) (deny_bit w) (ref_step w) (tx_buffer w) v (es_tcp_task_handle w) (es_http_conn_handle w).
Definition with_task v w := HWorld _ _ (h_main w) (h_net w) (easysetup_resp_queue w) (resp_bit w) (confirm_bit w) (deny_bit w) (ref_step w) (tx_buffer w) (deinit_processing w) v (es_http_conn_handle w).
Definition with_conn v w := HWorld _ _ (h_main w) (h_net w) (easysetup_resp_queue w) (resp_bit w) (confirm_bit w) (deny_bit w) (ref_step w) (tx_buffer w) (deinit_processing w) (es_tcp_task_handle w) v.

(** A computation on the state of the main task. *)
Definition in_main {A} (m : st mworld A) : st hworld A := fun w =>
  match m (h_main w) with Ret (a, x) => Ret (a, with_main x w) | Undef => Undef | Hang => Hang end.

(** A call of the network. *)
Definition net {A} (f : nenv -> A * nenv) : st hworld A := fun w =>
  let '(a, e) := f (h_net w) in Ret (a, with_net e w).

(** A computation on a buffer. *)
Definition in_buffer {A} (m : st lexer A) (buf : list Z) : st hworld (A * list Z) := fun w =>
  match m (Lexer buf None) with Ret (a, x) => Ret ((a, buffer x), w) | Undef => Undef | Hang => Hang end.
End access.

(** ** The steps of the setup *)

Section setup.
Context `{Device} `{PortNet} `{!SetupBelow}.
(** What the other tasks do while this one waits. *)
Context (others : st hworld unit) (LONG_MAX : Z).
Abbreviation HM := (st hworld).

Definition set_step (s : Z) : HM unit := modify (with_step s).

Definition _iot_easysetup_wifi_event_cb (event : iot_wifi_event_t) (error : Z) : HM unit :=
  match event with
  | IOT_WIFI_EVENT_SOFTAP_STA_JOIN => mret tt
  | IOT_WIFI_EVENT_SOFTAP_STA_LEAVE =>
      r ← gets ref_step;
      when (r <=? step_no IOT_EASYSETUP_STEP_SETUPCOMPLETE)
        (set_step 0;; modify (fun w => with_confirm true (deny_bit w) w))
  | IOT_WIFI_EVENT_SOFTAP_STA_FAIL => in_main (iot_set_st_ecode_from_conn_error error);; mret tt
  end.

(** The phone has asked for the device's information. *)
Definition report_conn : st mworld unit :=
  maps ← getc status_maps; cb ← getc status_cb;
  when (negb (Z.land maps IOT_STATUS_PROVISIONING =? 0) && cb) (report_status IOT_STATUS_PROVISIONING IOT_STAT_LV_CONN).

(** [iot_os_eventgroup_wait_bits] without a limit, which clears the bit. *)
Definition wait_response : HM unit :=
  others;;
  b ← gets resp_bit;
  if (b : bool) then modify (fun w => with_responses (easysetup_resp_queue w) false w) else hang.

(** [iot_util_queue_receive] of the response queue. *)
Definition response_receive : HM (option iot_easysetup_payload) :=
  there ← in_main (getc resp_queue);
  if negb there then mret None
  else
    locked ← in_main (dev d_lock);
    if negb locked then mret None
    else
      q ← gets easysetup_resp_queue;
      match q with
      | [] => mret None
      | r :: q => modify (fun w => with_responses q (resp_bit w) w);; mret (Some r)
      end.

(** What the main task answers to a request of the step. *)
Definition await_answer (cur_step : iot_easysetup_step) : HM (Z * option (list Z)) :=
  wait_response;;
  response ← response_receive;
  match response with
  | Some r =>
      if negb (bool_decide (es_step r = cur_step)) then mret (IOT_ERROR_EASYSETUP_INTERNAL_SERVER_ERROR, None)
      else mret (es_err r, if es_err r =? 0 then es_payload r else None)
  | None => mret (IOT_ERROR_EASYSETUP_QUEUE_RECV_ERROR, None)
  end.

(** The step is taken, and handed to the main task; an answer that is an error
    starts the setup again, a request that cannot be sent does not. *)
Definition ask_main (cur_step : iot_easysetup_step) (in_payload : option (list Z)) : HM (bool * (Z * option (list Z))) :=
  (if step_no cur_step <? step_no IOT_EASYSETUP_STEP_LOG_SYSTEMINFO then
     r ← gets ref_step; set_step (r + 1)
   else set_step 0);;
  err ← in_main (iot_easysetup_request cur_step
                   ((fun l => String.string_of_list_ascii ((fun b => Ascii.ascii_of_N (Z.to_N b)) <$> l)) <$> in_payload));
  if negb (err =? 0) then
    mret (false, ((if err =? IOT_ERROR_EASYSETUP_QUEUE_SEND_ERROR then err
                   else IOT_ERROR_EASYSETUP_INTERNAL_SERVER_ERROR), None))
  else
    '(err, payload) ← await_answer cur_step;
    when (negb (err =? 0)) (set_step 0);;
    mret (true, (err, payload)).

(** Out of sequence. *)
Definition refuse : HM (Z * option (list Z)) := set_step 0;; mret (IOT_ERROR_EASYSETUP_INVALID_SEQUENCE, None).

(** Whether the step may come now; [jump] lists the steps at which it may come
    though it is not the next. *)
Definition in_sequence (cur_step : iot_easysetup_step) (jump : list iot_easysetup_step) : HM bool :=
  r ← gets ref_step;
  if negb (step_no cur_step =? r) && (step_no cur_step <? step_no IOT_EASYSETUP_STEP_LOG_SYSTEMINFO) then
    if bool_decide (r ∈ step_no <$> jump) then set_step (step_no cur_step);; mret true else mret false
  else mret true.

Definition _iot_easysetup_gen_get_payload (cmd : command) : HM (Z * option (list Z)) :=
  match cmd with
  | None => mret (IOT_ERROR_EASYSETUP_INVALID_CMD, None)
  | Some cur_step =>
      when (bool_decide (cur_step = IOT_EASYSETUP_STEP_DEVICEINFO)) (in_main report_conn);;
      ok ← in_sequence cur_step
             (if bool_decide (cur_step = IOT_EASYSETUP_STEP_WIFISCANINFO)
              then [IOT_EASYSETUP_STEP_CONFIRM; IOT_EASYSETUP_STEP_WIFIPROVIONINGINFO] else []);
      if negb ok then refuse
      else '(_, answer) ← ask_main cur_step None; mret answer
  end.

Definition _iot_easysetup_gen_post_payload (cmd : command) (in_payload : option (list Z)) : HM (Z * option (list Z)) :=
  if bool_decide (in_payload = None) && negb (bool_decide (cmd = Some IOT_EASYSETUP_STEP_SETUPCOMPLETE))
     && negb (bool_decide (cmd = Some IOT_EASYSETUP_STEP_LOG_CREATE_DUMP))
  then mret (IOT_ERROR_EASYSETUP_INVALID_REQUEST, None)
  else
    match cmd with
    | None => mret (IOT_ERROR_EASYSETUP_INVALID_CMD, None)
    | Some cur_step =>
        ok ← in_sequence cur_step
               (if bool_decide (cur_step = IOT_EASYSETUP_STEP_WIFIPROVIONINGINFO)
                then [IOT_EASYSETUP_STEP_CONFIRM; IOT_EASYSETUP_STEP_CONFIRMINFO] else []);
        if negb ok then refuse
        else
          '(answered, (err, payload)) ← ask_main cur_step in_payload;
          if (answered : bool) && (err =? 0) && bool_decide (cur_step = IOT_EASYSETUP_STEP_SETUPCOMPLETE) then
            err1 ← in_main (iot_state_update IOT_STATE_PROV_DONE IOT_STATE_OPT_NONE);
            mret (if negb (err1 =? 0) then IOT_ERROR_EASYSETUP_INTERNAL_SERVER_ERROR else err, payload)
          else mret (err, payload)
    end.

(** ** The confirmation by the user *)

Definition st_conn_ownership_confirm (confirm : bool) : HM unit :=
  otm ← in_main (getc curr_otm_feature);
  when (otm =? OVF_BIT_BUTTON)
    (modify (fun w => if confirm then with_confirm true (deny_bit w) w else with_confirm (confirm_bit w) true w)).

(** The scanned or typed serial number [sn] against that of the device. *)
Definition check_serial (sn : option (list Z)) : HM Z :=
  match sn with
  | None => mret IOT_ERROR_EASYSETUP_INVALID_QR
  | Some sn =>
      '(err, dev_sn) ← in_main (dev serial_number);
      if negb (err =? 0) then mret IOT_ERROR_EASYSETUP_SERIAL_NOT_FOUND
      else mret (if bool_decide (sn = dev_sn) then 0 else IOT_ERROR_EASYSETUP_INVALID_SERIAL_NUMBER)
  end.

Definition ES_CONFIRM_FAIL_TIMEOUT : Z := 10000.

(** The button: up to 100 seconds for one of the two bits, which stay set. *)
Definition check_button : HM Z :=
  others;;
  confirmed ← gets confirm_bit;
  if (confirmed : bool) then mret 0
  else
    in_main (iot_set_st_ecode IOT_ST_ECODE_EE01);;
    in_main (iot_state_timeout_change IOT_STATE_PROV_CONFIRM ES_CONFIRM_FAIL_TIMEOUT);;
    mret IOT_ERROR_EASYSETUP_CONFIRM_DENIED.

Definition _es_confirm_check_manager (confirm_feature : Z) (sn : option (list Z)) : HM Z :=
  modify (with_confirm false false);;
  in_main (setc (set_curr_otm_feature confirm_feature));;
  err ← in_main (iot_state_update IOT_STATE_PROV_CONFIRM IOT_STATE_OPT_NEED_INTERACT);
  if negb (err =? 0) then mret IOT_ERROR_EASYSETUP_INTERNAL_SERVER_ERROR
  else if confirm_feature =? OVF_BIT_JUSTWORKS then mret err
  else if (confirm_feature =? OVF_BIT_QR) || (confirm_feature =? OVF_BIT_SERIAL_NUMBER) then check_serial sn
  else if confirm_feature =? OVF_BIT_BUTTON then check_button
  else mret err.

(** ** Responses *)

Definition http_status_200 : list Z := lit "HTTP/1.1 200 OK".
Definition http_status_400 : list Z := lit "HTTP/1.1 400 Bad Request".
Definition http_status_500 : list Z := lit "HTTP/1.1 500 Internal Server Error".
Definition http_header : list Z :=
  crlf ++ lit "Server: SmartThings SDK Setup" ++ crlf ++ lit "Connection: keep-alive" ++ crlf
  ++ lit "Content-Type: application/json" ++ crlf ++ lit "Content-Length: ".
Definition END_OF_HTTP_HEADER : list Z := crlf ++ crlf.

Definition _is_400_error (err : Z) : bool :=
  (err <=? IOT_ERROR_EASYSETUP_400_BASE) && (IOT_ERROR_EASYSETUP_500_BASE <? err).

(** The loop ends within as many rounds as an [unsigned int] has digits. *)
Fixpoint digit_count (fuel : nat) (payload_len count : Z) : option Z :=
  match fuel with
  | O => None
  | S fuel =>
      let payload_len := payload_len / 10 in
      let count := count + 1 in
      if payload_len =? 0 then Some count else digit_count fuel payload_len count
  end.
Definition digit_count_payload (payload_len : Z) : option Z := digit_count 10 payload_len 0.

(** [%u]: the decimal digits of an [unsigned int]. *)
Fixpoint decimal_digits (fuel : nat) (n : Z) (behind : list Z) : list Z :=
  match fuel with
  | O => behind
  | S fuel => if n <? 10 then (48 + n) :: behind else decimal_digits fuel (n / 10) ((48 + n mod 10) :: behind)
  end.
Definition print_uint (n : Z) : list Z := decimal_digits 10 n [].

(** [snprintf(buf, n, ...)] of a text: at most [n - 1] characters. *)
Definition snprintf (n : Z) (text : list Z) : list Z := take (Z.to_nat (n - 1)) text.

(** The response in a buffer of just the size, which becomes the buffer to
    send; without memory there is none. *)
Definition make_response (status payload : list Z) : HM unit :=
  let payload_len := to_uint (zlen payload) in
  digits ← match digit_count_payload payload_len with Some n => mret n | None => hang end;
  let buffer_len := to_uint (payload_len + zlen status + zlen http_header + digits + zlen END_OF_HTTP_HEADER + 1) in
  ok ← in_main (dev d_malloc);
  when ok
    (modify (with_tx (Some (snprintf buffer_len
       (status ++ http_header ++ print_uint payload_len ++ END_OF_HTTP_HEADER ++ payload))))).

(** The body of an error. *)
Definition error_response (err : Z) : HM unit :=
  item ← in_main (dev cJSON_CreateObject);
  when item
    (code ← in_main (dev add_number);
     root ← in_main (dev cJSON_CreateObject);
     when root
       (ptr ← in_main (dev (cJSON_PrintUnformatted (if (code : bool) then Some (- err) else None)));
        ptr ← need ptr;
        make_response (if _is_400_error err then http_status_400 else http_status_500) ptr)).

Definition http_msg_handler (cmd : command) (type : cgi_type) (data_buf : option (list Z)) : HM unit :=
  '(err, payload) ← match type with
                    | D2D_POST => _iot_easysetup_gen_post_payload cmd data_buf
                    | D2D_GET => _iot_easysetup_gen_get_payload cmd
                    | D2D_ERROR => mret (IOT_ERROR_EASYSETUP_INVALID_CMD, None)
                    end;
  if err =? 0 then
    match payload with
    | None => mret tt
    | Some payload => make_response http_status_200 payload
    end
  else error_response err.

(** ** The connection *)

(** A read, during which the other tasks run; the port writes no more than it
    is asked for. *)
Definition recv (handle max : nat) : HM (option (list Z)) :=
  others;;
  r ← net (port_net_read handle max);
  match r with
  | Some l => if bool_decide (length l <= max)%nat then mret (Some l) else undef
  | None => mret None
  end.

(** The blank line at the end of the head.  The bound is computed in [size_t]:
    below 3 it wraps around, and the zeros behind are compared. *)
Definition blank_line_at (rx_buffer : list Z) (existing_len i : nat) : bool :=
  ((existing_len <? 3)%nat || (i <? existing_len - 3)%nat) && bool_decide (take 4 (drop i rx_buffer) = crlf ++ crlf).
Definition header_position (rx_buffer : list Z) (existing_len : nat) : option nat :=
  (fun p => p.2) <$> list_find (fun i => blank_line_at rx_buffer existing_len i = true) (seq 0 existing_len).

(** Error, buffer, length received and length of the head. *)
Fixpoint http_packet_read (fuel : nat) (handle : nat) (rx_buffer : list Z) (existing_len : nat) : HM (Z * (list Z * (nat * nat))) :=
  match fuel with
  | O => hang
  | S fuel =>
      len ← recv handle (length rx_buffer - existing_len - 1);
      match len with
      | None => mret (IOT_ERROR_EASYSETUP_HTTP_RECV_FAIL, (rx_buffer, (O, O)))
      | Some [] => mret (IOT_ERROR_EASYSETUP_HTTP_PEER_CONN_CLOSED, (rx_buffer, (O, O)))
      | Some l =>
          let rx_buffer := put rx_buffer existing_len l in
          let existing_len := (existing_len + length l)%nat in
          match header_position rx_buffer existing_len with
          | Some i => mret (0, (rx_buffer, (existing_len, (i + 4)%nat)))
          | None => http_packet_read fuel handle rx_buffer existing_len
          end
      end
  end.

Fixpoint http_packet_read_remaining (fuel : nat) (handle : nat) (rx_buffer : list Z) (offset : nat) (total_recv_len expected_len : Z)
  : HM (Z * list Z) :=
  match fuel with
  | O => hang
  | S fuel =>
      len ← recv handle (length rx_buffer - offset - 1);
      match len with
      | None => mret (IOT_ERROR_EASYSETUP_HTTP_RECV_FAIL, rx_buffer)
      | Some [] => mret (IOT_ERROR_EASYSETUP_HTTP_PEER_CONN_CLOSED, rx_buffer)
      | Some l =>
          let rx_buffer := put rx_buffer offset l in
          let total_recv_len := total_recv_len + zlen l in
          if total_recv_len <? expected_len then
            http_packet_read_remaining fuel handle rx_buffer offset total_recv_len expected_len
          else mret (0, rx_buffer)
      end
  end.

Definition read_string (p : nat) (rx_buffer : list Z) : HM (list Z) := '(s, _) ← in_buffer (string_at p) rx_buffer; mret s.

(** What is sent is what stands in the buffer, up to its terminator; the buffer
    is freed. *)
Definition send_response (handle : nat) (o : outs) : HM (Z + outs) :=
  tx ← gets tx_buffer;
  match tx with
  | None => mret (inl IOT_ERROR_EASYSETUP_INTERNAL_SERVER_ERROR)
  | Some tx =>
      len ← net (port_net_write handle tx);
      modify (with_tx None);;
      mret (if len <? 0 then inl IOT_ERROR_EASYSETUP_INTERNAL_SERVER_ERROR else inr o)
  end.

(** The rest of a POST whose body is longer than what has been received. *)
Definition read_body (fuel : nat) (handle : nat) (rx_buffer : list Z) (received_len header_len : nat) (err : Z) (o : outs)
  : HM (bool * (list Z * outs)) :=
  match o_type o, o_payload o with
  | D2D_POST, Some p =>
      if err =? 0 then
        text ← read_string p rx_buffer;
        if zlen text <? o_content_len o then
          '(ret, rx_buffer) ← http_packet_read_remaining fuel handle rx_buffer received_len (Z.of_nat received_len)
                                (Z.of_nat header_len + o_content_len o);
          mret (ret =? 0, (rx_buffer, Outs (Some header_len) (o_cmd o) D2D_POST (o_content_len o)))
        else mret (true, (rx_buffer, o))
      else mret (true, (rx_buffer, o))
  | _, _ => mret (true, (rx_buffer, o))
  end.

(** The string that is given to the handler, which looks at it for a POST. *)
Definition payload_text (o : outs) (rx_buffer : list Z) : HM (option (list Z)) :=
  match o_type o, o_payload o with
  | D2D_POST, Some p => text ← read_string p rx_buffer; mret (Some text)
  | _, _ => mret None
  end.

(** One round of the loop: it ends with an error, or goes on with the variables
    of the function. *)
Definition serve_request (fuel : nat) (handle : nat) (o : outs) : HM (Z + outs) :=
  '(err, (rx_buffer, (received_len, header_len))) ← http_packet_read fuel handle (repeat 0 RX_BUFFER_MAX) 0;
  if negb (err =? 0) then mret (inl err)
  else
    '((err, o), rx_buffer) ← in_buffer (es_msg_parser LONG_MAX RX_BUFFER_MAX
                                          (Outs (o_payload o) (o_cmd o) (o_type o) 0)) rx_buffer;
    '(ok, (rx_buffer, o)) ← read_body fuel handle rx_buffer received_len header_len err o;
    if negb ok then mret (inl IOT_ERROR_EASYSETUP_INTERNAL_SERVER_ERROR)
    else
      (if negb (err =? 0) then http_msg_handler (o_cmd o) D2D_ERROR None
       else text ← payload_text o rx_buffer; http_msg_handler (o_cmd o) (o_type o) text);;
      send_response handle o.

(** [o] is what the variables hold before they are set. *)
Fixpoint process_accepted_connection (fuel : nat) (handle : nat) (o : outs) : HM Z :=
  match fuel with
  | O => hang
  | S fuel' =>
      r ← serve_request fuel handle o;
      match r with inl err => mret err | inr o => process_accepted_connection fuel' handle o end
  end.

(** ** The server's task *)

Definition free_conn : HM unit :=
  c ← gets es_http_conn_handle;
  match c with
  | Some c => modify (fun w => with_net (port_net_free c (h_net w)) w);; modify (with_conn None)
  | None => mret tt
  end.

Fixpoint es_tcp_task (fuel : nat) (o : outs) : HM unit :=
  match fuel with
  | O => hang
  | S fuel' =>
      stop ← gets deinit_processing;
      if (stop : bool) then
        free_conn;; modify (with_tx None);; modify (with_task false)
      else
        free_conn;;
        others;;
        c ← net port_net_listen;
        modify (with_conn c);;
        (match c with Some c => process_accepted_connection fuel c o;; mret tt | None => mret tt end);;
        es_tcp_task fuel' o
  end.

Definition es_http_init : HM unit :=
  running ← gets es_tcp_task_handle;
  if (running : bool) then mret tt
  else modify (with_deinit false);; ok ← in_main (dev iot_os_thread_create); modify (with_task ok).

Definition es_http_deinit : HM unit := modify (with_deinit true).

(** The context is not null. *)
Definition iot_easysetup_init : HM Z :=
  err ← in_main (dev iot_security_cipher_init);
  if negb (err =? 0) then mret IOT_ERROR_EASYSETUP_CIPHER_ERROR
  else
    set_step 0;;
    in_main (dev iot_bsp_wifi_register_event_cb);;
    es_http_init;;
    mret IOT_ERROR_NONE.

Definition iot_easysetup_deinit : HM unit :=
  es_http_deinit;;
  in_main (dev_ iot_bsp_wifi_clear_event_cb);;
  modify (fun w => with_responses (easysetup_resp_queue w) false w);;
  in_main (dev iot_security_cipher_deinit);; mret tt.
End setup.
