(* ===== verification/SetupSteps.v ===== *)
(** * Easy setup over HTTP: the order of the steps

    A phone goes through the steps of the setup in order; what comes out of
    order is refused and starts the setup again.  Here: which steps may follow
    which, the effect of a request that may come, the paths to the end of the
    setup ([setup_in_order]), and where the order is not what it should be. *)

From S2P Require Import Prelude MainState ClientRun Util MainRun MainFsm MainInv HttpParse SetupRun.

(** ** The order *)

(** [get]: the step comes with a GET, else with a POST.  The next step may be
    taken, and four others. *)
Definition may_follow (get : bool) (r : Z) (s : iot_easysetup_step) : bool :=
  (step_no s <? 7) &&
  ((r =? step_no s)
   || (get && bool_decide (s = IOT_EASYSETUP_STEP_WIFISCANINFO) && ((r =? 3) || (r =? 5)))
   || (negb get && bool_decide (s = IOT_EASYSETUP_STEP_WIFIPROVIONINGINFO) && ((r =? 3) || (r =? 2)))).

(** The steps that have been taken since the last start, when [ref_step] is
    the number. *)
Inductive path : list iot_easysetup_step -> Z -> Prop :=
| path_start : path [] 0
| path_step p r get s : path p r -> may_follow get r s = true -> path (p ++ [s]) (step_no s + 1).

Lemma may_follow_cases get r s :
  may_follow get r s = true <->
  step_no s < 7 /\
  (r = step_no s \/ (get = true /\ s = IOT_EASYSETUP_STEP_WIFISCANINFO /\ (r = 3 \/ r = 5))
   \/ (get = false /\ s = IOT_EASYSETUP_STEP_WIFIPROVIONINGINFO /\ (r = 3 \/ r = 2))).
Proof.
  unfold may_follow. rewrite !andb_true_iff, !orb_true_iff, !andb_true_iff, !orb_true_iff, !bool_decide_eq_true, !Z.eqb_eq,
    Z.ltb_lt, negb_true_iff. tauto.
Qed.

(** The lists of steps at which the two methods let another one come. *)
Lemma get_jump s r :
  may_follow true r s = true -> r = step_no s \/
  r ∈ step_no <$> (if bool_decide (s = IOT_EASYSETUP_STEP_WIFISCANINFO)
                   then [IOT_EASYSETUP_STEP_CONFIRM; IOT_EASYSETUP_STEP_WIFIPROVIONINGINFO] else []).
Proof. rewrite may_follow_cases. intros [_ [?|[(_ & -> & Hr)|[? _]]]]; [auto|right|done]. cbn. set_solver. Qed.
Lemma post_jump s r :
  may_follow false r s = true -> r = step_no s \/
  r ∈ step_no <$> (if bool_decide (s = IOT_EASYSETUP_STEP_WIFIPROVIONINGINFO)
                   then [IOT_EASYSETUP_STEP_CONFIRM; IOT_EASYSETUP_STEP_CONFIRMINFO] else []).
Proof. rewrite may_follow_cases. intros [_ [?|[[? _]|(_ & -> & Hr)]]]; [auto|done|right]. cbn. set_solver. Qed.

(** What a path to a number looks like. *)
Record path_shape (p : list iot_easysetup_step) (r : Z) : Prop := {
  shape_range : 0 <= r <= 7;
  shape_0 : r = 0 -> p = [];
  shape_1 : r = 1 -> p = [IOT_EASYSETUP_STEP_DEVICEINFO];
  shape_more : 2 <= r -> exists mid, p = IOT_EASYSETUP_STEP_DEVICEINFO :: IOT_EASYSETUP_STEP_KEYINFO :: mid /\
    (r = 6 -> exists mid', mid = mid' ++ [IOT_EASYSETUP_STEP_WIFIPROVIONINGINFO])
}.

Lemma path_shaped p r : path p r -> path_shape p r.
Proof.
  induction 1 as [|p r get s Hp [Hr H0 H1 H2] Hs]; [by split|].
  apply may_follow_cases in Hs as [H7 Hs].
  destruct (decide (r < 2)) as [Hlt|Hge].
  - assert (Es : r = step_no s) by naive_solver lia.
    destruct (decide (r = 0)) as [->|]; [rewrite H0 by done|rewrite H1 by lia].
    all: destruct s; cbn in Es; try lia; split; cbn; intros; try lia; try done.
    exists []. split; [done|lia].
  - destruct H2 as (mid & -> & _); [lia|].
    assert (Hs2 : 2 <= step_no s) by (destruct s; cbn; naive_solver lia).
    split; [lia|lia|lia|]. intros _. exists (mid ++ [s]). split; [done|]. intros H6. exists mid. by destruct s.
Qed.

Lemma path_to_setup_complete p :
  path p 6 -> sublist [IOT_EASYSETUP_STEP_DEVICEINFO; IOT_EASYSETUP_STEP_KEYINFO; IOT_EASYSETUP_STEP_WIFIPROVIONINGINFO] p.
Proof.
  intros [_ _ _ Hm]%path_shaped. destruct Hm as (mid & -> & H6); [lia|]. destruct H6 as (mid' & ->); [done|].
  do 2 apply sublist_skip. by apply sublist_inserts_l.
Qed.

(** ** What a request does to the number *)

Section frame.
Context `{HD : Device} `{HN : PortNet}.
Abbreviation HM := (st hworld).

Lemma in_main_inv {A} (m : st mworld A) w a w' :
  in_main m w = Ret (a, w') -> exists x, m (h_main w) = Ret (a, x) /\ w' = with_main x w.
Proof. unfold in_main. destruct (m (h_main w)) as [[b x]| |]; [|done..]. intros [= -> <-]. eauto. Qed.

Lemma in_main_eq {A} (m : st mworld A) w a x : m (h_main w) = Ret (a, x) -> in_main m w = Ret (a, with_main x w).
Proof. unfold in_main. by intros ->. Qed.

(** Computations that leave the number as it is. *)
Definition still {A} (m : HM A) : Prop := forall w a w', m w = Ret (a, w') -> ref_step w' = ref_step w.

Lemma still_bind {A B} (m : HM A) (f : A -> HM B) : still m -> (forall a, still (f a)) -> still (m ≫= f).
Proof. intros Hm Hf w b w' E. apply bind_inv in E as (a & w1 & E1 & E2). rewrite (Hf _ _ _ _ E2). by eapply Hm. Qed.
Lemma still_ret {A} (a : A) : still (mret a).
Proof. by intros w b w' [= <- <-]. Qed.
Lemma still_main {A} (m : st mworld A) : still (in_main m).
Proof. intros w a w' (x & _ & ->)%in_main_inv. done. Qed.
Lemma still_when b m : still m -> still (when b m).
Proof. destruct b; [done|]. intros _. apply still_ret. Qed.

End frame.

Section steps.
Context `{HD : Device} `{HN : PortNet} `{HS : !SetupBelow} (others : st hworld unit).
Abbreviation HM := (st hworld).

Lemma in_sequence_spec s jump w :
  exists ok, in_sequence s jump w
             = Ret (ok, if ok && (step_no s <? 7) then with_step (step_no s) w else w) /\
  (ok = true <-> 7 <= step_no s \/ ref_step w = step_no s \/ ref_step w ∈ step_no <$> jump).
Proof.
  unfold in_sequence. rewrite bind_gets. change (step_no IOT_EASYSETUP_STEP_LOG_SYSTEMINFO) with 7.
  destruct (step_no s =? ref_step w) eqn:E1; bool_to_prop; cbn [negb andb].
  { exists true. split; [|naive_solver]. rewrite E1. by destruct (ref_step w <? 7), w. }
  destruct (step_no s <? 7) eqn:E7; bool_to_prop.
  - case_bool_decide as Hj; [exists true|exists false]; (split; [done|]); naive_solver lia.
  - exists true. split; [done|]. naive_solver.
Qed.

(** A request out of order: nothing reaches the main task. *)
Lemma refused_spec cmd payload s w :
  cmd = Some s -> (payload = None -> s = IOT_EASYSETUP_STEP_SETUPCOMPLETE) ->
  step_no s < 7 -> may_follow false (ref_step w) s = false ->
  _iot_easysetup_gen_post_payload others cmd payload w
  = Ret ((IOT_ERROR_EASYSETUP_INVALID_SEQUENCE, None), with_step 0 w).
Proof.
  intros -> Hpl H7 Hno. unfold _iot_easysetup_gen_post_payload.
  replace (bool_decide (payload = None) && _ && _) with false.
  2: { case_bool_decide as Hp; [|done]. rewrite (Hpl Hp). done. }
  set (jump := if bool_decide (s = IOT_EASYSETUP_STEP_WIFIPROVIONINGINFO) then _ else _).
  destruct (in_sequence_spec s jump w) as (ok & E & Hiff). rewrite (bind_ret _ _ _ _ _ E).
  destruct ok; [|done]. exfalso. assert (Hyes : may_follow false (ref_step w) s = true); [|by rewrite Hyes in Hno].
  apply may_follow_cases. destruct (proj1 Hiff eq_refl) as [?|[Hr|Hr]]; [lia|auto|].
  unfold jump in Hr. case_bool_decide as Hs; [|by apply not_elem_of_nil in Hr]. subst s. cbn in Hr |- *. set_solver.
Qed.

(** The other tasks may only set it back, as the callback of the Wi-Fi does. *)
Class SetBack := { set_back w u w' : others w = Ret (u, w') -> ref_step w' = ref_step w \/ ref_step w' = 0 }.
Context `{!SetBack}.
#[local] Set Default Proof Using "Type*".

Lemma response_still : still response_receive.
Proof.
  unfold response_receive. apply still_bind; [apply still_main|intros there]. destruct there; cbn [negb]; [|apply still_ret].
  apply still_bind; [apply still_main|intros l]. destruct l; cbn [negb]; [|apply still_ret].
  intros w a w' E. rewrite bind_gets in E. destruct (easysetup_resp_queue w); by injection E as <- <-.
Qed.

Lemma await_moves s w a w' : await_answer others s w = Ret (a, w') -> ref_step w' = ref_step w \/ ref_step w' = 0.
Proof.
  intros E. unfold await_answer in E. apply bind_inv in E as (u & w1 & E1 & E).
  unfold wait_response in E1. apply bind_inv in E1 as (v & w0 & E0 & E1). rewrite bind_gets in E1.
  destruct (resp_bit w0); [|done]. injection E1 as <- <-.
  apply bind_inv in E as (r & w2 & E2 & E). apply response_still in E2. cbn in E2.
  assert (w' = w2) as -> by (destruct r as [r|]; [destruct (negb _)|]; by injection E).
  rewrite E2. by eapply set_back.
Qed.

Definition moves {A} (cmd : command) (get : bool) (m : HM A) : Prop :=
  forall w a w', m w = Ret (a, w') ->
    ref_step w' = ref_step w \/ ref_step w' = 0 \/
    exists s, cmd = Some s /\ may_follow get (ref_step w) s = true /\ ref_step w' = step_no s + 1.

(** A step that is handed on counts as taken. *)
Lemma ask_moves s payload w a w' :
  ask_main others s payload w = Ret (a, w') ->
  ref_step w' = 0 \/ (step_no s < 7 /\ ref_step w' = ref_step w + 1).
Proof.
  intros E. unfold ask_main in E. apply bind_inv in E as ([] & w1 & E1 & E).
  assert (H1 : ref_step w1 = if step_no s <? 7 then ref_step w + 1 else 0).
  { change (step_no IOT_EASYSETUP_STEP_LOG_SYSTEMINFO) with 7 in E1.
    destruct (step_no s <? 7); by injection E1 as <-. }
  assert (Hmove : forall x : hworld, ref_step x = ref_step w1 \/ ref_step x = 0 ->
                    ref_step x = 0 \/ (step_no s < 7 /\ ref_step x = ref_step w + 1)).
  { intros x [Hx|Hx]; [|by left]. rewrite Hx, H1. destruct (step_no s <? 7) eqn:E7; bool_to_prop; auto. }
  apply bind_inv in E as (err & w2 & E2 & E). apply in_main_inv in E2 as (x & _ & ->).
  destruct (negb (err =? 0)); [injection E as <- <-; apply Hmove; by left|].
  apply bind_inv in E as ([err2 pl] & w3 & E3 & E). apply await_moves in E3. cbn in E3.
  apply bind_inv in E as ([] & w4 & E4 & E). injection E as <- <-.
  destruct (negb (err2 =? 0)); injection E4 as <-; [by left|by apply Hmove].
Qed.

(** A step that may come, handed on from where the sequence admits it. *)
Lemma taken_moves get s jump payload w ok w1 a w' :
  (forall r, r ∈ step_no <$> jump -> may_follow get r s = true) ->
  in_sequence s jump w = Ret (ok, w1) -> ok = true -> ask_main others s payload w1 = Ret (a, w') ->
  ref_step w' = 0 \/ (may_follow get (ref_step w) s = true /\ ref_step w' = step_no s + 1).
Proof.
  intros Hjump E Hok E2. destruct (in_sequence_spec s jump w) as (ok' & E' & Hiff). rewrite E in E'. injection E' as -> ->.
  apply Hiff in Hok as Hcan. rewrite Hok in E2. cbn [andb] in E2. apply ask_moves in E2 as [?|[H7 E2]]; [by left|right].
  rewrite (proj2 (Z.ltb_lt _ _) H7) in E2. split; [|exact E2].
  destruct Hcan as [?|[Hr|Hr]]; [lia| |by apply Hjump]. apply may_follow_cases. auto.
Qed.

Lemma get_moves cmd : moves cmd true (_iot_easysetup_gen_get_payload others cmd).
Proof.
  intros w a w' E. destruct cmd as [s|]; [|injection E as <- <-; by left]. right. cbn [_iot_easysetup_gen_get_payload] in E.
  apply bind_inv in E as ([] & w1 & E1 & E).
  assert (Hr : ref_step w1 = ref_step w).
  { revert E1. apply still_when, still_main. }
  set (jump := if bool_decide (s = IOT_EASYSETUP_STEP_WIFISCANINFO) then _ else _) in E.
  apply bind_inv in E as (ok & w2 & E2 & E). destruct ok; cbn [negb] in E; [|injection E as <- <-; by left].
  apply bind_inv in E as ([b answer] & w3 & E3 & E). injection E as <- <-.
  assert (Hj : forall r, r ∈ step_no <$> jump -> may_follow true r s = true).
  { unfold jump. intros r Hrj. case_bool_decide as Hs; [|by apply not_elem_of_nil in Hrj].
    apply may_follow_cases. subst s. cbn in Hrj |- *. set_solver. }
  destruct (taken_moves true s jump None w1 true w2 _ w3 Hj E2 eq_refl E3); naive_solver congruence.
Qed.

Lemma post_moves cmd payload : moves cmd false (_iot_easysetup_gen_post_payload others cmd payload).
Proof.
  intros w a w' E. unfold _iot_easysetup_gen_post_payload in E.
  destruct (_ && _ && _); [injection E as <- <-; by left|]. destruct cmd as [s|]; [|injection E as <- <-; by left]. right.
  set (jump := if bool_decide (s = IOT_EASYSETUP_STEP_WIFIPROVIONINGINFO) then _ else _) in E.
  apply bind_inv in E as (ok & w2 & E2 & E). destruct ok; cbn [negb] in E; [|injection E as <- <-; by left].
  apply bind_inv in E as ([b [err pl]] & w3 & E3 & E).
  assert (Hr : ref_step w' = ref_step w3).
  { destruct (_ && _ && _); [|by injection E as <- <-].
    apply bind_inv in E as (err1 & w4 & E4 & E). apply still_main in E4. by injection E as <- <-. }
  assert (Hj : forall r, r ∈ step_no <$> jump -> may_follow false r s = true).
  { unfold jump. intros r Hrj. case_bool_decide as Hs; [|by apply not_elem_of_nil in Hrj].
    apply may_follow_cases. subst s. cbn in Hrj |- *. set_solver. }
  destruct (taken_moves false s jump payload w true w2 _ w3 Hj E2 eq_refl E3); naive_solver congruence.
Qed.

(** ** Sequences of requests *)

(** What can happen to the setup: a request of the phone, an event of the
    Wi-Fi, or work of the other tasks. *)
Inductive setup_op :=
| op_get (cmd : command)
| op_post (cmd : command) (payload : option (list Z))
| op_wifi (event : iot_wifi_event_t) (error : Z)
| op_others.

Definition run_setup_op (op : setup_op) : HM unit :=
  match op with
  | op_get cmd => _iot_easysetup_gen_get_payload others cmd;; mret tt
  | op_post cmd payload => _iot_easysetup_gen_post_payload others cmd payload;; mret tt
  | op_wifi event error => _iot_easysetup_wifi_event_cb event error
  | op_others => others
  end.
Fixpoint run_setup_ops (ops : list setup_op) : HM unit :=
  match ops with [] => mret tt | op :: ops => run_setup_op op;; run_setup_ops ops end.

Definition step_of (op : setup_op) : option iot_easysetup_step :=
  match op with op_get cmd | op_post cmd _ => cmd | _ => None end.

Lemma op_path op w w' p :
  path p (ref_step w) -> run_setup_op op w = Ret (tt, w') ->
  exists p', path p' (ref_step w') /\ (p' = p \/ p' = [] \/ exists s, step_of op = Some s /\ p' = p ++ [s]).
Proof.
  intros Hp E. assert (H0 : ref_step w' = 0 -> exists p', path p' (ref_step w') /\
    (p' = p \/ p' = [] \/ exists s, step_of op = Some s /\ p' = p ++ [s])).
  { intros ->. exists []. split; [constructor|auto]. }
  assert (Hm : forall get cmd (m : HM (Z * option (list Z))) a, moves cmd get m -> m w = Ret (a, w') -> step_of op = cmd ->
    exists p', path p' (ref_step w') /\ (p' = p \/ p' = [] \/ exists s, step_of op = Some s /\ p' = p ++ [s])).
  { intros get cmd m a Hm Em Hop. apply Hm in Em as [->|[?|(s & -> & Hs & ->)]]; [by eauto|by apply H0|].
    exists (p ++ [s]). split; [by eapply path_step|by eauto]. }
  destruct op as [cmd|cmd pl|event error|]; cbn [run_setup_op] in E.
  - apply bind_inv in E as (a & w1 & E1 & E). injection E as ->. by eapply Hm; [apply get_moves|..].
  - apply bind_inv in E as (a & w1 & E1 & E). injection E as ->. by eapply Hm; [apply post_moves|..].
  - destruct event; cbn [_iot_easysetup_wifi_event_cb] in E.
    + injection E as <-. eauto.
    + rewrite bind_gets in E. destruct (ref_step w <=? _); [|injection E as <-; eauto]. apply H0. by injection E as <-.
    + apply bind_inv in E as (a & w1 & E1 & E). apply still_main in E1. injection E as ->. rewrite E1. eauto.
  - apply set_back in E as [->|?]; [eauto|by apply H0].
Qed.

Lemma ops_path ops : forall w w' p,
  path p (ref_step w) -> run_setup_ops ops w = Ret (tt, w') ->
  exists p' q, path p' (ref_step w') /\ q `sublist_of` omap step_of ops /\ p' `sublist_of` p ++ q.
Proof.
  induction ops as [|op ops IH]; intros w w' p Hp E.
  { injection E as <-. exists p, []. by rewrite app_nil_r. }
  cbn [run_setup_ops] in E. apply bind_inv in E as ([] & w1 & E1 & E).
  destruct (op_path op w w1 p Hp E1) as (p1 & Hp1 & Hcase).
  destruct (IH w1 w' p1 Hp1 E) as (p' & q & Hp' & Hq & Hsub).
  assert (Hq' : q `sublist_of` omap step_of (op :: ops)).
  { cbn. destruct (step_of op); [by apply sublist_cons|done]. }
  destruct Hcase as [->|[->|(s & Hs & ->)]].
  - by exists p', q.
  - exists p', q. split_and!; [done..|]. etrans; [exact Hsub|]. by apply sublist_inserts_l.
  - exists p', (s :: q). rewrite <- app_assoc in Hsub. split_and!; [done| |done]. cbn. rewrite Hs. by apply sublist_skip.
Qed.

(** C28: Whatever requests, Wi-Fi events and work of the other tasks have gone
    before, in any number and order, the request that completes the setup is
    refused before the main task hears of it, unless the device information,
    the keys and the Wi-Fi data have been asked for or given before, in this
    order. *)
Theorem setup_in_order ops payload w w' :
  ref_step w = 0 -> run_setup_ops ops w = Ret (tt, w') ->
  [IOT_EASYSETUP_STEP_DEVICEINFO; IOT_EASYSETUP_STEP_KEYINFO; IOT_EASYSETUP_STEP_WIFIPROVIONINGINFO]
    `sublist_of` omap step_of ops \/
  _iot_easysetup_gen_post_payload others (Some IOT_EASYSETUP_STEP_SETUPCOMPLETE) payload w'
  = Ret ((IOT_ERROR_EASYSETUP_INVALID_SEQUENCE, None), with_step 0 w').
Proof.
  intros H0 E. destruct (ops_path ops w w' []) as (p' & q & Hp' & Hq & Hsub); [rewrite H0; constructor|done|].
  destruct (decide (ref_step w' = 6)) as [H6|H6]; [left|right].
  - rewrite H6 in Hp'. etrans; [by apply path_to_setup_complete|]. by etrans.
  - apply refused_spec with (s := IOT_EASYSETUP_STEP_SETUPCOMPLETE); [done..|].
    apply not_true_iff_false. intros Hf%may_follow_cases. cbn in Hf. naive_solver.
Qed.
End steps.
