(* ===== verification/SetupAnswer.v ===== *)
(** * Easy setup over HTTP: requests and the main task

    Requests that keep the order of [SetupSteps] succeed when the main task
    answers, up to the end of the setup ([setup_succeeds]) -- also without the
    confirmation by the user; a request that cannot be sent counts as taken;
    a phone that leaves confirms; and what the server does keeps the invariant
    of the main task. *)

From S2P Require Import Prelude MainState ClientRun Util MainRun MainFsm MainInv MainTask HttpParse SetupRun SetupSteps.

Section answer.
Context `{HD : Device} `{HN : PortNet} `{HS : !SetupBelow} (others : st hworld unit).
Context `{!MemoryWorks, !LocksWork}.
#[local] Set Default Proof Using "Type*".
Abbreviation HM := (st hworld).

Lemma state_update_works s w :
  exists e, iot_state_update s IOT_STATE_OPT_NONE w =
    Ret (0, MWorld _ e (m_ctx w) (m_work w ++ [command_work (Some (IOT_COMMAND_STATE_UPDATE (Some (s, IOT_STATE_OPT_NONE))))])
              true (kill_signal w) (m_notices w)).
Proof.
  unfold iot_state_update. rewrite (bool_decide_eq_false_2 (IOT_STATE_OPT_NONE = IOT_STATE_OPT_NEED_INTERACT)), andb_false_r by done.
  apply send_works.
Qed.

Lemma request_works s p w :
  exists e, iot_easysetup_request s p w =
    Ret (0, MWorld _ e (m_ctx w) (m_work w ++ [easysetup_work (Some s) p]) true (kill_signal w) (m_notices w)).
Proof.
  destruct w as [e0 c l q k n].
  unfold iot_easysetup_request, iot_put_device_work, work_queue_send, mbind, st_bind, mret, st_ret, dev, modify.
  repeat (cbn [m_env m_ctx m_work pending_signal kill_signal m_notices with_menv with_work with_pending negb];
    match goal with
    | |- context [d_malloc ?e] => pose proof (memory_works e); destruct (d_malloc e) as [[] ?]; [|done]
    | |- context [d_lock ?e] => pose proof (lock_works e); destruct (d_lock e) as [[] ?]; [|done]
    end); by eexists.
Qed.

Lemma main_lock w : exists e, in_main (dev d_lock) w = Ret (true, with_main (with_menv e (h_main w)) w).
Proof.
  unfold in_main, dev. pose proof (lock_works (m_env (h_main w))) as Hl. destruct (d_lock _) as [b e]. cbn in Hl. subst b. by exists e.
Qed.

(** The answer is taken from the queue. *)
Lemma response_taken w r q :
  easysetup_resp_queue w = r :: q -> resp_queue (m_ctx (h_main w)) = true ->
  exists e, response_receive w = Ret (Some r, with_responses q (resp_bit w) (with_main (with_menv e (h_main w)) w)).
Proof.
  intros Hq Hthere. unfold response_receive.
  rewrite bind_ret with (1 := in_main_eq (getc resp_queue) w (resp_queue (m_ctx (h_main w))) (h_main w) eq_refl), Hthere.
  cbn [negb]. destruct (main_lock (with_main (h_main w) w)) as (e & E). rewrite bind_ret with (1 := E). cbn [negb].
  rewrite bind_gets. cbn [easysetup_resp_queue with_main]. rewrite Hq. by exists e.
Qed.

Lemma report_conn_spec w : exists x, in_main report_conn w = Ret (tt, with_main x w).
Proof using Type.
  unfold in_main, report_conn, getc. rewrite !bind_gets. cbn beta.
  destruct (negb _ && _); cbn; by eexists.
Qed.

Lemma in_sequence_yes get s jump w :
  may_follow get (ref_step w) s = true -> (forall r, may_follow get r s = true -> r = step_no s \/ r ∈ step_no <$> jump) ->
  in_sequence s jump w = Ret (true, with_step (step_no s) w).
Proof using Type.
  intros Hm Hj. destruct (in_sequence_spec s jump w) as (ok & E & Hiff).
  assert (ok = true) as -> by (apply Hiff; right; by apply Hj). rewrite E. cbn [andb].
  apply may_follow_cases in Hm as [H7 _]. by rewrite (proj2 (Z.ltb_lt _ 7)).
Qed.

(** The connection and the buffer of the response are the server's own. *)
Definition same_io (w w' : hworld) : Prop := h_net w' = h_net w /\ tx_buffer w' = tx_buffer w.

(** The main task answers the request at the end of its queue. *)
Class Answers (reply : iot_easysetup_step -> list Z) := {
  answers w works s p :
    m_work (h_main w) = works ++ [easysetup_work (Some s) p] -> easysetup_resp_queue w = [] ->
    exists w', others w = Ret (tt, w') /\ easysetup_resp_queue w' = [EsPayload s 0 (Some (reply s))] /\
               resp_bit w' = true /\ ref_step w' = ref_step w /\ resp_queue (m_ctx (h_main w')) = true /\ same_io w w'
}.
Context (reply : iot_easysetup_step -> list Z) `{!Answers reply}.

(** A step that is handed to the main task is answered. *)
Lemma ask_answered s payload w :
  easysetup_resp_queue w = [] ->
  exists w', ask_main others s payload w = Ret ((true, (0, Some (reply s))), w') /\ easysetup_resp_queue w' = [] /\
             (ref_step w' = if step_no s <? 7 then ref_step w + 1 else 0) /\ same_io w w'.
Proof.
  intros Hq. unfold ask_main. change (step_no IOT_EASYSETUP_STEP_LOG_SYSTEMINFO) with 7.
  set (r' := if step_no s <? 7 then ref_step w + 1 else 0).
  rewrite bind_ret with (a := tt) (s' := with_step r' w) by (unfold r'; by destruct (step_no s <? 7)).
  set (text := (_ <$> payload)). destruct (request_works s text (h_main w)) as (e & E).
  rewrite bind_ret with (1 := in_main_eq _ (with_step r' w) _ _ E). cbn [Z.eqb negb]. set (x := MWorld _ _ _ _ _ _ _).
  destruct (answers (with_main x (with_step r' w)) (m_work (h_main w)) s text) as (w1 & E1 & Hq1 & Hb & Hr & Hthere & Hio); [done..|].
  assert (Ew : wait_response others (with_main x (with_step r' w)) = Ret (tt, with_responses (easysetup_resp_queue w1) false w1)).
  { unfold wait_response. rewrite bind_ret with (1 := E1), bind_gets, Hb. done. }
  destruct (response_taken (with_responses (easysetup_resp_queue w1) false w1) _ _ Hq1 Hthere) as (e1 & Er).
  unfold await_answer. rewrite bind_assoc, bind_ret with (1 := Ew), bind_assoc, bind_ret with (1 := Er).
  cbn [es_step]. rewrite bool_decide_true by done. eexists. split; [done|]. by split_and!.
Qed.

(** ** The whole setup *)

(** A request: a GET, or a POST with a payload. *)
Definition run_request (r : iot_easysetup_step * option (list Z)) : HM (Z * option (list Z)) :=
  match r with
  | (s, None) => _iot_easysetup_gen_get_payload others (Some s)
  | (s, Some payload) => _iot_easysetup_gen_post_payload others (Some s) (Some payload)
  end.
Fixpoint run_requests (rs : list (iot_easysetup_step * option (list Z))) : HM (list (Z * option (list Z))) :=
  match rs with [] => mret [] | r :: rs => a ← run_request r; l ← run_requests rs; mret (a :: l) end.

(** Requests that keep the order from the number [r] on. *)
Fixpoint in_order (r : Z) (rs : list (iot_easysetup_step * option (list Z))) : bool :=
  match rs with
  | [] => true
  | (s, payload) :: rs => may_follow (bool_decide (payload = None)) r s && in_order (step_no s + 1) rs
  end.

(** A request in order is answered. *)
Lemma request_answered s payload w :
  easysetup_resp_queue w = [] -> may_follow (bool_decide (payload = None)) (ref_step w) s = true ->
  exists w', run_request (s, payload) w = Ret ((0, Some (reply s)), w') /\ easysetup_resp_queue w' = [] /\
             ref_step w' = step_no s + 1 /\ same_io w w' /\
             (s = IOT_EASYSETUP_STEP_SETUPCOMPLETE -> payload <> None ->
              last (m_work (h_main w')) =
              Some (command_work (Some (IOT_COMMAND_STATE_UPDATE (Some (IOT_STATE_PROV_DONE, IOT_STATE_OPT_NONE)))))).
Proof.
  intros Hq Hm. pose proof Hm as H7. apply may_follow_cases in H7 as [H7 _].
  destruct payload as [payload|]; cbn [run_request].
  - unfold _iot_easysetup_gen_post_payload. rewrite (bool_decide_eq_false_2 (Some payload = None)) by done. cbn [andb].
    rewrite bool_decide_eq_false_2 in Hm by done.
    rewrite bind_ret with (1 := in_sequence_yes _ s _ w Hm (post_jump s)). cbn [negb].
    destruct (ask_answered s (Some payload) (with_step (step_no s) w) Hq) as (w1 & E1 & Hq1 & Hr1 & Hio).
    rewrite (proj2 (Z.ltb_lt _ 7) H7) in Hr1. rewrite bind_ret with (1 := E1). cbn [andb Z.eqb].
    case_bool_decide as Hs; [|by exists w1].
    destruct (state_update_works IOT_STATE_PROV_DONE (h_main w1)) as (e & E).
    rewrite bind_ret with (1 := in_main_eq _ w1 _ _ E). cbn [Z.eqb negb]. eexists. split_and!; [done..|].
    intros _ _. cbn [h_main with_main m_work]. by rewrite last_snoc.
  - cbn [_iot_easysetup_gen_get_payload]. rewrite bool_decide_eq_true_2 in Hm by done.
    set (m := when _ _). assert (Hrep : exists x, m w = Ret (tt, with_main x w)).
    { unfold m. case_bool_decide; [apply report_conn_spec|]. exists (h_main w). by destruct w. }
    destruct Hrep as (x & Ex). rewrite bind_ret with (1 := Ex).
    rewrite bind_ret with (1 := in_sequence_yes _ s _ (with_main x w) Hm (get_jump s)). cbn [negb].
    destruct (ask_answered s None (with_step (step_no s) (with_main x w)) Hq) as (w1 & E1 & Hq1 & Hr1 & Hio).
    rewrite (proj2 (Z.ltb_lt _ 7) H7) in Hr1. rewrite bind_ret with (1 := E1). by exists w1.
Qed.

Lemma requests_answered rs : forall w,
  easysetup_resp_queue w = [] -> in_order (ref_step w) rs = true ->
  exists w', run_requests rs w = Ret ((fun r => (0, Some (reply r.1))) <$> rs, w') /\ easysetup_resp_queue w' = [] /\
             (forall s payload, last rs = Some (s, Some payload) -> s = IOT_EASYSETUP_STEP_SETUPCOMPLETE ->
              last (m_work (h_main w')) =
              Some (command_work (Some (IOT_COMMAND_STATE_UPDATE (Some (IOT_STATE_PROV_DONE, IOT_STATE_OPT_NONE)))))).
Proof.
  induction rs as [|[s payload] rs IH]; intros w Hq Hin; [by exists w|].
  cbn [in_order] in Hin. apply andb_true_iff in Hin as [Hm Hin].
  destruct (request_answered s payload w Hq Hm) as (w1 & E1 & Hq1 & Hr1 & _ & Hlast). rewrite <- Hr1 in Hin.
  destruct (IH w1 Hq1 Hin) as (w2 & E2 & Hq2 & Hlast2).
  exists w2. cbn [run_requests]. rewrite bind_ret with (1 := E1), bind_ret with (1 := E2). split_and!; [done|done|].
  intros s' p' El Hs. destruct rs as [|r rs]; [|by eapply Hlast2].
  injection El as -> ->. injection E2 as <-. by apply Hlast.
Qed.

(** C29: When the main task answers, every sequence of requests that keeps the
    order, from the start to the one that completes the setup, is answered with
    what the main task replies, and then the main task has the command to leave
    the setup. *)
Theorem setup_succeeds rs payload w :
  easysetup_resp_queue w = [] -> ref_step w = 0 ->
  let all := rs ++ [(IOT_EASYSETUP_STEP_SETUPCOMPLETE, Some payload)] in
  in_order 0 all = true ->
  exists w', run_requests all w = Ret ((fun r => (0, Some (reply r.1))) <$> all, w') /\
             last (m_work (h_main w')) =
             Some (command_work (Some (IOT_COMMAND_STATE_UPDATE (Some (IOT_STATE_PROV_DONE, IOT_STATE_OPT_NONE))))).
Proof.
  intros Hq Hr all Hin. rewrite <- Hr in Hin. destruct (requests_answered all w Hq Hin) as (w' & E & _ & Hlast).
  exists w'. split; [done|]. eapply Hlast; [|done]. apply last_snoc.
Qed.

(** The step that confirms the ownership can be left out: the Wi-Fi data are
    taken when the next step would be to ask for the way to confirm. *)
Theorem setup_without_confirmation keys wifi payload w :
  easysetup_resp_queue w = [] -> ref_step w = 0 ->
  exists w', run_requests [(IOT_EASYSETUP_STEP_DEVICEINFO, None); (IOT_EASYSETUP_STEP_KEYINFO, Some keys);
                           (IOT_EASYSETUP_STEP_WIFIPROVIONINGINFO, Some wifi);
                           (IOT_EASYSETUP_STEP_SETUPCOMPLETE, Some payload)] w
             = Ret ([(0, Some (reply IOT_EASYSETUP_STEP_DEVICEINFO)); (0, Some (reply IOT_EASYSETUP_STEP_KEYINFO));
                     (0, Some (reply IOT_EASYSETUP_STEP_WIFIPROVIONINGINFO));
                     (0, Some (reply IOT_EASYSETUP_STEP_SETUPCOMPLETE))], w') /\
             last (m_work (h_main w')) =
             Some (command_work (Some (IOT_COMMAND_STATE_UPDATE (Some (IOT_STATE_PROV_DONE, IOT_STATE_OPT_NONE))))).
Proof.
  intros Hq Hr.
  destruct (requests_answered [(IOT_EASYSETUP_STEP_DEVICEINFO, None); (IOT_EASYSETUP_STEP_KEYINFO, Some keys);
    (IOT_EASYSETUP_STEP_WIFIPROVIONINGINFO, Some wifi); (IOT_EASYSETUP_STEP_SETUPCOMPLETE, Some payload)] w Hq)
    as (w' & E & _ & Hlast); [by rewrite Hr|].
  exists w'. split; [done|]. by eapply Hlast.
Qed.
End answer.

(** ** Where the order breaks *)

Section faults.
Context `{HD : Device} `{HN : PortNet} `{HS : !SetupBelow} (others : st hworld unit).

(** A request that cannot be handed to the main task is answered with an
    error, yet it counts: the next step of the setup may come, though the main
    task has not seen this one. *)
Theorem unsent_request_counts s payload w e :
  step_no s < 7 -> ref_step w = step_no s -> d_malloc (m_env (h_main w)) = (false, e) ->
  exists w', _iot_easysetup_gen_post_payload others (Some s) (Some payload) w
             = Ret ((IOT_ERROR_EASYSETUP_INTERNAL_SERVER_ERROR, None), w') /\
             h_main w' = with_menv e (h_main w) /\
             (forall s', step_no s' = step_no s + 1 -> may_follow false (ref_step w') s' = (step_no s' <? 7)).
Proof.
  intros H7 Hr Hm. unfold _iot_easysetup_gen_post_payload. rewrite (bool_decide_eq_false_2 (Some payload = None)) by done.
  cbn [andb]. rewrite bind_ret with (1 := in_sequence_yes false s _ w ltac:(apply may_follow_cases; auto) (post_jump s)).
  cbn [negb]. set (w1 := with_step (step_no s + 1) (with_step (step_no s) w)).
  exists (with_main (with_menv e (h_main w)) w1). split_and!.
  - rewrite bind_ret with (a := (false, (IOT_ERROR_EASYSETUP_INTERNAL_SERVER_ERROR, None)))
      (s' := with_main (with_menv e (h_main w)) w1); [done|].
    unfold ask_main. rewrite bind_ret with (a := tt) (s' := w1).
    2: { change (step_no IOT_EASYSETUP_STEP_LOG_SYSTEMINFO) with 7. by rewrite (proj2 (Z.ltb_lt _ 7) H7). }
    rewrite bind_ret with (a := IOT_ERROR_MEM_ALLOC) (s' := with_main (with_menv e (h_main w)) w1); [done|].
    apply in_main_eq. unfold iot_easysetup_request, dev, mbind, st_bind. cbn [h_main w1 with_step]. by rewrite Hm.
  - done.
  - intros s' Hs'. cbn [ref_step with_main with_step w1]. unfold may_follow. rewrite <- Hs', Z.eqb_refl. by rewrite andb_true_r.
Qed.

Lemma interact_works w `{!MemoryWorks, !LocksWork} :
  status_cb (m_ctx w) = true ->
  exists x, iot_state_update IOT_STATE_PROV_CONFIRM IOT_STATE_OPT_NEED_INTERACT w = Ret (0, x).
Proof.
  intros Hcb. unfold iot_state_update. rewrite !bool_decide_true by done. cbn [andb when].
  match goal with |- context [(?m ≫= _) w] => assert (Em : exists x, m w = Ret (tt, x)) end.
  { unfold getc. rewrite !bind_gets. destruct (negb _ && _); cbn [when]; [|by eexists].
    rewrite bind_gets, Hcb. by eexists. }
  destruct Em as (x & Em). rewrite bind_ret with (1 := Em).
  destruct (send_works (IOT_COMMAND_STATE_UPDATE (Some (IOT_STATE_PROV_CONFIRM, IOT_STATE_OPT_NEED_INTERACT))) x) as (e & E).
  by eexists.
Qed.

(** A phone that leaves the access point while the user is asked to press
    the button has confirmed the ownership: its departure sets the bit that the
    button sets. *)
Theorem leaving_confirms `{!MemoryWorks, !LocksWork} error sn w :
  (forall x, others x = _iot_easysetup_wifi_event_cb IOT_WIFI_EVENT_SOFTAP_STA_LEAVE error x) ->
  ref_step w <= 6 -> status_cb (m_ctx (h_main w)) = true ->
  exists w', _es_confirm_check_manager others OVF_BIT_BUTTON sn w = Ret (0, w') /\ ref_step w' = 0.
Proof.
  intros Hleave Hr Hcb. unfold _es_confirm_check_manager.
  set (w1 := with_main (with_ctx (set_curr_otm_feature OVF_BIT_BUTTON (m_ctx (h_main w))) (h_main w)) (with_confirm false false w)).
  rewrite bind_ret with (a := tt) (s' := with_confirm false false w) by done.
  rewrite bind_ret with (a := tt) (s' := w1) by done.
  destruct (interact_works (h_main w1) Hcb) as (x & E). rewrite bind_ret with (1 := in_main_eq _ w1 _ _ E).
  change (check_button others (with_main x w1)) with (check_button others (with_main x w1)).
  cbn [Z.eqb negb]. change (OVF_BIT_BUTTON =? OVF_BIT_JUSTWORKS) with false.
  change ((OVF_BIT_BUTTON =? OVF_BIT_QR) || (OVF_BIT_BUTTON =? OVF_BIT_SERIAL_NUMBER)) with false.
  change (OVF_BIT_BUTTON =? OVF_BIT_BUTTON) with true. cbn iota. unfold check_button.
  exists (with_confirm true false (with_step 0 (with_main x w1))). split; [|done].
  rewrite bind_ret with (a := tt) (s' := with_confirm true false (with_step 0 (with_main x w1))); [done|].
  rewrite Hleave. unfold _iot_easysetup_wifi_event_cb. rewrite bind_gets. cbn [ref_step with_main w1 with_confirm].
  change (step_no IOT_EASYSETUP_STEP_SETUPCOMPLETE) with 6. by rewrite (proj2 (Z.leb_le _ 6) Hr).
Qed.

(** ** The invariant of the main task *)

Definition main_holds (K : mworld -> Prop) (w : hworld) : Prop := K (h_main w).

Definition hkeeps {A} (K : mworld -> Prop) (m : st hworld A) : Prop :=
  forall w a w', main_holds K w -> m w = Ret (a, w') -> main_holds K w'.

Lemma hkeeps_bind {A B} K (m : st hworld A) (f : A -> st hworld B) :
  hkeeps K m -> (forall a, hkeeps K (f a)) -> hkeeps K (m ≫= f).
Proof. intros Hm Hf w b w' Hw E. apply bind_inv in E as (a & w1 & E1 & E2). eapply Hf, E2. by eapply Hm. Qed.
Lemma hkeeps_ret {A} K (a : A) : hkeeps K (mret a).
Proof. by intros w b w' Hw [= <- <-]. Qed.
Lemma hkeeps_hang {A} K : hkeeps K (@hang hworld A).
Proof. by intros w b w' Hw E. Qed.
Lemma hkeeps_gets {A} K (f : hworld -> A) : hkeeps K (gets f).
Proof. by intros w b w' Hw [= <- <-]. Qed.
Lemma hkeeps_modify K f : (forall w, h_main (f w) = h_main w) -> hkeeps K (modify f).
Proof. intros Hf w b w' Hw [= <- <-]. unfold main_holds. by rewrite Hf. Qed.
Lemma hkeeps_when K (b : bool) m : hkeeps K m -> hkeeps K (when b m).
Proof. destruct b; [done|]. intros _. apply hkeeps_ret. Qed.
Lemma hkeeps_main {A} K (m : st mworld A) : keeps K m -> hkeeps K (in_main m).
Proof. intros Hm w a w' Hw (x & E & ->)%in_main_inv. by eapply Hm. Qed.
Lemma hkeeps_net {A} K (f : nenv -> A * nenv) : hkeeps K (net f).
Proof. intros w a w' Hw E. unfold net in E. destruct (f (h_net w)). by injection E as <- <-. Qed.

Lemma hkeeps_undef {A} K : hkeeps K (@undef hworld A).
Proof. by intros w b w' Hw E. Qed.
Lemma hkeeps_need {A} K (o : option A) : hkeeps K (need o).
Proof. destruct o; [apply hkeeps_ret|apply hkeeps_undef]. Qed.
Lemma hkeeps_buffer {A} K (m : st lexer A) buf : hkeeps K (in_buffer m buf).
Proof. intros w a w' Hw E. unfold in_buffer in E. destruct (m _) as [[b x]| |]; [|done..]. by injection E as <- <-. Qed.
End faults.

Ltac hkeeps :=
  repeat (cbv beta zeta;
    match goal with
    | |- hkeeps _ (mret _) => apply hkeeps_ret
    | |- hkeeps _ hang => apply hkeeps_hang
    | |- hkeeps _ undef => apply hkeeps_undef
    | |- hkeeps _ (need _) => apply hkeeps_need
    | |- hkeeps _ (in_buffer _ _) => apply hkeeps_buffer
    | |- keeps _ _ => progress keeps
    | |- hkeeps _ (_ ≫= _) => apply hkeeps_bind; [|let x := fresh in intros x]
    | |- hkeeps _ (gets _) => apply hkeeps_gets
    | |- hkeeps _ (modify _) => apply hkeeps_modify; done
    | |- hkeeps _ (set_step _) => apply hkeeps_modify; done
    | |- hkeeps _ (when _ _) => apply hkeeps_when
    | |- hkeeps _ (net _) => apply hkeeps_net
    | |- hkeeps _ (in_main _) => apply hkeeps_main
    | |- hkeeps _ (if ?b then _ else _) => destruct b
    | |- hkeeps _ (match ?x with _ => _ end) => destruct x
    end; auto with keeps).

Section invariant.
Context `{HD : Device} `{HN : PortNet} `{HS : !SetupBelow} (others : st hworld unit) (LONG_MAX : Z).
Context `{!QuietCallbacks} (K : mworld -> Prop) `{!Local K, !Login K} (Hothers : hkeeps K others).
#[local] Set Default Proof Using "Type*".
#[local] Hint Resolve Hothers : keeps.

Lemma hkeeps_wifi event error : hkeeps K (_iot_easysetup_wifi_event_cb event error).
Proof. unfold _iot_easysetup_wifi_event_cb. hkeeps. Qed.

Lemma hkeeps_ask s payload : hkeeps K (ask_main others s payload).
Proof.
  unfold ask_main, await_answer, wait_response, response_receive. hkeeps. by apply keeps_request.
Qed.

Lemma hkeeps_sequence s jump : hkeeps K (in_sequence s jump).
Proof. unfold in_sequence. hkeeps. Qed.
#[local] Hint Resolve hkeeps_ask hkeeps_sequence : keeps.

Lemma hkeeps_get cmd : hkeeps K (_iot_easysetup_gen_get_payload others cmd).
Proof. unfold _iot_easysetup_gen_get_payload, refuse, report_conn, report_status. hkeeps. Qed.
Lemma hkeeps_post cmd payload : hkeeps K (_iot_easysetup_gen_post_payload others cmd payload).
Proof. unfold _iot_easysetup_gen_post_payload, refuse. hkeeps. Qed.
#[local] Hint Resolve hkeeps_get hkeeps_post : keeps.

Lemma hkeeps_handler cmd type data_buf : hkeeps K (http_msg_handler others cmd type data_buf).
Proof. unfold http_msg_handler, error_response, make_response. hkeeps. Qed.
#[local] Hint Resolve hkeeps_handler : keeps.

Lemma hkeeps_recv handle max : hkeeps K (recv others handle max).
Proof. unfold recv. hkeeps. Qed.
#[local] Hint Resolve hkeeps_recv : keeps.

Lemma hkeeps_read fuel handle : forall rx n, hkeeps K (http_packet_read others fuel handle rx n).
Proof. induction fuel as [|fuel IH]; intros rx n; cbn [http_packet_read]; hkeeps. Qed.
Lemma hkeeps_remaining fuel handle : forall rx n t e, hkeeps K (http_packet_read_remaining others fuel handle rx n t e).
Proof. induction fuel as [|fuel IH]; intros rx n t e; cbn [http_packet_read_remaining]; hkeeps. Qed.
#[local] Hint Resolve hkeeps_read hkeeps_remaining : keeps.

Lemma hkeeps_serve fuel handle o : hkeeps K (serve_request others LONG_MAX fuel handle o).
Proof. unfold serve_request, read_body, payload_text, read_string, send_response. hkeeps. Qed.
#[local] Hint Resolve hkeeps_serve : keeps.

Lemma hkeeps_process fuel handle : forall o, hkeeps K (process_accepted_connection others LONG_MAX fuel handle o).
Proof. induction fuel as [|fuel IH]; intros o; cbn [process_accepted_connection]; hkeeps. Qed.
#[local] Hint Resolve hkeeps_process : keeps.

Lemma hkeeps_task fuel o : hkeeps K (es_tcp_task others LONG_MAX fuel o).
Proof. revert o. induction fuel as [|fuel IH]; intros o; cbn [es_tcp_task]; unfold free_conn; hkeeps. Qed.

Lemma hkeeps_init : hkeeps K iot_easysetup_init.
Proof. unfold iot_easysetup_init, es_http_init. hkeeps. Qed.
Lemma hkeeps_deinit : hkeeps K iot_easysetup_deinit.
Proof. unfold iot_easysetup_deinit, es_http_deinit. hkeeps. Qed.
Lemma hkeeps_confirm sn feature : hkeeps K (_es_confirm_check_manager others feature sn).
Proof.
  unfold _es_confirm_check_manager, check_serial, check_button, iot_state_timeout_change. hkeeps.
Qed.
Lemma hkeeps_owner confirm : hkeeps K (st_conn_ownership_confirm confirm).
Proof. unfold st_conn_ownership_confirm. hkeeps. apply hkeeps_modify. by destruct confirm. Qed.
End invariant.

(** ** The device with its server *)

Section device.
Context `{HD : Device} `{HN : PortNet} `{HS : !SetupBelow} (others : st hworld unit) (LONG_MAX : Z) (wait_fuel : nat).
Context `{!QuietCallbacks, !LocksWork}.
#[local] Set Default Proof Using "Type*".

(** An operation of the main task or of the library, the task of the server,
    its start and its end, an event of the Wi-Fi, the check of the ownership,
    and the answer of the user. *)
Inductive device_op :=
| on_main (op : main_op)
| on_server (fuel : nat) (o : outs)
| on_init
| on_deinit
| on_wifi (event : iot_wifi_event_t) (error : Z)
| on_check (feature : Z) (sn : option (list Z))
| on_confirm (confirm : bool).

Definition run_device_op (op : device_op) : st hworld unit :=
  match op with
  | on_main op => in_main (run_main_op wait_fuel op)
  | on_server fuel o => es_tcp_task others LONG_MAX fuel o
  | on_init => iot_easysetup_init;; mret tt
  | on_deinit => iot_easysetup_deinit
  | on_wifi event error => _iot_easysetup_wifi_event_cb event error
  | on_check feature sn => _es_confirm_check_manager others feature sn;; mret tt
  | on_confirm confirm => st_conn_ownership_confirm confirm
  end.
Fixpoint run_device_ops (ops : list device_op) : st hworld unit :=
  match ops with [] => mret tt | op :: ops => run_device_op op;; run_device_ops ops end.

(** C34: The server and the confirmation keep the invariant of the main task,
    in any sequence with the operations of the task and of the library, when
    what runs while they wait keeps it. *)
Theorem setup_keeps_main_invariant ops w w' :
  (forall x u x', main_ok (h_main x) -> others x = Ret (u, x') -> main_ok (h_main x')) ->
  main_ok (h_main w) -> run_device_ops ops w = Ret (tt, w') -> main_ok (h_main w').
Proof.
  intros Ho. assert (Hothers : hkeeps main_ok others) by exact Ho.
  assert (HL : Local main_ok) by (unfold main_ok; apply _).
  assert (HG : Login main_ok) by (unfold main_ok; apply login_and; apply _).
  enough (Hall : hkeeps main_ok (run_device_ops ops)) by exact (Hall w tt w').
  induction ops as [|op ops IH]; cbn [run_device_ops]; [apply hkeeps_ret|].
  apply hkeeps_bind; [|done]. destruct op; cbn [run_device_op].
  - apply hkeeps_main. by apply keeps_op.
  - by apply hkeeps_task.
  - apply hkeeps_bind; [by apply (hkeeps_init others)|intros; apply hkeeps_ret].
  - by apply (hkeeps_deinit others).
  - by apply (hkeeps_wifi others).
  - apply hkeeps_bind; [by apply hkeeps_confirm|intros; apply hkeeps_ret].
  - by apply (hkeeps_owner others).
Qed.
End device.
