(* ===== verification/SetupHttp.v ===== *)
(** * Easy setup over HTTP: responses and the bytes of a connection

    A response is written to a buffer of exactly its size and announces the
    length of its body ([response_exact]); a request is read up to the end of
    its head, however the network cuts it ([http_packet_read_correct]); the rest
    of a body is right only when it comes in one piece
    ([later_pieces_overwrite]); and a GET that has arrived is answered
    ([get_request_served]). *)

From S2P Require Import Prelude Cursor MainState ClientRun Util UtilUrl MainRun MainInv MainTask HttpParse HttpRequest SetupRun SetupSteps SetupAnswer.

(** ** The length of the body as text *)

Lemma digit_count_spec fuel : forall n count behind,
  0 <= n < 10 ^ Z.of_nat fuel -> fuel <> O ->
  digit_count fuel n count = Some (count + zlen (decimal_digits fuel n behind) - zlen behind).
Proof.
  induction fuel as [|fuel IH]; intros n count behind Hn Hf; [done|]. cbn [digit_count decimal_digits].
  rewrite Nat2Z.inj_succ, Z.pow_succ_r in Hn by lia.
  destruct (n <? 10) eqn:E; bool_to_prop.
  - rewrite Z.div_small by lia. cbn. rewrite zlen_cons. f_equal. lia.
  - assert (Hd : 1 <= n / 10) by (apply Z.div_le_lower_bound; lia).
    rewrite (proj2 (Z.eqb_neq (n / 10) 0)) by lia.
    assert (Hlt : n / 10 < 10 ^ Z.of_nat fuel) by (apply Z.div_lt_upper_bound; lia).
    destruct fuel as [|fuel]; [cbn in Hlt; lia|].
    rewrite (IH (n / 10) (count + 1) ((48 + n mod 10) :: behind)) by (done || lia). rewrite zlen_cons. f_equal. lia.
Qed.

Lemma digit_count_payload_spec n : 0 <= n < 4294967296 -> digit_count_payload n = Some (zlen (print_uint n)).
Proof.
  intros Hn. unfold digit_count_payload, print_uint. rewrite (digit_count_spec 10 n 0 []) by (done || (cbn; lia)).
  f_equal. unfold zlen. cbn [length]. lia.
Qed.

Lemma decimal_digits_value fuel : forall n behind,
  0 <= n < 10 ^ Z.of_nat fuel -> fuel <> O ->
  decimal (decimal_digits fuel n behind) = foldl (fun acc c => 10 * acc + (c - 48)) n behind.
Proof.
  induction fuel as [|fuel IH]; intros n behind Hn Hf; [done|]. cbn [decimal_digits].
  rewrite Nat2Z.inj_succ, Z.pow_succ_r in Hn by lia.
  destruct (n <? 10) eqn:E; bool_to_prop.
  - unfold decimal. cbn [foldl]. f_equal. lia.
  - assert (Hlt : n / 10 < 10 ^ Z.of_nat fuel) by (apply Z.div_lt_upper_bound; lia).
    assert (Hd : 1 <= n / 10) by (apply Z.div_le_lower_bound; lia).
    destruct fuel as [|fuel]; [cbn in Hlt; lia|].
    rewrite IH by (done || lia). cbn [foldl]. f_equal. pose proof (Z.div_mod n 10). lia.
Qed.

Lemma print_uint_value n : 0 <= n < 4294967296 -> decimal (print_uint n) = n.
Proof. intros Hn. unfold print_uint. by rewrite decimal_digits_value by (done || (cbn; lia)). Qed.

Lemma print_uint_length n : 0 <= n < 4294967296 -> 1 <= zlen (print_uint n) <= 10.
Proof.
  intros Hn. unfold print_uint.
  assert (Hall : forall fuel m (l : list Z), fuel <> O -> 1 + zlen l <= zlen (decimal_digits fuel m l) <= Z.of_nat fuel + zlen l).
  { induction fuel as [|fuel IH]; intros m l Hf; [done|]. cbn [decimal_digits]. destruct (m <? 10); [rewrite zlen_cons; lia|].
    destruct fuel as [|fuel]; [cbn [decimal_digits]; rewrite zlen_cons; lia|].
    specialize (IH (m / 10) ((48 + m mod 10) :: l) ltac:(done)). rewrite zlen_cons in IH. lia. }
  specialize (Hall 10%nat n [] ltac:(done)). unfold zlen in Hall |- *. cbn [length] in Hall. lia.
Qed.

(** ** Responses *)

Section responses.
Context `{HD : Device} `{HN : PortNet} `{HS : !SetupBelow}.

(** What a response is: the status, the headers with the length of the body,
    and the body. *)
Definition response (status body : list Z) : list Z :=
  status ++ http_header ++ print_uint (zlen body) ++ END_OF_HTTP_HEADER ++ body.

Definition after_malloc (w : hworld) : hworld := with_main (with_menv (d_malloc (m_env (h_main w))).2 (h_main w)) w.

Lemma make_response_spec status body w :
  zlen status + zlen body < 4294967000 ->
  make_response status body w =
  Ret (tt, if (d_malloc (m_env (h_main w))).1 then with_tx (Some (response status body)) (after_malloc w) else after_malloc w).
Proof.
  intros Hlen. pose proof (zlen_nonneg status). pose proof (zlen_nonneg body).
  assert (Hb : to_uint (zlen body) = zlen body) by (apply Z.mod_small; lia).
  unfold make_response. cbn zeta. rewrite Hb, digit_count_payload_spec by lia.
  rewrite bind_mret. pose proof (print_uint_length (zlen body) ltac:(lia)) as Hp.
  assert (Hsize : to_uint (zlen body + zlen status + zlen http_header + zlen (print_uint (zlen body)) + zlen END_OF_HTTP_HEADER + 1)
                  = zlen (response status body) + 1).
  { unfold response, to_uint. rewrite !zlen_app. assert (zlen http_header = 105) by by vm_compute.
    assert (zlen END_OF_HTTP_HEADER = 4) by by vm_compute. rewrite Z.mod_small; lia. }
  rewrite Hsize. unfold in_main, dev, after_malloc, mbind, st_bind. destruct (d_malloc _) as [[] e]; [|done].
  unfold when, modify, mret, st_ret. cbn [fst snd]. do 3 f_equal.
  unfold snprintf. fold (response status body). rewrite take_ge; [done|]. pose proof (zlen_nonneg (response status body)). unfold zlen. lia.
Qed.

(** C33: A response is written completely: the buffer that is allocated has the
    length of the response and one for the terminator, nothing is cut off, and
    the length that the response announces is that of its body.  Without memory
    there is none. *)
Theorem response_exact status body w :
  zlen status + zlen body < 4294967000 ->
  make_response status body w =
  Ret (tt, if (d_malloc (m_env (h_main w))).1 then with_tx (Some (response status body)) (after_malloc w) else after_malloc w) /\
  decimal (print_uint (zlen body)) = zlen body /\
  exists digits, digit_count_payload (zlen body) = Some digits /\
    zlen body + zlen status + zlen http_header + digits + zlen END_OF_HTTP_HEADER + 1 = zlen (response status body) + 1.
Proof.
  intros Hlen. pose proof (zlen_nonneg status). pose proof (zlen_nonneg body). split_and!.
  - by apply make_response_spec.
  - apply print_uint_value. lia.
  - eexists. split; [apply digit_count_payload_spec; lia|]. unfold response. rewrite !zlen_app. lia.
Qed.
End responses.

(** ** The end of the head *)

(** The position of the first blank line. *)
Fixpoint find_head (s : list Z) : option nat :=
  if bool_decide (take 4 s = crlf ++ crlf) then Some O
  else match s with [] => None | _ :: s => S <$> find_head s end.

Lemma find_head_Some s i :
  find_head s = Some i <->
  take 4 (drop i s) = crlf ++ crlf /\ (forall j, (j < i)%nat -> take 4 (drop j s) <> crlf ++ crlf).
Proof.
  revert i. induction s as [|b s IH]; intros i; cbn [find_head].
  - rewrite bool_decide_false by done. split; [done|]. intros [E _]. by destruct i.
  - case_bool_decide as E.
    + split; [intros [= <-]; split; [done|lia]|]. intros [_ Hj]. destruct i; [done|]. exfalso. by apply (Hj O); [lia|].
    + rewrite fmap_Some. setoid_rewrite IH. split.
      * intros (j & [Ej Hj] & ->). split; [done|]. intros [|k] Hk; [done|]. apply Hj. lia.
      * intros [Ei Hj]. destruct i as [|i]; [done|]. exists i. split_and!; [done| |done]. intros j Hlt. apply (Hj (S j)). lia.
Qed.

Lemma find_head_within s i : find_head s = Some i -> (i + 4 <= length s)%nat.
Proof.
  intros [E _]%find_head_Some. apply (f_equal length) in E. rewrite length_take, length_drop in E. change (length (crlf ++ crlf)) with 4%nat in E. lia.
Qed.

Lemma find_head_app s k i : find_head s = Some i -> find_head (s ++ k) = Some i.
Proof.
  intros E. pose proof (find_head_within _ _ E) as Hi. apply find_head_Some in E as [E Hj]. apply find_head_Some.
  split.
  - rewrite drop_app_le, take_app_le by (rewrite ?length_drop; lia). done.
  - intros j Hlt. specialize (Hj j Hlt). rewrite drop_app_le, take_app_le by (rewrite ?length_drop; lia). done.
Qed.

(** What the loop over the bytes received finds: the zeros behind them are not
    part of a blank line. *)
Lemma blank_line_spec p k i :
  blank_line_at (p ++ repeat 0 k) (length p) i = true <-> take 4 (drop i p) = crlf ++ crlf.
Proof.
  unfold blank_line_at. rewrite andb_true_iff, orb_true_iff, bool_decide_eq_true, !Nat.ltb_lt.
  assert (Hzero : take 4 (drop i (p ++ repeat 0 k)) = crlf ++ crlf -> (i + 4 <= length p)%nat).
  { intros E. destruct (decide (i + 4 <= length p)%nat); [done|exfalso].
    assert (E3 : (take 4 (drop i (p ++ repeat 0 k))) !! 3%nat = Some 10) by by rewrite E.
    rewrite lookup_take_lt, lookup_drop, lookup_app_r in E3 by lia.
    apply list_elem_of_lookup_2, list_elem_of_In, repeat_spec in E3. done. }
  split.
  - intros [_ E]. specialize (Hzero E). rewrite drop_app_le, take_app_le in E by (rewrite ?length_drop; lia). done.
  - intros E. assert (Hi : (i + 4 <= length p)%nat).
    { apply (f_equal length) in E. rewrite length_take, length_drop in E. change (length (crlf ++ crlf)) with 4%nat in E. lia. }
    split; [lia|]. by rewrite drop_app_le, take_app_le by (rewrite ?length_drop; lia).
Qed.

Lemma header_position_spec p k : header_position (p ++ repeat 0 k) (length p) = find_head p.
Proof.
  unfold header_position. destruct (find_head p) as [i|] eqn:E.
  - pose proof (find_head_within _ _ E). apply find_head_Some in E as [E Hj].
    replace (list_find _ _) with (Some (i, i)); [done|]. symmetry. apply list_find_Some. split_and!.
    + apply lookup_seq. lia.
    + by apply blank_line_spec.
    + intros j y Hy Hlt. apply lookup_seq in Hy as [-> _]. rewrite blank_line_spec. by apply Hj.
  - destruct (list_find _ _) as [[i x]|] eqn:F; [exfalso|done].
    apply list_find_Some in F as (Hi & Hx & Hj). apply lookup_seq in Hi as [-> Hlt].
    cut (find_head p = Some i); [by rewrite E|]. apply find_head_Some. split; [by eapply blank_line_spec|].
    intros j Hji Hb. eapply (Hj j j); [apply lookup_seq; lia|lia|]. by eapply blank_line_spec.
Qed.

(** ** Reading a request *)

(** A port that gives the bytes of a connection in order, in pieces of any
    size, and none when there are no more or none are asked for. *)
Class Stream `{PortNet} := {
  incoming : nat -> nenv -> list Z;
  stream_read h max e :
    incoming h e <> [] -> (0 < max)%nat ->
    exists l e', port_net_read h max e = (Some l, e') /\ l <> [] /\ (length l <= max)%nat /\ incoming h e = l ++ incoming h e';
  stream_dry h max e :
    incoming h e = [] \/ max = O -> exists r e', port_net_read h max e = (r, e') /\ (r = Some [] \/ r = None)
}.

Section reading.
Context `{HD : Device} `{HN : PortNet} `{HS : !SetupBelow} `{!Stream} (others : st hworld unit).

(** While there is no work the other tasks leave the server alone. *)
Class Idle := { idle w : m_work (h_main w) = [] -> others w = Ret (tt, w) }.
Context `{!Idle}.
#[local] Set Default Proof Using "Type*".

Lemma recv_bytes h max w :
  m_work (h_main w) = [] -> incoming h (h_net w) <> [] -> (0 < max)%nat ->
  exists l e, recv others h max w = Ret (Some l, with_net e w) /\ l <> [] /\ (length l <= max)%nat /\
              incoming h (h_net w) = l ++ incoming h e.
Proof.
  intros Hw Hin Hmax. destruct (stream_read h max (h_net w) Hin Hmax) as (l & e & E & Hl & Hle & Heq).
  exists l, e. split_and!; try done. unfold recv. rewrite bind_ret with (1 := idle w Hw).
  rewrite bind_ret with (a := Some l) (s' := with_net e w) by (unfold net; by rewrite E).
  by rewrite bool_decide_true.
Qed.

Lemma recv_nothing h max w :
  m_work (h_main w) = [] -> incoming h (h_net w) = [] \/ max = O ->
  exists r e, recv others h max w = Ret (r, with_net e w) /\ (r = Some [] \/ r = None).
Proof.
  intros Hw Hin. destruct (stream_dry h max (h_net w) Hin) as (r & e & E & Hr).
  exists r, e. split; [|done]. unfold recv. rewrite bind_ret with (1 := idle w Hw).
  rewrite bind_ret with (a := r) (s' := with_net e w) by (unfold net; by rewrite E).
  destruct Hr as [-> | ->]; [|done]. by rewrite bool_decide_true by (cbn; lia).
Qed.

(** The buffer with [s] received, of [size] bytes. *)
Definition filled (size : nat) (s : list Z) : list Z := s ++ repeat 0 (size - length s).

Lemma length_filled size s : (length s <= size)%nat -> length (filled size s) = size.
Proof using Type. intros Hs. unfold filled. rewrite length_app, repeat_length. lia. Qed.

Lemma put_filled size s l :
  (length s + length l <= size)%nat -> put (filled size s) (length s) l = filled size (s ++ l).
Proof using Type.
  intros Hs. unfold put, filled. rewrite take_app_length, <- app_assoc. do 2 f_equal.
  rewrite drop_app_ge, length_app by lia. replace (length s + length l - length s)%nat with (length l) by lia.
  replace (size - length s)%nat with (length l + (size - (length s + length l)))%nat at 1 by lia.
  rewrite repeat_app, drop_app_ge, repeat_length by (rewrite repeat_length; lia). by rewrite Nat.sub_diag, drop_0.
Qed.

Lemma find_head_take n s i : find_head s = Some i -> (i + 4 <= n)%nat -> find_head (take n s) = Some i.
Proof using Type.
  intros [E Hj]%find_head_Some Hn. apply find_head_Some. split.
  - by rewrite skipn_firstn_comm, take_take, Nat.min_l by lia.
  - intros j Hlt. by rewrite skipn_firstn_comm, take_take, Nat.min_l by lia; apply Hj.
Qed.

(** What the reader should do with the bytes [all] of the connection: stop
    anywhere behind the head, with the rest still to come. *)
Definition head_read (h size : nat) (all : list Z) (r : Z * (list Z * (nat * nat))) (e : nenv) : Prop :=
  match find_head (take (size - 1) all) with
  | Some i => exists n, (i + 4 <= n <= size - 1)%nat /\ (n <= length all)%nat /\
                r = (0, (filled size (take n all), (n, (i + 4)%nat))) /\ incoming h e = drop n all
  | None => r.1 = IOT_ERROR_EASYSETUP_HTTP_RECV_FAIL \/ r.1 = IOT_ERROR_EASYSETUP_HTTP_PEER_CONN_CLOSED
  end.

Lemma packet_read h size fuel : forall p w,
  m_work (h_main w) = [] -> (length p <= size - 1)%nat -> (size - 1 - length p < fuel)%nat -> find_head p = None ->
  exists r e, http_packet_read others fuel h (filled size p) (length p) w = Ret (r, with_net e w) /\
              head_read h size (p ++ incoming h (h_net w)) r e.
Proof.
  induction fuel as [|fuel IH]; intros p w Hw Hp Hf Hnone; [lia|]. cbn [http_packet_read].
  rewrite length_filled by lia.
  destruct (decide (incoming h (h_net w) <> [] /\ 0 < size - length p - 1)%nat) as [[Hin Hmax]|Hdry].
  - destruct (recv_bytes h _ w Hw Hin Hmax) as (l & e & E & Hl & Hle & Heq).
    rewrite bind_ret with (1 := E). destruct l as [|b l]; [done|].
    set (bs := b :: l) in *. rewrite put_filled by lia.
    assert (Hlen : (length p + length bs)%nat = length (p ++ bs)) by (rewrite length_app; lia). rewrite Hlen.
    unfold filled at 1. rewrite header_position_spec, Heq, app_assoc.
    assert (Hpos : (0 < length bs)%nat) by (unfold bs; cbn; lia).
    destruct (find_head (p ++ bs)) as [i|] eqn:Ei.
    + pose proof (find_head_within _ _ Ei) as Hi. eexists _, e. split; [done|]. unfold head_read.
      rewrite (find_head_take (size - 1) _ i) by (by apply find_head_app || lia).
      exists (length (p ++ bs)). rewrite take_app_length, drop_app_length.
      split_and!; [lia|lia|rewrite (length_app (p ++ bs)); lia|done|done].
    + destruct (IH (p ++ bs) (with_net e w)) as (r & e' & E' & Hr); [done|lia|lia|done|]. cbn [h_net with_net] in Hr. by exists r, e'.
  - destruct (recv_nothing h (size - length p - 1) w Hw) as (r & e & E & Hr).
    { destruct (incoming h (h_net w)) eqn:?; [by left|]. right. destruct (size - length p - 1)%nat eqn:?; [done|]. exfalso. apply Hdry. split; [done|lia]. }
    rewrite bind_ret with (1 := E).
    assert (Hall : take (size - 1) (p ++ incoming h (h_net w)) = p).
    { destruct (incoming h (h_net w)) eqn:?; [rewrite app_nil_r; apply take_ge; lia|].
      assert (Hfull : (size - 1 <= length p)%nat) by (destruct (decide (size - 1 <= length p)%nat); [done|exfalso; apply Hdry; split; [done|lia]]).
      rewrite take_app_le by done. apply take_ge. lia. }
    destruct Hr as [-> | ->]; (eexists _, e; split; [done|]); unfold head_read; rewrite Hall, Hnone; cbn; tauto.
Qed.

(** C31: However the network cuts the bytes of a connection into pieces, the
    server reads a request up to the end of its head and possibly further: when
    the blank line is within the buffer, the buffer holds what has been received
    and zeros behind it, the head ends with the first blank line, and the bytes
    that have not been read are still to come.  Without one it fails. *)
Theorem http_packet_read_correct h fuel w :
  m_work (h_main w) = [] -> (RX_BUFFER_MAX <= fuel)%nat ->
  exists r e, http_packet_read others fuel h (repeat 0 RX_BUFFER_MAX) 0 w = Ret (r, with_net e w) /\
              head_read h RX_BUFFER_MAX (incoming h (h_net w)) r e.
Proof.
  intros Hw Hf. assert (Hr : (0 < RX_BUFFER_MAX)%nat) by (apply Nat.ltb_lt; by vm_compute).
  destruct (packet_read h RX_BUFFER_MAX fuel [] w Hw) as (r & e & E & H'); [cbn [length]; lia|cbn [length]; lia|done|]. by exists r, e.
Qed.

(** ** The rest of a body *)

(** Pieces that the port gives one after the other, each of at most [max]
    bytes. *)
Fixpoint reads (h max : nat) (ls : list (list Z)) (e e' : nenv) : Prop :=
  match ls with
  | [] => e' = e
  | l :: ls => l <> [] /\ (length l <= max)%nat /\ exists e1, port_net_read h max e = (Some l, e1) /\ reads h max ls e1 e'
  end.

Lemma recv_piece h max l e w :
  m_work (h_main w) = [] -> (length l <= max)%nat -> port_net_read h max (h_net w) = (Some l, e) ->
  recv others h max w = Ret (Some l, with_net e w).
Proof.
  intros Hw Hle E. unfold recv. rewrite bind_ret with (1 := idle w Hw).
  rewrite bind_ret with (a := Some l) (s' := with_net e w) by (unfold net; by rewrite E).
  by rewrite bool_decide_true.
Qed.

Lemma remaining_pieces h offset expected : forall ls last fuel buf total w e,
  m_work (h_main w) = [] -> (offset < length buf)%nat ->
  reads h (length buf - offset - 1) (ls ++ [last]) (h_net w) e ->
  total + zlen (concat ls) < expected \/ ls = [] -> expected <= total + zlen (concat (ls ++ [last])) ->
  (length ls < fuel)%nat ->
  http_packet_read_remaining others fuel h buf offset total expected w
  = Ret ((0, put (foldl (fun b l => put b offset l) buf ls) offset last), with_net e w).
Proof.
  induction ls as [|l ls IH]; intros last fuel buf total w e Hw Hoff Hr Hlt Hle Hf;
    (destruct fuel as [|fuel]; [cbn in Hf; lia|]); cbn [http_packet_read_remaining].
  - destruct Hr as (Hne & Hmax & e1 & E & ->). rewrite bind_ret with (1 := recv_piece _ _ _ _ _ Hw Hmax E).
    destruct last as [|b last]; [done|]. cbn [app concat] in Hle. rewrite app_nil_r in Hle.
    by rewrite (proj2 (Z.ltb_ge _ expected)) by lia.
  - destruct Hr as (Hne & Hmax & e1 & E & Hr). rewrite bind_ret with (1 := recv_piece _ _ _ _ _ Hw Hmax E).
    destruct l as [|b l]; [done|]. set (bs := b :: l) in *. cbn [app concat] in Hle, Hlt. rewrite zlen_app in Hle, Hlt.
    destruct Hlt as [Hlt|]; [|done]. pose proof (zlen_nonneg (concat ls)).
    rewrite (proj2 (Z.ltb_lt _ expected)) by lia. cbn [length] in Hf.
    assert (Hput : length (put buf offset bs) = length buf) by (apply length_put; lia).
    rewrite (IH last fuel (put buf offset bs) (total + zlen bs) (with_net e1 w) e); [done|done|lia|by rewrite Hput|left; lia|lia|lia].
Qed.

Lemma length_puts offset ls : forall buf, (offset <= length buf)%nat ->
  Forall (fun l => (offset + length l <= length buf)%nat) ls ->
  length (foldl (fun b l => put b offset l) buf ls) = length buf.
Proof using Type.
  induction ls as [|l ls IH]; intros buf Hb Hls; [done|]. apply Forall_cons in Hls as [Hl Hls]. cbn [foldl].
  rewrite IH; rewrite ?length_put; done || lia.
Qed.

Lemma take_puts offset ls : forall buf, (offset <= length buf)%nat ->
  take offset (foldl (fun b l => put b offset l) buf ls) = take offset buf.
Proof using Type.
  induction ls as [|l ls IH]; intros buf Hb; [done|]. cbn [foldl].
  assert (Ht : take offset (put buf offset l) = take offset buf).
  { unfold put. by rewrite take_app_le, take_ge by (rewrite ?length_take; lia). }
  rewrite IH, Ht; [done|]. unfold put. rewrite length_app, length_take. lia.
Qed.

(** The rest of a body is read until as many bytes have come as are
    expected, but each piece is written over the one before: what stands in the
    buffer in the end begins with the last piece, which is the rest of the body
    only when it is the only one. *)
Theorem later_pieces_overwrite h offset ls last fuel buf w e expected :
  m_work (h_main w) = [] -> (offset < length buf)%nat ->
  reads h (length buf - offset - 1) (ls ++ [last]) (h_net w) e ->
  Z.of_nat offset + zlen (concat ls) < expected \/ ls = [] -> expected <= Z.of_nat offset + zlen (concat (ls ++ [last])) ->
  (length ls < fuel)%nat ->
  exists buf', http_packet_read_remaining others fuel h buf offset (Z.of_nat offset) expected w = Ret ((0, buf'), with_net e w) /\
    take offset buf' = take offset buf /\ take (length last) (drop offset buf') = last /\
    (ls = [] -> buf' = put buf offset last).
Proof.
  intros Hw Hoff Hr Hlt Hle Hf. eexists. split; [by apply remaining_pieces|].
  assert (Hls : Forall (fun l => (length l <= length buf - offset - 1)%nat) (ls ++ [last])).
  { clear - Hr. revert Hr. generalize (h_net w). induction (ls ++ [last]) as [|l k IH]; intros e0 Hr; [constructor|].
    destruct Hr as (_ & Hl & e1 & _ & Hr). constructor; [done|by eapply IH]. }
  apply Forall_app in Hls as [Hls Hlast]. apply Forall_singleton in Hlast.
  assert (Hlen : length (foldl (fun b l => put b offset l) buf ls) = length buf).
  { apply length_puts; [lia|]. eapply Forall_impl; [exact Hls|]. cbn. lia. }
  split_and!.
  - unfold put at 1. rewrite take_app_le, take_ge by (rewrite ?length_take; lia). apply take_puts. lia.
  - unfold put at 1. rewrite drop_app_ge, length_take, Hlen, Nat.min_l, Nat.sub_diag, drop_0 by (rewrite ?length_take; lia).
    apply take_app_length.
  - by intros ->.
Qed.
End reading.

(** ** Requests that are served *)

Lemma find_head_cons b s : take 4 (b :: s) <> crlf ++ crlf -> find_head (b :: s) = S <$> find_head s.
Proof. intros Hb. cbn [find_head]. by rewrite bool_decide_false. Qed.

Lemma find_head_line s rest : Forall (fun b => b <> 13) s -> find_head (s ++ rest) = Nat.add (length s) <$> find_head rest.
Proof.
  induction 1 as [|b s Hb Hs IH]; cbn [app length]; [by destruct (find_head rest)|].
  rewrite find_head_cons, IH; [by destruct (find_head rest)|]. cbn. congruence.
Qed.

Lemma find_head_next c rest : c <> 13 -> find_head (crlf ++ c :: rest) = Nat.add 2 <$> find_head (c :: rest).
Proof.
  intros Hc. unfold crlf. cbn [app]. rewrite (find_head_cons 13).
  2: { intros [=]. congruence. }
  rewrite (find_head_cons 10) by (intros [=]).
  by destruct (find_head (c :: rest)).
Qed.

(** The lines of a head, without their ends. *)
Definition line_ok (l : list Z) : Prop := l <> [] /\ Forall (fun b => b <> 13) l.
Definition lines (ls : list (list Z)) : list Z := concat ((fun l => l ++ crlf) <$> ls).

Lemma find_head_lines rest : forall ls l,
  Forall line_ok (l :: ls) -> find_head (lines (l :: ls) ++ crlf ++ rest) = Some (length (lines (l :: ls)) - 2)%nat.
Proof.
  induction ls as [|k ls IH]; intros l Hok; apply Forall_cons in Hok as [[Hne Hl] Hls]; unfold lines; cbn [fmap list_fmap concat].
  - rewrite app_nil_r, <- app_assoc, find_head_line by done.
    rewrite length_app. change (find_head (crlf ++ crlf ++ rest)) with (Some O). cbn [fmap option_fmap option_map]. f_equal.
    unfold crlf. cbn [length]. lia.
  - rewrite <- !app_assoc, find_head_line by done. specialize (IH k Hls). apply Forall_cons in Hls as [[Hk Hk13] _].
    unfold lines in IH. cbn [fmap list_fmap concat] in IH.
    destruct k as [|c k]; [done|]. apply Forall_cons in Hk13 as [Hc _]. rewrite <- !app_assoc in IH. cbn [app] in IH |- *.
    rewrite find_head_next by done. rewrite IH. cbn [fmap option_fmap option_map]. f_equal. unfold crlf. repeat (rewrite !length_app || cbn [length app]). lia.
Qed.

Lemma not_cr delim s : 13 ∈ delim -> Forall (fun b => in_token delim b = true) s -> Forall (fun b => b <> 13) s.
Proof.
  intros Hd Hs. eapply Forall_impl; [exact Hs|]. intros b [_ Hb]%in_token_spec ->. done.
Qed.

(** The head of a request ends with its first blank line, when there is no
    line end in its path. *)
Lemma head_of_request r more :
  request_ok r -> value_ok (r_uri r) -> find_head (print_head r ++ more) = Some (length (print_head r) - 4)%nat.
Proof.
  destruct r as [m u v hs body]. intros [[Hm0 Hm] [Hu0 Hu] [Hv0 Hv] Hhs _] Huri. cbn [r_method r_uri r_prot r_headers] in *.
  set (ls := (fun h : list Z * list Z => h.1 ++ 58 :: 32 :: h.2) <$> hs). set (l := m ++ 32 :: u ++ 32 :: v).
  assert (Hp : print_head (Request m u v hs body) = lines (l :: ls) ++ crlf).
  { unfold print_head, lines, print_headers, ls, l. cbn [r_method r_uri r_prot r_headers fmap list_fmap concat].
    rewrite <- list_fmap_compose. replace (print_header <$> hs) with (((fun l => l ++ crlf) ∘ (fun h => h.1 ++ 58 :: 32 :: h.2)) <$> hs).
    - by simplify_list_eq.
    - apply list_fmap_ext. intros i h _. unfold print_header. cbn [compose]. by simplify_list_eq. }
  rewrite Hp, <- app_assoc, find_head_lines.
  - f_equal. rewrite length_app. cbn. lia.
  - constructor.
    + split; [by destruct m|]. unfold l. apply Forall_app. split; [by eapply not_cr; [|exact Hm]; set_solver|].
      constructor; [done|]. apply Forall_app. split; [by eapply not_cr; [|exact Huri]; set_solver|]. constructor; [done|].
      by eapply not_cr; [|exact Hv]; set_solver.
    + unfold ls. apply Forall_fmap. eapply Forall_impl; [exact Hhs|]. intros [k w] [[Hk0 Hk] Hw]. cbn in *. split; [by destruct k|].
      apply Forall_app. split; [by eapply not_cr; [|exact Hk]; set_solver|]. do 2 (constructor; [done|]).
      by eapply not_cr; [|exact Hw]; set_solver.
Qed.

(** A GET is understood whatever stands behind its first line. *)
Lemma get_understood LONG_MAX size o u v rest sv :
  word_ok [32; 9] u -> word_ok [32; 9; 13; 10] v ->
  exists x, es_msg_parser LONG_MAX size o (Lexer (lit "GET" ++ 32 :: u ++ 32 :: v ++ crlf ++ rest) sv)
            = Ret ((IOT_ERROR_NONE, Outs (o_payload o) (get_cmd u) D2D_GET (o_content_len o)), x).
Proof.
  intros Hu Hv. unfold es_msg_parser. assert (Hm : word_ok [32; 9; 13; 10] (lit "GET")) by (split; [done|by repeat constructor]).
  rewrite (first_line (lit "GET") u v) by done. cbn beta iota.
  set (x := Lexer _ _). rewrite bind_ret with (a := lit "GET") (s' := x).
  2: { by apply string_at_spec with (rest := u ++ 0 :: v ++ 0 :: 10 :: rest); [|apply (not_zero _ _ (proj2 Hm))]. }
  rewrite bool_decide_true by done. erewrite bind_ret.
  2: { apply uri_still_there with (n := length (lit "GET" ++ 0 :: u ++ [0])) (m := lit "GET") (l := []); [|by apply (not_zero _ _ (proj2 Hu))].
       replace (lit "GET" ++ 0 :: u ++ 0 :: v ++ 0 :: 10 :: rest) with ((lit "GET" ++ 0 :: u ++ [0]) ++ v ++ 0 :: 10 :: rest)
         by by simplify_list_eq.
       by rewrite take_app_length. }
  by eexists.
Qed.

Section serving.
Context `{HD : Device} `{HN : PortNet} `{HS : !SetupBelow} `{!Stream} (others : st hworld unit) (LONG_MAX : Z).
Context `{!Idle others, !MemoryWorks, !LocksWork} (reply : iot_easysetup_step -> list Z) `{!Answers others reply}.
#[local] Set Default Proof Using "Type*".

(** A GET whose turn it is gets its response. *)
Lemma get_handled s data w :
  easysetup_resp_queue w = [] -> may_follow true (ref_step w) s = true -> zlen (reply s) < 2147483648 ->
  exists w', http_msg_handler others (Some s) D2D_GET data w = Ret (tt, w') /\
             h_net w' = h_net w /\ tx_buffer w' = Some (response http_status_200 (reply s)) /\ ref_step w' = step_no s + 1 /\
             easysetup_resp_queue w' = [].
Proof.
  intros Hq Hm Hlen. destruct (request_answered others reply s None w Hq Hm) as (w1 & E1 & Hq1 & Hr1 & [Hnet _] & _).
  cbn [run_request] in E1. unfold http_msg_handler. rewrite bind_ret with (1 := E1). cbn [Z.eqb].
  assert (zlen http_status_200 = 15) by by vm_compute. rewrite make_response_spec by lia.
  pose proof (memory_works (m_env (h_main w1))) as Hmem. rewrite Hmem. by eexists.
Qed.

Lemma get_request_parsed r n size more o :
  request_ok r -> r_method r = lit "GET" -> (length (print_head r) <= n)%nat ->
  forall w, exists b, in_buffer (es_msg_parser LONG_MAX RX_BUFFER_MAX o) (filled size (take n (print_head r ++ more))) w
  = Ret (((IOT_ERROR_NONE, Outs (o_payload o) (get_cmd (r_uri r)) D2D_GET (o_content_len o)), b), w).
Proof using Type.
  intros [Hm Hu Hv _ _] Hget Hn w.
  assert (Hbuf : exists rest, filled size (take n (print_head r ++ more)) = lit "GET" ++ 32 :: r_uri r ++ 32 :: r_prot r ++ crlf ++ rest).
  { unfold filled. rewrite take_app_ge by done. unfold print_head at 1. rewrite Hget. eexists. by simplify_list_eq. }
  destruct Hbuf as (rest & ->). unfold in_buffer.
  destruct (get_understood LONG_MAX RX_BUFFER_MAX o (r_uri r) (r_prot r) rest None Hu Hv) as (x & ->). by exists (buffer x).
Qed.

(** C30: A GET whose turn it is, with a head that fits the buffer and a path
    without a line end, is served, however the network cuts it: the answer of
    the main task is written to the connection as a response with the status
    200, the step counts as taken, and the connection is ready for the next
    request. *)
Theorem get_request_served fuel h o r s more w :
  request_ok r -> value_ok (r_uri r) -> r_method r = lit "GET" -> get_cmd (r_uri r) = Some s ->
  (length (print_head r) < RX_BUFFER_MAX)%nat -> (RX_BUFFER_MAX <= fuel)%nat ->
  m_work (h_main w) = [] -> easysetup_resp_queue w = [] -> may_follow true (ref_step w) s = true ->
  zlen (reply s) < 2147483648 -> incoming h (h_net w) = print_head r ++ more ->
  exists n e len e' w', (length (print_head r) <= n)%nat /\ incoming h e = drop n (print_head r ++ more) /\
    port_net_write h (response http_status_200 (reply s)) e = (len, e') /\
    serve_request others LONG_MAX fuel h o w
    = Ret (if len <? 0 then inl IOT_ERROR_EASYSETUP_INTERNAL_SERVER_ERROR else inr (Outs (o_payload o) (Some s) D2D_GET 0), w') /\
    h_net w' = e' /\ tx_buffer w' = None /\ ref_step w' = step_no s + 1 /\ easysetup_resp_queue w' = [].
Proof.
  intros Hok Huri Hget Hcmd Hfit Hf Hw Hq Hm Hlen Hin. unfold serve_request.
  destruct (packet_read others h RX_BUFFER_MAX fuel [] w Hw) as (res & e & E & Hres); [cbn [length]; lia|cbn [length]; lia|done|].
  unfold head_read in Hres. cbn [app] in Hres. rewrite Hin in Hres.
  assert (Hhead : find_head (take (RX_BUFFER_MAX - 1) (print_head r ++ more)) = Some (length (print_head r) - 4)%nat).
  { rewrite take_app_ge by lia. by apply head_of_request. }
  rewrite Hhead in Hres. destruct Hres as (n & Hn & _ & -> & Hrest).
  pose proof (find_head_within _ _ Hhead) as Hin4.
  change (filled RX_BUFFER_MAX []) with (repeat 0 RX_BUFFER_MAX) in E. rewrite bind_ret with (1 := E). cbn [Z.eqb negb].
  assert (H4 : (length (print_head r) <= n)%nat).
  { pose proof (head_of_request r [] Hok Huri) as Hh. apply find_head_within in Hh. rewrite app_nil_r in Hh. lia. }
  set (o1 := Outs _ _ _ 0). destruct (get_request_parsed r n RX_BUFFER_MAX more o1 Hok Hget H4 (with_net e w)) as (b & Ep).
  rewrite bind_ret with (1 := Ep). unfold read_body. cbn [o_type]. rewrite bind_mret. cbn [negb].
  change (IOT_ERROR_NONE =? 0) with true. cbn [negb o_cmd o_type]. rewrite Hcmd.
  destruct (get_handled s None (with_net e w) Hq Hm Hlen) as (w1 & E1 & Hnet & Htx & Hr & Hq1). cbn [h_net with_net] in Hnet.
  rewrite bind_ret with (a := tt) (s' := w1); [|by unfold payload_text; cbn [o_type]; rewrite bind_mret].
  destruct (port_net_write h (response http_status_200 (reply s)) e) as [len e'] eqn:Ew.
  exists n, e, len, e', (with_tx None (with_net e' w1)). split_and!; try done.
  unfold send_response. rewrite bind_gets, Htx. rewrite bind_ret with (a := len) (s' := with_net e' w1); [done|].
  unfold net. by rewrite Hnet, Ew.
Qed.
End serving.
