(* ===== verification/SetupSample.v ===== *)
(** * Easy setup over HTTP: a sample connection

    A port that hands out the bytes of a phone in pieces, and a main task that
    answers each request, under the device of [MainSample]: the witnesses of the
    theorems on the easy setup. *)

From S2P Require Import Prelude Cursor MainState ClientRun Util UtilUrl MainRun MainFsm MainInv MainSample MainTask HttpParse HttpRequest SetupRun SetupSteps SetupAnswer SetupHttp.

(** What the phone still sends, where the network cuts it (one byte less than
    the numbers say; then nowhere), and what it has received. *)
Record cable := Cable { c_in : list Z; c_cuts : list nat; c_out : list (list Z) }.

#[export] Instance sim_net : PortNet := {|
  nenv := cable;
  port_net_listen e := (Some O, e);
  port_net_read _ max e :=
    let n := Nat.min max (S (hd 2000%nat (c_cuts e))) in
    (Some (take n (c_in e)), Cable (drop n (c_in e)) (tl (c_cuts e)) (c_out e));
  port_net_write _ l e := (zlen l, Cable (c_in e) (c_cuts e) (c_out e ++ [l]));
  port_net_free _ e := e
|}.

#[export] Instance sim_stream : Stream.
Proof.
  refine {| incoming := fun (_ : nat) (e : @nenv sim_net) => c_in e |}.
  - intros h max e Hin Hmax. do 2 eexists. split; [done|]. cbn [c_in]. set (n := Nat.min _ _).
    assert (Hn : (0 < n <= max)%nat) by lia. split_and!.
    + destruct (c_in e); [done|]. by destruct n; [lia|].
    + rewrite length_take. lia.
    + by rewrite take_drop.
  - intros h max e Hdry. do 2 eexists. split; [done|]. left. f_equal. destruct Hdry as [->| ->]; [by rewrite take_nil|done].
Defined.

#[export] Instance sim_below `{Device} : SetupBelow := {|
  iot_security_cipher_init e := (IOT_ERROR_NONE, e);
  iot_security_cipher_deinit e := (IOT_ERROR_NONE, e);
  iot_bsp_wifi_register_event_cb e := (IOT_ERROR_NONE, e);
  iot_bsp_wifi_clear_event_cb e := e;
  iot_os_thread_create e := (true, e);
  serial_number e := ((IOT_ERROR_NONE, lit "STDK1234"), e);
  cJSON_CreateObject e := (true, e);
  add_number e := (true, e);
  cJSON_PrintUnformatted n e := (Some (match n with Some n => lit "{'error':{'code':" ++ print_uint n ++ lit "}}" | None => lit "{}" end), e)
|}.

Definition sim_reply (s : iot_easysetup_step) : list Z := lit "{'step':" ++ print_uint (step_no s) ++ lit "}".

(** The main task, as the server sees it. *)
Definition sim_others : st hworld unit := fun w =>
  match last (m_work (h_main w)) with
  | Some (easysetup_work (Some s) _) =>
      Ret (tt, with_responses (easysetup_resp_queue w ++ [EsPayload s 0 (Some (sim_reply s))]) true
                 (with_main (with_work [] (with_ctx (set_resp_queue true (m_ctx (h_main w))) (h_main w))) w))
  | _ => Ret (tt, w)
  end.

#[export] Instance sim_idle : Idle sim_others.
Proof. split. intros w Hw. unfold sim_others. by rewrite Hw. Qed.

#[export] Instance sim_answers : Answers sim_others sim_reply.
Proof.
  split. intros w works s p Hw Hq. unfold sim_others. rewrite Hw, last_snoc, Hq. eexists. by split_and!.
Qed.

(** The server at the start of a setup, with what the phone sends. *)
Definition server (sent : list Z) (cuts : list nat) : hworld :=
  HWorld _ _ new_device (Cable sent cuts []) [] false false false 0 None false true (Some O).

(** ** The order *)

Lemma sim_set_back : SetBack sim_others.
Proof.
  split. intros w [] w' E. unfold sim_others in E. left. destruct (last _) as [[cmd|[s|] p]|]; by injection E as <-.
Qed.

Definition keys : list Z := lit "{'keys':1}".

Lemma setup_in_order_witness :
  exists w', run_setup_ops sim_others [op_get (Some IOT_EASYSETUP_STEP_DEVICEINFO); op_post (Some IOT_EASYSETUP_STEP_WIFIPROVIONINGINFO) (Some keys)]
               (server [] []) = Ret (tt, w') /\
             (sublist [IOT_EASYSETUP_STEP_DEVICEINFO; IOT_EASYSETUP_STEP_KEYINFO; IOT_EASYSETUP_STEP_WIFIPROVIONINGINFO]
                [IOT_EASYSETUP_STEP_DEVICEINFO; IOT_EASYSETUP_STEP_WIFIPROVIONINGINFO] \/
              _iot_easysetup_gen_post_payload sim_others (Some IOT_EASYSETUP_STEP_SETUPCOMPLETE) None w'
              = Ret ((IOT_ERROR_EASYSETUP_INVALID_SEQUENCE, None), with_step 0 w')).
Proof.
  eexists. split; [vm_compute; reflexivity|].
  refine (@setup_in_order _ _ _ sim_others sim_set_back [op_get (Some IOT_EASYSETUP_STEP_DEVICEINFO);
    op_post (Some IOT_EASYSETUP_STEP_WIFIPROVIONINGINFO) (Some keys)] None (server [] []) _ eq_refl _).
  vm_compute. reflexivity.
Defined.

Lemma setup_succeeds_witness :
  let rs := [(IOT_EASYSETUP_STEP_DEVICEINFO, None); (IOT_EASYSETUP_STEP_KEYINFO, Some keys);
             (IOT_EASYSETUP_STEP_CONFIRMINFO, Some keys); (IOT_EASYSETUP_STEP_CONFIRM, Some keys);
             (IOT_EASYSETUP_STEP_WIFISCANINFO, None); (IOT_EASYSETUP_STEP_WIFIPROVIONINGINFO, Some keys)] in
  let all := rs ++ [(IOT_EASYSETUP_STEP_SETUPCOMPLETE, Some keys)] in
  exists w', run_requests sim_others all (server [] []) = Ret ((fun r => (0, Some (sim_reply r.1))) <$> all, w') /\
             last (m_work (h_main w')) =
             Some (command_work (Some (IOT_COMMAND_STATE_UPDATE (Some (IOT_STATE_PROV_DONE, IOT_STATE_OPT_NONE))))).
Proof.
  intros rs all. by apply (setup_succeeds sim_others sim_reply rs keys (server [] [])); [..|vm_compute].
Defined.

Lemma setup_without_confirmation_witness :
  exists w', run_requests sim_others
    [(IOT_EASYSETUP_STEP_DEVICEINFO, None); (IOT_EASYSETUP_STEP_KEYINFO, Some keys);
     (IOT_EASYSETUP_STEP_WIFIPROVIONINGINFO, Some keys); (IOT_EASYSETUP_STEP_SETUPCOMPLETE, Some keys)] (server [] [])
    = Ret ([(0, Some (sim_reply IOT_EASYSETUP_STEP_DEVICEINFO)); (0, Some (sim_reply IOT_EASYSETUP_STEP_KEYINFO));
            (0, Some (sim_reply IOT_EASYSETUP_STEP_WIFIPROVIONINGINFO));
            (0, Some (sim_reply IOT_EASYSETUP_STEP_SETUPCOMPLETE))], w') /\
    last (m_work (h_main w')) =
    Some (command_work (Some (IOT_COMMAND_STATE_UPDATE (Some (IOT_STATE_PROV_DONE, IOT_STATE_OPT_NONE))))).
Proof. by apply (setup_without_confirmation sim_others sim_reply keys keys keys (server [] [])). Defined.

(** A device without memory. *)
Definition dry : @hworld (sim_board false true true) sim_net :=
  @HWorld (sim_board false true true) sim_net (@MWorld (sim_board false true true) (Sim 0 0 None) sim_ctx [] false false [])
    (Cable [] [] []) [] false false false 1 None false true (Some O).

Lemma unsent_request_counts_witness :
  exists w', @_iot_easysetup_gen_post_payload (sim_board false true true) sim_net (mret tt) (Some IOT_EASYSETUP_STEP_KEYINFO) (Some keys) dry
             = Ret ((IOT_ERROR_EASYSETUP_INTERNAL_SERVER_ERROR, None), w') /\ h_main w' = h_main dry /\
             (forall s', step_no s' = 2 -> may_follow false (ref_step w') s' = (step_no s' <? 7)).
Proof.
  by apply (@unsent_request_counts (sim_board false true true) sim_net (mret tt) IOT_EASYSETUP_STEP_KEYINFO keys dry
              (Sim 0 0 None)).
Defined.

Definition user_asked : mworld := with_ctx (set_status_cb true (m_ctx new_device)) new_device.

Lemma leaving_confirms_witness :
  let w := with_main user_asked (with_step 3 (server [] [])) in
  exists w', _es_confirm_check_manager (_iot_easysetup_wifi_event_cb IOT_WIFI_EVENT_SOFTAP_STA_LEAVE 0) OVF_BIT_BUTTON None w
             = Ret (0, w') /\ ref_step w' = 0.
Proof. intros w. by apply (leaving_confirms _ 0 None w). Defined.

(** The world after a computation of the server. *)
Definition hafter {A} (m : st hworld A) (w : hworld) : hworld := match m w with Ret (_, w') => w' | _ => w end.

Definition departure : list device_op :=
  [on_main (op_start true IOT_STATUS_ALL None); on_init; on_wifi IOT_WIFI_EVENT_SOFTAP_STA_LEAVE 0;
   on_main (op_request IOT_EASYSETUP_STEP_CONFIRMINFO None); on_main op_round; on_main op_round].

Lemma setup_keeps_main_invariant_witness :
  let w' := hafter (run_device_ops (mret tt) 2147483647 50 departure) (server [] []) in
  curr_state (m_ctx (h_main w')) = IOT_STATE_PROV_ENTER /\ confirm_bit w' = true /\ main_ok (h_main w').
Proof.
  intros w'. split_and!; [vm_compute; reflexivity..|].
  apply (setup_keeps_main_invariant (mret tt) 2147483647 50 departure (server [] []) w').
  - intros x u x' Hx E. by injection E as <- <-.
  - split; [|by intros ?]. split; [by intros ?|]. split; [by intros ?|done].
  - vm_compute. reflexivity.
Defined.

(** ** Bytes *)

Lemma response_exact_witness :
  make_response http_status_200 keys (server [] [])
  = Ret (tt, with_tx (Some (response http_status_200 keys)) (after_malloc (server [] []))) /\
  decimal (print_uint (zlen keys)) = zlen keys /\
  exists digits, digit_count_payload (zlen keys) = Some digits /\
    zlen keys + zlen http_status_200 + zlen http_header + digits + zlen END_OF_HTTP_HEADER + 1
    = zlen (response http_status_200 keys) + 1.
Proof. apply (response_exact http_status_200 keys (server [] [])). by vm_compute. Defined.

Definition sample_get : request := Request (lit "GET") (lit "/deviceinfo") (lit "HTTP/1.1") sample_headers [].

Lemma sample_get_ok : request_ok sample_get.
Proof.
  split; [..|apply sample_headers_ok|vm_compute; lia].
  all: unfold word_ok; apply (bool_decide_unpack _); by vm_compute.
Qed.
Lemma sample_uri_ok : value_ok (r_uri sample_get).
Proof. unfold value_ok. apply (bool_decide_unpack _). by vm_compute. Qed.

(** The request comes in four pieces, the third of one byte. *)
Definition calling : hworld := server (print_head sample_get) [9; 60; 0]%nat.

Lemma http_packet_read_correct_witness :
  exists r e, http_packet_read sim_others 1024 0 (repeat 0 RX_BUFFER_MAX) 0 calling = Ret (r, with_net e calling) /\
              head_read 0 RX_BUFFER_MAX (print_head sample_get) r e.
Proof.
  destruct (http_packet_read_correct sim_others 0 1024 calling) as (r & e & E & H); [reflexivity|apply le_n|].
  exists r, e. split; [exact E|]. exact H.
Defined.

Lemma later_pieces_overwrite_witness :
  let w := server (lit "abcdefgh") [4%nat] in
  exists buf', http_packet_read_remaining sim_others 2 0 (repeat 0 20) 5 5 13 w = Ret ((0, buf'), with_net (Cable [] [] []) w) /\
    take 5 buf' = [0; 0; 0; 0; 0] /\ take 3 (drop 5 buf') = lit "fgh".
Proof.
  intros w. destruct (later_pieces_overwrite sim_others 0 5 [lit "abcde"] (lit "fgh") 2 (repeat 0 20) w (Cable [] [] []) 13)
    as (buf' & E & Ht & Hl & _); try done.
  - apply Nat.ltb_lt. by vm_compute.
  - cbn. split_and!; [done|lia|]. eexists. split; [done|]. split_and!; [done|lia|]. by eexists.
  - by left.
  - simpl. lia.
  - by exists buf'.
Defined.

Lemma get_request_served_witness :
  exists e w', serve_request sim_others 2147483647 1024 0 no_outs calling
    = Ret (inr (Outs None (Some IOT_EASYSETUP_STEP_DEVICEINFO) D2D_GET 0), w') /\
    h_net w' = Cable (c_in e) (c_cuts e) (c_out e ++ [response http_status_200 (sim_reply IOT_EASYSETUP_STEP_DEVICEINFO)]) /\
    ref_step w' = 1.
Proof.
  destruct (get_request_served sim_others 2147483647 sim_reply 1024 0 no_outs sample_get IOT_EASYSETUP_STEP_DEVICEINFO [] calling)
    as (n & e & len & e' & w' & _ & _ & Ew & E & Hn & _ & Hr & _).
  - apply sample_get_ok.
  - apply sample_uri_ok.
  - reflexivity.
  - reflexivity.
  - apply Nat.ltb_lt. by vm_compute.
  - apply le_n.
  - reflexivity.
  - reflexivity.
  - reflexivity.
  - by vm_compute.
  - by rewrite app_nil_r.
  - injection Ew as <- <-. exists e, w'. split; [exact E|]. by split.
Defined.
