(* ===== verification/CapState.v ===== *)
(** * Capabilities: their state

    The data of [src/src/iot_capability.c], as [src/src/include/iot_capability.h],
    [st_dev.h] and [st_caps.h] declare them, on the state of the main task; JSON,
    which cJSON reads and writes, as a class; and the memory that the code
    allocates, with the blocks that have not been freed. *)

From stdpp Require Import pretty.
From S2P Require Import Prelude MainState MainRun.

(** ** JSON *)

(** What [cJSON_IsBool] and the like tell of an item. *)
Inductive json_type := JSON_BOOL (b : bool) | JSON_NUMBER | JSON_STRING | JSON_OBJECT | JSON_ARRAY | JSON_OTHER.

(** cJSON: items with the fields that the code looks at, in the order of their
    links; parsing and printing, which can fail; new items, and items put into
    objects and arrays.  [json_works] says whether there is memory for the
    items of one call. *)
Class Json `{Device} := {
  json : Type;
  double : Type;
  double_of_int : Z -> double;
  (** [None]: the number does not fit an [int]. *)
  double_to_int : double -> option Z;
  json_kind : json -> json_type;
  valuestring : json -> option string;
  valueint : json -> Z;
  valuedouble : json -> double;
  item_name : json -> option string;
  children : json -> list json;
  get_item : json -> string -> option json;
  parse_json : string -> denv -> option json * denv;
  print_json : json -> denv -> option string * denv;
  json_works : denv -> bool * denv;
  empty_object : json;
  empty_array : json;
  string_item : string -> json;
  number_item : double -> json;
  bool_item : bool -> json;
  string_array : list string -> json;
  add_item : json -> string -> json -> json;
  append_item : json -> json -> json
}.

(** What else the capabilities call: the clock, and the timer of the rate
    limit. *)
Class CapBelow `{Device} := {
  gettimeofday : denv -> (Z * Z) * denv;
  set_time_in_sec : string -> denv -> denv;
  rate_limit_timer_create : denv -> option nat * denv;
  rate_limit_timer_start : nat -> denv -> Z * denv
}.

(** ** Values *)

(** A string in a block of memory. *)
Definition owned : Type := nat * string.

(** [iot_cap_val_t], with strings of either kind. *)
Inductive iot_cap_val_t `{Json} (S : Type) :=
| VAL_UNKNOWN
| VAL_NULL
| VAL_INTEGER (integer : Z)
| VAL_NUMBER (number : double)
| VAL_INT_OR_NUM (integer : Z) (number : double)
| VAL_STRING (s : option S)
| VAL_STR_ARRAY (strings : list (option S))
| VAL_JSON_OBJECT (json_object : option S)
| VAL_BOOLEAN (boolean : bool).
Arguments VAL_UNKNOWN {_ _} _.
Arguments VAL_NULL {_ _} _.
Arguments VAL_INTEGER {_ _} _ _.
Arguments VAL_NUMBER {_ _} _ _.
Arguments VAL_INT_OR_NUM {_ _} _ _ _.
Arguments VAL_STRING {_ _} _ _.
Arguments VAL_STR_ARRAY {_ _} _ _.
Arguments VAL_JSON_OBJECT {_ _} _ _.
Arguments VAL_BOOLEAN {_ _} _ _.

(** [iot_cap_attr_option_t], as the caller gives it. *)
Record iot_cap_attr_option_t := AttrOption {
  state_change : Z; command_id : option string; displayed : option bool
}.

(** [iot_cap_evt_data_t] in its block; [evt_array] is the array of a value of
    strings, [evt_unit] is [None] for a unit that is not used. *)
Record iot_cap_evt_data_t `{Json} := Evt {
  evt_block : nat; ref_cap : option nat; evt_type : option owned; evt_value : iot_cap_val_t owned;
  evt_array : option nat; evt_unit : option (option owned); evt_value_data : option owned;
  opt_state_change : Z; opt_command_id : option owned; opt_displayed : option (nat * bool)
}.

(** User functions are numbers, and so is the data that goes with them. *)
Record iot_cap_cmd_set := CmdSet { cmd_type : option string; cmd_cb : nat; cmd_usr_data : nat }.
Record iot_cap_handle := Handle {
  component : string; capability : string; cmd_list : list iot_cap_cmd_set;
  init_cb : option nat; init_usr_data : nat
}.

(** [iot_cap_cmd_data_t], as a callback sees it. *)
Record iot_cap_cmd_data_t `{Json} := CmdData {
  num_args : Z; cmd_data : list (iot_cap_val_t string); total_commands_num : Z; order_of_command : Z;
  cmd_id : option string
}.

(** [st_data] and [st_command_data], with strings of either kind. *)
Inductive st_data `{Json} :=
| ST_STRING (s : option string)
| ST_NUMBER (number : double)
| ST_BOOLEAN (boolean : bool)
| ST_RAW_JSON (raw_json : option string)
| ST_JSON_OBJECT | ST_JSON_ARRAY | ST_NULL.
Record st_command_data `{Json} := Command {
  com_id : option string; custom_component_name : option string; custom_cap_name : option string;
  custom_command_name : option string; param_list : list st_data; param_num : Z
}.

Record iot_preference_data `{Json} := Preference {
  preference_name : option string; preference_data : iot_cap_val_t string
}.

(** [iot_noti_data_t], as the notifications of the server fill it. *)
Inductive noti_data `{Json} :=
| DEV_DELETED
| JWT_EXPIRED
| RATE_LIMIT (count threshold remainingTime sequenceNumber : Z)
| QUOTA_REACHED (used limit : Z)
| PREFERENCE_UPDATED (preferences : list iot_preference_data).

(** Calls of the user's functions. *)
Inductive cap_call `{Json} :=
| init_called (cb handle usr_data : nat)
| cmd_called (cb handle : nat) (data : iot_cap_cmd_data_t) (usr_data : nat)
| commands_called (commands : list st_command_data).

(** ** The state *)

(** On top of the main task: the blocks that are allocated and the number of
    the next one, the handles by their blocks and their list in the context,
    two more fields of the context, what the user has been told, and the
    payloads that have been handed to the MQTT client. *)
Record cworld `{Json} := CWorld {
  c_main : mworld; c_live : gset nat; c_next : nat;
  c_handles : gmap nat iot_cap_handle; cap_handle_list : list nat;
  event_sequence_num : Z; rate_limit_timeout : option nat;
  c_calls : list cap_call; c_published : list string
}.

Section access.
Context `{Json}.
Definition set_main v w := CWorld _ _ v (c_live w) (c_next w) (c_handles w) (cap_handle_list w) (event_sequence_num w) (rate_limit_timeout w) (c_calls w) (c_published w).
Definition set_memory l n w := CWorld _ _ (c_main w) l n (c_handles w) (cap_handle_list w) (event_sequence_num w) (rate_limit_timeout w) (c_calls w) (c_published w).
Definition set_handles h l w := CWorld _ _ (c_main w) (c_live w) (c_next w) h l (event_sequence_num w) (rate_limit_timeout w) (c_calls w) (c_published w).
Definition set_sequence v w := CWorld _ _ (c_main w) (c_live w) (c_next w) (c_handles w) (cap_handle_list w) v (rate_limit_timeout w) (c_calls w) (c_published w).
Definition set_timeout v w := CWorld _ _ (c_main w) (c_live w) (c_next w) (c_handles w) (cap_handle_list w) (event_sequence_num w) v (c_calls w) (c_published w).
Definition set_calls v w := CWorld _ _ (c_main w) (c_live w) (c_next w) (c_handles w) (cap_handle_list w) (event_sequence_num w) (rate_limit_timeout w) v (c_published w).
Definition set_published v w := CWorld _ _ (c_main w) (c_live w) (c_next w) (c_handles w) (cap_handle_list w) (event_sequence_num w) (rate_limit_timeout w) (c_calls w) v.

(** A computation on the state of the main task. *)
Definition on_main {A} (m : st mworld A) : st cworld A := fun w =>
  match m (c_main w) with Ret (a, x) => Ret (a, set_main x w) | Undef => Undef | Hang => Hang end.
Definition below {A} (f : denv -> A * denv) : st cworld A := on_main (dev f).

(** ** Memory *)

(** A new block, if there is memory. *)
Definition take_block : st cworld nat := fun w =>
  Ret (c_next w, set_memory ({[c_next w]} ∪ c_live w) (S (c_next w)) w).
Definition iot_os_malloc : st cworld (option nat) :=
  ok ← below d_malloc;
  if negb ok then mret None else b ← take_block; mret (Some b).
(** The string must be there. *)
Definition iot_os_strdup (s : option string) : st cworld (option owned) :=
  s ← need s;
  ok ← below d_strdup;
  if negb ok then mret None else b ← take_block; mret (Some (b, s)).

(** A block that is not allocated must not be freed. *)
Definition free_block (b : nat) : st cworld unit := fun w =>
  if bool_decide (b ∈ c_live w) then Ret (tt, set_memory (c_live w ∖ {[b]}) (c_next w) w) else Undef.
Definition iot_os_free {A} (p : option (nat * A)) : st cworld unit :=
  match p with Some (b, _) => free_block b | None => mret tt end.

(** ** Trees *)

(** An item that is not part of another one, in its block. *)
Definition tree : Type := nat * json.

Definition made {A} (o : option A) : st cworld (option (nat * A)) :=
  match o with Some j => b ← take_block; mret (Some (b, j)) | None => mret None end.

(** A null text is not parsed, and a null tree not printed. *)
Definition JSON_PARSE (text : option string) : st cworld (option tree) :=
  match text with Some s => j ← below (parse_json s); made j | None => mret None end.
Definition JSON_PRINT (t : option json) : st cworld (option owned) :=
  match t with Some j => s ← below (print_json j); made s | None => mret None end.
Definition JSON_DELETE (t : option tree) : st cworld unit := iot_os_free t.

Definition new_item (j : json) : st cworld (option tree) :=
  ok ← below json_works; made (if (ok : bool) then Some j else None).
Definition JSON_CREATE_OBJECT := new_item empty_object.
Definition JSON_CREATE_ARRAY := new_item empty_array.
(** All the strings must be there. *)
Definition JSON_CREATE_STRING_ARRAY (l : list (option string)) : st cworld (option tree) :=
  match mapM id l with Some l => new_item (string_array l) | None => mret None end.

(** A new item, or the item of a tree, goes into the object under the key; when
    it cannot, the new item is deleted, and the tree stays as it is. *)
Definition add_new (obj : option tree) (key : string) (item : option json) : st cworld (option tree) :=
  ok ← below json_works;
  mret (match obj, item with
        | Some (b, o), Some j => Some (b, if (ok : bool) then add_item o key j else o)
        | _, _ => obj
        end).
Definition JSON_ADD_STRING_TO_OBJECT (obj : option tree) (key : string) (s : option string) := add_new obj key (string_item <$> s).
Definition JSON_ADD_NUMBER_TO_OBJECT (obj : option tree) (key : string) (d : double) := add_new obj key (Some (number_item d)).
Definition JSON_ADD_BOOL_TO_OBJECT (obj : option tree) (key : string) (b : bool) := add_new obj key (Some (bool_item b)).
(** Whether the item belongs to the object from now on: then its block is that
    of the object. *)
Definition may_add (obj item : option tree) : st cworld bool :=
  ok ← below json_works;
  match obj, item with
  | Some _, Some (b, _) => if (ok : bool) then free_block b;; mret true else mret false
  | _, _ => mret false
  end.
Definition put_item (added : bool) (obj : option tree) (key : string) (item : option tree) : option tree :=
  match obj, item with
  | Some (b, o), Some (_, j) => if added then Some (b, add_item o key j) else obj
  | _, _ => obj
  end.
Definition JSON_ADD_ITEM_TO_OBJECT (obj : option tree) (key : string) (item : option tree) : st cworld (option tree) :=
  added ← may_add obj item; mret (put_item added obj key item).
Definition JSON_ADD_ITEM_TO_ARRAY (arr item : option tree) : st cworld (option tree) :=
  match arr, item with
  | Some (b, a), Some (b', j) => free_block b';; mret (Some (b, append_item a j))
  | _, _ => mret arr
  end.

(** An access through a pointer that must not be null. *)
Definition JSON_GET_OBJECT_ITEM (t : option json) (key : string) : option json := t ≫= fun j => get_item j key.
Definition JSON_GET_STRING_VALUE (t : option json) : option string :=
  match t with Some j => match json_kind j with JSON_STRING => valuestring j | _ => None end | None => None end.
Definition JSON_GET_ARRAY_SIZE (t : option json) : Z := match t with Some j => zlen (children j) | None => 0 end.
Definition text_of (p : option owned) : option string := snd <$> p.
Definition json_of (t : option tree) : option json := snd <$> t.
End access.
