(* ===== verification/CapRun.v ===== *)
(** * Capabilities: their operations

    [src/src/iot_capability.c]: attributes and the events made of them, handles
    and their commands, notifications and commands of the server. *)

From stdpp Require Import pretty.
From S2P Require Import Prelude MainState MainRun CapState.

Definition MAX_SQNUM : Z := 2147483647.
Definition IOT_ERROR_MQTT_PUBLISH_FAIL : Z := -203.

Section capability.
Context `{HD : Device} `{HJ : !Json} `{HB : !CapBelow}.
(** The functions that the user has registered. *)
Context (user : cap_call -> st cworld unit).
Abbreviation C := (st cworld).

Definition call_user (c : cap_call) : C unit := modify (fun w => set_calls (c_calls w ++ [c]) w);; user c.

(** ** Freeing *)

Fixpoint free_all {A} (l : list (option (nat * A))) : C unit :=
  match l with [] => mret tt | p :: l => iot_os_free p;; free_all l end.

Definition _iot_free_val (val : iot_cap_val_t owned) (strings : option nat) : C unit :=
  match val with
  | VAL_STRING _ s => iot_os_free s
  | VAL_STR_ARRAY _ l => match strings with Some b => free_all l;; free_block b | None => mret tt end
  | VAL_JSON_OBJECT _ s => iot_os_free s
  | _ => mret tt
  end.

Definition _iot_free_unit (unit : option (option owned)) : C () :=
  match unit with Some s => iot_os_free s | None => mret tt end.

Definition _iot_free_evt_data (e : iot_cap_evt_data_t) : C unit :=
  iot_os_free (evt_type e);;
  _iot_free_val (evt_value e) (evt_array e);;
  _iot_free_unit (evt_unit e);;
  iot_os_free (evt_value_data e);;
  iot_os_free (opt_command_id e);;
  iot_os_free (opt_displayed e).

Definition st_cap_free_attr (event : option iot_cap_evt_data_t) : C unit :=
  match event with Some e => _iot_free_evt_data e;; free_block (evt_block e) | None => mret tt end.

(** ** Attributes *)

(** Up to the first null string. *)
Fixpoint copy_strings (l : list (option string)) : C (bool * list (option owned)) :=
  match l with
  | [] => mret (true, [])
  | None :: l => mret (false, replicate (S (length l)) None)
  | Some s :: l => p ← iot_os_strdup (Some s); '(ok, k) ← copy_strings l; mret (ok, p :: k)
  end.

(** Whether the value is one, what has been copied of it, and the array. *)
Definition copy_value (value : iot_cap_val_t string) : C (bool * (iot_cap_val_t owned * option nat)) :=
  match value with
  | VAL_BOOLEAN _ b => mret (true, (VAL_BOOLEAN _ b, None))
  | VAL_INTEGER _ z => mret (true, (VAL_INTEGER _ z, None))
  | VAL_NUMBER _ d => mret (true, (VAL_NUMBER _ d, None))
  | VAL_STRING _ (Some s) => p ← iot_os_strdup (Some s); mret (true, (VAL_STRING _ p, None))
  | VAL_STRING _ None => mret (false, (VAL_STRING _ None, None))
  | VAL_STR_ARRAY _ l =>
      arr ← iot_os_malloc;
      if negb (bool_decide (l = [])) && bool_decide (arr = None) then
        mret (false, (VAL_STR_ARRAY _ (replicate (length l) None), None))
      else '(ok, k) ← copy_strings l; mret (ok, (VAL_STR_ARRAY _ k, arr))
  | VAL_JSON_OBJECT _ s => p ← iot_os_strdup s; mret (true, (VAL_JSON_OBJECT _ p, None))
  | VAL_UNKNOWN _ | VAL_NULL _ | VAL_INT_OR_NUM _ _ _ => mret (false, (VAL_NULL _, None))
  end.

Definition copy_unit (unit : option string) : C (option (option owned)) :=
  match unit with Some u => p ← iot_os_strdup (Some u); mret (Some p) | None => mret None end.
Definition copy_if (s : option string) : C (option owned) :=
  match s with Some _ => iot_os_strdup s | None => mret None end.

Definition _iot_cap_create_attr (attribute : option string) (value : option (iot_cap_val_t string)) (unit data : option string)
  : C (option iot_cap_evt_data_t) :=
  match attribute, value with
  | Some attribute, Some value =>
      b ← iot_os_malloc;
      match b with
      | None => mret None
      | Some b =>
          typ ← iot_os_strdup (Some attribute);
          '(ok, (v, arr)) ← copy_value value;
          if negb ok then
            _iot_free_evt_data (Evt _ _ b None typ v arr None None 0 None None);; free_block b;; mret None
          else
            unit ← copy_unit unit;
            data ← copy_if data;
            mret (Some (Evt _ _ b None typ v arr unit data 0 None None))
      end
  | _, _ => mret None
  end.

Definition set_ref_cap (h : nat) (e : iot_cap_evt_data_t) : iot_cap_evt_data_t :=
  Evt _ _ (evt_block e) (Some h) (evt_type e) (evt_value e) (evt_array e) (evt_unit e) (evt_value_data e)
    (opt_state_change e) (opt_command_id e) (opt_displayed e).
Definition set_evt_options (change : Z) (id : option owned) (shown : option (nat * bool)) (e : iot_cap_evt_data_t) : iot_cap_evt_data_t :=
  Evt _ _ (evt_block e) (ref_cap e) (evt_type e) (evt_value e) (evt_array e) (evt_unit e) (evt_value_data e) change id shown.

(** The options in the event: the identifier and the flag are copied, and
    without memory for one of them the event is freed. *)
Definition copy_options (e : iot_cap_evt_data_t) (o : iot_cap_attr_option_t) : C (option iot_cap_evt_data_t) :=
  id ← copy_if (command_id o);
  let e := set_evt_options (state_change o) id None e in
  if negb (bool_decide (command_id o = None)) && bool_decide (id = None) then
    _iot_free_evt_data e;; free_block (evt_block e);; mret None
  else
    match displayed o with
    | None => mret (Some e)
    | Some d =>
        b ← iot_os_malloc;
        match b with
        | Some b => mret (Some (set_evt_options (state_change o) id (Some (b, d)) e))
        | None =>
            iot_os_free id;;
            _iot_free_evt_data (set_evt_options (state_change o) None None e);; free_block (evt_block e);; mret None
        end
    end.

Definition st_cap_create_attr_with_option (cap_handle : option nat) (attribute : option string)
  (value : option (iot_cap_val_t string)) (unit data : option string) (options : option iot_cap_attr_option_t)
  : C (option iot_cap_evt_data_t) :=
  match cap_handle with
  | None => mret None
  | Some h =>
      e ← _iot_cap_create_attr attribute value unit data;
      match e with
      | None => mret None
      | Some e =>
          let e := set_ref_cap h e in
          match options with None => mret (Some e) | Some o => copy_options e o end
      end
  end.

Definition st_cap_create_attr (cap_handle : option nat) (attribute : option string) (value : option (iot_cap_val_t string))
  (unit data : option string) := st_cap_create_attr_with_option cap_handle attribute value unit data None.

Definition st_cap_create_attr_with_id (cap_handle : option nat) (attribute : option string)
  (value : option (iot_cap_val_t string)) (unit data : option string) (id : option string) : C (option iot_cap_evt_data_t) :=
  e ← st_cap_create_attr cap_handle attribute value unit data;
  match e, id with
  | Some e, Some _ => p ← iot_os_strdup id; mret (Some (set_evt_options (opt_state_change e) p (opt_displayed e) e))
  | _, _ => mret e
  end.

(** ** Handles *)

Definition handle_at (h : nat) : C iot_cap_handle := hs ← gets c_handles; need (hs !! h).

(** The context is not null; [init_usr_data] is 0 when it is null. *)
Definition st_cap_handle_init (comp : option string) (cap : option string) (cb : option nat) (usr : nat) : C (option nat) :=
  match cap with
  | None => mret None
  | Some cap =>
      handle ← iot_os_malloc;
      match handle with
      | None => mret None
      | Some h =>
          let name := default "main"%string comp in
          comp ← iot_os_strdup (Some name);
          if bool_decide (comp = None) then free_block h;; mret None
          else
            capp ← iot_os_strdup (Some cap);
            if bool_decide (capp = None) then iot_os_free comp;; free_block h;; mret None
            else
              node ← iot_os_malloc;
              if bool_decide (node = None) then iot_os_free comp;; iot_os_free capp;; free_block h;; mret None
              else
                modify (fun w => set_handles (<[h := Handle name cap [] cb usr]> (c_handles w)) (cap_handle_list w ++ [h]) w);;
                mret (Some h)
      end
  end.

Definition st_conn_set_noti_cb (cb : bool) : C Z :=
  if cb then on_main (setc (set_noti_cb true));; mret IOT_ERROR_NONE else mret IOT_ERROR_INVALID_ARGS.

(** [!strncmp(cmd_str, needle_str, strlen(needle_str))]. *)
Definition same_command (needle : string) (c : iot_cap_cmd_set) : bool :=
  match cmd_type c with Some s => String.prefix needle s | None => false end.

Definition st_cap_cmd_set_cb (cap_handle : option nat) (cmd_type : option string) (cb : option nat) (usr : nat) : C Z :=
  match cap_handle, cmd_type, cb with
  | Some h, Some needle, Some cb =>
      handle ← handle_at h;
      if existsb (same_command needle) (cmd_list handle) then mret IOT_ERROR_INVALID_ARGS
      else
        command ← iot_os_malloc;
        match command with
        | None => mret IOT_ERROR_MEM_ALLOC
        | Some command =>
            p ← iot_os_strdup (Some needle);
            node ← iot_os_malloc;
            if bool_decide (node = None) then iot_os_free p;; free_block command;; mret IOT_ERROR_MEM_ALLOC
            else
              modify (fun w => set_handles (<[h := Handle (component handle) (capability handle)
                                                     (CmdSet (text_of p) cb usr :: cmd_list handle)
                                                     (init_cb handle) (init_usr_data handle)]> (c_handles w)) (cap_handle_list w) w);;
              mret IOT_ERROR_NONE
        end
  | _, _, _ => mret IOT_ERROR_INVALID_ARGS
  end.

Fixpoint init_loop (l : list nat) : C unit :=
  match l with
  | [] => mret tt
  | h :: l =>
      handle ← handle_at h;
      match init_cb handle with Some cb => call_user (init_called cb h (init_usr_data handle)) | None => mret tt end;;
      init_loop l
  end.
Definition iot_cap_call_init_cb : C unit := l ← gets cap_handle_list; init_loop l.

(** ** Events *)

(** [snprintf(buf, 16, "%lld%03ld", ...)]. *)
Definition three_digits (n : Z) : string := String.substring 1 3 (pretty (1000 + n)).
Definition iot_get_time_in_ms : C string :=
  '(sec, usec) ← below gettimeofday; mret (String.substring 0 15 (pretty sec +:+ three_digits (usec / 1000))).

Definition provider_data (seq_num : Z) (changed : bool) : C (option tree) :=
  p ← JSON_CREATE_OBJECT;
  p ← JSON_ADD_NUMBER_TO_OBJECT p "sequenceNumber" (double_of_int seq_num);
  t ← iot_get_time_in_ms;
  p ← JSON_ADD_STRING_TO_OBJECT p "timestamp" (Some t);
  if changed then JSON_ADD_STRING_TO_OBJECT p "stateChange" (Some "Y"%string) else mret p.

Definition add_visibility (item : option tree) (shown : bool) : C (option tree) :=
  v ← JSON_CREATE_OBJECT;
  v ← JSON_ADD_BOOL_TO_OBJECT v "displayed" shown;
  JSON_ADD_ITEM_TO_OBJECT item "visibility" v.

(** The value, if it is of a type that is sent. *)
Definition add_value (item : option tree) (value : iot_cap_val_t owned) : C (bool * option tree) :=
  match value with
  | VAL_BOOLEAN _ b => item ← JSON_ADD_BOOL_TO_OBJECT item "value" b; mret (true, item)
  | VAL_INTEGER _ z => item ← JSON_ADD_NUMBER_TO_OBJECT item "value" (double_of_int z); mret (true, item)
  | VAL_NUMBER _ d => item ← JSON_ADD_NUMBER_TO_OBJECT item "value" d; mret (true, item)
  | VAL_STRING _ s => item ← JSON_ADD_STRING_TO_OBJECT item "value" (text_of s); mret (true, item)
  | VAL_STR_ARRAY _ l =>
      sub ← (if bool_decide (l = []) then JSON_CREATE_ARRAY else JSON_CREATE_STRING_ARRAY (text_of <$> l));
      item ← JSON_ADD_ITEM_TO_OBJECT item "value" sub; mret (true, item)
  | VAL_JSON_OBJECT _ s =>
      sub ← JSON_PARSE (text_of s);
      item ← JSON_ADD_ITEM_TO_OBJECT item "value" sub; mret (true, item)
  | VAL_UNKNOWN _ | VAL_NULL _ | VAL_INT_OR_NUM _ _ _ => mret (false, item)
  end.

Definition add_string_if (item : option tree) (key : string) (s : option string) : C (option tree) :=
  match s with Some _ => JSON_ADD_STRING_TO_OBJECT item key s | None => mret item end.
Definition add_parsed_if (item : option tree) (key : string) (s : option string) : C (option tree) :=
  match s with Some _ => sub ← JSON_PARSE s; JSON_ADD_ITEM_TO_OBJECT item key sub | None => mret item end.

Definition _iot_make_evt_data (comp cap : string) (e : iot_cap_evt_data_t) (seq_num : Z) : C (option tree) :=
  item ← JSON_CREATE_OBJECT;
  item ← add_string_if item "commandId" (text_of (opt_command_id e));
  item ← JSON_ADD_STRING_TO_OBJECT item "component" (Some comp);
  item ← JSON_ADD_STRING_TO_OBJECT item "capability" (Some cap);
  item ← JSON_ADD_STRING_TO_OBJECT item "attribute" (text_of (evt_type e));
  '(ok, item) ← add_value item (evt_value e);
  if negb ok then JSON_DELETE item;; mret None
  else
    item ← match evt_unit e with Some u => JSON_ADD_STRING_TO_OBJECT item "unit" (text_of u) | None => mret item end;
    item ← add_parsed_if item "data" (text_of (evt_value_data e));
    item ← match opt_displayed e with Some (_, d) => add_visibility item d | None => mret item end;
    prov ← provider_data seq_num (negb (opt_state_change e =? 0));
    JSON_ADD_ITEM_TO_OBJECT item "providerData" prov.

(** [st_attr_data]; the types are numbers, as the caller gives them. *)
Record st_attr_data := Attr {
  at_component_type : Z; at_component_name : option string; at_type : Z; at_cap_name : option string;
  at_attr_name : option string; at_value : st_data; at_unit : option string; at_data : option string;
  support_history : bool; at_state_change : bool; related_command_id : option string
}.
Definition ST_COMPONENT_DEFULAT : Z := 0.
Definition ST_COMPONENT_CUSTOM : Z := 1.
Definition ST_ATTR_CUSTOM : Z := 1.

Definition add_value_v2 (item : option tree) (value : st_data) : C (option tree) :=
  match value with
  | ST_STRING s => JSON_ADD_STRING_TO_OBJECT item "value" s
  | ST_NUMBER d => JSON_ADD_NUMBER_TO_OBJECT item "value" d
  | ST_BOOLEAN b => JSON_ADD_BOOL_TO_OBJECT item "value" b
  | ST_RAW_JSON s => sub ← JSON_PARSE s; JSON_ADD_ITEM_TO_OBJECT item "value" sub
  | ST_JSON_OBJECT | ST_JSON_ARRAY | ST_NULL => mret item
  end.

(** The names, if they are there. *)
Definition component_name (a : st_attr_data) : option string :=
  if at_component_type a =? ST_COMPONENT_DEFULAT then Some "main"%string
  else if at_component_type a =? ST_COMPONENT_CUSTOM then at_component_name a else None.
Definition cap_attr_names (a : st_attr_data) : option (string * string) :=
  if at_type a =? ST_ATTR_CUSTOM then cap ← at_cap_name a; attr ← at_attr_name a; Some (cap, attr) else None.

Definition _iot_make_evt_data_v2 (a : st_attr_data) (seq_num : Z) : C (option tree) :=
  item ← JSON_CREATE_OBJECT;
  match component_name a with
  | None => JSON_DELETE item;; mret None
  | Some comp =>
      item ← JSON_ADD_STRING_TO_OBJECT item "component" (Some comp);
      match cap_attr_names a with
      | None => JSON_DELETE item;; mret None
      | Some (cap, attr) =>
          item ← JSON_ADD_STRING_TO_OBJECT item "capability" (Some cap);
          item ← JSON_ADD_STRING_TO_OBJECT item "attribute" (Some attr);
          item ← add_value_v2 item (at_value a);
          item ← add_string_if item "unit" (at_unit a);
          item ← add_parsed_if item "data" (at_data a);
          item ← (if negb (support_history a) then add_visibility item false else mret item);
          prov ← provider_data seq_num (at_state_change a);
          item ← JSON_ADD_ITEM_TO_OBJECT item "providerData" prov;
          add_string_if item "commandId" (related_command_id a)
      end
  end.

(** ** Sending *)

(** Whether events can be sent now; then the number of the next one. *)
Definition next_sequence (n : Z) : Z := Z.land ((if n =? MAX_SQNUM then 0 else n) + 1) MAX_SQNUM.
Definition may_send : C bool :=
  s ← on_main (getc curr_state); cli ← on_main (getc evt_mqttcli); limited ← on_main (getc rate_limit);
  mret (bool_decide (s = IOT_STATE_CLOUD_CONNECTED) && negb (bool_decide (cli = None)) && negb limited).

(** The items of the events, in order; [None] when one cannot be made. *)
Fixpoint add_items {A} (make : A -> C (option tree)) (l : list (option A)) (arr : option tree) : C (bool * option tree) :=
  match l with
  | [] => mret (true, arr)
  | None :: _ => mret (false, arr)
  | Some a :: l =>
      item ← make a;
      match item with
      | None => mret (false, arr)
      | Some _ => arr ← JSON_ADD_ITEM_TO_ARRAY arr item; add_items make l arr
      end
  end.

(** The text of the events.  The array belongs to the object before it is filled:
    [linked] says whether that has worked. *)
Definition make_payload {A} (make : A -> C (option tree)) (l : list (option A)) : C (option owned) :=
  root ← JSON_CREATE_OBJECT;
  arr ← JSON_CREATE_ARRAY;
  linked ← may_add root arr;
  '(ok, arr) ← add_items make l arr;
  if negb ok then JSON_DELETE root;; mret None
  else
    payload ← JSON_PRINT (json_of (put_item linked root "deviceEvents" arr));
    JSON_DELETE root;; mret payload.

Definition send_items {A} (make : A -> Z -> C (option tree)) (l : list (option A)) : C Z :=
  seq ← gets event_sequence_num;
  modify (set_sequence (next_sequence seq));;
  payload ← make_payload (fun a => make a (next_sequence seq)) l;
  match payload with
  | None => mret IOT_ERROR_BAD_REQ
  | Some (b, text) =>
      cli ← on_main (getc evt_mqttcli);
      cli ← need cli;
      ret ← below (st_mqtt_publish_async cli);
      modify (fun w => set_published (c_published w ++ [text]) w);;
      free_block b;;
      if negb (ret =? 0) then mret IOT_ERROR_MQTT_PUBLISH_FAIL else gets event_sequence_num
  end.

Definition event_item (e : iot_cap_evt_data_t) (seq_num : Z) : C (option tree) :=
  match ref_cap e with
  | None => mret None
  | Some h => handle ← handle_at h; _iot_make_evt_data (component handle) (capability handle) e seq_num
  end.

(** The array [event] with its [evt_num] elements; there is one context. *)
Definition st_cap_send_attr (event : list (option iot_cap_evt_data_t)) : C Z :=
  match event with
  | Some e :: _ =>
      if bool_decide (ref_cap e = None) then mret IOT_ERROR_INVALID_ARGS
      else ok ← may_send; if negb ok then mret IOT_ERROR_BAD_REQ else send_items event_item event
  | _ => mret IOT_ERROR_INVALID_ARGS
  end.

Definition st_cap_send_attr_v2 (attr_data : list (option st_attr_data)) : C Z :=
  if bool_decide (attr_data = []) then mret IOT_ERROR_INVALID_ARGS
  else ok ← may_send; if negb ok then mret IOT_ERROR_BAD_REQ else send_items _iot_make_evt_data_v2 attr_data.

(** ** Notifications *)

Definition int_item (j : json) (key : string) : option Z := valueint <$> get_item j key.
(** [snprintf(time_str, 11, "%d", ...)]. *)
Definition time_str (n : Z) : string := String.substring 0 10 (pretty n).

(** Value of one preference; a type or a string that is not there is
    dereferenced. *)
Definition preference_value (ptype : option json) (value : option json) : C (iot_cap_val_t string) :=
  match value with
  | None => mret (VAL_NULL _)
  | Some v =>
      t ← need (JSON_GET_STRING_VALUE ptype);
      if String.prefix "string" t then p ← iot_os_strdup (JSON_GET_STRING_VALUE value); mret (VAL_STRING _ (text_of p))
      else if String.prefix "number" t then mret (VAL_NUMBER _ (valuedouble v))
      else if String.prefix "boolean" t then
        mret (VAL_BOOLEAN _ (match json_kind v with JSON_BOOL b => b | _ => false end))
      else if String.prefix "integer" t then mret (VAL_INTEGER _ (valueint v))
      else mret (VAL_UNKNOWN _)
  end.
Fixpoint preferences_loop (items : list json) : C (list iot_preference_data) :=
  match items with
  | [] => mret []
  | j :: items =>
      name ← copy_if (item_name j);
      v ← preference_value (get_item j "preferenceType") (get_item j "value");
      l ← preferences_loop items;
      mret (Preference _ _ (text_of name) v :: l)
  end.

Definition preferences_of (values : json) : C (option noti_data) :=
  if JSON_GET_ARRAY_SIZE (Some values) <=? 0 then mret None
  else
    b ← iot_os_malloc;
    if bool_decide (b = None) then mret None
    else l ← preferences_loop (children values); mret (Some (PREFERENCE_UPDATED l)).

(** The notification of the event of the name; [None] when something is
    missing. *)
Definition noti_of (j : json) (event : string) : C (option noti_data) :=
  if String.prefix "device.deleted" event then mret (Some DEV_DELETED)
  else if String.prefix "expired.jwt" event then
    match int_item j "currentTime" with
    | None => mret None
    | Some t => on_main (dev_ (set_time_in_sec (time_str t)));; mret (Some JWT_EXPIRED)
    end
  else if String.prefix "rate.limit.reached" event then
    mret (count ← int_item j "count"; threshold ← int_item j "threshold"; remaining ← int_item j "remainingTime";
          seq ← int_item j "sequenceNumber"; Some (RATE_LIMIT count threshold remaining seq))
  else if String.prefix "quota.reached" event then
    mret (used ← int_item j "used"; limit ← int_item j "limit"; Some (QUOTA_REACHED used limit))
  else if String.prefix "device.preferences" event then
    match get_item j "values" with None => mret None | Some values => preferences_of values end
  else mret None.

(** What is printed is only for the log. *)
Definition log_json (t : option tree) : C unit := p ← JSON_PRINT (json_of t); iot_os_free p.

Definition _iot_parse_noti_data (data : string) : C (option noti_data) :=
  t ← JSON_PARSE (Some data);
  match t with
  | None => mret None
  | Some (b, j) =>
      log_json t;;
      n ← match JSON_GET_STRING_VALUE (get_item j "event") with Some event => noti_of j event | None => mret None end;
      JSON_DELETE t;; mret n
  end.

(** As the main task takes it. *)
Definition noti_for_main (n : noti_data) : iot_noti_data :=
  match n with
  | DEV_DELETED => NOTI_DEV_DELETED
  | JWT_EXPIRED => NOTI_JWT_EXPIRED
  | RATE_LIMIT _ _ _ _ => NOTI_RATE_LIMIT
  | QUOTA_REACHED _ _ => NOTI_QUOTA_REACHED
  | PREFERENCE_UPDATED l => NOTI_PREFERENCE_UPDATED (default EmptyString ∘ preference_name <$> l)
  end.

Definition _iot_noti_rate_limit_cb : C unit := on_main (setc (set_rate_limit false)).

Definition start_rate_limit : C unit :=
  old ← gets rate_limit_timeout;
  match old with Some t => on_main (dev_ (d_timer_delete t)) | None => mret tt end;;
  t ← below rate_limit_timer_create;
  modify (set_timeout t);;
  match t with
  | None => mret tt
  | Some t => err ← below (rate_limit_timer_start t); when (err =? 0) (on_main (setc (set_rate_limit true)))
  end.

Definition iot_noti_sub_cb (payload : option string) : C unit :=
  match payload with
  | None => mret tt
  | Some payload =>
      n ← _iot_parse_noti_data payload;
      match n with
      | None => mret tt
      | Some n =>
          match n with RATE_LIMIT _ _ _ _ => start_rate_limit | _ => mret tt end;;
          on_main (iot_command_send (IOT_COMMAND_NOTIFICATION_RECEIVED (Some (noti_for_main n))));; mret tt
      end
  end.

(** ** Commands *)

(** What has been read of a command: the names, the two arrays (the names of
    the arguments, all null, and their values), the number in a [uint8_t], the
    identifier. *)
Record parsed_cmd := Parsed {
  p_component : option owned; p_capability : option owned; p_command : option owned;
  p_arrays : option (nat * nat); p_values : list (iot_cap_val_t owned); p_num : Z; p_id : option owned
}.

(** The value of one argument; an item of another type is skipped. *)
Definition argument (j : json) : C (option (iot_cap_val_t owned)) :=
  match json_kind j with
  | JSON_BOOL b => mret (Some (VAL_BOOLEAN _ b))
  | JSON_NUMBER => mret (Some (VAL_INT_OR_NUM _ (valueint j) (valuedouble j)))
  | JSON_STRING => p ← iot_os_strdup (valuestring j); mret (Some (VAL_STRING _ p))
  | JSON_OBJECT | JSON_ARRAY =>
      s ← JSON_PRINT (Some j);
      match s with
      | Some (_, text) => p ← iot_os_strdup (Some text); iot_os_free s;; mret (Some (VAL_JSON_OBJECT _ p))
      | None => mret (Some (VAL_JSON_OBJECT _ None))
      end
  | JSON_OTHER => mret None
  end.
Fixpoint arguments (items : list json) : C (list (iot_cap_val_t owned)) :=
  match items with
  | [] => mret []
  | j :: items =>
      v ← argument j;
      l ← arguments items;
      mret (match v with Some v => v :: l | None => l end)
  end.

Definition no_cmd : parsed_cmd := Parsed None None None None [] 0 None.

(** The arguments of an item, none without the array. *)
Definition args_of (item : json) : list json := default [] (children <$> get_item item "arguments").

Definition _iot_parse_cmd_data (item : json) : C (Z * parsed_cmd) :=
  match get_item item "component", get_item item "capability", get_item item "command" with
  | Some comp, Some cap, Some cmd =>
      comp ← iot_os_strdup (valuestring comp);
      cap ← iot_os_strdup (valuestring cap);
      cmd ← iot_os_strdup (valuestring cmd);
      '(err, (arrays, values)) ←
        (if bool_decide (args_of item = []) then mret (IOT_ERROR_NONE, (None, []))
         else
           a ← iot_os_malloc;
           match a with
           | None => mret (IOT_ERROR_MEM_ALLOC, (None, []))
           | Some a =>
               d ← iot_os_malloc;
               match d with
               | None => free_block a;; mret (IOT_ERROR_MEM_ALLOC, (None, []))
               | Some d => l ← arguments (args_of item); mret (IOT_ERROR_NONE, (Some (a, d), l))
               end
           end);
      if negb (err =? IOT_ERROR_NONE) then mret (err, Parsed comp cap cmd None [] 0 None)
      else
        id ← match get_item item "id" with
             | Some j => iot_os_strdup (JSON_GET_STRING_VALUE (Some j)) | None => mret None
             end;
        mret (IOT_ERROR_NONE, Parsed comp cap cmd arrays values (to_uchar (zlen values)) id)
  | _, _, _ => mret (IOT_ERROR_BAD_REQ, no_cmd)
  end.

(** The values as the callback reads them. *)
Definition plain (v : iot_cap_val_t owned) : iot_cap_val_t string :=
  match v with
  | VAL_UNKNOWN _ => VAL_UNKNOWN _
  | VAL_NULL _ => VAL_NULL _
  | VAL_INTEGER _ z => VAL_INTEGER _ z
  | VAL_NUMBER _ d => VAL_NUMBER _ d
  | VAL_INT_OR_NUM _ z d => VAL_INT_OR_NUM _ z d
  | VAL_STRING _ s => VAL_STRING _ (text_of s)
  | VAL_STR_ARRAY _ l => VAL_STR_ARRAY _ (text_of <$> l)
  | VAL_JSON_OBJECT _ s => VAL_JSON_OBJECT _ (text_of s)
  | VAL_BOOLEAN _ b => VAL_BOOLEAN _ b
  end.

(** The first handle of the names, in the order of the list; [strcmp] with a
    null name is undefined. *)
Fixpoint find_handle (comp cap : option string) (l : list nat) : C (option nat) :=
  match l with
  | [] => mret None
  | h :: l =>
      handle ← handle_at h;
      comp' ← need comp;
      if bool_decide (comp' = component handle) then
        cap' ← need cap;
        if bool_decide (cap' = capability handle) then mret (Some h) else find_handle comp cap l
      else find_handle comp cap l
  end.

Fixpoint find_command (name : option string) (l : list iot_cap_cmd_set) : C (option iot_cap_cmd_set) :=
  match l with
  | [] => mret None
  | c :: l =>
      n ← need name;
      s ← need (cmd_type c);
      if bool_decide (n = s) then mret (Some c) else find_command name l
  end.

Definition _iot_process_cmd (comp cap cmd : option owned) (data : iot_cap_cmd_data_t) : C Z :=
  l ← gets cap_handle_list;
  h ← find_handle (text_of comp) (text_of cap) l;
  match h with
  | None => mret IOT_ERROR_BAD_REQ
  | Some h =>
      handle ← handle_at h;
      c ← find_command (text_of cmd) (cmd_list handle);
      match c with
      | None => mret IOT_ERROR_BAD_REQ
      | Some c => call_user (cmd_called (cmd_cb c) h data (cmd_usr_data c));; mret IOT_ERROR_NONE
      end
  end.

Fixpoint free_values (l : list (iot_cap_val_t owned)) : C unit :=
  match l with [] => mret tt | v :: l => _iot_free_val v None;; free_values l end.

(** As many values as the number says, and the arrays. *)
Definition _iot_free_cmd_data (p : parsed_cmd) : C unit :=
  free_values (take (Z.to_nat (p_num p)) (p_values p));;
  match p_arrays p with Some (a, d) => free_block a;; free_block d | None => mret tt end.

(** One command; [total] commands have come together. *)
Definition handle_command (item : json) (total order : Z) : C unit :=
  '(err, p) ← _iot_parse_cmd_data item;
  when (err =? IOT_ERROR_NONE)
    (_iot_process_cmd (p_component p) (p_capability p) (p_command p)
       (CmdData _ _ (p_num p) (plain <$> p_values p) total order (text_of (p_id p)));; mret tt);;
  when (negb (p_num p =? 0)) (_iot_free_cmd_data p);;
  iot_os_free (p_component p);;
  iot_os_free (p_capability p);;
  iot_os_free (p_command p);;
  iot_os_free (p_id p).

Fixpoint commands_loop (items : list json) (total order : Z) : C unit :=
  match items with [] => mret tt | j :: items => handle_command j total order;; commands_loop items total (order + 1) end.

Definition iot_cap_sub_cb (payload : option string) : C unit :=
  l ← gets cap_handle_list;
  match l, payload with
  | _ :: _, Some payload =>
      t ← JSON_PARSE (Some payload);
      match t with
      | None => mret tt
      | Some (_, j) =>
          log_json t;;
          match get_item j "commands" with
          | Some cmds => commands_loop (children cmds) (zlen (children cmds)) 1
          | None => mret tt
          end;;
          JSON_DELETE t
      end
  | _, _ => mret tt
  end.

(** ** Commands for the one callback *)

(** A parameter, with the block of its text when that was printed; what is
    neither a value nor a structure stays as the [memset] has left it. *)
Definition parameter (j : json) : C (st_data * option nat) :=
  match json_kind j with
  | JSON_BOOL b => mret (ST_BOOLEAN b, None)
  | JSON_NUMBER => mret (ST_NUMBER (valuedouble j), None)
  | JSON_STRING => mret (ST_STRING (valuestring j), None)
  | JSON_OBJECT | JSON_ARRAY => s ← JSON_PRINT (Some j); mret (ST_RAW_JSON (text_of s), fst <$> s)
  | JSON_OTHER => mret (ST_STRING None, None)
  end.
Fixpoint parameters (items : list json) : C (list (st_data * option nat)) :=
  match items with [] => mret [] | j :: items => v ← parameter j; l ← parameters items; mret (v :: l) end.

(** [st_command_data] with its blocks. *)
Record parsed_v2 := ParsedV2 {
  v_list : option nat; v_params : list (st_data * option nat); v_num : Z;
  v_id : option owned; v_component : option owned; v_cap : option owned; v_command : option owned
}.
Definition no_command : parsed_v2 := ParsedV2 None [] 0 None None None None.

Definition _iot_parse_cmd_data_v2 (item : json) : C (Z * parsed_v2) :=
  match get_item item "component", get_item item "capability", get_item item "command", get_item item "arguments", get_item item "id" with
  | Some comp, Some cap, Some cmd, Some args, Some id =>
      b ← (if bool_decide (children args = []) then mret None else iot_os_malloc);
      if negb (bool_decide (children args = [])) && bool_decide (b = None) then mret (IOT_ERROR_MEM_ALLOC, no_command)
      else
        id ← iot_os_strdup (valuestring id);
        comp ← iot_os_strdup (valuestring comp);
        cap ← iot_os_strdup (valuestring cap);
        cmd ← iot_os_strdup (valuestring cmd);
        l ← parameters (children args);
        mret (IOT_ERROR_NONE, ParsedV2 b l (to_uchar (zlen (children args))) id comp cap cmd)
  | _, _, _, _, _ => mret (IOT_ERROR_BAD_REQ, no_command)
  end.

Fixpoint free_params (l : list (st_data * option nat)) : C unit :=
  match l with
  | [] => mret tt
  | (_, b) :: l => match b with Some b => free_block b | None => mret tt end;; free_params l
  end.
Definition _iot_free_cmd_data_v2 (p : parsed_v2) : C unit :=
  free_params (take (Z.to_nat (v_num p)) (v_params p));;
  match v_list p with Some b => free_block b | None => mret tt end;;
  iot_os_free (v_command p);;
  iot_os_free (v_cap p);;
  iot_os_free (v_component p);;
  iot_os_free (v_id p).

Definition plain_command (p : parsed_v2) : st_command_data :=
  Command _ _ (text_of (v_id p)) (text_of (v_component p)) (text_of (v_cap p)) (text_of (v_command p))
    (fst <$> v_params p) (v_num p).

(** The commands up to the first that cannot be read. *)
Fixpoint parse_commands (items : list json) : C (bool * list parsed_v2) :=
  match items with
  | [] => mret (true, [])
  | j :: items =>
      '(err, p) ← _iot_parse_cmd_data_v2 j;
      if negb (err =? IOT_ERROR_NONE) then mret (false, [p])
      else '(ok, l) ← parse_commands items; mret (ok, p :: l)
  end.
Fixpoint free_commands (l : list parsed_v2) : C unit :=
  match l with [] => mret tt | p :: l => _iot_free_cmd_data_v2 p;; free_commands l end.

(** [noti_cb] is looked at when there are commands; the elements that have not
    been filled hold nothing to free. *)
Definition iot_cap_commands_cb (payload : option string) : C unit :=
  match payload with
  | None => mret tt
  | Some payload =>
      t ← JSON_PARSE (Some payload);
      match t with
      | None => mret tt
      | Some (_, j) =>
          log_json t;;
          match get_item j "commands" with
          | None => mret tt
          | Some cmds =>
              if bool_decide (children cmds = []) then mret tt
              else
                b ← iot_os_malloc;
                match b with
                | None => mret tt
                | Some b =>
                    '(ok, l) ← parse_commands (children cmds);
                    cb ← on_main (getc noti_cb);
                    when (ok && cb) (call_user (commands_called (plain_command <$> l)));;
                    free_commands l;;
                    free_block b
                end
          end;;
          JSON_DELETE t
      end
  end.
End capability.
