(* ===== verification/CapMqtt.v ===== *)
(** * Capabilities: the messages of the server

    The callbacks of the two MQTT connections in
    [src/src/easysetup/iot_easysetup_st_mqtt.c], for messages in JSON: the answer
    to a connection, the registration, and the commands and notifications that
    [CapRun] handles.  A message is what the MQTT client delivers: pointers into
    the chunk of its packet. *)

From stdpp Require Import pretty.
From S2P Require Import Prelude MqttPacket World Util MainState ClientRun MainRun CapState CapRun.

Definition text_of_bytes (l : list Z) : string := String.string_of_list_ascii ((fun b => Ascii.ascii_of_N (Z.to_N b)) <$> l).
Definition bytes_of_text (s : string) : list Z := (fun a => Z.of_N (Ascii.N_of_ascii a)) <$> String.list_ascii_of_string s.

Section callbacks.
Context `{HM : CharModel} `{HD : Device} `{HJ : !Json} `{HB : !CapBelow}.
Context (user : cap_call -> st cworld unit).
Abbreviation C := (st cworld).

(** ** Texts in a chunk *)

(** The memory behind a pointer. *)
Definition pointee (buffer : list Z) (p : dataptr) : option (list Z) :=
  match p with NullPtr => None | BufPtr off => Some (drop off buffer) | MemPtr obj => Some obj end.

(** The string at a pointer: the bytes up to the terminator, which must come
    before the end of the chunk. *)
Definition c_string (mem : list Z) : C string :=
  match list_find (fun b => b = 0) mem with
  | Some (n, _) => mret (text_of_bytes (take n mem))
  | None => undef
  end.

(** [!strncmp(p, prefix, strlen(prefix))], which reads up to the first
    difference. *)
Fixpoint starts_with (mem prefix : list Z) : C bool :=
  match prefix with
  | [] => mret true
  | c :: prefix => b ← need (hd_error mem); if b =? c then starts_with (List.tl mem) prefix else mret false
  end.

(** ** The answer to a connection *)

Definition set_time_of (j : json) : C unit := on_main (dev_ (set_time_in_sec (time_str (valueint j)))).

Definition _check_connection_response (response_payload : string) : C gg_connection_request_status :=
  t ← JSON_PARSE (Some response_payload);
  match t with
  | None => mret GG_CONNECTION_REQUEST_STATUS_FAIL
  | Some (_, j) =>
      log_json t;;
      ret ← match get_item j "event" with
            | None => mret GG_CONNECTION_REQUEST_STATUS_WAITING
            | Some event =>
                s ← need (valuestring event);
                if String.prefix "expired.jwt" s then
                  match get_item j "currentTime" with
                  | None => mret GG_CONNECTION_REQUEST_STATUS_FAIL
                  | Some time => set_time_of time;; mret GG_CONNECTION_REQUEST_STATUS_FAIL
                  end
                else if String.prefix "connect.success" s then mret GG_CONNECTION_REQUEST_STATUS_SUCCESS
                else mret GG_CONNECTION_REQUEST_STATUS_WAITING
            end;
      JSON_DELETE t;; mret ret
  end.

(** ** The registration *)

(** [iot_util_convert_str_uuid] into sixteen zeros. *)
Definition uuid_of (s : option string) : C (Z * list Z) :=
  match iot_util_convert_str_uuid (bytes_of_text <$> s) (Some (replicate 16 0)) with
  | Ret (err, Some id) => mret (err, id)
  | Ret (err, None) => mret (err, [])
  | Undef => undef
  | Hang => hang
  end.

(** The event of the message, if there is one: whether to go on. *)
Definition reg_event (j : json) : C bool :=
  match get_item j "event" with
  | None => mret true
  | Some event =>
      s ← need (valuestring event);
      if String.prefix "expired.jwt" s then
        match get_item j "currentTime" with
        | None => mret false
        | Some time => set_time_of time;; on_main (iot_command_send IOT_COMMAND_CLOUD_REGISTERING);; mret true
        end
      else mret false
  end.

(** The profile, if there is one.  What is kept belongs to the context from then
    on. *)
Definition reg_profile (j : json) : C bool :=
  match get_item j "deviceIntegrationProfileKey" with
  | None => mret true
  | Some key =>
      b ← iot_os_malloc;
      match b with
      | None => mret false
      | Some b =>
          match get_item key "id" with
          | None => free_block b;; mret false
          | Some item =>
              '(err, id) ← uuid_of (JSON_GET_STRING_VALUE (Some item));
              if negb (err =? IOT_ERROR_NONE) then free_block b;; mret false
              else
                match get_item key "majorVersion" with
                | None => free_block b;; mret false
                | Some major =>
                    free_block b;;
                    on_main (setc (set_reg_dip (Some (Dip id (valueint major) (default 0 (int_item key "minorVersion"))))));;
                    mret true
                end
          end
      end
  end.

Definition reg_location (j : json) : C bool :=
  match get_item j "locationId" with
  | None => mret true
  | Some item =>
      b ← iot_os_malloc;
      match b with
      | None => mret false
      | Some b =>
          '(err, id) ← uuid_of (JSON_GET_STRING_VALUE (Some item));
          free_block b;;
          if negb (err =? IOT_ERROR_NONE) then mret false
          else on_main (setc (set_reg_locationId (Some id)));; mret true
      end
  end.

Definition IOT_REG_UUID_STR_LEN : nat := 36.

(** The identifier as it is printed, with its quotation marks: 36 bytes behind
    the first are copied, whether they are there or not. *)
Definition reg_device_id (j : json) : C unit :=
  match get_item j "deviceId" with
  | None => mret tt
  | Some item =>
      done ← on_main (getc updated);
      if (done : bool) then mret tt
      else
        s ← JSON_PRINT (Some item);
        match s with
        | None => mret tt
        | Some (b, text) =>
            (if bool_decide (String.length text < IOT_REG_UUID_STR_LEN)%nat then undef
             else on_main (setc (set_deviceId (String.substring 1 IOT_REG_UUID_STR_LEN text))));;
            on_main (setc (set_updated true));; on_main (setc (set_new_reged false));;
            on_main (iot_command_send IOT_COMMAND_CLOUD_REGISTERED);;
            free_block b
        end
  end.

Definition mqtt_reg_sub_cb (payload : string) : C unit :=
  t ← JSON_PARSE (Some payload);
  match t with
  | None => mret tt
  | Some (_, j) =>
      msg ← JSON_PRINT (Some j);
      (if bool_decide (msg = None) then mret tt
       else
         ok ← reg_event j;
         when ok (ok ← reg_profile j; when ok (ok ← reg_location j; when ok (reg_device_id j))));;
      iot_os_free msg;;
      JSON_DELETE t
  end.

Definition IOT_SUB_TOPIC_REGISTRATION_PREFIX : list Z := bytes_of_text "/v1/registrations/notification".
Definition IOT_SUB_TOPIC_COMMAND_PREFIX : list Z := bytes_of_text "/v1/commands".
Definition IOT_SUB_TOPIC_NOTIFICATION_PREFIX : list Z := bytes_of_text "/v1/notifications".

Definition topic_is (msg : st_mqtt_msg) (prefix : list Z) : C bool :=
  mem ← need (pointee (msg_buffer msg) (msg_topic msg)); starts_with mem prefix.
Definition payload_of (msg : st_mqtt_msg) : C string :=
  mem ← need (pointee (msg_buffer msg) (msg_payload msg)); c_string mem.

Definition _iot_mqtt_registration_client_callback (event : st_mqtt_event) : C unit :=
  match event with
  | ST_MQTT_EVENT_MSG_DELIVERED msg =>
      s ← on_main (getc sign_up_status);
      if negb (bool_decide (s = GG_CONNECTION_REQUEST_STATUS_SUCCESS)) then
        payload ← payload_of msg;
        s ← _check_connection_response payload;
        on_main (setc (set_sign_up_status s))
      else
        here ← topic_is msg IOT_SUB_TOPIC_REGISTRATION_PREFIX;
        when here (payload ← payload_of msg; mqtt_reg_sub_cb payload)
  | ST_MQTT_EVENT_DISCONNECTED _ =>
      state ← on_main (getc curr_state); done ← on_main (getc updated); asked ← on_main (getc registered_msg_requested);
      when (bool_decide (state = IOT_STATE_PROV_DONE) && negb done && asked)
        (on_main (iot_command_send IOT_COMMAND_CLOUD_REGISTERING);; mret tt)
  | _ => mret tt
  end.

(** ** Commands, notifications and failures *)

Definition _iot_parse_sequence_num (payload : string) : C Z :=
  t ← JSON_PARSE (Some payload);
  match t with
  | None => mret 0
  | Some (_, j) =>
      n ← match (events ← get_item j "deviceEvents"; first ← hd_error (children events);
                 prov ← get_item first "providerData"; get_item prov "sequenceNumber") with
          | Some n => need (double_to_int (valuedouble n))
          | None => mret 0
          end;
      JSON_DELETE t;; mret n
  end.

Definition MQTT_DISCONNECTED_PING_FAIL : Z := 1.

Definition send_failed (msg : st_mqtt_msg) : C unit :=
  payload ← payload_of msg;
  n ← _iot_parse_sequence_num payload;
  if n <? 0 then mret tt
  else on_main (iot_command_send (IOT_COMMAND_NOTIFICATION_RECEIVED (Some (NOTI_SEND_FAILED n))));; mret tt.

Definition deliver (msg : st_mqtt_msg) : C unit :=
  s ← on_main (getc sign_in_status);
  if negb (bool_decide (s = GG_CONNECTION_REQUEST_STATUS_SUCCESS)) then
    payload ← payload_of msg;
    s ← _check_connection_response payload;
    on_main (setc (set_sign_in_status s))
  else
    commands ← topic_is msg IOT_SUB_TOPIC_COMMAND_PREFIX;
    if (commands : bool) then
      payload ← payload_of msg; iot_cap_sub_cb user (Some payload);; iot_cap_commands_cb user (Some payload)
    else
      notifications ← topic_is msg IOT_SUB_TOPIC_NOTIFICATION_PREFIX;
      when notifications (payload ← payload_of msg; iot_noti_sub_cb (Some payload)).

Definition _iot_mqtt_signin_client_callback (event : st_mqtt_event) : C unit :=
  match event with
  | ST_MQTT_EVENT_MSG_DELIVERED msg => deliver msg
  | ST_MQTT_EVENT_PUBLISH_FAILED msg | ST_MQTT_EVENT_PUBLISH_TIMEOUT msg => send_failed msg
  | ST_MQTT_EVENT_DISCONNECTED reason =>
      (if reason =? MQTT_DISCONNECTED_PING_FAIL then on_main (iot_set_st_ecode IOT_ST_ECODE_CE32);; mret tt
       else if reason =? MQTT_DISCONNECTED_PING_TIMEOUT then on_main (iot_set_st_ecode IOT_ST_ECODE_CE33);; mret tt
       else mret tt);;
      on_main (iot_state_update IOT_STATE_CLOUD_DISCONNECTED IOT_STATE_OPT_NONE);; mret tt
  end.
End callbacks.
