(* ===== verification/CapMemory.v ===== *)
(** * Capabilities: memory

    Which blocks a computation owns before and after: a small logic of blocks
    ([owns]), in which nothing is freed twice and nothing is lost; and with it
    the life of an event, from its creation to [st_cap_free_attr]
    ([attributes_leak_nothing]). *)

From S2P Require Import Prelude MainState MainRun CapState CapRun.

Section memory.
Context `{HD : Device} `{HJ : !Json}.
Abbreviation C := (st cworld).

(** ** Blocks *)

(** In [w] the blocks [bs] are allocated, and the others are [L]. *)
Definition holds (w : cworld) (L : gset nat) (bs : list nat) : Prop :=
  NoDup bs /\ c_live w = L ∪ list_to_set bs /\ L ## list_to_set bs /\ set_Forall (fun b => (b < c_next w)%nat) (c_live w).

(** Nothing has changed but the memory and the layers below. *)
Definition quiet (w w' : cworld) : Prop :=
  exists e l n, w' = set_memory l n (set_main (with_menv e (c_main w)) w).

(** In [w], from the blocks [bs] the computation comes to an end, without
    undefined behaviour, with the blocks that [Q] says; it does not touch others,
    and nothing else. *)
Definition runs {A} (w : cworld) (m : C A) (bs : list nat) (Q : A -> list nat -> Prop) : Prop :=
  forall L, holds w L bs ->
  match m w with Ret (a, w') => quiet w w' /\ exists bs', holds w' L bs' /\ Q a bs' | _ => False end.
(** Wherever it starts. *)
Definition owns {A} (m : C A) (bs : list nat) (Q : A -> list nat -> Prop) : Prop := forall w, runs w m bs Q.

Lemma quiet_refl w : quiet w w.
Proof. exists (m_env (c_main w)), (c_live w), (c_next w). by destruct w as [[]]. Qed.
Lemma quiet_trans w1 w2 w3 : quiet w1 w2 -> quiet w2 w3 -> quiet w1 w3.
Proof. intros (e & l & n & ->) (e' & l' & n' & ->). by exists e', l', n'. Qed.

Lemma holds_perm w L bs bs' : bs ≡ₚ bs' -> holds w L bs -> holds w L bs'.
Proof.
  intros Hp (Hn & Hl & Hd & Hb). assert (E : list_to_set bs =@{gset nat} list_to_set bs') by (apply leibniz_equiv; by rewrite Hp).
  split_and!; [by rewrite <- Hp|by rewrite <- E|by rewrite <- E|done].
Qed.

Lemma owns_ret {A} (a : A) bs (Q : A -> list nat -> Prop) : Q a bs -> owns (mret a) bs Q.
Proof. intros HQ w L Hw. split; [apply quiet_refl|by exists bs]. Qed.

Lemma owns_perm {A} (m : C A) bs bs' Q : bs ≡ₚ bs' -> owns m bs Q -> owns m bs' Q.
Proof. intros Hp Hm w L Hw. apply Hm. by eapply holds_perm. Qed.

Lemma owns_done {A} (a : A) bs bs' (Q : A -> list nat -> Prop) : bs ≡ₚ bs' -> Q a bs' -> owns (mret a) bs Q.
Proof. intros Hp HQ. eapply owns_perm; [symmetry; exact Hp|]. by apply owns_ret. Qed.

Lemma owns_bind {A B} (m : C A) (f : A -> C B) bs P Q :
  owns m bs P -> (forall a bs', P a bs' -> owns (f a) bs' Q) -> owns (m ≫= f) bs Q.
Proof.
  intros Hm Hf w L Hw. specialize (Hm w L Hw). unfold mbind, st_bind. destruct (m w) as [[a w']| |]; [|done..].
  destruct Hm as (Hq & bs' & Hw' & HP). specialize (Hf a bs' HP w' L Hw'). destruct (f a w') as [[b w'']| |]; [|done..].
  destruct Hf as [Hq' Hf]. split; [by eapply quiet_trans|done].
Qed.

Lemma owns_mret {A B} (a : A) (f : A -> C B) bs Q : owns (f a) bs Q -> owns (mret a ≫= f) bs Q.
Proof. done. Qed.

Lemma owns_mono {A} (m : C A) bs (P Q : A -> list nat -> Prop) :
  owns m bs P -> (forall a bs', P a bs' -> Q a bs') -> owns m bs Q.
Proof. intros Hm HPQ w L Hw. specialize (Hm w L Hw). destruct (m w) as [[a w']| |]; [|done..]. naive_solver. Qed.

(** What is not needed is kept. *)
Lemma runs_frame {A} w (m : C A) bs k (Q : A -> list nat -> Prop) :
  runs w m bs Q -> runs w m (bs ++ k) (fun a bs' => exists bs'', bs' = bs'' ++ k /\ Q a bs'').
Proof.
  intros Hm L (Hn & Hl & Hd & Hb). apply NoDup_app in Hn as (Hn1 & Hdis & Hn2).
  assert (Hw : holds w (L ∪ list_to_set k) bs) by (split_and!; [done|rewrite Hl; set_solver|set_solver|done]).
  specialize (Hm _ Hw). destruct (m w) as [[a w']| |]; [|done..].
  destruct Hm as (Hq & bs' & (Hn' & Hl' & Hd' & Hb') & HQ). split; [done|].
  exists (bs' ++ k). split; [|by exists bs']. split_and!; [|rewrite Hl'; set_solver|set_solver|done].
  apply NoDup_app. split_and!; [done|set_solver|done].
Qed.

Lemma owns_frame {A} (m : C A) bs k (Q : A -> list nat -> Prop) :
  owns m bs Q -> owns m (bs ++ k) (fun a bs' => exists bs'', bs' = bs'' ++ k /\ Q a bs'').
Proof. intros Hm w. apply runs_frame, Hm. Qed.

(** The rule for a step in the middle: [bs] is what it needs. *)
Lemma owns_step {A B} (m : C A) (f : A -> C B) bs k all P Q :
  owns m bs P -> all ≡ₚ bs ++ k -> (forall a bs', P a bs' -> owns (f a) (bs' ++ k) Q) -> owns (m ≫= f) all Q.
Proof.
  intros Hm Hall Hf. eapply owns_perm; [symmetry; exact Hall|]. eapply owns_bind; [by apply owns_frame|].
  intros a bs' (bs'' & -> & HP). by apply Hf.
Qed.

Lemma owns_below {A} (f : denv -> A * denv) (P : A -> Prop) :
  (forall e, P (f e).1) -> owns (below f) [] (fun a bs' => bs' = [] /\ P a).
Proof.
  intros HP w L Hw. unfold below, on_main, dev. specialize (HP (m_env (c_main w))). destruct (f _) as [a e].
  split; [|by exists []]. by exists e, (c_live w), (c_next w).
Qed.

Lemma owns_getc {A} (f : iot_context -> A) : owns (on_main (getc f)) [] (fun _ bs' => bs' = []).
Proof. intros w L Hw. cbn. split; [|by exists []]. exists (m_env (c_main w)), (c_live w), (c_next w). by destruct w as [[]]. Qed.

(** ** Pointers *)

Definition ptr_blocks {A} (p : option (nat * A)) : list nat := match p with Some (b, _) => [b] | None => [] end.

Lemma owns_take : owns take_block [] (fun b bs' => bs' = [b]).
Proof.
  intros w L (_ & Hl & Hd & Hb). cbn.
  split; [by exists (m_env (c_main w)), ({[c_next w]} ∪ c_live w), (S (c_next w)); destruct w as [[]]|].
  exists [c_next w]. split; [|done].
  assert (Hfresh : c_next w ∉ c_live w) by (intros H; apply Hb in H; lia).
  split_and!; cbn.
  - apply NoDup_singleton.
  - rewrite Hl. set_solver.
  - rewrite Hl in Hfresh. set_solver.
  - intros b [->%elem_of_singleton|Hb']%elem_of_union; [lia|]. apply Hb in Hb'. lia.
Qed.

Lemma owns_malloc : owns iot_os_malloc [] (fun p bs' => bs' = match p with Some b => [b] | None => [] end).
Proof.
  eapply owns_bind; [by apply (owns_below _ (fun _ => True))|]. intros [] bs' [-> _]; cbn [negb]; [|by apply owns_ret].
  eapply owns_bind; [apply owns_take|]. intros b bs' ->. by apply owns_ret.
Qed.

Lemma owns_strdup s : s <> None -> owns (iot_os_strdup s) [] (fun p bs' => bs' = ptr_blocks p).
Proof.
  intros Hs. destruct s as [s|]; [|done]. cbn [iot_os_strdup need]. apply owns_mret.
  eapply owns_bind; [by apply (owns_below _ (fun _ => True))|]. intros [] bs' [-> _]; cbn [negb]; [|by apply owns_ret].
  eapply owns_bind; [apply owns_take|]. intros b bs' ->. by apply owns_ret.
Qed.

Lemma owns_free_block b : owns (free_block b) [b] (fun _ bs' => bs' = []).
Proof.
  intros w L (_ & Hl & Hd & Hb). unfold free_block. rewrite bool_decide_true by (rewrite Hl; set_solver).
  split; [by exists (m_env (c_main w)), (c_live w ∖ {[b]}), (c_next w); destruct w as [[]]|].
  exists []. split; [|done]. split_and!; cbn; [constructor|rewrite Hl; set_solver|set_solver|].
  intros x Hx. apply Hb. set_solver.
Qed.

Lemma owns_free {A} (p : option (nat * A)) : owns (iot_os_free p) (ptr_blocks p) (fun _ bs' => bs' = []).
Proof. destruct p as [[b a]|]; [apply owns_free_block|by apply owns_ret]. Qed.

Lemma owns_free_all {A} (l : list (option (nat * A))) : owns (free_all l) (concat (ptr_blocks <$> l)) (fun _ bs' => bs' = []).
Proof.
  induction l as [|p l IH]; [by apply owns_ret|]. cbn.
  eapply owns_step; [apply owns_free|reflexivity|]. by intros [] ? ->.
Qed.
End memory.

(** ** Automation *)

Lemma count_cons (b : nat) l x : count_occ Nat.eq_dec (b :: l) x = (count_occ Nat.eq_dec [b] x + count_occ Nat.eq_dec l x)%nat.
Proof. cbn. by destruct (Nat.eq_dec b x). Qed.
Lemma count_app (l k : list nat) x : count_occ Nat.eq_dec (l ++ k) x = (count_occ Nat.eq_dec l x + count_occ Nat.eq_dec k x)%nat.
Proof. apply count_occ_app. Qed.

(** The same blocks in another order. *)
Ltac perm :=
  cbn [ptr_blocks];
  apply (Permutation_count_occ Nat.eq_dec); let x := fresh "x" in intros x;
  repeat match goal with
  | |- context [count_occ Nat.eq_dec (?l ++ ?k) x] => rewrite (count_app l k x)
  | |- context [count_occ Nat.eq_dec (?b :: ?l) x] => lazymatch l with [] => fail | _ => rewrite (count_cons b l x) end
  | |- context [count_occ Nat.eq_dec [] x] => change (count_occ Nat.eq_dec [] x) with 0%nat
  end; lia.

(** One step, by the rule [H] for its first computation; the blocks [k] stay as
    they are. *)
Ltac own_step H k := eapply (owns_step _ _ _ k); [eapply H|perm|].

(** The same when its blocks are the first ones. *)
Ltac own_next H := cbn [app]; eapply owns_step; [eapply H|reflexivity|].

(** ** Events *)

Section events.
Context `{HD : Device} `{HJ : !Json}.
Abbreviation C := (st cworld).

Definition val_blocks (v : iot_cap_val_t owned) (arr : option nat) : list nat :=
  match v with
  | VAL_STRING _ s | VAL_JSON_OBJECT _ s => ptr_blocks s
  | VAL_STR_ARRAY _ l => match arr with Some b => b :: concat (ptr_blocks <$> l) | None => [] end
  | _ => []
  end.

Definition data_blocks (e : iot_cap_evt_data_t) : list nat :=
  ptr_blocks (evt_type e) ++ val_blocks (evt_value e) (evt_array e) ++ ptr_blocks (default None (evt_unit e))
  ++ ptr_blocks (evt_value_data e) ++ ptr_blocks (opt_command_id e) ++ ptr_blocks (opt_displayed e).
Definition event_blocks (e : option iot_cap_evt_data_t) : list nat :=
  match e with Some e => evt_block e :: data_blocks e | None => [] end.

Lemma owns_free_val v arr : owns (_iot_free_val v arr) (val_blocks v arr) (fun _ bs' => bs' = []).
Proof.
  destruct v; try (by apply owns_ret); try apply owns_free. cbn [_iot_free_val val_blocks].
  destruct arr as [b|]; [|by apply owns_ret]. own_step @owns_free_all [b]. intros [] ? ->. apply owns_free_block.
Qed.

Lemma owns_free_unit u : owns (_iot_free_unit u) (ptr_blocks (default None u)) (fun _ bs' => bs' = []).
Proof. destruct u as [u|]; [apply owns_free|by apply owns_ret]. Qed.

Lemma owns_free_data e : owns (_iot_free_evt_data e) (data_blocks e) (fun _ bs' => bs' = []).
Proof.
  unfold _iot_free_evt_data, data_blocks.
  own_next @owns_free. intros [] ? ->. own_next owns_free_val. intros [] ? ->. own_next owns_free_unit. intros [] ? ->.
  own_next @owns_free. intros [] ? ->. own_next @owns_free. intros [] ? ->. apply owns_free.
Qed.

Lemma owns_free_event e : owns (_iot_free_evt_data e;; free_block (evt_block e)) (event_blocks (Some e)) (fun _ bs' => bs' = []).
Proof. cbn [event_blocks]. own_step owns_free_data [evt_block e]. intros [] ? ->. apply owns_free_block. Qed.

Lemma no_blocks n : concat (ptr_blocks <$> replicate n (@None owned)) = [].
Proof. by induction n. Qed.

(** An event that is given up. *)
Lemma owns_drop_event e (Q : option iot_cap_evt_data_t -> list nat -> Prop) :
  Q None [] -> owns (_iot_free_evt_data e;; free_block (evt_block e);; mret None) (event_blocks (Some e)) Q.
Proof.
  intros HQ. cbn [event_blocks]. own_step owns_free_data [evt_block e]. intros [] ? ->.
  eapply owns_bind; [apply owns_free_block|]. intros [] ? ->. by apply owns_ret.
Qed.

Lemma owns_copy_strings l :
  owns (copy_strings l) [] (fun r bs' => bs' = concat (ptr_blocks <$> r.2)).
Proof.
  induction l as [|[s|] l IH]; cbn [copy_strings]; [by apply owns_ret| |].
  - eapply owns_bind; [by apply owns_strdup|]. intros p ? ->. own_step IH (ptr_blocks p).
    intros [ok k] ? ->. eapply owns_done; [|reflexivity]. cbn. perm.
  - apply owns_ret. cbn. by rewrite no_blocks.
Qed.

Definition value_ok (v : iot_cap_val_t string) : Prop := match v with VAL_JSON_OBJECT _ None => False | _ => True end.

Lemma owns_copy_value v :
  value_ok v -> owns (copy_value v) [] (fun r bs' => bs' = val_blocks r.2.1 r.2.2).
Proof.
  intros Hok. destruct v as [| | | | |[s|]|l|[s|]|]; cbn [copy_value]; try (by apply owns_ret).
  - eapply owns_bind; [by apply owns_strdup|]. intros p ? ->. by apply owns_ret.
  - eapply owns_bind; [apply owns_malloc|]. intros [b|] ? ->.
    + rewrite (bool_decide_eq_false_2 (Some b = None)), andb_false_r by done. own_step owns_copy_strings [b].
      intros [ok k] ? ->. eapply owns_done; [|reflexivity]. cbn. perm.
    + rewrite (bool_decide_eq_true_2 (@None nat = None)), andb_true_r by done. destruct (bool_decide (l = [])) eqn:El; cbn [negb].
      * apply bool_decide_eq_true in El as ->. apply owns_mret. by apply owns_ret.
      * by apply owns_ret.
  - eapply owns_bind; [by apply owns_strdup|]. intros p ? ->. by apply owns_ret.
  - done.
Qed.

Lemma owns_copy_unit u : owns (copy_unit u) [] (fun r bs' => bs' = ptr_blocks (default None r)).
Proof.
  destruct u as [u|]; [|by apply owns_ret]. eapply owns_bind; [by apply owns_strdup|]. intros p ? ->. by apply owns_ret.
Qed.
Lemma owns_copy_if s : owns (copy_if s) [] (fun r bs' => bs' = ptr_blocks r).
Proof. destruct s as [s|]; [by apply owns_strdup|by apply owns_ret]. Qed.

(** An event that has just been made has no options. *)
Definition plain_event (r : option iot_cap_evt_data_t) (bs : list nat) : Prop :=
  bs = event_blocks r /\ forall e, r = Some e -> opt_command_id e = None /\ opt_displayed e = None.

Lemma owns_create attribute value unit data :
  (forall v, value = Some v -> value_ok v) ->
  owns (_iot_cap_create_attr attribute value unit data) [] plain_event.
Proof.
  intros Hv. destruct attribute as [a|], value as [v|]; try (by apply owns_ret).
  cbn [_iot_cap_create_attr]. eapply owns_bind; [apply owns_malloc|]. intros [b|] ? ->; [|by apply owns_ret].
  own_step @owns_strdup [b]; [done|]. intros typ ? ->. own_step owns_copy_value (ptr_blocks typ ++ [b]); [by apply Hv|].
  intros [ok [w arr]] ? ->. cbn [fst snd]. destruct ok; cbn [negb].
  - own_step owns_copy_unit (val_blocks w arr ++ ptr_blocks typ ++ [b]). intros u ? ->.
    own_step owns_copy_if (ptr_blocks (default None u) ++ val_blocks w arr ++ ptr_blocks typ ++ [b]). intros d ? ->.
    eapply owns_done; [|split; [reflexivity|by intros e [= <-]]]. unfold event_blocks, data_blocks. cbn. perm.
  - set (e := Evt _ _ b None typ w arr None None 0 None None).
    assert (Hp : val_blocks w arr ++ ptr_blocks typ ++ [b] ≡ₚ event_blocks (Some e)).
    { unfold event_blocks, data_blocks. cbn. perm. }
    eapply owns_perm; [symmetry; exact Hp|]. by apply owns_drop_event.
Qed.

Lemma owns_copy_options e o :
  opt_command_id e = None -> opt_displayed e = None ->
  owns (copy_options e o) (event_blocks (Some e)) (fun r bs' => bs' = event_blocks r).
Proof.
  intros Hid Hd. unfold copy_options.
  assert (Hp : forall c id shown, event_blocks (Some (set_evt_options c id shown e)) ≡ₚ ptr_blocks shown ++ ptr_blocks id ++ event_blocks (Some e)).
  { intros c id shown. unfold event_blocks, data_blocks. rewrite Hid, Hd. cbn. perm. }
  own_step owns_copy_if (event_blocks (Some e)). intros id ? ->.
  destruct (negb _ && _) eqn:Enull.
  { eapply owns_perm; [|by apply owns_drop_event]. by rewrite Hp. }
  destruct (displayed o) as [d|].
  - own_step owns_malloc (ptr_blocks id ++ event_blocks (Some e)). intros [b|] ? ->.
    + eapply owns_done; [|reflexivity]. symmetry. exact (Hp (state_change o) id (Some (b, d))).
    + own_next @owns_free. intros [] ? ->. eapply owns_perm; [|by apply (owns_drop_event (set_evt_options (state_change o) None None e))].
      exact (Hp (state_change o) None None).
  - eapply owns_done; [|reflexivity]. by rewrite Hp.
Qed.

Lemma owns_create_with_option h attribute value unit data options :
  (forall v, value = Some v -> value_ok v) ->
  owns (st_cap_create_attr_with_option h attribute value unit data options) [] (fun r bs' => bs' = event_blocks r).
Proof.
  intros Hv. destruct h as [h|]; [|by apply owns_ret]. cbn [st_cap_create_attr_with_option].
  eapply owns_bind; [by apply owns_create|]. intros [e|] ? [-> He]; [|by apply owns_ret].
  destruct (He e eq_refl). destruct options as [o|]; [|by apply owns_ret].
  apply (owns_copy_options (set_ref_cap h e) o); done.
Qed.

Lemma owns_free_attr e : owns (st_cap_free_attr e) (event_blocks e) (fun _ bs' => bs' = []).
Proof. destruct e as [e|]; [apply owns_free_event|by apply owns_ret]. Qed.

(** The numbers of the blocks are below that of the next one. *)
Definition memory_ok (w : cworld) : Prop := set_Forall (fun b => (b < c_next w)%nat) (c_live w).

(** C25: Nothing that an event needs is lost or freed twice, whatever memory there
    is: when it cannot be made all that was allocated is freed, and when it is
    made [st_cap_free_attr] frees all of it, and nothing else. *)
Theorem attributes_leak_nothing h attribute value unit data options w :
  memory_ok w -> (forall v, value = Some v -> value_ok v) ->
  exists e w1, st_cap_create_attr_with_option h attribute value unit data options w = Ret (e, w1) /\
    (e = None -> c_live w1 = c_live w) /\
    exists w2, st_cap_free_attr e w1 = Ret (tt, w2) /\ c_live w2 = c_live w.
Proof.
  intros Hw Hv. assert (Hh : holds w (c_live w) []) by (split_and!; [constructor|set_solver|set_solver|done]).
  pose proof (owns_create_with_option h attribute value unit data options Hv w _ Hh) as Hc.
  destruct (st_cap_create_attr_with_option _ _ _ _ _ _ w) as [[e w1]| |]; [|done..].
  destruct Hc as (_ & bs & Hw1 & ->). exists e, w1. split; [done|]. split.
  - intros ->. destruct Hw1 as (_ & E & _). rewrite E. set_solver.
  - pose proof (owns_free_attr e w1 _ Hw1) as Hf. destruct (st_cap_free_attr e w1) as [[[] w2]| |]; [|done..].
    destruct Hf as (_ & bs & (_ & E & _) & ->). exists w2. split; [done|]. rewrite E. set_solver.
Qed.
End events.
