(* ===== verification/CapCommands.v ===== *)
(** * Capabilities: commands

    When there is memory, and the user's functions come back, the commands of a
    message reach the functions that are registered for them, in their order, each
    with its arguments, and afterwards everything is freed
    ([commands_dispatched], [commands_reported]). *)

From S2P Require Import Prelude MainState MainRun CapState CapRun CapMemory.

(** ** Memory that works *)

(** There is memory, and what cJSON makes of a text, and of a tree, depends on
    nothing else. *)
Class CapWorks `{HD : Device} `{HJ : !Json} := {
  malloc_here e : (d_malloc e).1 = true;
  strdup_here e : (d_strdup e).1 = true;
  json_here e : (json_works e).1 = true;
  parsed : string -> option json;
  parse_here s e : (parse_json s e).1 = parsed s;
  printed : json -> string;
  print_here j e : (print_json j e).1 = Some (printed j)
}.

Section works.
Context `{HD : Device} `{HJ : !Json} `{HW : !CapWorks}.
#[local] Set Default Proof Using "Type*".
Abbreviation C := (st cworld).

Lemma malloc_works : owns iot_os_malloc [] (fun p bs' => exists b, p = Some b /\ bs' = [b]).
Proof.
  eapply owns_bind; [apply (owns_below _ (fun a => a = true)), malloc_here|]. intros ? ? [-> ->]. cbn [negb].
  eapply owns_bind; [apply owns_take|]. intros b ? ->. apply owns_ret. by exists b.
Qed.
Lemma strdup_works s : owns (iot_os_strdup (Some s)) [] (fun p bs' => exists b, p = Some (b, s) /\ bs' = [b]).
Proof.
  apply owns_mret. eapply owns_bind; [apply (owns_below _ (fun a => a = true)), strdup_here|]. intros ? ? [-> ->]. cbn [negb].
  eapply owns_bind; [apply owns_take|]. intros b ? ->. apply owns_ret. by exists b.
Qed.
Lemma made_works {A} (o : option A) :
  owns (made o) [] (fun p bs' => match o with Some a => exists b, p = Some (b, a) /\ bs' = [b] | None => p = None /\ bs' = [] end).
Proof.
  destruct o as [a|]; [|by apply owns_ret]. eapply owns_bind; [apply owns_take|]. intros b ? ->. apply owns_ret. by exists b.
Qed.
Lemma print_works j : owns (JSON_PRINT (Some j)) [] (fun p bs' => exists b, p = Some (b, printed j) /\ bs' = [b]).
Proof.
  eapply owns_bind; [apply (owns_below _ (fun a => a = Some (printed j))), print_here|]. intros ? ? [-> ->]. apply (made_works (Some (printed j))).
Qed.
Lemma parse_works s :
  owns (JSON_PARSE (Some s)) [] (fun t bs' => match parsed s with Some j => exists b, t = Some (b, j) /\ bs' = [b] | None => t = None /\ bs' = [] end).
Proof.
  eapply owns_bind; [apply (owns_below _ (fun a => a = parsed s)), parse_here|]. intros ? ? [-> ->]. apply made_works.
Qed.
Lemma log_works b j : owns (log_json (Some (b, j))) [] (fun _ bs' => bs' = []).
Proof. eapply owns_bind; [apply print_works|]. intros ? ? (b' & -> & ->). apply owns_free_block. Qed.

(** ** Arguments *)

Definition arg_of (j : json) : option (iot_cap_val_t string) :=
  match json_kind j with
  | JSON_BOOL b => Some (VAL_BOOLEAN _ b)
  | JSON_NUMBER => Some (VAL_INT_OR_NUM _ (valueint j) (valuedouble j))
  | JSON_STRING => Some (VAL_STRING _ (valuestring j))
  | JSON_OBJECT | JSON_ARRAY => Some (VAL_JSON_OBJECT _ (Some (printed j)))
  | JSON_OTHER => None
  end.

(** The items of strings have one. *)
Definition text_ok (j : json) : Prop := json_kind j = JSON_STRING -> valuestring j <> None.

Definition values_blocks (l : list (iot_cap_val_t owned)) : list nat := concat ((fun v => val_blocks v None) <$> l).

Lemma argument_works j :
  text_ok j ->
  owns (argument j) [] (fun v bs' => plain <$> v = arg_of j /\ bs' = values_blocks (option_list v)).
Proof.
  intros Hj. unfold argument, arg_of, values_blocks. unfold text_ok in Hj. destruct (json_kind j); try (by apply owns_ret).
  - destruct (valuestring j) as [s|]; [|by destruct Hj]. eapply owns_bind; [apply strdup_works|]. intros ? ? (b & -> & ->).
    by apply owns_ret.
  - eapply owns_bind; [apply print_works|]. intros ? ? (b & -> & ->). own_step strdup_works [b]. intros ? ? (b' & -> & ->).
    own_step @owns_free [b']. intros [] ? ->. by apply owns_ret.
  - eapply owns_bind; [apply print_works|]. intros ? ? (b & -> & ->). own_step strdup_works [b]. intros ? ? (b' & -> & ->).
    own_step @owns_free [b']. intros [] ? ->. by apply owns_ret.
Qed.

Lemma arguments_work items :
  Forall text_ok items ->
  owns (arguments items) [] (fun l bs' => plain <$> l = omap arg_of items /\ bs' = values_blocks l).
Proof.
  induction 1 as [|j items Hj _ IH]; cbn [arguments]; [by apply owns_ret|].
  eapply owns_bind; [by apply argument_works|]. intros v ? [Hv ->]. own_step IH (values_blocks (option_list v)).
  intros l ? [Hl ->]. destruct v as [v|]; cbn [omap list_omap]; rewrite <- Hv; cbn [fmap option_fmap option_map].
  - eapply owns_done; [|split; [|reflexivity]]; [unfold values_blocks; cbn; perm|by cbn; rewrite Hl].
  - eapply owns_done; [|split; [exact Hl|reflexivity]]. unfold values_blocks. cbn. perm.
Qed.

(** ** A command *)

(** A command that can be read: the names are strings, the identifier is one if
    it is there, and of the arguments at least one and less than 256 are values,
    unless there are none. *)
Record command_ok (item : json) (comp cap cmd : string) (id : option string) : Prop := {
  co_component : get_item item "component" ≫= valuestring = Some comp;
  co_capability : get_item item "capability" ≫= valuestring = Some cap;
  co_command : get_item item "command" ≫= valuestring = Some cmd;
  co_id : id = JSON_GET_STRING_VALUE (get_item item "id") /\ (get_item item "id" <> None -> id <> None);
  co_args : Forall text_ok (args_of item);
  co_count : args_of item = [] \/ 0 < zlen (omap arg_of (args_of item)) < 256
}.

Definition array_blocks (p : parsed_cmd) : list nat := match p_arrays p with Some (a, d) => [a; d] | None => [] end.
Definition name_blocks (p : parsed_cmd) : list nat :=
  ptr_blocks (p_component p) ++ ptr_blocks (p_capability p) ++ ptr_blocks (p_command p) ++ ptr_blocks (p_id p).

(** What has been read of it. *)
Record read_command (item : json) (comp cap cmd : string) (id : option string) (p : parsed_cmd) : Prop := {
  rc_component : text_of (p_component p) = Some comp;
  rc_capability : text_of (p_capability p) = Some cap;
  rc_command : text_of (p_command p) = Some cmd;
  rc_id : text_of (p_id p) = id;
  rc_values : plain <$> p_values p = omap arg_of (args_of item);
  rc_num : p_num p = zlen (omap arg_of (args_of item));
  rc_none : p_num p = 0 -> array_blocks p = [] /\ p_values p = []
}.

Lemma parse_cmd_works item comp cap cmd id :
  command_ok item comp cap cmd id ->
  owns (_iot_parse_cmd_data item) []
    (fun r bs' => r.1 = IOT_ERROR_NONE /\ read_command item comp cap cmd id r.2 /\
                  bs' ≡ₚ name_blocks r.2 ++ array_blocks r.2 ++ values_blocks (p_values r.2)).
Proof.
  intros [Hcomp Hcap Hcmd [Hid Hid'] Hargs Hcount]. unfold _iot_parse_cmd_data.
  destruct (get_item item "component") as [jc|]; [|done]. destruct (get_item item "capability") as [jp|]; [|done].
  destruct (get_item item "command") as [jm|]; [|done]. cbn in Hcomp, Hcap, Hcmd. rewrite Hcomp, Hcap, Hcmd.
  own_step strdup_works (@nil nat). intros ? ? (bc & -> & ->). own_step strdup_works [bc]. intros ? ? (bp & -> & ->).
  own_step strdup_works [bp; bc]. intros ? ? (bm & -> & ->).
  eapply (owns_step _ _ [] ([bm] ++ [bp; bc]) _ (fun (r : Z * (option (nat * nat) * list (iot_cap_val_t owned))) bs' =>
    r.1 = IOT_ERROR_NONE /\ plain <$> r.2.2 = omap arg_of (args_of item) /\
    (args_of item = [] -> r.2.1 = None) /\
    bs' ≡ₚ match r.2.1 with Some (a, d) => [a; d] | None => [] end ++ values_blocks r.2.2)); [|perm|].
  { case_bool_decide as Hnil; [rewrite Hnil; by apply owns_ret|].
    own_step malloc_works (@nil nat). intros ? ? (a & -> & ->). own_step malloc_works [a]. intros ? ? (d & -> & ->).
    own_step arguments_work [d; a]; [done|]. intros l ? [Hl ->]. apply owns_ret. cbn [fst snd]. split_and!; [done|done|done|].
    perm. }
  intros [err [arrays l]] bs (Herr & Hl & Hnil & Hbs). cbn [fst snd] in Herr, Hl, Hnil, Hbs. subst err. rewrite Z.eqb_refl. cbn [negb].
  assert (Hlen : to_uchar (zlen l) = zlen (omap arg_of (args_of item))).
  { rewrite <- Hl. unfold zlen at 2. rewrite length_fmap. fold (zlen l). apply Z.mod_small.
    destruct Hcount as [E|E]; [|rewrite <- Hl in E; unfold zlen in E |- *; rewrite length_fmap in E; lia].
    rewrite E in Hl. cbn in Hl. by destruct l. }
  eapply (owns_step _ _ [] (bs ++ [bm] ++ [bp; bc]) _ (fun p bs' => text_of p = id /\ bs' = ptr_blocks p)); [|perm|].
  { destruct (get_item item "id") as [ji|]; [|by apply owns_ret]. rewrite <- Hid. destruct id as [i|]; [|by destruct Hid'].
    eapply owns_mono; [apply strdup_works|]. by intros ? ? (b & -> & ->). }
  intros pid ? [Hpid ->]. apply owns_ret. split_and!; [done| |].
  - split; try done. cbn [snd p_num]. rewrite Hlen. intros H0. destruct Hcount as [E|E]; [|lia].
    unfold array_blocks. cbn [snd p_arrays p_values]. rewrite Hnil by done. split; [done|]. rewrite E in Hl. by destruct l.
  - unfold name_blocks, array_blocks. cbn [fst snd p_component p_capability p_command p_id p_arrays p_values]. rewrite Hbs. perm.
Qed.

Lemma owns_free_values l : owns (free_values l) (values_blocks l) (fun _ bs' => bs' = []).
Proof using Type.
  induction l as [|v l IH]; [by apply owns_ret|]. cbn [free_values]. unfold values_blocks. cbn [fmap list_fmap concat].
  own_next owns_free_val. by intros [] ? ->.
Qed.

Lemma free_cmd_works item comp cap cmd id p :
  read_command item comp cap cmd id p ->
  owns (_iot_free_cmd_data p) (array_blocks p ++ values_blocks (p_values p)) (fun _ bs' => bs' = []).
Proof using Type.
  intros [_ _ _ _ Hv Hn _]. unfold _iot_free_cmd_data.
  rewrite take_ge by (rewrite Hn, <- Hv; unfold zlen; rewrite length_fmap; lia).
  own_step owns_free_values (array_blocks p). intros [] ? ->. unfold array_blocks.
  destruct (p_arrays p) as [[a d]|]; [|by apply owns_ret]. own_step owns_free_block [d]. intros [] ? ->. apply owns_free_block.
Qed.

(** What is freed after a command. *)
Lemma free_works item comp cap cmd id p :
  read_command item comp cap cmd id p ->
  owns (when (negb (p_num p =? 0)) (_iot_free_cmd_data p);; iot_os_free (p_component p);; iot_os_free (p_capability p);;
        iot_os_free (p_command p);; iot_os_free (p_id p))
    (name_blocks p ++ array_blocks p ++ values_blocks (p_values p)) (fun _ bs' => bs' = []).
Proof using Type.
  intros Hp. apply (owns_step _ _ (array_blocks p ++ values_blocks (p_values p)) (name_blocks p) _ (fun _ bs' => bs' = [])); [|perm|].
  - destruct (Z.eqb_spec (p_num p) 0) as [E|E]; cbn [negb when].
    + destruct (rc_none _ _ _ _ _ _ Hp E) as [-> ->]. by apply owns_ret.
    + by eapply free_cmd_works.
  - intros [] ? ->. unfold name_blocks. own_next @owns_free. intros [] ? ->. own_next @owns_free. intros [] ? ->.
    own_next @owns_free. intros [] ? ->. apply owns_free.
Qed.
End works.

(** ** Calls of the user *)

Section dispatch.
Context `{HD : Device} `{HJ : !Json} `{HB : !CapBelow} `{HW : !CapWorks}.
#[local] Set Default Proof Using "Type*".
Abbreviation C := (st cworld).

(** The handles, their list, and whether there is a callback for
    notifications. *)
Record registry := Registry { r_handles : gmap nat iot_cap_handle; r_list : list nat; r_noti : bool }.
Definition registry_of (w : cworld) : registry := Registry (c_handles w) (cap_handle_list w) (noti_cb (m_ctx (c_main w))).

(** The user's functions come back, register nothing and keep no memory of their
    own. *)
Class Polite (user : cap_call -> C unit) :=
  polite c w : memory_ok w -> exists w', user c w = Ret (tt, w') /\ registry_of w' = registry_of w /\
    c_calls w' = c_calls w /\ c_live w' = c_live w /\ memory_ok w'.

Context (user : cap_call -> C unit) `{HU : !Polite user}.

(** The registry [r] stays, and the postcondition tells the calls as well. *)
Definition acts {A} (r : registry) (m : C A) (bs : list nat) (Q : A -> list nat -> list cap_call -> Prop) : Prop :=
  forall w L, registry_of w = r -> holds w L bs ->
  match m w with
  | Ret (a, w') => registry_of w' = r /\ exists bs' cs, c_calls w' = c_calls w ++ cs /\ holds w' L bs' /\ Q a bs' cs
  | _ => False
  end.

Lemma owns_acts {A} r (m : C A) bs P Q : owns m bs P -> (forall a bs', P a bs' -> Q a bs' []) -> acts r m bs Q.
Proof using Type.
  intros Hm HQ w L Hr Hw. specialize (Hm w L Hw). destruct (m w) as [[a w']| |]; [|done..].
  destruct Hm as ((e & l & n & ->) & bs' & Hw' & HP). split; [exact Hr|]. exists bs', []. rewrite app_nil_r. auto.
Qed.

Lemma acts_ret {A} r (a : A) bs (Q : A -> list nat -> list cap_call -> Prop) : Q a bs [] -> acts r (mret a) bs Q.
Proof using Type. intros HQ. eapply owns_acts; [by apply (owns_ret _ _ (fun a' bs' => a' = a /\ bs' = bs))|]. by intros ? ? [-> ->]. Qed.

Lemma acts_perm {A} r (m : C A) bs bs' Q : bs ≡ₚ bs' -> acts r m bs Q -> acts r m bs' Q.
Proof using Type. intros Hp Hm w L Hr Hw. apply Hm; [done|]. by eapply holds_perm. Qed.

Lemma acts_bind {A B} r (m : C A) (f : A -> C B) bs P Q :
  acts r m bs P -> (forall a bs' cs, P a bs' cs -> acts r (f a) bs' (fun b bs'' cs' => Q b bs'' (cs ++ cs'))) ->
  acts r (m ≫= f) bs Q.
Proof using Type.
  intros Hm Hf w L Hr Hw. specialize (Hm w L Hr Hw). unfold mbind, st_bind. destruct (m w) as [[a w']| |]; [|done..].
  destruct Hm as (Hr' & bs' & cs & Hcs & Hw' & HP). specialize (Hf a bs' cs HP w' L Hr' Hw').
  destruct (f a w') as [[b w'']| |]; [|done..]. destruct Hf as (Hr'' & bs'' & cs' & Hcs' & Hw'' & HQ).
  split; [done|]. exists bs'', (cs ++ cs'). by rewrite Hcs', Hcs, app_assoc.
Qed.

(** A step that owns its blocks and calls nobody. *)
Lemma acts_step {A B} r (m : C A) (f : A -> C B) bs k all P Q :
  owns m bs P -> all ≡ₚ bs ++ k -> (forall a bs', P a bs' -> acts r (f a) (bs' ++ k) Q) -> acts r (m ≫= f) all Q.
Proof using Type.
  intros Hm Hall Hf. eapply (acts_bind _ _ _ _ (fun a bs' cs => cs = [] /\ exists bs'', bs' = bs'' ++ k /\ P a bs'')).
  - eapply owns_acts; [eapply owns_perm; [symmetry; exact Hall|]; by apply owns_frame|]. by intros a bs' HP.
  - intros a bs' cs [-> (bs'' & -> & HP)]. by apply Hf.
Qed.

Lemma acts_mono {A} r (m : C A) bs (P Q : A -> list nat -> list cap_call -> Prop) :
  acts r m bs P -> (forall a bs' cs, P a bs' cs -> Q a bs' cs) -> acts r m bs Q.
Proof using Type. intros Hm HPQ w L Hr Hw. specialize (Hm w L Hr Hw). destruct (m w) as [[a w']| |]; [|done..]. naive_solver. Qed.

Lemma acts_user r c bs : acts r (call_user user c) bs (fun _ bs' cs => bs' = bs /\ cs = [c]).
Proof using HU.
  intros w L Hr Hw. change (call_user user c w) with (user c (set_calls (c_calls w ++ [c]) w)). destruct Hw as (Hn & Hl & Hd & Hb).
  destruct (polite c (set_calls (c_calls w ++ [c]) w) Hb) as (w' & E & Hr' & Hc & Hl' & Hb').
  rewrite E. split; [by rewrite Hr'|]. exists bs, [c]. split; [by rewrite Hc|]. split; [|done].
  split_and!; [done|by rewrite Hl'|done|exact Hb'].
Qed.

Lemma acts_registry {A} r (f : cworld -> A) (g : registry -> A) bs :
  (forall w, f w = g (registry_of w)) -> acts r (gets f) bs (fun a bs' cs => a = g r /\ bs' = bs /\ cs = []).
Proof using Type. intros Hf w L Hr Hw. cbn. split; [done|]. exists bs, []. rewrite app_nil_r, Hf, Hr. auto. Qed.

(** What a computation that gives back all its blocks does. *)
Lemma acts_run {A} (m : C A) calls w :
  memory_ok w -> acts (registry_of w) m [] (fun _ bs' cs => bs' = [] /\ cs = calls) ->
  exists a w', m w = Ret (a, w') /\ c_calls w' = c_calls w ++ calls /\ c_live w' = c_live w /\ registry_of w' = registry_of w.
Proof using Type.
  clear dependent user. intros Hm Ha. assert (Hh : holds w (c_live w) []) by (split_and!; [constructor|set_solver|set_solver|done]).
  specialize (Ha w _ eq_refl Hh). destruct (m w) as [[a w']| |]; [|done..].
  destruct Ha as (Hr & bs' & cs & Hcs & (_ & E & _) & -> & ->). exists a, w'. split_and!; [done|done|rewrite E; set_solver|done].
Qed.

Lemma acts_noti r bs : acts r (on_main (getc noti_cb)) bs (fun cb bs' cs => cb = r_noti r /\ bs' = bs /\ cs = []).
Proof using Type.
  intros w L Hr Hw. cbn. destruct w as [[]]. split; [exact Hr|]. exists bs, []. rewrite app_nil_r. split; [done|].
  split; [exact Hw|]. by rewrite <- Hr.
Qed.

(** ** Which function is called *)

Definition named (r : registry) (comp cap : string) (h : nat) : bool :=
  match r_handles r !! h with
  | Some x => bool_decide (comp = component x) && bool_decide (cap = capability x)
  | None => false
  end.
(** The first handle of the names, and its first command of the name. *)
Definition first_handle (r : registry) (comp cap : string) : option nat := snd <$> list_find (fun h => named r comp cap h) (r_list r).
Definition first_command (x : iot_cap_handle) (cmd : string) : option iot_cap_cmd_set :=
  snd <$> list_find (fun c => cmd_type c = Some cmd) (cmd_list x).

(** The handles of the list are there, and their commands have names. *)
Definition registry_ok (r : registry) : Prop :=
  Forall (fun h => exists x, r_handles r !! h = Some x /\ Forall (fun c => cmd_type c <> None) (cmd_list x)) (r_list r).

Lemma acts_handle r h x bs : r_handles r !! h = Some x -> acts r (handle_at h) bs (fun y bs' cs => y = x /\ bs' = bs /\ cs = []).
Proof using Type.
  intros Hx. unfold handle_at. eapply acts_bind; [by apply (acts_registry _ c_handles r_handles)|].
  intros ? ? ? (-> & -> & ->). rewrite Hx. cbn [need]. by apply acts_ret.
Qed.

Lemma acts_find_handle r comp cap bs l :
  Forall (fun h => exists x, r_handles r !! h = Some x) l ->
  acts r (find_handle (Some comp) (Some cap) l) bs
    (fun h bs' cs => h = snd <$> list_find (fun h => named r comp cap h) l /\ bs' = bs /\ cs = []).
Proof using Type.
  induction 1 as [|h l [x Hx] _ IH]; cbn [find_handle]; [by apply acts_ret|].
  eapply acts_bind; [by apply acts_handle|]. intros ? ? ? (-> & -> & ->). cbn [need].
  assert (Hn : named r comp cap h = bool_decide (comp = component x) && bool_decide (cap = capability x)) by (unfold named; by rewrite Hx).
  assert (Hskip : ~ named r comp cap h -> acts r (find_handle (Some comp) (Some cap) l) bs
    (fun h0 bs' cs => h0 = snd <$> list_find (fun h => named r comp cap h) (h :: l) /\ bs' = bs /\ [] ++ cs = [])).
  { intros Hh w L Hr Hw. specialize (IH w L Hr Hw). destruct (find_handle _ _ _ w) as [[h' w']| |]; [|done..].
    destruct IH as (Hr' & bs' & cs & Hcs & Hw' & -> & -> & ->). split; [done|]. exists bs, []. split_and!; [done|done| |done|done].
    cbn [list_find]. rewrite decide_False by done. by destruct (list_find _ l) as [[]|]. }
  apply acts_bind with (P := fun a bs' cs => a = comp /\ bs' = bs /\ cs = []); [by apply acts_ret|].
  intros ? ? ? (-> & -> & ->). case_bool_decide as E1; [|apply Hskip; rewrite Hn; naive_solver].
  cbn [need]. apply acts_bind with (P := fun a bs' cs => a = cap /\ bs' = bs /\ cs = []); [by apply acts_ret|].
  intros ? ? ? (-> & -> & ->). case_bool_decide as E2; [|apply Hskip; rewrite Hn; naive_solver].
  apply acts_ret. cbn [list_find]. rewrite decide_True by (rewrite Hn; naive_solver). done.
Qed.

Lemma acts_find_command r cmd bs l :
  Forall (fun c => cmd_type c <> None) l ->
  acts r (find_command (Some cmd) l) bs
    (fun c bs' cs => c = snd <$> list_find (fun c => cmd_type c = Some cmd) l /\ bs' = bs /\ cs = []).
Proof using Type.
  induction 1 as [|c l Hc _ IH]; cbn [find_command]; [by apply acts_ret|].
  change (acts r (s ← need (cmd_type c); if bool_decide (cmd = s) then mret (Some c) else find_command (Some cmd) l) bs
    (fun c0 bs' cs => c0 = snd <$> list_find (fun c => cmd_type c = Some cmd) (c :: l) /\ bs' = bs /\ cs = [])).
  destruct (cmd_type c) as [s|] eqn:Es; [|done].
  change (acts r (if bool_decide (cmd = s) then mret (Some c) else find_command (Some cmd) l) bs
    (fun c0 bs' cs => c0 = snd <$> list_find (fun c => cmd_type c = Some cmd) (c :: l) /\ bs' = bs /\ cs = [])).
  cbn [list_find]. rewrite Es. case_bool_decide as E.
  - apply acts_ret. rewrite decide_True by congruence. done.
  - rewrite decide_False by congruence. eapply acts_mono; [exact IH|]. intros ? ? ? (-> & -> & ->).
    split; [|done]. by destruct (list_find _ l) as [[]|].
Qed.

(** The call that a command leads to. *)
Definition target (r : registry) (comp cap cmd : string) : option (nat * iot_cap_cmd_set) :=
  h ← first_handle r comp cap; x ← r_handles r !! h; c ← first_command x cmd; Some (h, c).
Definition calls_to (r : registry) (comp cap cmd : string) (data : iot_cap_cmd_data_t) : list cap_call :=
  match target r comp cap cmd with Some (h, c) => [cmd_called (cmd_cb c) h data (cmd_usr_data c)] | None => [] end.

Lemma process_works r comp cap cmd comp' cap' cmd' data bs :
  registry_ok r -> text_of comp = Some comp' -> text_of cap = Some cap' -> text_of cmd = Some cmd' ->
  acts r (_iot_process_cmd user comp cap cmd data) bs (fun _ bs' cs => bs' = bs /\ cs = calls_to r comp' cap' cmd' data).
Proof.
  intros Hr Hcomp Hcap Hcmd. unfold _iot_process_cmd. rewrite Hcomp, Hcap, Hcmd.
  eapply acts_bind; [by apply (acts_registry _ cap_handle_list r_list)|]. intros ? ? ? (-> & -> & ->).
  eapply acts_bind; [apply acts_find_handle; eapply Forall_impl; [exact Hr|]; naive_solver|]. intros ? ? ? (-> & -> & ->).
  unfold calls_to, target, first_handle, registry_ok in *.
  destruct (list_find _ (r_list r)) as [[i h]|] eqn:E; cbn [fmap option_fmap option_map snd mbind option_bind]; [|by apply acts_ret].
  apply list_find_Some in E as (Hh & _). rewrite Forall_lookup in Hr. destruct (Hr _ _ Hh) as (x & Hx & Hcs).
  eapply acts_bind; [by apply acts_handle|]. intros ? ? ? (-> & -> & ->). rewrite Hx. cbn [mbind option_bind].
  eapply acts_bind; [by apply acts_find_command|]. intros ? ? ? (-> & -> & ->). unfold first_command.
  destruct (list_find _ (cmd_list x)) as [[? c]|]; cbn [fmap option_fmap option_map snd]; [|by apply acts_ret].
  eapply acts_bind; [apply acts_user|]. intros [] ? ? [-> ->]. by apply acts_ret.
Qed.

(** ** The commands of a message *)

Definition args_given (item : json) : list (iot_cap_val_t string) := omap arg_of (args_of item).
Definition string_item_of (item : json) (key : string) : option string := get_item item key ≫= valuestring.
Definition calls_of (r : registry) (total order : Z) (item : json) : list cap_call :=
  match string_item_of item "component", string_item_of item "capability", string_item_of item "command" with
  | Some comp, Some cap, Some cmd =>
      calls_to r comp cap cmd (CmdData _ _ (zlen (args_given item)) (args_given item) total order (JSON_GET_STRING_VALUE (get_item item "id")))
  | _, _, _ => []
  end.

(** A command that can be read, or one that lacks a name. *)
Definition command_fits (item : json) : Prop :=
  (exists comp cap cmd id, command_ok item comp cap cmd id) \/
  get_item item "component" = None \/ get_item item "capability" = None \/ get_item item "command" = None.

Lemma handle_works r item total order bs :
  registry_ok r -> command_fits item ->
  acts r (handle_command user item total order) bs (fun _ bs' cs => bs' = bs /\ cs = calls_of r total order item).
Proof.
  intros Hr [(comp & cap & cmd & id & Hok)|Hno].
  - pose proof (parse_cmd_works item comp cap cmd id Hok) as Hp. destruct Hok as [Ecomp Ecap Ecmd [Eid _] _ _].
    unfold handle_command.
    eapply (acts_step _ _ _ [] bs); [exact Hp|reflexivity|]. intros [err p] bs' (Eerr & Hread & Hbs). cbn [fst snd] in Eerr, Hread, Hbs.
    subst err. rewrite Z.eqb_refl. cbn [when].
    apply acts_bind with (P := fun _ bs0 cs => bs0 = bs' ++ bs /\ cs = calls_of r total order item).
    { eapply acts_bind; [destruct Hread; by eapply process_works|]. intros ? ? ? [-> ->]. apply acts_ret. split; [done|].
      rewrite app_nil_r. unfold calls_of, string_item_of. rewrite Ecomp, Ecap, Ecmd, <- Eid. destruct Hread as [_ _ _ Tid Tv Tn _].
      unfold args_given. by rewrite Tn, Tv, Tid. }
    intros [] ? cs [-> ->]. eapply owns_acts.
    + eapply owns_perm; [|eapply (owns_frame _ _ bs), (free_works item comp cap cmd id p Hread)]. by rewrite Hbs.
    + intros [] ? (? & -> & ->). by rewrite app_nil_r.
  - unfold handle_command. eapply acts_bind with (P := fun e bs' cs => e = (IOT_ERROR_BAD_REQ, no_cmd) /\ bs' = bs /\ cs = []).
    { unfold _iot_parse_cmd_data. destruct (get_item item "component"); [|by apply acts_ret].
      destruct (get_item item "capability"); [|by apply acts_ret]. destruct (get_item item "command"); [|by apply acts_ret]. naive_solver. }
    intros ? ? ? (-> & -> & ->). cbn. apply acts_ret. split; [done|]. unfold calls_of, string_item_of.
    destruct Hno as [E|[E|E]]; rewrite E; cbn; try done; by repeat case_match.
Qed.

Lemma loop_works r items total order bs :
  registry_ok r -> Forall command_fits items ->
  acts r (commands_loop user items total order) bs
    (fun _ bs' cs => bs' = bs /\ cs = concat (imap (fun i => calls_of r total (order + Z.of_nat i)) items)).
Proof.
  intros Hr Hi. revert order. induction Hi as [|item items Hitem _ IH]; intros order; [by apply acts_ret|]. cbn [commands_loop].
  eapply acts_bind; [by apply handle_works|]. intros [] ? ? [-> ->]. eapply acts_mono; [apply IH|]. intros [] ? ? [-> ->].
  split; [done|]. cbn [imap]. cbn [concat]. rewrite Z.add_0_r. f_equal. f_equal.
  apply imap_ext. intros i x _. unfold compose. by replace (order + Z.of_nat (S i)) with (order + 1 + Z.of_nat i) by lia.
Qed.

(** The calls for a message with these commands. *)
Definition dispatch_of (r : registry) (cmds : json) : list cap_call :=
  concat (imap (fun i => calls_of r (zlen (children cmds)) (1 + Z.of_nat i)) (children cmds)).

Lemma sub_acts r payload j cmds :
  parsed payload = Some j -> get_item j "commands" = Some cmds -> Forall command_fits (children cmds) ->
  r_list r <> [] -> registry_ok r ->
  acts r (iot_cap_sub_cb user (Some payload)) [] (fun _ bs' cs => bs' = [] /\ cs = dispatch_of r cmds).
Proof.
  intros Hj Hcmds Hi Hl Hr. unfold iot_cap_sub_cb.
  eapply acts_bind; [by apply (acts_registry _ cap_handle_list r_list)|]. intros ? ? ? (-> & -> & ->).
  destruct (r_list r); [done|].
  eapply (acts_step _ _ _ [] []); [apply parse_works|done|]. rewrite Hj. intros ? ? (b & -> & ->).
  eapply (acts_step _ _ _ [] [b]); [apply log_works|done|]. intros [] ? ->. rewrite Hcmds.
  eapply acts_bind; [by apply loop_works|]. intros [] ? ? [-> ->].
  eapply owns_acts; [apply owns_free_block|]. intros [] ? ->. by rewrite app_nil_r.
Qed.

(** C23: When there is memory, the commands of a message reach the functions that
    are registered for them: for each command, in the order of the message, the
    first handle of its component and capability and there the first function of
    its name is called, once, with the arguments, the identifier, the number of
    commands and the command's place among them; a command without a function is
    skipped, and so is one without its names.  All that has been allocated for
    the message is freed, and what has been registered stays. *)
Theorem commands_dispatched payload j cmds w :
  parsed payload = Some j -> get_item j "commands" = Some cmds -> Forall command_fits (children cmds) ->
  cap_handle_list w <> [] -> registry_ok (registry_of w) -> memory_ok w ->
  exists w', iot_cap_sub_cb user (Some payload) w = Ret (tt, w') /\
    c_calls w' = c_calls w ++ dispatch_of (registry_of w) cmds /\
    c_live w' = c_live w /\ registry_of w' = registry_of w.
Proof.
  intros Hj Hcmds Hi Hl Hr Hm.
  destruct (acts_run _ _ w Hm (sub_acts (registry_of w) payload j cmds Hj Hcmds Hi Hl Hr)) as ([] & w' & H). by exists w'.
Qed.
End dispatch.
