(* ===== verification/CapReport.v ===== *)
(** * Capabilities: the commands of a message at once

    [iot_cap_commands_cb]: when there is memory, the user's one function gets all
    commands of a message, or none of them ([commands_reported]). *)

From S2P Require Import Prelude MainState MainRun CapState CapRun CapMemory CapCommands.

Section report.
Context `{HD : Device} `{HJ : !Json} `{HW : !CapWorks}.
#[local] Set Default Proof Using "Type*".
Abbreviation C := (st cworld).

(** ** Parameters *)

Definition param_of (j : json) : st_data :=
  match json_kind j with
  | JSON_BOOL b => ST_BOOLEAN b
  | JSON_NUMBER => ST_NUMBER (valuedouble j)
  | JSON_STRING => ST_STRING (valuestring j)
  | JSON_OBJECT | JSON_ARRAY => ST_RAW_JSON (Some (printed j))
  | JSON_OTHER => ST_STRING None
  end.

Definition param_blocks (l : list (st_data * option nat)) : list nat := concat ((fun v => option_list v.2) <$> l).

Lemma parameter_works j :
  owns (parameter j) [] (fun v bs' => v.1 = param_of j /\ bs' = option_list v.2).
Proof.
  unfold parameter, param_of. destruct (json_kind j); try (by apply owns_ret).
  all: eapply owns_bind; [apply print_works|]; intros ? ? (b & -> & ->); by apply owns_ret.
Qed.

Lemma parameters_work items :
  owns (parameters items) [] (fun l bs' => fst <$> l = param_of <$> items /\ bs' = param_blocks l).
Proof.
  induction items as [|j items IH]; cbn [parameters]; [by apply owns_ret|].
  eapply owns_bind; [apply parameter_works|]. intros v ? [Hv ->]. own_step IH (option_list v.2). intros l ? [Hl ->].
  eapply owns_done; [|split; [|reflexivity]]; [unfold param_blocks; cbn [fmap list_fmap concat]; perm|]. cbn. by rewrite Hv, <- Hl.
Qed.

Lemma owns_free_params l : owns (free_params l) (param_blocks l) (fun _ bs' => bs' = []).
Proof using Type.
  induction l as [|[v [b|]] l IH]; [by apply owns_ret| |]; cbn [free_params]; unfold param_blocks; cbn [fmap list_fmap concat snd option_list app].
  - own_next owns_free_block. by intros [] ? ->.
  - by apply owns_mret.
Qed.

(** ** A command *)

Definition names : list string := ["component"; "capability"; "command"; "id"]%string.
(** The four items are strings, and there are less than 256 arguments. *)
Definition complete (item : json) : Prop :=
  Forall (fun key => string_item_of item key <> None) names /\
  exists args, get_item item "arguments" = Some args /\ zlen (children args) < 256.
(** One of the items is missing. *)
Definition lacking (item : json) : Prop := Exists (fun key => get_item item key = None) ("arguments"%string :: names).
Definition command_of (item : json) : st_command_data :=
  Command _ _ (string_item_of item "id") (string_item_of item "component") (string_item_of item "capability")
    (string_item_of item "command") (param_of <$> args_of item) (zlen (args_of item)).

Definition v2_blocks (p : parsed_v2) : list nat :=
  param_blocks (v_params p) ++ option_list (v_list p) ++ ptr_blocks (v_command p) ++ ptr_blocks (v_cap p)
  ++ ptr_blocks (v_component p) ++ ptr_blocks (v_id p).

Lemma parse_v2_works item :
  complete item ->
  owns (_iot_parse_cmd_data_v2 item) []
    (fun r bs' => r.1 = IOT_ERROR_NONE /\ plain_command r.2 = command_of item /\
                  (length (v_params r.2) <= Z.to_nat (v_num r.2))%nat /\ bs' ≡ₚ v2_blocks r.2).
Proof.
  intros [Hn (args & Ea & Hargs)]. unfold names in Hn. rewrite !Forall_cons in Hn. destruct Hn as (Hcomp & Hcap & Hcmd & Hid & _).
  unfold string_item_of in *. unfold _iot_parse_cmd_data_v2, command_of, string_item_of, args_of. rewrite Ea.
  destruct (get_item item "component") as [jc|]; [|done]. destruct (get_item item "capability") as [jp|]; [|done].
  destruct (get_item item "command") as [jm|]; [|done]. destruct (get_item item "id") as [ji|]; [|done]. cbn [mbind option_bind] in *.
  destruct (valuestring jc) as [comp|]; [|done]. destruct (valuestring jp) as [cap|]; [|done].
  destruct (valuestring jm) as [cmd|]; [|done]. destruct (valuestring ji) as [id|]; [|done].
  eapply (owns_bind _ _ _ (fun b bs' => bs' = option_list b /\ (children args = [] <-> b = None))).
  { case_bool_decide as E; [by apply owns_ret|]. eapply owns_mono; [apply malloc_works|]. by intros ? ? (b & -> & ->). }
  intros b ? [-> Hb]. replace (negb _ && _) with false by (repeat case_bool_decide; naive_solver).
  own_step strdup_works (option_list b). intros ? ? (bi & -> & ->). own_step strdup_works ([bi] ++ option_list b). intros ? ? (bc & -> & ->).
  own_step strdup_works ([bc] ++ [bi] ++ option_list b). intros ? ? (bp & -> & ->).
  own_step strdup_works ([bp] ++ [bc] ++ [bi] ++ option_list b). intros ? ? (bm & -> & ->).
  own_step parameters_work ([bm] ++ [bp] ++ [bc] ++ [bi] ++ option_list b). intros l ? [Hl ->].
  assert (Hu : to_uchar (zlen (children args)) = zlen (children args)) by (apply Z.mod_small; unfold zlen in *; lia).
  apply owns_ret. cbn [fst snd]. rewrite Hu. split_and!; [done| | |].
  - unfold plain_command. cbn. by rewrite Hl.
  - cbn [v_params v_num]. rewrite <- (length_fmap fst), Hl, length_fmap. unfold zlen. lia.
  - unfold v2_blocks. cbn [v_params v_list v_command v_cap v_component v_id]. perm.
Qed.

Lemma parse_v2_lacking item : lacking item -> _iot_parse_cmd_data_v2 item = mret (IOT_ERROR_BAD_REQ, no_command).
Proof using Type.
  unfold lacking, names. rewrite !Exists_cons, Exists_nil. intros H. unfold _iot_parse_cmd_data_v2.
  repeat case_match; naive_solver.
Qed.

Lemma owns_free_v2 p : (length (v_params p) <= Z.to_nat (v_num p))%nat -> owns (_iot_free_cmd_data_v2 p) (v2_blocks p) (fun _ bs' => bs' = []).
Proof using Type.
  intros Hp. unfold _iot_free_cmd_data_v2, v2_blocks. rewrite take_ge by done.
  own_next owns_free_params. intros [] ? ->.
  apply (owns_step _ _ (option_list (v_list p)) (ptr_blocks (v_command p) ++ ptr_blocks (v_cap p) ++ ptr_blocks (v_component p) ++ ptr_blocks (v_id p)) _ (fun _ bs' => bs' = [])); [|perm|].
  { destruct (v_list p) as [b|]; [apply owns_free_block|by apply owns_ret]. }
  intros [] ? ->. own_next @owns_free. intros [] ? ->. own_next @owns_free. intros [] ? ->.
  own_next @owns_free. intros [] ? ->. apply owns_free.
Qed.

(** ** All of them *)

(** Nothing is missing; then it is what it should be. *)
Definition can_read (item : json) : bool := forallb (fun key => negb (bool_decide (get_item item key = None))) ("arguments"%string :: names).
Definition report_fits (item : json) : Prop := can_read item = true -> complete item.

Lemma cannot_read item : can_read item = false -> lacking item.
Proof using Type.
  unfold can_read, lacking. generalize ("arguments"%string :: names). induction l as [|key l IH]; [done|].
  cbn [forallb]. case_bool_decide as E; [by constructor|]. intros H. by apply Exists_cons_tl, IH.
Qed.

Definition freeable (p : parsed_v2) : Prop := (length (v_params p) <= Z.to_nat (v_num p))%nat.

Lemma parse_commands_work items :
  Forall report_fits items ->
  owns (parse_commands items) []
    (fun r bs' => r.1 = forallb can_read items /\ (r.1 = true -> plain_command <$> r.2 = command_of <$> items) /\
                  Forall freeable r.2 /\ bs' ≡ₚ concat (v2_blocks <$> r.2)).
Proof.
  induction 1 as [|item items Hitem _ IH]; cbn [parse_commands forallb]; [by apply owns_ret|].
  destruct (can_read item) eqn:Er.
  - eapply owns_bind; [by apply parse_v2_works, Hitem|]. intros [err p] bs (E & Hp & Hf & Hbs). cbn [fst snd] in *. subst err.
    rewrite Z.eqb_refl. cbn [negb]. eapply (owns_step _ _ [] bs); [exact IH|done|]. intros [ok l] bs' (Hok & Hl & Hfs & Hbs').
    cbn [fst snd] in *. apply owns_ret. cbn [fst snd andb]. split_and!; [done| |by constructor|].
    + intros H. cbn. by rewrite Hp, Hl.
    + cbn [fmap list_fmap concat]. rewrite Hbs, Hbs'. apply Permutation_app_comm.
  - rewrite parse_v2_lacking by (by apply cannot_read). apply owns_mret. apply owns_ret. cbn. split_and!; [done|done| |done].
    constructor; [|done]. unfold freeable. cbn. lia.
Qed.

Lemma owns_free_commands l :
  Forall freeable l -> owns (free_commands l) (concat (v2_blocks <$> l)) (fun _ bs' => bs' = []).
Proof using Type.
  induction 1 as [|p l Hp _ IH]; [by apply owns_ret|]. cbn [free_commands fmap list_fmap concat].
  own_next owns_free_v2; [done|]. by intros [] ? ->.
Qed.

Context `{HB : !CapBelow} (user : cap_call -> C unit) `{HU : !Polite user}.

(** What the user gets for a message with these commands. *)
Definition report_of (r : registry) (items : list json) : list cap_call :=
  if negb (bool_decide (items = [])) && forallb can_read items && r_noti r then [commands_called (command_of <$> items)] else [].

Lemma report_acts r b items :
  Forall report_fits items ->
  acts r (if bool_decide (items = []) then mret tt
          else a ← iot_os_malloc;
               match a with
               | None => mret tt
               | Some a =>
                   '(ok, l) ← parse_commands items; cb ← on_main (getc noti_cb);
                   when (ok && cb) (call_user user (commands_called (plain_command <$> l)));; free_commands l;; free_block a
               end)
    [b] (fun _ bs' cs => bs' = [b] /\ cs = report_of r items).
Proof.
  intros Hi. unfold report_of. case_bool_decide as En; [by apply acts_ret|].
  eapply (acts_step _ _ _ [] [b]); [apply malloc_works|done|]. intros ? ? (a & -> & ->).
  eapply (acts_step _ _ _ [] [a; b]); [by apply parse_commands_work|done|]. intros [ok l] bs (Hok & Hl & Hf & Hbs). cbn [fst snd] in *.
  eapply acts_bind; [apply acts_noti|]. intros ? ? ? (-> & -> & ->). rewrite Hok in *. cbn [negb andb app].
  apply acts_bind with (P := fun _ bs' cs => bs' = bs ++ [a; b] /\
    cs = if forallb can_read items && r_noti r then [commands_called (command_of <$> items)] else []).
  { destruct (forallb _ _) eqn:Ef, (r_noti r); cbn [andb when]; try (by apply acts_ret). rewrite <- (Hl eq_refl). by apply (acts_user user). }
  intros [] ? cs [-> ->]. eapply (acts_step _ _ _ _ [a; b]); [by apply owns_free_commands|by rewrite Hbs|]. intros [] ? ->.
  eapply owns_acts; [apply (owns_frame (free_block a) [a] [b]), owns_free_block|]. intros [] ? (? & -> & ->). by rewrite app_nil_r.
Qed.

Lemma commands_acts r payload j cmds :
  parsed payload = Some j -> get_item j "commands" = Some cmds -> Forall report_fits (children cmds) ->
  acts r (iot_cap_commands_cb user (Some payload)) [] (fun _ bs' cs => bs' = [] /\ cs = report_of r (children cmds)).
Proof.
  intros Hj Hcmds Hi. unfold iot_cap_commands_cb.
  eapply (acts_step _ _ _ [] []); [apply parse_works|done|]. rewrite Hj. intros ? ? (b & -> & ->).
  eapply (acts_step _ _ _ [] [b]); [apply log_works|done|]. intros [] ? ->. rewrite Hcmds.
  eapply acts_bind; [by apply report_acts|]. intros [] ? ? [-> ->].
  eapply owns_acts; [apply owns_free_block|]. intros [] ? ->. by rewrite app_nil_r.
Qed.

(** When there is memory, the commands of a message are reported at once, all
    of them in the order of the message, each with its names, its identifier and
    all its parameters, if there is a callback and each of them can be read; if
    one lacks an item, none is reported.  All memory is freed. *)
Theorem commands_reported payload j cmds w :
  parsed payload = Some j -> get_item j "commands" = Some cmds -> Forall report_fits (children cmds) -> memory_ok w ->
  exists w', iot_cap_commands_cb user (Some payload) w = Ret (tt, w') /\
    c_calls w' = c_calls w ++ report_of (registry_of w) (children cmds) /\
    c_live w' = c_live w /\ registry_of w' = registry_of w.
Proof.
  intros Hj Hcmds Hi Hm.
  destruct (acts_run _ _ w Hm (commands_acts (registry_of w) payload j cmds Hj Hcmds Hi)) as ([] & w' & H). by exists w'.
Qed.
End report.
