(* ===== verification/CapEvents.v ===== *)
(** * Capabilities: events

    What [st_cap_send_attr] sends when there is memory ([events_published]), and
    the number that the events of one message share ([sequence_distinct],
    [sequence_read_back]). *)

From S2P Require Import Prelude MainState MainRun CapState CapRun CapMemory CapCommands CapMqtt.

(** ** Handles are known *)

Section known.
Context `{HD : Device} `{HJ : !Json}.
Abbreviation C := (st cworld).

(** As [owns], where the handles are [hs]. *)
Definition knows {A} (hs : gmap nat iot_cap_handle) (m : C A) (bs : list nat) (Q : A -> list nat -> Prop) : Prop :=
  forall w, c_handles w = hs -> runs w m bs Q.

Lemma owns_knows {A} hs (m : C A) bs Q : owns m bs Q -> knows hs m bs Q.
Proof. intros Hm w _. apply Hm. Qed.

Lemma quiet_handles w w' : quiet w w' -> c_handles w' = c_handles w.
Proof. by intros (e & l & n & ->). Qed.

Lemma knows_bind {A B} hs (m : C A) (f : A -> C B) bs P Q :
  knows hs m bs P -> (forall a bs', P a bs' -> knows hs (f a) bs' Q) -> knows hs (m ≫= f) bs Q.
Proof.
  intros Hm Hf w Hh L Hw. specialize (Hm w Hh L Hw). unfold mbind, st_bind. destruct (m w) as [[a w']| |]; [|done..].
  destruct Hm as (Hq & bs' & Hw' & HP). specialize (Hf a bs' HP w'). rewrite (quiet_handles _ _ Hq) in Hf. specialize (Hf Hh L Hw').
  destruct (f a w') as [[b w'']| |]; [|done..]. destruct Hf as [Hq' Hf]. split; [by eapply quiet_trans|done].
Qed.

Lemma knows_perm {A} hs (m : C A) bs bs' Q : bs ≡ₚ bs' -> knows hs m bs Q -> knows hs m bs' Q.
Proof. intros Hp Hm w Hh L Hw. apply Hm; [done|]. by eapply holds_perm. Qed.

Lemma knows_step {A B} hs (m : C A) (f : A -> C B) bs k all P Q :
  owns m bs P -> all ≡ₚ bs ++ k -> (forall a bs', P a bs' -> knows hs (f a) (bs' ++ k) Q) -> knows hs (m ≫= f) all Q.
Proof.
  intros Hm Hall Hf. eapply knows_perm; [symmetry; exact Hall|]. eapply knows_bind; [by apply owns_knows, owns_frame|].
  intros a bs' (bs'' & -> & HP). by apply Hf.
Qed.

Lemma knows_frame_bind {A B} hs (m : C A) (f : A -> C B) bs k P Q :
  knows hs m bs P -> (forall a bs', P a bs' -> knows hs (f a) (bs' ++ k) Q) -> knows hs (m ≫= f) (bs ++ k) Q.
Proof.
  intros Hm Hf. apply knows_bind with (P := fun a bs' => exists bs'', bs' = bs'' ++ k /\ P a bs''); [|intros a bs' (bs'' & -> & HP); by apply Hf].
  intros w Hh. by apply runs_frame, Hm.
Qed.

Lemma knows_handle hs h x bs : hs !! h = Some x -> knows hs (handle_at h) bs (fun y bs' => y = x /\ bs' = bs).
Proof. intros Hx w <- L Hw. change (handle_at h w) with (need (c_handles w !! h) w).
  rewrite Hx. split; [apply quiet_refl|by exists bs]. Qed.
End known.

(** ** Trees are made *)

(** When there is memory for items as well. *)
Class CapMakes `{HW : CapWorks} := items_here e : (json_works e).1 = true.

Lemma owns_assoc `{HD : Device} `{HJ : !Json} {A B D} (m : st cworld A) (f : A -> st cworld B) (g : B -> st cworld D) bs Q :
  owns ((m ≫= f) ≫= g) bs Q -> owns (m ≫= fun a => f a ≫= g) bs Q.
Proof. intros Hm w L Hw. rewrite <- bind_assoc. by apply Hm. Qed.

Section events.
Context `{HD : Device} `{HJ : !Json} `{HB : !CapBelow} `{HW : !CapWorks} `{HI : !CapMakes}.
#[local] Set Default Proof Using "Type*".
Abbreviation C := (st cworld).

(** The object with these items, in their order, and the array. *)
Definition object_of (l : list (string * json)) : json := foldl (fun o p => add_item o p.1 p.2) empty_object l.
Definition array_of (l : list json) : json := foldl append_item empty_array l.

Lemma object_snoc l key j : object_of (l ++ [(key, j)]) = add_item (object_of l) key j.
Proof using Type. unfold object_of. by rewrite foldl_app. Qed.

Lemma new_item_works j : owns (new_item j) [] (fun t bs' => exists b, t = Some (b, j) /\ bs' = [b]).
Proof.
  eapply owns_bind; [apply (owns_below _ (fun a => a = true)), items_here|]. intros ? ? [-> ->].
  eapply owns_mono; [apply (made_works (Some j))|]. done.
Qed.

Lemma add_new_works b l key j :
  owns (add_new (Some (b, object_of l)) key (Some j)) [] (fun t bs' => t = Some (b, object_of (l ++ [(key, j)])) /\ bs' = []).
Proof.
  eapply owns_bind; [apply (owns_below _ (fun a => a = true)), items_here|]. intros ? ? [-> ->].
  apply owns_ret. by rewrite object_snoc.
Qed.

Lemma add_tree_works b l key b' j :
  owns (JSON_ADD_ITEM_TO_OBJECT (Some (b, object_of l)) key (Some (b', j))) [b']
    (fun t bs' => t = Some (b, object_of (l ++ [(key, j)])) /\ bs' = []).
Proof.
  unfold JSON_ADD_ITEM_TO_OBJECT, may_add. eapply (owns_bind _ _ _ (fun a bs' => a = true /\ bs' = [])).
  - eapply (owns_step _ _ [] [b']); [apply (owns_below _ (fun a => a = true)), items_here|done|]. intros ? ? [-> ->].
    eapply owns_bind; [apply owns_free_block|]. intros [] ? ->. by apply owns_ret.
  - intros ? ? [-> ->]. apply owns_ret. by rewrite object_snoc.
Qed.

(** An item that may be there. *)
Definition field (key : string) (j : option json) : list (string * json) := option_list (pair key <$> j).

(** The tree, if there is one, goes into the object. *)
Lemma add_made_works b l key m o :
  owns m [] (fun t bs' => match o with Some j => exists b, t = Some (b, j) /\ bs' = [b] | None => t = None /\ bs' = [] end) ->
  owns (sub ← m; JSON_ADD_ITEM_TO_OBJECT (Some (b, object_of l)) key sub) []
    (fun t bs' => t = Some (b, object_of (l ++ field key o)) /\ bs' = []).
Proof.
  intros Hm. eapply owns_bind; [exact Hm|]. intros t ? Ht. destruct o as [j|].
  - destruct Ht as (b' & -> & ->). apply add_tree_works.
  - destruct Ht as [-> ->]. cbn [field fmap option_fmap option_map option_list]. rewrite app_nil_r.
    apply owns_bind with (P := fun _ bs' => bs' = []); [|intros a bs' ->; by apply owns_ret].
    eapply owns_bind; [by apply (owns_below _ (fun _ => True))|]. intros a ? [-> _]. by apply owns_ret.
Qed.

Lemma add_string_works b l key (s : option string) :
  owns (JSON_ADD_STRING_TO_OBJECT (Some (b, object_of l)) key s) []
    (fun t bs' => t = Some (b, object_of (l ++ field key (string_item <$> s))) /\ bs' = []).
Proof.
  destruct s as [s|]; [apply add_new_works|]. cbn. rewrite app_nil_r. unfold JSON_ADD_STRING_TO_OBJECT, add_new. cbn.
  eapply owns_bind; [by apply (owns_below _ (fun _ => True))|]. intros a ? [-> _]. by apply owns_ret.
Qed.

Lemma add_opt_works b l key (s : option string) :
  owns (add_string_if (Some (b, object_of l)) key s) [] (fun t bs' => t = Some (b, object_of (l ++ field key (string_item <$> s))) /\ bs' = []).
Proof. destruct s as [s|]; [apply add_new_works|]. apply owns_ret. cbn. by rewrite app_nil_r. Qed.

Lemma add_parsed_works b l key (s : option string) :
  owns (add_parsed_if (Some (b, object_of l)) key s) [] (fun t bs' => t = Some (b, object_of (l ++ field key (s ≫= parsed))) /\ bs' = []).
Proof.
  destruct s as [s|]; [apply add_made_works, parse_works|]. apply owns_ret. cbn. by rewrite app_nil_r.
Qed.

(** ** What is said of an event *)

Definition provider_fields (seq_num : Z) (time : string) (changed : bool) : list (string * json) :=
  [("sequenceNumber", number_item (double_of_int seq_num)); ("timestamp", string_item time)]%string
  ++ field "stateChange" (if changed then Some (string_item "Y") else None).
Definition visibility (shown : bool) : json := object_of [("displayed"%string, bool_item shown)].

Definition value_item (v : iot_cap_val_t owned) : option json :=
  match v with
  | VAL_BOOLEAN _ b => Some (bool_item b)
  | VAL_INTEGER _ z => Some (number_item (double_of_int z))
  | VAL_NUMBER _ d => Some (number_item d)
  | VAL_STRING _ s => string_item <$> text_of s
  | VAL_STR_ARRAY _ l => if bool_decide (l = []) then Some empty_array else string_array <$> mapM id (text_of <$> l)
  | VAL_JSON_OBJECT _ s => text_of s ≫= parsed
  | _ => None
  end.
(** A value of a type that can be sent. *)
Definition sendable (v : iot_cap_val_t owned) : bool :=
  match v with VAL_UNKNOWN _ | VAL_NULL _ | VAL_INT_OR_NUM _ _ _ => false | _ => true end.

Definition event_fields (comp cap : string) (e : iot_cap_evt_data_t) (seq_num : Z) (time : string) : list (string * json) :=
  field "commandId" (string_item <$> text_of (opt_command_id e))
  ++ [("component", string_item comp)]%string
  ++ [("capability", string_item cap)]%string
  ++ field "attribute" (string_item <$> text_of (evt_type e))
  ++ field "value" (value_item (evt_value e))
  ++ field "unit" (string_item <$> (evt_unit e ≫= text_of))
  ++ field "data" (text_of (evt_value_data e) ≫= parsed)
  ++ field "visibility" (visibility ∘ snd <$> opt_displayed e)
  ++ [("providerData"%string, object_of (provider_fields seq_num time (negb (opt_state_change e =? 0))))].

Lemma provider_works seq_num changed :
  owns (provider_data seq_num changed) []
    (fun t bs' => exists b time, t = Some (b, object_of (provider_fields seq_num time changed)) /\ bs' = [b]).
Proof.
  eapply owns_bind; [apply new_item_works|]. intros ? ? (b & -> & ->).
  eapply (owns_step _ _ [] [b]); [apply (add_new_works b [])|done|]. intros ? ? [-> ->].
  eapply (owns_step _ _ [] [b]); [eapply owns_bind; [by apply (owns_below _ (fun _ => True))|]; intros [sec usec] ? [-> _]; by apply (owns_ret _ _ (fun _ bs' => bs' = []))|done|].
  intros time ? ->. eapply (owns_step _ _ [] [b]); [apply add_new_works|done|]. intros ? ? [-> ->]. cbn [app].
  destruct changed.
  - eapply owns_mono; [eapply (owns_frame _ [] [b]), add_new_works|]. intros ? ? (? & -> & -> & ->). by exists b, time.
  - apply owns_ret. by exists b, time.
Qed.

Lemma add_visibility_works b l shown :
  owns (add_visibility (Some (b, object_of l)) shown) [] (fun t bs' => t = Some (b, object_of (l ++ [("visibility"%string, visibility shown)])) /\ bs' = []).
Proof.
  eapply owns_bind; [apply new_item_works|]. intros ? ? (b' & -> & ->).
  eapply (owns_step _ _ [] [b']); [apply (add_new_works b' [])|done|]. intros ? ? [-> ->]. apply add_tree_works.
Qed.

Lemma made_value_works b l m o :
  owns m [] (fun t bs' => match o with Some j => exists b, t = Some (b, j) /\ bs' = [b] | None => t = None /\ bs' = [] end) ->
  owns (sub ← m; item ← JSON_ADD_ITEM_TO_OBJECT (Some (b, object_of l)) "value" sub; mret (true, item)) []
    (fun r bs' => r = (true, Some (b, object_of (l ++ field "value" o))) /\ bs' = []).
Proof.
  intros Hm. apply owns_assoc. eapply owns_bind; [by apply add_made_works|]. intros ? ? [-> ->]. by apply owns_ret.
Qed.

Lemma add_value_works b l v :
  sendable v = true ->
  owns (add_value (Some (b, object_of l)) v) [] (fun r bs' => r = (true, Some (b, object_of (l ++ field "value" (value_item v)))) /\ bs' = []).
Proof.
  intros Hv. destruct v as [| | | | | |strings| |]; try discriminate; cbn [add_value value_item]; unfold JSON_ADD_BOOL_TO_OBJECT, JSON_ADD_NUMBER_TO_OBJECT.
  1,2,6: eapply owns_bind; [apply add_new_works|]; intros ? ? [-> ->]; by apply owns_ret.
  - eapply owns_bind; [apply add_string_works|]. intros ? ? [-> ->]. by apply owns_ret.
  - apply made_value_works. case_bool_decide; [apply new_item_works|].
    unfold JSON_CREATE_STRING_ARRAY. destruct (mapM id _); [apply new_item_works|by apply owns_ret].
  - apply made_value_works. destruct json_object as [[b' s]|]; [apply parse_works|by apply owns_ret].
Qed.

Lemma add_unit_works b l (u : option (option owned)) :
  owns (match u with Some u => JSON_ADD_STRING_TO_OBJECT (Some (b, object_of l)) "unit" (text_of u) | None => mret (Some (b, object_of l)) end) []
    (fun t bs' => t = Some (b, object_of (l ++ field "unit" (string_item <$> (u ≫= text_of)))) /\ bs' = []).
Proof. destruct u as [u|]; [apply add_string_works|]. apply owns_ret. cbn. by rewrite app_nil_r. Qed.

Lemma add_shown_works b l (o : option (nat * bool)) :
  owns (match o with Some (_, d) => add_visibility (Some (b, object_of l)) d | None => mret (Some (b, object_of l)) end) []
    (fun t bs' => t = Some (b, object_of (l ++ field "visibility" (visibility ∘ snd <$> o))) /\ bs' = []).
Proof. destruct o as [[? d]|]; [apply add_visibility_works|]. apply owns_ret. cbn. by rewrite app_nil_r. Qed.

Ltac event_step H b := eapply (owns_step _ _ [] [b]); [apply H|done|]; intros ? ? [-> ->].

Lemma make_evt_works comp cap e seq_num :
  sendable (evt_value e) = true ->
  owns (_iot_make_evt_data comp cap e seq_num) []
    (fun t bs' => exists b time, t = Some (b, object_of (event_fields comp cap e seq_num time)) /\ bs' = [b]).
Proof.
  intros Hv. eapply owns_bind; [apply new_item_works|]. intros ? ? (b & -> & ->).
  event_step (add_opt_works b []) b. event_step add_new_works b. event_step add_new_works b. event_step add_string_works b.
  eapply (owns_step _ _ [] [b]); [by apply add_value_works|done|]. intros ? ? [-> ->]. cbn [negb].
  event_step add_unit_works b. event_step add_parsed_works b. event_step add_shown_works b.
  eapply (owns_step _ _ [] [b]); [apply provider_works|done|]. intros ? ? (b' & time & -> & ->).
  eapply owns_mono; [apply (owns_frame _ [b'] [b]), add_tree_works|]. intros ? ? (? & -> & -> & ->). exists b, time. split; [|done].
  unfold event_fields. by rewrite <- !app_assoc.
Qed.

(** The same for the other kind of events. *)
Definition value_item_v2 (v : st_data) : option json :=
  match v with
  | ST_STRING s => string_item <$> s
  | ST_NUMBER d => Some (number_item d)
  | ST_BOOLEAN b => Some (bool_item b)
  | ST_RAW_JSON s => s ≫= parsed
  | ST_JSON_OBJECT | ST_JSON_ARRAY | ST_NULL => None
  end.
Definition event_fields_v2 (comp cap attr : string) (a : st_attr_data) (seq_num : Z) (time : string) : list (string * json) :=
  [("component", string_item comp)]%string
  ++ [("capability", string_item cap)]%string
  ++ [("attribute", string_item attr)]%string
  ++ field "value" (value_item_v2 (at_value a))
  ++ field "unit" (string_item <$> at_unit a)
  ++ field "data" (at_data a ≫= parsed)
  ++ field "visibility" (if support_history a then None else Some (visibility false))
  ++ [("providerData"%string, object_of (provider_fields seq_num time (at_state_change a)))]
  ++ field "commandId" (string_item <$> related_command_id a).

Lemma add_value_v2_works b l v :
  owns (add_value_v2 (Some (b, object_of l)) v) [] (fun t bs' => t = Some (b, object_of (l ++ field "value" (value_item_v2 v))) /\ bs' = []).
Proof.
  destruct v; cbn [add_value_v2 value_item_v2]; try (apply owns_ret; cbn; by rewrite app_nil_r).
  - apply add_string_works.
  - apply add_new_works.
  - apply add_new_works.
  - apply add_made_works. destruct raw_json; [apply parse_works|by apply owns_ret].
Qed.

Lemma add_hidden_works b l (shown : bool) :
  owns (if negb shown then add_visibility (Some (b, object_of l)) false else mret (Some (b, object_of l))) []
    (fun t bs' => t = Some (b, object_of (l ++ field "visibility" (if shown then None else Some (visibility false)))) /\ bs' = []).
Proof. destruct shown; cbn [negb]; [|apply add_visibility_works]. apply owns_ret. cbn. by rewrite app_nil_r. Qed.

Lemma make_evt_v2_works comp cap attr a seq_num :
  component_name a = Some comp -> cap_attr_names a = Some (cap, attr) ->
  owns (_iot_make_evt_data_v2 a seq_num) []
    (fun t bs' => exists b time, t = Some (b, object_of (event_fields_v2 comp cap attr a seq_num time)) /\ bs' = [b]).
Proof.
  intros Hcomp Hcap. unfold _iot_make_evt_data_v2. rewrite Hcomp, Hcap.
  eapply owns_bind; [apply new_item_works|]. intros ? ? (b & -> & ->).
  event_step (add_new_works b []) b. event_step add_new_works b. event_step add_new_works b.
  event_step add_value_v2_works b. event_step add_opt_works b. event_step add_parsed_works b.
  event_step add_hidden_works b. eapply (owns_step _ _ [] [b]); [apply provider_works|done|]. intros ? ? (b' & time & -> & ->).
  eapply (owns_step _ _ [b'] [b]); [apply add_tree_works|done|]. intros ? ? [-> ->].
  eapply owns_mono; [apply (owns_frame _ [] [b]), add_opt_works|]. intros ? ? (? & -> & -> & ->). exists b, time. split; [|done].
  unfold event_fields_v2. by rewrite <- !app_assoc.
Qed.

(** ** Sending *)

Definition message_of (items : list json) : json := object_of [("deviceEvents"%string, array_of items)].

Lemma array_snoc l j : array_of (l ++ [j]) = append_item (array_of l) j.
Proof using Type. unfold array_of. by rewrite foldl_app. Qed.

(** Each of the items can be made. *)
Definition makes {A} (hs : gmap nat iot_cap_handle) (make : A -> C (option tree)) (fields : A -> string -> list (string * json)) (a : A) : Prop :=
  knows hs (make a) [] (fun t bs' => exists b time, t = Some (b, object_of (fields a time)) /\ bs' = [b]).

Lemma add_items_work {A} hs make (fields : A -> string -> list (string * json)) l b k :
  Forall (makes hs make fields) l ->
  knows hs (add_items make (Some <$> l) (Some (b, array_of k))) []
    (fun r bs' => exists times, length times = length l /\ bs' = [] /\
       r = (true, Some (b, array_of (k ++ zip_with (fun a t => object_of (fields a t)) l times)))).
Proof using Type.
  intros Hl. revert k. induction Hl as [|a l Ha _ IH]; intros k; cbn [fmap list_fmap add_items].
  - apply owns_knows, owns_ret. exists []. by rewrite app_nil_r.
  - eapply knows_bind; [exact Ha|]. intros ? ? (b' & time & -> & ->).
    eapply (knows_step _ _ _ [b'] []); [eapply owns_bind; [apply owns_free_block|]; intros [] ? ->; by apply (owns_ret _ _ (fun t bs' => t = Some (b, array_of (k ++ [object_of (fields a time)])) /\ bs' = [])); rewrite array_snoc|done|].
    intros ? ? [-> ->]. intros w Hh L Hw. specialize (IH (k ++ [object_of (fields a time)]) w Hh L Hw).
    destruct (add_items _ _ _ w) as [[r w']| |]; [|done..]. destruct IH as (Hq & bs & Hw' & times & Hlen & -> & ->).
    split; [done|]. exists []. split; [done|]. exists (time :: times). cbn [length zip_with]. rewrite <- app_assoc. by rewrite Hlen.
Qed.

Lemma payload_works {A} hs make (fields : A -> string -> list (string * json)) l :
  Forall (makes hs make fields) l ->
  knows hs (make_payload make (Some <$> l)) []
    (fun p bs' => exists b times, length times = length l /\ bs' = [b] /\
       p = Some (b, printed (message_of (zip_with (fun a t => object_of (fields a t)) l times)))).
Proof.
  intros Hl. unfold make_payload. eapply knows_bind; [apply owns_knows, new_item_works|]. intros ? ? (b & -> & ->).
  eapply (knows_step _ _ _ [] [b]); [apply new_item_works|done|]. intros ? ? (b' & -> & ->).
  eapply (knows_step _ _ _ [b'] [b] _ (fun a bs' => a = true /\ bs' = [])); [|done|].
  { eapply (owns_step _ _ [] [b']); [apply (owns_below _ (fun a => a = true)), items_here|done|]. intros ? ? [-> ->].
    eapply owns_bind; [apply owns_free_block|]. intros [] ? ->. by apply owns_ret. }
  intros ? ? [-> ->].
  apply (knows_frame_bind hs _ _ [] [b] _ _ (add_items_work hs make fields l b' [] Hl)). intros ? ? (times & Hlen & -> & ->). cbn [negb app json_of fmap option_fmap option_map snd put_item].
  apply owns_knows. eapply (owns_step _ _ [] [b]); [apply print_works|done|]. intros ? ? (b2 & -> & ->).
  eapply (owns_step _ _ [b] [b2]); [apply owns_free_block|perm|]. intros [] ? ->. apply owns_ret. by exists b2, times.
Qed.

(** What is sent: the text goes to the MQTT client, and the number is that of the
    events, unless the client refuses. *)
Definition sent (w : cworld) (items : list json) (r : Z) (w' : cworld) : Prop :=
  (r = event_sequence_num w' \/ r = IOT_ERROR_MQTT_PUBLISH_FAIL) /\
  event_sequence_num w' = next_sequence (event_sequence_num w) /\
  c_published w' = c_published w ++ [printed (message_of items)] /\
  c_live w' = c_live w /\ registry_of w' = registry_of w /\ c_calls w' = c_calls w.

Lemma send_items_work {A} make (fields : A -> Z -> string -> list (string * json)) l w :
  memory_ok w -> evt_mqttcli (m_ctx (c_main w)) <> None ->
  Forall (makes (c_handles w) (fun a => make a (next_sequence (event_sequence_num w))) (fun a => fields a (next_sequence (event_sequence_num w)))) l ->
  exists times r w', length times = length l /\ send_items make (Some <$> l) w = Ret (r, w') /\
    sent w (zip_with (fun a t => object_of (fields a (next_sequence (event_sequence_num w)) t)) l times) r w'.
Proof.
  intros Hm Hcli Hl. set (n := next_sequence (event_sequence_num w)) in *. set (w1 := set_sequence n w).
  assert (Hw1 : holds w1 (c_live w) []) by (split_and!; [constructor|unfold w1; set_solver|set_solver|done]).
  pose proof (payload_works (c_handles w) _ _ _ Hl w1 eq_refl _ Hw1) as Hp.
  assert (E : send_items make (Some <$> l) w = (make_payload (fun a => make a n) (Some <$> l) ≫= fun payload =>
    match payload with
    | None => mret IOT_ERROR_BAD_REQ
    | Some (b, text) =>
        cli ← on_main (getc evt_mqttcli); cli ← need cli; ret ← below (st_mqtt_publish_async cli);
        modify (fun w => set_published (c_published w ++ [text]) w);; free_block b;;
        if negb (ret =? 0) then mret IOT_ERROR_MQTT_PUBLISH_FAIL else gets event_sequence_num
    end) w1) by reflexivity.
  rewrite E. clear E. unfold mbind at 1, st_bind at 1. destruct (make_payload _ _ w1) as [[p w2]| |]; [|done..].
  destruct Hp as ((e & L & k & ->) & bs & Hw2 & b & times & Hlen & -> & ->). exists times.
  destruct Hw2 as (_ & HL & Hd & _). cbn in HL. destruct (evt_mqttcli _) as [cli|] eqn:Ecli; [|done].
  destruct (st_mqtt_publish_async cli e) as [ret e'] eqn:Ep.
  unfold below, on_main, dev, need, getc, gets, mbind, st_bind. cbn. rewrite Ecli. cbn. rewrite Ep. cbn.
  unfold free_block. cbn. rewrite bool_decide_true by (rewrite HL; set_solver).
  assert (HL' : L ∖ {[b]} = c_live w) by (rewrite HL; set_solver).
  destruct (ret =? 0); cbn [negb]; eexists _, _; (split; [done|]; split; [reflexivity|]); unfold sent; (split; [by (left + right)|]);
    split_and!; try done; exact HL'.
Qed.

(** The events of [st_cap_send_attr] and of [st_cap_send_attr_v2]. *)
Definition event_says (hs : gmap nat iot_cap_handle) (e : iot_cap_evt_data_t) (seq_num : Z) (time : string) : list (string * json) :=
  match ref_cap e ≫= fun h => hs !! h with Some x => event_fields (component x) (capability x) e seq_num time | None => [] end.
Definition event_says_v2 (a : st_attr_data) (seq_num : Z) (time : string) : list (string * json) :=
  match component_name a, cap_attr_names a with
  | Some comp, Some (cap, attr) => event_fields_v2 comp cap attr a seq_num time
  | _, _ => []
  end.
(** The handle is there, and the value is of a type that can be sent; the names
    are there. *)
Definition event_ok (hs : gmap nat iot_cap_handle) (e : iot_cap_evt_data_t) : Prop :=
  (exists h x, ref_cap e = Some h /\ hs !! h = Some x) /\ sendable (evt_value e) = true.
Definition event_ok_v2 (a : st_attr_data) : Prop := component_name a <> None /\ cap_attr_names a <> None.
(** The device is connected, and the rate of its events is not limited. *)
Definition connected (w : cworld) : Prop :=
  curr_state (m_ctx (c_main w)) = IOT_STATE_CLOUD_CONNECTED /\ evt_mqttcli (m_ctx (c_main w)) <> None /\ rate_limit (m_ctx (c_main w)) = false.

Lemma may_send_yes {A} w (k : bool -> C A) : connected w -> (ok ← may_send; k ok) w = k true w.
Proof using Type.
  intros (Hs & Hcli & Hr). unfold may_send, on_main, getc, gets, mbind, st_bind. cbn. rewrite Hs, Hr.
  rewrite bool_decide_true, bool_decide_false by done. cbn. by destruct w as [[]].
Qed.

Lemma send_attr_eq es w :
  es <> [] -> connected w -> Forall (event_ok (c_handles w)) es ->
  st_cap_send_attr (Some <$> es) w = send_items event_item (Some <$> es) w.
Proof using Type.
  intros Hes Hc He. destruct He as [|e es ((h & x & Eh & _) & _) _]; [done|]. cbn [st_cap_send_attr fmap list_fmap]. rewrite Eh.
  rewrite bool_decide_false by done. by apply (may_send_yes w (fun ok => if negb ok then _ else _)).
Qed.

Lemma events_make hs es n : Forall (event_ok hs) es -> Forall (makes hs (fun e => event_item e n) (fun e => event_says hs e n)) es.
Proof.
  intros He. eapply Forall_impl; [exact He|]. intros e ((h & x & Eh & Ex) & Hv). unfold makes, event_item, event_says.
  rewrite Eh. cbn [mbind option_bind]. rewrite Ex. eapply knows_bind; [by apply knows_handle|]. intros ? ? [-> ->].
  by apply owns_knows, make_evt_works.
Qed.


(** The same for the events of the second kind. *)
Theorem events_published_v2 es w :
  es <> [] -> memory_ok w -> connected w -> Forall event_ok_v2 es ->
  exists times r w', length times = length es /\ st_cap_send_attr_v2 (Some <$> es) w = Ret (r, w') /\
    sent w (zip_with (fun a t => object_of (event_says_v2 a (next_sequence (event_sequence_num w)) t)) es times) r w'.
Proof.
  intros Hes Hm Hc He. unfold st_cap_send_attr_v2. rewrite bool_decide_false by (by destruct es).
  rewrite (may_send_yes w (fun ok => if negb ok then _ else _)) by done. cbn [negb].
  apply (send_items_work _ event_says_v2); [done|apply Hc|].
  eapply Forall_impl; [exact He|]. intros a [Hcomp Hcap]. unfold makes, event_says_v2.
  destruct (component_name a) as [comp|] eqn:E1; [|done]. destruct (cap_attr_names a) as [[cap attr]|] eqn:E2; [|done].
  by apply owns_knows, make_evt_v2_works.
Qed.
End events.

(** ** The numbers *)

Lemma next_sequence_eq n : 0 <= n <= MAX_SQNUM -> next_sequence n = n mod MAX_SQNUM + 1.
Proof.
  unfold next_sequence, MAX_SQNUM. intros Hn. change 2147483647 with (Z.ones 31) at 2. rewrite Z.land_ones by lia.
  destruct (Z.eqb_spec n 2147483647) as [->|E]; [done|]. rewrite (Z.mod_small n) by lia. apply Z.mod_small. lia.
Qed.

Lemma sequences k n :
  0 <= n <= MAX_SQNUM -> (0 < k)%nat -> Nat.iter k next_sequence n = (n + Z.of_nat k - 1) mod MAX_SQNUM + 1.
Proof.
  intros Hn. induction k as [|[|k] IH]; [lia| |]; intros _.
  - cbn [Nat.iter]. rewrite next_sequence_eq by done. do 2 f_equal. lia.
  - change (Nat.iter (S (S k)) next_sequence n) with (next_sequence (Nat.iter (S k) next_sequence n)).
    assert (HM : 0 < MAX_SQNUM) by done. rewrite IH by lia.
    set (m := n + Z.of_nat (S k) - 1). pose proof (Z.mod_pos_bound m MAX_SQNUM HM).
    rewrite next_sequence_eq by lia. rewrite Zplus_mod_idemp_l. do 2 f_equal. unfold m. lia.
Qed.

(** The numbers of the messages are between 1 and 2147483647, and the same one
    comes again only after as many messages. *)
Theorem sequence_distinct n i j :
  0 <= n <= MAX_SQNUM -> (0 < i < j)%nat ->
  1 <= Nat.iter i next_sequence n <= MAX_SQNUM /\
  (Nat.iter i next_sequence n = Nat.iter j next_sequence n <-> (Z.of_nat j - Z.of_nat i) mod MAX_SQNUM = 0).
Proof.
  intros Hn Hij. rewrite !sequences by lia. assert (HM : 0 < MAX_SQNUM) by done.
  pose proof (Z.mod_pos_bound (n + Z.of_nat i - 1) MAX_SQNUM HM). split; [lia|].
  replace (Z.of_nat j - Z.of_nat i) with ((n + Z.of_nat j - 1) - (n + Z.of_nat i - 1)) by lia.
  set (a := n + Z.of_nat i - 1). set (b := n + Z.of_nat j - 1). split; intros E.
  - rewrite Zminus_mod. replace (a mod MAX_SQNUM) with (b mod MAX_SQNUM) by lia. rewrite Z.sub_diag. done.
  - apply Z.mod_divide in E; [|lia]. destruct E as [q E]. replace b with (a + q * MAX_SQNUM) by lia. by rewrite Z_mod_plus_full.
Qed.

(** ** Reading them back *)

(** Names are compared without regard to case. *)
Definition lower_ascii (a : Ascii.ascii) : Ascii.ascii :=
  let n := Ascii.N_of_ascii a in if (65 <=? n)%N && (n <=? 90)%N then Ascii.ascii_of_N (n + 32) else a.
Definition lower (s : string) : string := String.string_of_list_ascii (lower_ascii <$> String.list_ascii_of_string s).
Definition same_name (k k' : string) : bool := bool_decide (lower k = lower k').

(** What cJSON finds in what it has made, and reads of what it has printed.  An
    item that is put into an object gets its name; otherwise it stays as it is. *)
Class JsonLaws `{HW : CapWorks} := {
  named : string -> json -> json;
  get_named k j k' : get_item (named k j) k' = get_item j k';
  children_named k j : children (named k j) = children j;
  value_named k j : valuedouble (named k j) = valuedouble j;
  get_empty k : get_item empty_object k = None;
  get_added o k j k' :
    get_item (add_item o k j) k' = match get_item o k' with Some x => Some x | None => if same_name k k' then Some (named k j) else None end;
  children_empty : children empty_array = [];
  children_append a j : children (append_item a j) = children a ++ [j];
  value_number d : valuedouble (number_item d) = d;
  double_exact n : -2147483648 <= n <= 2147483647 -> double_to_int (double_of_int n) = Some n;
  name_empty : item_name empty_object = None;
  name_added o k j : item_name (add_item o k j) = item_name o;
  read_printed j : item_name j = None -> parsed (printed j) = Some j
}.

Section laws.
Context `{HD : Device} `{HJ : !Json} `{HB : !CapBelow} `{HW : !CapWorks} `{HI : !CapMakes} `{HL : !JsonLaws}.
#[local] Set Default Proof Using "Type*".

Fixpoint first_field (k : string) (l : list (string * json)) : option json :=
  match l with [] => None | (k', j) :: l => if same_name k' k then Some (named k' j) else first_field k l end.

Lemma first_field_app k l l' : first_field k (l ++ l') = match first_field k l with Some j => Some j | None => first_field k l' end.
Proof using Type. induction l as [|[k' j] l IH]; [done|]. cbn. by destruct (same_name k' k). Qed.

Lemma get_object k l : get_item (object_of l) k = first_field k l.
Proof.
  induction l as [|[k' j] l IH] using rev_ind; [apply get_empty|]. rewrite object_snoc, get_added, IH, first_field_app. cbn.
  by destruct (first_field k l).
Qed.

Lemma first_field_skip k k' o : same_name k' k = false -> first_field k (field k' o) = None.
Proof using Type. intros E. destruct o; [|done]. cbn. by rewrite E. Qed.

Lemma children_array l : children (array_of l) = l.
Proof. induction l as [|j l IH] using rev_ind; [apply children_empty|]. by rewrite array_snoc, children_append, IH. Qed.

Lemma message_read items : parsed (printed (message_of items)) = Some (message_of items).
Proof. apply read_printed. unfold message_of. cbn. by rewrite name_added, name_empty. Qed.

Lemma number_said comp cap e n time :
  exists prov, first_field "providerData" (event_fields comp cap e n time) = Some prov /\
    get_item prov "sequenceNumber" = Some (named "sequenceNumber" (number_item (double_of_int n))).
Proof.
  exists (named "providerData" (object_of (provider_fields n time (negb (opt_state_change e =? 0))))). split; [|by rewrite get_named, get_object].
  unfold event_fields. rewrite !first_field_app, !first_field_skip by (by vm_compute). done.
Qed.

(** What [_iot_parse_sequence_num] reads from the message of these events. *)
Lemma read_number items n event prov w :
  memory_ok w -> head items = Some event -> get_item event "providerData" = Some prov ->
  get_item prov "sequenceNumber" = Some (named "sequenceNumber" (number_item (double_of_int n))) -> -2147483648 <= n <= 2147483647 ->
  exists w', _iot_parse_sequence_num (printed (message_of items)) w = Ret (n, w') /\ c_live w' = c_live w.
Proof.
  intros Hm Hev Hprov Hn Hb.
  assert (Ho : owns (_iot_parse_sequence_num (printed (message_of items))) [] (fun r bs' => r = n /\ bs' = [])).
  { eapply owns_bind; [apply parse_works|]. rewrite message_read. intros ? ? (b & -> & ->).
    assert (E : get_item (message_of items) "deviceEvents" = Some (named "deviceEvents" (array_of items))) by (unfold message_of; by rewrite get_object).
    rewrite E. cbn [mbind option_bind]. rewrite children_named, children_array. change (hd_error items = Some event) in Hev. rewrite Hev. cbn [mbind option_bind].
    rewrite Hprov. cbn [mbind option_bind]. rewrite Hn, value_named, value_number, double_exact by done.
    apply owns_mret. eapply owns_bind; [apply owns_free_block|]. intros [] ? ->. by apply owns_ret. }
  assert (Hh : holds w (c_live w) []) by (split_and!; [constructor|set_solver|set_solver|done]).
  specialize (Ho w _ Hh). destruct (_iot_parse_sequence_num _ w) as [[r w']| |]; [|done..].
  destruct Ho as (_ & bs & (_ & E & _) & -> & ->). exists w'. split; [done|]. rewrite E. set_solver.
Qed.

(** When the MQTT client gives back a message of events that could not be
    delivered, the number that the main task is told is the one that
    [st_cap_send_attr] has returned for it. *)
Theorem sequence_read_back es w :
  es <> [] -> memory_ok w -> connected w -> Forall (event_ok (c_handles w)) es -> 0 <= event_sequence_num w <= MAX_SQNUM ->
  exists r w' text, st_cap_send_attr (Some <$> es) w = Ret (r, w') /\ c_published w' = c_published w ++ [text] /\
    (r = event_sequence_num w' \/ r = IOT_ERROR_MQTT_PUBLISH_FAIL) /\ 1 <= event_sequence_num w' /\
    forall w1, memory_ok w1 ->
    exists w2, _iot_parse_sequence_num text w1 = Ret (event_sequence_num w', w2) /\ c_live w2 = c_live w1.
Proof.
  intros Hes Hm Hc He Hn. rewrite send_attr_eq by done.
  destruct (send_items_work event_item (event_says (c_handles w)) es w Hm (proj1 (proj2 Hc))) as (times & r & w' & Hlen & E & Hr & Hseq & Hpub & _);
    [by apply events_make|].
  assert (HM : 0 < MAX_SQNUM) by done. pose proof (Z.mod_pos_bound (event_sequence_num w) MAX_SQNUM HM).
  exists r, w', (printed (message_of (zip_with (fun e t => object_of (event_says (c_handles w) e (next_sequence (event_sequence_num w)) t)) es times))).
  rewrite Hseq, next_sequence_eq in * by done.
  split_and!; [done|done|done|lia|]. intros w1 Hm1. destruct He as [|e es ((h & x & Eh & Ex) & _) _]; [done|].
  destruct times as [|time times]; [done|]. cbn [zip_with].
  destruct (number_said (component x) (capability x) e (event_sequence_num w mod MAX_SQNUM + 1) time) as (prov & Hp & Hs).
  eapply read_number; [done|reflexivity| |exact Hs|unfold MAX_SQNUM in *; lia].
  rewrite get_object. unfold event_says. rewrite Eh. cbn [mbind option_bind]. by rewrite Ex.
Qed.
End laws.
