(* ===== verification/CapMessages.v ===== *)
(** * Capabilities: messages on the wire

    What happens to a PUBLISH packet of the server, from its bytes to the user's
    functions: a command whose text ends with a terminator is handled
    ([command_message_handled]), and a text without one is read past its end
    ([received_text_unterminated]). *)

From S2P Require Import Prelude Cursor MqttPacket MqttCodec MqttPublish MqttRead.
From S2P Require Import Platform Heap World ClientQueue ClientRun ClientRead ClientCallback.
From S2P Require Import MainState MainRun CapState CapRun CapMemory CapMqtt CapCommands CapReport.

(** ** Pointers into a packet *)

(** A message whose topic and payload begin where the pointers of [m] lead. *)
Record points (m : st_mqtt_msg) (topic payload : list Z) : Prop := {
  pt_topic : exists rest, pointee (msg_buffer m) (msg_topic m) = Some (topic ++ rest);
  pt_payload : pointee (msg_buffer m) (msg_payload m) = Some payload
}.

Lemma drop_front {A} (a b : list A) n : n = length a -> drop n (a ++ b) = b.
Proof. intros ->. apply drop_app_length. Qed.

Lemma publish_points `{P : Platform} qos retained pid topic payload id :
  0 <= qos <= 2 -> 0 <= retained < 2 -> 0 <= pid < 65536 -> zlen topic < 65536 ->
  zlen (publish_body qos pid topic payload) <= max_remaining_length ->
  exists m, tells (received_chunk (publish_byte qos retained) (wire_publish 0 qos retained pid topic payload) id) [ST_MQTT_EVENT_MSG_DELIVERED m] /\
    points m topic payload.
Proof.
  intros Hq Hr Hpid Ht Hmax. set (n := zlen (publish_body qos pid topic payload)) in *.
  assert (Hn : n = (if 0 <? qos then 2 else 0) + (2 + zlen topic + zlen payload)) by apply zlen_publish_body.
  pose proof (zlen_nonneg topic). pose proof (zlen_nonneg payload).
  pose proof (reads_publish 0 0 qos retained pid n topic (zlen payload) uninit_publish
    ltac:(lia) ltac:(lia) Hr Hpid Ht ltac:(destruct (0 <? qos); lia) ltac:(lia) Hn [] payload eq_refl) as E.
  cbn [app] in E. unfold n in E. rewrite <- wire_publish_front in E. fold n in E.
  eexists. split.
  - apply tells_delivered; [done|by apply publish_byte_fields|]. do 4 eexists. split; [reflexivity|]. split; [exact E|reflexivity].
  - split; cbn [msg_topic msg_payload msg_buffer po_topicName po_payload publish_fields in_buf lenstring ls_data pointee].
    + rewrite wire_publish_front. unfold publish_front. eexists. f_equal.
      match goal with |- drop _ ?l = _ => replace l with ((16 * PUBLISH + 8 * 0 + 2 * qos + retained :: varint n ++ be16 (zlen topic)) ++
        topic ++ ((if 0 <? qos then be16 pid else []) ++ payload)) end.
      * apply drop_front. unfold be16. simpl_length. lia.
      * unfold wire_string. cbn [app]. by rewrite <- !app_assoc.
    + rewrite wire_publish_front. f_equal. apply drop_front. unfold publish_front, wire_string, be16. fold n. simpl_length.
      destruct (0 <? qos); simpl; lia.
Qed.

(** ** Texts *)

Section texts.
Context `{HD : Device} `{HJ : !Json}.
Abbreviation C := (st cworld).

Lemma starts_with_app prefix rest w : starts_with (prefix ++ rest) prefix w = Ret (true, w).
Proof. induction prefix as [|c prefix IH]; [done|].
  change ((if c =? c then starts_with (prefix ++ rest) prefix else mret false) w = Ret (true, w)). by rewrite Z.eqb_refl.
Qed.

Lemma no_terminator mem : Forall (fun b => b <> 0) mem -> c_string mem = undef.
Proof.
  intros H. unfold c_string. destruct (list_find _ mem) as [[n b]|] eqn:E; [|done].
  apply list_find_Some in E as (Hb & -> & _). rewrite Forall_lookup in H. by destruct (H n 0).
Qed.

Lemma bytes_nonneg_text a : Ascii.ascii_of_N (Z.to_N (Z.of_N (Ascii.N_of_ascii a))) = a.
Proof. by rewrite N2Z.id, Ascii.ascii_N_embedding. Qed.

Lemma text_bytes s : text_of_bytes (bytes_of_text s) = s.
Proof.
  unfold text_of_bytes, bytes_of_text. rewrite <- list_fmap_compose.
  rewrite (list_fmap_ext _ id) by (intros; apply bytes_nonneg_text). rewrite list_fmap_id. apply String.string_of_list_ascii_of_string.
Qed.

(** A text in which no terminator occurs. *)
Definition no_zero (s : string) : Prop := Forall (fun b => b <> 0) (bytes_of_text s).

Lemma terminated_text s rest : no_zero s -> c_string (bytes_of_text s ++ 0 :: rest) = mret s.
Proof.
  intros H. unfold c_string.
  assert (E : list_find (fun b => b = 0) (bytes_of_text s ++ 0 :: rest) = Some (length (bytes_of_text s), 0)).
  { apply list_find_Some. split_and!; [by rewrite lookup_app_r, Nat.sub_diag by reflexivity|done|].
    intros k y Hk Hlt. rewrite lookup_app_l in Hk by done. exact (Forall_lookup_1 _ _ k y H Hk). }
  rewrite E, take_app_length. by rewrite text_bytes.
Qed.
End texts.

(** ** From the packet to the user *)

Section wire.
Context `{P : Platform} `{HM : CharModel} `{HD : Device} `{HJ : !Json} `{HB : !CapBelow}.
Context (user : cap_call -> st cworld unit).
Abbreviation C := (st cworld).

Lemma bind_status {A B} (f : iot_context -> A) (k : A -> C B) w :
  (a ← on_main (getc f); k a) w = k (f (m_ctx (c_main w))) (set_main (c_main w) w).
Proof. reflexivity. Qed.

(** In the JSON configuration the callbacks of both connections hand the
    payload of a message to the JSON library as it lies in the chunk of its
    packet, where nothing ends it: whatever PUBLISH packet the server sends, if
    there is no zero byte in its payload then the answer to a connection, a
    registration, a command or a notification is read past the end of the
    chunk; and so is every message of the device itself that could not be
    delivered. *)
Theorem received_text_unterminated qos retained pid topic payload id :
  0 <= qos <= 2 -> 0 <= retained < 2 -> 0 <= pid < 65536 -> zlen topic < 65536 ->
  zlen (publish_body qos pid topic payload) <= max_remaining_length ->
  Forall (fun b => b <> 0) payload ->
  exists m, tells (received_chunk (publish_byte qos retained) (wire_publish 0 qos retained pid topic payload) id) [ST_MQTT_EVENT_MSG_DELIVERED m] /\
    forall w,
    (sign_up_status (m_ctx (c_main w)) <> GG_CONNECTION_REQUEST_STATUS_SUCCESS \/ IOT_SUB_TOPIC_REGISTRATION_PREFIX `prefix_of` topic ->
     _iot_mqtt_registration_client_callback (ST_MQTT_EVENT_MSG_DELIVERED m) w = Undef) /\
    (sign_in_status (m_ctx (c_main w)) <> GG_CONNECTION_REQUEST_STATUS_SUCCESS \/ IOT_SUB_TOPIC_COMMAND_PREFIX `prefix_of` topic ->
     _iot_mqtt_signin_client_callback user (ST_MQTT_EVENT_MSG_DELIVERED m) w = Undef) /\
    _iot_mqtt_signin_client_callback user (ST_MQTT_EVENT_PUBLISH_FAILED m) w = Undef /\
    _iot_mqtt_signin_client_callback user (ST_MQTT_EVENT_PUBLISH_TIMEOUT m) w = Undef.
Proof.
  intros Hq Hr Hpid Ht Hmax Hz. destruct (publish_points qos retained pid topic payload id Hq Hr Hpid Ht Hmax) as (m & Hm & [[rest Htop] Hpay]).
  exists m. split; [exact Hm|]. intros w.
  assert (E : payload_of m = undef) by (unfold payload_of; rewrite Hpay; exact (no_terminator payload Hz)).
  assert (T : forall p, p `prefix_of` topic -> topic_is m p w = Ret (true, w)).
  { intros p [t ->]. unfold topic_is. rewrite Htop, <- app_assoc. apply starts_with_app. }
  assert (Hw : set_main (c_main w) w = w) by (by destruct w).
  split; [|split; [|by cbn; unfold send_failed; rewrite E]]; intros H.
  - cbn [_iot_mqtt_registration_client_callback]. rewrite bind_status, Hw. case_bool_decide as Es; cbn [negb]; [|by rewrite E].
    destruct H as [H|H]; [done|]. by rewrite (bind_ret _ _ _ _ _ (T _ H)), E.
  - cbn [_iot_mqtt_signin_client_callback]. unfold deliver. rewrite bind_status, Hw. case_bool_decide as Es; cbn [negb]; [|by rewrite E].
    destruct H as [H|H]; [done|]. by rewrite (bind_ret _ _ _ _ _ (T _ H)), E.
Qed.

Context `{HW : !CapWorks} `{HU : !Polite user}.
#[local] Set Default Proof Using "Type*".

(** C22: A command of the server reaches the user.  Whatever PUBLISH packet comes
    in under the topic of commands, while the device is signed in and there is
    memory: if its payload is a text with its terminator, and the text is a
    message of commands that can be read, then the functions registered for the
    commands are called, in order, and after that the one function for all of
    them; and all memory is given back. *)
Theorem command_message_handled qos retained pid topic text id j cmds w :
  0 <= qos <= 2 -> 0 <= retained < 2 -> 0 <= pid < 65536 -> zlen topic < 65536 ->
  zlen (publish_body qos pid topic (bytes_of_text text ++ [0])) <= max_remaining_length ->
  IOT_SUB_TOPIC_COMMAND_PREFIX `prefix_of` topic -> no_zero text ->
  parsed text = Some j -> get_item j "commands" = Some cmds ->
  Forall command_fits (children cmds) -> Forall report_fits (children cmds) ->
  sign_in_status (m_ctx (c_main w)) = GG_CONNECTION_REQUEST_STATUS_SUCCESS ->
  cap_handle_list w <> [] -> registry_ok (registry_of w) -> memory_ok w ->
  exists m w',
    tells (received_chunk (publish_byte qos retained) (wire_publish 0 qos retained pid topic (bytes_of_text text ++ [0])) id) [ST_MQTT_EVENT_MSG_DELIVERED m] /\
    _iot_mqtt_signin_client_callback user (ST_MQTT_EVENT_MSG_DELIVERED m) w = Ret (tt, w') /\
    c_calls w' = c_calls w ++ dispatch_of (registry_of w) cmds ++ report_of (registry_of w) (children cmds) /\
    c_live w' = c_live w /\ registry_of w' = registry_of w.
Proof.
  intros Hq Hr Hpid Ht Hmax [t ->] Hz Hj Hcmds Hf1 Hf2 Hs Hl Hreg Hm.
  destruct (publish_points qos retained pid _ _ id Hq Hr Hpid Ht Hmax) as (m & Htell & [[rest Htop] Hpay]).
  assert (Ha : acts (registry_of w) (iot_cap_sub_cb user (Some text);; iot_cap_commands_cb user (Some text)) []
    (fun _ bs' cs => bs' = [] /\ cs = dispatch_of (registry_of w) cmds ++ report_of (registry_of w) (children cmds))).
  { eapply acts_bind; [by apply (sub_acts user _ text j)|]. intros [] ? ? [-> ->].
    eapply acts_mono; [by apply (commands_acts user _ text j)|]. by intros [] ? ? [-> ->]. }
  destruct (acts_run _ _ w Hm Ha) as ([] & w' & E & H). exists m, w'. split; [exact Htell|]. split; [|exact H].
  cbn [_iot_mqtt_signin_client_callback]. unfold deliver. rewrite bind_status, Hs. cbn [negb].
  rewrite bool_decide_true by done. cbn [negb]. assert (Hw : set_main (c_main w) w = w) by (by destruct w). rewrite Hw.
  assert (T : topic_is m IOT_SUB_TOPIC_COMMAND_PREFIX w = Ret (true, w)).
  { unfold topic_is. rewrite Htop, <- app_assoc. apply starts_with_app. }
  rewrite (bind_ret _ _ _ _ _ T). unfold payload_of. rewrite Hpay.
  assert (Hpl : (mem ← need (Some (bytes_of_text text ++ [0])); c_string mem) = mret text) by exact (terminated_text text [] Hz).
  rewrite Hpl. exact E.
Qed.
End wire.
