(* ===== verification/CapNotify.v ===== *)
(** * Capabilities: notifications

    What the main task is told when a notification comes in
    ([notification_told]), and that no event is sent while their rate is limited
    ([rate_limit_respected]). *)

From S2P Require Import Prelude MainState MainRun MainInv MainLive MainTask CapState CapRun CapMemory CapMqtt CapCommands CapEvents.

(** ** What a notification says *)

Section notifications.
Context `{HD : Device} `{HJ : !Json} `{HB : !CapBelow} `{HW : !CapWorks}.
#[local] Set Default Proof Using "Type*".
Abbreviation C := (st cworld).

#[local] Instance memory_here : MemoryWorks := {| memory_works := malloc_here |}.

(** The value of a preference: by the name of its type. *)
Definition preference_said (j : json) : iot_preference_data :=
  Preference _ _ (item_name j)
    (match get_item j "value" with
     | None => VAL_NULL _
     | Some v =>
         let t := default EmptyString (JSON_GET_STRING_VALUE (get_item j "preferenceType")) in
         if String.prefix "string" t then VAL_STRING _ (JSON_GET_STRING_VALUE (Some v))
         else if String.prefix "number" t then VAL_NUMBER _ (valuedouble v)
         else if String.prefix "boolean" t then VAL_BOOLEAN _ (match json_kind v with JSON_BOOL b => b | _ => false end)
         else if String.prefix "integer" t then VAL_INTEGER _ (valueint v)
         else VAL_UNKNOWN _
     end).
(** A value has a type, and one of strings is a string. *)
Definition preference_ok (j : json) : Prop :=
  forall v, get_item j "value" = Some v ->
  exists t, JSON_GET_STRING_VALUE (get_item j "preferenceType") = Some t /\
    (String.prefix "string" t = true -> JSON_GET_STRING_VALUE (Some v) <> None).

Definition noti_said (j : json) (event : string) : option noti_data :=
  if String.prefix "device.deleted" event then Some DEV_DELETED
  else if String.prefix "expired.jwt" event then (fun _ => JWT_EXPIRED) <$> int_item j "currentTime"
  else if String.prefix "rate.limit.reached" event then
    count ← int_item j "count"; threshold ← int_item j "threshold"; remaining ← int_item j "remainingTime";
    seq ← int_item j "sequenceNumber"; Some (RATE_LIMIT count threshold remaining seq)
  else if String.prefix "quota.reached" event then
    used ← int_item j "used"; limit ← int_item j "limit"; Some (QUOTA_REACHED used limit)
  else if String.prefix "device.preferences" event then
    values ← get_item j "values";
    if bool_decide (children values = []) then None else Some (PREFERENCE_UPDATED (preference_said <$> children values))
  else None.
Definition noti_of_message (j : json) : option noti_data := JSON_GET_STRING_VALUE (get_item j "event") ≫= noti_said j.
(** The preferences, if there are any, can be read. *)
Definition preferences_ok (j : json) : Prop := forall values, get_item j "values" = Some values -> Forall preference_ok (children values).

Lemma owns_copy_name (s : option string) : owns (copy_if s) [] (fun p bs' => text_of p = s).
Proof.
  destruct s as [s|]; [|by apply owns_ret]. eapply owns_mono; [apply strdup_works|]. by intros ? ? (b & -> & ->).
Qed.

Lemma preference_works j :
  preference_ok j ->
  owns (preference_value (get_item j "preferenceType") (get_item j "value")) [] (fun v _ => v = preference_data (preference_said j)).
Proof.
  intros Hj. unfold preference_value, preference_said. cbn [preference_data].
  destruct (get_item j "value") as [v|] eqn:Ev; [|by apply owns_ret]. destruct (Hj v Ev) as (t & Et & Hs). rewrite Et.
  cbn [default id]. apply owns_mret. destruct (String.prefix "string" t); [|repeat (case_match; [by apply owns_ret|]); by apply owns_ret].
  destruct (JSON_GET_STRING_VALUE (Some v)) as [s|]; [|by destruct (Hs eq_refl)].
  eapply owns_bind; [apply strdup_works|]. intros ? ? (b & -> & ->). by apply owns_ret.
Qed.

(** Blocks do not matter here. *)
Lemma owns_then {A B} (m : C A) (f : A -> C B) bs (P : A -> Prop) Q :
  owns m [] (fun a _ => P a) -> (forall a bs', P a -> owns (f a) bs' Q) -> owns (m ≫= f) bs Q.
Proof using Type.
  intros Hm Hf. eapply owns_bind; [apply (owns_frame _ [] bs), Hm|]. intros a ? (bs'' & -> & HP). by apply Hf.
Qed.

Lemma preferences_work items bs :
  Forall preference_ok items -> owns (preferences_loop items) bs (fun l _ => l = preference_said <$> items).
Proof.
  intros Hi. revert bs. induction Hi as [|j items Hj _ IH]; intros bs; cbn [preferences_loop]; [by apply owns_ret|].
  apply owns_then with (P := fun p => text_of p = item_name j); [apply owns_copy_name|]. intros p ? Hp.
  eapply owns_then; [by apply preference_works|]. intros v ? ->. eapply owns_bind; [apply IH|]. intros l ? ->.
  apply owns_ret. cbn. f_equal. unfold preference_said at 1. by rewrite Hp.
Qed.

Lemma owns_dev f bs : owns (on_main (dev_ f)) bs (fun _ _ => True).
Proof using Type.
  intros w L Hw. cbn. split; [|by exists bs]. exists (f (m_env (c_main w))), (c_live w), (c_next w). by destruct w as [[]].
Qed.

Lemma noti_works j event bs :
  preferences_ok j -> owns (noti_of j event) bs (fun n _ => n = noti_said j event).
Proof.
  intros Hp. unfold noti_of, noti_said.
  destruct (String.prefix "device.deleted" event); [by apply owns_ret|].
  destruct (String.prefix "expired.jwt" event).
  { destruct (int_item j "currentTime"); [|by apply owns_ret].
    apply owns_then with (P := fun _ => True); [apply owns_dev|]. intros [] ? _. by apply owns_ret. }
  destruct (String.prefix "rate.limit.reached" event); [by apply owns_ret|].
  destruct (String.prefix "quota.reached" event); [by apply owns_ret|].
  destruct (String.prefix "device.preferences" event); [|by apply owns_ret].
  destruct (get_item j "values") as [values|] eqn:Ev; [|by apply owns_ret]. specialize (Hp values Ev).
  unfold preferences_of. cbn [mbind option_bind JSON_GET_ARRAY_SIZE]. case_bool_decide as En.
  - rewrite En. by apply owns_ret.
  - destruct (Z.leb_spec (zlen (children values)) 0) as [Hlen|_]; [unfold zlen in Hlen; destruct (children values); [done|cbn in Hlen; lia]|].
    apply owns_then with (P := fun b => b <> None); [eapply owns_mono; [apply malloc_works|]; by intros ? ? (b & -> & _)|].
    intros b ? Hb. rewrite bool_decide_false by done. eapply owns_bind; [by apply preferences_work|]. intros l ? ->. by apply owns_ret.
Qed.

Lemma parse_noti_works payload j :
  parsed payload = Some j -> preferences_ok j ->
  owns (_iot_parse_noti_data payload) [] (fun n _ => n = noti_of_message j).
Proof.
  intros Hj Hp. unfold _iot_parse_noti_data, noti_of_message.
  eapply owns_bind; [apply parse_works|]. rewrite Hj. intros ? ? (b & -> & ->).
  eapply (owns_step _ _ [] [b]); [apply log_works|done|]. intros [] ? ->.
  apply (owns_step _ _ [] [b] _ (fun n _ => n = JSON_GET_STRING_VALUE (get_item j "event") ≫= noti_said j)); [|done|].
  - destruct (JSON_GET_STRING_VALUE _) as [ev|]; [by apply noti_works|by apply owns_ret].
  - intros n bs ->. eapply (owns_step _ _ [b] bs); [apply owns_free_block|apply Permutation_app_comm|]. intros [] ? ->. by apply owns_ret.
Qed.

(** ** What the main task is told *)

(** The timer of the rate limit comes up and runs. *)
Class TimerWorks := {
  timer_created e : fst (rate_limit_timer_create e) <> None;
  timer_started t e : fst (rate_limit_timer_start t e) = 0
}.

(** What [iot_noti_sub_cb] changes: the queue of the main task, and the limit. *)
Record noticed (w : cworld) (n : option noti_data) (w' : cworld) : Prop := {
  nd_work : m_work (c_main w') = m_work (c_main w) ++
    match n with Some n => [command_work (Some (IOT_COMMAND_NOTIFICATION_RECEIVED (Some (noti_for_main n))))] | None => [] end;
  nd_ctx : match n with
           | Some (RATE_LIMIT _ _ _ _) =>
               m_ctx (c_main w') = m_ctx (c_main w) \/ m_ctx (c_main w') = set_rate_limit true (m_ctx (c_main w))
           | _ => m_ctx (c_main w') = m_ctx (c_main w)
           end;
  nd_handles : c_handles w' = c_handles w /\ cap_handle_list w' = cap_handle_list w;
  nd_published : c_published w' = c_published w /\ c_calls w' = c_calls w
}.

Lemma run_owns {A} (m : C A) P w :
  memory_ok w -> owns m [] (fun a _ => P a) ->
  exists a e l n, m w = Ret (a, set_memory l n (set_main (with_menv e (c_main w)) w)) /\ P a.
Proof using Type.
  intros Hm Ho. assert (Hh : holds w (c_live w) []) by (split_and!; [constructor|set_solver|set_solver|done]).
  specialize (Ho w _ Hh). destruct (m w) as [[a w']| |]; [|done..]. destruct Ho as ((e & l & n & ->) & bs & _ & HP). by exists a, e, l, n.
Qed.

(** The limit is set when the timer works. *)
Lemma start_works w :
  exists e t (limited : bool),
    start_rate_limit w = Ret (tt, set_timeout t (set_main (with_menv e (with_ctx (if limited then set_rate_limit true (m_ctx (c_main w)) else m_ctx (c_main w)) (c_main w))) w)) /\
    (TimerWorks -> limited = true).
Proof using Type.
  destruct w as [[e0 c k p kl n] l nx hs hl sq rt cs ps]. set (e1 := match rt with Some t => d_timer_delete t e0 | None => e0 end).
  assert (E : start_rate_limit (CWorld _ _ (MWorld _ e0 c k p kl n) l nx hs hl sq rt cs ps) =
    (t ← below rate_limit_timer_create; modify (set_timeout t);;
     match t with
     | None => mret tt
     | Some t => err ← below (rate_limit_timer_start t); when (err =? 0) (on_main (setc (set_rate_limit true)))
     end) (CWorld _ _ (MWorld _ e1 c k p kl n) l nx hs hl sq rt cs ps)) by (unfold e1; by destruct rt).
  rewrite E. clear E. unfold below, on_main, dev, mbind, st_bind. cbn.
  destruct (rate_limit_timer_create e1) as [[t|] e2] eqn:E2; cbn.
  - destruct (rate_limit_timer_start t e2) as [err e3] eqn:E3; cbn. destruct (Z.eqb_spec err 0) as [->|Hne]; cbn.
    + by exists e3, (Some t), true.
    + exists e3, (Some t), false. split; [done|]. intros [_ Hs]. specialize (Hs t e2). by rewrite E3 in Hs.
  - exists e2, None, false. split; [done|]. intros [Hc _]. specialize (Hc e1). by rewrite E2 in Hc.
Qed.

Context `{HK : !LocksWork}.

Lemma noti_spec payload j w :
  parsed payload = Some j -> preferences_ok j -> memory_ok w ->
  exists w', iot_noti_sub_cb (Some payload) w = Ret (tt, w') /\ noticed w (noti_of_message j) w' /\
    (TimerWorks -> forall a b c d, noti_of_message j = Some (RATE_LIMIT a b c d) -> rate_limit (m_ctx (c_main w')) = true).
Proof.
  intros Hj Hp Hm. destruct (run_owns _ _ w Hm (parse_noti_works payload j Hj Hp)) as (n & e & l & k & E & ->).
  unfold iot_noti_sub_cb. rewrite (bind_ret _ _ _ _ _ E). set (w1 := set_memory l k _).
  destruct (noti_of_message j) as [n|]; [|exists w1; split; [done|]; split; [split; rewrite ?app_nil_r; done|naive_solver]].
  assert (Hs : exists w2, match n with RATE_LIMIT _ _ _ _ => start_rate_limit | _ => mret tt end w1 = Ret (tt, w2) /\
    m_work (c_main w2) = m_work (c_main w) /\ c_handles w2 = c_handles w /\ cap_handle_list w2 = cap_handle_list w /\
    c_published w2 = c_published w /\ c_calls w2 = c_calls w /\
    match n with
    | RATE_LIMIT _ _ _ _ => (m_ctx (c_main w2) = m_ctx (c_main w) /\ ~ TimerWorks) \/ m_ctx (c_main w2) = set_rate_limit true (m_ctx (c_main w))
    | _ => m_ctx (c_main w2) = m_ctx (c_main w)
    end).
  { destruct n; try (by exists w1). destruct (start_works w1) as (e' & t & limited & E' & Hl). rewrite E'. eexists.
    split; [done|]. split_and!; try done. destruct limited; [by right|left]. split; [done|]. intros HT. by specialize (Hl HT). }
  destruct Hs as (w2 & E2 & Hwork & Hh & Hl & Hpub & Hcalls & Hctx). rewrite (bind_ret _ _ _ _ _ E2).
  destruct (send_works (IOT_COMMAND_NOTIFICATION_RECEIVED (Some (noti_for_main n))) (c_main w2)) as (e3 & E3).
  unfold on_main, mbind, st_bind. rewrite E3. eexists. split; [reflexivity|]. split.
  - split; cbn; [by rewrite Hwork| |done|done]. destruct n; try done. destruct Hctx as [[Hc _]|Hc]; [by left|by right].
  - intros HT a b c d [= ->]. cbn. destruct Hctx as [[_ Hn]|Hc]; [done|]. by rewrite Hc.
Qed.

(** When there is memory, a notification of the server that can be read is
    put into the queue of the main task, once, as what its message says: the
    kind is that of the first known prefix of its event, and the kind's items
    must be there, else nothing is told.  Only a limit of the rate changes the
    context, and nothing but the limit in it. *)
Theorem notification_told payload j w :
  parsed payload = Some j -> preferences_ok j -> memory_ok w ->
  exists w', iot_noti_sub_cb (Some payload) w = Ret (tt, w') /\ noticed w (noti_of_message j) w'.
Proof. intros Hj Hp Hm. destruct (noti_spec payload j w Hj Hp Hm) as (w' & E & Hn & _). by exists w'. Qed.

(** While the rate is limited nothing is sent. *)
Lemma limited_may_send {A} w (k : bool -> C A) :
  rate_limit (m_ctx (c_main w)) = true -> (ok ← may_send; k ok) w = k false w.
Proof using Type.
  intros Hl. unfold may_send, on_main, getc, gets, mbind, st_bind. cbn. rewrite Hl, andb_false_r. by destruct w as [[]].
Qed.

Lemma limited_attr w es : rate_limit (m_ctx (c_main w)) = true -> exists r, r < 0 /\ st_cap_send_attr es w = Ret (r, w).
Proof using Type.
  intros Hl. unfold st_cap_send_attr. destruct es as [|[e|] es]; [by eexists; split; [|reflexivity]| |by eexists; split; [|reflexivity]].
  case_bool_decide; [by eexists; split; [|reflexivity]|]. rewrite limited_may_send by done. by eexists; split; [|reflexivity].
Qed.
Lemma limited_attr_v2 w es : rate_limit (m_ctx (c_main w)) = true -> exists r, r < 0 /\ st_cap_send_attr_v2 es w = Ret (r, w).
Proof using Type.
  intros Hl. unfold st_cap_send_attr_v2. case_bool_decide; [by eexists; split; [|reflexivity]|].
  rewrite limited_may_send by done. by eexists; split; [|reflexivity].
Qed.

(** C26: The limit of the rate is kept.  When the server has told of it (and the
    timer runs), every attempt to send events, of either kind, is refused and
    changes nothing, not even the number of the next message; and when the timer
    has expired, a device that could send before can send again. *)
Theorem rate_limit_respected payload j a b c d w :
  TimerWorks -> parsed payload = Some j -> noti_of_message j = Some (RATE_LIMIT a b c d) -> preferences_ok j -> memory_ok w ->
  exists w1, iot_noti_sub_cb (Some payload) w = Ret (tt, w1) /\
    (forall es, exists r, r < 0 /\ st_cap_send_attr es w1 = Ret (r, w1)) /\
    (forall es, exists r, r < 0 /\ st_cap_send_attr_v2 es w1 = Ret (r, w1)) /\
    exists w2, _iot_noti_rate_limit_cb w1 = Ret (tt, w2) /\ rate_limit (m_ctx (c_main w2)) = false /\ (connected w -> connected w2).
Proof.
  intros HT Hj Hn Hp Hm. destruct (noti_spec payload j w Hj Hp Hm) as (w1 & E & Hnd & Hl). specialize (Hl HT a b c d Hn).
  exists w1. split; [done|]. split; [intros es; by apply limited_attr|]. split; [intros es; by apply limited_attr_v2|].
  eexists. split; [reflexivity|]. split; [done|]. intros (Hs & Hcli & _). destruct Hnd as [_ Hctx _ _]. rewrite Hn in Hctx.
  unfold connected. cbn. by destruct Hctx as [->| ->].
Qed.
End notifications.
