(* ===== verification/CapHandle.v ===== *)
(** * Capabilities: handles

    Handles and the functions registered with them: what is registered is what is
    called ([command_registration]), the functions of the handles are called at
    the start ([handles_initialised]), and a function registered without memory
    for its name breaks the commands of its handle ([unnamed_command_faults]). *)

From S2P Require Import Prelude MainState MainRun CapState CapRun CapMemory CapCommands CapMqtt.

Section steps.
Context `{HD : Device} `{HJ : !Json} `{HB : !CapBelow}.
Abbreviation C := (st cworld).

(** A step from a state with these blocks. *)
Lemma owns_holds {A} (m : C A) bs k L P w :
  owns m bs P -> holds w L (bs ++ k) -> exists a w' bs', m w = Ret (a, w') /\ quiet w w' /\ holds w' L (bs' ++ k) /\ P a bs'.
Proof.
  intros Ho Hh. pose proof (owns_frame m bs k P Ho w L Hh) as H. destruct (m w) as [[a w']| |]; [|done..].
  destruct H as (Hq & ? & Hh' & bs' & -> & HP). by exists a, w', bs'.
Qed.

(** The handle [h] with one more command in front. *)
Definition with_command (h : nat) (x : iot_cap_handle) (c : iot_cap_cmd_set) (w : cworld) : cworld :=
  set_handles (<[h := Handle (component x) (capability x) (c :: cmd_list x) (init_cb x) (init_usr_data x)]> (c_handles w)) (cap_handle_list w) w.

Lemma handle_at_eq h x w : c_handles w !! h = Some x -> handle_at h w = Ret (x, w).
Proof. intros Hx. change (handle_at h w) with (need (c_handles w !! h) w). by rewrite Hx. Qed.

Lemma refused h x name cb usr w :
  c_handles w !! h = Some x -> existsb (same_command name) (cmd_list x) = true ->
  st_cap_cmd_set_cb (Some h) (Some name) (Some cb) usr w = Ret (IOT_ERROR_INVALID_ARGS, w).
Proof.
  intros Hx Hex. cbn [st_cap_cmd_set_cb]. rewrite (bind_ret _ _ _ _ _ (handle_at_eq h x w Hx)). by rewrite Hex.
Qed.

Lemma holds_ok w : memory_ok w -> holds w (c_live w) [].
Proof. intros H. split_and!; [constructor|set_solver|set_solver|done]. Qed.
Lemma holds_memory w L bs : holds w L bs -> memory_ok w.
Proof. by intros (_ & _ & _ & H). Qed.

Lemma holds_live w L : holds w L [] -> c_live w = L.
Proof. intros (_ & -> & _). set_solver. Qed.
Lemma quiet_same w w' : quiet w w' -> c_handles w' = c_handles w /\ cap_handle_list w' = cap_handle_list w.
Proof. by intros (e & l & n & ->). Qed.

Lemma strdup_text s : owns (iot_os_strdup (Some s)) [] (fun p bs' => bs' = ptr_blocks p /\ (text_of p = None \/ text_of p = Some s)).
Proof.
  apply owns_mret. eapply owns_bind; [by apply (owns_below _ (fun _ => True))|].
  intros [] bs' [-> _]; cbn [negb]; [|apply owns_ret; split; [done|by left]].
  eapply owns_bind; [apply owns_take|]. intros b bs' ->. apply owns_ret. split; [done|by right].
Qed.

End steps.

(** The next step: [H] says what it owns, [k] is what it leaves alone. *)
Tactic Notation "walk" uconstr(H) constr(k) constr(Hh) ident(a) ident(w') ident(Hq) ident(Hh') simple_intropattern(pat) :=
  let E := fresh "E" in let bs := fresh "bs" in
  let P := fresh "HP" in
  destruct (owns_holds _ _ k _ _ _ H Hh) as (a & w' & bs & E & Hq & Hh' & P);
  rewrite (bind_ret _ _ _ _ _ E); clear E; revert P; intros pat; cbn [app] in Hh'.

Section handles.
Context `{HD : Device} `{HJ : !Json} `{HB : !CapBelow}.
Abbreviation C := (st cworld).

(** Whatever memory there is: the command is registered, with its name if there
    was memory for it, or there was none. *)
Lemma set_cb_spec h x name cb usr w :
  c_handles w !! h = Some x -> existsb (same_command name) (cmd_list x) = false -> memory_ok w ->
  exists r w' w1, st_cap_cmd_set_cb (Some h) (Some name) (Some cb) usr w = Ret (r, w') /\ quiet w w1 /\ memory_ok w1 /\
    ((r = IOT_ERROR_MEM_ALLOC /\ w' = w1 /\ c_live w1 = c_live w) \/
     r = IOT_ERROR_NONE /\ exists p, w' = with_command h x (CmdSet p cb usr) w1 /\ (p = None \/ p = Some name)).
Proof.
  intros Hx Hex Hm. cbn [st_cap_cmd_set_cb]. rewrite (bind_ret _ _ _ _ _ (handle_at_eq h x w Hx)), Hex.
  walk (@owns_malloc HD HJ) (@nil nat) (holds_ok w Hm) c w1 Hq1 Hh1 ->.
  destruct c as [c|]; [|exists IOT_ERROR_MEM_ALLOC, w1, w1; split_and!; [done|done|by eapply holds_memory|left; split_and!; [done|done|by apply holds_live]]].
  walk (strdup_text name) [c] Hh1 p w2 Hq2 Hh2 [-> Hp]. walk (@owns_malloc HD HJ) (ptr_blocks p ++ [c]) Hh2 node w3 Hq3 Hh3 ->.
  pose proof (quiet_trans _ _ _ (quiet_trans _ _ _ Hq1 Hq2) Hq3) as Hq. case_bool_decide as En.
  - subst node. walk (@owns_free HD HJ string p) [c] Hh3 t w4 Hq4 Hh4 ->. walk (@owns_free_block HD HJ c) (@nil nat) Hh4 t' w5 Hq5 Hh5 ->.
    exists IOT_ERROR_MEM_ALLOC, w5, w5. split; [done|]. split; [by eauto using quiet_trans|].
    split; [by eapply holds_memory|]. left. split_and!; [done|done|by apply holds_live].
  - exists IOT_ERROR_NONE. eexists _, w3. split; [reflexivity|]. split; [done|]. split; [by eapply holds_memory|right].
    split; [done|]. exists (text_of p). split; [|done]. unfold with_command. by destruct (quiet_same _ _ Hq) as [-> ->].
Qed.

Lemma first_command_cons c x name :
  first_command (Handle (component x) (capability x) (c :: cmd_list x) (init_cb x) (init_usr_data x)) name =
  if decide (cmd_type c = Some name) then Some c else first_command x name.
Proof.
  unfold first_command. cbn [cmd_list list_find]. destruct (decide (cmd_type c = Some name)); [done|].
  by destruct (list_find _ (cmd_list x)) as [[]|].
Qed.

(** What registering a function does, whatever memory there is.  It is refused
    exactly when the new name is a prefix of a name that the handle has; else,
    without memory, nothing changes and all blocks are given back; and otherwise
    the command is found under its name from then on, in front of the others,
    which are found as before, or, when there was no memory for its name alone,
    it stands there without a name. *)
Theorem command_registration h x name cb usr w :
  c_handles w !! h = Some x -> memory_ok w ->
  exists r w', st_cap_cmd_set_cb (Some h) (Some name) (Some cb) usr w = Ret (r, w') /\
    (r = IOT_ERROR_INVALID_ARGS <-> Exists (fun c => exists s, cmd_type c = Some s /\ String.prefix name s = true) (cmd_list x)) /\
    (r <> IOT_ERROR_NONE -> c_handles w' = c_handles w /\ c_live w' = c_live w) /\
    (r = IOT_ERROR_NONE -> exists x', c_handles w' = <[h := x']> (c_handles w) /\ cap_handle_list w' = cap_handle_list w /\
       ((first_command x' name = Some (CmdSet (Some name) cb usr) /\ forall other, other <> name -> first_command x' other = first_command x other) \/
        head (cmd_list x') = Some (CmdSet None cb usr))).
Proof.
  intros Hx Hm.
  assert (Hpre : existsb (same_command name) (cmd_list x) = true <->
    Exists (fun c => exists s, cmd_type c = Some s /\ String.prefix name s = true) (cmd_list x)).
  { rewrite existsb_exists, Exists_exists. unfold same_command. split.
    - intros (c & Hc & H). apply list_elem_of_In in Hc. exists c. split; [done|]. destruct (cmd_type c) as [s|]; [|done]. by exists s.
    - intros (c & Hc & s & Hs & H). exists c. rewrite Hs. split; [by apply list_elem_of_In|done]. }
  destruct (existsb _ _) eqn:Hex.
  - exists IOT_ERROR_INVALID_ARGS, w. split; [by eapply refused|]. split; [split; [by intros _; apply Hpre|done]|]. by split.
  - destruct (set_cb_spec h x name cb usr w Hx Hex Hm) as (r & w' & w1 & E & Hq & _ & Hr). exists r, w'. split; [exact E|].
    destruct (quiet_same _ _ Hq) as [Hh Hl]. destruct Hr as [(-> & -> & Hlive)|(-> & p & -> & Hp)].
    + split; [split; [done|by intros H%Hpre]|]. by split.
    + split; [split; [done|by intros H%Hpre]|]. split; [done|]. intros _. eexists. cbn [c_handles with_command set_handles].
      split; [by rewrite Hh|]. split; [exact Hl|]. destruct Hp as [-> | ->]; [by right|left]. split.
      * rewrite first_command_cons. by rewrite decide_True.
      * intros other Ho. rewrite first_command_cons. cbn [cmd_type]. rewrite decide_False by congruence. done.
Qed.
End handles.

(** ** The functions of the handles *)

Section calls.
Context `{HD : Device} `{HJ : !Json} `{HB : !CapBelow} (user : cap_call -> st cworld unit) `{HU : !Polite user}.
#[local] Set Default Proof Using "Type*".

Definition init_calls (r : registry) : list cap_call :=
  omap (fun h => x ← r_handles r !! h; cb ← init_cb x; Some (init_called cb h (init_usr_data x))) (r_list r).

(** At the start the function of every handle that has one is called once, in
    the order in which the handles were made, with the handle and its data. *)
Theorem handles_initialised w :
  Forall (fun h => is_Some (c_handles w !! h)) (cap_handle_list w) -> memory_ok w ->
  exists w', iot_cap_call_init_cb user w = Ret (tt, w') /\
    c_calls w' = c_calls w ++ init_calls (registry_of w) /\ c_live w' = c_live w /\ registry_of w' = registry_of w.
Proof.
  intros Hl Hm.
  assert (Ha : acts (registry_of w) (iot_cap_call_init_cb user) [] (fun _ bs' cs => bs' = [] /\ cs = init_calls (registry_of w))).
  { unfold iot_cap_call_init_cb, init_calls. change (Forall (fun h => is_Some (r_handles (registry_of w) !! h)) (r_list (registry_of w))) in Hl.
    revert Hl. generalize (registry_of w) as r. intros r Hl.
    eapply acts_bind; [by apply (acts_registry _ cap_handle_list r_list)|]. intros ? ? ? (-> & -> & ->).
    induction Hl as [|h l [x Hx] _ IH]; cbn [init_loop omap list_omap app]; [by apply acts_ret|]. rewrite Hx. cbn [mbind option_bind].
    eapply acts_bind; [by apply acts_handle|]. intros ? ? ? (-> & -> & ->).
    apply acts_bind with (P := fun _ bs' cs => bs' = [] /\ cs = option_list ((fun cb => init_called cb h (init_usr_data x)) <$> init_cb x)).
    - destruct (init_cb x); [by apply (acts_user user)|by apply acts_ret].
    - intros [] ? ? [-> ->]. eapply acts_mono; [exact IH|]. intros [] ? cs [-> Hcs]. cbn [app] in Hcs. subst cs.
      split; [done|]. by destruct (init_cb x). }
  destruct (acts_run _ _ w Hm Ha) as ([] & w' & H). by exists w'.
Qed.
End calls.

(** ** Without memory for a name *)

Section unnamed.
Context `{HD : Device} `{HJ : !Json} `{HB : !CapBelow} (user : cap_call -> st cworld unit).
Context (blocks_here : forall e, fst (d_malloc e) = true) (no_strings : forall e, fst (d_strdup e) = false).

Lemma malloc_some : owns iot_os_malloc [] (fun p bs' => bs' = option_list p /\ p <> None).
Proof using blocks_here.
  eapply owns_bind; [apply (owns_below _ (fun a => a = true)), blocks_here|]. intros ? ? [-> ->]. cbn [negb].
  eapply owns_bind; [apply owns_take|]. intros b ? ->. by apply owns_ret.
Qed.
Lemma strdup_none s : owns (iot_os_strdup (Some s)) [] (fun p bs' => p = None /\ bs' = []).
Proof using no_strings.
  apply owns_mret. eapply owns_bind; [apply (owns_below _ (fun a => a = false)), no_strings|]. intros ? ? [-> ->]. by apply owns_ret.
Qed.

Lemma registered_without_name h x name cb usr w :
  c_handles w !! h = Some x -> existsb (same_command name) (cmd_list x) = false -> memory_ok w ->
  exists w1, st_cap_cmd_set_cb (Some h) (Some name) (Some cb) usr w = Ret (IOT_ERROR_NONE, with_command h x (CmdSet None cb usr) w1) /\
    quiet w w1.
Proof using blocks_here no_strings.
  intros Hx Hex Hm. cbn [st_cap_cmd_set_cb]. rewrite (bind_ret _ _ _ _ _ (handle_at_eq h x w Hx)), Hex.
  walk (malloc_some) (@nil nat) (holds_ok w Hm) c w1 Hq1 Hh1 [-> Hc]. destruct c as [b|]; [|done].
  walk (strdup_none name) [b] Hh1 p w2 Hq2 Hh2 [-> ->].
  walk (malloc_some) [b] Hh2 node w3 Hq3 Hh3 [-> Hnode]. rewrite bool_decide_false by done. cbn [ptr_blocks app] in *.
  pose proof (quiet_trans _ _ _ (quiet_trans _ _ _ Hq1 Hq2) Hq3) as Hq. exists w3. by split.
Qed.

(** What [find_handle] finds when the handles have kept their names. *)
Lemma found w w2 comp cap l :
  (forall g, g ∈ l -> exists y, c_handles w2 !! g = Some y /\ named (registry_of w) comp cap g = bool_decide (comp = component y) && bool_decide (cap = capability y)) ->
  find_handle (Some comp) (Some cap) l w2 = Ret (snd <$> list_find (fun g => named (registry_of w) comp cap g) l, w2).
Proof using Type.
  induction l as [|g l IH]; intros Hl; [done|]. cbn [find_handle].
  destruct (Hl g (list_elem_of_here _ _)) as (y & Hy & Hn). rewrite (bind_ret _ _ _ _ _ (handle_at_eq g y w2 Hy)).
  assert (Hskip : named (registry_of w) comp cap g = false -> find_handle (Some comp) (Some cap) l w2 =
    Ret (snd <$> list_find (fun g => named (registry_of w) comp cap g) (g :: l), w2)).
  { intros Hg. rewrite IH by (intros g' Hg'; apply Hl, list_elem_of_further, Hg'). cbn [list_find].
    destruct (decide (named (registry_of w) comp cap g)) as [H|_]; [by rewrite Hg in H|].
    by destruct (list_find _ l) as [[]|]. }
  cbn [need]. unfold mbind, st_bind, mret, st_ret. case_bool_decide as E1; [|apply Hskip; by rewrite Hn].
  cbn [need]. unfold mbind, st_bind, mret, st_ret. case_bool_decide as E2; [|apply Hskip; by rewrite Hn].
  cbn [list_find]. destruct (decide (named (registry_of w) comp cap g)) as [_|H]; [done|]. destruct H. by rewrite Hn.
Qed.

(** The copy of a command's name is not checked: when there is memory for
    everything else, the registration succeeds, and from then on every command of
    that component and capability, whatever its name, leads to a comparison with a
    null pointer. *)
Theorem unnamed_command_faults h x name cb usr w :
  c_handles w !! h = Some x -> existsb (same_command name) (cmd_list x) = false -> memory_ok w ->
  Forall (fun h => is_Some (c_handles w !! h)) (cap_handle_list w) ->
  first_handle (registry_of w) (component x) (capability x) = Some h ->
  exists w', st_cap_cmd_set_cb (Some h) (Some name) (Some cb) usr w = Ret (IOT_ERROR_NONE, w') /\
    forall bc bp bm cmd data,
      _iot_process_cmd user (Some (bc, component x)) (Some (bp, capability x)) (Some (bm, cmd)) data w' = Undef.
Proof using blocks_here no_strings.
  intros Hx Hex Hm Hl Hfirst. destruct (registered_without_name h x name cb usr w Hx Hex Hm) as (w1 & E & Hq).
  destruct (quiet_same _ _ Hq) as [Hh Hlist].
  exists (with_command h x (CmdSet None cb usr) w1). split; [exact E|]. intros bc bp bm cmd data.
  set (x' := Handle (component x) (capability x) (CmdSet None cb usr :: cmd_list x) (init_cb x) (init_usr_data x)).
  set (w2 := with_command _ _ _ _). assert (Hs : c_handles w2 = <[h := x']> (c_handles w)) by (unfold w2, with_command; cbn; by rewrite Hh).
  assert (Hf : find_handle (Some (component x)) (Some (capability x)) (cap_handle_list w) w2 = Ret (Some h, w2)).
  { rewrite <- Hfirst. apply found. intros g Hg. rewrite Hs. destruct (decide (g = h)) as [->|Hne].
    - rewrite lookup_insert_eq. exists x'. unfold named. cbn [r_handles registry_of]. by rewrite Hx.
    - rewrite lookup_insert_ne by done. rewrite Forall_forall in Hl. destruct (Hl g Hg) as [y Hy]. exists y. unfold named. cbn [r_handles registry_of]. by rewrite Hy. }
  assert (E1 : gets cap_handle_list w2 = Ret (cap_handle_list w, w2)) by (unfold gets, w2, with_command; cbn; by rewrite Hlist).
  unfold _iot_process_cmd. rewrite (bind_ret _ _ _ _ _ E1). cbn [text_of fmap option_fmap option_map snd].
  rewrite (bind_ret _ _ _ _ _ Hf). rewrite (bind_ret _ _ _ _ _ (handle_at_eq h x' w2 ltac:(rewrite Hs; apply lookup_insert_eq))).
  done.
Qed.
End unnamed.
