(* ===== verification/CapRegister.v ===== *)
(** * Capabilities: the registration of the device

    What the device keeps of the message of its registration
    ([device_registered]), and what happens when its identifier is too short
    ([short_device_id_overread]). *)

From S2P Require Import Prelude World Util MainState MainRun MainInv MainTask.
From S2P Require Import CapState CapRun CapMemory CapMqtt CapCommands CapEvents CapHandle.

Section registration.
Context `{HM : CharModel} `{HD : Device} `{HJ : !Json} `{HB : !CapBelow} `{HW : !CapWorks} `{HK : !LocksWork}.
#[local] Set Default Proof Using "Type*".
Abbreviation C := (st cworld).

#[local] Instance memory_is_here : MemoryWorks := {| memory_works := malloc_here |}.

(** From [w] to [w'] the context has changed by [f], and these commands wait. *)
Definition becomes (w : cworld) (f : iot_context -> iot_context) (cmds : list iot_command) (w' : cworld) : Prop :=
  m_ctx (c_main w') = f (m_ctx (c_main w)) /\
  m_work (c_main w') = m_work (c_main w) ++ ((fun c => command_work (Some c)) <$> cmds).

Lemma quiet_becomes w w' : quiet w w' -> becomes w id [] w'.
Proof using Type. intros (e & l & n & ->). split; [done|]. by rewrite app_nil_r. Qed.
Lemma becomes_trans w1 w2 w3 f g l k : becomes w1 f l w2 -> becomes w2 g k w3 -> becomes w1 (g ∘ f) (l ++ k) w3.
Proof using Type. intros [Hc Hw] [Hc' Hw']. split; [by rewrite Hc', Hc|]. by rewrite Hw', Hw, fmap_app, app_assoc. Qed.

Lemma becomes_setc w w' f : quiet w w' -> becomes w f [] (set_main (with_ctx (f (m_ctx (c_main w'))) (c_main w')) w').
Proof using Type. intros (e & l & n & ->). split; [done|]. by rewrite app_nil_r. Qed.

(** The memory is that of another state. *)
Definition same_memory (w w' : cworld) : Prop := c_live w' = c_live w /\ c_next w' = c_next w.
Lemma holds_same w w' L bs : same_memory w w' -> holds w L bs -> holds w' L bs.
Proof using Type. intros [El En] (? & ? & ? & ?). split_and!; [done|by rewrite El|done|by rewrite El, En]. Qed.

(** What the identifier of a string is. *)
Definition uuid_said (item : json) (id : list Z) : Prop :=
  iot_util_convert_str_uuid (bytes_of_text <$> JSON_GET_STRING_VALUE (Some item)) (Some (replicate 16 0)) = Ret (IOT_ERROR_NONE, Some id).

Lemma uuid_of_said item id w : uuid_said item id -> uuid_of (JSON_GET_STRING_VALUE (Some item)) w = Ret ((IOT_ERROR_NONE, id), w).
Proof using Type. intros E. unfold uuid_of. by rewrite E. Qed.

(** The profile and the place, if the message has them. *)
Inductive profile_said (j : json) : (iot_context -> iot_context) -> Prop :=
| no_profile : get_item j "deviceIntegrationProfileKey" = None -> profile_said j id
| a_profile key item id major :
    get_item j "deviceIntegrationProfileKey" = Some key -> get_item key "id" = Some item -> uuid_said item id ->
    get_item key "majorVersion" = Some major ->
    profile_said j (set_reg_dip (Some (Dip id (valueint major) (default 0 (int_item key "minorVersion"))))).
Inductive location_said (j : json) : (iot_context -> iot_context) -> Prop :=
| no_location : get_item j "locationId" = None -> location_said j id
| a_location item id : get_item j "locationId" = Some item -> uuid_said item id -> location_said j (set_reg_locationId (Some id)).

(** A step of the registration. *)
Definition step_of {A} (m : C A) (w : cworld) (L : gset nat) (bs : list nat) (a : A) (f : iot_context -> iot_context) (cmds : list iot_command) : Prop :=
  exists w', m w = Ret (a, w') /\ becomes w f cmds w' /\ holds w' L bs.

Lemma profile_step j f w L bs : profile_said j f -> holds w L bs -> step_of (reg_profile j) w L bs true f [].
Proof.
  intros Hp Hh. unfold step_of, reg_profile. destruct Hp as [E|key item id major E Ei Hid Em]; rewrite E; [by exists w; split; [|split; [apply quiet_becomes, quiet_refl|]]|].
  walk (malloc_works) bs Hh b w1 Hq1 Hh1 P. destruct P as (b' & -> & ->). rewrite Ei.
  rewrite (bind_ret _ _ _ _ _ (uuid_of_said item id w1 Hid)). rewrite Z.eqb_refl, Em. cbn [negb].
  walk (@owns_free_block HD HJ b') bs Hh1 t w2 Hq2 Hh2 ->. eexists. split; [reflexivity|]. split.
  - apply becomes_setc. by eapply quiet_trans.
  - by eapply holds_same.
Qed.

Lemma location_step j f w L bs : location_said j f -> holds w L bs -> step_of (reg_location j) w L bs true f [].
Proof.
  intros Hp Hh. unfold step_of, reg_location. destruct Hp as [E|item id E Hid]; rewrite E; [by exists w; split; [|split; [apply quiet_becomes, quiet_refl|]]|].
  walk (malloc_works) bs Hh b w1 Hq1 Hh1 P. destruct P as (b' & -> & ->).
  rewrite (bind_ret _ _ _ _ _ (uuid_of_said item id w1 Hid)).
  walk (@owns_free_block HD HJ b') bs Hh1 t w2 Hq2 Hh2 ->. rewrite Z.eqb_refl. cbn [negb]. eexists. split; [reflexivity|]. split.
  - apply becomes_setc. by eapply quiet_trans.
  - by eapply holds_same.
Qed.

(** The identifier goes into the context when there is none yet. *)
Definition device_of (item : json) : iot_context -> iot_context :=
  set_new_reged false ∘ set_updated true ∘ set_deviceId (String.substring 1 IOT_REG_UUID_STR_LEN (printed item)).

Lemma device_step j item w L bs :
  get_item j "deviceId" = Some item -> updated (m_ctx (c_main w)) = false ->
  (IOT_REG_UUID_STR_LEN <= String.length (printed item))%nat -> holds w L bs ->
  step_of (reg_device_id j) w L bs tt (device_of item) [IOT_COMMAND_CLOUD_REGISTERED].
Proof.
  intros E Hu Hlen Hh. unfold step_of, reg_device_id. rewrite E.
  assert (E1 : on_main (getc updated) w = Ret (false, w)) by (unfold on_main, getc, gets; rewrite Hu; by destruct w).
  rewrite (bind_ret _ _ _ _ _ E1).
  walk (print_works item) bs Hh s w1 Hq1 Hh1 P. destruct P as (b & -> & ->). rewrite bool_decide_false by lia.
  set (w2 := set_main (with_ctx (device_of item (m_ctx (c_main w1))) (c_main w1)) w1).
  destruct (send_works IOT_COMMAND_CLOUD_REGISTERED (c_main w2)) as (e & Es).
  set (w3 := set_main (MWorld _ e (m_ctx (c_main w2)) (m_work (c_main w2) ++ [command_work (Some IOT_COMMAND_CLOUD_REGISTERED)]) true
    (kill_signal (c_main w2)) (m_notices (c_main w2))) w2).
  assert (Hh3 : holds w3 L ([b] ++ bs)) by (by eapply holds_same).
  destruct (owns_holds _ _ bs _ _ _ (owns_free_block b) Hh3) as ([] & w4 & ? & E4 & Hq4 & Hh4 & ->).
  exists w4. split; [|split; [|exact Hh4]].
  - transitivity ((on_main (iot_command_send IOT_COMMAND_CLOUD_REGISTERED);; free_block b) w2); [reflexivity|].
    assert (E3 : on_main (iot_command_send IOT_COMMAND_CLOUD_REGISTERED) w2 = Ret (IOT_ERROR_NONE, w3)) by (unfold on_main; by rewrite Es).
    by rewrite (bind_ret _ _ _ _ _ E3).
  - destruct Hq1 as (e1 & l1 & n1 & ->). by destruct Hq4 as (e4 & l4 & n4 & ->).
Qed.

Lemma step_bind {A B} (m : C A) (k : A -> C B) w L bs a b f g l l' :
  step_of m w L bs a f l -> (forall w', becomes w f l w' -> holds w' L bs -> step_of (k a) w' L bs b g l') ->
  step_of (m ≫= k) w L bs b (g ∘ f) (l ++ l').
Proof using Type.
  intros (w1 & E1 & Hb1 & Hh1) Hk. destruct (Hk w1 Hb1 Hh1) as (w2 & E2 & Hb2 & Hh2). exists w2.
  rewrite (bind_ret _ _ _ _ _ E1). split; [done|]. split; [by eapply becomes_trans|done].
Qed.

Lemma step_ret {A B} (a : A) (k : A -> C B) w L bs b f l : step_of (k a) w L bs b f l -> step_of (mret a ≫= k) w L bs b f l.
Proof using Type. done. Qed.

Lemma profile_updated j f x : profile_said j f -> updated (f x) = updated x.
Proof using Type. by intros []. Qed.
Lemma location_updated j f x : location_said j f -> updated (f x) = updated x.
Proof using Type. by intros []. Qed.

Lemma body_step j item profile location w L bs :
  get_item j "event" = None -> profile_said j profile -> location_said j location -> get_item j "deviceId" = Some item ->
  (IOT_REG_UUID_STR_LEN <= String.length (printed item))%nat -> updated (m_ctx (c_main w)) = false -> holds w L bs ->
  step_of (ok ← reg_event j; when ok (ok ← reg_profile j; when ok (ok ← reg_location j; when ok (reg_device_id j)))) w L bs tt
    (device_of item ∘ location ∘ profile) [IOT_COMMAND_CLOUD_REGISTERED].
Proof.
  intros Hev Hp Hl Hd Hlen Hu Hh. unfold reg_event. rewrite Hev.
  apply step_ret. cbn [when].
  apply (step_bind (reg_profile j) (fun ok => when ok (ok ← reg_location j; when ok (reg_device_id j))) w L bs true tt profile
    (device_of item ∘ location) [] [IOT_COMMAND_CLOUD_REGISTERED]); [by apply profile_step|]. intros w1 [Hc1 _] Hh1. cbn [when].
  apply (step_bind (reg_location j) (fun ok => when ok (reg_device_id j)) w1 L bs true tt location (device_of item) []
    [IOT_COMMAND_CLOUD_REGISTERED]); [by apply location_step|]. intros w2 [Hc2 _] Hh2. cbn [when].
  apply device_step; try done. by rewrite Hc2, Hc1, (location_updated j), (profile_updated j).
Qed.

(** A text that is an answer of the server. *)
Record answer (payload : string) (j item : json) (profile location : iot_context -> iot_context) : Prop := {
  an_text : parsed payload = Some j;
  an_event : get_item j "event" = None;
  an_profile : profile_said j profile;
  an_location : location_said j location;
  an_device : get_item j "deviceId" = Some item
}.

(** C27: The registration of the device is completed by the message of the server.
    When there is memory: the profile and the place are kept, if the message has
    them, the identifier is what stands between the quotation marks of its printed
    item, the device counts as registered, and the main task is told, once, so
    that it signs in.  All memory but what is kept is given back. *)
Theorem device_registered payload j item profile location w :
  answer payload j item profile location ->
  (IOT_REG_UUID_STR_LEN <= String.length (printed item))%nat -> updated (m_ctx (c_main w)) = false -> memory_ok w ->
  exists w', mqtt_reg_sub_cb payload w = Ret (tt, w') /\
    m_ctx (c_main w') = device_of item (location (profile (m_ctx (c_main w)))) /\
    m_work (c_main w') = m_work (c_main w) ++ [command_work (Some IOT_COMMAND_CLOUD_REGISTERED)] /\
    c_live w' = c_live w.
Proof.
  intros [Hj Hev Hp Hl Hd] Hlen Hu Hm. unfold mqtt_reg_sub_cb.
  walk (parse_works payload) (@nil nat) (holds_ok w Hm) t w1 Hq1 Hh1 P. rewrite Hj in P. destruct P as (b & -> & ->).
  walk (print_works j) [b] Hh1 s w2 Hq2 Hh2 P. destruct P as (b' & -> & ->). rewrite bool_decide_false by done.
  destruct (body_step j item profile location w2 (c_live w) [b'; b] Hev Hp Hl Hd Hlen) as (w3 & E3 & [Hc3 Hw3] & Hh3); [|exact Hh2|].
  { destruct Hq1 as (e1 & l1 & n1 & ->). by destruct Hq2 as (e2 & l2 & n2 & ->). }
  rewrite (bind_ret _ _ _ _ _ E3). walk (@owns_free_block HD HJ b') [b] Hh3 t w4 Hq4 Hh4 ->.
  destruct (owns_holds _ _ [] _ _ _ (owns_free_block b) Hh4) as ([] & w5 & ? & E5 & Hq5 & Hh5 & ->).
  exists w5. split; [exact E5|]. pose proof (quiet_trans _ _ _ Hq4 Hq5) as (e5 & l5 & n5 & ->).
  destruct Hq1 as (e1 & l1 & n1 & ->). destruct Hq2 as (e2 & l2 & n2 & ->). split_and!; [exact Hc3|exact Hw3|by apply holds_live].
Qed.

Lemma short_id j item w L bs :
  get_item j "deviceId" = Some item -> (String.length (printed item) < IOT_REG_UUID_STR_LEN)%nat ->
  updated (m_ctx (c_main w)) = false -> holds w L bs -> reg_device_id j w = Undef.
Proof.
  intros E Hlen Hu Hh. unfold reg_device_id. rewrite E.
  assert (E1 : on_main (getc updated) w = Ret (false, w)) by (unfold on_main, getc, gets; rewrite Hu; by destruct w).
  rewrite (bind_ret _ _ _ _ _ E1). walk (print_works item) bs Hh s w1 Hq1 Hh1 P. destruct P as (b & -> & ->).
  by rewrite bool_decide_true.
Qed.

(** An identifier whose printed form has less than 36 characters is copied
    past its end. *)
Theorem short_device_id_overread payload j item profile location w :
  answer payload j item profile location ->
  (String.length (printed item) < IOT_REG_UUID_STR_LEN)%nat -> updated (m_ctx (c_main w)) = false -> memory_ok w ->
  mqtt_reg_sub_cb payload w = Undef.
Proof.
  intros [Hj Hev Hp Hl Hd] Hlen Hu Hm. unfold mqtt_reg_sub_cb.
  walk (parse_works payload) (@nil nat) (holds_ok w Hm) t w1 Hq1 Hh1 P. rewrite Hj in P. destruct P as (b & -> & ->).
  walk (print_works j) [b] Hh1 s w2 Hq2 Hh2 P. destruct P as (b' & -> & ->). rewrite bool_decide_false by done.
  unfold reg_event. rewrite Hev.
  destruct (profile_step j profile w2 (c_live w) [b'; b] Hp Hh2) as (w3 & E3 & [Hc3 _] & Hh3).
  destruct (location_step j location w3 (c_live w) [b'; b] Hl Hh3) as (w4 & E4 & [Hc4 _] & Hh4).
  apply bind_undef. change ((ok ← reg_profile j; when ok (ok ← reg_location j; when ok (reg_device_id j))) w2 = Undef).
  rewrite (bind_ret _ _ _ _ _ E3). cbn [when]. rewrite (bind_ret _ _ _ _ _ E4). cbn [when].
  eapply short_id; [exact Hd|done| |exact Hh4].
  destruct Hq1 as (e1 & l1 & n1 & ->). destruct Hq2 as (e2 & l2 & n2 & ->).
  by rewrite Hc4, Hc3, (location_updated j), (profile_updated j).
Qed.
End registration.
