(* ===== verification/CapSample.v ===== *)
(** * Capabilities: a sample

    Concrete trees and a JSON library for them, in which a text is a sequence of
    bits, on the sample board of [MainSample]; with them the witnesses of the
    capabilities. *)

From stdpp Require Import countable.
From S2P Require Import Prelude Platform World Sample ClientRead ClientCallback MainState MainRun MainInv MainTask MainSample.
From S2P Require Import CapState CapRun CapMemory CapMqtt CapCommands CapReport CapEvents CapMessages CapNotify CapHandle CapRegister.

(** ** Texts of bits *)

Definition zero_char : Ascii.ascii := Ascii.ascii_of_N 48.
Definition one_char : Ascii.ascii := Ascii.ascii_of_N 49.
Fixpoint bits (p : positive) : string :=
  match p with xH => EmptyString | xO p => String zero_char (bits p) | xI p => String one_char (bits p) end.
Fixpoint unbits (s : string) : positive :=
  match s with EmptyString => xH | String c s => if Ascii.eqb c zero_char then xO (unbits s) else xI (unbits s) end.
Lemma unbits_bits p : unbits (bits p) = p.
Proof. induction p as [p IH|p IH|]; cbn; by rewrite ?IH. Qed.

(** ** Trees *)

(** A node has the kind of the item, first its name, and then what it holds. *)
Definition leaf : Type := option string + (bool + (Z + string)).
Definition sim_json : Type := gen_tree leaf.

Definition the_name (j : sim_json) : option string :=
  match j with GenNode _ (GenLeaf (inl n) :: _) => n | _ => None end.
Definition held (j : sim_json) : list sim_json :=
  match j with GenNode _ (GenLeaf (inl _) :: l) => l | _ => [] end.
Definition item_of (kind : nat) (l : list sim_json) : sim_json := GenNode kind (GenLeaf (inl None) :: l).
Definition rename (k : string) (j : sim_json) : sim_json :=
  match j with
  | GenNode kind (GenLeaf (inl _) :: l) => GenNode kind (GenLeaf (inl (Some k)) :: l)
  | _ => GenNode 0 [GenLeaf (inl (Some k))]
  end.
Fixpoint find_item (k : string) (l : list sim_json) : option sim_json :=
  match l with
  | [] => None
  | j :: l => match the_name j with Some n => if same_name n k then Some j else find_item k l | None => find_item k l end
  end.
Definition sim_kind (j : sim_json) : json_type :=
  match j, held j with
  | GenNode 1 _, [GenLeaf (inr (inl b))] => JSON_BOOL b
  | GenNode 2 _, _ => JSON_NUMBER
  | GenNode 3 _, _ => JSON_STRING
  | GenNode 4 _, _ => JSON_OBJECT
  | GenNode 5 _, _ => JSON_ARRAY
  | _, _ => JSON_OTHER
  end.
Definition sim_number (j : sim_json) : Z := match held j with [GenLeaf (inr (inr (inl z)))] => z | _ => 0 end.
Definition sim_string (j : sim_json) : option string := match held j with [GenLeaf (inr (inr (inr s)))] => Some s | _ => None end.
Definition a_string (s : string) : sim_json := item_of 3 [GenLeaf (inr (inr (inr s)))].
Definition a_number (z : Z) : sim_json := item_of 2 [GenLeaf (inr (inr (inl z)))].
(** The name of the item itself is not printed. *)
Definition unname (j : sim_json) : sim_json :=
  match j with GenNode kind (GenLeaf (inl _) :: l) => GenNode kind (GenLeaf (inl None) :: l) | _ => j end.
Definition sim_print (j : sim_json) : string := bits (encode (unname j)).
Definition sim_parse (s : string) : option sim_json := decode (unbits s).

#[export] Instance sim_cjson `{Device} : Json := {|
  json := sim_json; double := Z;
  double_of_int z := z;
  double_to_int z := if (-2147483648 <=? z) && (z <=? 2147483647) then Some z else None;
  json_kind := sim_kind; valuestring := sim_string; valueint := sim_number; valuedouble := sim_number;
  item_name := the_name; children := held; get_item j k := find_item k (held j);
  parse_json s e := (sim_parse s, e); print_json j e := (Some (sim_print j), e); json_works e := (true, e);
  empty_object := item_of 4 []; empty_array := item_of 5 [];
  string_item := a_string; number_item := a_number; bool_item b := item_of 1 [GenLeaf (inr (inl b))];
  string_array l := item_of 5 (a_string <$> l);
  add_item o k j := GenNode 4 (GenLeaf (inl (the_name o)) :: held o ++ [rename k j]);
  append_item a j := GenNode 5 (GenLeaf (inl (the_name a)) :: held a ++ [j])
|}.
#[export] Instance sim_cap_below `{Device} : CapBelow := {|
  gettimeofday e := ((1700000000, 250000), e); set_time_in_sec _ e := e;
  rate_limit_timer_create e := (Some 7%nat, e); rate_limit_timer_start _ e := (0, e)
|}.

#[export] Instance sim_cap_works : CapWorks.
Proof.
  refine (Build_CapWorks _ _ (fun _ => eq_refl) (fun _ => eq_refl) (fun _ => eq_refl) sim_parse _ sim_print _); by intros.
Defined.
#[export] Instance sim_makes : CapMakes.
Proof. done. Qed.

Lemma held_rename k j : held (rename k j) = held j.
Proof. by destruct j as [|? [|[[?|?]|?] ?]]. Qed.
Lemma name_rename k j : the_name (rename k j) = Some k.
Proof. by destruct j as [|? [|[[?|?]|?] ?]]. Qed.
Lemma find_app k l l' : find_item k (l ++ l') = match find_item k l with Some j => Some j | None => find_item k l' end.
Proof. induction l as [|j l IH]; [done|]. cbn. destruct (the_name j) as [n|]; [|done]. by destruct (same_name n k). Qed.

Lemma read_unnamed j : the_name j = None -> sim_parse (sim_print j) = Some j.
Proof.
  intros Hj. unfold sim_parse, sim_print. rewrite unbits_bits, decode_encode. f_equal.
  destruct j as [|? [|[[?|?]|?] ?]]; try done. cbn in *. by subst.
Qed.

#[export] Instance sim_laws : JsonLaws.
Proof.
  refine (Build_JsonLaws _ _ _ rename _ _ _ _ _ _ _ _ _ _ _ _); cbn; try done.
  - intros k j k'. by rewrite held_rename.
  - intros k j. apply held_rename.
  - intros k j. unfold sim_number. by rewrite held_rename.
  - intros o k j k'. rewrite find_app. cbn. by rewrite name_rename.
  - intros n Hn. rewrite !(proj2 (Z.leb_le _ _)) by lia. done.
  - intros j Hj. by apply read_unnamed.
Defined.

(** ** A world *)

(** Functions of the user that do nothing. *)
Definition idle_user (c : cap_call) : st cworld unit := mret tt.
#[export] Instance idle_polite : Polite idle_user.
Proof. intros c w Hm. by exists w. Qed.

Definition switch : iot_cap_handle :=
  Handle "main" "switch" [CmdSet (Some "off"%string) 2 0; CmdSet (Some "on"%string) 1 0] (Some 3%nat) 0.
Definition meter : iot_cap_handle := Handle "main" "meter" [] None 0.

(** The device is connected, and signed in. *)
Definition online : iot_context :=
  set_curr_state IOT_STATE_CLOUD_CONNECTED (set_evt_mqttcli (Some 1%nat) (set_sign_in_status GG_CONNECTION_REQUEST_STATUS_SUCCESS sim_ctx)).
Definition cap_world_in (c : iot_context) : cworld :=
  CWorld _ _ (MWorld _ (Sim 0 0 None) c [] false false []) (list_to_set [1; 2; 3]%nat) 10 (<[1%nat := switch]> (<[2%nat := meter]> ∅)) [1; 2]%nat 2147483646 None [] [].
Definition cap_world : cworld := cap_world_in online.

Lemma cap_memory c : memory_ok (cap_world_in c).
Proof.
  intros b Hb. change (b ∈ (list_to_set [1; 2; 3]%nat : gset nat)) in Hb. rewrite elem_of_list_to_set, !elem_of_cons, elem_of_nil in Hb.
  cbn. lia.
Qed.

(** An object with these items, and an array. *)
Definition an_object (l : list (string * sim_json)) : sim_json := item_of 4 ((fun p => rename p.1 p.2) <$> l).
Definition an_array (l : list sim_json) : sim_json := item_of 5 l.
Definition a_command (name id : string) (args : list sim_json) : sim_json :=
  an_object [("component", a_string "main"); ("capability", a_string "switch"); ("command", a_string name); ("id", a_string id);
             ("arguments", an_array args)]%string.
Definition both : list sim_json := [a_command "on" "c1" [a_number 5]; a_command "off" "c2" []].
Definition two_commands : sim_json := an_object [("commands"%string, an_array both)].


Lemma attributes_leak_nothing_witness :
  exists e w1, st_cap_create_attr_with_option (Some 1%nat) (Some "switch"%string) (Some (VAL_STR_ARRAY _ [Some "a"; None; Some "b"]%string))
      (Some "u"%string) None (Some (AttrOption 1 (Some "c1"%string) (Some true))) cap_world = Ret (e, w1) /\
    (e = None -> c_live w1 = c_live cap_world) /\
    exists w2, st_cap_free_attr e w1 = Ret (tt, w2) /\ c_live w2 = c_live cap_world.
Proof. apply attributes_leak_nothing; [apply cap_memory|by intros v [= <-]]. Defined.

(** ** Commands *)

Lemma a_command_ok name id args :
  Forall text_ok args -> args = [] \/ 0 < zlen (omap arg_of args) < 256 -> command_fits (a_command name id args).
Proof. intros Ha Hc. left. exists "main"%string, "switch"%string, name, (Some id). split; try done. Qed.
Lemma two_commands_fit : Forall command_fits both.
Proof.
  apply Forall_cons; split; [|apply Forall_singleton]; apply a_command_ok; [by repeat constructor|by right; vm_compute|by constructor|by left].
Qed.
Lemma two_commands_complete : Forall report_fits both.
Proof.
  assert (H : forall name id args, zlen args < 256 -> report_fits (a_command name id args)).
  { intros name id args Hl _. split; [by repeat constructor|]. eexists. by split. }
  apply Forall_cons; split; [|apply Forall_singleton]; by apply H.
Qed.
Lemma cap_registry c : registry_ok (registry_of (cap_world_in c)).
Proof. repeat constructor; eexists; (split; [reflexivity|]); by repeat constructor. Qed.
Lemma two_commands_text : parsed (sim_print two_commands) = Some two_commands.
Proof. by apply read_unnamed. Qed.

Lemma commands_dispatched_witness :
  exists w', iot_cap_sub_cb idle_user (Some (sim_print two_commands)) cap_world = Ret (tt, w') /\
    c_calls w' = [cmd_called 1 1 (CmdData _ _ 1 [VAL_INT_OR_NUM _ 5 5] 2 1 (Some "c1"%string)) 0;
                  cmd_called 2 1 (CmdData _ _ 0 [] 2 2 (Some "c2"%string)) 0] /\
    c_live w' = c_live cap_world /\ registry_of w' = registry_of cap_world.
Proof.
  destruct (commands_dispatched idle_user (sim_print two_commands) two_commands (rename "commands" (an_array both)) cap_world
    two_commands_text eq_refl two_commands_fit ltac:(done) (cap_registry _) (cap_memory _)) as (w' & E & Hc & H).
  exists w'. split; [exact E|]. split; [|exact H]. exact Hc.
Defined.

Lemma commands_reported_witness :
  exists w', iot_cap_commands_cb idle_user (Some (sim_print two_commands)) cap_world = Ret (tt, w') /\
    c_calls w' = [commands_called
      [Command _ _ (Some "c1") (Some "main") (Some "switch") (Some "on") [ST_NUMBER 5] 1;
       Command _ _ (Some "c2") (Some "main") (Some "switch") (Some "off") [] 0]]%string /\
    c_live w' = c_live cap_world /\ registry_of w' = registry_of cap_world.
Proof.
  destruct (commands_reported idle_user (sim_print two_commands) two_commands (rename "commands" (an_array both)) cap_world
    two_commands_text eq_refl two_commands_complete (cap_memory _)) as (w' & E & Hc & H).
  exists w'. split; [exact E|]. split; [|exact H]. exact Hc.
Defined.

(** ** Messages *)

Definition command_topic : list Z := IOT_SUB_TOPIC_COMMAND_PREFIX ++ bytes_of_text "/d1".
Lemma some_bytes (l : list Z) : forallb (fun b => negb (b =? 0)) l = true -> Forall (fun b => b <> 0) l.
Proof. intros H. apply Forall_forall. intros b Hb. apply list_elem_of_In in Hb. rewrite forallb_forall in H. specialize (H b Hb). lia. Qed.

Lemma received_text_unterminated_witness :
  exists m, tells (received_chunk (publish_byte 0 0) (MqttPublish.wire_publish 0 0 0 0 command_topic (bytes_of_text "{}")) 0) [World.ST_MQTT_EVENT_MSG_DELIVERED m] /\
    _iot_mqtt_registration_client_callback (HM := true) (World.ST_MQTT_EVENT_MSG_DELIVERED m) cap_world = Undef /\
    _iot_mqtt_signin_client_callback idle_user (World.ST_MQTT_EVENT_MSG_DELIVERED m) cap_world = Undef.
Proof.
  destruct (received_text_unterminated (HM := true) idle_user 0 0 0 command_topic (bytes_of_text "{}") 0
    ltac:(lia) ltac:(lia) ltac:(lia) ltac:(by vm_compute) ltac:(by vm_compute) (some_bytes (bytes_of_text "{}") eq_refl)) as (m & Hm & H).
  exists m. split; [exact Hm|]. destruct (H cap_world) as (H1 & H2 & _). split; [apply H1; left; discriminate|apply H2; right; by eexists].
Defined.

Lemma command_message_handled_witness :
  exists m w',
    tells (received_chunk (publish_byte 1 0) (MqttPublish.wire_publish 0 1 0 7 command_topic (bytes_of_text (sim_print two_commands) ++ [0])) 7) [World.ST_MQTT_EVENT_MSG_DELIVERED m] /\
    _iot_mqtt_signin_client_callback idle_user (World.ST_MQTT_EVENT_MSG_DELIVERED m) cap_world = Ret (tt, w') /\
    length (c_calls w') = 3%nat /\ c_live w' = c_live cap_world.
Proof.
  destruct (command_message_handled idle_user 1 0 7 command_topic (sim_print two_commands) 7 two_commands (rename "commands" (an_array both)) cap_world
    ltac:(lia) ltac:(lia) ltac:(lia) ltac:(by vm_compute) ltac:(by vm_compute) ltac:(by eexists) (some_bytes (bytes_of_text (sim_print two_commands)) ltac:(by vm_compute))
    two_commands_text eq_refl two_commands_fit two_commands_complete eq_refl ltac:(done) (cap_registry _) (cap_memory _)) as (m & w' & Hm & E & Hc & Hl & _).
  exists m, w'. split; [exact Hm|]. split; [exact E|]. split; [by rewrite Hc|exact Hl].
Defined.

(** ** Events *)

Definition an_event : iot_cap_evt_data_t :=
  Evt _ _ 20 (Some 1%nat) (Some (21%nat, "switch"%string)) (VAL_STRING _ (Some (22%nat, "on"%string))) None None None 1 None (Some (23%nat, true)).
Definition meter_event : iot_cap_evt_data_t :=
  Evt _ _ 24 (Some 2%nat) (Some (25%nat, "power"%string)) (VAL_INTEGER _ 40) None (Some (Some (26%nat, "W"%string))) None 0 (Some (27%nat, "c1"%string)) None.
Definition an_attribute : st_attr_data :=
  Attr ST_COMPONENT_DEFULAT None ST_ATTR_CUSTOM (Some "meter"%string) (Some "power"%string) (ST_NUMBER 40) (Some "W"%string) None true false None.

Lemma two_events_ok c : Forall (event_ok (c_handles (cap_world_in c))) [an_event; meter_event].
Proof. repeat constructor; by eexists _, _. Qed.
Lemma online_connected : connected cap_world.
Proof. done. Qed.


Lemma events_published_v2_witness :
  exists times r w', length times = 1%nat /\ st_cap_send_attr_v2 [Some an_attribute] cap_world = Ret (r, w') /\
    sent cap_world (zip_with (fun a t => object_of (event_says_v2 a 2147483647 t)) [an_attribute] times) r w'.
Proof.
  by apply (events_published_v2 [an_attribute] cap_world ltac:(done) (cap_memory _) online_connected ltac:(by repeat constructor)).
Defined.

Lemma sequence_distinct_witness :
  1 <= Nat.iter 1 next_sequence 2147483647 <= MAX_SQNUM /\
  (Nat.iter 1 next_sequence 2147483647 = Nat.iter 3 next_sequence 2147483647 <-> (3 - 1) mod MAX_SQNUM = 0).
Proof. apply (sequence_distinct 2147483647 1 3); [by vm_compute|lia]. Defined.

Lemma sequence_read_back_witness :
  exists r w' text, st_cap_send_attr [Some an_event; Some meter_event] cap_world = Ret (r, w') /\ c_published w' = [text] /\
    (r = event_sequence_num w' \/ r = IOT_ERROR_MQTT_PUBLISH_FAIL) /\ 1 <= event_sequence_num w' /\
    forall w1, memory_ok w1 ->
    exists w2, _iot_parse_sequence_num text w1 = Ret (event_sequence_num w', w2) /\ c_live w2 = c_live w1.
Proof.
  by apply (sequence_read_back [an_event; meter_event] cap_world ltac:(done) (cap_memory _) online_connected (two_events_ok _)).
Defined.

(** ** Notifications *)

Definition a_limit : sim_json :=
  an_object [("event", a_string "rate.limit.reached"); ("count", a_number 12); ("threshold", a_number 10);
             ("remainingTime", a_number 60); ("sequenceNumber", a_number 3)]%string.
Definition some_preferences : sim_json :=
  an_object [("event", a_string "device.preferences.updated");
             ("values", an_object [("volume", an_object [("preferenceType", a_string "integer"); ("value", a_number 5)])])]%string.

Lemma read_back j : the_name j = None -> parsed (sim_print j) = Some j.
Proof. apply read_unnamed. Qed.

Lemma notification_told_witness :
  exists w', iot_noti_sub_cb (Some (sim_print some_preferences)) cap_world = Ret (tt, w') /\
    noticed cap_world (Some (PREFERENCE_UPDATED [Preference _ _ (Some "volume"%string) (VAL_INTEGER _ 5)])) w'.
Proof.
  refine (notification_told (sim_print some_preferences) some_preferences cap_world (read_back some_preferences eq_refl) _ (cap_memory _)).
  intros values [= <-]. repeat constructor. intros v [= <-]. eexists. split; [reflexivity|done].
Defined.

Lemma rate_limit_respected_witness :
  exists w1, iot_noti_sub_cb (Some (sim_print a_limit)) cap_world = Ret (tt, w1) /\
    (forall es, exists r, r < 0 /\ st_cap_send_attr es w1 = Ret (r, w1)) /\
    (forall es, exists r, r < 0 /\ st_cap_send_attr_v2 es w1 = Ret (r, w1)) /\
    exists w2, _iot_noti_rate_limit_cb w1 = Ret (tt, w2) /\ rate_limit (m_ctx (c_main w2)) = false /\ (connected cap_world -> connected w2).
Proof.
  refine (rate_limit_respected (sim_print a_limit) a_limit 12 10 60 3 cap_world _ _ _ _ _).
  - by split.
  - by apply read_back.
  - reflexivity.
  - by intros values [=].
  - apply cap_memory.
Defined.

(** ** Handles *)

Lemma command_registration_witness :
  exists r w', st_cap_cmd_set_cb (Some 1%nat) (Some "toggle"%string) (Some 4%nat) 0 cap_world = Ret (r, w') /\
    (r = IOT_ERROR_INVALID_ARGS <-> Exists (fun c => exists s, cmd_type c = Some s /\ String.prefix "toggle" s = true) (cmd_list switch)) /\
    (r <> IOT_ERROR_NONE -> c_handles w' = c_handles cap_world /\ c_live w' = c_live cap_world) /\
    (r = IOT_ERROR_NONE -> exists x', c_handles w' = <[1%nat := x']> (c_handles cap_world) /\ cap_handle_list w' = [1; 2]%nat /\
       ((first_command x' "toggle" = Some (CmdSet (Some "toggle"%string) 4 0) /\
         forall other, other <> "toggle"%string -> first_command x' other = first_command switch other) \/
        hd_error (cmd_list x') = Some (CmdSet None 4 0))).
Proof. by apply (command_registration 1 switch "toggle" 4 0 cap_world eq_refl (cap_memory _)). Defined.

(** A name that another one begins with. *)
Example prefix_refused : st_cap_cmd_set_cb (Some 1%nat) (Some "o"%string) (Some 4%nat) 0 cap_world = Ret (IOT_ERROR_INVALID_ARGS, cap_world).
Proof. reflexivity. Qed.

Lemma handles_initialised_witness :
  exists w', iot_cap_call_init_cb idle_user cap_world = Ret (tt, w') /\
    c_calls w' = [init_called 3 1 0] /\ c_live w' = c_live cap_world /\ registry_of w' = registry_of cap_world.
Proof.
  destruct (handles_initialised idle_user cap_world) as (w' & E & Hc & H); [repeat constructor; by eexists|apply cap_memory|].
  exists w'. split; [exact E|]. split; [exact Hc|exact H].
Defined.

(** ** The registration *)

Definition a_profile_key : sim_json :=
  an_object [("id", a_string "12345678-9abc-4df0-8001-020304050607"); ("majorVersion", a_number 1)]%string.
Definition the_answer (device : sim_json) : sim_json :=
  an_object [("deviceIntegrationProfileKey", a_profile_key); ("locationId", a_string "12345678-9abc-4df0-8001-020304050607"); ("deviceId", device)]%string.
Definition the_uuid : list Z := [18; 52; 86; 120; 154; 188; 77; 240; 128; 1; 2; 3; 4; 5; 6; 7].
Definition kept_profile : iot_context -> iot_context := set_reg_dip (Some (Dip the_uuid 1 0)).
Definition kept_place : iot_context -> iot_context := set_reg_locationId (Some the_uuid).
Definition new_id : sim_json := a_string "b3f1b3f1-9abc-4df0-8001-020304050607".
Definition short_id : sim_json := GenNode 0 [].

Lemma the_answer_is device :
  device = new_id \/ device = short_id ->
  answer (HM := true) (sim_print (the_answer device)) (the_answer device) (rename "deviceId" device) kept_profile kept_place.
Proof.
  intros H. split; [by apply read_back|by destruct H as [-> | ->]| | |by destruct H as [-> | ->]].
  - refine (a_profile (HM := true) (the_answer device) (rename "deviceIntegrationProfileKey" a_profile_key)
      (rename "id" (a_string "12345678-9abc-4df0-8001-020304050607")) the_uuid (rename "majorVersion" (a_number 1)) _ _ _ _); [by destruct H as [-> | ->]|reflexivity| |reflexivity]. unfold uuid_said. vm_compute. reflexivity.
  - refine (a_location (HM := true) (the_answer device) (rename "locationId" (a_string "12345678-9abc-4df0-8001-020304050607")) the_uuid _ _); [by destruct H as [-> | ->]|]. unfold uuid_said. vm_compute. reflexivity.
Qed.

Lemma device_registered_witness :
  exists w', mqtt_reg_sub_cb (HM := true) (sim_print (the_answer new_id)) cap_world = Ret (tt, w') /\
    m_ctx (c_main w') = device_of (rename "deviceId" new_id) (kept_place (kept_profile online)) /\
    m_work (c_main w') = [command_work (Some IOT_COMMAND_CLOUD_REGISTERED)] /\
    c_live w' = c_live cap_world.
Proof.
  apply (device_registered (HM := true) _ _ _ _ _ cap_world (the_answer_is new_id ltac:(by left))); [|done|apply cap_memory].
  apply Nat.leb_le. by vm_compute.
Defined.

Lemma short_device_id_overread_witness :
  mqtt_reg_sub_cb (HM := true) (sim_print (the_answer short_id)) cap_world = Undef.
Proof.
  apply (short_device_id_overread (HM := true) _ _ _ _ _ cap_world (the_answer_is short_id ltac:(by right))); [|done|apply cap_memory].
  apply Nat.ltb_lt. vm_compute. reflexivity.
Defined.

(** ** No memory for names *)

Definition nameless : Device := sim_board true false true.
Definition nameless_world : @cworld nameless (@sim_cjson nameless) :=
  @CWorld nameless (@sim_cjson nameless) (@MWorld nameless (Sim 0 0 None) online [] false false []) (list_to_set [1; 2; 3]%nat) 10
    (<[1%nat := switch]> (<[2%nat := meter]> ∅)) [1; 2]%nat 0 None [] [].

Lemma unnamed_command_faults_witness :
  exists w', @st_cap_cmd_set_cb nameless (@sim_cjson nameless) (Some 1%nat) (Some "toggle"%string) (Some 4%nat) 0 nameless_world = Ret (IOT_ERROR_NONE, w') /\
    forall bc bp bm cmd data,
      @_iot_process_cmd nameless (@sim_cjson nameless) (fun _ => mret tt) (Some (bc, "main"%string)) (Some (bp, "switch"%string)) (Some (bm, cmd)) data w' = Undef.
Proof.
  apply (@unnamed_command_faults nameless (@sim_cjson nameless) (fun _ => mret tt) (fun _ => eq_refl) (fun _ => eq_refl) 1 switch "toggle" 4 0 nameless_world).
  - reflexivity.
  - reflexivity.
  - exact (cap_memory online).
  - repeat constructor; by eexists.
  - reflexivity.
Defined.
