(* ===== verification/LogFile.v ===== *)
(** * The log file: operations

    [src/src/iot_log_file.c]: messages are kept in a buffer in RAM, and, when
    the SDK is built for it, moved to a file in flash memory; the log is then
    read through a handle.  The state is the context [log_ctx], the handles on
    the heap and what lies below: memory, event groups and the flash. *)

From S2P Require Import Prelude MainState.

Definition IOT_LOG_FILE_MAX_STRING_SIZE : Z := 128.
Definition IOT_LOG_FILE_MARGIN_CNT : Z := 1.

Inductive iot_log_file_type_t := RAM_ONLY | FLASH_WITH_RAM.
#[export] Instance iot_log_file_type_t_eq_dec : EqDecision iot_log_file_type_t.
Proof. solve_decision. Defined.

Inductive iot_log_file_header_state_t := NORMAL | NO_MAGIC | LOAD_FAIL.
#[export] Instance iot_log_file_header_state_t_eq_dec : EqDecision iot_log_file_header_state_t.
Proof. solve_decision. Defined.

(** [iot_log_file_handle_t]. *)
Record iot_log_file_handle_t := LogHandle {
  start_addr : Z; tail_addr : Z; cur_addr : Z; log_size : Z; max_log_size : Z; file_type : iot_log_file_type_t
}.

(** [struct iot_log_file_header_tag]. *)
Record iot_log_file_header_tag := LogHeader {
  magic_code : list Z; file_size : Z; written_size : Z; sector_num : Z; sector_offset : Z; checksum : Z
}.

(** [struct iot_log_file_ctx]; [events] is [None] for null, otherwise whether
    the bit of a request is set. *)
Record iot_log_file_ctx := LogCtx {
  enable : bool; cnt : Z; buf : list Z; overridden : bool;
  events : option bool; file_header : iot_log_file_header_tag; file_buf : list Z; file_opened : bool
}.

(** The configuration: the type of log, the sizes, and the size of [size_t]. *)
Class LogConfig := {
  log_file_type : iot_log_file_type_t;
  IOT_LOG_FILE_RAM_BUF_SIZE : Z;
  IOT_LOG_FILE_FLASH_ADDR : Z;
  IOT_LOG_FILE_FLASH_SIZE : Z;
  IOT_LOG_FILE_FLASH_SECTOR_SIZE : Z;
  size_max : Z
}.

(** Below: what an allocation gives, the tasks, and the flash memory of the
    board, whose functions return an error code.  [read_flash] gives the bytes
    in the destination, too.  The bytes of an [unsigned int] in memory. *)
Class LogBelow := {
  ldev : Type;
  log_malloc : ldev -> bool * ldev;
  eventgroup_create : ldev -> bool * ldev;
  thread_create : ldev -> bool * ldev;
  read_flash : Z -> Z -> ldev -> (Z * list Z) * ldev;
  write_flash : Z -> list Z -> ldev -> Z * ldev;
  erase_sector : Z -> ldev -> Z * ldev;
  uint_bytes : Z -> list Z;
  uint_value : list Z -> Z
}.

Definition IOT_LOG_FILE_FLASH_FIRST_SECTOR `{LogConfig} : Z := IOT_LOG_FILE_FLASH_ADDR / IOT_LOG_FILE_FLASH_SECTOR_SIZE.
Definition IOT_LOG_FILE_FLASH_MAX_ADDR `{LogConfig} : Z := IOT_LOG_FILE_FLASH_ADDR + IOT_LOG_FILE_FLASH_SIZE.
Definition IOT_LOG_FILE_FLASH_HEADER_SIZE : Z := 24.
Definition IOT_LOG_FILE_FLASH_BUF_SIZE `{LogConfig} : Z := 2 * IOT_LOG_FILE_FLASH_SECTOR_SIZE.
Definition to_size `{LogConfig} (z : Z) : Z := z mod (size_max + 1).

(** The header as bytes. *)
Definition header_bytes `{LogBelow} (h : iot_log_file_header_tag) : list Z :=
  magic_code h ++ uint_bytes (file_size h) ++ uint_bytes (written_size h) ++
  uint_bytes (sector_num h) ++ uint_bytes (sector_offset h) ++ uint_bytes (checksum h).
Definition word `{LogBelow} (i : nat) (b : list Z) : Z := uint_value (take 4 (drop (4 * i) b)).
Definition header_of_bytes `{LogBelow} (b : list Z) : iot_log_file_header_tag :=
  LogHeader (take 4 b) (word 1 b) (word 2 b) (word 3 b) (word 4 b) (word 5 b).

(** The state. *)
Record lworld `{LogBelow} := LWorld {
  log_ctx : option iot_log_file_ctx; l_handles : gmap nat iot_log_file_handle_t; l_next : nat; l_dev : ldev
}.

Section log.
Context `{LC : LogConfig} `{LB : LogBelow}.
Abbreviation L := (st lworld).

Definition set_ctx (c : option iot_log_file_ctx) (w : lworld) : lworld := LWorld _ c (l_handles w) (l_next w) (l_dev w).
Definition set_lhandles (h : gmap nat iot_log_file_handle_t) (n : nat) (w : lworld) : lworld := LWorld _ (log_ctx w) h n (l_dev w).
Definition dev {A} (f : ldev -> A * ldev) : L A := fun w =>
  let '(a, d) := f (l_dev w) in Ret (a, LWorld _ (log_ctx w) (l_handles w) (l_next w) d).

(** [log_ctx->...]: the context must be there. *)
Definition the_ctx : L iot_log_file_ctx := c ← gets log_ctx; need c.
Definition put_ctx (c : iot_log_file_ctx) : L unit := modify (set_ctx (Some c)).

Definition set_log_buf (en : bool) (n : Z) (b : list Z) (o : bool) (c : iot_log_file_ctx) : iot_log_file_ctx :=
  LogCtx en n b o (events c) (file_header c) (file_buf c) (file_opened c).
Definition set_enable (en : bool) (c : iot_log_file_ctx) := set_log_buf en (cnt c) (buf c) (overridden c) c.
Definition set_events (e : option bool) (c : iot_log_file_ctx) : iot_log_file_ctx :=
  LogCtx (enable c) (cnt c) (buf c) (overridden c) e (file_header c) (file_buf c) (file_opened c).
Definition set_file (h : iot_log_file_header_tag) (b : list Z) (c : iot_log_file_ctx) : iot_log_file_ctx :=
  LogCtx (enable c) (cnt c) (buf c) (overridden c) (events c) h b (file_opened c).
Definition set_opened (o : bool) (c : iot_log_file_ctx) : iot_log_file_ctx :=
  LogCtx (enable c) (cnt c) (buf c) (overridden c) (events c) (file_header c) (file_buf c) o.

(** ** Storing *)

Definition _iot_log_file_buf_free_size : L Z :=
  c ← gets log_ctx;
  match c with Some c => mret (to_uint (IOT_LOG_FILE_RAM_BUF_SIZE - cnt c)) | None => mret 0 end.

Definition _iot_log_file_store_char (character : Z) : L unit :=
  c ← gets log_ctx;
  match c with
  | None => mret tt
  | Some c =>
      let full := IOT_LOG_FILE_RAM_BUF_SIZE <=? cnt c in
      let n := if full then 0 else cnt c in
      b ← copy_at (buf c) n [character];
      put_ctx (set_log_buf (enable c) (n + 1) b (full || overridden c) c)
  end.

Definition _iot_log_file_enable (en : bool) : L unit :=
  c ← gets log_ctx; match c with Some c => put_ctx (set_enable en c) | None => mret tt end.
Definition _iot_log_file_open_state (open_state : bool) : L unit :=
  c ← gets log_ctx; match c with Some c => put_ctx (set_opened open_state c) | None => mret tt end.
Definition _iot_log_file_is_opening : L bool :=
  c ← gets log_ctx; match c with Some c => mret (file_opened c) | None => mret false end.

Fixpoint store_loop (log_data : list Z) : L unit :=
  match log_data with [] => mret tt | c :: log_data => _iot_log_file_store_char c;; store_loop log_data end.

(** The request to the task, with the buffer disabled until it is done. *)
Definition request_sync (c : iot_log_file_ctx) : L unit :=
  _iot_log_file_enable false;; c ← the_ctx; put_ctx (set_events (Some true) c).

(** [log_data] is the [log_size] bytes. *)
Definition iot_log_file_store (log_data : list Z) : L Z :=
  c ← gets log_ctx;
  match c with
  | None => mret (-1)
  | Some c =>
      if negb (enable c) then mret (-1)
      else if IOT_LOG_FILE_MAX_STRING_SIZE <=? zlen log_data then mret (-1)
      else
        store_loop log_data;;
        match log_file_type with
        | RAM_ONLY => mret tt
        | FLASH_WITH_RAM =>
            free ← _iot_log_file_buf_free_size;
            if free <? IOT_LOG_FILE_MAX_STRING_SIZE * IOT_LOG_FILE_MARGIN_CNT then
              c ← the_ctx; if bool_decide (events c = None) then mret tt else request_sync c
            else mret tt
        end;;
        mret (zlen log_data)
  end.

Definition iot_log_file_sync : L unit :=
  c ← the_ctx; if bool_decide (events c = None) then mret tt else request_sync c.

Definition _iot_log_file_clear_buf : L unit :=
  c ← gets log_ctx;
  match c with
  | None => mret tt
  | Some c =>
      put_ctx (set_log_buf (enable c) 0 (buf c) false c);;
      opening ← _iot_log_file_is_opening;
      if (opening : bool) then mret tt else _iot_log_file_enable true
  end.
(** ** The file in flash memory *)

Definition _iot_log_file_init_header (h : iot_log_file_header_tag) : iot_log_file_header_tag :=
  LogHeader [76; 79; 71; 0] IOT_LOG_FILE_FLASH_SIZE 0
    ((IOT_LOG_FILE_FLASH_ADDR + IOT_LOG_FILE_FLASH_HEADER_SIZE) / IOT_LOG_FILE_FLASH_SECTOR_SIZE)
    IOT_LOG_FILE_FLASH_HEADER_SIZE (checksum h).

Definition _iot_log_file_sector_to_addr (sector_num offset : Z) : Z :=
  to_uint (sector_num * IOT_LOG_FILE_FLASH_SECTOR_SIZE + offset).
Definition _iot_log_file_addr_to_sector (addr : Z) : Z * Z :=
  (addr / IOT_LOG_FILE_FLASH_SECTOR_SIZE, addr mod IOT_LOG_FILE_FLASH_SECTOR_SIZE).

Definition set_file_size (z : Z) (h : iot_log_file_header_tag) : iot_log_file_header_tag :=
  LogHeader (magic_code h) z (written_size h) (sector_num h) (sector_offset h) (checksum h).
Definition has_magic (h : iot_log_file_header_tag) : bool := bool_decide (take 3 (magic_code h) = [76; 79; 71]).

(** The state of the header, and the header. *)
Definition _iot_log_file_load_header : L (iot_log_file_header_state_t * iot_log_file_header_tag) :=
  '(iot_err, b) ← dev (read_flash IOT_LOG_FILE_FLASH_ADDR IOT_LOG_FILE_FLASH_HEADER_SIZE);
  let h := header_of_bytes b in
  if negb (iot_err =? IOT_ERROR_NONE) then mret (LOAD_FAIL, h)
  else if has_magic h then
    mret (NORMAL, if negb (file_size h =? IOT_LOG_FILE_FLASH_SIZE) then set_file_size IOT_LOG_FILE_FLASH_SIZE h else h)
  else mret (NO_MAGIC, _iot_log_file_init_header h).

Definition _iot_log_file_get_next_sector (current_num : Z) : Z :=
  let next_num := to_uint (current_num + 1) in
  if (IOT_LOG_FILE_FLASH_ADDR + IOT_LOG_FILE_FLASH_SIZE) / IOT_LOG_FILE_FLASH_SECTOR_SIZE <=? next_num
  then IOT_LOG_FILE_FLASH_FIRST_SECTOR else next_num.

(** A sector with [data] at [offset]: read, erased, written. *)
Definition _iot_log_file_write_sector (sector_num offset : Z) (data : list Z) : L Z :=
  have ← dev log_malloc;
  if negb (have : bool) then mret IOT_ERROR_MEM_ALLOC
  else
    let sector_addr := _iot_log_file_sector_to_addr sector_num 0 in
    '(iot_err, iot_sector_buf) ← dev (read_flash sector_addr IOT_LOG_FILE_FLASH_SECTOR_SIZE);
    if negb (iot_err =? IOT_ERROR_NONE) then mret iot_err
    else
      iot_err ← dev (erase_sector sector_num);
      if negb (iot_err =? IOT_ERROR_NONE) then mret iot_err
      else
        iot_sector_buf ← copy_at iot_sector_buf offset data;
        dev (write_flash sector_addr iot_sector_buf).

(** The functions that follow work in the buffer [buf], and return it. *)
Definition _iot_log_file_write_header (buf : list Z) (log_file_header : iot_log_file_header_tag) : L (Z * list Z) :=
  '(iot_err, b) ← dev (read_flash IOT_LOG_FILE_FLASH_ADDR IOT_LOG_FILE_FLASH_SECTOR_SIZE);
  buf ← copy_at buf 0 b;
  if negb (iot_err =? IOT_ERROR_NONE) then mret (iot_err, buf)
  else
    buf ← copy_at buf 0 (header_bytes log_file_header);
    iot_err ← dev (erase_sector IOT_LOG_FILE_FLASH_FIRST_SECTOR);
    if negb (iot_err =? IOT_ERROR_NONE) then mret (iot_err, buf)
    else
      b ← bytes_at buf 0 IOT_LOG_FILE_FLASH_SECTOR_SIZE;
      iot_err ← dev (write_flash IOT_LOG_FILE_FLASH_ADDR b);
      mret (iot_err, buf).

Definition _iot_log_file_write_data (sector_start_num : Z) (file_buf : list Z) (file_write_size : Z) : L Z :=
  first ← bytes_at file_buf 0 IOT_LOG_FILE_FLASH_SECTOR_SIZE;
  iot_err ← _iot_log_file_write_sector sector_start_num 0 first;
  if (file_write_size <=? IOT_LOG_FILE_FLASH_SECTOR_SIZE) || negb (iot_err =? IOT_ERROR_NONE) then mret iot_err
  else
    let remain_write_size := file_write_size - IOT_LOG_FILE_FLASH_SECTOR_SIZE in
    let sector_next := _iot_log_file_get_next_sector sector_start_num in
    second ← bytes_at file_buf IOT_LOG_FILE_FLASH_SECTOR_SIZE remain_write_size;
    if negb (_iot_log_file_sector_to_addr sector_next 0 =? IOT_LOG_FILE_FLASH_ADDR) then
      _iot_log_file_write_sector sector_next 0 second
    else _iot_log_file_write_sector sector_next IOT_LOG_FILE_FLASH_HEADER_SIZE second.

(** The error, the buffer, and [*file_write_size]. *)
Definition _iot_log_file_load_old_data (buf : list Z) (file_write_size : Z) (h : iot_log_file_header_tag)
  (log_header_state : iot_log_file_header_state_t) : L (Z * list Z * Z) :=
  match log_header_state with
  | NORMAL =>
      '(iot_err, b) ← dev (read_flash (to_uint (sector_num h * IOT_LOG_FILE_FLASH_SECTOR_SIZE)) IOT_LOG_FILE_FLASH_SECTOR_SIZE);
      buf ← copy_at buf 0 b;
      mret (iot_err, buf, if negb (iot_err =? IOT_ERROR_NONE) then file_write_size else to_uint (file_write_size + sector_offset h))
  | NO_MAGIC =>
      buf ← copy_at buf 0 (header_bytes h);
      mret (IOT_ERROR_NONE, buf, to_uint (file_write_size + IOT_LOG_FILE_FLASH_HEADER_SIZE))
  | LOAD_FAIL => mret (IOT_ERROR_NONE, buf, file_write_size)
  end.

Definition _iot_log_file_copy_buf (iot_file_buf iot_log_buf : list Z) (offset file_write_size size : Z) : L (list Z * Z) :=
  b ← bytes_at iot_log_buf 0 size;
  buf ← copy_at iot_file_buf offset b;
  mret (buf, to_uint (file_write_size + size)).

Definition next_position (h : iot_log_file_header_tag) (log_buf_size : Z) : Z * Z :=
  let addr := to_uint (_iot_log_file_sector_to_addr (sector_num h) (sector_offset h) + log_buf_size) in
  if IOT_LOG_FILE_FLASH_MAX_ADDR <=? addr then
    (IOT_LOG_FILE_FLASH_FIRST_SECTOR, (_iot_log_file_addr_to_sector (to_uint (addr + IOT_LOG_FILE_FLASH_HEADER_SIZE))).2)
  else _iot_log_file_addr_to_sector addr.
Definition next_written (h : iot_log_file_header_tag) (log_buf_size : Z) : Z :=
  let log_max_size := IOT_LOG_FILE_FLASH_SIZE - IOT_LOG_FILE_FLASH_HEADER_SIZE in
  let n := to_uint (written_size h + log_buf_size) in
  if n <=? log_max_size then n else log_max_size.

Definition _iot_log_file_update_header (buf : list Z) (h : iot_log_file_header_tag) (log_buf_size : Z)
  : L (Z * list Z * iot_log_file_header_tag) :=
  let '(num, offset) := next_position h log_buf_size in
  let h := LogHeader (magic_code h) (file_size h) (next_written h log_buf_size) num offset (checksum h) in
  '(iot_err, buf) ← _iot_log_file_write_header buf h;
  mret (iot_err, buf, h).

(** The number of [LOAD_FAIL], which is returned as an error. *)
Definition LOAD_FAIL_CODE : Z := 2.

Definition _iot_log_file_manager : L Z :=
  ctx ← the_ctx;
  let log_buf_size := cnt ctx in
  '(log_header_state, h) ← _iot_log_file_load_header;
  put_ctx (set_file h (file_buf ctx) ctx);;
  if bool_decide (log_header_state = LOAD_FAIL) then mret LOAD_FAIL_CODE
  else
    '(iot_err, fbuf, file_write_size) ← _iot_log_file_load_old_data (file_buf ctx) 0 h log_header_state;
    put_ctx (set_file h fbuf ctx);;
    if negb (iot_err =? IOT_ERROR_NONE) then mret iot_err
    else
      '(fbuf, file_write_size) ← _iot_log_file_copy_buf fbuf (buf ctx) (sector_offset h) file_write_size log_buf_size;
      put_ctx (set_file h fbuf ctx);;
      iot_err ← _iot_log_file_write_data (sector_num h) fbuf file_write_size;
      if negb (iot_err =? IOT_ERROR_NONE) then mret iot_err
      else
        '(iot_err, fbuf, h) ← _iot_log_file_update_header fbuf h log_buf_size;
        put_ctx (set_file h fbuf ctx);;
        if negb (iot_err =? IOT_ERROR_NONE) then mret iot_err
        else _iot_log_file_clear_buf;; mret IOT_ERROR_NONE.

(** One turn of the loop of [_iot_log_file_task]: without a request it waits;
    [false] when the task ends. *)
Definition _iot_log_file_task_turn : L bool :=
  c ← the_ctx;
  match events c with
  | Some true =>
      put_ctx (set_events (Some false) c);;
      opening ← _iot_log_file_is_opening;
      if (opening : bool) then mret true
      else iot_err ← _iot_log_file_manager; mret (iot_err =? IOT_ERROR_NONE)
  | Some false => hang
  | None => undef
  end.

(** ** Reading *)

Definition _iot_log_file_check_valid_range (h : iot_log_file_handle_t) (read_size : Z) : bool :=
  negb (to_size (start_addr h + log_size h) <? to_size (cur_addr h + read_size)).

Definition handle (p : nat) : L iot_log_file_handle_t := hs ← gets l_handles; need (hs !! p).
Definition put_handle (p : nat) (h : iot_log_file_handle_t) : L unit :=
  modify (fun w => set_lhandles (<[p := h]> (l_handles w)) (l_next w) w).
Definition free_handle (p : nat) : L unit :=
  _ ← handle p; modify (fun w => set_lhandles (delete p (l_handles w)) (l_next w) w).
Definition set_cur (a : Z) (h : iot_log_file_handle_t) : iot_log_file_handle_t :=
  LogHandle (start_addr h) (tail_addr h) a (log_size h) (max_log_size h) (file_type h).

(** The handle that the switch fills, for the buffer in RAM and for the file;
    it is [None] for the type that is not compiled in. *)
Definition open_ram : L (option iot_log_file_handle_t) :=
  _iot_log_file_enable false;;
  c ← the_ctx;
  let size := if overridden c then IOT_LOG_FILE_RAM_BUF_SIZE else cnt c in
  let cur := if overridden c then cnt c else 0 in
  mret (Some (LogHandle 0 (cnt c) cur size IOT_LOG_FILE_RAM_BUF_SIZE RAM_ONLY)).

Definition open_flash : L (option iot_log_file_handle_t) :=
  _iot_log_file_open_state true;;
  '(log_header_state, h) ← _iot_log_file_load_header;
  match log_header_state with
  | NORMAL =>
      let start := to_uint (IOT_LOG_FILE_FLASH_ADDR + IOT_LOG_FILE_FLASH_HEADER_SIZE) in
      let max := to_size (IOT_LOG_FILE_FLASH_SIZE - IOT_LOG_FILE_FLASH_HEADER_SIZE) in
      let tail := _iot_log_file_sector_to_addr (sector_num h) (sector_offset h) in
      let cur := if written_size h <? max then start else tail in
      mret (Some (LogHandle start tail cur (written_size h) max FLASH_WITH_RAM))
  | _ => _iot_log_file_open_state false;; mret None
  end.

(** The handle and [*filesize]. *)
Definition iot_log_file_open (typ : iot_log_file_type_t) : L (option (nat * Z)) :=
  c ← gets log_ctx;
  match c with
  | None => mret None
  | Some _ =>
      have ← dev log_malloc;
      if negb (have : bool) then mret None
      else
        h ← (if bool_decide (typ = log_file_type) then match typ with RAM_ONLY => open_ram | FLASH_WITH_RAM => open_flash end
             else mret None);
        match h with
        | None => mret None
        | Some h =>
            p ← gets l_next;
            modify (fun w => set_lhandles (<[p := h]> (l_handles w)) (S p) w);;
            mret (Some (p, log_size h))
        end
  end.

(** The error and the bytes that it has copied. *)
Definition _iot_log_read_bytes (h : iot_log_file_handle_t) (size : Z) : L (Z * list Z) :=
  if bool_decide (file_type h = log_file_type) then
    match file_type h with
    | RAM_ONLY => c ← the_ctx; b ← bytes_at (buf c) (cur_addr h) size; mret (IOT_ERROR_NONE, b)
    | FLASH_WITH_RAM => dev (read_flash (cur_addr h) size)
    end
  else mret (IOT_ERROR_BAD_REQ, []).

(** [%] on [size_t], whose result is assigned to an [int]. *)
Definition iot_log_file_seek (p : nat) (seek_offset origin_addr : Z) : L Z :=
  h ← handle p;
  if log_size h =? 0 then mret IOT_ERROR_INVALID_ARGS
  else
    let new_offset := to_int (to_uint (origin_addr - start_addr h + seek_offset) mod log_size h) in
    let new_offset := if new_offset <? 0 then to_int (to_size (new_offset + log_size h)) else new_offset in
    put_handle p (set_cur (to_uint (start_addr h + new_offset)) h);;
    mret IOT_ERROR_NONE.

(** The part that wraps: what follows the end is at the start. *)
Definition read_wrapped (p : nat) (h : iot_log_file_handle_t) (buf_size : Z) : L (Z * list Z * Z) :=
  let offset_size := to_size (to_uint (cur_addr h - start_addr h)) in
  let size_to_read := to_size (log_size h - offset_size) in
  '(iot_err, b1) ← _iot_log_read_bytes h (to_uint size_to_read);
  if negb (iot_err =? IOT_ERROR_NONE) then mret (iot_err, b1, 0)
  else
    let remain_size := to_size (buf_size - size_to_read) in
    let remain_size := if offset_size <? remain_size then offset_size else remain_size in
    let h' := set_cur (start_addr h) h in
    '(iot_err, b2) ← _iot_log_read_bytes h' (to_uint remain_size);
    if negb (iot_err =? IOT_ERROR_NONE) then mret (iot_err, b1 ++ b2, 0)
    else
      put_handle p (set_cur (to_uint (start_addr h + remain_size)) h);;
      mret (IOT_ERROR_NONE, b1 ++ b2, to_size (size_to_read + remain_size)).

(** The error, the bytes put into the buffer from its start, and [*read_size];
    [file_handle] and [buffer] may be null. *)
Definition iot_log_file_read (file_handle : option nat) (buffer : bool) (buf_size : Z) : L (Z * list Z * option Z) :=
  match file_handle with
  | Some p =>
      if negb buffer then mret (IOT_ERROR_INVALID_ARGS, [], None)
      else
        h ← handle p;
        if _iot_log_file_check_valid_range h buf_size then
          '(iot_err, b) ← _iot_log_read_bytes h (to_uint buf_size);
          if negb (iot_err =? IOT_ERROR_NONE) then mret (iot_err, b, Some 0)
          else put_handle p (set_cur (to_uint (cur_addr h + buf_size)) h);; mret (IOT_ERROR_NONE, b, Some buf_size)
        else '(iot_err, b, n) ← read_wrapped p h buf_size; mret (iot_err, b, Some n)
  | None => mret (IOT_ERROR_INVALID_ARGS, [], None)
  end.

Definition iot_log_file_close (file_handle : option nat) : L Z :=
  match file_handle with
  | None => mret IOT_ERROR_INVALID_ARGS
  | Some p =>
      h ← handle p;
      match file_type h with FLASH_WITH_RAM => _iot_log_file_open_state false | RAM_ONLY => _iot_log_file_enable true end;;
      free_handle p;;
      mret IOT_ERROR_NONE
  end.

(** ** Removing, starting and ending *)

Fixpoint erase_loop (k : nat) (erase_addr : Z) : L Z :=
  match k with
  | O => mret IOT_ERROR_NONE
  | S k =>
      iot_err ← dev (erase_sector (erase_addr / IOT_LOG_FILE_FLASH_SECTOR_SIZE));
      if negb (iot_err =? IOT_ERROR_NONE) then mret iot_err
      else erase_loop k (to_uint (erase_addr + IOT_LOG_FILE_FLASH_SECTOR_SIZE))
  end.

Definition iot_log_file_remove (typ : iot_log_file_type_t) : L Z :=
  if bool_decide (typ = log_file_type) then
    match typ with
    | RAM_ONLY => _iot_log_file_clear_buf;; mret IOT_ERROR_NONE
    | FLASH_WITH_RAM =>
        opening ← _iot_log_file_is_opening;
        if (opening : bool) then mret IOT_ERROR_BAD_REQ
        else erase_loop (Z.to_nat (IOT_LOG_FILE_FLASH_SIZE / IOT_LOG_FILE_FLASH_SECTOR_SIZE)) IOT_LOG_FILE_FLASH_ADDR
    end
  else mret IOT_ERROR_BAD_REQ.

Definition iot_log_file_exit : L unit := modify (set_ctx None).

(** A context of zeros. *)
Definition zero_header : iot_log_file_header_tag := LogHeader [0; 0; 0; 0] 0 0 0 0 0.
Definition zero_ctx : iot_log_file_ctx :=
  LogCtx false 0 (replicate (Z.to_nat IOT_LOG_FILE_RAM_BUF_SIZE) 0) false None zero_header
    (replicate (Z.to_nat IOT_LOG_FILE_FLASH_BUF_SIZE) 0) false.
Definition init_buf (c : iot_log_file_ctx) : iot_log_file_ctx := set_log_buf true (cnt c) (buf c) false c.

(** The task that is created enables the buffer, too, and waits. *)
Definition iot_log_file_init (typ : iot_log_file_type_t) : L Z :=
  have ← dev log_malloc;
  if negb (have : bool) then iot_log_file_exit;; mret IOT_ERROR_MEM_ALLOC
  else
    put_ctx zero_ctx;;
    if bool_decide (typ = log_file_type) then
      match typ with
      | RAM_ONLY => put_ctx (init_buf zero_ctx);; mret IOT_ERROR_NONE
      | FLASH_WITH_RAM =>
          created ← dev eventgroup_create;
          if negb (created : bool) then iot_log_file_exit;; mret IOT_ERROR_MEM_ALLOC
          else
            started ← dev thread_create;
            if negb (started : bool) then iot_log_file_exit;; mret IOT_ERROR_MEM_ALLOC
            else put_ctx (set_opened false (init_buf (set_events (Some false) zero_ctx)));; mret IOT_ERROR_NONE
      end
    else iot_log_file_exit;; mret IOT_ERROR_INVALID_ARGS.
End log.
