(* ===== verification/LogRing.v ===== *)
(** * The log file: the buffer in RAM, and reading

    What the buffer keeps: the last bytes that have been stored, as many as fit
    into it; and reading through a handle, which goes round the log. *)

From S2P Require Import Prelude MainState LogFile.

(** The last [n] elements. *)
Definition lastn {A} (n : nat) (l : list A) : list A := drop (length l - n) l.

Lemma lastn_short {A} n (l : list A) : (length l <= n)%nat -> lastn n l = l.
Proof. intros H. unfold lastn. by replace (length l - n)%nat with 0%nat by lia. Qed.
Lemma length_lastn {A} n (l : list A) : length (lastn n l) = Nat.min n (length l).
Proof. unfold lastn. rewrite length_drop. lia. Qed.
Lemma lastn_app {A} n (l k : list A) : lastn n (lastn n l ++ k) = lastn n (l ++ k).
Proof.
  unfold lastn. rewrite !length_app, length_drop, !drop_app, drop_drop, length_drop.
  f_equal; f_equal; lia.
Qed.
Lemma lastn_ge {A} n (l k : list A) : (n <= length k)%nat -> lastn n (l ++ k) = lastn n k.
Proof. intros H. unfold lastn. rewrite length_app, drop_app_ge by lia. f_equal. lia. Qed.
Lemma lastn_nil {A} n : lastn n (@nil A) = [].
Proof. unfold lastn. by rewrite drop_nil. Qed.

Section ring.
Context `{LC : LogConfig} `{LB : LogBelow}.
Abbreviation L := (st lworld).
Abbreviation N := IOT_LOG_FILE_RAM_BUF_SIZE.

(** ** The buffer *)

(** A buffer as the operations leave it. *)
Definition wf_buf (c : iot_log_file_ctx) : Prop :=
  0 < N < 2147483648 /\ zlen (buf c) = N /\ 0 <= cnt c <= N /\ (overridden c = true -> 0 < cnt c).

(** What it keeps, the oldest byte first. *)
Definition kept (c : iot_log_file_ctx) : list Z :=
  (if overridden c then drop (Z.to_nat (cnt c)) (buf c) else []) ++ take (Z.to_nat (cnt c)) (buf c).

(** The context after one character. *)
Definition stored (x : Z) (c : iot_log_file_ctx) : iot_log_file_ctx :=
  let full := N <=? cnt c in
  let n := if full then 0 else cnt c in
  set_log_buf (enable c) (n + 1) (take (Z.to_nat n) (buf c) ++ [x] ++ drop (Z.to_nat n + 1) (buf c)) (full || overridden c) c.

Lemma store_char_runs x c w : log_ctx w = Some c -> wf_buf c ->
  _iot_log_file_store_char x w = Ret (tt, set_ctx (Some (stored x c)) w).
Proof.
  intros Hc (HN & Hb & Hn & _). unfold _iot_log_file_store_char. rewrite bind_gets, Hc. cbv zeta.
  set (n := if N <=? cnt c then 0 else cnt c).
  assert (0 <= n < N) as Hn' by (unfold n; case_if; bool_to_prop; lia).
  by rewrite (bind_ret _ _ _ _ _ (copy_at_in (buf c) n [x] w ltac:(lia) ltac:(rewrite zlen_cons, zlen_nil; lia))).
Qed.

Lemma stored_wf x c : wf_buf c -> wf_buf (stored x c).
Proof.
  intros (HN & Hb & Hn & Ho). unfold wf_buf, stored. cbn. rewrite zlen_app, zlen_cons. unfold zlen in *.
  rewrite length_take, length_drop. split_and!; try done; try case_if; bool_to_prop; lia.
Qed.

(** One character: it is put behind what is kept, and the oldest one goes when
    there is no room. *)
Lemma stored_kept x c : wf_buf c -> kept (stored x c) = lastn (Z.to_nat N) (kept c ++ [x]).
Proof.
  intros (HN & Hb & Hn & Ho). unfold kept, stored. cbn. unfold zlen in Hb.
  destruct (Z.leb_spec N (cnt c)) as [Hf|Hf].
  - assert (cnt c = N) as -> by lia. cbn [orb Z.to_nat take app].
    assert ((if overridden c then drop (Z.to_nat N) (buf c) else []) = []) as -> by (case_if; [apply drop_ge; lia|done]).
    rewrite (take_ge (buf c) (Z.to_nat N)) by lia. unfold lastn. rewrite length_app. cbn [app length].
    replace (length (buf c) + 1 - Z.to_nat N)%nat with 1%nat by lia.
    change (Z.to_nat (0 + 1)) with 1%nat. change (Z.to_nat 0) with 0%nat. rewrite take_0. cbn [app Nat.add].
    rewrite (drop_app_le (buf c)) by lia. cbn [drop take]. by rewrite ?drop_0.
  - cbn [orb]. replace (Z.to_nat (cnt c + 1)) with (Z.to_nat (cnt c) + 1)%nat by lia.
    set (k := Z.to_nat (cnt c)) in *.
    assert (length (take k (buf c)) = k) as Hk by (rewrite length_take; lia).
    rewrite take_app_ge, drop_app_ge, Hk by lia. replace (k + 1 - k)%nat with 1%nat by lia. cbn [app take drop].
    rewrite drop_drop. replace (k + 1 + 0)%nat with (k + 1)%nat by lia.
    destruct (overridden c).
    + unfold lastn. rewrite !length_app, length_drop, Hk. cbn [length].
      replace (length (buf c) - k + k + 1 - Z.to_nat N)%nat with 1%nat by lia.
      rewrite <- app_assoc, drop_app_le, drop_drop by (rewrite length_drop; lia). done.
    + rewrite lastn_short; [done|]. rewrite !length_app, Hk. cbn [length app]. lia.
Qed.

Lemma kept_length c : wf_buf c -> length (kept c) = Z.to_nat (if overridden c then N else cnt c).
Proof.
  intros (HN & Hb & Hn & _). unfold kept, zlen in *. rewrite length_app, length_take.
  destruct (overridden c); [rewrite length_drop|]; cbn [length]; lia.
Qed.
Lemma kept_le c : wf_buf c -> (length (kept c) <= Z.to_nat N)%nat.
Proof. intros Hw. rewrite kept_length by done. destruct Hw as (? & ? & ? & _). case_if; lia. Qed.

(** A message: all of its bytes, one after the other. *)
Lemma store_loop_runs l : forall c w, log_ctx w = Some c -> wf_buf c ->
  exists c', store_loop l w = Ret (tt, set_ctx (Some c') w) /\ wf_buf c' /\
    kept c' = lastn (Z.to_nat N) (kept c ++ l) /\ set_log_buf (enable c) (cnt c') (buf c') (overridden c') c = c'.
Proof.
  induction l as [|x l IH]; intros c w Hc Hw.
  - exists c. rewrite app_nil_r, lastn_short by (by apply kept_le). split_and!; try done; [|by destruct c].
    destruct w; cbn in *. by subst.
  - destruct (IH (stored x c) (set_ctx (Some (stored x c)) w)) as (c' & E & Hw' & Hk & Hs); [done|by apply stored_wf|].
    exists c'. split_and!; [|done| |done].
    + cbn [store_loop]. by rewrite (bind_ret _ _ _ _ _ (store_char_runs x c w Hc Hw)), E.
    + by rewrite Hk, stored_kept, lastn_app, <- app_assoc by done.
Qed.

(** What a message that is longer, or one for a buffer that is disabled, does. *)
Lemma store_refused data w c : log_ctx w = Some c -> enable c = false \/ 128 <= zlen data ->
  iot_log_file_store data w = Ret (-1, w).
Proof.
  intros Hc H. unfold iot_log_file_store. rewrite bind_gets, Hc.
  destruct (enable c) eqn:E; [|done]. destruct H as [H|H]; [done|]. cbn [negb].
  by rewrite (proj2 (Z.leb_le IOT_LOG_FILE_MAX_STRING_SIZE _)).
Qed.

Lemma store_accepted data w c : log_file_type = RAM_ONLY -> log_ctx w = Some c -> wf_buf c -> enable c = true -> zlen data < 128 ->
  exists c', iot_log_file_store data w = Ret (zlen data, set_ctx (Some c') w) /\ wf_buf c' /\
    kept c' = lastn (Z.to_nat N) (kept c ++ data) /\ enable c' = true.
Proof.
  intros Ht Hc Hw He Hl. destruct (store_loop_runs data c w Hc Hw) as (c' & E & Hw' & Hk & Hs).
  exists c'. split_and!; [|done|done|by rewrite <- Hs, <- He].
  unfold iot_log_file_store. rewrite bind_gets, Hc, He. cbn [negb].
  rewrite (proj2 (Z.leb_gt IOT_LOG_FILE_MAX_STRING_SIZE _)) by done. by rewrite (bind_ret _ _ _ _ _ E), Ht.
Qed.

(** ** Reading round the log

    [area] is what lies between the start and the end of the log of a handle,
    and [known] says of a state that the bytes can be read there. *)

Definition round (o : Z) (area : list Z) : list Z := drop (Z.to_nat o) area ++ take (Z.to_nat o) area.
Lemma round_length o area : zlen (round o area) = zlen area.
Proof. unfold round, zlen. rewrite length_app, length_drop, length_take. lia. Qed.

Lemma uint_small z : 0 <= z < 4294967296 -> to_uint z = z.
Proof. apply Z.mod_small. Qed.
Lemma size_small z : 4294967295 <= size_max -> 0 <= z < 4294967296 -> to_size z = z.
Proof. intros ??. apply Z.mod_small. lia. Qed.

(** From a later position the same bytes follow. *)
Lemma round_step o o' n m area : 0 <= o <= zlen area -> 0 <= o' <= zlen area -> 0 <= n -> 0 <= m -> n + m <= zlen area ->
  o' = o + n \/ o' = o + n - zlen area ->
  take (Z.to_nat m) (round o' area) = take (Z.to_nat m) (drop (Z.to_nat n) (round o area)).
Proof.
  intros Ho Ho' Hn Hm Hnm Hc. unfold round, zlen in *. destruct Hc as [->| ->].
  - rewrite drop_app_le by (rewrite length_drop; lia). rewrite drop_drop.
    replace (Z.to_nat o + Z.to_nat n)%nat with (Z.to_nat (o + n)) by lia.
    rewrite !take_app, length_drop. f_equal. rewrite !take_take. f_equal. lia.
  - rewrite drop_app_ge, length_drop by (rewrite length_drop; lia).
    replace (Z.to_nat n - (length area - Z.to_nat o))%nat with (Z.to_nat (o + n - Z.of_nat (length area))) by lia.
    set (k := Z.to_nat (o + n - Z.of_nat (length area))).
    rewrite take_app_le by (rewrite length_drop; lia). rewrite !take_drop_commute, take_take. do 2 f_equal. lia.
Qed.

Section reading.
Context (known : lworld -> Prop) (area : list Z) (start : Z).
Definition at_log (h : iot_log_file_handle_t) (o : Z) : Prop :=
  start_addr h = start /\ log_size h = zlen area /\ cur_addr h = start + o /\ file_type h = log_file_type.
Definition same_log (w w' : lworld) : Prop :=
  log_ctx w' = log_ctx w /\ l_handles w' = l_handles w /\ l_next w' = l_next w.
Context (Hstart : 0 <= start) (Harea : start + zlen area < 2147483648) (Hmax : 4294967295 <= size_max).
Context (known_put : forall w p h, known w -> known (set_lhandles (<[p := h]> (l_handles w)) (l_next w) w)).
Context (known_read : forall w h o n, known w -> at_log h o -> 0 <= o -> 0 <= n -> o + n <= zlen area ->
  exists w', _iot_log_read_bytes h n w = Ret ((IOT_ERROR_NONE, take (Z.to_nat n) (drop (Z.to_nat o) area)), w') /\
    known w' /\ same_log w w').
#[local] Set Default Proof Using "Type*".

(** Whatever the position and the size: the bytes of one round at most, from
    the position on, and the position after it. *)
Lemma read_goes_round w p h o n : known w -> l_handles w !! p = Some h -> at_log h o ->
  0 <= o <= zlen area -> 0 <= n < 2147483648 ->
  exists w' h' o', iot_log_file_read (Some p) true n w =
      Ret ((IOT_ERROR_NONE, take (Z.to_nat n) (round o area), Some (Z.min n (zlen area))), w') /\
    known w' /\ log_ctx w' = log_ctx w /\ l_handles w' = <[p := h']> (l_handles w) /\ at_log h' o' /\
    0 <= o' <= zlen area /\ (n <= zlen area -> o' = (o + n) \/ o' = o + n - zlen area).
Proof.
  intros Hk Hp Hat Ho Hn. pose proof Hat as (E1 & E2 & E3 & E4). unfold iot_log_file_read. cbn [negb].
  unfold handle at 1. rewrite bind_assoc, bind_gets. rewrite Hp. change (need (Some h)) with (mret (M:=st lworld) h). rewrite bind_mret.
  unfold _iot_log_file_check_valid_range. rewrite E1, E2, E3, !size_small by lia.
  destruct (Z.ltb_spec (start + zlen area) (start + o + n)) as [Hr|Hr]; cbn [negb].
  - set (r := zlen area - o). set (k := if o <? n - r then o else n - r).
    assert (0 <= r <= n /\ 0 <= k <= o /\ (n <= zlen area -> k = n - r) /\ (zlen area < n -> k = o)) as (Hr1 & Hk1 & Hk2 & Hk3)
      by (unfold k, r; case_if; bool_to_prop; lia).
    destruct (known_read w h o r Hk Hat ltac:(lia) ltac:(lia) ltac:(unfold r; lia)) as (w1 & Er1 & Kn1 & S1 & S2 & S3).
    destruct (known_read w1 (set_cur start h) 0 k Kn1) as (w2 & Er2 & Kn2 & U1 & U2 & U3);
      [split_and!; [done..|cbn; lia|done]|lia..|].
    unfold read_wrapped. rewrite E1, E2, E3. cbv zeta. rewrite bind_assoc.
    replace (start + o - start) with o by lia. rewrite (uint_small o), (size_small o) by lia. fold r.
    rewrite (size_small r), (uint_small r), (bind_ret _ _ _ _ _ Er1) by lia. change (negb (IOT_ERROR_NONE =? IOT_ERROR_NONE)) with false; cbv iota.
    rewrite (size_small (n - r)) by lia. fold k. rewrite (uint_small k), bind_assoc, (bind_ret _ _ _ _ _ Er2) by lia.
    change (negb (IOT_ERROR_NONE =? IOT_ERROR_NONE)) with false; cbv iota. rewrite (uint_small (start + k)), (size_small (r + k)) by lia.
    exists (set_lhandles (<[p := set_cur (start + k) h]> (l_handles w2)) (l_next w2) w2), (set_cur (start + k) h), k.
    split_and!.
    + unfold put_handle, modify, mbind, st_bind, mret, st_ret. repeat f_equal; [|lia].
      unfold round. replace (Z.to_nat r) with (length (drop (Z.to_nat o) area)) by (rewrite length_drop; unfold r, zlen; lia).
      rewrite firstn_all. change (Z.to_nat 0) with 0%nat. rewrite drop_0.
      rewrite take_app_ge, take_take, length_drop by (rewrite length_drop; unfold r, zlen in *; lia).
      f_equal. f_equal. unfold zlen in *. lia.
    + by apply known_put.
    + cbn. by rewrite U1, S1.
    + cbn. by rewrite U2, S2.
    + split_and!; [done..|cbn; lia|done].
    + lia.
    + lia.
    + intros. right. lia.
  - rewrite !uint_small by lia. destruct (known_read w h o n Hk Hat ltac:(lia) ltac:(lia) ltac:(lia)) as (w1 & Er & Hk1 & S1 & S2 & S3).
    rewrite (bind_ret _ _ _ _ _ Er). change (negb (IOT_ERROR_NONE =? IOT_ERROR_NONE)) with false; cbv iota.
    assert (take (Z.to_nat n) (drop (Z.to_nat o) area) = take (Z.to_nat n) (round o area)) as ->
      by (unfold round; rewrite take_app_le; [done|rewrite length_drop; unfold zlen in *; lia]).
    assert (Z.min n (zlen area) = n) as -> by lia.
    exists (set_lhandles (<[p := set_cur (start + o + n) h]> (l_handles w1)) (l_next w1) w1), (set_cur (start + o + n) h), (o + n).
    split_and!.
    + done.
    + by apply known_put.
    + done.
    + cbn. by rewrite S2.
    + split_and!; [done..|cbn; lia|done].
    + lia.
    + lia.
    + by left.
Qed.
End reading.

(** ** The log in RAM *)

(** What lies between the start and the end of the log. *)
Definition ram_size (c : iot_log_file_ctx) : Z := if overridden c then N else cnt c.
Definition ram_area (k : Z) (c : iot_log_file_ctx) : list Z := take (Z.to_nat k) (buf c).
Definition ram_position (c : iot_log_file_ctx) : Z := if overridden c then cnt c else 0.

Lemma ram_area_length k c : zlen (buf c) = N -> 0 <= k <= N -> zlen (ram_area k c) = k.
Proof. intros Hb Hk. unfold ram_area, zlen in *. rewrite length_take. lia. Qed.
Lemma ram_size_range c : wf_buf c -> 0 <= ram_position c <= ram_size c /\ ram_size c <= N.
Proof. intros (HN & Hb & Hn & _). unfold ram_size, ram_position. destruct (overridden c); lia. Qed.
Lemma ram_round c : wf_buf c -> round (ram_position c) (ram_area (ram_size c) c) = kept c.
Proof.
  intros (HN & Hb & Hn & _). unfold round, ram_position, ram_area, ram_size, kept, zlen in *. case_if.
  - by rewrite (take_ge (buf c) (Z.to_nat N)) by lia.
  - change (Z.to_nat 0) with 0%nat. by rewrite drop_0, take_0, app_nil_r.
Qed.

Lemma ram_read c k w h o n : log_file_type = RAM_ONLY -> zlen (buf c) = N -> 0 <= k <= N -> log_ctx w = Some c ->
  at_log (ram_area k c) 0 h o -> 0 <= o -> 0 <= n -> o + n <= zlen (ram_area k c) ->
  _iot_log_read_bytes h n w = Ret ((IOT_ERROR_NONE, take (Z.to_nat n) (drop (Z.to_nat o) (ram_area k c))), w).
Proof.
  intros Ht Hb Hk Hc (_ & _ & E3 & E4) Ho Hn Hon. rewrite ram_area_length in Hon by done.
  unfold _iot_log_read_bytes. rewrite E4, bool_decide_eq_true_2, Ht by done. unfold the_ctx. rewrite bind_assoc, bind_gets, Hc.
  change (need (Some c)) with (mret (M := st lworld) c). rewrite bind_mret, E3, Z.add_0_l.
  rewrite (bind_ret _ _ _ _ _ (bytes_at_in (buf c) o n w Ho Hn ltac:(lia))).
  unfold mret, st_ret, ram_area. by rewrite !take_drop_commute, take_take, Nat.min_l by lia.
Qed.

Context (Hram : log_file_type = RAM_ONLY) (Hmax : 4294967295 <= size_max).
#[local] Set Default Proof Using "Type*".

(** A read of a handle of RAM. *)
Lemma ram_read_round c w p h o n : log_ctx w = Some c -> 0 < N < 2147483648 -> zlen (buf c) = N ->
  l_handles w !! p = Some h -> start_addr h = 0 -> 0 <= cur_addr h <= log_size h -> log_size h <= N -> file_type h = RAM_ONLY ->
  o = cur_addr h -> 0 <= n < 2147483648 ->
  exists w' h', iot_log_file_read (Some p) true n w =
      Ret ((IOT_ERROR_NONE, take (Z.to_nat n) (round o (ram_area (log_size h) c)), Some (Z.min n (log_size h))), w') /\
    log_ctx w' = Some c /\ l_handles w' = <[p := h']> (l_handles w) /\
    start_addr h' = 0 /\ log_size h' = log_size h /\ 0 <= cur_addr h' <= log_size h /\ file_type h' = RAM_ONLY /\
    (n <= log_size h -> cur_addr h' = o + n \/ cur_addr h' = o + n - log_size h).
Proof.
  intros Hc HN Hb Hp E1 E2 E3 E4 -> Hn. pose proof (ram_area_length (log_size h) c Hb ltac:(lia)) as El.
  destruct (read_goes_round (fun w => log_ctx w = Some c) (ram_area (log_size h) c) 0) with (w := w) (p := p) (h := h) (o := cur_addr h) (n := n)
    as (w' & h' & o' & Er & Hk & _ & Hh & (F1 & F2 & F3 & F4) & Ho & Hstep); try done || lia.
  - intros w1 h1 o1 n1 Hk1 Ha1 Ho1 Hn1 Hon1. exists w1. split; [|by split_and!].
    apply (ram_read c (log_size h)); try done; lia.
  - split_and!; [done|done|lia|by rewrite E4].
  - rewrite El in *. exists w', h'. split_and!; try done; try lia. by rewrite F4.
Qed.

Context (memory : forall d, (log_malloc d).1 = true).

Lemma ram_open c w : log_ctx w = Some c -> wf_buf c ->
  exists w' h, iot_log_file_open RAM_ONLY w = Ret (Some (l_next w, ram_size c), w') /\
    log_ctx w' = Some (set_enable false c) /\ l_handles w' = <[l_next w := h]> (l_handles w) /\
    start_addr h = 0 /\ log_size h = ram_size c /\ cur_addr h = ram_position c /\ file_type h = RAM_ONLY /\ tail_addr h = cnt c.
Proof.
  intros Hc Hw. unfold iot_log_file_open. rewrite bind_gets, Hc.
  unfold dev, mbind at 1, st_bind at 1. pose proof (memory (l_dev w)) as Em.
  destruct (log_malloc (l_dev w)) as [have d]. cbn in Em. subst have. cbn [negb].
  rewrite bool_decide_eq_true_2 by done. unfold open_ram, _iot_log_file_enable. rewrite !bind_assoc, bind_gets. cbn [log_ctx]. rewrite Hc.
  eexists _, _. split; [|split; [|split]].
  - unfold put_ctx, modify, the_ctx, gets, need, mbind, st_bind, mret, st_ret. cbn. reflexivity.
  - done.
  - done.
  - done.
Qed.

(** Messages one after the other. *)
Fixpoint store_all (ms : list (list Z)) : L unit :=
  match ms with [] => mret tt | m :: ms => iot_log_file_store m;; store_all ms end.

Lemma store_all_runs ms : forall c w, log_ctx w = Some c -> wf_buf c -> enable c = true -> Forall (fun m => zlen m < 128) ms ->
  exists c' w', store_all ms w = Ret (tt, w') /\ log_ctx w' = Some c' /\ wf_buf c' /\ enable c' = true /\
    kept c' = lastn (Z.to_nat N) (kept c ++ concat ms).
Proof.
  induction ms as [|m ms IH]; intros c w Hc Hw He Hms.
  - exists c, w. split_and!; try done. cbn. by rewrite app_nil_r, lastn_short by (by apply kept_le).
  - apply Forall_cons in Hms as [Hm Hms].
    destruct (store_accepted m w c Hram Hc Hw He Hm) as (c1 & E & Hw1 & Hk1 & He1).
    destruct (IH c1 (set_ctx (Some c1) w)) as (c' & w' & E' & Hc' & Hw' & He' & Hk'); [done..|].
    exists c', w'. split_and!; try done.
    + cbn [store_all]. by rewrite (bind_ret _ _ _ _ _ E).
    + by rewrite Hk', Hk1, lastn_app, <- app_assoc.
Qed.

Lemma ram_init w : 0 < N < 2147483648 ->
  exists w', iot_log_file_init RAM_ONLY w = Ret (IOT_ERROR_NONE, w') /\ log_ctx w' = Some (init_buf zero_ctx) /\
    wf_buf (init_buf zero_ctx) /\ kept (init_buf zero_ctx) = [].
Proof.
  intros HN. unfold iot_log_file_init. unfold dev, mbind at 1, st_bind at 1. pose proof (memory (l_dev w)) as Em.
  destruct (log_malloc (l_dev w)) as [have d]. cbn in Em. subst have. cbn [negb].
  rewrite bool_decide_eq_true_2 by done. eexists. split; [reflexivity|]. split_and!; [done| |done].
  unfold wf_buf. cbn. unfold zlen. rewrite length_replicate. split_and!; done || lia.
Qed.

Lemma close_ram c w p h : log_ctx w = Some c -> l_handles w !! p = Some h -> file_type h = RAM_ONLY ->
  exists w', iot_log_file_close (Some p) w = Ret (IOT_ERROR_NONE, w') /\ log_ctx w' = Some (set_enable true c) /\
    l_handles w' = delete p (l_handles w).
Proof.
  intros Hc Hp Ht. unfold iot_log_file_close, handle at 1. rewrite bind_assoc, bind_gets, Hp.
  change (need (Some h)) with (mret (M := st lworld) h). rewrite bind_mret, Ht.
  unfold _iot_log_file_enable. rewrite bind_assoc, bind_gets, Hc.
  eexists. split; [unfold free_handle, handle, put_ctx, modify, gets, mbind, st_bind; cbn; by rewrite Hp|done].
Qed.

(** C12: The log in RAM keeps the end of what has been stored.  Messages that
    are stored one after the other come back from a handle, in one read of the
    size that [iot_log_file_open] gives, as the last bytes of all of them, as
    many as the buffer has room for; after [iot_log_file_close] messages are
    stored again, behind what is there. *)
Theorem ram_log_read_back ms w : 0 < N < 2147483648 -> Forall (fun m => zlen m < 128) ms ->
  let all := lastn (Z.to_nat N) (concat ms) in
  exists w1 w2 p w3 w4 w5, iot_log_file_init RAM_ONLY w = Ret (IOT_ERROR_NONE, w1) /\ store_all ms w1 = Ret (tt, w2) /\
    iot_log_file_open RAM_ONLY w2 = Ret (Some (p, zlen all), w3) /\
    iot_log_file_read (Some p) true (zlen all) w3 = Ret ((IOT_ERROR_NONE, all, Some (zlen all)), w4) /\
    iot_log_file_close (Some p) w4 = Ret (IOT_ERROR_NONE, w5) /\
    exists c, log_ctx w5 = Some c /\ wf_buf c /\ enable c = true /\ kept c = all.
Proof.
  intros HN Hms all. destruct (ram_init w HN) as (w1 & E1 & Hc1 & Hw1 & Hk1).
  destruct (store_all_runs ms _ w1 Hc1 Hw1 eq_refl Hms) as (c & w2 & E2 & Hc2 & Hw2 & He2 & Hk2).
  rewrite Hk1, app_nil_l in Hk2. fold all in Hk2. destruct (ram_open c w2 Hc2 Hw2) as (w3 & h & E3 & Hc3 & Hh & F1 & F2 & F3 & F4 & _).
  pose proof (ram_size_range c Hw2) as (Hr1 & Hr2). pose proof Hw2 as (_ & Hb & _).
  assert (zlen all = ram_size c) as El.
  { rewrite <- Hk2, <- ram_round, round_length by done. apply ram_area_length; [done|lia]. }
  destruct (ram_read_round (set_enable false c) w3 (l_next w2) h (ram_position c) (ram_size c)) as (w4 & h4 & E4 & Hc4 & Hh4 & G1 & G2 & G3 & G4 & _);
    try done || lia; [by rewrite Hh, lookup_insert_eq|].
  destruct (close_ram _ w4 (l_next w2) h4 Hc4) as (w5 & E5 & Hc5 & _); [by rewrite Hh4, lookup_insert_eq|done|].
  exists w1, w2, (l_next w2), w3, w4, w5. rewrite El. split_and!; try done.
  - rewrite E4, F2, Z.min_id. change (ram_area (ram_size c) (set_enable false c)) with (ram_area (ram_size c) c).
    rewrite ram_round, take_ge by (done || (rewrite Hk2; unfold zlen in El; lia)). by rewrite Hk2.
  - eexists. split_and!; [done|exact Hw2|done|exact Hk2].
Qed.
End ring.

(** ** What the operations leave of handles and context *)

Create HintDb growing.
Section growing.
Context `{LC : LogConfig} `{LB : LogBelow}.

(** Handles that are open stay open, new ones get new numbers, and the context
    is not lost. *)
Definition grows (w w' : lworld) : Prop :=
  (l_next w <= l_next w')%nat /\ dom (l_handles w) ⊆ dom (l_handles w') /\ (is_Some (log_ctx w) -> is_Some (log_ctx w')).
Definition growing {A} (m : st lworld A) : Prop := forall w a w', m w = Ret (a, w') -> grows w w'.

#[local] Instance grows_preorder : PreOrder grows.
Proof.
  split; [by intros w|]. intros w1 w2 w3 (A1 & B1 & C1) (A2 & B2 & C2). split_and!; [lia|by etrans|auto].
Qed.

Lemma growing_ret {A} (a : A) : growing (mret a).
Proof. by intros w b w' [= <- <-]. Qed.
Lemma growing_bind {A B} (m : st lworld A) (f : A -> st lworld B) : growing m -> (forall a, growing (f a)) -> growing (m ≫= f).
Proof. intros Hm Hf w b w' E. apply bind_inv in E as (a & w1 & E1 & E2). etrans; [by eapply Hm|by eapply Hf]. Qed.
Lemma growing_gets {A} (f : lworld -> A) : growing (gets f).
Proof. by intros w b w' [= <- <-]. Qed.
Lemma growing_need {A} (o : option A) : growing (need o).
Proof. destruct o; [apply growing_ret|done]. Qed.
Lemma growing_dev {A} (f : ldev -> A * ldev) : growing (dev f).
Proof. intros w a w' E. unfold dev in E. destruct (f (l_dev w)). by injection E as <- <-. Qed.
Lemma growing_put_ctx c : growing (put_ctx c).
Proof. intros w a w' [= <- <-]. by split_and!. Qed.
Lemma growing_put_handle p h : growing (put_handle p h).
Proof. intros w a w' [= <- <-]. split_and!; [done|cbn; set_solver|done]. Qed.
Lemma growing_new_handle h p : growing (modify (fun w => set_lhandles (<[p := h]> (l_handles w)) (S (l_next w)) w)).
Proof. intros w a w' [= <- <-]. split_and!; [cbn; lia|cbn; set_solver|done]. Qed.

Ltac growing :=
  repeat (cbv beta zeta;
    match goal with
    | |- growing (mret _) => apply growing_ret
    | |- growing undef => done
    | |- growing (need _) => apply growing_need
    | |- growing (_ ≫= _) => apply growing_bind; [|intros ?]
    | |- growing (gets _) => apply growing_gets
    | |- growing (dev _) => apply growing_dev
    | |- growing (put_ctx _) => apply growing_put_ctx
    | |- growing (put_handle _ _) => apply growing_put_handle
    | |- growing (if ?b then _ else _) => destruct b
    | |- growing (match ?x with _ => _ end) => destruct x
    | |- _ => solve [eauto with growing]
    end).

Lemma growing_enable en : growing (_iot_log_file_enable en).
Proof. unfold _iot_log_file_enable. growing. Qed.
Lemma growing_open_state o : growing (_iot_log_file_open_state o).
Proof. unfold _iot_log_file_open_state. growing. Qed.
Hint Resolve growing_enable growing_open_state : growing.
Lemma growing_request c : growing (request_sync c).
Proof. unfold request_sync, the_ctx. growing. Qed.
Lemma growing_copy b n bs : growing (copy_at (S := lworld) b n bs).
Proof. unfold copy_at. growing. Qed.
Lemma growing_bytes b n k : growing (bytes_at (S := lworld) b n k).
Proof. unfold bytes_at. growing. Qed.
Hint Resolve growing_request growing_copy growing_bytes : growing.
Lemma growing_store_loop m : growing (store_loop m).
Proof. induction m as [|c m IH]; cbn [store_loop]; [growing|]. unfold _iot_log_file_store_char. growing. Qed.
Hint Resolve growing_store_loop : growing.
Lemma growing_store m : growing (iot_log_file_store m).
Proof. unfold iot_log_file_store, _iot_log_file_buf_free_size, the_ctx. growing. Qed.
Lemma growing_sync : growing iot_log_file_sync.
Proof. unfold iot_log_file_sync, the_ctx. growing. Qed.
Lemma growing_erase k a : growing (erase_loop k a).
Proof. revert a. induction k; intros a; cbn [erase_loop]; growing. Qed.
Hint Resolve growing_erase : growing.
Lemma growing_remove typ : growing (iot_log_file_remove typ).
Proof. unfold iot_log_file_remove, _iot_log_file_clear_buf, _iot_log_file_is_opening. growing. Qed.
Lemma growing_seek p o a : growing (iot_log_file_seek p o a).
Proof. unfold iot_log_file_seek, handle. growing. Qed.
Lemma growing_read_bytes h n : growing (_iot_log_read_bytes h n).
Proof. unfold _iot_log_read_bytes, the_ctx. growing. Qed.
Hint Resolve growing_read_bytes : growing.
Lemma growing_read p b n : growing (iot_log_file_read p b n).
Proof. unfold iot_log_file_read, read_wrapped, handle. growing. Qed.

(** [iot_log_file_open] gives a new handle. *)
Lemma growing_open typ w r w' : iot_log_file_open typ w = Ret (r, w') -> grows w w' /\
  match r with Some (p, _) => (l_next w <= p < l_next w')%nat /\ p ∈ dom (l_handles w') | None => True end.
Proof.
  intros E. unfold iot_log_file_open in E. rewrite bind_gets in E.
  destruct (log_ctx w) as [c|]; [|by injection E as <- <-].
  apply bind_inv in E as (have & w1 & E1 & E). apply growing_dev in E1.
  destruct have; cbn [negb] in E; [|by injection E as <- <-].
  apply bind_inv in E as (h & w2 & E2 & E).
  assert (growing (if bool_decide (typ = log_file_type) then match typ with RAM_ONLY => open_ram | FLASH_WITH_RAM => open_flash end
                   else mret None)) as Hg.
  { unfold open_ram, open_flash, _iot_log_file_load_header, the_ctx. growing. }
  apply Hg in E2. assert (grows w w2) as Hw by (by etrans).
  destruct h as [h|]; [|by injection E as <- <-].
  rewrite bind_gets in E. injection E as <- <-. destruct Hw as (A & B & C).
  split; [split_and!; cbn; [lia|set_solver|done]|]. cbn. split; [lia|set_solver].
Qed.

Lemma closed_handles p w r w' : iot_log_file_close (Some p) w = Ret (r, w') ->
  (l_next w <= l_next w')%nat /\ dom (l_handles w) ⊆ {[p]} ∪ dom (l_handles w') /\ (is_Some (log_ctx w) -> is_Some (log_ctx w')).
Proof.
  intros E. unfold iot_log_file_close, handle at 1 in E. rewrite bind_assoc, bind_gets in E.
  apply bind_inv in E as (h & w1 & E1 & E). apply growing_need in E1.
  apply bind_inv in E as ([] & w2 & E2 & E).
  assert (growing (match file_type h with FLASH_WITH_RAM => _iot_log_file_open_state false | RAM_ONLY => _iot_log_file_enable true end))
    as Hg by growing. apply Hg in E2.
  unfold free_handle, handle in E. rewrite !bind_assoc, bind_gets in E.
  apply bind_inv in E as (h2 & w3 & E3 & E). apply growing_need in E3. injection E as <- <-.
  assert (grows w w3) as (A & B & C) by (etrans; [exact E1|etrans; [exact E2|exact E3]]).
  split_and!; [done| |done]. cbn. rewrite dom_delete_L. intros x Hx. apply B in Hx. destruct (decide (x = p)); set_solver.
Qed.
End growing.

(** ** What every operation keeps *)

Section wf.
Context `{LC : LogConfig} `{LB : LogBelow}.
Abbreviation N := IOT_LOG_FILE_RAM_BUF_SIZE.

Definition wf_handle (h : iot_log_file_handle_t) : Prop :=
  start_addr h = 0 /\ 0 <= cur_addr h <= log_size h /\ log_size h <= N /\ file_type h = RAM_ONLY.
Definition wf_ctx (c : iot_log_file_ctx) : Prop := wf_buf c /\ events c = None.
Definition wf_log (w : lworld) : Prop :=
  (forall c, log_ctx w = Some c -> wf_ctx c) /\ map_Forall (fun _ h => wf_handle h) (l_handles w).

Lemma wf_set_ctx c w : (forall c', c = Some c' -> wf_ctx c') -> wf_log w -> wf_log (set_ctx c w).
Proof. intros Hc [_ Hh]. by split. Qed.
Lemma wf_put_handle p h n w : wf_handle h -> wf_log w -> wf_log (set_lhandles (<[p := h]> (l_handles w)) n w).
Proof. intros Hw [Hc Hh]. split; [done|]. by apply map_Forall_insert_2. Qed.
Lemma wf_delete p n w : wf_log w -> wf_log (set_lhandles (delete p (l_handles w)) n w).
Proof. intros [Hc Hh]. split; [done|]. by apply map_Forall_delete. Qed.
Lemma wf_dev d w : wf_log w -> wf_log (LWorld _ (log_ctx w) (l_handles w) (l_next w) d).
Proof. done. Qed.

(** A computation that ends, in a state that is as it should be. *)
Definition ends_wf {A} (m : st lworld A) (w : lworld) : Prop := exists a w', m w = Ret (a, w') /\ wf_log w'.
Lemma ends_wf_ret {A} (a : A) w : wf_log w -> ends_wf (mret a) w.
Proof. intros H. by exists a, w. Qed.
Lemma ends_wf_unit {A} (m : st lworld A) w : ends_wf m w -> exists w', (_ ← m; mret tt) w = Ret (tt, w') /\ wf_log w'.
Proof. intros (a & w' & E & H). exists w'. by rewrite (bind_ret _ _ _ _ _ E). Qed.
Lemma ends_wf_dev {A B} (f : ldev -> A * ldev) (k : A -> st lworld B) w :
  (forall a d, wf_log (LWorld _ (log_ctx w) (l_handles w) (l_next w) d) ->
    ends_wf (k a) (LWorld _ (log_ctx w) (l_handles w) (l_next w) d)) -> wf_log w -> ends_wf (dev f ≫= k) w.
Proof.
  intros H Hw. unfold ends_wf, dev, mbind, st_bind. destruct (f (l_dev w)) as [a d]. apply H. by apply wf_dev.
Qed.
Lemma ends_wf_enable en w : wf_log w -> exists w', _iot_log_file_enable en w = Ret (tt, w') /\ wf_log w' /\
  log_ctx w' = set_enable en <$> log_ctx w /\ l_handles w' = l_handles w /\ l_next w' = l_next w.
Proof.
  intros Hw. unfold _iot_log_file_enable. rewrite bind_gets. destruct (log_ctx w) as [c|] eqn:Hc.
  - eexists. split; [reflexivity|]. split_and!; try done. apply wf_set_ctx; [|done]. intros c' [= <-].
    destruct Hw as [Hw _]. exact (Hw c Hc).
  - exists w. by rewrite Hc.
Qed.

Context (Hram : log_file_type = RAM_ONLY) (HN : 0 < N < 2147483648) (Hmax : 4294967295 <= size_max).
#[local] Set Default Proof Using "Type*".

Lemma wf_zero_ctx : wf_ctx zero_ctx.
Proof. split; [|done]. unfold wf_buf. cbn. unfold zlen. rewrite length_replicate. split_and!; done || lia. Qed.

Lemma init_wf typ w : wf_log w -> ends_wf (iot_log_file_init typ) w.
Proof.
  intros Hw. unfold iot_log_file_init. apply ends_wf_dev; [|done]. intros have d Hd.
  destruct have; cbn [negb]; [|eexists _, _; split; [reflexivity|by apply wf_set_ctx]].
  case_bool_decide as Ht; [rewrite Hram in Ht; subst typ|].
  - eexists _, _. split; [reflexivity|]. apply wf_set_ctx; [|by apply wf_set_ctx; [intros c [= <-]; apply wf_zero_ctx|]].
    intros c [= <-]. split; [|done]. exact (proj1 wf_zero_ctx).
  - eexists _, _. split; [reflexivity|]. apply wf_set_ctx; [done|]. apply wf_set_ctx; [|done]. intros c [= <-]. apply wf_zero_ctx.
Qed.

Lemma init_context typ w w' : iot_log_file_init typ w = Ret (IOT_ERROR_NONE, w') -> is_Some (log_ctx w').
Proof.
  unfold iot_log_file_init, dev, mbind, st_bind. destruct (log_malloc (l_dev w)) as [[] d]; cbn [negb]; [|done].
  case_bool_decide as Ht; [rewrite Hram in Ht; subst typ|done]. cbn. intros [= <-]. by eexists.
Qed.

Lemma store_wf m w : wf_log w -> ends_wf (iot_log_file_store m) w.
Proof.
  intros Hw. pose proof Hw as [Hc _]. unfold iot_log_file_store. unfold ends_wf. rewrite bind_gets.
  destruct (log_ctx w) as [c|] eqn:E; [|by apply ends_wf_ret].
  destruct (negb (enable c)); [by apply ends_wf_ret|]. destruct (_ <=? zlen m); [by apply ends_wf_ret|].
  destruct (Hc c eq_refl) as [Hb He]. destruct (store_loop_runs m c w E Hb) as (c' & Es & Hb' & _ & Hs).
  rewrite (bind_ret _ _ _ _ _ Es), Hram. apply ends_wf_ret, wf_set_ctx; [|done].
  intros c1 [= <-]. split; [done|]. by rewrite <- Hs.
Qed.

Lemma sync_wf w : wf_log w -> is_Some (log_ctx w) -> ends_wf iot_log_file_sync w.
Proof.
  intros Hw [c Hc]. pose proof Hw as [Hctx _]. unfold iot_log_file_sync, the_ctx, ends_wf. rewrite bind_assoc, bind_gets, Hc.
  change (need (Some c)) with (mret (M := st lworld) c). rewrite bind_mret, bool_decide_eq_true_2 by (by apply Hctx). by apply ends_wf_ret.
Qed.

Lemma remove_wf typ w : wf_log w -> ends_wf (iot_log_file_remove typ) w.
Proof.
  intros Hw. unfold iot_log_file_remove. case_bool_decide as Ht; [|by apply ends_wf_ret]. rewrite Hram in Ht. subst typ.
  pose proof Hw as [Hc _]. unfold _iot_log_file_clear_buf, ends_wf. rewrite bind_assoc, bind_gets.
  destruct (log_ctx w) as [c|] eqn:E; [|by apply ends_wf_ret]. destruct (Hc c eq_refl) as [(_ & Hb & _) He].
  assert (wf_ctx (set_log_buf (enable c) 0 (buf c) false c)) as Hw0.
  { split; [|done]. unfold wf_buf. cbn. split_and!; done || lia. }
  unfold put_ctx, modify, _iot_log_file_is_opening, gets, mbind, st_bind. cbn.
  destruct (file_opened c); (eexists _, _; split; [reflexivity|]); repeat (apply wf_set_ctx; [by intros c' [= <-]|]); done.
Qed.

Lemma open_wf typ w : wf_log w -> ends_wf (iot_log_file_open typ) w.
Proof.
  intros Hw. unfold iot_log_file_open, ends_wf. rewrite bind_gets. destruct (log_ctx w) as [c|] eqn:E; [|by apply ends_wf_ret].
  apply ends_wf_dev; [|done]. intros have d Hd. destruct have; cbn [negb]; [|by apply ends_wf_ret].
  case_bool_decide as Ht; [rewrite Hram in Ht; subst typ|unfold ends_wf; rewrite bind_mret; by apply ends_wf_ret].
  pose proof Hw as [Hc _]. destruct (Hc c E) as [Hb He]. pose proof (ram_size_range c Hb) as (Hr & Hn).
  unfold open_ram, _iot_log_file_enable, put_ctx, modify, the_ctx, gets, need, ends_wf, mbind, st_bind, mret, st_ret. cbn. rewrite E. cbn.
  eexists _, _. split; [reflexivity|]. match goal with |- wf_log (set_lhandles _ _ ?w1) => apply (wf_put_handle _ _ _ w1) end.
  - unfold wf_handle. cbn. unfold ram_size, ram_position in *. split_and!; [done|destruct (overridden c); lia..|done].
  - rewrite E in Hd. apply (wf_set_ctx (Some (set_enable false c))) in Hd; [done|]. intros c' [= <-]. by split.
Qed.

Lemma seek_wf p o a w : wf_log w -> is_Some (l_handles w !! p) -> ends_wf (iot_log_file_seek p o a) w.
Proof.
  intros Hw [h Hp]. pose proof Hw as [_ Hh]. destruct (Hh p h Hp) as (F1 & F2 & F3 & F4).
  unfold iot_log_file_seek, handle, ends_wf. rewrite bind_assoc, bind_gets, Hp.
  change (need (Some h)) with (mret (M := st lworld) h). rewrite bind_mret.
  destruct (Z.eqb_spec (log_size h) 0) as [|H0]; [by apply ends_wf_ret|].
  cbv zeta. set (x := to_uint (a - start_addr h + o)). pose proof (Z.mod_pos_bound x (log_size h) ltac:(lia)) as Hm.
  assert (to_int (x mod log_size h) = x mod log_size h) as -> by (unfold to_int; rewrite Z.mod_small by lia; by rewrite (proj2 (Z.ltb_lt _ 2147483648)) by lia).
  rewrite (proj2 (Z.ltb_ge _ 0)), F1, uint_small by lia.
  eexists _, _. split; [reflexivity|]. apply wf_put_handle; [|done]. unfold wf_handle. cbn. split_and!; done || lia.
Qed.

Lemma read_wf p n w : wf_log w -> is_Some (l_handles w !! p) -> is_Some (log_ctx w) -> 0 <= n < 2147483648 ->
  ends_wf (iot_log_file_read (Some p) true n) w.
Proof.
  intros Hw [h Hp] [c Hc] Hn. pose proof Hw as [Hctx Hh]. destruct (Hh p h Hp) as (F1 & F2 & F3 & F4).
  destruct (Hctx c Hc) as [Hb He]. pose proof Hb as (_ & Hlen & _).
  destruct (ram_read_round Hram Hmax c w p h (cur_addr h) n) as (w' & h' & E & Hc' & Hh' & G1 & G2 & G3 & G4 & _); try done.
  exists (IOT_ERROR_NONE, take (Z.to_nat n) (round (cur_addr h) (ram_area (log_size h) c)), Some (Z.min n (log_size h))), w'.
  split; [done|]. split.
  - rewrite Hc'. intros c' [= <-]. by split.
  - rewrite Hh'. apply map_Forall_insert_2; [|done]. split_and!; try done; lia.
Qed.

Lemma close_wf p w : wf_log w -> is_Some (l_handles w !! p) -> ends_wf (iot_log_file_close (Some p)) w.
Proof.
  intros Hw [h Hp]. pose proof Hw as [_ Hh]. destruct (Hh p h Hp) as (F1 & F2 & F3 & F4).
  unfold iot_log_file_close, handle at 1, ends_wf. rewrite bind_assoc, bind_gets, Hp.
  change (need (Some h)) with (mret (M := st lworld) h). rewrite bind_mret, F4.
  destruct (ends_wf_enable true w Hw) as (w1 & E & Hw1 & _ & Hh1 & _). rewrite (bind_ret _ _ _ _ _ E).
  unfold free_handle, handle. rewrite !bind_assoc, bind_gets, Hh1, Hp.
  eexists _, _. split; [reflexivity|]. by apply wf_delete.
Qed.

(** ** A user of the log *)

(** What it does after [iot_log_file_init]: it reads and closes through the
    handles that it holds, those that [iot_log_file_open] has given it and that
    it has not closed; [i] is a place in that list. *)
Inductive log_act :=
| act_store (log_data : list Z) | act_sync | act_remove (typ : iot_log_file_type_t) | act_open (typ : iot_log_file_type_t)
| act_seek (i : nat) (seek_offset origin_addr : Z) | act_read (i : nat) (buf_size : Z) | act_close (i : nat).

(** The call, and the handles that are held afterwards. *)
Definition run_act (act : log_act) (hs : list nat) : st lworld (list nat) :=
  match act with
  | act_store m => _ ← iot_log_file_store m; mret hs
  | act_sync => iot_log_file_sync;; mret hs
  | act_remove typ => _ ← iot_log_file_remove typ; mret hs
  | act_open typ => r ← iot_log_file_open typ; mret (match r with Some (p, _) => p :: hs | None => hs end)
  | act_seek i o a => match hs !! i with Some p => _ ← iot_log_file_seek p o a; mret hs | None => mret hs end
  | act_read i n => match hs !! i with Some p => _ ← iot_log_file_read (Some p) true n; mret hs | None => mret hs end
  | act_close i => match hs !! i with Some p => _ ← iot_log_file_close (Some p); mret (delete i hs) | None => mret hs end
  end.
Fixpoint run_acts (acts : list log_act) (hs : list nat) : st lworld (list nat) :=
  match acts with [] => mret hs | act :: acts => hs ← run_act act hs; run_acts acts hs end.

(** A size to be read is an [int]. *)
Definition act_ok (act : log_act) : Prop := match act with act_read _ n => 0 <= n < 2147483648 | _ => True end.

(** The handles that are held are open, each once; the log has been started. *)
Record holds (hs : list nat) (w : lworld) : Prop := {
  holds_wf : wf_log w;
  holds_open p : p ∈ hs -> p ∈ dom (l_handles w) /\ (p < l_next w)%nat;
  holds_nodup : NoDup hs;
  holds_ctx : is_Some (log_ctx w)
}.

Lemma holds_grows hs w w' : holds hs w -> grows w w' -> wf_log w' -> holds hs w'.
Proof.
  intros [Hw Ho Hn Hc] (A & B & C) Hw'. split; try done; [|by apply C].
  intros p Hp. destruct (Ho p Hp). split; [by apply B|lia].
Qed.

(** A call that gives no handle and takes none. *)
Lemma act_plain {A} hs w (m : st lworld A) :
  holds hs w -> ends_wf m w -> growing m ->
  exists hs' w', (_ ← m; mret hs) w = Ret (hs', w') /\ holds hs' w'.
Proof.
  intros Hh (a & w' & E & Hw') Hg. exists hs, w'. split; [by rewrite (bind_ret _ _ _ _ _ E)|].
  apply (holds_grows hs w w' Hh); [by eapply Hg|done].
Qed.

Lemma held hs w i p : holds hs w -> hs !! i = Some p -> is_Some (l_handles w !! p).
Proof. intros Hh Hp. apply elem_of_dom, (holds_open _ _ Hh). by eapply list_elem_of_lookup_2. Qed.

Lemma act_runs act hs w : holds hs w -> act_ok act -> exists hs' w', run_act act hs w = Ret (hs', w') /\ holds hs' w'.
Proof.
  intros Hh Hok. pose proof Hh as [Hw Ho Hn Hc]. destruct act as [m| |typ|typ|i o a|i n|i]; cbn [run_act act_ok] in *.
  - apply act_plain; [done|by apply store_wf|apply growing_store].
  - apply act_plain; [done|by apply sync_wf|apply growing_sync].
  - apply act_plain; [done|by apply remove_wf|apply growing_remove].
  - destruct (open_wf typ w Hw) as (r & w' & E & Hw'). destruct (growing_open typ w r w' E) as [Hg Hr].
    rewrite (bind_ret _ _ _ _ _ E). eexists _, w'. split; [reflexivity|].
    pose proof (holds_grows hs w w' Hh Hg Hw') as [_ Ho' _ Hc'].
    destruct r as [[p n]|]; [|by split]. destruct Hr as [Hp Hd]. split; try done.
    + intros q [->|Hq]%elem_of_cons; [split; [done|lia]|by apply Ho'].
    + constructor; [|done]. intros Hp'. destruct (Ho p Hp'). lia.
  - destruct (hs !! i) as [p|] eqn:Hp; [|by exists hs, w].
    apply act_plain; [done|apply seek_wf; [done|by eapply held]|apply growing_seek].
  - destruct (hs !! i) as [p|] eqn:Hp; [|by exists hs, w].
    apply act_plain; [done|apply read_wf; [done|by eapply held|done..]|apply growing_read].
  - destruct (hs !! i) as [p|] eqn:Hp; [|by exists hs, w].
    destruct (close_wf p w Hw (held _ _ _ _ Hh Hp)) as (r & w' & E & Hw'). rewrite (bind_ret _ _ _ _ _ E).
    destruct (closed_handles p w r w' E) as (A & B & C). exists (delete i hs), w'. split; [done|].
    pose proof (delete_Permutation hs i p Hp) as Hperm. rewrite Hperm in Hn. apply NoDup_cons in Hn as [Hpn Hn].
    split; [done| |done|by apply C].
    intros q Hq. assert (q ∈ hs) as Hq' by (rewrite Hperm; by right). destruct (Ho q Hq') as [Hd Hl].
    split; [|lia]. apply B in Hd. apply elem_of_union in Hd as [->%elem_of_singleton|]; [done..].
Qed.

Lemma log_acts_run acts hs w : holds hs w -> Forall act_ok acts -> exists hs' w', run_acts acts hs w = Ret (hs', w') /\ holds hs' w'.
Proof.
  intros Hh Hok. revert hs w Hh. induction Hok as [|act acts Ha _ IH]; intros hs w Hh; cbn [run_acts]; [by exists hs, w|].
  destruct (act_runs act hs w Hh Ha) as (hs1 & w1 & E & Hh1). rewrite (bind_ret _ _ _ _ _ E). by apply IH.
Qed.

(** C13: The log in RAM is well typed whatever its user does.  When
    [iot_log_file_init] has succeeded, every sequence of stores, requests to
    sync, removals, openings, seeks, reads of a size that is an [int], and
    closings runs to its end, without an access outside the buffer and without
    following a pointer that is null or dangling: the context is there, and a
    handle is used from its opening to its closing.  Afterwards, as after an
    [iot_log_file_init] that fails, the counter is within the buffer, the
    positions of every handle are within its log, and the handles that are held
    are open.  (Before a start and after [iot_log_file_exit] it is otherwise:
    [iot_log_file_sync], [sync_without_context], follows the null pointer.)

    It is for the build with the log in RAM only, a buffer of less than 2^31
    bytes and a [size_t] of at least 32 bits; what is below -- the allocator --
    may fail at any time. *)
Theorem log_well_typed typ acts w : wf_log w -> Forall act_ok acts ->
  exists err w1, iot_log_file_init typ w = Ret (err, w1) /\ wf_log w1 /\
    (err = IOT_ERROR_NONE -> exists hs w2, run_acts acts [] w1 = Ret (hs, w2) /\ wf_log w2 /\
       is_Some (log_ctx w2) /\ NoDup hs /\ forall p, p ∈ hs -> is_Some (l_handles w2 !! p)).
Proof.
  intros Hw Hok. destruct (init_wf typ w Hw) as (err & w1 & E & Hw1). exists err, w1. split_and!; [done..|].
  intros ->. assert (is_Some (log_ctx w1)) as Hc1 by (by eapply init_context).
  destruct (log_acts_run acts [] w1) as (hs & w2 & E2 & [Hw2 Ho2 Hn2 Hc2]); [|done|].
  { split; [done|by intros p ?%elem_of_nil|constructor|done]. }
  exists hs, w2. split_and!; [done..|]. intros p Hp. by apply elem_of_dom, Ho2.
Qed.
End wf.

(** [iot_log_file_sync] does not look whether the log has been started. *)
Lemma sync_without_context `{LogConfig} `{LogBelow} w : log_ctx w = None -> iot_log_file_sync w = Undef.
Proof. intros E. unfold iot_log_file_sync, the_ctx. by rewrite bind_assoc, bind_gets, E. Qed.
