(* ===== verification/LogFlash.v ===== *)
(** * The log file: the file in flash memory

    The task that moves the buffer to the file, on a flash memory that works:
    a sector that has been erased can be written.  What the file keeps, and
    what is read from it. *)

From S2P Require Import Prelude MainState LogFile LogRing.

(** [l] at the address [a] of a memory. *)
Definition patch (mem : Z -> Z) (a : Z) (l : list Z) (x : Z) : Z :=
  if (a <=? x) && (x <? a + zlen l) then nth (Z.to_nat (x - a)) l 0 else mem x.
Definition span (mem : Z -> Z) (a n : Z) : list Z := mem <$> seqZ a n.

Lemma span_length mem a n : 0 <= n -> zlen (span mem a n) = n.
Proof. intros H. unfold span, zlen. rewrite length_fmap, length_seqZ. lia. Qed.
Lemma span_nth mem a n i : 0 <= i < n -> nth (Z.to_nat i) (span mem a n) 0 = mem (a + i).
Proof.
  intros H. apply nth_lookup_Some. unfold span. rewrite list_lookup_fmap.
  rewrite (proj2 (lookup_seqZ a n (Z.to_nat i) (a + i))) by lia. done.
Qed.
Lemma span_ext mem mem' a n : (forall x, a <= x < a + n -> mem x = mem' x) -> span mem a n = span mem' a n.
Proof. intros H. apply list_fmap_ext. intros i x Hx%lookup_seqZ. apply H. lia. Qed.

Lemma span_slice mem a k o n : 0 <= o -> 0 <= n -> o + n <= k ->
  take (Z.to_nat n) (drop (Z.to_nat o) (span mem a k)) = span mem (a + o) n.
Proof.
  intros Ho Hn Hk. unfold span. rewrite <- fmap_drop, <- fmap_take. f_equal. unfold seqZ.
  rewrite <- fmap_drop, <- fmap_take, drop_seq, take_seq.
  replace (Z.to_nat n `min` (Z.to_nat k - Z.to_nat o))%nat with (Z.to_nat n) by lia.
  apply list_eq. intros i. rewrite !list_lookup_fmap. destruct (decide (i < Z.to_nat n)%nat).
  - rewrite !lookup_seq_lt by done. cbn. f_equal. lia.
  - by rewrite !lookup_seq_ge by lia.
Qed.

Section steps.
Context `{LC : LogConfig} `{LB : LogBelow}.
Abbreviation L := (st lworld).

(** The state with another device. *)
Definition with_dev (d : ldev) (w : lworld) : lworld := LWorld _ (log_ctx w) (l_handles w) (l_next w) d.

Lemma bind_dev {A B} (f : ldev -> A * ldev) (k : A -> L B) w a :
  (f (l_dev w)).1 = a -> (dev f ≫= k) w = k a (with_dev (f (l_dev w)).2 w).
Proof. intros <-. unfold dev, mbind, st_bind. by destruct (f (l_dev w)). Qed.
Lemma run_dev {A} (f : ldev -> A * ldev) w a : (f (l_dev w)).1 = a -> dev f w = Ret (a, with_dev (f (l_dev w)).2 w).
Proof. intros <-. unfold dev. by destruct (f (l_dev w)). Qed.

Lemma bind_put_ctx {B} c (k : unit -> L B) w : (put_ctx c ≫= k) w = k tt (set_ctx (Some c) w).
Proof. done. Qed.
Lemma bind_the_ctx {B} c (k : iot_log_file_ctx -> L B) w : log_ctx w = Some c -> (the_ctx ≫= k) w = k c w.
Proof. intros H. unfold the_ctx. rewrite bind_assoc, bind_gets, H. done. Qed.

Lemma bind_enable {B} en (k : unit -> L B) c w : log_ctx w = Some c -> (_iot_log_file_enable en ≫= k) w = k tt (set_ctx (Some (set_enable en c)) w).
Proof. intros H. unfold _iot_log_file_enable. rewrite bind_assoc, bind_gets, H. done. Qed.
Lemma set_ctx_twice c c' w : set_ctx c (set_ctx c' w) = set_ctx c w.
Proof. done. Qed.

Lemma request_runs c w : log_ctx w = Some c -> request_sync c w = Ret (tt, set_ctx (Some (set_events (Some true) (set_enable false c))) w).
Proof. intros H. unfold request_sync. rewrite (bind_enable _ _ c) by done. by rewrite (bind_the_ctx (set_enable false c)). Qed.
End steps.

(** The flash memory of the board: the byte at an address, and the sectors
    that have been erased and not written since. *)
Class Flash `{LogConfig} `{LogBelow} := {
  flash_byte : ldev -> Z -> Z;
  erased : ldev -> Z -> Prop;
  malloc_works d : (log_malloc d).1 = true;
  malloc_flash d x : flash_byte (log_malloc d).2 x = flash_byte d x;
  group_works d : (eventgroup_create d).1 = true;
  group_flash d x : flash_byte (eventgroup_create d).2 x = flash_byte d x;
  thread_works d : (thread_create d).1 = true;
  thread_flash d x : flash_byte (thread_create d).2 x = flash_byte d x;
  read_works a n d : (read_flash a n d).1 = (IOT_ERROR_NONE, span (flash_byte d) a n);
  read_flash_same a n d x : flash_byte (read_flash a n d).2 x = flash_byte d x;
  erase_works k d : (erase_sector k d).1 = IOT_ERROR_NONE;
  erase_erases k d : erased (erase_sector k d).2 k;
  erase_flash k d x : x / IOT_LOG_FILE_FLASH_SECTOR_SIZE <> k -> flash_byte (erase_sector k d).2 x = flash_byte d x;
  write_works k l d : zlen l = IOT_LOG_FILE_FLASH_SECTOR_SIZE -> erased d k ->
    (write_flash (k * IOT_LOG_FILE_FLASH_SECTOR_SIZE) l d).1 = IOT_ERROR_NONE;
  write_flash_patch k l d x : zlen l = IOT_LOG_FILE_FLASH_SECTOR_SIZE -> erased d k ->
    flash_byte (write_flash (k * IOT_LOG_FILE_FLASH_SECTOR_SIZE) l d).2 x = patch (flash_byte d) (k * IOT_LOG_FILE_FLASH_SECTOR_SIZE) l x;
  uint_length z : length (uint_bytes z) = 4%nat;
  uint_range l : 0 <= uint_value l < 4294967296;
  uint_inverse z : 0 <= z < 4294967296 -> uint_value (uint_bytes z) = z
}.

Section flash.
Context `{LC : LogConfig} `{LB : LogBelow} `{FL : !Flash}.
Abbreviation L := (st lworld).
Abbreviation N := IOT_LOG_FILE_RAM_BUF_SIZE.
Abbreviation ADDR := IOT_LOG_FILE_FLASH_ADDR.
Abbreviation SIZE := IOT_LOG_FILE_FLASH_SIZE.
Abbreviation SECTOR := IOT_LOG_FILE_FLASH_SECTOR_SIZE.

(** A configuration that makes sense: whole sectors, and a buffer that fits
    into one behind the header. *)
Record good_config : Prop := {
  gc_type : log_file_type = FLASH_WITH_RAM;
  gc_max : 4294967295 <= size_max;
  gc_sector : 0 < SECTOR;
  gc_addr : 0 <= ADDR;
  gc_addr_sector : ADDR mod SECTOR = 0;
  gc_size : SECTOR <= SIZE;
  gc_size_sector : SIZE mod SECTOR = 0;
  gc_end : ADDR + SIZE < 2147483648;
  gc_buf : 128 <= N;
  gc_fits : N + 24 <= SECTOR
}.
Context (G : good_config).
#[local] Set Default Proof Using "Type*".

Definition capacity : Z := SIZE - 24.

(** A sector that is written is the memory with the data in it. *)
Lemma write_sector_patches k offset data w :
  0 <= k -> k * SECTOR < 4294967296 -> 0 <= offset -> offset + zlen data <= SECTOR ->
  exists d, _iot_log_file_write_sector k offset data w = Ret (IOT_ERROR_NONE, with_dev d w) /\
    forall x, flash_byte d x = patch (flash_byte (l_dev w)) (k * SECTOR + offset) data x.
Proof.
  intros Hk Hk2 Ho Hd. pose proof (gc_sector G) as HS. unfold _iot_log_file_write_sector.
  rewrite (bind_dev _ _ _ true (malloc_works _)). cbn [negb]. set (d1 := (log_malloc (l_dev w)).2).
  unfold _iot_log_file_sector_to_addr. rewrite Z.add_0_r, uint_small by nia.
  rewrite (bind_dev _ _ _ _ (read_works _ _ _)). cbn [with_dev l_dev].
  change (negb (IOT_ERROR_NONE =? IOT_ERROR_NONE)) with false. cbv iota.
  set (d2 := (read_flash (k * SECTOR) SECTOR d1).2).
  rewrite (bind_dev _ _ _ _ (erase_works _ _)). cbn [with_dev l_dev].
  change (negb (IOT_ERROR_NONE =? IOT_ERROR_NONE)) with false. cbv iota.
  set (d3 := (erase_sector k d2).2).
  assert (zlen (span (flash_byte d1) (k * SECTOR) SECTOR) = SECTOR) as Hl by (apply span_length; lia).
  rewrite bind_copy_at by lia.
  set (l := overwrite _ _ _).
  assert (zlen l = SECTOR) as Hll by (unfold l; rewrite overwrite_length; lia).
  cbv beta. rewrite (run_dev (write_flash (k * SECTOR) l) (with_dev d3 _) _ (write_works k l d3 Hll (erase_erases _ _))). cbn [with_dev l_dev log_ctx l_handles l_next].
  eexists. split; [reflexivity|]. intros x. cbn [with_dev l_dev]. fold d3. rewrite write_flash_patch by (done || apply erase_erases).
  unfold patch. rewrite Hll. destruct ((k * SECTOR <=? x) && _) eqn:E.
  - apply andb_true_iff in E as [E1%Z.leb_le E2%Z.ltb_lt]. unfold l. rewrite overwrite_nth by lia.
    rewrite span_nth by lia. replace (k * SECTOR + (x - k * SECTOR)) with x by lia. unfold d1 at 1. rewrite malloc_flash.
    replace ((offset <=? x - k * SECTOR) && (x - k * SECTOR <? offset + zlen data))
      with ((k * SECTOR + offset <=? x) && (x <? k * SECTOR + offset + zlen data))
      by (apply eq_true_iff_eq; rewrite !andb_true_iff, !Z.leb_le, !Z.ltb_lt; lia).
    case_if; [|done]. f_equal. lia.
  - assert ((k * SECTOR + offset <=? x) && (x <? k * SECTOR + offset + zlen data) = false) as ->.
    { apply not_true_iff_false. rewrite andb_true_iff, Z.leb_le, Z.ltb_lt. apply not_true_iff_false in E as E'.
      rewrite andb_true_iff, Z.leb_le, Z.ltb_lt in E'. lia. }
    unfold d3. rewrite erase_flash; [unfold d2, d1; by rewrite read_flash_same, malloc_flash|].
    intros Hx. apply not_true_iff_false in E. apply E. rewrite andb_true_iff, Z.leb_le, Z.ltb_lt.
    assert (SECTOR <> 0) as HS0 by lia. pose proof (Z.div_mod x SECTOR HS0). pose proof (Z.mod_pos_bound x SECTOR HS). nia.
Qed.

(** ** The parts of one run of the task *)

Lemma first_sector : IOT_LOG_FILE_FLASH_FIRST_SECTOR * SECTOR = ADDR.
Proof.
  unfold IOT_LOG_FILE_FLASH_FIRST_SECTOR. pose proof (gc_sector G). pose proof (gc_addr_sector G).
  assert (SECTOR <> 0) as HS0 by lia. pose proof (Z.div_mod ADDR SECTOR HS0). lia.
Qed.

Lemma patch_in mem a l x : a <= x < a + zlen l -> patch mem a l x = nth (Z.to_nat (x - a)) l 0.
Proof. intros H. unfold patch. by rewrite (proj2 (Z.leb_le a x)), (proj2 (Z.ltb_lt x _)) by lia. Qed.
Lemma patch_out mem a l x : x < a \/ a + zlen l <= x -> patch mem a l x = mem x.
Proof.
  intros H. unfold patch. destruct (Z.leb_spec a x); [|done]. cbn [andb]. by rewrite (proj2 (Z.ltb_ge x _)) by lia.
Qed.
Lemma nth_take n (l : list Z) i : (i < n)%nat -> nth i (take n l) 0 = nth i l 0.
Proof. intros H. by rewrite !nth_lookup, lookup_take_lt. Qed.
Lemma nth_drop n (l : list Z) i : nth i (drop n l) 0 = nth (n + i) l 0.
Proof. by rewrite !nth_lookup, lookup_drop. Qed.

(** A sector whose bytes are those of the memory with [l] in it at [a]. *)
Lemma patch_sector mem s b a l x : zlen b = SECTOR -> s <= a -> a + zlen l <= s + SECTOR ->
  (forall i, 0 <= i < SECTOR -> nth (Z.to_nat i) b 0 = patch mem a l (s + i)) -> patch mem s b x = patch mem a l x.
Proof.
  intros Hb Ha Hl Hi. destruct (Z.lt_ge_cases x s); [by rewrite !patch_out by lia|].
  destruct (Z.lt_ge_cases x (s + SECTOR)); [|by rewrite !patch_out by lia].
  rewrite patch_in, Hi by lia. f_equal. lia.
Qed.

Lemma header_length h : length (magic_code h) = 4%nat -> zlen (header_bytes h) = 24.
Proof. intros H. unfold header_bytes, zlen. rewrite !length_app, H, !uint_length. done. Qed.

Lemma write_header_patches b h w : length (magic_code h) = 4%nat -> SECTOR <= zlen b -> 24 <= SECTOR ->
  exists d b', _iot_log_file_write_header b h w = Ret ((IOT_ERROR_NONE, b'), with_dev d w) /\ zlen b' = zlen b /\
    forall x, flash_byte d x = patch (flash_byte (l_dev w)) ADDR (header_bytes h) x.
Proof.
  intros Hm Hb H24. pose proof (header_length h Hm) as Hh. pose proof (gc_sector G) as HS. pose proof first_sector as HF.
  unfold _iot_log_file_write_header. rewrite (bind_dev _ _ _ _ (read_works _ _ _)). set (d1 := (read_flash ADDR SECTOR (l_dev w)).2).
  set (mem := flash_byte (l_dev w)). assert (zlen (span mem ADDR SECTOR) = SECTOR) as Hl by (apply span_length; lia).
  rewrite bind_copy_at by lia. set (b1 := overwrite b 0 _).
  assert (zlen b1 = zlen b) as Hb1 by (apply overwrite_length; lia).
  change (negb (IOT_ERROR_NONE =? IOT_ERROR_NONE)) with false. cbv iota.
  rewrite bind_copy_at by lia. set (b2 := overwrite b1 0 _).
  assert (zlen b2 = zlen b) as Hb2 by (unfold b2; rewrite overwrite_length; lia).
  rewrite (bind_dev _ _ _ _ (erase_works _ _)). change (negb (IOT_ERROR_NONE =? IOT_ERROR_NONE)) with false. cbv iota.
  set (k := IOT_LOG_FILE_FLASH_FIRST_SECTOR) in *. set (d2 := (erase_sector k (l_dev (with_dev d1 w))).2).
  rewrite bind_bytes_at by lia.
  change (Z.to_nat 0) with 0%nat. rewrite drop_0. set (l := take (Z.to_nat SECTOR) b2).
  assert (zlen l = SECTOR) as Hll by (unfold l, zlen in *; rewrite length_take; lia).
  pose proof (erase_erases k (l_dev (with_dev d1 w)) : erased d2 k) as He.
  rewrite <- HF. rewrite (bind_dev (write_flash (k * SECTOR) l) _ (with_dev d2 _) _ (write_works k l d2 Hll He)).
  eexists _, b2. split; [reflexivity|]. split; [done|]. intros x. cbn [with_dev l_dev]. rewrite write_flash_patch by done.
  assert (forall i, 0 <= i < SECTOR -> nth (Z.to_nat i) l 0 = patch mem (k * SECTOR) (header_bytes h) (k * SECTOR + i)) as Hi.
  { intros i Hi. unfold l. rewrite nth_take by lia. unfold b2. rewrite overwrite_nth by lia. unfold b1. rewrite overwrite_nth by lia.
    rewrite Hl, Hh, (proj2 (Z.leb_le 0 i)), (proj2 (Z.ltb_lt i (0 + SECTOR))) by lia. cbn [andb].
    destruct (Z.ltb_spec i (0 + 24)).
    - rewrite patch_in by lia. f_equal. lia.
    - rewrite patch_out, span_nth, HF by lia. f_equal. lia. }
  transitivity (patch mem (k * SECTOR) l x); [|apply patch_sector; lia || done].
  unfold patch. case_if; [done|]. unfold d2. rewrite erase_flash; [apply read_flash_same|].
  intros Hx. apply not_true_iff_false in E. apply E. rewrite Hll, andb_true_iff, Z.leb_le, Z.ltb_lt.
  assert (SECTOR <> 0) as HS0 by lia. pose proof (Z.div_mod x SECTOR HS0). pose proof (Z.mod_pos_bound x SECTOR HS). nia.
Qed.

(** The address at which a sector goes on. *)
Definition next_start (k : Z) : Z := if (k + 1) * SECTOR =? ADDR + SIZE then ADDR + 24 else (k + 1) * SECTOR.

Lemma end_sector : (ADDR + SIZE) / SECTOR * SECTOR = ADDR + SIZE.
Proof.
  pose proof (gc_sector G). pose proof (gc_addr_sector G). pose proof (gc_size_sector G). assert (SECTOR <> 0) as HS0 by lia.
  assert ((ADDR + SIZE) mod SECTOR = 0) as E by (rewrite Z.add_mod, (gc_addr_sector G), (gc_size_sector G) by lia; apply Z.mod_0_l; lia).
  pose proof (Z.div_mod (ADDR + SIZE) SECTOR HS0). lia.
Qed.

(** The sector after one of the file, in the code's terms. *)
Lemma next_sector k : ADDR <= k * SECTOR -> (k + 1) * SECTOR <= ADDR + SIZE -> 0 <= k ->
  exists t, _iot_log_file_get_next_sector k = t /\ 0 <= t /\ t * SECTOR + SECTOR <= ADDR + SIZE /\
    next_start k = t * SECTOR + (if t * SECTOR =? ADDR then 24 else 0).
Proof.
  intros Hk1 Hk2 Hk. pose proof (gc_sector G). pose proof (gc_end G). pose proof (gc_addr G). pose proof (gc_size G).
  pose proof end_sector as He. pose proof first_sector as Hf.
  unfold _iot_log_file_get_next_sector, next_start. rewrite uint_small by nia.
  destruct (Z.leb_spec ((ADDR + SIZE) / SECTOR) (k + 1)) as [Hn|Hn]; eexists; (split; [reflexivity|]).
  - rewrite Hf, Z.eqb_refl, (proj2 (Z.eqb_eq _ (ADDR + SIZE))) by nia. split_and!; [nia|lia|lia].
  - rewrite (proj2 (Z.eqb_neq _ (ADDR + SIZE))), (proj2 (Z.eqb_neq _ ADDR)) by nia. split_and!; [lia|nia|lia].
Qed.

Lemma second_part f1 off m : zlen f1 = 2 * SECTOR -> 0 <= off < SECTOR -> SECTOR < off + zlen m -> off + zlen m <= zlen f1 ->
  take (Z.to_nat (off + zlen m - SECTOR)) (drop (Z.to_nat SECTOR) (overwrite f1 off m)) = drop (Z.to_nat (SECTOR - off)) m.
Proof.
  intros Hf1 Ho Hm Hm2. assert (zlen (overwrite f1 off m) = zlen f1) as Hf by (apply overwrite_length; lia).
  apply (nth_ext _ _ 0 0); unfold zlen in *.
  - rewrite length_take, !length_drop. lia.
  - intros i Hi. rewrite length_take, length_drop in Hi. rewrite nth_take by lia. rewrite !nth_drop.
    replace (Z.to_nat SECTOR + i)%nat with (Z.to_nat (SECTOR + Z.of_nat i)) by lia.
    rewrite overwrite_nth by (unfold zlen; lia). unfold zlen.
    rewrite (proj2 (Z.leb_le off _)), (proj2 (Z.ltb_lt _ (off + _))) by lia. cbn [andb]. f_equal. lia.
Qed.

(** What the first sector then holds. *)
Lemma first_part mem s off f1 m i : zlen f1 = 2 * SECTOR -> 0 <= off < SECTOR -> off + zlen m <= zlen f1 -> 0 <= i < SECTOR ->
  nth (Z.to_nat i) (take (Z.to_nat SECTOR) (overwrite f1 off m)) 0 =
    patch (patch mem s (take (Z.to_nat SECTOR) f1)) (s + off) (take (Z.to_nat (SECTOR - off)) m) (s + i).
Proof.
  intros Hf1 Ho Hm Hi. pose proof (zlen_nonneg m). rewrite nth_take, overwrite_nth by lia.
  assert (zlen (take (Z.to_nat (SECTOR - off)) m) = Z.min (SECTOR - off) (zlen m)) as Hma by (unfold zlen; rewrite length_take; lia).
  assert (zlen (take (Z.to_nat SECTOR) f1) = SECTOR) as Hl by (unfold zlen in *; rewrite length_take; lia).
  destruct ((off <=? i) && (i <? off + zlen m)) eqn:E.
  - apply andb_true_iff in E as [?%Z.leb_le ?%Z.ltb_lt]. rewrite patch_in, nth_take by lia. f_equal. lia.
  - apply not_true_iff_false in E. rewrite andb_true_iff, Z.leb_le, Z.ltb_lt in E.
    rewrite patch_out, patch_in, nth_take by lia. f_equal. lia.
Qed.

(** Writing a buffer: its first sector, with [m] at [off] in it, and what goes
    beyond the sector at the start of the next one. *)
Lemma write_data_patches k off f1 m w :
  let mem := flash_byte (l_dev w) in
  0 <= k -> ADDR <= k * SECTOR -> (k + 1) * SECTOR <= ADDR + SIZE -> 0 <= off < SECTOR -> zlen m <= N -> zlen f1 = 2 * SECTOR ->
  exists d, _iot_log_file_write_data k (overwrite f1 off m) (off + zlen m) w = Ret (IOT_ERROR_NONE, with_dev d w) /\
    forall x, flash_byte d x =
      patch (patch (patch mem (k * SECTOR) (take (Z.to_nat SECTOR) f1)) (k * SECTOR + off) (take (Z.to_nat (SECTOR - off)) m))
        (next_start k) (drop (Z.to_nat (SECTOR - off)) m) x.
Proof.
  intros mem0 Hk Hk1 Hk2 Hoff Hm Hf1. pose proof (gc_sector G) as HS. pose proof (gc_fits G) as HN. pose proof (gc_end G) as He.
  set (s := k * SECTOR) in *. assert (s + SECTOR = (k + 1) * SECTOR) as Hs by (unfold s; lia).
  set (mem := patch mem0 s (take (Z.to_nat SECTOR) f1)).
  assert (zlen (take (Z.to_nat SECTOR) f1) = SECTOR) as Hl by (unfold zlen in *; rewrite length_take; lia).
  pose proof (zlen_nonneg m) as Hm0.
  set (f := overwrite f1 off m). assert (zlen f = 2 * SECTOR) as Hf by (unfold f; rewrite overwrite_length; lia).
  set (ma := take _ m). set (mb := drop _ m).
  assert (zlen ma = Z.min (SECTOR - off) (zlen m) /\ zlen mb = zlen m - zlen ma) as [Hma Hmb].
  { unfold ma, mb, zlen. rewrite length_take, length_drop. lia. }
  unfold _iot_log_file_write_data. rewrite bind_bytes_at by lia. change (Z.to_nat 0) with 0%nat. rewrite drop_0.
  set (first := take (Z.to_nat SECTOR) f).
  assert (zlen first = SECTOR) as Hfirst by (unfold first, zlen in *; rewrite length_take; lia).
  destruct (write_sector_patches k 0 first w) as (d1 & E1 & M1); [lia|fold s; lia|lia|lia|].
  assert (forall x, flash_byte d1 x = patch mem (s + off) ma x) as M1'.
  { intros x. rewrite M1, Z.add_0_r. fold s. transitivity (patch mem s first x).
    - unfold mem, patch. rewrite Hfirst, Hl. by case_if.
    - apply patch_sector; [done|lia|lia|]. intros i Hi. apply first_part; lia. }
  rewrite (bind_ret _ _ _ _ _ E1). change (negb (IOT_ERROR_NONE =? IOT_ERROR_NONE)) with false. rewrite orb_false_r.
  destruct (Z.leb_spec (off + zlen m) SECTOR) as [Hle|Hgt].
  { exists d1. split; [done|]. intros x. rewrite M1'. symmetry. apply patch_out. lia. }
  destruct (next_sector k) as (t & -> & Ht & Ht2 & Hnext); [done..|].
  rewrite bind_bytes_at by lia.
  assert (take (Z.to_nat (off + zlen m - SECTOR)) (drop (Z.to_nat SECTOR) f) = mb) as -> by (apply second_part; lia).
  unfold _iot_log_file_sector_to_addr. rewrite Z.add_0_r, uint_small by nia.
  assert (forall o, next_start k = t * SECTOR + o -> 0 <= o -> o + zlen mb <= SECTOR ->
    exists d, _iot_log_file_write_sector t o mb (with_dev d1 w) = Ret (IOT_ERROR_NONE, with_dev d w) /\
      forall x, flash_byte d x = patch (patch mem (s + off) ma) (next_start k) mb x) as Hsec.
  { intros o Eo Ho Hob. destruct (write_sector_patches t o mb (with_dev d1 w)) as (d & E & M); [lia|nia|lia|lia|].
    exists d. split; [done|]. intros x. rewrite M, Eo. unfold patch at 1 2. case_if; [done|apply M1']. }
  destruct (Z.eqb_spec (t * SECTOR) ADDR); apply Hsec; (lia || unfold IOT_LOG_FILE_FLASH_HEADER_SIZE; lia).
Qed.

(** ** What the file holds *)

(** Where the byte of the log with a number is kept. *)
Definition place (i : Z) : Z := ADDR + 24 + i mod capacity.

Definition header_at (mem : Z -> Z) (h : iot_log_file_header_tag) : Prop :=
  span mem ADDR 24 = header_bytes h /\ length (magic_code h) = 4%nat /\
  0 <= file_size h < 4294967296 /\ 0 <= written_size h < 4294967296 /\ 0 <= sector_num h < 4294967296 /\
  0 <= sector_offset h < 4294967296 /\ 0 <= checksum h < 4294967296.

(** The file, when [t] is all that has been written to it: the header says
    where the next byte goes and how many there are, and the last ones are in
    their places. *)
Definition counts (t : list Z) (h : iot_log_file_header_tag) : Prop :=
  written_size h = Z.min (zlen t) capacity /\
  0 <= sector_num h /\ 0 <= sector_offset h < SECTOR /\ sector_num h * SECTOR + sector_offset h = place (zlen t).
Definition data_at (t : list Z) (mem : Z -> Z) : Prop :=
  forall i, Z.max 0 (zlen t - capacity) <= i < zlen t -> mem (place i) = nth (Z.to_nat i) t 0.
Definition file_holds (t : list Z) (mem : Z -> Z) (h : iot_log_file_header_tag) : Prop :=
  header_at mem h /\ has_magic h = true /\ counts t h /\ data_at t mem.

Lemma capacity_pos : 0 < capacity.
Proof. unfold capacity. pose proof (gc_size G). pose proof (gc_fits G). pose proof (gc_buf G). lia. Qed.
Lemma place_range i : ADDR + 24 <= place i < ADDR + SIZE.
Proof.
  unfold place. pose proof capacity_pos as Hc. pose proof (Z.mod_pos_bound i capacity Hc). unfold capacity in *. lia.
Qed.

Lemma sector_step a b : a * SECTOR < b * SECTOR -> a * SECTOR + SECTOR <= b * SECTOR.
Proof.
  pose proof (gc_sector G). intros Hab%Z.mul_lt_mono_pos_r; [|done].
  assert ((a + 1) * SECTOR <= b * SECTOR) by (apply Z.mul_le_mono_nonneg_r; lia). lia.
Qed.

(** The sector of a place of the file. *)
Lemma place_sector k off i : k * SECTOR + off = place i -> 0 <= off < SECTOR -> ADDR <= k * SECTOR /\ (k + 1) * SECTOR <= ADDR + SIZE.
Proof.
  intros E Ho. pose proof (place_range i) as Hp. pose proof end_sector as He. pose proof first_sector as Hf. pose proof (gc_sector G).
  pose proof (sector_step k IOT_LOG_FILE_FLASH_FIRST_SECTOR). pose proof (sector_step ((ADDR + SIZE) / SECTOR) k).
  pose proof (sector_step k ((ADDR + SIZE) / SECTOR)). lia.
Qed.

(** Writing [m] from the place of number [n] on writes its bytes to their
    places, and nothing else of the data. *)
Lemma data_written k off n m mem x : 0 <= n -> 0 <= k -> 0 <= off < SECTOR -> k * SECTOR + off = place n -> zlen m <= N ->
  ADDR + 24 <= x < ADDR + SIZE ->
  let j := (x - (ADDR + 24) - n) mod capacity in
  patch (patch mem (k * SECTOR + off) (take (Z.to_nat (SECTOR - off)) m)) (next_start k) (drop (Z.to_nat (SECTOR - off)) m) x =
    if j <? zlen m then nth (Z.to_nat j) m 0 else mem x.
Proof.
  intros Hn Hk Hoff E Hm Hx j. destruct (place_sector k off n E Hoff) as [Hk1 Hk2].
  pose proof (gc_fits G) as HN. pose proof (gc_size G) as HZ. pose proof capacity_pos as Hc. pose proof (zlen_nonneg m) as Hm0.
  set (v := n mod capacity). pose proof (Z.mod_pos_bound n capacity Hc : 0 <= v < capacity) as Hv.
  assert (k * SECTOR + off = ADDR + 24 + v) as Ev by (rewrite E; done).
  set (u := x - (ADDR + 24)). assert (0 <= u < capacity) as Hu by (unfold u, capacity; lia).
  assert (v <= u /\ j = u - v \/ u < v /\ j = u - v + capacity) as Ej.
  { unfold j. fold u. rewrite Zminus_mod, (Z.mod_small u) by lia. fold v.
    destruct (Z.le_gt_cases v u); [left|right]; (split; [done|]); [apply Z.mod_small; lia|].
    rewrite <- (Z.mod_add _ 1), Z.mul_1_l by lia. apply Z.mod_small. lia. }
  set (ma := take _ m). set (mb := drop _ m).
  assert (zlen ma = Z.min (SECTOR - off) (zlen m) /\ zlen mb = zlen m - zlen ma) as [Hma Hmb].
  { unfold ma, mb, zlen. rewrite length_take, length_drop. lia. }
  assert (forall i, 0 <= i < zlen ma -> nth (Z.to_nat i) ma 0 = nth (Z.to_nat i) m 0) as Na.
  { intros i Hi. unfold ma. by rewrite nth_take by lia. }
  assert (forall i, 0 <= i < zlen mb -> nth (Z.to_nat i) mb 0 = nth (Z.to_nat (SECTOR - off + i)) m 0) as Nb.
  { intros i Hi. unfold mb. rewrite nth_drop. f_equal. lia. }
  assert (SIZE = capacity + 24) as EZ by (unfold capacity; lia). assert ((k + 1) * SECTOR = k * SECTOR + SECTOR) as Ek by lia.
  assert (k * SECTOR + SECTOR = ADDR + SIZE /\ next_start k = ADDR + 24 \/
          k * SECTOR + SECTOR + SECTOR <= ADDR + SIZE /\ next_start k = k * SECTOR + SECTOR) as En.
  { unfold next_start. rewrite Ek in *. destruct (Z.eqb_spec (k * SECTOR + SECTOR) (ADDR + SIZE)); [by left|right].
    split; [|done]. pose proof end_sector. pose proof (sector_step (k + 1) ((ADDR + SIZE) / SECTOR)). lia. }
  assert (x = ADDR + 24 + u) as Ex by (unfold u; lia). clearbody j u v ma mb.
  destruct (Z.ltb_spec j (zlen m)) as [Hj|Hj].
  - destruct (Z.lt_ge_cases j (zlen ma)) as [Hja|Hja].
    + rewrite patch_out, patch_in, <- Na by lia. f_equal. lia.
    + rewrite patch_in, Nb by lia. f_equal. lia.
  - by rewrite !patch_out by lia.
Qed.

(** With the bytes of [m] written from the end of [t] on, the data are those
    of [t ++ m]. *)
Lemma data_advances t m k off mem mem' : data_at t mem -> 0 <= k -> 0 <= off < SECTOR -> k * SECTOR + off = place (zlen t) -> zlen m <= N ->
  (forall x, ADDR + 24 <= x < ADDR + SIZE ->
    mem' x = patch (patch mem (k * SECTOR + off) (take (Z.to_nat (SECTOR - off)) m)) (next_start k) (drop (Z.to_nat (SECTOR - off)) m) x) ->
  data_at (t ++ m) mem'.
Proof.
  intros Ht Hk Hoff E Hm Hmem i Hi. pose proof (place_range i) as Hp. pose proof capacity_pos as Hc.
  pose proof (gc_fits G). pose proof (gc_size G). pose proof (zlen_nonneg t) as Ht0. pose proof (zlen_nonneg m) as Hm0.
  rewrite zlen_app in Hi. rewrite Hmem, data_written with (n := zlen t) by done || lia.
  assert (zlen m <= capacity) as Hmc by (unfold capacity; lia).
  assert ((place i - (ADDR + 24) - zlen t) mod capacity = (i - zlen t) mod capacity) as ->.
  { unfold place. replace (ADDR + 24 + i mod capacity - (ADDR + 24) - zlen t) with (i mod capacity - zlen t) by lia.
    rewrite Zminus_mod, Z.mod_mod, <- Zminus_mod by lia. done. }
  destruct (Z.lt_ge_cases i (zlen t)) as [Hit|Hit].
  - assert ((i - zlen t) mod capacity = i - zlen t + capacity) as ->.
    { rewrite <- (Z.mod_add _ 1), Z.mul_1_l by lia. apply Z.mod_small. lia. }
    rewrite (proj2 (Z.ltb_ge _ _)) by lia. rewrite app_nth1 by (unfold zlen in *; lia). apply Ht. lia.
  - destruct (Z.eq_dec (zlen m) capacity) as [Hcm|Hcm].
    + rewrite Z.mod_small, (proj2 (Z.ltb_lt _ _)), app_nth2 by (unfold zlen in *; lia). f_equal. unfold zlen. lia.
    + rewrite Z.mod_small, (proj2 (Z.ltb_lt _ _)), app_nth2 by (unfold zlen in *; lia). f_equal. unfold zlen. lia.
Qed.

Lemma div_le_self a b : 0 <= a -> 0 < b -> 0 <= a / b <= a.
Proof. clear. intros Ha Hb. split; [by apply Z.div_pos|]. apply Z.div_le_upper_bound; nia. Qed.

(** The position and the number of bytes in the header. *)
Lemma counts_advance t m h : counts t h -> zlen m <= N ->
  let '(num, off) := next_position h (zlen m) in
  counts (t ++ m) (LogHeader (magic_code h) (file_size h) (next_written h (zlen m)) num off (checksum h)) /\ num < 4294967296.
Proof.
  intros (Hw & Hk & Hoff & Hp) Hm. pose proof capacity_pos as Hc. pose proof (place_range (zlen t)) as Hr.
  pose proof (gc_fits G) as HN. pose proof (gc_size G) as HZ. pose proof (gc_end G) as He. pose proof (gc_sector G) as HS.
  pose proof (gc_addr G) as HA. pose proof (zlen_nonneg t) as Ht0. pose proof (zlen_nonneg m) as Hm0.
  set (v := zlen t mod capacity). pose proof (Z.mod_pos_bound (zlen t) capacity Hc : 0 <= v < capacity) as Hv.
  assert (place (zlen t) = ADDR + 24 + v) as Ev by done.
  assert ((zlen t + zlen m) mod capacity = (v + zlen m) mod capacity) as Em by (unfold v; by rewrite Z.add_mod_idemp_l by lia).
  assert (next_written h (zlen m) = Z.min (zlen t + zlen m) capacity) as Ew.
  { unfold next_written, IOT_LOG_FILE_FLASH_HEADER_SIZE. fold capacity. rewrite Hw, uint_small by (unfold capacity in *; lia).
    case_if; bool_to_prop; lia. }
  unfold next_position, _iot_log_file_sector_to_addr, _iot_log_file_addr_to_sector, IOT_LOG_FILE_FLASH_MAX_ADDR, IOT_LOG_FILE_FLASH_HEADER_SIZE.
  rewrite Hp, Ev, (uint_small (ADDR + 24 + v)), (uint_small (ADDR + 24 + v + zlen m)) by lia.
  assert (SECTOR <> 0) as HS0 by lia.
  destruct (Z.leb_spec (ADDR + SIZE) (ADDR + 24 + v + zlen m)) as [Hend|Hend].
  - cbn [snd]. rewrite uint_small by lia.
    assert ((ADDR + 24 + v + zlen m + 24) mod SECTOR = v + zlen m - capacity + 24) as Eoff.
    { replace (ADDR + 24 + v + zlen m + 24) with ((ADDR + SIZE) / SECTOR * SECTOR + (v + zlen m - capacity + 24))
        by (rewrite end_sector; unfold capacity; lia).
      rewrite Z.add_comm, Z.mod_add by done. apply Z.mod_small. unfold capacity in *. lia. }
    rewrite Eoff. pose proof first_sector as Hf. set (F := IOT_LOG_FILE_FLASH_FIRST_SECTOR) in *.
    assert (0 <= F <= ADDR) as HF by (unfold F; apply div_le_self; lia).
    unfold counts. cbn. rewrite zlen_app. split_and!; try done; try (unfold capacity in *; lia).
    unfold place. rewrite Em, <- (Z.mod_add (v + zlen m) (-1)), Z.mod_small by (unfold capacity in *; lia). lia.
  - pose proof (Z.div_mod (ADDR + 24 + v + zlen m) SECTOR HS0) as Ed.
    pose proof (Z.mod_pos_bound (ADDR + 24 + v + zlen m) SECTOR HS) as Hd.
    assert (0 <= (ADDR + 24 + v + zlen m) / SECTOR <= ADDR + 24 + v + zlen m) as Hq
      by (apply div_le_self; lia).
    unfold counts. cbn. rewrite zlen_app. split_and!; try done; try lia.
    unfold place. rewrite Em, (Z.mod_small (v + zlen m)) by (unfold capacity in *; lia). lia.
Qed.

(** ** A run of the task *)

Lemma header_read h : length (magic_code h) = 4%nat -> 0 <= file_size h < 4294967296 -> 0 <= written_size h < 4294967296 ->
  0 <= sector_num h < 4294967296 -> 0 <= sector_offset h < 4294967296 -> 0 <= checksum h < 4294967296 ->
  header_of_bytes (header_bytes h) = h.
Proof.
  assert (forall l : list Z, length l = 4%nat -> exists a b c d, l = [a; b; c; d]) as H4.
  { intros [|a [|b [|c [|d [|]]]]] Hl; try done. by exists a, b, c, d. }
  intros Hm H1 H2 H3 H5 H6. apply H4 in Hm as (a & b & c & d & Hm).
  assert (forall z, exists a b c d, uint_bytes z = [a; b; c; d]) as Hu by (intros z; apply H4, uint_length).
  pose proof (uint_inverse _ H1) as I1. pose proof (uint_inverse _ H2) as I2. pose proof (uint_inverse _ H3) as I3.
  pose proof (uint_inverse _ H5) as I5. pose proof (uint_inverse _ H6) as I6.
  destruct (Hu (file_size h)) as (?&?&?&?&E1), (Hu (written_size h)) as (?&?&?&?&E2), (Hu (sector_num h)) as (?&?&?&?&E3),
    (Hu (sector_offset h)) as (?&?&?&?&E5), (Hu (checksum h)) as (?&?&?&?&E6).
  unfold header_of_bytes, header_bytes, word. rewrite E1, E2, E3, E5, E6 in *. rewrite Hm. cbn.
  rewrite I1, I2, I3, I5, I6, <- Hm. by destruct h.
Qed.

Definition no_file (mem : Z -> Z) : Prop := take 3 (span mem ADDR 24) <> [76; 79; 71].
Definition flash_file (t : list Z) (mem : Z -> Z) : Prop := (exists h, file_holds t mem h) \/ t = [] /\ no_file mem.

Definition as_loaded (h : iot_log_file_header_tag) : iot_log_file_header_tag := set_file_size SIZE h.

(** Loading the header: of the file, or a new one. *)
Lemma load_header_file t h w : file_holds t (flash_byte (l_dev w)) h ->
  exists d, _iot_log_file_load_header w = Ret ((NORMAL, as_loaded h), with_dev d w) /\ forall x, flash_byte d x = flash_byte (l_dev w) x.
Proof.
  intros ((Hh & H1 & H2 & H3 & H5 & H6 & H7) & Hm & _). unfold _iot_log_file_load_header.
  rewrite (bind_dev _ _ _ _ (read_works _ _ _)). change (negb (IOT_ERROR_NONE =? IOT_ERROR_NONE)) with false. cbv iota zeta.
  unfold IOT_LOG_FILE_FLASH_HEADER_SIZE. rewrite Hh, header_read, Hm by done.
  eexists. split; [|apply read_flash_same]. unfold mret, st_ret, as_loaded. do 3 f_equal.
  destruct (Z.eqb_spec (file_size h) SIZE) as [<-|]; [|done]. by destruct h.
Qed.

Lemma load_header_none w : no_file (flash_byte (l_dev w)) ->
  exists d h, _iot_log_file_load_header w = Ret ((NO_MAGIC, h), with_dev d w) /\ (forall x, flash_byte d x = flash_byte (l_dev w) x) /\
    h = _iot_log_file_init_header h /\ 0 <= checksum h < 4294967296.
Proof.
  intros Hn. unfold _iot_log_file_load_header.
  rewrite (bind_dev _ _ _ _ (read_works _ _ _)). change (negb (IOT_ERROR_NONE =? IOT_ERROR_NONE)) with false. cbv iota zeta.
  unfold has_magic. rewrite bool_decide_eq_false_2.
  - eexists _, _. split; [reflexivity|]. split; [apply read_flash_same|]. split; [done|]. apply uint_range.
  - unfold header_of_bytes. cbn [magic_code]. rewrite take_take. exact Hn.
Qed.

Lemma new_header_counts h : h = _iot_log_file_init_header h -> counts [] h.
Proof.
  intros ->. pose proof (gc_sector G) as HS. pose proof (gc_fits G). pose proof (gc_buf G). pose proof (gc_addr G). pose proof capacity_pos.
  pose proof first_sector as Hf. unfold IOT_LOG_FILE_FLASH_FIRST_SECTOR in Hf. unfold counts. cbn. unfold IOT_LOG_FILE_FLASH_HEADER_SIZE.
  assert ((ADDR + 24) / SECTOR = ADDR / SECTOR) as ->.
  { replace (ADDR + 24) with (24 + ADDR / SECTOR * SECTOR) by lia. rewrite Z.div_add, Z.div_small by lia. lia. }
  change (zlen (@nil Z)) with 0. unfold place. rewrite Z.mod_0_l by lia. split_and!; [lia|apply Z.div_pos; lia|lia..].
Qed.

Lemma file_holds_ext t mem mem' h : (forall x, mem' x = mem x) -> file_holds t mem h -> file_holds t mem' h.
Proof.
  intros M ((H1 & H2) & H3 & H4 & H5). split; [split; [|done]|split; [done|split; [done|]]].
  - rewrite <- H1. apply span_ext. intros; apply M.
  - intros i Hi. rewrite M. by apply H5.
Qed.
Lemma flash_file_ext t mem mem' : (forall x, mem' x = mem x) -> flash_file t mem -> flash_file t mem'.
Proof.
  intros M [[h Hh]|[-> Hn]]; [left; exists h; by apply (file_holds_ext t mem)|right; split; [done|]].
  unfold no_file in *. by rewrite (span_ext mem' mem) by (intros; apply M).
Qed.

(** A header that can be written. *)
Definition sound (h : iot_log_file_header_tag) : Prop :=
  length (magic_code h) = 4%nat /\ has_magic h = true /\ 0 <= file_size h < 4294967296 /\ 0 <= checksum h < 4294967296.

Lemma patch_span mem a n x : 0 <= n -> patch mem a (span mem a n) x = mem x.
Proof.
  intros Hn. unfold patch. rewrite span_length by done. case_if; [|done].
  apply andb_true_iff in E as [?%Z.leb_le ?%Z.ltb_lt]. rewrite span_nth by lia. f_equal. lia.
Qed.
Lemma take_overwrite f0 l n : zlen l = n -> n <= zlen f0 -> take (Z.to_nat n) (overwrite f0 0 l) = l.
Proof.
  intros Hl Hn. unfold overwrite. change (Z.to_nat 0) with 0%nat. rewrite take_0. cbn [app Nat.add].
  apply take_app_length'. unfold zlen in *. lia.
Qed.

(** The two steps that load: the header, and the sector that it points to. *)
Lemma loading t fb w : flash_file t (flash_byte (l_dev w)) -> zlen fb = 2 * SECTOR ->
  exists d st h f1, _iot_log_file_load_header w = Ret ((st, h), with_dev d w) /\ st <> LOAD_FAIL /\
    sound h /\ counts t h /\ zlen f1 = 2 * SECTOR /\
    forall w1, l_dev w1 = d -> exists d', _iot_log_file_load_old_data fb 0 h st w1 = Ret ((IOT_ERROR_NONE, f1, sector_offset h), with_dev d' w1) /\
      data_at t (patch (flash_byte d') (sector_num h * SECTOR) (take (Z.to_nat SECTOR) f1)).
Proof.
  intros Ht Hfb. pose proof (gc_sector G) as HS. pose proof (gc_end G) as He. pose proof (gc_fits G) as HF.
  pose proof (gc_buf G) as HB. pose proof (gc_size G) as HZ. pose proof (gc_addr G) as HA.
  destruct Ht as [[h Hh]|[-> Hn]].
  - destruct (load_header_file t h w Hh) as (d & E & M). destruct Hh as ((_ & H1 & H2 & H3 & H5 & H6 & H7) & Hm & Hc & Hd).
    pose proof Hc as (C1 & C2 & C3 & C4). destruct (place_sector _ _ _ C4 C3) as [Hk1 Hk2].
    set (sp := span (flash_byte d) (sector_num h * SECTOR) SECTOR). assert (zlen sp = SECTOR) as Hsp by (apply span_length; lia).
    exists d, NORMAL, (as_loaded h), (overwrite fb 0 sp). split; [done|]. split; [done|]. split; [split; [done|split; [done|split; [cbn; lia|done]]]|].
    split; [done|]. split; [rewrite overwrite_length; lia|]. intros w1 <-. cbn [_iot_log_file_load_old_data as_loaded set_file_size sector_num sector_offset].
    rewrite !uint_small by lia. rewrite (bind_dev _ _ _ _ (read_works _ _ _)). cbv beta iota. fold sp.
    rewrite bind_copy_at by lia.
    change (negb (IOT_ERROR_NONE =? IOT_ERROR_NONE)) with false. cbv iota. rewrite Z.add_0_l.
    eexists. split; [reflexivity|]. rewrite take_overwrite by lia. intros i Hi.
    transitivity (flash_byte (l_dev w) (place i)); [|by apply Hd].
    rewrite <- (M (place i)), <- (patch_span (flash_byte (l_dev w1)) (sector_num h * SECTOR) SECTOR (place i)) by lia.
    unfold patch. fold sp. case_if; [done|apply read_flash_same].
  - destruct (load_header_none w Hn) as (d & h & E & M & Hh & Hc).
    assert (length (magic_code h) = 4%nat) as Hm by (by rewrite Hh).
    pose proof (header_length h Hm) as Hl.
    exists d, NO_MAGIC, h, (overwrite fb 0 (header_bytes h)). split; [done|]. split; [done|].
    split; [split; [done|split; [by rewrite Hh|split; [rewrite Hh; cbn; lia|done]]]|].
    split; [by apply new_header_counts|]. split; [rewrite overwrite_length; lia|]. intros w1 <-. cbn [_iot_log_file_load_old_data].
    rewrite bind_copy_at by lia. exists (l_dev w1). split; [|intros i Hi; change (zlen (@nil Z)) with 0 in Hi; lia].
    unfold mret, st_ret. rewrite Z.add_0_l, uint_small by done. rewrite Hh at 3. by destruct w1.
Qed.

(** The new header in its place: the file is the longer one. *)
Lemma header_written t m h num off mem mem' :
  let h' := LogHeader (magic_code h) (file_size h) (next_written h (zlen m)) num off (checksum h) in
  sound h -> counts (t ++ m) h' -> num < 4294967296 -> data_at (t ++ m) mem ->
  (forall x, mem' x = patch mem ADDR (header_bytes h') x) -> file_holds (t ++ m) mem' h'.
Proof.
  intros h' (S1 & S2 & S3 & S4) Hc Hnum Hd Hmem. pose proof Hc as (C1 & C2 & C3 & C4). cbn in C1, C2, C3, C4.
  pose proof (header_length h' S1) as Hl. pose proof (gc_fits G). pose proof (gc_buf G). pose proof (gc_size G). pose proof (gc_end G).
  pose proof (gc_addr G). pose proof capacity_pos as Hcap. pose proof (zlen_nonneg (t ++ m)).
  pose proof (place_range (zlen (t ++ m))) as Hpl. destruct (place_sector _ _ _ C4 C3) as [Hk1 Hk2].
  assert (capacity < 4294967296) as Hc4 by (unfold capacity; lia).
  split; [|split; [done|split; [done|]]].
  - split.
    + rewrite (span_ext mem' (patch mem ADDR (header_bytes h'))) by (intros; apply Hmem).
      apply (nth_ext _ _ 0 0); unfold span in *; rewrite length_fmap, length_seqZ; unfold zlen in Hl; [lia|].
      intros i Hi. change (fmap _ _) with (span (patch mem ADDR (header_bytes h')) ADDR 24).
      replace i with (Z.to_nat (Z.of_nat i)) by lia. rewrite span_nth, patch_in by (unfold zlen; lia). f_equal. lia.
    + split; [done|]. cbn. split_and!; try done; lia.
  - intros i Hi. rewrite Hmem, patch_out; [by apply Hd|]. right. rewrite Hl. apply place_range.
Qed.

(** The buffer is moved to the file, and empty after it. *)
Lemma manager_runs t c w : log_ctx w = Some c -> 0 <= cnt c <= N -> zlen (buf c) = N -> zlen (file_buf c) = 2 * SECTOR ->
  flash_file t (flash_byte (l_dev w)) ->
  exists c' d h, _iot_log_file_manager w = Ret (IOT_ERROR_NONE, with_dev d (set_ctx (Some c') w)) /\
    file_holds (t ++ take (Z.to_nat (cnt c)) (buf c)) (flash_byte d) h /\ zlen (file_buf c') = 2 * SECTOR /\
    events c' = events c /\ file_opened c' = file_opened c /\ buf c' = buf c /\ cnt c' = 0 /\ overridden c' = false /\
    enable c' = (if file_opened c then enable c else true).
Proof.
  intros Hc Hn Hb Hf Ht. pose proof (gc_sector G) as HS. pose proof (gc_fits G) as HF. pose proof (gc_end G) as He.
  set (m := take (Z.to_nat (cnt c)) (buf c)).
  assert (zlen m = cnt c) as Hm by (unfold m, zlen in *; rewrite length_take; lia).
  destruct (loading t (file_buf c) w Ht Hf) as (d1 & st & h & f1 & E1 & Hst & Hs & Hcnt & Hf1 & Hold).
  pose proof Hcnt as (C1 & C2 & C3 & C4). destruct (place_sector _ _ _ C4 C3) as [Hk1 Hk2].
  unfold _iot_log_file_manager. rewrite (bind_the_ctx c) by done. cbv zeta. rewrite (bind_ret _ _ _ _ _ E1). cbv iota beta.
  rewrite bind_put_ctx, bool_decide_eq_false_2 by done.
  destruct (Hold (set_ctx (Some (set_file h (file_buf c) c)) (with_dev d1 w)) eq_refl) as (d2 & E2 & Hd2).
  rewrite (bind_ret _ _ _ _ _ E2). cbv iota beta. rewrite bind_put_ctx.
  change (negb (IOT_ERROR_NONE =? IOT_ERROR_NONE)) with false. cbv iota.
  unfold _iot_log_file_copy_buf. rewrite bind_assoc, bind_bytes_at by lia. change (Z.to_nat 0) with 0%nat. rewrite drop_0. fold m.
  rewrite bind_assoc, bind_copy_at by lia. rewrite bind_mret, bind_put_ctx, <- Hm, uint_small by lia.
  match goal with |- context [(_iot_log_file_write_data _ _ _ ≫= _) ?w1] => destruct (write_data_patches (sector_num h) (sector_offset h) f1 m w1) as (d3 & E3 & M3); [lia..|] end.
  rewrite (bind_ret _ _ _ _ _ E3). change (negb (IOT_ERROR_NONE =? IOT_ERROR_NONE)) with false. cbv iota.
  assert (data_at (t ++ m) (flash_byte d3)) as Hd3.
  { eapply data_advances; [exact Hd2|done|done|done|lia|]. intros x _. apply M3. }
  assert (zlen m <= N) as HmN by lia. pose proof (counts_advance t m h Hcnt HmN) as Hadv. unfold _iot_log_file_update_header.
  destruct (next_position h (zlen m)) as [num off]. destruct Hadv as [Hc' Hnum]. set (h' := LogHeader _ _ _ _ _ _) in *.
  match goal with |- context [(_ ≫= _) (with_dev d3 ?w1)] => destruct (write_header_patches (overwrite f1 (sector_offset h) m) h' (with_dev d3 w1)) as (d4 & b4 & E4 & L4 & M4) end;
    [apply Hs|rewrite overwrite_length; lia|pose proof (gc_buf G); lia|].
  rewrite bind_assoc, (bind_ret _ _ _ _ _ E4). cbv iota beta. rewrite bind_mret. rewrite bind_put_ctx.
  change (negb (IOT_ERROR_NONE =? IOT_ERROR_NONE)) with false. cbv iota.
  pose proof (header_written t m h num off (flash_byte d3) (flash_byte d4) Hs Hc' Hnum Hd3 M4) as Hfile. fold h' in Hfile.
  rewrite overwrite_length in L4 by lia.
  unfold _iot_log_file_clear_buf, _iot_log_file_is_opening, _iot_log_file_enable, put_ctx, modify, gets, mbind, st_bind, mret, st_ret. cbn.
  destruct (file_opened c) eqn:Eo; (eexists _, d4, h'; split; [reflexivity|]); (split; [done|]); cbn; rewrite ?L4; split_and!; done.
Qed.

(** ** Messages, and the task *)

(** The buffer between two messages, and with a request to the task. *)
Definition sized (c : iot_log_file_ctx) : Prop :=
  zlen (buf c) = N /\ zlen (file_buf c) = 2 * SECTOR /\ overridden c = false /\ file_opened c = false.
Definition ready (c : iot_log_file_ctx) : Prop :=
  sized c /\ enable c = true /\ events c = Some false /\ 0 <= cnt c <= N - 128.
Definition requested (c : iot_log_file_ctx) : Prop :=
  sized c /\ enable c = false /\ events c = Some true /\ 0 <= cnt c <= N.

(** What waits in the buffer. *)
Definition waiting (c : iot_log_file_ctx) : list Z := take (Z.to_nat (cnt c)) (buf c).

Lemma config_wf c : sized c -> 0 <= cnt c <= N -> wf_buf c /\ kept c = waiting c.
Proof.
  intros (H1 & H2 & H3 & H4) Hn. pose proof (gc_buf G). pose proof (gc_fits G). pose proof (gc_size G). pose proof (gc_end G). pose proof (gc_addr G).
  split; [|unfold kept; by rewrite H3]. split_and!; try done; try lia. by rewrite H3.
Qed.

Lemma store_flash data c w : log_ctx w = Some c -> ready c -> zlen data < 128 ->
  exists c', iot_log_file_store data w = Ret (zlen data, set_ctx (Some c') w) /\ waiting c' = waiting c ++ data /\ (ready c' \/ requested c').
Proof.
  intros Hc (Hs & He & Hev & Hn) Hd. pose proof (gc_buf G) as HB. pose proof (gc_fits G) as HF. pose proof (gc_size G) as HZ. pose proof (gc_end G) as HE.
  pose proof (gc_addr G) as HA. destruct (config_wf c Hs ltac:(lia)) as [Hw Hk]. destruct Hs as (H1 & H2 & H3 & H4).
  destruct (store_loop_runs data c w Hc Hw) as (c1 & E & Hw1 & Hk1 & Hc1).
  assert (zlen (waiting c) = cnt c) as Hwl by (unfold waiting, zlen in *; rewrite length_take; lia).
  rewrite Hk, lastn_short in Hk1 by (rewrite length_app; unfold zlen in *; lia).
  pose proof (kept_length c1 Hw1) as Hl1. rewrite Hk1, length_app in Hl1. unfold zlen in Hwl, Hd.
  pose proof Hw1 as (_ & Hb1 & Hn1 & _).
  destruct (overridden c1) eqn:Ho1; [lia|].
  assert (cnt c1 = cnt c + zlen data) as Hn1' by (unfold zlen; lia).
  assert (waiting c1 = waiting c ++ data) as Hwait by (rewrite <- Hk1; unfold kept; by rewrite Ho1).
  assert (sized c1) as Hs1 by (rewrite <- Hc1; by split_and!; cbn; rewrite ?Hc1).
  assert (events c1 = Some false /\ enable c1 = true) as [Hev1 He1] by (by rewrite <- Hc1).
  unfold iot_log_file_store. rewrite bind_gets, Hc, He, (gc_type G). cbn [negb].
  rewrite (proj2 (Z.leb_gt IOT_LOG_FILE_MAX_STRING_SIZE _)) by (unfold zlen; exact Hd). rewrite (bind_ret _ _ _ _ _ E).
  unfold _iot_log_file_buf_free_size. rewrite !bind_assoc, bind_gets. cbn [set_ctx log_ctx]. rewrite bind_mret, uint_small by lia.
  change (IOT_LOG_FILE_MAX_STRING_SIZE * IOT_LOG_FILE_MARGIN_CNT) with 128.
  destruct (Z.ltb_spec (N - cnt c1) 128) as [Hfree|Hfree].
  - rewrite bind_assoc, (bind_the_ctx c1) by done. rewrite bool_decide_eq_false_2 by (by rewrite Hev1).
    rewrite (bind_ret _ _ _ _ _ (request_runs c1 (set_ctx (Some c1) w) eq_refl)). eexists. split; [reflexivity|]. split; [done|].
    right. unfold requested, sized in *. cbn. destruct_and!. split_and!; done || lia.
  - exists c1. split; [done|]. split; [done|]. left. split_and!; try done; try lia; apply Hs1.
Qed.

(** The task, when there is a request: it is served before the next message. *)
Definition serve : L unit :=
  c ← the_ctx; if bool_decide (events c = Some true) then _ ← _iot_log_file_task_turn; mret tt else mret tt.
Fixpoint log_run (ms : list (list Z)) : L unit :=
  match ms with [] => mret tt | m :: ms => iot_log_file_store m;; serve;; log_run ms end.

(** [text] is all that has been logged: what is in the file, and what waits. *)
Definition logged (text : list Z) (w : lworld) : Prop :=
  exists c t, log_ctx w = Some c /\ ready c /\ flash_file t (flash_byte (l_dev w)) /\ text = t ++ waiting c.

Lemma turn_runs t c w : log_ctx w = Some c -> requested c -> flash_file t (flash_byte (l_dev w)) ->
  exists w' c' h, _iot_log_file_task_turn w = Ret (true, w') /\ log_ctx w' = Some c' /\ ready c' /\ waiting c' = [] /\
    file_holds (t ++ waiting c) (flash_byte (l_dev w')) h /\ l_handles w' = l_handles w.
Proof.
  intros Hc ((H1 & H2 & H3 & H4) & He & Hev & Hn) Ht. pose proof (gc_buf G).
  unfold _iot_log_file_task_turn. rewrite (bind_the_ctx c), Hev, bind_put_ctx by done. set (c1 := set_events (Some false) c).
  unfold _iot_log_file_is_opening. rewrite bind_assoc, bind_gets. cbn [set_ctx log_ctx]. rewrite bind_mret. change (file_opened c1) with (file_opened c).
  rewrite H4. destruct (manager_runs t c1 (set_ctx (Some c1) w) eq_refl Hn H1 H2 Ht) as (c' & d & h & E & Hf & F1 & F2 & F3 & F4 & F5 & F6 & F7).
  rewrite (bind_ret _ _ _ _ _ E). change (file_opened c1) with (file_opened c) in *. rewrite H4 in F7, F3.
  exists (with_dev d (set_ctx (Some c') (set_ctx (Some c1) w))), c', h. split; [done|]. split; [done|]. split; [|split; [|done]].
  - split; [|split; [done|split; [done|lia]]]. split_and!; [by rewrite F4|done|done|done].
  - unfold waiting. by rewrite F5.
Qed.

Lemma log_message text m w : logged text w -> zlen m < 128 ->
  exists w', (iot_log_file_store m;; serve) w = Ret (tt, w') /\ logged (text ++ m) w'.
Proof.
  intros (c & t & Hc & Hr & Ht & ->) Hm. destruct (store_flash m c w Hc Hr Hm) as (c1 & E & Hwt & Hc1).
  rewrite (bind_ret _ _ _ _ _ E). unfold serve. rewrite (bind_the_ctx c1) by done. destruct Hc1 as [Hr1|Hr1].
  - rewrite bool_decide_eq_false_2 by (destruct Hr1 as (_ & _ & -> & _); done). eexists. split; [reflexivity|].
    exists c1, t. split_and!; [done|apply Hr1..|done|by rewrite Hwt, app_assoc].
  - rewrite bool_decide_eq_true_2 by apply Hr1. destruct (turn_runs t c1 (set_ctx (Some c1) w) eq_refl Hr1 Ht) as (w' & c' & h & E' & Hc' & Hr' & Hw' & Hf & _).
    rewrite (bind_ret _ _ _ _ _ E'). exists w'. split; [done|]. exists c', (t ++ waiting c1). split_and!; [done|apply Hr'..|by left; exists h|].
    by rewrite Hw', Hwt, app_nil_r, app_assoc.
Qed.

Lemma log_run_runs ms : forall text w, logged text w -> Forall (fun m => zlen m < 128) ms ->
  exists w', log_run ms w = Ret (tt, w') /\ logged (text ++ concat ms) w'.
Proof.
  induction ms as [|m ms IH]; intros text w Hw Hms; [exists w; by rewrite app_nil_r|].
  apply Forall_cons in Hms as [Hm Hms]. destruct (log_message text m w Hw Hm) as (w1 & E1 & H1).
  destruct (IH _ w1 H1 Hms) as (w2 & E2 & H2). exists w2. split; [|cbn; by rewrite app_assoc].
  cbn [log_run]. rewrite <- bind_assoc. by rewrite (bind_ret _ _ _ _ _ E1).
Qed.

(** A request of the user, served. *)
Lemma sync_runs text w : logged text w ->
  exists w' c h, (iot_log_file_sync;; serve) w = Ret (tt, w') /\ log_ctx w' = Some c /\ ready c /\ waiting c = [] /\
    file_holds text (flash_byte (l_dev w')) h.
Proof.
  intros (c & t & Hc & Hr & Ht & ->). unfold iot_log_file_sync. rewrite bind_assoc, (bind_the_ctx c) by done.
  destruct Hr as (Hs & He & Hev & Hn). rewrite bool_decide_eq_false_2 by (by rewrite Hev).
  rewrite (bind_ret _ _ _ _ _ (request_runs c w Hc)). set (c1 := set_events _ _). unfold serve. rewrite (bind_the_ctx c1) by done.
  rewrite bool_decide_eq_true_2 by done. pose proof (gc_buf G).
  assert (requested c1) as Hr1 by (unfold requested, sized in *; cbn; destruct_and!; split_and!; done || lia).
  destruct (turn_runs t c1 (set_ctx (Some c1) w) eq_refl Hr1 Ht) as (w' & c' & h & E' & Hc' & Hr' & Hw' & Hf & _).
  rewrite (bind_ret _ _ _ _ _ E'). by exists w', c', h.
Qed.

Lemma flash_init w : exists w', iot_log_file_init FLASH_WITH_RAM w = Ret (IOT_ERROR_NONE, w') /\
  forall t, flash_file t (flash_byte (l_dev w)) -> logged t w'.
Proof.
  unfold iot_log_file_init. rewrite (bind_dev _ _ _ true (malloc_works _)). cbn [negb]. rewrite bind_put_ctx.
  rewrite bool_decide_eq_true_2 by (by rewrite (gc_type G)).
  rewrite (bind_dev _ _ _ true (group_works _)). cbn [negb]. rewrite (bind_dev _ _ _ true (thread_works _)). cbn [negb].
  rewrite bind_put_ctx. eexists. split; [reflexivity|]. intros t Ht. cbn [with_dev set_ctx l_dev].
  eexists _, t. split; [reflexivity|]. pose proof (gc_buf G). pose proof (gc_fits G). pose proof (gc_sector G).
  split; [|split; [|by rewrite app_nil_r]].
  - unfold ready, sized, IOT_LOG_FILE_FLASH_BUF_SIZE. cbn. unfold zlen, IOT_LOG_FILE_FLASH_BUF_SIZE. rewrite !length_replicate. split_and!; done || lia.
  - set (d := (thread_create _).2).
    assert (forall x, flash_byte d x = flash_byte (l_dev w) x) as M by (intros x; unfold d; by rewrite thread_flash, group_flash, malloc_flash).
    by apply (flash_file_ext t (flash_byte (l_dev w))).
Qed.

(** ** Reading the file *)

(** The data of the file from the start, and where the oldest byte is. *)
Definition file_area (mem : Z -> Z) (h : iot_log_file_header_tag) : list Z := span mem (ADDR + 24) (written_size h).
Definition file_position (t : list Z) (h : iot_log_file_header_tag) : Z :=
  if written_size h <? capacity then 0 else zlen t mod capacity.

Lemma file_area_round t mem h : counts t h -> data_at t mem ->
  round (file_position t h) (file_area mem h) = lastn (Z.to_nat capacity) t /\ zlen (file_area mem h) = written_size h /\
  0 <= file_position t h <= written_size h.
Proof.
  intros (Hw & _) Hd. pose proof capacity_pos as Hc. pose proof (zlen_nonneg t) as Ht.
  assert (zlen (file_area mem h) = written_size h) as Hl by (apply span_length; lia).
  pose proof (Z.mod_pos_bound (zlen t) capacity Hc) as Hm. unfold file_position.
  assert (forall i, 0 <= i < written_size h -> nth (Z.to_nat i) (file_area mem h) 0 = mem (ADDR + 24 + i)) as Ha
    by (intros i Hi; by apply span_nth).
  split; [|split; [done|case_if; bool_to_prop; lia]]. apply (nth_ext _ _ 0 0).
  { rewrite length_lastn. pose proof (round_length (if written_size h <? capacity then 0 else zlen t mod capacity) (file_area mem h)). unfold zlen in *. lia. }
  intros i Hi. pose proof (round_length (if written_size h <? capacity then 0 else zlen t mod capacity) (file_area mem h)) as Hrl.
  assert (Z.of_nat i < written_size h) as Hiw by (unfold zlen in *; lia). unfold lastn. rewrite nth_drop. clear Hi Hrl.
  destruct (Z.ltb_spec (written_size h) capacity) as [Hs|Hs].
  - unfold round. change (Z.to_nat 0) with 0%nat. rewrite drop_0, take_0, app_nil_r.
    replace i with (Z.to_nat (Z.of_nat i)) at 1 by lia. rewrite Ha by lia.
    replace (length t - Z.to_nat capacity + i)%nat with (Z.to_nat (Z.of_nat i)) by (unfold zlen in *; lia).
    rewrite <- Hd by lia. unfold place. by rewrite Z.mod_small by lia.
  - set (o := zlen t mod capacity) in *. assert (written_size h = capacity) as Ew by lia.
    replace (length t - Z.to_nat capacity + i)%nat with (Z.to_nat (zlen t - capacity + Z.of_nat i)) by (unfold zlen in *; lia).
    rewrite <- Hd by lia. unfold place.
    assert ((zlen t - capacity + Z.of_nat i) mod capacity = (o + Z.of_nat i) mod capacity) as ->.
    { unfold o. rewrite Z.add_mod_idemp_l by lia. rewrite <- (Z.mod_add (zlen t - capacity + Z.of_nat i) 1) by lia. f_equal. lia. }
    unfold round. destruct (Z.lt_ge_cases (o + Z.of_nat i) capacity) as [H1|H1].
    + rewrite app_nth1 by (rewrite length_drop; unfold zlen in *; lia). rewrite nth_drop, Z.mod_small by lia.
      rewrite <- Ha by lia. f_equal. lia.
    + rewrite app_nth2, nth_take by (rewrite length_drop; unfold zlen in *; lia). rewrite length_drop.
      rewrite <- (Z.mod_add _ (-1)), Z.mod_small by lia. rewrite <- Ha by lia. f_equal. unfold zlen in *. lia.
Qed.

Lemma open_flash_runs t c h w : log_ctx w = Some c -> file_holds t (flash_byte (l_dev w)) h ->
  exists w' fh, iot_log_file_open FLASH_WITH_RAM w = Ret (Some (l_next w, written_size h), w') /\
    log_ctx w' = Some (set_opened true c) /\ l_handles w' = <[l_next w := fh]> (l_handles w) /\
    (forall x, flash_byte (l_dev w') x = flash_byte (l_dev w) x) /\
    start_addr fh = ADDR + 24 /\ log_size fh = written_size h /\ cur_addr fh = ADDR + 24 + file_position t h /\ file_type fh = FLASH_WITH_RAM.
Proof.
  intros Hc Hf. pose proof Hf as (_ & _ & (C1 & C2 & C3 & C4) & _). pose proof (gc_addr G). pose proof (gc_end G). pose proof (gc_size G). pose proof (gc_max G) as Hmx.
  pose proof capacity_pos as Hcp. pose proof (place_range (zlen t)) as Hp.
  unfold iot_log_file_open. rewrite bind_gets, Hc, (bind_dev _ _ _ true (malloc_works _)). cbn [negb].
  rewrite bool_decide_eq_true_2 by (by rewrite (gc_type G)). unfold open_flash, _iot_log_file_open_state.
  rewrite !bind_assoc, bind_gets. cbn [with_dev log_ctx]. rewrite Hc, bind_put_ctx.
  set (w1 := set_ctx _ _).
  assert (file_holds t (flash_byte (l_dev w1)) h) as Hf1 by (apply (file_holds_ext t (flash_byte (l_dev w))); [apply malloc_flash|done]).
  destruct (load_header_file t h w1 Hf1) as (d & E & M). rewrite bind_assoc, (bind_ret _ _ _ _ _ E). cbv iota beta zeta. rewrite bind_mret, bind_gets.
  eexists _, _. split; [reflexivity|]. split; [reflexivity|]. split; [reflexivity|]. split.
  { intros x. cbn. rewrite M. apply malloc_flash. }
  cbn [start_addr log_size cur_addr file_type as_loaded set_file_size written_size sector_num sector_offset].
  unfold IOT_LOG_FILE_FLASH_HEADER_SIZE, _iot_log_file_sector_to_addr, file_position. fold capacity.
  rewrite C4, !uint_small, size_small by (unfold capacity in *; lia). split_and!; try done.
  case_if; [lia|]. done.
Qed.

Lemma flash_read_file t mem h w p fh n : (forall x, flash_byte (l_dev w) x = mem x) -> counts t h -> data_at t mem ->
  l_handles w !! p = Some fh -> start_addr fh = ADDR + 24 -> log_size fh = written_size h ->
  cur_addr fh = ADDR + 24 + file_position t h -> file_type fh = FLASH_WITH_RAM -> 0 <= n < 2147483648 ->
  exists w' fh', iot_log_file_read (Some p) true n w =
      Ret ((IOT_ERROR_NONE, take (Z.to_nat n) (lastn (Z.to_nat capacity) t), Some (Z.min n (written_size h))), w') /\
    (forall x, flash_byte (l_dev w') x = mem x) /\ log_ctx w' = log_ctx w /\ l_handles w' = <[p := fh']> (l_handles w) /\
    file_type fh' = FLASH_WITH_RAM.
Proof.
  intros Hm Hcnt Hd Hp E1 E2 E3 E4 Hn. destruct (file_area_round t mem h Hcnt Hd) as (Hr & Hl & Ho).
  pose proof (gc_end G) as He. pose proof (gc_addr G) as HA. pose proof Hcnt as (C1 & _). pose proof capacity_pos as Hcp.
  assert (0 <= ADDR + 24) as Hstart by lia.
  assert (ADDR + 24 + zlen (file_area mem h) < 2147483648) as Hend by (unfold capacity in *; lia).
  destruct (read_goes_round (fun w => forall x, flash_byte (l_dev w) x = mem x) (file_area mem h) (ADDR + 24) Hstart Hend (gc_max G))
    with (w := w) (p := p) (h := fh) (o := file_position t h) (n := n)
    as (w' & fh' & o' & Er & Hm' & Hc' & Hh' & (F1 & F2 & F3 & F4) & _); try done.
  - intros w1 h1 o1 n1 Hm1 (_ & _ & A3 & A4) Ho1 Hn1 Hon1. unfold _iot_log_read_bytes.
    rewrite A4, bool_decide_eq_true_2, (gc_type G) by done. rewrite (run_dev _ _ _ (read_works _ _ _)), A3.
    rewrite (span_ext (flash_byte (l_dev w1)) mem), <- (span_slice mem (ADDR + 24) (written_size h)) by (done || lia).
    eexists. split; [reflexivity|]. split; [|done]. intros x. cbn. rewrite read_flash_same. apply Hm1.
  - split_and!; [done|by rewrite Hl|done|by rewrite E4, (gc_type G)].
  - by rewrite Hl.
  - exists w', fh'. split_and!; [by rewrite Er, Hr, Hl|done..|by rewrite F4, (gc_type G)].
Qed.

Lemma close_flash w p fh c : log_ctx w = Some c -> l_handles w !! p = Some fh -> file_type fh = FLASH_WITH_RAM ->
  iot_log_file_close (Some p) w = Ret (IOT_ERROR_NONE, set_lhandles (delete p (l_handles w)) (l_next w) (set_ctx (Some (set_opened false c)) w)).
Proof.
  intros Hc Hp Ht. unfold iot_log_file_close, handle at 1. rewrite bind_assoc, bind_gets, Hp.
  change (need (Some fh)) with (mret (M := st lworld) fh). rewrite bind_mret, Ht.
  unfold _iot_log_file_open_state. rewrite bind_assoc, bind_gets, Hc, bind_put_ctx.
  unfold free_handle, handle. rewrite !bind_assoc, bind_gets. cbn [set_ctx l_handles]. by rewrite Hp.
Qed.

(** C11: The file in flash memory keeps the end of what has been logged.  On a
    flash that works, with or without an older file, messages go through the
    buffer and the task to the file, wherever they cross a sector or the end of
    the file; after [iot_log_file_sync] a handle gives all of the text back, as
    far as the file has room for it, in one read of the size that
    [iot_log_file_open] gives; and when it is closed logging goes on behind. *)
Theorem flash_log_read_back t ms w : flash_file t (flash_byte (l_dev w)) -> Forall (fun m => zlen m < 128) ms ->
  let text := t ++ concat ms in let all := lastn (Z.to_nat capacity) text in
  exists w1 w2 w3 w4 p w5 w6, iot_log_file_init FLASH_WITH_RAM w = Ret (IOT_ERROR_NONE, w1) /\
    log_run ms w1 = Ret (tt, w2) /\ (iot_log_file_sync;; serve) w2 = Ret (tt, w3) /\
    iot_log_file_open FLASH_WITH_RAM w3 = Ret (Some (p, zlen all), w4) /\
    iot_log_file_read (Some p) true (zlen all) w4 = Ret ((IOT_ERROR_NONE, all, Some (zlen all)), w5) /\
    iot_log_file_close (Some p) w5 = Ret (IOT_ERROR_NONE, w6) /\ logged text w6.
Proof.
  intros Ht Hms text all. destruct (flash_init w) as (w1 & E1 & H1).
  destruct (log_run_runs ms t w1 (H1 t Ht) Hms) as (w2 & E2 & H2).
  destruct (sync_runs _ w2 H2) as (w3 & c & h & E3 & Hc & Hr & Hw & Hf). fold text in Hf.
  pose proof Hf as (_ & _ & Hcnt & Hd). pose proof Hcnt as (C1 & _). pose proof capacity_pos as Hcp.
  destruct (open_flash_runs text c h w3 Hc Hf) as (w4 & fh & E4 & Hc4 & Hh4 & M4 & F1 & F2 & F3 & F4).
  assert (zlen all = written_size h) as El by (unfold all, zlen in *; rewrite length_lastn; lia).
  pose proof (gc_end G). pose proof (gc_addr G). pose proof (zlen_nonneg all).
  destruct (flash_read_file text (flash_byte (l_dev w3)) h w4 (l_next w3) fh (zlen all)) as (w5 & fh' & E5 & M5 & Hc5 & Hh5 & T5);
    try done; [by rewrite Hh4, lookup_insert_eq|unfold capacity in *; lia|].
  pose proof (close_flash w5 (l_next w3) fh' (set_opened true c)) as E6.
  rewrite Hc5, Hc4, Hh5, lookup_insert_eq in E6. specialize (E6 eq_refl eq_refl T5).
  exists w1, w2, w3, w4, (l_next w3), w5. eexists. rewrite El at 1. split_and!; try done.
  - rewrite E5, take_ge by (fold all; unfold zlen; lia). by rewrite El, Z.min_id.
  - eexists _, text. split; [reflexivity|]. split; [|split].
    + destruct Hr as ((R1 & R2 & R3 & R4) & R5 & R6 & R7). unfold ready, sized. cbn. split_and!; done || lia.
    + left. exists h. cbn. by apply (file_holds_ext text (flash_byte (l_dev w3))).
    + change (waiting _) with (waiting c). by rewrite Hw, app_nil_r.
Qed.
End flash.
