(* ===== verification/LogDump.v ===== *)
(** * The log dump

    [src/src/iot_dump_log.c]: messages of 16 bytes for the log file, and the
    dump that is made of the log behind a header and the state of the device,
    as bytes or as base64.  The text of the dump and the buffer [temp_buf] of
    48 bytes are memory that the code addresses; a copy within [temp_buf] whose
    two sides overlap is undefined behaviour, as it is for [memcpy]. *)

From S2P Require Import Prelude Cursor MainState Base64 LogFile.

Definition IOT_DUMP_MAGIC_NUMBER : Z := 1473363209.
Definition IOT_DUMP_LOG_MSG_LINE_LENGTH : Z := 16.
Definition IOT_DUMP_BUFFER_SIZE : Z := 48.
Definition IOT_DUMP_LOG_VERSION : Z := 0.
Definition GET_LARGEST_MULTIPLE (x n : Z) : Z := x / n * n.
Definition sizeof_dump_header : Z := 16.

(** The pieces of the context of the device that go into a dump; [dip] is the
    identifier with the major and the minor version. *)
Record dump_context := DumpContext {
  dc_event_sequence_num : Z; dc_deviceId : list Z; dc_dip : option (list Z * Z * Z);
  dc_firmware_version : option (list Z); dc_model_number : option (list Z); dc_manufacturer_name : option (list Z);
  dc_success_count : Z; dc_try_count : Z
}.

(** What is below: the names and versions of the system, its clocks, and the
    bytes of an [int] and of a [long]. *)
Class DumpBelow := {
  STDK_VERSION_CODE : Z;
  clock : Z;
  time_of_day : Z;
  os_name : list Z; os_version : list Z; bsp_name : list Z; bsp_version : list Z;
  int_bytes : Z -> list Z;
  long_bytes : Z -> list Z;
  sizeof_long : Z
}.
Definition sizeof_dump_state `{DumpBelow} : Z := 160 + sizeof_long.

(** [COPY_STR_TO_BYTE] into a field of zeros. *)
Definition COPY_STR_TO_BYTE (src : list Z) (len : nat) : list Z := take len src ++ replicate (len - length src) 0.
Definition string_or_zeros (src : option (list Z)) (len : nat) : list Z := COPY_STR_TO_BYTE (default [] src) len.

(** The bytes of [struct iot_dump_state]. *)
Definition dump_state_bytes `{DumpBelow} (c : option dump_context) : list Z :=
  int_bytes STDK_VERSION_CODE ++ int_bytes clock ++
  int_bytes (default 0 (dc_event_sequence_num <$> c)) ++
  int_bytes (match c ≫= dc_dip with
             | Some (_, major, minor) => to_int (Z.lor (Z.shiftl (Z.land major 65535) 16) (Z.land minor 65535))
             | None => 0
             end) ++
  COPY_STR_TO_BYTE os_name 16 ++ COPY_STR_TO_BYTE os_version 16 ++ COPY_STR_TO_BYTE bsp_name 16 ++ COPY_STR_TO_BYTE bsp_version 16 ++
  string_or_zeros (c ≫= dc_firmware_version) 16 ++ string_or_zeros (c ≫= dc_model_number) 16 ++
  string_or_zeros (c ≫= dc_manufacturer_name) 16 ++
  string_or_zeros ((fun d => d.1.1) <$> (c ≫= dc_dip)) 16 ++
  string_or_zeros (dc_deviceId <$> c) 8 ++
  int_bytes (default 0 (dc_success_count <$> c)) ++ int_bytes (default 0 (dc_try_count <$> c)) ++
  long_bytes time_of_day.

(** The bytes of [struct iot_dump_header]. *)
Definition dump_header_bytes `{DumpBelow} (dump_state_size : Z) : list Z :=
  int_bytes IOT_DUMP_MAGIC_NUMBER ++ int_bytes IOT_DUMP_LOG_VERSION ++ int_bytes dump_state_size ++ int_bytes 0.

(** The state of [st_create_log_dump]: the log below, the text of the dump,
    [temp_buf] and [remain_number]. *)
Record dworld `{LogBelow} := DWorld { d_log : lworld; all_log_dump : list Z; temp_buf : list Z; remain_number : Z }.

(** What is copied: null, other memory, or [temp_buf]. *)
Inductive dump_source := no_source | other (l : list Z) | from_temp.

Section dump.
Context `{LC : LogConfig} `{LB : LogBelow} `{DB : DumpBelow}.
(** Whether [CONFIG_STDK_IOT_CORE_LOG_FILE] is set. *)
Context (with_log_file : bool).
Abbreviation D := (st dworld).

Definition set_all (l : list Z) (w : dworld) : dworld := DWorld _ (d_log w) l (temp_buf w) (remain_number w).
Definition set_temp (l : list Z) (w : dworld) : dworld := DWorld _ (d_log w) (all_log_dump w) l (remain_number w).
Definition set_remain (n : Z) (w : dworld) : dworld := DWorld _ (d_log w) (all_log_dump w) (temp_buf w) n.
Definition on_log {A} (m : st lworld A) : D A := fun w =>
  match m (d_log w) with
  | Ret (a, l) => Ret (a, DWorld _ l (all_log_dump w) (temp_buf w) (remain_number w))
  | Undef => Undef
  | Hang => Hang
  end.

(** ** Copying into the dump *)

(** The [n] bytes of the source from [o] on. *)
Definition read_source (src : dump_source) (o n : Z) : D (list Z) :=
  match src with
  | no_source => undef
  | other l => bytes_at l o n
  | from_temp => t ← gets temp_buf; bytes_at t o n
  end.

(** [memcpy(buf + d, src + o, n)]; bytes that are copied onto themselves stay. *)
Definition copy_to_temp (d : Z) (src : dump_source) (o n : Z) : D unit :=
  match src with
  | from_temp => if (0 <? n) && negb (d =? o) && (Z.abs (d - o) <? n) then undef else mret tt
  | _ => mret tt
  end;;
  b ← read_source src o n;
  t ← gets temp_buf;
  t ← copy_at t d b;
  modify (set_temp t).

(** [iot_security_base64_encode] to the dump, from [pos] on. *)
Definition encode_to (bytes : list Z) (pos room : Z) : D (Z * Z) := fun w =>
  match iot_security_base64_encode size_max (Some bytes) true room true (Cursor (all_log_dump w) (Z.to_nat pos)) with
  | Ret ((err, olen), c) => Ret ((err, default 0 olen), set_all (cmem c) w)
  | Undef => Undef
  | Hang => Hang
  end.

(** Step 1: the bytes that remained and the first new ones, as one group of
    three; the number of bytes taken, and of characters written. *)
Definition copy_step1 (pos dest_size : Z) (src : dump_source) : D (Z * Z * Z) :=
  r ← gets remain_number;
  if 0 <? r then
    copy_to_temp r src 0 (3 - r);;
    t ← gets temp_buf;
    three ← bytes_at t 0 3;
    '(iot_err, pre_out_len) ← encode_to three pos dest_size;
    if iot_err <? 0 then mret (iot_err, 3 - r, 0)
    else
      t ← gets temp_buf;
      t ← copy_at t 0 [0; 0; 0];
      modify (set_temp t);;
      mret (iot_err, 3 - r, pre_out_len)
  else mret (IOT_ERROR_NONE, 0, 0).

(** Steps 2 and 3: whole groups of three, and what remains to [temp_buf]. *)
Definition copy_groups (pos dest_size : Z) (src : dump_source) (src_size pre_copy_len pre_out_len iot_err : Z) : D (Z * Z) :=
  let rest := to_size (src_size - pre_copy_len) in
  let main_copy_len := GET_LARGEST_MULTIPLE rest 3 in
  modify (set_remain (rest mod 3));;
  '(iot_err, main_out_len) ←
    (if 0 <? main_copy_len then
       b ← read_source src pre_copy_len main_copy_len;
       encode_to b (pos + pre_out_len) (to_size (dest_size - pre_out_len))
     else mret (iot_err, 0));
  if iot_err <? 0 then mret (iot_err, pre_out_len)
  else
    copy_to_temp 0 src (pre_copy_len + main_copy_len) (rest mod 3);;
    mret (iot_err, pre_out_len + main_out_len).

(** The error and [*written_len]; [dest] is [all_log_dump + pos], and the
    buffer is [temp_buf]. *)
Definition _iot_dump_copy_memory (pos dest_size : Z) (src : dump_source) (src_size : Z) (need_base64 : bool) : D (Z * Z) :=
  if (match src with no_source => true | _ => false end) || (dest_size <=? 0) || (src_size <=? 0) then mret (IOT_ERROR_BAD_REQ, 0)
  else
    let src_size := if dest_size <? src_size then dest_size else src_size in
    if negb need_base64 then
      b ← read_source src 0 src_size;
      a ← gets all_log_dump;
      a ← copy_at a pos b;
      modify (set_all a);;
      mret (IOT_ERROR_NONE, src_size)
    else
      '(iot_err, pre_copy_len, pre_out_len) ← copy_step1 pos dest_size src;
      if iot_err <? 0 then mret (iot_err, 0)
      else copy_groups pos dest_size src src_size pre_copy_len pre_out_len iot_err.

(** ** The dump *)

(** Messages from the log, into [temp_buf] behind what remained and from there
    into the dump; [msg_size] is what [iot_log_file_read] has read. *)
Fixpoint message_loop (fuel : nat) (logfile : nat) (max_msg_size curr_size output_log_size : Z) (need_base64 : bool) : D (Z * Z) :=
  match fuel with
  | O => hang
  | S fuel =>
      if max_msg_size =? 0 then mret (IOT_ERROR_NONE, curr_size)
      else
        r ← gets remain_number;
        let msg_size := to_size (IOT_DUMP_BUFFER_SIZE - r) in
        let msg_size := if max_msg_size <? msg_size then max_msg_size else msg_size in
        '(_, b, n) ← on_log (iot_log_file_read (Some logfile) true msg_size);
        t ← gets temp_buf;
        t ← copy_at t r b;
        modify (set_temp t);;
        let msg_size := default msg_size n in
        let max_msg_size := to_size (max_msg_size - msg_size) in
        modify (set_remain 0);;
        '(iot_err, written_len) ←
          _iot_dump_copy_memory curr_size (to_int (output_log_size - curr_size)) from_temp (to_int (msg_size + r)) need_base64;
        if iot_err <? 0 then mret (iot_err, curr_size)
        else message_loop fuel logfile max_msg_size (to_size (curr_size + written_len)) output_log_size need_base64
  end.

(** What is returned, with the dump and its size when there is one. *)
Definition dump_result : Type := Z * option (list Z * Z).

(** [end:]. *)
Definition dump_failed (logfile : option nat) (iot_err : Z) : D dump_result :=
  match logfile with Some f => _ ← on_log (iot_log_file_close (Some f)); mret tt | None => mret tt end;;
  mret (iot_err, None).

(** The messages; [max_msg_size] of them are copied, after a seek to where they
    start, and the log is closed.  [None] when all went well. *)
Definition dump_messages (fuel : nat) (logfile : option nat) (max_msg_size curr_size output_log_size : Z) (need_base64 : bool)
  : D (Z * Z) :=
  match logfile with
  | None => mret (IOT_ERROR_NONE, curr_size)
  | Some f =>
      h ← on_log (handle f);
      _ ← on_log (iot_log_file_seek f (to_int (0 - max_msg_size)) (tail_addr h));
      '(iot_err, curr_size) ← message_loop fuel f max_msg_size curr_size output_log_size need_base64;
      if iot_err <? 0 then mret (iot_err, curr_size)
      else _ ← on_log (iot_log_file_close (Some f)); mret (iot_err, curr_size)
  end.

(** The bytes that remain at the end, filled up. *)
Definition dump_rest (curr_size output_log_size : Z) (need_base64 : bool) : D (Z * Z) :=
  r ← gets remain_number;
  if negb (r =? 0) then
    t ← gets temp_buf;
    t ← copy_at t r (replicate (Z.to_nat (3 - r)) 0);
    modify (set_temp t);;
    _iot_dump_copy_memory curr_size (to_int (output_log_size - curr_size)) from_temp (3 - r) need_base64
  else mret (IOT_ERROR_NONE, 0).

(** The header and the state, into the dump; a null header is written to when
    the size of the state has to be cleared. *)
Definition dump_header (output_log_size : Z) (need_base64 need_dump_state : bool) : D (Z * Z) :=
  have ← on_log (dev log_malloc);
  if negb (have : bool) && negb need_dump_state then undef
  else
    let header := if (have : bool) then other (dump_header_bytes (if need_dump_state then sizeof_dump_state else 0)) else no_source in
    _iot_dump_copy_memory 0 (to_int output_log_size) header sizeof_dump_header need_base64.
Definition dump_state (iot_ctx : option dump_context) (curr_size output_log_size : Z) (need_base64 : bool) : D (Z * Z) :=
  have ← on_log (dev log_malloc);
  let state := if (have : bool) then other (dump_state_bytes iot_ctx) else no_source in
  _iot_dump_copy_memory curr_size (to_int (output_log_size - curr_size)) state sizeof_dump_state need_base64.

(** After the allocation of the dump. *)
Definition dump_body (fuel : nat) (iot_ctx : option dump_context) (logfile : option nat) (max_msg_size output_log_size : Z)
  (need_base64 need_dump_state : bool) : D dump_result :=
  '(iot_err, curr_size) ← dump_header output_log_size need_base64 need_dump_state;
  if iot_err <? 0 then dump_failed logfile iot_err
  else
    '(iot_err, n) ← (if need_dump_state then dump_state iot_ctx curr_size output_log_size need_base64 else mret (iot_err, 0));
    if iot_err <? 0 then dump_failed logfile iot_err
    else
      let curr_size := curr_size + n in
      '(iot_err, curr_size) ← dump_messages fuel logfile max_msg_size curr_size output_log_size need_base64;
      if iot_err <? 0 then dump_failed logfile iot_err
      else
        '(iot_err, n) ← dump_rest curr_size output_log_size need_base64;
        if iot_err <? 0 then dump_failed logfile iot_err
        else a ← gets all_log_dump; mret (iot_err, Some (a, output_log_size)).

(** The sizes: how much of the log is dumped, and the size of the dump. *)
Definition prefix_size (need_dump_state : bool) : Z := sizeof_dump_header + (if need_dump_state then sizeof_dump_state else 0).
Definition min_log_size (need_base64 need_dump_state : bool) : Z :=
  if need_base64 then IOT_SECURITY_B64_ENCODE_LEN (prefix_size need_dump_state) else prefix_size need_dump_state.
Definition message_size (max_log_dump_size stored_log_size : Z) (need_base64 need_dump_state : bool) : Z :=
  let room := to_size ((if need_base64 then (max_log_dump_size - 1) / 4 * 3 else max_log_dump_size) - prefix_size need_dump_state) in
  GET_LARGEST_MULTIPLE (if stored_log_size <? room then stored_log_size else room) IOT_DUMP_LOG_MSG_LINE_LENGTH.
Definition output_size (max_msg_size : Z) (need_base64 need_dump_state : bool) : Z :=
  let n := max_msg_size + prefix_size need_dump_state in if need_base64 then IOT_SECURITY_B64_ENCODE_LEN n else n.

Definition st_create_log_dump (fuel : nat) (iot_ctx : option dump_context) (max_log_dump_size log_mode : Z) : D dump_result :=
  let need_base64 := Z.testbit log_mode 0 in
  let need_dump_state := Z.testbit log_mode 1 in
  if max_log_dump_size <? min_log_size need_base64 need_dump_state then mret (IOT_ERROR_BAD_REQ, None)
  else
    modify (fun w => set_temp (replicate (Z.to_nat IOT_DUMP_BUFFER_SIZE) 0) (set_remain 0 w));;
    opened ← (if with_log_file then on_log (iot_log_file_open log_file_type) else mret None);
    if with_log_file && bool_decide (opened = None) then mret (IOT_ERROR_BAD_REQ, None)
    else
      let logfile := fst <$> opened in
      let max_msg_size := message_size max_log_dump_size (default 0 (snd <$> opened)) need_base64 need_dump_state in
      let output_log_size := output_size max_msg_size need_base64 need_dump_state in
      have ← on_log (dev log_malloc);
      if negb (have : bool) then dump_failed logfile IOT_ERROR_MEM_ALLOC
      else
        modify (set_all (replicate (Z.to_nat output_log_size) 0));;
        dump_body fuel iot_ctx logfile max_msg_size output_log_size need_base64 need_dump_state.

(** ** Messages *)

Inductive iot_debug_level := LEVEL_ERROR | LEVEL_WARN | LEVEL_INFO | LEVEL_DEBUG | LEVEL_OTHER (n : Z).
Definition level_number (l : iot_debug_level) : Z :=
  match l with LEVEL_ERROR => 1 | LEVEL_WARN => 2 | LEVEL_INFO => 3 | LEVEL_DEBUG => 4 | LEVEL_OTHER n => n end.

(** [compiled]: the levels that the SDK is built with. *)
Definition iot_dump_log (compiled : iot_debug_level -> bool) (level : iot_debug_level) (log_id arg1 arg2 : Z) : st lworld unit :=
  if negb (match level with LEVEL_OTHER _ => true | _ => compiled level end) then mret tt
  else
    let msg0 := to_int (Z.lor (Z.shiftl (Z.land (level_number level) 15) 28) (Z.land log_id 65535)) in
    _ ← iot_log_file_store (int_bytes msg0 ++ int_bytes (to_int time_of_day) ++ int_bytes arg1 ++ int_bytes arg2); mret tt.
End dump.
