(* ===== verification/LogDumpCopy.v ===== *)
(** * The log dump: pieces of a text

    What [_iot_dump_copy_memory] makes of pieces that come one after the other:
    as base64 they go in groups of three bytes, across the pieces, through
    [temp_buf]; and what is done with the bytes that remain at the end. *)

From S2P Require Import Prelude Cursor MainState Base64 LogFile LogRing LogFlash LogDump.

(** ** Groups of three *)

(** What of a text is in whole groups, and what remains. *)
Definition grouped (l : list Z) : list Z := take (length l / 3 * 3) l.
Definition left_over (l : list Z) : list Z := drop (length l / 3 * 3) l.

Lemma length_grouped l : length (grouped l) = (length l / 3 * 3)%nat.
Proof. unfold grouped. rewrite length_take. pose proof (Nat.Div0.mul_div_le (length l) 3). lia. Qed.
Lemma length_left_over l : length (left_over l) = (length l mod 3)%nat.
Proof. unfold left_over. rewrite length_drop. pose proof (Nat.div_mod_eq (length l) 3). lia. Qed.
Lemma grouped_left l : grouped l ++ left_over l = l.
Proof. apply take_drop. Qed.
Lemma grouped_mod l : zlen (grouped l) mod 3 = 0.
Proof. unfold zlen. rewrite length_grouped, Nat2Z.inj_mul. apply Z.mod_mul. lia. Qed.

(** Pieces of a text go in groups one after the other. *)
Lemma grouped_app q l : grouped (q ++ l) = grouped q ++ grouped (left_over q ++ l).
Proof.
  rewrite <- (grouped_left q) at 1. rewrite <- app_assoc. unfold grouped at 1. rewrite length_app, length_grouped.
  set (k := (length q / 3)%nat). rewrite Nat.add_comm, Nat.div_add, Nat.mul_add_distr_r, Nat.add_comm by lia.
  rewrite take_app_ge, length_grouped by (rewrite length_grouped; lia). fold k. unfold grouped at 3. do 2 f_equal. lia.
Qed.
Lemma left_over_app q l : left_over (q ++ l) = left_over (left_over q ++ l).
Proof.
  apply (app_inv_head (grouped (q ++ l))). rewrite grouped_left, grouped_app, <- app_assoc, grouped_left, app_assoc, grouped_left. done.
Qed.

Lemma grouped_whole l : zlen l mod 3 = 0 -> grouped l = l /\ left_over l = [].
Proof.
  intros H. unfold grouped, left_over, zlen in *. assert (length l / 3 * 3 = length l)%nat as ->.
  { apply (inj Z.of_nat). rewrite Nat2Z.inj_mul, Nat2Z.inj_div. Z.to_euclidean_division_equations; lia. }
  by rewrite firstn_all, drop_all.
Qed.
Lemma grouped_groups l : grouped (grouped l) = grouped l /\ left_over (grouped l) = [].
Proof. apply grouped_whole, grouped_mod. Qed.
Lemma bytes_app l k : bytes (l ++ k) <-> bytes l /\ bytes k.
Proof. apply Forall_app. Qed.
Lemma bytes_nil : bytes [].
Proof. apply Forall_nil_2. Qed.
Lemma bytes_take n l : bytes l -> bytes (take n l).
Proof. apply Forall_take. Qed.
Lemma bytes_drop n l : bytes l -> bytes (drop n l).
Proof. apply Forall_drop. Qed.

Section copy.
Context `{LC : LogConfig} `{LB : LogBelow} `{DB : DumpBelow}.
Abbreviation D := (st dworld).
Context (Hmax : 4294967295 <= size_max).
#[local] Set Default Proof Using "Type*".

(** The dump in base64, when the text [q] has been taken: whole groups are in
    the dump, the rest is in [temp_buf]; zeros follow. *)
Definition dumped (output : Z) (q : list Z) (w : dworld) : Prop :=
  all_log_dump w = encoded (grouped q) ++ replicate (Z.to_nat (output - zlen (encoded (grouped q)))) 0 /\
  zlen (temp_buf w) = 48 /\ take (length q mod 3) (temp_buf w) = left_over q /\ remain_number w = zlen q mod 3.

Lemma encoded_grouped_length q : zlen (encoded (grouped q)) = zlen q / 3 * 4.
Proof.
  rewrite encoded_length. unfold zlen. rewrite length_grouped, Nat2Z.inj_mul, Nat2Z.inj_div.
  Z.to_euclidean_division_equations; lia.
Qed.

(** Some bytes, in whole groups, from the end of the text so far. *)
Lemma encode_to_runs output e b w : all_log_dump w = e ++ replicate (Z.to_nat (output - zlen e)) 0 -> bytes b -> b <> [] -> zlen b mod 3 = 0 ->
  zlen e + zlen b / 3 * 4 + 1 <= output < 2147483648 ->
  encode_to b (zlen e) (output - zlen e) w =
    Ret ((IOT_ERROR_NONE, zlen (encoded b)),
         set_all ((e ++ encoded b) ++ replicate (Z.to_nat (output - zlen (e ++ encoded b))) 0) w).
Proof.
  intros Hall Hb Hne Hm Hout. pose proof (encoded_length b) as El. pose proof (zlen_nonneg e) as He0. pose proof (zlen_nonneg b) as Hb0.
  assert ((zlen b + 2) / 3 = zlen b / 3) as E3 by (Z.to_euclidean_division_equations; lia). rewrite E3 in El.
  unfold encode_to. rewrite security_encode_writes; [|done|done|unfold IOT_SECURITY_B64_ENCODE_LEN; rewrite E3; lia|].
  - cbn [default from_option id cmem]. do 3 f_equal. rewrite Hall. unfold put.
    assert (Z.to_nat (zlen e) = length e) as -> by (unfold zlen; lia). rewrite take_app_length.
    rewrite drop_app_ge by lia. rewrite drop_replicate, <- !app_assoc. f_equal. f_equal.
    change [0] with (replicate 1 0). rewrite <- replicate_add. f_equal. rewrite !length_app. unfold zlen in *. rewrite length_app. cbn [length replicate]. lia.
  - rewrite Hall, zlen_app. unfold zlen. rewrite length_replicate. unfold zlen in *. lia.
Qed.

(** What the source holds. *)
Definition source_is (src : dump_source) (l : list Z) (w : dworld) : Prop :=
  match src with no_source => False | other x => x = l | from_temp => take (length l) (temp_buf w) = l end.

Lemma read_source_runs src l w o n : source_is src l w -> 0 <= o -> 0 <= n -> o + n <= zlen l ->
  read_source src o n w = Ret (take (Z.to_nat n) (drop (Z.to_nat o) l), w).
Proof.
  intros Hs Ho Hn Hl. destruct src as [|x|]; cbn [source_is] in Hs; [done| |]; cbn [read_source].
  - subst x. by apply bytes_at_in.
  - assert (zlen l <= zlen (temp_buf w)) as Ht.
    { apply (f_equal zlen) in Hs. unfold zlen in *. rewrite length_take in Hs. lia. }
    rewrite bind_gets, bytes_at_in by lia. rewrite <- Hs, skipn_firstn_comm, take_take. unfold zlen in *. do 3 f_equal. lia.
Qed.

(** A copy that does not overlap: from elsewhere, or from behind. *)
Lemma copy_to_temp_runs d src l w o n : source_is src l w -> 0 <= d -> 0 <= o -> 0 <= n -> o + n <= zlen l -> d + n <= zlen (temp_buf w) ->
  (src = from_temp -> d = o \/ n <= Z.abs (d - o)) ->
  copy_to_temp d src o n w = Ret (tt, set_temp (overwrite (temp_buf w) d (take (Z.to_nat n) (drop (Z.to_nat o) l))) w).
Proof.
  intros Hs Hd Ho Hn Hl Ht Hov. unfold copy_to_temp.
  assert ((match src with from_temp => if (0 <? n) && negb (d =? o) && (Z.abs (d - o) <? n) then undef else mret tt | _ => mret tt end) w
    = Ret (tt, w)) as E.
  { destruct src; [done..|]. destruct (Hov eq_refl) as [->|H]; [by rewrite Z.eqb_refl, andb_false_r|].
    rewrite (proj2 (Z.ltb_ge (Z.abs (d - o)) n)) by lia. by rewrite andb_false_r. }
  rewrite (bind_ret _ _ _ _ _ E), (bind_ret _ _ _ _ _ (read_source_runs src l w o n Hs Ho Hn Hl)), bind_gets.
  rewrite bind_copy_at; [done|lia|]. unfold zlen in *. rewrite length_take, length_drop. lia.
Qed.

Lemma source_is_ext src l w w' : temp_buf w' = temp_buf w -> source_is src l w -> source_is src l w'.
Proof. intros H. destruct src; cbn; by rewrite ?H. Qed.

(** The room that the code allocates for [n] bytes is enough. *)
Abbreviation out := IOT_SECURITY_B64_ENCODE_LEN.
Lemma room_enough k l n : 0 <= k -> 0 <= l -> k + l <= n -> l < out n - k / 3 * 4.
Proof. unfold out. intros ???. Z.to_euclidean_division_equations; lia. Qed.
Lemma room_groups k n : 0 <= k <= n -> k / 3 * 4 + 1 <= out n.
Proof. unfold out. intros ?. Z.to_euclidean_division_equations; lia. Qed.

Definition ends_in (e : list Z) (output : Z) (w : dworld) : Prop := all_log_dump w = e ++ replicate (Z.to_nat (output - zlen e)) 0.

(** Step 2: the whole groups. *)
Lemma groups_part n q src S pre w : let l := drop (Z.to_nat pre) S in
  ends_in (encoded q) (out n) w -> zlen q mod 3 = 0 -> source_is src S w -> bytes l -> 0 <= pre <= zlen S -> (zlen q + (zlen S - pre)) / 3 * 4 + 1 <= out n -> out n < 2147483648 ->
  exists w', (if 0 <? zlen (grouped l) then
        b ← read_source src pre (zlen (grouped l)); encode_to b (zlen (encoded q)) (out n - zlen (encoded q))
      else mret (IOT_ERROR_NONE, 0)) w = Ret ((IOT_ERROR_NONE, zlen (encoded (grouped l))), w') /\
    ends_in (encoded (q ++ grouped l)) (out n) w' /\ temp_buf w' = temp_buf w /\ d_log w' = d_log w /\ remain_number w' = remain_number w.
Proof.
  intros l Hall Hq Hs Hb Hpre Hn Hout. pose proof (zlen_nonneg q). pose proof (zlen_nonneg (grouped l)) as Hg0.
  assert (zlen l = zlen S - pre) as El by (unfold l, zlen in *; rewrite length_drop; lia).
  assert (zlen (grouped l) = zlen l / 3 * 3) as Hg by (unfold zlen; rewrite length_grouped, Nat2Z.inj_mul, Nat2Z.inj_div; lia).
  assert (zlen (grouped l) <= zlen l) as Hgl by (rewrite Hg; Z.to_euclidean_division_equations; lia).
  rewrite encoded_app by done. destruct (Z.ltb_spec 0 (zlen (grouped l))) as [H0|H0].
  - rewrite (bind_ret _ _ _ _ _ (read_source_runs src S w pre (zlen (grouped l)) Hs ltac:(lia) ltac:(lia) ltac:(lia))).
    fold l. assert (take (Z.to_nat (zlen (grouped l))) l = grouped l) as -> by (unfold zlen; by rewrite Nat2Z.id, length_grouped).
    rewrite (encode_to_runs (out n) (encoded q) (grouped l) w Hall).
    + eexists. split; [reflexivity|]. split_and!; done.
    + by apply bytes_take.
    + intros E. rewrite E in H0. by change (0 < 0) in H0.
    + apply grouped_mod.
    + rewrite encoded_length. split; [|done]. unfold out in *. Z.to_euclidean_division_equations; lia.
  - exists w. assert (grouped l = []) as -> by (destruct (grouped l); [done|rewrite zlen_cons in H0; pose proof (zlen_nonneg l0); lia]).
    split; [done|]. cbn [encoded]. rewrite app_nil_r. split_and!; done.
Qed.

Lemma copy_groups_runs n q src S pre w pos pre_out : let l := drop (Z.to_nat pre) S in
  ends_in (encoded q) (out n) w -> zlen q mod 3 = 0 -> zlen (temp_buf w) = 48 -> source_is src S w -> bytes l -> 0 <= pre <= zlen S ->
  (src = from_temp -> pre = 0 \/ pre = zlen S) -> (zlen q + (zlen S - pre)) / 3 * 4 + 1 <= out n -> out n < 2147483648 -> pos + pre_out = zlen (encoded q) ->
  exists w', copy_groups pos (out n - pos) src (zlen S) pre pre_out IOT_ERROR_NONE w =
      Ret ((IOT_ERROR_NONE, zlen (encoded (grouped (q ++ l))) - pos), w') /\ dumped (out n) (q ++ l) w' /\ d_log w' = d_log w.
Proof.
  intros l Hall Hq Ht Hs Hb Hpre Htemp Hn Hout Hpos. pose proof (zlen_nonneg q). pose proof (zlen_nonneg S). pose proof (grouped_whole q Hq) as [Gq Lq].
  assert (zlen l = zlen S - pre) as El by (unfold l, zlen in *; rewrite length_drop; lia).
  assert (zlen (grouped l) = zlen l / 3 * 3) as Hg by (unfold zlen; rewrite length_grouped, Nat2Z.inj_mul, Nat2Z.inj_div; lia).
  assert (zlen l < 2147483648) as HS by (unfold out in *; Z.to_euclidean_division_equations; lia).
  assert (grouped (q ++ l) = q ++ grouped l) as Gql by (by rewrite grouped_app, Lq, Gq).
  assert (left_over (q ++ l) = left_over l) as Lql by (by rewrite left_over_app, Lq).
  assert (0 <= out n - zlen (encoded q)) as Hroom by (rewrite encoded_length; unfold out in *; Z.to_euclidean_division_equations; lia).
  pose proof (zlen_nonneg (encoded q)).
  unfold copy_groups. rewrite <- El, (size_small (zlen l)) by lia. unfold GET_LARGEST_MULTIPLE. rewrite <- Hg. cbv zeta.
  change ((modify (set_remain (zlen l mod 3)) ≫= ?k) w) with (k tt (set_remain (zlen l mod 3) w)). cbv beta.
  set (w0 := set_remain _ w). rewrite Hpos. replace (out n - pos - pre_out) with (out n - zlen (encoded q)) by lia.
  rewrite size_small by lia.
  destruct (groups_part n q src S pre w0) as (w1 & E1 & Hall1 & T1 & D1 & R1); try done.
  fold l in E1, Hall1. rewrite (bind_ret _ _ _ _ _ E1). change (IOT_ERROR_NONE <? 0) with false. cbv iota.
  pose proof (source_is_ext _ _ _ w1 T1 Hs) as Hs1.
  assert (0 <= zlen l mod 3 < 3) as Hm by (apply Z.mod_pos_bound; lia).
  pose proof (Z.div_mod (zlen l) 3 ltac:(lia)) as Hdm.
  rewrite (bind_ret _ _ _ _ _ (copy_to_temp_runs 0 src S w1 (pre + zlen (grouped l)) (zlen l mod 3) Hs1 ltac:(lia) ltac:(lia) ltac:(lia)
    ltac:(lia) ltac:(rewrite T1; unfold w0; cbn; lia) ltac:(intros E; destruct (Htemp E); [lia|right; Z.to_euclidean_division_equations; lia]))).
  match goal with |- exists _, mret _ ?x = _ /\ _ => exists x end. split; [|split; [|exact D1]].
  - rewrite Gql, encoded_app, zlen_app by done. unfold mret, st_ret. do 3 f_equal. lia.
  - assert (take (Z.to_nat (zlen l mod 3)) (drop (Z.to_nat (pre + zlen (grouped l))) S) = left_over l) as ->.
    { rewrite Z2Nat.inj_add, <- drop_drop by lia. fold l. unfold left_over, zlen. rewrite Nat2Z.id, length_grouped. rewrite take_ge; [done|].
      rewrite length_drop. fold (zlen l). pose proof (length_left_over l) as Hlo. unfold left_over in Hlo. rewrite length_drop in Hlo. rewrite Hlo.
      unfold zlen. rewrite <- (Nat2Z.inj_mod _ 3). lia. }
    rewrite T1. unfold w0. cbn [temp_buf set_remain]. split_and!; cbn [set_temp all_log_dump temp_buf remain_number].
    + rewrite Gql. exact Hall1.
    + rewrite overwrite_length; [done|lia|]. unfold zlen in *. rewrite length_left_over. pose proof (Nat.mod_upper_bound (length l) 3). lia.
    + rewrite Lql. unfold overwrite. change (Z.to_nat 0) with 0%nat. rewrite take_0, app_nil_l.
      assert (length (q ++ l) mod 3 = length (left_over l))%nat as -> by (by rewrite <- length_left_over, Lql).
      apply take_app_length.
    + rewrite R1. unfold w0. cbn. rewrite zlen_app, Z.add_mod, Hq, Z.add_0_l, Z.mod_mod by lia. done.
Qed.

Lemma zlen_left_over q : zlen (left_over q) = zlen q mod 3.
Proof. unfold zlen. rewrite length_left_over. apply (Nat2Z.inj_mod _ 3). Qed.

(** Step 1: a group of what remained and of new bytes. *)
Lemma step1_runs n q src l w : dumped (out n) q w -> source_is src l w -> (src = from_temp -> 3 - zlen q mod 3 <= zlen q mod 3) -> bytes q -> bytes l -> 0 < zlen q mod 3 -> 3 - zlen q mod 3 <= zlen l ->
  zlen q + 3 - zlen q mod 3 <= n + 2 -> out n < 2147483648 ->
  exists w', copy_step1 (zlen (encoded (grouped q))) (out n - zlen (encoded (grouped q))) src w =
      Ret ((IOT_ERROR_NONE, 3 - zlen q mod 3, 4), w') /\ 
    ends_in (encoded (q ++ take (Z.to_nat (3 - zlen q mod 3)) l)) (out n) w' /\ zlen (temp_buf w') = 48 /\ take 3 (temp_buf w') = [0; 0; 0] /\ d_log w' = d_log w.
Proof.
  intros (Hall & Ht & Htk & Hr) Hs Hov Hbq Hbl Hm Hl Hn Hout. set (r := zlen q mod 3) in *. set (m := take (Z.to_nat (3 - r)) l).
  pose proof (Z.mod_pos_bound (zlen q) 3 ltac:(lia)) as Hr3. fold r in Hr3. pose proof (zlen_nonneg q).
  assert (zlen m = 3 - r) as Em by (unfold m, zlen in *; rewrite length_take; lia).
  pose proof (zlen_left_over q) as El. fold r in El.
  assert (length q mod 3 = Z.to_nat r)%nat as Er by (rewrite <- length_left_over; unfold zlen in El; lia).
  rewrite Er in Htk. set (three := left_over q ++ m).
  assert (zlen three = 3) as E3 by (unfold three; rewrite zlen_app; lia).
  unfold copy_step1. rewrite bind_gets, Hr. fold r. rewrite (proj2 (Z.ltb_lt 0 r)) by lia.
  rewrite (bind_ret _ _ _ _ _ (copy_to_temp_runs r src l w 0 (3 - r) Hs ltac:(lia) ltac:(lia) ltac:(lia) ltac:(lia) ltac:(lia) ltac:(intros E; specialize (Hov E); lia))).
  change (drop (Z.to_nat 0) l) with l. fold m. set (t1 := overwrite (temp_buf w) r m).
  assert (zlen t1 = 48) as Ht1 by (unfold t1; rewrite overwrite_length; lia).
  assert (take (Z.to_nat 3) (drop (Z.to_nat 0) t1) = three) as E1.
  { change (drop (Z.to_nat 0) t1) with t1. unfold t1, overwrite, three. rewrite Htk, app_assoc.
    apply take_app_length'. unfold zlen in *. rewrite length_app. lia. }
  rewrite bind_gets. cbn [set_temp temp_buf]. rewrite bind_bytes_at by lia. rewrite E1.
  pose proof (encoded_length three) as Ee. rewrite E3 in Ee. change ((3 + 2) / 3 * 4) with 4 in Ee.
  rewrite (bind_ret _ _ _ _ _ (encode_to_runs (out n) (encoded (grouped q)) three (set_temp t1 w) Hall
    ltac:(apply bytes_app; split; [by apply bytes_drop|by apply bytes_take]) ltac:(intros E; by rewrite E in E3) ltac:(by rewrite E3)
    ltac:(rewrite encoded_grouped_length, E3; unfold out in *; Z.to_euclidean_division_equations; lia))).
  change (IOT_ERROR_NONE <? 0) with false. cbv iota beta. rewrite bind_gets. cbn [set_temp set_all temp_buf].
  rewrite bind_copy_at by (done || (rewrite Ht1; done)). rewrite Ee.
  eexists. split; [reflexivity|]. cbn [set_temp set_all all_log_dump temp_buf d_log]. split_and!; [|by rewrite overwrite_length; [..|rewrite Ht1]|done..].
  unfold ends_in. cbn [set_temp set_all all_log_dump]. rewrite <- encoded_app by apply grouped_mod. unfold three.
  by rewrite app_assoc, grouped_left.
Qed.

(** Behind the checks of the arguments. *)
Lemma copy_memory_head n k src (l : list Z) w : match src with no_source => False | _ => True end -> l <> [] -> zlen l < out n - k / 3 * 4 ->
  _iot_dump_copy_memory (k / 3 * 4) (out n - k / 3 * 4) src (zlen l) true w =
    ('(iot_err, pre_copy_len, pre_out_len) ← copy_step1 (k / 3 * 4) (out n - k / 3 * 4) src;
     if iot_err <? 0 then mret (iot_err, 0)
     else copy_groups (k / 3 * 4) (out n - k / 3 * 4) src (zlen l) pre_copy_len pre_out_len iot_err) w.
Proof.
  intros Hs Hl Hroom. unfold _iot_dump_copy_memory.
  assert (0 < zlen l) as H0 by (destruct l; [done|rewrite zlen_cons; pose proof (zlen_nonneg l); lia]).
  rewrite (proj2 (Z.leb_gt _ 0)), (proj2 (Z.leb_gt _ 0)), (proj2 (Z.ltb_ge _ _)) by lia. by destruct src.
Qed.

Lemma copy_other n q l w : dumped (out n) q w -> bytes q -> bytes l -> l <> [] -> (0 < zlen q mod 3 -> 3 - zlen q mod 3 <= zlen l) ->
  zlen q + zlen l <= n -> out n < 2147483648 ->
  exists w', _iot_dump_copy_memory (zlen (encoded (grouped q))) (out n - zlen (encoded (grouped q))) (other l) (zlen l) true w =
      Ret ((IOT_ERROR_NONE, zlen (encoded (grouped (q ++ l))) - zlen (encoded (grouped q))), w') /\
    dumped (out n) (q ++ l) w' /\ d_log w' = d_log w.
Proof.
  intros Hd Hbq Hbl Hne Hr Hn Hout. pose proof Hd as (Hall & Ht & Htk & Hrem). rewrite encoded_grouped_length.
  pose proof (zlen_nonneg q). pose proof (zlen_nonneg l). pose proof (room_enough (zlen q) (zlen l) n ltac:(lia) ltac:(lia) ltac:(lia)) as Hroom. rewrite copy_memory_head by done. rewrite <- encoded_grouped_length.
  pose proof (Z.mod_pos_bound (zlen q) 3 ltac:(lia)) as Hr3. destruct (decide (zlen q mod 3 = 0)) as [E0|E0].
  - unfold copy_step1. rewrite bind_assoc, bind_gets, Hrem, E0. change (0 <? 0) with false. cbv iota. rewrite bind_mret. cbv beta iota.
    change (IOT_ERROR_NONE <? 0) with false. cbv iota. destruct (grouped_whole q E0) as [Gq _]. rewrite Gq in *.
    apply (copy_groups_runs n q (other l) l 0 w); done || lia || (apply room_groups; lia).
  - destruct (step1_runs n q (other l) l w Hd eq_refl ltac:(done) Hbq Hbl ltac:(lia) ltac:(lia) ltac:(lia) Hout) as (w1 & E1 & Hall1 & Ht1 & _ & D1).
    rewrite (bind_ret _ _ _ _ _ E1). change (IOT_ERROR_NONE <? 0) with false. cbv beta iota. set (r := zlen q mod 3) in *.
    set (m := take (Z.to_nat (3 - r)) l) in *. assert (zlen m = 3 - r) as Em by (unfold m, zlen in *; rewrite length_take; lia).
    assert (zlen (q ++ m) mod 3 = 0) as Hqm by (rewrite zlen_app, Em; unfold r in *; Z.to_euclidean_division_equations; lia).
    destruct (copy_groups_runs n (q ++ m) (other l) l (3 - r) w1 (zlen (encoded (grouped q))) 4) as (w2 & E2 & Hd2 & D2); try done || lia.
    + by apply bytes_drop.
    + apply room_groups. rewrite zlen_app. lia.
    + rewrite encoded_grouped_length, encoded_length, zlen_app, Em. unfold r in *. Z.to_euclidean_division_equations; lia.
    + assert ((q ++ m) ++ drop (Z.to_nat (3 - r)) l = q ++ l) as Eq by (unfold m; by rewrite <- app_assoc, take_drop).
      rewrite Eq in *. exists w2. split_and!; [exact E2|exact Hd2|congruence].
Qed.

(** From [temp_buf], where nothing remains. *)
Lemma copy_temp n q l w : ends_in (encoded q) (out n) w -> zlen q mod 3 = 0 -> zlen (temp_buf w) = 48 -> remain_number w = 0 ->
  take (length l) (temp_buf w) = l -> bytes l -> l <> [] -> zlen q + zlen l <= n -> out n < 2147483648 ->
  exists w', _iot_dump_copy_memory (zlen (encoded q)) (out n - zlen (encoded q)) from_temp (zlen l) true w =
      Ret ((IOT_ERROR_NONE, zlen (encoded (grouped (q ++ l))) - zlen (encoded q)), w') /\
    dumped (out n) (q ++ l) w' /\ d_log w' = d_log w.
Proof.
  intros Hall Hq Ht Hr Htk Hbl Hne Hn Hout. destruct (grouped_whole q Hq) as [Gq _]. assert (zlen (encoded q) = zlen q / 3 * 4) as Ee by (by rewrite <- encoded_grouped_length, Gq).
  pose proof (zlen_nonneg q). pose proof (zlen_nonneg l). pose proof (room_enough (zlen q) (zlen l) n ltac:(lia) ltac:(lia) ltac:(lia)) as Hroom.
  rewrite Ee, copy_memory_head by done. rewrite <- Ee.
  unfold copy_step1. rewrite bind_assoc, bind_gets, Hr. change (0 <? 0) with false. cbv iota. rewrite bind_mret. cbv beta iota.
  change (IOT_ERROR_NONE <? 0) with false. cbv iota. apply (copy_groups_runs n q from_temp l 0 w); done || lia || (apply room_groups; lia).
Qed.

(** ** Both modes *)

(** The text [q] has been taken, of [n] bytes in all. *)
Definition taken (b64 : bool) (n : Z) (q : list Z) (w : dworld) : Prop :=
  if b64 then dumped (out n) q w else ends_in q n w /\ zlen (temp_buf w) = 48 /\ remain_number w = 0.
Definition position (b64 : bool) (q : list Z) : Z := if b64 then zlen (encoded (grouped q)) else zlen q.
Definition room (b64 : bool) (n : Z) : Z := if b64 then out n else n.

Lemma taken_temp b64 n q w : taken b64 n q w -> zlen (temp_buf w) = 48.
Proof. destruct b64; by intros (_ & ? & _). Qed.

(** The bytes that have been copied over zeros. *)
Lemma ends_in_app n q l w : ends_in q n w -> zlen q + zlen l <= n ->
  exists a, copy_at (all_log_dump w) (zlen q) l w = Ret (a, w) /\ ends_in (q ++ l) n (set_all a w).
Proof.
  intros Hall Hn. pose proof (zlen_nonneg q). pose proof (zlen_nonneg l). eexists. split.
  - apply copy_at_in; [done|]. rewrite Hall, zlen_app. unfold zlen in *. rewrite length_replicate. lia.
  - unfold ends_in. cbn [set_all all_log_dump]. rewrite Hall. unfold zlen in *. rewrite Nat2Z.id, take_app_length.
    rewrite drop_app_ge by lia. rewrite drop_replicate, app_assoc. do 2 f_equal. rewrite length_app. lia.
Qed.

Lemma copy_plain n q src l w : ends_in q n w -> source_is src l w -> l <> [] -> zlen q + zlen l <= n ->
  exists w', _iot_dump_copy_memory (zlen q) (n - zlen q) src (zlen l) false w = Ret ((IOT_ERROR_NONE, zlen l), w') /\
    ends_in (q ++ l) n w' /\ temp_buf w' = temp_buf w /\ remain_number w' = remain_number w /\ d_log w' = d_log w.
Proof.
  intros Hall Hs Hne Hn. pose proof (zlen_nonneg q).
  assert (0 < zlen l) as H0 by (destruct l; [done|rewrite zlen_cons; pose proof (zlen_nonneg l); lia]).
  unfold _iot_dump_copy_memory. rewrite (proj2 (Z.leb_gt _ 0)), (proj2 (Z.leb_gt _ 0)), (proj2 (Z.ltb_ge _ _)) by lia.
  destruct (ends_in_app n q l w Hall Hn) as (a & Ea & Ha).
  assert (match src with no_source => true | _ => false end = false) as -> by (by destruct src). cbn [orb negb]. cbv iota zeta.
  rewrite (bind_ret _ _ _ _ _ (read_source_runs src l w 0 (zlen l) Hs ltac:(lia) ltac:(lia) ltac:(lia))). change (drop (Z.to_nat 0) l) with l.
  rewrite take_ge by (unfold zlen; lia). rewrite bind_gets, (bind_ret _ _ _ _ _ Ea).
  exists (set_all a w). split_and!; done.
Qed.

(** A piece from elsewhere. *)
Lemma copy_piece b64 n q l w : taken b64 n q w -> bytes q -> bytes l -> 3 <= zlen l -> zlen q + zlen l <= n -> room b64 n < 2147483648 ->
  exists w', _iot_dump_copy_memory (position b64 q) (room b64 n - position b64 q) (other l) (zlen l) b64 w =
      Ret ((IOT_ERROR_NONE, position b64 (q ++ l) - position b64 q), w') /\ taken b64 n (q ++ l) w' /\ d_log w' = d_log w.
Proof.
  intros Hd Hbq Hbl Hl Hn Hout. assert (l <> []) as Hne by (intros ->; change (3 <= 0) in Hl; lia). pose proof (zlen_nonneg q).
  destruct b64; cbn [taken position room] in *.
  - apply copy_other; try done. intros. lia.
  - destruct Hd as (Hall & Ht & Hr). destruct (copy_plain n q (other l) l w) as (w' & E & Hall' & T' & R' & D'); try done.
    exists w'. rewrite E, zlen_app. split_and!; [do 3 f_equal; lia|done|congruence..].
Qed.

(** A piece in [temp_buf], behind what remained there. *)
Lemma copy_messages b64 n q l t w : taken b64 n q w -> bytes q -> bytes l -> l <> [] -> zlen q + zlen l <= n -> room b64 n < 2147483648 ->
  remain_number w + zlen l <= 48 -> t = overwrite (temp_buf w) (remain_number w) l ->
  exists w', _iot_dump_copy_memory (position b64 q) (room b64 n - position b64 q) from_temp (zlen l + remain_number w) b64 (set_remain 0 (set_temp t w)) =
      Ret ((IOT_ERROR_NONE, position b64 (q ++ l) - position b64 q), w') /\ taken b64 n (q ++ l) w' /\ d_log w' = d_log w.
Proof.
  intros Hd Hbq Hbl Hne Hn Hout H48 Ht. pose proof (taken_temp _ _ _ _ Hd) as H48t. pose proof (zlen_nonneg q).
  assert (0 <= remain_number w) as Hr0.
  { destruct b64; cbn [taken] in Hd; destruct Hd as (_ & _ & Hd); [destruct Hd as [_ ->]; apply Z.mod_pos_bound; lia|lia]. }
  assert (zlen t = 48) as Hlt by (subst t; rewrite overwrite_length; lia).
  destruct b64; cbn [taken position room] in *.
  - destruct Hd as (Hall & _ & Htk & Hr). rewrite Hr. pose proof (grouped_left q) as Hq.
    pose proof (zlen_left_over q) as Elo. set (l' := left_over q ++ l).
    assert (zlen l' = zlen l + zlen q mod 3) as <- by (unfold l'; rewrite zlen_app; lia).
    assert (grouped q ++ l' = q ++ l) as Eq by (unfold l'; by rewrite app_assoc, Hq).
    assert (take (Z.to_nat (remain_number w)) (temp_buf w) = left_over q) as Hlo.
    { rewrite <- Htk. f_equal. rewrite Hr, <- Elo. unfold zlen. by rewrite Nat2Z.id, length_left_over. }
    assert (take (length l') t = l') as Htl.
    { subst t. unfold overwrite. rewrite Hlo, app_assoc. by apply take_app_length'. }
    rewrite <- Eq. destruct (copy_temp n (grouped q) l' (set_remain 0 (set_temp t w))) as (w' & E & Hd' & D'); try done.
    + apply grouped_mod.
    + by apply bytes_app; split; [apply bytes_drop|].
    + unfold l'. intros [_ E]%app_nil. done.
    + assert (zlen (grouped q) + zlen l' = zlen q + zlen l) by (rewrite <- !zlen_app; by rewrite Eq). lia.
    + exists w'. split_and!; done.
  - destruct Hd as (Hall & _ & Hr). rewrite Hr, Z.add_0_r in *.
    destruct (copy_plain n q from_temp l (set_remain 0 (set_temp t w))) as (w' & E & Hall' & T' & R' & D'); try done.
    + cbn [source_is set_remain set_temp temp_buf]. subst t. unfold overwrite. change (Z.to_nat 0) with 0%nat.
      rewrite take_0, app_nil_l. apply take_app_length.
    + exists w'. rewrite E, zlen_app, T', R'. split_and!; [do 3 f_equal; lia|done..].
Qed.

Lemma bind_on_log {A B} (m : st lworld A) (k : A -> st dworld B) w a l : m (d_log w) = Ret (a, l) ->
  (on_log m ≫= k) w = k a (DWorld _ l (all_log_dump w) (temp_buf w) (remain_number w)).
Proof. intros E. unfold on_log, mbind, st_bind. by rewrite E. Qed.

Lemma position_room b64 n q : 0 <= n -> zlen q <= n -> 0 <= position b64 q <= room b64 n.
Proof.
  intros Hn Hq. pose proof (zlen_nonneg q). destruct b64; cbn [position room].
  - rewrite encoded_grouped_length. unfold out. Z.to_euclidean_division_equations; lia.
  - lia.
Qed.
Lemma remain_range b64 n q w : taken b64 n q w -> 0 <= remain_number w < 3.
Proof. destruct b64; intros (_ & _ & H); [destruct H as [_ ->]; apply Z.mod_pos_bound; lia|lia]. Qed.
Lemma int_small z : 0 <= z < 2147483648 -> to_int z = z.
Proof. intros H. unfold to_int. rewrite Z.mod_small by lia. by rewrite (proj2 (Z.ltb_lt z 2147483648)) by lia. Qed.

(** ** The end of the text *)

Lemma rest_whole b64 n q w : taken b64 n q w -> (b64 = true -> zlen q mod 3 = 0) ->
  dump_rest (position b64 q) (room b64 n) b64 w = Ret ((IOT_ERROR_NONE, 0), w).
Proof.
  intros Hw Hq. unfold dump_rest. rewrite bind_gets. assert (remain_number w = 0) as ->; [|done].
  destruct b64; destruct Hw as (_ & _ & Hr); [destruct Hr as [_ ->]; by apply Hq|done].
Qed.

(** [temp_buf] filled up with zeros: what remained is still there. *)
Lemma fill_temp n q w : dumped (out n) q w ->
  dumped (out n) q (set_temp (overwrite (temp_buf w) (zlen q mod 3) (replicate (Z.to_nat (3 - zlen q mod 3)) 0)) w).
Proof.
  intros (Hall & Ht & Htk & Hr). pose proof (zlen_nonneg q). pose proof (Z.mod_pos_bound (zlen q) 3 ltac:(lia)) as Hm.
  split_and!; cbn [set_temp all_log_dump temp_buf remain_number]; [done| |..|done].
  - rewrite overwrite_length; [done|lia|]. unfold zlen at 2. rewrite length_replicate. lia.
  - transitivity (take (length q mod 3) (temp_buf w)); [|exact Htk]. unfold overwrite.
    assert (length q mod 3 = Z.to_nat (zlen q mod 3))%nat as -> by (unfold zlen; rewrite <- (Nat2Z.inj_mod _ 3), Nat2Z.id; done).
    rewrite take_app_le by (rewrite length_take; unfold zlen in *; lia). rewrite take_take. f_equal. lia.
Qed.

(** With two bytes left the last group is these two and the first again. *)
Definition first_left (q : list Z) : Z := nth (length q - 2) q 0.
Lemma left_two q : zlen q mod 3 = 2 -> exists y, left_over q = [first_left q; y].
Proof.
  intros H. pose proof (zlen_left_over q) as Hl. rewrite H in Hl. pose proof (grouped_left q) as Hq.
  destruct (left_over q) as [|x [|y [|z l]]] eqn:E; try (unfold zlen in Hl; cbn [length] in Hl; lia).
  exists y. f_equal. unfold first_left. rewrite <- Hq, length_app. cbn [length].
  rewrite app_nth2 by lia. by replace (length (grouped q) + 2 - 2 - length (grouped q))%nat with 0%nat by lia.
Qed.

Lemma rest_two n q w : dumped (out n) q w -> bytes q -> zlen q mod 3 = 2 -> zlen q <= n -> out n < 2147483648 ->
  exists w', dump_rest (position true q) (room true n) true w = Ret ((IOT_ERROR_NONE, 4), w') /\
    ends_in (encoded (q ++ [first_left q])) (out n) w' /\ d_log w' = d_log w.
Proof.
  intros Hd Hb Hq Hn Hout. pose proof Hd as (Hall & Ht & Htk & Hr). pose proof (zlen_nonneg q). pose proof (left_two q Hq) as (y & El).
  pose proof (fill_temp n q w Hd) as Hd1. rewrite Hq in Hr, Hd1. change (Z.to_nat (3 - 2)) with 1%nat in Hd1.
  unfold dump_rest. rewrite bind_gets, Hr. change (negb (2 =? 0)) with true. cbv iota. rewrite bind_gets.
  change (Z.to_nat (3 - 2)) with 1%nat. rewrite bind_copy_at by (rewrite ?Ht; done).
  set (t := overwrite _ _ _) in *. set (w1 := set_temp t w) in *.
  match goal with |- context [(modify ?f ≫= ?k) ?s] => change ((modify f ≫= k) s) with (k tt w1) end. cbv beta.
  pose proof (position_room true n q ltac:(lia) Hn) as Hpos. rewrite int_small by (cbn [room] in *; lia). cbn [position room].
  change (3 - 2) with (zlen [first_left q]). assert (1 < out n - zlen q / 3 * 4) as Hroom by (unfold out; Z.to_euclidean_division_equations; lia).
  rewrite encoded_grouped_length, copy_memory_head by done. rewrite <- encoded_grouped_length.
  assert (source_is from_temp [first_left q] w1) as Hs.
  { destruct Hd1 as (_ & _ & Htk1 & _). rewrite El in Htk1. cbn. 
    assert (length q mod 3 = 2)%nat as E2 by (apply (inj Z.of_nat); rewrite Nat2Z.inj_mod; exact Hq). rewrite E2 in Htk1.
    change (temp_buf w1) with t in Htk1. assert (take 1 t = take 1 (take 2 t)) as -> by (by rewrite take_take). by rewrite Htk1. }
  destruct (step1_runs n q from_temp [first_left q] w1 Hd1 Hs) as (w2 & E2 & Hall2 & Ht2 & Hz2 & D2); rewrite ?Hq; try done || lia.
  { assert (bytes (left_over q)) as Hlo by (by apply bytes_drop). rewrite El in Hlo. apply Forall_cons in Hlo as [Hx _]. apply Forall_cons. by split. }
  rewrite Hq in *. change (3 - 2) with 1 in *. change (Z.to_nat 1) with 1%nat in *. cbn [take] in Hall2.
  rewrite (bind_ret _ _ _ _ _ E2). change (IOT_ERROR_NONE <? 0) with false. cbv beta iota. change (zlen [first_left q]) with (zlen [0]).
  assert (zlen (q ++ [first_left q]) = zlen q + 1) as Eq1 by (rewrite zlen_app; done).
  assert (zlen (encoded (q ++ [first_left q])) = zlen (encoded (grouped q)) + 4) as Ee.
  { rewrite encoded_length, encoded_grouped_length, Eq1. Z.to_euclidean_division_equations; lia. }
  destruct (copy_groups_runs n (q ++ [first_left q]) from_temp [0] 1 w2 (zlen (encoded (grouped q))) 4) as (w3 & E3 & Hd3 & D3); try done.
  - rewrite Eq1. Z.to_euclidean_division_equations; lia.
  - cbn [source_is length]. assert (take 1 (temp_buf w2) = take 1 (take 3 (temp_buf w2))) as -> by (by rewrite take_take). by rewrite Hz2.
  - by apply bytes_drop, Forall_singleton.
  - by right.
  - rewrite Eq1. change (zlen [0] - 1) with 0. unfold out in *. Z.to_euclidean_division_equations; lia.
  - exists w3. change (drop (Z.to_nat 1) [0]) with (@nil Z) in *. rewrite app_nil_r in *.
    destruct (grouped_whole (q ++ [first_left q])) as [Gq _]; [rewrite Eq1; Z.to_euclidean_division_equations; lia|].
    rewrite Gq in E3. destruct Hd3 as (Hall3 & _). rewrite Gq in Hall3. split_and!; [|exact Hall3|by rewrite D3, D2].
    rewrite E3, Ee. do 3 f_equal. lia.
Qed.

(** With one byte left [memcpy] copies two bytes within [temp_buf] that
    overlap. *)
Lemma rest_one n q w : dumped (out n) q w -> zlen q mod 3 = 1 -> zlen q <= n -> out n < 2147483648 ->
  dump_rest (position true q) (room true n) true w = Undef.
Proof.
  intros Hd Hq Hn Hout. pose proof Hd as (Hall & Ht & Htk & Hr). pose proof (zlen_nonneg q). rewrite Hq in Hr.
  unfold dump_rest. rewrite bind_gets, Hr. change (negb (1 =? 0)) with true. cbv iota. rewrite bind_gets.
  change (Z.to_nat (3 - 1)) with 2%nat. rewrite bind_copy_at by (rewrite ?Ht; done).
  match goal with |- context [(modify ?f ≫= ?k) ?s] => change ((modify f ≫= k) s) with (k tt (f s)) end. cbv beta.
  pose proof (position_room true n q ltac:(lia) Hn) as Hpos. rewrite int_small by (cbn [room] in *; lia). cbn [position room].
  assert (2 < out n - zlen q / 3 * 4) as Hroom by (unfold out; Z.to_euclidean_division_equations; lia).
  change (3 - 1) with (zlen [0; 0]). rewrite encoded_grouped_length, copy_memory_head by done.
  unfold copy_step1. rewrite bind_assoc, bind_gets. cbn [set_temp remain_number]. by rewrite Hr.
Qed.
End copy.
