(* ===== verification/LogDumpSpec.v ===== *)
(** * The log dump: what it contains

    The header, the state of the device and the end of the log, in both modes,
    for any log that [LogSource] describes, and for the log in RAM. *)

From S2P Require Import Prelude Cursor MainState Base64 LogFile LogRing LogFlash LogDump LogDumpCopy.

(** ** The log that is read

    What the dump needs of the log file with the text [content]: a handle to
    open, a position to find, reads of one byte after the other, and an end. *)
Class LogSource `{LogConfig} `{LogBelow} (content : list Z) := {
  starts : lworld -> Prop;
  opened : lworld -> nat -> Prop;
  serves : lworld -> nat -> list Z -> Prop;
  closed : lworld -> Prop;
  source_dev d w p : opened w p -> opened (LWorld _ (log_ctx w) (l_handles w) (l_next w) d) p;
  source_open w : starts w -> exists p w', iot_log_file_open log_file_type w = Ret (Some (p, zlen content), w') /\ opened w' p;
  source_seek w p m : opened w p -> 0 <= m <= zlen content ->
    exists h e w', handle p w = Ret (h, w) /\ iot_log_file_seek p (to_int (0 - m)) (tail_addr h) w = Ret (e, w') /\
      serves w' p (lastn (Z.to_nat m) content);
  source_read w p l n : serves w p l -> 0 < n <= zlen l ->
    exists w', iot_log_file_read (Some p) true n w = Ret ((IOT_ERROR_NONE, take (Z.to_nat n) l, Some n), w') /\
      serves w' p (drop (Z.to_nat n) l);
  source_close w p l : serves w p l -> exists w', iot_log_file_close (Some p) w = Ret (IOT_ERROR_NONE, w') /\ closed w'
}.

Section messages.
Context `{LC : LogConfig} `{LB : LogBelow} `{DB : DumpBelow} (content : list Z) `{LS : !LogSource content}.
Context (Hmax : 4294967295 <= size_max).
#[local] Set Default Proof Using "Type*".
Abbreviation out := IOT_SECURITY_B64_ENCODE_LEN.

(** All of what the log serves is taken. *)
Lemma message_loop_runs b64 n p : room b64 n < 2147483648 -> forall fuel l q w, (length l < fuel)%nat ->
  taken b64 n q w -> serves (d_log w) p l -> bytes q -> bytes l -> zlen q + zlen l <= n ->
  exists w', message_loop fuel p (zlen l) (position b64 q) (room b64 n) b64 w = Ret ((IOT_ERROR_NONE, position b64 (q ++ l)), w') /\
    taken b64 n (q ++ l) w' /\ serves (d_log w') p [].
Proof.
  intros Hroom. induction fuel as [|fuel IH]; intros l q w Hf Hw Hs Hbq Hbl Hn; [lia|]. cbn [message_loop].
  pose proof (zlen_nonneg q) as Hq0. destruct l as [|x l0].
  { rewrite app_nil_r. exists w. split_and!; done. }
  set (l := x :: l0) in *. assert (0 < zlen l) as Hl by (unfold l; rewrite zlen_cons; pose proof (zlen_nonneg l0); lia).
  assert (0 <= n < 2147483648) as Hn31 by (destruct b64; cbn [room] in Hroom; unfold out in *; Z.to_euclidean_division_equations; lia).
  rewrite (proj2 (Z.eqb_neq (zlen l) 0)), bind_gets by lia. pose proof (remain_range _ _ _ _ Hw) as Hr. pose proof (taken_temp _ _ _ _ Hw) as Ht.
  set (r := remain_number w) in *. unfold IOT_DUMP_BUFFER_SIZE. rewrite (size_small (48 - r)) by lia.
  set (m := if zlen l <? 48 - r then zlen l else 48 - r).
  assert (0 < m <= zlen l /\ m <= 48 - r) as [Hm Hm48] by (unfold m; destruct (Z.ltb_spec (zlen l) (48 - r)); lia).
  destruct (source_read (d_log w) p l m Hs Hm) as (w1 & E1 & Hs1). rewrite (bind_on_log _ _ _ _ _ E1). cbv beta iota.
  set (b := take (Z.to_nat m) l) in *. assert (zlen b = m) as Eb by (unfold b, zlen in *; rewrite length_take; lia).
  rewrite bind_gets. cbn [temp_buf]. rewrite bind_copy_at by lia. cbn [default from_option id].
  rewrite (size_small (zlen l - m)), (int_small (m + r)) by lia.
  pose proof (position_room b64 n q ltac:(lia) ltac:(lia)) as Hpos. rewrite int_small by lia.
  assert (b <> []) as Hbne by (intros E; rewrite E in Eb; change (zlen []) with 0 in Eb; lia).
  assert (bytes b) as Hbb by (by apply bytes_take). assert (b ++ drop (Z.to_nat m) l = l) as Ebl by apply take_drop.
  set (d := DWorld _ w1 (all_log_dump w) (temp_buf w) r).
  assert (taken b64 n q d) as Hd by exact Hw.
  destruct (copy_messages Hmax b64 n q b _ d Hd Hbq Hbb Hbne ltac:(lia) Hroom ltac:(cbn; lia) eq_refl) as (w2 & E2 & Hw2 & D2).
  change (remain_number d) with r in E2. rewrite Eb in E2. cbn [d temp_buf] in E2.
  match goal with |- context [(modify ?f ≫= ?k) ?s] => change ((modify f ≫= k) s) with (k tt (f s)) end. cbv beta.
  match goal with |- context [(modify ?f ≫= ?k) ?s] => change ((modify f ≫= k) s) with (k tt (f s)) end. cbv beta.
  rewrite (bind_ret _ _ _ _ _ E2). change (IOT_ERROR_NONE <? 0) with false. cbv beta iota.
  pose proof (position_room b64 n (q ++ b) ltac:(lia) ltac:(rewrite zlen_app; lia)) as Hpos2.
  replace (position b64 q + (position b64 (q ++ b) - position b64 q)) with (position b64 (q ++ b)) by lia.
  rewrite size_small by lia.
  assert (zlen (drop (Z.to_nat m) l) = zlen l - m) as Ed by (unfold zlen in *; rewrite length_drop; lia). rewrite <- Ed.
  destruct (IH (drop (Z.to_nat m) l) (q ++ b) w2) as (w3 & E3 & Hw3 & Hs3); try done.
  - unfold zlen in *. lia.
  - rewrite D2. exact Hs1.
  - by apply bytes_app.
  - by apply bytes_drop.
  - rewrite zlen_app. lia.
  - rewrite <- app_assoc, Ebl in *. by exists w3.
Qed.

Lemma dump_messages_runs b64 n p q m w fuel : room b64 n < 2147483648 -> taken b64 n q w -> opened (d_log w) p -> bytes q -> bytes content ->
  0 <= m <= zlen content -> zlen q + m <= n -> m < Z.of_nat fuel ->
  let l := lastn (Z.to_nat m) content in
  exists w', dump_messages fuel (Some p) m (position b64 q) (room b64 n) b64 w = Ret ((IOT_ERROR_NONE, position b64 (q ++ l)), w') /\
    taken b64 n (q ++ l) w' /\ closed (d_log w').
Proof.
  intros Hroom Hw Ho Hbq Hbc Hm Hn Hf l. destruct (source_seek (d_log w) p m Ho Hm) as (h & e & l1 & E1 & E2 & Hs).
  assert (zlen l = m) as El by (unfold l, zlen in *; rewrite length_lastn; lia).
  unfold dump_messages. rewrite (bind_on_log _ _ _ _ _ E1).
  rewrite (bind_on_log _ _ (DWorld _ (d_log w) _ _ _) _ _ E2).
  set (w1 := DWorld _ _ _ _ _). assert (taken b64 n q w1) as Hw1 by exact Hw.
  destruct (message_loop_runs b64 n p Hroom fuel l q w1) as (w2 & E3 & Hw2 & Hs2); try done.
  - unfold zlen in El. lia.
  - by apply bytes_drop.
  - by rewrite El.
  - rewrite El in E3. rewrite (bind_ret _ _ _ _ _ E3). change (IOT_ERROR_NONE <? 0) with false. cbv beta iota.
    destruct (source_close (d_log w2) p [] Hs2) as (l3 & E4 & Hc). rewrite (bind_on_log _ _ _ _ _ E4).
    eexists. split; [reflexivity|]. split; [exact Hw2|exact Hc].
Qed.
End messages.

(** ** The dump *)

(** The bytes of an [int] and of a [long]. *)
Class DumpLaws `{DumpBelow} := {
  int_bytes_length z : zlen (int_bytes z) = 4;
  int_bytes_bytes z : bytes (int_bytes z);
  long_bytes_length z : zlen (long_bytes z) = sizeof_long;
  sizeof_long_range : 4 <= sizeof_long <= 8
}.

(** What is dumped. *)
Definition dump_text `{DumpBelow} (need_dump_state : bool) (c : option dump_context) (messages : list Z) : list Z :=
  dump_header_bytes (if need_dump_state then sizeof_dump_state else 0) ++ (if need_dump_state then dump_state_bytes c else []) ++ messages.

(** A text in base64 is filled up to groups of three, with its last but one byte. *)
Definition padding (l : list Z) : list Z := if zlen l mod 3 =? 2 then [first_left l] else [].
Definition dump_output (b64 : bool) (l : list Z) : list Z := if b64 then encoded (l ++ padding l) ++ [0] else l.

(** The terminator. *)
Lemma one_zero k : k = 1 -> replicate (Z.to_nat k) 0 = [0].
Proof. by intros ->. Qed.
Lemma padding_length l : zlen (padding l) = if zlen l mod 3 =? 2 then 1 else 0.
Proof. unfold padding. by destruct (_ =? 2). Qed.

Lemma fixed_length src len : length (COPY_STR_TO_BYTE src len) = len.
Proof. unfold COPY_STR_TO_BYTE. rewrite length_app, length_take, length_replicate. lia. Qed.
Lemma state_length `{DumpLaws} c : zlen (dump_state_bytes c) = sizeof_dump_state.
Proof.
  unfold dump_state_bytes, string_or_zeros, sizeof_dump_state. rewrite !zlen_app, !int_bytes_length, long_bytes_length.
  unfold zlen. rewrite !fixed_length. lia.
Qed.
Lemma header_size `{DumpLaws} z : zlen (dump_header_bytes z) = 16.
Proof. unfold dump_header_bytes. rewrite !zlen_app, !int_bytes_length. lia. Qed.
Lemma header_is_bytes `{DumpLaws} z : bytes (dump_header_bytes z).
Proof. unfold dump_header_bytes. repeat (apply bytes_app; split); apply int_bytes_bytes. Qed.
Lemma text_length `{DumpLaws} nds c l : zlen (dump_text nds c l) = prefix_size nds + zlen l.
Proof.
  unfold dump_text, prefix_size, sizeof_dump_header. rewrite !zlen_app, header_size.
  destruct nds; rewrite ?state_length; [lia|]. change (zlen []) with 0. lia.
Qed.
Lemma dump_text_bytes `{DumpLaws} nds c l : bytes (dump_state_bytes c) -> bytes l -> bytes (dump_text nds c l).
Proof.
  intros Hs Hl. unfold dump_text. apply bytes_app; split; [apply header_is_bytes|]. apply bytes_app; split; [|done].
  destruct nds; [done|apply bytes_nil].
Qed.

Section whole.
Context `{LC : LogConfig} `{LB : LogBelow} `{DB : DumpBelow} `{DL : !DumpLaws} (content : list Z) `{LS : !LogSource content}.
Context (Hmax : 4294967295 <= size_max) (memory : forall d, (log_malloc d).1 = true).
#[local] Set Default Proof Using "Type*".
Abbreviation out := IOT_SECURITY_B64_ENCODE_LEN.

Lemma bind_dump_malloc {B} (k : bool -> st dworld B) w :
  (on_log (dev log_malloc) ≫= k) w = k true (DWorld _ (LWorld _ (log_ctx (d_log w)) (l_handles (d_log w)) (l_next (d_log w)) (log_malloc (l_dev (d_log w))).2)
    (all_log_dump w) (temp_buf w) (remain_number w)).
Proof. apply bind_on_log. unfold dev. pose proof (memory (l_dev (d_log w))) as E. destruct (log_malloc (l_dev (d_log w))) as [have d]. cbn in E. by subst have. Qed.

(** Header and state. *)
Lemma prefix_runs b64 n nds ctx w : room b64 n < 2147483648 -> taken b64 n [] w -> bytes (dump_state_bytes ctx) -> prefix_size nds <= n ->
  exists w1 w2 k1 k2, dump_header (room b64 n) b64 nds w = Ret ((IOT_ERROR_NONE, k1), w1) /\
    (if nds then dump_state ctx k1 (room b64 n) b64 else mret (IOT_ERROR_NONE, 0)) w1 = Ret ((IOT_ERROR_NONE, k2), w2) /\
    k1 + k2 = position b64 (dump_text nds ctx []) /\ taken b64 n (dump_text nds ctx []) w2 /\
    (forall p, opened (d_log w) p -> opened (d_log w2) p).
Proof.
  intros Hroom Hw Hb Hn. pose proof sizeof_long_range as Hlong. set (hd := dump_header_bytes (if nds then sizeof_dump_state else 0)).
  pose proof (header_size (if nds then sizeof_dump_state else 0)) as Hhd. fold hd in Hhd.
  assert (bytes hd) as Hbhd by apply header_is_bytes. assert (16 <= prefix_size nds) as Hp16 by (unfold prefix_size, sizeof_dump_header, sizeof_dump_state; destruct nds; lia).
  assert (0 <= room b64 n) as Hr0 by (pose proof (position_room b64 n [] ltac:(lia) ltac:(rewrite zlen_nil; lia)); lia).
  unfold dump_header. rewrite bind_dump_malloc. cbn [negb andb]. fold hd. set (w0 := DWorld _ _ _ _ _).
  assert (taken b64 n [] w0) as Hw0 by exact Hw. rewrite int_small by done. unfold sizeof_dump_header.
  destruct (copy_piece Hmax b64 n [] hd w0 Hw0) as (w1 & E1 & Hw1 & D1); rewrite ?Hhd; try done || lia; [apply bytes_nil|rewrite zlen_nil; lia|].
  assert (position b64 [] = 0) as P0 by (by destruct b64). rewrite P0, Z.sub_0_r, Hhd in E1.
  cbn [app] in *. assert (forall p, opened (d_log w) p -> opened (d_log w1) p) as Ho1 by (intros p Hp; rewrite D1; by apply source_dev).
  rewrite Z.sub_0_r in E1. destruct nds.
  - pose proof (state_length ctx) as Hst. unfold dump_state.
    assert (taken b64 n hd (DWorld _ (LWorld _ (log_ctx (d_log w1)) (l_handles (d_log w1)) (l_next (d_log w1)) (log_malloc (l_dev (d_log w1))).2)
      (all_log_dump w1) (temp_buf w1) (remain_number w1))) as Hw1' by exact Hw1.
    destruct (copy_piece Hmax b64 n hd (dump_state_bytes ctx) _ Hw1' Hbhd Hb) as (w2 & E2 & Hw2 & D2).
    + rewrite Hst. unfold sizeof_dump_state. lia.
    + rewrite Hhd, Hst. exact Hn.
    + done.
    + pose proof (position_room b64 n hd ltac:(lia) ltac:(lia)) as Hpos. pose proof (position_room b64 n (hd ++ dump_state_bytes ctx)) as Hpos2.
      exists w1, w2, (position b64 hd), (position b64 (hd ++ dump_state_bytes ctx) - position b64 hd). split_and!; [exact E1| |..].
      * rewrite bind_dump_malloc, int_small by lia. rewrite Hst in E2. exact E2.
      * unfold dump_text. rewrite app_nil_r. fold hd. lia.
      * unfold dump_text. by rewrite app_nil_r.
      * intros p Hp. rewrite D2. by apply source_dev, Ho1.
  - exists w1, w1, (position b64 hd), 0. unfold dump_text. rewrite !app_nil_r. split_and!; try done. apply Z.add_0_r.
Qed.

(** The sizes fit: into the room that is allowed, and into each other. *)
Lemma sizes_fit max b64 nds m : m = message_size max (zlen content) b64 nds -> min_log_size b64 nds <= max < 2147483648 ->
  0 <= m <= zlen content /\ room b64 (m + prefix_size nds) <= max.
Proof.
  intros -> Hm. pose proof sizeof_long_range. pose proof (zlen_nonneg content). unfold message_size, min_log_size in *.
  assert (16 <= prefix_size nds) by (unfold prefix_size, sizeof_dump_header, sizeof_dump_state; destruct nds; lia). unfold out in *.
  assert (0 <= (if b64 then (max - 1) / 4 * 3 else max) - prefix_size nds < 2147483648) as Hr.
  { destruct b64; [Z.to_euclidean_division_equations; lia|lia]. }
  rewrite size_small by lia. set (k := (if b64 then (max - 1) / 4 * 3 else max) - prefix_size nds) in *. cbv zeta.
  assert (0 <= (if zlen content <? k then zlen content else k) <= zlen content /\ (if zlen content <? k then zlen content else k) <= k) as [Hs1 Hs2]
    by (destruct (Z.ltb_spec (zlen content) k); lia).
  set (s := if zlen content <? k then _ else _) in *. unfold GET_LARGEST_MULTIPLE, IOT_DUMP_LOG_MSG_LINE_LENGTH.
  assert (0 <= s / 16 * 16 <= s) as Hs3 by (Z.to_euclidean_division_equations; lia). split; [lia|].
  unfold room, out, k in *. destruct b64; [Z.to_euclidean_division_equations; lia|lia].
Qed.

(** Up to what remains at the end. *)
Lemma dump_up_to_rest fuel ctx max log_mode w :
  let b64 := Z.testbit log_mode 0 in let nds := Z.testbit log_mode 1 in
  let m := message_size max (zlen content) b64 nds in
  let t := dump_text nds ctx (lastn (Z.to_nat m) content) in
  starts (d_log w) -> bytes content -> bytes (dump_state_bytes ctx) -> min_log_size b64 nds <= max < 2147483648 -> m < Z.of_nat fuel ->
  exists w' p, taken b64 (zlen t) t w' /\ closed (d_log w') /\ bytes t /\ room b64 (zlen t) <= max /\
    st_create_log_dump true fuel ctx max log_mode w =
      ('(iot_err, n) ← dump_rest (position b64 t) (room b64 (zlen t)) b64;
       if iot_err <? 0 then dump_failed (Some p) iot_err else a ← gets all_log_dump; mret (iot_err, Some (a, room b64 (zlen t)))) w'.
Proof.
  intros b64 nds m t Hst Hbc Hbs Hmm Hf. destruct (sizes_fit max b64 nds m eq_refl Hmm) as [Hm Hroom].
  set (l := lastn (Z.to_nat m) content) in *. assert (zlen l = m) as El by (unfold l, zlen in *; rewrite length_lastn; lia).
  assert (bytes l) as Hbl by (by apply bytes_drop).
  pose proof (text_length nds ctx l) as Et. fold t in Et. rewrite El, Z.add_comm in Et. rewrite <- Et in Hroom.
  unfold st_create_log_dump. fold b64 nds. rewrite (proj2 (Z.ltb_ge max _)) by lia.
  match goal with |- context [(modify ?f ≫= ?k) w] => change ((modify f ≫= k) w) with (k tt (f w)) end. cbv beta.
  destruct (source_open (d_log w) Hst) as (p & l1 & E1 & Ho). set (w0 := set_temp _ (set_remain _ w)).
  rewrite (bind_on_log _ _ w0 _ _ E1). rewrite bool_decide_eq_false_2 by done. cbn [andb fmap option_fmap option_map fst snd default from_option id]. cbv zeta. fold m.
  rewrite bind_dump_malloc. cbn [negb].
  assert (output_size m b64 nds = room b64 (zlen t)) as Eo by (unfold output_size, room; by rewrite Et). rewrite Eo.
  match goal with |- context [(modify ?f ≫= ?k) ?s] => change ((modify f ≫= k) s) with (k tt (f s)) end. cbv beta.
  set (w1 := set_all _ _).
  assert (taken b64 (zlen t) [] w1) as Hw1.
  { destruct b64; [split_and!; try done|split; try done]; cbn; unfold ends_in; by rewrite Z.sub_0_r. }
  assert (opened (d_log w1) p) as Ho1 by (by apply source_dev).
  destruct (prefix_runs b64 (zlen t) nds ctx w1) as (w2 & w3 & k1 & k2 & E2 & E3 & Ek & Hw3 & Ho3); try done; [lia|lia|].
  unfold dump_body. rewrite (bind_ret _ _ _ _ _ E2). change (IOT_ERROR_NONE <? 0) with false. cbv beta iota.
  rewrite (bind_ret _ _ _ _ _ E3). change (IOT_ERROR_NONE <? 0) with false. cbv beta iota zeta. rewrite Ek.
  assert (dump_text nds ctx [] ++ l = t) as Etl by (unfold t, dump_text; by rewrite !app_nil_r, <- app_assoc).
  destruct (dump_messages_runs content Hmax b64 (zlen t) p (dump_text nds ctx []) m w3 fuel) as (w4 & E4 & Hw4 & Hc4); try done || lia.
  - by apply Ho3.
  - apply dump_text_bytes; [done|apply bytes_nil].
  - rewrite text_length, zlen_nil. lia.
  - fold l in E4, Hw4. rewrite Etl in E4, Hw4. rewrite (bind_ret _ _ _ _ _ E4). change (IOT_ERROR_NONE <? 0) with false. cbv beta iota.
    exists w4, p. split_and!; try done. by apply dump_text_bytes.
Qed.

Lemma create_log_dump_runs fuel ctx max log_mode w :
  let b64 := Z.testbit log_mode 0 in let nds := Z.testbit log_mode 1 in
  let m := message_size max (zlen content) b64 nds in
  let t := dump_text nds ctx (lastn (Z.to_nat m) content) in
  starts (d_log w) -> bytes content -> bytes (dump_state_bytes ctx) -> min_log_size b64 nds <= max < 2147483648 -> m < Z.of_nat fuel ->
  (b64 = true -> zlen t mod 3 <> 1) ->
  exists w', st_create_log_dump true fuel ctx max log_mode w = Ret ((IOT_ERROR_NONE, Some (dump_output b64 t, zlen (dump_output b64 t))), w') /\
    closed (d_log w') /\ zlen (dump_output b64 t) <= max.
Proof.
  intros b64 nds m t Hst Hbc Hbs Hmm Hf H1.
  destruct (dump_up_to_rest fuel ctx max log_mode w Hst Hbc Hbs Hmm Hf) as (w1 & p & Hw1 & Hc1 & Hbt & Hroom & E1).
  fold b64 nds m t in E1, Hw1, Hbt, Hroom. pose proof (zlen_nonneg t). rewrite E1.
  assert (zlen (dump_output b64 t) = room b64 (zlen t)) as Eo.
  { destruct b64; [|done]. cbn [dump_output room]. unfold out. rewrite zlen_app, encoded_length, zlen_app, padding_length. change (zlen [0]) with 1.
    destruct (Z.eqb_spec (zlen t mod 3) 2); Z.to_euclidean_division_equations; lia. }
  rewrite Eo. destruct (decide (b64 = true /\ zlen t mod 3 = 2)) as [[Hb H2]|Hn].
  - rewrite Hb in *. destruct (rest_two Hmax (zlen t) t w1 Hw1 Hbt H2) as (w2 & E2 & Hall2 & D2); [lia|cbn [room] in Hroom; lia|].
    rewrite (bind_ret _ _ _ _ _ E2). change (IOT_ERROR_NONE <? 0) with false. cbv beta iota. rewrite bind_gets.
    exists w2. rewrite D2. split_and!; [|done..]. unfold mret, st_ret. do 4 f_equal.
    rewrite Hall2. unfold dump_output, padding. rewrite H2. change (2 =? 2) with true. cbv iota. f_equal.
    rewrite encoded_length, zlen_app. change (zlen [first_left t]) with 1. f_equal. apply one_zero. unfold out.
    Z.to_euclidean_division_equations; lia.
  - assert (b64 = true -> zlen t mod 3 = 0) as H0.
    { intros Hb. specialize (H1 Hb). pose proof (Z.mod_pos_bound (zlen t) 3 ltac:(lia)). assert (zlen t mod 3 <> 2) by (intros E; by apply Hn). lia. }
    rewrite (bind_ret _ _ _ _ _ (rest_whole Hmax b64 (zlen t) t w1 Hw1 H0)). change (IOT_ERROR_NONE <? 0) with false. cbv beta iota. rewrite bind_gets.
    exists w1. split_and!; [|done..]. unfold mret, st_ret. do 4 f_equal. destruct b64; cbn [taken dump_output room] in *.
    + destruct Hw1 as (Hall & _). destruct (grouped_whole t (H0 eq_refl)) as [Gt _]. rewrite Hall, Gt.
      unfold padding. rewrite (H0 eq_refl). change (0 =? 2) with false. cbv iota. rewrite app_nil_r. f_equal.
      rewrite encoded_length. f_equal. apply one_zero. specialize (H0 eq_refl). unfold out. Z.to_euclidean_division_equations; lia.
    + destruct Hw1 as (Hall & _). rewrite Hall, Z.sub_diag. change (replicate (Z.to_nat 0) 0) with (@nil Z). by rewrite app_nil_r.
Qed.

Lemma create_log_dump_one_left fuel ctx max log_mode w :
  let nds := Z.testbit log_mode 1 in let m := message_size max (zlen content) true nds in
  starts (d_log w) -> bytes content -> bytes (dump_state_bytes ctx) -> min_log_size true nds <= max < 2147483648 -> m < Z.of_nat fuel ->
  Z.testbit log_mode 0 = true -> zlen (dump_text nds ctx (lastn (Z.to_nat m) content)) mod 3 = 1 ->
  st_create_log_dump true fuel ctx max log_mode w = Undef.
Proof.
  intros nds m Hst Hbc Hbs Hmm Hf Hb H1.
  destruct (dump_up_to_rest fuel ctx max log_mode w) as (w1 & p & Hw1 & _ & _ & Hroom & E1); rewrite ?Hb; try done.
  rewrite Hb in *. fold nds m in E1, Hw1, Hroom. rewrite E1. apply bind_undef, rest_one; try done. cbn [room] in Hroom. lia.
Qed.
End whole.

(** ** The log in RAM as the source *)

Section ram.
Context `{LC : LogConfig} `{LB : LogBelow}.
Abbreviation N := IOT_LOG_FILE_RAM_BUF_SIZE.
Context (Hram : log_file_type = RAM_ONLY) (Hmax : 4294967295 <= size_max) (memory : forall d, (log_malloc d).1 = true).
Context (c : iot_log_file_ctx) (Hwf : wf_buf c) (HN : 0 < N < 2147483648).
(** The position is reduced modulo 2^32 before it is reduced to the buffer. *)
Context (Hdiv : overridden c = true -> 4294967296 mod N = 0).
#[local] Set Default Proof Using "Type*".

Definition ram_handle (w : lworld) (p : nat) (h : iot_log_file_handle_t) : Prop :=
  log_ctx w = Some (set_enable false c) /\ l_handles w !! p = Some h /\
  start_addr h = 0 /\ log_size h = ram_size c /\ file_type h = RAM_ONLY.
Definition ram_opened (w : lworld) (p : nat) : Prop := exists h, ram_handle w p h /\ tail_addr h = cnt c /\ 0 <= cur_addr h <= ram_size c.
Definition ram_serves (w : lworld) (p : nat) (l : list Z) : Prop :=
  exists h, ram_handle w p h /\ 0 <= cur_addr h <= ram_size c /\ zlen l <= ram_size c /\
    take (length l) (round (cur_addr h) (ram_area (ram_size c) c)) = l.
Definition ram_closed (w : lworld) : Prop := exists c', log_ctx w = Some c' /\ wf_buf c' /\ enable c' = true /\ kept c' = kept c.

Lemma ram_kept_length : zlen (kept c) = ram_size c.
Proof.
  pose proof (ram_size_range c Hwf) as (H1 & H2). pose proof Hwf as (_ & Hb & _).
  rewrite <- ram_round, round_length by done. apply ram_area_length; [done|lia].
Qed.

Lemma ram_source_open w : log_ctx w = Some c -> exists p w', iot_log_file_open log_file_type w = Ret (Some (p, zlen (kept c)), w') /\ ram_opened w' p.
Proof.
  intros Hc. destruct (ram_open Hram Hmax memory c w Hc Hwf) as (w' & h & E & Hc' & Hh & F1 & F2 & F3 & F4 & F5).
  exists (l_next w), w'. rewrite ram_kept_length, Hram. split; [exact E|]. pose proof (ram_size_range c Hwf) as (Hr & _).
  exists h. split; [|split; [exact F5|by rewrite F3]].
  split_and!; try done. by rewrite Hh, lookup_insert_eq.
Qed.

(** Where the last [m] bytes start. *)
Lemma seek_position m : 0 <= m <= ram_size c -> 0 < ram_size c ->
  let o := to_uint (cnt c - 0 + - m) mod ram_size c in
  0 <= o < ram_size c /\ take (Z.to_nat m) (round o (ram_area (ram_size c) c)) = lastn (Z.to_nat m) (kept c).
Proof.
  intros Hm Hs o. pose proof (ram_size_range c Hwf) as (H1 & H2). pose proof Hwf as (_ & Hb & Hcnt & _).
  assert (0 <= ram_size c <= N) as Hr by lia. pose proof (ram_area_length (ram_size c) c Hb Hr) as Ha. pose proof (Z.mod_pos_bound (to_uint (cnt c - 0 + - m)) (ram_size c) Hs) as Ho.
  fold o in Ho. split; [done|]. unfold lastn. pose proof ram_kept_length as Hk.
  destruct (decide (m = 0)) as [->|Hm0]; [rewrite take_0, drop_ge; [done|]; change (Z.to_nat 0) with 0%nat; lia|].
  assert (o = ram_position c + (ram_size c - m) \/ o = ram_position c + (ram_size c - m) - ram_size c) as Hc.
  { unfold o, to_uint, ram_position, ram_size in *. rewrite Z.sub_0_r. destruct (Z.lt_ge_cases (cnt c) m).
    - destruct (overridden c); [left|lia]. specialize (Hdiv eq_refl). apply Z.mod_divide in Hdiv as [k Hk']; [|lia].
      assert ((cnt c + - m) mod 4294967296 = cnt c - m + 4294967296) as -> by (symmetry; apply (Z.mod_unique _ _ (-1)); lia).
      rewrite Hk', Z.mod_add by lia. symmetry. apply (Z.mod_unique _ _ (-1)); lia.
    - rewrite (Z.mod_small (cnt c + - m)) by lia. rewrite Z.mod_small by (destruct (overridden c); lia). destruct (overridden c); [right|left]; lia. }
  rewrite (round_step (ram_position c) o (ram_size c - m) m) by (rewrite ?Ha; lia). rewrite ram_round by done.
  rewrite take_ge by (rewrite length_drop; unfold zlen in *; lia). f_equal. unfold zlen in *. lia.
Qed.

Lemma ram_source_seek w p m : ram_opened w p -> 0 <= m <= zlen (kept c) ->
  exists h e w', handle p w = Ret (h, w) /\ iot_log_file_seek p (to_int (0 - m)) (tail_addr h) w = Ret (e, w') /\
    ram_serves w' p (lastn (Z.to_nat m) (kept c)).
Proof.
  intros (h & (Hc & Hp & F1 & F2 & F3) & F4 & F5) Hm. rewrite ram_kept_length in Hm. pose proof (ram_size_range c Hwf) as (H1 & H2).
  pose proof ram_kept_length as Hk.
  assert (handle p w = Ret (h, w)) as Eh by (unfold handle; rewrite bind_gets, Hp; done).
  assert (to_int (0 - m) = - m) as Em.
  { unfold to_int. rewrite Z.sub_0_l. destruct (decide (m = 0)) as [->|]; [done|].
    assert (- m mod 4294967296 = 4294967296 - m) as -> by (symmetry; apply (Z.mod_unique _ _ (-1)); lia).
    rewrite (proj2 (Z.ltb_ge _ _)) by lia. lia. }
  rewrite Em. exists h. unfold iot_log_file_seek. rewrite (bind_ret _ _ _ _ _ Eh), F2. destruct (Z.eqb_spec (ram_size c) 0) as [H0|H0].
  - exists IOT_ERROR_INVALID_ARGS, w. split_and!; [done..|]. assert (m = 0) as -> by lia.
    assert (kept c = []) as -> by (destruct (kept c); [done|rewrite zlen_cons in Hk; pose proof (zlen_nonneg l); lia]).
    exists h. rewrite lastn_nil. split_and!; [by split_and!|lia|lia|rewrite zlen_nil; lia|done].
  - destruct (seek_position m) as (Ho & El); [lia..|]. rewrite F1, F4. cbv zeta. set (o := to_uint (cnt c - 0 + - m) mod ram_size c) in *.
    rewrite (int_small o), (proj2 (Z.ltb_ge o 0)), uint_small by lia.
    exists IOT_ERROR_NONE. eexists. split; [done|]. split; [reflexivity|]. exists (set_cur (0 + o) h). cbn [set_cur cur_addr].
    assert (zlen (lastn (Z.to_nat m) (kept c)) = m) as Elm by (unfold zlen in *; rewrite length_lastn; lia).
    split_and!; [split_and!; [done|cbn; by rewrite lookup_insert_eq|done..]|lia..|].
    assert (length (lastn (Z.to_nat m) (kept c)) = Z.to_nat m) as -> by (unfold zlen in Elm; lia). exact El.
Qed.

Lemma ram_source_read w p l n : ram_serves w p l -> 0 < n <= zlen l ->
  exists w', iot_log_file_read (Some p) true n w = Ret ((IOT_ERROR_NONE, take (Z.to_nat n) l, Some n), w') /\
    ram_serves w' p (drop (Z.to_nat n) l).
Proof.
  intros (h & (Hc & Hp & F1 & F2 & F3) & Ho & Hl & El) Hn. pose proof (ram_size_range c Hwf) as (H1 & H2). pose proof Hwf as (_ & Hb & _).
  destruct (ram_read_round Hram Hmax (set_enable false c) w p h (cur_addr h) n) as (w' & h' & E & Hc' & Hh' & G1 & G2 & G3 & G4 & G5);
    try done || lia.
  change (ram_area (log_size h) (set_enable false c)) with (ram_area (log_size h) c) in E. rewrite F2 in *.
  assert (0 <= ram_size c <= N) as Hr by lia. pose proof (ram_area_length (ram_size c) c Hb Hr) as Ha.
  exists w'. rewrite E, Z.min_l by lia. split.
  - do 4 f_equal. symmetry. rewrite <- El at 1. rewrite take_take. f_equal. unfold zlen in *. lia.
  - exists h'. split_and!; [split_and!; [done|by rewrite Hh', lookup_insert_eq|done|congruence|done]|lia|lia|unfold zlen in *; rewrite length_drop; lia|].
    rewrite length_drop. assert (length l - Z.to_nat n = Z.to_nat (zlen l - n))%nat as -> by (unfold zlen; lia).
    rewrite (round_step (cur_addr h) (cur_addr h') n (zlen l - n)) by (rewrite ?Ha; lia || (apply G5; lia)).
    symmetry. rewrite <- El at 1. rewrite skipn_firstn_comm. f_equal. unfold zlen. lia.
Qed.

Lemma ram_source_close w p l : ram_serves w p l -> exists w', iot_log_file_close (Some p) w = Ret (IOT_ERROR_NONE, w') /\ ram_closed w'.
Proof.
  intros (h & (Hc & Hp & F1 & F2 & F3) & _). destruct (close_ram memory _ w p h Hc Hp F3) as (w' & E & Hc').
  exists w'. split; [exact E|]. eexists. split; [exact (proj1 Hc')|]. by split_and!.
Qed.

#[local] Instance ram_source : LogSource (kept c) := {|
  starts w := log_ctx w = Some c;
  opened := ram_opened;
  serves := ram_serves;
  closed := ram_closed;
  source_dev d w p H := H;
  source_open := ram_source_open;
  source_seek := ram_source_seek;
  source_read := ram_source_read;
  source_close := ram_source_close
|}.

Context `{DB : DumpBelow} `{DL : !DumpLaws}.

(** C14: The dump of a log in RAM.  Its text [t] is the header, the state of the
    device when it is asked for, and the end of the log, whole messages, as many
    as there are and as the size that is allowed has room for.  Without base64
    the dump is [t].  With base64 it is an encoding with its terminator, but not
    always of [t]: when the length of [t] is a multiple of 3 it is that of [t];
    when it leaves 2 bytes for the last group it is that of [t] and one byte
    more, the last but one byte of [t] again ([padding]; the code takes the
    group for a full one, iot_dump_log.c:291); a [t] that leaves 1 byte is
    excluded here, as the copy of that byte is undefined ([log_dump_overlaps]).
    The dump is no longer than the size that is allowed.  The log is closed,
    keeps what it had, and takes messages again.

    This is for a build with the log in RAM only, a buffer of less than 2^31
    bytes whose size, once the log has gone round it, divides 2^32, a [size_t] of
    at least 32 bits, allocations that succeed, and an allowed size that has room
    for header and state. *)
Theorem log_dump_correct fuel ctx max log_mode w :
  let b64 := Z.testbit log_mode 0 in let nds := Z.testbit log_mode 1 in
  let m := message_size max (zlen (kept c)) b64 nds in
  let t := dump_text nds ctx (lastn (Z.to_nat m) (kept c)) in
  log_ctx (d_log w) = Some c -> bytes (kept c) -> bytes (dump_state_bytes ctx) -> min_log_size b64 nds <= max < 2147483648 ->
  m < Z.of_nat fuel -> (b64 = true -> zlen t mod 3 <> 1) ->
  exists w' c', st_create_log_dump true fuel ctx max log_mode w = Ret ((IOT_ERROR_NONE, Some (dump_output b64 t, zlen (dump_output b64 t))), w') /\
    zlen (dump_output b64 t) <= max /\
    log_ctx (d_log w') = Some c' /\ wf_buf c' /\ enable c' = true /\ kept c' = kept c.
Proof.
  intros b64 nds m t Hc Hb Hs Hm Hf H1.
  destruct (create_log_dump_runs (kept c) (LS := ram_source) Hmax memory fuel ctx max log_mode w Hc Hb Hs Hm Hf H1) as (w' & E & (c' & Hc1 & Hw1 & He1 & Hk1) & Hl).
  exists w', c'. by split_and!.
Qed.

(** When the text leaves a single byte for the last group of base64,
    [memcpy] is called with two pieces of [temp_buf] that overlap.  This is so
    for an empty log, and for every third number of messages. *)
Theorem log_dump_overlaps fuel ctx max log_mode w :
  let nds := Z.testbit log_mode 1 in let m := message_size max (zlen (kept c)) true nds in
  log_ctx (d_log w) = Some c -> bytes (kept c) -> bytes (dump_state_bytes ctx) -> min_log_size true nds <= max < 2147483648 ->
  m < Z.of_nat fuel -> Z.testbit log_mode 0 = true -> zlen (dump_text nds ctx (lastn (Z.to_nat m) (kept c))) mod 3 = 1 ->
  st_create_log_dump true fuel ctx max log_mode w = Undef.
Proof. intros nds m Hc. by apply (create_log_dump_one_left (kept c) (LS := ram_source) Hmax memory). Qed.
End ram.
