(* ===== verification/LogFaults.v ===== *)
(** * The log: where the code goes wrong

    A flash memory that fails, positions in a log whose size is no power of
    two, and a dump without memory for its header. *)

From S2P Require Import Prelude Cursor MainState Base64 LogFile LogRing LogFlash LogDump LogDumpCopy.

Section seek.
Context `{LC : LogConfig} `{LB : LogBelow}.

(** The offset is computed in 32 bits before it is reduced to the log, so that a
    position before the end that lies behind the start of the area is found only
    when the size of the log divides 2^32: 24 bytes less than whole sectors do
    not. *)
Theorem seek_misplaced p h m w : l_handles w !! p = Some h -> 0 <= start_addr h -> 0 <= tail_addr h - start_addr h < m ->
  m <= log_size h < 2147483648 -> start_addr h + log_size h < 2147483648 -> 4294967295 <= size_max ->
  exists cur, iot_log_file_seek p (- m) (tail_addr h) w =
      Ret (IOT_ERROR_NONE, set_lhandles (<[p := set_cur cur h]> (l_handles w)) (l_next w) w) /\
    (cur = tail_addr h - m + log_size h <-> 4294967296 mod log_size h = 0).
Proof.
  intros Hp Hs Ho Hm Hend Hmax. unfold iot_log_file_seek, handle. rewrite bind_assoc, bind_gets, Hp.
  change (need (Some h)) with (mret (M := st lworld) h). rewrite bind_mret, (proj2 (Z.eqb_neq (log_size h) 0)) by lia. cbv zeta.
  set (s := log_size h) in *. set (d := m - (tail_addr h - start_addr h)).
  assert (to_uint (tail_addr h - start_addr h + - m) = 4294967296 - d) as ->
    by (unfold to_uint, d; symmetry; apply (Z.mod_unique _ _ (-1)); lia).
  pose proof (Z.mod_pos_bound (4294967296 - d) s ltac:(lia)) as Hr. rewrite (int_small ((4294967296 - d) mod s)) by lia.
  rewrite (proj2 (Z.ltb_ge _ 0)), uint_small by lia. eexists. split; [reflexivity|].
  assert (1 <= d <= s) as Hd by (unfold d; lia).
  replace (tail_addr h - m + s) with (start_addr h + (s - d)) by (unfold d; lia).
  split.
  - intros E. assert ((4294967296 - d) mod s = s - d) as E1 by lia.
    pose proof (Z.div_mod (4294967296 - d) s ltac:(lia)) as E2. rewrite E1 in E2.
    apply Z.mod_divide; [lia|]. exists ((4294967296 - d) / s + 1). lia.
  - intros E. apply Z.mod_divide in E as [k Hk]; [|lia]. f_equal. rewrite Hk.
    symmetry. apply (Z.mod_unique _ _ (k - 1)); lia.
Qed.
End seek.

(** ** A flash that cannot be read *)

Section fails.
Context `{LC : LogConfig} `{LB : LogBelow}.
Context (Hflash : log_file_type = FLASH_WITH_RAM).
Context (read_fails : forall a n d, (read_flash a n d).1.1 <> IOT_ERROR_NONE /\ zlen (read_flash a n d).1.2 <= n).
#[local] Set Default Proof Using "Type*".

(** The task ends with the first error, and leaves the buffer disabled: every
    message that follows is refused. *)
Theorem flash_error_ends_log c w messages : log_ctx w = Some c -> enable c = false -> events c = Some true -> file_opened c = false ->
  exists w', _iot_log_file_task_turn w = Ret (false, w') /\
    Forall (fun m => iot_log_file_store m w' = Ret (-1, w')) messages.
Proof.
  intros Hc He Hev Ho. destruct (read_fails IOT_LOG_FILE_FLASH_ADDR IOT_LOG_FILE_FLASH_HEADER_SIZE (l_dev w)) as [Hf _].
  unfold _iot_log_file_task_turn. rewrite (bind_the_ctx c _ _ Hc), Hev, bind_put_ctx.
  unfold _iot_log_file_is_opening. rewrite bind_assoc, bind_gets. cbn [set_ctx log_ctx]. rewrite bind_mret. cbn [set_events file_opened]. rewrite Ho.
  unfold _iot_log_file_manager. rewrite bind_assoc, (bind_the_ctx (set_events (Some false) c)) by done.
  unfold _iot_log_file_load_header. rewrite !bind_assoc.
  rewrite (bind_dev _ _ _ _ eq_refl). cbn [set_ctx l_dev].
  destruct (read_flash IOT_LOG_FILE_FLASH_ADDR IOT_LOG_FILE_FLASH_HEADER_SIZE (l_dev w)) as [[err b] d]. cbn [fst snd] in *.
  rewrite (proj2 (Z.eqb_neq _ _) Hf). cbn [negb]. rewrite bind_mret, bind_assoc, bind_put_ctx.
  rewrite bool_decide_eq_true_2 by done. rewrite bind_mret. eexists. split; [reflexivity|].
  apply Forall_forall. intros m _. unfold iot_log_file_store. rewrite bind_gets. cbn. by rewrite He.
Qed.

Context `{DB : DumpBelow}.

(** A handle within its log. *)
Definition in_log (h : iot_log_file_handle_t) : Prop :=
  file_type h = FLASH_WITH_RAM /\ 0 <= start_addr h <= cur_addr h /\ cur_addr h <= start_addr h + log_size h < 2147483648.

Lemma failing_read p h n w : 4294967295 <= size_max -> l_handles w !! p = Some h -> in_log h -> 0 < n < 2147483648 ->
  exists e b d, iot_log_file_read (Some p) true n w = Ret ((e, b, Some 0), with_dev d w) /\ zlen b <= n.
Proof.
  intros Hmax Hp (Ht & Hs & He) Hn. unfold iot_log_file_read, handle at 1. cbn [negb]. rewrite bind_assoc, bind_gets, Hp.
  change (need (Some h)) with (mret (M := st lworld) h). rewrite bind_mret.
  assert (forall k w, _iot_log_read_bytes h k w = dev (read_flash (cur_addr h) k) w) as Er.
  { intros k w1. unfold _iot_log_read_bytes. by rewrite bool_decide_eq_true_2, Ht by congruence. }
  unfold _iot_log_file_check_valid_range. rewrite !size_small by lia.
  destruct (Z.ltb_spec (start_addr h + log_size h) (cur_addr h + n)) as [Hr|Hr]; cbn [negb].
  - unfold read_wrapped. cbv zeta. rewrite (uint_small (cur_addr h - start_addr h)), (size_small (cur_addr h - start_addr h)) by lia.
    set (k := log_size h - (cur_addr h - start_addr h)). rewrite (size_small k), (uint_small k) by lia.
    destruct (read_fails (cur_addr h) k (l_dev w)) as [Hf Hl]. rewrite !bind_assoc.
    rewrite (bind_ret _ _ _ _ _ (eq_trans (Er k w) (run_dev _ _ _ eq_refl))).
    destruct (read_flash (cur_addr h) k (l_dev w)) as [[err b] d]. cbn [fst snd] in *. rewrite (proj2 (Z.eqb_neq _ _) Hf). cbn [negb].
    rewrite bind_mret. exists err, b, d. split; [done|lia].
  - rewrite (uint_small n) by lia. destruct (read_fails (cur_addr h) n (l_dev w)) as [Hf Hl].
    rewrite (bind_ret _ _ _ _ _ (eq_trans (Er n w) (run_dev _ _ _ eq_refl))).
    destruct (read_flash (cur_addr h) n (l_dev w)) as [[err b] d]. cbn [fst snd] in *. rewrite (proj2 (Z.eqb_neq _ _) Hf). cbn [negb].
    by exists err, b, d.
Qed.

(** The bytes that are copied onto themselves. *)
Lemma copy_remaining r pos room w : 4294967295 <= size_max -> zlen (temp_buf w) = 48 -> remain_number w = 0 -> r = 1 \/ r = 2 -> r <= room ->
  exists t, _iot_dump_copy_memory pos room from_temp r true w = Ret ((IOT_ERROR_NONE, 0), set_temp t (set_remain r w)) /\ zlen t = 48.
Proof.
  intros Hmax H48 H0 Hr Hroom. unfold _iot_dump_copy_memory.
  rewrite (proj2 (Z.leb_gt _ 0)), (proj2 (Z.leb_gt _ 0)), (proj2 (Z.ltb_ge _ _)) by lia. cbn [orb negb]. cbv iota zeta.
  unfold copy_step1. rewrite bind_assoc, bind_gets, H0. change (0 <? 0) with false. cbv iota. rewrite bind_mret. cbv beta iota.
  change (IOT_ERROR_NONE <? 0) with false. cbv iota. unfold copy_groups. rewrite Z.sub_0_r, size_small by lia. cbv zeta.
  unfold GET_LARGEST_MULTIPLE. assert (r / 3 = 0 /\ r mod 3 = r) as [-> ->] by (destruct Hr as [->| ->]; done).
  match goal with |- context [(modify ?f ≫= ?k) w] => change ((modify f ≫= k) w) with (k tt (f w)) end. cbv beta.
  change (0 <? 0 * 3) with false. cbv iota. rewrite bind_mret. cbv beta iota. change (IOT_ERROR_NONE <? 0) with false. cbv iota.
  assert (source_is from_temp (take (Z.to_nat r) (temp_buf w)) (set_remain r w)) as Hs.
  { cbn. f_equal. rewrite length_take. unfold zlen in H48. lia. }
  assert (zlen (take (Z.to_nat r) (temp_buf w)) = r) as Hl by (unfold zlen in *; rewrite length_take; lia).
  rewrite (bind_ret _ _ _ _ _ (copy_to_temp_runs 0 from_temp _ (set_remain r w) (0 + 0 * 3) r Hs ltac:(lia) ltac:(lia) ltac:(lia)
    ltac:(lia) ltac:(cbn; lia) ltac:(by left))).
  eexists. split; [reflexivity|]. rewrite overwrite_length; [done|lia|]. cbn [set_remain temp_buf]. unfold zlen in *.
  rewrite !length_take, length_drop, length_take. lia.
Qed.

(** A dump in base64 does not look at the errors of its reads: with an incomplete
    group it goes on for ever. *)
Theorem dump_hangs fuel p h max_msg_size pos n w : l_handles (d_log w) !! p = Some h -> in_log h ->
  zlen (temp_buf w) = 48 -> remain_number w = 1 \/ remain_number w = 2 -> 0 < max_msg_size < 2147483648 -> 4294967295 <= size_max ->
  0 <= pos -> pos + 2 <= n < 2147483648 ->
  message_loop fuel p max_msg_size pos n true w = Hang.
Proof.
  intros Hp Hh H48 Hr Hm Hmax Hpos Hn. revert w Hp H48 Hr. induction fuel as [|fuel IH]; intros w Hp H48 Hr; [done|].
  cbn [message_loop]. rewrite (proj2 (Z.eqb_neq max_msg_size 0)), bind_gets by lia. unfold IOT_DUMP_BUFFER_SIZE. set (r := remain_number w) in *.
  rewrite (size_small (48 - r)) by lia. set (k := if max_msg_size <? 48 - r then max_msg_size else 48 - r).
  assert (0 < k < 2147483648 /\ k <= 48 - r) as [Hk1 Hk2] by (unfold k; destruct (Z.ltb_spec max_msg_size (48 - r)); lia).
  destruct (failing_read p h k (d_log w) Hmax Hp Hh Hk1) as (e & b & d & E & Hb). rewrite (bind_on_log _ _ _ _ _ E). cbv beta iota.
  rewrite bind_gets. cbn [temp_buf]. rewrite bind_copy_at by lia. cbn [default from_option id].
  rewrite Z.sub_0_r, size_small, Z.add_0_l, (int_small r) by lia.
  match goal with |- context [(modify ?f ≫= ?k) ?s] => change ((modify f ≫= k) s) with (k tt (f s)) end. cbv beta.
  match goal with |- context [(modify ?f ≫= ?k) ?s] => change ((modify f ≫= k) s) with (k tt (f s)) end. cbv beta.
  rewrite int_small by lia.
  match goal with |- (_ ≫= _) ?w1 = _ => destruct (copy_remaining r pos (n - pos) w1) as (t & E2 & Ht) end; try done || lia.
  { cbn. rewrite overwrite_length; lia. }
  rewrite (bind_ret _ _ _ _ _ E2). change (IOT_ERROR_NONE <? 0) with false. cbv beta iota. rewrite Z.add_0_r, size_small by lia.
  by apply IH.
Qed.
End fails.

(** The header of the dump is written to without a look at the pointer. *)
Theorem header_without_memory `{LogConfig} `{LogBelow} `{DumpBelow} size b64 w :
  (log_malloc (l_dev (d_log w))).1 = false -> dump_header size b64 false w = Undef.
Proof.
  intros Hm. unfold dump_header, on_log, dev, mbind, st_bind. destruct (log_malloc (l_dev (d_log w))) as [have d]. cbn in *. by subst have.
Qed.
