(* ===== verification/LogSample.v ===== *)
(** * The log: concrete memories

    A small flash memory and configuration, at which the theorems on the log
    apply. *)

From S2P Require Import Prelude MainState LogFile LogRing LogFlash LogDump LogDumpCopy LogDumpSpec.

(** A flash of sectors of 256 bytes; what is erased reads 255, and only a
    sector that has been erased can be written.  Allocations always work. *)
Definition small_sector : Z := 256.
Definition log_config (t : iot_log_file_type_t) : LogConfig := {|
  log_file_type := t;
  IOT_LOG_FILE_RAM_BUF_SIZE := 128;
  IOT_LOG_FILE_FLASH_ADDR := 512;
  IOT_LOG_FILE_FLASH_SIZE := 512;
  IOT_LOG_FILE_FLASH_SECTOR_SIZE := small_sector;
  size_max := 4294967295
|}.

Definition small_dev : Type := (Z -> Z) * gset Z.
Definition small_erase (k : Z) (d : small_dev) : Z * small_dev :=
  (IOT_ERROR_NONE, (fun x => if x / small_sector =? k then 255 else d.1 x, {[k]} ∪ d.2)).
Definition small_write (a : Z) (l : list Z) (d : small_dev) : Z * small_dev :=
  if bool_decide (a / small_sector ∈ d.2) then (IOT_ERROR_NONE, (patch d.1 a l, d.2 ∖ {[a / small_sector]})) else (-1, d).

(** An [unsigned int] in memory, the low byte first. *)
Definition uint_bytes_le (z : Z) : list Z := [z mod 256; z / 256 mod 256; z / 65536 mod 256; z / 16777216 mod 256].
Definition uint_value_le (l : list Z) : Z := to_uint (foldr (fun b n => b + 256 * n) 0 l).

#[export] Instance small_below : LogBelow := {|
  ldev := small_dev;
  log_malloc := pair true;
  eventgroup_create := pair true;
  thread_create := pair true;
  read_flash a n d := ((IOT_ERROR_NONE, span d.1 a n), d);
  write_flash := small_write;
  erase_sector := small_erase;
  uint_bytes := uint_bytes_le;
  uint_value := uint_value_le
|}.

Lemma uint_le_inverse z : 0 <= z < 4294967296 -> uint_value_le (uint_bytes_le z) = z.
Proof.
  intros H. unfold uint_value_le, uint_bytes_le. cbn [foldr].
  assert (z mod 256 + 256 * (z / 256 mod 256 + 256 * (z / 65536 mod 256 + 256 * (z / 16777216 mod 256 + 256 * 0))) = z) as ->.
  { Z.to_euclidean_division_equations; lia. }
  by apply uint_small.
Qed.

#[export] Instance small_flash t : @Flash (log_config t) small_below.
Proof.
  refine (@Build_Flash (log_config t) small_below (fun d : small_dev => d.1) (fun (d : small_dev) k => k ∈ d.2)
    _ _ _ _ _ _ _ _ _ _ _ _ _ _ _ _); try done.
  - intros k d. cbn. set_solver.
  - intros k d x Hx. change (x / small_sector <> k) in Hx. cbn. by rewrite (proj2 (Z.eqb_neq _ _) Hx).
  - intros k l d _ He. cbn. unfold small_write, small_sector. by rewrite Z.div_mul, bool_decide_eq_true_2.
  - intros k l d x _ He. cbn. unfold small_write, small_sector. by rewrite Z.div_mul, bool_decide_eq_true_2.
  - intros l. cbn. apply Z.mod_pos_bound. lia.
  - apply uint_le_inverse.
Defined.

Definition message_a : list Z := seqZ 32 90.
Definition message_b : list Z := seqZ 40 77.
Definition log_world : @lworld small_below := @LWorld small_below None ∅ 0 (fun _ => 255, ∅).

(** The messages are longer than the buffer. *)
Definition messages : list (list Z) := [message_a; message_b; message_a].
Lemma messages_short : Forall (fun m => zlen m < 128) messages.
Proof. repeat constructor. Qed.

Lemma ram_log_read_back_witness :
  let LC := log_config RAM_ONLY in
  let all := lastn 128 (concat messages) in
  (log_file_type = RAM_ONLY /\ 4294967295 <= size_max /\ 0 < IOT_LOG_FILE_RAM_BUF_SIZE < 2147483648 /\ zlen all = 128) /\
  exists w1 w2 p w3 w4 w5, iot_log_file_init RAM_ONLY log_world = Ret (IOT_ERROR_NONE, w1) /\ store_all messages w1 = Ret (tt, w2) /\
    iot_log_file_open RAM_ONLY w2 = Ret (Some (p, zlen all), w3) /\
    iot_log_file_read (Some p) true (zlen all) w3 = Ret ((IOT_ERROR_NONE, all, Some (zlen all)), w4) /\
    iot_log_file_close (Some p) w4 = Ret (IOT_ERROR_NONE, w5) /\
    exists c, log_ctx w5 = Some c /\ wf_buf c /\ enable c = true /\ kept c = all.
Proof.
  split; [by vm_compute|].
  exact (@ram_log_read_back (log_config RAM_ONLY) small_below eq_refl ltac:(cbn; lia) (fun _ => eq_refl) messages log_world ltac:(cbn; lia) messages_short).
Defined.

Lemma small_log_wf : wf_log (LC := log_config RAM_ONLY) log_world.
Proof. split; [done|]. apply map_Forall_empty. Qed.

(** Two handles, of which one is read and closed. *)
Definition log_acts : list log_act :=
  [act_store message_a; act_store message_b; act_open RAM_ONLY; act_open RAM_ONLY; act_seek 1 10 0; act_read 1 100; act_sync;
   act_close 0; act_store message_a; act_read 0 128; act_remove RAM_ONLY; act_read 5 1].
Lemma log_acts_ok : Forall act_ok log_acts.
Proof. by repeat constructor. Qed.

Lemma log_well_typed_witness :
  let LC := log_config RAM_ONLY in
  (log_file_type = RAM_ONLY /\ 0 < IOT_LOG_FILE_RAM_BUF_SIZE < 2147483648 /\ wf_log log_world /\ Forall act_ok log_acts) /\
  exists err w1, iot_log_file_init RAM_ONLY log_world = Ret (err, w1) /\ wf_log w1 /\
    (err = IOT_ERROR_NONE -> exists hs w2, run_acts log_acts [] w1 = Ret (hs, w2) /\ wf_log w2 /\
       is_Some (log_ctx w2) /\ NoDup hs /\ forall p, p ∈ hs -> is_Some (l_handles w2 !! p)).
Proof.
  split; [split_and!; [done..|exact small_log_wf|exact log_acts_ok]|].
  exact (@log_well_typed (log_config RAM_ONLY) small_below eq_refl ltac:(cbn; lia) ltac:(cbn; lia) RAM_ONLY log_acts log_world small_log_wf log_acts_ok).
Defined.

Lemma small_good_config : good_config (LC := log_config FLASH_WITH_RAM).
Proof. by split. Qed.

(** A flash without a file, and more text than the file has room for. *)
Definition many_messages : list (list Z) := messages ++ messages ++ messages.
Lemma many_messages_short : Forall (fun m => zlen m < 128) many_messages.
Proof. repeat constructor. Qed.
Lemma erased_no_file : flash_file (LC := log_config FLASH_WITH_RAM) [] (flash_byte (H := log_config FLASH_WITH_RAM) (l_dev log_world)).
Proof. right. split; [done|]. unfold no_file. intros H. vm_compute in H. discriminate. Qed.

Lemma flash_log_read_back_witness :
  let LC := log_config FLASH_WITH_RAM in
  let all := lastn (Z.to_nat capacity) (concat many_messages) in
  (good_config /\ flash_file [] (flash_byte (H := LC) (l_dev log_world)) /\ zlen all = 488) /\
  exists w1 w2 w3 w4 p w5 w6, iot_log_file_init FLASH_WITH_RAM log_world = Ret (IOT_ERROR_NONE, w1) /\
    log_run many_messages w1 = Ret (tt, w2) /\ (iot_log_file_sync;; serve) w2 = Ret (tt, w3) /\
    iot_log_file_open FLASH_WITH_RAM w3 = Ret (Some (p, zlen all), w4) /\
    iot_log_file_read (Some p) true (zlen all) w4 = Ret ((IOT_ERROR_NONE, all, Some (zlen all)), w5) /\
    iot_log_file_close (Some p) w5 = Ret (IOT_ERROR_NONE, w6) /\ logged (concat many_messages) w6.
Proof.
  split; [split_and!; [exact small_good_config|exact erased_no_file|by vm_compute]|].
  exact (@flash_log_read_back (log_config FLASH_WITH_RAM) small_below (small_flash _) small_good_config [] many_messages log_world
    erased_no_file many_messages_short).
Defined.

(** ** A dump *)

Definition letters (a n : Z) : list Z := seqZ a n.
#[export] Instance small_dump_below : DumpBelow := {|
  STDK_VERSION_CODE := 66048;
  clock := 4711;
  time_of_day := 1600000000;
  os_name := letters 97 8; os_version := letters 48 5; bsp_name := letters 65 20; bsp_version := letters 49 3;
  int_bytes := uint_bytes_le;
  long_bytes z := uint_bytes_le z ++ [0; 0; 0; 0];
  sizeof_long := 8
|}.
Lemma uint_bytes_le_bytes z : bytes (uint_bytes_le z).
Proof. unfold uint_bytes_le, bytes. rewrite !Forall_cons. split_and!; try apply Forall_nil_2; apply Z.mod_pos_bound; lia. Qed.
#[export] Instance small_dump_laws : DumpLaws.
Proof. split; [done|apply uint_bytes_le_bytes|done|done]. Qed.

Definition small_context : dump_context :=
  DumpContext 17 (letters 97 36) (Some (letters 1 16, 2, 3)) (Some (letters 48 6)) None (Some (letters 65 7)) 5 9.
(** A buffer that has gone round, and an empty one. *)
Definition full_ctx : iot_log_file_ctx := LogCtx true 48 (seqZ 100 128) true None zero_header [] false.
Definition empty_ctx : iot_log_file_ctx := LogCtx true 0 (replicate 128 0) false None zero_header [] false.
Definition dump_world (c : iot_log_file_ctx) : @dworld small_below :=
  @DWorld small_below (@LWorld small_below (Some c) ∅ 0 (fun _ => 255, ∅)) [] [] 0.

Lemma decide_bytes l : forallb (fun b => (0 <=? b) && (b <? 256)) l = true -> bytes l.
Proof.
  induction l as [|x l IH]; cbn; [intros _; apply Forall_nil_2|]. intros [Hx Hl]%andb_true_iff. apply Forall_cons. split; [|by apply IH].
  unfold is_byte. lia.
Qed.

Lemma log_dump_correct_witness :
  let LC := log_config RAM_ONLY in
  let t := dump_text true (Some small_context) (lastn (Z.to_nat (message_size 400 128 true true)) (kept full_ctx)) in
  (zlen t = 296 /\ min_log_size true true <= 400 /\ wf_buf full_ctx) /\
  exists w' c', st_create_log_dump true 200 (Some small_context) 400 3 (dump_world full_ctx) =
      Ret ((IOT_ERROR_NONE, Some (dump_output true t, zlen (dump_output true t))), w') /\
    zlen (dump_output true t) <= 400 /\ log_ctx (d_log w') = Some c' /\ wf_buf c' /\ enable c' = true /\ kept c' = kept full_ctx.
Proof.
  split; [by vm_compute|].
  refine (@log_dump_correct (log_config RAM_ONLY) small_below eq_refl _ _ full_ctx _ _ _ small_dump_below small_dump_laws
    200 (Some small_context) 400 3 (dump_world full_ctx) eq_refl _ _ _ _ _); try done; try (apply decide_bytes; reflexivity); intros _; vm_compute; discriminate.
Defined.

Lemma log_dump_overlaps_witness :
  let LC := log_config RAM_ONLY in
  zlen (dump_text true (Some small_context) (lastn (Z.to_nat (message_size 400 0 true true)) (kept empty_ctx))) mod 3 = 1 /\
  st_create_log_dump true 1 (Some small_context) 400 3 (dump_world empty_ctx) = Undef.
Proof.
  split; [by vm_compute|].
  refine (@log_dump_overlaps (log_config RAM_ONLY) small_below eq_refl _ _ empty_ctx _ _ _ small_dump_below small_dump_laws
    1 (Some small_context) 400 3 (dump_world empty_ctx) eq_refl _ _ _ _ _ _); try done; apply decide_bytes; reflexivity.
Defined.
