(* ===== verification/NvBase.v ===== *)
(** * Non-volatile data: the state, and the device information

    What [src/src/iot_nv_data.c] and the storage of [src/src/security] work on:
    the objects on the heap, the file system of the board ([iot_bsp_fs.h]) and
    the device information, which [iot_api_read_device_identity] of
    [src/src/iot_api.c] looks data up in. *)

From S2P Require Import Prelude UtilQueue Heap.

(** ** Numbers of errors and of data *)

Definition IOT_ERROR_UNINITIALIZED : Z := -5.
Definition IOT_ERROR_INIT_FAIL : Z := -12.
Definition IOT_ERROR_DEINIT_FAIL : Z := -13.
Definition IOT_ERROR_NV_DATA_ERROR : Z := -14.
Definition IOT_ERROR_NV_DATA_NOT_EXIST : Z := -15.
Definition IOT_ERROR_FS_OPEN_FAIL : Z := -16.
Definition IOT_ERROR_FS_READ_FAIL : Z := -17.
Definition IOT_ERROR_FS_WRITE_FAIL : Z := -18.
Definition IOT_ERROR_FS_REMOVE_FAIL : Z := -19.
Definition IOT_ERROR_FS_CLOSE_FAIL : Z := -20.
Definition IOT_ERROR_FS_NO_FILE : Z := -21.

Definition IOT_ERROR_SECURITY_CONTEXT_NULL : Z := -1003.
Definition IOT_ERROR_SECURITY_BE_CONTEXT_NULL : Z := -1004.
Definition IOT_ERROR_SECURITY_BE_FUNC_NULL : Z := -1005.
Definition IOT_ERROR_SECURITY_BE_FUNCS_ENTRY_NULL : Z := -1006.
Definition IOT_ERROR_SECURITY_BE_EXTERNAL_NULL : Z := -1007.
Definition IOT_ERROR_SECURITY_PK_PARAMS_NULL : Z := -1027.
Definition IOT_ERROR_SECURITY_CIPHER_PARAMS_NULL : Z := -1045.
Definition IOT_ERROR_SECURITY_ECDH_PARAMS_NULL : Z := -1064.
Definition IOT_ERROR_SECURITY_CERT_INVALID_ID : Z := -1110.
Definition IOT_ERROR_SECURITY_STORAGE_PARAMS_NULL : Z := -1125.
Definition IOT_ERROR_SECURITY_STORAGE_INVALID_ID : Z := -1126.
Definition IOT_ERROR_SECURITY_FS_OPEN : Z := -1200.
Definition IOT_ERROR_SECURITY_FS_READ : Z := -1201.
Definition IOT_ERROR_SECURITY_FS_WRITE : Z := -1202.
Definition IOT_ERROR_SECURITY_FS_CLOSE : Z := -1203.
Definition IOT_ERROR_SECURITY_FS_REMOVE : Z := -1204.
Definition IOT_ERROR_SECURITY_FS_BUFFER : Z := -1205.
Definition IOT_ERROR_SECURITY_FS_NOT_FOUND : Z := -1208.
Definition IOT_ERROR_SECURITY_FS_INVALID_ARGS : Z := -1209.
Definition IOT_ERROR_SECURITY_FS_INVALID_TARGET : Z := -1210.
Definition IOT_ERROR_SECURITY_FS_UNKNOWN_TARGET : Z := -1211.
Definition IOT_ERROR_SECURITY_BSP_FN_LOAD_NULL : Z := -1220.
Definition IOT_ERROR_SECURITY_BSP_FN_STORE_NULL : Z := -1221.
Definition IOT_ERROR_SECURITY_BSP_FN_REMOVE_NULL : Z := -1222.
Definition IOT_ERROR_SECURITY_INVALID_ARGS : Z := IOT_ERROR_INVALID_ARGS.
Definition IOT_ERROR_SECURITY_MEM_ALLOC : Z := IOT_ERROR_MEM_ALLOC.

(** [iot_nvd_t], which is [iot_security_storage_id_t], too. *)
Definition IOT_NVD_UNKNOWN : Z := 0.
Definition IOT_NVD_WIFI_PROV_STATUS : Z := 1.
Definition IOT_NVD_AP_SSID : Z := 2.
Definition IOT_NVD_AP_PASS : Z := 3.
Definition IOT_NVD_AP_BSSID : Z := 4.
Definition IOT_NVD_AP_AUTH_TYPE : Z := 5.
Definition IOT_NVD_CLOUD_PROV_STATUS : Z := 6.
Definition IOT_NVD_SERVER_URL : Z := 7.
Definition IOT_NVD_SERVER_PORT : Z := 8.
Definition IOT_NVD_LABEL : Z := 9.
Definition IOT_NVD_DEVICE_ID : Z := 10.
Definition IOT_NVD_MISC_INFO : Z := 11.
Definition IOT_NVD_FACTORY : Z := 12.
Definition IOT_NVD_PRIVATE_KEY : Z := IOT_NVD_FACTORY.
Definition IOT_NVD_PUBLIC_KEY : Z := 13.
Definition IOT_NVD_ROOT_CA_CERT : Z := 14.
Definition IOT_NVD_SUB_CA_CERT : Z := 15.
Definition IOT_NVD_DEVICE_CERT : Z := 16.
Definition IOT_NVD_SERIAL_NUM : Z := 17.
Definition IOT_NVD_MAX : Z := 18.

(** [if (err)]. *)
Definition failed (err : Z) : bool := negb (err =? IOT_ERROR_NONE).

(** ** What is below *)

Inductive iot_bsp_fs_open_mode_t := FS_READONLY | FS_READWRITE.
#[export] Instance iot_bsp_fs_open_mode_t_eq_dec : EqDecision iot_bsp_fs_open_mode_t.
Proof. solve_decision. Defined.

(** How the SDK is built: with the partition for the data of the manufacturer,
    and for POSIX; the largest [size_t]; the root certificate. *)
Class NvConfig := {
  stnv_partition : bool;
  os_posix : bool;
  st_root_ca : list Z
}.

(** Memory, the parser of JSON and the file system of the board.  Null is
    [None]; [nv_malloc] and [nv_realloc] give what the new memory contains;
    [iot_bsp_fs_read] gives what is stored in the buffer, of at most the given
    length; [iot_bsp_fs_write] is given the memory that the data is in. *)
Class NvBelow := {
  nv_env : Type;
  nv_malloc : Z -> nv_env -> option (list Z) * nv_env;
  nv_malloc_object : nv_env -> bool * nv_env;
  nv_realloc : Z -> nv_env -> option (list Z) * nv_env;

  iot_bsp_fs_handle_t : Type;
  iot_bsp_fs_init : nv_env -> Z * nv_env;
  iot_bsp_fs_deinit : nv_env -> Z * nv_env;
  iot_bsp_fs_open : list Z -> iot_bsp_fs_open_mode_t -> nv_env -> (Z * iot_bsp_fs_handle_t) * nv_env;
  iot_bsp_fs_open_from_stnv : list Z -> nv_env -> (Z * iot_bsp_fs_handle_t) * nv_env;
  iot_bsp_fs_read : iot_bsp_fs_handle_t -> Z -> nv_env -> outcome ((Z * list Z) * nv_env);
  iot_bsp_fs_write : iot_bsp_fs_handle_t -> list Z -> Z -> nv_env -> outcome (Z * nv_env);
  iot_bsp_fs_close : iot_bsp_fs_handle_t -> nv_env -> Z * nv_env;
  iot_bsp_fs_remove : list Z -> nv_env -> Z * nv_env;
  iot_bsp_nv_get_data_path : Z -> option (list Z);

  nv_json : Type;
  nv_json_parse : list Z -> nv_env -> option nv_json * nv_env;
  nv_json_item : nv_json -> list Z -> option nv_json;
  nv_json_text : nv_json -> option (list Z)
}.

(** ** The state *)

(** [iot_security_buffer_t]. *)
Record iot_security_buffer_t := SecBuffer { buf_p : option nat; buf_len : Z }.
Definition no_buffer : iot_security_buffer_t := SecBuffer None 0.

(** The tables of functions of the back end in software, and the callback for
    the device information: the addresses of constants. *)
Inductive iot_security_be_funcs_t := iot_security_be_software_funcs.
Inductive iot_security_be_bsp_funcs_t := iot_security_be_software_bsp_funcs.
Inductive external_nv_callback := iot_nv_get_data_from_device_info_cb.

Record iot_security_be_context_t := BeContext {
  be_fn : option iot_security_be_funcs_t;
  be_bsp_fn : option iot_security_be_bsp_funcs_t;
  external_device_info_cb : option external_nv_callback
}.

Record iot_security_storage_params_t := StorageParams { storage_id : Z }.

(** The parameters of the other parts of the context are not used here. *)
Record iot_security_context_t := SecContext {
  sub_system : Z;
  pk_params : option nat; cipher_params : option nat; ecdh_params : option nat;
  storage_params : option nat;
  be_context : option nat
}.

(** The objects on the heap, the two variables of [iot_nv_data.c] and what is
    below; a tree is what the parser has made of a text. *)
Record nvworld `{NvBelow} := NvWorld {
  nv_contexts : heap iot_security_context_t;
  nv_be_contexts : heap iot_security_be_context_t;
  nv_params : heap iot_security_storage_params_t;
  nv_blocks : heap (list Z);
  nv_trees : heap nv_json;
  device_nv_info : option nat;
  device_nv_info_len : Z;
  nv_below : nv_env
}.

Section base.
Context `{NvBelow}.

Definition with_contexts (h : heap iot_security_context_t) (w : nvworld) : nvworld :=
  NvWorld _ h (nv_be_contexts w) (nv_params w) (nv_blocks w) (nv_trees w) (device_nv_info w) (device_nv_info_len w) (nv_below w).
Definition with_be_contexts (h : heap iot_security_be_context_t) (w : nvworld) : nvworld :=
  NvWorld _ (nv_contexts w) h (nv_params w) (nv_blocks w) (nv_trees w) (device_nv_info w) (device_nv_info_len w) (nv_below w).
Definition with_params (h : heap iot_security_storage_params_t) (w : nvworld) : nvworld :=
  NvWorld _ (nv_contexts w) (nv_be_contexts w) h (nv_blocks w) (nv_trees w) (device_nv_info w) (device_nv_info_len w) (nv_below w).
Definition with_blocks (h : heap (list Z)) (w : nvworld) : nvworld :=
  NvWorld _ (nv_contexts w) (nv_be_contexts w) (nv_params w) h (nv_trees w) (device_nv_info w) (device_nv_info_len w) (nv_below w).
Definition with_trees (h : heap nv_json) (w : nvworld) : nvworld :=
  NvWorld _ (nv_contexts w) (nv_be_contexts w) (nv_params w) (nv_blocks w) h (device_nv_info w) (device_nv_info_len w) (nv_below w).

#[export] Instance context_store : Store nvworld iot_security_context_t.
Proof. refine {| heap_of := nv_contexts; with_heap := with_contexts |}; by repeat intros [] || intros. Defined.
#[export] Instance be_context_store : Store nvworld iot_security_be_context_t.
Proof. refine {| heap_of := nv_be_contexts; with_heap := with_be_contexts |}; by repeat intros [] || intros. Defined.
#[export] Instance params_store : Store nvworld iot_security_storage_params_t.
Proof. refine {| heap_of := nv_params; with_heap := with_params |}; by repeat intros [] || intros. Defined.
#[export] Instance block_store : Store nvworld (list Z).
Proof. refine {| heap_of := nv_blocks; with_heap := with_blocks |}; by repeat intros [] || intros. Defined.
#[export] Instance tree_store : Store nvworld nv_json.
Proof. refine {| heap_of := nv_trees; with_heap := with_trees |}; by repeat intros [] || intros. Defined.

Definition set_below (e : nv_env) (w : nvworld) : nvworld :=
  NvWorld _ (nv_contexts w) (nv_be_contexts w) (nv_params w) (nv_blocks w) (nv_trees w)
            (device_nv_info w) (device_nv_info_len w) e.
Definition set_info (p : option nat) (n : Z) (w : nvworld) : nvworld :=
  NvWorld _ (nv_contexts w) (nv_be_contexts w) (nv_params w) (nv_blocks w) (nv_trees w) p n (nv_below w).

Abbreviation N := (st nvworld).

Definition below {A} (f : nv_env -> A * nv_env) : N A := fun w =>
  let '(a, e) := f (nv_below w) in Ret (a, set_below e w).

Definition below_outcome {A} (f : nv_env -> outcome (A * nv_env)) : N A := fun w =>
  match f (nv_below w) with Ret (a, e) => Ret (a, set_below e w) | Undef => Undef | Hang => Hang end.

(** ** Memory *)

Definition iot_os_malloc (n : Z) : N (option nat) :=
  d ← below (nv_malloc n);
  match d with Some d => a ← allocate d; mret (Some a) | None => mret None end.
Definition iot_os_free (p : option nat) : N unit := release (A := list Z) p.
(** The block is a new one, and the old one is gone; null leaves it. *)
Definition iot_os_realloc (p : option nat) (n : Z) : N (option nat) :=
  d ← below (nv_realloc n);
  match d with
  | Some d =>
      old ← get (A := list Z) p;
      release (A := list Z) p;;
      a ← allocate (take (Z.to_nat n) old ++ drop (length old) d); mret (Some a)
  | None => mret None
  end.
(** [malloc(sizeof(T))], and the [memset] that follows. *)
Definition malloc_object {A} `{Store nvworld A} (x : A) : N (option nat) :=
  ok ← below nv_malloc_object;
  if (ok : bool) then a ← allocate x; mret (Some a) else mret None.

(** The [n] bytes at [p], and [memcpy(p + o, l, ...)]. *)
Definition load_bytes (p : option nat) (n : Z) : N (list Z) := l ← get p; bytes_at l 0 n.
Definition store_bytes (p : option nat) (o : Z) (l : list Z) : N unit :=
  old ← get p; new ← copy_at old o l; update p (fun _ => new).

(** The string that an object starts with: the bytes in front of the first 0,
    which has to be there. *)
Fixpoint string_in (l : list Z) : option (list Z) :=
  match l with
  | [] => None
  | c :: l => if c =? 0 then Some [] else (c ::.) <$> string_in l
  end.
Definition load_string (p : option nat) : N (list Z) := l ← get p; need (string_in l).

(** ** The device information *)

Definition JSON_PARSE (text : list Z) : N (option nat) :=
  t ← below (nv_json_parse text);
  match t with Some t => a ← allocate t; mret (Some a) | None => mret None end.
Definition JSON_DELETE (p : option nat) : N unit := release (A := nv_json) p.
Definition JSON_GET_OBJECT_ITEM (j : option nv_json) (name : list Z) : option nv_json := j ≫= fun j => nv_json_item j name.
Definition JSON_GET_STRING_VALUE (j : option nv_json) : option (list Z) := j ≫= nv_json_text.

(** A pointer to a tree, as the tree. *)
Definition tree_of (p : option nat) : N (option nv_json) :=
  match p with Some _ => t ← get p; mret (Some t) | None => mret None end.

(** [load_out:]. *)
Definition load_out (root data : option nat) (iot_err : Z) : N (Z * option nat) :=
  (if bool_decide (is_Some root) then JSON_DELETE root else mret tt);;
  (if bool_decide (is_Some data) then iot_os_free data else mret tt);;
  mret (iot_err, None).

(** The item of the profile, copied. *)
Definition copy_item (root data : option nat) (item : option nv_json) : N (Z * option nat) :=
  text ← need (JSON_GET_STRING_VALUE item);
  object_data ← iot_os_malloc (zlen text + 1);
  match object_data with
  | None => load_out root data IOT_ERROR_MEM_ALLOC
  | Some _ =>
      store_bytes object_data 0 text;;
      store_bytes object_data (zlen text) [0];;
      (if bool_decide (is_Some root) then JSON_DELETE root else mret tt);;
      iot_os_free data;;
      mret (IOT_ERROR_NONE, object_data)
  end.

(** The error, and [*nv_data] when it is set; [nv_data] is not null. *)
Definition iot_api_read_device_identity (nv_prof : option nat) (nv_prof_len : Z) (object : list Z) : N (Z * option nat) :=
  if bool_decide (nv_prof = None) || (nv_prof_len =? 0) then mret (IOT_ERROR_INVALID_ARGS, None)
  else
    data ← iot_os_malloc (nv_prof_len + 1);
    match data with
    | None => mret (IOT_ERROR_MEM_ALLOC, None)
    | Some _ =>
        prof ← load_bytes nv_prof nv_prof_len;
        store_bytes data 0 prof;;
        store_bytes data nv_prof_len [0];;
        text ← load_string data;
        root ← JSON_PARSE text;
        tree ← tree_of root;
        match JSON_GET_OBJECT_ITEM tree (lit "deviceInfo") with
        | None => load_out root data IOT_ERROR_UNINITIALIZED
        | Some profile =>
            let item := JSON_GET_OBJECT_ITEM (Some profile) object in
            match item with
            | None => load_out root data IOT_ERROR_UNINITIALIZED
            | Some _ =>
                value ← need (JSON_GET_STRING_VALUE item);
                if bool_decide (value = object) then load_out root data IOT_ERROR_UNINITIALIZED
                else copy_item root data item
            end
        end
    end.

(** The name of the data in the device information. *)
Definition device_info_name (nv_id : Z) : option (list Z) :=
  if nv_id =? IOT_NVD_PRIVATE_KEY then Some (lit "privateKey")
  else if nv_id =? IOT_NVD_PUBLIC_KEY then Some (lit "publicKey")
  else if nv_id =? IOT_NVD_ROOT_CA_CERT then Some (lit "rootCaCert")
  else if nv_id =? IOT_NVD_SUB_CA_CERT then Some (lit "subCaCert")
  else if nv_id =? IOT_NVD_DEVICE_CERT then Some (lit "deviceCert")
  else if nv_id =? IOT_NVD_SERIAL_NUM then Some (lit "serialNumber")
  else None.

(** The error and [*output_buf], which is not null. *)
Definition iot_nv_get_data_from_device_info (nv_id : Z) : N (Z * iot_security_buffer_t) :=
  match device_info_name nv_id with
  | None => mret (IOT_ERROR_NV_DATA_ERROR, no_buffer)
  | Some di_name =>
      p ← gets device_nv_info; n ← gets device_nv_info_len;
      '(err, data) ← iot_api_read_device_identity p (to_uint n) di_name;
      if failed err then mret (err, no_buffer)
      else
        match data with
        | Some _ => s ← load_string data; mret (IOT_ERROR_NONE, SecBuffer data (zlen s))
        | None => mret (IOT_ERROR_NONE, no_buffer)
        end
  end.
End base.
