(* ===== verification/NvStore.v ===== *)
(** * Non-volatile data: the storage below

    The storage of the security library: [iot_security_storage.c],
    [iot_security_common.c], the certificates of [iot_security_manager.c], and
    the back end in software ([backend/software]), down to the file system of
    the board.  A call through a table of functions is a call of what the
    table of the back end has there; [None] is a null entry. *)

From S2P Require Import Prelude UtilQueue Heap NvBase.

(** [1 << 0] and so on. *)
Definition IOT_SECURITY_SUB_NONE : Z := 0.
Definition IOT_SECURITY_SUB_PK : Z := 1.
Definition IOT_SECURITY_SUB_CIPHER : Z := 2.
Definition IOT_SECURITY_SUB_ECDH : Z := 4.
Definition IOT_SECURITY_SUB_MANAGER : Z := 8.
Definition IOT_SECURITY_SUB_STORAGE : Z := 16.

Definition IOT_SECURITY_STORAGE_BUF_MAX_LEN : Z := 2048.
Definition IOT_SECURITY_STORAGE_FILENAME_MAX_LEN : Z := 64.

Inductive iot_security_storage_target_t := TARGET_UNKNOWN | TARGET_NV | TARGET_FACTORY | TARGET_DI | TARGET_STATIC | TARGET_INVALID.
#[export] Instance iot_security_storage_target_t_eq_dec : EqDecision iot_security_storage_target_t.
Proof. solve_decision. Defined.

Definition IOT_SECURITY_CERT_ID_UNKNOWN : Z := 0.
Definition IOT_SECURITY_CERT_ID_ROOT_CA : Z := 1.
Definition IOT_SECURITY_CERT_ID_SUB_CA : Z := 2.
Definition IOT_SECURITY_CERT_ID_DEVICE : Z := 3.
Definition IOT_SECURITY_CERT_ID_MAX : Z := 4.

Section store.
Context `{NC : NvConfig} `{NB : NvBelow}.
Abbreviation N := (st nvworld).

(** ** The files of the board *)

Definition IOT_SECURITY_STORAGE_EXTRA_PATH : option (list Z) := if os_posix then Some (lit ".") else None.

Definition _iot_security_be_bsp_fs_storage_id2target (storage_id : Z) : iot_security_storage_target_t :=
  if storage_id =? IOT_NVD_UNKNOWN then TARGET_UNKNOWN
  else if storage_id <? IOT_NVD_FACTORY then TARGET_NV
  else if storage_id <? IOT_NVD_MAX then (if stnv_partition then TARGET_FACTORY else TARGET_DI)
  else TARGET_UNKNOWN.

(** The error, and the name in a [filename] that is not null. *)
Definition _iot_security_be_bsp_fs_storage_id2filename (storage_id filename_len : Z) : Z * list Z :=
  if filename_len =? 0 then (IOT_ERROR_SECURITY_FS_INVALID_ARGS, [])
  else
    match iot_bsp_nv_get_data_path storage_id with
    | None => (IOT_ERROR_SECURITY_STORAGE_INVALID_ID, [])
    | Some storage_file =>
        let extra := match IOT_SECURITY_STORAGE_EXTRA_PATH with Some p => p ++ [47] | None => [] end in
        let c := zlen extra in
        if filename_len <? zlen storage_file + c then (IOT_ERROR_SECURITY_FS_BUFFER, [])
        else (IOT_ERROR_NONE,
              if c <? filename_len then extra ++ take (Z.to_nat (filename_len - c - 1)) storage_file
              else take (Z.to_nat (filename_len - 1)) extra)
    end.

(** After the file has been opened: it is read and closed. *)
Definition load_opened (handle : iot_bsp_fs_handle_t) (output_buf : iot_security_buffer_t) : N (Z * iot_security_buffer_t) :=
  fs_buf ← iot_os_malloc IOT_SECURITY_STORAGE_BUF_MAX_LEN;
  match fs_buf with
  | None => mret (IOT_ERROR_SECURITY_MEM_ALLOC, output_buf)
  | Some _ =>
      '(err, data) ← below_outcome (iot_bsp_fs_read handle IOT_SECURITY_STORAGE_BUF_MAX_LEN);
      if failed err then
        iot_os_free fs_buf;;
        _ ← below (iot_bsp_fs_close handle);
        mret (if err =? IOT_ERROR_FS_NO_FILE then IOT_ERROR_SECURITY_FS_NOT_FOUND else IOT_ERROR_SECURITY_FS_READ, output_buf)
      else
        store_bytes fs_buf 0 data;;
        realloc_buf ← iot_os_realloc fs_buf (zlen data + 1);
        match realloc_buf with
        | Some _ =>
            store_bytes realloc_buf (zlen data) [0];;
            let output_buf := SecBuffer realloc_buf (zlen data) in
            err ← below (iot_bsp_fs_close handle);
            mret (if failed err then IOT_ERROR_SECURITY_FS_CLOSE else IOT_ERROR_NONE, output_buf)
        | None =>
            iot_os_free fs_buf;;
            _ ← below (iot_bsp_fs_close handle);
            mret (IOT_ERROR_SECURITY_MEM_ALLOC, output_buf)
        end
  end.

Definition _iot_security_be_bsp_fs_load_from_nv (storage_id : Z) (output_buf : iot_security_buffer_t) : N (Z * iot_security_buffer_t) :=
  let '(err, filename) := _iot_security_be_bsp_fs_storage_id2filename storage_id IOT_SECURITY_STORAGE_FILENAME_MAX_LEN in
  if failed err then mret (err, output_buf)
  else if (IOT_NVD_FACTORY <=? storage_id) && negb stnv_partition then mret (IOT_ERROR_SECURITY_FS_OPEN, output_buf)
  else
    '(err, handle) ← below (if IOT_NVD_FACTORY <=? storage_id then iot_bsp_fs_open_from_stnv filename
                            else iot_bsp_fs_open filename FS_READONLY);
    if failed err then
      mret (if err =? IOT_ERROR_FS_NO_FILE then IOT_ERROR_SECURITY_FS_NOT_FOUND else IOT_ERROR_SECURITY_FS_OPEN, output_buf)
    else load_opened handle output_buf.

(** [external_device_info_cb]. *)
Definition call_external (cb : external_nv_callback) (storage_id : Z) : N (Z * iot_security_buffer_t) :=
  match cb with iot_nv_get_data_from_device_info_cb => iot_nv_get_data_from_device_info storage_id end.

(** [output_buf] is not null, and cleared once the context is known. *)
Definition _iot_security_be_bsp_fs_load (be_context : option nat) (storage_id : Z) (output_buf : iot_security_buffer_t)
  : N (Z * iot_security_buffer_t) :=
  match be_context with
  | None => mret (IOT_ERROR_SECURITY_BE_CONTEXT_NULL, output_buf)
  | Some _ =>
      match _iot_security_be_bsp_fs_storage_id2target storage_id with
      | TARGET_NV | TARGET_FACTORY => _iot_security_be_bsp_fs_load_from_nv storage_id no_buffer
      | TARGET_DI =>
          be ← get (A := iot_security_be_context_t) be_context;
          match external_device_info_cb be with
          | None => mret (IOT_ERROR_SECURITY_BE_EXTERNAL_NULL, no_buffer)
          | Some cb => call_external cb storage_id
          end
      | _ => mret (IOT_ERROR_SECURITY_FS_UNKNOWN_TARGET, no_buffer)
      end
  end.

(** [input] is the memory that [input_buf->p] points to. *)
Definition _iot_security_be_bsp_fs_store_to_nv (storage_id : Z) (input : list Z) (len : Z) : N Z :=
  let '(err, filename) := _iot_security_be_bsp_fs_storage_id2filename storage_id IOT_SECURITY_STORAGE_FILENAME_MAX_LEN in
  if failed err then mret err
  else
    '(err, handle) ← below (iot_bsp_fs_open filename FS_READWRITE);
    if failed err then mret IOT_ERROR_SECURITY_FS_OPEN
    else
      err ← below_outcome (iot_bsp_fs_write handle input (to_uint len));
      if failed err then
        _ ← below (iot_bsp_fs_close handle);
        mret IOT_ERROR_SECURITY_FS_WRITE
      else
        err ← below (iot_bsp_fs_close handle);
        mret (if failed err then IOT_ERROR_SECURITY_FS_CLOSE else IOT_ERROR_NONE).

(** [None] for [input_buf->p] is null. *)
Definition _iot_security_be_bsp_fs_store (storage_id : Z) (input : option (list Z)) (len : Z) : N Z :=
  match input with
  | None => mret IOT_ERROR_SECURITY_FS_INVALID_ARGS
  | Some input =>
      if len =? 0 then mret IOT_ERROR_SECURITY_FS_INVALID_ARGS
      else
        match _iot_security_be_bsp_fs_storage_id2target storage_id with
        | TARGET_NV => _iot_security_be_bsp_fs_store_to_nv storage_id input len
        | TARGET_FACTORY | TARGET_DI => mret IOT_ERROR_SECURITY_FS_INVALID_TARGET
        | _ => mret IOT_ERROR_SECURITY_FS_UNKNOWN_TARGET
        end
  end.

Definition _iot_security_be_bsp_fs_remove_from_nv (storage_id : Z) : N Z :=
  let '(err, filename) := _iot_security_be_bsp_fs_storage_id2filename storage_id IOT_SECURITY_STORAGE_FILENAME_MAX_LEN in
  if failed err then mret err
  else
    err ← below (iot_bsp_fs_remove filename);
    mret (if failed err then
            (if err =? IOT_ERROR_FS_NO_FILE then IOT_ERROR_SECURITY_FS_NOT_FOUND else IOT_ERROR_SECURITY_FS_REMOVE)
          else IOT_ERROR_NONE).

Definition _iot_security_be_bsp_fs_remove (storage_id : Z) : N Z :=
  match _iot_security_be_bsp_fs_storage_id2target storage_id with
  | TARGET_NV => _iot_security_be_bsp_fs_remove_from_nv storage_id
  | TARGET_FACTORY | TARGET_DI => mret IOT_ERROR_SECURITY_FS_INVALID_TARGET
  | _ => mret IOT_ERROR_SECURITY_FS_UNKNOWN_TARGET
  end.

(** [iot_security_be_software_bsp_funcs]. *)
Definition bsp_fs_load (f : iot_security_be_bsp_funcs_t) : option (option nat -> Z -> iot_security_buffer_t -> N (Z * iot_security_buffer_t)) :=
  match f with iot_security_be_software_bsp_funcs => Some _iot_security_be_bsp_fs_load end.
Definition bsp_fs_store (f : iot_security_be_bsp_funcs_t) : option (Z -> option (list Z) -> Z -> N Z) :=
  match f with iot_security_be_software_bsp_funcs => Some _iot_security_be_bsp_fs_store end.
Definition bsp_fs_remove (f : iot_security_be_bsp_funcs_t) : option (Z -> N Z) :=
  match f with iot_security_be_software_bsp_funcs => Some _iot_security_be_bsp_fs_remove end.

Definition iot_security_be_bsp_init (be_context : option nat) : N Z :=
  match be_context with
  | None => mret IOT_ERROR_SECURITY_BE_CONTEXT_NULL
  | Some _ =>
      update be_context (fun be => BeContext (be_fn be) (Some iot_security_be_software_bsp_funcs) (external_device_info_cb be));;
      mret IOT_ERROR_NONE
  end.

(** ** The back end in software *)

Definition has (sub_system bit : Z) : bool := negb (Z.land sub_system bit =? 0).
Definition missing (p : option nat) : bool := bool_decide (p = None).

Definition _iot_security_be_check_context_and_params_is_valid (context : option nat) (sub_system : Z) : N Z :=
  match context with
  | None => mret IOT_ERROR_SECURITY_CONTEXT_NULL
  | Some _ =>
      c ← get (A := iot_security_context_t) context;
      mret (if has sub_system IOT_SECURITY_SUB_PK && missing (pk_params c) then IOT_ERROR_SECURITY_PK_PARAMS_NULL
            else if has sub_system IOT_SECURITY_SUB_CIPHER && missing (cipher_params c) then IOT_ERROR_SECURITY_CIPHER_PARAMS_NULL
            else if has sub_system IOT_SECURITY_SUB_ECDH && missing (ecdh_params c) then IOT_ERROR_SECURITY_ECDH_PARAMS_NULL
            else if has sub_system IOT_SECURITY_SUB_STORAGE && missing (storage_params c) then IOT_ERROR_SECURITY_STORAGE_PARAMS_NULL
            else IOT_ERROR_NONE)
  end.

Definition cert2storage_id_map : list (Z * Z) :=
  [(IOT_SECURITY_CERT_ID_ROOT_CA, IOT_NVD_ROOT_CA_CERT);
   (IOT_SECURITY_CERT_ID_SUB_CA, IOT_NVD_SUB_CA_CERT);
   (IOT_SECURITY_CERT_ID_DEVICE, IOT_NVD_DEVICE_CERT)].
Definition _iot_security_be_software_id_cert2storage (cert_id : Z) : Z :=
  match find (fun m => cert_id =? m.1) cert2storage_id_map with Some m => m.2 | None => IOT_NVD_UNKNOWN end.

(** What [output_buf] is when it is not set. *)
Definition _iot_security_be_software_bsp_fs_load (context : option nat) (storage_id : Z) (output_buf : iot_security_buffer_t)
  : N (Z * iot_security_buffer_t) :=
  match context with
  | None => mret (IOT_ERROR_SECURITY_CONTEXT_NULL, output_buf)
  | Some _ =>
      c ← get (A := iot_security_context_t) context;
      match be_context c with
      | None => mret (IOT_ERROR_SECURITY_BE_CONTEXT_NULL, output_buf)
      | Some _ =>
          be ← get (A := iot_security_be_context_t) (be_context c);
          match be_bsp_fn be ≫= bsp_fs_load with
          | None => mret (IOT_ERROR_SECURITY_BSP_FN_LOAD_NULL, output_buf)
          | Some load => load (be_context c) storage_id output_buf
          end
      end
  end.

Definition _iot_security_be_software_manager_get_certificate (context : option nat) (cert_id : Z) (cert_buf : iot_security_buffer_t)
  : N (Z * iot_security_buffer_t) :=
  err ← _iot_security_be_check_context_and_params_is_valid context IOT_SECURITY_SUB_NONE;
  if failed err then mret (err, cert_buf)
  else
    let storage_id := _iot_security_be_software_id_cert2storage cert_id in
    if storage_id =? IOT_NVD_UNKNOWN then mret (IOT_ERROR_SECURITY_CERT_INVALID_ID, cert_buf)
    else _iot_security_be_software_bsp_fs_load context storage_id cert_buf.

(** The [storage_id] of the parameters of a context. *)
Definition get_storage_id (context : option nat) : N Z :=
  c ← get (A := iot_security_context_t) context;
  p ← get (A := iot_security_storage_params_t) (storage_params c);
  mret (storage_id p).
Definition get_bsp_fn (context : option nat) : N (option iot_security_be_bsp_funcs_t) :=
  c ← get (A := iot_security_context_t) context;
  be ← get (A := iot_security_be_context_t) (be_context c);
  mret (be_bsp_fn be).

Definition _iot_security_be_software_storage_read (context : option nat) (data_buf : iot_security_buffer_t) : N (Z * iot_security_buffer_t) :=
  err ← _iot_security_be_check_context_and_params_is_valid context IOT_SECURITY_SUB_STORAGE;
  if failed err then mret (err, data_buf)
  else id ← get_storage_id context; _iot_security_be_software_bsp_fs_load context id data_buf.

Definition _iot_security_be_software_storage_write (context : option nat) (data : option (list Z)) (len : Z) : N Z :=
  err ← _iot_security_be_check_context_and_params_is_valid context IOT_SECURITY_SUB_STORAGE;
  if failed err then mret err
  else
    fn ← get_bsp_fn context;
    match fn ≫= bsp_fs_store with
    | None => mret IOT_ERROR_SECURITY_BSP_FN_STORE_NULL
    | Some store => id ← get_storage_id context; store id data len
    end.

Definition _iot_security_be_software_storage_remove (context : option nat) : N Z :=
  err ← _iot_security_be_check_context_and_params_is_valid context IOT_SECURITY_SUB_STORAGE;
  if failed err then mret err
  else
    fn ← get_bsp_fn context;
    match fn ≫= bsp_fs_remove with
    | None => mret IOT_ERROR_SECURITY_BSP_FN_REMOVE_NULL
    | Some remove => id ← get_storage_id context; remove id
    end.

(** [iot_security_be_software_funcs], the entries for the storage and the
    certificates. *)
Definition storage_init (f : iot_security_be_funcs_t) : option (option nat -> N Z) :=
  match f with iot_security_be_software_funcs => None end.
Definition storage_deinit (f : iot_security_be_funcs_t) : option (option nat -> N Z) :=
  match f with iot_security_be_software_funcs => None end.
Definition manager_init (f : iot_security_be_funcs_t) : option (option nat -> N Z) :=
  match f with iot_security_be_software_funcs => None end.
Definition manager_deinit (f : iot_security_be_funcs_t) : option (option nat -> N Z) :=
  match f with iot_security_be_software_funcs => None end.
Definition storage_read (f : iot_security_be_funcs_t) : option (option nat -> iot_security_buffer_t -> N (Z * iot_security_buffer_t)) :=
  match f with iot_security_be_software_funcs => Some _iot_security_be_software_storage_read end.
Definition storage_write (f : iot_security_be_funcs_t) : option (option nat -> option (list Z) -> Z -> N Z) :=
  match f with iot_security_be_software_funcs => Some _iot_security_be_software_storage_write end.
Definition storage_remove (f : iot_security_be_funcs_t) : option (option nat -> N Z) :=
  match f with iot_security_be_software_funcs => Some _iot_security_be_software_storage_remove end.
Definition manager_get_certificate (f : iot_security_be_funcs_t)
  : option (option nat -> Z -> iot_security_buffer_t -> N (Z * iot_security_buffer_t)) :=
  match f with iot_security_be_software_funcs => Some _iot_security_be_software_manager_get_certificate end.

Definition iot_security_be_init (external_nv_cb : option external_nv_callback) : N (option nat) :=
  be_context ← malloc_object (BeContext (Some iot_security_be_software_funcs) None external_nv_cb);
  match be_context with
  | None => mret None
  | Some _ =>
      err ← iot_security_be_bsp_init be_context;
      if failed err then release (A := iot_security_be_context_t) be_context;; mret None
      else mret be_context
  end.

Definition iot_security_be_deinit (be_context : option nat) : N Z :=
  match be_context with
  | None => mret IOT_ERROR_SECURITY_INVALID_ARGS
  | Some _ => release (A := iot_security_be_context_t) be_context;; mret IOT_ERROR_NONE
  end.

(** ** Contexts *)

Definition iot_security_check_context_is_valid (context : option nat) : Z :=
  match context with None => IOT_ERROR_SECURITY_CONTEXT_NULL | Some _ => IOT_ERROR_NONE end.

Definition iot_security_check_backend_funcs_entry_is_valid (context : option nat) : N Z :=
  match context with
  | None => mret IOT_ERROR_SECURITY_CONTEXT_NULL
  | Some _ =>
      c ← get (A := iot_security_context_t) context;
      match be_context c with
      | None => mret IOT_ERROR_SECURITY_BE_CONTEXT_NULL
      | Some _ =>
          be ← get (A := iot_security_be_context_t) (be_context c);
          mret (if bool_decide (be_fn be = None) then IOT_ERROR_SECURITY_BE_FUNCS_ENTRY_NULL else IOT_ERROR_NONE)
      end
  end.

Definition set_be_context (p : option nat) (c : iot_security_context_t) : iot_security_context_t :=
  SecContext (sub_system c) (pk_params c) (cipher_params c) (ecdh_params c) (storage_params c) p.
Definition set_storage_params (p : option nat) (c : iot_security_context_t) : iot_security_context_t :=
  SecContext (sub_system c) (pk_params c) (cipher_params c) (ecdh_params c) p (be_context c).
Definition set_sub_system (n : Z) (c : iot_security_context_t) : iot_security_context_t :=
  SecContext n (pk_params c) (cipher_params c) (ecdh_params c) (storage_params c) (be_context c).

Definition iot_security_init : N (option nat) :=
  let external_nv_cb := if stnv_partition then None else Some iot_nv_get_data_from_device_info_cb in
  context ← malloc_object (SecContext 0 None None None None None);
  match context with
  | None => mret None
  | Some _ =>
      be_context ← iot_security_be_init external_nv_cb;
      match be_context with
      | None => release (A := iot_security_context_t) context;; mret None
      | Some _ => update context (set_be_context be_context);; mret context
      end
  end.

Definition iot_security_deinit (context : option nat) : N Z :=
  let err := iot_security_check_context_is_valid context in
  if failed err then mret err
  else
    c ← get (A := iot_security_context_t) context;
    err ← iot_security_be_deinit (be_context c);
    if failed err then mret err
    else release (A := iot_security_context_t) context;; mret IOT_ERROR_NONE.

(** The entry of the table of the back end, when there is one. *)
Definition be_entry {F} (entry : iot_security_be_funcs_t -> option F) (context : option nat) : N (option F) :=
  c ← get (A := iot_security_context_t) context;
  match be_context c with
  | None => mret None
  | Some _ => be ← get (A := iot_security_be_context_t) (be_context c); mret (be_fn be ≫= entry)
  end.

(** ** The storage *)

Definition _iot_security_storage_set_storage_id (context : option nat) (storage_id : Z) : N Z :=
  match context with
  | None => mret IOT_ERROR_SECURITY_CONTEXT_NULL
  | Some _ =>
      c ← get (A := iot_security_context_t) context;
      match storage_params c with
      | None => mret IOT_ERROR_SECURITY_STORAGE_PARAMS_NULL
      | Some _ =>
          if (storage_id <=? IOT_NVD_UNKNOWN) || (IOT_NVD_MAX <=? storage_id) then mret IOT_ERROR_SECURITY_STORAGE_INVALID_ID
          else
            update (A := iot_security_storage_params_t) (storage_params c) (fun _ => StorageParams storage_id);;
            mret IOT_ERROR_NONE
      end
  end.

Definition iot_security_storage_init (context : option nat) : N Z :=
  match context with
  | None => mret IOT_ERROR_SECURITY_CONTEXT_NULL
  | Some _ =>
      params ← malloc_object (StorageParams 0);
      match params with
      | None => mret IOT_ERROR_SECURITY_MEM_ALLOC
      | Some _ =>
          update context (set_storage_params params);;
          init ← be_entry storage_init context;
          err ← match init with Some init => init context | None => mret IOT_ERROR_NONE end;
          if failed err then
            c ← get (A := iot_security_context_t) context;
            release (A := iot_security_storage_params_t) (storage_params c);;
            update context (set_storage_params None);;
            mret err
          else
            update context (fun c => set_sub_system (Z.lor (sub_system c) IOT_SECURITY_SUB_STORAGE) c);;
            mret IOT_ERROR_NONE
      end
  end.

Definition iot_security_storage_deinit (context : option nat) : N Z :=
  match context with
  | None => mret IOT_ERROR_SECURITY_CONTEXT_NULL
  | Some _ =>
      deinit ← be_entry storage_deinit context;
      err ← match deinit with Some deinit => deinit context | None => mret IOT_ERROR_NONE end;
      if failed err then mret err
      else
        c ← get (A := iot_security_context_t) context;
        match storage_params c with
        | Some _ =>
            release (A := iot_security_storage_params_t) (storage_params c);;
            update context (set_storage_params None)
        | None => mret tt
        end;;
        update context (fun c => set_sub_system (Z.land (sub_system c) (Z.lnot IOT_SECURITY_SUB_STORAGE)) c);;
        mret IOT_ERROR_NONE
  end.

(** [output_buf] is not null; [buf] is what it contains before. *)
Definition iot_security_storage_read (context : option nat) (storage_id : Z) (buf : iot_security_buffer_t) : N (Z * iot_security_buffer_t) :=
  err ← iot_security_check_backend_funcs_entry_is_valid context;
  if failed err then mret (err, buf)
  else
    err ← _iot_security_storage_set_storage_id context storage_id;
    if failed err then mret (err, buf)
    else
      read ← be_entry storage_read context;
      match read with
      | None => mret (IOT_ERROR_SECURITY_BE_FUNC_NULL, no_buffer)
      | Some read => read context no_buffer
      end.

(** [input_buf] is not null, and [data] what [input_buf->p] points to. *)
Definition iot_security_storage_write (context : option nat) (storage_id : Z) (data : option (list Z)) (len : Z) : N Z :=
  err ← iot_security_check_backend_funcs_entry_is_valid context;
  if failed err then mret err
  else
    err ← _iot_security_storage_set_storage_id context storage_id;
    if failed err then mret err
    else if bool_decide (data = None) || (len =? 0) then mret IOT_ERROR_SECURITY_INVALID_ARGS
    else
      write ← be_entry storage_write context;
      match write with
      | None => mret IOT_ERROR_SECURITY_BE_FUNC_NULL
      | Some write => write context data len
      end.

Definition iot_security_storage_remove (context : option nat) (storage_id : Z) : N Z :=
  err ← iot_security_check_backend_funcs_entry_is_valid context;
  if failed err then mret err
  else
    err ← _iot_security_storage_set_storage_id context storage_id;
    if failed err then mret err
    else
      remove ← be_entry storage_remove context;
      match remove with
      | None => mret IOT_ERROR_SECURITY_BE_FUNC_NULL
      | Some remove => remove context
      end.

(** ** Certificates *)

Definition iot_security_manager_init (context : option nat) : N Z :=
  match context with
  | None => mret IOT_ERROR_SECURITY_CONTEXT_NULL
  | Some _ =>
      init ← be_entry manager_init context;
      err ← match init with Some init => init context | None => mret IOT_ERROR_NONE end;
      if failed err then mret err
      else
        update context (fun c => set_sub_system (Z.lor (sub_system c) IOT_SECURITY_SUB_MANAGER) c);;
        mret IOT_ERROR_NONE
  end.

Definition iot_security_manager_deinit (context : option nat) : N Z :=
  match context with
  | None => mret IOT_ERROR_SECURITY_CONTEXT_NULL
  | Some _ =>
      deinit ← be_entry manager_deinit context;
      err ← match deinit with Some deinit => deinit context | None => mret IOT_ERROR_NONE end;
      if failed err then mret err
      else
        update context (fun c => set_sub_system (Z.land (sub_system c) (Z.lnot IOT_SECURITY_SUB_MANAGER)) c);;
        mret IOT_ERROR_NONE
  end.

Definition _iot_security_manager_check_certificate_target (cert_id : Z) : iot_security_storage_target_t :=
  if cert_id =? IOT_SECURITY_CERT_ID_ROOT_CA then TARGET_STATIC else TARGET_NV.

(** Of [iot_nv_data.c]; [buf] is what [*output_buf] is when it is not set. *)
Definition iot_nv_get_static_certificate (cert_id : Z) (buf : iot_security_buffer_t) : N (Z * iot_security_buffer_t) :=
  if negb (cert_id =? IOT_SECURITY_CERT_ID_ROOT_CA) then mret (IOT_ERROR_NV_DATA_ERROR, buf)
  else
    let cert_len := zlen st_root_ca in
    data ← iot_os_malloc (cert_len + 1);
    match data with
    | None => mret (IOT_ERROR_MEM_ALLOC, buf)
    | Some _ =>
        store_bytes data 0 st_root_ca;;
        store_bytes data cert_len [0];;
        mret (IOT_ERROR_NONE, SecBuffer data cert_len)
    end.

(** [cert_buf] is not null. *)
Definition iot_security_manager_get_certificate (context : option nat) (cert_id : Z) (buf : iot_security_buffer_t) : N (Z * iot_security_buffer_t) :=
  err ← iot_security_check_backend_funcs_entry_is_valid context;
  if failed err then mret (err, buf)
  else if (cert_id <=? IOT_SECURITY_CERT_ID_UNKNOWN) || (IOT_SECURITY_CERT_ID_MAX <=? cert_id)
  then mret (IOT_ERROR_SECURITY_CERT_INVALID_ID, buf)
  else if decide (_iot_security_manager_check_certificate_target cert_id = TARGET_STATIC)
  then iot_nv_get_static_certificate cert_id no_buffer
  else
    entry ← be_entry manager_get_certificate context;
    match entry with
    | None => mret (IOT_ERROR_SECURITY_BE_FUNC_NULL, no_buffer)
    | Some get_certificate => get_certificate context cert_id no_buffer
    end.
End store.
