(* ===== verification/NvData.v ===== *)
(** * Non-volatile data: operations

    [src/src/iot_nv_data.c]: what the device keeps over a restart.  Every
    operation makes a security context, stores, loads or removes one piece of
    data through it and gives it back; the provisioning data for Wi-Fi and the
    cloud are several pieces with a status.  A string is the bytes of an object
    up to its first 0, which has to be there. *)

From S2P Require Import Prelude Platform UtilQueue Util UtilUrl Heap MqttPacket NvBase NvStore.

Definition IOT_NVD_MAX_DATA_LEN : Z := 2048.
Definition IOT_NVD_MAX_BSSID_LEN : Z := 6.
Definition IOT_NVD_MAX_UID_LEN : Z := 128.
Definition IOT_NVD_MAX_SN_LEN : Z := 30.
Definition IOT_WIFI_PROV_SSID_STR_LEN : Z := 32.
Definition IOT_WIFI_PROV_PASSWORD_STR_LEN : Z := 64.
Definition IOT_WIFI_PROV_MAC_STR_LEN : Z := 17.
Definition IOT_WIFI_AUTH_OPEN : Z := 0.
Definition IOT_WIFI_AUTH_MAX : Z := 8.

Inductive iot_nv_io_mode_t := IOT_NV_MODE_READ | IOT_NV_MODE_WRITE | IOT_NV_MODE_REMOVE.
#[export] Instance iot_nv_io_mode_t_eq_dec : EqDecision iot_nv_io_mode_t.
Proof. solve_decision. Defined.

(** [struct iot_wifi_prov_data]: arrays of 33, 65, 18 and 6 bytes. *)
Record iot_wifi_prov_data := WifiProv {
  ssid : list Z; password : list Z; mac_str : list Z; bssid : list Z; security_type : Z
}.
Definition set_ssid v (w : iot_wifi_prov_data) := WifiProv v (password w) (mac_str w) (bssid w) (security_type w).
Definition set_password v (w : iot_wifi_prov_data) := WifiProv (ssid w) v (mac_str w) (bssid w) (security_type w).
Definition set_mac v b (w : iot_wifi_prov_data) := WifiProv (ssid w) (password w) v b (security_type w).
Definition set_security_type v (w : iot_wifi_prov_data) := WifiProv (ssid w) (password w) (mac_str w) (bssid w) v.
Definition zeros (n : nat) : list Z := replicate n 0.
Definition zero_wifi : iot_wifi_prov_data := WifiProv (zeros 33) (zeros 65) (zeros 18) (zeros 6) 0.

(** [struct iot_cloud_prov_data]: pointers to strings. *)
Record iot_cloud_prov_data := CloudProv {
  broker_url : option nat; broker_port : Z; location : option nat; room : option nat; label : option nat
}.
Definition set_broker_url v (c : iot_cloud_prov_data) := CloudProv v (broker_port c) (location c) (room c) (label c).
Definition set_broker_port v (c : iot_cloud_prov_data) := CloudProv (broker_url c) v (location c) (room c) (label c).
Definition set_label v (c : iot_cloud_prov_data) := CloudProv (broker_url c) (broker_port c) (location c) (room c) v.

(** The digits of [snprintf(..., "%d", n)]. *)
Fixpoint digits (fuel : nat) (n : Z) : list Z :=
  match fuel with
  | O => []
  | S fuel => if n <? 10 then [48 + n] else digits fuel (n / 10) ++ [48 + n mod 10]
  end.
Definition number_text (n : Z) : list Z := if n <? 0 then 45 :: digits 10 (- n) else digits 10 n.

Section nv.
Context `{CharModel} `{NC : NvConfig} `{NB : NvBelow}.
Abbreviation N := (st nvworld).

(** ** One piece of data *)

Definition _iot_nv_io_storage_init : N (option nat) :=
  security_context ← iot_security_init;
  match security_context with
  | None => mret None
  | Some _ =>
      err ← iot_security_storage_init security_context;
      if failed err then _ ← iot_security_deinit security_context; mret None
      else mret security_context
  end.

Definition _iot_nv_io_storage_deinit (security_context : option nat) : N Z :=
  err ← iot_security_storage_deinit security_context;
  if failed err then mret err
  else
    err ← iot_security_deinit security_context;
    mret (if failed err then err else IOT_ERROR_NONE).

(** [case IOT_NV_MODE_READ]: the error, [data] after it, and [*read_len]. *)
Definition io_read (security_context : option nat) (nv_id : Z) (data : list Z) (data_len : Z) : N (Z * list Z * option Z) :=
  '(err, data_buf) ← iot_security_storage_read security_context nv_id no_buffer;
  if failed err then
    mret (if err =? IOT_ERROR_SECURITY_FS_NOT_FOUND then IOT_ERROR_NV_DATA_NOT_EXIST else IOT_ERROR_NV_DATA_ERROR, data, None)
  else if data_len <? buf_len data_buf then
    iot_os_free (buf_p data_buf);;
    mret (IOT_ERROR_SECURITY_FS_BUFFER, data, None)
  else
    read ← load_bytes (buf_p data_buf) (buf_len data_buf);
    data ← copy_at data 0 read;
    data ← (if buf_len data_buf <? data_len then copy_at data (buf_len data_buf) [0] else mret data);
    iot_os_free (buf_p data_buf);;
    mret (IOT_ERROR_NONE, data, Some (buf_len data_buf)).

(** [data] is [None] for null; what is returned is the error, [data] after the
    operation, and [*read_len] when it is set. *)
Definition _iot_nv_io_storage (nv_id : Z) (mode : iot_nv_io_mode_t) (data : option (list Z)) (data_len : Z)
  : N (Z * option (list Z) * option Z) :=
  if (nv_id <? 0) || (IOT_NVD_MAX <=? nv_id) then mret (IOT_ERROR_INVALID_ARGS, data, None)
  else if negb (bool_decide (mode = IOT_NV_MODE_REMOVE)) && (bool_decide (data = None) || (data_len =? 0))
  then mret (IOT_ERROR_INVALID_ARGS, data, None)
  else
    security_context ← _iot_nv_io_storage_init;
    match security_context with
    | None => mret (IOT_ERROR_NV_DATA_ERROR, data, None)
    | Some _ =>
        r ← match mode with
            | IOT_NV_MODE_READ =>
                buf ← need data;
                '(err, buf, read_len) ← io_read security_context nv_id buf data_len;
                mret (err, Some buf, read_len)
            | IOT_NV_MODE_WRITE =>
                err ← iot_security_storage_write security_context nv_id data data_len;
                mret (if failed err then IOT_ERROR_NV_DATA_ERROR else IOT_ERROR_NONE, data, None)
            | IOT_NV_MODE_REMOVE =>
                err ← iot_security_storage_remove security_context nv_id;
                mret (if failed err then
                        (if err =? IOT_ERROR_SECURITY_FS_NOT_FOUND then IOT_ERROR_NV_DATA_NOT_EXIST else IOT_ERROR_NV_DATA_ERROR)
                      else IOT_ERROR_NONE, data, None)
            end;
        _ ← _iot_nv_io_storage_deinit security_context;
        mret r
    end.

Definition _iot_nv_read_data (nv_type : Z) (data : option (list Z)) (data_len : Z) : N (Z * option (list Z) * option Z) :=
  _iot_nv_io_storage nv_type IOT_NV_MODE_READ data data_len.
Definition _iot_nv_write_data (nv_type : Z) (data : option (list Z)) (data_len : Z) : N Z :=
  '(err, _, _) ← _iot_nv_io_storage nv_type IOT_NV_MODE_WRITE data data_len; mret err.
Definition _iot_nv_remove_data (nv_type : Z) : N Z :=
  '(err, _, _) ← _iot_nv_io_storage nv_type IOT_NV_MODE_REMOVE None 0; mret err.

(** Reading into a block, and writing from one. *)
Definition read_into (nv_type : Z) (p : option nat) (size : Z) : N (Z * option Z) :=
  l ← get (A := list Z) p;
  '(err, l, n) ← _iot_nv_read_data nv_type (Some l) size;
  match l with Some l => update p (fun _ => l) | None => mret tt end;;
  mret (err, n).
Definition write_from (nv_type : Z) (p : option nat) (size : Z) : N Z :=
  l ← get p; _iot_nv_write_data nv_type (Some l) size.

(** ** Start and end *)

(** [device_info] is the memory that it points to. *)
Definition iot_nv_init (device_info : list Z) (device_info_len : Z) : N Z :=
  ret ← below iot_bsp_fs_init;
  if failed ret then mret IOT_ERROR_INIT_FAIL
  else if stnv_partition then mret IOT_ERROR_NONE
  else
    data ← iot_os_malloc (device_info_len + 1);
    match data with
    | None => mret IOT_ERROR_MEM_ALLOC
    | Some _ =>
        info ← bytes_at device_info 0 device_info_len;
        store_bytes data 0 info;;
        store_bytes data device_info_len [0];;
        modify (set_info data device_info_len);;
        mret IOT_ERROR_NONE
    end.

Definition iot_nv_deinit : N Z :=
  ret ← below iot_bsp_fs_deinit;
  if failed ret then mret IOT_ERROR_DEINIT_FAIL
  else if stnv_partition then mret IOT_ERROR_NONE
  else
    p ← gets device_nv_info;
    iot_os_free p;;
    modify (set_info None 0);;
    mret IOT_ERROR_NONE.

Definition iot_nv_erase (nv_type : Z) : N Z :=
  if (nv_type <? 0) || (IOT_NVD_MAX <=? nv_type) then mret IOT_ERROR_INVALID_ARGS
  else
    ret ← _iot_nv_remove_data nv_type;
    mret (if failed ret then
            (if ret =? IOT_ERROR_NV_DATA_NOT_EXIST then IOT_ERROR_NV_DATA_NOT_EXIST else IOT_ERROR_NV_DATA_ERROR)
          else IOT_ERROR_NONE).

(** ** Wi-Fi *)

Definition WIFI_DATA_SIZE : Z := IOT_WIFI_PROV_PASSWORD_STR_LEN + 1.

(** [strncmp(data, "DONE", 4) == 0]. *)
Definition is_done (data : list Z) : N bool := need (strncmp_eq 4 data (lit "DONE" ++ [0])).

(** [snprintf] or [memcpy] of the string in [data] into an array of [len + 1]
    bytes. *)
Definition copy_string (field data : list Z) (len : Z) : N (list Z) :=
  s ← need (string_in data);
  if to_uint (zlen s) <? len then copy_at field 0 (take (Z.to_nat (len - 1)) s ++ [0])
  else
    t ← bytes_at data 0 len;
    field ← copy_at field 0 t;
    copy_at field len [0].

(** One piece: what it gives when it is there, when it is not, and the error
    otherwise; with an error the rest is skipped. *)
Definition piece {A} (nv_type : Z) (data : option nat) (size : Z) (x : A) (found : Z -> A -> N (Z * A)) (none : A -> A) : N (Z * A) :=
  '(ret, n) ← read_into nv_type data size;
  if ret =? IOT_ERROR_NONE then found (default 0 n) x
  else if ret =? IOT_ERROR_NV_DATA_NOT_EXIST then mret (IOT_ERROR_NONE, none x)
  else mret (IOT_ERROR_NV_DATA_ERROR, x).
Definition next {A} (m : N (Z * A)) (k : A -> N (Z * A)) : N (Z * A) :=
  '(ret, x) ← m; if failed ret then mret (ret, x) else k x.

(** The status, which has to be there and to be "DONE". *)
Definition check_status {A} (nv_type : Z) (data : option nat) (size : Z) (x : A) : N (Z * A) :=
  '(ret, _) ← read_into nv_type data size;
  if failed ret then mret (IOT_ERROR_NV_DATA_ERROR, x)
  else
    l ← get data;
    done ← is_done l;
    mret (if (done : bool) then IOT_ERROR_NONE else IOT_ERROR_NV_DATA_ERROR, x).

Definition no_mac (w : iot_wifi_prov_data) : iot_wifi_prov_data := set_mac (zeros 18) (zeros 6) w.

(** The BSSID: a text of 17 characters, or 6 bytes. *)
Definition found_bssid (data : option nat) (read_len : Z) (w : iot_wifi_prov_data) : N (Z * iot_wifi_prov_data) :=
  l ← get data;
  if IOT_WIFI_PROV_MAC_STR_LEN <=? read_len then
    t ← bytes_at l 0 IOT_WIFI_PROV_MAC_STR_LEN;
    m ← copy_at (mac_str w) 0 t;
    m ← copy_at m IOT_WIFI_PROV_MAC_STR_LEN [0];
    s ← need (string_in m);
    match iot_util_convert_str_mac (Some s) (Some (bssid w)) with
    | Ret (ret, b) => mret (IOT_ERROR_NONE, if failed ret then no_mac w else set_mac m (default (bssid w) b) w)
    | Undef => undef
    | Hang => hang
    end
  else if IOT_NVD_MAX_BSSID_LEN <=? read_len then
    t ← bytes_at l 0 IOT_NVD_MAX_BSSID_LEN;
    b ← copy_at (bssid w) 0 t;
    match iot_util_convert_mac_str (Some b) 18 (Some (mac_str w)) with
    | Ret (ret, m) => mret (IOT_ERROR_NONE, if failed ret then no_mac w else set_mac (default (mac_str w) m) b w)
    | Undef => undef
    | Hang => hang
    end
  else mret (IOT_ERROR_NONE, no_mac w).

Definition found_auth_type (data : option nat) (w : iot_wifi_prov_data) : N (Z * iot_wifi_prov_data) :=
  s ← load_string data; v ← need (atoi s); mret (IOT_ERROR_NONE, set_security_type v w).

(** The error, and [*wifi_prov]; [None] for null. *)
Definition iot_nv_get_wifi_prov_data (wifi_prov : option iot_wifi_prov_data) : N (Z * option iot_wifi_prov_data) :=
  match wifi_prov with
  | None => mret (IOT_ERROR_INVALID_ARGS, None)
  | Some w =>
      data ← iot_os_malloc WIFI_DATA_SIZE;
      match data with
      | None => mret (IOT_ERROR_NV_DATA_ERROR, Some w)
      | Some _ =>
          '(ret, w) ←
            next (check_status IOT_NVD_WIFI_PROV_STATUS data WIFI_DATA_SIZE w) (fun w =>
            next (piece IOT_NVD_AP_SSID data WIFI_DATA_SIZE w
                    (fun _ w => l ← get data; s ← copy_string (ssid w) l IOT_WIFI_PROV_SSID_STR_LEN; mret (IOT_ERROR_NONE, set_ssid s w))
                    (fun w => set_ssid (<[0%nat := 0]> (ssid w)) w)) (fun w =>
            next (piece IOT_NVD_AP_PASS data WIFI_DATA_SIZE w
                    (fun _ w => l ← get data; s ← copy_string (password w) l IOT_WIFI_PROV_PASSWORD_STR_LEN;
                                mret (IOT_ERROR_NONE, set_password s w))
                    (fun w => set_password (<[0%nat := 0]> (password w)) w)) (fun w =>
            next (piece IOT_NVD_AP_BSSID data WIFI_DATA_SIZE w (found_bssid data) no_mac) (fun w =>
            piece IOT_NVD_AP_AUTH_TYPE data WIFI_DATA_SIZE w (fun _ => found_auth_type data) (set_security_type (-1))))));
          iot_os_free data;;
          mret (ret, Some (if failed ret then zero_wifi else w))
      end
  end.

(** A step of a writer; with an error the rest is skipped. *)
Definition then_do (m : N Z) (k : N Z) : N Z := ret ← m; if failed ret then mret ret else k.
(** [_iot_nv_write_data] of the first [size] bytes of the block. *)
Definition write_block (nv_type : Z) (data : option nat) (size : Z) : N Z :=
  ret ← write_from nv_type data size;
  mret (if failed ret then IOT_ERROR_NV_DATA_ERROR else IOT_ERROR_NONE).
(** [size] bytes and a 0 into the block, which are written. *)
Definition write_field (nv_type : Z) (data : option nat) (l : list Z) : N Z :=
  store_bytes data 0 l;; store_bytes data (zlen l) [0];;
  write_block nv_type data (zlen l).
Definition write_status (nv_type : Z) (data : option nat) (status : string) : N Z := write_field nv_type data (lit status).
(** An array, or nothing when it is an empty string; the error of the erasure is
    ignored. *)
Definition write_array (nv_type : Z) (data : option nat) (field : list Z) (size : Z) : N Z :=
  first ← need (head field);
  if first =? 0 then _ ← iot_nv_erase nv_type; mret IOT_ERROR_NONE
  else l ← bytes_at field 0 size; write_field nv_type data l.
Definition write_number (nv_type : Z) (data : option nat) (n : Z) : N Z := write_field nv_type data (number_text n).

Definition iot_nv_set_wifi_prov_data (wifi_prov : option iot_wifi_prov_data) : N Z :=
  match wifi_prov with
  | None => mret IOT_ERROR_INVALID_ARGS
  | Some w =>
      data ← iot_os_malloc WIFI_DATA_SIZE;
      match data with
      | None => mret IOT_ERROR_NV_DATA_ERROR
      | Some _ =>
          ret ←
            then_do (write_status IOT_NVD_WIFI_PROV_STATUS data "NONE") (
            then_do (write_array IOT_NVD_AP_SSID data (ssid w) IOT_WIFI_PROV_SSID_STR_LEN) (
            then_do (write_array IOT_NVD_AP_PASS data (password w) IOT_WIFI_PROV_PASSWORD_STR_LEN) (
            then_do (write_array IOT_NVD_AP_BSSID data (mac_str w) IOT_WIFI_PROV_MAC_STR_LEN) (
            then_do (if (security_type w <? IOT_WIFI_AUTH_OPEN) || (IOT_WIFI_AUTH_MAX <? security_type w)
                     then _ ← iot_nv_erase IOT_NVD_AP_AUTH_TYPE; mret IOT_ERROR_NONE
                     else write_number IOT_NVD_AP_AUTH_TYPE data (security_type w)) (
            write_status IOT_NVD_WIFI_PROV_STATUS data "DONE")))));
          iot_os_free data;;
          mret ret
      end
  end.

(** ** The cloud *)

Definition CLOUD_DATA_SIZE : Z := IOT_NVD_MAX_DATA_LEN / 2 + 1.

(** The string in the block, copied; [None] when there is no memory. *)
Definition copy_block_string (data : option nat) : N (option nat * Z) :=
  s ← load_string data;
  let size := to_uint (zlen s) in
  new_buff ← iot_os_malloc (to_uint (size + 1));
  match new_buff with
  | None => mret (None, size)
  | Some _ => store_bytes new_buff 0 s;; store_bytes new_buff size [0];; mret (new_buff, size)
  end.
Definition found_string (data : option nat) (set : option nat -> iot_cloud_prov_data -> iot_cloud_prov_data)
  (c : iot_cloud_prov_data) : N (Z * iot_cloud_prov_data) :=
  '(new_buff, _) ← copy_block_string data;
  mret (if bool_decide (new_buff = None) then (IOT_ERROR_NV_DATA_ERROR, c) else (IOT_ERROR_NONE, set new_buff c)).
Definition found_port (data : option nat) (c : iot_cloud_prov_data) : N (Z * iot_cloud_prov_data) :=
  s ← load_string data; v ← need (atoi s); mret (IOT_ERROR_NONE, set_broker_port v c).

Definition iot_nv_get_cloud_prov_data (cloud_prov : option iot_cloud_prov_data) : N (Z * option iot_cloud_prov_data) :=
  match cloud_prov with
  | None => mret (IOT_ERROR_INVALID_ARGS, None)
  | Some c =>
      data ← iot_os_malloc CLOUD_DATA_SIZE;
      match data with
      | None => mret (IOT_ERROR_NV_DATA_ERROR, Some c)
      | Some _ =>
          '(ret, c) ←
            next (check_status IOT_NVD_CLOUD_PROV_STATUS data CLOUD_DATA_SIZE c) (fun c =>
            next (piece IOT_NVD_SERVER_URL data CLOUD_DATA_SIZE c (fun _ => found_string data set_broker_url) (set_broker_url None)) (fun c =>
            next (piece IOT_NVD_SERVER_PORT data CLOUD_DATA_SIZE c (fun _ => found_port data) (set_broker_port (-1))) (fun c =>
            update data (fun _ => zeros (Z.to_nat CLOUD_DATA_SIZE));;
            piece IOT_NVD_LABEL data CLOUD_DATA_SIZE c (fun _ => found_string data set_label) (set_label None))));
          iot_os_free data;;
          mret (ret, Some c)
      end
  end.

(** A string that a pointer points to, or nothing when it is null; the error of
    the erasure is ignored. *)
Definition write_string (nv_type : Z) (p : option nat) : N Z :=
  match p with
  | None => _ ← iot_nv_erase nv_type; mret IOT_ERROR_NONE
  | Some _ => s ← load_string p; write_block nv_type p (zlen s)
  end.

Definition iot_nv_set_cloud_prov_data (cloud_prov : option iot_cloud_prov_data) : N Z :=
  match cloud_prov with
  | None => mret IOT_ERROR_INVALID_ARGS
  | Some c =>
      data ← iot_os_malloc CLOUD_DATA_SIZE;
      match data with
      | None => mret IOT_ERROR_NV_DATA_ERROR
      | Some _ =>
          ret ←
            then_do (write_status IOT_NVD_CLOUD_PROV_STATUS data "NONE") (
            then_do (write_string IOT_NVD_SERVER_URL (broker_url c)) (
            then_do (write_number IOT_NVD_SERVER_PORT data (broker_port c)) (
            then_do (write_string IOT_NVD_LABEL (label c)) (
            write_status IOT_NVD_CLOUD_PROV_STATUS data "DONE"))));
          iot_os_free data;;
          mret ret
      end
  end.

(** ** Provisioning data *)

(** [struct iot_device_prov_data]. *)
Record iot_device_prov_data := DeviceProv { wifi : iot_wifi_prov_data; cloud : iot_cloud_prov_data }.

(** A status of 4 bytes in an array of 5 zeros. *)
Definition status_done (nv_type : Z) : N bool :=
  '(ret, nv_status, _) ← _iot_nv_read_data nv_type (Some (zeros 5)) 4;
  if failed ret then mret false else l ← need nv_status; is_done l.
Definition iot_nv_prov_data_exist : N bool :=
  done ← status_done IOT_NVD_WIFI_PROV_STATUS;
  if (done : bool) then status_done IOT_NVD_CLOUD_PROV_STATUS else mret false.

Definition iot_nv_get_prov_data (prov_data : option iot_device_prov_data) : N (Z * option iot_device_prov_data) :=
  match prov_data with
  | None => mret (IOT_ERROR_INVALID_ARGS, None)
  | Some d =>
      '(ret, w) ← iot_nv_get_wifi_prov_data (Some (wifi d));
      let d := DeviceProv (default (wifi d) w) (cloud d) in
      if failed ret then mret (IOT_ERROR_NV_DATA_ERROR, Some d)
      else
        '(ret, c) ← iot_nv_get_cloud_prov_data (Some (cloud d));
        let d := DeviceProv (wifi d) (default (cloud d) c) in
        mret (if failed ret then IOT_ERROR_NV_DATA_ERROR else IOT_ERROR_NONE, Some d)
  end.

Definition iot_nv_set_prov_data (prov_data : option iot_device_prov_data) : N Z :=
  match prov_data with
  | None => mret IOT_ERROR_INVALID_ARGS
  | Some d =>
      ret ← iot_nv_set_wifi_prov_data (Some (wifi d));
      if failed ret then mret IOT_ERROR_NV_DATA_ERROR
      else
        ret ← iot_nv_set_cloud_prov_data (Some (cloud d));
        mret (if failed ret then IOT_ERROR_NV_DATA_ERROR else IOT_ERROR_NONE)
  end.

Definition iot_nv_erase_prov_data : N Z :=
  let status := lit "NONE" ++ [0] in
  ret ← _iot_nv_write_data IOT_NVD_WIFI_PROV_STATUS (Some status) 4;
  if failed ret then mret IOT_ERROR_NV_DATA_ERROR
  else
    ret ← _iot_nv_write_data IOT_NVD_CLOUD_PROV_STATUS (Some status) 4;
    mret (if failed ret then IOT_ERROR_NV_DATA_ERROR else IOT_ERROR_NONE).

(** ** Single strings *)

(** The body that the three getters share: a block of [size] bytes, and a copy
    of the string in it; the error, and [*device_id] and [*len] when they are
    set. *)
Definition get_string (nv_type size : Z) : N (Z * option (option nat * Z)) :=
  data ← iot_os_malloc size;
  match data with
  | None => mret (IOT_ERROR_NV_DATA_ERROR, None)
  | Some _ =>
      '(ret, _) ← read_into nv_type data size;
      r ← (if failed ret then mret (IOT_ERROR_NV_DATA_ERROR, None)
           else
             '(new_buff, size) ← copy_block_string data;
             mret (if bool_decide (new_buff = None) then (IOT_ERROR_NV_DATA_ERROR, None)
                   else (IOT_ERROR_NONE, Some (new_buff, size))));
      iot_os_free data;;
      mret r
  end.
(** The arguments are not null. *)
Definition iot_nv_get_device_id : N (Z * option (option nat * Z)) := get_string IOT_NVD_DEVICE_ID (IOT_NVD_MAX_UID_LEN + 1).
Definition iot_nv_get_serial_number : N (Z * option (option nat * Z)) := get_string IOT_NVD_SERIAL_NUM (IOT_NVD_MAX_SN_LEN + 1).
Definition iot_nv_get_misc_info : N (Z * option (option nat * Z)) := get_string IOT_NVD_MISC_INFO (IOT_NVD_MAX_DATA_LEN + 1).

(** A string without its terminator; [None] for null. *)
Definition set_string (nv_type : Z) (s : option (list Z)) : N Z :=
  match s with
  | None => mret IOT_ERROR_INVALID_ARGS
  | Some s =>
      ret ← _iot_nv_write_data nv_type (Some (s ++ [0])) (zlen s);
      mret (if failed ret then IOT_ERROR_NV_DATA_ERROR else IOT_ERROR_NONE)
  end.
Definition iot_nv_set_device_id (device_id : option (list Z)) : N Z := set_string IOT_NVD_DEVICE_ID device_id.
Definition iot_nv_set_misc_info (misc_info : option (list Z)) : N Z := set_string IOT_NVD_MISC_INFO misc_info.

(** The error, and [*cert] and [*len] when they are set; the arguments are not
    null. *)
Definition iot_nv_get_certificate (cert_id : Z) : N (Z * option (option nat * Z)) :=
  security_context ← _iot_nv_io_storage_init;
  match security_context with
  | None => mret (IOT_ERROR_NV_DATA_ERROR, None)
  | Some _ =>
      ret ← iot_security_manager_init security_context;
      if failed ret then mret (IOT_ERROR_NV_DATA_ERROR, None)
      else
        '(ret, cert_buf) ← iot_security_manager_get_certificate security_context cert_id no_buffer;
        if failed ret then mret (IOT_ERROR_NV_DATA_ERROR, None)
        else
          _ ← iot_security_manager_deinit security_context;
          _ ← _iot_nv_io_storage_deinit security_context;
          mret (IOT_ERROR_NONE, Some (buf_p cert_buf, buf_len cert_buf))
  end.
End nv.
