(* ===== verification/NvSpec.v ===== *)
(** * Non-volatile data: the storage is a map

    What is relied on of the file system of a board ([NvFiles], [NvLaws]), and
    that one piece of data is stored, loaded and removed as in a map from the
    numbers of the data to bytes, whatever fails below. *)

From S2P Require Import Prelude UtilQueue Heap NvBase NvStore NvData.

(** ** What is relied on *)

(** The files; the file that a handle has just been opened for; what a file
    contains after a write; the states in which nothing fails any more. *)
Class NvFiles `{NB : NvBelow} := {
  files : nv_env -> gmap (list Z) (list Z);
  opened : nv_env -> iot_bsp_fs_handle_t -> option (list Z);
  written : list Z -> list Z -> list Z;
  healthy : nv_env -> Prop
}.

(** Nothing happens to the files. *)
Definition quiet `{NvFiles} (e e' : nv_env) : Prop :=
  files e' = files e /\ (forall h, opened e' h = opened e h) /\ (healthy e -> healthy e').

(** Only one file may change. *)
Definition only_file `{NvFiles} (name : list Z) (e e' : nv_env) : Prop :=
  forall n, n <> name -> files e' !! n = files e !! n.

(** The documented behaviour of allocations and of the functions that read.  A
    file that has to be there is there for a read. *)
Class NvReads `{NF : NvFiles} : Prop := {
  law_malloc : forall n e d e', nv_malloc n e = (d, e') ->
    quiet e e' /\ (forall l, d = Some l -> 0 <= n -> zlen l = n) /\ (healthy e -> d <> None);
  law_malloc_object : forall e ok e', nv_malloc_object e = (ok, e') -> quiet e e' /\ (healthy e -> ok = true);
  law_realloc : forall n e d e', nv_realloc n e = (d, e') ->
    quiet e e' /\ (forall l, d = Some l -> 0 <= n -> zlen l = n) /\ (healthy e -> d <> None);
  law_open_read : forall name e r h e', zlen name < IOT_SECURITY_STORAGE_FILENAME_MAX_LEN ->
    iot_bsp_fs_open name FS_READONLY e = ((r, h), e') ->
    files e' = files e /\ (r = IOT_ERROR_NONE -> opened e' h = Some name) /\
    (r = IOT_ERROR_FS_NO_FILE -> files e !! name = None) /\
    (healthy e -> healthy e' /\ (r = IOT_ERROR_NONE \/ r = IOT_ERROR_FS_NO_FILE));
  law_read : forall h n name e, opened e h = Some name -> 0 <= n ->
    exists r b e', iot_bsp_fs_read h n e = Ret ((r, b), e') /\
      files e' = files e /\ (r = IOT_ERROR_NONE -> exists c, files e !! name = Some c /\ b = take (Z.to_nat n) c) /\
      (r = IOT_ERROR_FS_NO_FILE -> files e !! name = None) /\
      (healthy e -> healthy e' /\ (r = IOT_ERROR_NONE \/ r = IOT_ERROR_FS_NO_FILE));
  law_close : forall h e r e', iot_bsp_fs_close h e = (r, e') ->
    files e' = files e /\ (healthy e -> healthy e' /\ r = IOT_ERROR_NONE);
  law_path : forall id, IOT_NVD_UNKNOWN < id < IOT_NVD_FACTORY ->
    exists p, iot_bsp_nv_get_data_path id = Some p /\ zlen p + 2 < IOT_SECURITY_STORAGE_FILENAME_MAX_LEN;
  law_path_inj : forall i j p, IOT_NVD_UNKNOWN < i < IOT_NVD_FACTORY -> IOT_NVD_UNKNOWN < j < IOT_NVD_FACTORY ->
    iot_bsp_nv_get_data_path i = Some p -> iot_bsp_nv_get_data_path j = Some p -> i = j
}.

(** Those that change files.  A failed write or removal says nothing about its
    own file; the data of a write is what a file starts with, and all of it when
    the file was not longer. *)
Class NvLaws `{NF : NvFiles} : Prop := {
  laws_reads :: NvReads;
  law_open_write : forall name e r h e', zlen name < IOT_SECURITY_STORAGE_FILENAME_MAX_LEN ->
    iot_bsp_fs_open name FS_READWRITE e = ((r, h), e') ->
    only_file name e e' /\ default [] (files e' !! name) = default [] (files e !! name) /\
    (r = IOT_ERROR_NONE -> opened e' h = Some name) /\
    (healthy e -> healthy e' /\ r = IOT_ERROR_NONE);
  law_write : forall h data len name e, opened e h = Some name -> 0 <= len <= zlen data ->
    exists r e', iot_bsp_fs_write h data len e = Ret (r, e') /\ only_file name e e' /\
      (r = IOT_ERROR_NONE -> files e' !! name = Some (written (default [] (files e !! name)) (take (Z.to_nat len) data))) /\
      (healthy e -> healthy e' /\ r = IOT_ERROR_NONE);
  law_remove : forall name e r e', iot_bsp_fs_remove name e = (r, e') ->
    only_file name e e' /\ (r = IOT_ERROR_NONE -> files e' !! name = None) /\
    (r = IOT_ERROR_FS_NO_FILE -> files e !! name = None /\ files e' !! name = None) /\
    (healthy e -> healthy e' /\ (r = IOT_ERROR_NONE \/ r = IOT_ERROR_FS_NO_FILE));
  law_written : forall old data, exists tail, written old data = data ++ tail /\
    ((length old <= length data)%nat -> tail = [])
}.

(** A removal that fails leaves its file as it was. *)
Class RemovalKeeps `{NF : NvFiles} : Prop := {
  law_remove_fails : forall name e r e', iot_bsp_fs_remove name e = (r, e') ->
    r <> IOT_ERROR_NONE -> r <> IOT_ERROR_FS_NO_FILE -> files e' !! name = files e !! name
}.

Section names.
Context `{NC : NvConfig} `{NR : NvReads}.
#[local] Set Default Proof Using "Type*".

(** The name of the file for a piece of data. *)
Definition file_name (id : Z) : list Z :=
  (match IOT_SECURITY_STORAGE_EXTRA_PATH with Some p => p ++ [47] | None => [] end) ++ default [] (iot_bsp_nv_get_data_path id).

Lemma id2filename_runs id : IOT_NVD_UNKNOWN < id < IOT_NVD_FACTORY ->
  _iot_security_be_bsp_fs_storage_id2filename id IOT_SECURITY_STORAGE_FILENAME_MAX_LEN = (IOT_ERROR_NONE, file_name id).
Proof.
  intros Hid. destruct (law_path id Hid) as (p & Hp & Hlen).
  unfold _iot_security_be_bsp_fs_storage_id2filename, file_name. rewrite Hp. change (default [] (Some p)) with p.
  change (IOT_SECURITY_STORAGE_FILENAME_MAX_LEN =? 0) with false. cbv iota zeta.
  set (extra := match IOT_SECURITY_STORAGE_EXTRA_PATH with Some p => p ++ [47] | None => [] end).
  assert (0 <= zlen extra <= 2) as He.
  { subst extra. unfold IOT_SECURITY_STORAGE_EXTRA_PATH. destruct os_posix; vm_compute; split; discriminate. }
  pose proof (zlen_nonneg p). unfold IOT_SECURITY_STORAGE_FILENAME_MAX_LEN in *.
  rewrite (proj2 (Z.ltb_ge 64 _)), (proj2 (Z.ltb_lt _ 64)) by lia.
  rewrite firstn_all2; [done|]. unfold zlen in *. lia.
Qed.

Lemma file_name_short id : IOT_NVD_UNKNOWN < id < IOT_NVD_FACTORY -> zlen (file_name id) < IOT_SECURITY_STORAGE_FILENAME_MAX_LEN.
Proof.
  intros Hid. destruct (law_path id Hid) as (p & Hp & Hlen). unfold file_name, IOT_SECURITY_STORAGE_EXTRA_PATH. rewrite Hp.
  change (default [] (Some p)) with p. rewrite zlen_app. destruct os_posix.
  - change (zlen (lit "." ++ [47])) with 2. lia.
  - rewrite zlen_nil. lia.
Qed.

Lemma file_name_inj i j : IOT_NVD_UNKNOWN < i < IOT_NVD_FACTORY -> IOT_NVD_UNKNOWN < j < IOT_NVD_FACTORY ->
  file_name i = file_name j -> i = j.
Proof.
  intros Hi Hj E. destruct (law_path i Hi) as (p & Hp & _), (law_path j Hj) as (q & Hq & _).
  unfold file_name in E. rewrite Hp, Hq in E. apply app_inv_head in E. simpl in E. subst q. by eapply law_path_inj.
Qed.
End names.

(** ** Objects *)

(** The parts of a state that has been changed. *)
Ltac wcbn := cbn [nv_contexts nv_be_contexts nv_params nv_blocks nv_trees device_nv_info device_nv_info_len nv_below
  with_contexts with_be_contexts with_params with_blocks with_trees set_below set_info heap_of with_heap
  context_store be_context_store params_store block_store tree_store fst snd] in *.

(** [if (err)] when there is none. *)
Ltac no_error := cbn [failed IOT_ERROR_NONE Z.eqb negb].

(** Lookups in a heap that has been changed. *)
Ltac live_cases := try intros ?; rewrite ?live_insert; repeat case_decide; subst; congruence || done.

Section objects.
Context `{NB : NvBelow}.

(** The same objects are there, with the same contents. *)
Definition live_eq {A} (h h' : heap A) : Prop := forall a, live h' a = live h a.
Record same_objects (w w' : nvworld) : Prop := {
  so_contexts : live_eq (nv_contexts w) (nv_contexts w');
  so_be : live_eq (nv_be_contexts w) (nv_be_contexts w');
  so_params : live_eq (nv_params w) (nv_params w');
  so_blocks : live_eq (nv_blocks w) (nv_blocks w');
  so_trees : live_eq (nv_trees w) (nv_trees w');
  so_info : device_nv_info w' = device_nv_info w;
  so_info_len : device_nv_info_len w' = device_nv_info_len w
}.
#[export] Instance live_eq_equiv A : Equivalence (@live_eq A).
Proof. split; unfold live_eq; [done|by intros ? ? E a; rewrite E|by intros ? ? ? E1 E2 a; rewrite E2]. Qed.
#[export] Instance same_objects_equiv : Equivalence same_objects.
Proof.
  split.
  - intros w. by split.
  - intros w w' []. split; (by symmetry) || congruence.
  - intros w w1 w2 [] []. split; (by etrans) || congruence.
Qed.

Lemma live_eq_free {A} (h : heap A) a x : live h a = None -> live_eq h (<[a := None]> (<[a := Some x]> h)).
Proof. intros Ha b. rewrite !live_insert. by repeat case_decide; subst. Qed.

Lemma live_eq_insert {A} (h h' : heap A) a o : live_eq h h' -> live_eq (<[a := o]> h) (<[a := o]> h').
Proof. intros E b. rewrite !live_insert. by case_decide. Qed.
End objects.

(** ** The context of an operation *)

Section context.
Context `{NC : NvConfig} `{NR : NvReads}.
#[local] Set Default Proof Using "Type*".
Abbreviation N := (st nvworld).

(** The context [c] with the parameters [st] of the storage, and nothing else
    that was not there in [w0]. *)
Definition software (x : iot_security_be_context_t) : Prop :=
  x = BeContext (Some iot_security_be_software_funcs) (Some iot_security_be_software_bsp_funcs)
        (if stnv_partition then None else Some iot_nv_get_data_from_device_info_cb).
Record in_context (w0 : nvworld) (c : nat) (st : option nat) (w : nvworld) : Prop := {
  ic_new : exists b x y,
    live (nv_contexts w) c = Some x /\ be_context x = Some b /\ storage_params x = st /\
    live (nv_be_contexts w) b = Some y /\ software y /\
    live_eq (nv_contexts w0) (<[c := None]> (nv_contexts w)) /\
    live_eq (nv_be_contexts w0) (<[b := None]> (nv_be_contexts w));
  ic_params : match st with
              | Some p => (exists id, live (nv_params w) p = Some (StorageParams id)) /\ live_eq (nv_params w0) (<[p := None]> (nv_params w))
              | None => live_eq (nv_params w0) (nv_params w)
              end;
  ic_blocks : live_eq (nv_blocks w0) (nv_blocks w);
  ic_trees : live_eq (nv_trees w0) (nv_trees w);
  ic_info : device_nv_info w = device_nv_info w0;
  ic_info_len : device_nv_info_len w = device_nv_info_len w0
}.

#[export] Instance quiet_preorder : PreOrder quiet.
Proof.
  split.
  - by intros e.
  - intros e1 e2 e3 (H1 & H2 & H3) (H4 & H5 & H6). split_and!; [congruence| |auto]. intros h. by rewrite H5.
Qed.
Lemma quiet_sick e e' : quiet e e' -> ~ healthy e' -> ~ healthy e.
Proof. intros (_ & _ & H) Hn ?. auto. Qed.

Lemma malloc_object_runs {A} `{!Store nvworld A} (x : A) w :
  exists e', quiet (nv_below w) e' /\
    ((malloc_object x w = Ret (None, set_below e' w) /\ ~ healthy (nv_below w)) \/
     malloc_object x w = Ret (Some (fresh_addr (heap_of (set_below e' w))),
       with_heap (<[fresh_addr (heap_of (set_below e' w)) := Some x]> (heap_of (set_below e' w))) (set_below e' w))).
Proof.
  destruct (nv_malloc_object (nv_below w)) as [ok e'] eqn:E. destruct (law_malloc_object _ _ _ E) as [Hq Hh].
  exists e'. split; [done|]. unfold malloc_object, below, mbind, st_bind. rewrite E.
  destruct ok; [by right|left]. split; [done|]. intros Hw. by specialize (Hh Hw).
Qed.

Lemma gives_malloc_object {A} `{!Store nvworld A} (x : A) w Q :
  (forall e', quiet (nv_below w) e' -> ~ healthy (nv_below w) -> Q None (set_below e' w)) ->
  (forall e' a, quiet (nv_below w) e' -> live (heap_of (set_below e' w)) a = None ->
     Q (Some a) (with_heap (<[a := Some x]> (heap_of (set_below e' w))) (set_below e' w))) ->
  gives (malloc_object x) w Q.
Proof.
  intros H1 H2. destruct (malloc_object_runs x w) as (e & Hq & [[E Hn]|E]); eexists _, _; (split; [exact E|]); [by apply H1|].
  apply H2; [done|]. apply live_fresh.
Qed.

Lemma security_init_runs w :
  gives iot_security_init w (fun r w' => quiet (nv_below w) (nv_below w') /\
    match r with Some c => in_context w c None w' | None => same_objects w w' /\ ~ healthy (nv_below w) end).
Proof.
  unfold iot_security_init. apply gives_bind, gives_malloc_object.
  { intros e Hq Hn. apply gives_ret. split; [done|]. split; [by split|done]. }
  intros e1 c Hq1 Hc. unfold iot_security_be_init. apply gives_bind, gives_bind, gives_malloc_object.
  - intros e2 Hq2 Hn. apply gives_ret, gives_bind. eapply gives_release.
    { cbn. rewrite live_insert, decide_True by done. done. }
    apply gives_ret. split; [by etrans|]. split; [|by eapply quiet_sick].
    split; try done. cbn. intros a. by rewrite live_eq_free.
  - intros e2 b Hq2 Hb. unfold iot_security_be_bsp_init.
    apply gives_bind, gives_bind. eapply gives_update; [cbn; rewrite live_insert, decide_True by done; done|].
    apply gives_ret, gives_ret, gives_bind. eapply gives_update; [cbn; rewrite live_insert, decide_True by done; done|].
    apply gives_ret. cbn. split; [by etrans|]. split; try done.
    cbn. eexists b, _, _. split_and!; rewrite ?live_insert, ?decide_True by done; try done; [|]; live_cases.
Qed.

Lemma storage_init_runs w0 c w : in_context w0 c None w ->
  gives (iot_security_storage_init (Some c)) w (fun r w' => quiet (nv_below w) (nv_below w') /\
    ((r = IOT_ERROR_NONE /\ exists p, in_context w0 c (Some p) w') \/
     (r <> IOT_ERROR_NONE /\ in_context w0 c None w' /\ ~ healthy (nv_below w)))).
Proof.
  intros [(b & x & y & Hx & Hb & Hp & Hy & Hsw & H1 & H2) H3 H4 H5 H6 H7].
  unfold iot_security_storage_init. apply gives_bind, gives_malloc_object.
  - intros e Hq Hn. apply gives_ret. split; [done|]. right. split; [done|]. split; [|done]. split; try done. by exists b, x, y.
  - intros e p Hq Hp0. apply gives_bind. eapply gives_update; [cbn; eassumption|]. cbn.
    unfold be_entry. apply gives_bind, gives_bind. eapply gives_get; [cbn; rewrite live_insert, decide_True; done|].
    rewrite Hsw in Hy. cbn. rewrite Hb. apply gives_bind. eapply gives_get; [cbn; eassumption|].
    apply gives_ret, gives_bind, gives_ret. cbn [be_fn mbind option_bind storage_init failed IOT_ERROR_NONE Z.eqb negb].
    apply gives_bind. eapply gives_update; [cbn; rewrite live_insert, decide_True; done|].
    apply gives_ret. cbn. split; [done|]. left. split; [done|]. exists p. split; try done.
    + cbn. eexists b, _, _. split_and!; rewrite ?live_insert, ?decide_True by done; try done. intros a. rewrite <- H1. live_cases.
    + cbn. split; [exists 0; by rewrite live_insert, decide_True|]. intros a. rewrite <- H3. cbn in Hp0. live_cases.
Qed.

Lemma storage_deinit_runs w0 c st w : in_context w0 c st w ->
  gives (iot_security_storage_deinit (Some c)) w (fun r w' => r = IOT_ERROR_NONE /\ nv_below w' = nv_below w /\ in_context w0 c None w').
Proof.
  intros [(b & x & y & Hx & Hb & Hp & Hy & Hsw & H1 & H2) H3 H4 H5 H6 H7].
  unfold iot_security_storage_deinit, be_entry. apply gives_bind, gives_bind. eapply gives_get; [cbn; eassumption|].
  rewrite Hb. apply gives_bind. eapply gives_get; [cbn; eassumption|]. apply gives_ret, gives_bind. rewrite Hsw. apply gives_ret.
  no_error. apply gives_bind. eapply gives_get; [cbn; eassumption|]. rewrite Hp.
  apply gives_bind. destruct st as [p|].
  - destruct H3 as [[id Hid] H3]. apply gives_bind. eapply gives_release; [cbn; eassumption|].
    eapply gives_update; [cbn; eassumption|]. apply gives_bind. eapply gives_update; [cbn; rewrite live_insert, decide_True; done|].
    apply gives_ret. cbn. split; [done|]. split; [done|]. split; try done.
    cbn. eexists b, _, _. split_and!; rewrite ?live_insert, ?decide_True by done; try done. intros a. rewrite <- H1. live_cases.
  - apply gives_ret, gives_bind. eapply gives_update; [cbn; eassumption|]. apply gives_ret. cbn. split; [done|]. split; [done|].
    split; try done. cbn. eexists b, _, _. split_and!; rewrite ?live_insert, ?decide_True by done; try done. intros a. rewrite <- H1. live_cases.
Qed.

Lemma security_deinit_runs w0 c w : in_context w0 c None w ->
  gives (iot_security_deinit (Some c)) w (fun r w' => r = IOT_ERROR_NONE /\ nv_below w' = nv_below w /\ same_objects w0 w').
Proof.
  intros [(b & x & y & Hx & Hb & Hp & Hy & Hsw & H1 & H2) H3 H4 H5 H6 H7].
  unfold iot_security_deinit. cbn [iot_security_check_context_is_valid failed IOT_ERROR_NONE Z.eqb negb].
  apply gives_bind. eapply gives_get; [cbn; eassumption|]. rewrite Hb. unfold iot_security_be_deinit.
  apply gives_bind, gives_bind. eapply gives_release; [cbn; eassumption|]. apply gives_ret.
  no_error. apply gives_bind. eapply gives_release; [cbn; eassumption|]. apply gives_ret.
  split; [done|]. split; [done|]. by split.
Qed.

(** The context is made, or there is no memory. *)
Lemma io_storage_init_runs w :
  gives _iot_nv_io_storage_init w (fun r w' => quiet (nv_below w) (nv_below w') /\
    match r with
    | Some c => exists p, in_context w c (Some p) w'
    | None => same_objects w w' /\ ~ healthy (nv_below w)
    end).
Proof.
  unfold _iot_nv_io_storage_init. apply gives_bind. eapply gives_mono; [apply security_init_runs|].
  intros [c|] w1 [Hq H]; [|by apply gives_ret].
  apply gives_bind. eapply gives_mono; [by apply storage_init_runs|].
  intros r w2 (Hq2 & [(-> & Hp)|(Hr & Hp & Hn)]).
  - apply gives_ret. split; [by etrans|done].
  - unfold failed. rewrite (proj2 (Z.eqb_neq r IOT_ERROR_NONE)) by done. cbn [negb].
    apply gives_bind. eapply gives_mono; [by apply security_deinit_runs|]. intros r3 w3 (-> & Hb & Hs).
    apply gives_ret. rewrite Hb. split; [by etrans|]. split; [done|]. by eapply quiet_sick.
Qed.

(** And given back. *)
Lemma io_storage_deinit_runs w0 c st w : in_context w0 c st w ->
  gives (_iot_nv_io_storage_deinit (Some c)) w (fun r w' => r = IOT_ERROR_NONE /\ nv_below w' = nv_below w /\ same_objects w0 w').
Proof.
  intros Hc. unfold _iot_nv_io_storage_deinit. apply gives_bind. eapply gives_mono; [by eapply storage_deinit_runs|].
  intros r w1 (-> & E1 & H1). no_error. apply gives_bind.
  eapply gives_mono; [by eapply security_deinit_runs|]. intros r w2 (-> & E2 & H2). apply gives_ret. split; [done|]. split; [congruence|done].
Qed.

(** ** Steps *)

Lemma gives_below {A} (f : nv_env -> A * nv_env) w (Q : A -> nvworld -> Prop) :
  (forall a e, f (nv_below w) = (a, e) -> Q a (set_below e w)) -> gives (below f) w Q.
Proof. intros HQ. destruct (f (nv_below w)) as [a e] eqn:E. exists a, (set_below e w). unfold below. rewrite E. auto. Qed.

Lemma gives_below_outcome {A} (f : nv_env -> outcome (A * nv_env)) w a e (Q : A -> nvworld -> Prop) :
  f (nv_below w) = Ret (a, e) -> Q a (set_below e w) -> gives (below_outcome f) w Q.
Proof. intros E HQ. exists a, (set_below e w). unfold below_outcome. by rewrite E. Qed.

Lemma gives_malloc n w Q : 0 <= n ->
  (forall e, quiet (nv_below w) e -> ~ healthy (nv_below w) -> Q None (set_below e w)) ->
  (forall e a l, quiet (nv_below w) e -> zlen l = n -> live (nv_blocks w) a = None ->
     Q (Some a) (with_blocks (<[a := Some l]> (nv_blocks w)) (set_below e w))) ->
  gives (iot_os_malloc n) w Q.
Proof.
  intros Hn H1 H2. unfold iot_os_malloc. apply gives_bind, gives_below. intros d e E.
  destruct (law_malloc _ _ _ _ E) as (Hq & Hl & Hh). destruct d as [l|].
  - apply gives_bind, gives_allocate. intros a Ha. apply gives_ret. apply H2; auto.
  - apply gives_ret, H1; [done|]. intros Hw. by apply Hh.
Qed.

Lemma gives_realloc a old n w Q : 0 <= n -> live (nv_blocks w) a = Some old ->
  (forall e, quiet (nv_below w) e -> ~ healthy (nv_below w) -> Q None (set_below e w)) ->
  (forall e a' l, quiet (nv_below w) e -> zlen l = n -> live (<[a := None]> (nv_blocks w)) a' = None ->
     Q (Some a') (with_blocks (<[a' := Some (take (Z.to_nat n) old ++ drop (length old) l)]> (<[a := None]> (nv_blocks w))) (set_below e w))) ->
  gives (iot_os_realloc (Some a) n) w Q.
Proof.
  intros Hn Ha H1 H2. unfold iot_os_realloc. apply gives_bind, gives_below. intros d e E.
  destruct (law_realloc _ _ _ _ E) as (Hq & Hl & Hh). destruct d as [l|].
  - apply gives_bind. eapply gives_get; [wcbn; eassumption|]. apply gives_bind. eapply gives_release; [wcbn; eassumption|].
    apply gives_bind, gives_allocate. intros b Hb. apply gives_ret. apply H2; auto.
  - apply gives_ret, H1; [done|]. intros Hw. by apply Hh.
Qed.

Lemma gives_copy_at {S} dst o src (s : S) (Q : list Z -> S -> Prop) : 0 <= o -> o + zlen src <= zlen dst ->
  Q (overwrite dst o src) s -> gives (copy_at dst o src) s Q.
Proof. intros H1 H2 HQ. eexists _, _. split; [by apply copy_at_in|done]. Qed.
Lemma gives_bytes_at {S} src o n (s : S) (Q : list Z -> S -> Prop) : 0 <= o -> 0 <= n -> o + n <= zlen src ->
  Q (take (Z.to_nat n) (drop (Z.to_nat o) src)) s -> gives (bytes_at src o n) s Q.
Proof. intros H1 H2 H3 HQ. eexists _, _. split; [by apply bytes_at_in|done]. Qed.

Lemma gives_store_bytes a old o l w (Q : unit -> nvworld -> Prop) : live (nv_blocks w) a = Some old -> 0 <= o -> o + zlen l <= zlen old ->
  Q tt (with_blocks (<[a := Some (overwrite old o l)]> (nv_blocks w)) w) -> gives (store_bytes (Some a) o l) w Q.
Proof.
  intros Ha Ho Hl HQ. unfold store_bytes. apply gives_bind. eapply gives_get; [done|]. apply gives_bind, gives_copy_at; [done..|].
  by eapply gives_update.
Qed.

(** ** Loading *)

(** The bytes of a piece of data. *)
Definition value (w : nvworld) (id : Z) : option (list Z) := files (nv_below w) !! file_name id.
(** What a load gives of them. *)
Definition loaded (c : list Z) : list Z := take (Z.to_nat IOT_SECURITY_STORAGE_BUF_MAX_LEN) c.

Lemma loaded_length c : 0 <= zlen (loaded c) <= IOT_SECURITY_STORAGE_BUF_MAX_LEN.
Proof. unfold loaded, zlen, IOT_SECURITY_STORAGE_BUF_MAX_LEN. rewrite length_take. lia. Qed.

(** Every block is still there. *)
Definition more_blocks (h h' : heap (list Z)) : Prop := forall a l, live h a = Some l -> live h' a = Some l.

(** What a load does: [h] are the blocks after it. *)
Definition load_result (w : nvworld) (id : Z) (err : Z) (b : iot_security_buffer_t) (h : heap (list Z)) : Prop :=
  (err = IOT_ERROR_NONE /\ exists c q, value w id = Some c /\ b = SecBuffer (Some q) (zlen (loaded c)) /\
     live h q = Some (loaded c ++ [0]) /\ live_eq (nv_blocks w) (<[q := None]> h)) \/
  (err = IOT_ERROR_SECURITY_FS_NOT_FOUND /\ value w id = None /\ live_eq (nv_blocks w) h) \/
  (failed err = true /\ err <> IOT_ERROR_SECURITY_FS_NOT_FOUND /\ more_blocks (nv_blocks w) h /\ ~ healthy (nv_below w)).

(** What the block contains after [iot_os_realloc]: one more byte. *)
Lemma realloc_content l l' d : zlen d <= zlen l -> zlen l' = zlen d + 1 ->
  exists x, take (Z.to_nat (zlen d + 1)) (overwrite l 0 d) ++ drop (length (overwrite l 0 d)) l' = d ++ [x].
Proof.
  intros Hd Hl'. unfold overwrite, zlen in *. change (Z.to_nat 0) with 0%nat. rewrite take_0, app_nil_l, Nat.add_0_l.
  rewrite length_app, length_drop, take_app_ge by lia. replace (Z.to_nat _ - length d)%nat with 1%nat by lia.
  replace (length d + (length l - length d))%nat with (length l) by lia. rewrite <- app_assoc.
  destruct (drop (length d) l) as [|x k] eqn:E.
  - assert (length l = length d) by (apply (f_equal length) in E; rewrite length_drop in E; simpl in E; lia).
    destruct (drop (length l) l') as [|y k] eqn:E'; apply (f_equal length) in E'; rewrite length_drop in E'; simpl in E'; [lia|].
    exists y. destruct k; simpl in E'; [done|lia].
  - apply (f_equal length) in E. rewrite length_drop in E. simpl in E. exists x. rewrite (drop_ge l') by lia. done.
Qed.
Lemma overwrite_last d x : overwrite (d ++ [x]) (zlen d) [0] = d ++ [0].
Proof. unfold overwrite, zlen. rewrite Nat2Z.id, take_app_length, drop_ge; [done|]. rewrite length_app. simpl. lia. Qed.

Lemma load_opened_runs handle id w : opened (nv_below w) handle = Some (file_name id) ->
  gives (load_opened handle no_buffer) w (fun r w' => exists e h, w' = set_below e (with_blocks h w) /\
    files e = files (nv_below w) /\ (healthy (nv_below w) -> healthy e) /\ load_result w id r.1 r.2 h).
Proof.
  intros Ho. unfold load_opened. apply gives_bind, gives_malloc; [done|..].
  { intros e Hq Hn. apply gives_ret. exists e, (nv_blocks w). split; [by destruct w|].
    split; [apply Hq|]. split; [apply Hq|]. right. right. split; [done|]. split; [done|]. by split; [intros ?|]. }
  intros e1 a l (Hf1 & Ho1 & Hh1) Hl Ha. apply gives_bind.
  destruct (law_read handle IOT_SECURITY_STORAGE_BUF_MAX_LEN (file_name id) e1) as (r & b & e2 & E2 & Hf2 & Hok & Hno & Hhr); [by rewrite Ho1|done|].
  eapply gives_below_outcome; [exact E2|]. wcbn. assert (healthy e1 -> healthy e2) as Hh2 by (intros Hw; by apply Hhr).
  destruct (failed r) eqn:Hr.
  - apply gives_bind. eapply gives_release; [wcbn; by rewrite live_insert, decide_True|].
    apply gives_bind, gives_below. wcbn. intros r3 e3 E3. destruct (law_close _ _ _ _ E3) as (Hf3 & Hh3). apply gives_ret.
    exists e3, (<[a := None]> (<[a := Some l]> (nv_blocks w))).
    split; [reflexivity|]. split; [congruence|]. split; [intros ?; apply Hh3; auto|]. wcbn.
    destruct (r =? IOT_ERROR_FS_NO_FILE) eqn:E.
    + apply Z.eqb_eq in E. right. left. split; [done|]. split; [|by apply live_eq_free]. unfold value. rewrite <- Hf1. auto.
    + right. right. split; [done|]. split; [done|]. split; [intros ? ? ?; live_cases|].
      intros Hw. apply Z.eqb_neq in E. unfold failed in Hr. apply negb_true_iff, Z.eqb_neq in Hr.
      destruct Hhr as (_ & [?|?]); auto.
  - unfold failed in Hr. apply negb_false_iff, Z.eqb_eq in Hr. subst r. destruct (Hok eq_refl) as (c & Hc & ->). rewrite Hf1 in Hc.
    change (take _ c) with (loaded c). pose proof (loaded_length c).
    apply gives_bind. eapply gives_store_bytes; [wcbn; by rewrite live_insert, decide_True|done|lia|].
    apply gives_bind. eapply gives_realloc; [lia|wcbn; by rewrite live_insert, decide_True|..].
    + intros e3 Hq3 Hn3. wcbn. apply gives_bind. eapply gives_release; [wcbn; by rewrite live_insert, decide_True|].
      apply gives_bind, gives_below. wcbn. intros r4 e4 E4. destruct (law_close _ _ _ _ E4) as (Hf4 & Hh4). apply gives_ret.
      destruct Hq3 as (Hf3 & _ & Hh3).
      exists e4, (<[a := None]> (<[a := Some (overwrite l 0 (loaded c))]> (<[a := Some l]> (nv_blocks w)))).
      split; [reflexivity|]. split; [congruence|]. split; [intros ?; apply Hh4; auto|].
      right. right. split; [done|]. split; [done|]. split; [intros ? ? ?; live_cases|]. auto.
    + intros e3 q l' (Hf3 & _ & Hh3) Hl' Hq. wcbn.
      destruct (realloc_content l l' (loaded c)) as [x ->]; [rewrite Hl; apply loaded_length|done|].
      apply gives_bind. eapply gives_store_bytes; [wcbn; by rewrite live_insert, decide_True|lia| |].
      { rewrite zlen_app, !zlen_cons, zlen_nil. lia. }
      apply gives_bind, gives_below. wcbn. intros r4 e4 E4. destruct (law_close _ _ _ _ E4) as (Hf4 & Hh4). apply gives_ret.
      rewrite overwrite_last. 
      exists e4, (<[q := Some (loaded c ++ [0])]> (<[q := Some (loaded c ++ [x])]>
        (<[a := None]> (<[a := Some (overwrite l 0 (loaded c))]> (<[a := Some l]> (nv_blocks w)))))).
      split; [reflexivity|]. split; [congruence|]. split; [intros ?; apply Hh4; auto|]. wcbn.
      rewrite !live_insert in Hq. unfold load_result. wcbn. destruct (failed r4) eqn:Hr4.
      * right. right. split; [done|]. split; [done|]. split; [intros ? ? ?; live_cases|].
        intros Hw. unfold failed in Hr4. apply negb_true_iff, Z.eqb_neq in Hr4. destruct Hh4; auto.
      * left. split; [done|]. exists c, q. split_and!; try done; [by rewrite live_insert, decide_True|].
        live_cases.
Qed.

Lemma failed_true r : failed r = true <-> r <> IOT_ERROR_NONE.
Proof. unfold failed. rewrite negb_true_iff. apply Z.eqb_neq. Qed.
Lemma failed_false r : failed r = false <-> r = IOT_ERROR_NONE.
Proof. unfold failed. rewrite negb_false_iff. apply Z.eqb_eq. Qed.

Lemma load_from_nv_runs id w : IOT_NVD_UNKNOWN < id < IOT_NVD_FACTORY ->
  gives (_iot_security_be_bsp_fs_load_from_nv id no_buffer) w (fun r w' => exists e h, w' = set_below e (with_blocks h w) /\
    files e = files (nv_below w) /\ (healthy (nv_below w) -> healthy e) /\ load_result w id r.1 r.2 h).
Proof.
  intros Hid. unfold _iot_security_be_bsp_fs_load_from_nv. rewrite id2filename_runs by done. no_error.
  rewrite (proj2 (Z.leb_gt IOT_NVD_FACTORY id)) by lia. cbn [andb].
  apply gives_bind, gives_below. intros [r handle] e1 E1. apply law_open_read in E1 as (Hf1 & Hok & Hno & Hh); [|by apply file_name_short].
  destruct (failed r) eqn:Hr.
  - apply gives_ret. exists e1, (nv_blocks w). split; [by destruct w|]. split; [done|]. split; [intros Hw; by apply Hh|].
    destruct (r =? IOT_ERROR_FS_NO_FILE) eqn:E.
    + apply Z.eqb_eq in E. right. left. split; [done|]. split; [|done]. unfold value. auto.
    + right. right. split; [done|]. split; [done|]. split; [by intros ?|]. intros Hw. apply Z.eqb_neq in E.
      apply failed_true in Hr. destruct (Hh Hw) as (_ & [?|?]); contradiction.
  - apply failed_false in Hr. eapply gives_mono; [by apply load_opened_runs, Hok|].
    intros [err b] w' (e & h & -> & Hf & Hhe & HR). wcbn. exists e, h. split; [by destruct w|]. split; [congruence|].
    split; [intros Hw; by apply Hhe, Hh|]. unfold load_result, value in *. wcbn. rewrite <- Hf1.
    destruct HR as [HR|[HR|(H1 & H2 & H3 & H4)]]; [by left|by right; left|]. right. right.
    split; [done|]. split; [done|]. split; [done|]. intros Hw. by apply H4, Hh.
Qed.

(** ** Through the context *)

Lemma in_context_blocks w0 c st w e h : in_context w0 c st w -> in_context (with_blocks h w0) c st (set_below e (with_blocks h w)).
Proof. intros []. by split. Qed.
Lemma in_context_below w0 c st w e : in_context w0 c st w -> in_context w0 c st (set_below e w).
Proof. intros []. by split. Qed.

Lemma check_backend_runs w0 c st w Q : in_context w0 c st w -> Q IOT_ERROR_NONE w ->
  gives (iot_security_check_backend_funcs_entry_is_valid (Some c)) w Q.
Proof.
  intros [(b & x & y & Hx & Hb & Hp & Hy & Hsw & _) _ _ _ _ _] HQ. unfold iot_security_check_backend_funcs_entry_is_valid.
  apply gives_bind. eapply gives_get; [done|]. rewrite Hb. apply gives_bind. eapply gives_get; [done|]. rewrite Hsw. by apply gives_ret.
Qed.

Lemma be_entry_runs {F} (entry : iot_security_be_funcs_t -> option F) w0 c st w Q : in_context w0 c st w ->
  Q (entry iot_security_be_software_funcs) w -> gives (be_entry entry (Some c)) w Q.
Proof.
  intros [(b & x & y & Hx & Hb & Hp & Hy & Hsw & _) _ _ _ _ _] HQ. unfold be_entry.
  apply gives_bind. eapply gives_get; [done|]. rewrite Hb. apply gives_bind. eapply gives_get; [done|]. rewrite Hsw. by apply gives_ret.
Qed.

Lemma get_bsp_fn_runs w0 c st w Q : in_context w0 c st w -> Q (Some iot_security_be_software_bsp_funcs) w -> gives (get_bsp_fn (Some c)) w Q.
Proof.
  intros [(b & x & y & Hx & Hb & Hp & Hy & Hsw & _) _ _ _ _ _] HQ. unfold get_bsp_fn.
  apply gives_bind. eapply gives_get; [done|]. rewrite Hb. apply gives_bind. eapply gives_get; [done|]. rewrite Hsw. by apply gives_ret.
Qed.

(** The context for one piece of data. *)
Definition stores (w0 : nvworld) (c p : nat) (id : Z) (w : nvworld) : Prop :=
  in_context w0 c (Some p) w /\ live (nv_params w) p = Some (StorageParams id).

Lemma set_storage_id_runs w0 c p id w Q : in_context w0 c (Some p) w -> IOT_NVD_UNKNOWN < id < IOT_NVD_MAX ->
  (forall w1, stores w0 c p id w1 -> nv_below w1 = nv_below w -> nv_blocks w1 = nv_blocks w -> Q IOT_ERROR_NONE w1) ->
  gives (_iot_security_storage_set_storage_id (Some c) id) w Q.
Proof.
  intros [(b & x & y & Hx & Hb & Hp & Hy & Hsw & H1 & H2) [(k & Hk) H3] H4 H5 H6 H7] Hid HQ.
  unfold _iot_security_storage_set_storage_id. apply gives_bind. eapply gives_get; [done|]. rewrite Hp.
  rewrite (proj2 (Z.leb_gt id IOT_NVD_UNKNOWN)), (proj2 (Z.leb_gt IOT_NVD_MAX id)) by lia. cbn [orb].
  apply gives_bind. eapply gives_update; [done|]. apply gives_ret. apply HQ; [|done|done].
  split; [|wcbn; by rewrite live_insert, decide_True]. split; try done.
  - wcbn. by exists b, x, y.
  - wcbn. split; [exists id; by rewrite live_insert, decide_True|]. intros a. rewrite <- H3. live_cases.
Qed.

Lemma get_storage_id_runs w0 c p id w Q : stores w0 c p id w -> Q id w -> gives (get_storage_id (Some c)) w Q.
Proof.
  intros [[(b & x & y & Hx & Hb & Hp & _) _ _ _ _ _] Hid] HQ. unfold get_storage_id.
  apply gives_bind. eapply gives_get; [done|]. rewrite Hp. apply gives_bind. eapply gives_get; [done|]. by apply gives_ret.
Qed.

Lemma check_params_runs w0 c p id w Q : stores w0 c p id w -> Q IOT_ERROR_NONE w ->
  gives (_iot_security_be_check_context_and_params_is_valid (Some c) IOT_SECURITY_SUB_STORAGE) w Q.
Proof.
  intros [[(b & x & y & Hx & Hb & Hp & _) _ _ _ _ _] Hid] HQ. unfold _iot_security_be_check_context_and_params_is_valid.
  apply gives_bind. eapply gives_get; [done|]. apply gives_ret. by rewrite Hp.
Qed.

Lemma target_nv id : IOT_NVD_UNKNOWN < id < IOT_NVD_FACTORY -> _iot_security_be_bsp_fs_storage_id2target id = TARGET_NV.
Proof.
  intros Hid. unfold _iot_security_be_bsp_fs_storage_id2target.
  by rewrite (proj2 (Z.eqb_neq id IOT_NVD_UNKNOWN)), (proj2 (Z.ltb_lt id IOT_NVD_FACTORY)) by lia.
Qed.

Lemma storage_read_runs w0 c p id buf w Q : in_context w0 c (Some p) w -> IOT_NVD_UNKNOWN < id < IOT_NVD_FACTORY ->
  (forall w1, in_context w0 c (Some p) w1 -> nv_below w1 = nv_below w -> nv_blocks w1 = nv_blocks w ->
     gives (_iot_security_be_bsp_fs_load_from_nv id no_buffer) w1 Q) ->
  gives (iot_security_storage_read (Some c) id buf) w Q.
Proof.
  intros Hc Hid HQ. unfold iot_security_storage_read. apply gives_bind. eapply check_backend_runs; [done|]. no_error.
  apply gives_bind. eapply set_storage_id_runs; [done|unfold IOT_NVD_FACTORY, IOT_NVD_MAX in *; lia|]. intros w1 Hs E1 E2. no_error.
  apply gives_bind. eapply be_entry_runs; [apply Hs|]. cbn [storage_read]. unfold _iot_security_be_software_storage_read.
  apply gives_bind. eapply check_params_runs; [done|]. no_error.
  apply gives_bind. eapply get_storage_id_runs; [done|]. pose proof Hs as [[(b & x & y & Hx & Hb & Hp & Hy & Hsw & _) _ _ _ _ _] _].
  unfold _iot_security_be_software_bsp_fs_load. apply gives_bind. eapply gives_get; [done|]. rewrite Hb.
  apply gives_bind. eapply gives_get; [done|]. rewrite Hsw. cbn [be_bsp_fn mbind option_bind bsp_fs_load].
  unfold _iot_security_be_bsp_fs_load. rewrite target_nv by done. apply HQ; [apply Hs|done|done].
Qed.

Lemma storage_write_runs w0 c p id data len w Q : in_context w0 c (Some p) w -> IOT_NVD_UNKNOWN < id < IOT_NVD_FACTORY -> len <> 0 ->
  (forall w1, in_context w0 c (Some p) w1 -> nv_below w1 = nv_below w -> nv_blocks w1 = nv_blocks w ->
     gives (_iot_security_be_bsp_fs_store_to_nv id data len) w1 Q) ->
  gives (iot_security_storage_write (Some c) id (Some data) len) w Q.
Proof.
  intros Hc Hid Hlen HQ. unfold iot_security_storage_write. apply gives_bind. eapply check_backend_runs; [done|]. no_error.
  apply gives_bind. eapply set_storage_id_runs; [done|unfold IOT_NVD_FACTORY, IOT_NVD_MAX in *; lia|]. intros w1 Hs E1 E2. no_error.
  rewrite bool_decide_false, (proj2 (Z.eqb_neq len 0)) by done. cbn [orb].
  apply gives_bind. eapply be_entry_runs; [apply Hs|]. cbn [storage_write]. unfold _iot_security_be_software_storage_write.
  apply gives_bind. eapply check_params_runs; [done|]. no_error.
  apply gives_bind. eapply get_bsp_fn_runs; [apply Hs|]. cbn [mbind option_bind bsp_fs_store].
  apply gives_bind. eapply get_storage_id_runs; [done|]. unfold _iot_security_be_bsp_fs_store.
  rewrite (proj2 (Z.eqb_neq len 0)), target_nv by done. apply HQ; [apply Hs|done|done].
Qed.

Lemma storage_remove_runs w0 c p id w Q : in_context w0 c (Some p) w -> IOT_NVD_UNKNOWN < id < IOT_NVD_FACTORY ->
  (forall w1, in_context w0 c (Some p) w1 -> nv_below w1 = nv_below w -> nv_blocks w1 = nv_blocks w ->
     gives (_iot_security_be_bsp_fs_remove_from_nv id) w1 Q) ->
  gives (iot_security_storage_remove (Some c) id) w Q.
Proof.
  intros Hc Hid HQ. unfold iot_security_storage_remove. apply gives_bind. eapply check_backend_runs; [done|]. no_error.
  apply gives_bind. eapply set_storage_id_runs; [done|unfold IOT_NVD_FACTORY, IOT_NVD_MAX in *; lia|]. intros w1 Hs E1 E2. no_error.
  apply gives_bind. eapply be_entry_runs; [apply Hs|]. cbn [storage_remove]. unfold _iot_security_be_software_storage_remove.
  apply gives_bind. eapply check_params_runs; [done|]. no_error.
  apply gives_bind. eapply get_bsp_fn_runs; [apply Hs|]. cbn [mbind option_bind bsp_fs_remove].
  apply gives_bind. eapply get_storage_id_runs; [done|]. unfold _iot_security_be_bsp_fs_remove.
  rewrite target_nv by done. apply HQ; [apply Hs|done|done].
Qed.
End context.

Section changes.
Context `{NC : NvConfig} `{NL : NvLaws}.
#[local] Set Default Proof Using "Type*".

(** ** Storing and removing *)

(** What a store does to the files. *)
Definition store_result (id : Z) (data : list Z) (err : Z) (e e' : nv_env) : Prop :=
  only_file (file_name id) e e' /\ (healthy e -> healthy e' /\ err = IOT_ERROR_NONE) /\
  (err = IOT_ERROR_NONE -> files e' !! file_name id = Some (written (default [] (files e !! file_name id)) data)).

Lemma store_to_nv_runs id data len w : IOT_NVD_UNKNOWN < id < IOT_NVD_FACTORY -> 0 <= len <= zlen data -> len < 4294967296 ->
  gives (_iot_security_be_bsp_fs_store_to_nv id data len) w (fun err w' => exists e, w' = set_below e w /\
    store_result id (take (Z.to_nat len) data) err (nv_below w) e).
Proof.
  intros Hid Hlen Hmax. unfold _iot_security_be_bsp_fs_store_to_nv. rewrite id2filename_runs by done.
  no_error. apply gives_bind, gives_below. intros [r handle] e1 E1.
  apply law_open_write in E1 as (Ho1 & Hd1 & Hok & Hh1); [|by apply file_name_short]. destruct (failed r) eqn:Hr.
  { apply failed_true in Hr. apply gives_ret. exists e1. split; [done|]. split; [done|]. split; [|done].
    intros Hw. by destruct (Hh1 Hw). }
  apply failed_false in Hr. unfold to_uint. rewrite Z.mod_small by lia.
  destruct (law_write handle data len (file_name id) e1) as (r2 & e2 & E2 & Ho2 & Hw2 & Hh2); [by apply Hok|lia|].
  rewrite Hd1 in Hw2. apply gives_bind. eapply gives_below_outcome; [exact E2|].
  assert (only_file (file_name id) (nv_below w) e2) as Ho by (intros n Hn; rewrite Ho2, Ho1; done).
  destruct (failed r2) eqn:Hr2; apply gives_bind, gives_below; wcbn; intros r3 e3 E3;
    destruct (law_close _ _ _ _ E3) as (Hf3 & Hh3); apply gives_ret; exists e3; (split; [by destruct w|]);
    (split; [intros n Hn; rewrite Hf3; by apply Ho|]).
  - apply failed_true in Hr2. split; [|done]. intros Hw. destruct (Hh1 Hw) as [H1 _]. by destruct (Hh2 H1).
  - apply failed_false in Hr2. split.
    + intros Hw. destruct (Hh1 Hw) as [H1 _]. destruct (Hh2 H1) as [H2 _]. destruct (Hh3 H2) as [H3 ->]. done.
    + intros _. rewrite Hf3. auto.
Qed.

Definition remove_result (id : Z) (err : Z) (e e' : nv_env) : Prop :=
  only_file (file_name id) e e' /\
  (healthy e -> healthy e' /\ (err = IOT_ERROR_NONE \/ err = IOT_ERROR_SECURITY_FS_NOT_FOUND)) /\
  (err = IOT_ERROR_NONE -> files e' !! file_name id = None) /\
  (err = IOT_ERROR_SECURITY_FS_NOT_FOUND -> files e !! file_name id = None /\ files e' !! file_name id = None) /\
  (RemovalKeeps -> err <> IOT_ERROR_NONE -> err <> IOT_ERROR_SECURITY_FS_NOT_FOUND -> files e' !! file_name id = files e !! file_name id).

Lemma remove_from_nv_runs id w : IOT_NVD_UNKNOWN < id < IOT_NVD_FACTORY ->
  gives (_iot_security_be_bsp_fs_remove_from_nv id) w (fun err w' => exists e, w' = set_below e w /\ remove_result id err (nv_below w) e).
Proof.
  intros Hid. unfold _iot_security_be_bsp_fs_remove_from_nv. rewrite id2filename_runs by done.
  no_error. apply gives_bind, gives_below. intros r e E.
  pose proof (fun K => law_remove_fails (RemovalKeeps := K) _ _ _ _ E) as Hk.
  apply law_remove in E as (Ho & Hok & Hno & Hh). apply gives_ret. exists e. split; [done|]. split; [done|].
  destruct (failed r) eqn:Hr.
  - apply failed_true in Hr. destruct (Z.eqb_spec r IOT_ERROR_FS_NO_FILE) as [En|En].
    + split; [|split; [done|split; [auto|done]]]. intros Hw. split; [by apply Hh|by right].
    + split; [|split; [done|split; [done|intros K _ _; by apply Hk]]]. intros Hw. destruct (Hh Hw) as (_ & [?|?]); contradiction.
  - apply failed_false in Hr. split; [|split; [auto|split; done]]. intros Hw. split; [by apply Hh|by left].
Qed.
End changes.
