(* ===== verification/NvMap.v ===== *)
(** * Non-volatile data: a map that survives

    Reading, writing and removing one piece of data ([_iot_nv_read_data] and
    the others, through the contexts, the back end and the file system) are
    steps of a map from the numbers of the data to bytes; while nothing fails
    below, the objects on the heap are the same afterwards. *)

From S2P Require Import Prelude UtilQueue Heap NvBase NvStore NvData NvSpec.

Section reads.
Context `{CharModel} `{NC : NvConfig} `{NR : NvReads}.
#[local] Set Default Proof Using "Type*".
Abbreviation N := (st nvworld).

Definition nv_id (id : Z) : Prop := IOT_NVD_UNKNOWN < id < IOT_NVD_FACTORY.

(** The buffer after [c] has been read into it: a 0 behind it when there is
    room. *)
Definition read_buffer (data c : list Z) (data_len : Z) : list Z :=
  if zlen c <? data_len then overwrite (overwrite data 0 c) (zlen c) [0] else overwrite data 0 c.

(** What a read may give of a piece of data: error, buffer and length. *)
Inductive read_outcome (v : option (list Z)) (data : list Z) (data_len : Z) : Z -> list Z -> option Z -> Prop :=
| read_found c : v = Some c -> zlen (loaded c) <= data_len ->
    read_outcome v data data_len IOT_ERROR_NONE (read_buffer data (loaded c) data_len) (Some (zlen (loaded c)))
| read_missing : v = None -> read_outcome v data data_len IOT_ERROR_NV_DATA_NOT_EXIST data None
| read_too_long c : v = Some c -> data_len < zlen (loaded c) -> read_outcome v data data_len IOT_ERROR_SECURITY_FS_BUFFER data None
| read_failed : read_outcome v data data_len IOT_ERROR_NV_DATA_ERROR data None.

(** All objects are there, and perhaps more blocks. *)
Definition more_objects (w w' : nvworld) : Prop := same_objects (with_blocks (nv_blocks w') w) w' /\ more_blocks (nv_blocks w) (nv_blocks w').

Lemma same_more w w' : same_objects w w' -> more_objects w w'.
Proof. intros []. split; [by split|]. intros a l E. by rewrite so_blocks. Qed.

Lemma io_args id mode data len : nv_id id -> (mode = IOT_NV_MODE_REMOVE \/ (data <> None /\ len <> 0)) ->
  forall w, _iot_nv_io_storage id mode data len w =
  (security_context ← _iot_nv_io_storage_init;
   match security_context with
   | None => mret (IOT_ERROR_NV_DATA_ERROR, data, None)
   | Some _ =>
       r ← match mode with
           | IOT_NV_MODE_READ =>
               buf ← need data;
               '(err, buf, read_len) ← io_read security_context id buf len;
               mret (err, Some buf, read_len)
           | IOT_NV_MODE_WRITE =>
               err ← iot_security_storage_write security_context id data len;
               mret (if failed err then IOT_ERROR_NV_DATA_ERROR else IOT_ERROR_NONE, data, None)
           | IOT_NV_MODE_REMOVE =>
               err ← iot_security_storage_remove security_context id;
               mret (if failed err then
                       (if err =? IOT_ERROR_SECURITY_FS_NOT_FOUND then IOT_ERROR_NV_DATA_NOT_EXIST else IOT_ERROR_NV_DATA_ERROR)
                     else IOT_ERROR_NONE, data, None)
           end;
       _ ← _iot_nv_io_storage_deinit security_context;
       mret r
   end) w.
Proof.
  intros Hid Hm w. unfold nv_id, IOT_NVD_UNKNOWN, IOT_NVD_FACTORY in Hid. unfold _iot_nv_io_storage, IOT_NVD_MAX.
  rewrite (proj2 (Z.ltb_ge id 0)), (proj2 (Z.leb_gt 18 id)) by lia. cbn [orb].
  destruct Hm as [->|[Hd Hl]]; [done|]. rewrite (bool_decide_false (data = None)), (proj2 (Z.eqb_neq len 0)) by done.
  by rewrite andb_false_r.
Qed.

Lemma gives_ext {A} (m k : N A) w Q : m w = k w -> gives k w Q -> gives m w Q.
Proof. unfold gives. by intros ->. Qed.

Lemma in_context_same w0 c st w e h : in_context w0 c st w -> live_eq (nv_blocks w) h -> in_context w0 c st (set_below e (with_blocks h w)).
Proof. intros [] E. split; try done. wcbn. by etrans. Qed.

(** The context is given back, and nothing remains. *)
Lemma finish_runs {A} (r : A) w0 c st w (Q : A -> nvworld -> Prop) : in_context w0 c st w ->
  (forall w', same_objects w0 w' -> nv_below w' = nv_below w -> Q r w') ->
  gives (_ ← _iot_nv_io_storage_deinit (Some c); mret r) w Q.
Proof.
  intros Hc HQ. apply gives_bind. eapply gives_mono; [by eapply io_storage_deinit_runs|]. intros err w1 (_ & Hb & Hs).
  apply gives_ret, HQ; done.
Qed.

(** What is read is copied to the buffer. *)
Lemma io_read_found data c data_len q w (Q : Z * list Z * option Z -> nvworld -> Prop) :
  0 < data_len <= zlen data -> zlen c <= data_len -> live (nv_blocks w) q = Some (c ++ [0]) ->
  Q (IOT_ERROR_NONE, read_buffer data c data_len, Some (zlen c)) (with_blocks (<[q := None]> (nv_blocks w)) w) ->
  gives (read ← load_bytes (Some q) (zlen c);
         data ← copy_at data 0 read;
         data ← (if zlen c <? data_len then copy_at data (zlen c) [0] else mret data);
         iot_os_free (Some q);;
         mret (IOT_ERROR_NONE, data, Some (zlen c))) w Q.
Proof.
  intros Hd Hc Hq HQ. pose proof (zlen_nonneg c). assert (zlen (c ++ [0]) = zlen c + 1) as Hl by by rewrite zlen_app.
  apply gives_bind. unfold load_bytes. apply gives_bind. eapply gives_get; [done|].
  apply gives_bytes_at; [done|done|lia|]. change (Z.to_nat 0) with 0%nat. rewrite drop_0. replace (Z.to_nat (zlen c)) with (length c) by (unfold zlen; lia). rewrite take_app_length.
  apply gives_bind, gives_copy_at; [done|lia|]. apply gives_bind.
  assert (zlen (overwrite data 0 c) = zlen data) as Ho by (apply overwrite_length; lia). unfold read_buffer in HQ.
  destruct (Z.ltb_spec (zlen c) data_len).
  - apply gives_copy_at; [done|rewrite Ho, zlen_cons, zlen_nil; lia|].
    apply gives_bind. eapply gives_release; [done|]. by apply gives_ret.
  - apply gives_ret, gives_bind. eapply gives_release; [done|]. by apply gives_ret.
Qed.

Lemma nv_read_runs id data len w : nv_id id -> 0 < len <= zlen data ->
  gives (_iot_nv_read_data id (Some data) len) w (fun r w' => exists data', r.1.2 = Some data' /\
    files (nv_below w') = files (nv_below w) /\ (healthy (nv_below w) -> healthy (nv_below w') /\ r.1.1 <> IOT_ERROR_NV_DATA_ERROR) /\
    read_outcome (value w id) data len r.1.1 data' r.2 /\
    more_objects w w' /\ (r.1.1 <> IOT_ERROR_NV_DATA_ERROR -> same_objects w w')).
Proof.
  intros Hid Hlen. unfold _iot_nv_read_data. eapply gives_ext; [apply io_args; [done|right; split; [done|lia]]|].
  apply gives_bind. eapply gives_mono; [apply io_storage_init_runs|].
  intros [c|] w1 [(Hf1 & _ & Hh1) H1].
  2:{ destruct H1 as [Hs Hn]. apply gives_ret. exists data. split; [done|]. split; [done|]. split; [done|].
      split; [apply read_failed|]. split; [by apply same_more|done]. }
  destruct H1 as [p Hc]. apply gives_bind, gives_bind. eapply gives_need; [done|].
  apply gives_bind. unfold io_read. apply gives_bind. eapply storage_read_runs; [done|done|].
  intros w2 Hc2 E2 B2. eapply gives_mono; [by apply load_from_nv_runs|].
  intros [err b] w3 (e & h & -> & Hf & Hh & HR). cbn [fst snd] in HR.
  assert (files e = files (nv_below w)) as Hfe by congruence.
  assert (healthy (nv_below w) -> healthy e) as Hhe by (intros Hw; apply Hh; rewrite E2; auto).
  assert (value w2 id = value w id) as Hv by (unfold value; congruence).
  destruct HR as [(-> & d & q & Hd & -> & Hq & HB)|[(-> & Hd & HB)|(Herr & Hne & HB & Hn)]].
  - no_error. cbn [buf_len buf_p]. rewrite Hv in Hd.
    assert (in_context w c (Some p) (set_below e (with_blocks (<[q := None]> h) w2))) as Hc3 by by apply in_context_same.
    destruct (Z.ltb_spec len (zlen (loaded d))).
    + apply gives_bind. eapply gives_release; [done|]. apply gives_ret, gives_ret.
      eapply finish_runs; [exact Hc3|]. intros w' Hs Hb. exists data. wcbn. rewrite Hb. split; [done|]. split; [done|]. split; [auto|].
      split; [by eapply read_too_long|]. split; [by apply same_more|done].
    + eapply io_read_found; [done|done|done|]. apply gives_ret.
      eapply finish_runs; [exact Hc3|]. intros w' Hs Hb. eexists. wcbn. rewrite Hb. split; [done|]. split; [done|]. split; [auto|].
      split; [by eapply read_found|]. split; [by apply same_more|done].
  - no_error. apply gives_ret, gives_ret. rewrite Hv in Hd.
    eapply finish_runs; [by apply in_context_same|]. intros w' Hs Hb. exists data. wcbn. rewrite Hb. split; [done|]. split; [done|].
    split; [auto|]. split; [by apply read_missing|]. split; [by apply same_more|done].
  - rewrite Herr. apply gives_ret, gives_ret.
    eapply finish_runs; [by apply (in_context_blocks w c (Some p) w2 e h)|]. intros w' Hs Hb. exists data. wcbn. rewrite Hb.
    rewrite (proj2 (Z.eqb_neq err _)) by done. split; [done|]. split; [done|].
    split; [intros Hw; exfalso; apply Hn; rewrite E2; auto|]. split; [apply read_failed|]. split; [|done].
    split.
    + destruct Hs. by split.
    + intros a l Ha. destruct Hs. rewrite so_blocks. apply HB. rewrite B2. destruct Hc. by rewrite ic_blocks.
Qed.

End reads.

Section map.
Context `{CharModel} `{NC : NvConfig} `{NL : NvLaws}.
#[local] Set Default Proof Using "Type*".
Abbreviation N := (st nvworld).

Lemma nv_write_runs id data len w : nv_id id -> 0 < len <= zlen data -> len < 4294967296 ->
  gives (_iot_nv_io_storage id IOT_NV_MODE_WRITE (Some data) len) w (fun r w' =>
    r.1.2 = Some data /\ r.2 = None /\ (r.1.1 = IOT_ERROR_NONE \/ r.1.1 = IOT_ERROR_NV_DATA_ERROR) /\
    store_result id (take (Z.to_nat len) data) r.1.1 (nv_below w) (nv_below w') /\ same_objects w w').
Proof.
  intros Hid Hlen Hmax. eapply gives_ext; [apply io_args; [done|right; split; [done|lia]]|].
  apply gives_bind. eapply gives_mono; [apply io_storage_init_runs|].
  intros [c|] w1 [(Hf1 & _ & Hh1) H1].
  2:{ destruct H1 as [Hs Hn]. apply gives_ret. split; [done|]. split; [done|]. split; [by right|]. split; [|done].
      split; [|by split]. intros n _. by rewrite Hf1. }
  destruct H1 as [p Hc]. apply gives_bind, gives_bind. eapply storage_write_runs; [done|done|lia|].
  intros w2 Hc2 E2 B2. eapply gives_mono; [apply store_to_nv_runs; [done|lia|done]|].
  intros err w3 (e & -> & (Ho & Hh & Hw)). apply gives_ret.
  eapply finish_runs; [by apply in_context_below|]. intros w' Hs Hb. wcbn. rewrite Hb. split; [done|]. split; [done|].
  split; [destruct (failed err); [by right|by left]|]. split; [|done]. rewrite E2 in *.
  split; [intros n Hn; rewrite Ho by done; by rewrite Hf1|]. split.
  - intros Hw0. destruct (Hh (Hh1 Hw0)) as [H1 ->]. done.
  - destruct (failed err) eqn:Herr; [done|]. intros _. apply failed_false in Herr. rewrite <- Hf1. auto.
Qed.

Lemma nv_remove_runs id w : nv_id id ->
  gives (_iot_nv_io_storage id IOT_NV_MODE_REMOVE None 0) w (fun r w' =>
    r.1.2 = None /\ r.2 = None /\
    (r.1.1 = IOT_ERROR_NONE \/ r.1.1 = IOT_ERROR_NV_DATA_NOT_EXIST \/ r.1.1 = IOT_ERROR_NV_DATA_ERROR) /\
    only_file (file_name id) (nv_below w) (nv_below w') /\
    (healthy (nv_below w) -> healthy (nv_below w') /\ r.1.1 <> IOT_ERROR_NV_DATA_ERROR) /\
    (r.1.1 = IOT_ERROR_NV_DATA_NOT_EXIST -> value w id = None) /\
    (r.1.1 <> IOT_ERROR_NV_DATA_ERROR -> value w' id = None) /\ same_objects w w' /\
    (RemovalKeeps -> r.1.1 = IOT_ERROR_NV_DATA_ERROR -> value w' id = value w id)).
Proof.
  intros Hid. eapply gives_ext; [apply io_args; [done|by left]|].
  apply gives_bind. eapply gives_mono; [apply io_storage_init_runs|].
  intros [c|] w1 [(Hf1 & _ & Hh1) H1].
  2:{ destruct H1 as [Hs Hn]. apply gives_ret. split; [done|]. split; [done|]. split; [by right; right|].
      split; [intros n _; by rewrite Hf1|]. split; [done|]. split; [done|]. split; [done|]. split; [done|].
      intros _ _. unfold value. by rewrite Hf1. }
  destruct H1 as [p Hc]. apply gives_bind, gives_bind. eapply storage_remove_runs; [done|done|].
  intros w2 Hc2 E2 B2. eapply gives_mono; [by apply remove_from_nv_runs|].
  intros err w3 (e & -> & (Ho & Hh & Hok & Hno & Hk)). apply gives_ret.
  eapply finish_runs; [by apply in_context_below|]. intros w' Hs Hb. unfold value. wcbn. rewrite Hb, <- Hf1, E2 in *.
  split; [done|]. split; [done|].
  assert (only_file (file_name id) (nv_below w) e) as Ho2 by (intros n Hn; rewrite Ho by done; by rewrite Hf1).
  destruct (failed err) eqn:Herr; [destruct (Z.eqb_spec err IOT_ERROR_SECURITY_FS_NOT_FOUND) as [En|En]|].
  - split; [by right; left|]. split; [done|]. split; [intros Hw; split; [by apply Hh, Hh1|done]|]. split; [intros _; by apply Hno|].
    split; [|done]. intros _. by apply Hno.
  - split; [by right; right|]. split; [done|]. split; [|split; [done|split; [done|split; [done|]]]].
    2: { intros K _. apply Hk; [done|by apply failed_true|done]. }
    intros Hw. destruct (Hh (Hh1 Hw)) as (_ & [->|?]); done.
  - apply failed_false in Herr. split; [by left|]. split; [done|]. split; [intros Hw; split; [by apply Hh, Hh1|done]|].
    split; [done|]. split; [auto|done].
Qed.

(** ** Sequences of operations *)

Inductive nv_op := ReadOp (id : Z) (data : list Z) (len : Z) | WriteOp (id : Z) (data : list Z) (len : Z) | RemoveOp (id : Z).
Definition op_ok (o : nv_op) : Prop :=
  match o with
  | ReadOp id data len => nv_id id /\ 0 < len <= zlen data
  | WriteOp id data len => nv_id id /\ 0 < len <= zlen data /\ len < 4294967296
  | RemoveOp id => nv_id id
  end.
Definition run_op (o : nv_op) : N (Z * option (list Z) * option Z) :=
  match o with
  | ReadOp id data len => _iot_nv_read_data id (Some data) len
  | WriteOp id data len => _iot_nv_io_storage id IOT_NV_MODE_WRITE (Some data) len
  | RemoveOp id => _iot_nv_io_storage id IOT_NV_MODE_REMOVE None 0
  end.
Fixpoint run_ops (os : list nv_op) : N (list (Z * option (list Z) * option Z)) :=
  match os with [] => mret [] | o :: os => r ← run_op o; rs ← run_ops os; mret (r :: rs) end.

(** The specification: a map, and what an operation may do to it and give. *)
Definition nv_map : Type := Z -> option (list Z).
Definition agree_but (id : Z) (m m' : nv_map) : Prop := forall k, nv_id k -> k <> id -> m' k = m k.
Inductive map_step (m : nv_map) : nv_op -> Z * option (list Z) * option Z -> nv_map -> Prop :=
| step_read id data len err data' n m' : read_outcome (m id) data len err data' n -> (forall k, m' k = m k) ->
    map_step m (ReadOp id data len) (err, Some data', n) m'
| step_write id data len m' : m' id = Some (written (default [] (m id)) (take (Z.to_nat len) data)) -> agree_but id m m' ->
    map_step m (WriteOp id data len) (IOT_ERROR_NONE, Some data, None) m'
| step_write_failed id data len m' : agree_but id m m' -> map_step m (WriteOp id data len) (IOT_ERROR_NV_DATA_ERROR, Some data, None) m'
| step_remove id m' : m' id = None -> agree_but id m m' -> map_step m (RemoveOp id) (IOT_ERROR_NONE, None, None) m'
| step_remove_missing id m' : m id = None -> m' id = None -> agree_but id m m' ->
    map_step m (RemoveOp id) (IOT_ERROR_NV_DATA_NOT_EXIST, None, None) m'
| step_remove_failed id m' : agree_but id m m' -> map_step m (RemoveOp id) (IOT_ERROR_NV_DATA_ERROR, None, None) m'.
Inductive map_steps : nv_map -> list nv_op -> list (Z * option (list Z) * option Z) -> nv_map -> Prop :=
| steps_none m : map_steps m [] [] m
| steps_more m o r m1 os rs m2 : map_step m o r m1 -> map_steps m1 os rs m2 -> map_steps m (o :: os) (r :: rs) m2.

Lemma only_file_agrees id w w' : nv_id id -> only_file (file_name id) (nv_below w) (nv_below w') -> agree_but id (value w) (value w').
Proof. intros Hid Ho k Hk Hne. unfold value. apply Ho. intros E. apply Hne. by apply file_name_inj. Qed.

Lemma run_op_steps o w : op_ok o ->
  gives (run_op o) w (fun r w' => map_step (value w) o r (value w') /\ more_objects w w' /\
    (healthy (nv_below w) -> healthy (nv_below w') /\ r.1.1 <> IOT_ERROR_NV_DATA_ERROR /\ same_objects w w')).
Proof.
  destruct o as [id data len|id data len|id]; cbn [op_ok run_op].
  - intros [Hid Hl]. eapply gives_mono; [by apply nv_read_runs|]. intros [[err d] n] w' (data' & Hd & Hf & Hh & HR & Hm & Hs).
    cbn [fst snd] in *. subst d. split; [|split; [done|]].
    + apply step_read; [done|]. intros k. unfold value. by rewrite Hf.
    + intros Hw. destruct (Hh Hw). auto.
  - intros (Hid & Hl & Hmax). eapply gives_mono; [by apply nv_write_runs|].
    intros [[err d] n] w' (Hd & Hn & He & (Ho & Hh & Hw) & Hs). cbn [fst snd] in *. subst d n.
    apply only_file_agrees in Ho; [|done]. split; [|split; [by apply same_more|]].
    + destruct He as [->| ->]; [by apply step_write; [apply Hw|]|by apply step_write_failed].
    + intros Hw0. destruct (Hh Hw0) as [? ->]. done.
  - intros Hid. eapply gives_mono; [by apply nv_remove_runs|].
    intros [[err d] n] w' (Hd & Hn & He & Ho & Hh & Hno & Hok & Hs & _). cbn [fst snd] in *. subst d n.
    apply only_file_agrees in Ho; [|done]. split; [|split; [by apply same_more|]].
    + destruct He as [->|[->| ->]]; [apply step_remove|apply step_remove_missing|apply step_remove_failed]; auto; by apply Hok.
    + intros Hw. destruct (Hh Hw). done.
Qed.

(** C15: on a board whose file system behaves as [NvLaws] says (as files of
    POSIX do), whatever sequence of reads, writes and removals is done and
    whatever fails below, each returns and is a step of a map from numbers to
    bytes ([map_step]): a read gives the first bytes of what is there, at most
    2048, says that there are none or fails, and changes nothing; a write and a
    removal change their own piece of data only, and one that fails may leave
    anything in it.  An object of the caller is never touched.  While nothing
    fails below no operation reports a failure of the storage and the heap is as
    it was; after a failure more blocks may be left on it than before
    ([more_objects]; [load_leaks] is such a case). *)
Theorem nv_operations_refine_map os w : Forall op_ok os ->
  exists rs w', run_ops os w = Ret (rs, w') /\ map_steps (value w) os rs (value w') /\ more_objects w w' /\
    (healthy (nv_below w) -> same_objects w w' /\ Forall (fun r => r.1.1 <> IOT_ERROR_NV_DATA_ERROR) rs).
Proof.
  intros Hos. revert w. induction Hos as [|o os Ho _ IH]; intros w.
  - exists [], w. split; [done|]. split; [apply steps_none|]. split; [by apply same_more|]. intros _. by split.
  - destruct (run_op_steps o w Ho) as (r & w1 & E1 & HS & Hm & Hh).
    destruct (IH w1) as (rs & w2 & E2 & HS2 & Hm2 & Hh2). exists (r :: rs), w2.
    cbn [run_ops]. rewrite (bind_ret _ _ _ _ _ E1), (bind_ret _ _ _ _ _ E2). split; [done|].
    split; [by eapply steps_more|]. split.
    + destruct Hm as [S1 M1], Hm2 as [S2 M2]. split.
      * destruct S1, S2. wcbn. split; wcbn; (by etrans) || congruence || done.
      * intros a l Ha. auto.
    + intros Hw. destruct (Hh Hw) as (H1 & H2 & H3). destruct (Hh2 H1) as [H4 H5]. split; [by etrans|]. by constructor.
Qed.
End map.
