(* ===== verification/NvPosix.v ===== *)
(** * Non-volatile data: files on POSIX

    The port for POSIX, [port/bsp/posix/iot_bsp_fs_posix.c] and
    [iot_bsp_nv_data_posix.c], over the system calls; a system that behaves as
    documented ([PosixLaws]) gives a file system as [NvLaws] asks for. *)

From S2P Require Import Prelude UtilQueue Heap NvBase NvStore NvData NvSpec.

(** ** The system *)

(** The calls: [access(name, F_OK) >= 0]; [open] with [O_RDONLY], or with
    [O_RDWR | O_CREAT]; [read], with the bytes in the buffer; [remove], with
    whether [errno] is [ENOENT]; and memory. *)
Class Posix := {
  posix : Type;
  sys_access : list Z -> posix -> bool;
  sys_open : list Z -> bool -> posix -> Z * posix;
  sys_read : Z -> Z -> posix -> (Z * list Z) * posix;
  sys_write : Z -> list Z -> posix -> Z * posix;
  sys_close : Z -> posix -> Z * posix;
  sys_remove : list Z -> posix -> (Z * bool) * posix;
  sys_malloc : Z -> posix -> option (list Z) * posix;
  posix_json : Type;
  posix_json_parse : list Z -> posix -> option posix_json * posix;
  posix_json_item : posix_json -> list Z -> option posix_json;
  posix_json_text : posix_json -> option (list Z)
}.

(** [iot_bsp_fs_handle_t]; the name without its terminator. *)
Record posix_handle := PosixHandle { fd : Z; filename : list Z }.

Section posix.
Context `{PX : Posix}.

(** ** [iot_bsp_fs_posix.c] *)

Definition posix_fs_init (p : posix) : Z * posix := (IOT_ERROR_NONE, p).
Definition posix_fs_deinit (p : posix) : Z * posix := (IOT_ERROR_NONE, p).

(** [handle->fd > 0], and [snprintf] of the name into 128 bytes; a handle that
    is not set is not used. *)
Definition opened_handle (d : Z) (name : list Z) : Z * posix_handle :=
  if 0 <? d then (IOT_ERROR_NONE, PosixHandle d (take 127 name)) else (IOT_ERROR_FS_OPEN_FAIL, PosixHandle d []).

Definition posix_fs_open (name : list Z) (mode : iot_bsp_fs_open_mode_t) (p : posix) : (Z * posix_handle) * posix :=
  match mode with
  | FS_READONLY =>
      if negb (sys_access name p) then ((IOT_ERROR_FS_NO_FILE, PosixHandle 0 []), p)
      else let '(d, p) := sys_open name false p in (opened_handle d name, p)
  | FS_READWRITE => let '(d, p) := sys_open name true p in (opened_handle d name, p)
  end.

Definition posix_fs_open_from_stnv (name : list Z) (p : posix) : (Z * posix_handle) * posix :=
  if negb (sys_access name p) then ((IOT_ERROR_FS_NO_FILE, PosixHandle 0 []), p)
  else let '(d, p) := sys_open name false p in (opened_handle d name, p).

(** [buffer] has room for [length] bytes. *)
Definition posix_fs_read (handle : posix_handle) (length : Z) (p : posix) : outcome ((Z * list Z) * posix) :=
  Ret (
    if negb (sys_access (filename handle) p) then ((IOT_ERROR_FS_NO_FILE, []), p)
    else
      let '(data, p) := sys_malloc (length + 1) p in
      match data with
      | None => ((IOT_ERROR_FS_OPEN_FAIL, []), p)
      | Some _ =>
          let '((size, data), p) := sys_read (fd handle) length p in
          if size <? 0 then ((IOT_ERROR_FS_READ_FAIL, []), p) else ((IOT_ERROR_NONE, take (Z.to_nat size) data), p)
      end).

Definition posix_fs_write (handle : posix_handle) (data : list Z) (length : Z) (p : posix) : outcome (Z * posix) :=
  if (0 <=? length) && (length <=? zlen data) then
    let '(size, p) := sys_write (fd handle) (take (Z.to_nat length) data) p in
    Ret (if negb (size =? length) then IOT_ERROR_FS_WRITE_FAIL else IOT_ERROR_NONE, p)
  else Undef.

Definition posix_fs_close (handle : posix_handle) (p : posix) : Z * posix :=
  let '(ret, p) := sys_close (fd handle) p in (if negb (ret =? 0) then IOT_ERROR_FS_CLOSE_FAIL else IOT_ERROR_NONE, p).

Definition posix_fs_remove (name : list Z) (p : posix) : Z * posix :=
  let '((ret, enoent), p) := sys_remove name p in
  (if negb (ret =? 0) && (enoent : bool) then IOT_ERROR_FS_NO_FILE
   else if negb (ret =? 0) then IOT_ERROR_FS_REMOVE_FAIL
   else IOT_ERROR_NONE, p).
End posix.

(** ** [iot_bsp_nv_data_posix.c] *)

Definition posix_data_paths : list (Z * string) :=
  [(IOT_NVD_WIFI_PROV_STATUS, "WifiProvStatus"); (IOT_NVD_AP_SSID, "IotAPSSID"); (IOT_NVD_AP_PASS, "IotAPPASS");
   (IOT_NVD_AP_BSSID, "IotAPBSSID"); (IOT_NVD_AP_AUTH_TYPE, "IotAPAuthType");
   (IOT_NVD_CLOUD_PROV_STATUS, "CloudProvStatus"); (IOT_NVD_SERVER_URL, "ServerURL"); (IOT_NVD_SERVER_PORT, "ServerPort");
   (IOT_NVD_LABEL, "Label"); (IOT_NVD_DEVICE_ID, "DeviceID"); (IOT_NVD_MISC_INFO, "MiscInfo");
   (IOT_NVD_PRIVATE_KEY, "PrivateKey"); (IOT_NVD_PUBLIC_KEY, "PublicKey"); (IOT_NVD_ROOT_CA_CERT, "RootCert");
   (IOT_NVD_SUB_CA_CERT, "SubCert"); (IOT_NVD_DEVICE_CERT, "DeviceCert"); (IOT_NVD_SERIAL_NUM, "SerialNum")]%string.
Definition posix_nv_get_data_path (nv_type : Z) : option (list Z) :=
  if (nv_type <? 0) || (IOT_NVD_MAX <? nv_type) then None
  else match find (fun x => nv_type =? x.1) posix_data_paths with Some x => Some (lit x.2) | None => None end.

#[export] Instance posix_below `{PX : Posix} : NvBelow := {
  nv_env := posix;
  nv_malloc := sys_malloc;
  nv_malloc_object p := match sys_malloc 1 p with (Some _, p) => (true, p) | (None, p) => (false, p) end;
  nv_realloc := sys_malloc;
  iot_bsp_fs_handle_t := posix_handle;
  iot_bsp_fs_init := posix_fs_init;
  iot_bsp_fs_deinit := posix_fs_deinit;
  iot_bsp_fs_open := posix_fs_open;
  iot_bsp_fs_open_from_stnv := posix_fs_open_from_stnv;
  iot_bsp_fs_read := posix_fs_read;
  iot_bsp_fs_write := posix_fs_write;
  iot_bsp_fs_close := posix_fs_close;
  iot_bsp_fs_remove := posix_fs_remove;
  iot_bsp_nv_get_data_path := posix_nv_get_data_path;
  nv_json := posix_json;
  nv_json_parse := posix_json_parse;
  nv_json_item := posix_json_item;
  nv_json_text := posix_json_text
}.

(** ** What the system promises *)

(** The files; the file of a descriptor that has not been read or written yet;
    the states in which no call fails any more: there is memory, and
    descriptor 0 is taken. *)
Class PosixFiles `{PX : Posix} := {
  pf_files : posix -> gmap (list Z) (list Z);
  pf_open : posix -> Z -> option (list Z);
  pf_healthy : posix -> Prop
}.
Class PosixLaws `{PF : PosixFiles} : Prop := {
  sys_access_law : forall name p, sys_access name p = bool_decide (is_Some (pf_files p !! name));
  sys_malloc_law : forall n p d p', sys_malloc n p = (d, p') ->
    pf_files p' = pf_files p /\ (forall i, pf_open p' i = pf_open p i) /\ (pf_healthy p -> pf_healthy p' /\ d <> None) /\
    (forall l, d = Some l -> 0 <= n -> zlen l = n);
  sys_open_law : forall name rw p d p', sys_open name rw p = (d, p') ->
    (0 <= d -> pf_open p' d = Some name) /\
    (pf_files p' = pf_files p \/ (rw = true /\ pf_files p !! name = None /\ pf_files p' = <[name := []]> (pf_files p))) /\
    (pf_healthy p -> pf_healthy p' /\ (rw = true \/ is_Some (pf_files p !! name) -> 0 < d));
  sys_read_law : forall d n name p size b p', sys_read d n p = ((size, b), p') -> pf_open p d = Some name -> 0 <= n ->
    pf_files p' = pf_files p /\
    (forall c, pf_files p !! name = Some c -> 0 <= size -> b = take (Z.to_nat n) c /\ size = zlen b) /\
    (pf_healthy p -> pf_healthy p' /\ 0 <= size);
  sys_write_law : forall d data name p size p', sys_write d data p = (size, p') -> pf_open p d = Some name ->
    (forall n, n <> name -> pf_files p' !! n = pf_files p !! n) /\
    (size = zlen data -> pf_files p' !! name = Some (data ++ drop (length data) (default [] (pf_files p !! name)))) /\
    (pf_healthy p -> pf_healthy p' /\ size = zlen data);
  sys_close_law : forall d p ret p', sys_close d p = (ret, p') ->
    pf_files p' = pf_files p /\ (pf_healthy p -> pf_healthy p' /\ ret = 0);
  sys_remove_law : forall name p ret enoent p', sys_remove name p = ((ret, enoent), p') ->
    (forall n, n <> name -> pf_files p' !! n = pf_files p !! n) /\
    (ret = 0 -> pf_files p' !! name = None) /\
    (ret <> 0 -> enoent = true -> pf_files p !! name = None /\ pf_files p' !! name = None) /\
    (ret <> 0 -> pf_files p' !! name = pf_files p !! name) /\
    (pf_healthy p -> pf_healthy p' /\ (ret = 0 \/ enoent = true))
}.

#[export] Instance posix_files `{PF : PosixFiles} : NvFiles := {
  files := pf_files;
  opened p h := match pf_open p (fd h) with
                | Some n => if decide (filename h = n) then Some n else None
                | None => None
                end;
  written old data := data ++ drop (length data) old;
  healthy := pf_healthy
}.

Section laws.
Context `{PL : PosixLaws}.
#[local] Set Default Proof Using "Type*".

Lemma quiet_malloc n p d p' : sys_malloc n p = (d, p') -> quiet p p'.
Proof.
  intros E. apply sys_malloc_law in E as (Hf & Ho & Hh & _). split; [done|]. split; [|intros Hp; by apply Hh].
  intros h. cbn. by rewrite Ho.
Qed.

Lemma opened_name p d name : pf_open p d = Some name -> zlen name < IOT_SECURITY_STORAGE_FILENAME_MAX_LEN ->
  opened p (PosixHandle d (take 127 name)) = Some name.
Proof.
  intros E Hn. cbn. rewrite E. rewrite firstn_all2; [by rewrite decide_True|]. unfold zlen, IOT_SECURITY_STORAGE_FILENAME_MAX_LEN in Hn. lia.
Qed.

Lemma opened_inv p h name : opened p h = Some name -> pf_open p (fd h) = Some name /\ filename h = name.
Proof. cbn. destruct (pf_open p (fd h)); [case_decide|]; naive_solver. Qed.

Lemma posix_open_read name p r h p' : zlen name < IOT_SECURITY_STORAGE_FILENAME_MAX_LEN ->
  posix_fs_open name FS_READONLY p = ((r, h), p') ->
  pf_files p' = pf_files p /\ (r = IOT_ERROR_NONE -> opened p' h = Some name) /\
  (r = IOT_ERROR_FS_NO_FILE -> pf_files p !! name = None) /\
  (pf_healthy p -> pf_healthy p' /\ (r = IOT_ERROR_NONE \/ r = IOT_ERROR_FS_NO_FILE)).
Proof.
  intros Hn. unfold posix_fs_open. rewrite sys_access_law. case_bool_decide as Ha; cbn [negb].
  - destruct (sys_open name false p) as [d p1] eqn:E. apply sys_open_law in E as (Ho & Hf & Hh).
    assert (pf_files p1 = pf_files p) as Hf1 by (destruct Hf as [?|(? & _)]; done).
    unfold opened_handle. destruct (Z.ltb_spec 0 d); intros [= <- <- <-]; (split; [done|]); split.
    + intros _. apply opened_name; [apply Ho; lia|done].
    + split; [done|]. intros Hp. split; [by apply Hh|by left].
    + done.
    + split; [done|]. intros Hp. destruct (Hh Hp) as (? & Hd). specialize (Hd (or_intror Ha)). lia.
  - intros [= <- <- <-]. split; [done|]. split; [done|]. split; [|by auto]. intros _. by apply eq_None_not_Some.
Qed.

Lemma posix_open_write name p r h p' : zlen name < IOT_SECURITY_STORAGE_FILENAME_MAX_LEN ->
  posix_fs_open name FS_READWRITE p = ((r, h), p') ->
  only_file name p p' /\ default [] (pf_files p' !! name) = default [] (pf_files p !! name) /\
  (r = IOT_ERROR_NONE -> opened p' h = Some name) /\ (pf_healthy p -> pf_healthy p' /\ r = IOT_ERROR_NONE).
Proof.
  intros Hn. unfold posix_fs_open. destruct (sys_open name true p) as [d p1] eqn:E. apply sys_open_law in E as (Ho & Hf & Hh).
  assert (only_file name p p1 /\ default [] (pf_files p1 !! name) = default [] (pf_files p !! name)) as [H1 H2].
  { destruct Hf as [Hf|(_ & Hno & Hf)].
    - split; [intros n _|]; cbn; by rewrite Hf.
    - split; [intros n Hne|]; cbn; rewrite Hf; [by rewrite lookup_insert_ne|by rewrite lookup_insert_eq, Hno]. }
  unfold opened_handle. destruct (Z.ltb_spec 0 d); intros [= <- <- <-]; (split; [done|]); (split; [done|]); split.
  - intros _. apply opened_name; [apply Ho; lia|done].
  - intros Hp. by split; [apply Hh|].
  - done.
  - intros Hp. destruct (Hh Hp) as (? & Hd). specialize (Hd (or_introl eq_refl)). lia.
Qed.

Lemma posix_read h n name p r b p' : posix_fs_read h n p = Ret ((r, b), p') -> opened p h = Some name -> 0 <= n ->
  pf_files p' = pf_files p /\ (r = IOT_ERROR_NONE -> exists c, pf_files p !! name = Some c /\ b = take (Z.to_nat n) c) /\
  (r = IOT_ERROR_FS_NO_FILE -> pf_files p !! name = None) /\
  (pf_healthy p -> pf_healthy p' /\ (r = IOT_ERROR_NONE \/ r = IOT_ERROR_FS_NO_FILE)).
Proof.
  intros E Ho Hn. apply opened_inv in Ho as [Ho Hname]. unfold posix_fs_read in E. rewrite Hname, sys_access_law in E.
  case_bool_decide as Ha; cbn [negb] in E.
  - destruct (sys_malloc (n + 1) p) as [d p1] eqn:Em. apply sys_malloc_law in Em as (Hf1 & Ho1 & Hh1 & _). destruct d as [d|].
    + destruct (sys_read (fd h) n p1) as [[size data] p2] eqn:Er.
      apply (sys_read_law _ _ name) in Er as (Hf2 & Hd & Hh2); [|by rewrite Ho1|done]. rewrite Hf1 in Hd.
      destruct (Z.ltb_spec size 0); injection E as <- <- <-; (split; [congruence|]); split; try done.
      * split; [done|]. intros Hp. destruct (Hh2 (proj1 (Hh1 Hp))). lia.
      * intros _. destruct Ha as [c Hc]. exists c. destruct (Hd c Hc) as [-> ->]; [done|]. split; [done|].
        rewrite firstn_all2; [done|]. unfold zlen. lia.
      * split; [done|]. intros Hp. split; [by apply Hh2, Hh1|by left].
    + injection E as <- <- <-. split; [done|]. split; [done|]. split; [done|]. intros Hp. by destruct (Hh1 Hp).
  - injection E as <- <- <-. split; [done|]. split; [done|]. split; [|by auto]. intros _. by apply eq_None_not_Some.
Qed.

(** The names of the files differ. *)
Lemma posix_paths id : IOT_NVD_UNKNOWN < id < IOT_NVD_FACTORY ->
  exists p, posix_nv_get_data_path id = Some p /\ zlen p + 2 < IOT_SECURITY_STORAGE_FILENAME_MAX_LEN.
Proof.
  intros Hid. unfold IOT_NVD_UNKNOWN, IOT_NVD_FACTORY in Hid.
  pose proof (forallb_seqZ (fun id => (id =? 0) || match posix_nv_get_data_path id with Some p => zlen p + 2 <? 64 | None => false end)
    12 id ltac:(vm_compute; reflexivity)) as H.
  specialize (H ltac:(lia)). cbv beta in H. rewrite (proj2 (Z.eqb_neq id 0)) in H by lia. cbn [orb] in H.
  destruct (posix_nv_get_data_path id) as [p|]; [|done]. exists p. split; [done|]. by apply Z.ltb_lt in H.
Qed.
Lemma posix_paths_inj i j p : IOT_NVD_UNKNOWN < i < IOT_NVD_FACTORY -> IOT_NVD_UNKNOWN < j < IOT_NVD_FACTORY ->
  posix_nv_get_data_path i = Some p -> posix_nv_get_data_path j = Some p -> i = j.
Proof.
  intros Hi Hj E1 E2. unfold IOT_NVD_UNKNOWN, IOT_NVD_FACTORY in *.
  assert (forallb (fun i => forallb (fun j => (i =? 0) || (j =? 0) || (i =? j) ||
    negb (bool_decide (posix_nv_get_data_path i = posix_nv_get_data_path j))) (seqZ 0 12)) (seqZ 0 12) = true) as H by (vm_compute; reflexivity).
  apply (forallb_seqZ _ 12 i) in H; [|lia]. cbv beta in H. apply (forallb_seqZ _ 12 j) in H; [|lia]. cbv beta in H. rewrite E1, E2 in H.
  rewrite (proj2 (Z.eqb_neq i 0)), (proj2 (Z.eqb_neq j 0)), bool_decide_true in H by lia || done.
  cbn [orb negb] in H. rewrite orb_false_r in H. by apply Z.eqb_eq.
Qed.

(** A file system as the storage asks for. *)
#[export] Instance posix_reads : NvReads.
Proof.
  split.
  - intros n p d p' E. pose proof E as (_ & _ & Hh & Hl)%sys_malloc_law. split; [by eapply quiet_malloc|]. split; [done|].
    intros Hp. by apply Hh.
  - intros p ok p' E. cbn in E. destruct (sys_malloc 1 p) as [d p1] eqn:Em. pose proof Em as (_ & _ & Hh & _)%sys_malloc_law.
    assert (p' = p1) as -> by by destruct d; injection E. split; [by eapply quiet_malloc|]. intros Hp.
    destruct (Hh Hp) as [_ Hd]. destruct d; [by injection E|done].
  - intros n p d p' E. pose proof E as (_ & _ & Hh & Hl)%sys_malloc_law. split; [by eapply quiet_malloc|]. split; [done|].
    intros Hp. by apply Hh.
  - intros name p r h p' Hn E. by apply posix_open_read in E.
  - intros h n name p Ho Hn. destruct (posix_fs_read h n p) as [[[r b] p']| |] eqn:E; [|discriminate E..].
    exists r, b, p'. split; [exact E|]. by apply (posix_read h n name).
  - intros h p r p' E. cbn in E. unfold posix_fs_close in E. destruct (sys_close (fd h) p) as [ret p1] eqn:Ec.
    apply sys_close_law in Ec as (Hf & Hh). injection E as <- <-. split; [done|]. intros Hp. destruct (Hh Hp) as [? ->]. done.
  - apply posix_paths.
  - apply posix_paths_inj.
Qed.
#[export] Instance posix_laws : NvLaws.
Proof.
  split.
  - apply posix_reads.
  - intros name p r h p' Hn E. by apply posix_open_write in E.
  - intros h data len name p Ho Hl. apply opened_inv in Ho as [Ho Hname]. cbn [iot_bsp_fs_write posix_below]. unfold posix_fs_write.
    rewrite (proj2 (Z.leb_le 0 len)), (proj2 (Z.leb_le len (zlen data))) by lia. cbn [andb].
    destruct (sys_write (fd h) (take (Z.to_nat len) data) p) as [size p1] eqn:E. eexists _, _. split; [reflexivity|].
    apply (sys_write_law _ _ name) in E as (Hf & Hw & Hh); [|done].
    assert (zlen (take (Z.to_nat len) data) = len) as Hlen by (unfold zlen in *; rewrite length_take; lia). rewrite Hlen in *.
    split; [done|]. destruct (Z.eqb_spec size len) as [Hs|Hs]; cbn [negb]; (split; [auto; done|]); intros Hp; destruct (Hh Hp); auto; done.
  - intros name p r p' E. cbn in E. unfold posix_fs_remove in E. destruct (sys_remove name p) as [[ret enoent] p1] eqn:Er.
    apply sys_remove_law in Er as (Hf & Hok & Hno & _ & Hh). injection E as <- <-. split; [done|].
    destruct (Z.eqb_spec ret 0) as [Hr|Hr]; cbn [negb andb].
    + split; [auto|]. split; [done|]. intros Hp. split; [by apply Hh|by left].
    + destruct enoent; cbn [negb]; (split; [done|]).
      * split; [intros _; by apply Hno|]. intros Hp. split; [by apply Hh|by right].
      * split; [done|]. intros Hp. destruct (Hh Hp) as [_ [?|?]]; done.
  - intros old data. exists (drop (length data) old). split; [done|]. intros Hl. by apply drop_ge.
Qed.

#[export] Instance posix_keeps : RemovalKeeps (NF := posix_files).
Proof.
  split. intros name p r p' E Hne Hno. cbn in E. unfold posix_fs_remove in E.
  destruct (sys_remove name p) as [[ret enoent] p1] eqn:Er. apply sys_remove_law in Er as (_ & _ & _ & Hk & _).
  injection E as <- <-. apply Hk. intros ->. by destruct Hne.
Qed.
End laws.

(** ** A simulated system

    Files in a map; descriptors with a file and an offset, from 3 on.  Limits
    on the allocations and the writes that succeed, and whether [remove] and
    [close] do, for running the model with faults. *)
Record sim_posix := SimPx {
  px_files : gmap (list Z) (list Z); px_fds : gmap Z (list Z * nat); px_next : Z;
  px_allocs : option nat; px_writes : option nat; px_removes : bool; px_closes : bool
}.
Definition with_files fs (p : sim_posix) := SimPx fs (px_fds p) (px_next p) (px_allocs p) (px_writes p) (px_removes p) (px_closes p).
Definition with_fds fds n (p : sim_posix) := SimPx (px_files p) fds n (px_allocs p) (px_writes p) (px_removes p) (px_closes p).
Definition with_allocs n (p : sim_posix) := SimPx (px_files p) (px_fds p) (px_next p) n (px_writes p) (px_removes p) (px_closes p).
Definition with_writes n (p : sim_posix) := SimPx (px_files p) (px_fds p) (px_next p) (px_allocs p) n (px_removes p) (px_closes p).

Definition sim_px_open (name : list Z) (rw : bool) (p : sim_posix) : Z * sim_posix :=
  if bool_decide (is_Some (px_files p !! name)) || rw then
    let p := if decide (is_Some (px_files p !! name)) then p else with_files (<[name := []]> (px_files p)) p in
    (px_next p, with_fds (<[px_next p := (name, 0%nat)]> (px_fds p)) (px_next p + 1) p)
  else (-1, p).
Definition sim_px_read (d n : Z) (p : sim_posix) : (Z * list Z) * sim_posix :=
  match px_fds p !! d with
  | Some (name, o) =>
      let b := take (Z.to_nat n) (drop o (default [] (px_files p !! name))) in
      ((zlen b, b), with_fds (<[d := (name, o + length b)%nat]> (px_fds p)) (px_next p) p)
  | None => ((-1, []), p)
  end.
Definition sim_px_write (d : Z) (data : list Z) (p : sim_posix) : Z * sim_posix :=
  match px_fds p !! d, px_writes p with
  | Some _, Some O | None, _ => (-1, p)
  | Some (name, o), l =>
      let old := default [] (px_files p !! name) in
      (zlen data, with_writes (pred <$> l) (with_files (<[name := take o old ++ data ++ drop (o + length data) old]> (px_files p)) p))
  end.
Definition sim_px_close (d : Z) (p : sim_posix) : Z * sim_posix :=
  (if px_closes p then 0 else -1, with_fds (delete d (px_fds p)) (px_next p) p).
Definition sim_px_remove (name : list Z) (p : sim_posix) : (Z * bool) * sim_posix :=
  if bool_decide (is_Some (px_files p !! name)) then
    if px_removes p then ((0, false), with_files (delete name (px_files p)) p) else ((-1, false), p)
  else ((-1, true), p).
Definition sim_px_malloc (n : Z) (p : sim_posix) : option (list Z) * sim_posix :=
  match px_allocs p with
  | Some O => (None, p)
  | l => (Some (replicate (Z.to_nat n) 170), with_allocs (pred <$> l) p)
  end.

(** Trees, and a parser that finds one and the same tree in every text. *)
Inductive sim_json := SimText (s : list Z) | SimObject (l : list (list Z * sim_json)).
Definition sim_json_item (j : sim_json) (name : list Z) : option sim_json :=
  match j with
  | SimText _ => None
  | SimObject l => snd <$> find (fun x => bool_decide (x.1 = name)) l
  end.
Definition sim_device_info : sim_json := SimObject [(lit "deviceInfo", SimObject [(lit "serialNumber", SimText (lit "STDKtest"))])].

#[export] Instance SimPosix : Posix := {
  posix := sim_posix;
  sys_access name p := bool_decide (is_Some (px_files p !! name));
  sys_open := sim_px_open;
  sys_read := sim_px_read;
  sys_write := sim_px_write;
  sys_close := sim_px_close;
  sys_remove := sim_px_remove;
  sys_malloc := sim_px_malloc;
  posix_json := sim_json;
  posix_json_parse _ p := (Some sim_device_info, p);
  posix_json_item := sim_json_item;
  posix_json_text j := match j with SimText s => Some s | _ => None end
}.
#[export] Instance SimPosixFiles : PosixFiles := {
  pf_files := px_files;
  pf_open p d := match px_fds p !! d with Some (name, O) => Some name | _ => None end;
  pf_healthy p := 0 < px_next p /\ px_allocs p = None /\ px_writes p = None /\ px_removes p = true /\ px_closes p = true
}.
#[export] Instance SimPosixLaws : PosixLaws.
Proof.
  split.
  - done.
  - intros n p d p'. cbn. unfold sim_px_malloc. destruct (px_allocs p) as [[|k]|] eqn:E; intros [= <- <-].
    + split_and!; try done. intros (_ & Ha & _). congruence.
    + split_and!; try done; [intros (_ & Ha & _); congruence|]. intros l [= <-] Hn. unfold zlen. rewrite length_replicate. lia.
    + split_and!; try done. intros l [= <-] Hn. unfold zlen. rewrite length_replicate. lia.
  - intros name rw p d p'. cbn. unfold sim_px_open. case_bool_decide as Hs; cbn [orb].
    + rewrite decide_True by done. intros [= <- <-]. split_and!; [intros _; cbn; by rewrite lookup_insert_eq|by left|].
      intros (H1 & H2). split; [split; [cbn; lia|done]|]. intros _. lia.
    + destruct rw; [|intros [= <- <-]; split_and!; [lia|by left|]; intros Hp; split; [done|]; by intros [|?]].
      rewrite decide_False by done. intros [= <- <-]. cbn. split_and!.
      * intros _. by rewrite lookup_insert_eq.
      * right. split; [done|]. split; [by apply eq_None_not_Some|done].
      * intros (H1 & H2). split; [split; [cbn; lia|done]|]. intros _. lia.
  - intros d n name p size b p'. cbn. unfold sim_px_read. destruct (px_fds p !! d) as [[nm [|o]]|]; try done.
    intros [= <- <- <-] [= ->] Hn. split; [done|]. split.
    + intros c Hc _. rewrite Hc. cbn [default from_option]. by rewrite drop_0.
    + intros Hp. split; [done|apply zlen_nonneg].
  - intros d data name p size p'. cbn. unfold sim_px_write. destruct (px_fds p !! d) as [[nm [|o]]|]; try done.
    destruct (px_writes p) as [[|k]|] eqn:E; intros [= <- <-] [= ->].
    + split; [done|]. split; [pose proof (zlen_nonneg data); lia|]. intros (_ & _ & Hw & _). congruence.
    + split; [intros n Hn; cbn; by rewrite lookup_insert_ne|]. split; [intros _; cbn; by rewrite lookup_insert_eq|].
      intros (_ & _ & Hw & _). congruence.
    + split; [intros n Hn; cbn; by rewrite lookup_insert_ne|]. split; [intros _; cbn; by rewrite lookup_insert_eq|]. done.
  - intros d p ret p'. cbn. unfold sim_px_close. intros [= <- <-]. split; [done|]. intros (H1 & H2 & H3 & H4 & H5).
    split; [done|]. by rewrite H5.
  - intros name p ret enoent p'. cbn. unfold sim_px_remove. case_bool_decide as Hs.
    + destruct (px_removes p) eqn:E; intros [= <- <- <-].
      * split; [intros n Hn; cbn; by rewrite lookup_delete_ne|]. split; [intros _; cbn; by rewrite lookup_delete_eq|].
        split; [done|]. split; [done|]. intros (H1 & H2 & H3 & _ & H5). split; [by split_and!|by left].
      * split; [done|]. split; [done|]. split; [done|]. split; [done|]. intros (_ & _ & _ & Hr & _). congruence.
    + intros [= <- <- <-]. split; [done|]. split; [done|]. split; [by rewrite eq_None_not_Some|]. split; [done|]. intros Hp. split; [done|by right].
Qed.
