(* ===== verification/NvPuts.v ===== *)
(** * Non-volatile data: provisioning data as pieces

    [iot_nv_set_wifi_prov_data] and [iot_nv_set_cloud_prov_data] put pieces of
    data into the map, one after the other, and stop at the first that cannot
    be written ([puts]). *)

From S2P Require Import Prelude UtilQueue Heap NvBase NvStore NvData NvSpec NvMap.

Section puts.
Context `{CharModel} `{NC : NvConfig} `{NL : NvLaws}.
#[local] Set Default Proof Using "Type*".
Abbreviation N := (st nvworld).

(** A piece: bytes to be written, or [None] for one that is erased; the error
    of an erasure is ignored, but there is one only when something below has
    failed ([sick]), and then the piece stays, if the file system is like that. *)
Inductive put (sick : Prop) (m : nv_map) (id : Z) : option (list Z) -> Z -> nv_map -> Prop :=
| put_written b m' : m' id = Some (written (default [] (m id)) b) -> agree_but id m m' -> put sick m id (Some b) IOT_ERROR_NONE m'
| put_failed b m' : agree_but id m m' -> put sick m id (Some b) IOT_ERROR_NV_DATA_ERROR m'
| put_erased m' : m' id = None -> agree_but id m m' -> put sick m id None IOT_ERROR_NONE m'
| put_not_erased m' : sick -> (RemovalKeeps -> m' id = m id) -> agree_but id m m' -> put sick m id None IOT_ERROR_NONE m'.
Inductive puts (sick : Prop) : nv_map -> list (Z * option (list Z)) -> Z -> nv_map -> Prop :=
| puts_none m : puts sick m [] IOT_ERROR_NONE m
| puts_more m id b m1 l r m2 : put sick m id b IOT_ERROR_NONE m1 -> puts sick m1 l r m2 -> puts sick m ((id, b) :: l) r m2
| puts_stop m id b r m1 l : put sick m id b r m1 -> r <> IOT_ERROR_NONE -> puts sick m ((id, b) :: l) r m1.

(** Something fails below. *)
Definition sick (w : nvworld) : Prop := ~ healthy (nv_below w).
Lemma put_mono (P Q : Prop) m id b r m' : (P -> Q) -> put P m id b r m' -> put Q m id b r m'.
Proof. intros HPQ. destruct 1; [by apply put_written|by apply put_failed|by apply put_erased|apply put_not_erased; auto]. Qed.
Lemma puts_mono (P Q : Prop) m l r m' : (P -> Q) -> puts P m l r m' -> puts Q m l r m'.
Proof.
  intros HPQ. induction 1; [apply puts_none|eapply puts_more; [by eapply put_mono|done]|apply puts_stop; [by eapply put_mono|done]].
Qed.

(** What a writer does when it has the block [a] of [n] bytes: the error, the
    pieces that it puts, and the state. *)
Definition puts_well (l : list (Z * option (list Z))) (a : nat) (n : Z) (w : nvworld) (r : Z) (w' : nvworld) : Prop :=
  puts (sick w) (value w) l r (value w') /\
  (exists d, zlen d = n /\ same_objects (with_blocks (<[a := Some d]> (nv_blocks w)) w) w') /\
  (healthy (nv_below w) -> healthy (nv_below w') /\ r = IOT_ERROR_NONE).
(** The block, and other blocks with known contents. *)
Definition block_of (a : nat) (n : Z) (ks : list (nat * list Z)) (w : nvworld) : Prop :=
  (exists d, live (nv_blocks w) a = Some d /\ zlen d = n) /\ Forall (fun k => k.1 <> a /\ live (nv_blocks w) k.1 = Some k.2) ks.

Lemma puts_app S m l k r m1 m2 : puts S m l IOT_ERROR_NONE m1 -> puts S m1 k r m2 -> puts S m (l ++ k) r m2.
Proof.
  remember IOT_ERROR_NONE as r0 eqn:E. intros H1. induction H1; intros H2; cbn [app]; [done| |done].
  eapply puts_more; [done|auto].
Qed.
Lemma puts_app_stop S m l k r m1 : puts S m l r m1 -> r <> IOT_ERROR_NONE -> puts S m (l ++ k) r m1.
Proof. intros H1. induction H1; intros Hr; cbn [app]; [done|eapply puts_more; eauto|by apply puts_stop]. Qed.

Lemma block_after w w' a d : same_objects (with_blocks (<[a := Some d]> (nv_blocks w)) w) w' -> live (nv_blocks w') a = Some d.
Proof. intros []. wcbn. by rewrite so_blocks, live_insert, decide_True. Qed.

Lemma block_of_after a n ks w w' d : block_of a n ks w -> zlen d = n ->
  same_objects (with_blocks (<[a := Some d]> (nv_blocks w)) w) w' -> block_of a n ks w'.
Proof.
  intros [_ Hks] Hd Hs. split; [exists d; split; [by eapply block_after|done]|]. destruct Hs. wcbn.
  eapply Forall_impl; [exact Hks|]. intros [q e] [Hq He]. split; [done|]. rewrite so_blocks, live_insert, decide_False; done.
Qed.

Lemma same_objects_block w w1 w2 a d d' :
  same_objects (with_blocks (<[a := Some d]> (nv_blocks w)) w) w1 ->
  same_objects (with_blocks (<[a := Some d']> (nv_blocks w1)) w1) w2 ->
  same_objects (with_blocks (<[a := Some d']> (nv_blocks w)) w) w2.
Proof.
  intros [] []. wcbn. split; wcbn; (by etrans) || (by congruence) || idtac.
  intros b. rewrite so_blocks0, !live_insert. case_decide; [done|]. rewrite so_blocks, live_insert. by rewrite decide_False.
Qed.

(** One writer after the other. *)
Lemma then_do_puts m k l1 l2 a n ks w :
  (forall w, block_of a n ks w -> gives m w (puts_well l1 a n w)) -> (forall w, block_of a n ks w -> gives k w (puts_well l2 a n w)) ->
  block_of a n ks w -> gives (then_do m k) w (puts_well (l1 ++ l2) a n w).
Proof.
  intros Hm Hk Hb. unfold then_do. apply gives_bind. eapply gives_mono; [by apply Hm|].
  intros r w1 (HP & (d & Hd & Hs) & Hh). destruct (failed r) eqn:Hr.
  - apply failed_true in Hr. apply gives_ret. split; [by apply puts_app_stop|]. split; [by exists d|done].
  - apply failed_false in Hr. subst r. eapply gives_mono; [apply Hk; by eapply block_of_after|].
    intros r w2 (HP2 & (d2 & Hd2 & Hs2) & Hh2). split; [eapply puts_app; [done|]; eapply puts_mono; [|done]; intros Hn Hw; by apply Hn, Hh|].
    split; [exists d2; split; [done|by eapply same_objects_block]|]. intros Hw. by apply Hh2, Hh.
Qed.

(** ** The writers *)

Lemma string_in_prefix d s : string_in d = Some s -> exists k, d = s ++ 0 :: k.
Proof.
  revert s. induction d as [|c d IH]; intros s; [done|]. cbn [string_in]. destruct (Z.eqb_spec c 0) as [->|Hc].
  - intros [= <-]. by exists d.
  - destruct (string_in d) as [t|]; [|done]. intros [= <-]. destruct (IH t eq_refl) as [k ->]. by exists k.
Qed.

Lemma same_objects_id w a d : live (nv_blocks w) a = Some d -> same_objects (with_blocks (<[a := Some d]> (nv_blocks w)) w) w.
Proof. intros Ha. split; wcbn; try done. live_cases. Qed.

Lemma put_run id b r w w' : nv_id id -> store_result id b r (nv_below w) (nv_below w') ->
  (r = IOT_ERROR_NONE \/ r = IOT_ERROR_NV_DATA_ERROR) -> put (sick w) (value w) id (Some b) r (value w').
Proof.
  intros Hid (Ho & _ & Hw) Hr. apply only_file_agrees in Ho; [|done].
  destruct Hr as [->| ->]; [apply put_written; [by apply Hw|done]|by apply put_failed].
Qed.

Lemma puts_one S m id b r m' : put S m id b r m' -> puts S m [(id, b)] r m'.
Proof.
  intros HP. destruct (decide (r = IOT_ERROR_NONE)) as [->|Hr]; [|by apply puts_stop].
  eapply puts_more; [done|apply puts_none].
Qed.

Lemma write_block_runs id q data len w : nv_id id -> live (nv_blocks w) q = Some data -> 0 < len <= zlen data -> len < 4294967296 ->
  gives (write_block id (Some q) len) w (fun r w' => put (sick w) (value w) id (Some (take (Z.to_nat len) data)) r (value w') /\
    same_objects w w' /\ (healthy (nv_below w) -> healthy (nv_below w') /\ r = IOT_ERROR_NONE)).
Proof.
  intros Hid Hq Hl Hm. unfold write_block, write_from. apply gives_bind, gives_bind. eapply gives_get; [done|].
  unfold _iot_nv_write_data. apply gives_bind. eapply gives_mono; [by apply nv_write_runs|].
  intros [[err d] n] w' (_ & _ & He & HS & Hs). cbn [fst snd] in *. apply gives_ret, gives_ret.
  assert ((if failed err then IOT_ERROR_NV_DATA_ERROR else IOT_ERROR_NONE) = err) as -> by by destruct He as [->| ->].
  split; [by apply put_run|]. split; [done|]. apply HS.
Qed.

(** Bytes that are copied to the block first. *)
Lemma write_field_runs id a n l ks w : nv_id id -> 0 < zlen l -> zlen l + 1 <= n -> n < 4294967296 -> block_of a n ks w ->
  gives (write_field id (Some a) l) w (puts_well [(id, Some l)] a n w).
Proof.
  intros Hid Hl Hn Hm [(d & Hd & Hz) _]. unfold write_field.
  apply gives_bind. eapply gives_store_bytes; [done|done|lia|]. wcbn.
  assert (zlen (overwrite d 0 l) = n) as Ho by (rewrite overwrite_length; lia).
  apply gives_bind. eapply gives_store_bytes; [wcbn; by rewrite live_insert, decide_True|lia|rewrite zlen_cons, zlen_nil; lia|]. wcbn.
  assert (zlen (overwrite (overwrite d 0 l) (zlen l) [0]) = n) as Ho2 by (rewrite overwrite_length; rewrite ?zlen_cons, ?zlen_nil; lia).
  eapply gives_mono; [apply write_block_runs; [done|wcbn; by rewrite live_insert, decide_True|lia|lia]|].
  intros r w' (HP & Hs & Hh). unfold value in *. wcbn.
  assert (take (Z.to_nat (zlen l)) (overwrite (overwrite d 0 l) (zlen l) [0]) = l) as El.
  { replace (Z.to_nat (zlen l)) with (length l) by (unfold zlen; lia). unfold overwrite at 1.
    replace (Z.to_nat (zlen l)) with (length l) by (unfold zlen; lia).
    assert (take (length l) (overwrite d 0 l) = l) as -> by (unfold overwrite; by rewrite take_0, app_nil_l, take_app_length).
    by rewrite take_app_length. }
  rewrite El in HP. split; [by apply puts_one|]. split; [|done].
  eexists. split; [exact Ho2|]. etrans; [|exact Hs]. split; wcbn; try done. intros b. rewrite !live_insert. by repeat case_decide.
Qed.

Lemma erase_runs id w : nv_id id ->
  gives (iot_nv_erase id) w (fun _ w' => put (sick w) (value w) id None IOT_ERROR_NONE (value w') /\ same_objects w w' /\
    (healthy (nv_below w) -> healthy (nv_below w'))).
Proof.
  intros Hid. unfold iot_nv_erase. assert (0 < id < 12) as Hr by apply Hid. unfold IOT_NVD_MAX.
  rewrite (proj2 (Z.ltb_ge id 0)), (proj2 (Z.leb_gt 18 id)) by lia. cbn [orb].
  unfold _iot_nv_remove_data. apply gives_bind, gives_bind. eapply gives_mono; [by apply nv_remove_runs|].
  intros [[err d] n] w' (_ & _ & He & Ho & Hh & _ & Hv & Hs & Hk). cbn [fst snd] in *. apply gives_ret, gives_ret.
  apply only_file_agrees in Ho; [|done]. split; [|split; [done|intros Hw; by apply Hh]].
  destruct (decide (err = IOT_ERROR_NV_DATA_ERROR)) as [->|Hne]; [apply put_not_erased; [intros Hw; by destruct (Hh Hw)|auto|done]|apply put_erased; auto].
Qed.

Lemma erase_puts id a n ks w : nv_id id -> block_of a n ks w ->
  gives (_ ← iot_nv_erase id; mret IOT_ERROR_NONE) w (puts_well [(id, None)] a n w).
Proof.
  intros Hid [(d & Hd & Hz) _]. apply gives_bind. eapply gives_mono; [by apply erase_runs|].
  intros _ w' (HP & Hs & Hh). apply gives_ret. split; [by apply puts_one|]. split; [|auto].
  exists d. split; [done|]. etrans; [|exact Hs]. by apply same_objects_id.
Qed.

(** An array of [size + 1] bytes. *)
Definition array_piece (field : list Z) (size : Z) : option (list Z) :=
  match field with 0 :: _ => None | _ => Some (take (Z.to_nat size) field) end.
Lemma write_array_puts id a n ks field size w : nv_id id -> 0 < size -> zlen field = size + 1 -> size + 1 <= n -> n < 4294967296 ->
  block_of a n ks w -> gives (write_array id (Some a) field size) w (puts_well [(id, array_piece field size)] a n w).
Proof.
  intros Hid Hs Hf Hn Hm Hb. unfold write_array. destruct field as [|c field]; [unfold zlen in Hf; simpl in Hf; lia|].
  apply gives_bind. eapply gives_need; [done|]. destruct (Z.eqb_spec c 0) as [->|Hc]; [by eapply erase_puts|].
  apply gives_bind, gives_bytes_at; [done|lia|lia|]. change (Z.to_nat 0) with 0%nat. rewrite drop_0.
  assert (array_piece (c :: field) size = Some (take (Z.to_nat size) (c :: field))) as -> by (unfold array_piece; by destruct c).
  assert (zlen (take (Z.to_nat size) (c :: field)) = size) by (unfold zlen in *; rewrite length_take; lia).
  eapply write_field_runs; try done; lia.
Qed.

(** A string in another block. *)
Lemma write_string_puts id a n ks p s w : nv_id id -> block_of a n ks w ->
  match p, s with
  | None, None => True
  | Some q, Some s => exists d, (q, d) ∈ ks /\ string_in d = Some s /\ 0 < zlen s < 4294967296
  | _, _ => False
  end ->
  gives (write_string id p) w (puts_well [(id, s)] a n w).
Proof.
  intros Hid Hb Hp. unfold write_string. destruct p as [q|], s as [s|]; try done; [|by eapply erase_puts].
  destruct Hp as (d & Hk & Hd & Hs). destruct Hb as [(da & Ha & Hz) Hks].
  pose proof (proj1 (Forall_forall _ _) Hks (q, d) Hk) as [Hne Hq]. cbn [fst snd] in *.
  unfold load_string. apply gives_bind, gives_bind. eapply gives_get; [done|]. eapply gives_need; [done|].
  destruct (string_in_prefix d s Hd) as (k & ->).
  eapply gives_mono; [eapply write_block_runs; [done|done|rewrite zlen_app, zlen_cons; pose proof (zlen_nonneg k); lia|lia]|].
  intros r w' (HP & Hs' & Hh). replace (Z.to_nat (zlen s)) with (length s) in HP by (unfold zlen; lia). rewrite take_app_length in HP.
  split; [by apply puts_one|]. split; [|done]. exists da. split; [done|]. etrans; [|exact Hs']. by apply same_objects_id.
Qed.

(** ** Numbers as text *)

Lemma digits_length fuel n : 0 < zlen (digits (S fuel) n) <= Z.of_nat (S fuel).
Proof.
  revert n. induction fuel as [|fuel IH]; intros n.
  - cbn [digits]. case_if; [done|]. rewrite zlen_app. done.
  - remember (S fuel) as k. cbn [digits]. case_if; [change (zlen [48 + n]) with 1; lia|].
    rewrite zlen_app. change (zlen [48 + n mod 10]) with 1. specialize (IH (n / 10)). subst k. lia.
Qed.
Lemma number_text_length n : 0 < zlen (number_text n) <= 11.
Proof.
  unfold number_text. case_if; rewrite ?zlen_cons; [pose proof (digits_length 9 (- n))|pose proof (digits_length 9 n)]; lia.
Qed.

Lemma write_number_puts id a n ks v w : nv_id id -> 12 <= n < 4294967296 -> block_of a n ks w ->
  gives (write_number id (Some a) v) w (puts_well [(id, Some (number_text v))] a n w).
Proof. intros Hid Hn Hb. pose proof (number_text_length v). eapply write_field_runs; [done|lia|lia|lia|done]. Qed.

Lemma write_status_puts id a n ks s w : nv_id id -> 0 < zlen (lit s) -> zlen (lit s) + 1 <= n -> n < 4294967296 -> block_of a n ks w ->
  gives (write_status id (Some a) s) w (puts_well [(id, Some (lit s))] a n w).
Proof. intros Hid Hs Hn Hm Hb. by eapply write_field_runs. Qed.

(** ** The writers of provisioning data *)

Definition wifi_ok (w : iot_wifi_prov_data) : Prop :=
  zlen (ssid w) = 33 /\ zlen (password w) = 65 /\ zlen (mac_str w) = 18 /\ zlen (bssid w) = 6.
Definition auth_piece (t : Z) : option (list Z) :=
  if (t <? IOT_WIFI_AUTH_OPEN) || (IOT_WIFI_AUTH_MAX <? t) then None else Some (number_text t).
Definition wifi_pieces (w : iot_wifi_prov_data) : list (Z * option (list Z)) :=
  [(IOT_NVD_WIFI_PROV_STATUS, Some (lit "NONE"));
   (IOT_NVD_AP_SSID, array_piece (ssid w) IOT_WIFI_PROV_SSID_STR_LEN);
   (IOT_NVD_AP_PASS, array_piece (password w) IOT_WIFI_PROV_PASSWORD_STR_LEN);
   (IOT_NVD_AP_BSSID, array_piece (mac_str w) IOT_WIFI_PROV_MAC_STR_LEN);
   (IOT_NVD_AP_AUTH_TYPE, auth_piece (security_type w));
   (IOT_NVD_WIFI_PROV_STATUS, Some (lit "DONE"))].

(** A block is made, used and freed; [f] is what is made of the result. *)
Lemma with_block_runs {A B} (f : A -> B) n none (use : option nat -> N A) (k : option nat -> A -> N B) (Q : B -> nvworld -> Prop) w :
  0 <= n -> (forall p r, k p r = (iot_os_free p;; mret (f r))) ->
  (forall w', ~ healthy (nv_below w) -> quiet (nv_below w) (nv_below w') -> same_objects w w' -> Q none w') ->
  (forall e a l, quiet (nv_below w) e -> zlen l = n -> live (nv_blocks w) a = None ->
     gives (use (Some a)) (with_blocks (<[a := Some l]> (nv_blocks w)) (set_below e w)) (fun r w1 =>
       exists d, live (nv_blocks w1) a = Some d /\ (forall w', w' = with_blocks (<[a := None]> (nv_blocks w1)) w1 -> Q (f r) w'))) ->
  gives (data ← iot_os_malloc n; match data with None => mret none | Some _ => use data ≫= k data end) w Q.
Proof.
  intros Hn Hk H1 H2. apply gives_bind, gives_malloc; [done|..].
  - intros e Hq Hw. apply gives_ret. apply H1; [done|done|by split].
  - intros e a l Hq Hl Ha. apply gives_bind. eapply gives_mono; [by apply H2|]. intros r w1 (d & Hs & HQ).
    rewrite Hk. apply gives_bind. eapply gives_release; [done|]. by apply gives_ret, HQ.
Qed.

(** What is there after the block is freed. *)
Lemma freed_block w w1 a d : live (nv_blocks w) a = None -> same_objects (with_blocks (<[a := Some d]> (nv_blocks w)) w) w1 ->
  same_objects w (with_blocks (<[a := None]> (nv_blocks w1)) w1).
Proof.
  intros Ha []. wcbn. split; wcbn; try done. intros b. rewrite live_insert. case_decide; [by subst|].
  rewrite so_blocks, live_insert. by rewrite decide_False.
Qed.

Lemma wifi_writers_put a ks prov w : wifi_ok prov -> block_of a WIFI_DATA_SIZE ks w ->
  gives (then_do (write_status IOT_NVD_WIFI_PROV_STATUS (Some a) "NONE") (
         then_do (write_array IOT_NVD_AP_SSID (Some a) (ssid prov) IOT_WIFI_PROV_SSID_STR_LEN) (
         then_do (write_array IOT_NVD_AP_PASS (Some a) (password prov) IOT_WIFI_PROV_PASSWORD_STR_LEN) (
         then_do (write_array IOT_NVD_AP_BSSID (Some a) (mac_str prov) IOT_WIFI_PROV_MAC_STR_LEN) (
         then_do (if (security_type prov <? IOT_WIFI_AUTH_OPEN) || (IOT_WIFI_AUTH_MAX <? security_type prov)
                  then _ ← iot_nv_erase IOT_NVD_AP_AUTH_TYPE; mret IOT_ERROR_NONE
                  else write_number IOT_NVD_AP_AUTH_TYPE (Some a) (security_type prov)) (
         write_status IOT_NVD_WIFI_PROV_STATUS (Some a) "DONE"))))))
    w (puts_well (wifi_pieces prov) a WIFI_DATA_SIZE w).
Proof.
  intros (H1 & H2 & H3 & H4) Hb. unfold wifi_pieces.
  change [_; _; _; _; _; _] with ([(IOT_NVD_WIFI_PROV_STATUS, Some (lit "NONE"))] ++
    ([(IOT_NVD_AP_SSID, array_piece (ssid prov) IOT_WIFI_PROV_SSID_STR_LEN)] ++
    ([(IOT_NVD_AP_PASS, array_piece (password prov) IOT_WIFI_PROV_PASSWORD_STR_LEN)] ++
    ([(IOT_NVD_AP_BSSID, array_piece (mac_str prov) IOT_WIFI_PROV_MAC_STR_LEN)] ++
    ([(IOT_NVD_AP_AUTH_TYPE, auth_piece (security_type prov))] ++ [(IOT_NVD_WIFI_PROV_STATUS, Some (lit "DONE"))]))))).
  eapply then_do_puts; [intros; by eapply write_status_puts| |done]. clear w Hb. intros w Hb.
  eapply then_do_puts; [intros; by eapply write_array_puts| |done]. clear w Hb. intros w Hb.
  eapply then_do_puts; [intros; by eapply write_array_puts| |done]. clear w Hb. intros w Hb.
  eapply then_do_puts; [intros; by eapply write_array_puts| |done]. clear w Hb. intros w Hb.
  eapply then_do_puts; [intros w' Hb'| |done].
  - unfold auth_piece. case_if; [by eapply erase_puts|]. by eapply write_number_puts.
  - intros; by eapply write_status_puts.
Qed.

Lemma same_value w w' : files (nv_below w') = files (nv_below w) -> value w' = value w.
Proof. unfold value. by intros ->. Qed.

Lemma set_wifi_runs prov w : wifi_ok prov ->
  gives (iot_nv_set_wifi_prov_data (Some prov)) w (fun r w' =>
    puts (sick w) (value w) (wifi_pieces prov) r (value w') /\ same_objects w w' /\
    (healthy (nv_below w) -> healthy (nv_below w') /\ r = IOT_ERROR_NONE)).
Proof.
  intros Hok. unfold iot_nv_set_wifi_prov_data. apply (with_block_runs (fun r => r)); [done|done|..].
  - intros w' Hn [Hf _] Hs. split; [|done]. rewrite (same_value w w') by done. apply puts_stop; [|done]. by apply put_failed.
  - intros e a l (Hf & _ & Hh) Hl Ha. set (w1 := with_blocks _ _).
    eapply gives_mono; [apply (wifi_writers_put a [] prov w1 Hok)|].
    + split; [|done]. exists l. split; [|done]. unfold w1. wcbn. by rewrite live_insert, decide_True.
    + intros r w2 (HP & (d & Hd & Hs) & Hh2). exists d. split; [by eapply block_after|]. intros w' ->. wcbn.
      change (value (with_blocks _ w2)) with (value w2). rewrite <- (same_value w w1) by done.
      split; [eapply puts_mono; [|exact HP]; intros Hn Hw; apply Hn; unfold w1; wcbn; auto|]. split.
      * eapply (freed_block w w2 a d Ha). etrans; [|exact Hs]. unfold w1. split; wcbn; try done. live_cases.
      * intros Hw. apply Hh2. unfold w1. wcbn. auto.
Qed.

(** A pointer to a string that is not empty, or null. *)
Definition points_to (w : nvworld) (p : option nat) (s : option (list Z)) : Prop :=
  match p, s with
  | None, None => True
  | Some q, Some s => exists d, live (nv_blocks w) q = Some d /\ string_in d = Some s /\ 0 < zlen s < 4294967296
  | _, _ => False
  end.
Definition cloud_pieces (url : option (list Z)) (port : Z) (lbl : option (list Z)) : list (Z * option (list Z)) :=
  [(IOT_NVD_CLOUD_PROV_STATUS, Some (lit "NONE"));
   (IOT_NVD_SERVER_URL, url);
   (IOT_NVD_SERVER_PORT, Some (number_text port));
   (IOT_NVD_LABEL, lbl);
   (IOT_NVD_CLOUD_PROV_STATUS, Some (lit "DONE"))].

(** The blocks of a pointer. *)
Definition known (w : nvworld) (p : option nat) : list (nat * list Z) :=
  match p with Some q => match live (nv_blocks w) q with Some d => [(q, d)] | None => [] end | None => [] end.
Lemma known_points w p s ks : points_to w p s -> known w p ⊆ ks ->
  match p, s with
  | None, None => True
  | Some q, Some s => exists d, (q, d) ∈ ks /\ string_in d = Some s /\ 0 < zlen s < 4294967296
  | _, _ => False
  end.
Proof.
  destruct p as [q|], s as [s|]; try done. intros (d & Hq & Hd) Hks. exists d. split; [|done]. apply Hks. cbn. rewrite Hq. by left.
Qed.
Lemma known_live w p a l : live (nv_blocks w) a = None ->
  Forall (fun k => k.1 <> a /\ live (<[a := Some l]> (nv_blocks w)) k.1 = Some k.2) (known w p).
Proof.
  intros Ha. destruct p as [q|]; cbn; [|done]. destruct (live (nv_blocks w) q) as [d|] eqn:E; [|done].
  constructor; [|done]. cbn. assert (q <> a) as Hne by congruence. split; [done|]. by rewrite live_insert, decide_False.
Qed.

Lemma cloud_writers_put a ks c url lbl w0 w : points_to w0 (broker_url c) url -> points_to w0 (label c) lbl ->
  known w0 (broker_url c) ⊆ ks -> known w0 (label c) ⊆ ks -> block_of a CLOUD_DATA_SIZE ks w ->
  gives (then_do (write_status IOT_NVD_CLOUD_PROV_STATUS (Some a) "NONE") (
         then_do (write_string IOT_NVD_SERVER_URL (broker_url c)) (
         then_do (write_number IOT_NVD_SERVER_PORT (Some a) (broker_port c)) (
         then_do (write_string IOT_NVD_LABEL (label c)) (
         write_status IOT_NVD_CLOUD_PROV_STATUS (Some a) "DONE")))))
    w (puts_well (cloud_pieces url (broker_port c) lbl) a CLOUD_DATA_SIZE w).
Proof.
  intros Hu Hl Ku Kl Hb. unfold cloud_pieces. pose proof (known_points _ _ _ _ Hu Ku). pose proof (known_points _ _ _ _ Hl Kl).
  change [_; _; _; _; _] with ([(IOT_NVD_CLOUD_PROV_STATUS, Some (lit "NONE"))] ++ ([(IOT_NVD_SERVER_URL, url)] ++
    ([(IOT_NVD_SERVER_PORT, Some (number_text (broker_port c)))] ++ ([(IOT_NVD_LABEL, lbl)] ++
    [(IOT_NVD_CLOUD_PROV_STATUS, Some (lit "DONE"))])))).
  eapply then_do_puts; [intros; by eapply write_status_puts| |done]. clear w Hb. intros w Hb.
  eapply then_do_puts; [intros; by eapply write_string_puts| |done]. clear w Hb. intros w Hb.
  eapply then_do_puts; [intros; by eapply write_number_puts| |done]. clear w Hb. intros w Hb.
  eapply then_do_puts; [intros; by eapply write_string_puts| |done]. intros; by eapply write_status_puts.
Qed.

Lemma set_cloud_runs c url lbl w : points_to w (broker_url c) url -> points_to w (label c) lbl ->
  gives (iot_nv_set_cloud_prov_data (Some c)) w (fun r w' =>
    puts (sick w) (value w) (cloud_pieces url (broker_port c) lbl) r (value w') /\ same_objects w w' /\
    (healthy (nv_below w) -> healthy (nv_below w') /\ r = IOT_ERROR_NONE)).
Proof.
  intros Hu Hlb. unfold iot_nv_set_cloud_prov_data. apply (with_block_runs (fun r => r)); [done|done|..].
  - intros w' Hn [Hf _] Hs. split; [|done]. rewrite (same_value w w') by done. apply puts_stop; [|done]. by apply put_failed.
  - intros e a l (Hf & _ & Hh) Hl Ha. set (w1 := with_blocks _ _).
    eapply gives_mono; [apply (cloud_writers_put a (known w (broker_url c) ++ known w (label c)) c url lbl w w1 Hu Hlb)|].
    + by apply list_subseteq_app_l.
    + by apply list_subseteq_app_r.
    + split; [exists l; split; [unfold w1; wcbn; by rewrite live_insert, decide_True|done]|].
      apply Forall_app. split; by apply known_live.
    + intros r w2 (HP & (d & Hd & Hs) & Hh2). exists d. split; [by eapply block_after|]. intros w' ->. wcbn.
      change (value (with_blocks _ w2)) with (value w2). rewrite <- (same_value w w1) by done.
      split; [eapply puts_mono; [|exact HP]; intros Hn Hw; apply Hn; unfold w1; wcbn; auto|]. split.
      * eapply (freed_block w w2 a d Ha). etrans; [|exact Hs]. unfold w1. split; wcbn; try done. live_cases.
      * intros Hw. apply Hh2. unfold w1. wcbn. auto.
Qed.
End puts.
