(* ===== verification/NvGet.v ===== *)
(** * Non-volatile data: reading provisioning data

    What [iot_nv_get_wifi_prov_data] makes of the pieces in the map. *)

From S2P Require Import Prelude Platform UtilQueue Util UtilUrl Heap MqttPacket NvBase NvStore NvData NvSpec NvMap NvPuts.

(** ** Strings *)

(** The bytes in front of the first 0. *)
Fixpoint cstr (l : list Z) : list Z := match l with c :: l => if c =? 0 then [] else c :: cstr l | [] => [] end.

Lemma string_in_app l k : string_in (cstr l ++ 0 :: k) = Some (cstr l).
Proof. induction l as [|c l IH]; cbn; [done|]. destruct (Z.eqb_spec c 0) as [->|Hc]; cbn; [done|]. by rewrite (proj2 (Z.eqb_neq c 0)), IH. Qed.
Lemma string_in_zero l k : string_in (l ++ 0 :: k) = Some (cstr l).
Proof. induction l as [|c l IH]; cbn; [done|]. case_if; [done|]. by rewrite IH. Qed.
Lemma string_in_elem l : 0 ∈ l -> string_in l = Some (cstr l).
Proof. intros (l1 & l2 & ->)%list_elem_of_split. rewrite string_in_zero. f_equal. induction l1; cbn; [done|]. case_if; [done|by f_equal]. Qed.
Lemma string_in_cstr l s : string_in l = Some s -> cstr l = s.
Proof.
  revert s. induction l as [|c l IH]; intros s; cbn; [done|]. case_if; [by intros [= <-]|].
  destruct (string_in l) as [t|]; [|done]. intros [= <-]. f_equal. auto.
Qed.
Lemma cstr_nonzero l : Forall (fun c => c <> 0) (cstr l).
Proof. induction l as [|c l IH]; cbn; [done|]. destruct (Z.eqb_spec c 0); by constructor. Qed.
Lemma cstr_id l : Forall (fun c => c <> 0) l -> cstr l = l.
Proof. induction 1 as [|c l Hc _ IH]; cbn; [done|]. rewrite (proj2 (Z.eqb_neq c 0)) by done. by f_equal. Qed.
Lemma cstr_take n l : (length (cstr l) <= n)%nat -> cstr (take n l) = cstr l.
Proof.
  revert n. induction l as [|c l IH]; intros n; [by rewrite take_nil|]. cbn. case_if; intros Hn.
  - destruct n; cbn; [done|]. by rewrite E.
  - destruct n; cbn in *; [lia|]. rewrite E. f_equal. apply IH. lia.
Qed.
Lemma cstr_length l : (length (cstr l) <= length l)%nat.
Proof. induction l as [|c l IH]; cbn; [done|]. case_if; cbn; lia. Qed.
Lemma string_in_short s k : Forall (fun c => c <> 0) s -> string_in (s ++ 0 :: k) = Some s.
Proof. intros Hs. rewrite string_in_zero. by rewrite cstr_id. Qed.

Section get.
Context `{CharModel} `{NC : NvConfig} `{NL : NvLaws}.
#[local] Set Default Proof Using "Type*".
Abbreviation N := (st nvworld).

(** ** Reading into a block *)

(** Nothing but the contents of the block [a] has changed; or there are more
    blocks, too. *)
Definition but_block (a : nat) (w w' : nvworld) : Prop := exists d, same_objects (with_blocks (<[a := Some d]> (nv_blocks w)) w) w'.
Definition more_but (a : nat) (w w' : nvworld) : Prop := exists d, more_objects (with_blocks (<[a := Some d]> (nv_blocks w)) w) w'.

Lemma but_more a w w' : but_block a w w' -> more_but a w w'.
Proof. intros [d Hd]. exists d. by apply same_more. Qed.
Lemma but_block_refl a n ks w : block_of a n ks w -> but_block a w w.
Proof. intros [(d & Hd & _) _]. exists d. by apply same_objects_id. Qed.
Lemma but_block_trans a w w1 w2 : but_block a w w1 -> but_block a w1 w2 -> but_block a w w2.
Proof. intros [d Hd] [d' Hd']. exists d'. by eapply same_objects_block. Qed.
Lemma more_but_trans a w w1 w2 : but_block a w w1 -> more_but a w1 w2 -> more_but a w w2.
Proof.
  intros [d []] [d' [[] Hm]]. exists d'. wcbn. split; [split; wcbn; (by etrans) || (by congruence) || done|].
  wcbn. intros b l Hb. apply Hm. rewrite live_insert in Hb |- *. case_decide; [done|].
  rewrite so_blocks, live_insert. by rewrite decide_False.
Qed.

Lemma read_into_runs id a n w : nv_id id -> 0 < n -> forall l, live (nv_blocks w) a = Some l -> zlen l = n ->
  gives (read_into id (Some a) n) w (fun r w' => exists d, read_outcome (value w id) l n r.1 d r.2 /\
    live (nv_blocks w') a = Some d /\ zlen d = n /\ files (nv_below w') = files (nv_below w) /\
    (healthy (nv_below w) -> healthy (nv_below w') /\ r.1 <> IOT_ERROR_NV_DATA_ERROR) /\
    more_but a w w' /\ (r.1 <> IOT_ERROR_NV_DATA_ERROR -> but_block a w w')).
Proof.
  intros Hid Hn l Hl Hz. unfold read_into. apply gives_bind. eapply gives_get; [done|].
  apply gives_bind. eapply gives_mono; [apply nv_read_runs; [done|lia]|].
  intros [[err dd] k] w1 (d & Hd & Hf & Hh & HR & [Hm1 Hm2] & Hs). cbn [fst snd] in *. subst dd.
  apply gives_bind. eapply gives_update; [by apply Hm2|]. apply gives_ret. wcbn.
  assert (zlen d = n) as Hzd.
  { destruct HR as [c Hc Hle|Hc|c Hc Hlt|]; try done. unfold read_buffer. pose proof (zlen_nonneg (loaded c)).
    assert (zlen (overwrite l 0 (loaded c)) = n) as Ho by (rewrite overwrite_length; lia).
    destruct (Z.ltb_spec (zlen (loaded c)) n); [|done]. rewrite overwrite_length; rewrite ?zlen_cons, ?zlen_nil; lia. }
  exists d. split; [done|]. split; [by rewrite live_insert, decide_True|]. split; [done|]. split; [done|]. split; [done|]. split.
  - exists d. destruct Hm1. split; [split; wcbn; done|]. wcbn. intros b x Hb. rewrite live_insert in Hb |- *. case_decide; [done|auto].
  - intros He. destruct (Hs He). exists d. split; wcbn; try done. by apply live_eq_insert.
Qed.

(** ** Steps of a reader *)

(** What a step gives: when all is well [P] holds; it is well when nothing
    below fails and the pieces fit. *)
Definition reading {A} (a : nat) (n : Z) (w : nvworld) (fits : Prop) (P : A -> Prop) (r : Z * A) (w' : nvworld) : Prop :=
  block_of a n [] w' /\ files (nv_below w') = files (nv_below w) /\ (healthy (nv_below w) -> healthy (nv_below w')) /\
  more_but a w w' /\ (r.1 = IOT_ERROR_NONE -> P r.2 /\ but_block a w w') /\
  (healthy (nv_below w) -> fits -> r.1 = IOT_ERROR_NONE).

Lemma next_runs {A} a n w (fits1 fits2 : Prop) (P1 P2 : A -> Prop) (m : N (Z * A)) k :
  gives m w (reading a n w fits1 P1) ->
  (forall x w1, block_of a n [] w1 -> value w1 = value w -> P1 x -> gives (k x) w1 (reading a n w1 fits2 P2)) ->
  gives (next m k) w (reading a n w (fits1 /\ fits2) P2).
Proof.
  intros Hm Hk. unfold next. apply gives_bind. eapply gives_mono; [exact Hm|].
  intros [r x] w1 (Hb & Hf & Hh & Hmo & Hok & Hfit). cbn [fst snd] in *. destruct (failed r) eqn:Hr.
  - apply gives_ret. apply failed_true in Hr. split; [done|]. split; [done|]. split; [done|]. split; [done|]. split; [done|].
    intros Hw [F1 F2]. auto.
  - apply failed_false in Hr. subst r. destruct (Hok eq_refl) as [HP Hbut].
    eapply gives_mono; [apply Hk; [done|by apply same_value|done]|].
    intros r w2 (Hb2 & Hf2 & Hh2 & Hm2 & Hok2 & Hfit2). split; [done|]. split; [congruence|]. split; [auto|].
    split; [by eapply more_but_trans|]. split; [|intros Hw [F1 F2]; auto].
    intros Hr. destruct (Hok2 Hr) as [HP2 Hbut2]. split; [done|]. by eapply but_block_trans.
Qed.

(** The string in the block after a read. *)
Definition text_of (c : list Z) : list Z := cstr (loaded c).
(** The bytes fit into [n] bytes and there is a 0, which is not read when they
    fill the block. *)
Definition fits (n : Z) (v : option (list Z)) : Prop := forall c, v = Some c -> zlen (loaded c) <= n.
Definition terminated (n : Z) (v : option (list Z)) : Prop := forall c, v = Some c -> zlen (loaded c) <> n \/ 0 ∈ loaded c.

Lemma read_buffer_string l c n : zlen l = n -> zlen (loaded c) <= n -> (zlen (loaded c) <> n \/ 0 ∈ loaded c) ->
  string_in (read_buffer l (loaded c) n) = Some (text_of c).
Proof.
  intros Hl Hc Ht. unfold read_buffer. pose proof (zlen_nonneg (loaded c)).
  destruct (Z.ltb_spec (zlen (loaded c)) n).
  - assert (take (length (loaded c)) (overwrite l 0 (loaded c)) = loaded c) as E
      by (unfold overwrite; by rewrite take_0, app_nil_l, take_app_length).
    unfold overwrite at 1. replace (Z.to_nat (zlen (loaded c))) with (length (loaded c)) by (unfold zlen; lia).
    rewrite E. apply string_in_zero.
  - assert (overwrite l 0 (loaded c) = loaded c) as ->.
    { unfold overwrite. rewrite take_0, app_nil_l, drop_ge, app_nil_r; [done|]. unfold zlen in *. lia. }
    apply string_in_elem. destruct Ht; [lia|done].
Qed.

(** One piece, when what is made of it does not change the state. *)
Lemma piece_runs {A} id a n x (found : Z -> A -> N (Z * A)) none (P : A -> Prop) w : nv_id id -> 0 < n -> block_of a n [] w ->
  (value w id = None -> P (none x)) ->
  (forall c l w', value w id = Some c -> zlen (loaded c) <= n -> zlen l = n -> live (nv_blocks w') a = Some (read_buffer l (loaded c) n) ->
     gives (found (zlen (loaded c)) x) w' (fun r w1 => r.1 = IOT_ERROR_NONE /\ P r.2 /\ w1 = w')) ->
  gives (piece id (Some a) n x found none) w (reading a n w (fits n (value w id)) P).
Proof.
  intros Hid Hn [(l & Hl & Hz) _] Hno Hyes. unfold piece. apply gives_bind. eapply gives_mono; [by eapply read_into_runs|].
  intros [err k] w1 (d & HR & Hd & Hzd & Hf & Hh & Hmo & Hbut). cbn [fst snd] in *.
  assert (block_of a n [] w1) as Hb by (split; [by exists d|done]).
  destruct HR as [c Hc Hle|Hc|c Hc Hlt|].
  - rewrite Z.eqb_refl. eapply gives_mono; [by eapply (Hyes c l w1)|].
    intros r w2 (Hr & HP & ->). split; [done|]. split; [done|]. split; [intros Hw; by apply Hh|]. split; [done|].
    split; [intros _; split; [done|by apply Hbut]|done].
  - apply gives_ret. split; [done|]. split; [done|]. split; [intros Hw; by apply Hh|]. split; [done|].
    split; [intros _; split; [by apply Hno|by apply Hbut]|done].
  - apply gives_ret. split; [done|]. split; [done|]. split; [intros Hw; by apply Hh|]. split; [done|]. split; [done|].
    intros _ Hfit. specialize (Hfit c Hc). lia.
  - apply gives_ret. split; [done|]. split; [done|]. split; [intros Hw; by apply Hh|]. split; [done|]. split; [done|].
    intros Hw _. by destruct (Hh Hw).
Qed.

(** The status. *)
Definition is_status_done (v : option (list Z)) : Prop := exists c, v = Some c /\ take 4 (loaded c) = lit "DONE".

Lemma strncmp_done l : (4 <= length l)%nat -> strncmp_eq 4 l (lit "DONE" ++ [0]) = Some (bool_decide (take 4 l = lit "DONE")).
Proof.
  intros Hl. destruct l as [|c0 [|c1 [|c2 [|c3 l]]]]; cbn [length] in Hl; try lia.
  change (lit "DONE") with [68; 79; 78; 69]. cbn [strncmp_eq take app].
  repeat (lazymatch goal with |- context [?x =? ?y] => destruct (Z.eqb_spec x y) as [->|?] end; cbn [Z.eqb Pos.eqb];
    [|rewrite bool_decide_false by (intros [=]; contradiction); done]).
  by rewrite bool_decide_true.
Qed.

Lemma read_buffer_length l c n : zlen c < zlen l -> length (read_buffer l c n) = length l.
Proof.
  intros Hc. pose proof (zlen_nonneg c). assert (zlen (overwrite l 0 c) = zlen l) as H1 by (rewrite overwrite_length; lia).
  unfold read_buffer. case_if; apply Nat2Z.inj; [|exact H1].
  assert (zlen (overwrite (overwrite l 0 c) (zlen c) [0]) = zlen l) as H2 by (rewrite overwrite_length; rewrite ?zlen_cons, ?zlen_nil; lia).
  exact H2.
Qed.

Lemma take_read_buffer l c n : n <= zlen l -> 4 <= n -> zlen c <= n -> take 4 (read_buffer l c n) = lit "DONE" <-> take 4 c = lit "DONE".
Proof.
  intros Hl Hn Hc. unfold read_buffer, overwrite, zlen in *. rewrite !take_0, !app_nil_l, !Nat.add_0_l.
  destruct (Z.ltb_spec (Z.of_nat (length c)) n).
  - rewrite Nat2Z.id, take_app_length. destruct (decide (4 <= length c)%nat); [by rewrite take_app_le|].
    split; [|intros E; apply (f_equal length) in E; rewrite length_take in E; change (length (lit "DONE")) with 4%nat in E; lia].
    change (lit "DONE") with [68; 79; 78; 69].
    destruct c as [|c0 [|c1 [|c2 [|c3 c]]]]; cbn [length] in *; try lia; cbn [take app]; intros [=].
  - rewrite take_app_le by lia. done.
Qed.

Lemma check_status_runs {A} id a n (x : A) w : nv_id id -> 4 <= n -> block_of a n [] w ->
  gives (check_status id (Some a) n x) w
    (reading a n w (is_status_done (value w id) /\ fits n (value w id)) (fun y => y = x /\ is_status_done (value w id))).
Proof.
  intros Hid Hn [(l & Hl & Hz) _]. unfold check_status. apply gives_bind. eapply gives_mono; [eapply read_into_runs; [done|lia|done|done]|].
  intros [err k] w1 (d & HR & Hd & Hzd & Hf & Hh & Hmo & Hbut). cbn [fst snd] in *.
  assert (block_of a n [] w1) as Hb by (split; [by exists d|done]).
  destruct HR as [c Hc Hle|Hc|c Hc Hlt|].
  - no_error. apply gives_bind. eapply gives_get; [done|]. apply gives_bind. unfold is_done.
    eapply gives_need; [apply strncmp_done; unfold zlen in Hzd; lia|]. apply gives_ret.
    pose proof (take_read_buffer l (loaded c) n ltac:(lia) Hn Hle) as Ht.
    split; [done|]. split; [done|]. split; [intros Hw; by apply Hh|]. split; [done|]. case_bool_decide as Hdone; cbn [fst snd].
    + split; [|done]. intros _. split; [|by apply Hbut]. split; [done|]. exists c. split; [done|]. by apply Ht.
    + split; [done|]. intros _ [(c' & Hc' & Hd') _]. rewrite Hc in Hc'. injection Hc' as <-. by apply Ht in Hd'.
  - apply gives_ret. split; [done|]. split; [done|]. split; [intros Hw; by apply Hh|]. split; [done|]. split; [done|].
    intros _ [(c' & Hc' & _) _]. congruence.
  - apply gives_ret. split; [done|]. split; [done|]. split; [intros Hw; by apply Hh|]. split; [done|]. split; [done|].
    intros _ [_ Hfit]. specialize (Hfit c Hc). lia.
  - apply gives_ret. split; [done|]. split; [done|]. split; [intros Hw; by apply Hh|]. split; [done|]. split; [done|].
    intros Hw _. by destruct (Hh Hw).
Qed.

(** ** The pieces for Wi-Fi *)

Lemma string_prefix_length d s : string_in d = Some s -> zlen s + 1 <= zlen d.
Proof. intros (k & ->)%string_in_prefix. rewrite zlen_app, zlen_cons. pose proof (zlen_nonneg k). lia. Qed.
Lemma string_in_nonzero d s : string_in d = Some s -> Forall (fun c => c <> 0) s.
Proof. intros E. apply string_in_cstr in E as <-. apply cstr_nonzero. Qed.

Lemma overwrite_front d l : zlen l <= zlen d -> overwrite d 0 l = l ++ drop (length l) d.
Proof. intros _. unfold overwrite. by rewrite take_0, app_nil_l. Qed.

Lemma copy_string_runs field d len s (w : nvworld) (Q : list Z -> nvworld -> Prop) :
  string_in d = Some s -> zlen field = len + 1 -> 0 < len -> zlen s < 4294967296 ->
  (forall f, zlen f = len + 1 -> string_in f = Some (take (Z.to_nat len) s) -> Q f w) ->
  gives (copy_string field d len) w Q.
Proof.
  intros Hs Hf Hlen Hmax HQ. pose proof (string_in_nonzero d s Hs) as Hnz. pose proof (string_prefix_length d s Hs) as Hd.
  pose proof (zlen_nonneg s). unfold copy_string. apply gives_bind. eapply gives_need; [done|].
  unfold to_uint. rewrite Z.mod_small by lia. destruct (Z.ltb_spec (zlen s) len).
  - rewrite firstn_all2 by (unfold zlen in *; lia).
    assert (zlen (s ++ [0]) = zlen s + 1) as Hs1 by by rewrite zlen_app.
    apply gives_copy_at; [done|lia|]. apply HQ; [rewrite overwrite_length; lia|].
    rewrite overwrite_front by lia. rewrite <- app_assoc. cbn [app].
    rewrite string_in_short by done. f_equal. symmetry. apply firstn_all2. unfold zlen in *. lia.
  - apply gives_bind, gives_bytes_at; [done|lia|lia|]. change (Z.to_nat 0) with 0%nat. rewrite drop_0.
    assert (zlen (take (Z.to_nat len) d) = len) as Ht by (unfold zlen in *; rewrite length_take; lia).
    apply gives_bind, gives_copy_at; [done|lia|].
    assert (zlen (overwrite field 0 (take (Z.to_nat len) d)) = len + 1) as Ho by (rewrite overwrite_length; lia).
    apply gives_copy_at; [lia|rewrite zlen_cons, zlen_nil; lia|]. apply HQ; [rewrite overwrite_length; rewrite ?zlen_cons, ?zlen_nil; lia|].
    unfold overwrite at 1. rewrite overwrite_front by lia.
    replace (Z.to_nat len) with (length (take (Z.to_nat len) d)) at 1 by (unfold zlen in Ht; lia). rewrite take_app_length. cbn [app].
    destruct (string_in_prefix d s Hs) as [k ->]. rewrite take_app_le by (unfold zlen in *; lia).
    apply string_in_short. by apply Forall_take.
Qed.

(** The text of a MAC address is read without fault, whatever it is. *)
Lemma str_mac_loop_total str n i k (c : Z) (b : list Z) : zlen str = 17 -> zlen b = 6 -> 0 <= i -> i + Z.of_nat n = 17 ->
  k = 1 + (i - i / 3) -> exists r b', str_mac_loop n str i ((k - 1) / 2) k c (Some b) = Ret (r, Some b') /\ zlen b' = 6.
Proof.
  intros Hstr. revert i k c b. induction n as [|n IH]; intros i k c b Hb Hi Hn Hk; [by eexists _, _|].
  cbn [str_mac_loop]. rewrite (bind_ret _ _ _ _ _ (char_at_some str i (Some b) ltac:(lia))).
  assert (i = 3 * (i / 3) + i mod 3) as Hdiv by (apply Z.div_mod; lia). pose proof (Z.mod_pos_bound i 3 ltac:(lia)) as Hmod.
  set (q := i / 3) in *. set (m := i mod 3) in *.
  destruct (Z.eqb_spec m 2) as [Hm|Hm].
  - destruct (_ =? 58); [|by eexists _, _]. apply IH; [done|lia|lia|].
    assert ((i + 1) / 3 = q + 1) as -> by (symmetry; apply Z.div_unique with 0; lia). lia.
  - assert ((i + 1) / 3 = q) as Hq1 by (symmetry; apply Z.div_unique with (m + 1); lia).
    destruct (if _isalpha _ then _ else _) as [c'|]; [|by eexists _, _].
    assert (k - 1 = 2 * q + m) as Hk1 by lia.
    assert ((k - 1) / 2 = q) as Hj by (symmetry; apply Z.div_unique with m; lia).
    destruct (Z.eqb_spec (((k - 1) / 2 + 1) * 2) k) as [He|He].
    + assert (store_at ((k - 1) / 2) c' (Some b) = Ret (tt, Some (<[Z.to_nat ((k - 1) / 2) := c']> b))) as Hst.
      { unfold store_at. rewrite Hj. by rewrite (proj2 (Z.leb_le 0 q)), (proj2 (Z.ltb_lt q (zlen b))) by lia. }
      rewrite (bind_ret _ _ _ _ _ Hst).
      replace ((k - 1) / 2 + 1) with ((k + 1 - 1) / 2) by (rewrite Hj; symmetry; apply Z.div_unique with 0; lia).
      apply IH; [unfold zlen in *; by rewrite length_insert|lia|lia|lia].
    + replace ((k - 1) / 2) with ((k + 1 - 1) / 2) by (rewrite Hj; symmetry; apply Z.div_unique with (m + 1); lia).
      apply IH; [done|lia|lia|lia].
Qed.

Lemma convert_str_mac_total s b : zlen b = 6 -> exists r b', iot_util_convert_str_mac (Some s) (Some b) = Ret (r, Some b') /\ zlen b' = 6.
Proof.
  intros Hb. unfold iot_util_convert_str_mac, is_null_obj. rewrite bind_gets. change (bool_decide (Some b = None)) with false. cbv iota.
  destruct (Z.eqb_spec (zlen s) (zlen ref_addr)) as [Hs|Hs]; cbn [negb]; [|by eexists _, _].
  apply (str_mac_loop_total s 17 0 1 0 b); done.
Qed.

Lemma convert_mac_str_total b m : length b = 6%nat -> bytes b -> zlen m = 18 ->
  exists txt, iot_util_convert_mac_str (Some b) 18 (Some m) = Ret (IOT_ERROR_NONE, Some (txt ++ [0])) /\ zlen txt = 17.
Proof.
  intros Hb Hbytes Hm. pose proof (mac_text_length b Hb) as Ht. change (zlen ref_addr) with 17 in Ht. exists (text ref_addr 58 b 0).
  split; [|done]. unfold iot_util_convert_mac_str. change (18 <? 0) with false. cbv iota.
  rewrite (bytes_to_str_spec ref_addr 58 b 18 m Hbytes); [|done|done|change (zlen ref_addr) with 17; lia].
  rewrite drop_ge; [done|]. unfold zlen in Hm. change (length ref_addr) with 17%nat. lia.
Qed.

(** What a reader sees of the pieces: the strings, the address and the type. *)
Definition string_seen (v : option (list Z)) (size : Z) (field : list Z) : Prop :=
  zlen field = size + 1 /\ string_in field = Some (match v with Some c => take (Z.to_nat size) (text_of c) | None => [] end).
Definition no_mac_seen (out : iot_wifi_prov_data) : Prop := mac_str out = zeros 18 /\ bssid out = zeros 6.
Definition mac_seen (v : option (list Z)) (prov out : iot_wifi_prov_data) : Prop :=
  zlen (mac_str out) = 18 /\ zlen (bssid out) = 6 /\
  match v with
  | None => no_mac_seen out
  | Some c =>
      if IOT_WIFI_PROV_MAC_STR_LEN <=? zlen (loaded c) then
        let s := cstr (take 17 (loaded c)) in
        match iot_util_convert_str_mac (Some s) (Some (bssid prov)) with
        | Ret (err, b) => if failed err then no_mac_seen out else string_in (mac_str out) = Some s /\ b = Some (bssid out)
        | _ => False
        end
      else if IOT_NVD_MAX_BSSID_LEN <=? zlen (loaded c) then
        bssid out = take 6 (loaded c) /\
        iot_util_convert_mac_str (Some (bssid out)) 18 (Some (mac_str prov)) = Ret (IOT_ERROR_NONE, Some (mac_str out))
      else no_mac_seen out
  end.
Definition auth_seen (v : option (list Z)) (out : iot_wifi_prov_data) : Prop :=
  match v with Some c => atoi (text_of c) = Some (security_type out) | None => security_type out = -1 end.
Definition wifi_seen (m : nv_map) (prov out : iot_wifi_prov_data) : Prop :=
  string_seen (m IOT_NVD_AP_SSID) IOT_WIFI_PROV_SSID_STR_LEN (ssid out) /\
  string_seen (m IOT_NVD_AP_PASS) IOT_WIFI_PROV_PASSWORD_STR_LEN (password out) /\
  mac_seen (m IOT_NVD_AP_BSSID) prov out /\ auth_seen (m IOT_NVD_AP_AUTH_TYPE) out.

(** The pieces are strings where they have to be. *)
Record wifi_readable (m : nv_map) : Prop := {
  wr_ssid : terminated WIFI_DATA_SIZE (m IOT_NVD_AP_SSID);
  wr_password : terminated WIFI_DATA_SIZE (m IOT_NVD_AP_PASS);
  wr_bssid : forall c, m IOT_NVD_AP_BSSID = Some c -> bytes c;
  wr_auth : terminated WIFI_DATA_SIZE (m IOT_NVD_AP_AUTH_TYPE);
  wr_number : forall c, m IOT_NVD_AP_AUTH_TYPE = Some c -> atoi (text_of c) <> None
}.
Definition wifi_fits (m : nv_map) : Prop :=
  (is_status_done (m IOT_NVD_WIFI_PROV_STATUS) /\ fits WIFI_DATA_SIZE (m IOT_NVD_WIFI_PROV_STATUS)) /\
  fits WIFI_DATA_SIZE (m IOT_NVD_AP_SSID) /\ fits WIFI_DATA_SIZE (m IOT_NVD_AP_PASS) /\
  fits WIFI_DATA_SIZE (m IOT_NVD_AP_BSSID) /\ fits WIFI_DATA_SIZE (m IOT_NVD_AP_AUTH_TYPE).

Lemma text_of_length c : 0 <= zlen (text_of c) <= 2048.
Proof.
  pose proof (loaded_length c). unfold text_of. pose proof (cstr_length (loaded c)). unfold zlen, IOT_SECURITY_STORAGE_BUF_MAX_LEN in *. lia.
Qed.

(** An array that is read. *)
Lemma string_piece_runs id size a (x : iot_wifi_prov_data) field set (P : iot_wifi_prov_data -> Prop) w :
  nv_id id -> 0 < size -> zlen field = size + 1 -> block_of a WIFI_DATA_SIZE [] w -> terminated WIFI_DATA_SIZE (value w id) ->
  (forall f, string_seen (value w id) size f -> P (set f x)) ->
  gives (piece id (Some a) WIFI_DATA_SIZE x
           (fun _ x => l ← get (Some a); s ← copy_string field l size; mret (IOT_ERROR_NONE, set s x))
           (fun x => set (<[0%nat := 0]> field) x)) w
    (reading a WIFI_DATA_SIZE w (fits WIFI_DATA_SIZE (value w id)) P).
Proof.
  intros Hid Hs Hf Hb Ht HP. apply piece_runs; [done|done|done|..].
  - intros Hno. apply HP. rewrite Hno. split; [unfold zlen in *; by rewrite length_insert|].
    destruct field as [|c field]; [unfold zlen in Hf; simpl in Hf; lia|]. done.
  - intros c l w' Hc Hle Hl Hd. apply gives_bind. eapply gives_get; [done|]. apply gives_bind.
    eapply copy_string_runs; [apply read_buffer_string; [done|done|by apply Ht]|done|done|pose proof (text_of_length c); lia|].
    intros f Hf1 Hf2. apply gives_ret. split; [done|]. split; [|done]. apply HP. by rewrite Hc.
Qed.

Lemma found_bssid_runs a prov c l w x : wifi_ok prov -> mac_str x = mac_str prov -> bssid x = bssid prov -> bytes c ->
  zlen (loaded c) <= WIFI_DATA_SIZE -> zlen l = WIFI_DATA_SIZE ->
  live (nv_blocks w) a = Some (read_buffer l (loaded c) WIFI_DATA_SIZE) ->
  gives (found_bssid (Some a) (zlen (loaded c)) x) w (fun r w1 => r.1 = IOT_ERROR_NONE /\
    (mac_seen (Some c) prov r.2 /\ ssid r.2 = ssid x /\ password r.2 = password x) /\ w1 = w).
Proof.
  intros (_ & _ & Hm & Hb) Em Eb Hbytes Hc Hl Hd. unfold found_bssid. apply gives_bind. eapply gives_get; [done|].
  assert (no_mac_seen (no_mac x)) as Hno by done.
  assert (forall k, (k <= length (loaded c))%nat -> take k (read_buffer l (loaded c) WIFI_DATA_SIZE) = take k (loaded c)) as Htake.
  { intros k Hk. unfold read_buffer, overwrite. rewrite !take_0, !app_nil_l, !Nat.add_0_l. case_if.
    - unfold zlen. rewrite Nat2Z.id, take_app_length. by rewrite take_app_le.
    - by rewrite take_app_le. }
  assert (zlen (read_buffer l (loaded c) WIFI_DATA_SIZE) = WIFI_DATA_SIZE) as Hz.
  { unfold read_buffer. assert (zlen (overwrite l 0 (loaded c)) = WIFI_DATA_SIZE) as Ho by (rewrite overwrite_length; lia).
    pose proof (zlen_nonneg (loaded c)). case_if; [|done]. bool_to_prop. rewrite overwrite_length; rewrite ?zlen_cons, ?zlen_nil; lia. }
  unfold mac_seen. destruct (Z.leb_spec IOT_WIFI_PROV_MAC_STR_LEN (zlen (loaded c))) as [H17|H17].
  - apply gives_bind, gives_bytes_at; [done|done|rewrite Hz; done|]. change (Z.to_nat 0) with 0%nat. rewrite drop_0.
    change (Z.to_nat IOT_WIFI_PROV_MAC_STR_LEN) with 17%nat. rewrite Htake by (unfold zlen, IOT_WIFI_PROV_MAC_STR_LEN in H17; lia).
    assert (zlen (take 17 (loaded c)) = 17) as Ht by (unfold zlen, IOT_WIFI_PROV_MAC_STR_LEN in *; rewrite length_take; lia).
    apply gives_bind, gives_copy_at; [done|rewrite Em; lia|]. rewrite overwrite_front by (rewrite Em; lia).
    apply gives_bind, gives_copy_at; [done|rewrite zlen_app, Ht, zlen_cons, zlen_nil; unfold zlen, IOT_WIFI_PROV_MAC_STR_LEN in *; rewrite length_drop, Em; lia|].
    assert (overwrite (take 17 (loaded c) ++ drop (length (take 17 (loaded c))) (mac_str x)) IOT_WIFI_PROV_MAC_STR_LEN [0] = take 17 (loaded c) ++ [0]) as ->.
    { unfold overwrite. change (Z.to_nat IOT_WIFI_PROV_MAC_STR_LEN) with 17%nat.
      assert (length (take 17 (loaded c)) = 17%nat) as Ht' by (unfold zlen in Ht; lia). rewrite Ht'.
      rewrite take_app_le, firstn_all2 by lia. rewrite drop_ge; [done|]. rewrite length_app, length_drop, Ht', Em. unfold zlen in Hm. simpl. lia. }
    apply gives_bind. eapply gives_need; [apply string_in_zero|]. rewrite Eb. cbv zeta.
    destruct (convert_str_mac_total (cstr (take 17 (loaded c))) (bssid prov) Hb) as (r & b & -> & Hb').
    apply gives_ret. split; [done|]. split; [|done]. cbn [fst snd]. destruct (failed r); [done|].
    cbn [mac_str bssid set_mac ssid password default from_option]. split; [|done].
    split; [rewrite zlen_app, Ht; done|]. split; [done|]. split; [apply string_in_zero|done].
  - destruct (Z.leb_spec IOT_NVD_MAX_BSSID_LEN (zlen (loaded c))) as [H6|H6]; [|apply gives_ret; done].
    apply gives_bind, gives_bytes_at; [done|done|rewrite Hz; done|]. change (Z.to_nat 0) with 0%nat. rewrite drop_0.
    change (Z.to_nat IOT_NVD_MAX_BSSID_LEN) with 6%nat. unfold IOT_NVD_MAX_BSSID_LEN in H6. rewrite Htake by (unfold zlen in H6; lia).
    assert (length (take 6 (loaded c)) = 6%nat) as Ht by (rewrite length_take; unfold zlen in H6; lia).
    assert (zlen (take 6 (loaded c)) = 6) as Htz by (unfold zlen; lia).
    apply gives_bind, gives_copy_at; [done|rewrite Eb; lia|].
    rewrite overwrite_front by (rewrite Eb; lia). rewrite (drop_ge (bssid x)), app_nil_r by (rewrite Eb, Ht; unfold zlen in Hb; lia).
    destruct (convert_mac_str_total (take 6 (loaded c)) (mac_str x)) as (txt & E & Htxt); [done| |by rewrite Em|].
    { unfold loaded. by do 2 apply Forall_take. }
    rewrite E. apply gives_ret. split; [done|]. split; [|done]. cbn [fst snd failed IOT_ERROR_NONE Z.eqb negb default from_option].
    cbn [mac_str bssid set_mac ssid password]. unfold id. split; [|done].
    split; [rewrite zlen_app, Htxt; done|]. split; [unfold zlen; by rewrite Ht|]. split; [done|]. by rewrite <- Em.
Qed.

Lemma get_wifi_steps a prov w : wifi_ok prov ->
  (is_status_done (value w IOT_NVD_WIFI_PROV_STATUS) -> wifi_readable (value w)) -> block_of a WIFI_DATA_SIZE [] w ->
  gives (next (check_status IOT_NVD_WIFI_PROV_STATUS (Some a) WIFI_DATA_SIZE prov) (fun w =>
         next (piece IOT_NVD_AP_SSID (Some a) WIFI_DATA_SIZE w
                 (fun _ w => l ← get (Some a); s ← copy_string (ssid w) l IOT_WIFI_PROV_SSID_STR_LEN; mret (IOT_ERROR_NONE, set_ssid s w))
                 (fun w => set_ssid (<[0%nat := 0]> (ssid w)) w)) (fun w =>
         next (piece IOT_NVD_AP_PASS (Some a) WIFI_DATA_SIZE w
                 (fun _ w => l ← get (Some a); s ← copy_string (password w) l IOT_WIFI_PROV_PASSWORD_STR_LEN;
                             mret (IOT_ERROR_NONE, set_password s w))
                 (fun w => set_password (<[0%nat := 0]> (password w)) w)) (fun w =>
         next (piece IOT_NVD_AP_BSSID (Some a) WIFI_DATA_SIZE w (found_bssid (Some a)) no_mac) (fun w =>
         piece IOT_NVD_AP_AUTH_TYPE (Some a) WIFI_DATA_SIZE w (fun _ => found_auth_type (Some a)) (set_security_type (-1))))))) w
    (reading a WIFI_DATA_SIZE w (wifi_fits (value w))
       (fun out => (wifi_seen (value w) prov out /\ wifi_ok out) /\ is_status_done (value w IOT_NVD_WIFI_PROV_STATUS))).
Proof.
  intros Hok Hr Hb. unfold wifi_fits, wifi_seen.
  eapply next_runs; [by apply check_status_runs|]. intros x w1 Hb1 Hv1 [-> Hdone]. destruct (Hr Hdone) as [Hr1 Hr2 Hr3 Hr4 Hr5]. pose proof Hok as (Ho1 & Ho2 & Ho3 & Ho4).
  rewrite <- Hv1 in *. clear w Hv1 Hb. rename w1 into w.
  eapply next_runs.
  { apply (string_piece_runs _ _ _ _ _ set_ssid
      (fun x => exists f, string_seen (value w IOT_NVD_AP_SSID) IOT_WIFI_PROV_SSID_STR_LEN f /\ x = set_ssid f prov)); try done.
    intros f Hf. by exists f. }
  intros ? w1 Hb Hv (f & Hf & ->). rewrite <- Hv in *. clear w Hv Hb1. rename w1 into w.
  eapply next_runs.
  { apply (string_piece_runs _ _ _ _ _ set_password
      (fun x => exists g, string_seen (value w IOT_NVD_AP_PASS) IOT_WIFI_PROV_PASSWORD_STR_LEN g /\ x = set_password g (set_ssid f prov))); try done.
    intros g Hg. by exists g. }
  intros ? w1 Hb1 Hv (g & Hg & ->). rewrite <- Hv in *. clear w Hv Hb. rename w1 into w.
  eapply next_runs.
  { apply (piece_runs _ _ _ _ _ _ (fun x => mac_seen (value w IOT_NVD_AP_BSSID) prov x /\ ssid x = f /\ password x = g)); try done.
    - intros ->. done.
    - intros c l w' Hc Hle Hl Hd. rewrite Hc. eapply found_bssid_runs; try done. by apply Hr3. }
  intros x w1 Hb Hv (Hx & Es & Ep). rewrite <- Hv in *. clear w Hv Hb1. rename w1 into w.
  apply piece_runs; try done.
  - intros Hno. rewrite Hno. split; [|exact Hdone]. split.
    { split; [cbn; by rewrite Es|]. split; [cbn; by rewrite Ep|]. split; [exact Hx|done]. }
    destruct Hx as (? & ? & _). unfold wifi_ok. cbn.
    rewrite Es, Ep. split_and!; [apply Hf|apply Hg|done|done].
  - intros c l w' Hc Hle Hl Hd. unfold found_auth_type. apply gives_bind. unfold load_string. apply gives_bind. eapply gives_get; [done|].
    eapply gives_need; [apply read_buffer_string; [done|done|by apply Hr4]|]. specialize (Hr5 c Hc).
    destruct (atoi (text_of c)) as [v|] eqn:Ev; [|done]. apply gives_bind. eapply gives_need; [done|]. apply gives_ret.
    rewrite Hc. split; [done|]. split; [|done]. split; [|exact Hdone]. split.
    { split; [cbn; by rewrite Es|]. split; [cbn; by rewrite Ep|]. split; [exact Hx|done]. }
    destruct Hx as (? & ? & _). unfold wifi_ok. cbn.
    rewrite Es, Ep. split_and!; [apply Hf|apply Hg|done|done].
Qed.

(** All of it: what is seen, and nothing is left behind; an error gives
    zeros. *)
Lemma get_wifi_runs prov w : wifi_ok prov ->
  (is_status_done (value w IOT_NVD_WIFI_PROV_STATUS) -> wifi_readable (value w)) ->
  gives (iot_nv_get_wifi_prov_data (Some prov)) w (fun r w' => exists out, r.2 = Some out /\
    files (nv_below w') = files (nv_below w) /\ more_objects w w' /\
    (r.1 = IOT_ERROR_NONE ->
       is_status_done (value w IOT_NVD_WIFI_PROV_STATUS) /\ wifi_seen (value w) prov out /\ wifi_ok out /\ same_objects w w') /\
    (healthy (nv_below w) -> healthy (nv_below w') /\ (wifi_fits (value w) -> r.1 = IOT_ERROR_NONE))).
Proof.
  intros Hok Hr. unfold iot_nv_get_wifi_prov_data.
  apply (with_block_runs (fun r : Z * iot_wifi_prov_data => (r.1, Some (if failed r.1 then zero_wifi else r.2)))); [done|by intros ? []|..].
  - intros w' Hn [Hf _] Hs. exists prov. split; [done|]. split; [done|]. split; [by apply same_more|]. split; [done|]. done.
  - intros e a l (Hf & _ & Hh) Hl Ha. set (w1 := with_blocks _ _).
    assert (value w1 = value w) as Hv by by apply same_value.
    eapply gives_mono; [apply (get_wifi_steps a prov w1 Hok)|].
    + by rewrite Hv.
    + split; [|done]. exists l. split; [|done]. unfold w1. wcbn. by rewrite live_insert, decide_True.
    + intros [r x] w2 ([(d & Hd & _) _] & Hf2 & Hh2 & (d2 & Hm1 & Hm2) & Hok2 & Hfit). rewrite Hv in *. cbn [fst snd] in *.
      exists d. split; [done|]. intros w' ->. eexists. split; [done|]. wcbn. split; [rewrite Hf2; done|]. split; [|split].
      * destruct Hm1. unfold w1 in *. wcbn. split; [split; wcbn; done|]. wcbn. intros b y Hb. rewrite live_insert, decide_False by congruence.
        apply Hm2. by rewrite live_insert, decide_False, live_insert, decide_False by congruence.
      * intros Hr0. destruct (Hok2 Hr0) as [[[H1 H2] H0] [d3 H3]]. rewrite Hr0. no_error. split; [done|]. split; [done|]. split; [done|].
        eapply (freed_block w w2 a d3 Ha). etrans; [|exact H3]. unfold w1. split; wcbn; try done. live_cases.
      * intros Hw. split; [|intros F; apply Hfit; [|done]]; [apply Hh2|]; unfold w1; wcbn; auto.
Qed.
End get.
