(* ===== verification/NvProv.v ===== *)
(** * Non-volatile data: provisioning over failures

    The Wi-Fi data that is stored is what is loaded, also after a restart, and
    after failures a load gives the old data or the new, but for pieces that were
    to be erased; the cloud data is stored as its pieces. *)

From S2P Require Import Prelude Platform UtilQueue Util UtilUrl Heap NvBase NvStore NvData NvSpec NvMap NvPuts NvGet.

Section prov.
Context `{CharModel} `{NC : NvConfig} `{NL : NvLaws}.
#[local] Set Default Proof Using "All".
Abbreviation N := (st nvworld).

(** ** Pieces that are put *)

Lemma put_agrees S m id b r m' : put S m id b r m' -> agree_but id m m'.
Proof. by destruct 1. Qed.
Lemma puts_agree S m l r m' : puts S m l r m' -> forall k, nv_id k -> k ∉ l.*1 -> m' k = m k.
Proof.
  induction 1 as [m|m id b m1 l r m2 HP _ IH|m id b r m1 l HP _]; intros k Hk Hl; [done|..]; cbn in Hl;
    apply not_elem_of_cons in Hl as [Hne Hl]; apply put_agrees in HP.
  - rewrite IH by done. by apply HP.
  - by apply HP.
Qed.
Lemma puts_cons_inv S m id b l r m' : puts S m ((id, b) :: l) r m' ->
  (exists m1, put S m id b IOT_ERROR_NONE m1 /\ puts S m1 l r m') \/ (r <> IOT_ERROR_NONE /\ put S m id b r m').
Proof. intros HP. inversion HP; subst; [left; eauto|by right]. Qed.
Lemma puts_app_inv S l : forall m k r m', puts S m (l ++ k) r m' ->
  (r <> IOT_ERROR_NONE /\ puts S m l r m') \/ (exists m1, puts S m l IOT_ERROR_NONE m1 /\ puts S m1 k r m').
Proof.
  induction l as [|[id b] l IH]; intros m k r m' HP; [right; exists m; split; [apply puts_none|done]|].
  apply puts_cons_inv in HP as [(m1 & H1 & HP)|[Hr H1]].
  - apply IH in HP as [[Hr HP]|(m2 & H2 & HP)]; [left; split; [done|by eapply puts_more]|].
    right. exists m2. split; [by eapply puts_more|done].
  - left. split; [done|by apply puts_stop].
Qed.

(** What a piece is after it has been put. *)
Definition result_of (old b : option (list Z)) : option (list Z) :=
  match b with Some b => Some (written (default [] old) b) | None => None end.
(** It is the new one, or it has not been erased. *)
Definition settled (S : Prop) (old b new : option (list Z)) : Prop :=
  new = result_of old b \/ (S /\ b = None /\ (RemovalKeeps -> new = old)).
Lemma put_inv S m id b m' : put S m id b IOT_ERROR_NONE m' -> settled S (m id) b (m' id).
Proof. inversion 1; subst; [by left|by left|by right]. Qed.
Lemma settled_written S old d new : settled S old (Some d) new -> new = Some (written (default [] old) d).
Proof. by intros [->|(_ & ? & _)]. Qed.
Lemma settled_healthy S old b new : ~ S -> settled S old b new -> new = result_of old b.
Proof. intros HS [->|(? & _)]; done. Qed.

Lemma puts_done S m l m' : puts S m l IOT_ERROR_NONE m' -> Forall nv_id l.*1 -> NoDup l.*1 ->
  forall id b, (id, b) ∈ l -> settled S (m id) b (m' id).
Proof.
  remember IOT_ERROR_NONE as r eqn:Er. induction 1 as [m|m i c m1 l r m2 HP H2 IH|m i c r m1 l HP Hr]; [|subst r|done].
  { intros _ _ id b Hin. by apply not_elem_of_nil in Hin. }
  cbn. intros [Hi Hl]%Forall_cons [Hn Hd]%NoDup_cons id b Hin. apply elem_of_cons in Hin as [[= -> ->]|Hin].
  - rewrite (puts_agree _ _ _ _ _ H2) by done. by eapply put_inv.
  - pose proof (IH eq_refl Hl Hd id b Hin) as HI. apply put_agrees in HP. rewrite HP in HI; [done| |].
    + apply (proj1 (Forall_forall _ _) Hl). by apply (list_elem_of_fmap_2 fst _ _ Hin).
    + intros ->. apply Hn. by apply (list_elem_of_fmap_2 fst _ _ Hin).
Qed.

Lemma written_short old data : zlen old <= zlen data -> written old data = data.
Proof. intros Hl. destruct (law_written old data) as (tail & -> & Ht). rewrite Ht, app_nil_r; [done|]. unfold zlen in Hl. lia. Qed.
Lemma result_short old b : (forall d, b = Some d -> zlen (default [] old) <= zlen d) -> result_of old b = b.
Proof. intros Hl. destruct b as [d|]; [|done]. cbn. f_equal. apply written_short. auto. Qed.

Lemma none_not_done tail : ~ is_status_done (Some (lit "NONE" ++ tail)).
Proof. intros (c & [= <-] & Hd). discriminate Hd. Qed.

(** Pieces between a status "NONE" and a status "DONE": when the store is over,
    with or without an error, no piece has been touched, or the status says that
    there is nothing, or all pieces are new, save those that were to be erased
    and have not been. *)
Inductive stored (S : Prop) (status : Z) (pieces : list (Z * option (list Z))) (m : nv_map) (r : Z) (m' : nv_map) : Prop :=
| stored_not : r <> IOT_ERROR_NONE -> (forall id, id ∈ pieces.*1 -> m' id = m id) -> stored S status pieces m r m'
| stored_begun : r <> IOT_ERROR_NONE -> ~ is_status_done (m' status) -> stored S status pieces m r m'
| stored_all : (forall id b, (id, b) ∈ pieces -> m' id = b \/ (S /\ b = None /\ (RemovalKeeps -> m' id = m id))) ->
    (r = IOT_ERROR_NONE -> m' status = Some (lit "DONE")) -> stored S status pieces m r m'.

Lemma puts_between S status pieces m r m' : nv_id status -> Forall nv_id pieces.*1 -> NoDup pieces.*1 -> status ∉ pieces.*1 ->
  zlen (default [] (m status)) <= 4 -> (forall id d, (id, Some d) ∈ pieces -> zlen (default [] (m id)) <= zlen d) ->
  puts S m ((status, Some (lit "NONE")) :: pieces ++ [(status, Some (lit "DONE"))]) r m' -> stored S status pieces m r m'.
Proof.
  intros Hst Hids Hnd Hns H4 Hsizes HP.
  assert (forall id, id ∈ pieces.*1 -> nv_id id /\ id <> status) as Hid.
  { intros id Hid. split; [by apply (proj1 (Forall_forall _ _) Hids)|]. by intros ->. }
  apply puts_cons_inv in HP as [(m1 & H1 & HP)|[Hr H1]].
  2:{ apply stored_not; [done|]. intros id Hi. apply put_agrees in H1. apply H1; by apply Hid. }
  pose proof (settled_written _ _ _ _ (put_inv _ _ _ _ _ H1)) as Hs1. apply put_agrees in H1.
  apply puts_app_inv in HP as [[Hr HP]|(m2 & H2 & HP)].
  - apply stored_begun; [done|]. rewrite (puts_agree _ _ _ _ _ HP), Hs1 by done.
    destruct (law_written (default [] (m status)) (lit "NONE")) as (tail & -> & _). apply none_not_done.
  - assert (m2 status = Some (lit "NONE")) as Hs2.
    { rewrite (puts_agree _ _ _ _ _ H2), Hs1 by done. f_equal. by apply written_short. }
    apply stored_all.
    + intros id b Hin. pose proof (list_elem_of_fmap_2 fst _ _ Hin) as Hi. cbn in Hi. destruct (Hid id Hi) as [Hn Hne].
      rewrite (puts_agree _ _ _ _ _ HP); [|done|cbn; by rewrite list_elem_of_singleton].
      destruct (puts_done _ _ _ _ H2 Hids Hnd id b Hin) as [->|(HS & -> & Hk)]; [left|right]; rewrite H1 in * by done; [|done].
      apply result_short. intros d ->. by apply (Hsizes id).
    + intros ->. apply puts_cons_inv in HP as [(m3 & H3 & HP)|[? _]]; [|done]. inversion HP; subst.
      rewrite (settled_written _ _ _ _ (put_inv _ _ _ _ _ H3)), Hs2. cbn [default from_option]. f_equal. by apply written_short.
Qed.

(** ** Wi-Fi *)

(** The pieces between the statuses. *)
Definition wifi_fields (w : iot_wifi_prov_data) : list (Z * option (list Z)) :=
  [(IOT_NVD_AP_SSID, array_piece (ssid w) IOT_WIFI_PROV_SSID_STR_LEN);
   (IOT_NVD_AP_PASS, array_piece (password w) IOT_WIFI_PROV_PASSWORD_STR_LEN);
   (IOT_NVD_AP_BSSID, array_piece (mac_str w) IOT_WIFI_PROV_MAC_STR_LEN);
   (IOT_NVD_AP_AUTH_TYPE, auth_piece (security_type w))].
(** They as a map. *)
Definition wifi_new (w : iot_wifi_prov_data) : nv_map := fun id =>
  match find (fun x => id =? x.1) (wifi_fields w) with Some x => x.2 | None => None end.
(** No piece is longer than what is written for it. *)
Definition wifi_sizes (m : nv_map) : Prop :=
  zlen (default [] (m IOT_NVD_WIFI_PROV_STATUS)) <= 4 /\ zlen (default [] (m IOT_NVD_AP_SSID)) <= 32 /\
  zlen (default [] (m IOT_NVD_AP_PASS)) <= 64 /\ zlen (default [] (m IOT_NVD_AP_BSSID)) <= 17 /\
  zlen (default [] (m IOT_NVD_AP_AUTH_TYPE)) <= 1.

Lemma array_piece_inv field size d : array_piece field size = Some d -> d = take (Z.to_nat size) field.
Proof. destruct field as [|[|c|c] field]; cbn; congruence. Qed.
Lemma auth_piece_inv t d : auth_piece t = Some d -> IOT_WIFI_AUTH_OPEN <= t <= IOT_WIFI_AUTH_MAX /\ d = number_text t.
Proof. unfold auth_piece. case_if; [done|]. intros [= <-]. bool_to_prop. done. Qed.

Lemma auth_text t : IOT_WIFI_AUTH_OPEN <= t <= IOT_WIFI_AUTH_MAX ->
  zlen (number_text t) = 1 /\ atoi (text_of (number_text t)) = Some t.
Proof.
  intros Ht. unfold IOT_WIFI_AUTH_OPEN, IOT_WIFI_AUTH_MAX in Ht.
  assert (forallb (fun t => (zlen (number_text t) =? 1) && bool_decide (atoi (text_of (number_text t)) = Some t)) (seqZ 0 9) = true) as H0 by by vm_compute.
  apply (forallb_seqZ _ 9 t) in H0; [|lia]. cbv beta in H0. apply andb_true_iff in H0 as [H1 H2].
  split; [by apply Z.eqb_eq|by apply bool_decide_eq_true in H2].
Qed.

Lemma wifi_field_sizes prov : wifi_ok prov -> forall id d, (id, Some d) ∈ wifi_fields prov ->
  zlen d = if id =? IOT_NVD_AP_SSID then 32 else if id =? IOT_NVD_AP_PASS then 64 else if id =? IOT_NVD_AP_BSSID then 17 else 1.
Proof.
  intros (Z1 & Z2 & Z3 & _) id d Hin. unfold wifi_fields in Hin.
  repeat (apply elem_of_cons in Hin as [[= -> E]|Hin]); [..|by apply not_elem_of_nil in Hin]; symmetry in E.
  1-3: apply array_piece_inv in E as ->; unfold zlen in *; rewrite length_take; cbn [Z.eqb Pos.eqb];
    unfold IOT_WIFI_PROV_SSID_STR_LEN, IOT_WIFI_PROV_PASSWORD_STR_LEN, IOT_WIFI_PROV_MAC_STR_LEN; cbv [IOT_NVD_AP_SSID IOT_NVD_AP_PASS IOT_NVD_AP_BSSID Z.eqb Pos.eqb]; lia.
  apply auth_piece_inv in E as [Ht ->]. by apply auth_text.
Qed.

Lemma puts_wifi S m prov r m' : wifi_ok prov -> wifi_sizes m -> puts S m (wifi_pieces prov) r m' ->
  stored S IOT_NVD_WIFI_PROV_STATUS (wifi_fields prov) m r m'.
Proof.
  intros Hok (S0 & S1 & S2 & S3 & S4) HP. eapply puts_between; [..|exact HP]; try done.
  - by repeat constructor.
  - cbn. repeat constructor; set_solver.
  - cbn. set_solver.
  - intros id d Hin. rewrite (wifi_field_sizes prov Hok id d Hin). unfold wifi_fields in Hin.
    repeat (apply elem_of_cons in Hin as [[= -> E]|Hin]); [..|by apply not_elem_of_nil in Hin]; cbn [Z.eqb Pos.eqb]; done.
Qed.

Lemma wifi_new_field prov id b : (id, b) ∈ wifi_fields prov -> wifi_new prov id = b.
Proof.
  intros Hin. unfold wifi_new, wifi_fields in *.
  repeat (apply elem_of_cons in Hin as [[= -> ->]|Hin]); [..|by apply not_elem_of_nil in Hin]; done.
Qed.

Definition wifi_ids : list Z := [IOT_NVD_AP_SSID; IOT_NVD_AP_PASS; IOT_NVD_AP_BSSID; IOT_NVD_AP_AUTH_TYPE].
(** The pieces of [m'] are the new ones; but a piece that the new data does not
    have may still be the one of [m], where something has failed. *)
Definition wifi_renewed (S : Prop) (m : nv_map) (prov : iot_wifi_prov_data) (m' : nv_map) : Prop :=
  forall id, id ∈ wifi_ids -> m' id = wifi_new prov id \/ (S /\ wifi_new prov id = None /\ m' id = m id).
Lemma stored_new `{!RemovalKeeps} S m prov m' :
  (forall id b, (id, b) ∈ wifi_fields prov -> m' id = b \/ (S /\ b = None /\ (RemovalKeeps -> m' id = m id))) ->
  wifi_renewed S m prov m'.
Proof.
  intros Hm id Hid. change wifi_ids with (wifi_fields prov).*1 in Hid. apply list_elem_of_fmap in Hid as ([i b] & -> & Hin).
  cbn [fst]. rewrite (wifi_new_field _ _ _ Hin). destruct (Hm _ _ Hin) as [->|(HS & -> & Hk)]; [by left|right]. auto.
Qed.
Lemma stored_healthy S m prov m' : ~ S ->
  (forall id b, (id, b) ∈ wifi_fields prov -> m' id = b \/ (S /\ b = None /\ (RemovalKeeps -> m' id = m id))) ->
  forall id, id ∈ wifi_ids -> m' id = wifi_new prov id.
Proof.
  intros HS Hm id Hid. change wifi_ids with (wifi_fields prov).*1 in Hid. apply list_elem_of_fmap in Hid as ([i b] & -> & Hin).
  cbn [fst]. rewrite (wifi_new_field _ _ _ Hin). by destruct (Hm _ _ Hin) as [->|(? & _)].
Qed.

Lemma wifi_seen_ext m m' prov out : (forall id, id ∈ wifi_ids -> m' id = m id) -> wifi_seen m' prov out -> wifi_seen m prov out.
Proof. unfold wifi_seen, wifi_ids. intros Hm. by rewrite !Hm by set_solver. Qed.
Lemma wifi_readable_ext m m' : (forall id, id ∈ wifi_ids -> m' id = m id) -> wifi_readable m -> wifi_readable m'.
Proof. unfold wifi_ids. intros Hm []. split; by rewrite Hm by set_solver. Qed.

Lemma loaded_short c : zlen c <= 2048 -> loaded c = c.
Proof. intros Hc. apply firstn_all2. unfold zlen, IOT_SECURITY_STORAGE_BUF_MAX_LEN in *. lia. Qed.

Lemma wifi_new_sizes prov id d : wifi_ok prov -> id ∈ wifi_ids -> wifi_new prov id = Some d ->
  zlen d = if id =? IOT_NVD_AP_SSID then 32 else if id =? IOT_NVD_AP_PASS then 64 else if id =? IOT_NVD_AP_BSSID then 17 else 1.
Proof.
  intros Hok Hid E. change wifi_ids with (wifi_fields prov).*1 in Hid. apply list_elem_of_fmap in Hid as ([i b] & -> & Hin). cbn [fst] in *.
  rewrite (wifi_new_field _ _ _ Hin) in E. subst b. by apply (wifi_field_sizes prov).
Qed.

Lemma wifi_new_readable prov : wifi_ok prov -> bytes (mac_str prov) -> wifi_readable (wifi_new prov).
Proof.
  intros Hok Hb. assert (forall id d, id ∈ wifi_ids -> wifi_new prov id = Some d -> zlen (loaded d) < WIFI_DATA_SIZE) as Hs.
  { intros id d Hid E. pose proof (wifi_new_sizes prov id d Hok Hid E) as Hd.
    assert (zlen d <= 64) by (rewrite Hd; repeat case_match; lia). rewrite loaded_short by lia. unfold WIFI_DATA_SIZE, IOT_WIFI_PROV_PASSWORD_STR_LEN. lia. }
  split.
  - intros c Hc. left. enough (zlen (loaded c) < WIFI_DATA_SIZE) by lia. by apply (Hs IOT_NVD_AP_SSID); [unfold wifi_ids; set_solver|].
  - intros c Hc. left. enough (zlen (loaded c) < WIFI_DATA_SIZE) by lia. by apply (Hs IOT_NVD_AP_PASS); [unfold wifi_ids; set_solver|].
  - intros c Hc. change (array_piece (mac_str prov) IOT_WIFI_PROV_MAC_STR_LEN = Some c) in Hc. apply array_piece_inv in Hc as ->. by apply Forall_take.
  - intros c Hc. left. enough (zlen (loaded c) < WIFI_DATA_SIZE) by lia. by apply (Hs IOT_NVD_AP_AUTH_TYPE); [unfold wifi_ids; set_solver|].
  - intros c Hc. change (auth_piece (security_type prov) = Some c) in Hc. apply auth_piece_inv in Hc as [Ht ->].
    destruct (auth_text _ Ht) as [_ ->]. done.
Qed.

Lemma wifi_renewed_readable S m prov m' : wifi_ok prov -> bytes (mac_str prov) -> wifi_readable m ->
  wifi_renewed S m prov m' -> wifi_readable m'.
Proof.
  intros Hok Hb [] Hm. destruct (wifi_new_readable prov Hok Hb).
  assert (forall id c, id ∈ wifi_ids -> m' id = Some c -> wifi_new prov id = Some c \/ m id = Some c) as Hone.
  { intros id c Hid E. destruct (Hm id Hid) as [E1|(_ & _ & E1)]; rewrite E1 in E; auto. }
  unfold wifi_ids in Hone. split; intros c Hc; apply Hone in Hc; try set_solver; destruct Hc; auto.
Qed.

(** C16: a store of Wi-Fi data in which the memory or the file system fails at
    any points, any number of times, does not mix the old data with the new:
    a load that succeeds later from the same files, also after a restart, gives
    the data from before, and only if the store has reported an error, or the
    new data.  One thing is excepted: a piece that the new data leaves empty
    (an empty name or password, an empty address, an unknown type) is to be
    erased, the code ignores an error of the erasure (iot_nv_data.c:513, 530,
    547 and 564), and where something fails the old piece may stay next to the
    new ones.  This is for a board whose files behave as [NvLaws] and on which
    a file that could not be removed is unchanged ([RemovalKeeps]; POSIX has
    both); the pieces before are no longer than what is written over them
    ([wifi_sizes]) and can be read ([wifi_readable]). *)
Theorem wifi_prov_atomic {RK : RemovalKeeps} prov prov0 w :
  wifi_ok prov -> bytes (mac_str prov) -> wifi_sizes (value w) -> wifi_readable (value w) -> wifi_ok prov0 ->
  exists r w1, iot_nv_set_wifi_prov_data (Some prov) w = Ret (r, w1) /\
    forall w2, files (nv_below w2) = files (nv_below w1) ->
    exists r2 out w3, iot_nv_get_wifi_prov_data (Some prov0) w2 = Ret ((r2, Some out), w3) /\
      (r2 = IOT_ERROR_NONE ->
         (r <> IOT_ERROR_NONE /\ wifi_seen (value w) prov0 out) \/
         exists m', wifi_renewed (sick w) (value w) prov m' /\ wifi_seen m' prov0 out).
Proof.
  intros Hok Hb Hsz Hrd Hok0. destruct (set_wifi_runs prov w Hok) as (r & w1 & E & HP & _). exists r, w1. split; [done|].
  intros w2 Hf. apply puts_wifi in HP; [|done..]. rewrite <- (same_value w1 w2 Hf) in HP.
  assert ((is_status_done (value w2 IOT_NVD_WIFI_PROV_STATUS) -> wifi_readable (value w2)) -> exists r2 out w3, iot_nv_get_wifi_prov_data (Some prov0) w2 = Ret ((r2, Some out), w3) /\
    (r2 = IOT_ERROR_NONE -> is_status_done (value w2 IOT_NVD_WIFI_PROV_STATUS) /\ wifi_seen (value w2) prov0 out)) as Hget.
  { intros Hread. destruct (get_wifi_runs prov0 w2 Hok0 Hread) as ([r2 o] & w3 & E2 & out & Ho & _ & _ & Hseen & _).
    cbn [fst snd] in *. subst o. exists r2, out, w3. split; [done|]. intros Hr2. destruct (Hseen Hr2) as (H0 & H1 & _). done. }
  destruct HP as [Hr Hold|Hr Hst|Hall Hst]; (destruct Hget as (r2 & out & w3 & E2 & Hseen);
    [|exists r2, out, w3; split; [done|]; intros Hr2; destruct (Hseen Hr2) as [H0 H1]]).
  - intros _. eapply wifi_readable_ext; [exact Hold|done].
  - left. split; [done|]. by eapply wifi_seen_ext.
  - done.
  - done.
  - intros _. exact (wifi_renewed_readable _ _ _ _ Hok Hb Hrd (stored_new _ _ _ _ Hall)).
  - right. exists (value w2). split; [exact (stored_new _ _ _ _ Hall)|done].
Qed.

(** ** Round trip *)

Lemma array_seen field size s f : 0 < size <= 2048 -> zlen field = size + 1 -> string_in field = Some s ->
  string_seen (array_piece field size) size f -> string_in f = Some s.
Proof.
  intros Hs Hf E [_ ->]. f_equal. pose proof (string_prefix_length _ _ E). apply string_in_cstr in E.
  destruct field as [|c field]; [unfold zlen in Hf; simpl in Hf; lia|]. destruct (decide (c = 0)) as [->|Hc]; [by cbn in E|].
  assert (array_piece (c :: field) size = Some (take (Z.to_nat size) (c :: field))) as -> by (unfold array_piece; by destruct c).
  unfold text_of. rewrite loaded_short by (unfold zlen in *; rewrite length_take; lia).
  rewrite cstr_take by (rewrite E; unfold zlen in *; lia). rewrite E. apply firstn_all2. unfold zlen in *. lia.
Qed.

(** The address that is read is the text that was stored, when it is one. *)
Definition mac_read (text : list Z) (prov out : iot_wifi_prov_data) : Prop :=
  match iot_util_convert_str_mac (Some text) (Some (bssid prov)) with
  | Ret (err, b) => if failed err then no_mac_seen out else string_in (mac_str out) = Some text /\ b = Some (bssid out)
  | _ => False
  end.
Lemma mac_text_seen field text prov out : zlen field = 18 -> string_in field = Some text ->
  mac_seen (array_piece field IOT_WIFI_PROV_MAC_STR_LEN) prov out -> mac_read text prov out.
Proof.
  intros Hf E (_ & _ & Hm). unfold mac_read. pose proof (string_prefix_length _ _ E). apply string_in_cstr in E.
  destruct field as [|c field]; [done|]. destruct (decide (c = 0)) as [->|Hc].
  - cbn in E. subst text. exact Hm.
  - assert (array_piece (c :: field) 17 = Some (take 17 (c :: field))) as Ea by (unfold array_piece; by destruct c).
    unfold IOT_WIFI_PROV_MAC_STR_LEN in Hm. rewrite Ea in Hm.
    assert (length (take 17 (c :: field)) = 17%nat) as Hl by (unfold zlen in Hf; rewrite length_take; lia).
    rewrite loaded_short in Hm by (unfold zlen; lia). unfold zlen in Hm. rewrite Hl in Hm. change (17 <=? Z.of_nat 17) with true in Hm. cbv iota zeta in Hm.
    rewrite take_take in Hm. change (17 `min` 17)%nat with 17%nat in Hm. rewrite cstr_take, E in Hm; [done|]. rewrite E. unfold zlen in *. lia.
Qed.
Definition auth_read (t : Z) : Z := if (t <? IOT_WIFI_AUTH_OPEN) || (IOT_WIFI_AUTH_MAX <? t) then -1 else t.
Lemma auth_piece_seen t out : auth_seen (auth_piece t) out -> security_type out = auth_read t.
Proof.
  unfold auth_piece, auth_read. case_if; [done|]. cbn [auth_seen]. bool_to_prop.
  destruct (auth_text t) as [_ ->]; [done|]. by intros [= ->].
Qed.

Lemma wifi_new_fits m prov : wifi_ok prov -> m IOT_NVD_WIFI_PROV_STATUS = Some (lit "DONE") ->
  (forall id, id ∈ wifi_ids -> m id = wifi_new prov id) -> wifi_fits m.
Proof.
  intros Hok Hs Hm. assert (forall id, id ∈ wifi_ids -> fits WIFI_DATA_SIZE (m id)) as Hf.
  { intros id Hid c Hc. rewrite Hm in Hc by done. pose proof (wifi_new_sizes prov id c Hok Hid Hc) as Hd.
    assert (zlen c <= 64) by (rewrite Hd; repeat case_match; lia). rewrite loaded_short by lia. unfold WIFI_DATA_SIZE, IOT_WIFI_PROV_PASSWORD_STR_LEN. lia. }
  unfold wifi_fits. rewrite Hs. split; [split|].
  - exists (lit "DONE"). done.
  - by intros c [= <-].
  - unfold wifi_ids in Hf. split_and!; apply Hf; set_solver.
Qed.

(** C18: Wi-Fi data that is stored while nothing fails is read back, also after
    a restart: the name, the password and the text of the address are the
    strings that were stored, the six bytes are the address of the text, and
    the security type is the one stored, or -1 when that was no type; both
    calls free what they allocate. *)
Theorem wifi_prov_roundtrip prov prov0 w name pass text :
  wifi_ok prov -> bytes (mac_str prov) -> string_in (ssid prov) = Some name -> string_in (password prov) = Some pass ->
  string_in (mac_str prov) = Some text -> wifi_sizes (value w) -> wifi_ok prov0 -> healthy (nv_below w) ->
  exists w1, iot_nv_set_wifi_prov_data (Some prov) w = Ret (IOT_ERROR_NONE, w1) /\ same_objects w w1 /\
    forall w2, files (nv_below w2) = files (nv_below w1) -> healthy (nv_below w2) ->
    exists out w3, iot_nv_get_wifi_prov_data (Some prov0) w2 = Ret ((IOT_ERROR_NONE, Some out), w3) /\ same_objects w2 w3 /\
      string_in (ssid out) = Some name /\ string_in (password out) = Some pass /\ mac_read text prov0 out /\
      security_type out = auth_read (security_type prov).
Proof.
  intros Hok Hb En Ep Et Hsz Hok0 Hh. destruct (set_wifi_runs prov w Hok) as (r & w1 & E & HP & Hs & Hr). destruct (Hr Hh) as [_ ->].
  exists w1. split; [done|]. split; [done|]. intros w2 Hf Hh2. apply puts_wifi in HP; [|done..]. rewrite <- (same_value w1 w2 Hf) in HP.
  destruct HP as [?|?|Hall Hst]; [done..|]. specialize (Hst eq_refl). assert (~ sick w) as Hns by (intros Hw; by apply Hw).
  pose proof (stored_healthy _ _ _ _ Hns Hall) as Hnew.
  destruct (get_wifi_runs prov0 w2 Hok0) as ([r2 o] & w3 & E2 & out & Ho & _ & _ & Hseen & Hfit).
  { intros _. eapply wifi_readable_ext; [done|by apply wifi_new_readable]. }
  cbn [fst snd] in *. subst o. destruct (Hfit Hh2) as [_ Hr2]. pose proof (Hr2 (wifi_new_fits _ _ Hok Hst Hnew)) as ->.
  destruct (Hseen eq_refl) as (_ & Hw & _ & Hs3). exists out, w3. split; [done|]. split; [done|].
  apply (wifi_seen_ext (wifi_new prov)) in Hw; [|done]. destruct Hw as (H1 & H2 & H3 & H4), Hok as (Z1 & Z2 & Z3 & _).
  split_and!; [by eapply array_seen in H1|by eapply array_seen in H2|by eapply mac_text_seen in H3|by apply auth_piece_seen].
Qed.

(** ** The cloud *)

(** When nothing fails, every piece of the cloud data is written over the
    piece before, and a string that is null is erased. *)
Lemma cloud_stored c url lbl w : points_to w (broker_url c) url -> points_to w (label c) lbl -> healthy (nv_below w) ->
  exists w1, iot_nv_set_cloud_prov_data (Some c) w = Ret (IOT_ERROR_NONE, w1) /\ same_objects w w1 /\ healthy (nv_below w1) /\
    value w1 IOT_NVD_SERVER_URL = result_of (value w IOT_NVD_SERVER_URL) url /\
    value w1 IOT_NVD_SERVER_PORT = result_of (value w IOT_NVD_SERVER_PORT) (Some (number_text (broker_port c))) /\
    value w1 IOT_NVD_LABEL = result_of (value w IOT_NVD_LABEL) lbl /\
    (zlen (default [] (value w IOT_NVD_CLOUD_PROV_STATUS)) <= 4 -> value w1 IOT_NVD_CLOUD_PROV_STATUS = Some (lit "DONE")) /\
    (forall id, nv_id id -> id ∉ (cloud_pieces url (broker_port c) lbl).*1 -> value w1 id = value w id).
Proof.
  intros Hu Hl Hh. destruct (set_cloud_runs c url lbl w Hu Hl) as (r & w1 & E & HP & Hs & Hr). destruct (Hr Hh) as [Hh1 ->].
  exists w1. split; [done|]. split; [done|]. split; [done|].
  assert (~ sick w) as Hns by (intros Hw; by apply Hw).
  pose proof (puts_agree _ _ _ _ _ HP) as Hother.
  apply puts_cons_inv in HP as [(m1 & H1 & HP)|[? _]]; [|done].
  pose proof (settled_written _ _ _ _ (put_inv _ _ _ _ _ H1)) as Hs1. apply put_agrees in H1.
  change [_; _; _; _] with ([(IOT_NVD_SERVER_URL, url); (IOT_NVD_SERVER_PORT, Some (number_text (broker_port c))); (IOT_NVD_LABEL, lbl)] ++
    [(IOT_NVD_CLOUD_PROV_STATUS, Some (lit "DONE"))]) in HP.
  apply puts_app_inv in HP as [[? _]|(m2 & H2 & HP)]; [done|].
  assert (forall id b, (id, b) ∈ [(IOT_NVD_SERVER_URL, url); (IOT_NVD_SERVER_PORT, Some (number_text (broker_port c))); (IOT_NVD_LABEL, lbl)] ->
    nv_id id -> id <> IOT_NVD_CLOUD_PROV_STATUS -> value w1 id = result_of (value w id) b) as Hp.
  { intros id b Hin Hid Hne. rewrite (puts_agree _ _ _ _ _ HP); [|done|cbn; by rewrite list_elem_of_singleton].
    rewrite (settled_healthy _ (m1 id) b (m2 id) Hns); [by rewrite H1|]. eapply (puts_done _ _ _ _ H2); [| |done].
    - by repeat constructor.
    - cbn. repeat constructor; set_solver. }
  split; [apply Hp; done || set_solver|]. split; [apply Hp; done || set_solver|]. split; [apply Hp; done || set_solver|].
  split; [|exact Hother]. intros H4. apply puts_cons_inv in HP as [(m3 & H3 & HP)|[? _]]; [|done]. inversion HP; subst.
  rewrite (settled_written _ _ _ _ (put_inv _ _ _ _ _ H3)), (puts_agree _ _ _ _ _ H2), Hs1 by (done || (cbn; set_solver)).
  cbn [default from_option]. rewrite (written_short _ (lit "NONE")) by done. f_equal. by apply written_short.
Qed.
End prov.
