(* ===== verification/NvLife.v ===== *)
(** * Non-volatile data: from provisioning to the erasure

    [iot_nv_prov_data_exist] says whether there is provisioning data: after
    [iot_nv_set_prov_data], until [iot_nv_erase_prov_data]. *)

From S2P Require Import Prelude Platform UtilQueue Util UtilUrl Heap MqttPacket NvBase NvStore NvData NvSpec NvMap NvPuts NvGet NvProv.

Section life.
Context `{CharModel} `{NC : NvConfig} `{NL : NvLaws}.
#[local] Set Default Proof Using "All".
Abbreviation N := (st nvworld).

(** "DONE" in the first 4 bytes, and no more. *)
Definition done_status (v : option (list Z)) : bool :=
  match v with Some c => (zlen (loaded c) <=? 4) && bool_decide (take 4 (loaded c) = lit "DONE") | None => false end.

Lemma status_done_runs id w : nv_id id ->
  gives (status_done id) w (fun r w' => files (nv_below w') = files (nv_below w) /\ (healthy (nv_below w) -> healthy (nv_below w')) /\
    (r = true -> done_status (value w id) = true) /\ (healthy (nv_below w) -> r = done_status (value w id))).
Proof.
  intros Hid. unfold status_done. apply gives_bind. unfold _iot_nv_read_data. eapply gives_mono; [by apply nv_read_runs|].
  intros [[err d] n] w' (d' & Hd & Hf & Hh & HR & _). cbn [fst snd] in *. subst d.
  assert (healthy (nv_below w) -> healthy (nv_below w')) as Hh' by (intros Hw; by apply Hh).
  destruct HR as [c Hc Hle|Hc|c Hc Hlt|].
  - no_error. apply gives_bind. eapply gives_need; [done|]. unfold is_done.
    assert (length (read_buffer (zeros 5) (loaded c) 4) = 5%nat) as Hl5 by (apply read_buffer_length; change (zlen (zeros 5)) with 5; lia).
    pose proof (take_read_buffer (zeros 5) (loaded c) 4 ltac:(done) ltac:(done) Hle) as Ht.
    eapply gives_need; [apply strncmp_done; rewrite Hl5; lia|]. split; [done|]. split; [done|].
    assert (bool_decide (take 4 (read_buffer (zeros 5) (loaded c) 4) = lit "DONE") = done_status (value w id)) as ->; [|done].
    unfold done_status. rewrite Hc, (proj2 (Z.leb_le _ _) Hle). cbn [andb]. by apply bool_decide_ext.
  - apply gives_ret. split; [done|]. split; [done|]. split; [done|]. intros _. by rewrite Hc.
  - apply gives_ret. split; [done|]. split; [done|]. split; [done|]. intros _. unfold done_status. by rewrite Hc, (proj2 (Z.leb_gt _ _) Hlt).
  - apply gives_ret. split; [done|]. split; [done|]. split; [done|]. intros Hw. by destruct (Hh Hw).
Qed.

(** There is provisioning data when both statuses say so. *)
Definition provisioned (m : nv_map) : bool := done_status (m IOT_NVD_WIFI_PROV_STATUS) && done_status (m IOT_NVD_CLOUD_PROV_STATUS).
Lemma prov_data_exist_runs w :
  gives iot_nv_prov_data_exist w (fun r w' => files (nv_below w') = files (nv_below w) /\ (healthy (nv_below w) -> healthy (nv_below w')) /\
    (r = true -> provisioned (value w) = true) /\ (healthy (nv_below w) -> r = provisioned (value w))).
Proof.
  unfold iot_nv_prov_data_exist. apply gives_bind. eapply gives_mono; [by apply status_done_runs|].
  intros [] w1 (Hf1 & Hh1 & H1 & H2); unfold provisioned.
  - eapply gives_mono; [by apply status_done_runs|]. intros r w2 (Hf2 & Hh2 & H3 & H4).
    rewrite (same_value w w1 Hf1) in *. split; [congruence|]. split; [auto|]. rewrite (H1 eq_refl). split; [exact H3|]. auto.
  - apply gives_ret. split; [done|]. split; [done|]. split; [done|]. intros Hw. by rewrite <- H2.
Qed.

(** The pointers of the data for the cloud. *)
Lemma points_to_same w w' p s : same_objects w w' -> points_to w p s -> points_to w' p s.
Proof.
  intros [] HP. destruct p as [q|], s as [s|]; try done. destruct HP as (d & Hq & Hd). exists d. by rewrite so_blocks.
Qed.

Lemma set_prov_data_runs d url lbl w : wifi_ok (wifi d) -> wifi_sizes (value w) ->
  points_to w (broker_url (cloud d)) url -> points_to w (label (cloud d)) lbl ->
  zlen (default [] (value w IOT_NVD_CLOUD_PROV_STATUS)) <= 4 -> healthy (nv_below w) ->
  gives (iot_nv_set_prov_data (Some d)) w (fun r w' => r = IOT_ERROR_NONE /\ same_objects w w' /\ healthy (nv_below w') /\
    value w' IOT_NVD_WIFI_PROV_STATUS = Some (lit "DONE") /\ value w' IOT_NVD_CLOUD_PROV_STATUS = Some (lit "DONE")).
Proof.
  intros Hok Hsz Hu Hl H4 Hh. cbn [iot_nv_set_prov_data]. apply gives_bind.
  eapply gives_mono; [by apply set_wifi_runs|]. intros r w1 (HP & Hs & Hr). destruct (Hr Hh) as [Hh1 ->]. no_error.
  pose proof (puts_agree _ _ _ _ _ HP IOT_NVD_CLOUD_PROV_STATUS ltac:(done)) as Hc.
  apply puts_wifi in HP as [?|?|_ Hst]; [done..| |done|done]. specialize (Hst eq_refl).
  destruct (cloud_stored (cloud d) url lbl w1) as (w2 & E & Hs2 & Hh2 & _ & _ & _ & Hdone & Hother);
    [by eapply points_to_same|by eapply points_to_same|done|].
  apply gives_bind. exists IOT_ERROR_NONE, w2. split; [exact E|]. no_error. apply gives_ret. split; [done|]. split; [by etrans|]. split; [done|].
  split.
  - rewrite Hother; [done|done|cbn; set_solver].
  - apply Hdone. rewrite Hc; [done|cbn; set_solver].
Qed.

Lemma none_status tail : done_status (Some (lit "NONE" ++ tail)) = false.
Proof. unfold done_status. rewrite (bool_decide_false (take 4 (loaded (lit "NONE" ++ tail)) = lit "DONE")); [apply andb_false_r|]. discriminate. Qed.

Lemma write_none_runs id w : nv_id id ->
  gives (_iot_nv_write_data id (Some (lit "NONE" ++ [0])) 4) w (fun r w' => same_objects w w' /\
    (r = IOT_ERROR_NONE -> done_status (value w' id) = false) /\ agree_but id (value w) (value w') /\
    (healthy (nv_below w) -> healthy (nv_below w') /\ r = IOT_ERROR_NONE)).
Proof.
  intros Hid. unfold _iot_nv_write_data. apply gives_bind. eapply gives_mono; [by apply nv_write_runs|].
  intros [[err d] n] w' (_ & _ & _ & (Ho & Hh & Hw) & Hs). cbn [fst snd] in *. apply gives_ret. split; [done|].
  split; [|split; [by apply only_file_agrees|done]]. intros Hr. unfold value. rewrite (Hw Hr).
  change (take (Z.to_nat 4) (lit "NONE" ++ [0])) with (lit "NONE").
  destruct (law_written (default [] (files (nv_below w) !! file_name id)) (lit "NONE")) as (tail & -> & _). apply none_status.
Qed.

Lemma erase_prov_data_runs w :
  gives iot_nv_erase_prov_data w (fun r w' => same_objects w w' /\ (r = IOT_ERROR_NONE -> provisioned (value w') = false) /\
    (healthy (nv_below w) -> healthy (nv_below w') /\ r = IOT_ERROR_NONE)).
Proof.
  unfold iot_nv_erase_prov_data. cbv zeta. apply gives_bind. eapply gives_mono; [by apply write_none_runs|].
  intros r w1 (Hs1 & H1 & _ & Hh1). destruct (failed r) eqn:Hr.
  { apply gives_ret. apply failed_true in Hr. split; [done|]. split; [done|]. intros Hw. by destruct (Hh1 Hw). }
  apply failed_false in Hr. apply gives_bind. eapply gives_mono; [by apply write_none_runs|].
  intros r2 w2 (Hs2 & H2 & Ha2 & Hh2). apply gives_ret. split; [by etrans|]. destruct (failed r2) eqn:Hr2.
  { apply failed_true in Hr2. split; [done|]. intros Hw. by destruct (Hh2 (proj1 (Hh1 Hw))). }
  split; [|intros Hw; split; [by apply Hh2, Hh1|done]].
  intros _. unfold provisioned. rewrite Ha2 by done. by rewrite H1.
Qed.

(** C17: on a board whose files behave as those of POSIX do ([NvLaws]; those of
    the ESP32 port do not, see [esp32_never_provisioned] and
    [esp32_provisioned]): a call of [iot_nv_set_prov_data] during which nothing
    fails succeeds and frees what it has allocated; from then on, also after
    restarts, [iot_nv_prov_data_exist] says that there is provisioning data when
    nothing fails; an erasure during which nothing fails succeeds, and from then
    on the answer is that there is none, whatever fails.  Conditions: the three
    arrays of the Wi-Fi data have their sizes; the URL and the label are null or
    point to strings that are not empty ([points_to]; an empty label is refused,
    [empty_label_refused]); the pieces there from before are no longer than what
    is written over them, and the status of the cloud data is at most 4 bytes. *)
Theorem prov_data_lifecycle d url lbl w : wifi_ok (wifi d) -> wifi_sizes (value w) ->
  points_to w (broker_url (cloud d)) url -> points_to w (label (cloud d)) lbl ->
  zlen (default [] (value w IOT_NVD_CLOUD_PROV_STATUS)) <= 4 -> healthy (nv_below w) ->
  exists w1, iot_nv_set_prov_data (Some d) w = Ret (IOT_ERROR_NONE, w1) /\ same_objects w w1 /\
    forall w2, files (nv_below w2) = files (nv_below w1) -> healthy (nv_below w2) ->
    (exists w3, iot_nv_prov_data_exist w2 = Ret (true, w3)) /\
    exists w4, iot_nv_erase_prov_data w2 = Ret (IOT_ERROR_NONE, w4) /\ same_objects w2 w4 /\
      forall w5, files (nv_below w5) = files (nv_below w4) -> exists w6, iot_nv_prov_data_exist w5 = Ret (false, w6).
Proof.
  intros Hok Hsz Hu Hl H4 Hh.
  destruct (set_prov_data_runs d url lbl w Hok Hsz Hu Hl H4 Hh) as (r & w1 & E & -> & Hs & Hh1 & V1 & V2). exists w1. split; [done|]. split; [done|].
  intros w2 Hf2 Hh2. split.
  - destruct (prov_data_exist_runs w2) as (r & w3 & E3 & _ & _ & _ & Hr). exists w3. rewrite E3, (Hr Hh2).
    unfold provisioned. by rewrite (same_value w1 w2 Hf2), V1, V2.
  - destruct (erase_prov_data_runs w2) as (r & w4 & E4 & Hs4 & H4' & Hr). destruct (Hr Hh2) as [_ ->]. exists w4. split; [done|]. split; [done|].
    intros w5 Hf5. destruct (prov_data_exist_runs w5) as (r & w6 & E6 & _ & _ & Hr6 & _). exists w6. rewrite E6.
    rewrite (same_value w4 w5 Hf5), (H4' eq_refl) in Hr6. destruct r; [|done]. by specialize (Hr6 eq_refl).
Qed.
End life.
