(* ===== verification/NvSample.v ===== *)
(** * Non-volatile data: a concrete system

    Files on the simulated POSIX system of [NvPosix], at which the theorems on
    non-volatile data apply. *)

From S2P Require Import Prelude Platform UtilQueue Util UtilUrl Heap NvBase NvStore NvData NvSpec NvMap NvPosix NvPuts NvGet NvProv NvLife.

#[export] Instance posix_config : NvConfig := {| stnv_partition := false; os_posix := true; st_root_ca := lit "CERT" |}.
#[export] Instance posix_char : CharModel := true.

(** No object, no file, and nothing fails. *)
Definition calm : sim_posix := SimPx ∅ ∅ 3 None None true true.
Definition nv_start (p : sim_posix) : nvworld := NvWorld posix_below ∅ ∅ ∅ ∅ ∅ None 0 p.

Definition sample_ops : list nv_op :=
  [ReadOp IOT_NVD_MISC_INFO (zeros 8) 8; WriteOp IOT_NVD_MISC_INFO (lit "hello") 5;
   ReadOp IOT_NVD_MISC_INFO (zeros 8) 8; RemoveOp IOT_NVD_MISC_INFO; RemoveOp IOT_NVD_MISC_INFO].

(** Strings in arrays of [n] bytes. *)
Definition padded (n : nat) (s : string) : list Z := take n (lit s ++ zeros n).
Definition home : iot_wifi_prov_data := WifiProv (padded 33 "home") (padded 65 "secret12") (padded 18 "00:11:22:33:44:55") (zeros 6) 3.
Definition cafe : iot_wifi_prov_data := WifiProv (padded 33 "cafe") (padded 65 "") (padded 18 "") (zeros 6) 0.
Lemma home_ok : wifi_ok home.
Proof. done. Qed.
Lemma home_bytes : bytes (mac_str home).
Proof. by repeat constructor. Qed.

(** A state after which [home] is stored. *)
Definition result {A} (o : outcome (A * nvworld)) : nvworld := match o with Ret (_, w) => w | _ => nv_start calm end.
Definition at_home : nvworld := result (iot_nv_set_wifi_prov_data (Some home) (nv_start calm)).

Definition answer {A} (o : outcome (A * nvworld)) : option A := match o with Ret (a, _) => Some a | _ => None end.

Example sample_ops_run : answer (run_ops sample_ops (nv_start calm)) =
  Some [(IOT_ERROR_NV_DATA_NOT_EXIST, Some (zeros 8), None);
        (IOT_ERROR_NONE, Some (lit "hello"), None);
        (IOT_ERROR_NONE, Some (lit "hello" ++ zeros 3), Some 5);
        (IOT_ERROR_NONE, None, None);
        (IOT_ERROR_NV_DATA_NOT_EXIST, None, None)].
Proof. vm_compute. reflexivity. Qed.

Lemma nv_operations_refine_map_witness :
  Forall op_ok sample_ops /\ exists rs w', run_ops sample_ops (nv_start calm) = Ret (rs, w') /\ map_steps (value (nv_start calm)) sample_ops rs (value w').
Proof.
  assert (Forall op_ok sample_ops) as H by (repeat (apply Forall_cons; split; [done|]); by apply Forall_nil).
  split; [exact H|]. destruct (nv_operations_refine_map sample_ops (nv_start calm) H) as (rs & w' & E & HS & _). exists rs, w'. exact (conj E HS).
Defined.

Lemma home_sizes : wifi_sizes (value at_home).
Proof. split_and!; vm_compute; discriminate. Qed.
Lemma home_readable : wifi_readable (value at_home).
Proof.
  split; intros c Hc; vm_compute in Hc; injection Hc as <-.
  - left. vm_compute. discriminate.
  - left. vm_compute. discriminate.
  - by repeat constructor.
  - left. vm_compute. discriminate.
  - vm_compute. discriminate.
Qed.

(** A system on which only some more files can be written, and one on which no
    file can be removed. *)
Definition limited (n : nat) : nvworld := set_below (with_writes (Some n) (nv_below at_home)) at_home.
Definition unremovable : nvworld :=
  set_below (let p := nv_below at_home in SimPx (px_files p) (px_fds p) (px_next p) None None false true) at_home.
Definition work : iot_wifi_prov_data := WifiProv (padded 33 "work") (padded 65 "other") (padded 18 "00:11:22:33:44:66") (zeros 6) 4.

Lemma limited_value n : value (limited n) = value at_home.
Proof. unfold limited. generalize at_home. intros w. apply same_value. by destruct w as [? ? ? ? ? ? ? []]. Qed.

Lemma unremovable_value : value unremovable = value at_home.
Proof. unfold unremovable. generalize at_home. intros w. apply same_value. by destruct w as [? ? ? ? ? ? ? []]. Qed.

(** The network changes: to another one while only three files can be written,
    and to an open one while no file can be removed. *)
Lemma wifi_prov_atomic_witness :
  let atomic prov w := exists r w1, iot_nv_set_wifi_prov_data (Some prov) w = Ret (r, w1) /\
    forall w2, files (nv_below w2) = files (nv_below w1) ->
    exists r2 out w3, iot_nv_get_wifi_prov_data (Some zero_wifi) w2 = Ret ((r2, Some out), w3) /\
      (r2 = IOT_ERROR_NONE ->
         (r <> IOT_ERROR_NONE /\ wifi_seen (value w) zero_wifi out) \/
         exists m', wifi_renewed (sick w) (value w) prov m' /\ wifi_seen m' zero_wifi out) in
  (sick (limited 3) /\ atomic work (limited 3)) /\ (sick unremovable /\ atomic cafe unremovable).
Proof.
  split; split.
  - intros (_ & _ & H & _). discriminate H.
  - apply (wifi_prov_atomic work zero_wifi (limited 3)); [done|by repeat constructor|rewrite limited_value..|done];
      [exact home_sizes|exact home_readable].
  - intros (_ & _ & _ & H & _). discriminate H.
  - apply (wifi_prov_atomic cafe zero_wifi unremovable); [done|by repeat constructor|rewrite unremovable_value..|done];
      [exact home_sizes|exact home_readable].
Defined.

Lemma wifi_prov_roundtrip_witness :
  healthy (nv_below at_home) /\
  exists w1, iot_nv_set_wifi_prov_data (Some work) at_home = Ret (IOT_ERROR_NONE, w1) /\ same_objects at_home w1 /\
    forall w2, files (nv_below w2) = files (nv_below w1) -> healthy (nv_below w2) ->
    exists out w3, iot_nv_get_wifi_prov_data (Some zero_wifi) w2 = Ret ((IOT_ERROR_NONE, Some out), w3) /\ same_objects w2 w3 /\
      string_in (ssid out) = Some (lit "work") /\ string_in (password out) = Some (lit "other") /\
      mac_read (lit "00:11:22:33:44:66") zero_wifi out /\ security_type out = auth_read 4.
Proof.
  assert (healthy (nv_below at_home)) as Hh by by vm_compute.
  split; [exact Hh|]. apply (wifi_prov_roundtrip work zero_wifi at_home (lit "work") (lit "other")).
  - done.
  - by repeat constructor.
  - vm_compute. reflexivity.
  - vm_compute. reflexivity.
  - vm_compute. reflexivity.
  - exact home_sizes.
  - done.
  - exact Hh.
Defined.

(** A URL for the cloud, in the block 0. *)
Definition cloud_at (w : nvworld) (s : list Z) : nvworld := with_blocks (<[0%nat := Some (s ++ [0])]> (nv_blocks w)) w.
Definition a_cloud : iot_cloud_prov_data := CloudProv (Some 0%nat) 8883 None None None.

Lemma prov_data_lifecycle_witness :
  let w := cloud_at (nv_start calm) (lit "ssl://one") in
  healthy (nv_below w) /\
  exists w1, iot_nv_set_prov_data (Some (DeviceProv home a_cloud)) w = Ret (IOT_ERROR_NONE, w1) /\ same_objects w w1 /\
    forall w2, files (nv_below w2) = files (nv_below w1) -> healthy (nv_below w2) ->
    (exists w3, iot_nv_prov_data_exist w2 = Ret (true, w3)) /\
    exists w4, iot_nv_erase_prov_data w2 = Ret (IOT_ERROR_NONE, w4) /\ same_objects w2 w4 /\
      forall w5, files (nv_below w5) = files (nv_below w4) -> exists w6, iot_nv_prov_data_exist w5 = Ret (false, w6).
Proof.
  intros w. assert (healthy (nv_below w)) as Hh by by vm_compute.
  split; [exact Hh|]. apply (prov_data_lifecycle (DeviceProv home a_cloud) (Some (lit "ssl://one")) None w).
  - done.
  - split_and!; vm_compute; discriminate.
  - eexists. split; [vm_compute; reflexivity|]. split; [vm_compute; reflexivity|done].
  - done.
  - vm_compute. discriminate.
  - exact Hh.
Defined.
