(* ===== verification/NvFaults.v ===== *)
(** * Non-volatile data: where the code goes wrong

    Data that is mixed with older data, objects that are left behind, and
    strings without an end, on the simulated system; the file of a port that
    gets shorter on any POSIX system. *)

From S2P Require Import Prelude Platform UtilQueue Util UtilUrl Heap NvBase NvStore NvData NvSpec NvMap NvPosix NvPuts NvGet NvProv NvSample.

Section port.
Context `{CharModel} `{NC : NvConfig} `{PL : PosixLaws}.
#[local] Set Default Proof Using "All".

(** A file is opened without being cut: when the port 443 is stored after the
    port 8883 what is stored is 4433. *)
Theorem stale_port c url lbl w : points_to w (broker_url c) url -> points_to w (label c) lbl -> healthy (nv_below w) ->
  value w IOT_NVD_SERVER_PORT = Some (lit "8883") -> broker_port c = 443 ->
  exists w1, iot_nv_set_cloud_prov_data (Some c) w = Ret (IOT_ERROR_NONE, w1) /\ value w1 IOT_NVD_SERVER_PORT = Some (lit "4433").
Proof.
  intros Hu Hl Hh Hv Hp. destruct (cloud_stored c url lbl w Hu Hl Hh) as (w1 & E & _ & _ & _ & H1 & _).
  exists w1. split; [done|]. rewrite H1, Hv, Hp. done.
Qed.
End port.

(** ** On the simulated system *)

Definition after_home : sim_posix := nv_below at_home.
Definition nv_fault (p : sim_posix) : nvworld := set_below p at_home.

(** The result of an erasure is not looked at: when the file of the password
    cannot be removed, the old password is kept with the new name, and no call
    reports an error. *)
Theorem stale_password :
  let w := nv_fault (SimPx (px_files after_home) (px_fds after_home) (px_next after_home) None None false true) in
  let stored := iot_nv_set_wifi_prov_data (Some cafe) w in
  answer stored = Some IOT_ERROR_NONE /\
  exists out, answer (iot_nv_get_wifi_prov_data (Some zero_wifi) (result stored)) = Some (IOT_ERROR_NONE, Some out) /\
    string_in (ssid out) = Some (lit "cafe") /\ string_in (password out) = Some (lit "secret12").
Proof. split; [vm_compute; reflexivity|]. eexists. split; [vm_compute; reflexivity|]. split; vm_compute; reflexivity. Qed.

Definition set_up : nvworld := result (iot_nv_set_prov_data (Some (DeviceProv home a_cloud)) (cloud_at (nv_start calm) (lit "ssl://one"))).
Definition six_writes (w : nvworld) : nvworld := set_below (with_writes (Some 6%nat) (nv_below w)) w.

(** The status of the cloud data is changed only after the Wi-Fi data is
    stored: when no file can be written from then on the call fails, and the
    device has provisioning data of two kinds. *)
Theorem new_wifi_old_cloud :
  let w := six_writes (cloud_at set_up (lit "ssl://two")) in
  let stored := iot_nv_set_prov_data (Some (DeviceProv work a_cloud)) w in
  answer stored = Some IOT_ERROR_NV_DATA_ERROR /\
  answer (iot_nv_prov_data_exist (result stored)) = Some true /\
  value (result stored) IOT_NVD_SERVER_URL = Some (lit "ssl://one") /\
  exists out, answer (iot_nv_get_wifi_prov_data (Some zero_wifi) (result stored)) = Some (IOT_ERROR_NONE, Some out) /\
    string_in (ssid out) = Some (lit "work").
Proof.
  split; [vm_compute; reflexivity|]. split; [vm_compute; reflexivity|]. split; [vm_compute; reflexivity|].
  eexists. split; vm_compute; reflexivity.
Qed.

(** A label of no characters is not erased: it is refused, after the data has
    been marked as not there. *)
Theorem empty_label_refused :
  let c := CloudProv (Some 0%nat) 8883 None None (Some 1%nat) in
  let w := with_blocks (<[1%nat := Some [0]]> (nv_blocks (cloud_at set_up (lit "ssl://two")))) set_up in
  let stored := iot_nv_set_prov_data (Some (DeviceProv work c)) w in
  answer stored = Some IOT_ERROR_NV_DATA_ERROR /\ answer (iot_nv_prov_data_exist (result stored)) = Some false.
Proof. split; vm_compute; reflexivity. Qed.

Definition undefined {A} (o : outcome A) : bool := match o with Undef => true | _ => false end.

(** A device identifier of 129 bytes is stored; it is then read into a buffer
    of 129 bytes, without an end. *)
Theorem device_id_overread :
  let stored := iot_nv_set_device_id (Some (repeat 65 129)) (nv_start calm) in
  answer stored = Some IOT_ERROR_NONE /\ undefined (iot_nv_get_device_id (result stored)) = true.
Proof. split; vm_compute; reflexivity. Qed.

(** No certificate of the device, as there is no device information: the two
    contexts and the parameters are never freed. *)
Theorem certificate_leaks_context :
  let got := iot_nv_get_certificate IOT_SECURITY_CERT_ID_DEVICE (nv_start calm) in
  answer got = Some (IOT_ERROR_NV_DATA_ERROR, None) /\
  is_Some (live (nv_contexts (result got)) 0) /\ is_Some (live (nv_be_contexts (result got)) 0) /\ is_Some (live (nv_params (result got)) 0).
Proof. split; [vm_compute; reflexivity|]. split_and!; eexists; vm_compute; reflexivity. Qed.

(** Without memory for the buffer the file that has been opened is not closed;
    when the file cannot be closed the buffer is not freed. *)
Theorem load_leaks :
  let no_memory := nv_fault (with_allocs (Some 3%nat) after_home) in
  let no_close := nv_fault (SimPx (px_files after_home) (px_fds after_home) (px_next after_home) None None true false) in
  let read w := _iot_nv_read_data IOT_NVD_AP_SSID (Some (zeros 40)) 40 w in
  answer (read no_memory) = Some (IOT_ERROR_NV_DATA_ERROR, Some (zeros 40), None) /\
  is_Some (px_fds (nv_below (result (read no_memory))) !! px_next after_home) /\
  answer (read no_close) = Some (IOT_ERROR_NV_DATA_ERROR, Some (zeros 40), None) /\
  exists a l, live (nv_blocks no_close) a = None /\ live (nv_blocks (result (read no_close))) a = Some l.
Proof.
  split; [vm_compute; reflexivity|]. split; [eexists; vm_compute; reflexivity|]. split; [vm_compute; reflexivity|].
  exists 2%nat. eexists. split; vm_compute; reflexivity.
Qed.
