(* ===== verification/NvEsp.v ===== *)
(** * Non-volatile data: the port for the ESP32

    [port/bsp/esp32/iot_bsp_fs_esp32.c], over the key-value store of the chip
    (NVS).  The store keeps strings, and says that the length of a string
    includes its terminator; [iot_nv_prov_data_exist] cannot work with that. *)

From S2P Require Import Prelude Platform UtilQueue Util UtilUrl Heap MqttPacket NvBase NvStore NvData NvSpec NvMap NvPosix NvPuts NvGet.

Definition IOT_ERROR_FS_ENCRYPT_INIT : Z := -22.
Definition STDK_NV_DATA_PARTITION : list Z := lit "stnv".
Definition STDK_NV_DATA_NAMESPACE : list Z := lit "stdk".

(** ** The store

    The calls of NVS and of the encryption of the flash, and their error codes.
    [nvs_get_size] is [nvs_get_str] without a buffer; [nvs_get_str] gives what
    is in the buffer, with the terminator; [nvs_open] is asked to write, or not;
    a key of the flash is what [esp_partition_find_first] finds. *)
Class Nvs := {
  nvs : Type;
  ESP_OK : Z;
  ESP_ERR_NVS_NOT_FOUND : Z;
  ESP_ERR_NVS_KEYS_NOT_INITIALIZED : Z;
  nvs_malloc : Z -> nvs -> option (list Z) * nvs;
  nvs_open : list Z -> bool -> nvs -> (Z * Z) * nvs;
  nvs_open_from_partition : list Z -> list Z -> bool -> nvs -> (Z * Z) * nvs;
  nvs_get_size : Z -> list Z -> nvs -> (Z * Z) * nvs;
  nvs_get_str : Z -> list Z -> Z -> nvs -> (Z * list Z) * nvs;
  nvs_set_str : Z -> list Z -> list Z -> nvs -> Z * nvs;
  nvs_erase_key : Z -> list Z -> nvs -> Z * nvs;
  nvs_close : Z -> nvs -> nvs;

  nvs_encryption : bool;
  nvs_sec_cfg_t : Type;
  nvs_key_partition : Type;
  esp_flash_encryption_enabled : nvs -> bool;
  esp_partition_find_first : nvs -> option nvs_key_partition;
  nvs_flash_read_security_cfg : nvs_key_partition -> nvs -> (Z * nvs_sec_cfg_t) * nvs;
  nvs_flash_generate_keys : nvs_key_partition -> nvs -> (Z * nvs_sec_cfg_t) * nvs;
  nvs_flash_init : nvs -> Z * nvs;
  nvs_flash_init_partition : list Z -> nvs -> Z * nvs;
  nvs_flash_secure_init : nvs_sec_cfg_t -> nvs -> Z * nvs;
  nvs_flash_secure_init_partition : list Z -> nvs_sec_cfg_t -> nvs -> Z * nvs;
  nvs_flash_deinit_partition : list Z -> nvs -> Z * nvs;

  nvs_json : Type;
  nvs_json_parse : list Z -> nvs -> option nvs_json * nvs;
  nvs_json_item : nvs_json -> list Z -> option nvs_json;
  nvs_json_text : nvs_json -> option (list Z)
}.

Section esp32.
Context `{NC : NvConfig} `{NV : Nvs}.

(** The error, and the configuration when there is none. *)
Definition _iot_bsp_fs_get_secure_config (p : nvs) : (Z * option nvs_sec_cfg_t) * nvs :=
  if negb (esp_flash_encryption_enabled p) then ((IOT_ERROR_FS_ENCRYPT_INIT, None), p)
  else
    match esp_partition_find_first p with
    | None => ((IOT_ERROR_FS_ENCRYPT_INIT, None), p)
    | Some key_partition =>
        let '((ret, cfg), p) := nvs_flash_read_security_cfg key_partition p in
        if ret =? ESP_ERR_NVS_KEYS_NOT_INITIALIZED then
          let '((ret, cfg), p) := nvs_flash_generate_keys key_partition p in
          if negb (ret =? ESP_OK) then ((IOT_ERROR_FS_ENCRYPT_INIT, None), p) else ((IOT_ERROR_NONE, Some cfg), p)
        else ((IOT_ERROR_NONE, Some cfg), p)
    end.

(** The second partition, when the first is ready. *)
Definition esp32_then (ret : Z) (init : nvs -> Z * nvs) (p : nvs) : Z * nvs :=
  if negb (ret =? ESP_OK) then (IOT_ERROR_INIT_FAIL, p)
  else if stnv_partition then
    let '(ret, p) := init p in (if negb (ret =? ESP_OK) then IOT_ERROR_INIT_FAIL else IOT_ERROR_NONE, p)
  else (IOT_ERROR_NONE, p).
Definition esp32_fs_init (p : nvs) : Z * nvs :=
  if nvs_encryption then
    match _iot_bsp_fs_get_secure_config p with
    | ((_, Some cfg), p) =>
        let '(ret, p) := nvs_flash_secure_init cfg p in
        esp32_then ret (nvs_flash_secure_init_partition STDK_NV_DATA_PARTITION cfg) p
    | ((_, None), p) => (IOT_ERROR_INIT_FAIL, p)
    end
  else let '(ret, p) := nvs_flash_init p in esp32_then ret (nvs_flash_init_partition STDK_NV_DATA_PARTITION) p.

Definition esp32_fs_deinit (p : nvs) : Z * nvs :=
  if stnv_partition then
    let '(ret, p) := nvs_flash_deinit_partition STDK_NV_DATA_PARTITION p in
    (if negb (ret =? ESP_OK) then IOT_ERROR_DEINIT_FAIL else IOT_ERROR_NONE, p)
  else (IOT_ERROR_NONE, p).

(** A handle that is not set is not used. *)
Definition esp32_opened (ret handle : Z) (name : list Z) : Z * posix_handle :=
  if ret =? ESP_OK then (IOT_ERROR_NONE, PosixHandle handle (take 127 name)) else (IOT_ERROR_FS_OPEN_FAIL, PosixHandle 0 []).
Definition esp32_fs_open (name : list Z) (mode : iot_bsp_fs_open_mode_t) (p : nvs) : (Z * posix_handle) * nvs :=
  let '((ret, handle), p) := nvs_open STDK_NV_DATA_NAMESPACE (bool_decide (mode <> FS_READONLY)) p in
  (esp32_opened ret handle name, p).
Definition esp32_fs_open_from_stnv (name : list Z) (p : nvs) : (Z * posix_handle) * nvs :=
  let '((ret, handle), p) := nvs_open_from_partition STDK_NV_DATA_PARTITION STDK_NV_DATA_NAMESPACE false p in
  (esp32_opened ret handle name, p).

(** The string in new memory, then in [buffer], which has [length] bytes; when
    there is no memory the second call asks for the size again, and the string
    is copied from null. *)
Definition esp32_fs_read (handle : posix_handle) (length : Z) (p : nvs) : outcome ((Z * list Z) * nvs) :=
  let '((ret, required_size), p) := nvs_get_size (fd handle) (filename handle) p in
  if ret =? ESP_ERR_NVS_NOT_FOUND then Ret ((IOT_ERROR_FS_NO_FILE, []), p)
  else if negb (ret =? ESP_OK) then Ret ((IOT_ERROR_FS_READ_FAIL, []), p)
  else
    match nvs_malloc required_size p with
    | (Some _, p) =>
        let '((ret, data), p) := nvs_get_str (fd handle) (filename handle) required_size p in
        if negb (ret =? ESP_OK) || (length <? zlen data) then Ret ((IOT_ERROR_FS_READ_FAIL, []), p)
        else Ret ((IOT_ERROR_NONE, data), p)
    | (None, p) =>
        let '((ret, required_size), p) := nvs_get_size (fd handle) (filename handle) p in
        if negb (ret =? ESP_OK) || (length <? required_size) then Ret ((IOT_ERROR_FS_READ_FAIL, []), p) else Undef
    end.

(** The length is not used: the string in the memory at [data]. *)
Definition esp32_fs_write (handle : posix_handle) (data : list Z) (length : Z) (p : nvs) : outcome (Z * nvs) :=
  match string_in data with
  | Some s =>
      let '(ret, p) := nvs_set_str (fd handle) (filename handle) s p in
      Ret (if negb (ret =? ESP_OK) then IOT_ERROR_FS_WRITE_FAIL else IOT_ERROR_NONE, p)
  | None => Undef
  end.

Definition esp32_fs_close (handle : posix_handle) (p : nvs) : Z * nvs := (IOT_ERROR_NONE, nvs_close (fd handle) p).

Definition esp32_fs_remove (name : list Z) (p : nvs) : Z * nvs :=
  let '((ret, handle), p) := nvs_open STDK_NV_DATA_NAMESPACE true p in
  if negb (ret =? ESP_OK) then (IOT_ERROR_FS_REMOVE_FAIL, p)
  else
    let '(ret, p) := nvs_erase_key handle name p in
    let p := nvs_close handle p in
    (if negb (ret =? ESP_OK) then
       (if ret =? ESP_ERR_NVS_NOT_FOUND then IOT_ERROR_FS_NO_FILE else IOT_ERROR_FS_REMOVE_FAIL)
     else IOT_ERROR_NONE, p).

(** The same table as for POSIX. *)
Definition esp32_nv_get_data_path (nv_type : Z) : option (list Z) :=
  if (nv_type <? 0) || (IOT_NVD_MAX <? nv_type) then None
  else match find (fun x => nv_type =? x.1) posix_data_paths with Some x => Some (lit x.2) | None => None end.
End esp32.

#[export] Instance esp32_below `{NC : NvConfig} `{NV : Nvs} : NvBelow | 0 := {
  nv_env := nvs;
  nv_malloc := nvs_malloc;
  nv_malloc_object p := match nvs_malloc 1 p with (Some _, p) => (true, p) | (None, p) => (false, p) end;
  nv_realloc := nvs_malloc;
  iot_bsp_fs_handle_t := posix_handle;
  iot_bsp_fs_init := esp32_fs_init;
  iot_bsp_fs_deinit := esp32_fs_deinit;
  iot_bsp_fs_open := esp32_fs_open;
  iot_bsp_fs_open_from_stnv := esp32_fs_open_from_stnv;
  iot_bsp_fs_read := esp32_fs_read;
  iot_bsp_fs_write := esp32_fs_write;
  iot_bsp_fs_close := esp32_fs_close;
  iot_bsp_fs_remove := esp32_fs_remove;
  iot_bsp_nv_get_data_path := esp32_nv_get_data_path;
  nv_json := nvs_json;
  nv_json_parse := nvs_json_parse;
  nv_json_item := nvs_json_item;
  nv_json_text := nvs_json_text
}.

(** ** What the store promises *)

(** The strings by their keys, and the handles that are open. *)
Class NvsStrings `{NV : Nvs} := {
  nvs_strings : nvs -> gmap (list Z) (list Z);
  nvs_opened : nvs -> Z -> bool
}.
(** A string has no terminator in it, and its size is that with the
    terminator; there is memory. *)
Class NvsLaws `{NS : NvsStrings} : Prop := {
  nvs_not_found_law : ESP_ERR_NVS_NOT_FOUND <> ESP_OK;
  nvs_string_law : forall p k s, nvs_strings p !! k = Some s -> 0 ∉ s;
  nvs_malloc_law : forall n p d p', nvs_malloc n p = (d, p') ->
    nvs_strings p' = nvs_strings p /\ (forall h, nvs_opened p' h = nvs_opened p h) /\
    exists l, d = Some l /\ (0 <= n -> zlen l = n);
  nvs_open_law : forall name rw p ret h p', nvs_open name rw p = ((ret, h), p') ->
    nvs_strings p' = nvs_strings p /\ (ret = ESP_OK -> nvs_opened p' h = true);
  nvs_get_size_law : forall h k p ret n p', nvs_get_size h k p = ((ret, n), p') -> nvs_opened p h = true ->
    nvs_strings p' = nvs_strings p /\ nvs_opened p' h = true /\
    (ret = ESP_ERR_NVS_NOT_FOUND -> nvs_strings p !! k = None) /\
    (ret = ESP_OK -> exists s, nvs_strings p !! k = Some s /\ n = zlen s + 1);
  nvs_get_str_law : forall h k n p ret b p', nvs_get_str h k n p = ((ret, b), p') -> nvs_opened p h = true ->
    nvs_strings p' = nvs_strings p /\ (ret = ESP_OK -> exists s, nvs_strings p !! k = Some s /\ b = s ++ [0]);
  nvs_close_law : forall h p, nvs_strings (nvs_close h p) = nvs_strings p
}.

(** What a file of the port contains: a string with its terminator.  Nothing is
    said about when no call fails. *)
#[export] Instance esp32_files `{NC : NvConfig} `{NS : NvsStrings} : NvFiles (NB := esp32_below) | 0 := {
  files p := (fun s => s ++ [0]) <$> nvs_strings p;
  opened p h := if nvs_opened p (fd h) then Some (filename h) else None;
  written _ data := data;
  healthy _ := False
}.

Section laws.
Context `{NC : NvConfig} `{NL : NvsLaws}.
#[local] Set Default Proof Using "Type*".

Lemma nvs_quiet n p d p' : nvs_malloc n p = (d, p') -> quiet p p'.
Proof.
  intros (Hs & Ho & _)%nvs_malloc_law. split; [cbn; by rewrite Hs|]. split; [|done]. intros h. cbn. by rewrite Ho.
Qed.

Lemma esp32_read h n name p : opened p h = Some name -> 0 <= n ->
  exists r b p', esp32_fs_read h n p = Ret ((r, b), p') /\ files p' = files p /\
    (r = IOT_ERROR_NONE -> exists c, files p !! name = Some c /\ b = take (Z.to_nat n) c) /\
    (r = IOT_ERROR_FS_NO_FILE -> files p !! name = None).
Proof.
  cbn. destruct (nvs_opened p (fd h)) eqn:Ho; [|done]. intros [= <-] Hn. unfold esp32_fs_read.
  destruct (nvs_get_size (fd h) (filename h) p) as [[ret n1] p1] eqn:E1. apply nvs_get_size_law in E1 as (Hs1 & Ho1 & Hno & Hsz); [|done].
  destruct (Z.eqb_spec ret ESP_ERR_NVS_NOT_FOUND) as [Hr|Hr].
  { eexists _, _, _. split; [done|]. split; [by rewrite Hs1|]. split; [done|]. intros _. by rewrite lookup_fmap, Hno. }
  destruct (Z.eqb_spec ret ESP_OK) as [->|Hr2]; cbn [negb].
  2:{ eexists _, _, _. split; [done|]. split; [by rewrite Hs1|]. done. }
  destruct (nvs_malloc n1 p1) as [d p2] eqn:E2. apply nvs_malloc_law in E2 as (Hs2 & Ho2 & l & -> & _).
  destruct (nvs_get_str (fd h) (filename h) n1 p2) as [[ret2 b] p3] eqn:E3. apply nvs_get_str_law in E3 as (Hs3 & Hb); [|by rewrite Ho2].
  assert ((fun s => s ++ [0]) <$> nvs_strings p3 = (fun s => s ++ [0]) <$> nvs_strings p) as Hf by congruence.
  destruct (Z.eqb_spec ret2 ESP_OK) as [->|Hr2]; cbn [negb orb]; [|by eexists _, _, _].
  destruct (Z.ltb_spec n (zlen b)); [by eexists _, _, _|]. eexists _, _, _. split; [done|]. split; [done|]. split; [|done].
  intros _. destruct (Hb eq_refl) as (s & Hk & ->). exists (s ++ [0]). rewrite lookup_fmap. rewrite Hs2, Hs1 in Hk. rewrite Hk. split; [done|].
  symmetry. apply firstn_all2. unfold zlen in *. lia.
Qed.

#[export] Instance esp32_reads : NvReads.
Proof.
  split.
  - intros n p d p' E. split; [by eapply nvs_quiet|]. split; [|done]. intros l -> Hn.
    apply nvs_malloc_law in E as (_ & _ & l' & [= <-] & Hl). auto.
  - intros p ok p' E. cbn in E. destruct (nvs_malloc 1 p) as [d p1] eqn:Em. assert (p' = p1) as -> by by destruct d; injection E.
    split; [by eapply nvs_quiet|done].
  - intros n p d p' E. split; [by eapply nvs_quiet|]. split; [|done]. intros l -> Hn.
    apply nvs_malloc_law in E as (_ & _ & l' & [= <-] & Hl). auto.
  - intros name p r h p' Hn E. cbn in E. unfold esp32_fs_open in E.
    destruct (nvs_open STDK_NV_DATA_NAMESPACE (bool_decide (FS_READONLY <> FS_READONLY)) p) as [[ret d] p1] eqn:Eo.
    apply nvs_open_law in Eo as (Hs & Ho). unfold esp32_opened in E. split; [|split; [|split; [|done]]].
    + destruct (ret =? ESP_OK); injection E as <- <- <-; cbn; by rewrite Hs.
    + destruct (Z.eqb_spec ret ESP_OK); injection E as <- <- <-; [|done]. intros _. cbn. rewrite Ho by done. f_equal.
      apply firstn_all2. unfold zlen, IOT_SECURITY_STORAGE_FILENAME_MAX_LEN in Hn. lia.
    + destruct (ret =? ESP_OK); injection E as <- <- <-; done.
  - intros h n name p Ho Hn. destruct (esp32_read h n name p Ho Hn) as (r & b & p' & E & H1 & H2 & H3). exists r, b, p'. done.
  - intros h p r p' E. cbn in E. unfold esp32_fs_close in E. injection E as <- <-. cbn. by rewrite nvs_close_law.
  - apply posix_paths.
  - apply posix_paths_inj.
Qed.

(** ** Provisioning data on this port *)

(** A string of less than 4 bytes, with its terminator, in the array. *)
Lemma short_not_done s : 0 ∉ s -> zlen s < 4 -> take 4 (read_buffer (zeros 5) (s ++ [0]) 4) <> lit "DONE".
Proof.
  intros Hs Hl E. apply (f_equal (fun l => l !! length s)) in E. unfold zlen in Hl. rewrite lookup_take_lt in E by lia.
  assert (read_buffer (zeros 5) (s ++ [0]) 4 !! length s = Some 0) as E0.
  { unfold read_buffer. assert (overwrite (zeros 5) 0 (s ++ [0]) !! length s = Some 0) as E1.
    { unfold overwrite. rewrite take_0, app_nil_l, lookup_app_l by (rewrite length_app; simpl; lia). by rewrite lookup_app_r, Nat.sub_diag by lia. }
    case_if; [|done]. unfold overwrite at 1. rewrite lookup_app_l.
    - rewrite lookup_take_lt; [done|]. unfold zlen. rewrite length_app. simpl. lia.
    - rewrite length_take. apply Nat.min_glb_lt; [unfold zlen; rewrite length_app; simpl; lia|]. by apply lookup_lt_Some in E1. }
  rewrite E0 in E. clear -E Hl. change (lit "DONE") with [68; 79; 78; 69] in E. by destruct (length s) as [|[|[|[|k]]]]; [..|lia].
Qed.

Lemma esp32_status_done `{CharModel} id w : nv_id id -> gives (status_done id) w (fun r _ => r = false).
Proof.
  intros Hid. unfold status_done. apply gives_bind. unfold _iot_nv_read_data. eapply gives_mono; [by apply nv_read_runs|].
  intros [[err d] n] w' (d' & Hd & _ & _ & HR & _). cbn [fst snd] in *. subst d.
  destruct HR as [c Hc Hle|Hc|c Hc Hlt|]; [|by apply gives_ret..].
  unfold value in Hc. cbn [files esp32_files] in Hc. rewrite lookup_fmap in Hc.
  destruct (nvs_strings (nv_below w) !! file_name id) as [s|] eqn:Es; [|done]. injection Hc as <-. apply nvs_string_law in Es.
  assert (zlen s < 2048) as Hs.
  { destruct (Z.lt_ge_cases (zlen s) 2048) as [?|Hge]; [done|]. exfalso. unfold loaded, IOT_SECURITY_STORAGE_BUF_MAX_LEN, zlen in Hle.
    rewrite length_take, length_app in Hle. unfold zlen in Hge. change (length [0]) with 1%nat in Hle. lia. }
  assert (loaded (s ++ [0]) = s ++ [0]) as El.
  { unfold loaded, IOT_SECURITY_STORAGE_BUF_MAX_LEN. apply firstn_all2. unfold zlen in Hs. rewrite length_app. simpl. lia. }
  rewrite El in *. rewrite zlen_app, zlen_cons, zlen_nil in Hle. no_error. apply gives_bind. eapply gives_need; [done|]. unfold is_done.
  assert (take 4 (read_buffer (zeros 5) (s ++ [0]) 4) <> lit "DONE") as Hn by (apply short_not_done; [done|lia]).
  eapply gives_need; [rewrite strncmp_done; [reflexivity|]|by apply bool_decide_false].
  rewrite read_buffer_length; [simpl; lia|]. rewrite zlen_app, zlen_cons, zlen_nil. change (zlen (zeros 5)) with 5. lia.
Qed.

(** C2: On the ESP32 port the device never counts as provisioned: whatever the
    store holds and whatever of its calls fail, [iot_nv_prov_data_exist] returns
    and says no, also right after [iot_nv_set_prov_data] has succeeded
    ([esp32_provisioned]).  The length of a string that NVS reads includes its
    terminator, so that the status "DONE" is 5 bytes; the call has room for 4
    and takes the read for failed; and a status that fits is not "DONE".  Of NVS
    this uses that its strings have no terminator inside and that their sizes
    count it, and of the allocator that it has memory ([NvsLaws]). *)
Theorem esp32_never_provisioned {CM : CharModel} w : exists w', iot_nv_prov_data_exist w = Ret (false, w').
Proof.
  assert (gives iot_nv_prov_data_exist w (fun r _ => r = false)) as (r & w' & E & ->); [|by exists w'].
  unfold iot_nv_prov_data_exist. apply gives_bind. eapply gives_mono; [by apply esp32_status_done|]. intros ? w' ->. by apply gives_ret.
Qed.

End laws.

(** Without memory a string is copied from a null pointer. *)
Theorem esp32_read_without_memory `{NC : NvConfig} `{NV : Nvs} h n p p1 p2 p3 size :
  nvs_get_size (fd h) (filename h) p = ((ESP_OK, size), p1) -> ESP_OK <> ESP_ERR_NVS_NOT_FOUND ->
  nvs_malloc size p1 = (None, p2) -> nvs_get_size (fd h) (filename h) p2 = ((ESP_OK, size), p3) -> size <= n ->
  esp32_fs_read h n p = Undef.
Proof.
  intros E1 Hne E2 E3 Hn. unfold esp32_fs_read. rewrite E1, (proj2 (Z.eqb_neq _ _) Hne), Z.eqb_refl, E2, E3, Z.eqb_refl.
  cbn [negb orb]. by rewrite (proj2 (Z.ltb_ge n size)) by lia.
Qed.

(** ** A simulated store

    Strings by their keys; everything works. *)
#[export] Instance SimNvs : Nvs := {
  nvs := gmap (list Z) (list Z);
  ESP_OK := 0;
  ESP_ERR_NVS_NOT_FOUND := 4354;
  ESP_ERR_NVS_KEYS_NOT_INITIALIZED := 4374;
  nvs_malloc n p := (Some (replicate (Z.to_nat n) 170), p);
  nvs_open _ _ p := ((0, 1), p);
  nvs_open_from_partition _ _ _ p := ((0, 2), p);
  nvs_get_size _ k p := (match p !! k with Some s => (0, zlen (cstr s) + 1) | None => (4354, 0) end, p);
  nvs_get_str _ k _ p := (match p !! k with Some s => (0, cstr s ++ [0]) | None => (4354, []) end, p);
  nvs_set_str _ k s p := (0, <[k := s]> p);
  nvs_erase_key _ k p := (if bool_decide (is_Some (p !! k)) then 0 else 4354, delete k p);
  nvs_close _ p := p;
  nvs_encryption := false;
  nvs_sec_cfg_t := unit;
  nvs_key_partition := unit;
  esp_flash_encryption_enabled _ := true;
  esp_partition_find_first _ := Some tt;
  nvs_flash_read_security_cfg _ p := ((0, tt), p);
  nvs_flash_generate_keys _ p := ((0, tt), p);
  nvs_flash_init p := (0, p);
  nvs_flash_init_partition _ p := (0, p);
  nvs_flash_secure_init _ p := (0, p);
  nvs_flash_secure_init_partition _ _ p := (0, p);
  nvs_flash_deinit_partition _ p := (0, p);
  nvs_json := sim_json;
  nvs_json_parse _ p := (Some sim_device_info, p);
  nvs_json_item := sim_json_item;
  nvs_json_text j := match j with SimText s => Some s | _ => None end
}.

#[export] Instance SimNvsStrings : NvsStrings := {
  nvs_strings p := cstr <$> p;
  nvs_opened _ _ := true
}.
#[export] Instance SimNvsLaws : NvsLaws.
Proof.
  split.
  - done.
  - intros p k s. change (nvs_strings p) with (cstr <$> (p : gmap (list Z) (list Z))). rewrite lookup_fmap. intros (t & _ & ->)%fmap_Some. intros Hin.
    by apply (proj1 (Forall_forall _ _) (cstr_nonzero t) 0 Hin).
  - intros n p d p' [= <- <-]. split; [done|]. split; [done|]. eexists. split; [done|]. intros Hn. unfold zlen. rewrite length_replicate. lia.
  - intros name rw p ret h p' [= <- <- <-]. done.
  - intros h k p ret n p'. change (nvs_strings p) with (cstr <$> (p : gmap (list Z) (list Z))). rewrite lookup_fmap. cbn.
    destruct ((p : gmap (list Z) (list Z)) !! k) as [s|]; intros [= <- <- <-] _; (split; [done|]); (split; [done|]); split; try done. intros _. by exists (cstr s).
  - intros h k n p ret b p'. change (nvs_strings p) with (cstr <$> (p : gmap (list Z) (list Z))). rewrite lookup_fmap. cbn.
    destruct ((p : gmap (list Z) (list Z)) !! k) as [s|]; intros [= <- <- <-] _; (split; [done|]); [|done]. intros _. by exists (cstr s).
  - done.
Qed.

Section example.
#[local] Instance esp32_config : NvConfig := {| stnv_partition := true; os_posix := false; st_root_ca := [] |}.
#[local] Instance esp32_char : CharModel := false.
Definition esp32_start : nvworld := NvWorld esp32_below ∅ ∅ ∅ {[0%nat := Some (lit "ssl://one" ++ [0])]} ∅ None 0 (∅ : gmap (list Z) (list Z)).
Definition esp32_home : iot_device_prov_data :=
  DeviceProv (WifiProv (lit "home" ++ zeros 29) (zeros 65) (zeros 18) (zeros 6) 3) (CloudProv (Some 0%nat) 8883 None None None).

(** The data is stored and can be read, and does not exist. *)
Theorem esp32_provisioned :
  match iot_nv_set_prov_data (Some esp32_home) esp32_start with
  | Ret (ret, w) =>
      ret = IOT_ERROR_NONE /\ value w IOT_NVD_CLOUD_PROV_STATUS = Some (lit "DONE" ++ [0]) /\
      match iot_nv_get_prov_data (Some esp32_home) w with Ret ((ret, _), _) => ret = IOT_ERROR_NONE | _ => False end /\
      match iot_nv_prov_data_exist w with Ret (found, _) => found = false | _ => False end
  | _ => False
  end.
Proof. vm_compute. done. Qed.

Lemma esp32_never_provisioned_witness :
  exists ret w, iot_nv_set_prov_data (Some esp32_home) esp32_start = Ret (ret, w) /\ ret = IOT_ERROR_NONE /\
    exists w', iot_nv_prov_data_exist w = Ret (false, w').
Proof.
  pose proof esp32_provisioned as H. destruct (iot_nv_set_prov_data (Some esp32_home) esp32_start) as [[ret w]| |]; [|done..].
  exists ret, w. split; [reflexivity|]. split; [exact (proj1 H)|]. exact (esp32_never_provisioned (CM := esp32_char) w).
Defined.
End example.
